(* ===== verification/_CoqProject ===== *)
-Q . S2P
Prelude.v
GoMonad.v
GoStrings.v
GoPaths.v
Features.v
Password.v
KubeTypes.v
ApiTypes.v
GoHeap.v
ApiShapes.v
DeepCopy.v
SplitReplicas.v
SplitDeal.v
ApiErrors.v
Metrics.v
Startup.v
ScaleLock.v
ScaleHelper.v
ScaleViewWebhooks.v
ScaleViewManager.v
RisingWaveWebhook.v
RisingWaveManager.v
Workloads.v
ManagerState.v
WorkloadSync.v
WorkloadConvergence.v
ManagerImpl.v
EventRecorder.v
ManagerActions.v
CtrlKit.v
ScaleViewController.v
ScaleViewConvergence.v
RisingWaveController.v
ActionEffects.v
RisingWaveReconcile.v
Settled.v
Watches.v
Interleaving.v
BinaryHeap.v
EnvSort.v
FactoryBase.v
FactoryEnvs.v
FactoryPods.v
FactoryObjects.v
FactorySpec.v
FactoryPodSpec.v
FactoryWorkloads.v
FactoryServices.v
Pods.v
ComputeUpdate.v
MetaRole.v
MetaRoleSpec.v
MetaRoleFactory.v
ApiUser.v
Acl.v
SqlBuilder.v
PrivilegeDiff.v
UserWebhook.v
UserState.v
UserPrivileges.v
UserReconcile.v
Pool.v
