(* ===== verification/Prelude.v ===== *)
(** * A verification development for the RisingWave operator

    The operator reconciles three kinds of Kubernetes objects: RisingWave (a streaming
    database cluster: meta, frontend, compute and compactor node groups), RisingWaveScaleView
    (a handle that lets an autoscaler own the replicas of some node groups) and
    RisingWaveUser (a database user with its grants); two smaller controllers label the meta
    pods with their role and restart outdated compute pods. The development is a shallow
    embedding of the Go code of these parts: one definition per function, with the
    names of the source; [int32] and [int64] arithmetic wraps around; a nil dereference, an
    index out of range or an explicit panic is the [Panic] of [outcome]; a Go [error] is a
    value. Everything outside the repository is an argument: the replies of the API
    server, the rows and errors of the database, the clock, random bytes, the order in which
    a Go map is ranged over ([RangeOrder]), third-party predicates (image references,
    DNS-1123 names, resource quantities).

    ** The parts and their files

    Shared ground. [Prelude]: integers, [outcome] and [result] with their monads, the
    order of map ranges, list lemmas. [GoMonad]: operations on a state that may panic, with
    their rules. [GoStrings], [GoPaths]: the functions of [strings], [fmt], [sort], [strconv]
    and [path] the code calls. [ApiErrors]: field errors and API errors as data. [ApiTypes],
    [ApiUser]: the structs of [apis/risingwave/v1alpha1].
    - [GoHeap], [ApiShapes], [DeepCopy] (zz_generated.deepcopy.go): pointers, slices and maps in a
      store, the structs as shapes over it, and every generated copy. Here aliasing is modelled;
      in all other files values are immutable, which [DeepCopy_independent] justifies where the
      code works on a copy.
    - [Features] (pkg/features): the switches of the operator and the flag that sets them.
    - [Password] (pkg/utils/password.go, rand.go): the random source is the class [RandReader].
    - [Metrics] (pkg/metrics): the recorders around webhooks and controllers; the registry of
      Prometheus is the class [Registry].
    - [Startup] (cmd/manager/manager.go, pkg/webhook/webhook.go): [main] as a program that makes
      calls ([boot_call]) of the controller runtime (class [Runtime]), and may exit or panic.

    Scale views. A scale view takes a lock, kept in [status.scaleViews] of the RisingWave,
    on the groups it scales; the controller of the scale view grabs or refreshes the lock
    and copies the locked replicas into the spec of the RisingWave; the webhooks keep users
    from changing locked replicas.
    - [SplitReplicas] (pkg/object/scaleview/split.go): the distribution of the replicas
      over the groups. Its result is compared with a specification ([fill], [fills]).
      [SplitDeal]: the same against a reference that deals the replicas one at a time.
    - [ScaleLock] (pkg/object/scale_view_lock_manager.go): the lock manager; the locks are
      the state, grab, update and release the operations ([lock_step]).
    - [ScaleHelper] (pkg/scaleview/scale_view_helper.go): reading and writing replicas.
    - [ScaleViewWebhooks] (pkg/webhook/risingwave_scale_view_*.go).
    - [ScaleViewManager] (pkg/manager/risingwave_scale_view_controller_manager_impl.go):
      the steps of the controller, each with the requests it sends.
    - [ScaleViewController] (pkg/controller/risingwave_scale_view_controller.go and the
      generated manager): the actions, the workflow, whole reconciles ([scales]); the API server
      is the class [ScaleViewEnv]. [ScaleViewConvergence]: two reconciles against a reference
      server.

    RisingWave.
    - [RisingWaveWebhook] (pkg/webhook/risingwave_*_webhook.go): defaults and validation.
    - [RisingWaveManager] (pkg/object/risingwave_manager.go): the object in memory during
      a reconcile: the observed one, and the copy whose status is written.
    - [EnvSort] (pkg/utils/sort.go): the order of environment variables in a pod. container/heap
      is the class [HeapOk]; [BinaryHeap] is the one the code uses, on the queue's own methods.
    - [Workloads] (pkg/utils/apps.go, common.go, apiextenions.go): managed objects and when a
      workload counts as rolled out.
    - [ManagerState] (pkg/manager/risingwave_controller_manager_generated.go, the getters;
      pkg/event, pkg/consts/event.go): the state of a reconcile: the manager, the message
      store, the trace of the requests. The API server is the class [ClusterEnv], whose
      answers may depend on every request before.
    - [WorkloadSync] (risingwave_controller_manager_impl.go): creating, updating, replacing
      and deleting the workloads of a component. [WorkloadConvergence]: the same against a
      reference API server.
    - [ManagerImpl] (the same file): the methods of the manager. [ManagerActions]
      (the generated file): the actions, each a read, a guard and a method.
    - [EventRecorder] (pkg/controller/risingwave_event_recorder.go): the hook of the actions.
    - [CtrlKit]: the workflows. ctrlkit is third-party: what it promises about a run of a
      workflow is the class [Runs]; [liberal] is a relation that keeps the promise. An action
      is one step of a run; actions of parallel branches interleave in any order, the parts of
      an ordered join run one after the other, and an action under a retry may run again.
    - [RisingWaveController] (pkg/controller/risingwave_controller.go): the workflow and the
      reconcile. [ActionEffects]: what each action does to the object in memory.
      [RisingWaveReconcile]: the theorems on whole reconciles. [Settled]: a reconcile of a
      cluster whose objects are all up to date and rolled out. [Watches]: the kinds the
      controller watches, and that each request of a reconcile, deletions included, is for
      objects of such a kind that belong to the RisingWave.
    - [Interleaving]: users, this controller and those of the scale views write the same object.
      A world is the object with its earlier versions and the versions of the views; a step is
      one write, taken from the reconciles ([view_writes], [controller_writes]) or an update that
      the whole webhook admits, its bypass annotation included.
    - The object factory (pkg/factory), which builds the objects the manager sends.
      [KubeTypes]: containers, pods and volumes of Kubernetes. [FactoryBase] (names, labels,
      metadata, merging of lists; pkg/factory/envs, pkg/consts), [FactoryEnvs] (environment
      variables), [FactoryPods] (containers and pods), [FactoryObjects] (workloads, services,
      configuration, service monitor, and [Factory], the instance of the manager's
      [ObjectFactory]). Their theorems: [FactorySpec] (metadata, when the stores are set),
      [FactoryPodSpec] (pods), [FactoryWorkloads], [FactoryServices] (the objects, and the
      factory with the webhook and the manager). What the factory only copies is opaque;
      versions, quantities and owner references are the classes [FactoryLib] and
      [ControllerReference], the unstable sort of the library is [NameSort].
    - [Pods] (pkg/utils/common.go): pods as the two controllers below read them.
      [ComputeUpdate] (pkg/controller/risingwave_compute_sts_update_strategy.go): the reconcile
      that deletes outdated pods, its watch and filters. [MetaRole]
      (pkg/controller/meta_pod_role_labeler.go): the labels of the meta pods; what the meta
      service answers is the class [MetaRoleEnv]. [MetaRoleSpec]: who has the label of the leader
      after a pass in which any request may fail;
      [MetaRoleFactory]: the labeler on the pods the factory builds.

    Database users.
    - [Acl], [SqlBuilder], [PrivilegeDiff] (pkg/rwclient): reading access control lists,
      building SQL, the snapshot of the catalog and its difference with the grants.
    - [Pool] (pkg/rwclient/pool.go): the connection pool as goroutines that interleave;
      each operation of the map, call on a handle and change of a time stamp is a step.
    - [UserWebhook] (pkg/webhook/risingwave_user_validating_webhook.go).
    - [UserState], [UserPrivileges], [UserReconcile]
      (pkg/controller/risingwave_user_controller.go): the reconciler in a state monad
      over its fields, the clock and the trace of the requests it sends ([event]); what
      the outside answers is the class [Environment] and may depend on the whole trace.

    ** What the theorems show

    - Distribution: [SplitReplicas] does not panic exactly when the replicas are between 0
      and the capacity, it assigns them all within the limits, fills higher priorities
      first and is even inside a priority, and is the dealing of the replicas one at a time;
      what the webhook accepts never panics.
    - Locks: however the writers of a cluster interleave, and however old what they read, no
      group is locked twice, every lock belongs to a view, and locked replicas only move to
      the lock; but a patch made from an old version takes back what a user changed elsewhere
      ([stale_patch_loses_update]). The locked replicas add up to
      those of the view; the controller writes exactly them into the spec; a user's update
      that the webhook validates is accepted only if it leaves locked replicas alone or sets them
      to the lock (with the annotation that bypasses the webhook everything is), and the
      controller's own update passes.
    - Validation: what is accepted is characterised for RisingWave and RisingWaveUser, on
      creation and update; the stores of a cluster (the bypass apart) and the identity of
      a user are immutable.
    - Conditions: at most one condition of a type, updated in place; frame conditions.
    - Reconciles: each condition of a cluster changes only along the transitions of its
      state machine, however the workflow is run; a cluster gets the condition Running only
      after every workload of the expected kind was listed as up to date and rolled out, and gets it in one reconcile,
      in every mode and whatever the order of the actions, when the API server shows everything
      so ([settled_becomes_running]); the status is sent exactly when it changed. What
      a reconcile touches is of a kind the controller watches.
    - Scale view reconciles: the requests are those it may send; two are enough for the replicas
      asked for to be in the target; the status reports the running replicas.
    - Workloads: a pass over the workloads of a component sends only the requests it is meant
      to, and against a reference API server brings the component up to date in one pass, after
      which passes send nothing. The reported replicas are those of the node groups.
    - Factory: for a RisingWave the webhook accepts every object is built, with the right
      name, labels and ports, services select exactly their pods, a new version keeps the
      identity of the objects, generated variables take precedence over those of the user;
      and with this factory a pass of the manager brings a component up to date.
    - SQL: the text of a statement reads back to the names and the password it was built
      from; access control lists are read back from their printed form; the
      computed difference is exactly the missing grants and the superfluous revocations.
    - User reconciliation: never panics on objects the API server admits; a reconcile that
      finishes marks the user ready only when the database answered that it exists or was created;
      statements are sent only in the database they were computed for, as far as the code tracks
      it; the finalizer goes only after the user was dropped, or where the cluster that was
      fetched can not be reached.
    - Environment order: the sort terminates, keeps the variables, and puts each one after
      those it refers to when there is no cycle.
    - Deep copies: a copy denotes the same value, is made of fresh cells only, and nothing written
      through the original changes it, nor the other way round.
    - Pool: in every reachable state pooled handles are distinct, and open unless the goroutine
      that closed one is about to delete its key; [Get] returns handles open at that moment.
    - Pods: only outdated compute pods are deleted; a new leader is the only meta pod labelled so,
      up to the pods whose requests failed.
    - The rest: a generated password has the length and the characters asked for, the feature
      flag is read back, the recorders count each call once, panics included; the program makes
      its calls in a fixed order up to the first that fails, so that it serves only on a server
      of version 1.21 or above, with webhooks and controller under the same switches.
    Theorems that a behaviour is wrong state defects of the code (the names say so:
    [negative_replicas_accepted], [conditions_sticky], [Pool_Get_leaks], ...).

    ** Fuel and bounds

    [EnvSort.kahn] has as fuel the number of variables plus one; [TopologicalSort_total]
    shows that it is enough. All other recursion is structural. The capacity conditions of
    [SplitReplicas] are those the webhook establishes, so that the 64-bit products of
    the loop do not overflow.

    ** What is not modelled

    - The generated protocol code of the meta service, and the fixtures of the tests.
    - ctrlkit and controller-runtime themselves with the rate limits of their queues, log lines,
      the reading of the command line.
*)

From Stdlib Require Export Ascii.
From stdpp Require Export base gmap sets list strings sorting fin_maps.
From Stdlib Require Export ZArith Lia.

Declare Scope go_scope.
Delimit Scope go_scope with go.

(** Concatenation computes on a constructor. *)
#[global] Arguments String.append !s1 s2 : simpl nomatch.

(** ** Machine integers

    Go's [int32] and [int64] (and [int] on the 64-bit platforms the operator
    is built for) as [Z], with the two's complement wrap-around of the
    conversions and of the arithmetic written out. *)

Definition MinInt32 : Z := -2147483648.
Definition MaxInt32 : Z := 2147483647.
Definition MinInt64 : Z := -9223372036854775808.
Definition MaxInt64 : Z := 9223372036854775807.

Definition int32 (z : Z) : Z := (z - MinInt32) mod 4294967296 + MinInt32.
Definition int64 (z : Z) : Z := (z - MinInt64) mod 18446744073709551616 + MinInt64.

Definition in_int32 (z : Z) : Prop := (MinInt32 <= z <= MaxInt32)%Z.
Definition in_int64 (z : Z) : Prop := (MinInt64 <= z <= MaxInt64)%Z.

(** ** Results

    [outcome] is the result of a function that may panic; [result] is Go's
    [(T, error)] pair when the value is meaningless on an error. *)

Inductive outcome (A : Type) : Type :=
| Done (a : A)
| Panic (msg : string).
Arguments Done {A} a.
Arguments Panic {A} msg.

Inductive result (E A : Type) : Type :=
| Ok (a : A)
| Err (e : E).
Arguments Ok {E A} a.
Arguments Err {E A} e.

Global Instance outcome_ret : MRet outcome := fun A a => Done a.
Global Instance outcome_bind : MBind outcome := fun A B f m =>
  match m with Done a => f a | Panic msg => Panic msg end.
Global Instance result_ret E : MRet (result E) := fun A a => Ok a.
Global Instance result_bind E : MBind (result E) := fun A B f m =>
  match m with Ok a => f a | Err e => Err e end.

Definition is_done {A} (o : outcome A) : bool :=
  match o with Done _ => true | Panic _ => false end.

Definition is_ok {E A} (r : result E A) : bool :=
  match r with Ok _ => true | Err _ => false end.

(** ** Iterating over a Go map

    The order in which [for k := range m] visits the keys is unspecified and
    may differ from one loop to the next. A function that ranges over a map
    takes its orders from this class: the string names the loop (and, in a
    nested loop, the outer key), so that two loops share no order. The law says
    only that every key is visited exactly once. *)

Class RangeOrder := range_keys : string -> gset string -> list string.

Class RangeOrderOk (O : RangeOrder) : Prop :=
  range_keys_perm : forall site ks, range_keys site ks ≡ₚ elements ks.

(** One concrete order, for the witnesses. *)
Definition elements_order : RangeOrder := fun _ ks => elements ks.

(** ** Lists *)

(** [lo.CountBy], [len(filter)]. *)
Fixpoint count_by {A} (p : A -> bool) (l : list A) : nat :=
  match l with
  | [] => 0
  | x :: l' => (if p x then 1 else 0) + count_by p l'
  end.

(** First element satisfying a test, with its index: the search loop
    [for i, x := range l { if p(x) { return i, &l[i] } }]. *)
Fixpoint find_index_from {A} (p : A -> bool) (i : nat) (l : list A) : option (nat * A) :=
  match l with
  | [] => None
  | x :: l' => if p x then Some (i, x) else find_index_from p (S i) l'
  end.
Definition find_index {A} (p : A -> bool) (l : list A) : option (nat * A) :=
  find_index_from p 0 l.

(** [append(l[:i], l[i+1:]...)]. *)
Definition remove_at {A} (i : nat) (l : list A) : list A := take i l ++ drop (S i) l.

Definition Zsum (l : list Z) : Z := foldr Z.add 0%Z l.

(** Sum with the wrap-around of an [int32] accumulator. *)
Definition sum_int32 (l : list Z) : Z := foldl (fun acc x => int32 (acc + x)) 0%Z l.

(** ** Tactics *)

Ltac case_bool :=
  repeat match goal with
  | H : bool_decide _ = true |- _ => apply bool_decide_eq_true in H
  | H : bool_decide _ = false |- _ => apply bool_decide_eq_false in H
  | H : context [bool_decide ?P] |- _ => destruct (bool_decide_reflect P)
  | |- context [bool_decide ?P] => destruct (bool_decide_reflect P)
  end.

(** Splits every conjunction of booleans in the context and in the goal. *)
Ltac split_bools :=
  repeat match goal with
  | H : (_ && _) = true |- _ => apply andb_true_iff in H as [? ?]
  | H : (_ || _) = false |- _ => apply orb_false_iff in H as [? ?]
  | H : negb _ = true |- _ => apply negb_true_iff in H
  | H : negb _ = false |- _ => apply negb_false_iff in H
  | |- (_ && _) = true => apply andb_true_iff; split
  end.

(** Unfolds the monads. *)
Ltac run_monad := cbv [mret mbind outcome_ret outcome_bind result_ret result_bind] in *.

(** ** Lemmas on integers *)

Lemma int32_id z : in_int32 z -> int32 z = z.
Proof.
  unfold in_int32, int32, MinInt32, MaxInt32. intros H.
  rewrite Z.mod_small; lia.
Qed.

Lemma int32_range z : in_int32 (int32 z).
Proof.
  unfold in_int32, int32, MinInt32, MaxInt32.
  pose proof (Z.mod_pos_bound (z - -2147483648) 4294967296). lia.
Qed.

Lemma int64_id z : in_int64 z -> int64 z = z.
Proof.
  unfold in_int64, int64, MinInt64, MaxInt64. intros H.
  rewrite Z.mod_small; lia.
Qed.

Lemma int32_idemp z : int32 (int32 z) = int32 z.
Proof. apply int32_id, int32_range. Qed.

Lemma int32_add_l a b : int32 (int32 a + b) = int32 (a + b).
Proof.
  unfold int32, MinInt32. f_equal.
  replace ((a - -2147483648) mod 4294967296 + -2147483648 + b - -2147483648)%Z
    with ((a - -2147483648) mod 4294967296 + b)%Z by lia.
  rewrite Z.add_mod_idemp_l by lia. f_equal; lia.
Qed.

(** ** Lemmas on propositions *)

Lemma not_or_and (P Q : Prop) : ~ (P \/ Q) -> ~ P /\ ~ Q.
Proof. tauto. Qed.

(** ** Lemmas on sums and lists *)

Lemma Zsum_app l1 l2 : Zsum (l1 ++ l2) = (Zsum l1 + Zsum l2)%Z.
Proof. induction l1 as [|x l IH]; cbn in *; [done|]. unfold Zsum in *. lia. Qed.

Lemma Zsum_perm l1 l2 : l1 ≡ₚ l2 -> Zsum l1 = Zsum l2.
Proof. unfold Zsum. induction 1; cbn; lia. Qed.

Global Instance Zsum_proper : Proper ((≡ₚ) ==> (=)) Zsum.
Proof. intros l1 l2. apply Zsum_perm. Qed.

Lemma Zsum_nonneg l : Forall (fun z => 0 <= z)%Z l -> (0 <= Zsum l)%Z.
Proof. unfold Zsum. induction 1; cbn; lia. Qed.

Lemma foldl_int32 l a :
  foldl (fun acc x => int32 (acc + x)) (int32 a) l = int32 (a + Zsum l).
Proof.
  revert a. induction l as [|x l IH]; intros a; cbn.
  - f_equal. lia.
  - rewrite int32_add_l, IH. f_equal. unfold Zsum. cbn. lia.
Qed.

Lemma sum_int32_spec l : sum_int32 l = int32 (Zsum l).
Proof. unfold sum_int32. change 0%Z with (int32 0). apply foldl_int32. Qed.

Lemma find_index_from_Some {A} (p : A -> bool) i l j x :
  find_index_from p i l = Some (j, x) ->
  i <= j /\ l !! (j - i) = Some x /\ p x = true /\
  (forall k y, k < j - i -> l !! k = Some y -> p y = false).
Proof.
  revert i. induction l as [|y l IH]; intros i H; cbn in H; [done|].
  destruct (p y) eqn:Hp.
  - simplify_eq. rewrite Nat.sub_diag. repeat split; auto; intros; lia.
  - apply IH in H as (Hle & Hx & Hpx & Hmin).
    replace (j - i) with (S (j - S i)) by lia. cbn.
    repeat split; auto; [lia|].
    intros [|k] z Hk Hz; cbn in Hz; simplify_eq; [done|]. apply (Hmin k); [lia|done].
Qed.

Lemma find_index_Some {A} (p : A -> bool) l j x :
  find_index p l = Some (j, x) ->
  l !! j = Some x /\ p x = true /\ (forall k y, k < j -> l !! k = Some y -> p y = false).
Proof.
  intros H. apply find_index_from_Some in H as (_ & H). by rewrite Nat.sub_0_r in H.
Qed.

Lemma find_index_from_None {A} (p : A -> bool) i l :
  find_index_from p i l = None <-> Forall (fun x => p x = false) l.
Proof.
  revert i. induction l as [|x l IH]; intros i; cbn.
  - split; constructor || done.
  - destruct (p x) eqn:Hp.
    + split; [done|]. intros H. inv H. congruence.
    + rewrite IH. split; [by constructor|]. intros H. by inv H.
Qed.

Lemma find_index_None {A} (p : A -> bool) l :
  find_index p l = None <-> Forall (fun x => p x = false) l.
Proof. apply find_index_from_None. Qed.

Lemma elem_of_remove_at {A} i (l : list A) x : x ∈ remove_at i l -> x ∈ l.
Proof.
  unfold remove_at. rewrite elem_of_app.
  intros [H|H]; [by eapply elem_of_take in H as (?&?&?); apply list_elem_of_lookup; eauto|].
  apply list_elem_of_lookup in H as [k Hk]. rewrite lookup_drop in Hk.
  apply list_elem_of_lookup; eauto.
Qed.

Lemma find_index_from_app {A} (p : A -> bool) i l1 l2 :
  find_index_from p i l1 = None ->
  find_index_from p i (l1 ++ l2) = find_index_from p (length l1 + i) l2.
Proof.
  revert i. induction l1 as [|x l1 IH]; intros i; cbn; [done|].
  destruct (p x); [done|]. intros H. rewrite (IH _ H). f_equal. lia.
Qed.

Lemma find_index_snoc {A} (p : A -> bool) l x :
  find_index p l = None -> p x = true -> find_index p (l ++ [x]) = Some (length l, x).
Proof.
  intros H Hx. unfold find_index. rewrite find_index_from_app by done. cbn.
  rewrite Hx. by rewrite Nat.add_0_r.
Qed.

(** Altering an element in a way the test cannot see alters the element found. *)
Lemma find_index_from_alter {A} (p : A -> bool) (f : A -> A) k i l :
  (forall x, p (f x) = p x) ->
  find_index_from p k (alter f i l) =
  (fun jx => (jx.1, if decide (jx.1 = k + i) then f jx.2 else jx.2)) <$> find_index_from p k l.
Proof.
  intros Hp. revert k i. induction l as [|x l IH]; intros k i; [by destruct i|].
  destruct i as [|i]; cbn.
  - rewrite Hp. destruct (p x); cbn; [by rewrite decide_True by lia|].
    destruct (find_index_from p (S k) l) as [[j y]|] eqn:H; [|done]. cbn.
    apply find_index_from_Some in H as (Hle & _). by rewrite decide_False by lia.
  - destruct (p x); cbn; [by rewrite decide_False by lia|].
    change (list_alter f i l) with (alter f i l). rewrite IH.
    replace (S k + i) with (k + S i) by lia. done.
Qed.

Lemma find_index_alter {A} (p : A -> bool) (f : A -> A) i l :
  (forall x, p (f x) = p x) ->
  find_index p (alter f i l) =
  (fun jx => (jx.1, if decide (jx.1 = i) then f jx.2 else jx.2)) <$> find_index p l.
Proof. apply find_index_from_alter. Qed.

Lemma lookup_remove_at {A} i (l : list A) j x :
  remove_at i l !! j = Some x -> i < length l ->
  l !! (if decide (j < i) then j else S j) = Some x.
Proof.
  unfold remove_at. intros H Hi. case_decide as Hj.
  - rewrite lookup_app_l in H by (rewrite length_take; lia). by rewrite lookup_take_lt in H.
  - rewrite lookup_app_r in H by (rewrite length_take; lia).
    rewrite lookup_drop, length_take in H. rewrite <-H. f_equal. lia.
Qed.

(** Membership in a list of strings, as a check. *)
Lemma elem_of_existsb x l : existsb (String.eqb x) l = true <-> x ∈ l.
Proof.
  rewrite existsb_exists, list_elem_of_In. setoid_rewrite String.eqb_eq. naive_solver.
Qed.

(** A key determines the element. *)
Lemma NoDup_fmap_elem {A B} (f : A -> B) (l : list A) x y :
  NoDup (f <$> l) -> x ∈ l -> y ∈ l -> f x = f y -> x = y.
Proof.
  intros Hnd [i Hi]%list_elem_of_lookup [j Hj]%list_elem_of_lookup Hf.
  assert (i = j) as ->; [|congruence].
  eapply NoDup_lookup; [exact Hnd|rewrite list_lookup_fmap, Hi; reflexivity|].
  rewrite list_lookup_fmap, Hj. cbn. congruence.
Qed.

Lemma remove_at_snoc {A} (l : list A) x : remove_at (length l) (l ++ [x]) = l.
Proof.
  unfold remove_at. rewrite take_app_length, drop_ge; [apply app_nil_r|].
  rewrite length_app. cbn. lia.
Qed.

(** ** Automation: the facts about words and sums the components rely on. *)

Create HintDb go discriminated.
Create Rewrite HintDb go.
#[export] Hint Resolve int32_range Zsum_nonneg : go.
#[export] Hint Rewrite @Zsum_app sum_int32_spec int32_idemp int32_add_l : go.
