(* ===== verification/GoMonad.v ===== *)
(** * Operations on a state that may panic

    An operation of the code reads and writes the fields of its receiver, sends requests,
    and may panic. It is a function of the state: [GoM S A]. An [error] it returns is part
    of its value. [wp m Q s] says that [m], run from [s], does not panic and ends in a value
    and a state that satisfy [Q]; its rules are the ones proofs about operations use; [wlp] allows
    a panic. *)

From S2P Require Import Prelude.

(** ** Definitions *)

Definition GoM (S A : Type) : Type := S -> outcome (A * S).

Global Instance GoM_ret S : MRet (GoM S) := fun A a s => Done (a, s).
Global Instance GoM_bind S : MBind (GoM S) := fun A B f m s =>
  match m s with Done (a, s') => f a s' | Panic msg => Panic msg end.

Definition panic {S A} (msg : string) : GoM S A := fun _ => Panic msg.
Definition gets {S A} (f : S -> A) : GoM S A := fun s => Done (f s, s).
Definition modify {S} (f : S -> S) : GoM S unit := fun s => Done (tt, f s).

(** A computation without effects, which may panic. *)
Definition lift {S A} (o : outcome A) : GoM S A := fun s =>
  match o with Done a => Done (a, s) | Panic msg => Panic msg end.

Definition wp {S A} (m : GoM S A) (Q : A -> S -> Prop) (s : S) : Prop :=
  match m s with Done (a, s') => Q a s' | Panic _ => False end.

(** The same without the promise that [m] does not panic. *)
Definition wlp {S A} (m : GoM S A) (Q : A -> S -> Prop) (s : S) : Prop :=
  match m s with Done (a, s') => Q a s' | Panic _ => True end.

(** ** Rules *)

Section rules.
Context {S : Type}.
Implicit Types (s : S).

Lemma wp_bind {A B} (m : GoM S A) (f : A -> GoM S B) Q s :
  wp (m ≫= f) Q s <-> wp m (fun a => wp (f a) Q) s.
Proof. unfold wp, mbind, GoM_bind. by destruct (m s) as [[a s']|]. Qed.

Lemma wp_ret {A} (a : A) Q s : wp (mret a) Q s <-> Q a s.
Proof. done. Qed.

Lemma wp_mono {A} (m : GoM S A) (Q Q' : A -> S -> Prop) s :
  wp m Q s -> (forall a s', Q a s' -> Q' a s') -> wp m Q' s.
Proof. unfold wp. destruct (m s) as [[a s']|]; auto. Qed.

Lemma wp_gets {A} (f : S -> A) Q s : wp (gets f) Q s <-> Q (f s) s.
Proof. done. Qed.

Lemma wp_modify f Q s : wp (modify f) Q s <-> Q tt (f s).
Proof. done. Qed.

Lemma wp_lift {A} (o : outcome A) Q s :
  wp (lift o) Q s <-> exists a, o = Done a /\ Q a s.
Proof.
  unfold wp, lift. destruct o as [a|]; [|by split; [|intros (? & ? & ?)]].
  split; [eauto|]. by intros (b & [= ->] & ?).
Qed.

Lemma wlp_bind {A B} (m : GoM S A) (f : A -> GoM S B) Q s :
  wlp (m ≫= f) Q s <-> wlp m (fun a => wlp (f a) Q) s.
Proof. unfold wlp, mbind, GoM_bind. by destruct (m s) as [[a s']|]. Qed.

Lemma wlp_ret {A} (a : A) Q s : wlp (mret a) Q s <-> Q a s.
Proof. done. Qed.

Lemma wlp_mono {A} (m : GoM S A) (Q Q' : A -> S -> Prop) s :
  wlp m Q s -> (forall a s', Q a s' -> Q' a s') -> wlp m Q' s.
Proof. unfold wlp. destruct (m s) as [[a s']|]; auto. Qed.

Lemma wlp_gets {A} (f : S -> A) Q s : wlp (gets f) Q s <-> Q (f s) s.
Proof. done. Qed.

Lemma wlp_lift {A} (o : outcome A) Q s :
  wlp (lift o) Q s <-> forall a, o = Done a -> Q a s.
Proof. unfold wlp, lift. destruct o; [|done]. split; [by intros ? ? [= <-]|auto]. Qed.

Lemma wlp_run {A} (m : GoM S A) (Q : A -> S -> Prop) s a s' :
  wlp m Q s -> m s = Done (a, s') -> Q a s'.
Proof. unfold wlp. intros H Hm. by rewrite Hm in H. Qed.

(** What a run that ended satisfies. *)
Lemma wp_run {A} (m : GoM S A) (Q : A -> S -> Prop) s a s' :
  wp m Q s -> m s = Done (a, s') -> Q a s'.
Proof. unfold wp. intros H Hm. by rewrite Hm in H. Qed.
End rules.
