(* ===== verification/GoStrings.v ===== *)
(** * The parts of Go's [strings], [fmt] and [sort] packages the operator uses

    A Go string is a sequence of bytes: [String.string]. The functions below are
    the ones the operator calls, at the arguments it calls them with: separators
    are single bytes and patterns are non-empty. White space is that of
    [unicode.IsSpace], as the bytes of its code points in UTF-8. *)

From stdpp Require Import pretty.
From S2P Require Import Prelude.

Definition dquote : ascii := "034"%char.
Definition squote : ascii := "039"%char.
Definition comma : ascii := ","%char.
Definition str1 (c : ascii) : string := String c EmptyString.

(** ** Searching *)

Fixpoint contains_char (c : ascii) (s : string) : bool :=
  match s with
  | EmptyString => false
  | String d s' => bool_decide (c = d) || contains_char c s'
  end.

Fixpoint forall_chars (p : ascii -> bool) (s : string) : bool :=
  match s with
  | EmptyString => true
  | String c s' => p c && forall_chars p s'
  end.

(** [strings.HasPrefix(s, p)], [strings.HasSuffix(s, p)], [strings.Contains]. *)
Definition HasPrefix (s p : string) : bool := String.prefix p s.
Definition HasSuffix (s p : string) : bool :=
  String.prefix (String.rev p) (String.rev s).

Fixpoint Index_from (i : nat) (s sub : string) : option nat :=
  if String.prefix sub s then Some i
  else match s with
       | EmptyString => None
       | String _ s' => Index_from (S i) s' sub
       end.

(** [strings.Index]: [None] is the source's [-1]. *)
Definition Index (s sub : string) : option nat := Index_from 0 s sub.
Definition Contains (s sub : string) : bool :=
  match Index s sub with Some _ => true | None => false end.

(** [strings.LastIndex(s, c)] for a single byte. *)
Fixpoint LastIndex_char (c : ascii) (s : string) : option nat :=
  match s with
  | EmptyString => None
  | String d s' =>
      match LastIndex_char c s' with
      | Some i => Some (S i)
      | None => if bool_decide (c = d) then Some 0 else None
      end
  end.

(** [s[n:]] for [n] at most the length. *)
Fixpoint drop_str (n : nat) (s : string) : string :=
  match n, s with
  | S n', String _ s' => drop_str n' s'
  | _, _ => s
  end.

(** ** Splitting, joining, trimming *)

(** [strings.Split(s, sep)] for a single byte [sep]. *)
Fixpoint Split (s : string) (sep : ascii) : list string :=
  match s with
  | EmptyString => [EmptyString]
  | String c s' =>
      if bool_decide (c = sep) then EmptyString :: Split s' sep
      else match Split s' sep with
           | h :: t => String c h :: t
           | [] => [str1 c]
           end
  end.

(** [strings.Join(l, sep)]. *)
Definition Join (l : list string) (sep : string) : string := String.concat sep l.

Fixpoint TrimLeftFunc (p : ascii -> bool) (s : string) : string :=
  match s with
  | EmptyString => EmptyString
  | String c s' => if p c then TrimLeftFunc p s' else s
  end.

Fixpoint TrimRightFunc (p : ascii -> bool) (s : string) : string :=
  match s with
  | EmptyString => EmptyString
  | String c s' =>
      match TrimRightFunc p s' with
      | EmptyString => if p c then EmptyString else str1 c
      | t => String c t
      end
  end.

Definition TrimFunc (p : ascii -> bool) (s : string) : string :=
  TrimRightFunc p (TrimLeftFunc p s).

(** [strings.Trim(s, cutset)] and [strings.TrimRight(s, cutset)]. *)
Definition Trim (s cutset : string) : string :=
  TrimFunc (fun c => contains_char c cutset) s.
Definition TrimRight (s cutset : string) : string :=
  TrimRightFunc (fun c => contains_char c cutset) s.

Definition is_space (c : ascii) : bool :=
  let n := nat_of_ascii c in (Nat.leb 9 n && Nat.leb n 13) || Nat.eqb n 32.

(** The code points of [unicode.IsSpace]: those of one byte, U+0085, U+00A0, U+1680, U+2000 to
    U+200A, U+2028, U+2029, U+202F, U+205F and U+3000. *)
Definition space_runes : list (list ascii) :=
  map (map ascii_of_nat)
    [[9]; [10]; [11]; [12]; [13]; [32]; [194; 133]; [194; 160]; [225; 154; 128];
     [226; 128; 128]; [226; 128; 129]; [226; 128; 130]; [226; 128; 131]; [226; 128; 132];
     [226; 128; 133]; [226; 128; 134]; [226; 128; 135]; [226; 128; 136]; [226; 128; 137];
     [226; 128; 138]; [226; 128; 168]; [226; 128; 169]; [226; 128; 175]; [226; 129; 159];
     [227; 128; 128]]%nat.

Fixpoint starts_with (r s : list ascii) : bool :=
  match r, s with
  | [], _ => true
  | c :: r', d :: s' => bool_decide (c = d) && starts_with r' s'
  | _ :: _, [] => false
  end.

(** Drops the runes [rs] at the start; [skip] bytes of one remain to be dropped. *)
Fixpoint trim_runes (rs : list (list ascii)) (skip : nat) (s : list ascii) : list ascii :=
  match s with
  | [] => []
  | _ :: s' =>
      match skip with
      | S n => trim_runes rs n s'
      | 0 => match find_index (fun r => starts_with r s) rs with
             | Some (_, r) => trim_runes rs (pred (length r)) s'
             | None => s
             end
      end
  end.

(** [strings.TrimSpace]: at the end the same, backwards. *)
Definition TrimSpace (s : string) : string :=
  String.string_of_list_ascii (reverse (trim_runes (reverse <$> space_runes) 0
    (reverse (trim_runes space_runes 0 (String.list_ascii_of_string s))))).

Lemma trim_runes_id rs s :
  (forall r, r ∈ rs -> starts_with r s = false) -> trim_runes rs 0 s = s.
Proof.
  intros H. destruct s as [|c s]; [done|]. cbn [trim_runes].
  destruct (find_index _ rs) as [[i r]|] eqn:Hf; [|done].
  apply find_index_Some in Hf as (Hr & Hb & _). rewrite H in Hb; [done|].
  by eapply list_elem_of_lookup_2.
Qed.

(** No white space starts, or ends, with the byte. *)
Definition plain_end (rs : list (list ascii)) (c : ascii) : bool :=
  forallb (fun r => match r with [] => false | d :: _ => negb (bool_decide (d = c)) end) rs.

Lemma plain_end_starts rs c s r :
  plain_end rs c = true -> r ∈ rs -> starts_with r (c :: s) = false.
Proof.
  unfold plain_end. rewrite forallb_forall. intros H Hr%list_elem_of_In%H.
  destruct r as [|d r]; [done|]. apply negb_true_iff in Hr. cbn. by rewrite Hr.
Qed.

(** A text whose ends are no white space stays. *)
Lemma TrimSpace_ends c s l d :
  String.list_ascii_of_string s = l ++ [d] -> head (l ++ [d]) = Some c ->
  plain_end space_runes c = true -> plain_end (reverse <$> space_runes) d = true ->
  TrimSpace s = s.
Proof.
  intros Hs Hc Hpc Hpd. unfold TrimSpace. rewrite Hs.
  rewrite (trim_runes_id space_runes).
  2:{ intros r Hr. destruct (l ++ [d]) as [|c' t]; [done|]. injection Hc as ->.
      by eapply plain_end_starts. }
  rewrite (trim_runes_id (reverse <$> space_runes)).
  2:{ intros r Hr. rewrite reverse_snoc. by eapply plain_end_starts. }
  rewrite reverse_involutive, <-Hs. apply String.string_of_list_ascii_of_string.
Qed.

(** [unicode.IsLetter] on an ASCII byte. *)
Definition IsLetter (c : ascii) : bool :=
  let n := nat_of_ascii c in
  (Nat.leb 65 n && Nat.leb n 90) || (Nat.leb 97 n && Nat.leb n 122).

(** [strings.ToLower] on ASCII bytes. *)
Definition lower_char (c : ascii) : ascii :=
  let n := nat_of_ascii c in
  if Nat.leb 65 n && Nat.leb n 90 then ascii_of_nat (n + 32) else c.
Fixpoint ToLower (s : string) : string :=
  match s with
  | EmptyString => EmptyString
  | String c s' => String (lower_char c) (ToLower s')
  end.

(** [strings.ReplaceAll(s, old, new)] for a one-byte [old]. *)
Fixpoint ReplaceAll_char (s : string) (old : ascii) (new : string) : string :=
  match s with
  | EmptyString => EmptyString
  | String c s' =>
      if bool_decide (c = old) then new +:+ ReplaceAll_char s' old new
      else String c (ReplaceAll_char s' old new)
  end.

(** [strings.ReplaceAll(s, old, new)] for a non-empty [old]: left to right,
    without overlap. [skip] bytes of a match remain to be dropped. *)
Fixpoint ReplaceAll_go (skip : nat) (s old new : string) : string :=
  match s with
  | EmptyString => EmptyString
  | String c s' =>
      match skip with
      | S k => ReplaceAll_go k s' old new
      | O => if String.prefix old s
             then new +:+ ReplaceAll_go (String.length old - 1) s' old new
             else String c (ReplaceAll_go 0 s' old new)
      end
  end.
Definition ReplaceAll (s old new : string) : string := ReplaceAll_go 0 s old new.

(** ** Sorting *)

(** [sort.Strings]: byte-wise order. *)
Definition sort_Strings (l : list string) : list string := merge_sort String.le l.

(** The set of the elements of a list: the keys of a map built by
    [for _, x := range l { m[x] = true }]. *)
Definition key_set (l : list string) : gset string := list_to_set l.

(** ** Lemmas: concatenation *)

Lemma drop_str_app s t : drop_str (String.length s) (s +:+ t) = t.
Proof. induction s as [|c s IH]; cbn; [by destruct t|done]. Qed.

Lemma app_nil_r_str s : s +:+ EmptyString = s.
Proof. induction s as [|c s IH]; [done|]. cbn. by rewrite IH. Qed.

Lemma app_assoc_str s1 s2 s3 : s1 +:+ (s2 +:+ s3) = (s1 +:+ s2) +:+ s3.
Proof. induction s1 as [|c s1 IH]; [done|]. cbn. by rewrite IH. Qed.

Lemma app_inv_head_str s s1 s2 : s +:+ s1 = s +:+ s2 -> s1 = s2.
Proof. induction s; cbn; [done|]. intros H. by simplify_eq. Qed.

Lemma length_app_str s1 s2 :
  String.length (s1 +:+ s2) = String.length s1 + String.length s2.
Proof. induction s1 as [|c s1 IH]; [done|]. cbn. by rewrite IH. Qed.

Lemma contains_char_app c s1 s2 :
  contains_char c (s1 +:+ s2) = contains_char c s1 || contains_char c s2.
Proof. induction s1; cbn; [done|]. by rewrite IHs1, orb_assoc. Qed.

Lemma forall_chars_app p s1 s2 :
  forall_chars p (s1 +:+ s2) = forall_chars p s1 && forall_chars p s2.
Proof. induction s1; cbn; [done|]. by rewrite IHs1, andb_assoc. Qed.

Lemma forall_chars_impl (p q : ascii -> bool) s :
  (forall c, p c = true -> q c = true) -> forall_chars p s = true -> forall_chars q s = true.
Proof.
  intros Hpq. induction s as [|c s IH]; cbn; [done|]. intros [Hc Hs]%andb_true_iff.
  by rewrite (Hpq c Hc), IH.
Qed.

Lemma forall_chars_no d p s : forall_chars p s = true -> p d = false -> contains_char d s = false.
Proof.
  intros H Hd. induction s as [|c s IH]; cbn in *; [done|]. apply andb_true_iff in H as [Hc Hs].
  rewrite IH by done. rewrite bool_decide_false; [done|]. by intros ->; rewrite Hd in Hc.
Qed.

Lemma prefix_app s1 s2 : String.prefix s1 (s1 +:+ s2) = true.
Proof.
  induction s1 as [|c s1 IH]; cbn; [by destruct s2|].
  by destruct (Ascii.ascii_dec c c).
Qed.

Lemma prefix_inv s1 s : String.prefix s1 s = true -> exists t, s = s1 +:+ t.
Proof.
  revert s. induction s1 as [|c s1 IH]; intros s H; [by exists s|].
  destruct s as [|d s]; cbn in H; [done|].
  destruct (Ascii.ascii_dec c d) as [->|]; [|done].
  apply IH in H as [t ->]. by exists t.
Qed.

(** ** Lemmas: Split and Join *)

Lemma Split_nonempty s sep : Split s sep <> [].
Proof. destruct s; cbn; [done|]. case_bool; [done|]. by destruct (Split s sep). Qed.

Lemma Split_no_sep s sep : contains_char sep s = false -> Split s sep = [s].
Proof.
  induction s as [|c s IH]; cbn; [done|]. intros H. split_bools.
  case_bool; [done|]. by rewrite IH.
Qed.

Lemma Split_app_sep s t sep :
  contains_char sep s = false ->
  Split (s +:+ String sep t) sep = s :: Split t sep.
Proof.
  induction s as [|c s IH]; cbn; intros H.
  - by rewrite bool_decide_eq_true_2.
  - split_bools. case_bool; [done|]. by rewrite IH.
Qed.

Lemma Split_Join l sep :
  l <> [] -> Forall (fun s => contains_char sep s = false) l ->
  Split (Join l (str1 sep)) sep = l.
Proof.
  unfold Join. intros Hne Hall. induction Hall as [|s l Hs Hall IH]; [done|].
  destruct l as [|s' l]; cbn [String.concat].
  - by apply Split_no_sep.
  - unfold str1 at 1. cbn [String.append]. rewrite Split_app_sep by done. f_equal. by apply IH.
Qed.

Lemma Join_Split s sep : Join (Split s sep) (str1 sep) = s.
Proof.
  unfold Join. induction s as [|c s IH]; cbn; [done|]. pose proof (Split_nonempty s sep).
  destruct (Split s sep) as [|h t]; [done|]. case_bool.
  - subst c. cbn in *. by rewrite <- IH.
  - destruct t; cbn in *; by rewrite <- IH.
Qed.

Lemma Split_chars s sep : Forall (fun t => contains_char sep t = false) (Split s sep).
Proof.
  induction s as [|c s IH]; cbn; [by repeat constructor|].
  case_bool; [by constructor|].
  destruct (Split s sep) as [|h t]; constructor; cbn.
  - rewrite bool_decide_eq_false_2 by congruence. done.
  - done.
  - inv IH. rewrite bool_decide_eq_false_2 by congruence. done.
  - by inv IH.
Qed.

(** ** Lemmas: Trim *)

Lemma TrimRightFunc_id p s :
  forall_chars (fun c => negb (p c)) s = true -> TrimRightFunc p s = s.
Proof.
  induction s as [|c s IH]; cbn; [done|]. intros H. split_bools.
  rewrite IH by done. destruct s; [|done]. match goal with H : p c = false |- _ => by rewrite H end.
Qed.

Lemma TrimRightFunc_last p s t c :
  p c = false -> forall_chars p t = true ->
  TrimRightFunc p (s +:+ String c t) = s +:+ str1 c.
Proof.
  intros Hc Ht. induction s as [|d s IH]; cbn.
  - assert (TrimRightFunc p t = EmptyString) as ->.
    { induction t as [|d t IHt]; cbn in *; [done|]. split_bools. rewrite IHt by done.
      match goal with H : p d = true |- _ => by rewrite H end. }
    by rewrite Hc.
  - rewrite IH. destruct s; done.
Qed.

Lemma TrimRightFunc_end p s :
  TrimRightFunc p s = EmptyString \/
  exists t c, TrimRightFunc p s = t +:+ str1 c /\ p c = false.
Proof.
  induction s as [|d s IH]; cbn; [by left|].
  destruct IH as [->|(t & c & -> & Hc)].
  - destruct (p d) eqn:Hd; [by left|]. right. by exists EmptyString, d.
  - right. exists (String d t), c. split; [|done]. by destruct t.
Qed.

Lemma rev_app_app s1 s2 s3 :
  String.rev_app (s1 +:+ s2) s3 = String.rev_app s2 (String.rev_app s1 s3).
Proof. revert s3. induction s1 as [|c s1 IH]; intros s3; [done|]. apply IH. Qed.

Lemma HasSuffix_char s c d : HasSuffix (s +:+ str1 c) (str1 d) = bool_decide (c = d).
Proof.
  unfold HasSuffix, String.rev. rewrite rev_app_app. cbn.
  destruct (Ascii.ascii_dec d c) as [->|Hne].
  - rewrite bool_decide_true by done. by destruct (String.rev_app s "").
  - by rewrite bool_decide_false by congruence.
Qed.

(** ** Lemmas: replacing *)

Lemma ReplaceAll_char_app s1 s2 old new :
  ReplaceAll_char (s1 +:+ s2) old new
  = ReplaceAll_char s1 old new +:+ ReplaceAll_char s2 old new.
Proof.
  induction s1 as [|c s1 IH]; cbn; [done|]. case_bool; cbn; rewrite IH; [|done].
  by rewrite app_assoc_str.
Qed.

Lemma ReplaceAll_char_id s old new :
  contains_char old s = false -> ReplaceAll_char s old new = s.
Proof.
  induction s as [|c s IH]; cbn; [done|]. intros H. split_bools.
  case_bool; [done|]. by rewrite IH.
Qed.

(** ** Lemmas: sorting strings *)

Lemma sort_Strings_perm l : sort_Strings l ≡ₚ l.
Proof. apply merge_sort_Permutation. Qed.

Lemma sort_Strings_ext l1 l2 : l1 ≡ₚ l2 -> sort_Strings l1 = sort_Strings l2.
Proof.
  intros H. apply (StronglySorted_unique String.le).
  - apply StronglySorted_merge_sort; apply _.
  - apply StronglySorted_merge_sort; apply _.
  - by rewrite !sort_Strings_perm.
Qed.

Lemma sort_Strings_eq_perm l1 l2 : sort_Strings l1 = sort_Strings l2 <-> l1 ≡ₚ l2.
Proof.
  split; [|apply sort_Strings_ext].
  intros H. by rewrite <- (sort_Strings_perm l1), H, sort_Strings_perm.
Qed.

(** ** Iterating over a set of keys *)

Section range.
Context `{RangeOrderOk}.

Lemma elem_of_range_keys site ks x : x ∈ range_keys site ks <-> x ∈ ks.
Proof. rewrite range_keys_perm. apply elem_of_elements. Qed.

Lemma NoDup_range_keys site ks : NoDup (range_keys site ks).
Proof. rewrite range_keys_perm. apply NoDup_elements. Qed.

Lemma range_keys_nil site ks : range_keys site ks = [] <-> ks = ∅.
Proof.
  split.
  - intros Hnil. apply set_eq. intros x. rewrite <- (elem_of_range_keys site), Hnil.
    set_solver.
  - intros ->. apply Permutation_nil_r. by rewrite range_keys_perm, elements_empty.
Qed.

End range.

Lemma elem_of_key_set x l : x ∈ key_set l <-> x ∈ l.
Proof. unfold key_set. by rewrite elem_of_list_to_set. Qed.

Lemma elements_order_ok : RangeOrderOk elements_order.
Proof. by intros site ks. Qed.

#[export] Hint Resolve Split_nonempty Split_chars NoDup_range_keys elements_order_ok : go.
#[export] Hint Rewrite app_nil_r_str contains_char_app forall_chars_app elem_of_key_set : go.

(** ** Quoting, as [%q] does *)

Definition hex_digit (n : nat) : string :=
  match String.get n "0123456789abcdef" with Some c => str1 c | None => ""%string end.

(** One byte of a Go string literal. Bytes from 128 on are copied, which is right for
    the printable characters of valid UTF-8. *)
Definition quote_byte (c : ascii) : string :=
  let n := nat_of_ascii c in
  let backslash := "\"%string in
  if bool_decide (c = dquote) then backslash +:+ str1 dquote
  else if Nat.eqb n 92 then backslash +:+ backslash
  else if Nat.eqb n 7 then backslash +:+ "a"
  else if Nat.eqb n 8 then backslash +:+ "b"
  else if Nat.eqb n 12 then backslash +:+ "f"
  else if Nat.eqb n 10 then backslash +:+ "n"
  else if Nat.eqb n 13 then backslash +:+ "r"
  else if Nat.eqb n 9 then backslash +:+ "t"
  else if Nat.eqb n 11 then backslash +:+ "v"
  else if Nat.ltb n 32 || Nat.eqb n 127
  then backslash +:+ "x" +:+ hex_digit (n / 16) +:+ hex_digit (n mod 16)
  else str1 c.

Fixpoint quote_bytes (s : string) : string :=
  match s with EmptyString => EmptyString | String c s' => quote_byte c +:+ quote_bytes s' end.

(** [fmt.Sprintf("%q", s)]. *)
Definition Quote (s : string) : string := str1 dquote +:+ quote_bytes s +:+ str1 dquote.

(** ** Numbers in text *)

Definition is_digit (c : ascii) : bool :=
  let n := nat_of_ascii c in Nat.leb 48 n && Nat.leb n 57.

Fixpoint digits_value (s : string) (acc : Z) : option Z :=
  match s with
  | EmptyString => Some acc
  | String c s' =>
      if is_digit c then digits_value s' (acc * 10 + Z.of_nat (nat_of_ascii c - 48))
      else None
  end.

(** [strconv.Atoi]: an optional sign and decimal digits, within the range of an int. *)
Definition Atoi (s : string) : option Z :=
  let '(neg, ds) := match s with
                    | String "-" t => (true, t)
                    | String "+" t => (false, t)
                    | _ => (false, s)
                    end in
  if bool_decide (ds = "") then None
  else match digits_value ds 0 with
       | Some v => let v := (if neg : bool then - v else v)%Z in
                   if decide (MinInt64 <= v <= MaxInt64)%Z then Some v else None
       | None => None
       end.

Definition MaxUint64 : Z := 18446744073709551615.

(** The digits of [strconv.ParseUint(s, 10, 64)]: a bad character and an overflow are
    found by the same pass, so that the first one decides. *)
Inductive number := Number (n : Z) | BadSyntax | OutOfRange.

Fixpoint parse_digits (s : string) (n : Z) : number :=
  match s with
  | EmptyString => Number n
  | String c s' =>
      if is_digit c then
        let n := (n * 10 + Z.of_nat (nat_of_ascii c - 48))%Z in
        if decide (MaxUint64 < n)%Z then OutOfRange else parse_digits s' n
      else BadSyntax
  end.

(** The value [strconv.ParseInt(s, 10, 64)] returns, also with an error: zero for a bad
    syntax, the nearest bound when it is out of range. *)
Definition ParseInt64 (s : string) : Z :=
  let '(neg, ds) := match s with
                    | String "-" t => (true, t)
                    | String "+" t => (false, t)
                    | _ => (false, s)
                    end in
  let bound := if (neg : bool) then MinInt64 else MaxInt64 in
  if bool_decide (ds = "") then 0%Z
  else match parse_digits ds 0 with
       | Number n => let v := (if neg : bool then - n else n)%Z in
                     if decide (MinInt64 <= v <= MaxInt64)%Z then v else bound
       | BadSyntax => 0%Z
       | OutOfRange => bound
       end.

(** [strconv.FormatInt(z, 10)], and [%d] of [fmt]. *)
Definition FormatInt (z : Z) : string := pretty.pretty z.

Lemma pretty_N_char_digit n :
  (n < 10)%N -> is_digit (pretty.pretty_N_char n) = true /\
  Z.of_nat (nat_of_ascii (pretty.pretty_N_char n) - 48) = Z.of_N n.
Proof.
  intros Hn. destruct n as [|p]; [done|].
  do 4 (destruct p as [p|p|]; [| |by split]); lia.
Qed.

(** The digits of a number, followed by others, are read as the number shifted. *)
Lemma parse_digits_pretty x s :
  (Z.of_N x <= MaxUint64)%Z -> parse_digits (pretty.pretty_N_go x s) 0 = parse_digits s (Z.of_N x).
Proof.
  revert s. induction (N.lt_wf_0 x) as [x _ IH]; intros s Hx.
  destruct (decide (x = 0)%N) as [->|Hne]; [by rewrite pretty.pretty_N_go_0|].
  rewrite pretty.pretty_N_go_step by lia.
  pose proof (N.div_lt x 10 ltac:(lia) ltac:(lia)). pose proof (N.mod_lt x 10 ltac:(lia)).
  pose proof (N.div_mod x 10 ltac:(lia)).
  rewrite IH by lia. cbn.
  destruct (pretty_N_char_digit (x `mod` 10)) as [-> ->]; [lia|].
  rewrite decide_False by lia. f_equal. lia.
Qed.

Lemma pretty_N_go_nonempty x s : s <> "" -> pretty.pretty_N_go x s <> "".
Proof.
  revert s. induction (N.lt_wf_0 x) as [x _ IH]; intros s Hs.
  destruct (decide (x = 0)%N) as [->|Hne]; [by rewrite pretty.pretty_N_go_0|].
  rewrite pretty.pretty_N_go_step by lia. apply IH; [|done]. by apply N.div_lt; lia.
Qed.

Lemma parse_pretty_pos p :
  (Zpos p <= MaxUint64)%Z ->
  parse_digits (pretty.pretty (Npos p)) 0 = Number (Zpos p) /\ pretty.pretty (Npos p) <> "".
Proof.
  intros Hp. unfold pretty.pretty, pretty.pretty_N. rewrite decide_False by done. split.
  - rewrite parse_digits_pretty by done. done.
  - rewrite pretty.pretty_N_go_step by lia. by apply pretty_N_go_nonempty.
Qed.

(** A printed number starts with a digit, not with a sign. *)
Lemma pretty_pos_no_sign p c s :
  pretty.pretty (Npos p) = String c s -> (Zpos p <= MaxUint64)%Z -> is_digit c = true.
Proof.
  intros Heq Hp. destruct (parse_pretty_pos p Hp) as [Hd _]. rewrite Heq in Hd. cbn in Hd.
  by destruct (is_digit c).
Qed.

(** What is printed is read back. *)
Lemma ParseInt64_FormatInt z : in_int64 z -> ParseInt64 (FormatInt z) = z.
Proof.
  unfold in_int64, MinInt64, MaxInt64. intros Hz. destruct z as [|p|p]; [done| |].
  - change (FormatInt (Zpos p)) with (pretty.pretty (Npos p)).
    assert (Zpos p <= MaxUint64)%Z as Hp by (unfold MaxUint64; lia).
    destruct (parse_pretty_pos p Hp) as [Hd Hne].
    destruct (pretty.pretty (Npos p)) as [|c s] eqn:Heq; [done|].
    pose proof (pretty_pos_no_sign p c s Heq Hp) as Hc.
    unfold ParseInt64. cbv zeta.
    assert (match String c s with
            | String "-" t => (true, t) | String "+" t => (false, t) | _ => (false, String c s)
            end = (false, String c s)) as ->.
    { destruct c as [[] [] [] [] [] [] [] []]; cbn in Hc; done. }
    rewrite Hd, bool_decide_false by done. rewrite decide_True; [done|]. unfold MinInt64, MaxInt64; lia.
  - change (FormatInt (Zneg p)) with (String "-" (pretty.pretty (Npos p))).
    assert (Zpos p <= MaxUint64)%Z as Hp by (unfold MaxUint64; lia).
    destruct (parse_pretty_pos p Hp) as [Hd Hne].
    unfold ParseInt64. rewrite Hd, bool_decide_false by done.
    rewrite decide_True; [done|]. unfold MinInt64, MaxInt64; lia.
Qed.
