(* ===== verification/GoPaths.v ===== *)
(** * What the factory uses of [path], [net/url] and [time], and pkg/utils/nightly.go

    [path.Join] and [path.Clean], the encoding of a query, the two date layouts. *)

From S2P Require Import Prelude GoStrings.

(** ** Definitions: paths *)

(** One element of a path; [stack] are the elements before it, the last one first. *)
Definition clean_step (rooted : bool) (stack : list string) (elem : string) : list string :=
  if bool_decide (elem = "" \/ elem = ".") then stack
  else if bool_decide (elem = "..") then
    match stack with
    | x :: stack' => if bool_decide (x = "..") then elem :: stack else stack'
    | [] => if rooted then [] else [elem]
    end
  else elem :: stack.

(** [path.Clean]. *)
Definition Clean (p : string) : string :=
  let rooted := HasPrefix p "/" in
  let elems := reverse (foldl (clean_step rooted) [] (Split p "/"%char)) in
  let res := (if rooted then "/" else "") +:+ Join elems "/" in
  if bool_decide (res = "") then "." else res.

(** [path.Join] of two elements. *)
Definition path_Join (a b : string) : string :=
  match filter (fun s => s <> "") [a; b] with
  | [] => ""
  | l => Clean (Join l "/")
  end.

(** [path.Base] and [path.Dir], for a path that is clean and has a slash inside. *)
Definition path_Base (p : string) : string :=
  match LastIndex_char "/"%char p with Some i => drop_str (S i) p | None => p end.
Definition path_Dir (p : string) : string :=
  match LastIndex_char "/"%char p with Some i => Clean (String.substring 0 i p) | None => "." end.

(** ** Definitions: queries *)

Definition hex_upper (n : nat) : ascii :=
  ascii_of_nat (if Nat.ltb n 10 then 48 + n else 55 + n).

Definition is_unreserved (c : ascii) : bool :=
  IsLetter c || is_digit c || contains_char c "-_.~".

(** [url.QueryEscape]. *)
Fixpoint QueryEscape (s : string) : string :=
  match s with
  | EmptyString => EmptyString
  | String c s' =>
      (if is_unreserved c then str1 c
       else if bool_decide (c = " "%char) then "+"
       else let n := nat_of_ascii c in
            String "%" (String (hex_upper (n / 16)) (str1 (hex_upper (n mod 16))))) +:+
      QueryEscape s'
  end.

(** [url.Values.Encode], where every key has one value. *)
Definition Encode (v : gmap string string) : string :=
  Join ((fun k => QueryEscape k +:+ "=" +:+ QueryEscape (default "" (v !! k))) <$>
          sort_Strings (elements (dom v))) "&".

(** ** Definitions: dates *)

(** A year, a month and a day, ordered. *)
Definition date : Type := Z * Z * Z.

Definition date_after (a b : date) : bool :=
  let key (d : date) := let '(y, m, d) := d in (y * 10000 + m * 100 + d)%Z in
  bool_decide (key b < key a)%Z.

Definition is_leap (y : Z) : bool :=
  bool_decide (y mod 4 = 0)%Z && (negb (bool_decide (y mod 100 = 0)%Z) || bool_decide (y mod 400 = 0)%Z).

Definition days_in (m y : Z) : Z :=
  if bool_decide (m = 2)%Z then if is_leap y then 29 else 28
  else if bool_decide (m = 4 \/ m = 6 \/ m = 9 \/ m = 11)%Z then 30 else 31.

(** A number of exactly [n] digits at the beginning of a string, and what follows. *)
Fixpoint digits_prefix (n : nat) (s : string) (acc : Z) : option (Z * string) :=
  match n, s with
  | O, _ => Some (acc, s)
  | S n', String c s' =>
      if is_digit c
      then digits_prefix n' s' (acc * 10 + (Z.of_nat (nat_of_ascii c) - 48))%Z
      else None
  | S _, EmptyString => None
  end.

(** [time.Parse("2006-01-02", s)]. *)
Definition parse_date (s : string) : option date :=
  match digits_prefix 4 s 0 with
  | Some (y, String "-" s) =>
      match digits_prefix 2 s 0 with
      | Some (m, String "-" s) =>
          match digits_prefix 2 s 0 with
          | Some (d, EmptyString) =>
              if bool_decide (1 <= m <= 12)%Z && bool_decide (1 <= d <= days_in m y)%Z
              then Some (y, m, d) else None
          | _ => None
          end
      | _ => None
      end
  | _ => None
  end.

(** The date of a number of days since 1970-01-01. Years are counted from March, in eras of
    400 years, 146097 days each. *)
Definition civil_date (days : Z) : date :=
  (let z := days + 719468 in
   let era := z / 146097 in
   let doe := z mod 146097 in
   let yoe := (doe - doe / 1460 + doe / 36524 - doe / 146096) / 365 in
   let doy := doe - (365 * yoe + yoe / 4 - yoe / 100) in
   let mp := (5 * doy + 2) / 153 in
   let d := doy - (153 * mp + 2) / 5 + 1 in
   let m := if bool_decide (mp < 10) then mp + 3 else mp - 9 in
   let y := yoe + era * 400 + (if bool_decide (m <= 2) then 1 else 0) in
   (y, m, d))%Z.

(** A number with at least [width] digits. *)
Definition padded (width : nat) (n : Z) : string :=
  let s := FormatInt n in
  String.concat "" (replicate (width - String.length s) "0") +:+ s.

(** [t.In(time.UTC).Format("2006-01-02T15:04:05Z")] of a number of seconds since 1970. *)
Definition format_UTC (t : Z) : string :=
  let '(y, m, d) := civil_date (t / 86400) in
  let s := (t mod 86400)%Z in
  padded 4 y +:+ "-" +:+ padded 2 m +:+ "-" +:+ padded 2 d +:+ "T" +:+
  padded 2 (s / 3600) +:+ ":" +:+ padded 2 (s mod 3600 / 60) +:+ ":" +:+ padded 2 (s mod 60) +:+ "Z".

(** ** Definitions: nightly versions (pkg/utils/nightly.go) *)

(** [parse] is [time.Parse] with the layout. *)
Definition IsNightlyVersionAfter (version : string) (parse : string -> option date) (d : date)
  : bool :=
  if HasPrefix version "nightly-" then
    match parse (drop_str (String.length "nightly-") version) with
    | Some t => date_after t d
    | None => false
    end
  else false.

Definition IsRisingWaveNightlyVersionAfter (version : string) (d : date) : bool :=
  IsNightlyVersionAfter version parse_date d.

(** ** Examples *)

Example Join_examples :
  (path_Join "" "hummock", path_Join "root/" "/a//b/../c", path_Join "/x" "", path_Join "" "",
   path_Join "../a" "../..", path_Base "/license/license.jwt", path_Dir "/license/license.jwt") =
  ("hummock", "root/a/c", "/x", "", "../..", "license.jwt", "/license").
Proof. vm_compute. reflexivity. Qed.

Example Encode_example :
  Encode {[ "sslmode" := "verify full"; "a&b" := "x/y" ]} = "a%26b=x%2Fy&sslmode=verify+full".
Proof. vm_compute. reflexivity. Qed.

Example format_UTC_examples :
  (format_UTC 0, format_UTC 951782400, format_UTC 1735689599) =
  ("1970-01-01T00:00:00Z", "2000-02-29T00:00:00Z", "2024-12-31T23:59:59Z").
Proof. vm_compute. reflexivity. Qed.

Example nightly_examples :
  (IsRisingWaveNightlyVersionAfter "nightly-20240101" (2023, 7, 14)%Z,
   IsRisingWaveNightlyVersionAfter "nightly-2024-01-01" (2023, 7, 14)%Z,
   IsRisingWaveNightlyVersionAfter "nightly-2023-02-29" (2000, 7, 14)%Z) = (false, true, false).
Proof. vm_compute. reflexivity. Qed.
