(* ===== verification/Features.v ===== *)
(** * pkg/features/feature_manager.go: the switches of the operator

    The features the operator knows, each on or off, and the flag that sets them. The manager
    holds copies of the features, so that a map from names to features is all its state. *)

From S2P Require Import Prelude GoStrings.

(** ** Definitions *)

Definition EnableOpenKruiseFeature : string := "EnableOpenKruise".
Definition EnableForceUpdate : string := "EnableForceUpdate".
Definition RandomSecretStorePrivateKey : string := "RandomSecretStorePrivateKey".

Inductive FeatureStage := Alpha | Beta.

Record Feature := {
  ft_Name : string;
  ft_Description : string;
  ft_Enabled : bool;
  ft_DefaultEnable : bool;
  ft_Stage : FeatureStage;
}.

Definition set_ft_Enabled (b : bool) (f : Feature) : Feature :=
  {| ft_Name := ft_Name f; ft_Description := ft_Description f; ft_Enabled := b;
     ft_DefaultEnable := ft_DefaultEnable f; ft_Stage := ft_Stage f |}.

Definition SupportedFeatureList : list Feature :=
  [{| ft_Name := EnableOpenKruiseFeature;
      ft_Description := "This feature enables open kruise as an optional provider";
      ft_Enabled := false; ft_DefaultEnable := false; ft_Stage := Beta |};
   {| ft_Name := EnableForceUpdate;
      ft_Description := "This feature enables force resolve version conflict due to operator update";
      ft_Enabled := false; ft_DefaultEnable := true; ft_Stage := Beta |};
   {| ft_Name := RandomSecretStorePrivateKey;
      ft_Description := "This feature enables the random generation of a secret store private key if it is not set";
      ft_Enabled := false; ft_DefaultEnable := false; ft_Stage := Alpha |}].

(** The feature map of the manager. *)
Abbreviation FeatureManager := (gmap string Feature).

Definition NewRisingWaveFeatureManager : FeatureManager := ∅.
Definition addFeature (feature : Feature) (m : FeatureManager) : FeatureManager :=
  <[ft_Name feature := feature]> m.

Definition InitFeatureManagerWithSupportedFeatures (supportedFeatureList : list Feature)
  : FeatureManager :=
  foldl (fun m f => addFeature (set_ft_Enabled (ft_DefaultEnable f) f) m)
    NewRisingWaveFeatureManager supportedFeatureList.

Definition IsFeatureExist (name : string) (m : FeatureManager) : bool :=
  bool_decide (is_Some (m !! name)).

(** The manager, and the error. *)
Definition setFeatureEnable (name : string) (enable : bool) (m : FeatureManager)
  : option string * FeatureManager :=
  if IsFeatureExist name m then (None, alter (set_ft_Enabled enable) name m)
  else (Some ("the following feature does not exist: " +:+ name), m).

Definition IsFeatureEnabled (name : string) (m : FeatureManager) : bool :=
  match m !! name with Some f => ft_Enabled f | None => false end.
Definition EnableFeature (name : string) (m : FeatureManager) := setFeatureEnable name true m.
Definition DisableFeature (name : string) (m : FeatureManager) := setFeatureEnable name false m.
Definition GetNumOfFeatures (m : FeatureManager) : nat := size m.

Definition GetFeature (name : string) (m : FeatureManager) : result string Feature :=
  match m !! name with
  | Some f => Ok f
  | None => Err ("the following feature does not exist: " +:+ name)
  end.

(** The features in the order in which the map is ranged over. *)
Definition features_at `{RangeOrder} (site : string) (m : FeatureManager) : list Feature :=
  omap (fun k => m !! k) (range_keys site (dom m)).
Definition ListFeatures `{RangeOrder} (m : FeatureManager) : list Feature :=
  features_at "ListFeatures" m.
Definition ListEnabledFeatures `{RangeOrder} (m : FeatureManager) : list Feature :=
  filter (fun f => ft_Enabled f = true) (features_at "ListEnabledFeatures" m).
Definition ListDisabledFeatures `{RangeOrder} (m : FeatureManager) : list Feature :=
  filter (fun f => ft_Enabled f = false) (features_at "ListDisabledFeatures" m).

(** [strconv.ParseBool]. *)
Definition ParseBool (s : string) : option bool :=
  if bool_decide (s ∈ ["1"; "t"; "T"; "TRUE"; "true"; "True"]) then Some true
  else if bool_decide (s ∈ ["0"; "f"; "F"; "FALSE"; "false"; "False"]) then Some false
  else None.

Definition parseFeatureString (featureString : string) : result string (string * bool) :=
  match Split featureString "="%char with
  | [name; status] =>
      let featureName := TrimSpace name in
      if bool_decide (featureName = "") then Err ("invalid feature name given: " +:+ featureName)
      else match ParseBool (TrimSpace status) with
           | Some enabled => Ok (featureName, enabled)
           | None => Err ("invalid feature status: " +:+ featureString +:+ ", parse failed")
           end
  | _ => Err ("invalid feature syntax given: " +:+ featureString)
  end.

(** The loop over the arguments: a feature that is not known is ignored, and an error ends
    the loop, after the arguments before it have taken effect. *)
Fixpoint parse_gates (args : list string) (m : FeatureManager) : option string * FeatureManager :=
  match args with
  | [] => (None, m)
  | featureString :: args' =>
      match parseFeatureString featureString with
      | Err err => (Some err, m)
      | Ok (featureName, enabled) =>
          parse_gates args' (alter (set_ft_Enabled enabled) featureName m)
      end
  end.

Definition ParseFromFeatureGateString (featureGateString : string) (m : FeatureManager)
  : outcome (option string * FeatureManager) :=
  if bool_decide (featureGateString = "") then Done (None, m)
  else
    let featureGateString := TrimSpace featureGateString in
    match featureGateString with
    | EmptyString => Panic "slice bounds out of range"
    | String c _ =>
        if negb (IsLetter c) then
          Done (Some ("parsing error of feature gate string: " +:+ featureGateString), m)
        else Done (parse_gates (Split featureGateString ","%char) m)
    end.

Definition InitFeatureManager (supportedFeatureList : list Feature) (featureGateString : string)
  : outcome FeatureManager :=
  r ← ParseFromFeatureGateString featureGateString
        (InitFeatureManagerWithSupportedFeatures supportedFeatureList);
  match r with
  | (None, m) => Done m
  | (Some _, _) => Panic "Invalid value given to feature-gates argument"
  end.

(** ** Lemmas *)

(** What the parser never changes: everything but the switches. *)
Definition same_features (m m' : FeatureManager) : Prop :=
  forall k, set_ft_Enabled false <$> m !! k = set_ft_Enabled false <$> m' !! k.

Lemma same_features_refl m : same_features m m.
Proof. done. Qed.

Lemma same_features_trans m1 m2 m3 :
  same_features m1 m2 -> same_features m2 m3 -> same_features m1 m3.
Proof. intros H1 H2 k. by rewrite H1, H2. Qed.

Lemma same_features_alter m b k : same_features m (alter (set_ft_Enabled b) k m).
Proof.
  intros k'. destruct (decide (k = k')) as [->|Hne]; [|by rewrite lookup_alter_ne].
  rewrite lookup_alter_eq. by destruct (m !! k').
Qed.

Lemma parse_gates_same args m : same_features m (parse_gates args m).2.
Proof.
  revert m. induction args as [|a args IH]; intros m; [apply same_features_refl|]. cbn [parse_gates].
  destruct (parseFeatureString a) as [[n b]|err]; [|apply same_features_refl].
  eapply same_features_trans; [apply same_features_alter|apply IH].
Qed.

(** The switches the valid pairs set, later ones last. *)
Definition apply_gates (gates : list (string * bool)) (m : FeatureManager) : FeatureManager :=
  foldl (fun m g => alter (set_ft_Enabled g.2) g.1 m) m gates.

(** The last value given to a feature. *)
Definition last_gate (name : string) (gates : list (string * bool)) : option bool :=
  foldl (fun r g => if bool_decide (g.1 = name) then Some g.2 else r) None gates.

Lemma apply_gates_lookup gates m name :
  apply_gates gates m !! name =
  (fun f => match last_gate name gates with Some b => set_ft_Enabled b f | None => f end) <$> m !! name.
Proof.
  unfold apply_gates, last_gate. induction gates as [|[n b] gates IH] using rev_ind.
  - cbn. by destruct (m !! name).
  - rewrite !foldl_app. cbn [foldl fst snd]. case_bool; subst.
    + rewrite lookup_alter_eq, IH. destruct (m !! name) as [f|]; [|done]. cbn.
      by destruct (foldl _ None gates).
    + by rewrite lookup_alter_ne.
Qed.

(** The gates a list of arguments gives until the first that is not valid. *)
Fixpoint valid_gates (args : list string) : list (string * bool) * bool :=
  match args with
  | [] => ([], true)
  | a :: args' =>
      match parseFeatureString a with
      | Ok g => let r := valid_gates args' in (g :: r.1, r.2)
      | Err _ => ([], false)
      end
  end.

Lemma parse_gates_spec args m :
  (parse_gates args m).2 = apply_gates (valid_gates args).1 m /\
  ((parse_gates args m).1 = None <-> (valid_gates args).2 = true).
Proof.
  revert m. induction args as [|a args IH]; intros m; [done|]. cbn [parse_gates valid_gates].
  destruct (parseFeatureString a) as [[n b]|err]; [|done]. apply IH.
Qed.

(** ** Printing *)

Definition print_gate (g : string * bool) : string :=
  g.1 +:+ "=" +:+ (if g.2 then "true" else "false").
Definition print_gates (gates : list (string * bool)) : string := Join (print_gate <$> gates) ",".

(** A name that can be given in the flag: it starts with a letter, does not end in white space,
    and has none of the bytes of white space or of the flag's own syntax. *)
Definition gate_name (name : string) : bool :=
  match name with
  | EmptyString => false
  | String c _ => IsLetter c
  end && bool_decide (TrimSpace name = name) &&
  forall_chars (fun c => negb (is_space c || bool_decide (c = "="%char) ||
                                      bool_decide (c = ","%char))) name.

Definition gate_char (c : ascii) : bool :=
  negb (is_space c || bool_decide (c = "="%char) || bool_decide (c = ","%char)).

Lemma letter_plain c : IsLetter c = true -> plain_end space_runes c = true.
Proof. destruct c as [[] [] [] [] [] [] [] []]; vm_compute; done. Qed.

Lemma list_ascii_app s t :
  String.list_ascii_of_string (s +:+ t) = String.list_ascii_of_string s ++ String.list_ascii_of_string t.
Proof. induction s as [|c s IH]; [done|]. cbn. by rewrite IH. Qed.

(** A text from a letter to the letter that ends a value. *)
Lemma TrimSpace_letter c s t :
  String c s = t +:+ "e" -> IsLetter c = true -> TrimSpace (String c s) = String c s.
Proof.
  intros Hs Hc. apply (TrimSpace_ends c _ (String.list_ascii_of_string t) "e"%char).
  - by rewrite Hs, list_ascii_app.
  - apply (f_equal String.list_ascii_of_string) in Hs. rewrite list_ascii_app in Hs.
    cbn [String.list_ascii_of_string] in Hs. by rewrite <-Hs.
  - by apply letter_plain.
  - vm_compute. reflexivity.
Qed.

Lemma gate_name_chars name : gate_name name = true -> forall_chars gate_char name = true.
Proof. unfold gate_name. by intros [_ H]%andb_true_iff. Qed.

Lemma gate_name_trimmed name : gate_name name = true -> TrimSpace name = name.
Proof. unfold gate_name. intros [[_ H]%andb_true_iff _]%andb_true_iff. by case_bool. Qed.

Lemma print_gate_chars g p :
  gate_name g.1 = true -> (forall c, gate_char c = true -> p c = true) ->
  p "="%char = true -> forall_chars p (print_gate g) = true.
Proof.
  intros Hg Hp Heq. unfold print_gate. rewrite !forall_chars_app. cbn [forall_chars].
  rewrite (forall_chars_impl _ _ _ Hp (gate_name_chars _ Hg)), Heq.
  apply (forall_chars_impl gate_char); [done|]. by destruct g.2.
Qed.

Lemma parse_print_gate g : gate_name g.1 = true -> parseFeatureString (print_gate g) = Ok g.
Proof.
  intros Hg. pose proof (gate_name_chars _ Hg) as Hc. unfold parseFeatureString, print_gate.
  destruct g as [name b]. cbn [fst snd] in *.
  change (name +:+ "=" +:+ ?s) with (name +:+ String "="%char s).
  rewrite Split_app_sep by (by eapply forall_chars_no).
  rewrite Split_no_sep by by destruct b.
  rewrite gate_name_trimmed by done.
  rewrite bool_decide_false by by destruct name. by destruct b.
Qed.

Lemma valid_print_gates gates :
  Forall (fun g => gate_name g.1 = true) gates ->
  valid_gates (print_gate <$> gates) = (gates, true).
Proof.
  induction 1 as [|g gates Hg _ IH]; [done|]. cbn. by rewrite parse_print_gate, IH.
Qed.

Lemma print_gates_first g gates :
  gate_name g.1 = true -> exists c s, print_gates (g :: gates) = String c s /\ IsLetter c = true.
Proof.
  intros Hg. destruct g as [[|c name] b]; [done|].
  unfold gate_name in Hg. apply andb_true_iff in Hg as [[Hc _]%andb_true_iff _]. cbn [fst] in Hc.
  exists c. unfold print_gates, Join. destruct (print_gate <$> gates) as [|s l] eqn:Hl; cbn;
    rewrite Hl; eexists; (split; [reflexivity|done]).
Qed.

(** Both values end in the same letter. *)
Lemma print_gates_last g gates : exists t, print_gates (g :: gates) = t +:+ "e".
Proof.
  assert (forall g, exists t, print_gate g = t +:+ "e") as Hg.
  { intros [name []]; [exists (name +:+ "=tru")|exists (name +:+ "=fals")];
      unfold print_gate; by rewrite <-!app_assoc_str. }
  revert g. unfold print_gates, Join. induction gates as [|g' gates IH]; intros g; [apply Hg|].
  destruct (IH g') as [t Ht]. exists (print_gate g +:+ "," +:+ t).
  change (print_gate g +:+ "," +:+ String.concat "," (print_gate <$> (g' :: gates)) =
    (print_gate g +:+ "," +:+ t) +:+ "e").
  by rewrite Ht, <-!app_assoc_str.
Qed.

(** ** Properties *)

(** C38: The flag is read back: for any list of features whose names can be written in it
    ([gate_name]) and of values, the flag that names them sets each feature the operator knows to the last value given to it and leaves the others, and
    is accepted, whether the features are known or not. *)
Theorem feature_gates_read gates m :
  Forall (fun g => gate_name g.1 = true) gates ->
  exists m', ParseFromFeatureGateString (print_gates gates) m = Done (None, m') /\
    same_features m m' /\
    forall name, IsFeatureEnabled name m' =
      IsFeatureExist name m && default (IsFeatureEnabled name m) (last_gate name gates).
Proof.
  intros Hg. exists (apply_gates gates m).
  assert (forall name, IsFeatureEnabled name (apply_gates gates m) =
    IsFeatureExist name m && default (IsFeatureEnabled name m) (last_gate name gates)) as Hen.
  { intros name. unfold IsFeatureEnabled, IsFeatureExist. rewrite apply_gates_lookup.
    destruct (m !! name) as [ft|]; cbn; [|done]. by destruct (last_gate name gates). }
  destruct gates as [|g gates]; [by split|].
  destruct (parse_gates_spec (print_gate <$> (g :: gates)) m) as [Hm Hok].
  rewrite (valid_print_gates _ Hg) in Hm, Hok. cbn [fst snd] in Hm, Hok.
  split; [|split; [rewrite <-Hm; apply parse_gates_same|done]].
  destruct (print_gates_first g gates) as (c & s & Hs & Hc); [by inversion Hg|].
  unfold ParseFromFeatureGateString.
  assert (TrimSpace (print_gates (g :: gates)) = print_gates (g :: gates)) as ->.
  { destruct (print_gates_last g gates) as [t Ht]. rewrite Hs in Ht |- *.
    by eapply TrimSpace_letter. }
  rewrite bool_decide_false by by rewrite Hs. rewrite Hs at 1. rewrite Hc. cbn [negb].
  unfold print_gates. change "," with (str1 ","%char). rewrite Split_Join; [|done|].
  - destruct (parse_gates _ m) as [e m1]. cbn [fst snd] in Hm, Hok.
    rewrite Hm. by rewrite (proj2 Hok eq_refl).
  - apply Forall_fmap. eapply Forall_impl; [exact Hg|]. intros g' Hg'.
    apply (forall_chars_no _ (fun c => negb (bool_decide (c = ","%char)))); [|done].
    apply print_gate_chars; [done| |done]. intros c'. unfold gate_char.
    by destruct (is_space c'), (bool_decide (c' = "="%char)), (bool_decide (c' = ","%char)).
Qed.

(** Whatever the flag is, only switches of known features change, and the arguments before the
    first that is not valid have taken effect even when the flag is rejected; the only panic
    is that of a flag of white space. *)
Theorem feature_gates_any s m :
  match ParseFromFeatureGateString s m with
  | Done (e, m') => same_features m m' /\
      (m' = m \/ m' = apply_gates (valid_gates (Split (TrimSpace s) ","%char)).1 m)
  | Panic _ => s <> "" /\ TrimSpace s = ""
  end.
Proof.
  unfold ParseFromFeatureGateString. case_bool; [split; [apply same_features_refl|by left]|].
  destruct (TrimSpace s) as [|c t] eqn:Ht; [done|]. destruct (IsLetter c); cbn [negb].
  - destruct (parse_gates_spec (Split (String c t) ","%char) m) as [Hm _].
    pose proof (parse_gates_same (Split (String c t) ","%char) m) as Hsame.
    destruct (parse_gates _ m) as [e m']. split; [exact Hsame|right; exact Hm].
  - split; [apply same_features_refl|by left].
Qed.

(** The defaults: without a flag each supported feature is as declared. *)
Lemma supported_defaults :
  exists m, InitFeatureManager SupportedFeatureList "" = Done m /\
    IsFeatureEnabled EnableForceUpdate m = true /\
    IsFeatureEnabled EnableOpenKruiseFeature m = false /\
    IsFeatureEnabled RandomSecretStorePrivateKey m = false.
Proof. eexists. split; [reflexivity|]. by vm_compute. Qed.

(** The lists are those of the map, in some order. *)
Lemma features_at_perm `{RangeOrderOk} site (m : FeatureManager) :
  features_at site m ≡ₚ (map_to_list m).*2.
Proof.
  unfold features_at. rewrite range_keys_perm.
  assert (elements (dom m) ≡ₚ (map_to_list m).*1) as ->.
  { apply NoDup_Permutation; [apply NoDup_elements|apply NoDup_fst_map_to_list|].
    intros k. rewrite elem_of_elements, elem_of_dom, list_elem_of_fmap. split.
    - intros [f Hf]. exists (k, f). by rewrite elem_of_map_to_list.
    - intros ([k' f] & -> & Hf%elem_of_map_to_list). by exists f. }
  assert (Forall (fun kf => m !! kf.1 = Some kf.2) (map_to_list m)) as Hall.
  { apply Forall_forall. by intros [k f] Hf%elem_of_map_to_list. }
  induction Hall as [|[k f] l Hk _ IH]; [done|]. cbn in Hk |- *. rewrite Hk. by rewrite IH.
Qed.

Lemma Feature_lists `{RangeOrderOk} m :
  ListFeatures m ≡ₚ ListEnabledFeatures m ++ ListDisabledFeatures m.
Proof.
  unfold ListFeatures, ListEnabledFeatures, ListDisabledFeatures. rewrite !features_at_perm.
  induction (map_to_list m).*2 as [|f l IH]; [done|]. rewrite !filter_cons.
  destruct (ft_Enabled f) eqn:Hf.
  - rewrite decide_True, decide_False by done. by apply perm_skip.
  - rewrite decide_False, decide_True by done. rewrite <-Permutation_middle. by apply perm_skip.
Qed.

(** ** Witness *)

Lemma feature_gates_read_witness :
  exists m', ParseFromFeatureGateString "EnableOpenKruise=true,Unknown=true,EnableForceUpdate=false"
      (InitFeatureManagerWithSupportedFeatures SupportedFeatureList) = Done (None, m') /\
    IsFeatureEnabled EnableOpenKruiseFeature m' = true /\
    IsFeatureEnabled EnableForceUpdate m' = false /\ IsFeatureEnabled "Unknown" m' = false.
Proof.
  destruct (feature_gates_read [(EnableOpenKruiseFeature, true); ("Unknown", true); (EnableForceUpdate, false)]
    (InitFeatureManagerWithSupportedFeatures SupportedFeatureList)) as (m' & Hm & _ & He).
  - repeat constructor.
  - exists m'. split; [exact Hm|]. rewrite !He. vm_compute. repeat split.
Defined.

(** White space as the flag makes the operator panic. *)
Lemma feature_gates_white_space :
  ParseFromFeatureGateString " " ∅ = Panic "slice bounds out of range".
Proof. done. Qed.
