(* ===== verification/Password.v ===== *)
(** * pkg/utils/password.go, rand.go: generated passwords and keys

    The bytes of [crypto/rand] are an argument: the answer to each reading, which may fail. A
    failed reading leaves out the character it was for, or the swap. *)

From S2P Require Import Prelude GoStrings GoMonad.

(** ** Definitions *)

Definition DefaultPasswordLength : Z := 16.
Definition lowercaseLetters : string := "abcdefghijklmnopqrstuvwxyz".
Definition uppercaseLetters : string := "ABCDEFGHIJKLMNOPQRSTUVWXYZ".
Definition digits : string := "0123456789".
Definition specialChars : string := "!@#$%^&*()_+-=[]{}|;:,.<>?".
Definition allChars : string := lowercaseLetters +:+ uppercaseLetters +:+ digits +:+ specialChars.

(** [rand.Int(rand.Reader, max)] and [rand.Read]: the [n]-th reading. *)
Class RandReader := {
  rand_Int : nat -> Z -> option Z;
  rand_Read : nat -> nat -> option (list ascii);
}.

(** A number below the bound, as many bytes as asked for. *)
Class RandReaderOk (R : RandReader) : Prop := {
  rand_Int_range n max r : rand_Int n max = Some r -> (0 <= r < max)%Z;
  rand_Read_length n k bytes : rand_Read n k = Some bytes -> length bytes = k;
}.

Section password.
Context `{R : RandReader}.
Abbreviation M := (GoM nat).

Definition randInt (max : Z) : M (option Z) := fun n => Done (rand_Int n max, S n).

(** [if idx, err := randInt(len(chars)); err == nil { password = append(password, chars[idx]) }]. *)
Definition append_random (chars : string) (password : list ascii) : M (list ascii) :=
  r ← randInt (Z.of_nat (String.length chars));
  match r with
  | None => mret password
  | Some idx =>
      match String.get (Z.to_nat idx) chars with
      | Some c => mret (password ++ [c])
      | None => panic "index out of range"
      end
  end.

Fixpoint fill (k : nat) (password : list ascii) : M (list ascii) :=
  match k with
  | O => mret password
  | S k => password ← append_random allChars password; fill k password
  end.

(** [data[i], data[j] = data[j], data[i]]. *)
Definition swap (i j : nat) (data : list ascii) : M (list ascii) :=
  match data !! i, data !! j with
  | Some x, Some y => mret (<[i := y]> (<[j := x]> data))
  | _, _ => panic "index out of range"
  end.

(** The loop from [i] down to 1. *)
Fixpoint shuffle_from (i : nat) (data : list ascii) : M (list ascii) :=
  match i with
  | O => mret data
  | S i' =>
      r ← randInt (Z.of_nat (S i));
      data ← match r with None => mret data | Some j => swap i (Z.to_nat j) data end;
      shuffle_from i' data
  end.
Definition shuffleBytes (data : list ascii) : M (list ascii) := shuffle_from (length data - 1) data.

Definition GenerateRandomPassword (length : Z) : M string :=
  let length := if bool_decide (length < 8)%Z then DefaultPasswordLength else length in
  password ← append_random lowercaseLetters [];
  password ← append_random uppercaseLetters password;
  password ← append_random digits password;
  password ← append_random specialChars password;
  password ← fill (Z.to_nat length - List.length password) password;
  password ← shuffleBytes password;
  mret (String.string_of_list_ascii password).

(** [hex.EncodeToString(b)] for random [b]. *)
Definition hex_of (c : ascii) : string :=
  let n := nat_of_ascii c in hex_digit (n / 16) +:+ hex_digit (n mod 16).
Definition RandomHex (n : nat) : M (option string) := fun t =>
  Done ((fun b => String.concat "" (hex_of <$> b)) <$> rand_Read t n, S t).
End password.

(** ** Lemmas *)

Lemma get_below chars i :
  i < String.length chars -> exists c, String.get i chars = Some c /\ contains_char c chars = true.
Proof.
  revert i. induction chars as [|d chars IH]; intros i Hi; cbn in Hi; [lia|].
  destruct i as [|i]; cbn.
  - exists d. split; [done|]. by rewrite bool_decide_true.
  - destruct (IH i) as (c & Hc & Hin); [lia|]. exists c. split; [done|]. by rewrite Hin, orb_true_r.
Qed.

Section spec.
Context `{R : RandReader} {RO : RandReaderOk R}.

Lemma append_random_wp chars password n :
  wp (append_random chars password)
    (fun p n' => n' = S n /\
       (rand_Int n (Z.of_nat (String.length chars)) = None /\ p = password \/
        exists c, contains_char c chars = true /\ p = password ++ [c])) n.
Proof.
  unfold append_random. apply wp_bind. unfold wp at 1, randInt.
  destruct (rand_Int n _) as [idx|] eqn:Hr; [|apply wp_ret; auto].
  apply rand_Int_range in Hr. destruct (get_below chars (Z.to_nat idx)) as (c & -> & Hc); [lia|].
  apply wp_ret. eauto.
Qed.

(** Every character is one of the alphabet, and there are at most [k] more. *)
Lemma fill_wp k password n :
  wp (fill k password)
    (fun p _ => exists l, p = password ++ l /\ length l <= k /\
       Forall (fun c => contains_char c allChars = true) l /\
       ((forall n max, (0 < max)%Z -> is_Some (rand_Int n max)) -> length l = k)) n.
Proof.
  revert password n. induction k as [|k IH]; intros password n; cbn [fill].
  { apply wp_ret. exists []. rewrite app_nil_r. auto. }
  apply wp_bind. eapply wp_mono; [apply append_random_wp|].
  intros p n' [-> [[Hr ->]|(c & Hc & ->)]]; (eapply wp_mono; [apply IH|]);
    intros p' _ (l & -> & Hl & Hall & Hlen).
  - exists l. split; [done|]. split; [lia|]. split; [done|]. intros Hok.
    destruct (Hok n (Z.of_nat (String.length allChars))) as [r Hr']; [done|congruence].
  - exists (c :: l). rewrite <-app_assoc. cbn. split; [done|]. split; [lia|].
    split; [by constructor|]. intros Hok. by rewrite Hlen.
Qed.

Lemma shuffle_wp data n : wp (shuffleBytes data) (fun d _ => d ≡ₚ data) n.
Proof.
  unfold shuffleBytes.
  enough (forall i d n, length d = length data -> d ≡ₚ data -> i < length d \/ i = 0 ->
    wp (shuffle_from i d) (fun d _ => d ≡ₚ data) n) as H by (apply H; [done|done|lia]).
  clear n. induction i as [|i IH]; intros d n Hlen Hp Hi; cbn [shuffle_from]; [by apply wp_ret|].
  apply wp_bind. unfold wp at 1, randInt. apply wp_bind.
  destruct (rand_Int n _) as [j|] eqn:Hr; [|apply wp_ret; apply IH; [done|done|lia]].
  apply rand_Int_range in Hr. unfold swap.
  destruct (lookup_lt_is_Some_2 d (S i)) as [x Hx]; [lia|].
  destruct (lookup_lt_is_Some_2 d (Z.to_nat j)) as [y Hy]; [lia|]. rewrite Hx, Hy. apply wp_ret.
  apply IH.
  - by rewrite !length_insert.
  - by rewrite (Permutation_insert_swap d (Z.to_nat j) (S i)).
  - rewrite !length_insert. lia.
Qed.

(** ** Properties *)

(** What a password is asked to have: one character of each kind. *)
Definition mixed (password : string) : Prop :=
  forall kind, kind ∈ [lowercaseLetters; uppercaseLetters; digits; specialChars] ->
    exists c, contains_char c kind = true /\ contains_char c password = true.

Lemma contains_char_list c l :
  contains_char c (String.string_of_list_ascii l) = true <-> c ∈ l.
Proof.
  induction l as [|d l IH]; cbn; [by rewrite elem_of_nil|].
  rewrite orb_true_iff, bool_decide_eq_true, elem_of_cons, IH. done.
Qed.

Lemma length_string_list l : String.length (String.string_of_list_ascii l) = length l.
Proof. induction l as [|c l IH]; cbn; congruence. Qed.

Definition always_reads : Prop := forall n max, (0 < max)%Z -> is_Some (rand_Int n max).

(** One more character, or none when the reading fails. *)
Lemma append_one chars password n :
  chars <> "" ->
  wp (append_random chars password)
    (fun p _ => exists l, p = password ++ l /\ length l <= 1 /\
       Forall (fun c => contains_char c chars = true) l /\ (always_reads -> length l = 1)) n.
Proof.
  intros Hne. eapply wp_mono; [apply append_random_wp|].
  intros p n' [_ [[Hr ->]|(c & Hc & ->)]]; [|exists [c]; auto].
  exists []. rewrite app_nil_r. split; [done|]. split; [cbn; lia|]. split; [done|]. intros Hok.
  destruct (Hok n (Z.of_nat (String.length chars))) as [r Hr']; [|congruence].
  destruct chars; [done|cbn; lia].
Qed.

Lemma kind_in_all kind c :
  kind ∈ [lowercaseLetters; uppercaseLetters; digits; specialChars] ->
  contains_char c kind = true -> contains_char c allChars = true.
Proof.
  rewrite !elem_of_cons, elem_of_nil. unfold allChars. rewrite !contains_char_app, !orb_true_iff.
  intros [->|[->|[->|[->|[]]]]]; tauto.
Qed.

Lemma all_chars_list l :
  Forall (fun c => contains_char c allChars = true) l ->
  forall_chars (fun c => contains_char c allChars) (String.string_of_list_ascii l) = true.
Proof. induction 1 as [|c l Hc _ IH]; [done|]. cbn [String.string_of_list_ascii forall_chars]. by rewrite Hc. Qed.

(** The length asked for, or the default. *)
Definition password_length (length : Z) : nat :=
  Z.to_nat (if bool_decide (length < 8)%Z then DefaultPasswordLength else length).

(** C37: A generated password has only characters of the alphabet, none of them a quote, and is
    not longer than asked for; when the random source never fails it has exactly the length
    asked for (16 for less than 8) and a character of each of the four kinds. *)
Theorem GenerateRandomPassword_spec len n :
  exists s n', GenerateRandomPassword len n = Done (s, n') /\
    forall_chars (fun c => contains_char c allChars) s = true /\
    contains_char squote s = false /\ contains_char dquote s = false /\
    String.length s <= password_length len /\
    (always_reads -> String.length s = password_length len /\ mixed s).
Proof.
  enough (wp (GenerateRandomPassword len) (fun s _ =>
    forall_chars (fun c => contains_char c allChars) s = true /\
    String.length s <= password_length len /\
    (always_reads -> String.length s = password_length len /\ mixed s)) n) as H.
  { unfold wp in H. destruct (GenerateRandomPassword len n) as [[s n']|]; [|done].
    destruct H as (Hs & Hl & Hok). exists s, n'. split; [done|]. split; [done|].
    split; [|split; [|done]]; by eapply forall_chars_no. }
  assert (8 <= password_length len) as H8.
  { unfold password_length, DefaultPasswordLength. case_bool_decide; lia. }
  unfold GenerateRandomPassword. fold (password_length len).
  do 4 (apply wp_bind; eapply wp_mono; [apply append_one; done|];
    let l := fresh "l" in intros ? ? (l & -> & ? & ? & ?)). cbn [app].
  apply wp_bind; eapply wp_mono; [apply fill_wp|]. intros p ? (l3 & -> & Hl3 & Hall3 & Hok3).
  apply wp_bind; eapply wp_mono; [apply shuffle_wp|]. cbv beta. intros d ? Hd. apply wp_ret.
  assert (Forall (fun c => contains_char c allChars = true) d) as Hall.
  { rewrite Hd, !Forall_app. split_and!; [..|exact Hall3];
      match goal with
      | |- Forall _ ?k => match goal with
          | Hk : Forall (fun c => contains_char c ?kind = true) k |- _ =>
              apply (Forall_impl _ _ _ Hk); intros c; apply (kind_in_all kind);
              rewrite !elem_of_cons; auto
          end
      end. }
  pose proof (Permutation_length Hd) as Hlen. repeat rewrite length_app in Hlen. rewrite !length_app in Hl3, Hok3.
  split; [by apply all_chars_list|]. rewrite length_string_list.
  split; [lia|]. intros Hok. specialize (Hok3 Hok).
  repeat match goal with Hk : always_reads -> _ |- _ => specialize (Hk Hok) end.
  split; [lia|].
  assert (forall k kind, k ⊆ d -> Forall (fun c => contains_char c kind = true) k -> length k = 1 ->
    exists c, contains_char c kind = true /\ contains_char c (String.string_of_list_ascii d) = true) as Hone.
  { intros [|c [|]] kind Hk Hkind Hlenk; try done. exists c. rewrite contains_char_list.
    split; [by inversion Hkind|]. apply Hk. left. }
  intros kind Hkind. rewrite !elem_of_cons, elem_of_nil in Hkind.
  destruct Hkind as [->|[->|[->|[->|[]]]]]; (eapply Hone; [|eassumption|assumption]);
    intros c Hc; rewrite Hd, !elem_of_app; auto.
Qed.
End spec.

(** ** Examples *)

(** When every reading fails the password is empty. *)
Definition no_randomness : RandReader :=
  {| rand_Int := fun _ _ => None; rand_Read := fun _ _ => None |}.
Lemma password_without_randomness :
  GenerateRandomPassword (R := no_randomness) 16 0 = Done ("", 20).
Proof. reflexivity. Qed.

Definition counting_reader : RandReader :=
  {| rand_Int := fun n max => if (0 <? max)%Z then Some (Z.of_nat n mod max)%Z else None;
     rand_Read := fun n k => Some (replicate k (ascii_of_nat n)) |}.
Lemma counting_reader_ok : RandReaderOk counting_reader.
Proof.
  split; cbn.
  - intros n max r. destruct (Z.ltb_spec 0 max); [|done]. intros [= <-].
    by apply Z.mod_pos_bound.
  - intros n k bytes [= <-]. apply length_replicate.
Qed.

Lemma GenerateRandomPassword_spec_witness :
  exists s n', GenerateRandomPassword (R := counting_reader) 5 0 = Done (s, n') /\
    String.length s = 16 /\ mixed s.
Proof.
  destruct (@GenerateRandomPassword_spec counting_reader counting_reader_ok 5 0)
    as (s & n' & Hs & _ & _ & _ & _ & Hok).
  exists s, n'. split; [exact Hs|]. apply Hok. intros n max Hmax. unfold rand_Int, counting_reader.
  rewrite (proj2 (Z.ltb_lt 0 max) Hmax). eexists. reflexivity.
Defined.
