(* ===== verification/KubeTypes.v ===== *)
(** * The Kubernetes types the operator builds pods and objects from

    Declared by Kubernetes, OpenKruise and the Prometheus operator, not by the repository;
    only the fields the operator sets or reads are kept as such. A value the operator only
    copies from a node group into a pod, of a type it never looks into (an affinity, a
    security context, ...), is its JSON text ([json]). A nil map or slice is the empty
    one: both are left out of the JSON that is sent. *)

From S2P Require Import Prelude GoStrings.

Definition json : Type := string.

(** ** Environment variables *)

(** [corev1.EnvVarSource], of which one field is set. *)
Inductive EnvVarSource :=
| SecretKeyRef (secretName key : string)
| FieldRef (fieldPath : string)
| OtherEnvSource (source : json).

Record EnvVar := {
  env_Name : string;
  env_Value : string;
  env_ValueFrom : option EnvVarSource;
}.

(** A variable with a value, one from a key of a secret, one from a field of the pod. *)
Definition env_value (name value : string) : EnvVar :=
  {| env_Name := name; env_Value := value; env_ValueFrom := None |}.
Definition env_secret (name secretName key : string) : EnvVar :=
  {| env_Name := name; env_Value := ""; env_ValueFrom := Some (SecretKeyRef secretName key) |}.
Definition env_field (name fieldPath : string) : EnvVar :=
  {| env_Name := name; env_Value := ""; env_ValueFrom := Some (FieldRef fieldPath) |}.

(** ** Volumes *)

(** [items] are pairs of a key and a path. *)
Inductive VolumeSource :=
| ConfigMapVolume (name : string) (items : list (string * string)) (optional : option bool)
| SecretVolume (secretName : string) (items : list (string * string)) (optional : option bool)
| OtherVolume (source : json).

Record Volume := { vol_Name : string; vol_Source : VolumeSource }.

(** [vm_Options]: the sub-path, the propagation. *)
Record VolumeMount := {
  vm_Name : string;
  vm_ReadOnly : bool;
  vm_MountPath : string;
  vm_Options : json;
}.

Record VolumeDevice := { vd_Name : string; vd_DevicePath : string }.

(** ** Containers *)

Record ContainerPort := {
  cp_Name : string;
  cp_Protocol : string;
  cp_ContainerPort : Z;
}.

(** [intstr.IntOrString]. *)
Inductive IntOrString :=
| IntVal (n : Z)
| StrVal (s : string).

(** A resource quantity is its canonical text. *)
Record ResourceRequirements := {
  res_Limits : gmap string string;
  res_Requests : gmap string string;
}.

(** The operator only builds probes of a TCP port. *)
Inductive Probe :=
| TCPSocketProbe (initialDelaySeconds periodSeconds timeoutSeconds failureThreshold : Z)
    (port : IntOrString)
| OtherProbe (probe : json).

Inductive Lifecycle :=
| PreStopExec (command : list string)
| OtherLifecycle (lifecycle : json).

Record Container := {
  c_Name : string;
  c_Image : string;
  c_ImagePullPolicy : string;
  c_Command : list string;
  c_Args : list string;
  c_EnvFrom : list json;
  c_Env : list EnvVar;
  c_Ports : list ContainerPort;
  c_Resources : ResourceRequirements;
  c_VolumeMounts : list VolumeMount;
  c_VolumeDevices : list VolumeDevice;
  c_StartupProbe : option Probe;
  c_LivenessProbe : option Probe;
  c_ReadinessProbe : option Probe;
  c_Lifecycle : option Lifecycle;
  c_SecurityContext : option json;
  c_Stdin : bool;
  c_StdinOnce : bool;
  c_TTY : bool;
}.

Definition set_c_Env (env : list EnvVar) (c : Container) : Container :=
  {| c_Name := c_Name c; c_Image := c_Image c; c_ImagePullPolicy := c_ImagePullPolicy c;
     c_Command := c_Command c; c_Args := c_Args c; c_EnvFrom := c_EnvFrom c; c_Env := env;
     c_Ports := c_Ports c; c_Resources := c_Resources c; c_VolumeMounts := c_VolumeMounts c;
     c_VolumeDevices := c_VolumeDevices c; c_StartupProbe := c_StartupProbe c;
     c_LivenessProbe := c_LivenessProbe c; c_ReadinessProbe := c_ReadinessProbe c;
     c_Lifecycle := c_Lifecycle c; c_SecurityContext := c_SecurityContext c;
     c_Stdin := c_Stdin c; c_StdinOnce := c_StdinOnce c; c_TTY := c_TTY c |}.

Definition set_c_VolumeMounts (mounts : list VolumeMount) (c : Container) : Container :=
  {| c_Name := c_Name c; c_Image := c_Image c; c_ImagePullPolicy := c_ImagePullPolicy c;
     c_Command := c_Command c; c_Args := c_Args c; c_EnvFrom := c_EnvFrom c; c_Env := c_Env c;
     c_Ports := c_Ports c; c_Resources := c_Resources c; c_VolumeMounts := mounts;
     c_VolumeDevices := c_VolumeDevices c; c_StartupProbe := c_StartupProbe c;
     c_LivenessProbe := c_LivenessProbe c; c_ReadinessProbe := c_ReadinessProbe c;
     c_Lifecycle := c_Lifecycle c; c_SecurityContext := c_SecurityContext c;
     c_Stdin := c_Stdin c; c_StdinOnce := c_StdinOnce c; c_TTY := c_TTY c |}.

(** ** Pods

    [PodFields]: the fields of [corev1.PodSpec] the operator only copies. *)
Record PodFields := {
  pf_ActiveDeadlineSeconds : option Z;
  pf_TerminationGracePeriodSeconds : option Z;
  pf_DNSPolicy : string;
  pf_NodeSelector : gmap string string;
  pf_ServiceAccountName : string;
  pf_AutomountServiceAccountToken : option bool;
  pf_HostPID : bool;
  pf_HostIPC : bool;
  pf_ShareProcessNamespace : option bool;
  pf_SecurityContext : option json;
  pf_ImagePullSecrets : list string;
  pf_Affinity : option json;
  pf_SchedulerName : string;
  pf_Tolerations : list json;
  pf_HostAliases : list json;
  pf_PriorityClassName : string;
  pf_Priority : option Z;
  pf_DNSConfig : option json;
  pf_RuntimeClassName : option string;
  pf_PreemptionPolicy : option string;
  pf_TopologySpreadConstraints : list json;
  pf_SetHostnameAsFQDN : option bool;
  pf_OS : option json;
  pf_HostUsers : option bool;
}.

Record PodSpec := {
  ps_Containers : list Container;
  ps_EnableServiceLinks : option bool;
  ps_Volumes : list Volume;
  ps_ReadinessGates : list string;
  ps_Fields : PodFields;
}.

Record PodTemplateSpec := {
  pts_Labels : gmap string string;
  pts_Annotations : gmap string string;
  pts_Spec : PodSpec;
}.

Definition set_ps_Containers (l : list Container) (p : PodSpec) : PodSpec :=
  {| ps_Containers := l; ps_EnableServiceLinks := ps_EnableServiceLinks p;
     ps_Volumes := ps_Volumes p; ps_ReadinessGates := ps_ReadinessGates p;
     ps_Fields := ps_Fields p |}.
Definition set_ps_Volumes (l : list Volume) (p : PodSpec) : PodSpec :=
  {| ps_Containers := ps_Containers p; ps_EnableServiceLinks := ps_EnableServiceLinks p;
     ps_Volumes := l; ps_ReadinessGates := ps_ReadinessGates p; ps_Fields := ps_Fields p |}.
Definition set_ps_ReadinessGates (l : list string) (p : PodSpec) : PodSpec :=
  {| ps_Containers := ps_Containers p; ps_EnableServiceLinks := ps_EnableServiceLinks p;
     ps_Volumes := ps_Volumes p; ps_ReadinessGates := l; ps_Fields := ps_Fields p |}.

(** ** Claims *)

(** [corev1.PersistentVolumeClaim], and the repository's own type of the same shape. *)
Record PersistentVolumeClaim := {
  pvc_Name : string;
  pvc_Labels : gmap string string;
  pvc_Annotations : gmap string string;
  pvc_Finalizers : list string;
  pvc_Spec : json;
}.

Record RetentionPolicy := { rp_WhenDeleted : string; rp_WhenScaled : string }.
