(* ===== verification/ApiTypes.v ===== *)
(** * The API types of [apis/risingwave/v1alpha1]: RisingWave and RisingWaveScaleView

    Each struct is a record; a pointer field is an [option], a slice a list, a
    string enum a string. Every field the modelled code reads, writes, compares or copies
    is present; the types Kubernetes declares are those of [KubeTypes]. *)

From S2P Require Import Prelude GoStrings.
From S2P Require Export KubeTypes.

(** ** Object metadata

    What the operator reads of [metav1.ObjectMeta]. [om_Deleted] is
    [!DeletionTimestamp.IsZero()]. *)
Record ObjectMeta := {
  om_Name : string;
  om_Namespace : string;
  om_UID : string;
  om_Generation : Z;
  om_Labels : gmap string string;
  om_Annotations : gmap string string;
  om_Finalizers : list string;
  om_Deleted : bool;
}.

Definition empty_meta : ObjectMeta :=
  {| om_Name := ""; om_Namespace := ""; om_UID := ""; om_Generation := 0;
     om_Labels := ∅; om_Annotations := ∅; om_Finalizers := []; om_Deleted := false |}.

(** ** Constants of [pkg/consts] *)

Definition ComponentMeta : string := "meta".
Definition ComponentFrontend : string := "frontend".
Definition ComponentCompute : string := "compute".
Definition ComponentCompactor : string := "compactor".
Definition ComponentStandalone : string := "standalone".
Definition LabelRisingWaveComponent : string := "risingwave/component".
Definition LabelRisingWaveName : string := "risingwave/name".
Definition LabelRisingWaveGeneration : string := "risingwave/generation".
Definition LabelRisingWaveGroup : string := "risingwave/group".
Definition LabelRisingWaveMetaRole : string := "risingwave/meta-role".
Definition LabelRisingWaveOperatorVersion : string := "risingwave/operator-version".
Definition NoSync : string := "nosync".
Definition AnnotationBypassValidatingWebhook : string :=
  "risingwave.risingwavelabs.com/bypass-validating-webhook".
Definition AnnotationPauseReconcile : string :=
  "risingwave.risingwavelabs.com/pause-reconcile".
Definition ComponentConfig : string := "config".
Definition AnnotationRestartAt : string := "risingwave/restart-at".
Definition AnnotationInheritLabelPrefix : string :=
  "risingwave.risingwavelabs.com/inherit-label-prefix".
Definition SecretKeyAWSS3Region : string := "Region".
Definition PortService : string := "service".
Definition PortHTTP : string := "http".
Definition PortMetrics : string := "metrics".
Definition PortDashboard : string := "dashboard".
Definition MetaServicePort : Z := 5690.
Definition MetaDashboardPort : Z := 5691.
Definition MetaMetricsPort : Z := 1250.
Definition ComputeServicePort : Z := 5688.
Definition ComputeMetricsPort : Z := 1222.
Definition FrontendServicePort : Z := 4567.
Definition FrontendMetricsPort : Z := 8080.
Definition FrontendWebhookPort : Z := 4560.
Definition CompactorServicePort : Z := 6660.
Definition CompactorMetricsPort : Z := 1260.

(** ** RisingWaveScaleView *)

Record RisingWaveScaleViewTargetRef := {
  tr_Name : string;
  tr_Component : string;
  tr_UID : string;
}.

Record RisingWaveScaleViewSpecScalePolicy := {
  sp_Group : string;
  sp_Priority : Z;
  sp_MaxReplicas : option Z;
}.

Record RisingWaveScaleViewSpec := {
  svs_TargetRef : RisingWaveScaleViewTargetRef;
  svs_Replicas : option Z;
  svs_LabelSelector : string;
  svs_ScalePolicy : list RisingWaveScaleViewSpecScalePolicy;
}.

Record RisingWaveScaleViewStatus := {
  svst_Replicas : option Z;
  svst_Locked : bool;
}.

Record RisingWaveScaleView := {
  sv_Meta : ObjectMeta;
  sv_Spec : RisingWaveScaleViewSpec;
  sv_Status : RisingWaveScaleViewStatus;
}.

Global Instance TargetRef_eq_dec : EqDecision RisingWaveScaleViewTargetRef.
Proof. solve_decision. Defined.
Global Instance ScalePolicy_eq_dec : EqDecision RisingWaveScaleViewSpecScalePolicy.
Proof. solve_decision. Defined.
Global Instance ScaleViewStatus_eq_dec : EqDecision RisingWaveScaleViewStatus.
Proof. solve_decision. Defined.

(** Shorthands for the fields the scale view code reads. *)
Definition sv_Name (sv : RisingWaveScaleView) : string := om_Name (sv_Meta sv).
Definition sv_UID (sv : RisingWaveScaleView) : string := om_UID (sv_Meta sv).
Definition sv_Generation (sv : RisingWaveScaleView) : Z := om_Generation (sv_Meta sv).
Definition sv_ScalePolicy (sv : RisingWaveScaleView) := svs_ScalePolicy (sv_Spec sv).
Definition sv_TargetRef (sv : RisingWaveScaleView) := svs_TargetRef (sv_Spec sv).
Definition sv_Groups (sv : RisingWaveScaleView) : list string :=
  sp_Group <$> sv_ScalePolicy sv.

(** ** The status of a RisingWave *)

Record RisingWaveScaleViewLockGroupLock := {
  gl_Name : string;
  gl_Replicas : Z;
}.

Record RisingWaveScaleViewLock := {
  lk_Name : string;
  lk_UID : string;
  lk_Component : string;
  lk_Generation : Z;
  lk_GroupLocks : list RisingWaveScaleViewLockGroupLock;
}.

Global Instance GroupLock_eq_dec : EqDecision RisingWaveScaleViewLockGroupLock.
Proof. solve_decision. Defined.
Global Instance ScaleViewLock_eq_dec : EqDecision RisingWaveScaleViewLock.
Proof. solve_decision. Defined.

Record ComponentGroupReplicasStatus := {
  gs_Name : string;
  gs_Target : Z;
  gs_Running : Z;
  gs_Exists : bool;
}.

Record ComponentReplicasStatus := {
  cs_Target : Z;
  cs_Running : Z;
  cs_Groups : list ComponentGroupReplicasStatus;
}.

Record RisingWaveComponentsReplicasStatus := {
  rs_Meta : ComponentReplicasStatus;
  rs_Frontend : ComponentReplicasStatus;
  rs_Compute : ComponentReplicasStatus;
  rs_Compactor : ComponentReplicasStatus;
  rs_Standalone : ComponentReplicasStatus;
}.

Definition RisingWaveConditionRunning : string := "Running".
Definition RisingWaveConditionInitializing : string := "Initializing".
Definition RisingWaveConditionUpgrading : string := "Upgrading".
Definition RisingWaveConditionFailed : string := "Failed".
Definition RisingWaveConditionUnknown : string := "Unknown".

(** [metav1.ConditionStatus]. *)
Definition ConditionTrue : string := "True".
Definition ConditionFalse : string := "False".

(** The transition time is a number of seconds; [None] is the zero time. *)
Record RisingWaveCondition := {
  cond_Type : string;
  cond_Status : string;
  cond_LastTransitionTime : option Z;
  cond_Reason : string;
  cond_Message : string;
}.

Record RisingWaveStatus := {
  st_ObservedGeneration : Z;
  st_Version : string;
  st_ComponentReplicas : RisingWaveComponentsReplicasStatus;
  st_Conditions : list RisingWaveCondition;
  st_ScaleViews : list RisingWaveScaleViewLock;
  st_StateStoreRootPath : string;
  st_MetaStore : string;
  st_StateStore : string;
}.

Global Instance GroupStatus_eq_dec : EqDecision ComponentGroupReplicasStatus.
Proof. solve_decision. Defined.
Global Instance ComponentStatus_eq_dec : EqDecision ComponentReplicasStatus.
Proof. solve_decision. Defined.
Global Instance ComponentsStatus_eq_dec : EqDecision RisingWaveComponentsReplicasStatus.
Proof. solve_decision. Defined.
Global Instance Condition_eq_dec : EqDecision RisingWaveCondition.
Proof. solve_decision. Defined.
Global Instance Status_eq_dec : EqDecision RisingWaveStatus.
Proof. solve_decision. Defined.

(** ** The meta store backends *)

Record RisingWaveEtcdCredentials := {
  etcdc_SecretName : string;
  etcdc_UsernameKeyRef : string;
  etcdc_PasswordKeyRef : string;
}.

Record RisingWaveMetaStoreBackendEtcd := {
  etcd_Credentials : option RisingWaveEtcdCredentials;
  etcd_Endpoint : string;
  etcd_Secret : string;
}.

Record RisingWaveMetaStoreBackendSQLite := { sqlite_Path : string }.

Record RisingWaveDBCredentials := {
  dbc_SecretName : string;
  dbc_UsernameKeyRef : string;
  dbc_PasswordKeyRef : string;
}.

Record RisingWaveMetaStoreBackendMySQL := {
  my_Credentials : RisingWaveDBCredentials;
  my_Host : string;
  my_Port : Z;
  my_Database : string;
  my_Options : gmap string string;
}.

Record RisingWaveMetaStoreBackendPostgreSQL := {
  pg_Credentials : RisingWaveDBCredentials;
  pg_Host : string;
  pg_Port : Z;
  pg_Database : string;
  pg_Options : gmap string string;
}.

Record RisingWaveMetaStoreBackend := {
  ms_Memory : option bool;
  ms_Etcd : option RisingWaveMetaStoreBackendEtcd;
  ms_SQLite : option RisingWaveMetaStoreBackendSQLite;
  ms_MySQL : option RisingWaveMetaStoreBackendMySQL;
  ms_PostgreSQL : option RisingWaveMetaStoreBackendPostgreSQL;
}.

Global Instance EtcdCredentials_eq_dec : EqDecision RisingWaveEtcdCredentials.
Proof. solve_decision. Defined.
Global Instance Etcd_eq_dec : EqDecision RisingWaveMetaStoreBackendEtcd.
Proof. solve_decision. Defined.
Global Instance SQLite_eq_dec : EqDecision RisingWaveMetaStoreBackendSQLite.
Proof. solve_decision. Defined.
Global Instance DBCredentials_eq_dec : EqDecision RisingWaveDBCredentials.
Proof. solve_decision. Defined.
Global Instance MySQL_eq_dec : EqDecision RisingWaveMetaStoreBackendMySQL.
Proof. solve_decision. Defined.
Global Instance PostgreSQL_eq_dec : EqDecision RisingWaveMetaStoreBackendPostgreSQL.
Proof. solve_decision. Defined.
Global Instance MetaStore_eq_dec : EqDecision RisingWaveMetaStoreBackend.
Proof. solve_decision. Defined.

(** ** The state store backends *)

Record RisingWaveMinIOCredentials := {
  minioc_SecretName : string;
  minioc_UsernameKeyRef : string;
  minioc_PasswordKeyRef : string;
}.

Record RisingWaveStateStoreBackendMinIO := {
  minio_Credentials : RisingWaveMinIOCredentials;
  minio_Endpoint : string;
  minio_Bucket : string;
}.

Record RisingWaveS3Credentials := {
  s3c_UseServiceAccount : option bool;
  s3c_SecretName : string;
  s3c_AccessKeyRef : string;
  s3c_SecretAccessKeyRef : string;
}.

Record RisingWaveStateStoreBackendS3 := {
  s3_Credentials : RisingWaveS3Credentials;
  s3_Bucket : string;
  s3_Region : string;
  s3_Endpoint : string;
  s3_ForcePathStyle : bool;
}.

Record RisingWaveGCSCredentials := {
  gcsc_UseWorkloadIdentity : option bool;
  gcsc_SecretName : string;
  gcsc_ServiceAccountCredentialsKeyRef : string;
}.

Record RisingWaveStateStoreBackendGCS := {
  gcs_Credentials : RisingWaveGCSCredentials;
  gcs_Bucket : string;
  gcs_Root : string;
}.

Record RisingWaveAzureBlobCredentials := {
  azc_SecretName : string;
  azc_AccountNameRef : string;
  azc_AccountKeyRef : string;
  azc_UseServiceAccount : option bool;
}.

Record RisingWaveAliyunOSSCredentials := {
  ossc_SecretName : string;
  ossc_AccessKeyIDRef : string;
  ossc_AccessKeySecretRef : string;
}.

Record RisingWaveStateStoreBackendAzureBlob := {
  az_Credentials : RisingWaveAzureBlobCredentials;
  az_Container : string;
  az_Root : string;
  az_Endpoint : string;
}.

Record RisingWaveStateStoreBackendAliyunOSS := {
  oss_Credentials : RisingWaveAliyunOSSCredentials;
  oss_Bucket : string;
  oss_Root : string;
  oss_Region : string;
  oss_InternalEndpoint : bool;
}.

Record RisingWaveStateStoreBackendHDFS := {
  hdfs_NameNode : string;
  hdfs_Root : string;
}.

Record RisingWaveStateStoreBackendLocalDisk := { ld_Root : string }.

Record RisingWaveHuaweiCloudOBSCredentials := {
  obsc_SecretName : string;
  obsc_AccessKeyIDRef : string;
  obsc_AccessKeySecretRef : string;
}.

Record RisingWaveStateStoreBackendHuaweiCloudOBS := {
  obs_Credentials : RisingWaveHuaweiCloudOBSCredentials;
  obs_Bucket : string;
  obs_Region : string;
}.

Record RisingWaveStateStoreBackend := {
  ss_DataDirectory : string;
  ss_Memory : option bool;
  ss_LocalDisk : option RisingWaveStateStoreBackendLocalDisk;
  ss_MinIO : option RisingWaveStateStoreBackendMinIO;
  ss_S3 : option RisingWaveStateStoreBackendS3;
  ss_GCS : option RisingWaveStateStoreBackendGCS;
  ss_AliyunOSS : option RisingWaveStateStoreBackendAliyunOSS;
  ss_AzureBlob : option RisingWaveStateStoreBackendAzureBlob;
  ss_HDFS : option RisingWaveStateStoreBackendHDFS;
  ss_WebHDFS : option RisingWaveStateStoreBackendHDFS;
  ss_HuaweiCloudOBS : option RisingWaveStateStoreBackendHuaweiCloudOBS;
}.

Global Instance MinIOCredentials_eq_dec : EqDecision RisingWaveMinIOCredentials.
Proof. solve_decision. Defined.
Global Instance MinIO_eq_dec : EqDecision RisingWaveStateStoreBackendMinIO.
Proof. solve_decision. Defined.
Global Instance S3Credentials_eq_dec : EqDecision RisingWaveS3Credentials.
Proof. solve_decision. Defined.
Global Instance S3_eq_dec : EqDecision RisingWaveStateStoreBackendS3.
Proof. solve_decision. Defined.
Global Instance GCSCredentials_eq_dec : EqDecision RisingWaveGCSCredentials.
Proof. solve_decision. Defined.
Global Instance GCS_eq_dec : EqDecision RisingWaveStateStoreBackendGCS.
Proof. solve_decision. Defined.
Global Instance AzureBlobCredentials_eq_dec : EqDecision RisingWaveAzureBlobCredentials.
Proof. solve_decision. Defined.
Global Instance AliyunOSSCredentials_eq_dec : EqDecision RisingWaveAliyunOSSCredentials.
Proof. solve_decision. Defined.
Global Instance AzureBlob_eq_dec : EqDecision RisingWaveStateStoreBackendAzureBlob.
Proof. solve_decision. Defined.
Global Instance AliyunOSS_eq_dec : EqDecision RisingWaveStateStoreBackendAliyunOSS.
Proof. solve_decision. Defined.
Global Instance HDFS_eq_dec : EqDecision RisingWaveStateStoreBackendHDFS.
Proof. solve_decision. Defined.
Global Instance LocalDisk_eq_dec : EqDecision RisingWaveStateStoreBackendLocalDisk.
Proof. solve_decision. Defined.
Global Instance OBSCredentials_eq_dec : EqDecision RisingWaveHuaweiCloudOBSCredentials.
Proof. solve_decision. Defined.
Global Instance OBS_eq_dec : EqDecision RisingWaveStateStoreBackendHuaweiCloudOBS.
Proof. solve_decision. Defined.
Global Instance StateStore_eq_dec : EqDecision RisingWaveStateStoreBackend.
Proof. solve_decision. Defined.

(** ** The secret store *)

Record RisingWaveSecretStorePrivateKeySecretReference := {
  pkref_Name : string;
  pkref_Key : string;
}.

Record RisingWaveSecretStorePrivateKey := {
  pk_Value : option string;
  pk_SecretRef : option RisingWaveSecretStorePrivateKeySecretReference;
}.

Record RisingWaveSecretStore := { sec_PrivateKey : RisingWaveSecretStorePrivateKey }.

Global Instance PrivateKeyRef_eq_dec :
  EqDecision RisingWaveSecretStorePrivateKeySecretReference.
Proof. solve_decision. Defined.
Global Instance PrivateKey_eq_dec : EqDecision RisingWaveSecretStorePrivateKey.
Proof. solve_decision. Defined.

(** ** Node groups *)

Record PartialObjectMeta := {
  pom_Labels : gmap string string;
  pom_Annotations : gmap string string;
}.

Definition RisingWaveUpgradeStrategyTypeRecreate : string := "Recreate".
Definition RisingWaveUpgradeStrategyTypeRollingUpdate : string := "RollingUpdate".
Definition RisingWaveUpgradeStrategyTypeInPlaceIfPossible : string := "InPlaceIfPossible".
Definition RisingWaveUpgradeStrategyTypeInPlaceOnly : string := "InPlaceOnly".

Record RisingWaveNodeGroupRollingUpdate := {
  ru_MaxUnavailable : option IntOrString;
  ru_Partition : option IntOrString;
  ru_MaxSurge : option IntOrString;
}.

(** [us_InPlaceUpdateStrategy]: the grace period of the Kruise strategy, when set. *)
Record RisingWaveNodeGroupUpgradeStrategy := {
  us_Type : string;
  us_RollingUpdate : option RisingWaveNodeGroupRollingUpdate;
  us_InPlaceUpdateStrategy : option Z;
}.

(** The fields of the pod that the operator only copies. *)
Record RisingWaveNodePodTemplateSpec := {
  tps_ActiveDeadlineSeconds : option Z;
  tps_TerminationGracePeriodSeconds : option Z;
  tps_DNSPolicy : string;
  tps_NodeSelector : gmap string string;
  tps_ServiceAccountName : string;
  tps_AutomountServiceAccountToken : option bool;
  tps_HostPID : bool;
  tps_HostIPC : bool;
  tps_ShareProcessNamespace : option bool;
  tps_SecurityContext : option json;
  tps_ImagePullSecrets : list string;
  tps_Affinity : option json;
  tps_SchedulerName : string;
  tps_Tolerations : list json;
  tps_HostAliases : list json;
  tps_PriorityClassName : string;
  tps_Priority : option Z;
  tps_DNSConfig : option json;
  tps_RuntimeClassName : option string;
  tps_PreemptionPolicy : option string;
  tps_TopologySpreadConstraints : list json;
  tps_SetHostnameAsFQDN : option bool;
  tps_OS : option json;
  tps_HostUsers : option bool;
}.

(** The template of a pod; the fields of its container ([RisingWaveNodeContainer]) come
    first. *)
Record RisingWaveNodePodTemplate := {
  pt_ObjectMeta : PartialObjectMeta;
  pt_Image : string;
  pt_EnvFrom : list json;
  pt_Env : list EnvVar;
  pt_Resources : ResourceRequirements;
  pt_VolumeMounts : list VolumeMount;
  pt_VolumeDevices : list VolumeDevice;
  pt_ImagePullPolicy : string;
  pt_ContainerSecurityContext : option json;
  pt_Volumes : list Volume;
  pt_AdditionalContainers : list Container;
  pt_Spec : RisingWaveNodePodTemplateSpec;
}.

Record RisingWaveNodeConfigurationConfigMapSource := {
  cm_Name : string;
  cm_Key : string;
  cm_Optional : option bool;
}.

Record RisingWaveNodeConfigurationSecretSource := {
  csec_Name : string;
  csec_Key : string;
  csec_Optional : option bool;
}.

Record RisingWaveNodeConfiguration := {
  nc_ConfigMap : option RisingWaveNodeConfigurationConfigMapSource;
  nc_Secret : option RisingWaveNodeConfigurationSecretSource;
}.

(** [v1alpha1.PersistentVolumeClaim], a claim template of a node group. *)
Record ClaimTemplate := {
  ct_Name : string;
  ct_Labels : gmap string string;
  ct_Annotations : gmap string string;
  ct_Finalizers : list string;
  ct_Spec : json;
}.

(** [ng_RestartAt] is a number of seconds since 1970. *)
Record RisingWaveNodeGroup := {
  ng_Name : string;
  ng_Replicas : Z;
  ng_RestartAt : option Z;
  ng_Configuration : option RisingWaveNodeConfiguration;
  ng_UpgradeStrategy : RisingWaveNodeGroupUpgradeStrategy;
  ng_MinReadySeconds : Z;
  ng_VolumeClaimTemplates : list ClaimTemplate;
  ng_PersistentVolumeClaimRetentionPolicy : option RetentionPolicy;
  ng_ProgressDeadlineSeconds : option Z;
  ng_Template : RisingWaveNodePodTemplate;
}.

Record RisingWaveComponent := {
  comp_LogLevel : string;
  comp_DisallowPrintStackTraces : option bool;
  comp_NodeGroups : list RisingWaveNodeGroup;
}.

Record RisingWaveStandaloneComponent := {
  sa_LogLevel : string;
  sa_DisallowPrintStackTraces : option bool;
  sa_Replicas : Z;
  sa_RestartAt : option Z;
  sa_UpgradeStrategy : RisingWaveNodeGroupUpgradeStrategy;
  sa_MinReadySeconds : Z;
  sa_VolumeClaimTemplates : list ClaimTemplate;
  sa_PersistentVolumeClaimRetentionPolicy : option RetentionPolicy;
  sa_ProgressDeadlineSeconds : option Z;
  sa_Template : RisingWaveNodePodTemplate;
}.

Record RisingWaveComponentsSpec := {
  cps_Standalone : option RisingWaveStandaloneComponent;
  cps_Meta : RisingWaveComponent;
  cps_Frontend : RisingWaveComponent;
  cps_Compute : RisingWaveComponent;
  cps_Compactor : RisingWaveComponent;
}.

(** ** The RisingWave object *)

Record RisingWaveTLSConfiguration := { tls_SecretName : string }.

Record RisingWaveLicenseKey := {
  lic_SecretName : string;
  lic_SecretKey : string;
  lic_PassAsFile : option bool;
}.

Definition RisingWaveLicenseKeySecretKey : string := "licenseKey".

Record RisingWaveSpec := {
  rws_Components : RisingWaveComponentsSpec;
  rws_Configuration : RisingWaveNodeConfiguration;
  rws_EnableOpenKruise : option bool;
  rws_EnableDefaultServiceMonitor : option bool;
  rws_EnableFullKubernetesAddr : option bool;
  rws_EnableStandaloneMode : option bool;
  rws_EnableEmbeddedServingMode : option bool;
  rws_EnableAdvertisingWithIP : option bool;
  rws_EnableWebhookListener : option bool;
  rws_Image : string;
  rws_FrontendServiceType : string;
  rws_AdditionalFrontendServiceMetadata : PartialObjectMeta;
  rws_AdditionalMetaServiceMetadata : PartialObjectMeta;
  rws_MetaStore : RisingWaveMetaStoreBackend;
  rws_StateStore : RisingWaveStateStoreBackend;
  rws_TLS : option RisingWaveTLSConfiguration;
  rws_StandaloneMode : Z;
  rws_LicenseKey : option RisingWaveLicenseKey;
  rws_SecretStore : RisingWaveSecretStore;
}.

Definition rws_ConfigMap (s : RisingWaveSpec) : option RisingWaveNodeConfigurationConfigMapSource :=
  nc_ConfigMap (rws_Configuration s).

Record RisingWave := {
  rw_Meta : ObjectMeta;
  rw_Spec : RisingWaveSpec;
  rw_Status : RisingWaveStatus;
}.

(** ** Field updates *)

Definition set_comp_groups (gs : list RisingWaveNodeGroup) (c : RisingWaveComponent)
  : RisingWaveComponent :=
  {| comp_LogLevel := comp_LogLevel c;
     comp_DisallowPrintStackTraces := comp_DisallowPrintStackTraces c; comp_NodeGroups := gs |}.

Definition set_ng_Replicas (r : Z) (g : RisingWaveNodeGroup) : RisingWaveNodeGroup :=
  {| ng_Name := ng_Name g; ng_Replicas := r; ng_RestartAt := ng_RestartAt g;
     ng_Configuration := ng_Configuration g; ng_UpgradeStrategy := ng_UpgradeStrategy g;
     ng_MinReadySeconds := ng_MinReadySeconds g;
     ng_VolumeClaimTemplates := ng_VolumeClaimTemplates g;
     ng_PersistentVolumeClaimRetentionPolicy := ng_PersistentVolumeClaimRetentionPolicy g;
     ng_ProgressDeadlineSeconds := ng_ProgressDeadlineSeconds g; ng_Template := ng_Template g |}.

Definition set_rws_Components (c : RisingWaveComponentsSpec) (s : RisingWaveSpec) : RisingWaveSpec :=
  {| rws_Components := c; rws_Configuration := rws_Configuration s;
     rws_EnableOpenKruise := rws_EnableOpenKruise s;
     rws_EnableDefaultServiceMonitor := rws_EnableDefaultServiceMonitor s;
     rws_EnableFullKubernetesAddr := rws_EnableFullKubernetesAddr s;
     rws_EnableStandaloneMode := rws_EnableStandaloneMode s;
     rws_EnableEmbeddedServingMode := rws_EnableEmbeddedServingMode s;
     rws_EnableAdvertisingWithIP := rws_EnableAdvertisingWithIP s;
     rws_EnableWebhookListener := rws_EnableWebhookListener s; rws_Image := rws_Image s;
     rws_FrontendServiceType := rws_FrontendServiceType s;
     rws_AdditionalFrontendServiceMetadata := rws_AdditionalFrontendServiceMetadata s;
     rws_AdditionalMetaServiceMetadata := rws_AdditionalMetaServiceMetadata s;
     rws_MetaStore := rws_MetaStore s; rws_StateStore := rws_StateStore s;
     rws_TLS := rws_TLS s; rws_StandaloneMode := rws_StandaloneMode s;
     rws_LicenseKey := rws_LicenseKey s; rws_SecretStore := rws_SecretStore s |}.

Definition set_rws_Stores (d : RisingWaveStateStoreBackend) (k : RisingWaveSecretStore)
    (s : RisingWaveSpec) : RisingWaveSpec :=
  {| rws_Components := rws_Components s; rws_Configuration := rws_Configuration s;
     rws_EnableOpenKruise := rws_EnableOpenKruise s;
     rws_EnableDefaultServiceMonitor := rws_EnableDefaultServiceMonitor s;
     rws_EnableFullKubernetesAddr := rws_EnableFullKubernetesAddr s;
     rws_EnableStandaloneMode := rws_EnableStandaloneMode s;
     rws_EnableEmbeddedServingMode := rws_EnableEmbeddedServingMode s;
     rws_EnableAdvertisingWithIP := rws_EnableAdvertisingWithIP s;
     rws_EnableWebhookListener := rws_EnableWebhookListener s; rws_Image := rws_Image s;
     rws_FrontendServiceType := rws_FrontendServiceType s;
     rws_AdditionalFrontendServiceMetadata := rws_AdditionalFrontendServiceMetadata s;
     rws_AdditionalMetaServiceMetadata := rws_AdditionalMetaServiceMetadata s;
     rws_MetaStore := rws_MetaStore s; rws_StateStore := d; rws_TLS := rws_TLS s;
     rws_StandaloneMode := rws_StandaloneMode s; rws_LicenseKey := rws_LicenseKey s;
     rws_SecretStore := k |}.

Definition set_rws_EnableOpenKruise (b : option bool) (s : RisingWaveSpec) : RisingWaveSpec :=
  {| rws_Components := rws_Components s; rws_Configuration := rws_Configuration s;
     rws_EnableOpenKruise := b;
     rws_EnableDefaultServiceMonitor := rws_EnableDefaultServiceMonitor s;
     rws_EnableFullKubernetesAddr := rws_EnableFullKubernetesAddr s;
     rws_EnableStandaloneMode := rws_EnableStandaloneMode s;
     rws_EnableEmbeddedServingMode := rws_EnableEmbeddedServingMode s;
     rws_EnableAdvertisingWithIP := rws_EnableAdvertisingWithIP s;
     rws_EnableWebhookListener := rws_EnableWebhookListener s; rws_Image := rws_Image s;
     rws_FrontendServiceType := rws_FrontendServiceType s;
     rws_AdditionalFrontendServiceMetadata := rws_AdditionalFrontendServiceMetadata s;
     rws_AdditionalMetaServiceMetadata := rws_AdditionalMetaServiceMetadata s;
     rws_MetaStore := rws_MetaStore s; rws_StateStore := rws_StateStore s;
     rws_TLS := rws_TLS s; rws_StandaloneMode := rws_StandaloneMode s;
     rws_LicenseKey := rws_LicenseKey s; rws_SecretStore := rws_SecretStore s |}.

Definition set_rws_Backends (m : RisingWaveMetaStoreBackend) (d : RisingWaveStateStoreBackend)
    (s : RisingWaveSpec) : RisingWaveSpec :=
  {| rws_Components := rws_Components s; rws_Configuration := rws_Configuration s;
     rws_EnableOpenKruise := rws_EnableOpenKruise s;
     rws_EnableDefaultServiceMonitor := rws_EnableDefaultServiceMonitor s;
     rws_EnableFullKubernetesAddr := rws_EnableFullKubernetesAddr s;
     rws_EnableStandaloneMode := rws_EnableStandaloneMode s;
     rws_EnableEmbeddedServingMode := rws_EnableEmbeddedServingMode s;
     rws_EnableAdvertisingWithIP := rws_EnableAdvertisingWithIP s;
     rws_EnableWebhookListener := rws_EnableWebhookListener s; rws_Image := rws_Image s;
     rws_FrontendServiceType := rws_FrontendServiceType s;
     rws_AdditionalFrontendServiceMetadata := rws_AdditionalFrontendServiceMetadata s;
     rws_AdditionalMetaServiceMetadata := rws_AdditionalMetaServiceMetadata s;
     rws_MetaStore := m; rws_StateStore := d; rws_TLS := rws_TLS s;
     rws_StandaloneMode := rws_StandaloneMode s; rws_LicenseKey := rws_LicenseKey s;
     rws_SecretStore := rws_SecretStore s |}.

Definition set_rws_Image (i : string) (s : RisingWaveSpec) : RisingWaveSpec :=
  {| rws_Components := rws_Components s; rws_Configuration := rws_Configuration s;
     rws_EnableOpenKruise := rws_EnableOpenKruise s;
     rws_EnableDefaultServiceMonitor := rws_EnableDefaultServiceMonitor s;
     rws_EnableFullKubernetesAddr := rws_EnableFullKubernetesAddr s;
     rws_EnableStandaloneMode := rws_EnableStandaloneMode s;
     rws_EnableEmbeddedServingMode := rws_EnableEmbeddedServingMode s;
     rws_EnableAdvertisingWithIP := rws_EnableAdvertisingWithIP s;
     rws_EnableWebhookListener := rws_EnableWebhookListener s; rws_Image := i;
     rws_FrontendServiceType := rws_FrontendServiceType s;
     rws_AdditionalFrontendServiceMetadata := rws_AdditionalFrontendServiceMetadata s;
     rws_AdditionalMetaServiceMetadata := rws_AdditionalMetaServiceMetadata s;
     rws_MetaStore := rws_MetaStore s; rws_StateStore := rws_StateStore s;
     rws_TLS := rws_TLS s; rws_StandaloneMode := rws_StandaloneMode s;
     rws_LicenseKey := rws_LicenseKey s; rws_SecretStore := rws_SecretStore s |}.

Definition set_rw_Spec (s : RisingWaveSpec) (rw : RisingWave) : RisingWave :=
  {| rw_Meta := rw_Meta rw; rw_Spec := s; rw_Status := rw_Status rw |}.

Definition set_rw_Status (s : RisingWaveStatus) (rw : RisingWave) : RisingWave :=
  {| rw_Meta := rw_Meta rw; rw_Spec := rw_Spec rw; rw_Status := s |}.

Definition set_st_ScaleViews (l : list RisingWaveScaleViewLock) (s : RisingWaveStatus)
  : RisingWaveStatus :=
  {| st_ObservedGeneration := st_ObservedGeneration s; st_Version := st_Version s;
     st_ComponentReplicas := st_ComponentReplicas s; st_Conditions := st_Conditions s;
     st_ScaleViews := l; st_StateStoreRootPath := st_StateStoreRootPath s;
     st_MetaStore := st_MetaStore s; st_StateStore := st_StateStore s |}.

Definition set_st_Conditions (l : list RisingWaveCondition) (s : RisingWaveStatus)
  : RisingWaveStatus :=
  {| st_ObservedGeneration := st_ObservedGeneration s; st_Version := st_Version s;
     st_ComponentReplicas := st_ComponentReplicas s; st_Conditions := l;
     st_ScaleViews := st_ScaleViews s; st_StateStoreRootPath := st_StateStoreRootPath s;
     st_MetaStore := st_MetaStore s; st_StateStore := st_StateStore s |}.

Definition set_st_ObservedGeneration (g : Z) (s : RisingWaveStatus) : RisingWaveStatus :=
  {| st_ObservedGeneration := g; st_Version := st_Version s;
     st_ComponentReplicas := st_ComponentReplicas s; st_Conditions := st_Conditions s;
     st_ScaleViews := st_ScaleViews s; st_StateStoreRootPath := st_StateStoreRootPath s;
     st_MetaStore := st_MetaStore s; st_StateStore := st_StateStore s |}.

Definition set_svs_Replicas (r : option Z) (s : RisingWaveScaleViewSpec)
  : RisingWaveScaleViewSpec :=
  {| svs_TargetRef := svs_TargetRef s; svs_Replicas := r;
     svs_LabelSelector := svs_LabelSelector s; svs_ScalePolicy := svs_ScalePolicy s |}.

Definition set_sv_Spec (s : RisingWaveScaleViewSpec) (sv : RisingWaveScaleView)
  : RisingWaveScaleView :=
  {| sv_Meta := sv_Meta sv; sv_Spec := s; sv_Status := sv_Status sv |}.

Definition set_sv_Status (s : RisingWaveScaleViewStatus) (sv : RisingWaveScaleView)
  : RisingWaveScaleView :=
  {| sv_Meta := sv_Meta sv; sv_Spec := sv_Spec sv; sv_Status := s |}.

(** ** Zero values, as Go initialises a variable of each type *)

Definition zero_partial_meta : PartialObjectMeta :=
  {| pom_Labels := ∅; pom_Annotations := ∅ |}.
Definition zero_component_status : ComponentReplicasStatus :=
  {| cs_Target := 0; cs_Running := 0; cs_Groups := [] |}.
Definition zero_replicas_status : RisingWaveComponentsReplicasStatus :=
  {| rs_Meta := zero_component_status; rs_Frontend := zero_component_status;
     rs_Compute := zero_component_status; rs_Compactor := zero_component_status;
     rs_Standalone := zero_component_status |}.
Definition zero_status : RisingWaveStatus :=
  {| st_ObservedGeneration := 0; st_Version := ""; st_ComponentReplicas := zero_replicas_status;
     st_Conditions := []; st_ScaleViews := []; st_StateStoreRootPath := "";
     st_MetaStore := ""; st_StateStore := "" |}.
Definition zero_meta_store : RisingWaveMetaStoreBackend :=
  {| ms_Memory := None; ms_Etcd := None; ms_SQLite := None; ms_MySQL := None;
     ms_PostgreSQL := None |}.
Definition zero_state_store : RisingWaveStateStoreBackend :=
  {| ss_DataDirectory := ""; ss_Memory := None; ss_LocalDisk := None; ss_MinIO := None;
     ss_S3 := None; ss_GCS := None; ss_AliyunOSS := None; ss_AzureBlob := None;
     ss_HDFS := None; ss_WebHDFS := None; ss_HuaweiCloudOBS := None |}.
Definition zero_secret_store : RisingWaveSecretStore :=
  {| sec_PrivateKey := {| pk_Value := None; pk_SecretRef := None |} |}.
(** A component with the given groups. *)
Definition component_of (gs : list RisingWaveNodeGroup) : RisingWaveComponent :=
  {| comp_LogLevel := ""; comp_DisallowPrintStackTraces := None; comp_NodeGroups := gs |}.
Definition zero_components : RisingWaveComponentsSpec :=
  {| cps_Standalone := None; cps_Meta := component_of []; cps_Frontend := component_of [];
     cps_Compute := component_of []; cps_Compactor := component_of [] |}.
Definition zero_spec : RisingWaveSpec :=
  {| rws_Components := zero_components;
     rws_Configuration := {| nc_ConfigMap := None; nc_Secret := None |};
     rws_EnableOpenKruise := None; rws_EnableDefaultServiceMonitor := None;
     rws_EnableFullKubernetesAddr := None; rws_EnableStandaloneMode := None;
     rws_EnableEmbeddedServingMode := None; rws_EnableAdvertisingWithIP := None;
     rws_EnableWebhookListener := None; rws_Image := ""; rws_FrontendServiceType := "";
     rws_AdditionalFrontendServiceMetadata := zero_partial_meta;
     rws_AdditionalMetaServiceMetadata := zero_partial_meta; rws_MetaStore := zero_meta_store;
     rws_StateStore := zero_state_store; rws_TLS := None; rws_StandaloneMode := 0;
     rws_LicenseKey := None; rws_SecretStore := zero_secret_store |}.
Definition zero_risingwave : RisingWave :=
  {| rw_Meta := empty_meta; rw_Spec := zero_spec; rw_Status := zero_status |}.

Definition zero_strategy : RisingWaveNodeGroupUpgradeStrategy :=
  {| us_Type := ""; us_RollingUpdate := None; us_InPlaceUpdateStrategy := None |}.
Definition zero_pod : RisingWaveNodePodTemplateSpec :=
  {| tps_ActiveDeadlineSeconds := None; tps_TerminationGracePeriodSeconds := None;
     tps_DNSPolicy := ""; tps_NodeSelector := ∅; tps_ServiceAccountName := "";
     tps_AutomountServiceAccountToken := None; tps_HostPID := false; tps_HostIPC := false;
     tps_ShareProcessNamespace := None; tps_SecurityContext := None; tps_ImagePullSecrets := [];
     tps_Affinity := None; tps_SchedulerName := ""; tps_Tolerations := []; tps_HostAliases := [];
     tps_PriorityClassName := ""; tps_Priority := None; tps_DNSConfig := None;
     tps_RuntimeClassName := None; tps_PreemptionPolicy := None;
     tps_TopologySpreadConstraints := []; tps_SetHostnameAsFQDN := None; tps_OS := None;
     tps_HostUsers := None |}.
Definition zero_template : RisingWaveNodePodTemplate :=
  {| pt_ObjectMeta := zero_partial_meta; pt_Image := ""; pt_EnvFrom := []; pt_Env := [];
     pt_Resources := {| res_Limits := ∅; res_Requests := ∅ |}; pt_VolumeMounts := [];
     pt_VolumeDevices := []; pt_ImagePullPolicy := ""; pt_ContainerSecurityContext := None;
     pt_Volumes := []; pt_AdditionalContainers := []; pt_Spec := zero_pod |}.

(** A node group with a name and replicas and every other field zero. *)
Definition simple_group (name : string) (replicas : Z) : RisingWaveNodeGroup :=
  {| ng_Name := name; ng_Replicas := replicas; ng_RestartAt := None; ng_Configuration := None;
     ng_UpgradeStrategy := zero_strategy; ng_MinReadySeconds := 0; ng_VolumeClaimTemplates := [];
     ng_PersistentVolumeClaimRetentionPolicy := None; ng_ProgressDeadlineSeconds := None;
     ng_Template := zero_template |}.
