(* ===== verification/GoHeap.v ===== *)
(** * Go values that share memory

    A value of Go with pointers, slices and maps: what they refer to lies in a heap and may be
    shared. [view] is the value as a tree, which is what the code compares and prints;
    [holds] is what code that holds some references can do. A function that copies a value
    deeply ([DeepCopies]) returns one with the same view of which no part is shared: whoever
    writes through the copy leaves the original as it was, and the other way round. *)

From S2P Require Import Prelude GoMonad.

(** ** Definitions: values and the heap *)

(** The address of a variable, of the array of a slice, or of a map. *)
Abbreviation loc := nat.

(** Numbers, booleans and strings are not told apart. A slice is a part of its array. *)
Inductive value : Type :=
| Scalar (s : string)
| Nil
| Pointer (l : loc)
| SliceOf (l : loc) (offset len : nat)
| MapOf (l : loc)
| Struct (fields : list (string * value)).

Inductive cell : Type :=
| Var (v : value)
| Array (vs : list value)
| MapCell (m : gmap string value).

(** What was allocated, in the order of the addresses. *)
Abbreviation heap := (list cell).
Abbreviation M := (GoM heap).

Definition new (c : cell) : M loc := fun h => Done (length h, h ++ [c]).

Definition deref (l : loc) : M value := fun h =>
  match h !! l with
  | Some (Var v) => Done (v, h)
  | _ => Panic "invalid memory address or nil pointer dereference"
  end.

(** The elements of a slice, the entries of a map. *)
Definition elems (l : loc) (offset len : nat) : M (list value) := fun h =>
  match h !! l with
  | Some (Array vs) => Done (take len (drop offset vs), h)
  | _ => Panic "no array"
  end.

Definition entries (l : loc) : M (gmap string value) := fun h =>
  match h !! l with Some (MapCell m) => Done (m, h) | _ => Panic "no map" end.

(** A field of a struct, and the assignment to it. *)
Fixpoint field {A} (n : string) (fs : list (string * A)) : option A :=
  match fs with
  | [] => None
  | (n', v) :: fs' => if String.eqb n' n then Some v else field n fs'
  end.

Fixpoint set_field (n : string) (v : value) (fs : list (string * value)) : list (string * value) :=
  match fs with
  | [] => []
  | (n', v') :: fs' => if decide (n' = n) then (n', v) :: fs' else (n', v') :: set_field n v fs'
  end.

(** ** Definitions: copying *)

(** A function that copies: what it is given, and what it writes to its output. One that fills
    a variable it has just allocated allocates the variable with what it fills in: nobody else
    has its address. *)
Abbreviation copier := (value -> M value).

(** [*out = *in]. *)
Definition assign : copier := mret.

(** [if *in != nil { *out = new(T); f( **in, *out) }]. *)
Definition copy_pointer (f : copier) : copier := fun v =>
  match v with
  | Pointer l => x ← deref l; y ← f x; l' ← new (Var y); mret (Pointer l')
  | _ => mret v
  end.

Fixpoint copy_elems (f : copier) (vs : list value) : M (list value) :=
  match vs with
  | [] => mret []
  | v :: vs' => y ← f v; ys ← copy_elems f vs'; mret (y :: ys)
  end.

(** [if *in != nil { *out = make([]T, len( *in)); for i := range *in { f(( *in)[i], ( *out)[i]) } }];
    [copy( *out, *in)] assigns each element. *)
Definition copy_slice (f : copier) : copier := fun v =>
  match v with
  | SliceOf l offset len =>
      vs ← elems l offset len; ys ← copy_elems f vs;
      l' ← new (Array ys); mret (SliceOf l' 0 (length ys))
  | _ => mret v
  end.

(** [if *in != nil { *out = make(map[string]T, len( *in)); for key, val := range *in
    { ( *out)[key] = val } }], in whatever order the entries come. *)
Definition copy_map : copier := fun v =>
  match v with
  | MapOf l =>
      m ← entries l;
      l' ← new (MapCell (foldr (fun '(key, val) out => <[key := val]> out) ∅ (map_to_list m)));
      mret (MapOf l')
  | _ => mret v
  end.

Fixpoint copy_fields (cs : list (string * copier)) (fs out : list (string * value))
  : M (list (string * value)) :=
  match cs with
  | [] => mret out
  | (n, f) :: cs' =>
      match field n fs with
      | Some v => y ← f v; copy_fields cs' fs (set_field n y out)
      | None => panic "no such field"
      end
  end.

(** [*out = *in], then the fields that need more, one after the other. *)
Definition copy_struct (cs : list (string * copier)) : copier := fun v =>
  match v with
  | Struct fs => out ← copy_fields cs fs fs; mret (Struct out)
  | _ => panic "not a struct"
  end.

(** ** Definitions: types and views *)

Inductive ty : Type :=
| TScalar
| TPointer (t : ty)
| TSlice (t : ty)
| TMap (t : ty)
| TStruct (fs : list (string * ty)).

Inductive tree : Type :=
| Leaf (s : string)
| NilTree
| PointerTree (t : tree)
| SliceTree (ts : list tree)
| MapTree (ts : list (string * tree))
| StructTree (fs : list (string * tree)).

(** The fields of a struct, given how each is seen. *)
Definition view_fields (see : ty -> value -> option tree) :=
  fix go (fs : list (string * ty)) (vs : list (string * value)) : option (list (string * tree)) :=
    match fs, vs with
    | [], [] => Some []
    | (n, t) :: fs', (n', x) :: vs' =>
        if decide (n' = n) then a ← see t x; b ← go fs' vs'; Some ((n, a) :: b) else None
    | _, _ => None
    end.

(** The value of a type as a tree: [None] if it is not one of the type, or refers to what is
    not there. *)
Fixpoint view (h : heap) (t : ty) (v : value) : option tree :=
  match t, v with
  | TScalar, Scalar s => Some (Leaf s)
  | TPointer _, Nil | TSlice _, Nil | TMap _, Nil => Some NilTree
  | TPointer t, Pointer l =>
      match h !! l with Some (Var x) => PointerTree <$> view h t x | _ => None end
  | TSlice t, SliceOf l offset len =>
      match h !! l with
      | Some (Array vs) =>
          if decide (offset + len <= length vs)
          then SliceTree <$> mapM (view h t) (take len (drop offset vs)) else None
      | _ => None
      end
  | TMap t, MapOf l =>
      match h !! l with
      | Some (MapCell m) => MapTree <$> mapM (fun e => pair e.1 <$> view h t e.2) (map_to_list m)
      | _ => None
      end
  | TStruct fs, Struct vs => StructTree <$> view_fields (view h) fs vs
  | _, _ => None
  end.

(** The references in a value, and in a cell. *)
Fixpoint refs (v : value) : list loc :=
  match v with
  | Scalar _ | Nil => []
  | Pointer l | SliceOf l _ _ | MapOf l => [l]
  | Struct fs => flat_map (fun p => refs p.2) fs
  end.

Definition cell_refs (c : cell) : list loc :=
  match c with
  | Var v => refs v
  | Array vs => flat_map refs vs
  | MapCell m => flat_map (fun e => refs e.2) (map_to_list m)
  end.

(** Nothing dangles. *)
Definition closed (h : heap) : Prop := Forall (fun c => Forall (fun l => l < length h) (cell_refs c)) h.

(** ** Definitions: what the holder of some references can do *)

(** It reads a reference, allocates a cell, or writes to one, with the references it holds. *)
Inductive holds : list loc * heap -> list loc * heap -> Prop :=
| holds_read ls h l c :
    l ∈ ls -> h !! l = Some c -> holds (ls, h) (cell_refs c ++ ls, h)
| holds_alloc ls h c :
    cell_refs c ⊆ ls -> holds (ls, h) (length h :: ls, h ++ [c])
| holds_write ls h l c :
    l ∈ ls -> cell_refs c ⊆ ls -> holds (ls, h) (ls, <[l := c]> h).

(** ** Definitions: copies that share nothing *)

(** All references are to what was allocated after the first [n] cells. *)
Definition above (n : nat) (ls : list loc) : Prop := Forall (fun l => n <= l) ls.

(** A value of the type is copied to one with the same view, in cells that are all new and
    refer to new cells only; what was there stays. *)
Class DeepCopies (t : ty) (f : copier) : Prop := deep_copies : forall h v tr,
  view h t v = Some tr -> exists v' new, f v h = Done (v', h ++ new) /\
    view (h ++ new) t v' = Some tr /\ above (length h) (refs v' ++ flat_map cell_refs new).

(** A type without references. *)
Class Flat (t : ty) : Prop := flat : forall h v tr, view h t v = Some tr -> refs v = [].

(** ** Lemmas: lists *)

Lemma mapM_weaken {A B} (f g : A -> option B) l k :
  (forall x y, x ∈ l -> f x = Some y -> g x = Some y) -> mapM f l = Some k -> mapM g l = Some k.
Proof.
  rewrite !mapM_Some. intros Hfg H. induction H as [|x y l k Hxy _ IH]; constructor.
  - apply Hfg; [left|done].
  - apply IH. intros x' y' Hx'. apply Hfg. by right.
Qed.

Lemma Forall_flat_map {A B} (P : B -> Prop) (f : A -> list B) l :
  Forall P (flat_map f l) <-> forall x, x ∈ l -> Forall P (f x).
Proof.
  induction l as [|a l IH]; cbn.
  - split; [intros _ x Hx; by apply elem_of_nil in Hx|by constructor].
  - rewrite Forall_app, IH. setoid_rewrite elem_of_cons. naive_solver.
Qed.

Lemma above_le n n' ls : n <= n' -> above n' ls -> above n ls.
Proof. intros Hn H. eapply Forall_impl; [exact H|]. cbn. lia. Qed.

Lemma above_app n l k : above n (l ++ k) <-> above n l /\ above n k.
Proof. apply Forall_app. Qed.

Lemma view_fields_weaken (V V' : ty -> value -> option tree) fs vs k :
  (forall n t x a, (n, t) ∈ fs -> (n, x) ∈ vs -> V t x = Some a -> V' t x = Some a) ->
  view_fields V fs vs = Some k -> view_fields V' fs vs = Some k.
Proof.
  revert vs k. induction fs as [|[n t] fs IH]; intros [|[n' x] vs] k HV; cbn; try done.
  case_decide as Hn; [subst n'|done].
  destruct (V t x) as [a|] eqn:Hx; [|done]. cbn.
  destruct (view_fields V fs vs) as [b|] eqn:Hb; [|done]. intros [= <-].
  rewrite (HV n t x a) by (done || left). cbn. rewrite (IH vs b); [done| |done].
  intros n' t' x' a' Hin Hin'. apply (HV n'); by right.
Qed.

Lemma Forall2_weaken {A B} (R R' : A -> B -> Prop) l k :
  (forall x y, x ∈ l -> R x y -> R' x y) -> Forall2 R l k -> Forall2 R' l k.
Proof.
  intros Hr H. induction H as [|x y l k Hxy _ IH]; constructor.
  - apply Hr; [left|done].
  - apply IH. intros x' y' Hx'. apply Hr. by right.
Qed.

(** ** Lemmas: views *)

Section ty_ind.
Context (P : ty -> Prop) (HS : P TScalar) (HP : forall t, P t -> P (TPointer t)).
Context (HL : forall t, P t -> P (TSlice t)) (HM : forall t, P t -> P (TMap t)).
Context (HT : forall fs, Forall (fun p => P p.2) fs -> P (TStruct fs)).

Fixpoint ty_nested_ind (t : ty) : P t :=
  match t with
  | TScalar => HS
  | TPointer t => HP t (ty_nested_ind t)
  | TSlice t => HL t (ty_nested_ind t)
  | TMap t => HM t (ty_nested_ind t)
  | TStruct fs => HT fs ((fix go fs : Forall (fun p : string * ty => P p.2) fs :=
      match fs with [] => List.Forall_nil _ | p :: fs' => @List.Forall_cons _ (fun p : string * ty => P p.2) p fs' (ty_nested_ind p.2) (go fs') end) fs)
  end.
End ty_ind.

(** The view of a value does not change when what it can reach does not: [P] holds of its
    references and of those in the cells at such references. *)
Lemma view_region (P : loc -> Prop) h h' :
  (forall l c, P l -> h !! l = Some c -> h' !! l = Some c /\ Forall P (cell_refs c)) ->
  forall t v tr, Forall P (refs v) -> view h t v = Some tr -> view h' t v = Some tr.
Proof.
  intros Hh. induction t as [|t IH|t IH|t IH|fs IH] using ty_nested_ind; intros [s| |l|l off len|l|vs] tr Hv Hview;
    cbn in Hview |- *; try done; cbn in Hv.
  - destruct (h !! l) as [c|] eqn:Hl; [|done]. apply Forall_inv in Hv.
    destruct (Hh l c Hv Hl) as [-> Hc]. destruct c as [x| |]; [|done..].
    destruct (view h t x) as [tx|] eqn:Hx; [|done]. by rewrite (IH _ _ Hc Hx).
  - destruct (h !! l) as [c|] eqn:Hl; [|done]. apply Forall_inv in Hv.
    destruct (Hh l c Hv Hl) as [-> Hc]. destruct c as [|xs|]; [done| |done]. case_decide; [|done].
    destruct (mapM (view h t) _) as [ts|] eqn:Hx; [|done].
    erewrite (mapM_weaken _ (view h' t)); [done| |exact Hx].
    intros x y Hin Hy. apply IH; [|done]. cbn in Hc. rewrite Forall_flat_map in Hc. apply Hc.
    eapply elem_of_submseteq; [exact Hin|]. etrans; [apply submseteq_take|apply submseteq_drop].
  - destruct (h !! l) as [c|] eqn:Hl; [|done]. apply Forall_inv in Hv.
    destruct (Hh l c Hv Hl) as [-> Hc]. destruct c as [| |m]; [done..|].
    destruct (mapM _ _) as [ts|] eqn:Hx; [|done].
    erewrite (mapM_weaken _ (fun e => pair e.1 <$> view h' t e.2)); [done| |exact Hx].
    intros [k x] [k' y] Hin Hy. cbn in Hc, Hy |- *. destruct (view h t x) as [a|] eqn:Ha; [|done].
    rewrite (IH x a); [done| |done]. rewrite Forall_flat_map in Hc. exact (Hc _ Hin).
  - destruct (view_fields (view h) fs vs) as [k|] eqn:Hx; [|done].
    erewrite (view_fields_weaken _ (view h')); [done| |exact Hx].
    intros n t x a Hin Hin'. rewrite Forall_forall in IH. apply (IH (n, t)); [done|].
    rewrite Forall_flat_map in Hv. exact (Hv _ Hin').
Qed.

Lemma lookup_extend (h new : heap) l c : h !! l = Some c -> (h ++ new) !! l = Some c.
Proof. apply lookup_app_l_Some. Qed.

Lemma view_preserved h h' t v tr :
  (forall l c, h !! l = Some c -> h' !! l = Some c) -> view h t v = Some tr -> view h' t v = Some tr.
Proof.
  intros Hh. apply (view_region (fun _ => True) h h').
  - intros l c _ Hl. split; [by apply Hh|by apply Forall_true].
  - by apply Forall_true.
Qed.

Lemma view_extend h new t v tr : view h t v = Some tr -> view (h ++ new) t v = Some tr.
Proof. apply view_preserved, lookup_extend. Qed.

(** ** Lemmas: what a holder can not change *)

(** A holder that has no reference to a region, which no cell outside of it refers to, changes
    no cell of it. *)
Lemma holds_region (D : loc -> Prop) s s' :
  rtc holds s s' ->
  (forall l, D l -> l < length s.2) ->
  Forall (fun l => ~ D l) s.1 ->
  (forall l c, ~ D l -> s.2 !! l = Some c -> Forall (fun l => ~ D l) (cell_refs c)) ->
  forall l, D l -> s'.2 !! l = s.2 !! l.
Proof.
  induction 1 as [s|s s1 s2 Hstep _ IH]; intros Hlen Hls Hh l HD; [done|].
  destruct Hstep as [ls h l0 c Hin Hc|ls h c Hsub|ls h l0 c Hin Hsub]; cbn [fst snd] in *.
  - apply IH; try done. apply Forall_app. split; [|done]. eapply Hh; [|exact Hc].
    rewrite Forall_forall in Hls. by apply Hls.
  - assert (Forall (fun l => ~ D l) (cell_refs c)) as Hcr.
    { rewrite Forall_forall in Hls |- *. intros x Hx. by apply Hls, Hsub. }
    rewrite IH; [by rewrite lookup_app_l by auto|..|done].
    + intros x Hx. rewrite length_app. specialize (Hlen x Hx). lia.
    + constructor; [|done]. intros Hx. specialize (Hlen _ Hx). lia.
    + intros x c' Hx [Hc'|(_ & Hc')]%lookup_app_Some; [by eapply Hh|].
      apply list_lookup_singleton_Some in Hc' as [_ <-]. done.
  - assert (Forall (fun l => ~ D l) (cell_refs c)) as Hcr.
    { rewrite Forall_forall in Hls |- *. intros x Hx. by apply Hls, Hsub. }
    rewrite Forall_forall in Hls. pose proof (Hls _ Hin) as Hl0.
    rewrite IH; [by rewrite list_lookup_insert_ne by congruence|..|done].
    + intros x Hx. rewrite length_insert. auto.
    + by rewrite Forall_forall.
    + intros x c' Hx [(_ & <- & _)|(_ & Hc')]%list_lookup_insert_Some; [done|by eapply Hh].
Qed.

(** ** Lemmas: copies *)

Section copies.
Implicit Types (h : heap) (t : ty) (v : value).

Global Instance Flat_scalar : Flat TScalar.
Proof. by intros h [] tr. Qed.

Lemma view_fields_refs (V : ty -> value -> option tree) fs vs k :
  (forall n t x a, (n, t) ∈ fs -> V t x = Some a -> refs x = []) ->
  view_fields V fs vs = Some k -> refs (Struct vs) = [].
Proof.
  cbn. revert vs k. induction fs as [|[n t] fs IH]; intros [|[n' x] vs] k HV; cbn; try done.
  case_decide as Hn; [subst n'|done].
  destruct (V t x) as [a|] eqn:Hx; [|done]. cbn.
  destruct (view_fields V fs vs) as [b|] eqn:Hb; [|done]. intros _.
  rewrite (HV n t x a) by (done || left). cbn. eapply IH; [|done].
  intros n' t' x' a' Hin. apply (HV n'). by right.
Qed.

Lemma Flat_struct fs : Forall (fun p => Flat p.2) fs -> Flat (TStruct fs).
Proof.
  intros Hfs h [| | | | |vs] tr; try done. cbn.
  destruct (view_fields (view h) fs vs) as [k|] eqn:Hk; [|done]. intros _.
  apply (view_fields_refs _ _ _ _) in Hk; [done|]. intros n t x a Hin Hx.
  rewrite Forall_forall in Hfs. exact (Hfs _ Hin h x a Hx).
Qed.

Global Instance copies_assign t : Flat t -> DeepCopies t assign.
Proof.
  intros Hf h v tr Hv. exists v, []. rewrite app_nil_r. split; [done|]. split; [done|].
  cbn. rewrite (Hf h v tr Hv). constructor.
Qed.

Global Instance copies_pointer t f : DeepCopies t f -> DeepCopies (TPointer t) (copy_pointer f).
Proof.
  intros Hf h [s| |l|l off len|l|vs] tr; cbn; try done.
  - intros [= <-]. exists Nil, []. rewrite app_nil_r. split; [done|]. split; [done|constructor].
  - destruct (h !! l) as [[x| |]|] eqn:Hl; try done.
    destruct (view h t x) as [a|] eqn:Hx; [|done]. intros [= <-].
    destruct (Hf h x a Hx) as (y & new & Hy & Hview & Habove).
    exists (Pointer (length (h ++ new))), (new ++ [Var y]).
    unfold mbind, GoM_bind, deref, mret, GoM_ret, GoHeap.new. rewrite Hl, Hy, app_assoc.
    split; [done|]. split.
    + rewrite (lookup_app_r _ _ _ (Nat.le_refl _)), Nat.sub_diag. cbn.
      by rewrite (view_extend (h ++ new) [Var y] t y a).
    + apply above_app in Habove as [Hr Hn]. rewrite flat_map_app. apply above_app. split.
      * constructor; [|constructor]. rewrite length_app. lia.
      * apply above_app. split; [done|]. cbn. by rewrite app_nil_r.
Qed.

Lemma copy_elems_copies t f h vs ts :
  DeepCopies t f -> mapM (view h t) vs = Some ts -> exists ys new,
    copy_elems f vs h = Done (ys, h ++ new) /\ mapM (view (h ++ new) t) ys = Some ts /\
    above (length h) (flat_map refs ys ++ flat_map cell_refs new).
Proof.
  intros Hf. revert h ts. induction vs as [|v vs IH]; intros h ts; cbn.
  - intros [= <-]. exists [], []. rewrite app_nil_r. split; [done|]. split; [done|constructor].
  - destruct (view h t v) as [a|] eqn:Hv; [|done]. cbn.
    destruct (mapM (view h t) vs) as [b|] eqn:Hvs; [|done]. intros [= <-].
    destruct (Hf h v a Hv) as (y & new & Hy & Hview & Hab).
    destruct (IH (h ++ new) b) as (ys & new' & Hys & Hview' & Hab').
    { eapply mapM_weaken; [|exact Hvs]. intros x y' _. apply view_extend. }
    exists (y :: ys), (new ++ new'). unfold mbind, GoM_bind, mret, GoM_ret. rewrite Hy, Hys, <-app_assoc.
    split; [done|]. rewrite app_assoc. split.
    + cbn. rewrite (view_extend _ new' t y a Hview). cbn. by rewrite Hview'.
    + rewrite flat_map_app. cbn. apply above_app in Hab as [H1 H2].
      apply (above_le (length h)) in Hab'; [|rewrite length_app; lia]. apply above_app in Hab' as [H3 H4].
      by rewrite !above_app.
Qed.

Lemma mapM_length_Some {A B} (f : A -> option B) l k : mapM f l = Some k -> length l = length k.
Proof. rewrite mapM_Some. apply Forall2_length. Qed.

Global Instance copies_slice t f : DeepCopies t f -> DeepCopies (TSlice t) (copy_slice f).
Proof.
  intros Hf h [s| |l|l off len|l|vs] tr; cbn; try done.
  - intros [= <-]. exists Nil, []. rewrite app_nil_r. split; [done|]. split; [done|constructor].
  - destruct (h !! l) as [[|xs|]|] eqn:Hl; try done. case_decide; [|done].
    destruct (mapM _ _) as [ts|] eqn:Hx; [|done]. intros [= <-].
    destruct (copy_elems_copies t f h _ _ Hf Hx) as (ys & new & Hy & Hview & Habove).
    exists (SliceOf (length (h ++ new)) 0 (length ys)), (new ++ [Array ys]).
    unfold mbind, GoM_bind, elems, mret, GoM_ret, GoHeap.new. rewrite Hl, Hy, app_assoc.
    split; [done|]. split.
    + rewrite (lookup_app_r _ _ _ (Nat.le_refl _)), Nat.sub_diag. cbn. rewrite decide_True by lia.
      rewrite drop_0, firstn_all. erewrite mapM_weaken; [done| |exact Hview].
      intros x y _. apply view_extend.
    + apply above_app in Habove as [Hr Hn]. rewrite flat_map_app. apply above_app. split.
      * constructor; [|constructor]. rewrite length_app. lia.
      * apply above_app. split; [done|]. cbn. by rewrite app_nil_r.
Qed.

Global Instance copies_map t : Flat t -> DeepCopies (TMap t) copy_map.
Proof.
  intros Hf h [s| |l|l off len|l|vs] tr; cbn; try done.
  - intros [= <-]. exists Nil, []. rewrite app_nil_r. split; [done|]. split; [done|constructor].
  - destruct (h !! l) as [[| |m]|] eqn:Hl; try done.
    destruct (mapM _ _) as [ts|] eqn:Hx; [|done]. intros [= <-].
    unfold mbind, GoM_bind, entries, mret, GoM_ret, GoHeap.new. rewrite Hl.
    assert (foldr (fun '(key, val) out => <[key := val]> out) ∅ (map_to_list m) = m) as Hm.
    { clear Hx. etrans; [|apply (list_to_map_to_list m)]. 
      induction (map_to_list m) as [|[k x] e IHe]; [done|]. cbn. f_equal. exact IHe. }
    rewrite Hm. eexists _, [MapCell m]. split; [done|]. cbn.
    rewrite (lookup_app_r _ _ _ (Nat.le_refl _)), Nat.sub_diag. cbn. split.
    + erewrite mapM_weaken; [done| |exact Hx]. intros [k x] y _. cbn.
      destruct (view h t x) as [a|] eqn:Ha; [|done]. by rewrite (view_extend h _ t x a).
    + constructor; [done|]. rewrite app_nil_r. apply Forall_flat_map. intros [k x] Hin. cbn.
      rewrite mapM_Some in Hx. apply (Forall2_Forall_l _ (fun e => refs e.2 = [])) in Hx.
      2: { apply Forall_true. intros a [k' x'] Ha. cbn in Ha |- *. destruct (view h t x') as [a'|] eqn:Ha'; [|done].
           exact (Hf _ _ _ Ha'). }
      rewrite Forall_forall in Hx. specialize (Hx _ Hin). cbn in Hx. rewrite Hx. constructor.
Qed.

(** A field of a struct: its name, its type, its value and its view. *)
Definition entry : Type := string * ty * value * tree.

Lemma view_fields_entries (V : ty -> value -> option tree) fs vs k :
  view_fields V fs vs = Some k <-> exists qs : list entry,
    fs = (fun '(n, t, _, _) => (n, t)) <$> qs /\ vs = (fun '(n, _, x, _) => (n, x)) <$> qs /\
    k = (fun '(n, _, _, a) => (n, a)) <$> qs /\ Forall (fun '(_, t, x, a) => V t x = Some a) qs.
Proof.
  split.
  - revert vs k. induction fs as [|[n t] fs IH]; intros [|[n' x] vs] k; cbn; try done.
    { intros [= <-]. by exists []. }
    case_decide as Hn; [subst n'|done]. destruct (V t x) as [a|] eqn:Hx; [|done]. cbn.
    destruct (view_fields V fs vs) as [b|] eqn:Hb; [|done]. intros [= <-].
    destruct (IH _ _ Hb) as (qs & -> & -> & -> & Hqs). exists ((n, t, x, a) :: qs). by repeat split; [..|constructor].
  - intros (qs & -> & -> & -> & H). induction H as [|[[[n t] x] a] qs Hx _ IH]; [done|].
    cbn. rewrite decide_True by done. rewrite Hx. cbn. by rewrite IH.
Qed.

Lemma field_elem {A} n (l : list (string * A)) x : NoDup l.*1 -> (n, x) ∈ l -> field n l = Some x.
Proof.
  induction l as [|[n' y] l IH]; [by intros _ ?%elem_of_nil|]. cbn.
  intros [Hn Hnd]%NoDup_cons [Heq|Hin]%elem_of_cons.
  - injection Heq as -> ->. by rewrite String.eqb_refl.
  - destruct (String.eqb_spec n' n) as [->|Hd]; [|by apply IH].
    destruct Hn. apply list_elem_of_fmap. by exists (n, x).
Qed.

Lemma field_is_elem {A} n (l : list (string * A)) x : field n l = Some x -> (n, x) ∈ l.
Proof.
  induction l as [|[n' y] l IH]; cbn; [done|].
  destruct (String.eqb_spec n' n) as [Hd|Hd]; [|intros H; right; by apply IH].
  subst n'. intros [= ->]. left.
Qed.

Definition entry_name (q : entry) : string := q.1.1.1.

Lemma Forall2_set_field (R R' : entry -> string * value -> Prop) n y qs outs :
  (forall q p, R q p -> p.1 = entry_name q) ->
  (forall q, q ∈ qs -> entry_name q = n -> R' q (n, y)) ->
  (forall q p, entry_name q <> n -> R q p -> R' q p) ->
  NoDup (entry_name <$> qs) -> Forall2 R qs outs -> Forall2 R' qs (set_field n y outs).
Proof.
  intros Hname Hset Hkeep Hnd H. induction H as [|q [n' v] qs outs Hq H IH]; [constructor|].
  cbn in Hnd. apply NoDup_cons in Hnd as [Hn Hnd]. pose proof (Hname _ _ Hq) as Hq'. cbn in Hq' |- *.
  case_decide as Hd.
  - assert (entry_name q = n) as Hqn by congruence. constructor.
    + rewrite Hd. apply Hset; [left|done].
    + eapply Forall2_weaken; [|exact H]. intros q' p Hq'in Hp. apply Hkeep; [|done].
      intros Heq. apply Hn. rewrite Hqn, <-Heq. by apply list_elem_of_fmap_2.
  - constructor; [apply Hkeep; [congruence|done]|]. apply IH; [|done]. intros q' Hin. apply Hset. by right.
Qed.

(** While the fields are copied: those to come are as they were, or anything; the others are
    copies. *)
Definition copying (n0 : nat) h (cs : list (string * copier)) (q : entry) (p : string * value) : Prop :=
  let '(n, t, _, a) := q in
  p.1 = n /\ (n ∈ cs.*1 \/ view h t p.2 = Some a /\ above n0 (refs p.2)).

Lemma copy_fields_copies n0 h cs (qs : list entry) outs :
  let fs := (fun '(n, _, x, _) => (n, x)) <$> qs in
  n0 <= length h -> NoDup (entry_name <$> qs) -> NoDup cs.*1 ->
  Forall (fun '(_, t, x, a) => view h t x = Some a) qs ->
  (forall n f, (n, f) ∈ cs -> exists q, q ∈ qs /\ entry_name q = n /\ DeepCopies q.1.1.2 f) ->
  Forall2 (copying n0 h cs) qs outs ->
  exists outs' new, copy_fields cs fs outs h = Done (outs', h ++ new) /\
    above n0 (flat_map cell_refs new) /\ Forall2 (copying n0 (h ++ new) []) qs outs'.
Proof.
  intros fs. revert h outs. induction cs as [|[n f] cs IH]; intros h outs Hn0 Hnd Hcs Hqs Hall Hout.
  - exists outs, []. rewrite app_nil_r. split; [done|]. split; [constructor|done].
  - apply NoDup_cons in Hcs as [Hn Hcs]. cbn in Hn.
    destruct (Hall n f ltac:(left)) as ([[[n' t] x] a] & Hq & Hname & Hf). cbn in Hname, Hf. subst n'.
    rewrite Forall_forall in Hqs. pose proof (Hqs _ Hq) as Hx. cbn in Hx.
    destruct (Hf h x a Hx) as (y & new & Hy & Hview & Hab). apply above_app in Hab as [Hay Han].
    destruct (IH (h ++ new) (set_field n y outs)) as (outs' & new' & Hrun & Hab' & Hout').
    + rewrite length_app. lia.
    + done.
    + done.
    + rewrite Forall_forall. intros q' Hq'. specialize (Hqs _ Hq'). destruct q' as [[[n' t'] x'] a'].
      by apply view_extend.
    + intros n' f' Hin. apply Hall. by right.
    + eapply Forall2_set_field; [| | |exact Hnd|exact Hout].
      * by intros [[[n' t'] x'] a'] p [Hp _].
      * intros q' Hq' Hname. assert (q' = (n, t, x, a)) as ->.
        { eapply NoDup_fmap_elem; [exact Hnd|done..]. }
        split; [done|]. right. split; [done|]. by eapply above_le.
      * intros [[[n' t'] x'] a'] p Hne [Hp1 Hp]. split; [done|].
        destruct Hp as [Hp|[Hv Hr]]; [|right; split; [by apply view_extend|done]].
        cbn in Hp. apply elem_of_cons in Hp as [->|Hp]; [done|by left].
    + exists outs', (new ++ new'). cbn [copy_fields].
      assert (field n fs = Some x) as ->.
      { apply field_elem.
        - unfold fs. rewrite <-list_fmap_compose. erewrite list_fmap_ext; [exact Hnd|].
          by intros i [[[? ?] ?] ?] _.
        - exact (list_elem_of_fmap_2 (fun '((n, _, x, _) : entry) => (n, x)) _ _ Hq). }
      unfold mbind, GoM_bind. rewrite Hy, Hrun, app_assoc. split; [done|]. split; [|done].
      rewrite flat_map_app. apply Forall_app. split; [by eapply above_le|done].
Qed.

(** All are copies in the end. *)
Lemma copied_struct n0 h (qs : list entry) outs :
  Forall2 (copying n0 h []) qs outs ->
  view_fields (view h) ((fun '(n, t, _, _) => (n, t)) <$> qs) outs =
    Some ((fun '(n, _, _, a) => (n, a)) <$> qs) /\ above n0 (refs (Struct outs)).
Proof.
  intros H. induction H as [|[[[n t] x] a] [n' y] qs outs [Hn [Hp|[Hv Hr]]] _ [IHv IHr]].
  - split; [done|constructor].
  - by apply elem_of_nil in Hp.
  - cbn in Hn, Hv, Hr |- *. subst n'. rewrite decide_True, Hv by done. cbn. rewrite IHv.
    split; [done|]. by apply above_app.
Qed.

(** A struct is copied if each field is: those the code names by their copiers, and the others
    hold no references. *)
Definition copies_field (cs : list (string * copier)) (p : string * ty) : Prop :=
  match field p.1 cs with Some f => DeepCopies p.2 f | None => Flat p.2 end.

Lemma copies_struct fs cs :
  bool_decide (NoDup fs.*1 /\ NoDup cs.*1 /\ cs.*1 ⊆ fs.*1) = true -> Forall (copies_field cs) fs ->
  DeepCopies (TStruct fs) (copy_struct cs).
Proof.
  intros (Hnf & Hnc & Hsub)%bool_decide_eq_true Hfs h [| | | | |vs] tr; try done. cbn.
  destruct (view_fields (view h) fs vs) as [k|] eqn:Hk; [|done]. intros [= <-].
  apply view_fields_entries in Hk as (qs & -> & -> & -> & Hqs).
  assert (NoDup (entry_name <$> qs)) as Hnd.
  { rewrite <-list_fmap_compose in Hnf. erewrite list_fmap_ext; [exact Hnf|]. by intros i [[[? ?] ?] ?] _. }
  rewrite Forall_fmap, Forall_forall in Hfs.
  destruct (copy_fields_copies (length h) h cs qs ((fun '(n, _, x, _) => (n, x)) <$> qs))
    as (outs & new & Hrun & Hnew & Hout); [lia|done..| | |].
  - intros n f Hin. assert (n ∈ ((fun '(n, t, _, _) => (n, t)) <$> qs).*1) as Hn.
    { apply Hsub, (list_elem_of_fmap_2 fst _ _ Hin). }
    rewrite <-list_fmap_compose in Hn. apply list_elem_of_fmap in Hn as (q & -> & Hq).
    exists q. split; [done|]. specialize (Hfs _ Hq). destruct q as [[[n t] x] a]. split; [done|].
    cbn in *. unfold copies_field in Hfs. cbn in Hfs.
    by rewrite (field_elem _ _ _ Hnc Hin) in Hfs.
  - apply Forall2_fmap_r, Forall_Forall2_diag. rewrite Forall_forall in Hqs |- *.
    intros [[[n t] x] a] Hq. split; [done|]. specialize (Hqs _ Hq). specialize (Hfs _ Hq).
    unfold copies_field in Hfs. cbn in *. destruct (field n cs) as [f|] eqn:Hfield.
    + left. apply (list_elem_of_fmap_2 fst _ _ (field_is_elem _ _ _ Hfield)).
    + right. split; [done|]. rewrite (Hfs h x a Hqs). constructor.
  - exists (Struct outs), new. unfold mbind, GoM_bind, mret, GoM_ret. rewrite Hrun. split; [done|].
    destruct (copied_struct (length h) (h ++ new) qs outs Hout) as [Hview Hrefs]. cbn [view].
    rewrite Hview. split; [done|]. by apply above_app.
Qed.
End copies.

(** ** Independence *)

(** The copy is equal to what is copied; what its holder does leaves the original as it is, and
    what the holders of all that was there before do leaves the copy as it is. *)
Definition independent_copy (t : ty) (f : copier) : Prop := forall h v tr,
  closed h -> Forall (fun l => l < length h) (refs v) -> view h t v = Some tr ->
  exists v' h', f v h = Done (v', h') /\ view h' t v' = Some tr /\ view h' t v = Some tr /\
    (forall ls h2, rtc holds (refs v', h') (ls, h2) -> view h2 t v = Some tr) /\
    (forall old ls h2, Forall (fun l => l < length h) old -> rtc holds (old, h') (ls, h2) ->
       view h2 t v' = Some tr).

Lemma copies_independent t f : DeepCopies t f -> independent_copy t f.
Proof.
  intros Hf h v tr Hclosed Hv Hview. destruct (Hf h v tr Hview) as (v' & new & Hrun & Hview' & Hab).
  apply above_app in Hab as [Hr Hn]. unfold above in Hn. rewrite Forall_flat_map in Hn.
  unfold closed in Hclosed. rewrite Forall_forall in Hclosed.
  assert (forall l c, (h ++ new) !! l = Some c -> l < length h /\ h !! l = Some c \/
    length h <= l < length (h ++ new) /\ c ∈ new) as Hcells.
  { intros l c Hl. pose proof (lookup_lt_Some _ _ _ Hl) as Hlt.
    apply lookup_app_Some in Hl as [Hl|[Hl1 Hl2]].
    - left. split; [by eapply lookup_lt_Some|done].
    - right. split; [done|by eapply list_elem_of_lookup_2]. }
  exists v', (h ++ new). split; [done|]. split; [done|]. split; [by apply view_extend|]. split.
  - intros ls h2 Hh. eapply view_preserved; [|exact Hview]. intros l c Hl.
    pose proof (lookup_lt_Some _ _ _ Hl) as Hlt.
    rewrite (holds_region (fun l => l < length h) _ _ Hh); [by apply lookup_extend|..|done]; cbn [fst snd].
    + intros x Hx. rewrite length_app. lia.
    + eapply Forall_impl; [exact Hr|]. cbn. lia.
    + intros x c' Hx Hc'. apply Hcells in Hc' as [[Hlt' _]|[_ Hin]]; [done|].
      eapply Forall_impl; [by apply Hn|]. cbn. lia.
  - intros old ls h2 Hold Hh.
    apply (view_region (fun l => length h <= l) (h ++ new)); [|done|done].
    intros l c Hge Hl. destruct (Hcells l c Hl) as [[? _]|[Hlt Hin]]; [lia|].
    split; [|by apply Hn].
    rewrite (holds_region (fun l => length h <= l < length (h ++ new)) _ _ Hh); [done|..|done]; cbn [fst snd].
    + intros x Hx. lia.
    + eapply Forall_impl; [exact Hold|]. cbn. lia.
    + intros x c' Hx Hc'. apply Hcells in Hc' as [[Hlt' Hc']|[Hc' _]]; [|done].
      eapply Forall_impl; [apply Hclosed; by eapply list_elem_of_lookup_2|]. cbn. lia.
Qed.
