(* ===== verification/ApiShapes.v ===== *)
(** * apis/risingwave/v1alpha1: the structs of the API, with every field

    For each struct of the package its shape: the fields with their types, as far as memory is
    concerned (numbers, booleans and strings are scalars). The types of other packages are
    those of the class [ForeignTypes]. [DeepCopy] checks the generated copies against them. *)

From S2P Require Import Prelude GoMonad GoHeap.

(** ** Definitions *)

(** The types of Kubernetes and OpenKruise the structs use: their shape, and their [DeepCopyInto]
    and [DeepCopy]. *)
Class ForeignTypes := {
  foreign : string -> ty;
  foreign_DeepCopyInto : string -> copier;
  foreign_DeepCopy : string -> copier;
}.

Section shapes.
Context `{FT : ForeignTypes}.

Definition RisingWaveMetaStoreStatus_shape : ty :=
  TStruct
    [("Backend", TScalar)].

Definition RisingWaveEtcdCredentials_shape : ty :=
  TStruct
    [("SecretName", TScalar); ("UsernameKeyRef", TScalar); ("PasswordKeyRef", TScalar)].

Definition RisingWaveMetaStoreBackendEtcd_shape : ty :=
  TStruct
    [("RisingWaveEtcdCredentials", TPointer RisingWaveEtcdCredentials_shape);
     ("Endpoint", TScalar); ("Secret", TScalar)].

Definition RisingWaveMetaStoreBackendSQLite_shape : ty :=
  TStruct
    [("Path", TScalar)].

Definition RisingWaveDBCredentials_shape : ty :=
  TStruct
    [("SecretName", TScalar); ("UsernameKeyRef", TScalar); ("PasswordKeyRef", TScalar)].

Definition RisingWaveMetaStoreBackendMySQL_shape : ty :=
  TStruct
    [("RisingWaveDBCredentials", RisingWaveDBCredentials_shape); ("Host", TScalar);
     ("Port", TScalar); ("Database", TScalar); ("Options", TMap TScalar)].

Definition RisingWaveMetaStoreBackendPostgreSQL_shape : ty :=
  TStruct
    [("RisingWaveDBCredentials", RisingWaveDBCredentials_shape); ("Host", TScalar);
     ("Port", TScalar); ("Database", TScalar); ("Options", TMap TScalar)].

Definition RisingWaveMetaStoreBackend_shape : ty :=
  TStruct
    [("Memory", TPointer TScalar); ("Etcd", TPointer RisingWaveMetaStoreBackendEtcd_shape);
     ("SQLite", TPointer RisingWaveMetaStoreBackendSQLite_shape);
     ("MySQL", TPointer RisingWaveMetaStoreBackendMySQL_shape);
     ("PostgreSQL", TPointer RisingWaveMetaStoreBackendPostgreSQL_shape)].

Definition PartialObjectMeta_shape : ty :=
  TStruct
    [("Labels", TMap TScalar); ("Annotations", TMap TScalar)].

Definition PersistentVolumeClaimPartialObjectMeta_shape : ty :=
  TStruct
    [("Name", TScalar); ("Labels", TMap TScalar); ("Annotations", TMap TScalar);
     ("Finalizers", TSlice TScalar)].

Definition PersistentVolumeClaim_shape : ty :=
  TStruct
    [("PersistentVolumeClaimPartialObjectMeta", PersistentVolumeClaimPartialObjectMeta_shape);
     ("Spec", foreign "corev1.PersistentVolumeClaimSpec")].

Definition RisingWaveNodeConfigurationConfigMapSource_shape : ty :=
  TStruct
    [("Name", TScalar); ("Key", TScalar); ("Optional", TPointer TScalar)].

Definition RisingWaveNodeConfigurationSecretSource_shape : ty :=
  TStruct
    [("Name", TScalar); ("Key", TScalar); ("Optional", TPointer TScalar)].

Definition RisingWaveNodeConfiguration_shape : ty :=
  TStruct
    [("ConfigMap", TPointer RisingWaveNodeConfigurationConfigMapSource_shape);
     ("Secret", TPointer RisingWaveNodeConfigurationSecretSource_shape)].

Definition RisingWaveLicenseKey_shape : ty :=
  TStruct
    [("SecretName", TScalar); ("SecretKey", TScalar); ("PassAsFile", TPointer TScalar)].

Definition RisingWaveNodeContainer_shape : ty :=
  TStruct
    [("Image", TScalar); ("EnvFrom", TSlice (foreign "corev1.EnvFromSource"));
     ("Env", TSlice (foreign "corev1.EnvVar"));
     ("Resources", foreign "corev1.ResourceRequirements");
     ("VolumeMounts", TSlice (foreign "corev1.VolumeMount"));
     ("VolumeDevices", TSlice (foreign "corev1.VolumeDevice"));
     ("ImagePullPolicy", foreign "corev1.PullPolicy");
     ("SecurityContext", TPointer (foreign "corev1.SecurityContext"))].

Definition RisingWaveNodePodTemplateSpec_shape : ty :=
  TStruct
    [("RisingWaveNodeContainer", RisingWaveNodeContainer_shape);
     ("Volumes", TSlice (foreign "corev1.Volume")); ("ActiveDeadlineSeconds", TPointer TScalar);
     ("TerminationGracePeriodSeconds", TPointer TScalar);
     ("DNSPolicy", foreign "corev1.DNSPolicy"); ("NodeSelector", TMap TScalar);
     ("ServiceAccountName", TScalar); ("AutomountServiceAccountToken", TPointer TScalar);
     ("HostPID", TScalar); ("HostIPC", TScalar); ("ShareProcessNamespace", TPointer TScalar);
     ("SecurityContext", TPointer (foreign "corev1.PodSecurityContext"));
     ("ImagePullSecrets", TSlice (foreign "corev1.LocalObjectReference"));
     ("Affinity", TPointer (foreign "corev1.Affinity")); ("SchedulerName", TScalar);
     ("Tolerations", TSlice (foreign "corev1.Toleration"));
     ("HostAliases", TSlice (foreign "corev1.HostAlias")); ("PriorityClassName", TScalar);
     ("Priority", TPointer TScalar); ("DNSConfig", TPointer (foreign "corev1.PodDNSConfig"));
     ("RuntimeClassName", TPointer TScalar);
     ("PreemptionPolicy", TPointer (foreign "corev1.PreemptionPolicy"));
     ("TopologySpreadConstraints", TSlice (foreign "corev1.TopologySpreadConstraint"));
     ("SetHostnameAsFQDN", TPointer TScalar); ("OS", TPointer (foreign "corev1.PodOS"));
     ("HostUsers", TPointer TScalar);
     ("AdditionalContainers", TSlice (foreign "corev1.Container"))].

Definition RisingWaveNodePodTemplate_shape : ty :=
  TStruct
    [("ObjectMeta", PartialObjectMeta_shape); ("Spec", RisingWaveNodePodTemplateSpec_shape)].

Definition RisingWaveNodeGroupRollingUpdate_shape : ty :=
  TStruct
    [("MaxUnavailable", TPointer (foreign "intstr.IntOrString"));
     ("Partition", TPointer (foreign "intstr.IntOrString"));
     ("MaxSurge", TPointer (foreign "intstr.IntOrString"))].

Definition RisingWaveNodeGroupUpgradeStrategy_shape : ty :=
  TStruct
    [("Type", TScalar); ("RollingUpdate", TPointer RisingWaveNodeGroupRollingUpdate_shape);
     ("InPlaceUpdateStrategy", TPointer (foreign "pub.InPlaceUpdateStrategy"))].

Definition RisingWaveNodeGroup_shape : ty :=
  TStruct
    [("Name", TScalar); ("Replicas", TScalar); ("RestartAt", TPointer (foreign "metav1.Time"));
     ("Configuration", TPointer RisingWaveNodeConfiguration_shape);
     ("UpgradeStrategy", RisingWaveNodeGroupUpgradeStrategy_shape); ("MinReadySeconds", TScalar);
     ("VolumeClaimTemplates", TSlice PersistentVolumeClaim_shape);
     ("PersistentVolumeClaimRetentionPolicy", TPointer (foreign "appsv1.StatefulSetPersistentVolumeClaimRetentionPolicy"));
     ("ProgressDeadlineSeconds", TPointer TScalar); ("Template", RisingWaveNodePodTemplate_shape)].

Definition RisingWaveComponent_shape : ty :=
  TStruct
    [("LogLevel", TScalar); ("DisallowPrintStackTraces", TPointer TScalar);
     ("NodeGroups", TSlice RisingWaveNodeGroup_shape)].

Definition WorkloadReplicaStatus_shape : ty :=
  TStruct
    [("Replicas", TScalar); ("ReadyReplicas", TScalar); ("AvailableReplicas", TScalar);
     ("UpdatedReplicas", TScalar); ("UnavailableReplicas", TScalar)].

Definition RisingWaveNodeGroupStatus_shape : ty :=
  TStruct
    [("Name", TScalar); ("WorkloadReplicaStatus", WorkloadReplicaStatus_shape);
     ("Exists", TScalar)].

Definition RisingWaveComponentStatus_shape : ty :=
  TStruct
    [("Total", WorkloadReplicaStatus_shape);
     ("NodeGroups", TSlice RisingWaveNodeGroupStatus_shape)].

Definition RisingWaveScaleViewTargetRef_shape : ty :=
  TStruct
    [("Name", TScalar); ("Component", TScalar); ("UID", foreign "types.UID")].

Definition RisingWaveScaleViewSpecScalePolicyConstraints_shape : ty :=
  TStruct
    [("Max", TScalar)].

Definition RisingWaveScaleViewSpecScalePolicy_shape : ty :=
  TStruct
    [("Group", TScalar); ("Priority", TScalar); ("MaxReplicas", TPointer TScalar)].

Definition RisingWaveScaleViewSpec_shape : ty :=
  TStruct
    [("TargetRef", RisingWaveScaleViewTargetRef_shape); ("Replicas", TPointer TScalar);
     ("LabelSelector", TScalar); ("ScalePolicy", TSlice RisingWaveScaleViewSpecScalePolicy_shape)].

Definition RisingWaveScaleViewStatus_shape : ty :=
  TStruct
    [("Replicas", TPointer TScalar); ("Locked", TScalar)].

Definition RisingWaveScaleView_shape : ty :=
  TStruct
    [("TypeMeta", foreign "metav1.TypeMeta"); ("ObjectMeta", foreign "metav1.ObjectMeta");
     ("Spec", RisingWaveScaleViewSpec_shape); ("Status", RisingWaveScaleViewStatus_shape)].

Definition RisingWaveScaleViewList_shape : ty :=
  TStruct
    [("TypeMeta", foreign "metav1.TypeMeta"); ("ListMeta", foreign "metav1.ListMeta");
     ("Items", TSlice RisingWaveScaleView_shape)].

Definition RisingWaveSecretStorePrivateKeySecretReference_shape : ty :=
  TStruct
    [("Name", TScalar); ("Key", TScalar)].

Definition RisingWaveSecretStorePrivateKey_shape : ty :=
  TStruct
    [("Value", TPointer TScalar);
     ("SecretRef", TPointer RisingWaveSecretStorePrivateKeySecretReference_shape)].

Definition RisingWaveSecretStore_shape : ty :=
  TStruct
    [("PrivateKey", RisingWaveSecretStorePrivateKey_shape)].

Definition RisingWaveTLSConfiguration_shape : ty :=
  TStruct
    [("SecretName", TScalar)].

Definition RisingWaveStandaloneComponent_shape : ty :=
  TStruct
    [("LogLevel", TScalar); ("DisallowPrintStackTraces", TPointer TScalar);
     ("RestartAt", TPointer (foreign "metav1.Time")); ("Replicas", TScalar);
     ("UpgradeStrategy", RisingWaveNodeGroupUpgradeStrategy_shape); ("MinReadySeconds", TScalar);
     ("VolumeClaimTemplates", TSlice PersistentVolumeClaim_shape);
     ("PersistentVolumeClaimRetentionPolicy", TPointer (foreign "appsv1.StatefulSetPersistentVolumeClaimRetentionPolicy"));
     ("ProgressDeadlineSeconds", TPointer TScalar); ("Template", RisingWaveNodePodTemplate_shape)].

Definition RisingWaveStateStoreStatus_shape : ty :=
  TStruct
    [("Backend", TScalar)].

Definition RisingWaveMinIOCredentials_shape : ty :=
  TStruct
    [("SecretName", TScalar); ("UsernameKeyRef", TScalar); ("PasswordKeyRef", TScalar)].

Definition RisingWaveStateStoreBackendMinIO_shape : ty :=
  TStruct
    [("RisingWaveMinIOCredentials", RisingWaveMinIOCredentials_shape); ("Endpoint", TScalar);
     ("Bucket", TScalar)].

Definition RisingWaveS3Credentials_shape : ty :=
  TStruct
    [("UseServiceAccount", TPointer TScalar); ("SecretName", TScalar); ("AccessKeyRef", TScalar);
     ("SecretAccessKeyRef", TScalar)].

Definition RisingWaveStateStoreBackendS3_shape : ty :=
  TStruct
    [("RisingWaveS3Credentials", RisingWaveS3Credentials_shape); ("Bucket", TScalar);
     ("Region", TScalar); ("Endpoint", TScalar); ("ForcePathStyle", TScalar)].

Definition RisingWaveGCSCredentials_shape : ty :=
  TStruct
    [("UseWorkloadIdentity", TPointer TScalar); ("SecretName", TScalar);
     ("ServiceAccountCredentialsKeyRef", TScalar)].

Definition RisingWaveStateStoreBackendGCS_shape : ty :=
  TStruct
    [("RisingWaveGCSCredentials", RisingWaveGCSCredentials_shape); ("Bucket", TScalar);
     ("Root", TScalar)].

Definition RisingWaveAzureBlobCredentials_shape : ty :=
  TStruct
    [("SecretName", TScalar); ("AccountNameRef", TScalar); ("AccountKeyRef", TScalar);
     ("UseServiceAccount", TPointer TScalar)].

Definition RisingWaveAliyunOSSCredentials_shape : ty :=
  TStruct
    [("SecretName", TScalar); ("AccessKeyIDRef", TScalar); ("AccessKeySecretRef", TScalar)].

Definition RisingWaveStateStoreBackendAzureBlob_shape : ty :=
  TStruct
    [("RisingWaveAzureBlobCredentials", RisingWaveAzureBlobCredentials_shape);
     ("Container", TScalar); ("Root", TScalar); ("Endpoint", TScalar)].

Definition RisingWaveStateStoreBackendAliyunOSS_shape : ty :=
  TStruct
    [("RisingWaveAliyunOSSCredentials", RisingWaveAliyunOSSCredentials_shape);
     ("Bucket", TScalar); ("Root", TScalar); ("Region", TScalar); ("InternalEndpoint", TScalar)].

Definition RisingWaveStateStoreBackendHDFS_shape : ty :=
  TStruct
    [("NameNode", TScalar); ("Root", TScalar)].

Definition RisingWaveStateStoreBackendLocalDisk_shape : ty :=
  TStruct
    [("Root", TScalar)].

Definition RisingWaveHuaweiCloudOBSCredentials_shape : ty :=
  TStruct
    [("SecretName", TScalar); ("AccessKeyIDRef", TScalar); ("AccessKeySecretRef", TScalar)].

Definition RisingWaveStateStoreBackendHuaweiCloudOBS_shape : ty :=
  TStruct
    [("RisingWaveHuaweiCloudOBSCredentials", RisingWaveHuaweiCloudOBSCredentials_shape);
     ("Bucket", TScalar); ("Region", TScalar)].

Definition RisingWaveStateStoreBackend_shape : ty :=
  TStruct
    [("DataDirectory", TScalar); ("Memory", TPointer TScalar);
     ("LocalDisk", TPointer RisingWaveStateStoreBackendLocalDisk_shape);
     ("MinIO", TPointer RisingWaveStateStoreBackendMinIO_shape);
     ("S3", TPointer RisingWaveStateStoreBackendS3_shape);
     ("GCS", TPointer RisingWaveStateStoreBackendGCS_shape);
     ("AliyunOSS", TPointer RisingWaveStateStoreBackendAliyunOSS_shape);
     ("AzureBlob", TPointer RisingWaveStateStoreBackendAzureBlob_shape);
     ("HDFS", TPointer RisingWaveStateStoreBackendHDFS_shape);
     ("WebHDFS", TPointer RisingWaveStateStoreBackendHDFS_shape);
     ("HuaweiCloudOBS", TPointer RisingWaveStateStoreBackendHuaweiCloudOBS_shape)].

Definition RisingWaveConfigurationSpec_shape : ty :=
  TStruct
    [("RisingWaveNodeConfiguration", RisingWaveNodeConfiguration_shape)].

Definition RisingWaveGlobalReplicas_shape : ty :=
  TStruct
    [("Meta", TScalar); ("Frontend", TScalar); ("Compute", TScalar); ("Compactor", TScalar)].

Definition RisingWaveComponentsSpec_shape : ty :=
  TStruct
    [("Standalone", TPointer RisingWaveStandaloneComponent_shape);
     ("Meta", RisingWaveComponent_shape); ("Frontend", RisingWaveComponent_shape);
     ("Compute", RisingWaveComponent_shape); ("Compactor", RisingWaveComponent_shape)].

Definition RisingWaveSpec_shape : ty :=
  TStruct
    [("Components", RisingWaveComponentsSpec_shape);
     ("Configuration", RisingWaveConfigurationSpec_shape); ("EnableOpenKruise", TPointer TScalar);
     ("EnableDefaultServiceMonitor", TPointer TScalar);
     ("EnableFullKubernetesAddr", TPointer TScalar); ("EnableStandaloneMode", TPointer TScalar);
     ("EnableEmbeddedServingMode", TPointer TScalar);
     ("EnableAdvertisingWithIP", TPointer TScalar); ("EnableWebhookListener", TPointer TScalar);
     ("Image", TScalar); ("FrontendServiceType", foreign "corev1.ServiceType");
     ("AdditionalFrontendServiceMetadata", PartialObjectMeta_shape);
     ("AdditionalMetaServiceMetadata", PartialObjectMeta_shape);
     ("MetaStore", RisingWaveMetaStoreBackend_shape);
     ("StateStore", RisingWaveStateStoreBackend_shape);
     ("TLS", TPointer RisingWaveTLSConfiguration_shape); ("StandaloneMode", TScalar);
     ("LicenseKey", TPointer RisingWaveLicenseKey_shape);
     ("SecretStore", RisingWaveSecretStore_shape)].

Definition ComponentGroupReplicasStatus_shape : ty :=
  TStruct
    [("Name", TScalar); ("Target", TScalar); ("Running", TScalar); ("Exists", TScalar)].

Definition ComponentReplicasStatus_shape : ty :=
  TStruct
    [("Target", TScalar); ("Running", TScalar);
     ("Groups", TSlice ComponentGroupReplicasStatus_shape)].

Definition RisingWaveComponentsReplicasStatus_shape : ty :=
  TStruct
    [("Meta", ComponentReplicasStatus_shape); ("Frontend", ComponentReplicasStatus_shape);
     ("Compute", ComponentReplicasStatus_shape); ("Compactor", ComponentReplicasStatus_shape);
     ("Standalone", ComponentReplicasStatus_shape)].

Definition RisingWaveCondition_shape : ty :=
  TStruct
    [("Type", TScalar); ("Status", foreign "metav1.ConditionStatus");
     ("LastTransitionTime", foreign "metav1.Time"); ("Reason", TScalar); ("Message", TScalar)].

Definition RisingWaveScaleViewLockGroupLock_shape : ty :=
  TStruct
    [("Name", TScalar); ("Replicas", TScalar)].

Definition RisingWaveScaleViewLock_shape : ty :=
  TStruct
    [("Name", TScalar); ("UID", foreign "types.UID"); ("Component", TScalar);
     ("Generation", TScalar); ("GroupLocks", TSlice RisingWaveScaleViewLockGroupLock_shape)].

Definition RisingWaveInternalStatus_shape : ty :=
  TStruct
    [("StateStoreRootPath", TScalar)].

Definition RisingWaveStatus_shape : ty :=
  TStruct
    [("ObservedGeneration", TScalar); ("Version", TScalar);
     ("ComponentReplicas", RisingWaveComponentsReplicasStatus_shape);
     ("Conditions", TSlice RisingWaveCondition_shape);
     ("ScaleViews", TSlice RisingWaveScaleViewLock_shape);
     ("Internal", RisingWaveInternalStatus_shape); ("MetaStore", RisingWaveMetaStoreStatus_shape);
     ("StateStore", RisingWaveStateStoreStatus_shape)].

Definition RisingWave_shape : ty :=
  TStruct
    [("TypeMeta", foreign "metav1.TypeMeta"); ("ObjectMeta", foreign "metav1.ObjectMeta");
     ("Spec", RisingWaveSpec_shape); ("Status", RisingWaveStatus_shape)].

Definition RisingWaveList_shape : ty :=
  TStruct
    [("TypeMeta", foreign "metav1.TypeMeta"); ("ListMeta", foreign "metav1.ListMeta");
     ("Items", TSlice RisingWave_shape)].

Definition SecretReference_shape : ty :=
  TStruct
    [("Name", TScalar); ("Namespace", TScalar); ("Key", TScalar)].

Definition AdminCredentials_shape : ty :=
  TStruct
    [("Username", TScalar); ("Password", TScalar);
     ("PasswordSecretRef", TPointer SecretReference_shape)].

Definition RisingWaveReference_shape : ty :=
  TStruct
    [("Name", TScalar); ("Namespace", TScalar); ("Credentials", TPointer AdminCredentials_shape)].

Definition ConnectionRef_shape : ty :=
  TStruct
    [("Host", TScalar); ("Port", TScalar); ("Credentials", TPointer AdminCredentials_shape)].

Definition PasswordConfig_shape : ty :=
  TStruct
    [("SecretRef", TPointer SecretReference_shape); ("GenerateRandomLength", TPointer TScalar)].

Definition OAuthConfig_shape : ty :=
  TStruct
    [("JWKSUrl", TScalar); ("Issuer", TScalar); ("Audience", TSlice TScalar)].

Definition LDAPConfig_shape : ty :=
  TStruct
    [("Host", TScalar); ("Port", TScalar); ("BaseDN", TScalar); ("UseSSL", TPointer TScalar);
     ("InsecureSkipVerify", TPointer TScalar)].

Definition AuthConfig_shape : ty :=
  TStruct
    [("Type", TPointer TScalar); ("OAuth", TPointer OAuthConfig_shape);
     ("LDAP", TPointer LDAPConfig_shape)].

Definition NestedTablePrivilege_shape : ty :=
  TStruct
    [("Name", TScalar); ("Privileges", TSlice TScalar); ("WithGrantOption", TScalar)].

Definition NestedViewPrivilege_shape : ty :=
  TStruct
    [("Name", TScalar); ("Privileges", TSlice TScalar); ("WithGrantOption", TScalar)].

Definition NestedMaterializedViewPrivilege_shape : ty :=
  TStruct
    [("Name", TScalar); ("Privileges", TSlice TScalar); ("WithGrantOption", TScalar)].

Definition NestedSourcePrivilege_shape : ty :=
  TStruct
    [("Name", TScalar); ("Privileges", TSlice TScalar); ("WithGrantOption", TScalar)].

Definition NestedSinkPrivilege_shape : ty :=
  TStruct
    [("Name", TScalar); ("Privileges", TSlice TScalar); ("WithGrantOption", TScalar)].

Definition NestedConnectionPrivilege_shape : ty :=
  TStruct
    [("Name", TScalar); ("Privileges", TSlice TScalar); ("WithGrantOption", TScalar)].

Definition NestedSecretPrivilege_shape : ty :=
  TStruct
    [("Name", TScalar); ("Privileges", TSlice TScalar); ("WithGrantOption", TScalar)].

Definition NestedFunctionPrivilege_shape : ty :=
  TStruct
    [("Name", TScalar); ("Privileges", TSlice TScalar); ("WithGrantOption", TScalar)].

Definition NestedSchemaPrivilege_shape : ty :=
  TStruct
    [("Name", TScalar); ("Privileges", TSlice TScalar); ("WithGrantOption", TScalar);
     ("Tables", TSlice NestedTablePrivilege_shape); ("Views", TSlice NestedViewPrivilege_shape);
     ("MaterializedViews", TSlice NestedMaterializedViewPrivilege_shape);
     ("Sources", TSlice NestedSourcePrivilege_shape); ("Sinks", TSlice NestedSinkPrivilege_shape);
     ("Connections", TSlice NestedConnectionPrivilege_shape);
     ("Secrets", TSlice NestedSecretPrivilege_shape);
     ("Functions", TSlice NestedFunctionPrivilege_shape)].

Definition DatabasePrivilege_shape : ty :=
  TStruct
    [("Name", TScalar); ("Privileges", TSlice TScalar); ("WithGrantOption", TScalar);
     ("Schemas", TSlice NestedSchemaPrivilege_shape)].

Definition GrantSpec_shape : ty :=
  TStruct
    [("Databases", TSlice DatabasePrivilege_shape)].

Definition RisingWaveUserSpec_shape : ty :=
  TStruct
    [("RisingWaveRef", TPointer RisingWaveReference_shape);
     ("ConnectionRef", TPointer ConnectionRef_shape); ("Name", TScalar);
     ("Password", TPointer PasswordConfig_shape); ("Auth", TPointer AuthConfig_shape);
     ("Permissions", TSlice TScalar); ("Grants", TPointer GrantSpec_shape)].

Definition ConnectionStatus_shape : ty :=
  TStruct
    [("Connected", TScalar); ("LastConnectedTime", TPointer (foreign "metav1.Time"));
     ("ErrorMessage", TScalar)].

Definition RisingWaveUserStatus_shape : ty :=
  TStruct
    [("Conditions", TSlice (foreign "metav1.Condition")); ("ObservedGeneration", TScalar);
     ("UserCreated", TScalar); ("SecretCreated", TScalar); ("SecretName", TScalar);
     ("PrivilegesSynced", TScalar); ("ConnectionStatus", TPointer ConnectionStatus_shape);
     ("Phase", TScalar)].

Definition RisingWaveUser_shape : ty :=
  TStruct
    [("TypeMeta", foreign "metav1.TypeMeta"); ("ObjectMeta", foreign "metav1.ObjectMeta");
     ("Spec", RisingWaveUserSpec_shape); ("Status", RisingWaveUserStatus_shape)].

Definition RisingWaveUserList_shape : ty :=
  TStruct
    [("TypeMeta", foreign "metav1.TypeMeta"); ("ListMeta", foreign "metav1.ListMeta");
     ("Items", TSlice RisingWaveUser_shape)].

End shapes.
