(* ===== verification/DeepCopy.v ===== *)
(** * zz_generated.deepcopy.go: the copies share nothing with the originals

    The generated functions, each with the fields it copies deeply, and the proof that they do
    what their name says for the structs as they are declared now ([ApiShapes]): the copy is
    equal to the original, nil slices and maps included, and whoever writes through one leaves the
    other as it is. The code relies on it wherever it keeps an object beside a copy it changes
    (the manager of a RisingWave, the cache of the client). *)

From S2P Require Import Prelude GoMonad GoHeap ApiShapes.

(** ** Definitions *)

(** [if c := in.DeepCopy(); c != nil { return c }; return nil]: no typed nil in the interface. *)
Definition copy_object (f : copier) (v : value) : M (option value) :=
  c ← f v; mret match c with Nil => None | _ => Some c end.

Section functions.
Context `{FT : ForeignTypes}.


Definition RisingWaveMetaStoreStatus_DeepCopyInto : copier :=
  copy_struct [].
Definition RisingWaveMetaStoreStatus_DeepCopy : copier :=
  copy_pointer RisingWaveMetaStoreStatus_DeepCopyInto.

Definition RisingWaveEtcdCredentials_DeepCopyInto : copier :=
  copy_struct [].
Definition RisingWaveEtcdCredentials_DeepCopy : copier :=
  copy_pointer RisingWaveEtcdCredentials_DeepCopyInto.

Definition RisingWaveMetaStoreBackendEtcd_DeepCopyInto : copier :=
  copy_struct
    [("RisingWaveEtcdCredentials", copy_pointer assign)].
Definition RisingWaveMetaStoreBackendEtcd_DeepCopy : copier :=
  copy_pointer RisingWaveMetaStoreBackendEtcd_DeepCopyInto.

Definition RisingWaveMetaStoreBackendSQLite_DeepCopyInto : copier :=
  copy_struct [].
Definition RisingWaveMetaStoreBackendSQLite_DeepCopy : copier :=
  copy_pointer RisingWaveMetaStoreBackendSQLite_DeepCopyInto.

Definition RisingWaveDBCredentials_DeepCopyInto : copier :=
  copy_struct [].
Definition RisingWaveDBCredentials_DeepCopy : copier :=
  copy_pointer RisingWaveDBCredentials_DeepCopyInto.

Definition RisingWaveMetaStoreBackendMySQL_DeepCopyInto : copier :=
  copy_struct
    [("RisingWaveDBCredentials", assign); ("Options", copy_map)].
Definition RisingWaveMetaStoreBackendMySQL_DeepCopy : copier :=
  copy_pointer RisingWaveMetaStoreBackendMySQL_DeepCopyInto.

Definition RisingWaveMetaStoreBackendPostgreSQL_DeepCopyInto : copier :=
  copy_struct
    [("RisingWaveDBCredentials", assign); ("Options", copy_map)].
Definition RisingWaveMetaStoreBackendPostgreSQL_DeepCopy : copier :=
  copy_pointer RisingWaveMetaStoreBackendPostgreSQL_DeepCopyInto.

Definition RisingWaveMetaStoreBackend_DeepCopyInto : copier :=
  copy_struct
    [("Memory", copy_pointer assign);
     ("Etcd", copy_pointer RisingWaveMetaStoreBackendEtcd_DeepCopyInto);
     ("SQLite", copy_pointer assign);
     ("MySQL", copy_pointer RisingWaveMetaStoreBackendMySQL_DeepCopyInto);
     ("PostgreSQL", copy_pointer RisingWaveMetaStoreBackendPostgreSQL_DeepCopyInto)].
Definition RisingWaveMetaStoreBackend_DeepCopy : copier :=
  copy_pointer RisingWaveMetaStoreBackend_DeepCopyInto.

Definition PartialObjectMeta_DeepCopyInto : copier :=
  copy_struct
    [("Labels", copy_map); ("Annotations", copy_map)].
Definition PartialObjectMeta_DeepCopy : copier :=
  copy_pointer PartialObjectMeta_DeepCopyInto.

Definition PersistentVolumeClaimPartialObjectMeta_DeepCopyInto : copier :=
  copy_struct
    [("Labels", copy_map); ("Annotations", copy_map); ("Finalizers", copy_slice assign)].
Definition PersistentVolumeClaimPartialObjectMeta_DeepCopy : copier :=
  copy_pointer PersistentVolumeClaimPartialObjectMeta_DeepCopyInto.

Definition PersistentVolumeClaim_DeepCopyInto : copier :=
  copy_struct
    [("PersistentVolumeClaimPartialObjectMeta", PersistentVolumeClaimPartialObjectMeta_DeepCopyInto);
     ("Spec", foreign_DeepCopyInto "corev1.PersistentVolumeClaimSpec")].
Definition PersistentVolumeClaim_DeepCopy : copier :=
  copy_pointer PersistentVolumeClaim_DeepCopyInto.

Definition RisingWaveNodeConfigurationConfigMapSource_DeepCopyInto : copier :=
  copy_struct
    [("Optional", copy_pointer assign)].
Definition RisingWaveNodeConfigurationConfigMapSource_DeepCopy : copier :=
  copy_pointer RisingWaveNodeConfigurationConfigMapSource_DeepCopyInto.

Definition RisingWaveNodeConfigurationSecretSource_DeepCopyInto : copier :=
  copy_struct
    [("Optional", copy_pointer assign)].
Definition RisingWaveNodeConfigurationSecretSource_DeepCopy : copier :=
  copy_pointer RisingWaveNodeConfigurationSecretSource_DeepCopyInto.

Definition RisingWaveNodeConfiguration_DeepCopyInto : copier :=
  copy_struct
    [("ConfigMap", copy_pointer RisingWaveNodeConfigurationConfigMapSource_DeepCopyInto);
     ("Secret", copy_pointer RisingWaveNodeConfigurationSecretSource_DeepCopyInto)].
Definition RisingWaveNodeConfiguration_DeepCopy : copier :=
  copy_pointer RisingWaveNodeConfiguration_DeepCopyInto.

Definition RisingWaveLicenseKey_DeepCopyInto : copier :=
  copy_struct
    [("PassAsFile", copy_pointer assign)].
Definition RisingWaveLicenseKey_DeepCopy : copier :=
  copy_pointer RisingWaveLicenseKey_DeepCopyInto.

Definition RisingWaveNodeContainer_DeepCopyInto : copier :=
  copy_struct
    [("EnvFrom", copy_slice (foreign_DeepCopyInto "corev1.EnvFromSource"));
     ("Env", copy_slice (foreign_DeepCopyInto "corev1.EnvVar"));
     ("Resources", foreign_DeepCopyInto "corev1.ResourceRequirements");
     ("VolumeMounts", copy_slice (foreign_DeepCopyInto "corev1.VolumeMount"));
     ("VolumeDevices", copy_slice assign);
     ("SecurityContext", copy_pointer (foreign_DeepCopyInto "corev1.SecurityContext"))].
Definition RisingWaveNodeContainer_DeepCopy : copier :=
  copy_pointer RisingWaveNodeContainer_DeepCopyInto.

Definition RisingWaveNodePodTemplateSpec_DeepCopyInto : copier :=
  copy_struct
    [("RisingWaveNodeContainer", RisingWaveNodeContainer_DeepCopyInto);
     ("Volumes", copy_slice (foreign_DeepCopyInto "corev1.Volume"));
     ("ActiveDeadlineSeconds", copy_pointer assign);
     ("TerminationGracePeriodSeconds", copy_pointer assign); ("NodeSelector", copy_map);
     ("AutomountServiceAccountToken", copy_pointer assign);
     ("ShareProcessNamespace", copy_pointer assign);
     ("SecurityContext", copy_pointer (foreign_DeepCopyInto "corev1.PodSecurityContext"));
     ("ImagePullSecrets", copy_slice assign);
     ("Affinity", copy_pointer (foreign_DeepCopyInto "corev1.Affinity"));
     ("Tolerations", copy_slice (foreign_DeepCopyInto "corev1.Toleration"));
     ("HostAliases", copy_slice (foreign_DeepCopyInto "corev1.HostAlias"));
     ("Priority", copy_pointer assign);
     ("DNSConfig", copy_pointer (foreign_DeepCopyInto "corev1.PodDNSConfig"));
     ("RuntimeClassName", copy_pointer assign); ("PreemptionPolicy", copy_pointer assign);
     ("TopologySpreadConstraints", copy_slice (foreign_DeepCopyInto "corev1.TopologySpreadConstraint"));
     ("SetHostnameAsFQDN", copy_pointer assign); ("OS", copy_pointer assign);
     ("HostUsers", copy_pointer assign);
     ("AdditionalContainers", copy_slice (foreign_DeepCopyInto "corev1.Container"))].
Definition RisingWaveNodePodTemplateSpec_DeepCopy : copier :=
  copy_pointer RisingWaveNodePodTemplateSpec_DeepCopyInto.

Definition RisingWaveNodePodTemplate_DeepCopyInto : copier :=
  copy_struct
    [("ObjectMeta", PartialObjectMeta_DeepCopyInto);
     ("Spec", RisingWaveNodePodTemplateSpec_DeepCopyInto)].
Definition RisingWaveNodePodTemplate_DeepCopy : copier :=
  copy_pointer RisingWaveNodePodTemplate_DeepCopyInto.

Definition RisingWaveNodeGroupRollingUpdate_DeepCopyInto : copier :=
  copy_struct
    [("MaxUnavailable", copy_pointer assign); ("Partition", copy_pointer assign);
     ("MaxSurge", copy_pointer assign)].
Definition RisingWaveNodeGroupRollingUpdate_DeepCopy : copier :=
  copy_pointer RisingWaveNodeGroupRollingUpdate_DeepCopyInto.

Definition RisingWaveNodeGroupUpgradeStrategy_DeepCopyInto : copier :=
  copy_struct
    [("RollingUpdate", copy_pointer RisingWaveNodeGroupRollingUpdate_DeepCopyInto);
     ("InPlaceUpdateStrategy", copy_pointer assign)].
Definition RisingWaveNodeGroupUpgradeStrategy_DeepCopy : copier :=
  copy_pointer RisingWaveNodeGroupUpgradeStrategy_DeepCopyInto.

Definition RisingWaveNodeGroup_DeepCopyInto : copier :=
  copy_struct
    [("RestartAt", foreign_DeepCopy "metav1.Time");
     ("Configuration", copy_pointer RisingWaveNodeConfiguration_DeepCopyInto);
     ("UpgradeStrategy", RisingWaveNodeGroupUpgradeStrategy_DeepCopyInto);
     ("VolumeClaimTemplates", copy_slice PersistentVolumeClaim_DeepCopyInto);
     ("PersistentVolumeClaimRetentionPolicy", copy_pointer assign);
     ("ProgressDeadlineSeconds", copy_pointer assign);
     ("Template", RisingWaveNodePodTemplate_DeepCopyInto)].
Definition RisingWaveNodeGroup_DeepCopy : copier :=
  copy_pointer RisingWaveNodeGroup_DeepCopyInto.

Definition RisingWaveComponent_DeepCopyInto : copier :=
  copy_struct
    [("DisallowPrintStackTraces", copy_pointer assign);
     ("NodeGroups", copy_slice RisingWaveNodeGroup_DeepCopyInto)].
Definition RisingWaveComponent_DeepCopy : copier :=
  copy_pointer RisingWaveComponent_DeepCopyInto.

Definition WorkloadReplicaStatus_DeepCopyInto : copier :=
  copy_struct [].
Definition WorkloadReplicaStatus_DeepCopy : copier :=
  copy_pointer WorkloadReplicaStatus_DeepCopyInto.

Definition RisingWaveNodeGroupStatus_DeepCopyInto : copier :=
  copy_struct
    [("WorkloadReplicaStatus", assign)].
Definition RisingWaveNodeGroupStatus_DeepCopy : copier :=
  copy_pointer RisingWaveNodeGroupStatus_DeepCopyInto.

Definition RisingWaveComponentStatus_DeepCopyInto : copier :=
  copy_struct
    [("Total", assign); ("NodeGroups", copy_slice assign)].
Definition RisingWaveComponentStatus_DeepCopy : copier :=
  copy_pointer RisingWaveComponentStatus_DeepCopyInto.

Definition RisingWaveScaleViewTargetRef_DeepCopyInto : copier :=
  copy_struct [].
Definition RisingWaveScaleViewTargetRef_DeepCopy : copier :=
  copy_pointer RisingWaveScaleViewTargetRef_DeepCopyInto.

Definition RisingWaveScaleViewSpecScalePolicyConstraints_DeepCopyInto : copier :=
  copy_struct [].
Definition RisingWaveScaleViewSpecScalePolicyConstraints_DeepCopy : copier :=
  copy_pointer RisingWaveScaleViewSpecScalePolicyConstraints_DeepCopyInto.

Definition RisingWaveScaleViewSpecScalePolicy_DeepCopyInto : copier :=
  copy_struct
    [("MaxReplicas", copy_pointer assign)].
Definition RisingWaveScaleViewSpecScalePolicy_DeepCopy : copier :=
  copy_pointer RisingWaveScaleViewSpecScalePolicy_DeepCopyInto.

Definition RisingWaveScaleViewSpec_DeepCopyInto : copier :=
  copy_struct
    [("TargetRef", assign); ("Replicas", copy_pointer assign);
     ("ScalePolicy", copy_slice RisingWaveScaleViewSpecScalePolicy_DeepCopyInto)].
Definition RisingWaveScaleViewSpec_DeepCopy : copier :=
  copy_pointer RisingWaveScaleViewSpec_DeepCopyInto.

Definition RisingWaveScaleViewStatus_DeepCopyInto : copier :=
  copy_struct
    [("Replicas", copy_pointer assign)].
Definition RisingWaveScaleViewStatus_DeepCopy : copier :=
  copy_pointer RisingWaveScaleViewStatus_DeepCopyInto.

Definition RisingWaveScaleView_DeepCopyInto : copier :=
  copy_struct
    [("TypeMeta", assign); ("ObjectMeta", foreign_DeepCopyInto "metav1.ObjectMeta");
     ("Spec", RisingWaveScaleViewSpec_DeepCopyInto);
     ("Status", RisingWaveScaleViewStatus_DeepCopyInto)].
Definition RisingWaveScaleView_DeepCopy : copier :=
  copy_pointer RisingWaveScaleView_DeepCopyInto.
Definition RisingWaveScaleView_DeepCopyObject : value -> M (option value) :=
  copy_object RisingWaveScaleView_DeepCopy.

Definition RisingWaveScaleViewList_DeepCopyInto : copier :=
  copy_struct
    [("TypeMeta", assign); ("ListMeta", foreign_DeepCopyInto "metav1.ListMeta");
     ("Items", copy_slice RisingWaveScaleView_DeepCopyInto)].
Definition RisingWaveScaleViewList_DeepCopy : copier :=
  copy_pointer RisingWaveScaleViewList_DeepCopyInto.
Definition RisingWaveScaleViewList_DeepCopyObject : value -> M (option value) :=
  copy_object RisingWaveScaleViewList_DeepCopy.

Definition RisingWaveSecretStorePrivateKeySecretReference_DeepCopyInto : copier :=
  copy_struct [].
Definition RisingWaveSecretStorePrivateKeySecretReference_DeepCopy : copier :=
  copy_pointer RisingWaveSecretStorePrivateKeySecretReference_DeepCopyInto.

Definition RisingWaveSecretStorePrivateKey_DeepCopyInto : copier :=
  copy_struct
    [("Value", copy_pointer assign); ("SecretRef", copy_pointer assign)].
Definition RisingWaveSecretStorePrivateKey_DeepCopy : copier :=
  copy_pointer RisingWaveSecretStorePrivateKey_DeepCopyInto.

Definition RisingWaveSecretStore_DeepCopyInto : copier :=
  copy_struct
    [("PrivateKey", RisingWaveSecretStorePrivateKey_DeepCopyInto)].
Definition RisingWaveSecretStore_DeepCopy : copier :=
  copy_pointer RisingWaveSecretStore_DeepCopyInto.

Definition RisingWaveTLSConfiguration_DeepCopyInto : copier :=
  copy_struct [].
Definition RisingWaveTLSConfiguration_DeepCopy : copier :=
  copy_pointer RisingWaveTLSConfiguration_DeepCopyInto.

Definition RisingWaveStandaloneComponent_DeepCopyInto : copier :=
  copy_struct
    [("DisallowPrintStackTraces", copy_pointer assign);
     ("RestartAt", foreign_DeepCopy "metav1.Time");
     ("UpgradeStrategy", RisingWaveNodeGroupUpgradeStrategy_DeepCopyInto);
     ("VolumeClaimTemplates", copy_slice PersistentVolumeClaim_DeepCopyInto);
     ("PersistentVolumeClaimRetentionPolicy", copy_pointer assign);
     ("ProgressDeadlineSeconds", copy_pointer assign);
     ("Template", RisingWaveNodePodTemplate_DeepCopyInto)].
Definition RisingWaveStandaloneComponent_DeepCopy : copier :=
  copy_pointer RisingWaveStandaloneComponent_DeepCopyInto.

Definition RisingWaveStateStoreStatus_DeepCopyInto : copier :=
  copy_struct [].
Definition RisingWaveStateStoreStatus_DeepCopy : copier :=
  copy_pointer RisingWaveStateStoreStatus_DeepCopyInto.

Definition RisingWaveMinIOCredentials_DeepCopyInto : copier :=
  copy_struct [].
Definition RisingWaveMinIOCredentials_DeepCopy : copier :=
  copy_pointer RisingWaveMinIOCredentials_DeepCopyInto.

Definition RisingWaveStateStoreBackendMinIO_DeepCopyInto : copier :=
  copy_struct
    [("RisingWaveMinIOCredentials", assign)].
Definition RisingWaveStateStoreBackendMinIO_DeepCopy : copier :=
  copy_pointer RisingWaveStateStoreBackendMinIO_DeepCopyInto.

Definition RisingWaveS3Credentials_DeepCopyInto : copier :=
  copy_struct
    [("UseServiceAccount", copy_pointer assign)].
Definition RisingWaveS3Credentials_DeepCopy : copier :=
  copy_pointer RisingWaveS3Credentials_DeepCopyInto.

Definition RisingWaveStateStoreBackendS3_DeepCopyInto : copier :=
  copy_struct
    [("RisingWaveS3Credentials", RisingWaveS3Credentials_DeepCopyInto)].
Definition RisingWaveStateStoreBackendS3_DeepCopy : copier :=
  copy_pointer RisingWaveStateStoreBackendS3_DeepCopyInto.

Definition RisingWaveGCSCredentials_DeepCopyInto : copier :=
  copy_struct
    [("UseWorkloadIdentity", copy_pointer assign)].
Definition RisingWaveGCSCredentials_DeepCopy : copier :=
  copy_pointer RisingWaveGCSCredentials_DeepCopyInto.

Definition RisingWaveStateStoreBackendGCS_DeepCopyInto : copier :=
  copy_struct
    [("RisingWaveGCSCredentials", RisingWaveGCSCredentials_DeepCopyInto)].
Definition RisingWaveStateStoreBackendGCS_DeepCopy : copier :=
  copy_pointer RisingWaveStateStoreBackendGCS_DeepCopyInto.

Definition RisingWaveAzureBlobCredentials_DeepCopyInto : copier :=
  copy_struct
    [("UseServiceAccount", copy_pointer assign)].
Definition RisingWaveAzureBlobCredentials_DeepCopy : copier :=
  copy_pointer RisingWaveAzureBlobCredentials_DeepCopyInto.

Definition RisingWaveAliyunOSSCredentials_DeepCopyInto : copier :=
  copy_struct [].
Definition RisingWaveAliyunOSSCredentials_DeepCopy : copier :=
  copy_pointer RisingWaveAliyunOSSCredentials_DeepCopyInto.

Definition RisingWaveStateStoreBackendAzureBlob_DeepCopyInto : copier :=
  copy_struct
    [("RisingWaveAzureBlobCredentials", RisingWaveAzureBlobCredentials_DeepCopyInto)].
Definition RisingWaveStateStoreBackendAzureBlob_DeepCopy : copier :=
  copy_pointer RisingWaveStateStoreBackendAzureBlob_DeepCopyInto.

Definition RisingWaveStateStoreBackendAliyunOSS_DeepCopyInto : copier :=
  copy_struct
    [("RisingWaveAliyunOSSCredentials", assign)].
Definition RisingWaveStateStoreBackendAliyunOSS_DeepCopy : copier :=
  copy_pointer RisingWaveStateStoreBackendAliyunOSS_DeepCopyInto.

Definition RisingWaveStateStoreBackendHDFS_DeepCopyInto : copier :=
  copy_struct [].
Definition RisingWaveStateStoreBackendHDFS_DeepCopy : copier :=
  copy_pointer RisingWaveStateStoreBackendHDFS_DeepCopyInto.

Definition RisingWaveStateStoreBackendLocalDisk_DeepCopyInto : copier :=
  copy_struct [].
Definition RisingWaveStateStoreBackendLocalDisk_DeepCopy : copier :=
  copy_pointer RisingWaveStateStoreBackendLocalDisk_DeepCopyInto.

Definition RisingWaveHuaweiCloudOBSCredentials_DeepCopyInto : copier :=
  copy_struct [].
Definition RisingWaveHuaweiCloudOBSCredentials_DeepCopy : copier :=
  copy_pointer RisingWaveHuaweiCloudOBSCredentials_DeepCopyInto.

Definition RisingWaveStateStoreBackendHuaweiCloudOBS_DeepCopyInto : copier :=
  copy_struct
    [("RisingWaveHuaweiCloudOBSCredentials", assign)].
Definition RisingWaveStateStoreBackendHuaweiCloudOBS_DeepCopy : copier :=
  copy_pointer RisingWaveStateStoreBackendHuaweiCloudOBS_DeepCopyInto.

Definition RisingWaveStateStoreBackend_DeepCopyInto : copier :=
  copy_struct
    [("Memory", copy_pointer assign); ("LocalDisk", copy_pointer assign);
     ("MinIO", copy_pointer assign);
     ("S3", copy_pointer RisingWaveStateStoreBackendS3_DeepCopyInto);
     ("GCS", copy_pointer RisingWaveStateStoreBackendGCS_DeepCopyInto);
     ("AliyunOSS", copy_pointer assign);
     ("AzureBlob", copy_pointer RisingWaveStateStoreBackendAzureBlob_DeepCopyInto);
     ("HDFS", copy_pointer assign); ("WebHDFS", copy_pointer assign);
     ("HuaweiCloudOBS", copy_pointer assign)].
Definition RisingWaveStateStoreBackend_DeepCopy : copier :=
  copy_pointer RisingWaveStateStoreBackend_DeepCopyInto.

Definition RisingWaveConfigurationSpec_DeepCopyInto : copier :=
  copy_struct
    [("RisingWaveNodeConfiguration", RisingWaveNodeConfiguration_DeepCopyInto)].
Definition RisingWaveConfigurationSpec_DeepCopy : copier :=
  copy_pointer RisingWaveConfigurationSpec_DeepCopyInto.

Definition RisingWaveGlobalReplicas_DeepCopyInto : copier :=
  copy_struct [].
Definition RisingWaveGlobalReplicas_DeepCopy : copier :=
  copy_pointer RisingWaveGlobalReplicas_DeepCopyInto.

Definition RisingWaveComponentsSpec_DeepCopyInto : copier :=
  copy_struct
    [("Standalone", copy_pointer RisingWaveStandaloneComponent_DeepCopyInto);
     ("Meta", RisingWaveComponent_DeepCopyInto); ("Frontend", RisingWaveComponent_DeepCopyInto);
     ("Compute", RisingWaveComponent_DeepCopyInto);
     ("Compactor", RisingWaveComponent_DeepCopyInto)].
Definition RisingWaveComponentsSpec_DeepCopy : copier :=
  copy_pointer RisingWaveComponentsSpec_DeepCopyInto.

Definition RisingWaveSpec_DeepCopyInto : copier :=
  copy_struct
    [("Components", RisingWaveComponentsSpec_DeepCopyInto);
     ("Configuration", RisingWaveConfigurationSpec_DeepCopyInto);
     ("EnableOpenKruise", copy_pointer assign);
     ("EnableDefaultServiceMonitor", copy_pointer assign);
     ("EnableFullKubernetesAddr", copy_pointer assign);
     ("EnableStandaloneMode", copy_pointer assign);
     ("EnableEmbeddedServingMode", copy_pointer assign);
     ("EnableAdvertisingWithIP", copy_pointer assign);
     ("EnableWebhookListener", copy_pointer assign);
     ("AdditionalFrontendServiceMetadata", PartialObjectMeta_DeepCopyInto);
     ("AdditionalMetaServiceMetadata", PartialObjectMeta_DeepCopyInto);
     ("MetaStore", RisingWaveMetaStoreBackend_DeepCopyInto);
     ("StateStore", RisingWaveStateStoreBackend_DeepCopyInto); ("TLS", copy_pointer assign);
     ("LicenseKey", copy_pointer RisingWaveLicenseKey_DeepCopyInto);
     ("SecretStore", RisingWaveSecretStore_DeepCopyInto)].
Definition RisingWaveSpec_DeepCopy : copier :=
  copy_pointer RisingWaveSpec_DeepCopyInto.

Definition ComponentGroupReplicasStatus_DeepCopyInto : copier :=
  copy_struct [].
Definition ComponentGroupReplicasStatus_DeepCopy : copier :=
  copy_pointer ComponentGroupReplicasStatus_DeepCopyInto.

Definition ComponentReplicasStatus_DeepCopyInto : copier :=
  copy_struct
    [("Groups", copy_slice assign)].
Definition ComponentReplicasStatus_DeepCopy : copier :=
  copy_pointer ComponentReplicasStatus_DeepCopyInto.

Definition RisingWaveComponentsReplicasStatus_DeepCopyInto : copier :=
  copy_struct
    [("Meta", ComponentReplicasStatus_DeepCopyInto);
     ("Frontend", ComponentReplicasStatus_DeepCopyInto);
     ("Compute", ComponentReplicasStatus_DeepCopyInto);
     ("Compactor", ComponentReplicasStatus_DeepCopyInto);
     ("Standalone", ComponentReplicasStatus_DeepCopyInto)].
Definition RisingWaveComponentsReplicasStatus_DeepCopy : copier :=
  copy_pointer RisingWaveComponentsReplicasStatus_DeepCopyInto.

Definition RisingWaveCondition_DeepCopyInto : copier :=
  copy_struct
    [("LastTransitionTime", foreign_DeepCopyInto "metav1.Time")].
Definition RisingWaveCondition_DeepCopy : copier :=
  copy_pointer RisingWaveCondition_DeepCopyInto.

Definition RisingWaveScaleViewLockGroupLock_DeepCopyInto : copier :=
  copy_struct [].
Definition RisingWaveScaleViewLockGroupLock_DeepCopy : copier :=
  copy_pointer RisingWaveScaleViewLockGroupLock_DeepCopyInto.

Definition RisingWaveScaleViewLock_DeepCopyInto : copier :=
  copy_struct
    [("GroupLocks", copy_slice assign)].
Definition RisingWaveScaleViewLock_DeepCopy : copier :=
  copy_pointer RisingWaveScaleViewLock_DeepCopyInto.

Definition RisingWaveInternalStatus_DeepCopyInto : copier :=
  copy_struct [].
Definition RisingWaveInternalStatus_DeepCopy : copier :=
  copy_pointer RisingWaveInternalStatus_DeepCopyInto.

Definition RisingWaveStatus_DeepCopyInto : copier :=
  copy_struct
    [("ComponentReplicas", RisingWaveComponentsReplicasStatus_DeepCopyInto);
     ("Conditions", copy_slice RisingWaveCondition_DeepCopyInto);
     ("ScaleViews", copy_slice RisingWaveScaleViewLock_DeepCopyInto); ("Internal", assign);
     ("MetaStore", assign); ("StateStore", assign)].
Definition RisingWaveStatus_DeepCopy : copier :=
  copy_pointer RisingWaveStatus_DeepCopyInto.

Definition RisingWave_DeepCopyInto : copier :=
  copy_struct
    [("TypeMeta", assign); ("ObjectMeta", foreign_DeepCopyInto "metav1.ObjectMeta");
     ("Spec", RisingWaveSpec_DeepCopyInto); ("Status", RisingWaveStatus_DeepCopyInto)].
Definition RisingWave_DeepCopy : copier :=
  copy_pointer RisingWave_DeepCopyInto.
Definition RisingWave_DeepCopyObject : value -> M (option value) :=
  copy_object RisingWave_DeepCopy.

Definition RisingWaveList_DeepCopyInto : copier :=
  copy_struct
    [("TypeMeta", assign); ("ListMeta", foreign_DeepCopyInto "metav1.ListMeta");
     ("Items", copy_slice RisingWave_DeepCopyInto)].
Definition RisingWaveList_DeepCopy : copier :=
  copy_pointer RisingWaveList_DeepCopyInto.
Definition RisingWaveList_DeepCopyObject : value -> M (option value) :=
  copy_object RisingWaveList_DeepCopy.

Definition SecretReference_DeepCopyInto : copier :=
  copy_struct [].
Definition SecretReference_DeepCopy : copier :=
  copy_pointer SecretReference_DeepCopyInto.

Definition AdminCredentials_DeepCopyInto : copier :=
  copy_struct
    [("PasswordSecretRef", copy_pointer assign)].
Definition AdminCredentials_DeepCopy : copier :=
  copy_pointer AdminCredentials_DeepCopyInto.

Definition RisingWaveReference_DeepCopyInto : copier :=
  copy_struct
    [("Credentials", copy_pointer AdminCredentials_DeepCopyInto)].
Definition RisingWaveReference_DeepCopy : copier :=
  copy_pointer RisingWaveReference_DeepCopyInto.

Definition ConnectionRef_DeepCopyInto : copier :=
  copy_struct
    [("Credentials", copy_pointer AdminCredentials_DeepCopyInto)].
Definition ConnectionRef_DeepCopy : copier :=
  copy_pointer ConnectionRef_DeepCopyInto.

Definition PasswordConfig_DeepCopyInto : copier :=
  copy_struct
    [("SecretRef", copy_pointer assign); ("GenerateRandomLength", copy_pointer assign)].
Definition PasswordConfig_DeepCopy : copier :=
  copy_pointer PasswordConfig_DeepCopyInto.

Definition OAuthConfig_DeepCopyInto : copier :=
  copy_struct
    [("Audience", copy_slice assign)].
Definition OAuthConfig_DeepCopy : copier :=
  copy_pointer OAuthConfig_DeepCopyInto.

Definition LDAPConfig_DeepCopyInto : copier :=
  copy_struct
    [("UseSSL", copy_pointer assign); ("InsecureSkipVerify", copy_pointer assign)].
Definition LDAPConfig_DeepCopy : copier :=
  copy_pointer LDAPConfig_DeepCopyInto.

Definition AuthConfig_DeepCopyInto : copier :=
  copy_struct
    [("Type", copy_pointer assign); ("OAuth", copy_pointer OAuthConfig_DeepCopyInto);
     ("LDAP", copy_pointer LDAPConfig_DeepCopyInto)].
Definition AuthConfig_DeepCopy : copier :=
  copy_pointer AuthConfig_DeepCopyInto.

Definition NestedTablePrivilege_DeepCopyInto : copier :=
  copy_struct
    [("Privileges", copy_slice assign)].
Definition NestedTablePrivilege_DeepCopy : copier :=
  copy_pointer NestedTablePrivilege_DeepCopyInto.

Definition NestedViewPrivilege_DeepCopyInto : copier :=
  copy_struct
    [("Privileges", copy_slice assign)].
Definition NestedViewPrivilege_DeepCopy : copier :=
  copy_pointer NestedViewPrivilege_DeepCopyInto.

Definition NestedMaterializedViewPrivilege_DeepCopyInto : copier :=
  copy_struct
    [("Privileges", copy_slice assign)].
Definition NestedMaterializedViewPrivilege_DeepCopy : copier :=
  copy_pointer NestedMaterializedViewPrivilege_DeepCopyInto.

Definition NestedSourcePrivilege_DeepCopyInto : copier :=
  copy_struct
    [("Privileges", copy_slice assign)].
Definition NestedSourcePrivilege_DeepCopy : copier :=
  copy_pointer NestedSourcePrivilege_DeepCopyInto.

Definition NestedSinkPrivilege_DeepCopyInto : copier :=
  copy_struct
    [("Privileges", copy_slice assign)].
Definition NestedSinkPrivilege_DeepCopy : copier :=
  copy_pointer NestedSinkPrivilege_DeepCopyInto.

Definition NestedConnectionPrivilege_DeepCopyInto : copier :=
  copy_struct
    [("Privileges", copy_slice assign)].
Definition NestedConnectionPrivilege_DeepCopy : copier :=
  copy_pointer NestedConnectionPrivilege_DeepCopyInto.

Definition NestedSecretPrivilege_DeepCopyInto : copier :=
  copy_struct
    [("Privileges", copy_slice assign)].
Definition NestedSecretPrivilege_DeepCopy : copier :=
  copy_pointer NestedSecretPrivilege_DeepCopyInto.

Definition NestedFunctionPrivilege_DeepCopyInto : copier :=
  copy_struct
    [("Privileges", copy_slice assign)].
Definition NestedFunctionPrivilege_DeepCopy : copier :=
  copy_pointer NestedFunctionPrivilege_DeepCopyInto.

Definition NestedSchemaPrivilege_DeepCopyInto : copier :=
  copy_struct
    [("Privileges", copy_slice assign); ("Tables", copy_slice NestedTablePrivilege_DeepCopyInto);
     ("Views", copy_slice NestedViewPrivilege_DeepCopyInto);
     ("MaterializedViews", copy_slice NestedMaterializedViewPrivilege_DeepCopyInto);
     ("Sources", copy_slice NestedSourcePrivilege_DeepCopyInto);
     ("Sinks", copy_slice NestedSinkPrivilege_DeepCopyInto);
     ("Connections", copy_slice NestedConnectionPrivilege_DeepCopyInto);
     ("Secrets", copy_slice NestedSecretPrivilege_DeepCopyInto);
     ("Functions", copy_slice NestedFunctionPrivilege_DeepCopyInto)].
Definition NestedSchemaPrivilege_DeepCopy : copier :=
  copy_pointer NestedSchemaPrivilege_DeepCopyInto.

Definition DatabasePrivilege_DeepCopyInto : copier :=
  copy_struct
    [("Privileges", copy_slice assign);
     ("Schemas", copy_slice NestedSchemaPrivilege_DeepCopyInto)].
Definition DatabasePrivilege_DeepCopy : copier :=
  copy_pointer DatabasePrivilege_DeepCopyInto.

Definition GrantSpec_DeepCopyInto : copier :=
  copy_struct
    [("Databases", copy_slice DatabasePrivilege_DeepCopyInto)].
Definition GrantSpec_DeepCopy : copier :=
  copy_pointer GrantSpec_DeepCopyInto.

Definition RisingWaveUserSpec_DeepCopyInto : copier :=
  copy_struct
    [("RisingWaveRef", copy_pointer RisingWaveReference_DeepCopyInto);
     ("ConnectionRef", copy_pointer ConnectionRef_DeepCopyInto);
     ("Password", copy_pointer PasswordConfig_DeepCopyInto);
     ("Auth", copy_pointer AuthConfig_DeepCopyInto); ("Permissions", copy_slice assign);
     ("Grants", copy_pointer GrantSpec_DeepCopyInto)].
Definition RisingWaveUserSpec_DeepCopy : copier :=
  copy_pointer RisingWaveUserSpec_DeepCopyInto.

Definition ConnectionStatus_DeepCopyInto : copier :=
  copy_struct
    [("LastConnectedTime", foreign_DeepCopy "metav1.Time")].
Definition ConnectionStatus_DeepCopy : copier :=
  copy_pointer ConnectionStatus_DeepCopyInto.

Definition RisingWaveUserStatus_DeepCopyInto : copier :=
  copy_struct
    [("Conditions", copy_slice (foreign_DeepCopyInto "metav1.Condition"));
     ("ConnectionStatus", copy_pointer ConnectionStatus_DeepCopyInto)].
Definition RisingWaveUserStatus_DeepCopy : copier :=
  copy_pointer RisingWaveUserStatus_DeepCopyInto.

Definition RisingWaveUser_DeepCopyInto : copier :=
  copy_struct
    [("TypeMeta", assign); ("ObjectMeta", foreign_DeepCopyInto "metav1.ObjectMeta");
     ("Spec", RisingWaveUserSpec_DeepCopyInto); ("Status", RisingWaveUserStatus_DeepCopyInto)].
Definition RisingWaveUser_DeepCopy : copier :=
  copy_pointer RisingWaveUser_DeepCopyInto.
Definition RisingWaveUser_DeepCopyObject : value -> M (option value) :=
  copy_object RisingWaveUser_DeepCopy.

Definition RisingWaveUserList_DeepCopyInto : copier :=
  copy_struct
    [("TypeMeta", assign); ("ListMeta", foreign_DeepCopyInto "metav1.ListMeta");
     ("Items", copy_slice RisingWaveUser_DeepCopyInto)].
Definition RisingWaveUserList_DeepCopy : copier :=
  copy_pointer RisingWaveUserList_DeepCopyInto.
Definition RisingWaveUserList_DeepCopyObject : value -> M (option value) :=
  copy_object RisingWaveUserList_DeepCopy.

(** Every copy of a pointer, with what it points to. *)
Definition pointer_copies : list (string * ty * copier) :=
  [("RisingWaveMetaStoreStatus", RisingWaveMetaStoreStatus_shape, RisingWaveMetaStoreStatus_DeepCopy);
   ("RisingWaveEtcdCredentials", RisingWaveEtcdCredentials_shape, RisingWaveEtcdCredentials_DeepCopy);
   ("RisingWaveMetaStoreBackendEtcd", RisingWaveMetaStoreBackendEtcd_shape, RisingWaveMetaStoreBackendEtcd_DeepCopy);
   ("RisingWaveMetaStoreBackendSQLite", RisingWaveMetaStoreBackendSQLite_shape, RisingWaveMetaStoreBackendSQLite_DeepCopy);
   ("RisingWaveDBCredentials", RisingWaveDBCredentials_shape, RisingWaveDBCredentials_DeepCopy);
   ("RisingWaveMetaStoreBackendMySQL", RisingWaveMetaStoreBackendMySQL_shape, RisingWaveMetaStoreBackendMySQL_DeepCopy);
   ("RisingWaveMetaStoreBackendPostgreSQL", RisingWaveMetaStoreBackendPostgreSQL_shape, RisingWaveMetaStoreBackendPostgreSQL_DeepCopy);
   ("RisingWaveMetaStoreBackend", RisingWaveMetaStoreBackend_shape, RisingWaveMetaStoreBackend_DeepCopy);
   ("PartialObjectMeta", PartialObjectMeta_shape, PartialObjectMeta_DeepCopy);
   ("PersistentVolumeClaimPartialObjectMeta", PersistentVolumeClaimPartialObjectMeta_shape, PersistentVolumeClaimPartialObjectMeta_DeepCopy);
   ("PersistentVolumeClaim", PersistentVolumeClaim_shape, PersistentVolumeClaim_DeepCopy);
   ("RisingWaveNodeConfigurationConfigMapSource", RisingWaveNodeConfigurationConfigMapSource_shape, RisingWaveNodeConfigurationConfigMapSource_DeepCopy);
   ("RisingWaveNodeConfigurationSecretSource", RisingWaveNodeConfigurationSecretSource_shape, RisingWaveNodeConfigurationSecretSource_DeepCopy);
   ("RisingWaveNodeConfiguration", RisingWaveNodeConfiguration_shape, RisingWaveNodeConfiguration_DeepCopy);
   ("RisingWaveLicenseKey", RisingWaveLicenseKey_shape, RisingWaveLicenseKey_DeepCopy);
   ("RisingWaveNodeContainer", RisingWaveNodeContainer_shape, RisingWaveNodeContainer_DeepCopy);
   ("RisingWaveNodePodTemplateSpec", RisingWaveNodePodTemplateSpec_shape, RisingWaveNodePodTemplateSpec_DeepCopy);
   ("RisingWaveNodePodTemplate", RisingWaveNodePodTemplate_shape, RisingWaveNodePodTemplate_DeepCopy);
   ("RisingWaveNodeGroupRollingUpdate", RisingWaveNodeGroupRollingUpdate_shape, RisingWaveNodeGroupRollingUpdate_DeepCopy);
   ("RisingWaveNodeGroupUpgradeStrategy", RisingWaveNodeGroupUpgradeStrategy_shape, RisingWaveNodeGroupUpgradeStrategy_DeepCopy);
   ("RisingWaveNodeGroup", RisingWaveNodeGroup_shape, RisingWaveNodeGroup_DeepCopy);
   ("RisingWaveComponent", RisingWaveComponent_shape, RisingWaveComponent_DeepCopy);
   ("WorkloadReplicaStatus", WorkloadReplicaStatus_shape, WorkloadReplicaStatus_DeepCopy);
   ("RisingWaveNodeGroupStatus", RisingWaveNodeGroupStatus_shape, RisingWaveNodeGroupStatus_DeepCopy);
   ("RisingWaveComponentStatus", RisingWaveComponentStatus_shape, RisingWaveComponentStatus_DeepCopy);
   ("RisingWaveScaleViewTargetRef", RisingWaveScaleViewTargetRef_shape, RisingWaveScaleViewTargetRef_DeepCopy);
   ("RisingWaveScaleViewSpecScalePolicyConstraints", RisingWaveScaleViewSpecScalePolicyConstraints_shape, RisingWaveScaleViewSpecScalePolicyConstraints_DeepCopy);
   ("RisingWaveScaleViewSpecScalePolicy", RisingWaveScaleViewSpecScalePolicy_shape, RisingWaveScaleViewSpecScalePolicy_DeepCopy);
   ("RisingWaveScaleViewSpec", RisingWaveScaleViewSpec_shape, RisingWaveScaleViewSpec_DeepCopy);
   ("RisingWaveScaleViewStatus", RisingWaveScaleViewStatus_shape, RisingWaveScaleViewStatus_DeepCopy);
   ("RisingWaveScaleView", RisingWaveScaleView_shape, RisingWaveScaleView_DeepCopy);
   ("RisingWaveScaleViewList", RisingWaveScaleViewList_shape, RisingWaveScaleViewList_DeepCopy);
   ("RisingWaveSecretStorePrivateKeySecretReference", RisingWaveSecretStorePrivateKeySecretReference_shape, RisingWaveSecretStorePrivateKeySecretReference_DeepCopy);
   ("RisingWaveSecretStorePrivateKey", RisingWaveSecretStorePrivateKey_shape, RisingWaveSecretStorePrivateKey_DeepCopy);
   ("RisingWaveSecretStore", RisingWaveSecretStore_shape, RisingWaveSecretStore_DeepCopy);
   ("RisingWaveTLSConfiguration", RisingWaveTLSConfiguration_shape, RisingWaveTLSConfiguration_DeepCopy);
   ("RisingWaveStandaloneComponent", RisingWaveStandaloneComponent_shape, RisingWaveStandaloneComponent_DeepCopy);
   ("RisingWaveStateStoreStatus", RisingWaveStateStoreStatus_shape, RisingWaveStateStoreStatus_DeepCopy);
   ("RisingWaveMinIOCredentials", RisingWaveMinIOCredentials_shape, RisingWaveMinIOCredentials_DeepCopy);
   ("RisingWaveStateStoreBackendMinIO", RisingWaveStateStoreBackendMinIO_shape, RisingWaveStateStoreBackendMinIO_DeepCopy);
   ("RisingWaveS3Credentials", RisingWaveS3Credentials_shape, RisingWaveS3Credentials_DeepCopy);
   ("RisingWaveStateStoreBackendS3", RisingWaveStateStoreBackendS3_shape, RisingWaveStateStoreBackendS3_DeepCopy);
   ("RisingWaveGCSCredentials", RisingWaveGCSCredentials_shape, RisingWaveGCSCredentials_DeepCopy);
   ("RisingWaveStateStoreBackendGCS", RisingWaveStateStoreBackendGCS_shape, RisingWaveStateStoreBackendGCS_DeepCopy);
   ("RisingWaveAzureBlobCredentials", RisingWaveAzureBlobCredentials_shape, RisingWaveAzureBlobCredentials_DeepCopy);
   ("RisingWaveAliyunOSSCredentials", RisingWaveAliyunOSSCredentials_shape, RisingWaveAliyunOSSCredentials_DeepCopy);
   ("RisingWaveStateStoreBackendAzureBlob", RisingWaveStateStoreBackendAzureBlob_shape, RisingWaveStateStoreBackendAzureBlob_DeepCopy);
   ("RisingWaveStateStoreBackendAliyunOSS", RisingWaveStateStoreBackendAliyunOSS_shape, RisingWaveStateStoreBackendAliyunOSS_DeepCopy);
   ("RisingWaveStateStoreBackendHDFS", RisingWaveStateStoreBackendHDFS_shape, RisingWaveStateStoreBackendHDFS_DeepCopy);
   ("RisingWaveStateStoreBackendLocalDisk", RisingWaveStateStoreBackendLocalDisk_shape, RisingWaveStateStoreBackendLocalDisk_DeepCopy);
   ("RisingWaveHuaweiCloudOBSCredentials", RisingWaveHuaweiCloudOBSCredentials_shape, RisingWaveHuaweiCloudOBSCredentials_DeepCopy);
   ("RisingWaveStateStoreBackendHuaweiCloudOBS", RisingWaveStateStoreBackendHuaweiCloudOBS_shape, RisingWaveStateStoreBackendHuaweiCloudOBS_DeepCopy);
   ("RisingWaveStateStoreBackend", RisingWaveStateStoreBackend_shape, RisingWaveStateStoreBackend_DeepCopy);
   ("RisingWaveConfigurationSpec", RisingWaveConfigurationSpec_shape, RisingWaveConfigurationSpec_DeepCopy);
   ("RisingWaveGlobalReplicas", RisingWaveGlobalReplicas_shape, RisingWaveGlobalReplicas_DeepCopy);
   ("RisingWaveComponentsSpec", RisingWaveComponentsSpec_shape, RisingWaveComponentsSpec_DeepCopy);
   ("RisingWaveSpec", RisingWaveSpec_shape, RisingWaveSpec_DeepCopy);
   ("ComponentGroupReplicasStatus", ComponentGroupReplicasStatus_shape, ComponentGroupReplicasStatus_DeepCopy);
   ("ComponentReplicasStatus", ComponentReplicasStatus_shape, ComponentReplicasStatus_DeepCopy);
   ("RisingWaveComponentsReplicasStatus", RisingWaveComponentsReplicasStatus_shape, RisingWaveComponentsReplicasStatus_DeepCopy);
   ("RisingWaveCondition", RisingWaveCondition_shape, RisingWaveCondition_DeepCopy);
   ("RisingWaveScaleViewLockGroupLock", RisingWaveScaleViewLockGroupLock_shape, RisingWaveScaleViewLockGroupLock_DeepCopy);
   ("RisingWaveScaleViewLock", RisingWaveScaleViewLock_shape, RisingWaveScaleViewLock_DeepCopy);
   ("RisingWaveInternalStatus", RisingWaveInternalStatus_shape, RisingWaveInternalStatus_DeepCopy);
   ("RisingWaveStatus", RisingWaveStatus_shape, RisingWaveStatus_DeepCopy);
   ("RisingWave", RisingWave_shape, RisingWave_DeepCopy);
   ("RisingWaveList", RisingWaveList_shape, RisingWaveList_DeepCopy);
   ("SecretReference", SecretReference_shape, SecretReference_DeepCopy);
   ("AdminCredentials", AdminCredentials_shape, AdminCredentials_DeepCopy);
   ("RisingWaveReference", RisingWaveReference_shape, RisingWaveReference_DeepCopy);
   ("ConnectionRef", ConnectionRef_shape, ConnectionRef_DeepCopy);
   ("PasswordConfig", PasswordConfig_shape, PasswordConfig_DeepCopy);
   ("OAuthConfig", OAuthConfig_shape, OAuthConfig_DeepCopy);
   ("LDAPConfig", LDAPConfig_shape, LDAPConfig_DeepCopy);
   ("AuthConfig", AuthConfig_shape, AuthConfig_DeepCopy);
   ("NestedTablePrivilege", NestedTablePrivilege_shape, NestedTablePrivilege_DeepCopy);
   ("NestedViewPrivilege", NestedViewPrivilege_shape, NestedViewPrivilege_DeepCopy);
   ("NestedMaterializedViewPrivilege", NestedMaterializedViewPrivilege_shape, NestedMaterializedViewPrivilege_DeepCopy);
   ("NestedSourcePrivilege", NestedSourcePrivilege_shape, NestedSourcePrivilege_DeepCopy);
   ("NestedSinkPrivilege", NestedSinkPrivilege_shape, NestedSinkPrivilege_DeepCopy);
   ("NestedConnectionPrivilege", NestedConnectionPrivilege_shape, NestedConnectionPrivilege_DeepCopy);
   ("NestedSecretPrivilege", NestedSecretPrivilege_shape, NestedSecretPrivilege_DeepCopy);
   ("NestedFunctionPrivilege", NestedFunctionPrivilege_shape, NestedFunctionPrivilege_DeepCopy);
   ("NestedSchemaPrivilege", NestedSchemaPrivilege_shape, NestedSchemaPrivilege_DeepCopy);
   ("DatabasePrivilege", DatabasePrivilege_shape, DatabasePrivilege_DeepCopy);
   ("GrantSpec", GrantSpec_shape, GrantSpec_DeepCopy);
   ("RisingWaveUserSpec", RisingWaveUserSpec_shape, RisingWaveUserSpec_DeepCopy);
   ("ConnectionStatus", ConnectionStatus_shape, ConnectionStatus_DeepCopy);
   ("RisingWaveUserStatus", RisingWaveUserStatus_shape, RisingWaveUserStatus_DeepCopy);
   ("RisingWaveUser", RisingWaveUser_shape, RisingWaveUser_DeepCopy);
   ("RisingWaveUserList", RisingWaveUserList_shape, RisingWaveUserList_DeepCopy)].

(** The objects of the API, which the machinery copies through an interface. *)
Definition object_copies : list (string * ty * (value -> M (option value))) :=
  [("RisingWaveScaleView", RisingWaveScaleView_shape, RisingWaveScaleView_DeepCopyObject);
   ("RisingWaveScaleViewList", RisingWaveScaleViewList_shape, RisingWaveScaleViewList_DeepCopyObject);
   ("RisingWave", RisingWave_shape, RisingWave_DeepCopyObject);
   ("RisingWaveList", RisingWaveList_shape, RisingWaveList_DeepCopyObject);
   ("RisingWaveUser", RisingWaveUser_shape, RisingWaveUser_DeepCopyObject);
   ("RisingWaveUserList", RisingWaveUserList_shape, RisingWaveUserList_DeepCopyObject)].

End functions.

(** ** What the code relies on *)

(** The types the code copies by assignment, those it calls [DeepCopyInto] of, and [DeepCopy] of. *)
Definition flat_types : list string :=
  ["appsv1.StatefulSetPersistentVolumeClaimRetentionPolicy"; "corev1.DNSPolicy";
   "corev1.LocalObjectReference"; "corev1.PodOS"; "corev1.PreemptionPolicy"; "corev1.PullPolicy";
   "corev1.ServiceType"; "corev1.VolumeDevice"; "intstr.IntOrString"; "metav1.ConditionStatus";
   "metav1.TypeMeta"; "pub.InPlaceUpdateStrategy"; "types.UID"].
Definition copied_types : list string :=
  ["corev1.Affinity"; "corev1.Container"; "corev1.EnvFromSource"; "corev1.EnvVar";
   "corev1.HostAlias"; "corev1.PersistentVolumeClaimSpec"; "corev1.PodDNSConfig";
   "corev1.PodSecurityContext"; "corev1.ResourceRequirements"; "corev1.SecurityContext";
   "corev1.Toleration"; "corev1.TopologySpreadConstraint"; "corev1.Volume"; "corev1.VolumeMount";
   "metav1.Condition"; "metav1.ListMeta"; "metav1.ObjectMeta"; "metav1.Time"].
Definition pointed_types : list string :=
  ["metav1.Time"].

(** The first have no references (a time counts as such: the zone it points to is never written),
    and the copies of the others share nothing. *)
Class ForeignTypesOk (FT : ForeignTypes) : Prop := {
  foreign_flat n : n ∈ flat_types -> Flat (foreign n);
  foreign_copies n : n ∈ copied_types -> DeepCopies (foreign n) (foreign_DeepCopyInto n);
  foreign_pointer_copies n :
    n ∈ pointed_types -> DeepCopies (TPointer (foreign n)) (foreign_DeepCopy n);
}.

(** ** Lemmas: each function *)

Ltac name_in := apply (bool_decide_eq_true_1 _); vm_compute; reflexivity.

#[local] Hint Extern 1 (Flat (foreign _)) => apply foreign_flat; name_in : typeclass_instances.
#[local] Hint Extern 1 (DeepCopies (foreign _) (foreign_DeepCopyInto _)) =>
  apply foreign_copies; name_in : typeclass_instances.
#[local] Hint Extern 1 (DeepCopies (TPointer (foreign _)) (foreign_DeepCopy _)) =>
  apply foreign_pointer_copies; name_in : typeclass_instances.

Ltac solve_flat :=
  apply Flat_struct; repeat (apply Forall_cons_2; [cbn [snd]; apply _|]); apply Forall_nil_2.

Ltac solve_copies :=
  apply copies_struct; [vm_compute; reflexivity|];
  repeat (apply Forall_cons_2; [unfold copies_field; cbn; apply _|]); apply Forall_nil_2.

Section copies.
Context `{FT : ForeignTypes} `{FTO : !ForeignTypesOk FT}.


(** The search for an instance does not look inside the definitions. *)
#[local] Typeclasses Opaque RisingWaveMetaStoreStatus_shape RisingWaveEtcdCredentials_shape
  RisingWaveMetaStoreBackendEtcd_shape RisingWaveMetaStoreBackendSQLite_shape
  RisingWaveDBCredentials_shape RisingWaveMetaStoreBackendMySQL_shape
  RisingWaveMetaStoreBackendPostgreSQL_shape RisingWaveMetaStoreBackend_shape
  PartialObjectMeta_shape PersistentVolumeClaimPartialObjectMeta_shape PersistentVolumeClaim_shape
  RisingWaveNodeConfigurationConfigMapSource_shape RisingWaveNodeConfigurationSecretSource_shape
  RisingWaveNodeConfiguration_shape RisingWaveLicenseKey_shape RisingWaveNodeContainer_shape
  RisingWaveNodePodTemplateSpec_shape RisingWaveNodePodTemplate_shape
  RisingWaveNodeGroupRollingUpdate_shape RisingWaveNodeGroupUpgradeStrategy_shape
  RisingWaveNodeGroup_shape RisingWaveComponent_shape WorkloadReplicaStatus_shape
  RisingWaveNodeGroupStatus_shape RisingWaveComponentStatus_shape
  RisingWaveScaleViewTargetRef_shape RisingWaveScaleViewSpecScalePolicyConstraints_shape
  RisingWaveScaleViewSpecScalePolicy_shape RisingWaveScaleViewSpec_shape
  RisingWaveScaleViewStatus_shape RisingWaveScaleView_shape RisingWaveScaleViewList_shape
  RisingWaveSecretStorePrivateKeySecretReference_shape RisingWaveSecretStorePrivateKey_shape
  RisingWaveSecretStore_shape RisingWaveTLSConfiguration_shape RisingWaveStandaloneComponent_shape
  RisingWaveStateStoreStatus_shape RisingWaveMinIOCredentials_shape
  RisingWaveStateStoreBackendMinIO_shape RisingWaveS3Credentials_shape
  RisingWaveStateStoreBackendS3_shape RisingWaveGCSCredentials_shape
  RisingWaveStateStoreBackendGCS_shape RisingWaveAzureBlobCredentials_shape
  RisingWaveAliyunOSSCredentials_shape RisingWaveStateStoreBackendAzureBlob_shape
  RisingWaveStateStoreBackendAliyunOSS_shape RisingWaveStateStoreBackendHDFS_shape
  RisingWaveStateStoreBackendLocalDisk_shape RisingWaveHuaweiCloudOBSCredentials_shape
  RisingWaveStateStoreBackendHuaweiCloudOBS_shape RisingWaveStateStoreBackend_shape
  RisingWaveConfigurationSpec_shape RisingWaveGlobalReplicas_shape RisingWaveComponentsSpec_shape
  RisingWaveSpec_shape ComponentGroupReplicasStatus_shape ComponentReplicasStatus_shape
  RisingWaveComponentsReplicasStatus_shape RisingWaveCondition_shape
  RisingWaveScaleViewLockGroupLock_shape RisingWaveScaleViewLock_shape
  RisingWaveInternalStatus_shape RisingWaveStatus_shape RisingWave_shape RisingWaveList_shape
  SecretReference_shape AdminCredentials_shape RisingWaveReference_shape ConnectionRef_shape
  PasswordConfig_shape OAuthConfig_shape LDAPConfig_shape AuthConfig_shape
  NestedTablePrivilege_shape NestedViewPrivilege_shape NestedMaterializedViewPrivilege_shape
  NestedSourcePrivilege_shape NestedSinkPrivilege_shape NestedConnectionPrivilege_shape
  NestedSecretPrivilege_shape NestedFunctionPrivilege_shape NestedSchemaPrivilege_shape
  DatabasePrivilege_shape GrantSpec_shape RisingWaveUserSpec_shape ConnectionStatus_shape
  RisingWaveUserStatus_shape RisingWaveUser_shape RisingWaveUserList_shape.
#[local] Typeclasses Opaque RisingWaveMetaStoreStatus_DeepCopyInto
  RisingWaveEtcdCredentials_DeepCopyInto RisingWaveMetaStoreBackendEtcd_DeepCopyInto
  RisingWaveMetaStoreBackendSQLite_DeepCopyInto RisingWaveDBCredentials_DeepCopyInto
  RisingWaveMetaStoreBackendMySQL_DeepCopyInto RisingWaveMetaStoreBackendPostgreSQL_DeepCopyInto
  RisingWaveMetaStoreBackend_DeepCopyInto PartialObjectMeta_DeepCopyInto
  PersistentVolumeClaimPartialObjectMeta_DeepCopyInto PersistentVolumeClaim_DeepCopyInto
  RisingWaveNodeConfigurationConfigMapSource_DeepCopyInto
  RisingWaveNodeConfigurationSecretSource_DeepCopyInto RisingWaveNodeConfiguration_DeepCopyInto
  RisingWaveLicenseKey_DeepCopyInto RisingWaveNodeContainer_DeepCopyInto
  RisingWaveNodePodTemplateSpec_DeepCopyInto RisingWaveNodePodTemplate_DeepCopyInto
  RisingWaveNodeGroupRollingUpdate_DeepCopyInto RisingWaveNodeGroupUpgradeStrategy_DeepCopyInto
  RisingWaveNodeGroup_DeepCopyInto RisingWaveComponent_DeepCopyInto
  WorkloadReplicaStatus_DeepCopyInto RisingWaveNodeGroupStatus_DeepCopyInto
  RisingWaveComponentStatus_DeepCopyInto RisingWaveScaleViewTargetRef_DeepCopyInto
  RisingWaveScaleViewSpecScalePolicyConstraints_DeepCopyInto
  RisingWaveScaleViewSpecScalePolicy_DeepCopyInto RisingWaveScaleViewSpec_DeepCopyInto
  RisingWaveScaleViewStatus_DeepCopyInto RisingWaveScaleView_DeepCopyInto
  RisingWaveScaleViewList_DeepCopyInto RisingWaveSecretStorePrivateKeySecretReference_DeepCopyInto
  RisingWaveSecretStorePrivateKey_DeepCopyInto RisingWaveSecretStore_DeepCopyInto
  RisingWaveTLSConfiguration_DeepCopyInto RisingWaveStandaloneComponent_DeepCopyInto
  RisingWaveStateStoreStatus_DeepCopyInto RisingWaveMinIOCredentials_DeepCopyInto
  RisingWaveStateStoreBackendMinIO_DeepCopyInto RisingWaveS3Credentials_DeepCopyInto
  RisingWaveStateStoreBackendS3_DeepCopyInto RisingWaveGCSCredentials_DeepCopyInto
  RisingWaveStateStoreBackendGCS_DeepCopyInto RisingWaveAzureBlobCredentials_DeepCopyInto
  RisingWaveAliyunOSSCredentials_DeepCopyInto RisingWaveStateStoreBackendAzureBlob_DeepCopyInto
  RisingWaveStateStoreBackendAliyunOSS_DeepCopyInto RisingWaveStateStoreBackendHDFS_DeepCopyInto
  RisingWaveStateStoreBackendLocalDisk_DeepCopyInto
  RisingWaveHuaweiCloudOBSCredentials_DeepCopyInto
  RisingWaveStateStoreBackendHuaweiCloudOBS_DeepCopyInto RisingWaveStateStoreBackend_DeepCopyInto
  RisingWaveConfigurationSpec_DeepCopyInto RisingWaveGlobalReplicas_DeepCopyInto
  RisingWaveComponentsSpec_DeepCopyInto RisingWaveSpec_DeepCopyInto
  ComponentGroupReplicasStatus_DeepCopyInto ComponentReplicasStatus_DeepCopyInto
  RisingWaveComponentsReplicasStatus_DeepCopyInto RisingWaveCondition_DeepCopyInto
  RisingWaveScaleViewLockGroupLock_DeepCopyInto RisingWaveScaleViewLock_DeepCopyInto
  RisingWaveInternalStatus_DeepCopyInto RisingWaveStatus_DeepCopyInto RisingWave_DeepCopyInto
  RisingWaveList_DeepCopyInto SecretReference_DeepCopyInto AdminCredentials_DeepCopyInto
  RisingWaveReference_DeepCopyInto ConnectionRef_DeepCopyInto PasswordConfig_DeepCopyInto
  OAuthConfig_DeepCopyInto LDAPConfig_DeepCopyInto AuthConfig_DeepCopyInto
  NestedTablePrivilege_DeepCopyInto NestedViewPrivilege_DeepCopyInto
  NestedMaterializedViewPrivilege_DeepCopyInto NestedSourcePrivilege_DeepCopyInto
  NestedSinkPrivilege_DeepCopyInto NestedConnectionPrivilege_DeepCopyInto
  NestedSecretPrivilege_DeepCopyInto NestedFunctionPrivilege_DeepCopyInto
  NestedSchemaPrivilege_DeepCopyInto DatabasePrivilege_DeepCopyInto GrantSpec_DeepCopyInto
  RisingWaveUserSpec_DeepCopyInto ConnectionStatus_DeepCopyInto RisingWaveUserStatus_DeepCopyInto
  RisingWaveUser_DeepCopyInto RisingWaveUserList_DeepCopyInto.

#[local] Instance RisingWaveMetaStoreStatus_flat : Flat RisingWaveMetaStoreStatus_shape.
Proof. solve_flat. Qed.
#[local] Instance RisingWaveMetaStoreStatus_copies :
  DeepCopies RisingWaveMetaStoreStatus_shape RisingWaveMetaStoreStatus_DeepCopyInto.
Proof. solve_copies. Qed.
#[local] Instance RisingWaveEtcdCredentials_flat : Flat RisingWaveEtcdCredentials_shape.
Proof. solve_flat. Qed.
#[local] Instance RisingWaveEtcdCredentials_copies :
  DeepCopies RisingWaveEtcdCredentials_shape RisingWaveEtcdCredentials_DeepCopyInto.
Proof. solve_copies. Qed.
#[local] Instance RisingWaveMetaStoreBackendEtcd_copies :
  DeepCopies RisingWaveMetaStoreBackendEtcd_shape RisingWaveMetaStoreBackendEtcd_DeepCopyInto.
Proof. solve_copies. Qed.
#[local] Instance RisingWaveMetaStoreBackendSQLite_flat : Flat RisingWaveMetaStoreBackendSQLite_shape.
Proof. solve_flat. Qed.
#[local] Instance RisingWaveMetaStoreBackendSQLite_copies :
  DeepCopies RisingWaveMetaStoreBackendSQLite_shape RisingWaveMetaStoreBackendSQLite_DeepCopyInto.
Proof. solve_copies. Qed.
#[local] Instance RisingWaveDBCredentials_flat : Flat RisingWaveDBCredentials_shape.
Proof. solve_flat. Qed.
#[local] Instance RisingWaveDBCredentials_copies :
  DeepCopies RisingWaveDBCredentials_shape RisingWaveDBCredentials_DeepCopyInto.
Proof. solve_copies. Qed.
#[local] Instance RisingWaveMetaStoreBackendMySQL_copies :
  DeepCopies RisingWaveMetaStoreBackendMySQL_shape RisingWaveMetaStoreBackendMySQL_DeepCopyInto.
Proof. solve_copies. Qed.
#[local] Instance RisingWaveMetaStoreBackendPostgreSQL_copies :
  DeepCopies RisingWaveMetaStoreBackendPostgreSQL_shape RisingWaveMetaStoreBackendPostgreSQL_DeepCopyInto.
Proof. solve_copies. Qed.
#[local] Instance RisingWaveMetaStoreBackend_copies :
  DeepCopies RisingWaveMetaStoreBackend_shape RisingWaveMetaStoreBackend_DeepCopyInto.
Proof. solve_copies. Qed.
#[local] Instance PartialObjectMeta_copies :
  DeepCopies PartialObjectMeta_shape PartialObjectMeta_DeepCopyInto.
Proof. solve_copies. Qed.
#[local] Instance PersistentVolumeClaimPartialObjectMeta_copies :
  DeepCopies PersistentVolumeClaimPartialObjectMeta_shape PersistentVolumeClaimPartialObjectMeta_DeepCopyInto.
Proof. solve_copies. Qed.
#[local] Instance PersistentVolumeClaim_copies :
  DeepCopies PersistentVolumeClaim_shape PersistentVolumeClaim_DeepCopyInto.
Proof. solve_copies. Qed.
#[local] Instance RisingWaveNodeConfigurationConfigMapSource_copies :
  DeepCopies RisingWaveNodeConfigurationConfigMapSource_shape RisingWaveNodeConfigurationConfigMapSource_DeepCopyInto.
Proof. solve_copies. Qed.
#[local] Instance RisingWaveNodeConfigurationSecretSource_copies :
  DeepCopies RisingWaveNodeConfigurationSecretSource_shape RisingWaveNodeConfigurationSecretSource_DeepCopyInto.
Proof. solve_copies. Qed.
#[local] Instance RisingWaveNodeConfiguration_copies :
  DeepCopies RisingWaveNodeConfiguration_shape RisingWaveNodeConfiguration_DeepCopyInto.
Proof. solve_copies. Qed.
#[local] Instance RisingWaveLicenseKey_copies :
  DeepCopies RisingWaveLicenseKey_shape RisingWaveLicenseKey_DeepCopyInto.
Proof. solve_copies. Qed.
#[local] Instance RisingWaveNodeContainer_copies :
  DeepCopies RisingWaveNodeContainer_shape RisingWaveNodeContainer_DeepCopyInto.
Proof. solve_copies. Qed.
#[local] Instance RisingWaveNodePodTemplateSpec_copies :
  DeepCopies RisingWaveNodePodTemplateSpec_shape RisingWaveNodePodTemplateSpec_DeepCopyInto.
Proof. solve_copies. Qed.
#[local] Instance RisingWaveNodePodTemplate_copies :
  DeepCopies RisingWaveNodePodTemplate_shape RisingWaveNodePodTemplate_DeepCopyInto.
Proof. solve_copies. Qed.
#[local] Instance RisingWaveNodeGroupRollingUpdate_copies :
  DeepCopies RisingWaveNodeGroupRollingUpdate_shape RisingWaveNodeGroupRollingUpdate_DeepCopyInto.
Proof. solve_copies. Qed.
#[local] Instance RisingWaveNodeGroupUpgradeStrategy_copies :
  DeepCopies RisingWaveNodeGroupUpgradeStrategy_shape RisingWaveNodeGroupUpgradeStrategy_DeepCopyInto.
Proof. solve_copies. Qed.
#[local] Instance RisingWaveNodeGroup_copies :
  DeepCopies RisingWaveNodeGroup_shape RisingWaveNodeGroup_DeepCopyInto.
Proof. solve_copies. Qed.
#[local] Instance RisingWaveComponent_copies :
  DeepCopies RisingWaveComponent_shape RisingWaveComponent_DeepCopyInto.
Proof. solve_copies. Qed.
#[local] Instance WorkloadReplicaStatus_flat : Flat WorkloadReplicaStatus_shape.
Proof. solve_flat. Qed.
#[local] Instance WorkloadReplicaStatus_copies :
  DeepCopies WorkloadReplicaStatus_shape WorkloadReplicaStatus_DeepCopyInto.
Proof. solve_copies. Qed.
#[local] Instance RisingWaveNodeGroupStatus_flat : Flat RisingWaveNodeGroupStatus_shape.
Proof. solve_flat. Qed.
#[local] Instance RisingWaveNodeGroupStatus_copies :
  DeepCopies RisingWaveNodeGroupStatus_shape RisingWaveNodeGroupStatus_DeepCopyInto.
Proof. solve_copies. Qed.
#[local] Instance RisingWaveComponentStatus_copies :
  DeepCopies RisingWaveComponentStatus_shape RisingWaveComponentStatus_DeepCopyInto.
Proof. solve_copies. Qed.
#[local] Instance RisingWaveScaleViewTargetRef_flat : Flat RisingWaveScaleViewTargetRef_shape.
Proof. solve_flat. Qed.
#[local] Instance RisingWaveScaleViewTargetRef_copies :
  DeepCopies RisingWaveScaleViewTargetRef_shape RisingWaveScaleViewTargetRef_DeepCopyInto.
Proof. solve_copies. Qed.
#[local] Instance RisingWaveScaleViewSpecScalePolicyConstraints_flat : Flat RisingWaveScaleViewSpecScalePolicyConstraints_shape.
Proof. solve_flat. Qed.
#[local] Instance RisingWaveScaleViewSpecScalePolicyConstraints_copies :
  DeepCopies RisingWaveScaleViewSpecScalePolicyConstraints_shape RisingWaveScaleViewSpecScalePolicyConstraints_DeepCopyInto.
Proof. solve_copies. Qed.
#[local] Instance RisingWaveScaleViewSpecScalePolicy_copies :
  DeepCopies RisingWaveScaleViewSpecScalePolicy_shape RisingWaveScaleViewSpecScalePolicy_DeepCopyInto.
Proof. solve_copies. Qed.
#[local] Instance RisingWaveScaleViewSpec_copies :
  DeepCopies RisingWaveScaleViewSpec_shape RisingWaveScaleViewSpec_DeepCopyInto.
Proof. solve_copies. Qed.
#[local] Instance RisingWaveScaleViewStatus_copies :
  DeepCopies RisingWaveScaleViewStatus_shape RisingWaveScaleViewStatus_DeepCopyInto.
Proof. solve_copies. Qed.
#[local] Instance RisingWaveScaleView_copies :
  DeepCopies RisingWaveScaleView_shape RisingWaveScaleView_DeepCopyInto.
Proof. solve_copies. Qed.
#[local] Instance RisingWaveScaleViewList_copies :
  DeepCopies RisingWaveScaleViewList_shape RisingWaveScaleViewList_DeepCopyInto.
Proof. solve_copies. Qed.
#[local] Instance RisingWaveSecretStorePrivateKeySecretReference_flat : Flat RisingWaveSecretStorePrivateKeySecretReference_shape.
Proof. solve_flat. Qed.
#[local] Instance RisingWaveSecretStorePrivateKeySecretReference_copies :
  DeepCopies RisingWaveSecretStorePrivateKeySecretReference_shape RisingWaveSecretStorePrivateKeySecretReference_DeepCopyInto.
Proof. solve_copies. Qed.
#[local] Instance RisingWaveSecretStorePrivateKey_copies :
  DeepCopies RisingWaveSecretStorePrivateKey_shape RisingWaveSecretStorePrivateKey_DeepCopyInto.
Proof. solve_copies. Qed.
#[local] Instance RisingWaveSecretStore_copies :
  DeepCopies RisingWaveSecretStore_shape RisingWaveSecretStore_DeepCopyInto.
Proof. solve_copies. Qed.
#[local] Instance RisingWaveTLSConfiguration_flat : Flat RisingWaveTLSConfiguration_shape.
Proof. solve_flat. Qed.
#[local] Instance RisingWaveTLSConfiguration_copies :
  DeepCopies RisingWaveTLSConfiguration_shape RisingWaveTLSConfiguration_DeepCopyInto.
Proof. solve_copies. Qed.
#[local] Instance RisingWaveStandaloneComponent_copies :
  DeepCopies RisingWaveStandaloneComponent_shape RisingWaveStandaloneComponent_DeepCopyInto.
Proof. solve_copies. Qed.
#[local] Instance RisingWaveStateStoreStatus_flat : Flat RisingWaveStateStoreStatus_shape.
Proof. solve_flat. Qed.
#[local] Instance RisingWaveStateStoreStatus_copies :
  DeepCopies RisingWaveStateStoreStatus_shape RisingWaveStateStoreStatus_DeepCopyInto.
Proof. solve_copies. Qed.
#[local] Instance RisingWaveMinIOCredentials_flat : Flat RisingWaveMinIOCredentials_shape.
Proof. solve_flat. Qed.
#[local] Instance RisingWaveMinIOCredentials_copies :
  DeepCopies RisingWaveMinIOCredentials_shape RisingWaveMinIOCredentials_DeepCopyInto.
Proof. solve_copies. Qed.
#[local] Instance RisingWaveStateStoreBackendMinIO_flat : Flat RisingWaveStateStoreBackendMinIO_shape.
Proof. solve_flat. Qed.
#[local] Instance RisingWaveStateStoreBackendMinIO_copies :
  DeepCopies RisingWaveStateStoreBackendMinIO_shape RisingWaveStateStoreBackendMinIO_DeepCopyInto.
Proof. solve_copies. Qed.
#[local] Instance RisingWaveS3Credentials_copies :
  DeepCopies RisingWaveS3Credentials_shape RisingWaveS3Credentials_DeepCopyInto.
Proof. solve_copies. Qed.
#[local] Instance RisingWaveStateStoreBackendS3_copies :
  DeepCopies RisingWaveStateStoreBackendS3_shape RisingWaveStateStoreBackendS3_DeepCopyInto.
Proof. solve_copies. Qed.
#[local] Instance RisingWaveGCSCredentials_copies :
  DeepCopies RisingWaveGCSCredentials_shape RisingWaveGCSCredentials_DeepCopyInto.
Proof. solve_copies. Qed.
#[local] Instance RisingWaveStateStoreBackendGCS_copies :
  DeepCopies RisingWaveStateStoreBackendGCS_shape RisingWaveStateStoreBackendGCS_DeepCopyInto.
Proof. solve_copies. Qed.
#[local] Instance RisingWaveAzureBlobCredentials_copies :
  DeepCopies RisingWaveAzureBlobCredentials_shape RisingWaveAzureBlobCredentials_DeepCopyInto.
Proof. solve_copies. Qed.
#[local] Instance RisingWaveAliyunOSSCredentials_flat : Flat RisingWaveAliyunOSSCredentials_shape.
Proof. solve_flat. Qed.
#[local] Instance RisingWaveAliyunOSSCredentials_copies :
  DeepCopies RisingWaveAliyunOSSCredentials_shape RisingWaveAliyunOSSCredentials_DeepCopyInto.
Proof. solve_copies. Qed.
#[local] Instance RisingWaveStateStoreBackendAzureBlob_copies :
  DeepCopies RisingWaveStateStoreBackendAzureBlob_shape RisingWaveStateStoreBackendAzureBlob_DeepCopyInto.
Proof. solve_copies. Qed.
#[local] Instance RisingWaveStateStoreBackendAliyunOSS_flat : Flat RisingWaveStateStoreBackendAliyunOSS_shape.
Proof. solve_flat. Qed.
#[local] Instance RisingWaveStateStoreBackendAliyunOSS_copies :
  DeepCopies RisingWaveStateStoreBackendAliyunOSS_shape RisingWaveStateStoreBackendAliyunOSS_DeepCopyInto.
Proof. solve_copies. Qed.
#[local] Instance RisingWaveStateStoreBackendHDFS_flat : Flat RisingWaveStateStoreBackendHDFS_shape.
Proof. solve_flat. Qed.
#[local] Instance RisingWaveStateStoreBackendHDFS_copies :
  DeepCopies RisingWaveStateStoreBackendHDFS_shape RisingWaveStateStoreBackendHDFS_DeepCopyInto.
Proof. solve_copies. Qed.
#[local] Instance RisingWaveStateStoreBackendLocalDisk_flat : Flat RisingWaveStateStoreBackendLocalDisk_shape.
Proof. solve_flat. Qed.
#[local] Instance RisingWaveStateStoreBackendLocalDisk_copies :
  DeepCopies RisingWaveStateStoreBackendLocalDisk_shape RisingWaveStateStoreBackendLocalDisk_DeepCopyInto.
Proof. solve_copies. Qed.
#[local] Instance RisingWaveHuaweiCloudOBSCredentials_flat : Flat RisingWaveHuaweiCloudOBSCredentials_shape.
Proof. solve_flat. Qed.
#[local] Instance RisingWaveHuaweiCloudOBSCredentials_copies :
  DeepCopies RisingWaveHuaweiCloudOBSCredentials_shape RisingWaveHuaweiCloudOBSCredentials_DeepCopyInto.
Proof. solve_copies. Qed.
#[local] Instance RisingWaveStateStoreBackendHuaweiCloudOBS_flat : Flat RisingWaveStateStoreBackendHuaweiCloudOBS_shape.
Proof. solve_flat. Qed.
#[local] Instance RisingWaveStateStoreBackendHuaweiCloudOBS_copies :
  DeepCopies RisingWaveStateStoreBackendHuaweiCloudOBS_shape RisingWaveStateStoreBackendHuaweiCloudOBS_DeepCopyInto.
Proof. solve_copies. Qed.
#[local] Instance RisingWaveStateStoreBackend_copies :
  DeepCopies RisingWaveStateStoreBackend_shape RisingWaveStateStoreBackend_DeepCopyInto.
Proof. solve_copies. Qed.
#[local] Instance RisingWaveConfigurationSpec_copies :
  DeepCopies RisingWaveConfigurationSpec_shape RisingWaveConfigurationSpec_DeepCopyInto.
Proof. solve_copies. Qed.
#[local] Instance RisingWaveGlobalReplicas_flat : Flat RisingWaveGlobalReplicas_shape.
Proof. solve_flat. Qed.
#[local] Instance RisingWaveGlobalReplicas_copies :
  DeepCopies RisingWaveGlobalReplicas_shape RisingWaveGlobalReplicas_DeepCopyInto.
Proof. solve_copies. Qed.
#[local] Instance RisingWaveComponentsSpec_copies :
  DeepCopies RisingWaveComponentsSpec_shape RisingWaveComponentsSpec_DeepCopyInto.
Proof. solve_copies. Qed.
#[local] Instance RisingWaveSpec_copies :
  DeepCopies RisingWaveSpec_shape RisingWaveSpec_DeepCopyInto.
Proof. solve_copies. Qed.
#[local] Instance ComponentGroupReplicasStatus_flat : Flat ComponentGroupReplicasStatus_shape.
Proof. solve_flat. Qed.
#[local] Instance ComponentGroupReplicasStatus_copies :
  DeepCopies ComponentGroupReplicasStatus_shape ComponentGroupReplicasStatus_DeepCopyInto.
Proof. solve_copies. Qed.
#[local] Instance ComponentReplicasStatus_copies :
  DeepCopies ComponentReplicasStatus_shape ComponentReplicasStatus_DeepCopyInto.
Proof. solve_copies. Qed.
#[local] Instance RisingWaveComponentsReplicasStatus_copies :
  DeepCopies RisingWaveComponentsReplicasStatus_shape RisingWaveComponentsReplicasStatus_DeepCopyInto.
Proof. solve_copies. Qed.
#[local] Instance RisingWaveCondition_copies :
  DeepCopies RisingWaveCondition_shape RisingWaveCondition_DeepCopyInto.
Proof. solve_copies. Qed.
#[local] Instance RisingWaveScaleViewLockGroupLock_flat : Flat RisingWaveScaleViewLockGroupLock_shape.
Proof. solve_flat. Qed.
#[local] Instance RisingWaveScaleViewLockGroupLock_copies :
  DeepCopies RisingWaveScaleViewLockGroupLock_shape RisingWaveScaleViewLockGroupLock_DeepCopyInto.
Proof. solve_copies. Qed.
#[local] Instance RisingWaveScaleViewLock_copies :
  DeepCopies RisingWaveScaleViewLock_shape RisingWaveScaleViewLock_DeepCopyInto.
Proof. solve_copies. Qed.
#[local] Instance RisingWaveInternalStatus_flat : Flat RisingWaveInternalStatus_shape.
Proof. solve_flat. Qed.
#[local] Instance RisingWaveInternalStatus_copies :
  DeepCopies RisingWaveInternalStatus_shape RisingWaveInternalStatus_DeepCopyInto.
Proof. solve_copies. Qed.
#[local] Instance RisingWaveStatus_copies :
  DeepCopies RisingWaveStatus_shape RisingWaveStatus_DeepCopyInto.
Proof. solve_copies. Qed.
#[local] Instance RisingWave_copies :
  DeepCopies RisingWave_shape RisingWave_DeepCopyInto.
Proof. solve_copies. Qed.
#[local] Instance RisingWaveList_copies :
  DeepCopies RisingWaveList_shape RisingWaveList_DeepCopyInto.
Proof. solve_copies. Qed.
#[local] Instance SecretReference_flat : Flat SecretReference_shape.
Proof. solve_flat. Qed.
#[local] Instance SecretReference_copies :
  DeepCopies SecretReference_shape SecretReference_DeepCopyInto.
Proof. solve_copies. Qed.
#[local] Instance AdminCredentials_copies :
  DeepCopies AdminCredentials_shape AdminCredentials_DeepCopyInto.
Proof. solve_copies. Qed.
#[local] Instance RisingWaveReference_copies :
  DeepCopies RisingWaveReference_shape RisingWaveReference_DeepCopyInto.
Proof. solve_copies. Qed.
#[local] Instance ConnectionRef_copies :
  DeepCopies ConnectionRef_shape ConnectionRef_DeepCopyInto.
Proof. solve_copies. Qed.
#[local] Instance PasswordConfig_copies :
  DeepCopies PasswordConfig_shape PasswordConfig_DeepCopyInto.
Proof. solve_copies. Qed.
#[local] Instance OAuthConfig_copies :
  DeepCopies OAuthConfig_shape OAuthConfig_DeepCopyInto.
Proof. solve_copies. Qed.
#[local] Instance LDAPConfig_copies :
  DeepCopies LDAPConfig_shape LDAPConfig_DeepCopyInto.
Proof. solve_copies. Qed.
#[local] Instance AuthConfig_copies :
  DeepCopies AuthConfig_shape AuthConfig_DeepCopyInto.
Proof. solve_copies. Qed.
#[local] Instance NestedTablePrivilege_copies :
  DeepCopies NestedTablePrivilege_shape NestedTablePrivilege_DeepCopyInto.
Proof. solve_copies. Qed.
#[local] Instance NestedViewPrivilege_copies :
  DeepCopies NestedViewPrivilege_shape NestedViewPrivilege_DeepCopyInto.
Proof. solve_copies. Qed.
#[local] Instance NestedMaterializedViewPrivilege_copies :
  DeepCopies NestedMaterializedViewPrivilege_shape NestedMaterializedViewPrivilege_DeepCopyInto.
Proof. solve_copies. Qed.
#[local] Instance NestedSourcePrivilege_copies :
  DeepCopies NestedSourcePrivilege_shape NestedSourcePrivilege_DeepCopyInto.
Proof. solve_copies. Qed.
#[local] Instance NestedSinkPrivilege_copies :
  DeepCopies NestedSinkPrivilege_shape NestedSinkPrivilege_DeepCopyInto.
Proof. solve_copies. Qed.
#[local] Instance NestedConnectionPrivilege_copies :
  DeepCopies NestedConnectionPrivilege_shape NestedConnectionPrivilege_DeepCopyInto.
Proof. solve_copies. Qed.
#[local] Instance NestedSecretPrivilege_copies :
  DeepCopies NestedSecretPrivilege_shape NestedSecretPrivilege_DeepCopyInto.
Proof. solve_copies. Qed.
#[local] Instance NestedFunctionPrivilege_copies :
  DeepCopies NestedFunctionPrivilege_shape NestedFunctionPrivilege_DeepCopyInto.
Proof. solve_copies. Qed.
#[local] Instance NestedSchemaPrivilege_copies :
  DeepCopies NestedSchemaPrivilege_shape NestedSchemaPrivilege_DeepCopyInto.
Proof. solve_copies. Qed.
#[local] Instance DatabasePrivilege_copies :
  DeepCopies DatabasePrivilege_shape DatabasePrivilege_DeepCopyInto.
Proof. solve_copies. Qed.
#[local] Instance GrantSpec_copies :
  DeepCopies GrantSpec_shape GrantSpec_DeepCopyInto.
Proof. solve_copies. Qed.
#[local] Instance RisingWaveUserSpec_copies :
  DeepCopies RisingWaveUserSpec_shape RisingWaveUserSpec_DeepCopyInto.
Proof. solve_copies. Qed.
#[local] Instance ConnectionStatus_copies :
  DeepCopies ConnectionStatus_shape ConnectionStatus_DeepCopyInto.
Proof. solve_copies. Qed.
#[local] Instance RisingWaveUserStatus_copies :
  DeepCopies RisingWaveUserStatus_shape RisingWaveUserStatus_DeepCopyInto.
Proof. solve_copies. Qed.
#[local] Instance RisingWaveUser_copies :
  DeepCopies RisingWaveUser_shape RisingWaveUser_DeepCopyInto.
Proof. solve_copies. Qed.
#[local] Instance RisingWaveUserList_copies :
  DeepCopies RisingWaveUserList_shape RisingWaveUserList_DeepCopyInto.
Proof. solve_copies. Qed.

(** ** Lemmas: all of them *)

(** [f] is [copy_pointer] of a function that copies values of [t]. *)
Ltac pointer_copies_of t f :=
  let f' := eval red in f in
  lazymatch f' with copy_pointer ?g => exact (copies_pointer t g _) end.

Lemma pointers_copied : Forall (fun '(_, t, f) => DeepCopies (TPointer t) f) pointer_copies.
Proof.
  unfold pointer_copies.
  repeat lazymatch goal with
  | |- Forall _ ((_, ?t, ?f) :: _) => apply Forall_cons_2; [pointer_copies_of t f|]
  end. apply Forall_nil_2.
Qed.

Lemma objects_copied :
  Forall (fun '(_, t, g) => exists f, g = copy_object f /\ DeepCopies (TPointer t) f) object_copies.
Proof.
  unfold object_copies.
  repeat lazymatch goal with
  | |- Forall _ ((_, ?t, ?g) :: _) =>
      let g' := eval red in g in
      lazymatch g' with copy_object ?f =>
        apply Forall_cons_2; [exists f; split; [reflexivity|pointer_copies_of t f]|]
      end
  end. apply Forall_nil_2.
Qed.

(** ** Properties *)

(** C11: Each of the 91 generated DeepCopy functions returns a value that is equal to the one
    copied, field by field and with its nil slices, maps and pointers nil, and that shares no
    memory with it: whatever one does who holds the copy (reading, allocating, writing through
    any pointer, slice or map) the original keeps its value, and whatever those do who hold what
    there was before, the copy keeps its value. *)
Theorem DeepCopy_independent name t f :
  (name, t, f) ∈ pointer_copies -> independent_copy (TPointer t) f.
Proof.
  intros Hin. pose proof pointers_copied as Hall. rewrite Forall_forall in Hall.
  exact (copies_independent _ _ (Hall _ Hin)).
Qed.

(** Through the interface of the machinery the same is returned, and no object for a nil one. *)
Theorem DeepCopyObject_spec name t g v h tr :
  (name, t, g) ∈ object_copies -> view h (TPointer t) v = Some tr ->
  exists o new, g v h = Done (o, h ++ new) /\ (o = None <-> v = Nil) /\
    view (h ++ new) (TPointer t) (default Nil o) = Some tr.
Proof.
  intros Hin Hv. pose proof objects_copied as Hall. rewrite Forall_forall in Hall.
  destruct (Hall _ Hin) as (f & -> & Hf). destruct (Hf h v tr Hv) as (v' & new & Hrun & Hview & _).
  unfold copy_object, mbind, GoM_bind, mret, GoM_ret. rewrite Hrun. eexists _, new.
  split; [done|]. destruct v', v; cbn in Hview, Hv |- *; simplify_eq; try done;
    repeat case_match; simplify_option_eq; done.
Qed.
End copies.

(** ** Witness *)

(** Types of other packages as small as they can be. *)
Definition ex_foreign (n : string) : ty :=
  if bool_decide (n ∈ flat_types) then TScalar else TStruct [("f", TPointer TScalar)].
Definition ex_foreign_DeepCopyInto : copier := copy_struct [("f", copy_pointer assign)].
Definition ex_foreign_types : ForeignTypes :=
  {| foreign := ex_foreign; foreign_DeepCopyInto := fun _ => ex_foreign_DeepCopyInto;
     foreign_DeepCopy := fun _ => copy_pointer ex_foreign_DeepCopyInto |}.

Lemma ex_foreign_ok : ForeignTypesOk ex_foreign_types.
Proof.
  assert (forall n, n ∈ copied_types -> ex_foreign n = TStruct [("f", TPointer TScalar)]) as Hdeep.
  { apply Forall_forall. repeat constructor. }
  assert (DeepCopies (TStruct [("f", TPointer TScalar)]) ex_foreign_DeepCopyInto) as Hc.
  { apply copies_struct; [reflexivity|]. repeat constructor. cbn. apply _. }
  split; intros n Hn; cbn.
  - unfold ex_foreign. rewrite bool_decide_true by done. apply _.
  - by rewrite Hdeep.
  - rewrite Hdeep; [by apply copies_pointer|]. revert n Hn. apply Forall_forall. repeat constructor.
Qed.

(** The replicas of a component with one group: the array of its groups, and the struct. *)
Definition ex_heap : heap :=
  [Array [Struct [("Name", Scalar "default"); ("Target", Scalar "1"); ("Running", Scalar "1");
                  ("Exists", Scalar "true")]];
   Var (Struct [("Target", Scalar "1"); ("Running", Scalar "1"); ("Groups", SliceOf 0 0 1)])].

Lemma DeepCopy_independent_witness :
  exists tr v' h', ComponentReplicasStatus_DeepCopy (Pointer 1) ex_heap = Done (v', h') /\
    view h' (TPointer ComponentReplicasStatus_shape) v' = Some tr /\
    v' <> Pointer 1 /\
    (forall ls h2, rtc holds (refs v', h') (ls, h2) ->
       view h2 (TPointer ComponentReplicasStatus_shape) (Pointer 1) = Some tr).
Proof.
  destruct (DeepCopy_independent (FT := ex_foreign_types) (FTO := ex_foreign_ok) "ComponentReplicasStatus"
    ComponentReplicasStatus_shape ComponentReplicasStatus_DeepCopy) with (h := ex_heap) (v := Pointer 1)
    (tr := PointerTree (StructTree [("Target", Leaf "1"); ("Running", Leaf "1"); ("Groups", SliceTree
      [StructTree [("Name", Leaf "default"); ("Target", Leaf "1"); ("Running", Leaf "1"); ("Exists", Leaf "true")]])]))
    as (v' & h' & Hrun & Hview & _ & Hkeep & _).
  - unfold pointer_copies. repeat first [apply list_elem_of_here|apply list_elem_of_further].
  - repeat constructor.
  - repeat constructor.
  - reflexivity.
  - eexists _, v', h'. split; [exact Hrun|]. split; [exact Hview|]. split; [|exact Hkeep].
    vm_compute in Hrun. injection Hrun as <- _. discriminate.
Defined.

