(* ===== verification/SplitReplicas.v ===== *)
(** * pkg/object/scaleview/split.go: distributing replicas over groups

    [SplitReplicas] distributes the desired replicas of a scale view over its
    groups: higher priorities first, and inside a priority as evenly as the limits
    of the groups allow. The file models the function with its map, its two sorts
    and its final self-check (which panics), and proves what it computes. *)

From S2P Require Import Prelude GoStrings ApiTypes.

(** ** Definitions *)

(** [total % n] and [total / n] truncate toward zero; [n] is never zero here. *)
Definition split (total n : Z) : Z :=
  if decide (Z.rem total n = 0)%Z then Z.quot total n else (Z.quot total n + 1)%Z.

Definition canonizeScalePolicy (p : RisingWaveScaleViewSpecScalePolicy)
  : RisingWaveScaleViewSpecScalePolicy :=
  match sp_MaxReplicas p with
  | None => {| sp_Group := sp_Group p; sp_Priority := sp_Priority p;
               sp_MaxReplicas := Some MaxInt32 |}
  | Some _ => p
  end.

(** [*p.MaxReplicas] of a canonized policy. *)
Definition max_of (p : RisingWaveScaleViewSpecScalePolicy) : Z :=
  default MaxInt32 (sp_MaxReplicas p).

(** The first loop: groups by priority. *)
Definition add_policy (m : gmap Z (list RisingWaveScaleViewSpecScalePolicy))
    (p : RisingWaveScaleViewSpecScalePolicy)
  : gmap Z (list RisingWaveScaleViewSpecScalePolicy) :=
  match m !! sp_Priority p with
  | None => <[sp_Priority p := [canonizeScalePolicy p]]> m
  | Some l => <[sp_Priority p := l ++ [canonizeScalePolicy p]]> m
  end.

Definition groupsByPriority (ps : list RisingWaveScaleViewSpecScalePolicy)
  : gmap Z (list RisingWaveScaleViewSpecScalePolicy) := foldl add_policy ∅ ps.

(** The order of the inner sort: by (maxReplicas, group). *)
Definition policy_le (a b : RisingWaveScaleViewSpecScalePolicy) : Prop :=
  (max_of a < max_of b)%Z \/
  (max_of a = max_of b /\ String.le (sp_Group a) (sp_Group b)).

Global Instance policy_le_dec : RelDecision policy_le.
Proof. unfold RelDecision, policy_le. intros. apply _. Defined.

Definition sort_groups (gs : list RisingWaveScaleViewSpecScalePolicy) :=
  merge_sort policy_le gs.

(** Priorities, descending. *)
Definition sorted_priorities (m : gmap Z (list RisingWaveScaleViewSpecScalePolicy)) : list Z :=
  merge_sort (flip Z.le) (map_to_list m).*1.

(** No replicas are left: every group of the priority gets zero. *)
Definition zero_groups (gs : list RisingWaveScaleViewSpecScalePolicy) (m : gmap string Z)
  : gmap string Z := foldl (fun m g => <[sp_Group g := int32 0]> m) m gs.

(** The loop over the groups of one priority; [length gs] is the source's
    [len(groups)-i]. *)
Fixpoint take_groups (gs : list RisingWaveScaleViewSpecScalePolicy) (totalLeft : Z)
    (m : gmap string Z) : Z * gmap string Z :=
  match gs with
  | [] => (totalLeft, m)
  | g :: gs' =>
      let n := Z.of_nat (length gs) in
      let maxValue := max_of g in
      if decide (int64 (maxValue * n) <= totalLeft)%Z then
        take_groups gs' (int64 (totalLeft - maxValue)) (<[sp_Group g := int32 maxValue]> m)
      else
        let taken := split totalLeft n in
        take_groups gs' (int64 (totalLeft - taken)) (<[sp_Group g := int32 taken]> m)
  end.

Definition split_priority (groups : list RisingWaveScaleViewSpecScalePolicy)
    (s : Z * gmap string Z) : Z * gmap string Z :=
  if decide (s.1 <= 0)%Z then (s.1, zero_groups groups s.2)
  else take_groups groups s.1 s.2.

Definition SplitReplicas (sv : RisingWaveScaleView) : outcome (gmap string Z) :=
  let groups := sort_groups <$> groupsByPriority (sv_ScalePolicy sv) in
  let replicas := default 0%Z (svs_Replicas (sv_Spec sv)) in
  let final := foldl (fun s k => split_priority (default [] (groups !! k)) s)
                 (replicas, ∅) (sorted_priorities groups) in
  if decide (sum_int32 (map_to_list final.2).*2 = replicas)
  then Done final.2
  else Panic "algorithm has bug".

(** ** Well-formed scale views

    Group names are unique, which the API server guarantees ([+listMapKey=group]); there are
    no more groups than an [int32] counts; and no limit is negative, which nothing guarantees:
    the schema has a maximum of 5000 but no minimum, and the webhooks do not look. *)

Definition policy_ok (p : RisingWaveScaleViewSpecScalePolicy) : Prop :=
  (0 <= max_of p <= MaxInt32)%Z.

Record scaleview_ok (sv : RisingWaveScaleView) : Prop := {
  ok_groups : NoDup (sv_Groups sv);
  ok_policies : Forall policy_ok (sv_ScalePolicy sv);
  ok_length : (Z.of_nat (length (sv_ScalePolicy sv)) <= MaxInt32)%Z;
  ok_replicas : in_int32 (default 0%Z (svs_Replicas (sv_Spec sv)));
}.

(** The specification of one priority: the replicas each group gets, in order. *)
Fixpoint fill (gs : list RisingWaveScaleViewSpecScalePolicy) (L : Z) : list Z :=
  match gs with
  | [] => []
  | g :: gs' =>
      let n := Z.of_nat (length gs) in
      let t := if decide (max_of g * n <= L)%Z then max_of g else split L n in
      t :: fill gs' (L - t)
  end.

(** ... and of a list of priorities. *)
Fixpoint fills (cs : list (list RisingWaveScaleViewSpecScalePolicy)) (L : Z)
  : list (RisingWaveScaleViewSpecScalePolicy * Z) :=
  match cs with
  | [] => []
  | c :: cs' => zip c (fill c L) ++ fills cs' (L - Zsum (fill c L))
  end.

Definition capacity (gs : list RisingWaveScaleViewSpecScalePolicy) : Z :=
  Zsum (max_of <$> gs).

(** The priorities of a scale view in the order they are served. *)
Definition classes (sv : RisingWaveScaleView) : list (list RisingWaveScaleViewSpecScalePolicy) :=
  let groups := sort_groups <$> groupsByPriority (sv_ScalePolicy sv) in
  (fun k => default [] (groups !! k)) <$> sorted_priorities groups.

(** ** The division *)

Lemma split_spec L n :
  (0 <= L)%Z -> (0 < n)%Z ->
  (L <= split L n * n)%Z /\ ((split L n - 1) * n < L \/ split L n = 0 /\ L = 0)%Z /\
  (0 <= split L n)%Z.
Proof.
  intros HL Hn. unfold split.
  rewrite Z.rem_mod_nonneg, Z.quot_div_nonneg by lia.
  pose proof (Z.div_mod L n). pose proof (Z.mod_pos_bound L n).
  pose proof (Z.div_pos L n). case_decide; nia.
Qed.

(** ** One priority *)

Section one_priority.
Local Open Scope Z_scope.

Abbreviation sorted := (StronglySorted policy_le).

Lemma policy_le_max a b : policy_le a b -> max_of a <= max_of b.
Proof. intros [H|[H _]]; lia. Qed.

Lemma fill_length gs L : length (fill gs L) = length gs.
Proof. revert L. induction gs as [|g gs IH]; intros L; cbn; auto. Qed.

(** If every limit is at least [M] and there are at least [M] replicas for
    each group, each group gets at least [M]. *)
Lemma fill_lower gs L M :
  0 <= M -> 0 <= L -> M * Z.of_nat (length gs) <= L ->
  Forall (fun g => M <= max_of g) gs -> Forall (fun r => M <= r) (fill gs L).
Proof.
  intros HM. revert L. induction gs as [|g gs IH]; intros L HL Hle Hall; cbn; [done|].
  inv Hall. cbn [length] in *. rewrite Nat2Z.inj_succ in *.
  case_decide as Hd; constructor; [done|apply IH; auto; nia| |].
  - destruct (split_spec L (Z.succ (Z.of_nat (length gs)))) as (? & ? & ?); nia.
  - destruct (split_spec L (Z.succ (Z.of_nat (length gs)))) as (? & ? & ?); [lia..|].
    apply IH; auto; nia.
Qed.

(** If every limit is at least [M] and there are at most [M] replicas for each
    group, each group gets at most [M]. *)
Lemma fill_upper gs L M :
  0 <= M -> 0 <= L -> L <= M * Z.of_nat (length gs) ->
  Forall (fun g => M <= max_of g) gs -> Forall (fun r => r <= M) (fill gs L).
Proof.
  intros HM. revert L. induction gs as [|g gs IH]; intros L HL Hle Hall; cbn; [done|].
  inv Hall. cbn [length] in *. rewrite Nat2Z.inj_succ in *.
  case_decide as Hd; constructor; [nia|apply IH; auto; nia| |].
  - destruct (split_spec L (Z.succ (Z.of_nat (length gs)))) as (? & ? & ?); nia.
  - destruct (split_spec L (Z.succ (Z.of_nat (length gs)))) as (? & ? & ?); [lia..|].
    apply IH; auto; nia.
Qed.

Lemma capacity_lower gs M :
  Forall (fun g => M <= max_of g) gs -> M * Z.of_nat (length gs) <= capacity gs.
Proof.
  unfold capacity, Zsum. induction 1 as [|g gs Hg Hgs IH]; [cbn; lia|].
  rewrite fmap_cons. cbn [foldr length]. lia.
Qed.

Lemma sorted_limits g gs : sorted (g :: gs) -> Forall (fun h => max_of g <= max_of h) gs.
Proof. intros H. inv H. eapply Forall_impl; [done|]. apply policy_le_max. Qed.

(** In the second branch the group gets at most its limit and enough room is
    left for the others. *)
Lemma split_room (g : RisingWaveScaleViewSpecScalePolicy) gs L n :
  n = Z.succ (Z.of_nat (length gs)) -> 0 <= L -> L < max_of g * n -> Forall (fun h => max_of g <= max_of h) gs ->
  0 <= split L n <= max_of g /\ split L n <= L /\
  L - split L n <= split L n * Z.of_nat (length gs) /\
  (split L n - 1) * Z.of_nat (length gs) <= L - split L n /\
  L - split L n <= capacity gs.
Proof.
  intros -> HL Hlt Hall.
  destruct (split_spec L (Z.succ (Z.of_nat (length gs)))) as (? & ? & ?); [lia..|].
  apply capacity_lower in Hall. repeat split; nia.
Qed.

(** Everything is distributed, up to the capacity of the priority. *)
Lemma fill_sum gs L :
  sorted gs -> Forall policy_ok gs -> 0 <= L -> Zsum (fill gs L) = Z.min L (capacity gs).
Proof.
  revert L. induction gs as [|g gs IH]; intros L Hs Hok HL; [cbn; lia|].
  pose proof (sorted_limits _ _ Hs) as Hlim.
  apply StronglySorted_inv in Hs as [Hs _]. inv Hok. unfold policy_ok in *.
  assert (capacity (g :: gs) = max_of g + capacity gs) as -> by done.
  pose proof (capacity_lower _ _ Hlim).
  cbn [fill]. cbn [length]. rewrite Nat2Z.inj_succ.
  remember (Z.succ (Z.of_nat (length gs))) as n eqn:Hn.
  case_decide as Hd.
  - change (Zsum (?x :: ?l)) with (x + Zsum l). rewrite IH by (auto; nia). nia.
  - destruct (split_room g gs L n) as (? & ? & ? & ? & ?); [lia|lia|lia|done|].
    change (Zsum (?x :: ?l)) with (x + Zsum l). rewrite IH by (auto; lia). nia.
Qed.

(** No group gets more than its limit, or less than zero. *)
Lemma fill_bounds gs L :
  sorted gs -> Forall policy_ok gs -> 0 <= L ->
  Forall2 (fun g r => 0 <= r <= max_of g) gs (fill gs L).
Proof.
  revert L. induction gs as [|g gs IH]; intros L Hs Hok HL; [by constructor|].
  pose proof (sorted_limits _ _ Hs) as Hlim.
  apply StronglySorted_inv in Hs as [Hs _]. inv Hok. unfold policy_ok in *.
  cbn [fill]. cbn [length]. rewrite Nat2Z.inj_succ.
  remember (Z.succ (Z.of_nat (length gs))) as n eqn:Hn.
  case_decide as Hd.
  - constructor; [lia|]. apply IH; auto. nia.
  - destruct (split_room g gs L n) as (? & ? & ? & ? & ?); [lia|lia|lia|done|].
    constructor; [lia|]. apply IH; auto. lia.
Qed.

(** The distribution is balanced: a group below its limit is at most one
    replica behind any other group of the priority. *)
Lemma fill_balanced gs L i j g ri rj :
  sorted gs -> Forall policy_ok gs -> 0 <= L ->
  gs !! i = Some g -> fill gs L !! i = Some ri -> fill gs L !! j = Some rj ->
  ri < max_of g -> rj <= ri + 1.
Proof.
  revert L i j. induction gs as [|h gs IH]; intros L i j Hs Hok HL Hg Hi Hj Hlt; [done|].
  pose proof (sorted_limits _ _ Hs) as Hlim.
  apply StronglySorted_inv in Hs as [Hs _]. inv Hok. unfold policy_ok in *.
  cbn [fill] in Hi, Hj. cbn [length] in Hi, Hj. rewrite Nat2Z.inj_succ in Hi, Hj.
  remember (Z.succ (Z.of_nat (length gs))) as n eqn:Hn.
  case_decide as Hd.
  - destruct i as [|i]; cbn in Hg, Hi; simplify_eq; [lia|].
    destruct j as [|j]; cbn in Hj; simplify_eq.
    + assert (Forall (fun r => max_of h <= r) (fill gs (L - max_of h))) as Hf.
      { apply fill_lower; auto; nia. }
      rewrite Forall_lookup in Hf. apply Hf in Hi. lia.
    + eapply (IH (L - max_of h) i j); eauto. nia.
  - destruct (split_room h gs L n) as (? & ? & ? & ? & ?); [lia|lia|lia|done|].
    set (c := split L n) in *.
    assert (Forall (fun g => c <= max_of g) gs).
    { eapply Forall_impl; [exact Hlim|]. cbn. lia. }
    assert (Forall (fun r => r <= c) (fill gs (L - c))) as Hup.
    { apply fill_upper; auto; lia. }
    assert (Forall (fun r => c - 1 <= r) (fill gs (L - c))) as Hlo.
    { destruct (decide (1 <= c)).
      - apply fill_lower; [lia..|]. eapply Forall_impl; [exact Hlim|]. cbn. lia.
      - eapply Forall_impl; [apply (fill_lower _ _ 0)|]; cbn; [lia..| |lia].
        eapply Forall_impl; [exact Hlim|]. cbn. lia. }
    rewrite Forall_lookup in Hup, Hlo.
    destruct i as [|i], j as [|j]; cbn in Hg, Hi, Hj; simplify_eq; [lia| | |].
    + apply Hup in Hj. lia.
    + apply Hlo in Hi. lia.
    + eapply (IH (L - c) i j); eauto. lia.
Qed.

End one_priority.

(** ** The classes of a scale view *)

Global Instance policy_le_trans : Transitive policy_le.
Proof.
  intros a b c [H1|[H1 H1']] [H2|[H2 H2']]; unfold policy_le; [lia..|].
  right. split; [lia|by etrans].
Qed.

Global Instance policy_le_total : Total policy_le.
Proof.
  intros a b. unfold policy_le.
  destruct (Z.lt_trichotomy (max_of a) (max_of b)) as [?|[?|?]]; [auto| |auto].
  destruct (total String.le (sp_Group a) (sp_Group b)); [left|right]; right; auto.
Qed.

Lemma max_of_canonize p : max_of (canonizeScalePolicy p) = max_of p.
Proof. unfold canonizeScalePolicy, max_of. by destruct (sp_MaxReplicas p) eqn:E; cbn; rewrite ?E. Qed.

Lemma group_canonize p : sp_Group (canonizeScalePolicy p) = sp_Group p.
Proof. unfold canonizeScalePolicy. by destruct (sp_MaxReplicas p). Qed.

Lemma priority_canonize p : sp_Priority (canonizeScalePolicy p) = sp_Priority p.
Proof. unfold canonizeScalePolicy. by destruct (sp_MaxReplicas p). Qed.

(** The policies of priority [k], canonized, in the order of the spec. *)
Definition class_of (ps : list RisingWaveScaleViewSpecScalePolicy) (k : Z)
  : list RisingWaveScaleViewSpecScalePolicy :=
  canonizeScalePolicy <$> filter (fun p => sp_Priority p = k) ps.

Lemma groupsByPriority_snoc ps p :
  groupsByPriority (ps ++ [p]) = add_policy (groupsByPriority ps) p.
Proof. unfold groupsByPriority. by rewrite foldl_snoc. Qed.

Lemma groupsByPriority_lookup ps k :
  groupsByPriority ps !! k =
  match class_of ps k with [] => None | l => Some l end.
Proof.
  induction ps as [|p ps IH] using rev_ind; [done|].
  rewrite groupsByPriority_snoc. unfold add_policy, class_of in *.
  rewrite filter_app, fmap_app.
  destruct (decide (sp_Priority p = k)) as [<-|Hne].
  - rewrite IH. rewrite (filter_cons_True _ p) by done.
    destruct (canonizeScalePolicy <$> filter _ ps); cbn; by rewrite lookup_insert_eq.
  - rewrite (filter_cons_False _ p) by done. cbn. rewrite app_nil_r.
    destruct (groupsByPriority ps !! sp_Priority p); by rewrite lookup_insert_ne.
Qed.

Lemma sorted_priorities_perm m : sorted_priorities m ≡ₚ (map_to_list m).*1.
Proof. apply merge_sort_Permutation. Qed.

Lemma NoDup_sorted_priorities m : NoDup (sorted_priorities m).
Proof. rewrite sorted_priorities_perm. apply NoDup_fst_map_to_list. Qed.

Lemma elem_of_sorted_priorities m k : k ∈ sorted_priorities m <-> is_Some (m !! k).
Proof.
  rewrite sorted_priorities_perm, list_elem_of_fmap. split.
  - intros ([? l] & -> & Hl). apply elem_of_map_to_list in Hl. by eexists.
  - intros [l Hl]. exists (k, l). by rewrite elem_of_map_to_list.
Qed.

Lemma elem_of_priorities ps k :
  k ∈ sorted_priorities (sort_groups <$> groupsByPriority ps) <-> k ∈ sp_Priority <$> ps.
Proof.
  rewrite elem_of_sorted_priorities, lookup_fmap, groupsByPriority_lookup.
  unfold class_of. rewrite list_elem_of_fmap.
  destruct (filter (fun p => sp_Priority p = k) ps) as [|q l] eqn:Hf; cbn.
  - split; [by intros [? ?]|]. intros (p & -> & Hp).
    by apply (filter_nil_not_elem_of _ _ p) in Hf.
  - split; [|eauto]. intros _. exists q.
    assert (q ∈ filter (fun p => sp_Priority p = k) ps) as Hq by (rewrite Hf; left).
    apply list_elem_of_filter in Hq as [? ?]. by split.
Qed.

Global Instance flip_Zle_total : Total (flip Z.le).
Proof. intros x y. unfold flip. lia. Qed.

Global Instance flip_Zle_trans : Transitive (flip Z.le).
Proof. intros x y z. unfold flip. lia. Qed.

Global Instance flip_Zle_antisymm : AntiSymm (=) (flip Z.le).
Proof. intros x y. unfold flip. lia. Qed.

Lemma sorted_priorities_sorted m : StronglySorted (flip Z.le) (sorted_priorities m).
Proof.
  apply (StronglySorted_merge_sort _).
Qed.

Lemma sorted_priorities_ext m1 m2 :
  (forall k, is_Some (m1 !! k) <-> is_Some (m2 !! k)) ->
  sorted_priorities m1 = sorted_priorities m2.
Proof.
  intros H. apply (StronglySorted_unique (flip Z.le)); [apply sorted_priorities_sorted..|].
  apply NoDup_Permutation; [apply NoDup_sorted_priorities..|].
  intros k. by rewrite !elem_of_sorted_priorities.
Qed.

Lemma lookup_class ps k :
  default [] ((sort_groups <$> groupsByPriority ps) !! k) = sort_groups (class_of ps k).
Proof. rewrite lookup_fmap, groupsByPriority_lookup. by destruct (class_of ps k). Qed.

Lemma classes_eq sv :
  classes sv = (fun k => sort_groups (class_of (sv_ScalePolicy sv) k)) <$>
    sorted_priorities (sort_groups <$> groupsByPriority (sv_ScalePolicy sv)).
Proof. apply list_fmap_ext. intros _ k _. apply lookup_class. Qed.

(** Inside a class, two policies with the same limit and the same group are the
    same policy: the sort order is a total order on the class. *)
Lemma class_antisymm ps k a b :
  a ∈ class_of ps k -> b ∈ class_of ps k -> policy_le a b -> policy_le b a -> a = b.
Proof.
  unfold class_of. rewrite !list_elem_of_fmap.
  intros (p & -> & Hp) (q & -> & Hq) H1 H2.
  apply list_elem_of_filter in Hp as [Hp _], Hq as [Hq _].
  assert (max_of (canonizeScalePolicy p) = max_of (canonizeScalePolicy q) /\
          sp_Group p = sp_Group q) as [Hm Hg].
  { unfold policy_le in *. rewrite !group_canonize in *.
    destruct H1 as [?|[? ?]], H2 as [?|[? ?]]; [lia..|]. split; [done|].
    by apply (anti_symm String.le). }
  unfold max_of, canonizeScalePolicy in *.
  destruct p as [? ? [?|]], q as [? ? [?|]]; cbn in *; by subst.
Qed.

Lemma sort_class_perm ps1 ps2 k :
  ps1 ≡ₚ ps2 -> sort_groups (class_of ps1 k) = sort_groups (class_of ps2 k).
Proof.
  intros Hp. assert (class_of ps1 k ≡ₚ class_of ps2 k) as Hc.
  { unfold class_of. by rewrite Hp. }
  unfold sort_groups. apply (StronglySorted_unique_strong policy_le).
  - intros a b Ha Hb. rewrite merge_sort_Permutation in Ha, Hb. rewrite <-Hc in Hb.
    by eapply class_antisymm.
  - apply StronglySorted_merge_sort; apply _.
  - apply StronglySorted_merge_sort; apply _.
  - by rewrite !merge_sort_Permutation.
Qed.

Lemma sort_groups_perm gs : sort_groups gs ≡ₚ gs.
Proof. apply merge_sort_Permutation. Qed.

Lemma sort_groups_sorted gs : StronglySorted policy_le (sort_groups gs).
Proof. apply StronglySorted_merge_sort; apply _. Qed.

(** Grouping by a duplicate-free list of keys that covers the list permutes it. *)
Lemma concat_filter_perm {A} (f : A -> Z) (ks : list Z) (l : list A) :
  NoDup ks -> (forall x, x ∈ l -> f x ∈ ks) ->
  concat ((fun k => filter (fun x => f x = k) l) <$> ks) ≡ₚ l.
Proof.
  intros Hnd. revert l. induction Hnd as [|k ks Hk _ IH]; intros l Hl; cbn.
  - destruct l as [|x l]; [done|]. exfalso. apply (not_elem_of_nil (f x)), Hl. left.
  - etrans; [|apply (filter_app_complement (fun x => f x = k))].
    apply Permutation_app_head.
    rewrite <-(IH (filter (fun x => f x <> k) l)).
    + apply reflexive_eq. f_equal. apply list_fmap_ext. intros i k' Hk'.
      rewrite list_filter_filter. apply list_filter_iff. intros x.
      split; [|by intros [? ?]]. intros <-. split; [done|]. intros <-.
      apply Hk. by eapply list_elem_of_lookup_2.
    + intros x Hx. apply list_elem_of_filter in Hx as [Hx Hin].
      apply Hl in Hin. by apply elem_of_cons in Hin as [?|?].
Qed.

Lemma concat_classes sv :
  concat (classes sv) ≡ₚ canonizeScalePolicy <$> sv_ScalePolicy sv.
Proof.
  rewrite classes_eq.
  etrans; [|apply fmap_Permutation, (concat_filter_perm sp_Priority
    (sorted_priorities (sort_groups <$> groupsByPriority (sv_ScalePolicy sv))))].
  - induction (sorted_priorities _) as [|k ks IH]; cbn; [done|].
    rewrite fmap_app, IH. unfold class_of. by rewrite sort_groups_perm.
  - apply NoDup_sorted_priorities.
  - intros p Hp. apply elem_of_priorities. by apply list_elem_of_fmap_2.
Qed.

Lemma classes_perm sv sv' :
  sv_ScalePolicy sv ≡ₚ sv_ScalePolicy sv' -> classes sv = classes sv'.
Proof.
  intros Hp. rewrite !classes_eq.
  rewrite (sorted_priorities_ext _ (sort_groups <$> groupsByPriority (sv_ScalePolicy sv'))).
  - apply list_fmap_ext. intros _ k _. by apply sort_class_perm.
  - intros k. rewrite <-!elem_of_sorted_priorities, !elem_of_priorities. by rewrite Hp.
Qed.

(** ** The loops compute [fills] *)

Definition insert_all (kvs : list (RisingWaveScaleViewSpecScalePolicy * Z))
    (m : gmap string Z) : gmap string Z :=
  foldl (fun m kv => <[sp_Group kv.1 := kv.2]> m) m kvs.

Lemma insert_all_app l1 l2 m : insert_all (l1 ++ l2) m = insert_all l2 (insert_all l1 m).
Proof. apply foldl_app. Qed.

Definition class_ok (gs : list RisingWaveScaleViewSpecScalePolicy) : Prop :=
  StronglySorted policy_le gs /\ Forall policy_ok gs /\
  (Z.of_nat (length gs) <= MaxInt32)%Z.

Lemma class_ok_tail g gs : class_ok (g :: gs) -> class_ok gs.
Proof.
  intros (Hs & Hok & Hl). inv Hok. apply StronglySorted_inv in Hs as [Hs _].
  cbn [length] in Hl. repeat split; [done..|lia].
Qed.

Lemma fill_head_bounds g gs L :
  class_ok (g :: gs) -> (0 <= L)%Z ->
  exists t, fill (g :: gs) L = t :: fill gs (L - t)%Z /\ (0 <= t <= max_of g)%Z /\ (t <= L)%Z /\
    t = (if decide (max_of g * Z.of_nat (length (g :: gs)) <= L)%Z then max_of g
         else split L (Z.of_nat (length (g :: gs)))).
Proof.
  intros (Hs & Hok & Hl) HL.
  pose proof (fill_bounds _ _ Hs Hok HL) as Hb.
  pose proof (fill_sum _ _ Hs Hok HL) as Hsum.
  cbn [fill] in *. remember (if decide _ then _ else _) as t eqn:Ht. exists t.
  change (Zsum (t :: fill gs (L - t))) with (t + Zsum (fill gs (L - t)))%Z in Hsum.
  apply Forall2_cons_1 in Hb as [Hb1 Hb2].
  assert (0 <= Zsum (fill gs (L - t)))%Z.
  { apply Zsum_nonneg. eapply Forall2_Forall_r; [done|].
    apply Forall_true. intros ? ? [? _]. done. }
  repeat split; lia.
Qed.

Lemma take_groups_fill gs L m :
  class_ok gs -> (0 <= L <= MaxInt32)%Z ->
  take_groups gs L m = ((L - Zsum (fill gs L))%Z, insert_all (zip gs (fill gs L)) m).
Proof.
  revert L m. induction gs as [|g gs IH]; intros L m Hok HL.
  { cbn. f_equal. lia. }
  destruct (fill_head_bounds g gs L Hok) as (t & -> & Ht & HtL & Heq); [lia|].
  pose proof (class_ok_tail _ _ Hok) as Hok'. destruct Hok as (_ & Hp & Hl).
  apply Forall_inv in Hp. unfold policy_ok in *.
  cbn [take_groups zip zip_with].
  change (Zsum (t :: fill gs (L - t))) with (t + Zsum (fill gs (L - t)))%Z.
  unfold MaxInt32 in *.
  rewrite (int64_id (max_of g * _)).
  2: { assert (0 <= max_of g * Z.of_nat (length (g :: gs)) <= 2147483647 * 2147483647)%Z.
       { split; [lia|apply Z.mul_le_mono_nonneg; lia]. }
       unfold in_int64, MinInt64, MaxInt64. lia. }
  revert Heq. case_decide; intros Heq; rewrite <-Heq;
    rewrite int64_id by (unfold in_int64, MinInt64, MaxInt64; lia);
    rewrite int32_id by (unfold in_int32, MinInt32, MaxInt32; lia);
    rewrite (IH (L - t)%Z) by (auto; lia); (apply (f_equal2 pair); [lia|reflexivity]).
Qed.

Lemma fill_zero gs : class_ok gs -> fill gs 0 = replicate (length gs) 0%Z.
Proof.
  induction gs as [|g gs IH]; intros Hok; [done|].
  destruct (fill_head_bounds g gs 0 Hok) as (t & -> & ? & ? & _); [lia|].
  assert (t = 0)%Z as -> by lia. cbn. f_equal. apply IH. by eapply class_ok_tail.
Qed.

Lemma zero_groups_eq gs m :
  zero_groups gs m = insert_all (zip gs (replicate (length gs) 0%Z)) m.
Proof. revert m. induction gs as [|g gs IH]; intros m; cbn; [done|]. apply IH. Qed.

Lemma split_priority_fill gs L m :
  class_ok gs -> (0 <= L <= MaxInt32)%Z ->
  split_priority gs (L, m) = ((L - Zsum (fill gs L))%Z, insert_all (zip gs (fill gs L)) m).
Proof.
  intros Hok HL. unfold split_priority. cbn [fst snd].
  case_decide; [|by apply take_groups_fill].
  assert (L = 0)%Z as -> by lia. rewrite zero_groups_eq, fill_zero by done. f_equal.
  assert (Zsum (replicate (length gs) 0%Z) = 0%Z) as ->; [|lia].
  clear. induction gs; cbn; auto.
Qed.

Lemma fill_total_bounds gs L :
  class_ok gs -> (0 <= L)%Z -> (0 <= L - Zsum (fill gs L) <= L)%Z.
Proof.
  intros (Hs & Hok & _) HL. rewrite fill_sum by done.
  assert (0 <= capacity gs)%Z; [|lia].
  apply Zsum_nonneg. apply Forall_fmap. by eapply Forall_impl; [done|intros ? [? _]].
Qed.

Lemma fold_fills cs L m :
  Forall class_ok cs -> (0 <= L <= MaxInt32)%Z ->
  foldl (fun s c => split_priority c s) (L, m) cs =
  ((L - Zsum (fills cs L).*2)%Z, insert_all (fills cs L) m).
Proof.
  revert L m. induction cs as [|c cs IH]; intros L m Hok HL.
  { cbn. f_equal. lia. }
  apply Forall_cons in Hok as [Hc Hcs].
  pose proof (fill_total_bounds c L Hc ltac:(lia)). cbn [foldl fills].
  rewrite split_priority_fill, IH by (auto; lia).
  rewrite fmap_app, Zsum_app, insert_all_app.
  rewrite snd_zip by (rewrite fill_length; done).
  apply (f_equal2 pair); [lia|reflexivity].
Qed.

Lemma fills_policies cs L : (fills cs L).*1 = concat cs.
Proof.
  revert L. induction cs as [|c cs IH]; intros L; cbn [fills]; [done|].
  rewrite fmap_app, IH, fst_zip by (rewrite fill_length; done). done.
Qed.

Lemma capacity_app l1 l2 : capacity (l1 ++ l2) = (capacity l1 + capacity l2)%Z.
Proof. unfold capacity. by rewrite fmap_app, Zsum_app. Qed.

Lemma capacity_nonneg gs : Forall policy_ok gs -> (0 <= capacity gs)%Z.
Proof.
  intros H. apply Zsum_nonneg, Forall_fmap. by eapply Forall_impl; [done|intros ? [? _]].
Qed.

Lemma fills_sum cs L :
  Forall class_ok cs -> (0 <= L)%Z ->
  Zsum (fills cs L).*2 = Z.min L (capacity (concat cs)).
Proof.
  revert L. induction cs as [|c cs IH]; intros L Hok HL; cbn [fills concat]; [cbn; lia|].
  apply Forall_cons in Hok as [Hc Hcs].
  pose proof (fill_total_bounds c L Hc HL).
  rewrite fmap_app, Zsum_app, snd_zip by (rewrite fill_length; done).
  rewrite IH by (auto; lia). rewrite capacity_app. destruct Hc as (Hs & Hp & _).
  rewrite fill_sum in * by done. pose proof (capacity_nonneg c Hp).
  assert (0 <= capacity (concat cs))%Z; [|lia].
  apply capacity_nonneg, Forall_concat. eapply Forall_impl; [done|]. by intros ? (_ & ? & _).
Qed.

(** ** The function *)

Section scaleview.
Context (sv : RisingWaveScaleView) (Hsv : scaleview_ok sv).

Definition desired : Z := default 0%Z (svs_Replicas (sv_Spec sv)).

Lemma sorted_class_ok k : class_ok (sort_groups (class_of (sv_ScalePolicy sv) k)).
Proof.
  repeat split.
  - apply sort_groups_sorted.
  - rewrite sort_groups_perm. unfold class_of.
    apply Forall_fmap, Forall_forall. intros p Hp. apply list_elem_of_filter in Hp as [_ Hp].
    pose proof (ok_policies _ Hsv) as H. rewrite Forall_forall in H.
    unfold policy_ok. cbn. rewrite max_of_canonize. by apply H.
  - rewrite sort_groups_perm. unfold class_of. rewrite length_fmap.
    pose proof (ok_length _ Hsv).
    pose proof (length_filter (fun p => sp_Priority p = k) (sv_ScalePolicy sv)). lia.
Qed.

Lemma class_priority k p :
  p ∈ sort_groups (class_of (sv_ScalePolicy sv) k) -> sp_Priority p = k.
Proof.
  rewrite sort_groups_perm. unfold class_of. rewrite list_elem_of_fmap.
  intros (q & -> & Hq). apply list_elem_of_filter in Hq as [<- _]. apply priority_canonize.
Qed.

Lemma classes_ok : Forall class_ok (classes sv).
Proof.
  rewrite classes_eq. apply Forall_fmap, Forall_forall. intros k _. apply sorted_class_ok.
Qed.

(** The groups with their replicas, in the order they are served. *)
Definition distribution : list (RisingWaveScaleViewSpecScalePolicy * Z) :=
  fills (classes sv) desired.

Definition entries : list (string * Z) :=
  (fun kv => (sp_Group kv.1, kv.2)) <$> distribution.

Lemma entries_groups : entries.*1 ≡ₚ sv_Groups sv.
Proof.
  unfold entries, distribution. rewrite <-list_fmap_compose. cbn.
  assert ((fst ∘ fun kv : RisingWaveScaleViewSpecScalePolicy * Z => (sp_Group kv.1, kv.2))
    <$> fills (classes sv) desired = sp_Group <$> (fills (classes sv) desired).*1) as ->.
  { by rewrite <-list_fmap_compose. }
  rewrite fills_policies, concat_classes. unfold sv_Groups. rewrite <-list_fmap_compose.
  apply reflexive_eq, list_fmap_ext. intros _ p _. cbn. apply group_canonize.
Qed.

Lemma NoDup_entries : NoDup entries.*1.
Proof. rewrite entries_groups. apply Hsv. Qed.

Lemma insert_all_lookup kvs m g r :
  NoDup ((fun kv : RisingWaveScaleViewSpecScalePolicy * Z => sp_Group kv.1) <$> kvs) ->
  insert_all kvs m !! g = Some r <->
  (exists p, (p, r) ∈ kvs /\ sp_Group p = g) \/
  (m !! g = Some r /\ g ∉ (fun kv => sp_Group kv.1) <$> kvs).
Proof.
  revert m. induction kvs as [|[p t] kvs IH]; intros m Hnd.
  { cbn. split; [intros ?; right; split; [done|apply not_elem_of_nil]|].
    intros [(p & Hp & _)|[? _]]; [by apply not_elem_of_nil in Hp|done]. }
  rewrite fmap_cons in Hnd |- *. apply NoDup_cons in Hnd as [Hp Hnd]. cbn [fst] in *.
  change (insert_all ((p, t) :: kvs) m) with (insert_all kvs (<[sp_Group p := t]> m)).
  rewrite IH by done. setoid_rewrite elem_of_cons. rewrite lookup_insert_Some. split.
  - intros [(q & Hq & <-)|[[[<- <-]|[Hne Hm]] Hg]]; [left; eauto|left; eauto|].
    right. split; [done|]. intros [->|?]; done.
  - intros [(q & [Heq|Hq] & <-)|[Hm Hg]]; [|left; eauto|].
    + simplify_eq. right. split; [by left|done].
    + apply not_or_and in Hg as [Hne Hg]. auto.
Qed.

Lemma distribution_groups :
  (fun kv : RisingWaveScaleViewSpecScalePolicy * Z => sp_Group kv.1) <$> distribution = entries.*1.
Proof. unfold entries. by rewrite <-list_fmap_compose. Qed.

Lemma lookup_distribution g r :
  insert_all distribution ∅ !! g = Some r <-> (g, r) ∈ entries.
Proof.
  rewrite insert_all_lookup by (rewrite distribution_groups; apply NoDup_entries).
  unfold entries. split.
  - intros [(p & Hp & <-)|[H _]]; [|by rewrite lookup_empty in H].
    apply list_elem_of_fmap. by exists (p, r).
  - intros H. apply list_elem_of_fmap in H as ([p t] & Heq & Hp).
    cbn in Heq. simplify_eq. left. eauto.
Qed.

Lemma map_to_list_distribution : map_to_list (insert_all distribution ∅) ≡ₚ entries.
Proof.
  apply NoDup_Permutation.
  - apply NoDup_map_to_list.
  - apply (NoDup_fmap_1 fst), NoDup_entries.
  - intros [g r]. by rewrite elem_of_map_to_list, lookup_distribution.
Qed.

(** With a non-negative number of replicas, the function compares the sum of the
    distribution to that number. *)
Lemma SplitReplicas_unfold :
  (0 <= desired)%Z ->
  SplitReplicas sv =
  if decide (int32 (Zsum distribution.*2) = desired)
  then Done (insert_all distribution ∅) else Panic "algorithm has bug".
Proof.
  intros Hr. unfold SplitReplicas.
  change (default 0%Z (svs_Replicas (sv_Spec sv))) with desired.
  rewrite <-(foldl_fmap (fun s c => split_priority c s) _ _ (fun k => default []
    ((sort_groups <$> groupsByPriority (sv_ScalePolicy sv)) !! k))).
  change (_ <$> sorted_priorities _) with (classes sv).
  pose proof (ok_replicas _ Hsv) as Hin. fold desired in Hin.
  rewrite fold_fills; [|apply classes_ok|unfold in_int32 in *; lia].
  cbn [fst snd]. fold distribution. rewrite sum_int32_spec.
  rewrite (Zsum_perm (map_to_list _).*2 distribution.*2); [done|].
  rewrite map_to_list_distribution. unfold entries. by rewrite <-list_fmap_compose.
Qed.

Lemma distribution_sum :
  (0 <= desired)%Z ->
  Zsum distribution.*2 = Z.min desired (capacity (sv_ScalePolicy sv)).
Proof.
  intros Hr. unfold distribution. rewrite fills_sum by (apply classes_ok || done).
  f_equal. unfold capacity. rewrite (Zsum_perm _ (max_of <$> sv_ScalePolicy sv)); [done|].
  rewrite concat_classes, <-list_fmap_compose. apply reflexive_eq, list_fmap_ext.
  intros _ p _. apply max_of_canonize.
Qed.

(** With a negative number every group gets zero. *)
Lemma fold_negative cs L m :
  (L < 0)%Z -> (forall g r, m !! g = Some r -> r = 0%Z) ->
  exists m', foldl (fun s c => split_priority c s) (L, m) cs = (L, m') /\
    forall g r, m' !! g = Some r -> r = 0%Z.
Proof.
  intros HL. revert m. induction cs as [|c cs IH]; intros m Hm; cbn [foldl]; [eauto|].
  unfold split_priority at 2. cbn [fst snd]. rewrite decide_True by lia.
  apply IH. clear IH. revert m Hm. induction c as [|g c IH]; intros m Hm; cbn; [done|].
  apply IH. intros h r. rewrite lookup_insert_Some. intros [[_ <-]|[_ ?]]; eauto.
Qed.

Lemma SplitReplicas_negative : (desired < 0)%Z -> is_done (SplitReplicas sv) = false.
Proof.
  intros Hr. unfold SplitReplicas.
  change (default 0%Z (svs_Replicas (sv_Spec sv))) with desired.
  rewrite <-(foldl_fmap (fun s c => split_priority c s) _ _ (fun k => default []
    ((sort_groups <$> groupsByPriority (sv_ScalePolicy sv)) !! k))).
  destruct (fold_negative (classes sv) desired ∅ Hr) as (m & Hm & Hz).
  { intros g r. by rewrite lookup_empty. }
  unfold classes in Hm. rewrite Hm. cbn [fst snd].
  rewrite sum_int32_spec. rewrite decide_False; [done|].
  assert (Zsum (map_to_list m).*2 = 0%Z) as ->; [|change (int32 0) with 0%Z; lia].
  assert (Forall (fun r => r = 0%Z) (map_to_list m).*2) as Hf.
  { apply Forall_fmap, Forall_forall. intros [g r] H. apply elem_of_map_to_list in H.
    cbn. by eapply Hz. }
  unfold Zsum. induction Hf; cbn; lia.
Qed.

Lemma distribution_canonized p t :
  (p, t) ∈ distribution -> exists q, q ∈ sv_ScalePolicy sv /\ p = canonizeScalePolicy q.
Proof.
  intros H. apply (list_elem_of_fmap_2 fst) in H. cbn in H. unfold distribution in H.
  rewrite fills_policies, concat_classes in H.
  apply list_elem_of_fmap in H as (q & -> & Hq). eauto.
Qed.

Lemma policy_inj p q :
  p ∈ sv_ScalePolicy sv -> q ∈ sv_ScalePolicy sv -> sp_Group p = sp_Group q -> p = q.
Proof.
  intros Hp Hq Hg. apply list_elem_of_lookup in Hp as [i Hi], Hq as [j Hj].
  pose proof (ok_groups _ Hsv) as Hnd. unfold sv_Groups in Hnd.
  assert (i = j) as ->; [|congruence].
  eapply NoDup_lookup; [done|..]; rewrite list_lookup_fmap.
  - by rewrite Hi.
  - by rewrite Hj, Hg.
Qed.

(** The entry of a policy in the returned map. *)
Lemma lookup_policy p r :
  p ∈ sv_ScalePolicy sv ->
  insert_all distribution ∅ !! sp_Group p = Some r <-> (canonizeScalePolicy p, r) ∈ distribution.
Proof.
  intros Hp. rewrite lookup_distribution. unfold entries. rewrite list_elem_of_fmap. split.
  - intros ([q t] & Heq & Hq). cbn in Heq. simplify_eq.
    destruct (distribution_canonized _ _ Hq) as (q' & Hq' & ->).
    rewrite group_canonize in *. by rewrite (policy_inj p q').
  - intros H. eexists. split; [|done]. cbn. by rewrite group_canonize.
Qed.

Lemma SplitReplicas_Done m :
  SplitReplicas sv = Done m -> (0 <= desired)%Z /\ m = insert_all distribution ∅ /\
    Zsum distribution.*2 = desired.
Proof.
  intros H. destruct (decide (0 <= desired)%Z) as [Hr|Hr].
  2: { pose proof SplitReplicas_negative as Hn. rewrite H in Hn. cbn in Hn.
       discriminate Hn. lia. }
  rewrite SplitReplicas_unfold in H by done. case_decide as Hs; [|done]. simplify_eq.
  repeat split; [done|]. pose proof (distribution_sum Hr) as Hd. rewrite Hd in *.
  pose proof (ok_replicas _ Hsv) as Hin. fold desired in Hin.
  rewrite <-Hs at 2. symmetry. apply int32_id. unfold in_int32, MinInt32 in *.
  assert (0 <= capacity (sv_ScalePolicy sv))%Z; [|lia].
  apply capacity_nonneg, Hsv.
Qed.
End scaleview.

(** ** Priorities *)

Lemma full_fill (gs : list RisingWaveScaleViewSpecScalePolicy) rs :
  Forall2 (fun g r => 0 <= r <= max_of g)%Z gs rs -> (capacity gs <= Zsum rs)%Z ->
  Forall2 (fun g r => r = max_of g) gs rs.
Proof.
  intros H. assert (Zsum rs <= capacity gs)%Z as Hle.
  { unfold capacity, Zsum. induction H; cbn; lia. }
  revert Hle. induction H as [|g r gs rs Hr H IH]; intros Hle Hge; [by constructor|].
  assert (Zsum rs <= capacity gs)%Z as Hle'.
  { clear -H. unfold capacity, Zsum. induction H; cbn; lia. }
  change (capacity (g :: gs)) with (max_of g + capacity gs)%Z in *.
  change (Zsum (r :: rs)) with (r + Zsum rs)%Z in *.
  constructor; [lia|apply IH; lia].
Qed.

Lemma zip_lookup_Some {A B} (l : list A) (k : list B) x y :
  (x, y) ∈ zip l k -> exists i, l !! i = Some x /\ k !! i = Some y.
Proof.
  intros H. apply list_elem_of_lookup in H as [i Hi]. exists i.
  apply lookup_zip_with_Some in Hi as (? & ? & ? & ? & ?). by simplify_eq.
Qed.

Lemma elem_of_zip_Forall2 {A B} (P : A -> B -> Prop) l k x y :
  Forall2 P l k -> (x, y) ∈ zip l k -> P x y.
Proof.
  intros HP H. apply zip_lookup_Some in H as (i & Hx & Hy). by eapply Forall2_lookup_lr.
Qed.

Lemma Zsum_ge_elem l x : Forall (fun z => 0 <= z)%Z l -> x ∈ l -> (x <= Zsum l)%Z.
Proof.
  intros Hf Hx. apply list_elem_of_split in Hx as (l1 & l2 & ->).
  apply Forall_app in Hf as [H1 H2]. apply Forall_cons in H2 as [_ H2].
  rewrite Zsum_app. apply Zsum_nonneg in H1, H2. unfold Zsum in *. cbn. lia.
Qed.

Lemma fill_entry_bounds c L p r :
  class_ok c -> (0 <= L)%Z -> (p, r) ∈ zip c (fill c L) ->
  (0 <= r <= max_of p)%Z /\ (r <= L)%Z.
Proof.
  intros Hc HL Hp. pose proof (fill_total_bounds c L Hc HL) as Ht.
  destruct Hc as (Hs & Hok & _). pose proof (fill_bounds c L Hs Hok HL) as Hb.
  split; [by apply (elem_of_zip_Forall2 _ _ _ _ _ Hb) in Hp|].
  apply zip_lookup_Some in Hp as (i & _ & Hr). apply list_elem_of_lookup_2 in Hr.
  apply Zsum_ge_elem in Hr; [lia|].
  eapply Forall2_Forall_r; [done|]. apply Forall_true. by intros ? ? [? _].
Qed.

Lemma fills_entry_bounds cs L p r :
  Forall class_ok cs -> (0 <= L)%Z -> (p, r) ∈ fills cs L ->
  (0 <= r <= max_of p)%Z /\ (r <= L)%Z.
Proof.
  intros Hcs. revert L. induction Hcs as [|c cs Hc Hcs IH]; intros L HL H; cbn [fills] in H.
  { by apply not_elem_of_nil in H. }
  pose proof (fill_total_bounds c L Hc HL).
  apply elem_of_app in H as [H|H]; [by eapply fill_entry_bounds|].
  apply IH in H; lia.
Qed.

Section by_key.
Context (f : Z -> list RisingWaveScaleViewSpecScalePolicy).
Context (Hok : forall k, class_ok (f k)).
Context (Hkey : forall k p, p ∈ f k -> sp_Priority p = k).

Lemma fills_key ks L p r : (p, r) ∈ fills (f <$> ks) L -> sp_Priority p ∈ ks.
Proof.
  intros H. apply (list_elem_of_fmap_2 fst) in H. rewrite fills_policies in H.
  apply list_elem_of_In, in_concat in H as (c & Hc & Hp).
  apply list_elem_of_In in Hc, Hp. apply list_elem_of_fmap in Hc as (k & -> & Hk).
  cbn in Hp. by rewrite (Hkey k p).
Qed.

Lemma class_ok_all ks : Forall class_ok (f <$> ks).
Proof. apply Forall_fmap, Forall_forall. intros k _. apply Hok. Qed.

Lemma fills_priority ks L p q rp rq :
  NoDup ks -> StronglySorted (flip Z.le) ks -> (0 <= L)%Z ->
  (p, rp) ∈ fills (f <$> ks) L -> (q, rq) ∈ fills (f <$> ks) L ->
  (sp_Priority q < sp_Priority p)%Z -> (0 < rq)%Z -> rp = max_of p.
Proof.
  revert L. induction ks as [|k ks IH]; intros L Hnd Hs HL Hp Hq Hlt Hpos.
  { by apply not_elem_of_nil in Hp. }
  apply NoDup_cons in Hnd as [Hk Hnd]. apply StronglySorted_inv in Hs as [Hs Hks].
  rewrite Forall_forall in Hks. rewrite fmap_cons in Hp, Hq. cbn [fills] in Hp, Hq.
  pose proof (fill_total_bounds _ L (Hok k) HL) as Hle.
  assert (forall t r, (t, r) ∈ zip (f k) (fill (f k) L) -> sp_Priority t = k) as Hzip.
  { intros t r H. apply zip_lookup_Some in H as (i & Hi & _).
    by apply Hkey, list_elem_of_lookup_2 with i. }
  apply elem_of_app in Hp as [Hp|Hp], Hq as [Hq|Hq].
  - apply Hzip in Hp, Hq. lia.
  - apply (fills_entry_bounds _ _ _ _ (class_ok_all ks)) in Hq as [_ Hq]; [|lia].
    destruct (Hok k) as (Hsk & Hpk & _). pose proof (fill_sum _ _ Hsk Hpk HL) as Hsum.
    eapply (elem_of_zip_Forall2 (fun g r => r = max_of g)); [|done].
    apply full_fill; [by apply fill_bounds|lia].
  - apply fills_key in Hp. apply Hks in Hp. apply Hzip in Hq. unfold flip in Hp. lia.
  - eapply (IH (L - Zsum (fill (f k) L))%Z); eauto. lia.
Qed.

Lemma fills_balanced ks L p q rp rq :
  NoDup ks -> (0 <= L)%Z ->
  (p, rp) ∈ fills (f <$> ks) L -> (q, rq) ∈ fills (f <$> ks) L ->
  sp_Priority p = sp_Priority q -> (rp < max_of p)%Z -> (rq <= rp + 1)%Z.
Proof.
  revert L. induction ks as [|k ks IH]; intros L Hnd HL Hp Hq Heq Hlt.
  { by apply not_elem_of_nil in Hp. }
  apply NoDup_cons in Hnd as [Hk Hnd]. rewrite fmap_cons in Hp, Hq. cbn [fills] in Hp, Hq.
  pose proof (fill_total_bounds _ L (Hok k) HL) as Hle.
  apply elem_of_app in Hp as [Hp|Hp], Hq as [Hq|Hq].
  - apply zip_lookup_Some in Hp as (i & Hi & Hri), Hq as (j & Hj & Hrj).
    destruct (Hok k) as (Hsk & Hpk & _). by eapply (fill_balanced (f k) L i j).
  - apply zip_lookup_Some in Hp as (i & Hi & _). apply fills_key in Hq.
    apply list_elem_of_lookup_2, Hkey in Hi. congruence.
  - apply zip_lookup_Some in Hq as (i & Hi & _). apply fills_key in Hp.
    apply list_elem_of_lookup_2, Hkey in Hi. congruence.
  - eapply (IH (L - Zsum (fill (f k) L))%Z); eauto. lia.
Qed.
End by_key.

(** The groups of the policy, looked up in the returned map, get all the replicas. *)
Lemma SplitReplicas_group_total sv m :
  scaleview_ok sv -> SplitReplicas sv = Done m ->
  Zsum ((fun p => default 0%Z (m !! sp_Group p)) <$> sv_ScalePolicy sv) = desired sv.
Proof.
  intros Hsv (Hr & -> & Hsum)%SplitReplicas_Done; [|done]. rewrite <-Hsum.
  assert (snd <$> distribution sv = snd <$> entries sv) as ->.
  { unfold entries. by rewrite <-list_fmap_compose. }
  transitivity (Zsum ((fun g => default 0%Z (insert_all (distribution sv) ∅ !! g))
    <$> (entries sv).*1)).
  { rewrite entries_groups. unfold sv_Groups. by rewrite <-list_fmap_compose. }
  f_equal. rewrite <-list_fmap_compose. apply list_fmap_ext. intros i [g r] Hi. cbn.
  apply list_elem_of_lookup_2, lookup_distribution in Hi; [|done]. by rewrite Hi.
Qed.

(** ** What the function computes *)

Lemma SplitReplicas_done_iff_ok sv :
  scaleview_ok sv ->
  is_done (SplitReplicas sv) = true <->
  (0 <= default 0 (svs_Replicas (sv_Spec sv)) <= capacity (sv_ScalePolicy sv))%Z.
Proof.
  intros Hsv. fold (desired sv). destruct (decide (0 <= desired sv)%Z) as [Hr|Hr].
  2: { rewrite SplitReplicas_negative by lia. split; [done|lia]. }
  rewrite SplitReplicas_unfold, distribution_sum by done.
  pose proof (ok_replicas _ Hsv) as Hin. fold (desired sv) in Hin.
  pose proof (capacity_nonneg _ (ok_policies _ Hsv)).
  rewrite int32_id by (unfold in_int32, MinInt32 in *; lia).
  case_decide; cbn; split; try done; lia.
Qed.

(** C20: On a view with distinct groups, no negative limit and no more groups or replicas than an
    int32 counts, [SplitReplicas] returns exactly when the desired replicas are between zero
    and the sum of the limits; otherwise its self-check panics. (The schema of the API admits
    negative limits, with which it may return negative replicas: [SplitReplicas_negative_limit].) *)
Theorem SplitReplicas_done_iff sv :
  scaleview_ok sv ->
  is_done (SplitReplicas sv) = true <->
  (0 <= default 0 (svs_Replicas (sv_Spec sv)) <= capacity (sv_ScalePolicy sv))%Z.
Proof. apply SplitReplicas_done_iff_ok. Qed.

(** The returned map has exactly the groups of the scale policy, every group
    gets between zero and its limit, and together they get the desired replicas. *)
Theorem SplitReplicas_sound sv m :
  scaleview_ok sv -> SplitReplicas sv = Done m ->
  dom m = list_to_set (sv_Groups sv) /\
  (forall p, p ∈ sv_ScalePolicy sv ->
     exists r, m !! sp_Group p = Some r /\ (0 <= r <= max_of p)%Z) /\
  Zsum (map_to_list m).*2 = default 0%Z (svs_Replicas (sv_Spec sv)).
Proof.
  intros Hsv (Hr & -> & Hsum)%SplitReplicas_Done; [|done]. split; [|split].
  - apply set_eq. intros g. rewrite elem_of_dom, elem_of_list_to_set, <-(entries_groups sv).
    rewrite list_elem_of_fmap. split.
    + intros [r H]. apply lookup_distribution in H; [|done]. by exists (g, r).
    + intros ([? r] & -> & H). exists r. by apply lookup_distribution.
  - intros p Hp. assert (sp_Group p ∈ (entries sv).*1) as Hg.
    { rewrite entries_groups. by apply list_elem_of_fmap_2. }
    apply list_elem_of_fmap in Hg as ([g r] & Hg & H). cbn in Hg. subst g.
    exists r. pose proof H as H'. apply lookup_distribution in H'; [|done]. split; [done|].
    apply lookup_policy in H'; [|done..]. unfold distribution in H'.
    apply fills_entry_bounds in H'; [|by apply classes_ok|done].
    rewrite max_of_canonize in H'. by apply H'.
  - rewrite map_to_list_distribution by done. fold (desired sv). rewrite <-Hsum.
    unfold entries. by rewrite <-list_fmap_compose.
Qed.

(** A group gets replicas only when every group of a higher priority has
    its limit. *)
Theorem SplitReplicas_priority sv m p q rp rq :
  scaleview_ok sv -> SplitReplicas sv = Done m ->
  p ∈ sv_ScalePolicy sv -> q ∈ sv_ScalePolicy sv ->
  m !! sp_Group p = Some rp -> m !! sp_Group q = Some rq ->
  (sp_Priority q < sp_Priority p)%Z -> (0 < rq)%Z -> rp = max_of p.
Proof.
  intros Hsv (Hr & -> & _)%SplitReplicas_Done Hp Hq Hrp Hrq Hlt Hpos; [|done].
  apply lookup_policy in Hrp, Hrq; [|done..]. rewrite <-max_of_canonize.
  unfold distribution in *. rewrite classes_eq in *.
  rewrite <-(priority_canonize p), <-(priority_canonize q) in Hlt.
  eapply (fills_priority _ (sorted_class_ok sv Hsv) (class_priority sv)); eauto.
  - apply NoDup_sorted_priorities.
  - apply sorted_priorities_sorted.
Qed.

(** Inside a priority the replicas are spread evenly: a group below its limit
    is at most one replica behind any other group of the priority. *)
Theorem SplitReplicas_balanced sv m p q rp rq :
  scaleview_ok sv -> SplitReplicas sv = Done m ->
  p ∈ sv_ScalePolicy sv -> q ∈ sv_ScalePolicy sv ->
  m !! sp_Group p = Some rp -> m !! sp_Group q = Some rq ->
  sp_Priority p = sp_Priority q -> (rp < max_of p)%Z -> (rq <= rp + 1)%Z.
Proof.
  intros Hsv (Hr & -> & _)%SplitReplicas_Done Hp Hq Hrp Hrq Heq Hlt; [|done].
  apply lookup_policy in Hrp, Hrq; [|done..]. rewrite <-max_of_canonize in Hlt.
  unfold distribution in *. rewrite classes_eq in *.
  rewrite <-(priority_canonize p), <-(priority_canonize q) in Heq.
  eapply (fills_balanced _ (sorted_class_ok sv Hsv) (class_priority sv)); eauto.
  apply NoDup_sorted_priorities.
Qed.

(** The function is stable: the order of the scale policy does not matter. *)
Theorem SplitReplicas_stable sv sv' :
  sv_ScalePolicy sv ≡ₚ sv_ScalePolicy sv' ->
  svs_Replicas (sv_Spec sv) = svs_Replicas (sv_Spec sv') ->
  SplitReplicas sv = SplitReplicas sv'.
Proof.
  intros Hp Hr. unfold SplitReplicas. rewrite <-Hr.
  rewrite <-!(foldl_fmap (fun s c => split_priority c s) _ _ (fun k => default []
    ((sort_groups <$> groupsByPriority _) !! k))).
  pose proof (classes_perm sv sv' Hp) as Hc. unfold classes in Hc. by rewrite Hc.
Qed.

(** ** Examples, the cases of the source's tests *)

Definition policy (g : string) (prio : Z) (max : option Z) : RisingWaveScaleViewSpecScalePolicy :=
  {| sp_Group := g; sp_Priority := prio; sp_MaxReplicas := max |}.

Definition view (replicas : Z) (ps : list RisingWaveScaleViewSpecScalePolicy)
  : RisingWaveScaleView :=
  {| sv_Meta := empty_meta;
     sv_Spec := {| svs_TargetRef := {| tr_Name := ""; tr_Component := ""; tr_UID := "" |};
                   svs_Replicas := Some replicas; svs_LabelSelector := "";
                   svs_ScalePolicy := ps |};
     sv_Status := {| svst_Replicas := None; svst_Locked := false |} |}.

Definition ex_view : RisingWaveScaleView :=
  view 9 [policy "a" 1 (Some 2%Z); policy "b" 1 None; policy "c" 0 (Some 4%Z)].
Definition ex_view' : RisingWaveScaleView :=
  view 9 [policy "c" 0 (Some 4%Z); policy "b" 1 None; policy "a" 1 (Some 2%Z)].
Definition ex_tiers : RisingWaveScaleView :=
  view 5 [policy "a" 1 (Some 2%Z); policy "b" 0 None].

Lemma view_ok r ps :
  NoDup (sp_Group <$> ps) -> Forall policy_ok ps ->
  (Z.of_nat (length ps) <= MaxInt32)%Z -> in_int32 r -> scaleview_ok (view r ps).
Proof. by constructor. Qed.

Ltac view_ok := apply view_ok; [apply (bool_decide_unpack _); vm_compute; exact I
  |repeat constructor; vm_compute; congruence|vm_compute; congruence
  |split; vm_compute; congruence].

Example split_9_2 : SplitReplicas (view 9 [policy "a" 0 None; policy "b" 0 None])
  = Done {["a" := 5%Z; "b" := 4%Z]}.
Proof. vm_compute. reflexivity. Qed.

Example split_9_limit : SplitReplicas (view 9 [policy "a" 0 None; policy "b" 0 (Some 2%Z)])
  = Done {["a" := 7%Z; "b" := 2%Z]}.
Proof. vm_compute. reflexivity. Qed.

Lemma SplitReplicas_done_iff_witness :
  is_done (SplitReplicas ex_view) = true /\ (0 <= 9 <= capacity (sv_ScalePolicy ex_view))%Z.
Proof.
  assert (scaleview_ok ex_view) as H by view_ok.
  pose proof (proj1 (SplitReplicas_done_iff ex_view H)) as Hi.
  split; [vm_compute; reflexivity|]. apply Hi. vm_compute. reflexivity.
Defined.

Lemma SplitReplicas_sound_witness :
  exists m, SplitReplicas ex_view = Done m /\ dom m = list_to_set (sv_Groups ex_view).
Proof.
  eexists. split; [vm_compute; reflexivity|].
  eapply (SplitReplicas_sound ex_view); [view_ok|vm_compute; reflexivity].
Defined.

Lemma SplitReplicas_priority_witness :
  exists m, SplitReplicas ex_tiers = Done m /\ m !! "b" = Some 3%Z /\ m !! "a" = Some 2%Z.
Proof.
  eexists. split; [vm_compute; reflexivity|]. split; [reflexivity|].
  apply (f_equal Some).
  eapply (SplitReplicas_priority ex_tiers _ (policy "a" 1 (Some 2%Z)) (policy "b" 0 None) 2 3);
    try (vm_compute; reflexivity).
  - view_ok.
  - left.
  - right. left.
Defined.

Lemma SplitReplicas_balanced_witness :
  (5 <= 4 + 1)%Z /\ scaleview_ok (view 9 [policy "a" 0 None; policy "b" 0 None]).
Proof.
  assert (scaleview_ok (view 9 [policy "a" 0 None; policy "b" 0 None])) as H by view_ok.
  split; [|exact H].
  eapply (SplitReplicas_balanced _ _ (policy "b" 0 None) (policy "a" 0 None) 4 5 H split_9_2);
    try (vm_compute; reflexivity).
  - right. left.
  - left.
Defined.

Lemma SplitReplicas_stable_witness :
  SplitReplicas ex_view = SplitReplicas ex_view' /\ ex_view <> ex_view'.
Proof.
  split; [|discriminate]. apply SplitReplicas_stable; [|reflexivity].
  apply (bool_decide_unpack _). vm_compute. exact I.
Defined.

(** A negative limit, which neither the CRD's schema nor the webhooks exclude
    when another group has no limit, makes the function return a negative number of
    replicas for a group: here [-5] and [15] instead of a panic. *)
Theorem SplitReplicas_negative_limit :
  SplitReplicas (view 10 [policy "a" 0 (Some (-5)%Z); policy "b" 0 None])
  = Done {["a" := (-5)%Z; "b" := 15%Z]}.
Proof. vm_compute. reflexivity. Qed.
