(* ===== verification/SplitDeal.v ===== *)
(** * Replicas dealt one at a time

    A reference for [SplitReplicas]: the desired replicas are handed out one by one, each to the
    group that is served next - the highest priority with room, then the fewest replicas, then the
    smallest limit and the name. The distribution of the code, computed by divisions on sorted
    groups, is the same. *)

From S2P Require Import Prelude GoStrings ApiTypes SplitReplicas.

(** ** Definitions *)

Abbreviation scale_policy := RisingWaveScaleViewSpecScalePolicy.

(** A group with the replicas it has been dealt. *)
Abbreviation hand := (scale_policy * Z)%type.

Definition has_room (x : hand) : Prop := (x.2 < max_of x.1)%Z.

(** [a] is served before [b]. *)
Definition served_le (a b : hand) : Prop :=
  (sp_Priority b.1 < sp_Priority a.1)%Z \/
  (sp_Priority a.1 = sp_Priority b.1 /\
    ((a.2 < b.2)%Z \/ (a.2 = b.2 /\ policy_le a.1 b.1))).

Global Instance served_le_dec : RelDecision served_le.
Proof. unfold RelDecision, served_le. intros. apply _. Defined.

Global Instance has_room_dec x : Decision (has_room x).
Proof. unfold has_room. apply _. Defined.

Definition next_served (l : list hand) : option hand := head (merge_sort served_le (filter has_room l)).

Definition deal_to (p : scale_policy) (l : list hand) : list hand :=
  (fun x => if decide (sp_Group x.1 = sp_Group p) then (x.1, x.2 + 1)%Z else x) <$> l.

Fixpoint deal (n : nat) (l : list hand) : list hand :=
  match n with
  | 0 => l
  | S n' => match next_served l with
            | Some (p, _) => deal n' (deal_to p l)
            | None => l
            end
  end.

Definition dealt (sv : RisingWaveScaleView) : list hand :=
  deal (Z.to_nat (desired sv)) ((fun p => (p, 0%Z)) <$> sv_ScalePolicy sv).

(** The reference: it fails when the replicas are negative or some can not be dealt. *)
Definition DealReplicas (sv : RisingWaveScaleView) : outcome (gmap string Z) :=
  if decide (0 <= desired sv /\ Zsum (dealt sv).*2 = desired sv)%Z
  then Done (list_to_map ((fun x => (sp_Group x.1, x.2)) <$> dealt sv))
  else Panic "algorithm has bug".

(** ** Fair distributions *)

(** A distribution that the dealing can lead to. *)
Record fair (l : list hand) : Prop := {
  fair_bounds x : x ∈ l -> (0 <= x.2 <= max_of x.1)%Z;
  fair_priority x y : x ∈ l -> y ∈ l -> has_room x -> (sp_Priority y.1 < sp_Priority x.1)%Z -> y.2 = 0%Z;
  fair_even x y : x ∈ l -> y ∈ l -> has_room x -> sp_Priority y.1 = sp_Priority x.1 -> (y.2 <= x.2 + 1)%Z;
  fair_order x y : x ∈ l -> y ∈ l -> has_room x -> sp_Priority y.1 = sp_Priority x.1 ->
    policy_le x.1 y.1 -> sp_Group x.1 <> sp_Group y.1 -> (y.2 <= x.2)%Z;
}.

Global Instance served_le_trans : Transitive served_le.
Proof.
  intros a b c [H1|(H1 & [H2|[H2 H2']])] [H3|(H3 & [H4|[H4 H4']])]; unfold served_le; try (left; lia);
    right; (split; [congruence|]); [left; lia|left; lia|left; lia|right].
  split; [congruence|by etrans].
Qed.

Global Instance served_le_total : Total served_le.
Proof.
  intros a b. unfold served_le.
  destruct (Z.lt_trichotomy (sp_Priority a.1) (sp_Priority b.1)) as [?|[Hp|?]]; [by right; left| |by left; left].
  destruct (Z.lt_trichotomy a.2 b.2) as [?|[Hr|?]]; [left; right; auto| |right; right; auto].
  destruct (total policy_le a.1 b.1); [left|right]; right; auto.
Qed.

Lemma next_served_Some l x :
  next_served l = Some x -> x ∈ l /\ has_room x /\ forall y, y ∈ l -> has_room y -> served_le x y.
Proof.
  unfold next_served. intros H. pose proof (StronglySorted_merge_sort served_le (filter has_room l)) as Hs.
  pose proof (merge_sort_Permutation served_le (filter has_room l)) as Hp.
  destruct (merge_sort served_le (filter has_room l)) as [|z k]; [done|]. injection H as ->.
  assert (x ∈ filter has_room l) as Hx by (rewrite <-Hp; left).
  apply list_elem_of_filter in Hx as [Hr Hx]. split; [done|]. split; [done|]. intros y Hy Hry.
  assert (y ∈ x :: k) as Hyk by (rewrite Hp; by apply list_elem_of_filter).
  apply StronglySorted_inv in Hs as [_ Hs]. rewrite Forall_forall in Hs.
  apply elem_of_cons in Hyk as [->|Hyk]; [by destruct (total served_le x x)|by apply Hs].
Qed.

Lemma next_served_None l : next_served l = None -> forall x, x ∈ l -> ~ has_room x.
Proof.
  unfold next_served. intros H x Hx Hr. pose proof (merge_sort_Permutation served_le (filter has_room l)) as Hp.
  destruct (merge_sort served_le (filter has_room l)) as [|z k]; [|done].
  assert (x ∈ filter has_room l) as Hf by (by apply list_elem_of_filter).
  rewrite <-Hp in Hf. by apply not_elem_of_nil in Hf.
Qed.

(** The groups of a list of hands have different names. *)
Definition distinct (l : list hand) : Prop := NoDup ((fun x => sp_Group x.1) <$> l).

Lemma distinct_inj l x y : distinct l -> x ∈ l -> y ∈ l -> sp_Group x.1 = sp_Group y.1 -> x = y.
Proof.
  intros Hd Hx Hy Hg. apply list_elem_of_lookup in Hx as [i Hi], Hy as [j Hj].
  assert (i = j) as ->; [|congruence]. apply (NoDup_lookup _ i j (sp_Group x.1) Hd); rewrite list_lookup_fmap.
  - by rewrite Hi.
  - by rewrite Hj, Hg.
Qed.

Lemma elem_of_deal_to p l x :
  x ∈ deal_to p l -> (exists y, y ∈ l /\ sp_Group y.1 = sp_Group p /\ x = (y.1, y.2 + 1)%Z) \/
    (x ∈ l /\ sp_Group x.1 <> sp_Group p).
Proof. intros (y & -> & Hy)%list_elem_of_fmap. case_decide; [left; eauto|by right]. Qed.

Lemma deal_to_policies p l : (deal_to p l).*1 = l.*1.
Proof.
  unfold deal_to. rewrite <-list_fmap_compose. apply list_fmap_ext. intros _ x _. cbn. by case_decide.
Qed.

Lemma deal_to_distinct p l : distinct l -> distinct (deal_to p l).
Proof.
  intros H. unfold distinct. replace ((fun x : hand => sp_Group x.1) <$> deal_to p l)
    with (sp_Group <$> (deal_to p l).*1) by (by rewrite <-list_fmap_compose).
  rewrite deal_to_policies. by rewrite <-list_fmap_compose.
Qed.

Lemma deal_to_other p l : sp_Group p ∉ ((fun x : hand => sp_Group x.1) <$> l) -> deal_to p l = l.
Proof.
  intros Hp. unfold deal_to. rewrite <-(list_fmap_id l) at 2. apply list_fmap_ext.
  intros i x Hx. apply decide_False. intros Heq. apply Hp. rewrite <-Heq.
  apply (list_elem_of_fmap_2 (fun x : hand => sp_Group x.1)). by eapply list_elem_of_lookup_2.
Qed.

Lemma deal_to_sum p r l : distinct l -> (p, r) ∈ l -> Zsum (deal_to p l).*2 = (Zsum l.*2 + 1)%Z.
Proof.
  induction l as [|x l IH]; intros Hd Hin; [by apply not_elem_of_nil in Hin|].
  unfold distinct in Hd. rewrite fmap_cons in Hd. apply NoDup_cons in Hd as [Hx Hd].
  apply elem_of_cons in Hin as [<-|Hin].
  - change (deal_to p ((p, r) :: l)) with
      ((if decide (sp_Group p = sp_Group p) then (p, r + 1)%Z else (p, r)) :: deal_to p l).
    rewrite decide_True, deal_to_other by done. unfold Zsum. cbn. lia.
  - change (deal_to p (x :: l)) with
      ((if decide (sp_Group x.1 = sp_Group p) then (x.1, x.2 + 1)%Z else x) :: deal_to p l).
    rewrite decide_False.
    + rewrite !fmap_cons. change (Zsum (?x :: ?l)) with (x + Zsum l)%Z. rewrite IH by done. lia.
    + intros Heq. apply Hx. rewrite Heq.
      by apply (list_elem_of_fmap_2 (fun x : hand => sp_Group x.1) l (p, r)).
Qed.

(** Dealing one replica keeps the distribution fair. *)
Lemma deal_to_fair p r l :
  fair l -> distinct l -> next_served l = Some (p, r) -> fair (deal_to p l).
Proof.
  intros Hf Hd (Hin & Hroom & Hnext)%next_served_Some. unfold has_room in Hroom. cbn in Hroom.
  assert (forall x, x ∈ deal_to p l -> x = (p, r + 1)%Z \/ x ∈ l /\ sp_Group x.1 <> sp_Group p) as Hcase.
  { intros x [(y & Hy & Hg & ->)|H]%elem_of_deal_to; [left|by right].
    by rewrite (distinct_inj l y (p, r) Hd Hy Hin Hg). }
  assert (forall x y, x ∈ l -> has_room x -> y = (p, r + 1)%Z -> sp_Priority p <= sp_Priority x.1 ->
    sp_Priority p = sp_Priority x.1 /\ (r < x.2 \/ r = x.2 /\ policy_le p x.1))%Z as Hlate.
  { intros x y Hx Hrx _ Hp. destruct (Hnext x Hx Hrx) as [?|[? ?]]; cbn in *; [lia|auto]. }
  constructor.
  - intros x [->|[Hx _]]%Hcase; [|by apply (fair_bounds _ Hf)].
    pose proof (fair_bounds _ Hf _ Hin). cbn in *. lia.
  - intros x y [->|[Hx _]]%Hcase [->|[Hy _]]%Hcase Hr Hp; cbn in *; [lia| | |].
    + apply (fair_priority _ Hf (p, r) y Hin Hy Hroom Hp).
    + destruct (Hlate x _ Hx Hr eq_refl); lia.
    + by apply (fair_priority _ Hf x y).
  - intros x y [->|[Hx _]]%Hcase [->|[Hy _]]%Hcase Hr Hp; cbn in *; [lia| | |].
    + pose proof (fair_even _ Hf (p, r) y Hin Hy Hroom Hp). cbn in *. lia.
    + destruct (Hlate x _ Hx Hr eq_refl ltac:(lia)) as [_ [Hl|[Hl _]]]; lia.
    + by apply (fair_even _ Hf x y).
  - intros x y [->|[Hx Hxp]]%Hcase [->|[Hy Hyp]]%Hcase Hr Hp Hle Hg; cbn in *; [done| | |].
    + apply (fair_even _ Hf (p, r) y Hin Hy Hroom Hp).
    + destruct (Hlate x _ Hx Hr eq_refl ltac:(lia)) as [_ [Hl|[Hl Hle']]]; [lia|]. exfalso. apply Hg.
      destruct Hle as [?|[? H1]], Hle' as [?|[? H2]]; [lia..|]. by apply (anti_symm String.le).
    + by apply (fair_order _ Hf x y).
Qed.

(** If the sums are the same, a smaller number somewhere is made up for elsewhere. *)
Lemma Zsum_lt_elsewhere (l l' : list Z) i a a' :
  length l = length l' -> Zsum l = Zsum l' -> l !! i = Some a -> l' !! i = Some a' -> (a < a')%Z ->
  exists j b b', l !! j = Some b /\ l' !! j = Some b' /\ (b' < b)%Z.
Proof.
  assert (forall l l' : list Z, length l = length l' ->
    (forall j b b', l !! j = Some b -> l' !! j = Some b' -> ~ b' < b)%Z -> (Zsum l <= Zsum l')%Z) as Hle.
  { clear. intros l. induction l as [|b l IH]; intros [|b' l'] Hlen H; try done.
    change (Zsum (?x :: ?l)) with (x + Zsum l)%Z. specialize (IH l').
    pose proof (H 0 b b' eq_refl eq_refl). cut (Zsum l <= Zsum l')%Z; [lia|].
    apply IH; [by injection Hlen|]. intros j. apply (H (S j)). }
  intros Hlen Hsum Ha Ha' Hlt.
  destruct (decide (Exists (fun p => p.2 < p.1)%Z (zip l l'))) as [He|He].
  - apply Exists_exists in He as ([b b'] & Hin & Hb). apply zip_lookup_Some in Hin as (j & ? & ?).
    by exists j, b, b'.
  - exfalso. apply not_Exists_Forall in He; [|apply _]. rewrite Forall_forall in He.
    assert (forall j b b', l !! j = Some b -> l' !! j = Some b' -> (~ b' < b)%Z) as Hno.
    { intros j b b' Hb Hb'. apply (He (b, b')). apply list_elem_of_lookup. exists j.
      apply lookup_zip_with_Some. eauto. }
    rewrite <-(take_drop_middle l i a Ha), <-(take_drop_middle l' i a' Ha') in Hsum.
    rewrite !Zsum_app in Hsum. change (Zsum (?x :: ?l)) with (x + Zsum l)%Z in Hsum.
    assert (Zsum (take i l) <= Zsum (take i l'))%Z.
    { apply Hle; [by rewrite !length_take, Hlen|]. intros j b b' Hb Hb'.
      apply lookup_take_Some in Hb as [Hb _], Hb' as [Hb' _]. by apply (Hno j b b'). }
    assert (Zsum (drop (S i) l) <= Zsum (drop (S i) l'))%Z; [|lia].
    apply Hle; [by rewrite !length_drop, Hlen|]. intros j b b' Hb Hb'.
    rewrite lookup_drop in Hb. rewrite lookup_drop in Hb'. by apply (Hno (S i + j) b b').
Qed.

Lemma distinct_fst l l' : l.*1 = l'.*1 -> distinct l -> distinct l'.
Proof.
  unfold distinct. intros H. replace ((fun x : hand => sp_Group x.1) <$> l) with (sp_Group <$> l.*1)
    by (by rewrite <-list_fmap_compose).
  rewrite H. by rewrite <-list_fmap_compose.
Qed.

Lemma same_policy (l l' : list hand) j x x' :
  l.*1 = l'.*1 -> l !! j = Some x -> l' !! j = Some x' -> x'.1 = x.1.
Proof.
  intros H Hj Hj'. apply (f_equal (lookup j)) in H. rewrite !list_lookup_fmap, Hj, Hj' in H.
  by injection H.
Qed.

Lemma fair_not_less l l' i p a a' :
  fair l -> fair l' -> l.*1 = l'.*1 -> distinct l -> Zsum l.*2 = Zsum l'.*2 ->
  l !! i = Some (p, a) -> l' !! i = Some (p, a') -> ~ (a < a')%Z.
Proof.
  intros Hf Hf' Hfst Hd Hsum Hi Hi' Hlt. assert (length l = length l') as Hlen.
  { apply (f_equal length) in Hfst. by rewrite !length_fmap in Hfst. }
  destruct (Zsum_lt_elsewhere l.*2 l'.*2 i a a') as (j & b & b' & Hj & Hj' & Hlt');
    rewrite ?length_fmap, ?list_lookup_fmap, ?Hi, ?Hi'; try done.
  rewrite list_lookup_fmap in Hj. rewrite list_lookup_fmap in Hj'.
  apply fmap_Some in Hj as ([q z0] & Hj & ->), Hj' as ([q' z] & Hj' & ->). cbn in Hlt'.
  pose proof (same_policy _ _ _ _ _ Hfst Hj Hj') as Hq. cbn in Hq. subst q'.
  apply list_elem_of_lookup_2 in Hi, Hi', Hj, Hj'.
  pose proof (fair_bounds _ Hf _ Hi). pose proof (fair_bounds _ Hf _ Hj).
  pose proof (fair_bounds _ Hf' _ Hi'). pose proof (fair_bounds _ Hf' _ Hj'). cbn in *.
  assert (has_room (p, a)) as Hr by (unfold has_room; cbn; lia).
  assert (has_room (q, z)) as Hr' by (unfold has_room; cbn; lia).
  destruct (Z.lt_trichotomy (sp_Priority q) (sp_Priority p)) as [Hp|[Hp|Hp]].
  - pose proof (fair_priority _ Hf _ _ Hi Hj Hr Hp). cbn in *. lia.
  - pose proof (fair_even _ Hf _ _ Hi Hj Hr Hp). pose proof (fair_even _ Hf' _ _ Hj' Hi' Hr' (eq_sym Hp)).
    cbn in *. assert (sp_Group p <> sp_Group q) as Hg.
    { intros Hg. pose proof (distinct_inj _ _ _ Hd Hi Hj Hg) as [= -> ->].
      pose proof (distinct_inj _ _ _ (distinct_fst _ _ Hfst Hd) Hi' Hj' Hg) as [= ->]. lia. }
    destruct (total policy_le p q) as [Ho|Ho].
    + pose proof (fair_order _ Hf _ _ Hi Hj Hr Hp Ho Hg). cbn in *. lia.
    + pose proof (fair_order _ Hf' _ _ Hj' Hi' Hr' (eq_sym Hp) Ho (not_eq_sym Hg)). cbn in *. lia.
  - pose proof (fair_priority _ Hf' _ _ Hj' Hi' Hr' Hp). cbn in *. lia.
Qed.

(** Two fair distributions of the same replicas over the same groups are the same. *)
Lemma fair_unique l l' :
  fair l -> fair l' -> l.*1 = l'.*1 -> distinct l -> Zsum l.*2 = Zsum l'.*2 -> l = l'.
Proof.
  intros Hf Hf' Hfst Hd Hsum. apply list_eq_same_length with (n := length l); [|done|].
  { apply (f_equal length) in Hfst. by rewrite !length_fmap in Hfst. }
  intros i [p a] [p' a'] _ Hi Hi'. pose proof (same_policy _ _ _ _ _ Hfst Hi Hi') as Hp. cbn in Hp. subst p'.
  f_equal. destruct (Z.lt_trichotomy a a') as [H|[H|H]]; [|done|]; exfalso.
  - by apply (fair_not_less l l' i p a a').
  - apply (fair_not_less l' l i p a' a); eauto using distinct_fst.
Qed.

(** ** Dealing *)

Lemma deal_spec n l :
  fair l -> distinct l ->
  fair (deal n l) /\ distinct (deal n l) /\ (deal n l).*1 = l.*1 /\
  Zsum (deal n l).*2 = Z.min (Zsum l.*2 + Z.of_nat n) (capacity l.*1).
Proof.
  assert (forall l, fair l -> (Zsum l.*2 <= capacity l.*1)%Z) as Hcap.
  { clear. intros l Hf. assert (Forall (fun x : hand => x.2 <= max_of x.1)%Z l) as H.
    { apply Forall_forall. intros x Hx. by apply (fair_bounds _ Hf). }
    clear Hf. unfold capacity, Zsum. induction H; cbn; lia. }
  revert l. induction n as [|n IH]; intros l Hf Hd; cbn [deal].
  { split; [done|]. split; [done|]. split; [done|]. pose proof (Hcap l Hf). lia. }
  destruct (next_served l) as [[p r]|] eqn:Hn.
  - destruct (IH (deal_to p l)) as (H1 & H2 & H3 & H4); [by eapply deal_to_fair|by apply deal_to_distinct|].
    rewrite deal_to_policies in H3, H4. split; [done|]. split; [done|]. split; [done|]. rewrite H4.
    rewrite (deal_to_sum p r) by (done || by apply next_served_Some in Hn as [? _]). lia.
  - split; [done|]. split; [done|]. split; [done|].
    assert (Zsum l.*2 = capacity l.*1) as ->; [|lia].
    assert (Forall (fun x : hand => x.2 = max_of x.1) l) as H.
    { apply Forall_forall. intros x Hx. pose proof (next_served_None l Hn x Hx) as Hr.
      pose proof (fair_bounds _ Hf x Hx). unfold has_room in Hr. lia. }
    clear -H. unfold capacity, Zsum. induction H; cbn; lia.
Qed.

(** ** The distribution of the code *)

Section order.
Local Open Scope Z_scope.

(** Between two groups of a priority, the one that comes first is not behind. *)
Lemma fill_ordered gs L i j g ri rj :
  StronglySorted policy_le gs -> Forall policy_ok gs -> 0 <= L -> (i < j)%nat ->
  gs !! i = Some g -> fill gs L !! i = Some ri -> fill gs L !! j = Some rj ->
  ri < max_of g -> rj <= ri.
Proof.
  revert L i j. induction gs as [|h gs IH]; intros L i j Hs Hok HL Hij Hg Hi Hj Hlt; [done|].
  pose proof (sorted_limits _ _ Hs) as Hlim.
  apply StronglySorted_inv in Hs as [Hs _]. inv Hok. unfold policy_ok in *.
  cbn [fill] in Hi, Hj. cbn [length] in Hi, Hj. rewrite Nat2Z.inj_succ in Hi, Hj.
  remember (Z.succ (Z.of_nat (length gs))) as n eqn:Hn. destruct j as [|j]; [lia|].
  case_decide as Hd.
  - destruct i as [|i]; cbn in Hg, Hi, Hj; simplify_eq; [lia|].
    eapply (IH (L - max_of h) i j); eauto; [nia|lia].
  - destruct (split_room h gs L n) as (? & ? & ? & ? & ?); [lia|lia|lia|done|].
    assert (Forall (fun r => r <= split L n) (fill gs (L - split L n))) as Hup.
    { apply fill_upper; [lia..|]. eapply Forall_impl; [exact Hlim|]. cbn. lia. }
    destruct i as [|i]; cbn in Hg, Hi, Hj; simplify_eq.
    + rewrite Forall_lookup in Hup. by apply Hup in Hj.
    + eapply (IH (L - split L _) i j); eauto; lia.
Qed.

Lemma sorted_lookup {A} (R : A -> A -> Prop) l i j x y :
  StronglySorted R l -> l !! i = Some x -> l !! j = Some y -> (i < j)%nat -> R x y.
Proof.
  intros Hs. revert i j. induction Hs as [|z l Hs IH Hz]; intros i j Hi Hj Hij; [done|].
  destruct j as [|j]; [lia|]. rewrite Forall_forall in Hz.
  destruct i as [|i]; cbn in Hi, Hj; [injection Hi as ->|apply (IH i j); auto; lia].
  apply Hz. by eapply list_elem_of_lookup_2.
Qed.

Lemma fills_ordered (f : Z -> list scale_policy) ks L p q rp rq :
  (forall k, class_ok (f k)) -> (forall k p, p ∈ f k -> sp_Priority p = k) ->
  NoDup ks -> 0 <= L ->
  (p, rp) ∈ fills (f <$> ks) L -> (q, rq) ∈ fills (f <$> ks) L ->
  sp_Priority p = sp_Priority q -> policy_le p q -> sp_Group p <> sp_Group q -> rp < max_of p -> rq <= rp.
Proof.
  intros Hok Hkey. revert L. induction ks as [|k ks IH]; intros L Hnd HL Hp Hq Heq Hle Hg Hlt.
  { by apply not_elem_of_nil in Hp. }
  apply NoDup_cons in Hnd as [Hk Hnd]. rewrite fmap_cons in Hp, Hq. cbn [fills] in Hp, Hq.
  pose proof (fill_total_bounds _ L (Hok k) HL) as Hb.
  apply elem_of_app in Hp as [Hp|Hp], Hq as [Hq|Hq].
  - apply zip_lookup_Some in Hp as (i & Hi & Hri), Hq as (j & Hj & Hrj).
    destruct (Hok k) as (Hsk & Hpk & _).
    destruct (Nat.lt_trichotomy i j) as [H|[->|H]]; [by eapply (fill_ordered (f k) L i j)|congruence|].
    exfalso. pose proof (sorted_lookup _ _ _ _ _ _ Hsk Hj Hi H) as Hle'. apply Hg.
    destruct Hle as [?|[? H1]], Hle' as [?|[? H2]]; [lia..|]. by apply (anti_symm String.le).
  - apply zip_lookup_Some in Hp as (i & Hi & _). apply (fills_key f Hkey) in Hq.
    apply list_elem_of_lookup_2, Hkey in Hi. congruence.
  - apply zip_lookup_Some in Hq as (i & Hi & _). apply (fills_key f Hkey) in Hp.
    apply list_elem_of_lookup_2, Hkey in Hi. congruence.
  - eapply (IH (L - Zsum (fill (f k) L))); eauto. lia.
Qed.
End order.

(** The policies of a view, each with what a map has for its group. *)
Definition hands_of (sv : RisingWaveScaleView) (m : gmap string Z) : list hand :=
  (fun p => (p, default 0%Z (m !! sp_Group p))) <$> sv_ScalePolicy sv.

Lemma hands_of_fst sv m : (hands_of sv m).*1 = sv_ScalePolicy sv.
Proof. unfold hands_of. rewrite <-list_fmap_compose. apply list_fmap_id. Qed.

Lemma distinct_hands l ps : l.*1 = ps -> NoDup (sp_Group <$> ps) -> distinct l.
Proof. intros <-. unfold distinct. by rewrite <-list_fmap_compose. Qed.

Lemma policy_le_canonize p q :
  policy_le (canonizeScalePolicy p) (canonizeScalePolicy q) <-> policy_le p q.
Proof. unfold policy_le. by rewrite !max_of_canonize, !group_canonize. Qed.

Section split.
Context (sv : RisingWaveScaleView) (Hsv : scaleview_ok sv) (m : gmap string Z) (Hm : SplitReplicas sv = Done m).

(** The entry of a policy is one of the distribution. *)
Lemma hand_distribution x : x ∈ hands_of sv m ->
  x.1 ∈ sv_ScalePolicy sv /\ (canonizeScalePolicy x.1, x.2) ∈ distribution sv.
Proof.
  destruct (SplitReplicas_Done sv Hsv m Hm) as (_ & -> & _).
  intros (p & -> & Hp)%list_elem_of_fmap. cbn. split; [done|].
  assert (sp_Group p ∈ (entries sv).*1) as Hg by (rewrite entries_groups; by apply list_elem_of_fmap_2).
  apply list_elem_of_fmap in Hg as ([g r] & Hg & Hr). cbn in Hg. subst g.
  apply lookup_distribution in Hr; [|done]. rewrite Hr. by apply lookup_policy in Hr.
Qed.

Lemma split_fair : fair (hands_of sv m).
Proof.
  destruct (SplitReplicas_Done sv Hsv m Hm) as (Hpos & _ & _).
  pose proof (sorted_class_ok sv Hsv) as Hok. pose proof (class_priority sv) as Hkey.
  pose proof (NoDup_sorted_priorities (sort_groups <$> groupsByPriority (sv_ScalePolicy sv))) as Hnd.
  pose proof (sorted_priorities_sorted (sort_groups <$> groupsByPriority (sv_ScalePolicy sv))) as Hsort.
  assert (forall x, x ∈ hands_of sv m -> (0 <= x.2 <= max_of x.1)%Z) as Hb.
  { intros x [_ Hx]%hand_distribution. unfold distribution in Hx.
    apply fills_entry_bounds in Hx as [Hx _]; [|by apply classes_ok|done]. by rewrite max_of_canonize in Hx. }
  constructor; [done|..]; unfold has_room; intros x y Hx Hy Hr; pose proof (Hb y Hy);
    apply hand_distribution in Hx as [_ Hx], Hy as [_ Hy];
    unfold distribution in Hx, Hy; rewrite classes_eq in Hx; rewrite classes_eq in Hy;
    rewrite <-(max_of_canonize x.1) in Hr;
    rewrite <-(priority_canonize x.1), <-(priority_canonize y.1).
  - intros Hp. destruct (decide (y.2 = 0)%Z) as [|Hne]; [done|].
    pose proof (fills_priority _ Hok Hkey _ _ _ _ _ _ Hnd Hsort Hpos Hx Hy Hp). lia.
  - intros Hp. by apply (fills_balanced _ Hok Hkey _ _ _ _ _ _ Hnd Hpos Hx Hy).
  - rewrite <-(policy_le_canonize x.1), <-(group_canonize x.1), <-(group_canonize y.1). intros Hp Hle Hg.
    by apply (fills_ordered _ _ _ _ _ _ _ Hok Hkey Hnd Hpos Hx Hy).
Qed.
End split.

(** The distribution the dealing ends with. *)
Lemma dealt_spec sv : scaleview_ok sv ->
  fair (dealt sv) /\ (dealt sv).*1 = sv_ScalePolicy sv /\ distinct (dealt sv) /\
  Zsum (dealt sv).*2 = Z.min (Z.max 0 (desired sv)) (capacity (sv_ScalePolicy sv)).
Proof.
  intros Hsv. set (start := (fun p => (p, 0%Z)) <$> sv_ScalePolicy sv : list hand).
  assert (start.*1 = sv_ScalePolicy sv) as Hfst.
  { unfold start. rewrite <-list_fmap_compose. apply list_fmap_id. }
  assert (Zsum start.*2 = 0%Z) as Hsum.
  { unfold start. rewrite <-list_fmap_compose. clear. induction (sv_ScalePolicy sv); cbn; auto. }
  assert (forall x, x ∈ start -> x.2 = 0%Z /\ x.1 ∈ sv_ScalePolicy sv) as Hz.
  { by intros x (p & -> & Hp)%list_elem_of_fmap. }
  assert (fair start) as Hf.
  { pose proof (ok_policies _ Hsv) as Hok. rewrite Forall_forall in Hok. unfold policy_ok in Hok.
    constructor; [intros x [-> Hx]%Hz; specialize (Hok _ Hx); lia|..]; intros x y [Hx Hxp]%Hz [-> _]%Hz; lia. }
  assert (distinct start) as Hd by (eapply distinct_hands; [exact Hfst|apply Hsv]).
  destruct (deal_spec (Z.to_nat (desired sv)) start Hf Hd) as (H1 & H2 & H3 & H4).
  split; [done|]. split; [by rewrite <-Hfst|]. split; [done|]. unfold dealt. fold start.
  rewrite H4, Hsum, Hfst. f_equal. lia.
Qed.

(** A map over the groups of the view, from the hands of its policies. *)
Lemma map_of_hands sv m :
  NoDup (sv_Groups sv) -> (forall g, is_Some (m !! g) <-> g ∈ sv_Groups sv) ->
  list_to_map ((fun x : hand => (sp_Group x.1, x.2)) <$> hands_of sv m) = m.
Proof.
  intros Hnd Hdom. unfold hands_of. rewrite <-list_fmap_compose. cbn.
  assert (NoDup (((fun p => (sp_Group p, default 0%Z (m !! sp_Group p))) <$> sv_ScalePolicy sv).*1)) as Hnd'.
  { by rewrite <-list_fmap_compose. }
  apply map_eq. intros g. apply option_eq. intros r.
  change ((list_to_map ((fun p => (sp_Group p, default 0%Z (m !! sp_Group p))) <$> sv_ScalePolicy sv) : gmap string Z)
    !! g = Some r <-> m !! g = Some r).
  rewrite <-elem_of_list_to_map by done. rewrite list_elem_of_fmap. split.
  - intros (p & [= -> ->] & Hp). destruct (m !! sp_Group p) as [z|] eqn:Hm; [done|].
    assert (is_Some (m !! sp_Group p)) as [? H]; [|congruence].
    apply Hdom. by apply list_elem_of_fmap_2.
  - intros Hm. assert (g ∈ sv_Groups sv) as Hg by (apply Hdom; eauto).
    apply list_elem_of_fmap in Hg as (p & -> & Hp). exists p. by rewrite Hm.
Qed.

Lemma split_dom sv m : scaleview_ok sv -> SplitReplicas sv = Done m ->
  forall g, is_Some (m !! g) <-> g ∈ sv_Groups sv.
Proof.
  intros Hsv (_ & -> & _)%SplitReplicas_Done g; [|done]. rewrite <-(entries_groups sv). split.
  - intros [r Hr]. apply lookup_distribution in Hr; [|done]. by apply (list_elem_of_fmap_2 fst _ (g, r)).
  - intros ([? r] & -> & Hr)%list_elem_of_fmap. exists r. by apply lookup_distribution.
Qed.

(** C15: [SplitReplicas] is the dealing of the replicas one at a time, on every view with distinct
    groups, no negative limit and no more groups or replicas than an int32 counts: the same map
    where all of them can be dealt, the same panic where they can not. (The schema of the API
    admits negative limits, on which the two differ: [SplitReplicas_deals_negative].) *)
Theorem SplitReplicas_deals sv : scaleview_ok sv -> SplitReplicas sv = DealReplicas sv.
Proof.
  intros Hsv. destruct (dealt_spec sv Hsv) as (Hf & Hfst & Hd & Hsum).
  pose proof (capacity_nonneg _ (ok_policies _ Hsv)) as Hc.
  pose proof (SplitReplicas_done_iff_ok sv Hsv) as Hdone. fold (desired sv) in Hdone.
  unfold DealReplicas. destruct (SplitReplicas sv) as [m|msg] eqn:Hm; cbn in Hdone.
  - assert (0 <= desired sv <= capacity (sv_ScalePolicy sv))%Z as Hr by (by apply Hdone).
    rewrite decide_True by lia. f_equal.
    rewrite (fair_unique (dealt sv) (hands_of sv m) Hf); [| |by rewrite hands_of_fst|done|].
    + symmetry. apply map_of_hands; [apply Hsv|]. by apply split_dom.
    + by apply split_fair.
    + unfold hands_of. rewrite <-list_fmap_compose. cbn.
      pose proof (SplitReplicas_group_total sv m Hsv Hm) as Ht. cbn in Ht.
      change (snd ∘ (fun p => (p, default 0%Z (m !! sp_Group p))))
        with (fun p => default 0%Z (m !! sp_Group p)). rewrite Ht, Hsum. lia.
  - rewrite decide_False.
    + revert Hm. unfold SplitReplicas. case_decide; [done|]. by intros [= <-].
    + intros [Hpos Heq]. cut (false = true); [done|]. apply Hdone. lia.
Qed.

(** With a negative limit the two differ: the code hands out [-5] and [15], the dealing 0 and 10. *)
Theorem SplitReplicas_deals_negative :
  SplitReplicas (view 10 [policy "a" 0 (Some (-5)%Z); policy "b" 0 None]) <>
  DealReplicas (view 10 [policy "a" 0 (Some (-5)%Z); policy "b" 0 None]).
Proof. vm_compute. discriminate. Qed.

Lemma SplitReplicas_deals_witness :
  SplitReplicas ex_view = DealReplicas ex_view /\
  (fun x : hand => (sp_Group x.1, x.2)) <$> dealt ex_view = [("a", 2%Z); ("b", 7%Z); ("c", 0%Z)].
Proof.
  split; [apply SplitReplicas_deals; view_ok|vm_compute; reflexivity].
Defined.
