(* ===== verification/ApiErrors.v ===== *)
(** * The errors the operator builds and the replies of the API server

    [field.Error], the error constructors of [apierrors] and the results of the
    Kubernetes client are third-party; the operator only builds and passes on these
    values. They are kept as data: a [field_error] with its type, path and detail, an
    [api_error] with the constructor that made it. The offending value of
    [field.Invalid] is not kept. The requests the operator sends are events of a
    trace, the replies are the arguments of the definitions. *)

From stdpp Require Import pretty.
From S2P Require Import Prelude GoStrings.

(** ** Definitions *)

Inductive field_error_type := FieldRequired | FieldInvalid | FieldForbidden | FieldNotSupported
  | FieldNotFound | FieldDuplicate | FieldTooLong | FieldInternal.

Record field_error := {
  fe_type : field_error_type;
  fe_path : string;
  fe_detail : string;
}.

Definition Required (path detail : string) : field_error :=
  {| fe_type := FieldRequired; fe_path := path; fe_detail := detail |}.
Definition Invalid (path detail : string) : field_error :=
  {| fe_type := FieldInvalid; fe_path := path; fe_detail := detail |}.
Definition Forbidden (path detail : string) : field_error :=
  {| fe_type := FieldForbidden; fe_path := path; fe_detail := detail |}.
Definition Duplicate (path : string) : field_error :=
  {| fe_type := FieldDuplicate; fe_path := path; fe_detail := "" |}.
Definition NotFound (path value : string) : field_error :=
  {| fe_type := FieldNotFound; fe_path := path; fe_detail := value |}.
Definition TooLong (path : string) (max : nat) : field_error :=
  {| fe_type := FieldTooLong; fe_path := path;
     fe_detail := "may not be more than " +:+ pretty.pretty (N.of_nat max) +:+ " bytes" |}.
Definition InternalError (path detail : string) : field_error :=
  {| fe_type := FieldInternal; fe_path := path; fe_detail := detail |}.

Inductive api_error :=
| NotFoundError (what : string)
| InvalidError (name : string) (errs : list field_error)
| AlreadyExistsError (name : string)
| ConflictError (name : string) (cause : string)
| AggregateError (errs : list field_error)
| PlainError (msg : string)
| WrappedError (msg : string) (cause : api_error).

(** The reason of an error is found under the messages it was wrapped in. *)
Fixpoint IsNotFound (e : api_error) : bool :=
  match e with NotFoundError _ => true | WrappedError _ c => IsNotFound c | _ => false end.
Fixpoint IsInvalid (e : api_error) : bool :=
  match e with InvalidError _ _ => true | WrappedError _ c => IsInvalid c | _ => false end.
Fixpoint IsConflict (e : api_error) : bool :=
  match e with ConflictError _ _ => true | WrappedError _ c => IsConflict c | _ => false end.
Fixpoint IsAlreadyExists (e : api_error) : bool :=
  match e with AlreadyExistsError _ => true | WrappedError _ c => IsAlreadyExists c | _ => false end.

(** [client.IgnoreNotFound], [client.IgnoreAlreadyExists]. *)
Definition ignore (p : api_error -> bool) (e : option api_error) : option api_error :=
  match e with Some e => if p e then None else Some e | None => None end.
Definition IgnoreNotFound : option api_error -> option api_error := ignore IsNotFound.
Definition IgnoreAlreadyExists : option api_error -> option api_error := ignore IsAlreadyExists.

Global Instance field_error_type_eq_dec : EqDecision field_error_type.
Proof. solve_decision. Defined.
Global Instance field_error_eq_dec : EqDecision field_error.
Proof. solve_decision. Defined.

(** [if cond { errs = append(errs, e) }]. *)
Definition err_if (cond : bool) (e : field_error) : list field_error :=
  if cond then [e] else [].

(** Decimal text of an index, as in [field.Path.Index(i)]. *)
Definition index_path (base : string) (i : nat) : string :=
  base +:+ "[" +:+ pretty.pretty (N.of_nat i) +:+ "]".

(** The errors of the elements of a list, each with its index. *)
Definition indexed_errors {A} (f : string -> A -> list field_error) (base : string) (l : list A)
  : list field_error :=
  mjoin (imap (fun i x => f (index_path base i) x) l).

(** The results of a reconcile step, as the operator asks [ctrlkit] for them. *)
Inductive ctrl_result :=
| Continue
| NoRequeue
| Exit
| RequeueImmediately
| RequeueAfter (milliseconds : Z)
| RequeueIfError (err : option api_error)
| RequeueIfErrorAndWrap (msg : string) (err : option api_error).

(** ** Lemmas *)

Lemma err_if_nil c e : err_if c e = [] <-> c = false.
Proof. by destruct c. Qed.

Lemma app_nil_iff {A} (l k : list A) : l ++ k = [] <-> l = [] /\ k = [].
Proof. split; [apply app_eq_nil|by intros [-> ->]]. Qed.

(** A list has no errors when none of its elements has, wherever it is. *)
Lemma indexed_errors_nil {A} (f : string -> A -> list field_error) base l P :
  (forall path x, f path x = [] <-> P x) -> indexed_errors f base l = [] <-> Forall P l.
Proof.
  intros H. unfold indexed_errors.
  enough (forall g : nat -> nat, mjoin (imap (fun i x => f (index_path base (g i)) x) l) = [] <->
    Forall P l) as Hg by apply (Hg id).
  induction l as [|x l IH]; intros g; cbn; [by split|].
  rewrite app_nil_iff, Forall_cons, H. by rewrite (IH (fun i => g (S i))).
Qed.

#[export] Hint Rewrite @app_nil_iff err_if_nil : go.
