(* ===== verification/Metrics.v ===== *)
(** * pkg/metrics: the recorders around the webhooks and the controllers

    Every webhook and every controller runs inside a recorder, which counts its calls and
    recovers its panics: a webhook that panics rejects the request with an internal error, a
    reconcile that panics ends as if there were nothing to do. A vector of counters is a map
    from label values to counts, a vector of histograms the list of what was observed. The
    handlers inside are arguments; so is the registry of Prometheus (class [Registry]). *)

From S2P Require Import Prelude GoStrings ApiErrors.

(** ** Definitions: counters *)

Inductive WebhookType := ValidatingWebhookType | MutatingWebhookType.
Definition IsValidating (wt : WebhookType) : bool :=
  match wt with ValidatingWebhookType => true | MutatingWebhookType => false end.
Definition IsMutating (wt : WebhookType) : bool := negb (IsValidating wt).
Definition WebhookType_String (wt : WebhookType) : string :=
  match wt with ValidatingWebhookType => "validating" | MutatingWebhookType => "mutating" end.

Record GroupVersionKind := { gvk_Group : string; gvk_Version : string; gvk_Kind : string }.

(** What the counters read of an object. *)
Record target := { t_gvk : GroupVersionKind; t_Namespace : string; t_Name : string }.

(** [prometheus.CounterVec]: a counter that is not there yet is zero. *)
Abbreviation CounterVec := (gmap (list string) N).
Definition count (labels : list string) (metric : CounterVec) : N := default 0%N (metric !! labels).
Definition Inc (labels : list string) (metric : CounterVec) : CounterVec :=
  <[labels := (count labels metric + 1)%N]> metric.

Definition webhook_labels (wt : WebhookType) (obj : target) : list string :=
  [WebhookType_String wt; gvk_Group (t_gvk obj); gvk_Version (t_gvk obj); gvk_Kind (t_gvk obj);
   t_Namespace obj; t_Name obj].
Definition incWebhooksWithLabelValues (metric : CounterVec) (wt : WebhookType) (obj : target)
  : CounterVec := Inc (webhook_labels wt obj) metric.

(** The getter passes the version for the kind. *)
Definition getWebhooksWithLabelValues (metric : CounterVec) (wt : WebhookType) (obj : target) : N :=
  count [WebhookType_String wt; gvk_Group (t_gvk obj); gvk_Version (t_gvk obj); gvk_Version (t_gvk obj);
         t_Namespace obj; t_Name obj] metric.

Record webhook_metrics := {
  webhookRequestCount : CounterVec;
  webhookRequestPassCount : CounterVec;
  webhookRequestRejectCount : CounterVec;
  webhookRequestPanicCount : CounterVec;
}.

Definition IncWebhookRequestCount (wt : WebhookType) (obj : target) (m : webhook_metrics) :=
  {| webhookRequestCount := incWebhooksWithLabelValues (webhookRequestCount m) wt obj;
     webhookRequestPassCount := webhookRequestPassCount m;
     webhookRequestRejectCount := webhookRequestRejectCount m;
     webhookRequestPanicCount := webhookRequestPanicCount m |}.
Definition IncWebhookRequestPassCount (wt : WebhookType) (obj : target) (m : webhook_metrics) :=
  {| webhookRequestCount := webhookRequestCount m;
     webhookRequestPassCount := incWebhooksWithLabelValues (webhookRequestPassCount m) wt obj;
     webhookRequestRejectCount := webhookRequestRejectCount m;
     webhookRequestPanicCount := webhookRequestPanicCount m |}.
Definition IncWebhookRequestRejectCount (wt : WebhookType) (obj : target) (m : webhook_metrics) :=
  {| webhookRequestCount := webhookRequestCount m;
     webhookRequestPassCount := webhookRequestPassCount m;
     webhookRequestRejectCount := incWebhooksWithLabelValues (webhookRequestRejectCount m) wt obj;
     webhookRequestPanicCount := webhookRequestPanicCount m |}.
Definition IncWebhookRequestPanicCount (wt : WebhookType) (obj : target) (m : webhook_metrics) :=
  {| webhookRequestCount := webhookRequestCount m;
     webhookRequestPassCount := webhookRequestPassCount m;
     webhookRequestRejectCount := webhookRequestRejectCount m;
     webhookRequestPanicCount := incWebhooksWithLabelValues (webhookRequestPanicCount m) wt obj |}.
Definition GetWebhookRequestCount (wt : WebhookType) (obj : target) (m : webhook_metrics) : N :=
  getWebhooksWithLabelValues (webhookRequestCount m) wt obj.
Definition GetWebhookRequestPassCount (wt : WebhookType) (obj : target) (m : webhook_metrics) : N :=
  getWebhooksWithLabelValues (webhookRequestPassCount m) wt obj.
Definition GetWebhookRequestRejectCount (wt : WebhookType) (obj : target) (m : webhook_metrics) : N :=
  getWebhooksWithLabelValues (webhookRequestRejectCount m) wt obj.
Definition GetWebhookRequestPanicCountWith (wt : WebhookType) (obj : target) (m : webhook_metrics) : N :=
  getWebhooksWithLabelValues (webhookRequestPanicCount m) wt obj.

(** ** Definitions: the recorder of a webhook *)

(** [apierrors.NewInternalError]. *)
Definition NewInternalError (msg : string) : api_error :=
  PlainError ("Internal error occurred: " +:+ msg).

Definition beforeInvoke (wt : WebhookType) (obj : target) (m : webhook_metrics) : webhook_metrics :=
  IncWebhookRequestCount wt obj m.

(** What the deferred call makes of the end of the handler: its error, or its panic. *)
Definition afterInvoke (wt : WebhookType) (obj : target) (r : outcome (option api_error))
    (m : webhook_metrics) : option api_error * webhook_metrics :=
  match r with
  | Panic msg =>
      (Some (NewInternalError ("panic in " +:+ WebhookType_String wt +:+ " webhook: " +:+ msg)),
       IncWebhookRequestRejectCount wt obj (IncWebhookRequestPanicCount wt obj m))
  | Done (Some err) => (Some err, IncWebhookRequestRejectCount wt obj m)
  | Done None => (None, IncWebhookRequestPassCount wt obj m)
  end.

(** A call of a handler that ends as [r], recorded. *)
Definition record_webhook (wt : WebhookType) (obj : target) (r : outcome (option api_error))
    (m : webhook_metrics) : option api_error * webhook_metrics :=
  afterInvoke wt obj r (beforeInvoke wt obj m).

(** The webhooks of a type of objects: [admission.Defaulter] and [admission.Validator]. A
    defaulter changes the object it is given, also when it fails or panics half way. *)
Abbreviation Warnings := (list string).
Abbreviation Defaulter T := (T -> T * outcome (option api_error)).
Record Validator (T : Type) := {
  v_ValidateCreate : T -> outcome (Warnings * option api_error);
  v_ValidateUpdate : T -> T -> outcome (Warnings * option api_error);
  v_ValidateDelete : T -> outcome (Warnings * option api_error);
}.
Arguments v_ValidateCreate {T} v.
Arguments v_ValidateUpdate {T} v.
Arguments v_ValidateDelete {T} v.

Section recorders.
  Context {T : Type} (meta : T -> target).

(** The results are named, so that the deferred call sets the error; the warnings of a handler that
    panics are [nil]. *)
Definition invoke (wt : WebhookType) (obj : T) (r : outcome (Warnings * option api_error))
    (m : webhook_metrics) : Warnings * option api_error * webhook_metrics :=
  let '(err, m) := afterInvoke wt (meta obj) (r ≫= fun we => Done we.2) (beforeInvoke wt (meta obj) m) in
  (match r with Done (warnings, _) => warnings | Panic _ => [] end, err, m).

Record mutatingWebhookMetricsRecorder := {
  mr_webhookType : WebhookType; mr_inner : Defaulter T }.
Definition NewMutatingWebhookMetricsRecorder (inner : Defaulter T) : mutatingWebhookMetricsRecorder :=
  {| mr_webhookType := MutatingWebhookType; mr_inner := inner |}.

(** The counters of the end are those of the object as the handler left it. *)
Definition Default (r : mutatingWebhookMetricsRecorder) (obj : T) (m : webhook_metrics)
    : T * option api_error * webhook_metrics :=
  let m := beforeInvoke (mr_webhookType r) (meta obj) m in
  let '(obj, res) := mr_inner r obj in
  let '(err, m) := afterInvoke (mr_webhookType r) (meta obj) res m in
  (obj, err, m).

Record validatingWebhookMetricsRecorder := {
  vr_webhookType : WebhookType; vr_inner : Validator T }.
Definition NewValidatingWebhookMetricsRecorder (inner : Validator T)
    : validatingWebhookMetricsRecorder :=
  {| vr_webhookType := ValidatingWebhookType; vr_inner := inner |}.
Definition ValidateCreate (r : validatingWebhookMetricsRecorder) (obj : T) (m : webhook_metrics)
    : Warnings * option api_error * webhook_metrics :=
  invoke (vr_webhookType r) obj (v_ValidateCreate (vr_inner r) obj) m.
Definition ValidateUpdate (r : validatingWebhookMetricsRecorder) (oldObj newObj : T)
    (m : webhook_metrics) : Warnings * option api_error * webhook_metrics :=
  invoke (vr_webhookType r) newObj (v_ValidateUpdate (vr_inner r) oldObj newObj) m.
Definition ValidateDelete (r : validatingWebhookMetricsRecorder) (obj : T) (m : webhook_metrics)
    : Warnings * option api_error * webhook_metrics :=
  invoke (vr_webhookType r) obj (v_ValidateDelete (vr_inner r) obj) m.

End recorders.
#[global] Arguments mutatingWebhookMetricsRecorder T : clear implicits.
#[global] Arguments validatingWebhookMetricsRecorder T : clear implicits.

(** ** Definitions: the recorder of a controller *)

(** [reconcile.Result]; a [time.Duration] counts nanoseconds. *)
Record Result := { res_Requeue : bool; res_RequeueAfter : Z }.
Definition Milliseconds (d : Z) : Z := Z.quot d 1000000.

(** [prometheus.HistogramVec]: the observations, the last one first. *)
Abbreviation HistogramVec := (list (list string * Z)).

Record controller_metrics := {
  controllerReconcileCount : CounterVec;
  controllerReconcilePanicCount : CounterVec;
  controllerReconcileRequeueErrorCount : CounterVec;
  controllerReconcileRequeueCount : CounterVec;
  controllerReconcileRequeueAfter : HistogramVec;
  controllerReconcileDuration : HistogramVec;
}.

(** The upper bounds of the buckets, in thousandths. *)
Definition requeue_after_buckets : list Z := [1000; 10000; 50000; 100000; 500000; 1000000]%Z.
Definition duration_buckets : list Z :=
  [5; 10; 25; 50; 100; 150; 200; 250; 300; 350; 400; 450; 500; 600; 700; 800; 900; 1000;
   1250; 1500; 1750; 2000; 2500; 3000; 3500; 4000; 4500; 5000; 6000; 7000; 8000; 9000; 10000;
   15000; 20000; 25000; 30000; 40000; 50000; 60000]%Z.

Definition controller_labels (obj : target) : list string :=
  [gvk_Group (t_gvk obj); gvk_Version (t_gvk obj); gvk_Kind (t_gvk obj); t_Namespace obj; t_Name obj].
Definition incControllersWithLabelValues (metric : CounterVec) (obj : target) : CounterVec :=
  Inc (controller_labels obj) metric.

Definition IncControllerReconcileCount (obj : target) (m : controller_metrics) :=
  {| controllerReconcileCount := incControllersWithLabelValues (controllerReconcileCount m) obj;
     controllerReconcilePanicCount := controllerReconcilePanicCount m;
     controllerReconcileRequeueErrorCount := controllerReconcileRequeueErrorCount m;
     controllerReconcileRequeueCount := controllerReconcileRequeueCount m;
     controllerReconcileRequeueAfter := controllerReconcileRequeueAfter m;
     controllerReconcileDuration := controllerReconcileDuration m |}.
Definition IncControllerReconcilePanicCount (obj : target) (m : controller_metrics) :=
  {| controllerReconcileCount := controllerReconcileCount m;
     controllerReconcilePanicCount := incControllersWithLabelValues (controllerReconcilePanicCount m) obj;
     controllerReconcileRequeueErrorCount := controllerReconcileRequeueErrorCount m;
     controllerReconcileRequeueCount := controllerReconcileRequeueCount m;
     controllerReconcileRequeueAfter := controllerReconcileRequeueAfter m;
     controllerReconcileDuration := controllerReconcileDuration m |}.
Definition IncControllerReconcileRequeueErrorCount (obj : target) (m : controller_metrics) :=
  {| controllerReconcileCount := controllerReconcileCount m;
     controllerReconcilePanicCount := controllerReconcilePanicCount m;
     controllerReconcileRequeueErrorCount :=
       incControllersWithLabelValues (controllerReconcileRequeueErrorCount m) obj;
     controllerReconcileRequeueCount := controllerReconcileRequeueCount m;
     controllerReconcileRequeueAfter := controllerReconcileRequeueAfter m;
     controllerReconcileDuration := controllerReconcileDuration m |}.
Definition IncControllerReconcileRequeueCount (obj : target) (m : controller_metrics) :=
  {| controllerReconcileCount := controllerReconcileCount m;
     controllerReconcilePanicCount := controllerReconcilePanicCount m;
     controllerReconcileRequeueErrorCount := controllerReconcileRequeueErrorCount m;
     controllerReconcileRequeueCount :=
       incControllersWithLabelValues (controllerReconcileRequeueCount m) obj;
     controllerReconcileRequeueAfter := controllerReconcileRequeueAfter m;
     controllerReconcileDuration := controllerReconcileDuration m |}.
Definition UpdateControllerReconcileRequeueAfter (ms : Z) (obj : target) (m : controller_metrics) :=
  {| controllerReconcileCount := controllerReconcileCount m;
     controllerReconcilePanicCount := controllerReconcilePanicCount m;
     controllerReconcileRequeueErrorCount := controllerReconcileRequeueErrorCount m;
     controllerReconcileRequeueCount := controllerReconcileRequeueCount m;
     controllerReconcileRequeueAfter :=
       (controller_labels obj, ms) :: controllerReconcileRequeueAfter m;
     controllerReconcileDuration := controllerReconcileDuration m |}.
Definition UpdateControllerReconcileDuration (ms : Z) (webhookName : string) (obj : target)
    (m : controller_metrics) :=
  {| controllerReconcileCount := controllerReconcileCount m;
     controllerReconcilePanicCount := controllerReconcilePanicCount m;
     controllerReconcileRequeueErrorCount := controllerReconcileRequeueErrorCount m;
     controllerReconcileRequeueCount := controllerReconcileRequeueCount m;
     controllerReconcileRequeueAfter := controllerReconcileRequeueAfter m;
     controllerReconcileDuration :=
       (webhookName :: controller_labels obj, ms) :: controllerReconcileDuration m |}.

(** A request names the object, the recorder knows its kind. *)
Record controllerMetricsRecorder := {
  cr_name : string;
  cr_gvk : GroupVersionKind;
  cr_inner : string * string -> outcome (Result * option api_error);
}.
Definition NewControllerMetricsRecorder (r : string * string -> outcome (Result * option api_error))
    (name : string) (gvk : GroupVersionKind) : controllerMetricsRecorder :=
  {| cr_name := name; cr_gvk := gvk; cr_inner := r |}.
Definition request_target (r : controllerMetricsRecorder) (request : string * string) : target :=
  {| t_gvk := cr_gvk r; t_Namespace := request.1; t_Name := request.2 |}.

Definition beforeReconcile (r : controllerMetricsRecorder) (request : string * string)
    (m : controller_metrics) : controller_metrics :=
  IncControllerReconcileCount (request_target r request) m.

(** [elapsed] is [time.Since(startTime)]. *)
Definition afterReconcile (r : controllerMetricsRecorder) (request : string * string) (elapsed : Z)
    (res : outcome (Result * option api_error)) (m : controller_metrics)
    : Result * option api_error * controller_metrics :=
  let obj := request_target r request in
  match res with
  | Panic _ => ({| res_Requeue := false; res_RequeueAfter := 0 |}, None,
                IncControllerReconcilePanicCount obj m)
  | Done (result, err) =>
      let m :=
        if bool_decide (err <> None) then IncControllerReconcileRequeueErrorCount obj m
        else if bool_decide (res_RequeueAfter result > 0)%Z then
          UpdateControllerReconcileRequeueAfter (Milliseconds (res_RequeueAfter result)) obj m
        else if res_Requeue result then IncControllerReconcileRequeueCount obj m else m in
      (result, err, UpdateControllerReconcileDuration (Milliseconds elapsed) (cr_name r) obj m)
  end.

Definition controllerMetricsRecorder_Reconcile (r : controllerMetricsRecorder)
    (request : string * string) (elapsed : Z) (m : controller_metrics)
    : Result * option api_error * controller_metrics :=
  afterReconcile r request elapsed (cr_inner r request) (beforeReconcile r request m).

(** ** Definitions: the metrics of the process *)

Record process_metrics := {
  ReceivingMetricsFromOperator : N;
  webhooks : webhook_metrics;
  controllers : controller_metrics;
}.

(** Writing a counter into an empty [Metric] reads it: it is not reset. The histogram of the
    durations is not reset either. *)
Definition ResetMetrics (m : process_metrics) : process_metrics :=
  {| ReceivingMetricsFromOperator := ReceivingMetricsFromOperator m;
     webhooks :=
       {| webhookRequestCount := ∅; webhookRequestPassCount := ∅; webhookRequestRejectCount := ∅;
          webhookRequestPanicCount := ∅ |};
     controllers :=
       {| controllerReconcileCount := ∅; controllerReconcilePanicCount := ∅;
          controllerReconcileRequeueErrorCount := ∅; controllerReconcileRequeueCount := ∅;
          controllerReconcileRequeueAfter := [];
          controllerReconcileDuration := controllerReconcileDuration (controllers m) |} |}.

Inductive metric_id :=
| M_ReceivingMetricsFromOperator
| M_webhookRequestCount | M_webhookRequestPassCount | M_webhookRequestRejectCount
| M_webhookRequestPanicCount
| M_controllerReconcileCount | M_controllerReconcilePanicCount | M_controllerReconcileRequeueErrorCount
| M_controllerReconcileRequeueCount | M_controllerReconcileRequeueAfter | M_controllerReconcileDuration.
#[global] Instance metric_id_dec : EqDecision metric_id.
Proof. solve_decision. Defined.

(** [metrics.Registry] of the controller runtime. A collector is registered once: the second time
    is a panic. What a scrape shows are the collectors registered. *)
Class Registry (R : Type) := {
  MustRegister : metric_id -> R -> outcome R;
  exported : R -> metric_id -> Prop;
}.
Class RegistryOk (R : Type) `{Registry R} : Prop := {
  register_new c r : ~ exported r c ->
    exists r', MustRegister c r = Done r' /\ forall c', exported r' c' <-> c' = c \/ exported r c';
  register_twice c r : exported r c -> exists msg, MustRegister c r = Panic msg;
}.

Definition register_all `{Registry R} (cs : list metric_id) (r : R) : outcome R :=
  foldl (fun r c => r ≫= MustRegister c) (Done r) cs.
Definition InitMetrics `{Registry R} : R -> outcome R :=
  register_all [M_controllerReconcileCount; M_controllerReconcilePanicCount;
    M_controllerReconcileRequeueAfter; M_controllerReconcileRequeueCount;
    M_controllerReconcileRequeueErrorCount; M_ReceivingMetricsFromOperator; M_webhookRequestCount;
    M_webhookRequestPanicCount; M_webhookRequestPassCount; M_webhookRequestRejectCount].

(** ** Lemmas *)

Lemma count_Inc labels labels' metric :
  count labels' (Inc labels metric) =
  (count labels' metric + if bool_decide (labels = labels') then 1 else 0)%N.
Proof.
  unfold count, Inc. case_bool; subst; [by rewrite lookup_insert_eq|].
  rewrite lookup_insert_ne by done. by rewrite N.add_0_r.
Qed.

(** Every call passes or is rejected; those that panic are among the rejected ones. *)
Record balanced (m : webhook_metrics) (labels : list string) : Prop := {
  bal_sum : count labels (webhookRequestCount m) =
    (count labels (webhookRequestPassCount m) + count labels (webhookRequestRejectCount m))%N;
  bal_panic : (count labels (webhookRequestPanicCount m) <= count labels (webhookRequestRejectCount m))%N;
}.

Lemma record_webhook_balanced wt obj r m labels :
  balanced m labels -> balanced (record_webhook wt obj r m).2 labels.
Proof.
  intros [Hs Hp]. destruct r as [[err|]|msg]; split;
    cbn [record_webhook afterInvoke beforeInvoke IncWebhookRequestCount IncWebhookRequestPassCount
      IncWebhookRequestRejectCount IncWebhookRequestPanicCount webhookRequestCount
      webhookRequestPassCount webhookRequestRejectCount webhookRequestPanicCount snd];
    unfold incWebhooksWithLabelValues; rewrite ?count_Inc; lia.
Qed.

(** ** Properties *)

Definition no_metrics : webhook_metrics :=
  {| webhookRequestCount := ∅; webhookRequestPassCount := ∅; webhookRequestRejectCount := ∅;
     webhookRequestPanicCount := ∅ |}.

(** The calls of the webhooks, each with the way its handler ended. *)
Definition record_all (calls : list (WebhookType * target * outcome (option api_error)))
    (m : webhook_metrics) : webhook_metrics :=
  foldl (fun m c => (record_webhook c.1.1 c.1.2 c.2 m).2) m calls.

(** However the handlers end, panics included, a request is let through exactly when its handler
    accepted it, and the counters add up: for every object the requests are those that passed
    and those that were rejected, and the panics are among the latter. *)
Theorem webhook_recorder_balanced calls labels :
  balanced (record_all calls no_metrics) labels /\
  forall wt obj r m, (record_webhook wt obj r m).1 = None <-> r = Done None.
Proof.
  split.
  - unfold record_all. induction calls as [|c calls IH] using rev_ind; [done|].
    rewrite foldl_app. by apply record_webhook_balanced.
  - intros wt obj [[err|]|msg] m; cbn; naive_solver.
Qed.

(** A recorded webhook answers as the webhook inside, whose panic it turns into a rejection; the
    object is the one the webhook inside left, and the counters move as in [record_webhook]. *)
Lemma validators_answer {T} (meta : T -> target) inner :
  let r := NewValidatingWebhookMetricsRecorder inner in
  let answers obj (call : webhook_metrics -> Warnings * option api_error * webhook_metrics)
      (res : outcome (Warnings * option api_error)) := forall m,
    (exists w, (call m).1 = (w, (record_webhook ValidatingWebhookType (meta obj) (res ≫= fun we => Done we.2) m).1)) /\
    (call m).2 = (record_webhook ValidatingWebhookType (meta obj) (res ≫= fun we => Done we.2) m).2 /\
    ((call m).1.2 = None <-> exists w, res = Done (w, None)) in
  (forall obj, answers obj (ValidateCreate meta r obj) (v_ValidateCreate inner obj)) /\
  (forall old new, answers new (ValidateUpdate meta r old new) (v_ValidateUpdate inner old new)) /\
  (forall obj, answers obj (ValidateDelete meta r obj) (v_ValidateDelete inner obj)).
Proof.
  intros r answers.
  assert (forall obj res, answers obj (invoke meta ValidatingWebhookType obj res) res) as Hi.
  { intros obj [[w [err|]]|msg] m; cbn; naive_solver. }
  split_and!; intros; apply Hi.
Qed.

Lemma defaulter_answers {T} (meta : T -> target) inner obj m :
  let '(obj', err, _) := Default meta (NewMutatingWebhookMetricsRecorder inner) obj m in
  obj' = (inner obj).1 /\ (err = None <-> (inner obj).2 = Done None).
Proof.
  unfold Default. cbn. destruct (inner obj) as [obj' [[err|]|msg]]; cbn; naive_solver.
Qed.

(** A reconcile that does not panic ends as the one inside, and its duration is observed. *)
Lemma reconcile_recorded r request elapsed m res :
  cr_inner r request = Done res ->
  let '(res', m') := controllerMetricsRecorder_Reconcile r request elapsed m in
  res' = res /\
  controllerReconcileDuration m' =
    (cr_name r :: controller_labels (request_target r request), Milliseconds elapsed)
      :: controllerReconcileDuration m.
Proof.
  intros H. unfold controllerMetricsRecorder_Reconcile. rewrite H. destruct res as [result err].
  unfold afterReconcile. cbn. split; [done|]. by repeat case_match.
Qed.

(** A reconcile that panics is not repeated, and its duration is not observed. *)
Lemma panic_not_requeued r request elapsed m msg :
  cr_inner r request = Panic msg ->
  let '(res, m') := controllerMetricsRecorder_Reconcile r request elapsed m in
  res = ({| res_Requeue := false; res_RequeueAfter := 0 |}, None) /\
  controllerReconcileDuration m' = controllerReconcileDuration m.
Proof. intros H. unfold controllerMetricsRecorder_Reconcile. by rewrite H. Qed.

(** The durations are observed in milliseconds, the buckets are those of seconds: whatever takes
    longer than 60 ms is in no bucket. *)
Lemma durations_miss_buckets elapsed :
  (elapsed >= 61 * 1000000)%Z ->
  Forall (fun bound => (1000 * Milliseconds elapsed > bound)%Z) duration_buckets.
Proof.
  intros H. unfold Milliseconds.
  assert (61 <= elapsed ÷ 1000000)%Z by (apply Z.quot_le_lower_bound; lia).
  repeat constructor; lia.
Qed.

Lemma register_all_spec `{RegistryOk R} cs r :
  NoDup cs -> (forall c, c ∈ cs -> ~ exported r c) ->
  exists r', register_all cs r = Done r' /\ forall c, exported r' c <-> c ∈ cs \/ exported r c.
Proof.
  revert r. unfold register_all. induction cs as [|c cs IH]; intros r Hnd Hnew; cbn.
  { exists r. split; [done|]. set_solver. }
  apply NoDup_cons in Hnd as [Hc Hnd].
  destruct (register_new c r) as (r1 & E1 & Hr1); [apply Hnew; set_solver|].
  rewrite E1.
  destruct (IH r1 Hnd) as (r' & E & Hr').
  { intros c' Hc' [->|Hx]%Hr1; [done|]. apply (Hnew c'); set_solver. }
  exists r'. split; [done|]. intros c'. rewrite Hr', Hr1. set_solver.
Qed.

(** On a registry that has none of them, [InitMetrics] registers every metric but the histogram of
    the durations; called again it panics. *)
Lemma InitMetrics_registers `{RegistryOk R} r :
  (forall c, ~ exported r c) ->
  exists r', InitMetrics r = Done r' /\
    (forall c, exported r' c <-> c <> M_controllerReconcileDuration) /\
    exists msg, InitMetrics r' = Panic msg.
Proof.
  intros Hr. unfold InitMetrics.
  edestruct (register_all_spec (R := R)) as (r' & E & Hr'); [|by intros|exists r'; split; [exact E|]].
  { apply (bool_decide_unpack _). by vm_compute. }
  assert (forall c, exported r' c <-> c <> M_controllerReconcileDuration) as Hx.
  { intros c. rewrite Hr'. destruct c; set_solver. }
  split; [done|].
  destruct (register_twice M_controllerReconcileCount r') as [msg Hm]; [by apply Hx|].
  exists msg. unfold register_all. cbn. by rewrite Hm.
Qed.

(** The registry as a list. *)
#[global] Instance list_registry : Registry (list metric_id) := {
  MustRegister c r :=
    if bool_decide (c ∈ r) then Panic "duplicate metrics collector registration attempted"
    else Done (c :: r);
  exported r c := c ∈ r;
}.
#[global] Instance list_registry_ok : RegistryOk (list metric_id).
Proof.
  split; cbn; intros c r Hc.
  - rewrite bool_decide_false by done. eexists. split; [done|]. set_solver.
  - rewrite bool_decide_true by done. eauto.
Qed.

Example init_metrics_runs : exists msg,
  is_done (InitMetrics (R := list metric_id) []) = true /\
  (InitMetrics (R := list metric_id) [] ≫= InitMetrics) = Panic msg.
Proof. eexists. split; vm_compute; reflexivity. Qed.

(** The getters of the counters read another counter unless the kind is the version. *)
Lemma getter_reads_other wt obj m :
  gvk_Kind (t_gvk obj) <> gvk_Version (t_gvk obj) ->
  getWebhooksWithLabelValues (incWebhooksWithLabelValues m wt obj) wt obj =
  getWebhooksWithLabelValues m wt obj.
Proof.
  intros Hne. unfold getWebhooksWithLabelValues, incWebhooksWithLabelValues, webhook_labels.
  rewrite count_Inc, bool_decide_false; [lia|]. intros H. injection H as H. done.
Qed.
