(* ===== verification/Startup.v ===== *)
(** * cmd/manager/manager.go, pkg/webhook/webhook.go: the operator starts

    [main] calls the controller runtime in a fixed order, and each call may fail. A call is a
    value of [boot_call]; what the runtime answers is the class [Runtime], and may depend on all
    the calls before. The program ends by returning, by exiting with a status, or by a panic.
    The reading of the command line is the library's: [main] gets the values of the flags. *)

From S2P Require Import Prelude GoStrings Features.

(** ** Definitions: the calls *)

Inductive webhook :=
| RisingWaveWebhooks (openKruiseAvailable : bool)
| RisingWaveScaleViewWebhooks
| RisingWaveUserWebhooks.

Inductive controller :=
| MetaPodRoleLabeler
| RisingWaveController (openKruiseAvailable forceUpdateEnabled : bool) (operatorVersion : string)
| RisingWaveScaleViewController
| RisingWaveComputeSTSUpdateStrategy
| RisingWaveUserController.

Inductive boot_call :=
| AddToScheme (group : string)
| InitMetrics
| GetConfig
| NewManager (metricsAddr probeAddr : string) (leaderElection : bool)
| NewDiscoveryClient
| ServerVersion
| CompleteWebhook (w : webhook)
| GVKForObject (kind : string)
| NewConnectionPool
| CompleteController (c : controller)
| AddHealthzCheck (name : string)
| AddReadyzCheck (name : string)
| Start.

(** [version.Info]. *)
Record Info := { Major : string; Minor : string }.

Class Runtime := {
  call_error : list boot_call -> boot_call -> option string;
  server_version : list boot_call -> Info;
}.

(** ** Definitions: programs *)

Inductive ending (A : Type) :=
| Returned (a : A)
| Exited (status : Z)
| Panicked (msg : string).
Arguments Returned {A}.
Arguments Exited {A}.
Arguments Panicked {A}.

Definition Boot (A : Type) : Type := list boot_call -> ending A * list boot_call.

Global Instance Boot_ret : MRet Boot := fun A a t => (Returned a, t).
Global Instance Boot_bind : MBind Boot := fun A B f m t =>
  match m t with
  | (Returned a, t') => f a t'
  | (Exited status, t') => (Exited status, t')
  | (Panicked msg, t') => (Panicked msg, t')
  end.

Definition os_Exit {A} (status : Z) : Boot A := fun t => (Exited status, t).
Definition panics {A} (msg : string) : Boot A := fun t => (Panicked msg, t).

Section boot.
Context `{R : Runtime}.

(** A call, and its error. *)
Definition call (c : boot_call) : Boot (option string) := fun t => (Returned (call_error t c), t ++ [c]).
Definition get_version : Boot Info := fun t => (Returned (server_version t), t).

(** [utilruntime.Must], [lo.Must], and [if err != nil { os.Exit(1) }]. *)
Definition Must (m : Boot (option string)) : Boot unit :=
  err ← m; match err with Some e => panics e | None => mret tt end.
Definition or_exit (m : Boot (option string)) : Boot unit :=
  err ← m; match err with Some _ => os_Exit 1 | None => mret tt end.

(** [m], then [k] unless [m] failed; the error of [m] is wrapped. *)
Definition and_then (prefix : string) (m k : Boot (option string)) : Boot (option string) :=
  err ← m; match err with Some e => mret (Some (prefix +:+ e)) | None => k end.

(** ** Definitions: the setup *)

Definition init : Boot unit :=
  Must (call (AddToScheme "client-go"));;
  Must (call (AddToScheme "risingwave.risingwavelabs.com/v1alpha1"));;
  Must (call (AddToScheme "apiextensions.k8s.io/v1"));;
  Must (call (AddToScheme "monitoring.coreos.com/v1"));;
  Must (call (AddToScheme "apps.kruise.io/v1alpha1"));;
  Must (call (AddToScheme "apps.kruise.io/v1beta1")).

Definition version_too_low (serverVersion : Info) (minMajor minMinor : Z) : bool :=
  let major := ParseInt64 (Major serverVersion) in
  let minor := ParseInt64 (TrimRight (Minor serverVersion) "+") in
  (major <? minMajor)%Z || ((major =? minMajor)%Z && (minor <? minMinor)%Z).

Definition requireKubernetesVersion (serverVersion : Info) (minMajor minMinor : Z) : Boot unit :=
  if version_too_low serverVersion minMajor minMinor then os_Exit 1 else mret tt.

Definition SetupWebhooksWithManager (openKruiseAvailable : bool) : Boot (option string) :=
  and_then "unable to setup webhooks for risingwave: "
    (call (CompleteWebhook (RisingWaveWebhooks openKruiseAvailable)))
  (and_then "unable to setup webhooks for risingwave scale view: "
    (call (CompleteWebhook RisingWaveScaleViewWebhooks))
  (and_then "unable to setup webhooks for risingwave user: "
    (call (CompleteWebhook RisingWaveUserWebhooks))
  (mret None))).

(** The [SetupWithManager] of the controllers. *)
Definition MetaPodRoleLabeler_SetupWithManager : Boot (option string) :=
  call (CompleteController MetaPodRoleLabeler).

Definition RisingWaveController_SetupWithManager (openKruiseAvailable forceUpdateEnabled : bool)
    (operatorVersion : string) : Boot (option string) :=
  and_then "unable to find gvk for RisingWave: " (call (GVKForObject "RisingWave"))
    (call (CompleteController (RisingWaveController openKruiseAvailable forceUpdateEnabled operatorVersion))).

Definition RisingWaveScaleViewController_SetupWithManager : Boot (option string) :=
  and_then "unable to find gvk for RisingWaveScaleView: " (call (GVKForObject "RisingWaveScaleView"))
    (call (CompleteController RisingWaveScaleViewController)).

Definition RisingWaveComputeSTSUpdateStrategy_SetupWithManager : Boot (option string) :=
  and_then "unable to find gvk for RisingWave: " (call (GVKForObject "RisingWave"))
    (Must (call (GVKForObject "StatefulSet"));;
     call (CompleteController RisingWaveComputeSTSUpdateStrategy)).

Definition RisingWaveUserController_SetupWithManager : Boot (option string) :=
  call NewConnectionPool;; call (CompleteController RisingWaveUserController).

Record flags := {
  configPath : string;
  metricsAddr : string;
  probeAddr : string;
  enableLeaderElection : bool;
  featureGates : string;
}.

Definition default_flags : flags :=
  {| configPath := "/config/config.yaml"; metricsAddr := ":8080"; probeAddr := ":8081";
     enableLeaderElection := false; featureGates := "" |}.

(** What [main] does once it has the features. *)
Definition boot (f : flags) (operatorVersion : string) (featureManager : FeatureManager) : Boot unit :=
  let openKruise := IsFeatureEnabled EnableOpenKruiseFeature featureManager in
  let forceUpdate := IsFeatureEnabled EnableForceUpdate featureManager in
  or_exit (call GetConfig);;
  or_exit (call (NewManager (metricsAddr f) (probeAddr f) (enableLeaderElection f)));;
  Must (call NewDiscoveryClient);;
  kubernetesVersion ← get_version;
  or_exit (call ServerVersion);;
  requireKubernetesVersion kubernetesVersion 1 21;;
  or_exit (SetupWebhooksWithManager openKruise);;
  or_exit MetaPodRoleLabeler_SetupWithManager;;
  or_exit (RisingWaveController_SetupWithManager openKruise forceUpdate operatorVersion);;
  or_exit RisingWaveScaleViewController_SetupWithManager;;
  or_exit RisingWaveComputeSTSUpdateStrategy_SetupWithManager;;
  or_exit RisingWaveUserController_SetupWithManager;;
  or_exit (call (AddHealthzCheck "healthz"));;
  or_exit (call (AddReadyzCheck "readyz"));;
  or_exit (call Start).

Definition main (f : flags) (operatorVersion : string) : Boot unit :=
  Must (call InitMetrics);;
  featureManager ← (match InitFeatureManager SupportedFeatureList (featureGates f) with
                    | Done m => mret m
                    | Panic msg => panics msg
                    end : Boot FeatureManager);
  boot f operatorVersion featureManager.

Definition program (f : flags) (operatorVersion : string) : Boot unit :=
  init;; main f operatorVersion.

(** ** The plan *)

(** A call that lets the program go on; the version of the server must be 1.21 or above. *)
Definition succeeds (t : list boot_call) (c : boot_call) : Prop :=
  match c with
  | NewConnectionPool => True
  | ServerVersion => call_error t c = None /\ version_too_low (server_version t) 1 21 = false
  | _ => call_error t c = None
  end.

Fixpoint all_succeed (t cs : list boot_call) : Prop :=
  match cs with
  | [] => True
  | c :: cs' => succeeds t c /\ all_succeed (t ++ [c]) cs'
  end.

(** [done] are the first calls of [plan], of which the last one failed. *)
Definition cut_short (t plan done : list boot_call) : Prop :=
  exists pre c post, plan = pre ++ c :: post /\ done = pre ++ [c] /\
    all_succeed t pre /\ ~ succeeds (t ++ pre) c.

(** From every trace the program makes the calls of the plan up to the first that fails; it ends
    as [ok] says exactly if none does. *)
Definition follows {A} (ok : ending A -> Prop) (plan : list boot_call) (m : Boot A) : Prop :=
  forall t, exists done, (m t).2 = t ++ done /\
    ((ok (m t).1 /\ done = plan /\ all_succeed t plan) \/
     (~ ok (m t).1 /\ cut_short t plan done)).

(** The calls, in their order. *)
Definition scheme_plan : list boot_call :=
  AddToScheme <$> ["client-go"; "risingwave.risingwavelabs.com/v1alpha1"; "apiextensions.k8s.io/v1";
                   "monitoring.coreos.com/v1"; "apps.kruise.io/v1alpha1"; "apps.kruise.io/v1beta1"].

Definition boot_plan (f : flags) (operatorVersion : string) (openKruise forceUpdate : bool)
  : list boot_call :=
  [GetConfig; NewManager (metricsAddr f) (probeAddr f) (enableLeaderElection f); NewDiscoveryClient;
   ServerVersion;
   CompleteWebhook (RisingWaveWebhooks openKruise); CompleteWebhook RisingWaveScaleViewWebhooks;
   CompleteWebhook RisingWaveUserWebhooks;
   CompleteController MetaPodRoleLabeler;
   GVKForObject "RisingWave";
   CompleteController (RisingWaveController openKruise forceUpdate operatorVersion);
   GVKForObject "RisingWaveScaleView"; CompleteController RisingWaveScaleViewController;
   GVKForObject "RisingWave"; GVKForObject "StatefulSet";
   CompleteController RisingWaveComputeSTSUpdateStrategy;
   NewConnectionPool; CompleteController RisingWaveUserController;
   AddHealthzCheck "healthz"; AddReadyzCheck "readyz"; Start].

(** ** Lemmas *)

Definition returned (e : ending unit) : Prop := e = Returned tt.
Definition without_error (e : ending (option string)) : Prop := e = Returned None.

Lemma all_succeed_app t cs1 cs2 :
  all_succeed t (cs1 ++ cs2) <-> all_succeed t cs1 /\ all_succeed (t ++ cs1) cs2.
Proof.
  revert t. induction cs1 as [|c cs1 IH]; intros t; cbn; [rewrite app_nil_r; tauto|].
  rewrite IH, <-app_assoc. cbn. tauto.
Qed.

Lemma cut_short_l t plan1 plan2 done : cut_short t plan1 done -> cut_short t (plan1 ++ plan2) done.
Proof.
  intros (pre & c & post & -> & -> & Hpre & Hc). exists pre, c, (post ++ plan2).
  by rewrite <-app_assoc.
Qed.

Lemma cut_short_r t plan1 plan2 done :
  all_succeed t plan1 -> cut_short (t ++ plan1) plan2 done -> cut_short t (plan1 ++ plan2) (plan1 ++ done).
Proof.
  intros H1 (pre & c & post & -> & -> & Hpre & Hc). exists (plan1 ++ pre), c, post.
  rewrite <-!app_assoc. rewrite all_succeed_app, app_assoc. by rewrite <-app_assoc in Hc |- *.
Qed.

(** A program that fails where its first part does, and goes on as the second one. *)
Lemma follows_bind {A C} (ok : ending A -> Prop) (ok' : ending C -> Prop) plan plan'
    (m : Boot A) (k : A -> Boot C) a0 :
  (forall e, ok e <-> e = Returned a0) ->
  (forall t, ~ ok (m t).1 -> ~ ok' ((m ≫= k) t).1 /\ ((m ≫= k) t).2 = (m t).2) ->
  follows ok plan m -> follows ok' plan' (k a0) -> follows ok' (plan ++ plan') (m ≫= k).
Proof.
  intros Hok Hstop Hm Hk t. destruct (Hm t) as (d & Ht & [(Ho & -> & Hall)|(Ho & Hcut)]).
  - destruct (Hk (t ++ plan)) as (d' & Ht' & Hend).
    assert ((m ≫= k) t = k a0 (t ++ plan)) as ->.
    { apply Hok in Ho. unfold mbind, Boot_bind. destruct (m t) as [e t1]. cbn in *. by subst. }
    exists (plan ++ d'). rewrite Ht', app_assoc. split; [done|]. rewrite all_succeed_app.
    destruct Hend as [(Ho' & -> & Hall')|(Ho' & Hcut')]; [by left|right]. split; [done|].
    by apply cut_short_r.
  - destruct (Hstop t Ho) as [Ho' Ht2]. exists d. rewrite Ht2. split; [done|]. right.
    split; [done|]. by apply cut_short_l.
Qed.

(** What follows a part that failed is not run. *)
Ltac stops_tac m :=
  intros t; unfold returned, without_error, mbind, Boot_bind;
  destruct (m t) as [[[]|status|msg] t1]; cbn; by intros H.

Lemma follows_seq plan plan' (m : Boot unit) (k : Boot unit) :
  follows returned plan m -> follows returned plan' k -> follows returned (plan ++ plan') (m;; k).
Proof.
  refine (follows_bind returned returned plan plan' m (fun _ => k) tt _ _); [done|].
  stops_tac m.
Qed.

Lemma follows_seq_err plan plan' (m : Boot unit) (k : Boot (option string)) :
  follows returned plan m -> follows without_error plan' k -> follows without_error (plan ++ plan') (m;; k).
Proof.
  refine (follows_bind returned without_error plan plan' m (fun _ => k) tt _ _); [done|].
  stops_tac m.
Qed.

Lemma follows_and_then plan plan' prefix (m k : Boot (option string)) :
  follows without_error plan m -> follows without_error plan' k ->
  follows without_error (plan ++ plan') (and_then prefix m k).
Proof.
  refine (follows_bind without_error without_error plan plan' m _ None _ _); [done|].
  stops_tac m.
Qed.

(** What makes of an error the end of the program. *)
Lemma follows_check plan (m : Boot (option string)) (k : string -> Boot unit) :
  (forall e t, ~ returned (k e t).1 /\ (k e t).2 = t) ->
  follows without_error plan m ->
  follows returned plan (err ← m; match err with Some e => k e | None => mret tt end).
Proof.
  intros Hk Hm. rewrite <-(app_nil_r plan).
  refine (follows_bind without_error returned plan [] m _ None _ _ Hm _); [done| |].
  - intros t. unfold without_error, mbind, Boot_bind.
    destruct (m t) as [[[e|]|status|msg] t1]; cbn; [intros _; apply Hk|by intros H..].
  - intros t. exists []. rewrite app_nil_r. split; [done|]. by left.
Qed.

Lemma follows_or_exit plan (m : Boot (option string)) :
  follows without_error plan m -> follows returned plan (or_exit m).
Proof. by apply follows_check. Qed.

Lemma follows_Must plan (m : Boot (option string)) :
  follows without_error plan m -> follows returned plan (Must m).
Proof. by apply follows_check. Qed.

(** A call that has no other condition than its error. *)
Lemma follows_call c :
  (forall t, succeeds t c <-> call_error t c = None) -> follows without_error [c] (call c).
Proof.
  intros Hc t. exists [c]. split; [done|]. cbn. unfold without_error.
  destruct (call_error t c) as [e|] eqn:He; [right|left].
  - split; [done|]. exists [], c, []. rewrite app_nil_r, Hc, He. by repeat split.
  - rewrite Hc. by repeat split.
Qed.

Lemma follows_none : follows without_error [] (mret None).
Proof. intros t. exists []. rewrite app_nil_r. split; [done|]. by left. Qed.

Lemma follows_pool plan (k : Boot (option string)) :
  follows without_error plan k -> follows without_error (NewConnectionPool :: plan) (call NewConnectionPool;; k).
Proof.
  intros Hk t. destruct (Hk (t ++ [NewConnectionPool])) as (d & Ht & Hend).
  change ((call NewConnectionPool;; k) t) with (k (t ++ [NewConnectionPool])).
  exists (NewConnectionPool :: d). rewrite Ht, <-app_assoc. split; [done|]. cbn [all_succeed].
  destruct Hend as [(Ho & -> & Hall)|(Ho & Hcut)]; [by left|right].
  split; [done|]. by apply (cut_short_r t [NewConnectionPool]).
Qed.

(** The version is asked for and checked. *)
Lemma follows_version plan (k : Boot unit) :
  follows returned plan k ->
  follows returned (ServerVersion :: plan)
    (v ← get_version; or_exit (call ServerVersion);; requireKubernetesVersion v 1 21;; k).
Proof.
  intros Hk t. unfold mbind, Boot_bind at 1 2. cbn. unfold or_exit, mbind, Boot_bind, call. cbn.
  destruct (call_error t ServerVersion) as [e|] eqn:He.
  { exists [ServerVersion]. split; [done|]. right. split; [done|]. exists [], ServerVersion, plan.
    rewrite app_nil_r. cbn. rewrite He. by repeat split; intros [? ?]. }
  unfold requireKubernetesVersion. destruct (version_too_low (server_version t) 1 21) eqn:Hv; cbn.
  { exists [ServerVersion]. split; [done|]. right. split; [done|]. exists [], ServerVersion, plan.
    rewrite app_nil_r. cbn. rewrite Hv. by repeat split; intros [? ?]. }
  destruct (Hk (t ++ [ServerVersion])) as (d & Ht & Hend).
  exists (ServerVersion :: d). rewrite Ht, <-app_assoc. split; [done|].
  destruct Hend as [(Ho & -> & Hall)|(Ho & Hcut)]; [by left|right].
  split; [done|]. apply (cut_short_r t [ServerVersion]); [|done]. by cbn.
Qed.

Lemma follows_plan {A} (ok : ending A -> Prop) plan plan' (m : Boot A) :
  follows ok plan m -> plan = plan' -> follows ok plan' m.
Proof. by intros ? <-. Qed.

(** Goes through a program; what the plan is comes out of it. *)
Ltac follows_tac :=
  repeat match goal with
  | |- follows _ _ (_ ← get_version; _) => apply follows_version
  | |- follows _ _ (call NewConnectionPool;; _) => apply follows_pool
  | |- follows returned _ (_;; _) => eapply follows_seq
  | |- follows without_error _ (_;; _) => eapply follows_seq_err
  | |- follows _ _ (or_exit _) => apply follows_or_exit
  | |- follows _ _ (Must _) => apply follows_Must
  | |- follows _ _ (and_then _ _ _) => eapply follows_and_then
  | |- follows _ _ (call _) => by apply follows_call
  | |- follows _ _ (mret None) => apply follows_none
  end.

Lemma follows_init : follows returned scheme_plan init.
Proof. eapply follows_plan; [unfold init; follows_tac|reflexivity]. Qed.

Lemma follows_boot f operatorVersion m :
  follows returned
    (boot_plan f operatorVersion (IsFeatureEnabled EnableOpenKruiseFeature m) (IsFeatureEnabled EnableForceUpdate m))
    (boot f operatorVersion m).
Proof.
  eapply follows_plan; [unfold boot, SetupWebhooksWithManager, MetaPodRoleLabeler_SetupWithManager,
    RisingWaveController_SetupWithManager, RisingWaveScaleViewController_SetupWithManager,
    RisingWaveComputeSTSUpdateStrategy_SetupWithManager, RisingWaveUserController_SetupWithManager; follows_tac|reflexivity].
Qed.

(** The statuses the program exits with. *)
Definition exits_with_1 {A} (m : Boot A) : Prop := forall t status, (m t).1 = Exited status -> status = 1%Z.

Lemma exits_bind {A C} (m : Boot A) (k : A -> Boot C) :
  exits_with_1 m -> (forall a, exits_with_1 (k a)) -> exits_with_1 (m ≫= k).
Proof.
  intros Hm Hk t status. unfold mbind, Boot_bind. destruct (m t) as [[a|st|msg] t1] eqn:Ht; [apply Hk|..|done].
  cbn. intros [= <-]. apply (Hm t). by rewrite Ht.
Qed.

Lemma exits_program f operatorVersion : exits_with_1 (program f operatorVersion).
Proof.
  unfold program, main, init, boot, SetupWebhooksWithManager, MetaPodRoleLabeler_SetupWithManager,
    RisingWaveController_SetupWithManager, RisingWaveScaleViewController_SetupWithManager,
    RisingWaveComputeSTSUpdateStrategy_SetupWithManager, RisingWaveUserController_SetupWithManager, and_then,
    requireKubernetesVersion, or_exit, Must.
  repeat match goal with
  | |- exits_with_1 (_ ≫= _) => apply exits_bind; [|intros ?]
  | |- exits_with_1 (match ?x with _ => _ end) => destruct x
  end.
  all: intros t status; cbn; congruence.
Qed.

(** ** The version of the server *)

Fixpoint plusses (n : nat) : string := match n with O => "" | S n => String "+" (plusses n) end.

Lemma TrimRight_plusses s n :
  (s = "" \/ exists t c, s = t +:+ str1 c /\ c <> "+"%char) -> TrimRight (s +:+ plusses n) "+" = s.
Proof.
  assert (forall_chars (fun c => contains_char c "+") (plusses n) = true) as Hp
    by (induction n; [done|exact IHn]).
  unfold TrimRight. intros [->|(t & c & -> & Hc)].
  - cbn. induction n as [|n IH]; [done|]. cbn in Hp |- *. by rewrite IH.
  - rewrite <-app_assoc_str. apply TrimRightFunc_last; [|done]. cbn.
    by rewrite bool_decide_false.
Qed.

Lemma pretty_N_go_app x s : exists t, pretty.pretty_N_go x s = t +:+ s.
Proof.
  revert s. induction (N.lt_wf_0 x) as [x _ IH]; intros s.
  destruct (decide (x = 0)%N) as [->|Hne]; [exists ""; by rewrite pretty.pretty_N_go_0|].
  rewrite pretty.pretty_N_go_step by lia.
  destruct (IH (x `div` 10)%N ltac:(apply N.div_lt; lia)
    (String (pretty.pretty_N_char (x `mod` 10)) s)) as [t ->].
  exists (t +:+ str1 (pretty.pretty_N_char (x `mod` 10))). by rewrite <-app_assoc_str.
Qed.

Lemma digit_not_plus c : is_digit c = true -> c <> "+"%char.
Proof. by intros Hc ->. Qed.

(** A printed number ends with a digit. *)
Lemma FormatInt_end z : exists t c, FormatInt z = t +:+ str1 c /\ c <> "+"%char.
Proof.
  assert (forall p, exists t c, pretty.pretty (Npos p) = t +:+ str1 c /\ c <> "+"%char) as Hpos.
  { intros p. unfold pretty.pretty, pretty.pretty_N. rewrite decide_False by done.
    rewrite pretty.pretty_N_go_step by lia.
    destruct (pretty_N_go_app (Npos p `div` 10) (str1 (pretty.pretty_N_char (Npos p `mod` 10)))) as [t Ht].
    exists t, (pretty.pretty_N_char (Npos p `mod` 10)). split; [exact Ht|]. apply digit_not_plus.
    apply pretty_N_char_digit. by apply N.mod_lt. }
  destruct z as [|p|p]; [by exists "", "0"%char|apply Hpos|].
  destruct (Hpos p) as (t & c & Ht & Hc). exists (String "-" t), c. split; [|done].
  change (FormatInt (Zneg p)) with (String "-" (pretty.pretty (Npos p))). by rewrite Ht.
Qed.

(** The check of the server's version compares the numbers: for a server that reports its
    version in digits, the minor version followed by any number of plus signs (as the managed
    Kubernetes services report it), the operator goes on exactly if the version is the required
    one or above, in the lexicographic order. *)
Lemma version_too_low_spec major minor n minMajor minMinor :
  in_int64 major -> in_int64 minor ->
  version_too_low {| Major := FormatInt major; Minor := FormatInt minor +:+ plusses n |} minMajor minMinor = false <->
  (minMajor < major \/ minMajor = major /\ minMinor <= minor)%Z.
Proof.
  intros Hmajor Hminor. unfold version_too_low. cbn [Major Minor].
  rewrite TrimRight_plusses by (right; apply FormatInt_end).
  rewrite !ParseInt64_FormatInt by done. lia.
Qed.

(** ** The start *)

Lemma stopped_early msg :
  ((init;; Must (call InitMetrics);; (panics msg : Boot unit)) []).1 <> Returned tt /\
  ((init;; Must (call InitMetrics);; (panics msg : Boot unit)) []).2 `prefix_of` scheme_plan ++ [InitMetrics].
Proof.
  assert (follows returned (scheme_plan ++ [InitMetrics]) (init;; Must (call InitMetrics))) as H.
  { apply follows_seq; [apply follows_init|follows_tac]. }
  destruct (H []) as (d & Hd & Hend). unfold mbind, Boot_bind in *.
  destruct (init []) as [[[]|status|msg'] t1]; [destruct (Must (call InitMetrics) t1) as [[[]|status|msg'] t2]|..];
    cbn in *; (split; [done|]); subst.
  all: destruct Hend as [(_ & -> & _)|(_ & pre & c & post & -> & -> & _)]; [done|].
  all: exists post; by rewrite <-app_assoc.
Qed.

(** C39: The operator serves only once everything is in order. The program calls the controller
    runtime in a fixed order, from the schemes to the start of the manager, and the first call
    that fails, a server below 1.21 included, ends it: by a panic or with the status 1. So the
    manager is started only if every call before succeeded, and then the webhooks and the
    controller of the clusters work with the same switch of OpenKruise, that of the flag;
    feature gates that can not be read end the program before it looks for a cluster. *)
Theorem program_starts f operatorVersion :
  let '(e, t) := program f operatorVersion [] in
  (forall status, e = Exited status -> status = 1%Z) /\
  match InitFeatureManager SupportedFeatureList (featureGates f) with
  | Done m =>
      let plan := scheme_plan ++ InitMetrics ::
        boot_plan f operatorVersion (IsFeatureEnabled EnableOpenKruiseFeature m)
          (IsFeatureEnabled EnableForceUpdate m) in
      (e = Returned tt /\ t = plan /\ all_succeed [] plan) \/
      (e <> Returned tt /\ cut_short [] plan t)
  | Panic _ => e <> Returned tt /\ t `prefix_of` scheme_plan ++ [InitMetrics]
  end.
Proof.
  pose proof (exits_program f operatorVersion []) as Hex.
  destruct (InitFeatureManager SupportedFeatureList (featureGates f)) as [m|msg] eqn:Hm.
  - assert (program f operatorVersion [] = (init;; Must (call InitMetrics);; boot f operatorVersion m) [])
      as Heq by (unfold program, main; by rewrite Hm).
    assert (follows returned (scheme_plan ++ [InitMetrics] ++
      boot_plan f operatorVersion (IsFeatureEnabled EnableOpenKruiseFeature m)
        (IsFeatureEnabled EnableForceUpdate m))
      (init;; Must (call InitMetrics);; boot f operatorVersion m)) as H.
    { apply follows_seq; [apply follows_init|]. apply follows_seq; [follows_tac|apply follows_boot]. }
    destruct (H []) as (d & Hd & Hend). rewrite <-Heq in Hd, Hend.
    destruct (program f operatorVersion []) as [e t]. cbn [fst snd] in *. subst t. by split.
  - assert (program f operatorVersion [] = (init;; Must (call InitMetrics);; panics msg) [])
      as Heq by (unfold program, main; by rewrite Hm).
    destruct (stopped_early msg) as [He Ht]. rewrite <-Heq in He, Ht.
    destruct (program f operatorVersion []) as [e t]. by split.
Qed.
End boot.

(** ** Examples *)

(** A runtime whose calls succeed, with a server of the given version. *)
Definition working_runtime (version : Info) : Runtime :=
  {| call_error := fun _ _ => None; server_version := fun _ => version |}.

Example starts_on_managed_server :
  (program (R := working_runtime {| Major := "1"; Minor := "27+" |}) default_flags "0.9.0" []).1 = Returned tt.
Proof. vm_compute. reflexivity. Qed.

Example refuses_old_server :
  let '(e, t) := program (R := working_runtime {| Major := "1"; Minor := "20+" |}) default_flags "0.9.0" [] in
  e = Exited 1 /\ last t = Some ServerVersion.
Proof. vm_compute. by split. Qed.

(** The gates are read before the configuration of the cluster. *)
Example bad_gates_stop_the_program :
  let '(e, t) := program (R := working_runtime {| Major := "1"; Minor := "27" |})
    {| configPath := ""; metricsAddr := ":8080"; probeAddr := ":8081"; enableLeaderElection := false;
       featureGates := "EnableOpenKruise" |} "0.9.0" [] in
  e = Panicked "Invalid value given to feature-gates argument" /\ last t = Some InitMetrics.
Proof. vm_compute. by split. Qed.
