(* ===== verification/ScaleLock.v ===== *)
(** * pkg/object/scale_view_lock_manager.go: the locks of a RisingWave

    A scale view takes the groups it scales out of the hands of the user by a lock
    record in the RisingWave's status. The file models the lock manager's operations
    on that record list and proves the invariant they maintain: two locks never hold
    the same group of the same component. *)

From S2P Require Import Prelude GoStrings ApiTypes SplitReplicas.

(** ** Definitions *)

Definition lock_matches (sv : RisingWaveScaleView) (l : RisingWaveScaleViewLock) : bool :=
  bool_decide (lk_Name l = sv_Name sv) && bool_decide (lk_UID l = sv_UID sv).

Definition locks (rw : RisingWave) : list RisingWaveScaleViewLock :=
  st_ScaleViews (rw_Status rw).

Definition set_locks (l : list RisingWaveScaleViewLock) (rw : RisingWave) : RisingWave :=
  set_rw_Status (set_st_ScaleViews l (rw_Status rw)) rw.

Definition getScaleViewLockIndex (rw : RisingWave) (sv : RisingWaveScaleView)
  : option (nat * RisingWaveScaleViewLock) := find_index (lock_matches sv) (locks rw).

Definition GetScaleViewLock (rw : RisingWave) (sv : RisingWaveScaleView)
  : option RisingWaveScaleViewLock := snd <$> getScaleViewLockIndex rw sv.

Definition IsScaleViewLocked (rw : RisingWave) (sv : RisingWaveScaleView) : bool :=
  match GetScaleViewLock rw sv with Some _ => true | None => false end.

Definition splitReplicasIntoGroups (sv : RisingWaveScaleView) : outcome (gmap string Z) :=
  SplitReplicas sv.

(** The name of the first group of the policy that a lock already holds. *)
Definition conflicting_group (sv : RisingWaveScaleView) (l : RisingWaveScaleViewLock)
  : option string :=
  let lockedGroups := gl_Name <$> lk_GroupLocks l in
  snd <$> find_index (fun g => bool_decide (g ∈ lockedGroups)) (sv_Groups sv).

(** The loop over the existing locks: the first error found. *)
Fixpoint grab_error (sv : RisingWaveScaleView) (ls : list RisingWaveScaleViewLock)
  : option string :=
  match ls with
  | [] => None
  | s :: ls' =>
      if bool_decide (lk_Name s = sv_Name sv) && negb (bool_decide (lk_UID s = sv_UID sv))
      then Some "scale view found but uid mismatch"%string
      else if bool_decide (lk_Name s = sv_Name sv) && bool_decide (lk_UID s = sv_UID sv)
      then Some "already grabbed"%string
      else if bool_decide (lk_Component s = tr_Component (sv_TargetRef sv)) then
        match conflicting_group sv s with
        | Some g => Some ("lock conflict on group " +:+ g +:+ ", already returnErr by "
                           +:+ lk_Name s)
        | None => grab_error sv ls'
        end
      else grab_error sv ls'
  end.

Definition group_locks (sv : RisingWaveScaleView) (groupReplicas : gmap string Z)
  : list RisingWaveScaleViewLockGroupLock :=
  (fun p => {| gl_Name := sp_Group p; gl_Replicas := default 0%Z (groupReplicas !! sp_Group p) |})
    <$> sv_ScalePolicy sv.

Definition new_lock (sv : RisingWaveScaleView) (groupReplicas : gmap string Z)
  : RisingWaveScaleViewLock :=
  {| lk_Name := sv_Name sv; lk_UID := sv_UID sv;
     lk_Component := tr_Component (sv_TargetRef sv); lk_Generation := sv_Generation sv;
     lk_GroupLocks := group_locks sv groupReplicas |}.

(** The error (if any) and the RisingWave afterwards. *)
Definition GrabScaleViewLockFor (rw : RisingWave) (sv : RisingWaveScaleView)
  : outcome (option string * RisingWave) :=
  groupReplicas ← splitReplicasIntoGroups sv;
  mret match grab_error sv (locks rw) with
       | Some e => (Some e, rw)
       | None => (None, set_locks (locks rw ++ [new_lock sv groupReplicas]) rw)
       end.

(** [*lock = ...] through the pointer into the slice: the lock keeps its name, uid
    and component. *)
Definition update_lock (sv : RisingWaveScaleView) (groupReplicas : gmap string Z)
    (l : RisingWaveScaleViewLock) : RisingWaveScaleViewLock :=
  {| lk_Name := lk_Name l; lk_UID := lk_UID l; lk_Component := lk_Component l;
     lk_Generation := sv_Generation sv; lk_GroupLocks := group_locks sv groupReplicas |}.

(** The result [(updated, err)] and the RisingWave afterwards. *)
Definition GrabOrUpdateScaleViewLockFor (rw : RisingWave) (sv : RisingWaveScaleView)
  : outcome ((bool * option string) * RisingWave) :=
  match getScaleViewLockIndex rw sv with
  | None =>
      r ← GrabScaleViewLockFor rw sv;
      mret match r.1 with
           | Some e => ((false, Some e), r.2)
           | None => ((true, None), r.2)
           end
  | Some (i, lock) =>
      if decide (lk_Generation lock = sv_Generation sv) then mret ((false, None), rw)
      else
        groupReplicas ← splitReplicasIntoGroups sv;
        mret ((true, None), set_locks (<[i := update_lock sv groupReplicas lock]> (locks rw)) rw)
  end.

Definition ReleaseLockFor (rw : RisingWave) (sv : RisingWaveScaleView) : bool * RisingWave :=
  match getScaleViewLockIndex rw sv with
  | Some (i, _) => (true, set_locks (remove_at i (locks rw)) rw)
  | None => (false, rw)
  end.

(** ** The invariant *)

Definition lock_groups (l : RisingWaveScaleViewLock) : list string := gl_Name <$> lk_GroupLocks l.

Definition compatible (a b : RisingWaveScaleViewLock) : Prop :=
  lk_Name a <> lk_Name b /\
  (lk_Component a = lk_Component b -> lock_groups a ## lock_groups b).

Definition locks_ok (ls : list RisingWaveScaleViewLock) : Prop :=
  forall i j a b, ls !! i = Some a -> ls !! j = Some b -> i <> j -> compatible a b.

(** The transitions of the lock list: the operations above, with the one guarantee
    the validating webhook gives of an update (the groups of a scale view and its
    target do not change while it holds a lock). *)
Inductive lock_step : RisingWave -> RisingWave -> Prop :=
| step_grab rw rw' sv :
    GrabScaleViewLockFor rw sv = Done (None, rw') -> lock_step rw rw'
| step_grab_or_update rw rw' sv r :
    (forall l, GetScaleViewLock rw sv = Some l -> lock_groups l ≡ₚ sv_Groups sv) ->
    GrabOrUpdateScaleViewLockFor rw sv = Done (r, rw') -> lock_step rw rw'
| step_release rw sv : lock_step rw (ReleaseLockFor rw sv).2.

Inductive lock_reachable : RisingWave -> Prop :=
| reach_init rw : locks rw = [] -> lock_reachable rw
| reach_step rw rw' : lock_reachable rw -> lock_step rw rw' -> lock_reachable rw'.

(** ** Lemmas *)

Lemma locks_set_locks l rw : locks (set_locks l rw) = l.
Proof. done. Qed.

Lemma lock_matches_spec sv l :
  lock_matches sv l = true <-> lk_Name l = sv_Name sv /\ lk_UID l = sv_UID sv.
Proof. unfold lock_matches. by rewrite andb_true_iff, !bool_decide_eq_true. Qed.

Lemma getScaleViewLockIndex_Some rw sv i l :
  getScaleViewLockIndex rw sv = Some (i, l) ->
  locks rw !! i = Some l /\ lk_Name l = sv_Name sv /\ lk_UID l = sv_UID sv.
Proof. intros (H & Hm & _)%find_index_Some. by rewrite lock_matches_spec in Hm. Qed.

Lemma lock_groups_of_view sv m : gl_Name <$> group_locks sv m = sv_Groups sv.
Proof. unfold group_locks, sv_Groups. by rewrite <-list_fmap_compose. Qed.

Lemma conflicting_group_None sv l :
  conflicting_group sv l = None <-> sv_Groups sv ## lock_groups l.
Proof.
  unfold conflicting_group. rewrite fmap_None, find_index_None, Forall_forall.
  unfold lock_groups. split.
  - intros H g Hg Hl. specialize (H g Hg). by case_bool.
  - intros H g Hg. case_bool; [|done]. by destruct (H g).
Qed.

Lemma grab_error_None sv ls :
  grab_error sv ls = None <->
  forall l, l ∈ ls -> lk_Name l <> sv_Name sv /\
    (lk_Component l = tr_Component (sv_TargetRef sv) -> sv_Groups sv ## lock_groups l).
Proof.
  induction ls as [|l ls IH]; cbn.
  { split; [|done]. intros _ l Hl. by apply not_elem_of_nil in Hl. }
  setoid_rewrite elem_of_cons. destruct (bool_decide_reflect (lk_Name l = sv_Name sv)); cbn.
  { split; [by destruct (bool_decide _)|]. intros H. by destruct (H l (or_introl eq_refl)). }
  destruct (bool_decide_reflect (lk_Component l = tr_Component (sv_TargetRef sv))) as [Hl|Hl].
  - destruct (conflicting_group sv l) eqn:Hc.
    + split; [done|]. intros H. destruct (H l (or_introl eq_refl)) as [_ Hd].
      assert (conflicting_group sv l = None) by (apply conflicting_group_None; auto). congruence.
    + apply conflicting_group_None in Hc. rewrite IH. split; [|auto].
      intros H k [->|Hk]; auto.
  - rewrite IH. split; [|auto]. intros H k [->|Hk]; [done|auto].
Qed.

Lemma compatible_sym a b : compatible a b -> compatible b a.
Proof. intros [H1 H2]. split; [done|]. intros Hc g Hb Ha. by eapply H2. Qed.

Lemma locks_ok_snoc ls l :
  locks_ok ls -> (forall k, k ∈ ls -> compatible k l) -> locks_ok (ls ++ [l]).
Proof.
  intros Hok Hl i j a b Ha Hb Hij.
  apply lookup_snoc_Some in Ha as [[Hi Ha]|[-> <-]], Hb as [[Hj Hb]|[-> <-]].
  - by eapply Hok.
  - eapply Hl, list_elem_of_lookup_2, Ha.
  - eapply compatible_sym, Hl, list_elem_of_lookup_2, Hb.
  - done.
Qed.

Lemma locks_ok_insert ls i l l' :
  locks_ok ls -> ls !! i = Some l -> lk_Name l' = lk_Name l ->
  lk_Component l' = lk_Component l -> lock_groups l' ≡ₚ lock_groups l ->
  locks_ok (<[i := l']> ls).
Proof.
  intros Hok Hi Hn Hc Hg.
  assert (forall k, compatible l k -> compatible l' k) as Hl.
  { intros k [H1 H2]. split; [by rewrite Hn|]. rewrite Hc. intros Hk g Hg'.
    apply H2; [done|by rewrite <-Hg]. }
  intros j k a b Ha Hb Hjk.
  apply list_lookup_insert_Some in Ha as [(-> & <- & _)|[Hij Ha]],
    Hb as [(-> & <- & _)|[Hik Hb]].
  - done.
  - eapply Hl, Hok; eauto.
  - eapply compatible_sym, Hl, Hok; eauto.
  - by eapply Hok.
Qed.

Lemma locks_ok_remove ls i : locks_ok ls -> i < length ls -> locks_ok (remove_at i ls).
Proof.
  intros Hok Hi j k a b Ha Hb Hjk.
  apply lookup_remove_at in Ha, Hb; [|done..]. eapply Hok; [done..|].
  repeat case_decide; lia.
Qed.

Lemma GrabScaleViewLockFor_inv rw sv r rw' :
  GrabScaleViewLockFor rw sv = Done (r, rw') ->
  exists m, SplitReplicas sv = Done m /\ r = grab_error sv (locks rw) /\
    rw' = match r with
          | Some _ => rw
          | None => set_locks (locks rw ++ [new_lock sv m]) rw
          end.
Proof.
  unfold GrabScaleViewLockFor, splitReplicasIntoGroups.
  run_monad. destruct (SplitReplicas sv) as [m|]; [|done]. intros H. exists m.
  destruct (grab_error sv (locks rw)); by simplify_eq.
Qed.

Lemma new_lock_compatible sv m l :
  lk_Name l <> sv_Name sv ->
  (lk_Component l = tr_Component (sv_TargetRef sv) -> sv_Groups sv ## lock_groups l) ->
  compatible l (new_lock sv m).
Proof.
  intros Hn Hg. split; [done|]. cbn. intros Hc g Hl Hs. unfold lock_groups in Hs. cbn in Hs.
  rewrite lock_groups_of_view in Hs. by eapply Hg.
Qed.

Lemma grab_locks_ok rw sv r rw' :
  locks_ok (locks rw) -> GrabScaleViewLockFor rw sv = Done (r, rw') -> locks_ok (locks rw').
Proof.
  intros Hok (m & _ & -> & ->)%GrabScaleViewLockFor_inv.
  destruct (grab_error sv (locks rw)) eqn:He; [done|].
  rewrite locks_set_locks. apply locks_ok_snoc; [done|].
  intros k Hk. rewrite grab_error_None in He. apply He in Hk as [? ?].
  by apply new_lock_compatible.
Qed.

Lemma update_locks_ok rw sv r rw' :
  (forall l, GetScaleViewLock rw sv = Some l -> lock_groups l ≡ₚ sv_Groups sv) ->
  locks_ok (locks rw) -> GrabOrUpdateScaleViewLockFor rw sv = Done (r, rw') ->
  locks_ok (locks rw').
Proof.
  unfold GrabOrUpdateScaleViewLockFor, GetScaleViewLock. intros Hgr Hok H. run_monad.
  destruct (getScaleViewLockIndex rw sv) as [[i l]|] eqn:Hi.
  - specialize (Hgr l eq_refl). apply getScaleViewLockIndex_Some in Hi as (Hi & _ & _).
    case_decide; [by simplify_eq/=|].
    unfold splitReplicasIntoGroups in H. destruct (SplitReplicas sv) as [m|]; simplify_eq/=. rewrite locks_set_locks. eapply locks_ok_insert; [done..|].
    rewrite Hgr. unfold lock_groups. cbn. by rewrite lock_groups_of_view.
  - destruct (GrabScaleViewLockFor rw sv) as [[e rw2]|] eqn:Hg; [|discriminate H].
    apply grab_locks_ok in Hg; [|done]. cbn in H. by destruct e; simplify_eq/=.
Qed.

Lemma release_locks_ok rw sv :
  locks_ok (locks rw) -> locks_ok (locks (ReleaseLockFor rw sv).2).
Proof.
  unfold ReleaseLockFor. destruct (getScaleViewLockIndex rw sv) as [[i l]|] eqn:Hi; [|done].
  apply getScaleViewLockIndex_Some in Hi as (Hi & _). cbn. intros Hok.
  apply locks_ok_remove; [done|]. by apply lookup_lt_Some in Hi.
Qed.

Lemma GetScaleViewLock_Some rw sv l :
  locks_ok (locks rw) ->
  GetScaleViewLock rw sv = Some l <->
  l ∈ locks rw /\ lk_Name l = sv_Name sv /\ lk_UID l = sv_UID sv.
Proof.
  intros Hok. unfold GetScaleViewLock. split.
  - intros H. apply fmap_Some in H as ([i k] & H & ->).
    apply getScaleViewLockIndex_Some in H as (H & ? & ?).
    split; [by eapply list_elem_of_lookup_2|done].
  - intros (Hl & Hn & Hu). destruct (getScaleViewLockIndex rw sv) as [[i k]|] eqn:Hi; cbn.
    + apply getScaleViewLockIndex_Some in Hi as (Hi & Hkn & Hku).
      apply list_elem_of_lookup in Hl as [j Hj].
      destruct (decide (i = j)) as [->|Hij]; [congruence|].
      destruct (Hok i j k l Hi Hj Hij) as [Hne _]. congruence.
    + apply find_index_None in Hi. rewrite Forall_forall in Hi. apply Hi in Hl.
      apply not_true_iff_false in Hl. destruct Hl. by apply lock_matches_spec.
Qed.

Lemma GetScaleViewLock_None rw sv :
  GetScaleViewLock rw sv = None <->
  forall l, l ∈ locks rw -> ~ (lk_Name l = sv_Name sv /\ lk_UID l = sv_UID sv).
Proof.
  unfold GetScaleViewLock, getScaleViewLockIndex.
  rewrite fmap_None, find_index_None, Forall_forall.
  split; intros H l Hl; specialize (H l Hl); rewrite <-lock_matches_spec, ?not_true_iff_false in *;
    done.
Qed.

Lemma lock_reachable_locks_ok rw : lock_reachable rw -> locks_ok (locks rw).
Proof.
  induction 1 as [rw Hi|rw rw' Hr IH Hs].
  - rewrite Hi. intros i j a b Ha. done.
  - destruct Hs; eauto using grab_locks_ok, update_locks_ok, release_locks_ok.
Qed.

(** The lock list is all that changes. *)
Lemma GrabOrUpdate_frame rw sv r rw' :
  GrabOrUpdateScaleViewLockFor rw sv = Done (r, rw') ->
  rw_Meta rw' = rw_Meta rw /\ rw_Spec rw' = rw_Spec rw.
Proof.
  unfold GrabOrUpdateScaleViewLockFor, splitReplicasIntoGroups. run_monad.
  destruct (getScaleViewLockIndex rw sv) as [[i k]|].
  - case_decide; [by intros [= _ <-]|]. destruct (SplitReplicas sv); [|done]. by intros [= _ <-].
  - destruct (GrabScaleViewLockFor rw sv) as [[er rw2]|] eqn:Hg; [|done].
    apply GrabScaleViewLockFor_inv in Hg as (m & _ & _ & ->).
    destruct er; by intros [= _ <-].
Qed.

(** The lock that was written. *)
Lemma GrabOrUpdate_lock rw sv rw' :
  GrabOrUpdateScaleViewLockFor rw sv = Done ((true, None), rw') ->
  exists m l, SplitReplicas sv = Done m /\ l ∈ locks rw' /\ lk_Name l = sv_Name sv /\
    lk_UID l = sv_UID sv /\ lk_Generation l = sv_Generation sv /\
    lk_GroupLocks l = group_locks sv m.
Proof.
  unfold GrabOrUpdateScaleViewLockFor. run_monad.
  destruct (getScaleViewLockIndex rw sv) as [[i k]|] eqn:Hi; intros H.
  - case_decide; simplify_eq. unfold splitReplicasIntoGroups in H.
    destruct (SplitReplicas sv) as [m|] eqn:Hm; simplify_eq.
    apply getScaleViewLockIndex_Some in Hi as (Hi & Hn & Hu).
    exists m, (update_lock sv m k). rewrite locks_set_locks. repeat split; try done.
    apply list_elem_of_lookup. exists i. apply list_lookup_insert_eq.
    by eapply lookup_lt_Some.
  - destruct (GrabScaleViewLockFor rw sv) as [[er rw2]|] eqn:Hg; [|done].
    apply GrabScaleViewLockFor_inv in Hg as (m & Hm & Her & ->).
    cbn [fst snd] in H. destruct er; simplify_eq.
    exists m, (new_lock sv m). rewrite locks_set_locks. repeat split; try done.
    apply elem_of_app. right. by left.
Qed.

#[export] Hint Resolve lock_reachable_locks_ok release_locks_ok : go.

(** ** Properties *)

Lemma locks_ok_cons x ls : locks_ok (x :: ls) <-> Forall (compatible x) ls /\ locks_ok ls.
Proof.
  unfold locks_ok. split.
  - intros H. split.
    + apply Forall_forall. intros y Hy. apply list_elem_of_lookup in Hy as [i Hi].
      by apply (H 0 (S i)).
    + intros i j a b Hi Hj Hij. apply (H (S i) (S j)); [done..|congruence].
  - intros [Hx Hls] [|i] [|j] a b Ha Hb Hij; cbn in *; simplify_eq; [..|by eapply Hls; eauto].
    + rewrite Forall_forall in Hx. eapply Hx, list_elem_of_lookup_2, Hb.
    + rewrite Forall_forall in Hx. apply compatible_sym. eapply Hx, list_elem_of_lookup_2, Ha.
Qed.

(** Removing locks keeps the others compatible. *)
Lemma locks_ok_sublist l l' : l' `sublist_of` l -> locks_ok l -> locks_ok l'.
Proof.
  induction 1 as [|x l' l H IH|x l' l H IH]; [done| |]; rewrite !locks_ok_cons.
  - intros [Hx Hl]. split; [|auto]. rewrite Forall_forall in Hx |- *.
    intros y Hy. by eapply Hx, elem_of_sublist.
  - intros [_ Hl]. auto.
Qed.

(** Locks that are compatible differ in their names and in their groups. *)
Lemma locks_ok_exclusive ls a b g :
  locks_ok ls -> a ∈ ls -> b ∈ ls ->
  lk_Name a = lk_Name b \/
  (lk_Component a = lk_Component b /\ g ∈ lock_groups a /\ g ∈ lock_groups b) -> a = b.
Proof.
  intros Hok Ha Hb H.
  apply list_elem_of_lookup in Ha as [i Ha], Hb as [j Hb].
  destruct (decide (i = j)) as [->|Hij]; [congruence|].
  destruct (Hok i j a b Ha Hb Hij) as [Hn Hg]. destruct H as [H|(Hc & Hga & Hgb)]; [done|].
  by destruct (Hg Hc g).
Qed.

(** In every RisingWave reached by grabbing, updating and releasing locks, a
    group of a component is held by at most one lock, and no two locks have the same
    scale view name. *)
Theorem locks_exclusive rw a b g :
  lock_reachable rw -> a ∈ locks rw -> b ∈ locks rw ->
  lk_Name a = lk_Name b \/
  (lk_Component a = lk_Component b /\ g ∈ lock_groups a /\ g ∈ lock_groups b) -> a = b.
Proof. intros Hok%lock_reachable_locks_ok. by apply locks_ok_exclusive. Qed.

(** Grabbing succeeds exactly when no lock has the scale view's name and no
    lock of its component holds one of its groups; it then appends a lock with the
    split replicas, and on an error changes nothing. *)
Theorem GrabScaleViewLockFor_spec rw sv m r rw' :
  SplitReplicas sv = Done m -> GrabScaleViewLockFor rw sv = Done (r, rw') ->
  (r = None <-> forall l, l ∈ locks rw -> lk_Name l <> sv_Name sv /\
     (lk_Component l = tr_Component (sv_TargetRef sv) -> sv_Groups sv ## lock_groups l)) /\
  (r = None -> rw' = set_locks (locks rw ++ [new_lock sv m]) rw) /\
  (r <> None -> rw' = rw).
Proof.
  intros Hm (m' & Hm' & -> & ->)%GrabScaleViewLockFor_inv.
  assert (m' = m) as -> by congruence.
  split; [apply grab_error_None|]. split; intros Hr.
  - by rewrite Hr.
  - by destruct (grab_error sv (locks rw)).
Qed.

(** After a successful [GrabOrUpdateScaleViewLockFor] the scale view holds a lock
    of its current generation whose group replicas are those of [SplitReplicas] (when
    anything was changed), every lock of another scale view is untouched, and an error
    changes nothing. *)
Theorem GrabOrUpdateScaleViewLockFor_spec rw sv b e rw' :
  locks_ok (locks rw) -> GrabOrUpdateScaleViewLockFor rw sv = Done ((b, e), rw') ->
  (e <> None -> b = false /\ rw' = rw) /\
  (b = false -> rw' = rw) /\
  (e = None -> exists l, l ∈ locks rw' /\ lk_Name l = sv_Name sv /\ lk_UID l = sv_UID sv /\
     lk_Generation l = sv_Generation sv /\
     (b = true -> exists m, SplitReplicas sv = Done m /\ lk_GroupLocks l = group_locks sv m)) /\
  (forall l, lk_Name l <> sv_Name sv -> l ∈ locks rw' <-> l ∈ locks rw).
Proof.
  intros Hok H. unfold GrabOrUpdateScaleViewLockFor in H. run_monad.
  destruct (getScaleViewLockIndex rw sv) as [[i k]|] eqn:Hi.
  - apply getScaleViewLockIndex_Some in Hi as (Hi & Hn & Hu).
    case_decide as Hg; simplify_eq.
    { repeat split; try done. intros _. exists k.
      repeat split; try done. by eapply list_elem_of_lookup_2. }
    unfold splitReplicasIntoGroups in H. destruct (SplitReplicas sv) as [m|] eqn:Hm; simplify_eq.
    repeat split; try done.
    + intros _. exists (update_lock sv m k). rewrite locks_set_locks. repeat split; try done.
      * apply list_elem_of_lookup. exists i. apply list_lookup_insert_eq.
        by eapply lookup_lt_Some.
      * intros _. by exists m.
    + rewrite locks_set_locks. intros Hl. apply list_elem_of_lookup in Hl as [j Hj].
      apply list_lookup_insert_Some in Hj as [(-> & <- & _)|[? Hj]]; [by destruct H|].
      by eapply list_elem_of_lookup_2.
    + rewrite locks_set_locks. intros Hl. apply list_elem_of_lookup in Hl as [j Hj].
      apply list_elem_of_lookup. exists j. rewrite list_lookup_insert_ne; [done|].
      intros ->. congruence.
  - destruct (GrabScaleViewLockFor rw sv) as [[er rw2]|] eqn:Hg; [|done].
    apply GrabScaleViewLockFor_inv in Hg as (m & Hm & Her & ->).
    cbn [fst snd] in H. destruct er; simplify_eq; repeat split; try done.
    + intros _. exists (new_lock sv m). rewrite locks_set_locks. repeat split; try done.
      * apply elem_of_app. right. by left.
      * intros _. by exists m.
    + rewrite locks_set_locks, elem_of_app. intros [?|Hl]; [done|].
      apply list_elem_of_singleton in Hl. by subst.
    + rewrite locks_set_locks, elem_of_app. by left.
Qed.

(** The total of the replicas in the lock a scale view grabs or updates is the
    scale view's desired number of replicas. *)
Theorem lock_replicas_total rw sv rw' :
  scaleview_ok sv ->
  GrabOrUpdateScaleViewLockFor rw sv = Done ((true, None), rw') ->
  exists l, l ∈ locks rw' /\ lk_Name l = sv_Name sv /\
    Zsum (gl_Replicas <$> lk_GroupLocks l) = default 0%Z (svs_Replicas (sv_Spec sv)).
Proof.
  intros Hsv (m & l & Hm & Hl & Hn & _ & _ & Hgl)%GrabOrUpdate_lock.
  exists l. repeat split; [done..|]. rewrite Hgl. unfold group_locks.
  rewrite <-list_fmap_compose. by apply SplitReplicas_group_total.
Qed.

(** Releasing after grabbing gives back the RisingWave as it was; releasing twice
    does nothing the second time. *)
Theorem Grab_Release rw sv rw' :
  lock_reachable rw -> GrabScaleViewLockFor rw sv = Done (None, rw') ->
  IsScaleViewLocked rw' sv = true /\ ReleaseLockFor rw' sv = (true, rw) /\
  ReleaseLockFor rw sv = (false, rw).
Proof.
  intros Hr H. pose proof (grab_locks_ok _ _ _ _ (lock_reachable_locks_ok _ Hr) H) as Hok'.
  apply GrabScaleViewLockFor_inv in H as (m & Hm & He & ->).
  symmetry in He. rewrite grab_error_None in He.
  assert (getScaleViewLockIndex rw sv = None) as Hnone.
  { apply find_index_None, Forall_forall. intros l Hl. apply not_true_iff_false.
    rewrite lock_matches_spec. intros [Hn _]. by apply He in Hl as [? _]. }
  assert (getScaleViewLockIndex (set_locks (locks rw ++ [new_lock sv m]) rw) sv =
          Some (length (locks rw), new_lock sv m)) as Hsome.
  { unfold getScaleViewLockIndex. rewrite locks_set_locks. apply find_index_snoc; [done|].
    by apply lock_matches_spec. }
  unfold IsScaleViewLocked, GetScaleViewLock, ReleaseLockFor. rewrite Hnone, Hsome.
  repeat split. apply (f_equal (pair true)). rewrite locks_set_locks, remove_at_snoc.
  by destruct rw as [? ? []].
Qed.

(** ** Examples *)

Definition ex_sv (name group : string) (replicas generation : Z) : RisingWaveScaleView :=
  {| sv_Meta := {| om_Name := name; om_Namespace := "ns"; om_UID := name +:+ "-uid";
                   om_Generation := generation; om_Labels := ∅; om_Annotations := ∅;
                   om_Finalizers := []; om_Deleted := false |};
     sv_Spec := {| svs_TargetRef := {| tr_Name := "rw"; tr_Component := ComponentCompute;
                                       tr_UID := "rw-uid" |};
                   svs_Replicas := Some replicas; svs_LabelSelector := "";
                   svs_ScalePolicy := [policy group 0 None] |};
     sv_Status := {| svst_Replicas := None; svst_Locked := false |} |}.

(** The RisingWave after the operation. *)
Definition after {A} (o : outcome (A * RisingWave)) : RisingWave :=
  match o with Done r => r.2 | Panic _ => zero_risingwave end.

Definition ex_rw1 : RisingWave := after (GrabScaleViewLockFor zero_risingwave (ex_sv "a" "g1" 3 1)).
Definition ex_rw2 : RisingWave := after (GrabScaleViewLockFor ex_rw1 (ex_sv "b" "g2" 4 1)).

(** [b] may not take the group of [a]; after [a] is released it may. *)
Example conflict_then_release :
  GrabScaleViewLockFor ex_rw1 (ex_sv "b" "g1" 3 1) =
    Done (Some "lock conflict on group g1, already returnErr by a"%string, ex_rw1) /\
  exists rw, GrabScaleViewLockFor (ReleaseLockFor ex_rw1 (ex_sv "a" "g1" 3 1)).2
    (ex_sv "b" "g1" 3 1) = Done (None, rw).
Proof. split; [vm_compute; reflexivity|eexists; vm_compute; reflexivity]. Qed.

Lemma ex_rw2_reachable : lock_reachable ex_rw2.
Proof.
  apply (reach_step ex_rw1).
  - apply (reach_step zero_risingwave).
    + apply reach_init. reflexivity.
    + apply (step_grab _ _ (ex_sv "a" "g1" 3 1)). vm_compute. reflexivity.
  - apply (step_grab _ _ (ex_sv "b" "g2" 4 1)). vm_compute. reflexivity.
Qed.

Lemma locks_exclusive_witness :
  exists a, a ∈ locks ex_rw2 /\ "g1"%string ∈ lock_groups a /\ a = a.
Proof.
  eexists. assert (Ha : new_lock (ex_sv "a" "g1" 3 1) {["g1"%string := 3%Z]} ∈ locks ex_rw2)
    by (vm_compute; left).
  split; [exact Ha|]. split; [vm_compute; left|].
  apply (locks_exclusive ex_rw2 _ _ "g1" ex_rw2_reachable Ha Ha). left. reflexivity.
Defined.

Lemma GrabScaleViewLockFor_spec_witness :
  ex_rw1 = set_locks [new_lock (ex_sv "a" "g1" 3 1) {["g1"%string := 3%Z]}] zero_risingwave.
Proof.
  apply (GrabScaleViewLockFor_spec zero_risingwave (ex_sv "a" "g1" 3 1) {["g1"%string := 3%Z]}
    None ex_rw1); [vm_compute; reflexivity..|reflexivity].
Defined.

Lemma GrabOrUpdateScaleViewLockFor_spec_witness :
  exists rw, GrabOrUpdateScaleViewLockFor ex_rw2 (ex_sv "a" "g1" 5 2) = Done ((true, None), rw) /\
    new_lock (ex_sv "b" "g2" 4 1) {["g2"%string := 4%Z]} ∈ locks rw.
Proof.
  eexists. split; [vm_compute; reflexivity|].
  eapply (GrabOrUpdateScaleViewLockFor_spec ex_rw2 (ex_sv "a" "g1" 5 2) true None).
  - apply lock_reachable_locks_ok, ex_rw2_reachable.
  - vm_compute. reflexivity.
  - vm_compute. discriminate.
  - vm_compute. right. left.
Defined.

Lemma lock_replicas_total_witness :
  exists rw l, GrabOrUpdateScaleViewLockFor ex_rw2 (ex_sv "a" "g1" 5 2) = Done ((true, None), rw) /\
    l ∈ locks rw /\ Zsum (gl_Replicas <$> lk_GroupLocks l) = 5%Z.
Proof.
  destruct (lock_replicas_total ex_rw2 (ex_sv "a" "g1" 5 2)
    (after (GrabOrUpdateScaleViewLockFor ex_rw2 (ex_sv "a" "g1" 5 2)))) as (l & Hl & _ & Hs).
  - constructor.
    + apply (bool_decide_unpack _). vm_compute. exact I.
    + repeat constructor; vm_compute; congruence.
    + vm_compute. congruence.
    + split; vm_compute; congruence.
  - vm_compute. reflexivity.
  - eexists _, l. split; [|split; [exact Hl|exact Hs]]. vm_compute. reflexivity.
Defined.

Lemma Grab_Release_witness :
  ReleaseLockFor ex_rw1 (ex_sv "a" "g1" 3 1) = (true, zero_risingwave).
Proof.
  apply (Grab_Release zero_risingwave (ex_sv "a" "g1" 3 1) ex_rw1).
  - apply reach_init. reflexivity.
  - vm_compute. reflexivity.
Defined.
