(* ===== verification/ScaleHelper.v ===== *)
(** * pkg/scaleview/scale_view_helper.go: the replicas of a group

    The helper reads and writes the replicas of a node group, found by component and
    group name in a RisingWave. A pointer to the replicas is modelled by the index of
    the node group it points into. *)

From S2P Require Import Prelude GoStrings ApiTypes.

(** ** Definitions *)

Definition findNodeGroup {T} (groups : list T) (target : string) (name : T -> string)
  : option (nat * T) := find_index (fun g => bool_decide (name g = target)) groups.

Definition findReplicaPtrFromNodeGroups (nodeGroups : list RisingWaveNodeGroup) (group : string)
  : option (nat * Z) :=
  match findNodeGroup nodeGroups group ng_Name with
  | None => None
  | Some (i, g) => Some (i, ng_Replicas g)
  end.

(** The component's node groups; [None] for the standalone and unknown components. *)
Definition node_groups (rw : RisingWave) (component : string)
  : option (list RisingWaveNodeGroup) :=
  let cs := rws_Components (rw_Spec rw) in
  if bool_decide (component = ComponentMeta) then Some (comp_NodeGroups (cps_Meta cs))
  else if bool_decide (component = ComponentFrontend) then Some (comp_NodeGroups (cps_Frontend cs))
  else if bool_decide (component = ComponentCompactor) then Some (comp_NodeGroups (cps_Compactor cs))
  else if bool_decide (component = ComponentCompute) then Some (comp_NodeGroups (cps_Compute cs))
  else None.

Definition set_node_groups (component : string) (gs : list RisingWaveNodeGroup)
    (rw : RisingWave) : RisingWave :=
  let cs := rws_Components (rw_Spec rw) in
  let upd c := {|
    cps_Standalone := cps_Standalone cs;
    cps_Meta := if bool_decide (c = ComponentMeta) then set_comp_groups gs (cps_Meta cs)
                else cps_Meta cs;
    cps_Frontend := if bool_decide (c = ComponentFrontend)
                    then set_comp_groups gs (cps_Frontend cs) else cps_Frontend cs;
    cps_Compute := if bool_decide (c = ComponentCompute)
                   then set_comp_groups gs (cps_Compute cs) else cps_Compute cs;
    cps_Compactor := if bool_decide (c = ComponentCompactor)
                     then set_comp_groups gs (cps_Compactor cs) else cps_Compactor cs |} in
  set_rw_Spec (set_rws_Components (upd component) (rw_Spec rw)) rw.

Definition findReplicaPtrGroup (rw : RisingWave) (component group : string)
  : outcome (option (nat * Z)) :=
  match node_groups rw component with
  | Some gs => Done (findReplicaPtrFromNodeGroups gs group)
  | None =>
      if bool_decide (component = ComponentStandalone) then Panic "not supported"
      else Panic ("Unknown component " +:+ component)
  end.

Definition getReplicasPtr (rw : RisingWave) (component group : string)
  : outcome (option (nat * Z)) := findReplicaPtrGroup rw component group.

Definition ListComponentGroups (rw : RisingWave) (component : string) : outcome (list string) :=
  match node_groups rw component with
  | Some gs => Done (ng_Name <$> gs)
  | None => Panic ("unknown component " +:+ component)
  end.

Definition GetGroupIndex (rw : RisingWave) (component group : string) : outcome (nat * bool) :=
  p ← getReplicasPtr rw component group;
  mret match p with None => (0, false) | Some (i, _) => (i, true) end.

Definition ReadReplicas (rw : RisingWave) (component group : string) : outcome (Z * bool) :=
  p ← getReplicasPtr rw component group;
  mret match p with None => (0%Z, false) | Some (_, r) => (r, true) end.

(** Whether anything changed, and the RisingWave afterwards. *)
Definition WriteReplicas (rw : RisingWave) (component group : string) (replicas : Z)
  : outcome (bool * RisingWave) :=
  p ← getReplicasPtr rw component group;
  mret match p with
       | None => (false, rw)
       | Some (i, r) =>
           if decide (r = replicas) then (false, rw)
           else (true, set_node_groups component
                         (alter (set_ng_Replicas replicas) i
                            (default [] (node_groups rw component))) rw)
       end.

(** ** Lemmas *)

(** The replicas of a group: [None] when it does not exist. *)
Definition replicas_of (rw : RisingWave) (component group : string) : option Z :=
  gs ← node_groups rw component; snd <$> findReplicaPtrFromNodeGroups gs group.

Definition known_component (component : string) : Prop :=
  component ∈ [ComponentMeta; ComponentFrontend; ComponentCompactor; ComponentCompute].

Global Instance known_component_dec c : Decision (known_component c).
Proof. unfold known_component. apply _. Defined.

Lemma node_groups_known rw c : known_component c <-> is_Some (node_groups rw c).
Proof.
  unfold known_component, node_groups. rewrite !elem_of_cons, elem_of_nil. split.
  - intros [->|[->|[->|[->|[]]]]]; eexists; reflexivity.
  - case_bool; naive_solver.
Qed.

Lemma node_groups_set rw c gs :
  known_component c -> node_groups (set_node_groups c gs rw) c = Some gs.
Proof.
  unfold known_component. rewrite !elem_of_cons, elem_of_nil.
  intros [->|[->|[->|[->|[]]]]]; reflexivity.
Qed.

Lemma node_groups_set_ne rw c c' gs :
  c' <> c -> node_groups (set_node_groups c gs rw) c' = node_groups rw c'.
Proof. unfold node_groups, set_node_groups. intros Hne. cbn. case_bool; subst; done. Qed.

Lemma set_node_groups_status rw c gs :
  rw_Status (set_node_groups c gs rw) = rw_Status rw /\
  rw_Meta (set_node_groups c gs rw) = rw_Meta rw.
Proof. done. Qed.

Lemma ReadReplicas_spec rw c g :
  known_component c ->
  ReadReplicas rw c g = Done (match replicas_of rw c g with
                              | Some r => (r, true) | None => (0%Z, false) end).
Proof.
  intros [gs Hgs]%(node_groups_known rw).
  unfold ReadReplicas, getReplicasPtr, findReplicaPtrGroup, replicas_of. rewrite Hgs.
  cbn. by destruct (findReplicaPtrFromNodeGroups gs g) as [[i r]|].
Qed.

Lemma findReplicaPtr_Some gs g i r :
  findReplicaPtrFromNodeGroups gs g = Some (i, r) <->
  exists x, findNodeGroup gs g ng_Name = Some (i, x) /\ ng_Replicas x = r.
Proof.
  unfold findReplicaPtrFromNodeGroups. destruct (findNodeGroup gs g ng_Name) as [[j x]|].
  - split; [intros; simplify_eq; eauto|]. intros (y & ? & <-). by simplify_eq.
  - split; [done|]. by intros (? & ? & _).
Qed.

Lemma find_alter gs g i r g' r' :
  findReplicaPtrFromNodeGroups gs g = Some (i, r) ->
  findReplicaPtrFromNodeGroups (alter (set_ng_Replicas r') i gs) g' =
  if decide (g' = g) then Some (i, r') else findReplicaPtrFromNodeGroups gs g'.
Proof.
  intros (x & Hx & <-)%findReplicaPtr_Some.
  unfold findReplicaPtrFromNodeGroups, findNodeGroup in *. rewrite find_index_alter by done.
  case_decide as Hg; [subst; rewrite Hx; cbn; by rewrite decide_True|].
  destruct (find_index (fun y => bool_decide (ng_Name y = g')) gs) as [[j y]|] eqn:Hy; [|done].
  cbn. apply find_index_Some in Hx as (Hx & Hxg & _), Hy as (Hy & Hyg & _).
  case_bool. rewrite decide_False; [done|]. intros ->. congruence.
Qed.

(** Reading after writing, on every component and group. *)
Lemma replicas_of_WriteReplicas rw c g r b rw' c' g' :
  WriteReplicas rw c g r = Done (b, rw') ->
  replicas_of rw' c' g' =
  if decide (c' = c /\ g' = g) then (fun _ => r) <$> replicas_of rw c g else replicas_of rw c' g'.
Proof.
  unfold WriteReplicas, getReplicasPtr, findReplicaPtrGroup. run_monad.
  destruct (node_groups rw c) as [gs|] eqn:Hgs; [|by case_bool].
  assert (known_component c) as Hc by (apply (node_groups_known rw); eauto).
  assert (replicas_of rw c g = snd <$> findReplicaPtrFromNodeGroups gs g) as Hr.
  { unfold replicas_of. by rewrite Hgs. }
  destruct (findReplicaPtrFromNodeGroups gs g) as [[i r0]|] eqn:Hf; intros H; simplify_eq.
  2: { case_decide as Hd; [|done]. destruct Hd as [-> ->]. by rewrite Hr. }
  case_decide as Hd; simplify_eq.
  { case_decide as Hd'; [|done]. destruct Hd' as [-> ->]. by rewrite Hr. }
  case_decide as Hd'.
  - destruct Hd' as [-> ->]. rewrite Hr. unfold replicas_of. rewrite node_groups_set by done. cbn.
    rewrite (find_alter gs g i r0) by done. by rewrite decide_True.
  - unfold replicas_of. destruct (decide (c' = c)) as [->|Hc'].
    + rewrite node_groups_set, Hgs by done. cbn. rewrite (find_alter gs g i r0) by done.
      rewrite decide_False by naive_solver. done.
    + by rewrite node_groups_set_ne.
Qed.

Lemma WriteReplicas_same rw c g r b rw' :
  WriteReplicas rw c g r = Done (b, rw') -> (b = false -> rw' = rw) /\
  rw_Status rw' = rw_Status rw /\ rw_Meta rw' = rw_Meta rw.
Proof.
  unfold WriteReplicas. run_monad. destruct (getReplicasPtr rw c g) as [[[i r0]|]|]; intros H;
    simplify_eq; [case_decide; by simplify_eq|done].
Qed.

Lemma WriteReplicas_total rw c g r :
  known_component c -> exists b rw', WriteReplicas rw c g r = Done (b, rw').
Proof.
  intros [gs Hgs]%(node_groups_known rw).
  unfold WriteReplicas, getReplicasPtr, findReplicaPtrGroup. rewrite Hgs. run_monad.
  destruct (findReplicaPtrFromNodeGroups gs g) as [[i r0]|]; [|eauto]. case_decide; eauto.
Qed.

(** ** Properties *)

(** On a component with node groups, [WriteReplicas] is an update of the replicas
    of the one group: it reads back, every other group of every component keeps its
    replicas, the status does not change, and it reports [true] exactly when the group
    exists with another number of replicas. *)
Theorem WriteReplicas_spec rw c g r :
  known_component c ->
  exists b rw', WriteReplicas rw c g r = Done (b, rw') /\
    (b = true <-> exists r0, replicas_of rw c g = Some r0 /\ r0 <> r) /\
    (forall c' g', replicas_of rw' c' g' =
       if decide (c' = c /\ g' = g) then (fun _ => r) <$> replicas_of rw c g else replicas_of rw c' g') /\
    rw_Status rw' = rw_Status rw.
Proof.
  intros Hc. destruct (WriteReplicas_total rw c g r Hc) as (b & rw' & H).
  exists b, rw'. split; [done|]. split; [|split].
  - revert H. apply (node_groups_known rw) in Hc as [gs Hgs].
    unfold WriteReplicas, getReplicasPtr, findReplicaPtrGroup, replicas_of. rewrite Hgs.
    run_monad. cbn. destruct (findReplicaPtrFromNodeGroups gs g) as [[i r0]|]; cbn.
    + intros H. case_decide; simplify_eq; split; try done; [by intros (? & ? & ?); simplify_eq|].
      intros _. eauto.
    + intros H. simplify_eq. split; [done|]. by intros (? & ? & _).
  - intros c' g'. by eapply replicas_of_WriteReplicas.
  - by eapply WriteReplicas_same.
Qed.

(** Reading, writing, indexing and listing panic exactly on the components
    without node groups: the standalone one and the unknown ones. *)
Theorem helper_panics_iff rw c g r :
  (is_done (ReadReplicas rw c g) = true <-> known_component c) /\
  (is_done (WriteReplicas rw c g r) = true <-> known_component c) /\
  (is_done (GetGroupIndex rw c g) = true <-> known_component c) /\
  (is_done (ListComponentGroups rw c) = true <-> known_component c).
Proof.
  assert (known_component c \/ node_groups rw c = None) as [Hc|Hc].
  { destruct (node_groups rw c) eqn:H; [left|by right]. apply (node_groups_known rw). eauto. }
  - destruct (WriteReplicas_total rw c g r Hc) as (b & rw' & ->).
    rewrite ReadReplicas_spec by done.
    apply (node_groups_known rw) in Hc as Hc'. destruct Hc' as [gs Hgs].
    unfold ListComponentGroups, GetGroupIndex, getReplicasPtr, findReplicaPtrGroup.
    rewrite Hgs. by run_monad.
  - assert (~ known_component c) by (rewrite (node_groups_known rw), Hc; by intros [? ?]).
    unfold ReadReplicas, WriteReplicas, GetGroupIndex, ListComponentGroups, getReplicasPtr,
      findReplicaPtrGroup. rewrite Hc. run_monad.
    destruct (bool_decide _); cbn; naive_solver.
Qed.

(** ** Examples *)

Definition ex_rw : RisingWave :=
  set_node_groups ComponentMeta [simple_group "" 1; simple_group "big" 3] zero_risingwave.

Lemma WriteReplicas_spec_witness :
  exists rw', WriteReplicas ex_rw ComponentMeta "big" 5 = Done (true, rw') /\
    replicas_of rw' ComponentMeta "" = Some 1%Z.
Proof.
  destruct (WriteReplicas_spec ex_rw ComponentMeta "big" 5) as (b & rw' & H & Hb & Hr & _).
  { left. }
  exists rw'. split.
  - rewrite H. assert (b = true) as -> by (apply Hb; exists 3%Z; vm_compute; done). reflexivity.
  - rewrite Hr. vm_compute. reflexivity.
Defined.
