(* ===== verification/ScaleViewWebhooks.v ===== *)
(** * The webhooks of RisingWaveScaleView

    [pkg/webhook/risingwave_scale_view_mutating_webhook.go] and
    [risingwave_scale_view_validating_webhook.go]. The reply of the API server to the
    [Get] of the target RisingWave is an argument. *)

From S2P Require Import Prelude GoStrings ApiTypes ApiErrors SplitReplicas ScaleLock ScaleHelper.

(** ** Definitions: the mutating webhook *)

Definition set_svs_TargetUID (uid : string) (s : RisingWaveScaleViewSpec)
  : RisingWaveScaleViewSpec :=
  {| svs_TargetRef := {| tr_Name := tr_Name (svs_TargetRef s);
                         tr_Component := tr_Component (svs_TargetRef s); tr_UID := uid |};
     svs_Replicas := svs_Replicas s; svs_LabelSelector := svs_LabelSelector s;
     svs_ScalePolicy := svs_ScalePolicy s |}.

Definition set_svs_ScalePolicy (ps : list RisingWaveScaleViewSpecScalePolicy)
    (s : RisingWaveScaleViewSpec) : RisingWaveScaleViewSpec :=
  {| svs_TargetRef := svs_TargetRef s; svs_Replicas := svs_Replicas s;
     svs_LabelSelector := svs_LabelSelector s; svs_ScalePolicy := ps |}.

Definition set_svs_LabelSelector (l : string) (s : RisingWaveScaleViewSpec)
  : RisingWaveScaleViewSpec :=
  {| svs_TargetRef := svs_TargetRef s; svs_Replicas := svs_Replicas s;
     svs_LabelSelector := l; svs_ScalePolicy := svs_ScalePolicy s |}.

Definition on_spec (f : RisingWaveScaleViewSpec -> RisingWaveScaleViewSpec)
    (sv : RisingWaveScaleView) : RisingWaveScaleView := set_sv_Spec (f (sv_Spec sv)) sv.

Definition label_selector (sv : RisingWaveScaleView) : string :=
  "risingwave/name=" +:+ tr_Name (sv_TargetRef sv) +:+ "," +:+
  "risingwave/component=" +:+ tr_Component (sv_TargetRef sv) +:+ "," +:+
  "risingwave/group in (" +:+ Join (sv_Groups sv) "," +:+ ")".

Definition setLabelSelector (sv : RisingWaveScaleView) : RisingWaveScaleView :=
  on_spec (set_svs_LabelSelector (label_selector sv)) sv.

Definition default_policy (group : string) : RisingWaveScaleViewSpecScalePolicy :=
  {| sp_Group := group; sp_Priority := 0; sp_MaxReplicas := None |}.

(** The loop over the policies, from index [i]: the errors and the sum. *)
Fixpoint read_policies (target : RisingWave) (component : string) (i : nat)
    (ps : list RisingWaveScaleViewSpecScalePolicy) (fieldErrs : list field_error) (replicas : Z)
  : outcome (list field_error * Z) :=
  match ps with
  | [] => mret (fieldErrs, replicas)
  | p :: ps' =>
      '(r, ok) ← ReadReplicas target component (sp_Group p);
      if ok : bool then
        let out_of_range :=
          match sp_MaxReplicas p with
          | Some m => bool_decide (m < r)%Z
          | None => false
          end in
        read_policies target component (S i) ps'
          (fieldErrs ++ err_if out_of_range
             (Invalid (index_path "spec.scalePolicy" i +:+ "[replicas]")
                "replicas of RisingWave out of range"))
          (int32 (replicas + r))
      else
        read_policies target component (S i) ps'
          (fieldErrs ++ [Invalid (index_path "spec.scalePolicy" i)
                           ("target group not found: " +:+ sp_Group p)])
          replicas
  end.

(** [got] is the reply to the [Get]. On an error other than "not found" the code goes
    on with a zero RisingWave. *)
Definition readGroupReplicasFromRisingWave (got : result api_error RisingWave)
    (obj : RisingWaveScaleView) : outcome (option api_error * RisingWaveScaleView) :=
  let not_found := match got with Err e => IsNotFound e | Ok _ => false end in
  if not_found then
    mret (Some (InvalidError (sv_Name obj)
                  [Invalid "spec.targetRef" "target risingwave not found"]), obj)
  else
    let target := match got with Ok rw => rw | Err _ => zero_risingwave end in
    let obj := on_spec (set_svs_TargetUID (om_UID (rw_Meta target))) obj in
    let component := tr_Component (sv_TargetRef obj) in
    obj ← match sv_ScalePolicy obj with
          | [] => groups ← ListComponentGroups target component;
                  mret (on_spec (set_svs_ScalePolicy (default_policy <$> groups)) obj)
          | _ => mret obj
          end;
    read ← read_policies target component 0 (sv_ScalePolicy obj) [] 0;
    let obj := on_spec (set_svs_Replicas (Some read.2)) obj in
    mret (match read.1 with [] => None | errs => Some (AggregateError errs) end, obj).

Definition setDefault (got : result api_error RisingWave) (obj : RisingWaveScaleView)
  : outcome (option api_error * RisingWaveScaleView) :=
  if negb (bool_decide (tr_UID (sv_TargetRef obj) = "")) then
    mret (Some (InvalidError (sv_Name obj)
      [Invalid "spec.targetRef.uid" "uid must be empty and set by webhook"]), obj)
  else
    r ← readGroupReplicasFromRisingWave got obj;
    mret match r.1 with
         | Some e => (Some e, r.2)
         | None => (None, setLabelSelector r.2)
         end.

(** [Default] of the mutating webhook. *)
Definition ScaleView_Default (got : result api_error RisingWave) (obj : RisingWaveScaleView)
  : outcome (option api_error * RisingWaveScaleView) := setDefault got obj.

(** ** Definitions: the validating webhook *)

Fixpoint max_constraints (ps : list RisingWaveScaleViewSpecScalePolicy) (maxValue : Z) : Z :=
  match ps with
  | [] => maxValue
  | p :: ps' =>
      match sp_MaxReplicas p with
      | None => MaxInt32
      | Some m => max_constraints ps' (int32 (maxValue + m))
      end
  end.

Definition getScaleViewMaxConstraints (obj : RisingWaveScaleView) : Z :=
  max_constraints (sv_ScalePolicy obj) 0.

Definition object_errors (obj : RisingWaveScaleView) : list field_error :=
  err_if (bool_decide (tr_Name (sv_TargetRef obj) = ""))
    (Required "spec.targetRef.name" "target name must be provided") ++
  err_if (bool_decide (tr_UID (sv_TargetRef obj) = ""))
    (Required "spec.targetRef.uid" "uid should be set by mutating webhook") ++
  err_if (bool_decide (sv_ScalePolicy obj = []))
    (Required "spec.scalePolicy" "must not be empty") ++
  err_if (negb (bool_decide (getScaleViewMaxConstraints obj = MaxInt32)))
    (Invalid "spec.scalePolicy" "at least one unlimited replicas").

(** The error an object is rejected with; [None] accepts it. *)
Definition validateObject (obj : RisingWaveScaleView) : option api_error :=
  match object_errors obj with
  | [] => None
  | errs => Some (InvalidError (sv_Name obj) errs)
  end.

Definition ScaleView_validateCreate (got : result api_error RisingWave)
    (obj : RisingWaveScaleView) : outcome (option api_error) :=
  match validateObject obj with
  | Some e => mret (Some e)
  | None =>
      match got with
      | Err e => mret (Some (WrappedError "unable to get the risingwave" e))
      | Ok risingwave =>
          if negb (bool_decide (tr_UID (sv_TargetRef obj) = om_UID (rw_Meta risingwave))) then
            mret (Some (PlainError ("risingwave not match, expect uid: " +:+
              tr_UID (sv_TargetRef obj) +:+ ", but is: " +:+ om_UID (rw_Meta risingwave))))
          else
            r ← GrabScaleViewLockFor risingwave obj;
            mret match r.1 with
                 | Some e => Some (ConflictError (sv_Name obj) ("conflict detected: " +:+ e))
                 | None => None
                 end
      end
  end.

Definition update_errors (oldObj newObj : RisingWaveScaleView) : list field_error :=
  err_if (negb (bool_decide (sv_TargetRef oldObj = sv_TargetRef newObj)))
    (Forbidden "spec.targetRef" "targetRefs should not be different") ++
  err_if (negb (bool_decide (svs_LabelSelector (sv_Spec oldObj) =
                             svs_LabelSelector (sv_Spec newObj))))
    (Forbidden "spec.labelSelector" "labelSelector should not be changed") ++
  err_if (negb (bool_decide (sort_Strings (sv_Groups oldObj) = sort_Strings (sv_Groups newObj))))
    (Forbidden "spec.scalePolicy" "groups should no be changed").

Definition ScaleView_validateUpdate (oldObj newObj : RisingWaveScaleView) : option api_error :=
  match update_errors oldObj newObj with
  | [] => None
  | errs => Some (InvalidError (sv_Name oldObj) errs)
  end.

Definition ScaleView_ValidateUpdate (oldObj newObj : RisingWaveScaleView) : option api_error :=
  match validateObject newObj with
  | Some e => Some e
  | None => ScaleView_validateUpdate oldObj newObj
  end.

(** ** Lemmas *)

Lemma max_constraints_sum ps a :
  Forall (fun p => is_Some (sp_MaxReplicas p)) ps -> in_int32 a ->
  max_constraints ps a = int32 (a + capacity ps).
Proof.
  revert a. induction ps as [|p ps IH]; intros a Hf Ha; cbn.
  { unfold capacity. cbn. by rewrite Z.add_0_r, int32_id. }
  apply Forall_cons in Hf as [[m Hm] Hf]. rewrite Hm.
  rewrite IH by (done || apply int32_range). rewrite int32_add_l.
  change (capacity (p :: ps)) with (max_of p + capacity ps)%Z.
  unfold max_of. rewrite Hm. by rewrite Z.add_assoc.
Qed.

(** The webhook's sum is the largest [int32] when some group is unlimited. *)
Lemma max_constraints_unlimited ps a :
  Exists (fun p => sp_MaxReplicas p = None) ps -> max_constraints ps a = MaxInt32.
Proof.
  intros H. revert a. induction ps as [|p ps IH]; intros a; cbn; [by inversion H|].
  destruct (sp_MaxReplicas p) eqn:Hp; [|done]. apply IH.
  by apply Exists_cons in H as [?|?]; [congruence|].
Qed.

Lemma validateObject_None obj :
  validateObject obj = None <->
  tr_Name (sv_TargetRef obj) <> "" /\ tr_UID (sv_TargetRef obj) <> "" /\
  sv_ScalePolicy obj <> [] /\ getScaleViewMaxConstraints obj = MaxInt32.
Proof.
  unfold validateObject.
  assert (object_errors obj = [] <->
    tr_Name (sv_TargetRef obj) <> "" /\ tr_UID (sv_TargetRef obj) <> "" /\
    sv_ScalePolicy obj <> [] /\ getScaleViewMaxConstraints obj = MaxInt32) as <-.
  { unfold object_errors. rewrite !app_nil_iff, !err_if_nil, !negb_false_iff,
      !bool_decide_eq_false, !bool_decide_eq_true. done. }
  by destruct (object_errors obj).
Qed.

Lemma capacity_bound ps M :
  Forall (fun p => max_of p <= M)%Z ps -> (capacity ps <= M * Z.of_nat (length ps))%Z.
Proof.
  unfold capacity. induction 1 as [|p ps Hp H IH]; [cbn; lia|].
  rewrite fmap_cons. change (Zsum (?x :: ?l)) with (x + Zsum l)%Z. cbn [length]. lia.
Qed.

(** A limit the CRD's schema allows and that is not negative. *)
Definition policy_admitted (p : RisingWaveScaleViewSpecScalePolicy) : Prop :=
  match sp_MaxReplicas p with None => True | Some m => (0 <= m <= 5000)%Z end.

Lemma policy_admitted_ok p : policy_admitted p -> policy_ok p.
Proof.
  unfold policy_admitted, policy_ok, max_of, MaxInt32. destruct (sp_MaxReplicas p); cbn; lia.
Qed.

(** An accepted scale view has an unlimited group: the sum of admitted limits is too
    small to reach the largest [int32]. *)
Lemma accepted_unlimited obj :
  validateObject obj = None -> Forall policy_admitted (sv_ScalePolicy obj) ->
  (Z.of_nat (length (sv_ScalePolicy obj)) <= 400000)%Z ->
  Exists (fun p => sp_MaxReplicas p = None) (sv_ScalePolicy obj).
Proof.
  intros (_ & _ & _ & Hm)%validateObject_None Hadm Hlen.
  destruct (decide (Exists (fun p => sp_MaxReplicas p = None) (sv_ScalePolicy obj)))
    as [|Hn]; [done|exfalso].
  assert (Forall (fun p => is_Some (sp_MaxReplicas p)) (sv_ScalePolicy obj)) as Hs.
  { apply Forall_forall. intros p Hp. apply not_eq_None_Some. intros H. apply Hn.
    apply Exists_exists. eauto. }
  unfold getScaleViewMaxConstraints in Hm.
  rewrite max_constraints_sum in Hm by (done || (vm_compute; split; congruence)).
  assert (capacity (sv_ScalePolicy obj) <= 5000 * Z.of_nat (length (sv_ScalePolicy obj)))%Z.
  { apply capacity_bound. rewrite Forall_forall in *. intros p Hp.
    specialize (Hadm p Hp). destruct (Hs p Hp) as [m Hpm].
    unfold policy_admitted, max_of in *. rewrite Hpm in *. cbn. lia. }
  assert (0 <= capacity (sv_ScalePolicy obj))%Z.
  { apply capacity_nonneg. eapply Forall_impl; [exact Hadm|]. apply policy_admitted_ok. }
  rewrite int32_id in Hm; unfold in_int32, MinInt32, MaxInt32 in *; lia.
Qed.

Lemma capacity_unlimited ps :
  Forall policy_ok ps -> Exists (fun p => sp_MaxReplicas p = None) ps ->
  (MaxInt32 <= capacity ps)%Z.
Proof.
  intros Hok H. apply Exists_exists in H as (p & Hp & Hn).
  assert (max_of p = MaxInt32) as <- by (unfold max_of; by rewrite Hn).
  unfold capacity. apply Zsum_ge_elem; [|by apply list_elem_of_fmap_2].
  apply Forall_fmap. by eapply Forall_impl; [exact Hok|]; intros ? [? _].
Qed.

Lemma update_errors_nil old new :
  update_errors old new = [] <->
  sv_TargetRef old = sv_TargetRef new /\
  svs_LabelSelector (sv_Spec old) = svs_LabelSelector (sv_Spec new) /\
  sv_Groups old ≡ₚ sv_Groups new.
Proof.
  unfold update_errors. rewrite !app_nil_iff, !err_if_nil, !negb_false_iff,
    !bool_decide_eq_true, sort_Strings_eq_perm. done.
Qed.

(** The mutating webhook's loop reads the target's replicas of every group. *)
Lemma read_policies_spec target c i ps errs0 a :
  known_component c -> in_int32 a ->
  exists errs, read_policies target c i ps errs0 a =
    Done (errs0 ++ errs,
          int32 (a + Zsum ((fun p => default 0%Z (replicas_of target c (sp_Group p))) <$> ps))) /\
  (errs = [] <-> Forall (fun p => exists r, replicas_of target c (sp_Group p) = Some r /\
                           (r <= default r (sp_MaxReplicas p))%Z) ps).
Proof.
  intros Hc. revert i errs0 a. induction ps as [|p ps IH]; intros i errs0 a Ha; cbn [read_policies].
  { exists []. cbn. rewrite Z.add_0_r, int32_id, app_nil_r by done. by repeat split. }
  rewrite ReadReplicas_spec by done. rewrite fmap_cons.
  change (Zsum (?x :: ?l)) with (x + Zsum l)%Z. run_monad.
  destruct (replicas_of target c (sp_Group p)) as [r|] eqn:Hr; cbn [fst snd].
  - edestruct IH as (errs & -> & Hiff); [apply int32_range|].
    eexists (_ ++ errs). rewrite (app_assoc errs0). split.
    + by rewrite int32_add_l, <-Z.add_assoc.
    + rewrite app_nil_iff, err_if_nil, Hiff, Forall_cons, Hr.
      assert (match sp_MaxReplicas p with Some m => bool_decide (m < r)%Z | None => false end = false
              <-> (r <= default r (sp_MaxReplicas p))%Z) as ->.
      { destruct (sp_MaxReplicas p); cbn; [rewrite bool_decide_eq_false|split; [|done]]; lia. }
      split; [intros [? ?]; split; eauto|]. intros [(? & ? & ?) ?]. by simplify_eq.
  - edestruct IH as (errs & -> & Hiff); [exact Ha|].
    eexists (_ :: errs). rewrite <-(app_assoc errs0). split; [done|].
    rewrite Forall_cons, Hr. split; [done|]. by intros [(? & ? & ?) ?].
Qed.

Lemma sv_Groups_perm_ok old new :
  ScaleView_validateUpdate old new = None -> sv_Groups old ≡ₚ sv_Groups new.
Proof.
  unfold ScaleView_validateUpdate. intros H. apply update_errors_nil.
  by destruct (update_errors old new).
Qed.

(** ** Properties *)

(** C33: A scale view the validating webhook accepts never makes [SplitReplicas] panic, whatever
    its priorities, if its groups are distinct (the API server sees to that) and at most 400000,
    its limits between 0 and 5000 (the schema has the maximum, but admits negative ones) and
    its replicas not negative. *)
Theorem accepted_never_panics obj :
  validateObject obj = None -> NoDup (sv_Groups obj) ->
  Forall policy_admitted (sv_ScalePolicy obj) ->
  (Z.of_nat (length (sv_ScalePolicy obj)) <= 400000)%Z ->
  (0 <= default 0 (svs_Replicas (sv_Spec obj)) <= MaxInt32)%Z ->
  is_done (SplitReplicas obj) = true.
Proof.
  intros Hv Hnd Hadm Hlen Hr.
  assert (Forall policy_ok (sv_ScalePolicy obj)) as Hok.
  { eapply Forall_impl; [exact Hadm|]. apply policy_admitted_ok. }
  apply SplitReplicas_done_iff_ok.
  - constructor; [done|done|unfold MaxInt32; lia|unfold in_int32, MinInt32; lia].
  - pose proof (capacity_unlimited _ Hok (accepted_unlimited obj Hv Hadm Hlen)). lia.
Qed.

(** An update of a scale view is accepted exactly when the new object is valid
    and the target, the label selector and the set of groups stay as they were. *)
Theorem ScaleView_ValidateUpdate_accepts old new :
  ScaleView_ValidateUpdate old new = None <->
  validateObject new = None /\ sv_TargetRef old = sv_TargetRef new /\
  svs_LabelSelector (sv_Spec old) = svs_LabelSelector (sv_Spec new) /\
  sv_Groups old ≡ₚ sv_Groups new.
Proof.
  unfold ScaleView_ValidateUpdate, ScaleView_validateUpdate.
  rewrite <-update_errors_nil.
  destruct (validateObject new); [by split; [|intros [? _]]|].
  destruct (update_errors old new); (split; [intros; split|intros [? ?]]); done.
Qed.

(** An accepted update cannot create a lock conflict: updating the lock of the old
    object with the new one keeps the locks of the RisingWave exclusive. *)
Theorem accepted_update_keeps_locks rw old new l r rw' :
  locks_ok (locks rw) -> GetScaleViewLock rw new = Some l -> lock_groups l ≡ₚ sv_Groups old ->
  ScaleView_ValidateUpdate old new = None ->
  GrabOrUpdateScaleViewLockFor rw new = Done (r, rw') -> locks_ok (locks rw').
Proof.
  intros Hok Hl Hg Hv. apply update_locks_ok; [|done].
  intros l' Hl'. rewrite Hl in Hl'. simplify_eq. rewrite Hg.
  unfold ScaleView_ValidateUpdate in Hv. destruct (validateObject new); [done|].
  by apply sv_Groups_perm_ok.
Qed.

(** The defaulting webhook, on a target it can read: the policies default to all
    groups of the component, the replicas become the sum over the target's groups and
    the target's UID is recorded; it succeeds exactly when every group exists with at
    most its limit of replicas. *)
Theorem ScaleView_Default_spec rw obj :
  known_component (tr_Component (sv_TargetRef obj)) -> tr_UID (sv_TargetRef obj) = "" ->
  exists e obj', ScaleView_Default (Ok rw) obj = Done (e, obj') /\
    let c := tr_Component (sv_TargetRef obj) in
    let ps := match sv_ScalePolicy obj with
              | [] => (fun g => default_policy (ng_Name g)) <$> default [] (node_groups rw c)
              | ps => ps
              end in
    sv_ScalePolicy obj' = ps /\ tr_UID (sv_TargetRef obj') = om_UID (rw_Meta rw) /\
    svs_Replicas (sv_Spec obj') =
      Some (int32 (Zsum ((fun p => default 0%Z (replicas_of rw c (sp_Group p))) <$> ps))) /\
    (e = None <-> Forall (fun p => exists r, replicas_of rw c (sp_Group p) = Some r /\
                            (r <= default r (sp_MaxReplicas p))%Z) ps).
Proof.
  destruct obj as [meta [[name c uid] reps sel ps] st]. cbn [sv_TargetRef svs_TargetRef sv_Spec
    tr_Component tr_UID sv_ScalePolicy svs_ScalePolicy].
  intros Hc ->. destruct (proj1 (node_groups_known rw _) Hc) as [gs Hgs].
  unfold ScaleView_Default, setDefault, readGroupReplicasFromRisingWave, ListComponentGroups.
  cbn -[read_policies fmap]. rewrite Hgs. run_monad.
  destruct ps as [|p ps]; cbn -[read_policies fmap];
    match goal with |- context [read_policies rw c 0 ?l [] 0] =>
      destruct (read_policies_spec rw c 0 l [] 0 Hc) as (errs & -> & Hiff);
        [by vm_compute; split; congruence|] end;
    rewrite <-?list_fmap_compose in *; destruct errs;
    (eexists _, _; split; [reflexivity|]); cbn -[fmap]; rewrite <-Hiff; repeat split; done.
Qed.

(** An error of the API server other than "not found" is lost: the defaulting
    webhook goes on with an empty RisingWave, and a scale view without policies is
    admitted with zero replicas and an empty target UID. *)
Theorem ScaleView_Default_swallows_get_error e obj :
  IsNotFound e = false -> known_component (tr_Component (sv_TargetRef obj)) ->
  tr_UID (sv_TargetRef obj) = "" -> sv_ScalePolicy obj = [] ->
  exists obj', ScaleView_Default (Err e) obj = Done (None, obj') /\
    tr_UID (sv_TargetRef obj') = "" /\ svs_Replicas (sv_Spec obj') = Some 0%Z.
Proof.
  destruct obj as [meta [[name c uid] reps sel ps] st]. cbn [sv_TargetRef svs_TargetRef sv_Spec
    tr_Component tr_UID sv_ScalePolicy svs_ScalePolicy].
  intros He Hc -> ->. unfold ScaleView_Default, setDefault, readGroupReplicasFromRisingWave.
  rewrite He. unfold known_component in Hc. rewrite !elem_of_cons, elem_of_nil in Hc.
  destruct Hc as [->|[->|[->|[->|[]]]]]; (eexists; split; [reflexivity|by split]).
Qed.

(** ** Examples *)

Definition ex_valid (groups : list RisingWaveScaleViewSpecScalePolicy) (replicas : Z)
  : RisingWaveScaleView :=
  {| sv_Meta := empty_meta;
     sv_Spec := {| svs_TargetRef := {| tr_Name := "rw"; tr_Component := ComponentMeta;
                                       tr_UID := "uid" |};
                   svs_Replicas := Some replicas; svs_LabelSelector := "";
                   svs_ScalePolicy := groups |};
     sv_Status := {| svst_Replicas := None; svst_Locked := false |} |}.

Definition ex_fresh (groups : list RisingWaveScaleViewSpecScalePolicy) : RisingWaveScaleView :=
  on_spec (set_svs_TargetUID "") (ex_valid groups 0).

Lemma accepted_never_panics_witness :
  validateObject (ex_valid [policy "" 0 None; policy "big" 1 (Some 2%Z)] 7) = None /\
  is_done (SplitReplicas (ex_valid [policy "" 0 None; policy "big" 1 (Some 2%Z)] 7)) = true.
Proof.
  split; [vm_compute; reflexivity|]. apply accepted_never_panics.
  - vm_compute. reflexivity.
  - apply (bool_decide_unpack _). vm_compute. exact I.
  - repeat constructor; vm_compute; congruence.
  - vm_compute. congruence.
  - split; vm_compute; congruence.
Defined.

Lemma accepted_update_keeps_locks_witness :
  exists rw', GrabOrUpdateScaleViewLockFor ex_rw2 (ex_sv "a" "g1" 5 2) = Done ((true, None), rw') /\
    locks_ok (locks rw').
Proof.
  eexists. split; [vm_compute; reflexivity|].
  eapply (accepted_update_keeps_locks ex_rw2 (ex_sv "a" "g1" 3 1) (ex_sv "a" "g1" 5 2)).
  - apply lock_reachable_locks_ok, ex_rw2_reachable.
  - vm_compute. reflexivity.
  - vm_compute. reflexivity.
  - vm_compute. reflexivity.
  - vm_compute. reflexivity.
Defined.

Lemma ScaleView_Default_spec_witness :
  exists obj', ScaleView_Default (Ok ex_rw) (ex_fresh []) = Done (None, obj') /\
    svs_Replicas (sv_Spec obj') = Some 4%Z /\ svs_LabelSelector (sv_Spec obj') =
      "risingwave/name=rw,risingwave/component=meta,risingwave/group in (,big)"%string.
Proof.
  destruct (ScaleView_Default_spec ex_rw (ex_fresh [])) as (e & obj' & H & _ & _ & Hr & _).
  - left.
  - reflexivity.
  - revert H Hr. vm_compute. intros [= <- <-] Hr. eexists. split; [reflexivity|].
    split; [exact Hr|reflexivity].
Defined.

Lemma ScaleView_Default_swallows_get_error_witness :
  exists obj', ScaleView_Default (Err (PlainError "timeout")) (ex_fresh []) = Done (None, obj') /\
    tr_UID (sv_TargetRef obj') = ""%string.
Proof.
  destruct (ScaleView_Default_swallows_get_error (PlainError "timeout") (ex_fresh []))
    as (obj' & H & Hu & _); [reflexivity|left|reflexivity|reflexivity|].
  exists obj'. split; [exact H|exact Hu].
Defined.

(** The validating webhook accepts an update to a negative number of replicas, on
    which [SplitReplicas], and so the controller that grabs the lock, panics. *)
Theorem negative_replicas_accepted :
  ScaleView_ValidateUpdate (ex_valid [policy "" 0 None] 1) (ex_valid [policy "" 0 None] (-1))
    = None /\
  SplitReplicas (ex_valid [policy "" 0 None] (-1)) = Panic "algorithm has bug".
Proof. vm_compute. split; reflexivity. Qed.
