(* ===== verification/ScaleViewManager.v ===== *)
(** * pkg/manager/risingwave_scale_view_controller_manager_impl.go

    The actions of the scale view controller: grab or update the lock in the target
    RisingWave, write the locked replicas into its spec, and report the running
    replicas back. An action takes the reply of the API server to the request it may
    send and returns its verdict for [ctrlkit], the requests it sent, the manager and
    the target as they are left in memory. *)

From S2P Require Import Prelude GoStrings ApiTypes ApiErrors SplitReplicas ScaleLock ScaleHelper.

(** ** Definitions *)

Record risingWaveScaleViewControllerManagerImpl := {
  svm_scaleView : RisingWaveScaleView;
  svm_scaleViewStatusCopy : RisingWaveScaleViewStatus;
}.

Inductive sv_request :=
| UpdateScaleViewStatusRequest (sv : RisingWaveScaleView)
| UpdateRisingWaveStatusRequest (rw : RisingWave)
| PatchRisingWaveRequest (rw original : RisingWave).

Record sv_action_result := {
  sar_result : ctrl_result;
  sar_requests : list sv_request;
  sar_manager : risingWaveScaleViewControllerManagerImpl;
  sar_target : option RisingWave;
}.

Definition NewRisingWaveScaleViewControllerManagerImpl (sv : RisingWaveScaleView)
  : risingWaveScaleViewControllerManagerImpl :=
  {| svm_scaleView := sv; svm_scaleViewStatusCopy := sv_Status sv |}.

Definition set_svm_status (st : RisingWaveScaleViewStatus)
    (mgr : risingWaveScaleViewControllerManagerImpl) :=
  {| svm_scaleView := set_sv_Status st (svm_scaleView mgr);
     svm_scaleViewStatusCopy := svm_scaleViewStatusCopy mgr |}.

Definition isStatusChanged (mgr : risingWaveScaleViewControllerManagerImpl) : bool :=
  negb (bool_decide (sv_Status (svm_scaleView mgr) = svm_scaleViewStatusCopy mgr)).

Definition isTargetObjMatched (mgr : risingWaveScaleViewControllerManagerImpl)
    (targetObj : option RisingWave) : bool :=
  match targetObj with
  | None => false
  | Some rw => bool_decide (om_UID (rw_Meta rw) = tr_UID (sv_TargetRef (svm_scaleView mgr)))
  end.

Definition UpdateScaleViewStatus (mgr : risingWaveScaleViewControllerManagerImpl)
    (reply : option api_error) (target : option RisingWave) : sv_action_result :=
  if isStatusChanged mgr then
    {| sar_result := RequeueIfErrorAndWrap "unable to update status of risingwavescaleview" reply;
       sar_requests := [UpdateScaleViewStatusRequest (svm_scaleView mgr)];
       sar_manager := mgr; sar_target := target |}
  else {| sar_result := Continue; sar_requests := []; sar_manager := mgr; sar_target := target |}.

Definition GrabOrUpdateScaleViewLock (mgr : risingWaveScaleViewControllerManagerImpl)
    (targetObj : option RisingWave) (reply : option api_error) : outcome sv_action_result :=
  let done r reqs mgr' t :=
    Done {| sar_result := r; sar_requests := reqs; sar_manager := mgr'; sar_target := t |} in
  match targetObj with
  | Some rw =>
      if isTargetObjMatched mgr targetObj then
        g ← GrabOrUpdateScaleViewLockFor rw (svm_scaleView mgr);
        match g with
        | ((_, Some err), rw') =>
            done (RequeueIfErrorAndWrap "unable to grab or update lock" (Some (PlainError err)))
              [] mgr (Some rw')
        | ((true, None), rw') =>
            let reqs := [UpdateRisingWaveStatusRequest rw'] in
            match reply with
            | Some e =>
                done (RequeueIfErrorAndWrap "unable to update the status of RisingWave" (Some e))
                  reqs mgr (Some rw')
            | None =>
                done RequeueImmediately reqs
                  (set_svm_status {| svst_Replicas := svst_Replicas (sv_Status (svm_scaleView mgr));
                                     svst_Locked := true |} mgr)
                  (Some rw')
            end
        | ((false, None), rw') => done Continue [] mgr (Some rw')
        end
      else done Continue [] mgr targetObj
  | None => done Continue [] mgr None
  end.

(** The loop over the group locks: whether anything changed, and the RisingWave. *)
Fixpoint write_group_locks (component : string) (gls : list RisingWaveScaleViewLockGroupLock)
    (changed : bool) (rw : RisingWave) : outcome (bool * RisingWave) :=
  match gls with
  | [] => Done (changed, rw)
  | gl :: gls' =>
      '(updated, rw') ← WriteReplicas rw component (gl_Name gl) (gl_Replicas gl);
      write_group_locks component gls' (changed || updated) rw'
  end.

Definition SyncGroupReplicasToRisingWave (mgr : risingWaveScaleViewControllerManagerImpl)
    (targetObj : option RisingWave) (reply : option api_error) : outcome sv_action_result :=
  let done r reqs t :=
    Done {| sar_result := r; sar_requests := reqs; sar_manager := mgr; sar_target := t |} in
  match targetObj with
  | Some rw =>
      if isTargetObjMatched mgr targetObj then
        let sv := svm_scaleView mgr in
        match GetScaleViewLock rw sv with
        | Some lockObj =>
            if decide (lk_Generation lockObj = sv_Generation sv) then
              '(changed, rw') ← write_group_locks (tr_Component (sv_TargetRef sv))
                                  (lk_GroupLocks lockObj) false rw;
              if changed : bool then
                match reply with
                | Some e =>
                    done (RequeueIfErrorAndWrap "unable to update the replicas of RisingWave"
                            (Some e)) [PatchRisingWaveRequest rw' rw] (Some rw')
                | None => done Continue [PatchRisingWaveRequest rw' rw] (Some rw')
                end
              else done Continue [] (Some rw')
            else done (RequeueAfter 5) [] targetObj
        | None => done (RequeueAfter 5) [] targetObj
        end
      else done Continue [] targetObj
  | None => done Continue [] None
  end.

Definition component_status (rw : RisingWave) (component : string)
  : option ComponentReplicasStatus :=
  let s := st_ComponentReplicas (rw_Status rw) in
  if bool_decide (component = ComponentMeta) then Some (rs_Meta s)
  else if bool_decide (component = ComponentFrontend) then Some (rs_Frontend s)
  else if bool_decide (component = ComponentCompactor) then Some (rs_Compactor s)
  else if bool_decide (component = ComponentCompute) then Some (rs_Compute s)
  else None.

(** [lo.Find] returns the zero value when nothing is found. *)
Definition readRunningReplicas (rw : RisingWave) (component group : string) : outcome Z :=
  match component_status rw component with
  | Some cs =>
      Done match find_index (fun g => bool_decide (gs_Name g = group)) (cs_Groups cs) with
           | Some (_, g) => gs_Running g
           | None => 0%Z
           end
  | None =>
      if bool_decide (component = ComponentStandalone) then Panic "not supported"
      else Panic "unexpected"
  end.

Fixpoint sum_running (rw : RisingWave) (component : string)
    (ps : list RisingWaveScaleViewSpecScalePolicy) (replicas : Z) : outcome Z :=
  match ps with
  | [] => Done replicas
  | p :: ps' =>
      r ← readRunningReplicas rw component (sp_Group p);
      sum_running rw component ps' (int32 (replicas + r))
  end.

Definition SyncGroupReplicasStatusFromRisingWave
    (mgr : risingWaveScaleViewControllerManagerImpl) (targetObj : option RisingWave)
  : outcome sv_action_result :=
  let sv := svm_scaleView mgr in
  let done st := Done {| sar_result := Continue; sar_requests := [];
                         sar_manager := set_svm_status st mgr; sar_target := targetObj |} in
  match targetObj with
  | Some rw =>
      if isTargetObjMatched mgr targetObj then
        replicas ← sum_running rw (tr_Component (sv_TargetRef sv)) (sv_ScalePolicy sv) 0;
        done {| svst_Replicas := Some replicas; svst_Locked := svst_Locked (sv_Status sv) |}
      else done {| svst_Replicas := Some 0%Z; svst_Locked := false |}
  | None => done {| svst_Replicas := Some 0%Z; svst_Locked := false |}
  end.

(** ** Lemmas *)

Lemma write_group_locks_spec c gls b rw :
  known_component c -> NoDup (gl_Name <$> gls) ->
  exists b' rw', write_group_locks c gls b rw = Done (b', rw') /\
    (b' = false -> b = false /\ rw' = rw) /\
    rw_Status rw' = rw_Status rw /\ rw_Meta rw' = rw_Meta rw /\
    (forall gl, gl ∈ gls ->
       replicas_of rw' c (gl_Name gl) = (fun _ => gl_Replicas gl) <$> replicas_of rw c (gl_Name gl)) /\
    (forall c' g, c' <> c \/ g ∉ gl_Name <$> gls -> replicas_of rw' c' g = replicas_of rw c' g).
Proof.
  intros Hc. revert b rw. induction gls as [|gl gls IH]; intros b rw Hnd; cbn [write_group_locks].
  { exists b, rw. split; [done|]. split; [done|]. split; [done|]. split; [done|].
    split; [|done]. intros gl Hgl. by apply not_elem_of_nil in Hgl. }
  apply NoDup_cons in Hnd as [Hg Hnd].
  destruct (WriteReplicas_total rw c (gl_Name gl) (gl_Replicas gl) Hc) as (u & rw1 & Hw).
  rewrite Hw. run_monad. pose proof (WriteReplicas_same _ _ _ _ _ _ Hw) as (Hs & Hst & Hme).
  pose proof (fun c' g' => replicas_of_WriteReplicas _ _ _ _ _ _ c' g' Hw) as Hr.
  destruct (IH (b || u) rw1 Hnd) as (b' & rw' & -> & Hb & Hst' & Hme' & Hin & Hout).
  exists b', rw'. split; [done|]. split; [|split; [congruence|split; [congruence|split]]].
  - intros [[-> ->]%orb_false_iff ->]%Hb. auto.
  - intros gl' [->|Hgl']%elem_of_cons.
    + rewrite Hout by auto. rewrite Hr. by rewrite decide_True.
    + rewrite (Hin _ Hgl'), Hr, decide_False; [done|]. intros [_ Heq].
      apply Hg. rewrite <-Heq. by apply list_elem_of_fmap_2.
  - intros c' g H. rewrite Hout, Hr, decide_False; [done| |].
    + intros [-> ->]. destruct H as [H|H]; [done|]. apply H. cbn. by left.
    + destruct H as [H|H]; [by left|right]. intros Hin'. apply H. cbn. by right.
Qed.

Lemma component_status_known rw c : known_component c -> is_Some (component_status rw c).
Proof.
  unfold known_component. rewrite !elem_of_cons, elem_of_nil.
  intros [->|[->|[->|[->|[]]]]]; eexists; reflexivity.
Qed.

(** The running replicas of a group. *)
Definition running_of (rw : RisingWave) (c g : string) : Z :=
  match readRunningReplicas rw c g with Done r => r | Panic _ => 0%Z end.

Lemma sum_running_spec rw c ps a :
  known_component c -> in_int32 a ->
  sum_running rw c ps a =
  Done (int32 (a + Zsum ((fun p => running_of rw c (sp_Group p)) <$> ps))).
Proof.
  intros Hc. revert a. induction ps as [|p ps IH]; intros a Ha; cbn [sum_running].
  { cbn. by rewrite Z.add_0_r, int32_id. }
  destruct (component_status_known rw c Hc) as [cs Hcs].
  rewrite fmap_cons. change (Zsum (?x :: ?l)) with (x + Zsum l)%Z.
  unfold running_of at 1, readRunningReplicas. rewrite Hcs. run_monad.
  rewrite IH by apply int32_range. by rewrite int32_add_l, <-Z.add_assoc.
Qed.

Lemma grab_action_inv mgr rw reply res rw' :
  GrabOrUpdateScaleViewLock mgr (Some rw) reply = Done res ->
  sar_result res = RequeueImmediately -> sar_target res = Some rw' ->
  isTargetObjMatched mgr (Some rw) = true /\ reply = None /\
  GrabOrUpdateScaleViewLockFor rw (svm_scaleView mgr) = Done ((true, None), rw') /\
  sar_requests res = [UpdateRisingWaveStatusRequest rw'].
Proof.
  unfold GrabOrUpdateScaleViewLock. destruct (isTargetObjMatched mgr (Some rw)) eqn:Hm;
    [|by intros [= <-]]. run_monad.
  destruct (GrabOrUpdateScaleViewLockFor rw (svm_scaleView mgr)) as [[[b [e|]] rw1]|] eqn:Hg;
    [by destruct b; intros [= <-]| |done].
  destruct b; [|by intros [= <-]]. destruct reply as [e|]; intros [= <-]; [done|].
  intros _ [= <-]. done.
Qed.

Lemma grab_manager mgr rw reply res :
  GrabOrUpdateScaleViewLock mgr (Some rw) reply = Done res ->
  sar_result res = RequeueImmediately -> exists st, sar_manager res = set_svm_status st mgr.
Proof.
  unfold GrabOrUpdateScaleViewLock. destruct (isTargetObjMatched mgr (Some rw));
    [|by intros [= <-]]. run_monad.
  destruct (GrabOrUpdateScaleViewLockFor rw (svm_scaleView mgr)) as [[[b [e|]] rw1]|];
    [by destruct b; intros [= <-]| |done].
  destruct b; [|by intros [= <-]]. destruct reply as [e|]; intros [= <-]; [done|].
  intros _. cbn. eauto.
Qed.

Lemma sync_action_matched mgr rw reply l :
  isTargetObjMatched mgr (Some rw) = true ->
  known_component (tr_Component (sv_TargetRef (svm_scaleView mgr))) ->
  GetScaleViewLock rw (svm_scaleView mgr) = Some l ->
  lk_Generation l = sv_Generation (svm_scaleView mgr) -> NoDup (lock_groups l) ->
  exists res rw', SyncGroupReplicasToRisingWave mgr (Some rw) reply = Done res /\
    sar_target res = Some rw' /\ sar_manager res = mgr /\
    (sar_requests res = [] /\ rw' = rw \/ sar_requests res = [PatchRisingWaveRequest rw' rw]) /\
    rw_Status rw' = rw_Status rw /\
    (forall gl, gl ∈ lk_GroupLocks l ->
       replicas_of rw' (tr_Component (sv_TargetRef (svm_scaleView mgr))) (gl_Name gl) =
       (fun _ => gl_Replicas gl) <$>
         replicas_of rw (tr_Component (sv_TargetRef (svm_scaleView mgr))) (gl_Name gl)) /\
    (forall c g, c <> tr_Component (sv_TargetRef (svm_scaleView mgr)) \/ g ∉ lock_groups l ->
       replicas_of rw' c g = replicas_of rw c g).
Proof.
  intros Hm Hc Hl Hg Hnd.
  destruct (write_group_locks_spec _ (lk_GroupLocks l) false rw Hc Hnd)
    as (b & rw' & Hw & Hb & Hst & _ & Hin & Hout).
  unfold SyncGroupReplicasToRisingWave. rewrite Hm, Hl, decide_True, Hw by done. run_monad.
  destruct b; [destruct reply|]; (eexists _, rw'; split; [reflexivity|]); cbn;
    repeat split; auto.
  left. split; [done|]. by apply Hb.
Qed.

(** What the replicas of a patched RisingWave are, by the lock [l] of the view. *)
Definition locked_replicas (sv : RisingWaveScaleView) (l : RisingWaveScaleViewLock)
    (rw rw' : RisingWave) : Prop :=
  (forall gl, gl ∈ lk_GroupLocks l ->
     replicas_of rw' (tr_Component (sv_TargetRef sv)) (gl_Name gl) =
     (fun _ => gl_Replicas gl) <$> replicas_of rw (tr_Component (sv_TargetRef sv)) (gl_Name gl)) /\
  (forall c g, c <> tr_Component (sv_TargetRef sv) \/ g ∉ lock_groups l ->
     replicas_of rw' c g = replicas_of rw c g).

(** A lock with the replicas of the current specification: its groups together get them all. *)
Lemma locked_total sv l m rw rw' :
  scaleview_ok sv -> SplitReplicas sv = Done m -> lk_GroupLocks l = group_locks sv m ->
  (forall g, g ∈ sv_Groups sv -> is_Some (replicas_of rw (tr_Component (sv_TargetRef sv)) g)) ->
  locked_replicas sv l rw rw' ->
  Zsum ((fun g => default 0%Z (replicas_of rw' (tr_Component (sv_TargetRef sv)) g)) <$> sv_Groups sv) =
    default 0%Z (svs_Replicas (sv_Spec sv)).
Proof.
  intros Hsv Hsplit Hgl Hex [Hin _].
  pose proof (SplitReplicas_group_total sv m Hsv Hsplit) as Hd. unfold desired in Hd. rewrite <-Hd.
  unfold sv_Groups at 1. rewrite <-list_fmap_compose. f_equal. apply list_fmap_ext.
  intros i p Hp. cbn. apply list_elem_of_lookup_2 in Hp.
  assert ({| gl_Name := sp_Group p; gl_Replicas := default 0%Z (m !! sp_Group p) |}
          ∈ lk_GroupLocks l) as Hin'.
  { rewrite Hgl. apply list_elem_of_fmap. by exists p. }
  apply Hin in Hin'. cbn in Hin'. rewrite Hin'.
  destruct (Hex (sp_Group p)) as [r ->]; [by apply list_elem_of_fmap_2|]. done.
Qed.

(** ** Properties *)

(** Syncing the replicas of a scale view that holds a current lock gives every
    locked group that exists its locked number of replicas and leaves every other group
    and the status alone; a patch is sent unless nothing changed. *)
Theorem SyncGroupReplicasToRisingWave_spec mgr rw reply l :
  isTargetObjMatched mgr (Some rw) = true ->
  known_component (tr_Component (sv_TargetRef (svm_scaleView mgr))) ->
  GetScaleViewLock rw (svm_scaleView mgr) = Some l ->
  lk_Generation l = sv_Generation (svm_scaleView mgr) -> NoDup (lock_groups l) ->
  exists res rw', SyncGroupReplicasToRisingWave mgr (Some rw) reply = Done res /\
    sar_target res = Some rw' /\ sar_manager res = mgr /\
    (sar_requests res = [] /\ rw' = rw \/ sar_requests res = [PatchRisingWaveRequest rw' rw]) /\
    rw_Status rw' = rw_Status rw /\
    (forall gl, gl ∈ lk_GroupLocks l ->
       replicas_of rw' (tr_Component (sv_TargetRef (svm_scaleView mgr))) (gl_Name gl) =
       (fun _ => gl_Replicas gl) <$>
         replicas_of rw (tr_Component (sv_TargetRef (svm_scaleView mgr))) (gl_Name gl)) /\
    (forall c g, c <> tr_Component (sv_TargetRef (svm_scaleView mgr)) \/ g ∉ lock_groups l ->
       replicas_of rw' c g = replicas_of rw c g).
Proof. apply sync_action_matched. Qed.

(** End to end: after the controller grabs (or updates) the lock and syncs, the
    groups of the scale view together run exactly the desired number of replicas. *)
Theorem grab_then_sync_total mgr rw res1 rw1 reply :
  let sv := svm_scaleView mgr in
  let c := tr_Component (sv_TargetRef sv) in
  scaleview_ok sv -> known_component c -> locks_ok (locks rw) ->
  (forall l, GetScaleViewLock rw sv = Some l -> lock_groups l ≡ₚ sv_Groups sv) ->
  (forall g, g ∈ sv_Groups sv -> is_Some (replicas_of rw c g)) ->
  GrabOrUpdateScaleViewLock mgr (Some rw) None = Done res1 ->
  sar_result res1 = RequeueImmediately -> sar_target res1 = Some rw1 ->
  exists res2 rw2, SyncGroupReplicasToRisingWave (sar_manager res1) (Some rw1) reply = Done res2 /\
    sar_target res2 = Some rw2 /\
    Zsum ((fun g => default 0%Z (replicas_of rw2 c g)) <$> sv_Groups sv) =
      default 0%Z (svs_Replicas (sv_Spec sv)).
Proof.
  intros sv c Hsv Hc Hok Hgr Hex H Hres Ht.
  assert (exists st, sar_manager res1 = set_svm_status st mgr) as [st ->].
  { eapply grab_manager; eassumption. }
  destruct (grab_action_inv _ _ _ _ _ H Hres Ht) as (Hm & _ & Hg & _).
  assert (rw_Meta rw1 = rw_Meta rw /\ rw_Spec rw1 = rw_Spec rw) as [Hme Hsp].
  { eapply GrabOrUpdate_frame, Hg. }
  assert (locks_ok (locks rw1)) as Hok1 by (eapply update_locks_ok; eassumption).
  destruct (GrabOrUpdate_lock _ _ _ Hg) as (m & l & Hsplit & Hl & Hn & Hu & Hgen & Hgl).
  assert (lock_groups l = sv_Groups sv) as Hlg.
  { unfold lock_groups. rewrite Hgl. apply lock_groups_of_view. }
  destruct (sync_action_matched (set_svm_status st mgr) rw1 reply l)
    as (res2 & rw2 & -> & Ht2 & _ & _ & _ & Hin & Hout).
  - unfold isTargetObjMatched in *. by rewrite Hme.
  - done.
  - by apply GetScaleViewLock_Some.
  - done.
  - rewrite Hlg. apply Hsv.
  - exists res2, rw2. split; [done|]. split; [done|].
    apply (locked_total sv l m rw1 rw2 Hsv Hsplit Hgl); [|by split].
    intros g Hg'. unfold replicas_of, node_groups. rewrite Hsp. by apply Hex.
Qed.

(** The status a scale view reports is the (32-bit) sum of the running replicas of
    its groups when the target matches, and zero replicas without a lock when the target
    is gone or is another object. *)
Theorem SyncGroupReplicasStatus_spec mgr target :
  known_component (tr_Component (sv_TargetRef (svm_scaleView mgr))) ->
  exists res, SyncGroupReplicasStatusFromRisingWave mgr target = Done res /\
    sar_result res = Continue /\ sar_target res = target /\
    let st := sv_Status (svm_scaleView (sar_manager res)) in
    let sv := svm_scaleView mgr in
    match target with
    | Some rw =>
        if isTargetObjMatched mgr target then
          svst_Replicas st = Some (int32 (Zsum ((fun p =>
            running_of rw (tr_Component (sv_TargetRef sv)) (sp_Group p)) <$> sv_ScalePolicy sv))) /\
          svst_Locked st = svst_Locked (sv_Status sv)
        else svst_Replicas st = Some 0%Z /\ svst_Locked st = false
    | None => svst_Replicas st = Some 0%Z /\ svst_Locked st = false
    end.
Proof.
  intros Hc. unfold SyncGroupReplicasStatusFromRisingWave.
  destruct target as [rw|]; [|eexists; split; [reflexivity|done]].
  destruct (isTargetObjMatched mgr (Some rw)); [|eexists; split; [reflexivity|done]].
  rewrite sum_running_spec by (done || (vm_compute; split; congruence)). run_monad.
  eexists. split; [reflexivity|]. done.
Qed.

(** The lock is taken on the server: the scale view is marked as locked only after
    the status update it sends has succeeded; a conflict sends nothing and is retried. *)
Theorem GrabOrUpdateScaleViewLock_locked mgr rw reply res :
  GrabOrUpdateScaleViewLock mgr (Some rw) reply = Done res ->
  sar_manager res <> mgr ->
  reply = None /\ sar_result res = RequeueImmediately /\
  exists rw', GrabOrUpdateScaleViewLockFor rw (svm_scaleView mgr) = Done ((true, None), rw') /\
    sar_requests res = [UpdateRisingWaveStatusRequest rw'] /\
    svst_Locked (sv_Status (svm_scaleView (sar_manager res))) = true.
Proof.
  unfold GrabOrUpdateScaleViewLock. destruct (isTargetObjMatched mgr (Some rw));
    [|by intros [= <-]]. run_monad.
  destruct (GrabOrUpdateScaleViewLockFor rw (svm_scaleView mgr)) as [[[b [e|]] rw1]|] eqn:Hg;
    [by destruct b; intros [= <-]| |done].
  destruct b; [|by intros [= <-]]. destruct reply as [e|]; intros [= <-]; [done|].
  intros _. repeat split. by exists rw1.
Qed.

(** ** Examples *)

Definition ex_mgr : risingWaveScaleViewControllerManagerImpl :=
  NewRisingWaveScaleViewControllerManagerImpl
    {| sv_Meta := {| om_Name := "sv"; om_Namespace := "ns"; om_UID := "sv-uid";
                     om_Generation := 1; om_Labels := ∅; om_Annotations := ∅;
                     om_Finalizers := []; om_Deleted := false |};
       sv_Spec := {| svs_TargetRef := {| tr_Name := "rw"; tr_Component := ComponentMeta;
                                         tr_UID := "" |};
                     svs_Replicas := Some 7%Z; svs_LabelSelector := "";
                     svs_ScalePolicy := [policy "" 0 None; policy "big" 1 (Some 2%Z)] |};
       sv_Status := {| svst_Replicas := None; svst_Locked := false |} |}.

Definition ex_grabbed : sv_action_result :=
  match GrabOrUpdateScaleViewLock ex_mgr (Some ex_rw) None with
  | Done r => r
  | Panic _ => {| sar_result := Exit; sar_requests := []; sar_manager := ex_mgr;
                  sar_target := None |}
  end.

Definition ex_locked_rw : RisingWave := default zero_risingwave (sar_target ex_grabbed).

Lemma SyncGroupReplicasToRisingWave_spec_witness :
  exists res, SyncGroupReplicasToRisingWave ex_mgr (Some ex_locked_rw) None = Done res /\
    sar_manager res = ex_mgr.
Proof.
  edestruct (SyncGroupReplicasToRisingWave_spec ex_mgr ex_locked_rw None)
    as (res & rw' & H & _ & Hm & _).
  - vm_compute. reflexivity.
  - left.
  - vm_compute. reflexivity.
  - vm_compute. reflexivity.
  - apply (bool_decide_unpack _). vm_compute. exact I.
  - exists res. split; [exact H|exact Hm].
Defined.

Lemma grab_then_sync_total_witness :
  exists res2 rw2, SyncGroupReplicasToRisingWave (sar_manager ex_grabbed) (Some ex_locked_rw) None
    = Done res2 /\ sar_target res2 = Some rw2 /\
    Zsum ((fun g => default 0%Z (replicas_of rw2 ComponentMeta g)) <$> [""; "big"]%string) = 7%Z.
Proof.
  apply (grab_then_sync_total ex_mgr ex_rw ex_grabbed ex_locked_rw None).
  - constructor.
    + apply (bool_decide_unpack _). vm_compute. exact I.
    + repeat constructor; vm_compute; congruence.
    + vm_compute. congruence.
    + split; vm_compute; congruence.
  - left.
  - intros i j a b H. vm_compute in H. destruct i; discriminate H.
  - intros l H. vm_compute in H. discriminate H.
  - apply (Forall_forall (fun g => is_Some (replicas_of ex_rw ComponentMeta g))).
    repeat constructor; eexists; vm_compute; reflexivity.
  - vm_compute. reflexivity.
  - vm_compute. reflexivity.
  - vm_compute. reflexivity.
Defined.

Lemma SyncGroupReplicasStatus_spec_witness :
  exists res, SyncGroupReplicasStatusFromRisingWave ex_mgr None = Done res /\
    sar_result res = Continue.
Proof.
  destruct (SyncGroupReplicasStatus_spec ex_mgr None) as (res & H & Hr & _); [left|].
  exists res. split; [exact H|exact Hr].
Defined.

Lemma GrabOrUpdateScaleViewLock_locked_witness :
  svst_Locked (sv_Status (svm_scaleView (sar_manager ex_grabbed))) = true.
Proof.
  destruct (GrabOrUpdateScaleViewLock_locked ex_mgr ex_rw None ex_grabbed)
    as (_ & _ & rw' & _ & _ & H); [vm_compute; reflexivity|vm_compute; discriminate|exact H].
Defined.
