(* ===== verification/RisingWaveWebhook.v ===== *)
(** * The webhooks of RisingWave

    [pkg/webhook/risingwave_validating_webhook.go] and
    [pkg/webhook/risingwave_mutating_webhook.go]. The image reference regexp, the
    DNS-1123 check and the comparison of resource quantities are third-party code: they
    are variables of the section. So are the two values the mutating webhook asks for:
    whether the feature is enabled and 16 random bytes in hexadecimal. *)

From S2P Require Import Prelude GoStrings ApiTypes ApiErrors ScaleHelper.

(** ** Definitions: the standard library *)

(** [strconv.ParseBool]; the value is [false] together with the error. *)
Definition ParseBool (s : string) : bool :=
  bool_decide (s ∈ ["1"; "t"; "T"; "TRUE"; "true"; "True"]%string).

(** ** Definitions: the mutating webhook *)

Definition set_ss_DataDirectory (d : string) (s : RisingWaveStateStoreBackend)
  : RisingWaveStateStoreBackend :=
  {| ss_DataDirectory := d; ss_Memory := ss_Memory s; ss_LocalDisk := ss_LocalDisk s;
     ss_MinIO := ss_MinIO s; ss_S3 := ss_S3 s; ss_GCS := ss_GCS s;
     ss_AliyunOSS := ss_AliyunOSS s; ss_AzureBlob := ss_AzureBlob s; ss_HDFS := ss_HDFS s;
     ss_WebHDFS := ss_WebHDFS s; ss_HuaweiCloudOBS := ss_HuaweiCloudOBS s |}.

Definition clean_directory (d : string) : string := TrimRight (TrimSpace d) "/".

Definition default_private_key (enabled : bool) (random : string)
    (pk : RisingWaveSecretStorePrivateKey) : RisingWaveSecretStorePrivateKey :=
  if enabled && bool_decide (pk_Value pk = None) && bool_decide (pk_SecretRef pk = None)
  then {| pk_Value := Some random; pk_SecretRef := pk_SecretRef pk |} else pk.

Definition RisingWave_Default (enabled : bool) (random : string) (rw : RisingWave) : RisingWave :=
  let s := rw_Spec rw in
  set_rw_Spec
    (set_rws_Stores
       (set_ss_DataDirectory (clean_directory (ss_DataDirectory (rws_StateStore s)))
          (rws_StateStore s))
       {| sec_PrivateKey := default_private_key enabled random
                              (sec_PrivateKey (rws_SecretStore s)) |} s) rw.

(** ** Definitions: the validating webhook *)

Definition systemEnv (name : string) : bool :=
  bool_decide (name ∈ ["POD_IP"; "POD_NAME"; "POD_NAMESPACE"; "RUST_BACKTRACE";
                       "RW_WORKER_THREADS"; "JAVA_OPTS"]%string).

Definition isBypassed (annotations : gmap string string) : bool :=
  match annotations !! AnnotationBypassValidatingWebhook with
  | None => false
  | Some v => ParseBool v
  end.

Definition nodeGroupPartitionExistAndIsString (ng : RisingWaveNodeGroup) : bool :=
  match us_RollingUpdate (ng_UpgradeStrategy ng) with
  | None => false
  | Some ru => match ru_Partition ru with Some (StrVal _) => true | _ => false end
  end.

(** [UpgradeStrategy.RollingUpdate.Partition.StrVal], when the above holds. *)
Definition partition_string (ng : RisingWaveNodeGroup) : string :=
  match us_RollingUpdate (ng_UpgradeStrategy ng) with
  | Some {| ru_Partition := Some (StrVal s) |} => s
  | _ => ""
  end.

Definition ptrValueNotZero {T} `{EqDecision T} (zero : T) (p : option T) : bool :=
  match p with None => false | Some v => negb (bool_decide (v = zero)) end.

Definition zero_etcd : RisingWaveMetaStoreBackendEtcd :=
  {| etcd_Credentials := None; etcd_Endpoint := ""; etcd_Secret := "" |}.
Definition zero_sqlite : RisingWaveMetaStoreBackendSQLite := {| sqlite_Path := "" |}.
Definition zero_db_credentials : RisingWaveDBCredentials :=
  {| dbc_SecretName := ""; dbc_UsernameKeyRef := ""; dbc_PasswordKeyRef := "" |}.
Definition zero_mysql : RisingWaveMetaStoreBackendMySQL :=
  {| my_Credentials := zero_db_credentials; my_Host := ""; my_Port := 0; my_Database := "";
     my_Options := ∅ |}.
Definition zero_postgresql : RisingWaveMetaStoreBackendPostgreSQL :=
  {| pg_Credentials := zero_db_credentials; pg_Host := ""; pg_Port := 0; pg_Database := "";
     pg_Options := ∅ |}.

(** [p != nil]. *)
Definition is_set {A} (o : option A) : bool := match o with Some _ => true | None => false end.

Definition meta_store_flags (ms : RisingWaveMetaStoreBackend) : list bool :=
  [ptrValueNotZero false (ms_Memory ms); ptrValueNotZero zero_etcd (ms_Etcd ms);
   ptrValueNotZero zero_sqlite (ms_SQLite ms); ptrValueNotZero zero_mysql (ms_MySQL ms);
   ptrValueNotZero zero_postgresql (ms_PostgreSQL ms)].

Definition state_store_flags (ss : RisingWaveStateStoreBackend) : list bool :=
  [ptrValueNotZero false (ss_Memory ss); is_set (ss_MinIO ss); is_set (ss_S3 ss);
   is_set (ss_GCS ss); is_set (ss_AliyunOSS ss); is_set (ss_AzureBlob ss);
   is_set (ss_HDFS ss); is_set (ss_WebHDFS ss); is_set (ss_LocalDisk ss);
   is_set (ss_HuaweiCloudOBS ss)].

Definition count_errors (n : nat) (path none many : string) : list field_error :=
  if Nat.eqb n 0 then [Invalid path none] else if Nat.ltb 1 n then [Invalid path many] else [].

Definition s3_errors (path : string) (ss : RisingWaveStateStoreBackend) : list field_error :=
  match ss_S3 ss with
  | None => []
  | Some s3 =>
      let c := s3_Credentials s3 in
      if Nat.ltb 0 (String.length (s3_Endpoint s3)) then
        err_if (bool_decide (s3c_SecretName c = ""))
          (Required (path +:+ ".stateStore.s3.credentials.secretName") "secretName is required")
      else
        err_if (negb (default false (s3c_UseServiceAccount c)) && bool_decide (s3c_SecretName c = ""))
          (Invalid (path +:+ ".stateStore.s3.credentials")
             "either secretName or useServiceAccount must be specified")
  end.

(** The error reports [stateStore.S3.SecretName], which is a nil dereference when no S3
    store is set. *)
Definition azure_errors (path : string) (ss : RisingWaveStateStoreBackend)
  : outcome (list field_error) :=
  match ss_AzureBlob ss with
  | None => Done []
  | Some az =>
      if negb (default false (azc_UseServiceAccount (az_Credentials az))) &&
         bool_decide (azc_SecretName (az_Credentials az) = "") then
        match ss_S3 ss with
        | None => Panic "nil pointer dereference"
        | Some _ => Done [Invalid (path +:+ ".stateStore.azureBlob.credentials")
                            "either secretName or useServiceAccount must be specified"]
        end
      else Done []
  end.

Definition gcs_errors (path : string) (ss : RisingWaveStateStoreBackend) : list field_error :=
  match ss_GCS ss with
  | None => []
  | Some g =>
      err_if (negb (default false (gcsc_UseWorkloadIdentity (gcs_Credentials g))) &&
              bool_decide (gcsc_SecretName (gcs_Credentials g) = ""))
        (Invalid (path +:+ ".stateStore.gcs.credentials")
           "either secretName or useWorkloadIdentity must be specified")
  end.

Definition bad_directory (d : string) : bool :=
  HasSuffix d "/" || HasPrefix d "/" || Contains d "//" || Nat.ltb 800 (String.length d).

Definition validateMetaStoreAndStateStore (path : string) (ms : RisingWaveMetaStoreBackend)
    (ss : RisingWaveStateStoreBackend) : outcome (list field_error) :=
  azure ← azure_errors path ss;
  mret (count_errors (count_by id (meta_store_flags ms)) (path +:+ ".metaStore")
          "must configure the meta store" "multiple meta store types" ++
        s3_errors path ss ++ azure ++ gcs_errors path ss ++
        count_errors (count_by id (state_store_flags ss)) (path +:+ ".stateStore")
          "must configure the state store" "multiple state store types" ++
        err_if (bad_directory (ss_DataDirectory ss))
          (Invalid (path +:+ ".stateStore.dataDirectory") "must be a valid path")).

Definition validateConfiguration (path : string)
    (cm : option RisingWaveNodeConfigurationConfigMapSource) : list field_error :=
  match cm with
  | None => []
  | Some c =>
      if bool_decide (cm_Name c = "") then [Required (path +:+ ".configmap.name") "must be specified"]
      else err_if (bool_decide (cm_Key c = ""))
             (Required (path +:+ ".configmap.key") "must be specified")
  end.

Definition validateMetaReplicas (rw : RisingWave) : list field_error :=
  if negb (default false (ms_Memory (rws_MetaStore (rw_Spec rw)))) then []
  else
    let metaReplicas :=
      sum_int32 (ng_Replicas <$> comp_NodeGroups (cps_Meta (rws_Components (rw_Spec rw)))) in
    err_if (bool_decide (1 < metaReplicas)%Z)
      (Forbidden "spec.components.meta" "meta with replicas over 1 isn't allowed").

Definition validateSecretStore (rw : RisingWave) : list field_error :=
  let pk := sec_PrivateKey (rws_SecretStore (rw_Spec rw)) in
  err_if (is_set (pk_Value pk) && is_set (pk_SecretRef pk))
    (Forbidden "spec.secretStore.privateKey" "both value and secretRef are set").

Definition isMetaStoresTheSame (old new : RisingWave) : bool :=
  bool_decide (rws_MetaStore (rw_Spec old) = rws_MetaStore (rw_Spec new)).
Definition isStateStoresTheSame (old new : RisingWave) : bool :=
  bool_decide (rws_StateStore (rw_Spec old) = rws_StateStore (rw_Spec new)).

Definition isPrivateKeySet (store : RisingWaveSecretStore) : bool :=
  is_set (pk_Value (sec_PrivateKey store)) || is_set (pk_SecretRef (sec_PrivateKey store)).

Definition isSecretStoreChangeAllowed (old new : RisingWave) : bool :=
  let oldStore := rws_SecretStore (rw_Spec old) in
  let newStore := rws_SecretStore (rw_Spec new) in
  if negb (isPrivateKeySet oldStore) then true
  else bool_decide (sec_PrivateKey oldStore = sec_PrivateKey newStore).

Definition pathForGroupReplicas (rw : RisingWave) (component group : string) : outcome string :=
  '(i, _) ← GetGroupIndex rw component group;
  mret (index_path ("spec.components." +:+ component +:+ ".nodeGroups") i +:+ ".replicas").

(** The loop over the group locks of one scale view, with its two counters. *)
Fixpoint check_group_locks (old new : RisingWave) (component : string)
    (gls : list RisingWaveScaleViewLockGroupLock) (unchangedCnt updateCnt : nat)
    (fieldErrs : list field_error) : outcome (list field_error) :=
  match gls with
  | [] => Done fieldErrs
  | lock :: gls' =>
      '(o, _) ← ReadReplicas old component (gl_Name lock);
      '(cur, ok) ← ReadReplicas new component (gl_Name lock);
      if negb ok then
        path ← pathForGroupReplicas old component (gl_Name lock);
        check_group_locks old new component gls' unchangedCnt updateCnt
          (fieldErrs ++ [Forbidden path "group is locked (delete)"])
      else
        let '(u, d) :=
          if decide (cur = gl_Replicas lock) then (unchangedCnt, S updateCnt)
          else if decide (cur = o) then (S unchangedCnt, updateCnt)
          else (unchangedCnt, S updateCnt) in
        if (Nat.ltb 0 u && negb (bool_decide (cur = o))) ||
           (Nat.ltb 0 d && negb (bool_decide (cur = gl_Replicas lock))) then
          path ← pathForGroupReplicas new component (gl_Name lock);
          check_group_locks old new component gls' u d
            (fieldErrs ++ [Forbidden path "group is locked (update)"])
        else check_group_locks old new component gls' u d fieldErrs
  end.

(** The loop over the scale view locks of the new object. *)
Fixpoint check_locks (old new : RisingWave) (ls : list RisingWaveScaleViewLock)
    (fieldErrs : list field_error) : outcome (list field_error) :=
  match ls with
  | [] => Done fieldErrs
  | l :: ls' =>
      errs ← check_group_locks old new (lk_Component l) (lk_GroupLocks l) 0 0 fieldErrs;
      check_locks old new ls' errs
  end.

Inductive update_error :=
| UpdateForbidden (path detail : string)
| UpdateInvalid (errs : list field_error).

Definition RisingWave_validateUpdate (old new : RisingWave) : outcome (option update_error) :=
  if negb (isMetaStoresTheSame old new) then
    Done (Some (UpdateForbidden "spec.metaStore" "meta store must be kept consistent"))
  else if negb (isStateStoresTheSame old new) then
    Done (Some (UpdateForbidden "spec.stateStore" "state store must be kept consistent"))
  else if negb (isSecretStoreChangeAllowed old new) then
    Done (Some (UpdateForbidden "spec.secretStore" "secret store must be kept consistent"))
  else
    errs ← check_locks old new (st_ScaleViews (rw_Status new)) [];
    mret match errs with [] => None | _ => Some (UpdateInvalid errs) end.

Section webhook.
Context `{O : RangeOrder}.
Context (ReferenceRegexp_MatchString : string -> bool).
Context (IsDNS1123Subdomain : string -> list string).
(** [Cmp] of two quantities; a missing one is the zero quantity. *)
Context (Quantity_Cmp : option string -> option string -> comparison).

Definition isImageValid (image : string) : bool := ReferenceRegexp_MatchString image.

(** [for label := range labels { if HasPrefix(label, ...) { ... } }]. *)
Definition reserved_labels (site path : string) (labels : gmap string string) : list field_error :=
  label ← range_keys site (dom labels);
  err_if (HasPrefix label "risingwave/")
    (Invalid path "Labels with the prefix 'risingwave/' are system reserved").

Fixpoint env_errors (path : string) (i : nat) (env : list EnvVar) : list field_error :=
  match env with
  | [] => []
  | e :: env' =>
      err_if (systemEnv (env_Name e))
        (Invalid (index_path (path +:+ ".template.spec.env") i +:+ ".name")
           ("Env with the name " +:+ env_Name e +:+ " is system reserved")) ++
      env_errors path (S i) env'
  end.

Definition insufficient (r : ResourceRequirements) (resource : string) : bool :=
  is_set (res_Limits r !! resource) &&
  match Quantity_Cmp (res_Limits r !! resource) (res_Requests r !! resource) with
  | Lt => true | _ => false
  end.

Definition inplace_type (t : string) : bool :=
  bool_decide (t = RisingWaveUpgradeStrategyTypeInPlaceOnly) ||
  bool_decide (t = RisingWaveUpgradeStrategyTypeInPlaceIfPossible).

Definition upgrade_errors (path : string) (us : RisingWaveNodeGroupUpgradeStrategy)
    (openKruiseEnabled : bool) : list field_error :=
  err_if (bool_decide (us_Type us = RisingWaveUpgradeStrategyTypeRecreate) &&
          is_set (us_RollingUpdate us))
    (Forbidden (path +:+ ".upgradeStrategy.rollingUpdate") "must be nil when type is Recreate") ++
  (if negb openKruiseEnabled then
     err_if (inplace_type (us_Type us))
       (Invalid (path +:+ ".upgradeStrategy.type") "invalid upgrade strategy type") ++
     err_if (is_set (us_InPlaceUpdateStrategy us))
       (Forbidden (path +:+ ".upgradeStrategy.inPlaceUpdateStrategy") "not allowed")
   else
     err_if (negb (inplace_type (us_Type us)) && is_set (us_InPlaceUpdateStrategy us))
       (Forbidden (path +:+ ".upgradeStrategy.inPlaceUpdateStrategy") "not allowed")).

Definition validateNodeGroup (path : string) (ng : RisingWaveNodeGroup)
    (openKruiseEnabled : bool) : list field_error :=
  let dns := IsDNS1123Subdomain (ng_Name ng) in
  let image := pt_Image (ng_Template ng) in
  let res := pt_Resources (ng_Template ng) in
  err_if (negb (bool_decide (ng_Name ng = "")) && negb (bool_decide (dns = [])))
    (Invalid (path +:+ ".name")
       ("invalid node group name, must be a valid DNS-1123 subdomain: " +:+ Join dns "; ")) ++
  err_if (negb (bool_decide (image = "")) && negb (isImageValid image))
    (Invalid (path +:+ ".template.spec.image") "invalid image reference") ++
  upgrade_errors path (ng_UpgradeStrategy ng) openKruiseEnabled ++
  err_if (nodeGroupPartitionExistAndIsString ng &&
          bool_decide (Atoi (ReplaceAll_char (partition_string ng) "%" "") = None))
    (Invalid (path +:+ ".upgradeStrategy.rollingUpdate.partition")
       "percentage/string unable to be converted to an integer value") ++
  reserved_labels path (path +:+ ".template.metadata.labels")
    (pom_Labels (pt_ObjectMeta (ng_Template ng))) ++
  env_errors path 0 (pt_Env (ng_Template ng)) ++
  err_if (insufficient res "cpu")
    (Required (path +:+ ".template.spec.resources.cpu") "insufficient cpu resource") ++
  err_if (insufficient res "memory")
    (Required (path +:+ ".template.spec.resources.memory") "insufficient memory resource").

Fixpoint validate_groups (path : string) (i : nat) (ngs : list RisingWaveNodeGroup)
    (openKruiseEnabled : bool) : list field_error :=
  match ngs with
  | [] => []
  | ng :: ngs' =>
      validateNodeGroup (index_path path i) ng openKruiseEnabled ++
      validate_groups path (S i) ngs' openKruiseEnabled
  end.

Definition validateComponents (path : string) (cs : RisingWaveComponentsSpec)
    (openKruiseEnabled : bool) : list field_error :=
  validate_groups (path +:+ ".meta.nodeGroups") 0 (comp_NodeGroups (cps_Meta cs))
    openKruiseEnabled ++
  validate_groups (path +:+ ".frontend.nodeGroups") 0 (comp_NodeGroups (cps_Frontend cs))
    openKruiseEnabled ++
  validate_groups (path +:+ ".compactor.nodeGroups") 0 (comp_NodeGroups (cps_Compactor cs))
    openKruiseEnabled ++
  validate_groups (path +:+ ".compute.nodeGroups") 0 (comp_NodeGroups (cps_Compute cs))
    openKruiseEnabled.

Definition RisingWave_validateCreate (openKruiseAvailable : bool) (rw : RisingWave)
  : outcome (option api_error) :=
  let s := rw_Spec rw in
  let kruise := default false (rws_EnableOpenKruise s) in
  stores ← validateMetaStoreAndStateStore "spec" (rws_MetaStore s) (rws_StateStore s);
  let errs :=
    err_if (negb (isImageValid (rws_Image s))) (Invalid "spec.image" "invalid image reference") ++
    reserved_labels "frontend" "spec.additionalFrontendServiceMetadata.labels"
      (pom_Labels (rws_AdditionalFrontendServiceMetadata s)) ++
    reserved_labels "meta" "spec.additionalMetaServiceMetadata.labels"
      (pom_Labels (rws_AdditionalMetaServiceMetadata s)) ++
    err_if (negb openKruiseAvailable && kruise)
      (Forbidden "spec.enableOpenKruise" "OpenKruise is disabled.") ++
    stores ++
    validateConfiguration "spec.configuration" (rws_ConfigMap s) ++
    validateComponents "spec.components" (rws_Components s) (openKruiseAvailable && kruise) ++
    validateMetaReplicas rw ++ validateSecretStore rw in
  mret match errs with [] => None | _ => Some (InvalidError (om_Name (rw_Meta rw)) errs) end.

Definition RisingWave_ValidateCreate (openKruiseAvailable : bool) (rw : RisingWave)
  : outcome (option api_error) :=
  if isBypassed (om_Annotations (rw_Meta rw)) then mret None
  else RisingWave_validateCreate openKruiseAvailable rw.

Definition RisingWave_ValidateUpdate (openKruiseAvailable : bool) (old new : RisingWave)
  : outcome (option (api_error + update_error)) :=
  if isBypassed (om_Annotations (rw_Meta new)) then mret None
  else
    e ← RisingWave_ValidateCreate openKruiseAvailable new;
    match e with
    | Some e => mret (Some (inl e))
    | None => u ← RisingWave_validateUpdate old new; mret (inr <$> u)
    end.
End webhook.

(** ** Lemmas: the locks *)

(** A locked group as the loop sees it: its replicas in the new object, its replicas in
    the old object (zero when it did not exist) and the locked replicas. *)
Record locked_group := { lg_cur : option Z; lg_old : Z; lg_lock : Z }.

Definition synced (g : locked_group) : Prop := lg_cur g = Some (lg_lock g).
Definition untouched (g : locked_group) : Prop :=
  lg_cur g = Some (lg_old g) /\ lg_old g <> lg_lock g.
Definition settled (g : locked_group) : Prop := synced g /\ lg_old g = lg_lock g.

Definition locked_groups (old new : RisingWave) (l : RisingWaveScaleViewLock)
  : list locked_group :=
  (fun gl => {| lg_cur := replicas_of new (lk_Component l) (gl_Name gl);
                lg_old := default 0%Z (replicas_of old (lk_Component l) (gl_Name gl));
                lg_lock := gl_Replicas gl |}) <$> lk_GroupLocks l.

(** What the loop with its counters accepts. *)
Definition lock_respected (gs : list locked_group) : Prop :=
  Forall synced gs \/
  exists g l1 l2, gs = g :: l1 ++ l2 /\ Forall untouched (g :: l1) /\ Forall settled l2.

Fixpoint passes (u d : nat) (gs : list locked_group) : bool :=
  match gs with
  | [] => true
  | g :: gs' =>
      match lg_cur g with
      | None => false
      | Some cur =>
          let '(u, d) :=
            if decide (cur = lg_lock g) then (u, S d)
            else if decide (cur = lg_old g) then (S u, d) else (u, S d) in
          negb ((Nat.ltb 0 u && negb (bool_decide (cur = lg_old g))) ||
                (Nat.ltb 0 d && negb (bool_decide (cur = lg_lock g)))) && passes u d gs'
      end
  end.

(** The cases of one iteration: is the group at its locked or its old replicas? *)
Ltac passes_cases cur lk o :=
  destruct (decide (cur = lk)) as [?|?], (decide (cur = o)) as [?|?]; subst;
  repeat match goal with
  | |- context [bool_decide ?P] =>
      first [rewrite (bool_decide_true P) by done | rewrite (bool_decide_false P) by done]
  end; cbn.

Lemma passes_both u d gs : passes (S u) (S d) gs = true <-> Forall settled gs.
Proof.
  revert u d. induction gs as [|[cur o lk] gs IH]; intros u d; cbn; [by split|].
  rewrite Forall_cons. unfold settled at 1, synced at 1. cbn.
  destruct cur as [cur|]; [|split; [done|by intros [[? _] _]]].
  passes_cases cur lk o; rewrite ?IH; naive_solver.
Qed.

Lemma passes_update d gs : passes 0 (S d) gs = true <-> Forall synced gs.
Proof.
  revert d. induction gs as [|[cur o lk] gs IH]; intros d; cbn; [by split|].
  rewrite Forall_cons. unfold synced at 1. cbn.
  destruct cur as [cur|]; [|split; [done|by intros [? _]]].
  passes_cases cur lk o; rewrite ?IH; naive_solver.
Qed.

Lemma passes_unchanged u gs :
  passes (S u) 0 gs = true <->
  exists l1 l2, gs = l1 ++ l2 /\ Forall untouched l1 /\ Forall settled l2.
Proof.
  revert u. induction gs as [|[cur o lk] gs IH]; intros u; cbn.
  { split; [|done]. intros _. by exists [], []. }
  destruct cur as [cur|].
  2: { split; [done|]. intros ([|g l1] & l2 & Heq & H1 & H2); cbn in Heq; simplify_eq.
       - apply Forall_cons in H2 as [[H2 _] _]. done.
       - apply Forall_cons in H1 as [[H1 _] _]. done. }
  destruct (decide (cur = lk)) as [->|Hlk].
  - rewrite (bool_decide_true (lk = lk)) by done. cbn. rewrite andb_true_iff, passes_both.
    rewrite orb_false_r, negb_involutive, bool_decide_eq_true. split.
    + intros [-> H]. exists [], ({| lg_cur := Some o; lg_old := o; lg_lock := o |} :: gs).
      repeat split; [constructor|by repeat constructor].
    + intros ([|g l1] & l2 & Heq & H1 & H2); cbn in Heq; simplify_eq.
      * apply Forall_cons in H2 as [[_ H2] H3]. cbn in H2. by subst.
      * apply Forall_cons in H1 as [[H1 H3] _]. cbn in *. by simplify_eq.
  - destruct (decide (cur = o)) as [->|Ho]; cbn.
    + rewrite bool_decide_true by done. cbn. rewrite IH. split.
      * intros (l1 & l2 & -> & H1 & H2). eexists (_ :: l1), l2. split; [reflexivity|].
        by repeat constructor.
      * intros ([|g l1] & l2 & Heq & H1 & H2); cbn in Heq; simplify_eq.
        -- apply Forall_cons in H2 as [[H2 _] _]. unfold synced in H2. cbn in H2. by simplify_eq.
        -- apply Forall_cons in H1 as [_ H1]. eauto.
    + rewrite bool_decide_false by done. cbn. split; [done|].
      intros ([|g l1] & l2 & Heq & H1 & H2); cbn in Heq; simplify_eq.
      * apply Forall_cons in H2 as [[H2 _] _]. unfold synced in H2. cbn in H2. by simplify_eq.
      * apply Forall_cons in H1 as [[H1 _] _]. cbn in H1. by simplify_eq.
Qed.

Lemma passes_spec gs : passes 0 0 gs = true <-> lock_respected gs.
Proof.
  unfold lock_respected. destruct gs as [|[cur o lk] gs]; cbn.
  { split; [|done]. intros _. left. constructor. }
  rewrite Forall_cons. unfold synced at 1. cbn. destruct cur as [cur|].
  2: { split; [done|]. intros [[? _]|(g & l1 & l2 & ? & H & _)]; [done|].
       simplify_eq. apply Forall_cons in H as [[H _] _]. done. }
  destruct (decide (cur = lk)) as [->|Hlk].
  - rewrite (bool_decide_true (lk = lk)) by done. cbn. rewrite passes_update. split; [auto|].
    intros [[_ H]|(g & l1 & l2 & ? & H & _)]; [done|].
    simplify_eq. apply Forall_cons in H as [[H Hn] _]. cbn in *. by simplify_eq.
  - destruct (decide (cur = o)) as [->|Ho]; cbn.
    + rewrite (bool_decide_true (o = o)) by done. cbn. rewrite passes_unchanged. split.
      * intros (l1 & l2 & -> & H1 & H2). right. eexists _, l1, l2. split; [reflexivity|].
        by repeat constructor.
      * intros [[H _]|(g & l1 & l2 & ? & H & Hs)]; [by simplify_eq|]. simplify_eq.
        apply Forall_cons in H as [_ H]. eauto.
    + rewrite (bool_decide_false (cur = lk)) by done. cbn. split; [done|].
      intros [[H _]|(g & l1 & l2 & ? & H & Hs)]; [by simplify_eq|]. simplify_eq.
      apply Forall_cons in H as [[H _] _]. cbn in H. by simplify_eq.
Qed.

(** All or nothing: a respected lock leaves the groups at the locked replicas, or
    leaves all of them as they were. *)
Lemma lock_respected_all_or_nothing gs :
  lock_respected gs ->
  Forall synced gs \/ Forall (fun g => lg_cur g = Some (lg_old g)) gs.
Proof.
  intros [H|(g & l1 & l2 & -> & H1 & H2)]; [by left|right].
  change (g :: l1 ++ l2) with ((g :: l1) ++ l2). apply Forall_app. split.
  - eapply Forall_impl; [exact H1|]. by intros ? [? _].
  - eapply Forall_impl; [exact H2|]. intros ? [Hs ->]. exact Hs.
Qed.

Lemma GetGroupIndex_done rw c g : known_component c -> exists r, GetGroupIndex rw c g = Done r.
Proof.
  intros [gs Hgs]%(node_groups_known rw).
  unfold GetGroupIndex, getReplicasPtr, findReplicaPtrGroup. rewrite Hgs. run_monad. eauto.
Qed.

Lemma pathForGroupReplicas_done rw c g :
  known_component c -> exists p, pathForGroupReplicas rw c g = Done p.
Proof.
  intros Hc. unfold pathForGroupReplicas. destruct (GetGroupIndex_done rw c g Hc) as [[i b] ->].
  run_monad. eauto.
Qed.

Lemma check_group_locks_spec old new c gls u d errs :
  known_component c ->
  exists errs', check_group_locks old new c gls u d errs = Done (errs ++ errs') /\
    (errs' = [] <-> passes u d ((fun gl =>
       {| lg_cur := replicas_of new c (gl_Name gl);
          lg_old := default 0%Z (replicas_of old c (gl_Name gl));
          lg_lock := gl_Replicas gl |}) <$> gls) = true).
Proof.
  intros Hc. revert u d errs. induction gls as [|gl gls IH]; intros u d errs.
  { exists []. cbn. by rewrite app_nil_r. }
  rewrite fmap_cons. cbn [check_group_locks passes lg_cur lg_old lg_lock].
  rewrite !ReadReplicas_spec by done. run_monad.
  set (o := default 0%Z (replicas_of old c (gl_Name gl))).
  assert (exists b, match replicas_of old c (gl_Name gl) with
          | Some r => (r, true) | None => (0%Z, false) end = (o, b)) as [b ->].
  { unfold o. destruct (replicas_of old c (gl_Name gl)); cbn; eauto. }
  destruct (pathForGroupReplicas_done old c (gl_Name gl) Hc) as [p1 ->].
  destruct (pathForGroupReplicas_done new c (gl_Name gl) Hc) as [p2 ->].
  destruct (replicas_of new c (gl_Name gl)) as [cur|]; cbn [negb].
  - destruct (if decide (cur = gl_Replicas gl) then _ else _) as [u' d'].
    destruct (_ || _); cbn [negb andb].
    + destruct (IH u' d' (errs ++ [Forbidden p2 "group is locked (update)"])) as (errs' & -> & _).
      eexists (_ :: errs'). rewrite <-app_assoc. by split.
    + apply IH.
  - destruct (IH u d (errs ++ [Forbidden p1 "group is locked (delete)"])) as (errs' & -> & _).
    eexists (_ :: errs'). rewrite <-app_assoc. by split.
Qed.

Lemma check_locks_spec old new ls errs :
  Forall (fun l => known_component (lk_Component l)) ls ->
  exists errs', check_locks old new ls errs = Done (errs ++ errs') /\
    (errs' = [] <-> Forall (fun l => lock_respected (locked_groups old new l)) ls).
Proof.
  intros Hk. revert errs. induction Hk as [|l ls Hl Hls IH]; intros errs; cbn [check_locks].
  { exists []. rewrite app_nil_r. by repeat split. }
  destruct (check_group_locks_spec old new (lk_Component l) (lk_GroupLocks l) 0 0 errs Hl)
    as (e1 & -> & H1). run_monad.
  destruct (IH (errs ++ e1)) as (e2 & -> & H2).
  exists (e1 ++ e2). rewrite app_assoc. split; [done|].
  by rewrite app_nil_iff, H1, H2, Forall_cons, <-passes_spec.
Qed.

(** ** Lemmas: the stores *)

Lemma count_errors_nil n path a b : count_errors n path a b = [] <-> n = 1.
Proof. unfold count_errors. destruct n as [|[|n]]; cbn; split; done || lia. Qed.

Lemma azure_errors_nil path ss :
  azure_errors path ss = Done [] <->
  match ss_AzureBlob ss with
  | None => True
  | Some az => azc_UseServiceAccount (az_Credentials az) = Some true \/
               azc_SecretName (az_Credentials az) <> ""
  end.
Proof.
  unfold azure_errors. destruct (ss_AzureBlob ss) as [az|]; [|done].
  destruct (azc_UseServiceAccount (az_Credentials az)) as [[]|]; cbn;
    [by split; auto| |]; case_bool; (destruct (ss_S3 ss); (split; [|naive_solver]));
    naive_solver.
Qed.

(** ** Lemmas: the secret store *)

Lemma isPrivateKeySet_spec s :
  isPrivateKeySet s = true <->
  pk_Value (sec_PrivateKey s) <> None \/ pk_SecretRef (sec_PrivateKey s) <> None.
Proof.
  unfold isPrivateKeySet. destruct (pk_Value _), (pk_SecretRef _); cbn; naive_solver.
Qed.

(** What an accepted update (without the bypass annotation) keeps. *)
Lemma validateUpdate_None old new :
  Forall (fun l => known_component (lk_Component l)) (st_ScaleViews (rw_Status new)) ->
  RisingWave_validateUpdate old new = Done None <->
  rws_MetaStore (rw_Spec old) = rws_MetaStore (rw_Spec new) /\
  rws_StateStore (rw_Spec old) = rws_StateStore (rw_Spec new) /\
  (isPrivateKeySet (rws_SecretStore (rw_Spec old)) = true ->
   sec_PrivateKey (rws_SecretStore (rw_Spec old)) = sec_PrivateKey (rws_SecretStore (rw_Spec new))) /\
  Forall (fun l => lock_respected (locked_groups old new l)) (st_ScaleViews (rw_Status new)).
Proof.
  intros Hk. unfold RisingWave_validateUpdate, isMetaStoresTheSame, isStateStoresTheSame,
    isSecretStoreChangeAllowed.
  destruct (check_locks_spec old new (st_ScaleViews (rw_Status new)) [] Hk) as (errs & -> & Hiff).
  rewrite <-Hiff. clear Hiff. cbn [app]. run_monad.
  destruct (bool_decide_reflect (rws_MetaStore (rw_Spec old) = rws_MetaStore (rw_Spec new)));
    cbn; [|naive_solver].
  destruct (bool_decide_reflect (rws_StateStore (rw_Spec old) = rws_StateStore (rw_Spec new)));
    cbn; [|naive_solver].
  destruct (isPrivateKeySet (rws_SecretStore (rw_Spec old))); cbn.
  - destruct (bool_decide_reflect (sec_PrivateKey (rws_SecretStore (rw_Spec old)) =
      sec_PrivateKey (rws_SecretStore (rw_Spec new)))); cbn; [|naive_solver].
    destruct errs; naive_solver.
  - destruct errs; naive_solver.
Qed.

(** ** Lemmas: node groups *)

Lemma bind_nil {A B} (f : A -> list B) l : (l ≫= f) = [] <-> Forall (fun x => f x = []) l.
Proof.
  induction l as [|x l IH]; cbn; [by split|]. by rewrite app_nil_iff, IH, Forall_cons.
Qed.

Section webhook_lemmas.
Context (O : RangeOrder) (HO : RangeOrderOk O).
Context (regexp : string -> bool) (dns : string -> list string).
Context (cmp : option string -> option string -> comparison).

Lemma reserved_labels_nil site path labels :
  reserved_labels site path labels = [] <->
  forall label, label ∈ dom labels -> HasPrefix label "risingwave/" = false.
Proof.
  unfold reserved_labels. rewrite bind_nil, Forall_forall.
  setoid_rewrite elem_of_range_keys. by setoid_rewrite err_if_nil.
Qed.

Lemma env_errors_nil path i env :
  env_errors path i env = [] <-> Forall (fun e => systemEnv (env_Name e) = false) env.
Proof.
  revert i. induction env as [|e env IH]; intros i; cbn [env_errors]; [by split|].
  by rewrite app_nil_iff, err_if_nil, IH, Forall_cons.
Qed.

(** What the webhook promises of an accepted node group. *)
Record node_group_ok (kruise : bool) (ng : RisingWaveNodeGroup) : Prop := {
  ngo_name : ng_Name ng = "" \/ dns (ng_Name ng) = [];
  ngo_image : pt_Image (ng_Template ng) = "" \/ regexp (pt_Image (ng_Template ng)) = true;
  ngo_recreate : us_Type (ng_UpgradeStrategy ng) = RisingWaveUpgradeStrategyTypeRecreate ->
    us_RollingUpdate (ng_UpgradeStrategy ng) = None;
  ngo_inplace : inplace_type (us_Type (ng_UpgradeStrategy ng)) = true -> kruise = true;
  ngo_inplace_strategy : us_InPlaceUpdateStrategy (ng_UpgradeStrategy ng) <> None ->
    kruise = true /\ inplace_type (us_Type (ng_UpgradeStrategy ng)) = true;
  ngo_partition : nodeGroupPartitionExistAndIsString ng = true ->
    is_Some (Atoi (ReplaceAll_char (partition_string ng) "%" ""));
  ngo_labels : forall l, l ∈ dom (pom_Labels (pt_ObjectMeta (ng_Template ng))) ->
    HasPrefix l "risingwave/" = false;
  ngo_env : Forall (fun e => systemEnv (env_Name e) = false) (pt_Env (ng_Template ng));
  ngo_resources : insufficient cmp (pt_Resources (ng_Template ng)) "cpu" = false /\
    insufficient cmp (pt_Resources (ng_Template ng)) "memory" = false;
}.

Lemma upgrade_errors_nil path us kruise :
  upgrade_errors path us kruise = [] <->
  (us_Type us = RisingWaveUpgradeStrategyTypeRecreate -> us_RollingUpdate us = None) /\
  (inplace_type (us_Type us) = true -> kruise = true) /\
  (us_InPlaceUpdateStrategy us <> None -> kruise = true /\ inplace_type (us_Type us) = true).
Proof.
  unfold upgrade_errors. rewrite app_nil_iff, err_if_nil.
  assert (bool_decide (us_Type us = RisingWaveUpgradeStrategyTypeRecreate) &&
          is_set (us_RollingUpdate us) = false <->
          (us_Type us = RisingWaveUpgradeStrategyTypeRecreate -> us_RollingUpdate us = None)) as ->.
  { case_bool; destruct (us_RollingUpdate us); cbn; naive_solver. }
  destruct kruise; cbn [negb]; rewrite ?app_nil_iff, ?err_if_nil;
    destruct (inplace_type (us_Type us)), (us_InPlaceUpdateStrategy us); cbn; naive_solver.
Qed.

Lemma validateNodeGroup_nil path ng kruise :
  validateNodeGroup regexp dns cmp path ng kruise = [] <-> node_group_ok kruise ng.
Proof.
  unfold validateNodeGroup, isImageValid.
  rewrite !app_nil_iff, !err_if_nil, upgrade_errors_nil, env_errors_nil, reserved_labels_nil.
  rewrite !andb_false_iff, !negb_false_iff, !bool_decide_eq_true, bool_decide_eq_false.
  rewrite (not_eq_None_Some (Atoi _)).
  split.
  - intros (H1 & H2 & (H3 & H4 & H5) & H6 & H7 & H8 & H9 & H10). constructor; auto.
    intros Hp. destruct H6 as [H6|H6]; [congruence|done].
  - intros [H1 H2 H3 H4 H5 H6 H7 H8 [H9 H10]]. repeat (split; [done|]).
    split; [|by repeat split].
    destruct (nodeGroupPartitionExistAndIsString ng); [right; by apply H6|by left].
Qed.
End webhook_lemmas.

Section create_lemmas.
Context (O : RangeOrder) (HO : RangeOrderOk O).
Context (regexp : string -> bool) (dns : string -> list string).
Context (cmp : option string -> option string -> comparison).

Lemma validate_groups_nil path i ngs kruise :
  validate_groups regexp dns cmp path i ngs kruise = [] <->
  Forall (node_group_ok regexp dns cmp kruise) ngs.
Proof.
  revert i. induction ngs as [|ng ngs IH]; intros i; cbn [validate_groups]; [by split|].
  by rewrite app_nil_iff, validateNodeGroup_nil, IH, Forall_cons.
Qed.

(** The node groups of the four components. *)
Definition all_node_groups (cs : RisingWaveComponentsSpec) : list RisingWaveNodeGroup :=
  comp_NodeGroups (cps_Meta cs) ++ comp_NodeGroups (cps_Frontend cs) ++
  comp_NodeGroups (cps_Compactor cs) ++ comp_NodeGroups (cps_Compute cs).

Lemma validateComponents_nil path cs kruise :
  validateComponents regexp dns cmp path cs kruise = [] <->
  Forall (node_group_ok regexp dns cmp kruise) (all_node_groups cs).
Proof.
  unfold validateComponents, all_node_groups.
  by rewrite !app_nil_iff, !validate_groups_nil, !Forall_app.
Qed.

(** What the webhook promises of the stores of an accepted RisingWave. *)
Record stores_ok (ms : RisingWaveMetaStoreBackend) (ss : RisingWaveStateStoreBackend) : Prop := {
  so_meta : count_by id (meta_store_flags ms) = 1;
  so_state : count_by id (state_store_flags ss) = 1;
  so_s3 : s3_errors "" ss = [];
  so_gcs : gcs_errors "" ss = [];
  so_azure : azure_errors "" ss = Done [];
  so_directory : bad_directory (ss_DataDirectory ss) = false;
}.

Lemma validateMetaStoreAndStateStore_nil path ms ss :
  validateMetaStoreAndStateStore path ms ss = Done [] <-> stores_ok ms ss.
Proof.
  assert (azure_errors path ss = Done [] <-> azure_errors "" ss = Done []) as Haz
    by (by rewrite !azure_errors_nil).
  assert (s3_errors path ss = [] <-> s3_errors "" ss = []) as Hs3.
  { unfold s3_errors. destruct (ss_S3 ss) as [s3|]; [|done].
    by destruct (Nat.ltb 0 _); rewrite !err_if_nil. }
  assert (gcs_errors path ss = [] <-> gcs_errors "" ss = []) as Hgcs.
  { unfold gcs_errors. destruct (ss_GCS ss); [|done]. by rewrite !err_if_nil. }
  unfold validateMetaStoreAndStateStore. run_monad. split.
  - destruct (azure_errors path ss) as [az|] eqn:Ha; [|done]. intros [= H].
    rewrite !app_nil_iff, !count_errors_nil, err_if_nil, Hs3, Hgcs in H.
    destruct H as (? & ? & -> & ? & ? & ?). constructor; tauto.
  - intros [H1 H2 H3 H4 H5 H6]. apply Haz in H5. rewrite H5. f_equal.
    rewrite !app_nil_iff, !count_errors_nil, err_if_nil. tauto.
Qed.

(** An accepted creation, unfolded. *)
Lemma validateCreate_None available rw :
  RisingWave_validateCreate regexp dns cmp available rw = Done None <->
  regexp (rws_Image (rw_Spec rw)) = true /\
  (forall l, l ∈ dom (pom_Labels (rws_AdditionalFrontendServiceMetadata (rw_Spec rw))) ->
     HasPrefix l "risingwave/" = false) /\
  (forall l, l ∈ dom (pom_Labels (rws_AdditionalMetaServiceMetadata (rw_Spec rw))) ->
     HasPrefix l "risingwave/" = false) /\
  (rws_EnableOpenKruise (rw_Spec rw) = Some true -> available = true) /\
  stores_ok (rws_MetaStore (rw_Spec rw)) (rws_StateStore (rw_Spec rw)) /\
  validateConfiguration "spec.configuration" (rws_ConfigMap (rw_Spec rw)) = [] /\
  Forall (node_group_ok regexp dns cmp
            (available && default false (rws_EnableOpenKruise (rw_Spec rw))))
    (all_node_groups (rws_Components (rw_Spec rw))) /\
  validateMetaReplicas rw = [] /\ validateSecretStore rw = [].
Proof.
  unfold RisingWave_validateCreate, isImageValid.
  rewrite <-(validateMetaStoreAndStateStore_nil "spec").
  assert (negb available && default false (rws_EnableOpenKruise (rw_Spec rw)) = false <->
          (rws_EnableOpenKruise (rw_Spec rw) = Some true -> available = true)) as Hk.
  { destruct available, (rws_EnableOpenKruise (rw_Spec rw)) as [[]|]; cbn; naive_solver. }
  run_monad. destruct (validateMetaStoreAndStateStore _ _ _) as [st|]; [|naive_solver].
  match goal with |- Done (match ?l with [] => None | _ => _ end) = _ <-> _ =>
    transitivity (l = []); [by destruct l|] end.
  rewrite !app_nil_iff, !err_if_nil, !reserved_labels_nil, validateComponents_nil,
    negb_false_iff, Hk by done.
  assert (Done st = Done [] <-> st = []) as -> by naive_solver. tauto.
Qed.
End create_lemmas.

(** ** Lemmas: the mutating webhook *)

Lemma clean_directory_suffix d : HasSuffix (clean_directory d) "/" = false.
Proof.
  unfold clean_directory, TrimRight.
  destruct (TrimRightFunc_end (fun c => contains_char c "/") (TrimSpace d))
    as [->|(t & c & -> & Hc)]; [done|].
  change "/"%string with (str1 "/"). rewrite HasSuffix_char. cbn in Hc.
  apply orb_false_iff in Hc as [Hc _]. by case_bool.
Qed.

(** ** Properties *)

Section updates.
Context (O : RangeOrder) (HO : RangeOrderOk O).
Context (regexp : string -> bool) (dns : string -> list string).
Context (cmp : option string -> option string -> comparison) (available : bool).

(** An update the webhook lets through, of a RisingWave whose locks are for known components. *)
Definition accepted_update (old new : RisingWave) : Prop :=
  Forall (fun l => known_component (lk_Component l)) (st_ScaleViews (rw_Status new)) /\
  RisingWave_ValidateUpdate regexp dns cmp available old new = Done None.

Definition bypassed (rw : RisingWave) : bool := isBypassed (om_Annotations (rw_Meta rw)).

(** The annotation lets every update through; without it both validations count. *)
Lemma ValidateUpdate_None old new :
  RisingWave_ValidateUpdate regexp dns cmp available old new = Done None <->
  bypassed new = true \/
  RisingWave_validateCreate regexp dns cmp available new = Done None /\
  RisingWave_validateUpdate old new = Done None.
Proof.
  unfold RisingWave_ValidateUpdate, RisingWave_ValidateCreate. fold (bypassed new).
  destruct (bypassed new); [by split; [left|]|]. run_monad.
  destruct (RisingWave_validateCreate _ _ _ _ new) as [[e|]|]; [naive_solver| |naive_solver].
  destruct (RisingWave_validateUpdate old new) as [[e|]|]; naive_solver.
Qed.


(** C32: Through any sequence of accepted updates none of which asks for a bypass the meta store
    and the state store stay what they were, and so does the private key of the secret store once
    it is set. (An update whose new object has the annotation for a bypass is accepted as it is.) *)
Theorem stores_immutable old new :
  rtc (fun a b => accepted_update a b /\ bypassed b = false) old new ->
  rws_MetaStore (rw_Spec old) = rws_MetaStore (rw_Spec new) /\
  rws_StateStore (rw_Spec old) = rws_StateStore (rw_Spec new) /\
  (isPrivateKeySet (rws_SecretStore (rw_Spec old)) = true ->
   sec_PrivateKey (rws_SecretStore (rw_Spec old)) = sec_PrivateKey (rws_SecretStore (rw_Spec new))).
Proof.
  induction 1 as [x|x y z [[Hk Hxy] Hby] _ (IH1 & IH2 & IH3)]; [done|].
  apply ValidateUpdate_None in Hxy as [Hb|[_ Hxy]]; [congruence|].
  apply validateUpdate_None in Hxy as (H1 & H2 & H3 & _); [|done].
  split; [congruence|]. split; [congruence|]. intros Hset. specialize (H3 Hset).
  rewrite H3. apply IH3. unfold isPrivateKeySet in *. by rewrite <-H3.
Qed.
End updates.

(** Bringing every locked group to its locked replicas (what the scale view
    controller does) is always accepted, when the stores are kept. *)
Theorem RisingWave_sync_accepted old new :
  Forall (fun l => known_component (lk_Component l)) (st_ScaleViews (rw_Status new)) ->
  rws_MetaStore (rw_Spec old) = rws_MetaStore (rw_Spec new) ->
  rws_StateStore (rw_Spec old) = rws_StateStore (rw_Spec new) ->
  rws_SecretStore (rw_Spec old) = rws_SecretStore (rw_Spec new) ->
  (forall l gl, l ∈ st_ScaleViews (rw_Status new) -> gl ∈ lk_GroupLocks l ->
     replicas_of new (lk_Component l) (gl_Name gl) = Some (gl_Replicas gl)) ->
  RisingWave_validateUpdate old new = Done None.
Proof.
  intros Hk Hm Hs Hp Hl. apply validateUpdate_None; [done|].
  split; [done|]. split; [done|]. split; [by rewrite Hp|].
  apply Forall_forall. intros l Hin. left. unfold locked_groups.
  apply Forall_fmap, Forall_forall. intros gl Hgl. unfold synced. cbn. by apply Hl.
Qed.


(** The verdict of the webhook does not depend on the order in which Go visits the
    label maps. *)
Theorem RisingWave_validateCreate_order (O1 O2 : RangeOrder) regexp dns cmp available rw :
  RangeOrderOk O1 -> RangeOrderOk O2 ->
  RisingWave_validateCreate (O := O1) regexp dns cmp available rw = Done None <->
  RisingWave_validateCreate (O := O2) regexp dns cmp available rw = Done None.
Proof. intros H1 H2. by rewrite !validateCreate_None. Qed.

(** The validation panics exactly on an Azure Blob store without credentials when no
    S3 store is configured: the error message dereferences the S3 store. *)
Theorem validateMetaStoreAndStateStore_panics path ms ss :
  is_done (validateMetaStoreAndStateStore path ms ss) = false <->
  exists az, ss_AzureBlob ss = Some az /\ ss_S3 ss = None /\
    azc_UseServiceAccount (az_Credentials az) <> Some true /\
    azc_SecretName (az_Credentials az) = "".
Proof.
  unfold validateMetaStoreAndStateStore, azure_errors. run_monad.
  destruct (ss_AzureBlob ss) as [az|]; [|split; [done|by intros (? & ? & _)]].
  destruct (bool_decide_reflect (azc_SecretName (az_Credentials az) = "")) as [Hn|Hn].
  - destruct (azc_UseServiceAccount (az_Credentials az)) as [[]|] eqn:Hu, (ss_S3 ss); cbn;
      (split; [|intros (? & ? & ? & ? & ?); by simplify_eq]); try done;
      intros _; exists az; rewrite Hu; done.
  - rewrite andb_false_r. split; [done|]. intros (? & ? & ? & ? & ?). by simplify_eq.
Qed.

(** The data directory the mutating webhook leaves never ends in a slash, so that
    the validating webhook's suffix check cannot fail after it. *)
Theorem RisingWave_Default_directory enabled random rw :
  HasSuffix (ss_DataDirectory (rws_StateStore (rw_Spec (RisingWave_Default enabled random rw)))) "/"
    = false /\
  rws_MetaStore (rw_Spec (RisingWave_Default enabled random rw)) = rws_MetaStore (rw_Spec rw) /\
  (isPrivateKeySet (rws_SecretStore (rw_Spec rw)) = true ->
   rws_SecretStore (rw_Spec (RisingWave_Default enabled random rw)) = rws_SecretStore (rw_Spec rw)) /\
  (enabled = true ->
   isPrivateKeySet (rws_SecretStore (rw_Spec (RisingWave_Default enabled random rw))) = true).
Proof.
  split; [apply clean_directory_suffix|]. split; [done|].
  unfold isPrivateKeySet. cbn. unfold default_private_key.
  destruct (rws_SecretStore (rw_Spec rw)) as [[v r]]. cbn. split.
  - destruct v, r; cbn; rewrite ?andb_false_r; done.
  - intros ->. destruct v, r; done.
Qed.

(** A lock check that counts groups in order rejects even the update that changes
    nothing, as soon as a group that is already at its locked replicas precedes one
    that is still to be scaled. *)
Theorem noop_update_rejected rw l g gs :
  Forall (fun l => known_component (lk_Component l)) (st_ScaleViews (rw_Status rw)) ->
  l ∈ st_ScaleViews (rw_Status rw) -> locked_groups rw rw l = g :: gs ->
  settled g -> Exists untouched gs -> RisingWave_validateUpdate rw rw <> Done None.
Proof.
  intros Hk Hl Heq [Hsy Hse] Hex H. apply validateUpdate_None in H as (_ & _ & _ & H); [|done].
  rewrite Forall_forall in H. specialize (H l Hl). rewrite Heq in H.
  apply Exists_exists in Hex as (u & Hu & Hun & Hne).
  destruct H as [H|(g' & l1 & l2 & Hg & H1 & _)].
  - apply Forall_cons in H as [_ H]. rewrite Forall_forall in H. specialize (H u Hu).
    unfold synced in H. congruence.
  - simplify_eq. apply Forall_cons in H1 as [[_ H1] _]. done.
Qed.

(** ** Examples *)

Definition ex_stores (s : RisingWaveStateStoreBackend) (m : RisingWaveMetaStoreBackend)
    (rw : RisingWave) : RisingWave :=
  set_rw_Spec (set_rws_Image "risingwave:v2" (set_rws_Backends m s (rw_Spec rw))) rw.

Definition memory_meta : RisingWaveMetaStoreBackend :=
  {| ms_Memory := Some true; ms_Etcd := None; ms_SQLite := None; ms_MySQL := None;
     ms_PostgreSQL := None |}.

Definition memory_state (dir : string) : RisingWaveStateStoreBackend :=
  {| ss_DataDirectory := dir; ss_Memory := Some true; ss_LocalDisk := None; ss_MinIO := None;
     ss_S3 := None; ss_GCS := None; ss_AliyunOSS := None; ss_AzureBlob := None;
     ss_HDFS := None; ss_WebHDFS := None; ss_HuaweiCloudOBS := None |}.

Definition ex_lock (r1 r2 : Z) : RisingWaveScaleViewLock :=
  {| lk_Name := "sv"; lk_UID := "u"; lk_Component := ComponentCompute; lk_Generation := 1;
     lk_GroupLocks := [{| gl_Name := ""; gl_Replicas := r1 |};
                       {| gl_Name := "big"; gl_Replicas := r2 |}] |}.

(** A RisingWave with compute groups of [n1] and [n2] replicas and a lock. *)
Definition ex_locked (n1 n2 : Z) (l : RisingWaveScaleViewLock) : RisingWave :=
  ex_stores (memory_state "data") memory_meta
    (set_node_groups ComponentCompute [simple_group "" n1; simple_group "big" n2]
       (set_rw_Status (set_st_ScaleViews [l] zero_status) zero_risingwave)).

Lemma ex_components n1 n2 r1 r2 :
  Forall (fun l => known_component (lk_Component l))
    (st_ScaleViews (rw_Status (ex_locked n1 n2 (ex_lock r1 r2)))).
Proof. repeat constructor. Qed.

(** What stands for the third-party predicates in the examples. *)
Definition ex_image (s : string) : bool := negb (bool_decide (s = "")%string).
Abbreviation ex_update := (RisingWave_ValidateUpdate (O := elements_order) ex_image (fun _ => [])
  (fun _ _ => Eq) true).


Lemma RisingWave_sync_accepted_witness :
  RisingWave_validateUpdate (ex_locked 1 2 (ex_lock 5 6)) (ex_locked 5 6 (ex_lock 5 6)) = Done None.
Proof.
  apply RisingWave_sync_accepted; try (vm_compute; reflexivity).
  - repeat constructor.
  - intros l gl Hl Hgl. apply list_elem_of_singleton in Hl as ->. revert gl Hgl.
    apply (Forall_forall (fun gl => replicas_of (ex_locked 5 6 (ex_lock 5 6))
      (lk_Component (ex_lock 5 6)) (gl_Name gl) = Some (gl_Replicas gl))).
    repeat constructor.
Defined.

Lemma stores_immutable_witness :
  rws_MetaStore (rw_Spec (ex_locked 1 2 (ex_lock 5 6))) =
  rws_MetaStore (rw_Spec (ex_locked 5 6 (ex_lock 5 6))).
Proof.
  apply (stores_immutable elements_order ex_image (fun _ => []) (fun _ _ => Eq) true
    (ex_locked 1 2 (ex_lock 5 6)) (ex_locked 5 6 (ex_lock 5 6))).
  apply rtc_once. split; [split; [repeat constructor|vm_compute; reflexivity]|reflexivity].
Defined.

(** With the annotation, an update that changes the stores is accepted. *)
Lemma bypass_changes_stores :
  let new := {| rw_Meta := {| om_Name := "rw"; om_Namespace := "ns"; om_UID := ""; om_Generation := 1;
      om_Labels := ∅; om_Annotations := {[ AnnotationBypassValidatingWebhook := "true" ]};
      om_Finalizers := []; om_Deleted := false |};
    rw_Spec := rw_Spec zero_risingwave; rw_Status := zero_status |} in
  ex_update (ex_locked 1 2 (ex_lock 5 6)) new = Done None /\
  ms_Memory (rws_MetaStore (rw_Spec (ex_locked 1 2 (ex_lock 5 6)))) = Some true /\
  ms_Memory (rws_MetaStore (rw_Spec new)) = None.
Proof. by vm_compute. Qed.


Lemma RisingWave_validateCreate_order_witness :
  RisingWave_validateCreate (O := fun _ ks => reverse (elements ks))
    (fun _ => true) (fun _ => []) (fun _ _ => Eq) true (ex_locked 1 2 (ex_lock 5 6)) = Done None.
Proof.
  refine (proj1 (RisingWave_validateCreate_order elements_order
    (fun _ ks => reverse (elements ks)) _ _ _ true _ elements_order_ok _) _).
  - intros site ks. unfold range_keys. apply reverse_Permutation.
  - vm_compute. reflexivity.
Defined.

Lemma noop_update_rejected_witness :
  RisingWave_validateUpdate (ex_locked 5 2 (ex_lock 5 6)) (ex_locked 5 2 (ex_lock 5 6)) <> Done None.
Proof.
  eapply (noop_update_rejected (ex_locked 5 2 (ex_lock 5 6)) (ex_lock 5 6)).
  - repeat constructor.
  - left.
  - reflexivity.
  - split; reflexivity.
  - apply Exists_cons_hd. split; [reflexivity|]. vm_compute. discriminate.
Defined.

(** The mutating webhook is not idempotent: it trims white space before slashes, so
    that a data directory ["data /"] is stored as ["data "] and becomes ["data"] on the
    next update, which the validating webhook then rejects for changing the state
    store. *)
Theorem RisingWave_Default_not_idempotent :
  let rw := RisingWave_Default false "" (ex_stores (memory_state "data /") memory_meta zero_risingwave) in
  ss_DataDirectory (rws_StateStore (rw_Spec rw)) = "data "%string /\
  bad_directory "data " = false /\
  RisingWave_validateUpdate rw (RisingWave_Default false "" rw) =
    Done (Some (UpdateForbidden "spec.stateStore" "state store must be kept consistent")).
Proof. vm_compute. repeat split; reflexivity. Qed.
