(* ===== verification/RisingWaveManager.v ===== *)
(** * pkg/object/risingwave_manager.go: the RisingWave in memory

    A [RisingWaveManager] holds the RisingWave as it was read, which never changes, and
    a copy the actions of a reconcile update. Every method takes the manager's lock, so
    a method is one atomic step. [metav1.Now()] is an argument. *)

From S2P Require Import Prelude GoStrings ApiTypes ApiErrors ScaleHelper.

(** ** Definitions: the reader *)

Definition StateStoreRootPath (rw : RisingWave) : string :=
  let s := rws_StateStore (rw_Spec rw) in
  match ss_AzureBlob s, ss_AliyunOSS s, ss_GCS s, ss_HDFS s, ss_WebHDFS s with
  | Some a, _, _, _, _ => az_Root a
  | None, Some o, _, _, _ => oss_Root o
  | None, None, Some g, _, _ => gcs_Root g
  | None, None, None, Some h, _ => hdfs_Root h
  | None, None, None, None, Some w => hdfs_Root w
  | None, None, None, None, None => ""
  end.

Definition IsObservedGenerationOutdated (rw : RisingWave) : bool :=
  bool_decide (st_ObservedGeneration (rw_Status rw) < om_Generation (rw_Meta rw))%Z.

Definition has_type (t : string) (c : RisingWaveCondition) : bool :=
  bool_decide (cond_Type c = t).

Definition GetCondition (rw : RisingWave) (t : string) : option RisingWaveCondition :=
  snd <$> find_index (has_type t) (st_Conditions (rw_Status rw)).

Definition DoesConditionExistAndEqual (rw : RisingWave) (t : string) (value : bool) : bool :=
  match GetCondition rw t with
  | None => false
  | Some c => Bool.eqb (bool_decide (cond_Status c = ConditionTrue)) value
  end.

Definition GetNodeGroups (rw : RisingWave) (component : string)
  : outcome (list RisingWaveNodeGroup) :=
  match node_groups rw component with
  | Some gs => Done gs
  | None =>
      if bool_decide (component = ComponentStandalone) then Panic "not supported"
      else Panic ("unknown component: " +:+ component)
  end.

Definition GetNodeGroup (rw : RisingWave) (component group : string)
  : outcome (option RisingWaveNodeGroup) :=
  nodeGroups ← GetNodeGroups rw component;
  mret (snd <$> find_index (fun g => bool_decide (ng_Name g = group)) nodeGroups).

Definition IsStandaloneModeEnabled (rw : RisingWave) : bool :=
  default false (rws_EnableStandaloneMode (rw_Spec rw)).
Definition IsAdvertisingWithIP (rw : RisingWave) : bool :=
  default false (rws_EnableAdvertisingWithIP (rw_Spec rw)).

(** ** Definitions: the manager *)

Record RisingWaveManager := {
  rwm_risingwave : RisingWave;
  rwm_mutable : RisingWave;
  rwm_openkruiseAvailable : bool;
}.

Definition NewRisingWaveManager (rw : RisingWave) (openkruiseAvailable : bool)
  : RisingWaveManager :=
  {| rwm_risingwave := rw; rwm_mutable := rw; rwm_openkruiseAvailable := openkruiseAvailable |}.

Definition RisingWaveAfterImage (mgr : RisingWaveManager) : RisingWave := rwm_mutable mgr.

(** [UpdateStatus]: runs a function on the mutable status. *)
Definition UpdateStatus (f : RisingWaveStatus -> RisingWaveStatus) (mgr : RisingWaveManager)
  : RisingWaveManager :=
  {| rwm_risingwave := rwm_risingwave mgr;
     rwm_mutable := set_rw_Status (f (rw_Status (rwm_mutable mgr))) (rwm_mutable mgr);
     rwm_openkruiseAvailable := rwm_openkruiseAvailable mgr |}.

Definition SyncObservedGeneration (mgr : RisingWaveManager) : RisingWaveManager :=
  UpdateStatus (set_st_ObservedGeneration (om_Generation (rw_Meta (rwm_mutable mgr)))) mgr.

Definition remove_condition (t : string) (l : list RisingWaveCondition)
  : list RisingWaveCondition :=
  match find_index (has_type t) l with
  | Some (i, _) => remove_at i l
  | None => l
  end.

Definition RemoveCondition (t : string) (mgr : RisingWaveManager) : RisingWaveManager :=
  UpdateStatus (fun s => set_st_Conditions (remove_condition t (st_Conditions s)) s) mgr.

Definition set_transition_time (now : Z) (c : RisingWaveCondition) : RisingWaveCondition :=
  {| cond_Type := cond_Type c; cond_Status := cond_Status c;
     cond_LastTransitionTime := Some now; cond_Reason := cond_Reason c;
     cond_Message := cond_Message c |}.

Definition put_condition (c : RisingWaveCondition) (l : list RisingWaveCondition)
  : list RisingWaveCondition :=
  match find_index (has_type (cond_Type c)) l with
  | Some (i, _) => <[i := c]> l
  | None => l ++ [c]
  end.

(** The condition that is stored: its time is now when it is new or its status differs
    from the last observed one, and whatever the caller passed otherwise. *)
Definition stamp_condition (now : Z) (rw : RisingWave) (c : RisingWaveCondition)
  : RisingWaveCondition :=
  match GetCondition rw (cond_Type c) with
  | None => set_transition_time now c
  | Some last => if decide (cond_Status last = cond_Status c) then c
                 else set_transition_time now c
  end.

Definition UpdateCondition (now : Z) (c : RisingWaveCondition) (mgr : RisingWaveManager)
  : RisingWaveManager :=
  let c := stamp_condition now (rwm_risingwave mgr) c in
  UpdateStatus (fun s => set_st_Conditions (put_condition c (st_Conditions s)) s) mgr.

(** The status update sent to the API server, if any; its reply is the result. *)
Definition UpdateRemoteRisingWaveStatus (mgr : RisingWaveManager) (reply : option api_error)
  : option api_error * list RisingWave :=
  if decide (rw_Status (rwm_mutable mgr) = rw_Status (rwm_risingwave mgr)) then (None, [])
  else (reply, [rwm_mutable mgr]).

Definition IsOpenKruiseAvailable (mgr : RisingWaveManager) : bool := rwm_openkruiseAvailable mgr.
Definition IsOpenKruiseEnabled (mgr : RisingWaveManager) : bool :=
  IsOpenKruiseAvailable mgr &&
  default false (rws_EnableOpenKruise (rw_Spec (rwm_risingwave mgr))).

Definition KeepLock (alive : list RisingWaveScaleViewLock) (mgr : RisingWaveManager)
  : RisingWaveManager := UpdateStatus (set_st_ScaleViews alive) mgr.

(** ** The invariant: no two conditions of one type *)

Definition cond_types (l : list RisingWaveCondition) : list string := cond_Type <$> l.

Definition conditions (mgr : RisingWaveManager) : list RisingWaveCondition :=
  st_Conditions (rw_Status (rwm_mutable mgr)).

Definition lookup_condition (l : list RisingWaveCondition) (t : string)
  : option RisingWaveCondition := snd <$> find_index (has_type t) l.

(** The operations of a reconcile. *)
Inductive manager_step : RisingWaveManager -> RisingWaveManager -> Prop :=
| step_sync mgr : manager_step mgr (SyncObservedGeneration mgr)
| step_remove mgr t : manager_step mgr (RemoveCondition t mgr)
| step_update mgr now c : manager_step mgr (UpdateCondition now c mgr)
| step_keep_lock mgr l : manager_step mgr (KeepLock l mgr).

(** ** Lemmas *)

(** The position of a type determines the condition. *)
Lemma cond_types_inj l i j x y :
  NoDup (cond_types l) -> l !! i = Some x -> l !! j = Some y -> cond_Type x = cond_Type y -> i = j.
Proof.
  intros Hnd Hi Hj Ht. unfold cond_types in Hnd.
  eapply NoDup_lookup; [exact Hnd|rewrite list_lookup_fmap, Hi; reflexivity|].
  rewrite list_lookup_fmap, Hj. cbn. congruence.
Qed.

Lemma find_type_Some t l i x :
  find_index (has_type t) l = Some (i, x) -> l !! i = Some x /\ cond_Type x = t.
Proof. intros (H & Ht & _)%find_index_Some. unfold has_type in Ht. by case_bool. Qed.

Lemma lookup_condition_Some l t c :
  NoDup (cond_types l) -> lookup_condition l t = Some c <-> c ∈ l /\ cond_Type c = t.
Proof.
  intros Hnd. unfold lookup_condition. split.
  - intros H. apply fmap_Some in H as ([i x] & H & ->).
    apply find_type_Some in H as [Hi Ht]. split; [by eapply list_elem_of_lookup_2|done].
  - intros [Hc Ht]. destruct (find_index (has_type t) l) as [[i x]|] eqn:H; cbn.
    + apply find_type_Some in H as [Hi Hx].
      apply list_elem_of_lookup in Hc as [j Hj].
      assert (i = j) as ->; [|congruence].
      eapply (cond_types_inj l i j x c); [done..|congruence].
    + apply find_index_None in H. rewrite Forall_forall in H. apply H in Hc.
      unfold has_type in Hc. by case_bool.
Qed.

Lemma lookup_condition_None l t : lookup_condition l t = None <-> t ∉ cond_types l.
Proof.
  unfold lookup_condition, cond_types. rewrite fmap_None, find_index_None, Forall_forall.
  rewrite list_elem_of_fmap. unfold has_type. split.
  - intros H (c & -> & Hc). apply H in Hc. by case_bool.
  - intros H c Hc. case_bool; [|done]. destruct H. eauto.
Qed.

Lemma remove_at_NoDup {A} i (l : list A) : NoDup l -> NoDup (remove_at i l).
Proof.
  unfold remove_at. revert i. induction l as [|x l IH]; intros i Hnd; [by destruct i|].
  apply NoDup_cons in Hnd as [Hx Hnd]. destruct i as [|i]; cbn; [done|].
  apply NoDup_cons. split; [|by apply IH].
  intros Hin. apply (elem_of_remove_at i l) in Hin. done.
Qed.

Lemma fmap_remove_at {A B} (f : A -> B) i l : f <$> remove_at i l = remove_at i (f <$> l).
Proof. unfold remove_at. by rewrite fmap_app, fmap_take, fmap_drop. Qed.

Lemma cond_types_put c l :
  cond_types (put_condition c l) =
  if decide (cond_Type c ∈ cond_types l) then cond_types l else cond_types l ++ [cond_Type c].
Proof.
  unfold put_condition. destruct (find_index (has_type (cond_Type c)) l) as [[i x]|] eqn:H.
  - apply find_type_Some in H as [Hi Hx].
    assert (cond_types l !! i = Some (cond_Type c)) as Hl.
    { unfold cond_types. rewrite list_lookup_fmap, Hi. cbn. congruence. }
    rewrite decide_True by (by eapply list_elem_of_lookup_2).
    unfold cond_types in *. rewrite list_fmap_insert. by apply list_insert_id.
  - rewrite decide_False; [unfold cond_types; by rewrite fmap_app|].
    apply lookup_condition_None. unfold lookup_condition. by rewrite H.
Qed.

Lemma put_condition_NoDup c l : NoDup (cond_types l) -> NoDup (cond_types (put_condition c l)).
Proof.
  intros Hnd. rewrite cond_types_put. case_decide as H; [done|].
  apply NoDup_app. split; [done|]. split; [|apply NoDup_singleton].
  intros t Ht Hs. apply list_elem_of_singleton in Hs as ->. done.
Qed.

Lemma remove_condition_NoDup t l :
  NoDup (cond_types l) -> NoDup (cond_types (remove_condition t l)).
Proof.
  intros Hnd. unfold remove_condition. destruct (find_index _ l) as [[i x]|]; [|done].
  unfold cond_types. rewrite fmap_remove_at. by apply remove_at_NoDup.
Qed.

Lemma elem_of_put c l x :
  NoDup (cond_types l) ->
  x ∈ put_condition c l <-> x = c \/ (x ∈ l /\ cond_Type x <> cond_Type c).
Proof.
  intros Hnd. unfold put_condition.
  destruct (find_index (has_type (cond_Type c)) l) as [[i y]|] eqn:H.
  - apply find_type_Some in H as [Hi Hy]. rewrite list_elem_of_lookup. split.
    + intros [j Hj]. apply list_lookup_insert_Some in Hj as [(_ & -> & _)|[Hij Hj]]; [by left|].
      right. split; [by eapply list_elem_of_lookup_2|]. intros Ht.
      apply Hij. eapply (cond_types_inj l i j y x); congruence.
    + intros [->|[Hx Ht]].
      * exists i. apply list_lookup_insert_eq. by eapply lookup_lt_Some.
      * apply list_elem_of_lookup in Hx as [j Hj]. exists j.
        rewrite list_lookup_insert_ne; [done|]. intros ->. congruence.
  - apply find_index_None in H. rewrite Forall_forall in H.
    rewrite elem_of_app, list_elem_of_singleton. split; [|tauto].
    intros [Hx|Hx]; [right|by left]. split; [done|]. intros Ht. apply H in Hx.
    unfold has_type in Hx. by case_bool.
Qed.

Lemma elem_of_remove t l x :
  NoDup (cond_types l) -> x ∈ remove_condition t l <-> x ∈ l /\ cond_Type x <> t.
Proof.
  intros Hnd. unfold remove_condition.
  destruct (find_index (has_type t) l) as [[i y]|] eqn:H.
  - apply find_type_Some in H as [Hi Hy]. split.
    + intros Hx. split; [by eapply elem_of_remove_at|]. intros Ht.
      apply list_elem_of_lookup in Hx as [j Hj].
      apply lookup_remove_at in Hj; [|by apply lookup_lt_Some in Hi].
      assert (i = if decide (j < i) then j else S j) as Heq.
      { eapply (cond_types_inj l); [done|exact Hi|exact Hj|congruence]. }
      case_decide; lia.
    + intros [Hx Ht]. apply list_elem_of_lookup in Hx as [j Hj].
      unfold remove_at. apply elem_of_app.
      destruct (Nat.lt_trichotomy j i) as [Hlt|[->|Hgt]]; [left|congruence|right].
      * apply list_elem_of_lookup. exists j. by rewrite lookup_take_lt.
      * apply list_elem_of_lookup. exists (j - S i). rewrite lookup_drop, <-Hj. f_equal. lia.
  - apply find_index_None in H. rewrite Forall_forall in H. split; [|by intros [? _]].
    intros Hx. split; [done|]. intros Ht. apply H in Hx. unfold has_type in Hx. by case_bool.
Qed.

Lemma stamp_type now rw c : cond_Type (stamp_condition now rw c) = cond_Type c.
Proof. unfold stamp_condition. destruct (GetCondition _ _); [case_decide|]; done. Qed.

Lemma stamp_status now rw c : cond_Status (stamp_condition now rw c) = cond_Status c.
Proof. unfold stamp_condition. destruct (GetCondition _ _); [case_decide|]; done. Qed.

Lemma manager_step_NoDup mgr mgr' :
  manager_step mgr mgr' -> NoDup (cond_types (conditions mgr)) ->
  NoDup (cond_types (conditions mgr')).
Proof.
  unfold conditions. intros [|m t|m now c|]; cbn; auto.
  - apply remove_condition_NoDup.
  - apply put_condition_NoDup.
Qed.

(** What is stored, and what is kept. *)
Lemma UpdateCondition_stores now c mgr :
  NoDup (cond_types (conditions mgr)) ->
  let mgr' := UpdateCondition now c mgr in
  lookup_condition (conditions mgr') (cond_Type c) =
    Some (stamp_condition now (rwm_risingwave mgr) c) /\
  (forall t, t <> cond_Type c ->
     lookup_condition (conditions mgr') t = lookup_condition (conditions mgr) t).
Proof.
  intros Hnd mgr'. set (c' := stamp_condition now (rwm_risingwave mgr) c).
  assert (NoDup (cond_types (conditions mgr'))) as Hnd'.
  { eapply manager_step_NoDup; [apply step_update|done]. }
  assert (conditions mgr' = put_condition c' (conditions mgr)) as Hc' by done.
  split.
  - apply lookup_condition_Some; [done|]. rewrite Hc', elem_of_put by done.
    split; [by left|]. apply stamp_type.
  - intros t Ht. apply option_eq. intros x. rewrite !lookup_condition_Some by done.
    rewrite Hc', elem_of_put by done. unfold c'. rewrite stamp_type. split.
    + intros [[->|[? ?]] <-]; [by rewrite stamp_type in Ht|done].
    + intros [? <-]. auto.
Qed.

Lemma RemoveCondition_lookup t mgr t' :
  NoDup (cond_types (conditions mgr)) ->
  lookup_condition (conditions (RemoveCondition t mgr)) t' =
  if decide (t' = t) then None else lookup_condition (conditions mgr) t'.
Proof.
  intros Hnd. set (mgr' := RemoveCondition t mgr).
  assert (NoDup (cond_types (conditions mgr'))) as Hnd'.
  { eapply manager_step_NoDup; [apply step_remove|done]. }
  assert (conditions mgr' = remove_condition t (conditions mgr)) as Hc' by done.
  apply option_eq. intros x. rewrite lookup_condition_Some, Hc', elem_of_remove by done.
  case_decide as Ht; [naive_solver|]. rewrite lookup_condition_Some by done. naive_solver.
Qed.

(** ** Properties *)

(** Whatever a reconcile does, the RisingWave as it was read and the OpenKruise
    switch do not change, the spec and metadata of the copy stay those that were read,
    and no condition type ever appears twice. *)
Theorem manager_invariant rw k mgr :
  NoDup (cond_types (st_Conditions (rw_Status rw))) ->
  rtc manager_step (NewRisingWaveManager rw k) mgr ->
  rwm_risingwave mgr = rw /\ rwm_openkruiseAvailable mgr = k /\
  rw_Spec (rwm_mutable mgr) = rw_Spec rw /\ rw_Meta (rwm_mutable mgr) = rw_Meta rw /\
  NoDup (cond_types (conditions mgr)).
Proof.
  intros Hnd H. remember (NewRisingWaveManager rw k) as m0 eqn:Hm.
  assert (rwm_risingwave m0 = rw /\ rwm_openkruiseAvailable m0 = k /\
    rw_Spec (rwm_mutable m0) = rw_Spec rw /\ rw_Meta (rwm_mutable m0) = rw_Meta rw /\
    NoDup (cond_types (conditions m0))) as Hinv by (by subst).
  clear Hm. induction H as [m|m m' m'' Hs _ IH]; [done|]. apply IH.
  destruct Hinv as (H1 & H2 & H3 & H4 & H5).
  pose proof (manager_step_NoDup _ _ Hs H5). by destruct Hs.
Qed.

(** [UpdateCondition] stores a condition of the given type and status, keeps every
    other condition, and stamps the time exactly when the type is new or its status
    differs from the one that was read. *)
Theorem UpdateCondition_spec now c mgr :
  NoDup (cond_types (conditions mgr)) ->
  let mgr' := UpdateCondition now c mgr in
  exists c', lookup_condition (conditions mgr') (cond_Type c) = Some c' /\
    cond_Status c' = cond_Status c /\
    (cond_LastTransitionTime c' =
       match GetCondition (rwm_risingwave mgr) (cond_Type c) with
       | Some last => if decide (cond_Status last = cond_Status c)
                      then cond_LastTransitionTime c else Some now
       | None => Some now
       end) /\
    (forall t, t <> cond_Type c ->
       lookup_condition (conditions mgr') t = lookup_condition (conditions mgr) t).
Proof.
  intros Hnd mgr'. destruct (UpdateCondition_stores now c mgr Hnd) as [Hc Hothers].
  exists (stamp_condition now (rwm_risingwave mgr) c). split; [done|].
  split; [apply stamp_status|]. split; [|done].
  unfold stamp_condition. destruct (GetCondition _ _); [case_decide|]; done.
Qed.

(** Repeating a condition, as the controller's actions do on every reconcile (they
    set a type and a status and no time), erases its transition time and so sends a
    status update although nothing has changed. *)
Theorem UpdateCondition_erases_time now t last rw k reply :
  NoDup (cond_types (st_Conditions (rw_Status rw))) ->
  GetCondition rw t = Some last -> cond_LastTransitionTime last <> None ->
  let c := {| cond_Type := t; cond_Status := cond_Status last; cond_LastTransitionTime := None;
              cond_Reason := ""; cond_Message := "" |} in
  let mgr := UpdateCondition now c (NewRisingWaveManager rw k) in
  lookup_condition (conditions mgr) t = Some c /\
  UpdateRemoteRisingWaveStatus mgr reply = (reply, [rwm_mutable mgr]).
Proof.
  intros Hnd Hl Ht c mgr.
  assert (conditions mgr = put_condition c (st_Conditions (rw_Status rw))) as Hc.
  { unfold conditions, mgr, UpdateCondition, stamp_condition. cbn [cond_Type c rwm_risingwave
      NewRisingWaveManager]. rewrite Hl. by rewrite decide_True. }
  assert (lookup_condition (conditions mgr) t = Some c) as Hlook.
  { apply lookup_condition_Some.
    - rewrite Hc. by apply put_condition_NoDup.
    - rewrite Hc, elem_of_put by done. auto. }
  split; [done|]. unfold UpdateRemoteRisingWaveStatus. rewrite decide_False; [done|].
  intros Heq. unfold conditions in Hlook. rewrite Heq in Hlook.
  assert (GetCondition rw t = Some c) as Hl' by exact Hlook.
  rewrite Hl in Hl'. apply Ht. apply (f_equal (fun o => c ← o; cond_LastTransitionTime c)) in Hl'.
  exact Hl'.
Qed.

(** ** Examples *)

Definition ex_condition (t status : string) (time : option Z) : RisingWaveCondition :=
  {| cond_Type := t; cond_Status := status; cond_LastTransitionTime := time;
     cond_Reason := ""; cond_Message := "" |}.

Definition ex_running : RisingWave :=
  set_rw_Status (set_st_Conditions [ex_condition "Running" "True" (Some 10%Z)] zero_status)
    zero_risingwave.

Lemma ex_running_NoDup : NoDup (cond_types (st_Conditions (rw_Status ex_running))).
Proof. apply NoDup_singleton. Qed.

Lemma manager_invariant_witness :
  rwm_risingwave (RemoveCondition "Running" (NewRisingWaveManager ex_running true)) = ex_running.
Proof.
  apply (manager_invariant ex_running true); [apply ex_running_NoDup|].
  apply rtc_once. constructor.
Defined.

Lemma UpdateCondition_spec_witness :
  lookup_condition (conditions (UpdateCondition 20 (ex_condition "Upgrading" "True" None)
    (NewRisingWaveManager ex_running true))) "Running" =
  Some (ex_condition "Running" "True" (Some 10%Z)).
Proof.
  destruct (UpdateCondition_spec 20 (ex_condition "Upgrading" "True" None)
    (NewRisingWaveManager ex_running true) ex_running_NoDup) as (c & _ & _ & _ & H).
  rewrite H; [vm_compute; reflexivity|discriminate].
Defined.

Lemma UpdateCondition_erases_time_witness :
  lookup_condition (conditions (UpdateCondition 20 (ex_condition "Running" "True" None)
    (NewRisingWaveManager ex_running true))) "Running" =
  Some (ex_condition "Running" "True" None).
Proof.
  apply (UpdateCondition_erases_time 20 "Running" (ex_condition "Running" "True" (Some 10%Z))
    ex_running true None ex_running_NoDup); [vm_compute; reflexivity|discriminate].
Defined.
