(* ===== verification/Workloads.v ===== *)
(** * The Kubernetes objects the operator manages, and when they are rolled out

    [pkg/utils/apps.go] and the helpers of [pkg/utils/common.go] the controllers use. A
    managed object (Service, ConfigMap, ServiceMonitor or one of the four kinds of
    workload) is a record of what the controllers read of it; its specification is a
    parameter [B]. The status of a workload has the fields the four kinds share. The names
    of the conditions the workload controllers report belong to the libraries that declare
    them: they are the class [ConditionNames]. *)

From S2P Require Import Prelude GoStrings ApiTypes.

(** ** Objects *)

Inductive object_kind :=
| KService | KConfigMap | KServiceMonitor
| KDeployment | KStatefulSet | KCloneSet | KAdvancedStatefulSet.

Global Instance object_kind_eq_dec : EqDecision object_kind.
Proof. solve_decision. Defined.

Record WorkloadCondition := { wc_Type : string; wc_Reason : string }.

Record WorkloadStatus := {
  ws_ObservedGeneration : Z;
  ws_Replicas : Z;
  ws_ReadyReplicas : Z;
  ws_UpdatedReplicas : Z;
  ws_AvailableReplicas : Z;
  ws_Conditions : list WorkloadCondition;
}.

Record Object (B : Type) := {
  o_Kind : object_kind;
  o_Meta : ObjectMeta;
  o_ResourceVersion : string;
  o_SpecReplicas : option Z;
  o_Status : WorkloadStatus;
  o_Spec : B;
}.
Arguments o_Kind {B}.
Arguments o_Meta {B}.
Arguments o_ResourceVersion {B}.
Arguments o_SpecReplicas {B}.
Arguments o_Status {B}.
Arguments o_Spec {B}.

Definition SetResourceVersion {B} (v : string) (o : Object B) : Object B :=
  {| o_Kind := o_Kind o; o_Meta := o_Meta o; o_ResourceVersion := v;
     o_SpecReplicas := o_SpecReplicas o; o_Status := o_Status o; o_Spec := o_Spec o |}.

(** [o.GetLabels()[key]]: the empty string when there is no such label. *)
Definition label {B} (key : string) (o : Object B) : string :=
  default "" (om_Labels (o_Meta o) !! key).

Definition GetName {B} (o : Object B) : string := om_Name (o_Meta o).
Definition GetNamespace {B} (o : Object B) : string := om_Namespace (o_Meta o).

(** ** Custom resource definitions (pkg/utils/apiextenions.go) *)

Record CRDVersion := { crdv_Name : string; crdv_Served : bool; crdv_Deprecated : bool }.
Record CustomResourceDefinition := { crd_Versions : list CRDVersion }.

(** The name [GetCustomResourceDefinition] asks for, with the kind in lower case. *)
Definition crd_name (lower_kind group : string) : string := lower_kind +:+ "s." +:+ group.

Definition IsVersionServingInCustomResourceDefinition (crd : option CustomResourceDefinition)
    (version : string) : bool :=
  match crd with
  | None => false
  | Some c =>
      if bool_decide (version = "") then false
      else existsb (fun v => bool_decide (crdv_Name v = version) && crdv_Served v &&
                             negb (crdv_Deprecated v)) (crd_Versions c)
  end.

(** ** Rollouts *)

Class ConditionNames := {
  DeploymentProgressing : string;
  CloneSetConditionFailedUpdate : string;
  CloneSetConditionFailedScale : string;
  FailedCreatePod : string;
  FailedUpdatePod : string;
}.

Section rollout.
Context `{ConditionNames} {B : Type}.

(** [Spec.Replicas != nil && Status.UpdatedReplicas < *Spec.Replicas]. *)
Definition updated_too_few (o : Object B) : bool :=
  match o_SpecReplicas o with
  | Some r => bool_decide (ws_UpdatedReplicas (o_Status o) < r)%Z
  | None => false
  end.

Definition has_condition (p : WorkloadCondition -> bool) (o : Object B) : bool :=
  existsb p (ws_Conditions (o_Status o)).

Definition IsDeploymentRolledOut (deploy : option (Object B)) : bool :=
  match deploy with
  | None => false
  | Some d =>
      let s := o_Status d in
      if bool_decide (ws_ObservedGeneration s < om_Generation (o_Meta d))%Z then false
      else if has_condition (fun c => bool_decide (wc_Type c = DeploymentProgressing) &&
                bool_decide (wc_Reason c = "ProgressDeadlineExceeded")) d then false
      else if updated_too_few d then false
      else if bool_decide (ws_Replicas s > ws_UpdatedReplicas s)%Z then false
      else if bool_decide (ws_AvailableReplicas s < ws_UpdatedReplicas s)%Z then false
      else true
  end.

(** Older API servers do not report the available replicas. *)
Definition ready_count (s : WorkloadStatus) : Z :=
  if bool_decide (ws_AvailableReplicas s = 0)%Z && bool_decide (ws_ReadyReplicas s > 0)%Z
  then ws_ReadyReplicas s else ws_AvailableReplicas s.

Definition IsStatefulSetRolledOut (statefulSet : option (Object B)) : bool :=
  match statefulSet with
  | None => false
  | Some o =>
      let s := o_Status o in
      if bool_decide (ws_ObservedGeneration s < om_Generation (o_Meta o))%Z then false
      else if updated_too_few o then false
      else if bool_decide (ws_Replicas s > ws_UpdatedReplicas s)%Z then false
      else if bool_decide (ready_count s < ws_UpdatedReplicas s)%Z then false
      else true
  end.

Definition IsCloneSetRolledOut (cloneSet : option (Object B)) : bool :=
  match cloneSet with
  | None => false
  | Some o =>
      let s := o_Status o in
      if bool_decide (ws_ObservedGeneration s < om_Generation (o_Meta o))%Z then false
      else if has_condition (fun c => bool_decide (wc_Type c = CloneSetConditionFailedUpdate) ||
                bool_decide (wc_Type c = CloneSetConditionFailedScale)) o then false
      else if updated_too_few o then false
      else if bool_decide (ws_Replicas s > ws_UpdatedReplicas s)%Z then false
      else if bool_decide (ws_AvailableReplicas s < ws_UpdatedReplicas s)%Z then false
      else true
  end.

Definition IsAdvancedStatefulSetRolledOut (statefulSet : option (Object B)) : bool :=
  match statefulSet with
  | None => false
  | Some o =>
      let s := o_Status o in
      if bool_decide (ws_ObservedGeneration s < om_Generation (o_Meta o))%Z then false
      else if has_condition (fun c => bool_decide (wc_Type c = FailedCreatePod) ||
                bool_decide (wc_Type c = FailedUpdatePod)) o then false
      else if updated_too_few o then false
      else if bool_decide (ws_Replicas s > ws_UpdatedReplicas s)%Z then false
      else if bool_decide (ready_count s < ws_UpdatedReplicas s)%Z then false
      else true
  end.

(** The check for a kind of workload; no other object is waited for. *)
Definition rolled_out (k : object_kind) : option (Object B) -> bool :=
  match k with
  | KDeployment => IsDeploymentRolledOut
  | KStatefulSet => IsStatefulSetRolledOut
  | KCloneSet => IsCloneSetRolledOut
  | KAdvancedStatefulSet => IsAdvancedStatefulSetRolledOut
  | _ => fun _ => false
  end.

(** What a rollout that is over means: the controller has seen the last change, every
    replica is of the new revision, at least as many as declared, and they all run. *)
Record rollout_done (o : Object B) : Prop := {
  rd_observed : (om_Generation (o_Meta o) <= ws_ObservedGeneration (o_Status o))%Z;
  rd_declared r : o_SpecReplicas o = Some r -> (r <= ws_UpdatedReplicas (o_Status o))%Z;
  rd_updated : (ws_Replicas (o_Status o) <= ws_UpdatedReplicas (o_Status o))%Z;
  rd_running : (ws_UpdatedReplicas (o_Status o) <= ws_AvailableReplicas (o_Status o))%Z \/
               (ws_AvailableReplicas (o_Status o) = 0 /\
                ws_UpdatedReplicas (o_Status o) <= ws_ReadyReplicas (o_Status o))%Z;
}.

Lemma updated_too_few_false o :
  updated_too_few o = false <->
  forall r, o_SpecReplicas o = Some r -> (r <= ws_UpdatedReplicas (o_Status o))%Z.
Proof.
  unfold updated_too_few. destruct (o_SpecReplicas o) as [r|]; [|by split; [intros _ ? [=]|]].
  rewrite bool_decide_eq_false. split; [intros Hr ? [= <-]; lia|intros Hr; specialize (Hr r eq_refl); lia].
Qed.

Lemma ready_count_spec s :
  ready_count s = ws_AvailableReplicas s \/
  (ws_AvailableReplicas s = 0 /\ ready_count s = ws_ReadyReplicas s)%Z.
Proof. unfold ready_count. repeat case_bool_decide; cbn; auto. Qed.
End rollout.

Ltac rollout_cases :=
  repeat match goal with
  | |- (if bool_decide _ then false else _) = true -> _ => case_bool_decide; [discriminate|]
  | |- (if ?b then false else _) = true -> _ =>
      let E := fresh "E" in destruct b eqn:E; [discriminate|]
  end.

(** A workload of any kind that the operator takes for rolled out is: its controller
    has observed the last change, all replicas are of the new revision, they are at least
    the declared ones, and they are available (or, where availability is not reported,
    ready). *)
Theorem rolled_out_done `{ConditionNames} {B} k (o : Object B) :
  rolled_out k (Some o) = true -> rollout_done o.
Proof.
  destruct k; cbn; try discriminate; rollout_cases; intros _;
    match goal with E : updated_too_few _ = false |- _ => rewrite updated_too_few_false in E end;
    split; auto; try lia; destruct (ready_count_spec (o_Status o)) as [?|[? ?]]; lia.
Qed.

(** ** Images *)

(** [utils.GetVersionFromImage]. The indices are those of [strings.LastIndex], with [-1]
    for [None]: the tag is searched in the part after the last slash. *)
Definition GetVersionFromImage (image : string) : string :=
  if bool_decide (image = "") then ""
  else
    let rest := match LastIndex_char "/" image with
                | Some i => drop_str (S i) image
                | None => image
                end in
    match LastIndex_char ":" rest with
    | None => "latest"
    | Some i => drop_str (S i) rest
    end.

Lemma LastIndex_char_app c s t :
  contains_char c t = false -> LastIndex_char c (s +:+ String c t) = Some (String.length s).
Proof.
  intros Hc. assert (LastIndex_char c t = None) as Ht.
  { induction t as [|d t IH]; [done|]. cbn in *. apply orb_false_iff in Hc as [Hd Hc].
    rewrite IH by done. by rewrite Hd. }
  induction s as [|d s IH]; cbn; [by rewrite Ht, bool_decide_true|by rewrite IH].
Qed.

Lemma LastIndex_char_None c s : contains_char c s = false -> LastIndex_char c s = None.
Proof.
  induction s as [|d s IH]; [done|]. cbn. rewrite orb_false_iff. intros [Hd Hs].
  rewrite IH by done. by rewrite Hd.
Qed.

(** A port in the registry is not taken for the tag. *)
Lemma GetVersionFromImage_tag repo name tag :
  contains_char "/" name = false -> contains_char "/" tag = false ->
  contains_char ":" tag = false ->
  GetVersionFromImage (repo +:+ "/" +:+ name +:+ ":" +:+ tag) = tag.
Proof.
  intros Hn Ht Hc. unfold GetVersionFromImage. rewrite bool_decide_false by (by destruct repo).
  change ("/" +:+ name +:+ ":" +:+ tag) with (String "/" (name +:+ ":" +:+ tag)).
  rewrite LastIndex_char_app by (by rewrite contains_char_app, Hn; cbn; rewrite Ht).
  assert (drop_str (S (String.length repo)) (repo +:+ String "/" (name +:+ ":" +:+ tag))
    = name +:+ ":" +:+ tag) as ->.
  { induction repo as [|c r IH]; cbn; [by destruct (name +:+ ":" +:+ tag)|done]. }
  change (":" +:+ tag) with (String ":" tag). rewrite LastIndex_char_app by done.
  clear. induction name as [|c n IH]; cbn; [by destruct tag|done].
Qed.

Lemma GetVersionFromImage_latest repo name :
  contains_char "/" name = false -> contains_char ":" name = false ->
  GetVersionFromImage (repo +:+ "/" +:+ name) = "latest".
Proof.
  intros Hn Hc. unfold GetVersionFromImage. rewrite bool_decide_false by (by destruct repo).
  change ("/" +:+ name) with (String "/" name). rewrite LastIndex_char_app by done.
  assert (drop_str (S (String.length repo)) (repo +:+ String "/" name) = name) as ->.
  { induction repo as [|c r IH]; cbn; [by destruct name|done]. }
  by rewrite LastIndex_char_None.
Qed.

(** ** Witnesses *)

Definition sample_names : ConditionNames :=
  {| DeploymentProgressing := "Progressing"; CloneSetConditionFailedUpdate := "FailedUpdate";
     CloneSetConditionFailedScale := "FailedScale"; FailedCreatePod := "FailedCreatePod";
     FailedUpdatePod := "FailedUpdatePod" |}.

Definition running_status (n : Z) : WorkloadStatus :=
  {| ws_ObservedGeneration := 1; ws_Replicas := n; ws_ReadyReplicas := n;
     ws_UpdatedReplicas := n; ws_AvailableReplicas := n; ws_Conditions := [] |}.

Definition sample_object (k : object_kind) (name : string) (labels : gmap string string) (n : Z)
  : Object unit :=
  {| o_Kind := k;
     o_Meta := {| om_Name := name; om_Namespace := "default"; om_UID := name;
                  om_Generation := 1; om_Labels := labels; om_Annotations := ∅;
                  om_Finalizers := []; om_Deleted := false |};
     o_ResourceVersion := "1"; o_SpecReplicas := Some n; o_Status := running_status n;
     o_Spec := () |}.

Lemma rolled_out_done_witness : rollout_done (sample_object KDeployment "rw-frontend" ∅ 3).
Proof. apply (@rolled_out_done sample_names unit KDeployment). vm_compute. reflexivity. Defined.

Example image_with_port : GetVersionFromImage "ghcr.io:443/rw/risingwave:v2.1.0" = "v2.1.0".
Proof. reflexivity. Qed.
Example image_digest : GetVersionFromImage "risingwave@sha256:abc" = "abc".
Proof. reflexivity. Qed.
