(* ===== verification/ManagerState.v ===== *)
(** * The state of a reconcile of a RisingWave, and what it reads

    [risingWaveControllerManagerImpl] of [pkg/manager/risingwave_controller_manager_impl.go]
    with the message store of [pkg/event], and [RisingWaveControllerManagerState] of
    [pkg/manager/risingwave_controller_manager_generated.go], which reads the objects a
    RisingWave owns. Every request to the API server, reads included, is appended to a
    trace; what the API server answers is the class [ClusterEnv] and may depend on the whole
    trace, so on the changes others make in between. *)

From S2P Require Import Prelude GoStrings ApiTypes ApiErrors RisingWaveManager Workloads.
From S2P Require Export GoMonad.

(** ** Definitions: requests and replies *)

Inductive request (B : Type) :=
| CreateRequest (o : Object B)
| UpdateRequest (o : Object B)
| DeleteRequest (o : Object B) (background : bool) (uid : option string)
| UpdateStatusRequest (rw : RisingWave)
| GetRequest (k : object_kind) (ns name : string)
| ListRequest (k : object_kind) (ns : string) (labels : gmap string string)
| GetScaleViewRequest (ns name : string)
| GetRisingWaveRequest (ns name : string)
| GetCRDRequest (name : string)
| RecordEvent (type name note : string).
Arguments CreateRequest {B}.
Arguments UpdateRequest {B}.
Arguments DeleteRequest {B}.
Arguments UpdateStatusRequest {B}.
Arguments GetRequest {B}.
Arguments ListRequest {B}.
Arguments GetScaleViewRequest {B}.
Arguments GetRisingWaveRequest {B}.
Arguments GetCRDRequest {B}.
Arguments RecordEvent {B}.

(** The error of a request that writes, if any; the answers to those that read; the checks
    of [ctrlkit] and of the scheme; the clock. *)
Class ClusterEnv (B : Type) := {
  api_reply : list (request B) -> request B -> option api_error;
  api_get : list (request B) -> object_kind -> string -> string -> result api_error (Object B);
  api_list : list (request B) -> object_kind -> string -> gmap string string ->
             result api_error (list (Object B));
  api_get_scale_view : list (request B) -> string -> string -> result api_error RisingWaveScaleView;
  api_get_risingwave : list (request B) -> string -> string -> result api_error RisingWave;
  api_get_crd : list (request B) -> string -> result api_error CustomResourceDefinition;
  ValidateOwnership : Object B -> RisingWave -> bool;
  GVKForObject : Object B -> option api_error;
  clock : nat -> Z;
}.

(** An environment for examples: the replies are given, nothing can be read. *)
Definition replying_env {B} (reply : list (request B) -> request B -> option api_error)
  : ClusterEnv B :=
  {| api_reply := reply; api_get := fun _ _ _ _ => Err (NotFoundError "");
     api_list := fun _ _ _ _ => Ok [];
     api_get_scale_view := fun _ _ _ => Err (NotFoundError "");
     api_get_risingwave := fun _ _ _ => Err (NotFoundError "");
     api_get_crd := fun _ _ => Err (NotFoundError "");
     ValidateOwnership := fun _ _ => true; GVKForObject := fun _ => None; clock := Z.of_nat |}.

(** ** Definitions: the message store *)

Definition MessageStore : Type := gmap string string.

Definition SetMessage (event message : string) (s : MessageStore) : MessageStore :=
  <[event := message]> s.
Definition MessageFor (event : string) (s : MessageStore) : string := default event (s !! event).
Definition IsMessageSet (event : string) (s : MessageStore) : bool := bool_decide (is_Some (s !! event)).
Definition NewMessageStore : MessageStore := ∅.

(** ** Definitions: the types of events (pkg/consts/event.go) *)

Record RisingWaveEventType := { ev_Name : string; ev_Type : string }.

Definition EventTypeNormal : string := "Normal".
Definition EventTypeWarning : string := "Warning".

Definition RisingWaveEventTypeInitializing := {| ev_Name := "Initializing"; ev_Type := EventTypeNormal |}.
Definition RisingWaveEventTypeRunning := {| ev_Name := "Running"; ev_Type := EventTypeNormal |}.
Definition RisingWaveEventTypeUnhealthy := {| ev_Name := "Unhealthy"; ev_Type := EventTypeWarning |}.
Definition RisingWaveEventTypeRecovering := {| ev_Name := "Recovering"; ev_Type := EventTypeNormal |}.
Definition RisingWaveEventTypeUpgrading := {| ev_Name := "Upgrading"; ev_Type := EventTypeNormal |}.

(** ** Definitions: the receiver *)

(** [mi_ticks] counts the readings of the clock. *)
Record risingWaveControllerManagerImpl (B : Type) := {
  mi_risingwaveManager : RisingWaveManager;
  mi_eventMessageStore : MessageStore;
  mi_forceUpdateEnabled : bool;
  mi_trace : list (request B);
  mi_ticks : nat;
}.
Arguments mi_risingwaveManager {B}.
Arguments mi_eventMessageStore {B}.
Arguments mi_forceUpdateEnabled {B}.
Arguments mi_trace {B}.
Arguments mi_ticks {B}.

Definition newRisingWaveControllerManagerImpl {B} (mgr : RisingWaveManager) (s : MessageStore)
    (forceUpdateEnabled : bool) (t : list (request B)) (ticks : nat)
  : risingWaveControllerManagerImpl B :=
  {| mi_risingwaveManager := mgr; mi_eventMessageStore := s;
     mi_forceUpdateEnabled := forceUpdateEnabled; mi_trace := t; mi_ticks := ticks |}.

(** A reconcile that starts. *)
Definition new_manager {B} (rw : RisingWave) (openkruise force : bool)
  : risingWaveControllerManagerImpl B :=
  newRisingWaveControllerManagerImpl (NewRisingWaveManager rw openkruise) NewMessageStore force [] 0.

(** [mgr.risingwaveManager.RisingWave()]: the RisingWave as it was read. *)
Definition observed_rw {B} (m : risingWaveControllerManagerImpl B) : RisingWave :=
  rwm_risingwave (mi_risingwaveManager m).

Definition openkruise_enabled {B} (m : risingWaveControllerManagerImpl B) : bool :=
  IsOpenKruiseEnabled (mi_risingwaveManager m).
Definition standalone_enabled {B} (m : risingWaveControllerManagerImpl B) : bool :=
  IsStandaloneModeEnabled (observed_rw m).

Definition log_request {B} (r : request B) (m : risingWaveControllerManagerImpl B)
  : risingWaveControllerManagerImpl B :=
  {| mi_risingwaveManager := mi_risingwaveManager m;
     mi_eventMessageStore := mi_eventMessageStore m;
     mi_forceUpdateEnabled := mi_forceUpdateEnabled m;
     mi_trace := mi_trace m ++ [r]; mi_ticks := mi_ticks m |}.

Definition set_message {B} (event message : string) (m : risingWaveControllerManagerImpl B)
  : risingWaveControllerManagerImpl B :=
  {| mi_risingwaveManager := mi_risingwaveManager m;
     mi_eventMessageStore := SetMessage event message (mi_eventMessageStore m);
     mi_forceUpdateEnabled := mi_forceUpdateEnabled m;
     mi_trace := mi_trace m; mi_ticks := mi_ticks m |}.

(** An operation of the manager of the RisingWave. *)
Definition on_manager {B} (f : RisingWaveManager -> RisingWaveManager)
    (m : risingWaveControllerManagerImpl B) : risingWaveControllerManagerImpl B :=
  {| mi_risingwaveManager := f (mi_risingwaveManager m);
     mi_eventMessageStore := mi_eventMessageStore m;
     mi_forceUpdateEnabled := mi_forceUpdateEnabled m;
     mi_trace := mi_trace m; mi_ticks := mi_ticks m |}.

Definition tick {B} (m : risingWaveControllerManagerImpl B) : risingWaveControllerManagerImpl B :=
  {| mi_risingwaveManager := mi_risingwaveManager m;
     mi_eventMessageStore := mi_eventMessageStore m;
     mi_forceUpdateEnabled := mi_forceUpdateEnabled m;
     mi_trace := mi_trace m; mi_ticks := S (mi_ticks m) |}.

Section state.
Context {B : Type} `{E : ClusterEnv B}.
Abbreviation Obj := (Object B).
Abbreviation Mgr := (risingWaveControllerManagerImpl B).
Abbreviation M := (GoM (risingWaveControllerManagerImpl B)).

Definition send (r : request B) : M (option api_error) := fun m =>
  Done (api_reply (mi_trace m) r, log_request r m).

(** A read: the answer to [r] after the requests so far. *)
Definition read {A} (answer : list (request B) -> A) (r : request B) : M A := fun m =>
  Done (answer (mi_trace m), log_request r m).

(** A condition the manager sets has a type and a status. *)
Definition plain_condition (type status : string) : RisingWaveCondition :=
  {| cond_Type := type; cond_Status := status; cond_LastTransitionTime := None;
     cond_Reason := ""; cond_Message := "" |}.

(** [mgr.risingwaveManager.UpdateCondition]. *)
Definition update_condition (type status : string) : M unit :=
  modify (fun m => tick (on_manager (UpdateCondition (clock (mi_ticks m)) (plain_condition type status)) m)).

(** ** Definitions: the owned objects *)

(** An object by its name; none is not an error, one that has another owner is. *)
Definition get_state (what : string) (k : object_kind) (name : string -> string)
  : M (result api_error (option Obj)) :=
  target ← gets observed_rw;
  let ns := om_Namespace (rw_Meta target) in
  let n := name (om_Name (rw_Meta target)) in
  r ← read (fun t => api_get t k ns n) (GetRequest k ns n);
  mret match r with
       | Err e => if IsNotFound e then Ok None
                  else Err (WrappedError ("unable to get state '" +:+ what +:+ "'") e)
       | Ok o =>
           if ValidateOwnership o target then Ok (Some o)
           else Err (PlainError ("unable to get state '" +:+ what +:+ "': object not owned by target"))
       end.

(** The workloads of a component, by their labels; those that have another owner are left
    out. *)
Definition list_state (what : string) (k : object_kind) (component : string)
  : M (result api_error (list Obj)) :=
  target ← gets observed_rw;
  let ns := om_Namespace (rw_Meta target) in
  let matchingLabels : gmap string string :=
    {[ LabelRisingWaveComponent := component; LabelRisingWaveName := om_Name (rw_Meta target) ]} in
  r ← read (fun t => api_list t k ns matchingLabels) (ListRequest k ns matchingLabels);
  mret match r with
       | Err e => Err (WrappedError ("unable to get state '" +:+ what +:+ "'") e)
       | Ok l => Ok (filter (fun o => ValidateOwnership o target) l)
       end.

Definition GetCompactorCloneSets := list_state "compactorCloneSets" KCloneSet "compactor".
Definition GetCompactorDeployments := list_state "compactorDeployments" KDeployment "compactor".
Definition GetCompactorService :=
  get_state "compactorService" KService (fun n => n +:+ "-compactor").
Definition GetComputeAdvancedStatefulSets :=
  list_state "computeAdvancedStatefulSets" KAdvancedStatefulSet "compute".
Definition GetComputeService := get_state "computeService" KService (fun n => n +:+ "-compute").
Definition GetComputeStatefulSets := list_state "computeStatefulSets" KStatefulSet "compute".
Definition GetConfigConfigMap :=
  get_state "configConfigMap" KConfigMap (fun n => n +:+ "-default-config").
Definition GetFrontendCloneSets := list_state "frontendCloneSets" KCloneSet "frontend".
Definition GetFrontendDeployments := list_state "frontendDeployments" KDeployment "frontend".
Definition GetFrontendService := get_state "frontendService" KService (fun n => n +:+ "-frontend").
Definition GetMetaAdvancedStatefulSets :=
  list_state "metaAdvancedStatefulSets" KAdvancedStatefulSet "meta".
Definition GetMetaService := get_state "metaService" KService (fun n => n +:+ "-meta").
Definition GetMetaStatefulSets := list_state "metaStatefulSets" KStatefulSet "meta".
Definition GetServiceMonitor :=
  get_state "serviceMonitor" KServiceMonitor (fun n => "risingwave-" +:+ n).
Definition GetStandaloneAdvancedStatefulSet :=
  get_state "standaloneAdvancedStatefulSet" KAdvancedStatefulSet (fun n => n +:+ "-standalone").
Definition GetStandaloneService :=
  get_state "standaloneService" KService (fun n => n +:+ "-standalone").
Definition GetStandaloneStatefulSet :=
  get_state "standaloneStatefulSet" KStatefulSet (fun n => n +:+ "-standalone").

Lemma IsMessageSet_set event message s : IsMessageSet event (SetMessage event message s) = true.
Proof.
  apply bool_decide_true. exists message. exact (lookup_insert_eq (M := gmap string) s event message).
Qed.

(** ** Requests sent *)

(** [m'] is [m] after some requests, all of which satisfy [P]. *)
Definition sends (P : request B -> Prop) (m m' : risingWaveControllerManagerImpl B) : Prop :=
  exists rs, m' = foldl (fun m r => log_request r m) m rs /\ Forall P rs.

Lemma sends_refl P m : sends P m m.
Proof. by exists []. Qed.

Lemma sends_one (P : request B -> Prop) m r : P r -> sends P m (log_request r m).
Proof. exists [r]. auto. Qed.

Lemma sends_trans P m1 m2 m3 : sends P m1 m2 -> sends P m2 m3 -> sends P m1 m3.
Proof.
  intros (rs & -> & H) (rs' & -> & H'). exists (rs ++ rs'). rewrite foldl_app.
  split; [done|]. by apply Forall_app.
Qed.

Lemma sends_log P m m' r : P r -> sends P (log_request r m) m' -> sends P m m'.
Proof. intros. eapply sends_trans; [by apply sends_one|done]. Qed.

Lemma sends_manager P m m' :
  sends P m m' -> mi_risingwaveManager m' = mi_risingwaveManager m.
Proof.
  intros (rs & -> & _). revert m. induction rs as [|r rs IH]; intros m; [done|]. cbn. by rewrite IH.
Qed.

Lemma sends_rw P m m' : sends P m m' -> observed_rw m' = observed_rw m.
Proof. intros Hs. unfold observed_rw. by rewrite (sends_manager P m m'). Qed.

Lemma log_trace rs (m : Mgr) :
  mi_trace (foldl (fun m r => log_request r m) m rs) = mi_trace m ++ rs.
Proof.
  revert m. induction rs as [|r rs IH]; intros m; cbn; [by rewrite app_nil_r|].
  rewrite IH. cbn. by rewrite <-app_assoc.
Qed.

Lemma sends_trace P m m' :
  sends P m m' -> exists rs, mi_trace m' = mi_trace m ++ rs /\ Forall P rs.
Proof.
  intros (rs & -> & HP). exists rs. split; [|done]. apply log_trace.
Qed.

(** ** What an operation does to the manager of the RisingWave *)

(** However [m] ends, the manager of the RisingWave has changed along [R]. *)
Definition respects {A} (R : relation RisingWaveManager) (f : M A) : Prop :=
  forall m, wlp f (fun _ m' => R (mi_risingwaveManager m) (mi_risingwaveManager m')) m.

Section respects.
Context (R : relation RisingWaveManager) `{!PreOrder R}.

Lemma respects_ret {A} (a : A) : respects R (mret a).
Proof. intros m. apply wlp_ret. reflexivity. Qed.

Lemma respects_bind {A C} (f : M A) (g : A -> M C) :
  respects R f -> (forall a, respects R (g a)) -> respects R (f ≫= g).
Proof.
  intros Hf Hg m. apply wlp_bind. eapply wlp_mono; [apply Hf|]. intros a m1 H1.
  eapply wlp_mono; [apply Hg|]. intros b m2 H2.
  etransitivity; [exact H1|exact H2].
Qed.

Lemma respects_gets {A} (f : Mgr -> A) : respects R (gets f).
Proof. intros m. apply wlp_gets. reflexivity. Qed.

Lemma respects_lift {A} (o : outcome A) : respects R (lift o).
Proof. intros m. apply wlp_lift. reflexivity. Qed.

Lemma respects_send r : respects R (send r).
Proof. intros m. unfold wlp, send. cbn. reflexivity. Qed.

Lemma respects_read {A} (answer : list (request B) -> A) r : respects R (read answer r).
Proof. intros m. unfold wlp, read. cbn. reflexivity. Qed.

Lemma respects_modify (f : Mgr -> Mgr) :
  (forall m, R (mi_risingwaveManager m) (mi_risingwaveManager (f m))) -> respects R (modify f).
Proof. intros Hf m. unfold wlp, modify. apply Hf. Qed.

Lemma respects_get_state what k name : respects R (get_state what k name).
Proof. apply respects_bind; [apply respects_gets|]. intros t. apply respects_bind;
  [apply respects_read|]. intros r. apply respects_ret. Qed.

Lemma respects_list_state what k component : respects R (list_state what k component).
Proof. apply respects_bind; [apply respects_gets|]. intros t. apply respects_bind;
  [apply respects_read|]. intros r. apply respects_ret. Qed.
End respects.

(** What is read has the RisingWave as its owner. *)
Lemma get_state_owned what k name m o m' :
  get_state what k name m = Done (Ok (Some o), m') -> ValidateOwnership o (observed_rw m) = true.
Proof.
  unfold get_state, mbind, GoM_bind, gets, read. cbn. destruct (api_get _ _ _ _) as [o'|e].
  - destruct (ValidateOwnership o' _) eqn:Ho; [|done]. by intros [= -> _].
  - by destruct (IsNotFound e).
Qed.

Lemma list_state_owned what k component m l m' :
  list_state what k component m = Done (Ok l, m') ->
  Forall (fun o => ValidateOwnership o (observed_rw m) = true) l.
Proof.
  unfold list_state, mbind, GoM_bind, gets, read. cbn. destruct (api_list _ _ _ _) as [l'|e]; [|done].
  intros [= <- _]. apply Forall_forall. intros o [Ho _]%list_elem_of_filter.
  by apply Is_true_true in Ho.
Qed.
End state.

Create HintDb respects discriminated.
#[export] Hint Resolve respects_ret respects_gets respects_lift respects_send respects_read
  respects_get_state respects_list_state : respects.

(** Goes through the structure of an operation. *)
Ltac respects_tac :=
  repeat match goal with
  | |- respects _ (_ ≫= _) => apply respects_bind; [apply _| |intros ?]
  | |- respects _ (match ?x with _ => _ end) => destruct x
  | |- respects _ _ => solve [eauto 2 with respects typeclass_instances]
  end.
