(* ===== verification/WorkloadSync.v ===== *)
(** * pkg/manager/risingwave_controller_manager_impl.go: bringing objects up to date

    The operator writes the generation of the RisingWave it built an object from in a label
    of the object, and replaces the object when the label is older than the RisingWave. The
    file models the check and the replacement of one object, and the two generic functions
    over the workloads of a component: bringing the workload of every node group up to date,
    and waiting for them. *)

From S2P Require Import Prelude GoStrings ApiTypes ApiErrors RisingWaveManager Workloads ManagerState.

Section sync.
Context {B : Type} `{E : ClusterEnv B}.
Abbreviation Obj := (Object B).
Abbreviation M := (GoM (risingWaveControllerManagerImpl B)).

(** ** Definitions: one object *)

Definition isObjectSynced (rw : RisingWave) (obj : option Obj) : bool :=
  match obj with
  | None => false
  | Some o =>
      let generationLabel := label LabelRisingWaveGeneration o in
      if bool_decide (NoSync = generationLabel) then true
      else bool_decide (om_Generation (rw_Meta rw) <= ParseInt64 generationLabel)%Z
  end.

(** [k] is the static type of the objects; a nil object is a typed nil pointer, so that the
    interface is not nil. *)
Definition ensureTheSameObject (k : object_kind) (obj newObj : option Obj) : outcome Obj :=
  match newObj with
  | None => Panic "objects not the same: new object is nil"
  | Some n =>
      let same := match obj with
                  | Some o => bool_decide (GetName o = GetName n) &&
                              bool_decide (GetNamespace o = GetNamespace n)
                  | None => true
                  end in
      if negb same then Panic "objects not the same"
      else if bool_decide (o_Kind n = k) then Done n else Panic "object types' not equal"
  end.

(** The outdated object [obj] is replaced by [n]: by an update, or, when the API server
    finds the update invalid and the operator may force it, by a deletion and a creation. *)
Definition replace_object (obj n : Obj) : M (option api_error) :=
  let n := SetResourceVersion (o_ResourceVersion obj) n in
  err ← send (UpdateRequest n);
  match err with
  | None => mret None
  | Some e =>
      if negb (IsInvalid e) then mret (Some e)
      else
        force ← gets mi_forceUpdateEnabled;
        let operatorVersionUnchanged :=
          bool_decide (label LabelRisingWaveOperatorVersion obj =
                       label LabelRisingWaveOperatorVersion n) in
        if negb force && operatorVersionUnchanged then mret (Some e)
        else
          err ← send (DeleteRequest obj false None);
          match err with
          | Some e => mret (Some e)
          | None =>
              err ← send (CreateRequest (SetResourceVersion "" n));
              mret (IgnoreAlreadyExists err)
          end
  end.

Definition syncObject (k : object_kind) (obj : option Obj) (factory : outcome (option Obj))
  : M (option api_error) :=
  match obj with
  | None =>
      newObj ← lift factory;
      n ← lift (ensureTheSameObject k None newObj);
      match GVKForObject n with
      | Some e => mret (Some e)
      | None => err ← send (CreateRequest n); mret (IgnoreAlreadyExists err)
      end
  | Some o =>
      match GVKForObject o with
      | Some e => mret (Some e)
      | None =>
          rw ← gets observed_rw;
          if negb (isObjectSynced rw (Some o)) then
            newObj ← lift factory;
            n ← lift (ensureTheSameObject k (Some o) newObj);
            replace_object o n
          else mret None
      end
  end.

(** ** Definitions: the workloads of a component *)

Definition group_of (o : Obj) : string := label LabelRisingWaveGroup o.

Definition buildKeyMapFromList (l : list RisingWaveNodeGroup) : gset string :=
  list_to_set (ng_Name <$> l).

Definition buildExpectedGroupSet (rw : RisingWave) (component : string) : outcome (gset string) :=
  groups ← GetNodeGroups rw component; mret (buildKeyMapFromList groups).

Record sync_plan := {
  observedGroupSet : gset string;
  foundGroups : gset string;
  toDelete : list Obj;
  toSyncGroupObjects : gmap string (option Obj);
}.

Definition empty_plan : sync_plan :=
  {| observedGroupSet := ∅; foundGroups := ∅; toDelete := []; toSyncGroupObjects := ∅ |}.

(** The body of the first loop. *)
Definition classify (rw : RisingWave) (expectedGroupSet : gset string) (p : sync_plan) (o : Obj)
  : sync_plan :=
  let group := group_of o in
  let '(del, sync) :=
    if bool_decide (group ∈ observedGroupSet p) then (toDelete p ++ [o], toSyncGroupObjects p)
    else if isObjectSynced rw (Some o) then (toDelete p, toSyncGroupObjects p)
    else if bool_decide (group ∈ expectedGroupSet)
    then (toDelete p, <[group := Some o]> (toSyncGroupObjects p))
    else (toDelete p ++ [o], toSyncGroupObjects p) in
  {| observedGroupSet := {[group]} ∪ observedGroupSet p;
     foundGroups := {[group]} ∪ foundGroups p; toDelete := del; toSyncGroupObjects := sync |}.

(** The body of the second loop: an expected group that was not found. *)
Definition add_missing (found : gset string) (m : gmap string (option Obj)) (group : string)
  : gmap string (option Obj) :=
  if bool_decide (group ∈ found) then m else <[group := None]> m.

Fixpoint delete_objects (l : list Obj) : M (option api_error) :=
  match l with
  | [] => mret None
  | o :: l' =>
      err ← send (DeleteRequest o true None);
      match IgnoreNotFound err with
      | Some _ => mret err
      | None => delete_objects l'
      end
  end.

Fixpoint sync_objects (k : object_kind) (factory : string -> outcome (option Obj))
    (toSync : gmap string (option Obj)) (groups : list string) : M (option api_error) :=
  match groups with
  | [] => mret None
  | group :: groups' =>
      err ← syncObject k (default None (toSync !! group)) (factory group);
      match err with
      | Some e => mret (Some e)
      | None => sync_objects k factory toSync groups'
      end
  end.

Section ranges.
Context `{O : RangeOrder}.

Definition syncComponentGroupWorkloads (k : object_kind) (component : string)
    (objects : list Obj) (factory : string -> outcome (option Obj)) (enabled : bool)
  : M ctrl_result :=
  rw ← gets observed_rw;
  expectedGroupSet ← lift (if enabled then buildExpectedGroupSet rw component else Done ∅);
  let p := foldl (classify rw expectedGroupSet) empty_plan objects in
  let toSync := foldl (add_missing (foundGroups p)) (toSyncGroupObjects p)
                  (range_keys "expected" expectedGroupSet) in
  err ← delete_objects (toDelete p);
  match err with
  | Some e => mret (RequeueIfErrorAndWrap "unable to delete object" (Some e))
  | None =>
      err ← sync_objects k factory toSync (range_keys "sync" (dom toSync));
      mret match err with
           | Some e => RequeueIfErrorAndWrap "unable to sync object" (Some e)
           | None => Continue
           end
  end.

(** [groups] is the nil map when the component is not expected to have workloads. *)
Definition waitComponentGroupWorkloadsReady (groups : gset string) (objects : list Obj)
    (isReady : Obj -> bool) : ctrl_result :=
  let fix check (l : list Obj) : bool :=
    match l with
    | [] => true
    | o :: l' => if bool_decide (group_of o ∈ groups)
                 then if isReady o then check l' else false else false
    end in
  if check objects
  then if forallb (fun group => bool_decide (group ∈ group_of <$> objects))
            (range_keys "groups" groups)
       then Continue else Exit
  else Exit.
End ranges.
End sync.

(** ** The plan, as a specification *)

Section plan.
Context {B : Type} (rw : RisingWave) (expected : gset string).
Abbreviation Obj := (Object B).

(** The object that stands for a group: the first of the list. *)
Definition first_of (group : string) (l : list Obj) : option Obj :=
  snd <$> find_index (fun o => bool_decide (group_of o = group)) l.

(** [o], after the objects [pre], is to be deleted: its group has an object already, or it
    is outdated and its group is not expected. *)
Definition surplus (pre : list Obj) (o : Obj) : Prop :=
  group_of o ∈ group_of <$> pre \/
  (isObjectSynced rw (Some o) = false /\ group_of o ∉ expected).

(** What is to be done for a group: nothing, or its outdated object, or a new one. *)
Definition to_sync (l : list Obj) (group : string) : option (option Obj) :=
  if decide (group ∈ expected) then
    match first_of group l with
    | Some o => if isObjectSynced rw (Some o) then None else Some (Some o)
    | None => Some None
    end
  else None.

Lemma first_of_Some g l o :
  first_of g l = Some o <-> exists pre post, l = pre ++ o :: post /\ group_of o = g /\
    g ∉ group_of <$> pre.
Proof.
  unfold first_of. split.
  - intros ([i o'] & H & ->)%fmap_Some. apply find_index_Some in H as (Hi & Hg & Hmin). case_bool.
    exists (take i l), (drop (S i) l). cbn. split; [by rewrite take_drop_middle|].
    split; [done|]. intros (y & Hy & Hin)%list_elem_of_fmap.
    apply elem_of_take in Hin as (j & Hj & Hlt). specialize (Hmin j y Hlt Hj). by case_bool.
  - intros (pre & post & -> & <- & Hpre).
    unfold find_index. rewrite find_index_from_app.
    + cbn. by rewrite bool_decide_true.
    + apply find_index_None, Forall_forall. intros y Hy. case_bool; [|done].
      destruct Hpre. apply list_elem_of_fmap. eauto.
Qed.

Lemma first_of_None g l : first_of g l = None <-> g ∉ group_of <$> l.
Proof.
  unfold first_of. rewrite fmap_None, find_index_None, Forall_forall, list_elem_of_fmap. split.
  - intros H (y & -> & Hy). apply H in Hy. by case_bool.
  - intros H y Hy. case_bool; [|done]. destruct H. eauto.
Qed.

Lemma first_of_elem g l o : first_of g l = Some o -> o ∈ l /\ group_of o = g.
Proof. intros (pre & post & -> & ? & _)%first_of_Some. split; [set_solver|done]. Qed.

Lemma first_of_group g l o : first_of g l = Some o -> g ∈ group_of <$> l.
Proof. intros [? <-]%first_of_elem. apply list_elem_of_fmap. eauto. Qed.

Lemma first_of_snoc g l o :
  first_of g (l ++ [o]) = match first_of g l with
                          | Some o' => Some o'
                          | None => if decide (group_of o = g) then Some o else None
                          end.
Proof.
  destruct (first_of g l) as [o'|] eqn:H.
  - apply first_of_Some in H as (pre & post & -> & Hg & Hpre). apply first_of_Some.
    exists pre, (post ++ [o]). by rewrite <-app_assoc.
  - apply first_of_None in H. case_decide as Hg.
    + apply first_of_Some. exists l, []. auto.
    + apply first_of_None. rewrite fmap_app, elem_of_app. cbn. rewrite list_elem_of_singleton.
      intros [?|?]; [done|congruence].
Qed.

(** What the first loop has computed after the objects [l]. *)
Record plan_of (l : list Obj) (p : sync_plan (B := B)) : Prop := {
  po_observed g : g ∈ observedGroupSet p <-> g ∈ group_of (B := B) <$> l;
  po_found g : g ∈ foundGroups p <-> g ∈ group_of (B := B) <$> l;
  po_delete o : o ∈ toDelete p <-> exists pre post, l = pre ++ o :: post /\ surplus pre o;
  po_sync g : toSyncGroupObjects p !! g =
    match first_of g l with
    | Some o => if isObjectSynced rw (Some o) then None
                else if decide (g ∈ expected) then Some (Some o) else None
    | None => None
    end;
}.

Lemma snoc_split {A} (P : list A -> A -> Prop) l x y :
  (exists pre post, l ++ [x] = pre ++ y :: post /\ P pre y) <->
  (exists pre post, l = pre ++ y :: post /\ P pre y) \/ (y = x /\ P l x).
Proof.
  split.
  - intros (pre & post & H & HP). destruct post as [|z post _] using rev_ind.
    + apply app_inj_tail in H as [-> ->]. by right.
    + rewrite app_comm_cons, app_assoc in H. apply app_inj_tail in H as [-> ->]. left. eauto.
  - intros [(pre & post & -> & HP)|[-> HP]]; [|eauto].
    exists pre, (post ++ [x]). by rewrite <-app_assoc.
Qed.

Lemma plan_of_nil : plan_of [] empty_plan.
Proof. split; cbn; [set_solver..| |done]. intros o. split; [by intros ?%not_elem_of_nil|].
  by intros ([|] & ? & ? & _). Qed.

Lemma toDelete_classify p (o x : Obj) :
  x ∈ toDelete (classify rw expected p o) <->
  x ∈ toDelete p \/ (x = o /\ (group_of o ∈ observedGroupSet p \/
    (isObjectSynced rw (Some o) = false /\ group_of o ∉ expected))).
Proof.
  unfold classify. case_bool_decide; [|destruct (isObjectSynced rw (Some o)) eqn:E;
    [|case_bool_decide]]; cbn; rewrite ?elem_of_app, ?list_elem_of_singleton; naive_solver.
Qed.

Lemma toSync_classify p (o : Obj) g :
  toSyncGroupObjects (classify rw expected p o) !! g =
  if decide (g = group_of o /\ (g ∉ observedGroupSet p) /\ isObjectSynced rw (Some o) = false /\
             g ∈ expected)
  then Some (Some o) else toSyncGroupObjects p !! g.
Proof.
  unfold classify. case_bool_decide; [|destruct (isObjectSynced rw (Some o)) eqn:E;
    [|case_bool_decide]]; cbn; case_decide as Hd; try (destruct Hd as (-> & ? & ? & ?));
    rewrite ?lookup_insert; try congruence; try (by rewrite decide_True by done).
  rewrite decide_False; [done|]. intros <-. tauto.
Qed.

Lemma plan_of_snoc l p (o : Obj) : plan_of l p -> plan_of (l ++ [o]) (classify rw expected p o).
Proof.
  intros H. pose proof (po_observed _ _ H) as Hobs.
  assert (observedGroupSet (classify rw expected p o) = {[group_of o]} ∪ observedGroupSet p /\
    foundGroups (classify rw expected p o) = {[group_of o]} ∪ foundGroups p) as [Ho Hf].
  { unfold classify. repeat case_match; done. }
  split.
  - intros g. rewrite Ho, fmap_app, elem_of_app, elem_of_union, Hobs. set_solver.
  - intros g. rewrite Hf, fmap_app, elem_of_app, elem_of_union, (po_found _ _ H). set_solver.
  - intros x. rewrite toDelete_classify, snoc_split, (po_delete _ _ H), Hobs. done.
  - intros g. rewrite toSync_classify, (po_sync _ _ H), first_of_snoc.
    destruct (first_of g l) as [o'|] eqn:Hg.
    + rewrite decide_False; [done|]. rewrite Hobs. intros (-> & Hn & _).
      by eapply Hn, first_of_group.
    + apply first_of_None in Hg. rewrite <-Hobs in Hg.
      destruct (decide (group_of o = g)) as [<-|Hne];
        [destruct (isObjectSynced rw (Some o)) eqn:E; [|destruct (decide (group_of o ∈ expected))]|];
        case_decide; naive_solver.
Qed.

Lemma plan_of_foldl l : plan_of l (foldl (classify rw expected) empty_plan l).
Proof.
  induction l as [|o l IH] using rev_ind; [apply plan_of_nil|].
  rewrite foldl_snoc. by apply plan_of_snoc.
Qed.

Lemma add_missing_lookup found ks m g :
  foldl (add_missing (B := B) found) m ks !! g =
  if decide (g ∈ ks /\ g ∉ found) then Some None else m !! g.
Proof.
  revert m. induction ks as [|k ks IH]; intros m; cbn.
  - rewrite decide_False; [done|]. by intros [?%not_elem_of_nil _].
  - rewrite IH. unfold add_missing. case_decide as H1; case_decide as H2; try done.
    + destruct H2. set_solver.
    + assert (g = k) as -> by set_solver. rewrite bool_decide_false by tauto.
      by rewrite lookup_insert_eq.
    + case_bool_decide; [done|]. rewrite lookup_insert_ne; [done|]. intros ->. set_solver.
Qed.

(** The two loops compute the specification. *)
Lemma to_sync_computed `{RangeOrderOk} (l : list Obj) g :
  foldl (add_missing (foundGroups (foldl (classify rw expected) empty_plan l)))
    (toSyncGroupObjects (foldl (classify rw expected) empty_plan l))
    (range_keys "expected" expected) !! g = to_sync l g.
Proof.
  pose proof (plan_of_foldl l) as Hp. set (p := foldl _ _ _) in *.
  rewrite add_missing_lookup, (po_sync _ _ Hp). unfold to_sync.
  assert (g ∈ range_keys "expected" expected /\ (g ∉ foundGroups p) <->
    g ∈ expected /\ first_of g l = None) as Hm.
  { by rewrite elem_of_range_keys, (po_found _ _ Hp), first_of_None. }
  destruct (first_of g l) as [o|] eqn:Hg.
  - rewrite decide_False by naive_solver. destruct (isObjectSynced _ _); by case_decide.
  - case_decide as H1; case_decide as H2; tauto.
Qed.
End plan.

(** ** The requests that may be sent *)

Section requests.
Context {B : Type} `{E : ClusterEnv B} `{O : RangeOrderOk}.
Abbreviation Obj := (Object B).
Abbreviation M := (GoM (risingWaveControllerManagerImpl B)).

Definition same_object (o n : Obj) : Prop :=
  GetName o = GetName n /\ GetNamespace o = GetNamespace n.

(** The requests one pass over [objects] may send, and for which objects. *)
Inductive permitted (rw : RisingWave) (expected : gset string) (objects : list Obj)
    (factory : string -> outcome (option Obj)) : request B -> Prop :=
| permit_surplus pre o post :
    objects = pre ++ o :: post -> surplus rw expected pre o ->
    permitted rw expected objects factory (DeleteRequest o true None)
| permit_create g n :
    g ∈ expected -> first_of g objects = None -> factory g = Done (Some n) ->
    permitted rw expected objects factory (CreateRequest n)
| permit_replace g o n r :
    g ∈ expected -> first_of g objects = Some o -> isObjectSynced rw (Some o) = false ->
    factory g = Done (Some n) -> same_object o n ->
    (r = UpdateRequest (SetResourceVersion (o_ResourceVersion o) n) \/
     r = DeleteRequest o false None \/ r = CreateRequest (SetResourceVersion "" n)) ->
    permitted rw expected objects factory r.

Hint Resolve sends_refl sends_one : core.

Lemma ensure_Done k (o : option Obj) newObj n :
  ensureTheSameObject k o newObj = Done n ->
  newObj = Some n /\ o_Kind n = k /\ (forall o', o = Some o' -> same_object o' n).
Proof.
  unfold ensureTheSameObject. destruct newObj as [n'|]; [|done].
  destruct (negb _) eqn:Hs; [done|]. case_bool_decide as Hk; [|done]. intros [= ->].
  split; [done|]. split; [done|]. intros o' ->. split_bools. by case_bool.
Qed.

Lemma replace_sends (P : request B -> Prop) o n m :
  P (UpdateRequest (SetResourceVersion (o_ResourceVersion o) n)) ->
  P (DeleteRequest o false None) -> P (CreateRequest (SetResourceVersion "" n)) ->
  wlp (replace_object o n) (fun _ => sends P m) m.
Proof.
  intros Hu Hd Hc. unfold replace_object, send. apply wlp_bind. cbn.
  destruct (api_reply _ _) as [e|]; [|by apply wlp_ret, sends_one].
  destruct (IsInvalid e); cbn; [|by apply wlp_ret, sends_one].
  apply wlp_bind, wlp_gets. destruct (_ && _); [by apply wlp_ret, sends_one|].
  apply wlp_bind. cbn. destruct (api_reply _ _) as [e'|];
    [apply wlp_ret; eapply sends_log; [exact Hu|by apply sends_one]|].
  apply wlp_bind. cbn. apply wlp_ret.
  eapply sends_log; [exact Hu|]. eapply sends_log; [exact Hd|]. by apply sends_one.
Qed.

Lemma syncObject_sends k (obj : option Obj) factory (P : request B -> Prop) m :
  match obj with
  | None => forall n, factory = Done (Some n) -> P (CreateRequest n)
  | Some o => forall n r, factory = Done (Some n) -> same_object o n ->
      isObjectSynced (observed_rw m) (Some o) = false ->
      r = UpdateRequest (SetResourceVersion (o_ResourceVersion o) n) \/
        r = DeleteRequest o false None \/ r = CreateRequest (SetResourceVersion "" n) -> P r
  end ->
  wlp (syncObject k obj factory) (fun _ => sends P m) m.
Proof.
  unfold syncObject. intros H. destruct obj as [o|].
  - destruct (GVKForObject o); [by apply wlp_ret|]. apply wlp_bind, wlp_gets.
    destruct (isObjectSynced (observed_rw m) (Some o)) eqn:Hs; cbn [negb]; [by apply wlp_ret|].
    apply wlp_bind, wlp_lift. intros newObj Hn. apply wlp_bind, wlp_lift.
    intros n (-> & _ & Ho)%ensure_Done. apply replace_sends; eapply H; eauto.
  - apply wlp_bind, wlp_lift. intros newObj Hn. apply wlp_bind, wlp_lift.
    intros n (-> & _ & _)%ensure_Done. destruct (GVKForObject n); [by apply wlp_ret|].
    apply wlp_bind. unfold send. cbn. apply wlp_ret, sends_one. by apply H.
Qed.

Lemma delete_sends (P : request B -> Prop) l m :
  (forall o, o ∈ l -> P (DeleteRequest o true None)) ->
  wlp (delete_objects l) (fun _ => sends P m) m.
Proof.
  revert m. induction l as [|o l IH]; intros m H; [by apply wlp_ret|].
  cbn. apply wlp_bind. unfold send. cbn.
  destruct (IgnoreNotFound _); [apply wlp_ret, sends_one, H; left|].
  eapply wlp_mono; [apply IH; intros; apply H; by right|]. intros ? m' Hm.
  eapply sends_log; [|exact Hm]. apply H. left.
Qed.

Lemma sync_objects_sends k factory toSync groups (P : request B -> Prop) m :
  (forall g m', g ∈ groups -> sends P m m' ->
     wlp (syncObject k (default None (toSync !! g)) (factory g)) (fun _ => sends P m') m') ->
  wlp (sync_objects k factory toSync groups) (fun _ => sends P m) m.
Proof.
  revert m. induction groups as [|g gs IH]; intros m H; [by apply wlp_ret|].
  cbn. apply wlp_bind. eapply wlp_mono; [apply H; [left|done]|].
  intros [e|] m1 H1; [by apply wlp_ret|].
  eapply wlp_mono; [apply IH|]; [|intros ? m2; by apply sends_trans].
  intros g' m' Hg H'. apply H; [by right|]. by eapply sends_trans.
Qed.

Definition expected_groups (rw : RisingWave) (component : string) (enabled : bool)
  : outcome (gset string) :=
  if enabled then buildExpectedGroupSet rw component else Done ∅.

Lemma sync_sends k component objects factory enabled m :
  wlp (syncComponentGroupWorkloads k component objects factory enabled)
    (fun _ m' => exists expected,
       expected_groups (observed_rw m) component enabled = Done expected /\
       sends (permitted (observed_rw m) expected objects factory) m m') m.
Proof.
  set (rw := observed_rw m).
  unfold syncComponentGroupWorkloads. apply wlp_bind, wlp_gets, wlp_bind, wlp_lift.
  intros expected He. change (expected_groups rw component enabled = Done expected) in He.
  fold rw. set (p := foldl (classify rw expected) empty_plan objects).
  set (P := permitted rw expected objects factory).
  apply wlp_bind. eapply wlp_mono; [apply (delete_sends P)|].
  { intros o (pre & post & Hl & Hs)%(po_delete _ _ _ _ (plan_of_foldl rw expected objects)).
    by eapply permit_surplus. }
  intros [e|] m1 H1; [apply wlp_ret; eauto|].
  apply wlp_bind. eapply wlp_mono; [apply (sync_objects_sends _ _ _ _ P)|].
  { intros g m2 Hg H2. apply syncObject_sends.
    apply elem_of_range_keys, elem_of_dom in Hg as [t Ht]. rewrite Ht. cbn.
    pose proof (to_sync_computed rw expected objects g) as Htg. fold p in Htg.
    rewrite Htg in Ht. unfold to_sync in Ht.
    case_decide as Hexp; [|done].
    destruct (first_of g objects) as [o|] eqn:Hf;
      [destruct (isObjectSynced rw (Some o)) eqn:Hsync; [done|]|]; injection Ht as <-.
    - intros n r Hn Ho _ Hr. by eapply permit_replace.
    - intros n Hn. by eapply permit_create. }
  intros [e|] m2 H2; apply wlp_ret; exists expected; (split; [done|]);
    by eapply sends_trans.
Qed.

(** C14: One pass over the workloads of a component only sends requests it is meant to: it
    deletes an object only if an earlier one has the same group, or it is outdated and its
    group is not expected; it creates an object only for an expected group that has none;
    and it replaces an object only by the one the factory builds, under the same name, if it
    is the first one of an expected group and is outdated. *)
Theorem sync_permitted k component objects factory enabled m res m' :
  syncComponentGroupWorkloads k component objects factory enabled m = Done (res, m') ->
  exists expected rs, expected_groups (observed_rw m) component enabled = Done expected /\
    mi_trace m' = mi_trace m ++ rs /\
    Forall (permitted (observed_rw m) expected objects factory) rs.
Proof.
  intros (expected & He & (rs & Hrs & HP)%sends_trace)%(wlp_run _ _ _ _ _
    (sync_sends k component objects factory enabled m)). eauto 10.
Qed.

Lemma NoDup_split {A} (x : A) pre post pre' post' :
  NoDup (pre ++ x :: post) -> pre ++ x :: post = pre' ++ x :: post' -> pre = pre'.
Proof.
  revert pre'. induction pre as [|y pre IH]; intros [|y' pre'] Hnd Heq; cbn in *; simplify_eq.
  - done.
  - apply NoDup_cons in Hnd as [Hx _]. set_solver.
  - apply NoDup_cons in Hnd as [Hx _]. set_solver.
  - apply NoDup_cons in Hnd as [_ Hnd]. f_equal. eauto.
Qed.

(** An object that is up to date and the first of its group is not deleted. *)
Lemma synced_kept rw expected objects factory o bg uid :
  NoDup objects -> permitted rw expected objects factory (DeleteRequest o bg uid) ->
  isObjectSynced rw (Some o) = true -> first_of (group_of o) objects <> Some o.
Proof.
  intros Hnd Hr Hs Hf.
  inversion Hr as [pre o' post Hl Hsu| |g o' n r' Hg Hfg Hns _ _ Hreq]; simplify_eq.
  - apply first_of_Some in Hf as (pre' & post' & Hl & _ & Hpre').
    destruct Hsu as [Hpre|[? _]]; [|congruence].
    assert (pre = pre') as ->; [|done]. by eapply NoDup_split.
  - destruct Hreq as [?|[?|?]]; simplify_eq. congruence.
Qed.

(** ** Waiting *)

(** Waiting for the workloads of a component ends exactly when there is one for every
    expected group, none for another group, and each of them is ready. *)
Lemma wait_Continue_iff groups objects (isReady : Obj -> bool) :
  waitComponentGroupWorkloadsReady groups objects isReady = Continue <->
  (forall o, o ∈ objects -> group_of o ∈ groups /\ isReady o = true) /\
  (forall g, g ∈ groups -> g ∈ group_of <$> objects).
Proof.
  unfold waitComponentGroupWorkloadsReady.
  set (check := fix check (l : list Obj) : bool := match l with [] => true | _ => _ end).
  assert (forall l, check l = true <-> Forall (fun o => group_of o ∈ groups /\ isReady o = true) l)
    as Hcheck.
  { intros l. induction l as [|o l IH]; cbn; [by split; [constructor|]|].
    rewrite Forall_cons, <-IH. case_bool_decide; [destruct (isReady o)|]; naive_solver. }
  rewrite <-Forall_forall, <-Hcheck.
  assert (forallb (fun g => bool_decide (g ∈ group_of <$> objects)) (range_keys "groups" groups) = true
    <-> forall g, g ∈ groups -> g ∈ group_of <$> objects) as Hall.
  { rewrite forallb_forall. setoid_rewrite bool_decide_eq_true.
    setoid_rewrite <-list_elem_of_In. by setoid_rewrite elem_of_range_keys. }
  rewrite <-Hall. destruct (check objects), (forallb _ _); naive_solver.
Qed.
End requests.

(** ** Witnesses *)

Definition ex_meta (name : string) (generation : Z) : ObjectMeta :=
  {| om_Name := name; om_Namespace := "default"; om_UID := "u"; om_Generation := generation;
     om_Labels := ∅; om_Annotations := ∅; om_Finalizers := []; om_Deleted := false |}.

(** A RisingWave of generation 2 with two frontend groups. *)
Definition ex_rw : RisingWave :=
  {| rw_Meta := ex_meta "rw" 2;
     rw_Spec := set_rws_Components
       {| cps_Standalone := None; cps_Meta := component_of [];
          cps_Frontend := component_of [simple_group "a" 1; simple_group "b" 2];
          cps_Compute := component_of [];
          cps_Compactor := component_of [] |} zero_spec;
     rw_Status := zero_status |}.

Definition ex_workload (group : string) (generation : Z) : Object unit :=
  sample_object KDeployment ("rw-frontend-" +:+ group)
    {[ LabelRisingWaveGroup := group; LabelRisingWaveGeneration := FormatInt generation ]} 1.

Definition ex_factory (group : string) : outcome (option (Object unit)) :=
  Done (Some (ex_workload group 2)).

Definition ex_manager {B} : risingWaveControllerManagerImpl B := new_manager ex_rw false false.

(** An outdated "a", a surplus "c" and no "b": one update, one deletion, one creation. *)
Lemma sync_permitted_witness :
  exists expected rs,
    @syncComponentGroupWorkloads unit (replying_env (fun _ _ => None)) elements_order KDeployment "frontend"
      [ex_workload "a" 1; ex_workload "c" 1] ex_factory true ex_manager =
    Done (Continue, foldl (fun m r => log_request r m) ex_manager rs) /\
    length rs = 3 /\ Forall (permitted ex_rw expected [ex_workload "a" 1; ex_workload "c" 1] ex_factory) rs.
Proof.
  eassert (@syncComponentGroupWorkloads unit (replying_env (fun _ _ => None)) elements_order KDeployment "frontend"
      [ex_workload "a" 1; ex_workload "c" 1] ex_factory true ex_manager =
    Done (Continue, foldl (fun m r => log_request r m) ex_manager
      [DeleteRequest (ex_workload "c" 1) true None;
       UpdateRequest (ex_workload "a" 2); CreateRequest (ex_workload "b" 2)])) as H
    by (vm_compute; reflexivity).
  pose proof elements_order_ok as Hok.
  destruct (@sync_permitted unit (replying_env (fun _ _ => None)) elements_order Hok _ _ _ _ _ _ _ _ H)
    as (expected & rs & _ & Hrs & HF).
  exists expected, rs. cbn in Hrs. subst rs. auto.
Defined.
