(* ===== verification/WorkloadConvergence.v ===== *)
(** * One pass brings the workloads of a component up to date

    The refinement of [WorkloadSync.syncComponentGroupWorkloads]: against a reference API
    server, and with a factory that builds current objects under names of their own, a pass
    ends with exactly one current object for each expected group, and the next pass has
    nothing to do. The reference server keeps the objects under their names; an object that
    is deleted is gone at once. *)

From S2P Require Import Prelude GoStrings ApiTypes ApiErrors RisingWaveManager Workloads ManagerState.
From S2P Require Import WorkloadSync.

(** ** Definitions *)

Section convergence.
Context {B : Type} `{E : ClusterEnv B} `{O : RangeOrderOk}.
Abbreviation Obj := (Object B).
Abbreviation Mgr := (risingWaveControllerManagerImpl B).

Definition same_key (o n : Obj) : bool :=
  bool_decide (GetName o = GetName n) && bool_decide (GetNamespace o = GetNamespace n).

Definition server_step (c : list Obj) (r : request B) : list Obj :=
  match r with
  | CreateRequest n => if existsb (same_key n) c then c else c ++ [n]
  | UpdateRequest n => (fun o => if same_key n o then n else o) <$> c
  | DeleteRequest d _ _ => filter (fun o => negb (same_key d o)) c
  | _ => c
  end.

Definition server_reply (c : list Obj) (r : request B) : option api_error :=
  match r with
  | CreateRequest n =>
      if existsb (same_key n) c then Some (AlreadyExistsError (GetName n)) else None
  | UpdateRequest n | DeleteRequest n _ _ =>
      if existsb (same_key n) c then None else Some (NotFoundError (GetName n))
  | _ => None
  end.

(** The objects after the requests [t]. *)
Definition cluster (c0 : list Obj) (t : list (request B)) : list Obj := foldl server_step c0 t.

(** The environment is that server, and the scheme knows the objects. *)
Class ReferenceServer (c0 : list Obj) : Prop := {
  server_replies t r : api_reply t r = server_reply (cluster c0 t) r;
  server_scheme o : GVKForObject o = None;
}.

(** What the factory promises for the groups of a component: objects of the kind, under a
    name of their own, labelled with their group and the generation of the RisingWave. *)
Class WorkloadFactory (k : object_kind) (rw : RisingWave) (expected : gset string)
    (factory : string -> outcome (option Obj)) (name : string -> string) (ns : string) : Prop := {
  factory_name_inj :: Inj (=) (=) name;
  factory_builds g : g ∈ expected -> exists n, factory g = Done (Some n) /\ o_Kind n = k /\
    group_of n = g /\ GetName n = name g /\ GetNamespace n = ns /\
    isObjectSynced rw (Some n) = true;
}.

(** The objects of the component that exist: named once, in the namespace, and an object
    has the name of an expected group exactly if it is the first of the group. *)
Record well_named (expected : gset string) (name : string -> string) (ns : string)
    (c : list Obj) : Prop := {
  wn_NoDup : NoDup (GetName <$> c);
  wn_ns o : o ∈ c -> GetNamespace o = ns;
  wn_group o g : o ∈ c -> g ∈ expected -> GetName o = name g -> group_of o = g;
  wn_first o g : first_of g c = Some o -> g ∈ expected -> GetName o = name g;
}.

(** A component whose objects need no request: one for each group, all up to date, and none
    missing. *)
Record up_to_date (rw : RisingWave) (expected : gset string) (c : list Obj) : Prop := {
  ud_groups : NoDup (group_of (B := B) <$> c);
  ud_synced o : o ∈ c -> isObjectSynced rw (Some o) = true;
  ud_expected g : g ∈ expected -> g ∈ group_of <$> c;
}.

Lemma same_key_spec (o n : Obj) : same_key o n = true <-> same_object o n.
Proof. unfold same_key, same_object. by rewrite andb_true_iff, !bool_decide_eq_true. Qed.

Lemma existsb_same_key n (c : list Obj) :
  existsb (same_key n) c = true <-> exists o, o ∈ c /\ same_object n o.
Proof.
  rewrite existsb_exists. setoid_rewrite <-list_elem_of_In. by setoid_rewrite same_key_spec.
Qed.

(** Up to date, and nothing is to do. *)
Lemma up_to_date_plan rw expected (c : list Obj) :
  up_to_date rw expected c ->
  toDelete (foldl (classify rw expected) empty_plan c) = [] /\
  (forall g, to_sync rw expected c g = None).
Proof.
  intros [Hnd Hs He]. split.
  - apply elem_of_nil_inv. intros o (pre & post & -> & [Hpre|[Hn _]])%(po_delete _ _ _ _
      (plan_of_foldl rw expected c)).
    + rewrite fmap_app in Hnd. apply NoDup_app in Hnd as (_ & Hnd & _).
      apply (Hnd _ Hpre). left.
    + rewrite Hs in Hn; [done|]. apply elem_of_app. right. left.
  - intros g. unfold to_sync. case_decide as Hg; [|done].
    destruct (first_of g c) as [o|] eqn:Hf.
    + apply first_of_elem in Hf as [Ho _]. by rewrite Hs.
    + apply first_of_None in Hf. by destruct Hf; apply He.
Qed.

(** On a component that is up to date a pass sends nothing and lets the workflow go on. *)
Lemma sync_idle k component (c : list Obj) factory enabled expected (m : Mgr) :
  expected_groups (observed_rw m) component enabled = Done expected ->
  up_to_date (observed_rw m) expected c ->
  syncComponentGroupWorkloads k component c factory enabled m = Done (Continue, m).
Proof.
  intros He Hud. destruct (up_to_date_plan _ _ _ Hud) as [Hdel Hsync].
  unfold syncComponentGroupWorkloads, mbind, GoM_bind, gets, lift. cbn.
  change (if enabled then _ else _) with (expected_groups (observed_rw m) component enabled).
  rewrite He. rewrite Hdel. cbn.
  set (toSync := foldl (add_missing _) _ _).
  assert (toSync = ∅) as ->.
  { apply map_empty. intros g. unfold toSync.
    by rewrite (to_sync_computed (observed_rw m) expected c g). }
  rewrite dom_empty_L. assert (range_keys "sync" ∅ = []) as -> by by apply range_keys_nil.
  done.
Qed.

Section pass.
Context (c0 : list Obj) {S : ReferenceServer c0}.
Context (k : object_kind) (rw : RisingWave) (expected : gset string).
Context (factory : string -> outcome (option Obj)) (name : string -> string) (ns : string).
Context {F : WorkloadFactory k rw expected factory name ns}.

Definition now_in (m : Mgr) : list Obj := cluster c0 (mi_trace m).

Lemma now_in_log r m : now_in (log_request r m) = server_step (now_in m) r.
Proof. unfold now_in, cluster. cbn. by rewrite foldl_app. Qed.

Lemma wp_send r (Q : option api_error -> Mgr -> Prop) m :
  Q (server_reply (now_in m) r) (log_request r m) -> wp (send r) Q m.
Proof. unfold wp, send. by rewrite server_replies. Qed.

(** *** The deletions *)

Definition spared (l : list Obj) (o : Obj) : bool := forallb (fun d => negb (same_key d o)) l.

Lemma delete_objects_spec l m :
  observed_rw m = rw ->
  wp (delete_objects l) (fun err m' => err = None /\ observed_rw m' = rw /\
    now_in m' = filter (spared l) (now_in m)) m.
Proof.
  revert m. induction l as [|d l IH]; intros m Hrw; cbn.
  { apply wp_ret. split; [done|]. split; [done|].
    induction (now_in m) as [|o c IH]; [done|]. by rewrite filter_cons_True, <-IH. }
  apply wp_bind, wp_send. cbn [server_reply].
  assert (IgnoreNotFound (if existsb (same_key d) (now_in m) then None
    else Some (NotFoundError (GetName d))) = None) as -> by by destruct (existsb _ _).
  eapply wp_mono; [by apply IH|]. intros err m' (-> & Hrw' & Hnow). split; [done|].
  split; [done|]. rewrite Hnow, now_in_log. cbn [server_step]. rewrite list_filter_filter.
  apply list_filter_iff. intros o. cbn. rewrite andb_True. tauto.
Qed.

(** An object of the list is spared exactly if it is not in [l]. *)
Lemma spared_iff c l o :
  well_named expected name ns c -> (forall d, d ∈ l -> d ∈ c) -> o ∈ c ->
  spared l o = true <-> o ∉ l.
Proof.
  intros Hwn Hl Ho. unfold spared. rewrite forallb_forall. split.
  - intros H Hin. apply list_elem_of_In, H in Hin. apply negb_true_iff in Hin.
    assert (same_key o o = true) by by apply same_key_spec. congruence.
  - intros H d Hd%list_elem_of_In. apply negb_true_iff, not_true_iff_false.
    rewrite same_key_spec. intros [Hname _]. assert (d = o) as ->; [|done].
    eapply NoDup_fmap_elem; eauto using wn_NoDup.
Qed.

(** Without the surplus objects every group has one object at most. *)
Lemma kept_groups (P : Obj -> bool) (l : list Obj) :
  (forall pre o post, l = pre ++ o :: post -> P o = true -> group_of o ∉ group_of <$> pre) ->
  NoDup (group_of <$> filter P l).
Proof.
  induction l as [|o l IH] using rev_ind; intros H; [constructor|].
  rewrite filter_app, fmap_app. apply NoDup_app. split.
  { apply IH. intros pre x post -> Hx. apply (H pre x (post ++ [o])); [|done].
    by rewrite <-app_assoc. }
  rewrite filter_cons, filter_nil. case_decide as Ho; cbn; [|split; [|constructor]].
  - split; [|apply NoDup_singleton]. intros g Hg ->%list_elem_of_singleton.
    apply (H l o [] eq_refl); [by destruct (P o)|].
    apply list_elem_of_fmap in Hg as (x & Hx & [_ Hin]%list_elem_of_filter).
    apply list_elem_of_fmap. eauto.
  - intros g _. apply not_elem_of_nil.
Qed.

(** *** The replacements *)

(** The components of the invariant, with [rest] the groups still to be handled. *)
Record syncing (toSync : gmap string (option Obj)) (rest : list string) (c : list Obj) : Prop := {
  sy_NoDup : NoDup (group_of (B := B) <$> c);
  sy_ns o : o ∈ c -> GetNamespace o = ns;
  sy_group o g : o ∈ c -> g ∈ expected -> GetName o = name g -> group_of o = g;
  sy_synced o : o ∈ c -> isObjectSynced rw (Some o) = true \/ group_of o ∈ rest;
  sy_expected g : g ∈ expected -> g ∈ rest \/ g ∈ group_of (B := B) <$> c;
  sy_new g : g ∈ rest -> toSync !! g = Some None -> g ∉ group_of (B := B) <$> c;
  sy_old g o : g ∈ rest -> toSync !! g = Some (Some o) ->
    o ∈ c /\ group_of o = g /\ GetName o = name g /\ isObjectSynced rw (Some o) = false;
}.

(** The update of the object of the group [g]. *)
Lemma syncing_update toSync g rest c o n :
  NoDup (g :: rest) -> g ∈ expected -> syncing toSync (g :: rest) c ->
  toSync !! g = Some (Some o) -> group_of n = g -> GetName n = name g -> GetNamespace n = ns ->
  isObjectSynced rw (Some n) = true ->
  existsb (same_key n) c = true /\ syncing toSync rest (server_step c (UpdateRequest n)).
Proof.
  intros [Hgr _]%NoDup_cons Hexp Hs HT Hg Hname Hns Hsync.
  destruct (sy_old _ _ _ Hs g o) as (Ho & Hog & Honame & _); [left|done|].
  assert (forall x, x ∈ c -> same_key n x = true <-> group_of x = g) as Hkey.
  { intros x Hx. rewrite same_key_spec. unfold same_object. rewrite Hname, Hns. split.
    - intros [Hx1 _]. by eapply (sy_group _ _ _ Hs).
    - intros Hxg. assert (x = o) as -> by (eapply NoDup_fmap_elem; eauto using sy_NoDup; congruence).
      split; [done|]. by rewrite (sy_ns _ _ _ Hs). }
  assert (forall x, x ∈ server_step c (UpdateRequest n) -> x = n \/ (x ∈ c /\ group_of x <> g))
    as Hin.
  { cbn. intros x (y & -> & Hy)%list_elem_of_fmap. destruct (same_key n y) eqn:Hk; [by left|].
    right. split; [done|]. rewrite <-Hkey by done. congruence. }
  assert (forall x, x ∈ c -> group_of x <> g -> x ∈ server_step c (UpdateRequest n)) as Hin'.
  { cbn. intros x Hx Hxg. apply list_elem_of_fmap. exists x. rewrite <-Hkey in Hxg by done.
    by destruct (same_key n x). }
  assert (group_of <$> server_step c (UpdateRequest n) = group_of <$> c) as Hgroups.
  { cbn. rewrite <-list_fmap_compose. apply list_fmap_ext. intros i x Hx. cbn.
    apply list_elem_of_lookup_2 in Hx. destruct (same_key n x) eqn:Hk; [|done].
    rewrite Hkey in Hk by done. congruence. }
  split. { apply existsb_same_key. exists o. split; [done|]. by apply same_key_spec, Hkey. }
  destruct Hs. split; rewrite ?Hgroups; auto.
  - intros x [->|[? _]]%Hin; auto.
  - intros x g' [->|[? _]]%Hin; eauto. intros _ Hn. subst g. apply factory_name_inj. congruence.
  - intros x [->|[Hx Hxg]]%Hin; [by left|]. destruct (sy_synced0 x Hx) as [|H']; [by left|].
    right. by apply elem_of_cons in H' as [?|?].
  - intros g' Hg'. destruct (sy_expected0 g' Hg') as [H'|]; [|by right].
    apply elem_of_cons in H' as [->|?]; [right|by left]. apply list_elem_of_fmap. eauto.
  - intros g' Hg'. apply sy_new0. by right.
  - intros g' x Hg' HT'. destruct (sy_old0 g' x) as (? & ? & ? & ?); [by right|done|].
    split; [|done]. apply Hin'; [done|]. congruence.
Qed.

(** The creation of an object for the group [g]. *)
Lemma syncing_create toSync g rest c n :
  NoDup (g :: rest) -> g ∈ expected -> syncing toSync (g :: rest) c ->
  toSync !! g = Some None -> group_of n = g -> GetName n = name g -> GetNamespace n = ns ->
  isObjectSynced rw (Some n) = true ->
  existsb (same_key n) c = false /\ syncing toSync rest (c ++ [n]).
Proof.
  intros [Hgr _]%NoDup_cons Hexp Hs HT Hg Hname Hns Hsync.
  assert (g ∉ group_of <$> c) as Hnew by (eapply sy_new; [done|left|done]).
  split.
  { apply not_true_iff_false. rewrite existsb_same_key. intros (o & Ho & [Hon _]).
    apply Hnew, list_elem_of_fmap. exists o. split; [|done]. symmetry.
    eapply (sy_group _ _ _ Hs); eauto. congruence. }
  assert (group_of <$> c ++ [n] = (group_of <$> c) ++ [g]) as Hgroups
    by (rewrite fmap_app; cbn; congruence).
  destruct Hs. split; rewrite ?Hgroups.
  - apply NoDup_app. split; [done|]. split; [|apply NoDup_singleton].
    by intros x Hx ->%list_elem_of_singleton.
  - intros o [Ho| ->%list_elem_of_singleton]%elem_of_app; auto.
  - intros o g' [Ho| ->%list_elem_of_singleton]%elem_of_app; eauto.
    intros _ Hn. subst g. apply factory_name_inj. congruence.
  - intros o [Ho| ->%list_elem_of_singleton]%elem_of_app; [|by left].
    destruct (sy_synced0 o Ho) as [|H']; [by left|]. right.
    apply elem_of_cons in H' as [H'|?]; [|done]. destruct Hnew. apply list_elem_of_fmap. eauto.
  - intros g' Hg'. rewrite elem_of_app, list_elem_of_singleton.
    destruct (sy_expected0 g' Hg') as [H'|]; [|by right; left].
    apply elem_of_cons in H' as [->|?]; [by right; right|by left].
  - intros g' Hg' HT'. rewrite elem_of_app, list_elem_of_singleton.
    intros [H'| ->]; [|done]. eapply sy_new0; [by right|done..].
  - intros g' o Hg' HT'. destruct (sy_old0 g' o) as (? & ? & ? & ?); [by right|done|].
    split; [|done]. apply elem_of_app. by left.
Qed.

(** One group. *)
Lemma syncObject_spec toSync g rest m :
  observed_rw m = rw -> NoDup (g :: rest) -> g ∈ expected -> is_Some (toSync !! g) ->
  syncing toSync (g :: rest) (now_in m) ->
  wp (syncObject k (default None (toSync !! g)) (factory g)) (fun err m' =>
    err = None /\ observed_rw m' = rw /\ syncing toSync rest (now_in m')) m.
Proof.
  intros Hrw Hnd Hexp [t HT] Hs. rewrite HT. cbn [default].
  destruct (factory_builds g Hexp) as (n & Hn & Hk & Hg & Hname & Hns & Hsync).
  unfold syncObject. destruct t as [o|]; cbn [default from_option id].
  - rewrite server_scheme. apply wp_bind, wp_gets. rewrite Hrw.
    destruct (sy_old _ _ _ Hs g o) as (Ho & _ & Honame & ->); [left|done|]. cbn [negb].
    rewrite Hn. apply wp_bind, wp_lift. eexists; split; [done|].
    assert (ensureTheSameObject k (Some o) (Some n) = Done n) as ->.
    { unfold ensureTheSameObject. rewrite (sy_ns _ _ _ Hs o Ho), Honame, Hname, Hns, Hk.
      by rewrite !bool_decide_true. }
    apply wp_bind, wp_lift. eexists; split; [done|].
    destruct (syncing_update toSync g rest (now_in m) o (SetResourceVersion (o_ResourceVersion o) n))
      as [Hkey Hs']; auto.
    unfold replace_object. apply wp_bind, wp_send. cbn [server_reply]. rewrite Hkey.
    apply wp_ret. by rewrite now_in_log.
  - rewrite Hn. apply wp_bind, wp_lift. eexists; split; [done|].
    assert (ensureTheSameObject k None (Some n) = Done n) as ->.
    { unfold ensureTheSameObject. rewrite Hk. by rewrite bool_decide_true. }
    apply wp_bind, wp_lift. eexists; split; [done|]. rewrite server_scheme.
    destruct (syncing_create toSync g rest (now_in m) n) as [Hkey Hs']; auto.
    apply wp_bind, wp_send. cbn [server_reply]. rewrite Hkey.
    apply wp_ret. rewrite now_in_log. cbn [server_step]. by rewrite Hkey.
Qed.

Lemma sync_objects_spec toSync groups m :
  observed_rw m = rw -> NoDup groups ->
  (forall g, g ∈ groups -> g ∈ expected /\ is_Some (toSync !! g)) ->
  syncing toSync groups (now_in m) ->
  wp (sync_objects k factory toSync groups) (fun err m' =>
    err = None /\ observed_rw m' = rw /\ syncing toSync [] (now_in m')) m.
Proof.
  revert m. induction groups as [|g gs IH]; intros m Hrw Hnd Hg Hs; [by apply wp_ret|].
  cbn. destruct (Hg g) as [Hexp HT]; [left|].
  apply wp_bind. eapply wp_mono; [by apply (syncObject_spec toSync g gs)|].
  intros err m1 (-> & Hrw1 & Hs1). apply IH; [done| |intros; apply Hg; by right|done].
  by apply NoDup_cons in Hnd as [_ ?].
Qed.

(** *** The objects that survive the deletions *)

Section survivors.
Context (c : list Obj) (Hwn : well_named expected name ns c).

Definition surplus_objects : list Obj := toDelete (foldl (classify rw expected) empty_plan c).
Definition survivors : list Obj := filter (spared surplus_objects) c.

Lemma elem_of_surplus o :
  o ∈ surplus_objects <-> exists pre post, c = pre ++ o :: post /\ surplus rw expected pre o.
Proof. apply (po_delete _ _ _ _ (plan_of_foldl rw expected c)). Qed.

Lemma elem_of_survivors o : o ∈ survivors <-> o ∈ c /\ o ∉ surplus_objects.
Proof.
  assert (forall d, d ∈ surplus_objects -> d ∈ c) as Hsub.
  { intros d (pre & post & -> & _)%elem_of_surplus. apply elem_of_app. right. left. }
  unfold survivors. rewrite list_elem_of_filter, Is_true_true.
  split; intros [H1 H2]; [by rewrite <-(spared_iff c)|by rewrite (spared_iff c)].
Qed.

(** The object that stands for its group survives, unless it is outdated and unexpected. *)
Lemma first_survives o g :
  first_of g c = Some o -> isObjectSynced rw (Some o) = true \/ g ∈ expected ->
  o ∈ survivors.
Proof.
  intros Hf Ho. apply elem_of_survivors. pose proof (first_of_elem _ _ _ Hf) as [Hc <-].
  split; [done|]. intros (pre & post & Hl & Hsu)%elem_of_surplus.
  apply first_of_Some in Hf as (pre' & post' & Hl' & _ & Hpre').
  assert (pre = pre') as ->.
  { eapply NoDup_split; [|by rewrite <-Hl]. rewrite <-Hl. eapply NoDup_fmap_1, wn_NoDup, Hwn. }
  destruct Hsu as [?|[? ?]]; [done|]. destruct Ho; congruence.
Qed.

(** What survives stands for its group, and is up to date or expected. *)
Lemma survivor_first o :
  o ∈ survivors -> first_of (group_of o) c = Some o /\
    (isObjectSynced rw (Some o) = true \/ group_of o ∈ expected).
Proof.
  intros [(pre & post & Hl)%list_elem_of_split Hdel]%elem_of_survivors.
  rewrite elem_of_surplus in Hdel. split.
  - apply first_of_Some. exists pre, post. split; [done|]. split; [done|].
    intros Hpre. apply Hdel. exists pre, post. split; [done|by left].
  - destruct (isObjectSynced rw (Some o)) eqn:Hs; [by left|right].
    destruct (decide (group_of o ∈ expected)) as [|Hn]; [done|].
    destruct Hdel. exists pre, post. split; [done|by right].
Qed.

Lemma survivors_NoDup : NoDup (group_of <$> survivors).
Proof.
  apply kept_groups. intros pre o post Hl Ho Hpre.
  assert (o ∈ survivors) as [Hf _]%survivor_first.
  { apply list_elem_of_filter. split; [by apply Is_true_true|].
    rewrite Hl. apply elem_of_app. right. left. }
  apply list_elem_of_fmap in Hpre as (x & Hx & Hin).
  pose proof Hf as (pre' & post' & Hl' & _ & Hpre')%first_of_Some.
  assert (pre = pre') as ->.
  { eapply NoDup_split; [|by rewrite <-Hl]. rewrite <-Hl. eapply NoDup_fmap_1, wn_NoDup, Hwn. }
  destruct Hpre'. apply list_elem_of_fmap. eauto.
Qed.

(** After the deletions the invariant holds, with all the groups of the second map still to
    be handled. *)
Lemma syncing_start toSync :
  (forall g, toSync !! g = to_sync rw expected c g) ->
  syncing toSync (range_keys "sync" (dom toSync)) survivors.
Proof.
  intros HT.
  assert (forall g, g ∈ range_keys "sync" (dom toSync) <-> is_Some (to_sync rw expected c g)) as Hrest.
  { intros g. rewrite elem_of_range_keys, elem_of_dom. by rewrite HT. }
  assert (forall g t, to_sync rw expected c g = Some t -> g ∈ expected /\ t = first_of g c /\
    (forall o, t = Some o -> isObjectSynced rw (Some o) = false)) as Hto.
  { unfold to_sync. intros g t Ht. case_decide; [|done]. split; [done|].
    destruct (first_of g c) as [o|]; [destruct (isObjectSynced rw (Some o)) eqn:?; [done|]|];
      naive_solver. }
  split.
  - apply survivors_NoDup.
  - intros o [Ho _]%elem_of_survivors. by apply (wn_ns _ _ _ _ Hwn).
  - intros o g [Ho _]%elem_of_survivors. by apply (wn_group _ _ _ _ Hwn).
  - intros o [Hf Ho]%survivor_first. destruct (isObjectSynced rw (Some o)) eqn:Hs; [by left|right].
    destruct Ho as [|Ho]; [done|]. apply Hrest. unfold to_sync.
    rewrite decide_True by done. rewrite Hf, Hs. eauto.
  - intros g Hexp. destruct (to_sync rw expected c g) as [t|] eqn:Ht; [left; apply Hrest; eauto|].
    right. unfold to_sync in Ht. rewrite decide_True in Ht by done.
    destruct (first_of g c) as [o|] eqn:Hf; [|done]. apply list_elem_of_fmap. exists o.
    split; [symmetry; by eapply first_of_elem|]. eapply first_survives; eauto.
  - intros g _ Ht (o & -> & [Hf _]%survivor_first)%list_elem_of_fmap.
    rewrite HT in Ht. apply Hto in Ht as (_ & Ht & _). congruence.
  - intros g o _ Ht. rewrite HT in Ht. apply Hto in Ht as (Hexp & Hf & Hs). symmetry in Hf.
    pose proof (first_of_elem _ _ _ Hf) as [Ho Hg].
    split; [eapply first_survives; eauto|]. split; [done|].
    split; [by eapply (wn_first _ _ _ _ Hwn)|by apply Hs].
Qed.
End survivors.
End pass.

(** *** The objects of a component, from one RisingWave to the next *)

(** The objects the operator has made for a component: each is named after its group. *)
Record owned (name : string -> string) (ns : string) (c : list Obj) : Prop := {
  ow_NoDup : NoDup (GetName <$> c);
  ow_ns o : o ∈ c -> GetNamespace o = ns;
  ow_name o : o ∈ c -> GetName o = name (group_of o);
}.

Lemma owned_nil name ns : owned name ns [].
Proof. split; [constructor|by intros o ?%not_elem_of_nil..]. Qed.

Lemma owned_well_named name ns expected c `{!Inj (=) (=) name} :
  owned name ns c -> well_named expected name ns c.
Proof.
  intros [Hnd Hns Hname]. split; [done|done|..].
  - intros o g Ho _ Hg. apply (inj name). by rewrite <-Hname, Hg.
  - intros o g [Ho <-]%first_of_elem _. by apply Hname.
Qed.

Lemma owned_step k rw expected objects factory name ns
    `{!WorkloadFactory k rw expected factory name ns} r c :
  permitted rw expected objects factory r -> owned name ns c -> owned name ns (server_step c r).
Proof.
  intros Hr Hc. assert (forall g n, g ∈ expected -> factory g = Done (Some n) ->
    GetNamespace n = ns /\ GetName n = name (group_of n)) as Hbuilt.
  { intros g n Hg Hn. destruct (factory_builds g Hg) as (n' & Hn' & _ & Hgn & ? & ? & _).
    rewrite Hn in Hn'. injection Hn' as <-. split; [done|congruence]. }
  assert (forall d, owned name ns (filter (fun o => negb (same_key d o)) c)) as Hdelete.
  { intros d. destruct Hc as [Hnd Hns Hname]. split.
    - eapply sublist_NoDup; [exact Hnd|apply fmap_sublist, sublist_filter].
    - intros o [_ Ho]%list_elem_of_filter. by apply Hns.
    - intros o [_ Ho]%list_elem_of_filter. by apply Hname. }
  assert (forall n, GetNamespace n = ns -> GetName n = name (group_of n) ->
    owned name ns (server_step c (CreateRequest n))) as Hcreate.
  { intros n Hn Hg. cbn. destruct (existsb (same_key n) c) eqn:Hk; [done|].
    destruct Hc as [Hnd Hns Hname]. split.
    - rewrite fmap_app. apply NoDup_app. split; [done|]. split; [|apply NoDup_singleton].
      intros x (o & -> & Ho)%list_elem_of_fmap Hx%list_elem_of_singleton.
      apply not_true_iff_false in Hk. apply Hk, existsb_same_key. exists o. split; [done|].
      split; [done|]. by rewrite (Hns o Ho).
    - intros o [Ho| ->%list_elem_of_singleton]%elem_of_app; auto.
    - intros o [Ho| ->%list_elem_of_singleton]%elem_of_app; auto. }
  assert (forall n, GetNamespace n = ns -> GetName n = name (group_of n) ->
    owned name ns (server_step c (UpdateRequest n))) as Hupdate.
  { intros n Hn Hg. cbn. destruct Hc as [Hnd Hns Hname]. split.
    - rewrite <-list_fmap_compose. erewrite list_fmap_ext; [exact Hnd|]. intros i x Hx. cbn.
      destruct (same_key n x) eqn:Hk; [|done]. by apply same_key_spec in Hk as [-> _].
    - intros o (x & -> & Hx)%list_elem_of_fmap. destruct (same_key n x); auto.
    - intros o (x & -> & Hx)%list_elem_of_fmap. destruct (same_key n x); auto. }
  destruct Hr as [| g n Hg _ Hf|g o n r Hg _ _ Hf _ [->|[->| ->]]]; [apply Hdelete|..];
    try apply Hdelete; destruct (Hbuilt g n Hg Hf); auto.
Qed.

Lemma owned_pass c0 k component factory enabled expected name ns objects (m m' : Mgr) res :
  expected_groups (observed_rw m) component enabled = Done expected ->
  WorkloadFactory k (observed_rw m) expected factory name ns ->
  syncComponentGroupWorkloads k component objects factory enabled m = Done (res, m') ->
  owned name ns (now_in c0 m) -> owned name ns (now_in c0 m').
Proof.
  intros He Hf H Hc. destruct (wlp_run _ _ _ _ _
    (sync_sends k component objects factory enabled m) H) as (expected' & He' & Hs).
  rewrite He in He'. injection He' as <-. apply sends_trace in Hs as (rs & Hrs & HP).
  unfold now_in, cluster in *. rewrite Hrs, foldl_app.
  set (c := foldl server_step c0 (mi_trace m)) in *. clearbody c. clear Hrs H.
  revert c Hc. induction HP as [|r rs Hr _ IH]; intros c Hc; cbn; [done|].
  by eapply IH, owned_step.
Qed.

(** Against the reference API server, and with a factory that keeps its promise, one pass
    brings a component up to date: it does not fail, leaves exactly one object, up to date,
    for every expected group and no outdated one, and the next pass, over the objects as
    they are then, sends nothing. *)
Theorem sync_converges c0 `{!ReferenceServer c0} k component factory enabled expected name ns
    `{!WorkloadFactory k rw expected factory name ns} (m : Mgr) :
  observed_rw m = rw -> expected_groups rw component enabled = Done expected ->
  well_named expected name ns (now_in c0 m) ->
  exists m', syncComponentGroupWorkloads k component (now_in c0 m) factory enabled m =
      Done (Continue, m') /\
    up_to_date rw expected (now_in c0 m') /\
    syncComponentGroupWorkloads k component (now_in c0 m') factory enabled m' =
      Done (Continue, m').
Proof.
  intros Hrw He Hwn. set (c := now_in c0 m) in *.
  enough (wp (syncComponentGroupWorkloads k component c factory enabled) (fun res m' =>
    res = Continue /\ observed_rw m' = rw /\ up_to_date rw expected (now_in c0 m')) m) as H.
  { unfold wp in H. destruct (syncComponentGroupWorkloads _ _ _ _ _ _) as [[res m']|]; [|done].
    destruct H as (-> & Hrw' & Hud). exists m'. split; [done|]. split; [done|].
    apply (sync_idle _ _ _ _ _ expected); by rewrite Hrw'. }
  unfold syncComponentGroupWorkloads. apply wp_bind, wp_gets. rewrite Hrw.
  apply wp_bind, wp_lift. exists expected. split; [done|].
  set (toSync := foldl (add_missing _) _ _).
  assert (forall g, toSync !! g = to_sync rw expected c g) as HT
    by (intros g; apply (to_sync_computed rw expected c g)).
  apply wp_bind. eapply wp_mono; [by apply (delete_objects_spec c0 rw)|].
  intros err m1 (-> & Hrw1 & Hnow1). apply wp_bind.
  eapply wp_mono; [apply (sync_objects_spec c0 k rw expected factory name ns toSync)|].
  - done.
  - apply NoDup_range_keys.
  - intros g [t Ht]%elem_of_range_keys%elem_of_dom. split; [|eauto].
    rewrite HT in Ht. unfold to_sync in Ht. by case_decide.
  - rewrite Hnow1. by apply syncing_start.
  - intros err2 m2 (-> & Hrw2 & Hs). apply wp_ret. split; [done|]. split; [done|].
    destruct Hs. split; [done| |].
    + intros o Ho. by destruct (sy_synced0 o Ho) as [|?%not_elem_of_nil].
    + intros g Hg. by destruct (sy_expected0 g Hg) as [?%not_elem_of_nil|].
Qed.
End convergence.

(** ** Witnesses *)

Definition ex_server (c0 : list (Object unit)) : ClusterEnv unit :=
  replying_env (fun t r => server_reply (cluster c0 t) r).

Definition ex_groups : gset string := {["a"; "b"]}.

Lemma ex_factory_promise :
  WorkloadFactory KDeployment ex_rw ex_groups ex_factory (fun g => "rw-frontend-" +:+ g) "default".
Proof.
  split; [intros g g' Hg; by simplify_eq|]. intros g _. exists (ex_workload g 2).
  do 2 (split; [done|]). split; [by vm_compute|]. do 2 (split; [done|]). by vm_compute.
Qed.

Definition ex_cluster : list (Object unit) := [ex_workload "a" 1; ex_workload "c" 1].

Lemma ex_cluster_named :
  well_named ex_groups (fun g => "rw-frontend-" +:+ g) "default" ex_cluster.
Proof.
  split.
  - apply (bool_decide_unpack _). by vm_compute.
  - by intros o [<-|[<-|[]]]%list_elem_of_In.
  - intros o g [<-|[<-|[]]]%list_elem_of_In _ Hg; cbn in Hg; simplify_eq; by vm_compute.
  - intros o g [[<-|[<-|[]]]%list_elem_of_In <-]%first_of_elem _; by vm_compute.
Qed.

(** "a" is updated, "b" created and "c" deleted. *)
Lemma sync_converges_witness :
  exists m', @syncComponentGroupWorkloads unit (ex_server ex_cluster) elements_order KDeployment
      "frontend" ex_cluster ex_factory true ex_manager = Done (Continue, m') /\
    up_to_date ex_rw ex_groups (now_in ex_cluster m').
Proof.
  pose proof elements_order_ok as Hok.
  assert (@ReferenceServer unit (ex_server ex_cluster) ex_cluster) as HS by done.
  destruct (@sync_converges unit (ex_server ex_cluster) elements_order Hok ex_cluster HS KDeployment
    "frontend" ex_factory true ex_groups (fun g => "rw-frontend-" +:+ g) "default" ex_rw
    ex_factory_promise ex_manager) as (m' & Hm & Hud & _).
  - reflexivity.
  - vm_compute. reflexivity.
  - apply ex_cluster_named.
  - exists m'. auto.
Defined.
