(* ===== verification/ManagerImpl.v ===== *)
(** * pkg/manager/risingwave_controller_manager_impl.go: the actions on a RisingWave

    The method of the receiver behind each action of the controller: bringing services,
    config, workloads and the standalone node up to date, waiting for them, and collecting
    the status. The objects an action works on have been read before ([ManagerState]) and
    are its arguments. What the actions ask of the object factory is the class
    [ObjectFactory]: a function of the RisingWave for each object, which may panic or
    return nil. *)

From S2P Require Import Prelude GoStrings ApiTypes ApiErrors ScaleHelper RisingWaveManager Workloads ManagerState.
From S2P Require Import WorkloadSync WorkloadConvergence.

(** ** Definitions: the factory, as the actions use it *)

Class ObjectFactory (B : Type) := {
  NewMetaService : RisingWave -> outcome (option (Object B));
  NewFrontendService : RisingWave -> outcome (option (Object B));
  NewComputeService : RisingWave -> outcome (option (Object B));
  NewCompactorService : RisingWave -> outcome (option (Object B));
  NewStandaloneService : RisingWave -> outcome (option (Object B));
  NewConfigConfigMap : RisingWave -> string -> outcome (option (Object B));
  NewServiceMonitor : RisingWave -> outcome (option (Object B));
  NewMetaStatefulSet : RisingWave -> string -> outcome (option (Object B));
  NewMetaAdvancedStatefulSet : RisingWave -> string -> outcome (option (Object B));
  NewFrontendDeployment : RisingWave -> string -> outcome (option (Object B));
  NewFrontendCloneSet : RisingWave -> string -> outcome (option (Object B));
  NewComputeStatefulSet : RisingWave -> string -> outcome (option (Object B));
  NewComputeAdvancedStatefulSet : RisingWave -> string -> outcome (option (Object B));
  NewCompactorDeployment : RisingWave -> string -> outcome (option (Object B));
  NewCompactorCloneSet : RisingWave -> string -> outcome (option (Object B));
  NewStandaloneStatefulSet : RisingWave -> outcome (option (Object B));
  NewStandaloneAdvancedStatefulSet : RisingWave -> outcome (option (Object B));
}.

(** ** Definitions: the status of the components *)

Definition ready_status (target ready : Z) : ComponentReplicasStatus :=
  {| cs_Target := target; cs_Running := ready;
     cs_Groups := [{| gs_Name := ""; gs_Target := target; gs_Running := ready; gs_Exists := true |}] |}.

Definition getStandaloneStatusUtil (rw : RisingWave) (readyReplicas : Z) : ComponentReplicasStatus :=
  let requiredReplicas :=
    match cps_Standalone (rws_Components (rw_Spec rw)) with
    | Some s => sa_Replicas s
    | None => 1%Z
    end in
  ready_status requiredReplicas readyReplicas.

Definition ready_replicas {B} (o : Object B) : Z := ws_ReadyReplicas (o_Status o).

Definition getStandaloneStatus {B} (rw : RisingWave) (standaloneStatefulSet : option (Object B))
  : ComponentReplicasStatus :=
  let readyReplicas := match standaloneStatefulSet with Some o => ready_replicas o | None => 0%Z end in
  getStandaloneStatusUtil rw readyReplicas.

Definition getOpenKruiseStandaloneStatus {B} (rw : RisingWave)
    (standaloneStatefulSet : option (Object B)) : ComponentReplicasStatus :=
  let readyReplicas := match standaloneStatefulSet with Some o => ready_replicas o | None => 0%Z end in
  getStandaloneStatusUtil rw readyReplicas.

(** [sort.Slice] with the names: a permutation in their order. Which one, when names are
    equal, is not specified. *)
Definition name_le (a b : ComponentGroupReplicasStatus) : Prop := String.le (gs_Name a) (gs_Name b).

Global Instance name_le_dec : RelDecision name_le.
Proof. intros a b. unfold name_le. apply _. Defined.

Class SliceSort :=
  sort_by_name : list ComponentGroupReplicasStatus -> list ComponentGroupReplicasStatus.

Class SliceSortOk (S : SliceSort) : Prop := {
  sort_by_name_perm l : sort_by_name l ≡ₚ l;
  sort_by_name_sorted l : StronglySorted name_le (sort_by_name l);
}.

Definition stable_sort : SliceSort := merge_sort name_le.

Section node_groups.
Context `{O : RangeOrder} `{S : SliceSort} {B : Type}.
Abbreviation Obj := (Object B).

(** The body of the first loop, on the expected replicas and the target. *)
Definition expect_group (s : gmap string Z * Z) (g : RisingWaveNodeGroup) : gmap string Z * Z :=
  (<[ng_Name g := ng_Replicas g]> s.1, int32 (s.2 + ng_Replicas g)).

Definition workload_group_status (expectedGroups : gmap string Z) (o : Obj)
  : ComponentGroupReplicasStatus :=
  match expectedGroups !! group_of o with
  | Some replicas => {| gs_Name := group_of o; gs_Target := replicas;
                        gs_Running := ready_replicas o; gs_Exists := true |}
  | None => {| gs_Name := group_of o +:+ "(-)"; gs_Target := 0;
               gs_Running := ready_replicas o; gs_Exists := true |}
  end.

Definition missing_group_status (group : string) (replicas : Z) : ComponentGroupReplicasStatus :=
  {| gs_Name := group; gs_Target := replicas; gs_Running := 0; gs_Exists := false |}.

(** The groups before they are sorted. *)
Definition group_statuses (expectedGroups : gmap string Z) (workloads : list Obj)
  : list ComponentGroupReplicasStatus :=
  (workload_group_status expectedGroups <$> workloads) ++
  ((fun g => missing_group_status g (default 0%Z (expectedGroups !! g))) <$>
     filter (fun g => g ∉ group_of <$> workloads) (range_keys "expectedGroups" (dom expectedGroups))).

Definition buildNodeGroupStatus (groups : list RisingWaveNodeGroup) (workloads : list Obj)
  : ComponentReplicasStatus :=
  let '(expectedGroups, target) := foldl expect_group (∅, 0%Z) groups in
  {| cs_Target := target;
     cs_Running := sum_int32 (ready_replicas <$> workloads);
     cs_Groups := sort_by_name (group_statuses expectedGroups workloads) |}.
End node_groups.

Definition isGroupMissing (group : ComponentGroupReplicasStatus) : bool := negb (gs_Exists group).

Definition any_missing (s : ComponentReplicasStatus) : bool := existsb isGroupMissing (cs_Groups s).

Definition buildMetaStoreType (metaStore : RisingWaveMetaStoreBackend) : string :=
  if default false (ms_Memory metaStore) then "Memory"
  else if bool_decide (is_Some (ms_Etcd metaStore)) then "Etcd"
  else if bool_decide (is_Some (ms_SQLite metaStore)) then "SQLite"
  else if bool_decide (is_Some (ms_MySQL metaStore)) then "MySQL"
  else if bool_decide (is_Some (ms_PostgreSQL metaStore)) then "PostgreSQL"
  else "Unknown".

Definition buildStateStoreType (stateStore : RisingWaveStateStoreBackend) : string :=
  if default false (ss_Memory stateStore) then "Memory"
  else if bool_decide (is_Some (ss_MinIO stateStore)) then "MinIO"
  else if bool_decide (is_Some (ss_S3 stateStore)) then "S3"
  else if bool_decide (is_Some (ss_GCS stateStore)) then "GCS"
  else if bool_decide (is_Some (ss_AliyunOSS stateStore)) then "AliyunOSS"
  else if bool_decide (is_Some (ss_AzureBlob stateStore)) then "AzureBlob"
  else if bool_decide (is_Some (ss_HDFS stateStore)) then "HDFS"
  else if bool_decide (is_Some (ss_WebHDFS stateStore)) then "WebHDFS"
  else if bool_decide (is_Some (ss_LocalDisk stateStore)) then "LocalDisk"
  else if bool_decide (is_Some (ss_HuaweiCloudOBS stateStore)) then "HuaweiCloudOBS"
  else "Unknown".

(** What the status says of the stores, the version and the replicas. *)
Definition report_status (rw : RisingWave) (componentReplicas : RisingWaveComponentsReplicasStatus)
    (s : RisingWaveStatus) : RisingWaveStatus :=
  {| st_ObservedGeneration := st_ObservedGeneration s;
     st_Version := GetVersionFromImage (rws_Image (rw_Spec rw));
     st_ComponentReplicas := componentReplicas; st_Conditions := st_Conditions s;
     st_ScaleViews := st_ScaleViews s; st_StateStoreRootPath := st_StateStoreRootPath s;
     st_MetaStore := buildMetaStoreType (rws_MetaStore (rw_Spec rw));
     st_StateStore := buildStateStoreType (rws_StateStore (rw_Spec rw)) |}.

Definition is_nil {A} (o : option A) : bool := bool_decide (o = None).

Section actions.
Context {B : Type} `{E : ClusterEnv B} `{F : ObjectFactory B} `{O : RangeOrder} `{S : SliceSort}.
Context `{N : ConditionNames}.
Abbreviation Obj := (Object B).
Abbreviation M := (GoM (risingWaveControllerManagerImpl B)).

(** ** Definitions: collecting the status *)

(** The end of the four functions: [table] is the list of what may be missing. *)
Definition report_missing (table : list (bool * string)) : M ctrl_result :=
  let brokenOrMissingComponents := snd <$> filter (fun t => t.1 = true) table in
  if bool_decide (brokenOrMissingComponents = []) then mret Continue
  else
    update_condition RisingWaveConditionRunning ConditionFalse;;
    rw ← gets observed_rw;
    (if DoesConditionExistAndEqual rw RisingWaveConditionRunning true
     then modify (set_message (ev_Name RisingWaveEventTypeUnhealthy)
            ("Found components broken or missing: " +:+ String.concat "," brokenOrMissingComponents))
     else mret tt);;
    mret Continue.

(** The replicas of the four components, in a cluster that is not standalone. *)
Definition components_replicas (rw : RisingWave)
    (meta frontend compute compactor : list Obj) : RisingWaveComponentsReplicasStatus :=
  let componentsSpec := rws_Components (rw_Spec rw) in
  {| rs_Meta := buildNodeGroupStatus (comp_NodeGroups (cps_Meta componentsSpec)) meta;
     rs_Frontend := buildNodeGroupStatus (comp_NodeGroups (cps_Frontend componentsSpec)) frontend;
     rs_Compute := buildNodeGroupStatus (comp_NodeGroups (cps_Compute componentsSpec)) compute;
     rs_Compactor := buildNodeGroupStatus (comp_NodeGroups (cps_Compactor componentsSpec)) compactor;
     rs_Standalone := zero_component_status |}.

Definition CollectOpenKruiseRunningStatisticsAndSyncStatus
    (frontendService metaService computeService compactorService : option Obj)
    (metaAdvancedStatefulSets frontendCloneSets computeStatefulSets compactorCloneSets : list Obj)
    (configConfigMap : option Obj) : M ctrl_result :=
  risingwave ← gets observed_rw;
  let componentReplicas := components_replicas risingwave metaAdvancedStatefulSets
        frontendCloneSets computeStatefulSets compactorCloneSets in
  modify (on_manager (UpdateStatus (report_status risingwave componentReplicas)));;
  report_missing
    [(is_nil frontendService, "Service(frontend)"); (is_nil metaService, "Service(meta)");
     (is_nil computeService, "Service(compute)"); (is_nil compactorService, "Service(compactor)");
     (is_nil configConfigMap, "ConfigMap(config)");
     (any_missing (rs_Meta componentReplicas), "CloneSets(meta)");
     (any_missing (rs_Frontend componentReplicas), "CloneSets(frontend)");
     (any_missing (rs_Compute componentReplicas), "AdvancedStatefulSets(compute)");
     (any_missing (rs_Compactor componentReplicas), "CloneSets(compactor)")].

Definition CollectRunningStatisticsAndSyncStatus
    (frontendService metaService computeService compactorService : option Obj)
    (metaStatefulSets frontendDeployments computeStatefulSets compactorDeployments : list Obj)
    (configConfigMap : option Obj) : M ctrl_result :=
  risingwave ← gets observed_rw;
  let componentReplicas := components_replicas risingwave metaStatefulSets
        frontendDeployments computeStatefulSets compactorDeployments in
  modify (on_manager (UpdateStatus (report_status risingwave componentReplicas)));;
  report_missing
    [(is_nil frontendService, "Service(frontend)"); (is_nil metaService, "Service(meta)");
     (is_nil computeService, "Service(compute)"); (is_nil compactorService, "Service(compactor)");
     (is_nil configConfigMap, "ConfigMap(config)");
     (any_missing (rs_Meta componentReplicas), "Deployments(meta)");
     (any_missing (rs_Frontend componentReplicas), "Deployments(frontend)");
     (any_missing (rs_Compute componentReplicas), "StatefulSets(compute)");
     (any_missing (rs_Compactor componentReplicas), "Deployments(compactor)")].

Definition standalone_replicas (s : ComponentReplicasStatus) : RisingWaveComponentsReplicasStatus :=
  {| rs_Meta := zero_component_status; rs_Frontend := zero_component_status;
     rs_Compute := zero_component_status; rs_Compactor := zero_component_status;
     rs_Standalone := s |}.

Definition CollectRunningStatisticsAndSyncStatusForStandalone
    (standaloneService standaloneStatefulSet configConfigMap : option Obj) : M ctrl_result :=
  risingwave ← gets observed_rw;
  modify (on_manager (UpdateStatus (report_status risingwave
    (standalone_replicas (getStandaloneStatus risingwave standaloneStatefulSet)))));;
  report_missing
    [(is_nil standaloneService, "Service(standalone)"); (is_nil configConfigMap, "ConfigMap(config)");
     (is_nil standaloneStatefulSet, "StatefulSet(standalone)")].

Definition CollectOpenKruiseRunningStatisticsAndSyncStatusForStandalone
    (standaloneService standaloneAdvancedStatefulSet configConfigMap : option Obj) : M ctrl_result :=
  risingwave ← gets observed_rw;
  modify (on_manager (UpdateStatus (report_status risingwave
    (standalone_replicas (getOpenKruiseStandaloneStatus risingwave standaloneAdvancedStatefulSet)))));;
  report_missing
    [(is_nil standaloneService, "Service(standalone)"); (is_nil configConfigMap, "ConfigMap(config)");
     (is_nil standaloneAdvancedStatefulSet, "AdvancedStatefulSet(standalone)")].

(** ** Definitions: the workloads of the node groups *)

(** When the workloads of Kubernetes, or those of OpenKruise, are the expected ones. *)
Definition plain_workloads : M bool :=
  gets (fun m => negb (openkruise_enabled m) && negb (standalone_enabled m)).
Definition kruise_workloads : M bool :=
  gets (fun m => openkruise_enabled m && negb (standalone_enabled m)).

Definition SyncCompactorDeployments (compactorDeployments : list Obj) : M ctrl_result :=
  enabled ← plain_workloads; rw ← gets observed_rw;
  syncComponentGroupWorkloads KDeployment ComponentCompactor compactorDeployments
    (NewCompactorDeployment rw) enabled.
Definition SyncCompactorCloneSets (compactorCloneSets : list Obj) : M ctrl_result :=
  enabled ← kruise_workloads; rw ← gets observed_rw;
  syncComponentGroupWorkloads KCloneSet ComponentCompactor compactorCloneSets
    (NewCompactorCloneSet rw) enabled.
Definition SyncComputeStatefulSets (computeStatefulSets : list Obj) : M ctrl_result :=
  enabled ← plain_workloads; rw ← gets observed_rw;
  syncComponentGroupWorkloads KStatefulSet ComponentCompute computeStatefulSets
    (NewComputeStatefulSet rw) enabled.
Definition SyncComputeAdvancedStatefulSets (computeStatefulSets : list Obj) : M ctrl_result :=
  enabled ← kruise_workloads; rw ← gets observed_rw;
  syncComponentGroupWorkloads KAdvancedStatefulSet ComponentCompute computeStatefulSets
    (NewComputeAdvancedStatefulSet rw) enabled.
Definition SyncFrontendDeployments (frontendDeployments : list Obj) : M ctrl_result :=
  enabled ← plain_workloads; rw ← gets observed_rw;
  syncComponentGroupWorkloads KDeployment ComponentFrontend frontendDeployments
    (NewFrontendDeployment rw) enabled.
Definition SyncFrontendCloneSets (frontendCloneSets : list Obj) : M ctrl_result :=
  enabled ← kruise_workloads; rw ← gets observed_rw;
  syncComponentGroupWorkloads KCloneSet ComponentFrontend frontendCloneSets
    (NewFrontendCloneSet rw) enabled.
Definition SyncMetaStatefulSets (metaStatefulSets : list Obj) : M ctrl_result :=
  enabled ← plain_workloads; rw ← gets observed_rw;
  syncComponentGroupWorkloads KStatefulSet ComponentMeta metaStatefulSets
    (NewMetaStatefulSet rw) enabled.
Definition SyncMetaAdvancedStatefulSets (metaStatefulSets : list Obj) : M ctrl_result :=
  enabled ← kruise_workloads; rw ← gets observed_rw;
  syncComponentGroupWorkloads KAdvancedStatefulSet ComponentMeta metaStatefulSets
    (NewMetaAdvancedStatefulSet rw) enabled.

(** [lo.If(enabled, build).Else(nil)] evaluates [build] either way. *)
Definition wait_workloads (k : object_kind) (component : string) (enabled : M bool)
    (objects : list Obj) : M ctrl_result :=
  e ← enabled; rw ← gets observed_rw;
  groups ← lift (buildExpectedGroupSet rw component);
  mret (waitComponentGroupWorkloadsReady (if (e : bool) then groups else ∅) objects
    (fun t : Obj => isObjectSynced rw (Some t) && rolled_out k (Some t))).

Definition WaitBeforeCompactorDeploymentsReady (compactorDeployments : list Obj) : M ctrl_result :=
  wait_workloads KDeployment ComponentCompactor plain_workloads compactorDeployments.
Definition WaitBeforeCompactorCloneSetsReady (compactorCloneSets : list Obj) : M ctrl_result :=
  wait_workloads KCloneSet ComponentCompactor kruise_workloads compactorCloneSets.
Definition WaitBeforeComputeStatefulSetsReady (computeStatefulSets : list Obj) : M ctrl_result :=
  wait_workloads KStatefulSet ComponentCompute plain_workloads computeStatefulSets.
Definition WaitBeforeComputeAdvancedStatefulSetsReady (computeStatefulSets : list Obj)
  : M ctrl_result :=
  wait_workloads KAdvancedStatefulSet ComponentCompute kruise_workloads computeStatefulSets.
Definition WaitBeforeFrontendDeploymentsReady (frontendDeployments : list Obj) : M ctrl_result :=
  wait_workloads KDeployment ComponentFrontend plain_workloads frontendDeployments.
Definition WaitBeforeFrontendCloneSetsReady (frontendCloneSets : list Obj) : M ctrl_result :=
  wait_workloads KCloneSet ComponentFrontend kruise_workloads frontendCloneSets.
Definition WaitBeforeMetaStatefulSetsReady (metaStatefulSets : list Obj) : M ctrl_result :=
  wait_workloads KStatefulSet ComponentMeta plain_workloads metaStatefulSets.
Definition WaitBeforeMetaAdvancedStatefulSetsReady (metaAdvancedStatefulSets : list Obj)
  : M ctrl_result :=
  wait_workloads KAdvancedStatefulSet ComponentMeta kruise_workloads metaAdvancedStatefulSets.

(** ** Definitions: services, config and monitor *)

(** [mgr.client.Delete] with the UID of the object as a precondition. *)
Definition delete_owned (o : Obj) : M (option api_error) :=
  send (DeleteRequest o false (Some (om_UID (o_Meta o)))).

(** An object that a cluster has unless it is standalone. *)
Definition sync_distributed (msg : string) (k : object_kind) (obj : option Obj)
    (factory : RisingWave -> outcome (option Obj)) : M ctrl_result :=
  standalone ← gets standalone_enabled;
  if negb standalone then
    rw ← gets observed_rw;
    err ← syncObject k obj (factory rw);
    mret (RequeueIfErrorAndWrap msg err)
  else
    match obj with
    | Some o => err ← delete_owned o; mret (RequeueIfErrorAndWrap msg err)
    | None => mret NoRequeue
    end.

Definition sync_always (msg : string) (k : object_kind) (obj : option Obj)
    (factory : RisingWave -> outcome (option Obj)) : M ctrl_result :=
  rw ← gets observed_rw;
  err ← syncObject k obj (factory rw);
  mret (RequeueIfErrorAndWrap msg err).

Definition SyncCompactorService (compactorService : option Obj) : M ctrl_result :=
  sync_distributed "unable to sync compactor service" KService compactorService NewCompactorService.
Definition SyncComputeService (computeService : option Obj) : M ctrl_result :=
  sync_distributed "unable to sync compute service" KService computeService NewComputeService.
Definition SyncFrontendService (frontendService : option Obj) : M ctrl_result :=
  sync_always "unable to sync frontend service" KService frontendService NewFrontendService.
Definition SyncMetaService (metaService : option Obj) : M ctrl_result :=
  sync_distributed "unable to sync meta service" KService metaService NewMetaService.

Definition WaitBeforeMetaServiceIsAvailable (metaService : option Obj) : M ctrl_result :=
  standalone ← gets standalone_enabled;
  if negb standalone then
    rw ← gets observed_rw;
    mret (if isObjectSynced rw metaService then NoRequeue else Exit)
  else mret (if is_nil metaService then NoRequeue else Exit).

Definition SyncConfigConfigMap (configConfigMap : option Obj) : M ctrl_result :=
  sync_always "unable to sync config configmap" KConfigMap configConfigMap
    (fun rw => NewConfigConfigMap rw "").
Definition SyncServiceMonitor (serviceMonitor : option Obj) : M ctrl_result :=
  sync_always "unable to sync service monitor" KServiceMonitor serviceMonitor NewServiceMonitor.

(** ** Definitions: the standalone node *)

(** An object that a cluster has when [enabled]. *)
Definition sync_enabled (msg : string) (k : object_kind) (enabled : M bool) (obj : option Obj)
    (factory : RisingWave -> outcome (option Obj)) : M ctrl_result :=
  e ← enabled;
  if (e : bool) then sync_always msg k obj factory
  else
    match obj with
    | Some o => err ← delete_owned o; mret (RequeueIfErrorAndWrap msg err)
    | None => mret NoRequeue
    end.

Definition SyncStandaloneService (standaloneService : option Obj) : M ctrl_result :=
  sync_enabled "unable to sync standalone service" KService (gets standalone_enabled)
    standaloneService NewStandaloneService.
Definition SyncStandaloneStatefulSet (standaloneStatefulSet : option Obj) : M ctrl_result :=
  sync_enabled "unable to sync standalone statefulset" KStatefulSet
    (gets (fun m => standalone_enabled m && negb (openkruise_enabled m)))
    standaloneStatefulSet NewStandaloneStatefulSet.
Definition SyncStandaloneAdvancedStatefulSet (standaloneAdvancedStatefulSet : option Obj)
  : M ctrl_result :=
  sync_enabled "unable to sync standalone statefulset" KAdvancedStatefulSet
    (gets (fun m => standalone_enabled m && openkruise_enabled m))
    standaloneAdvancedStatefulSet NewStandaloneAdvancedStatefulSet.

Definition wait_enabled (k : object_kind) (enabled : M bool) (obj : option Obj) : M ctrl_result :=
  e ← enabled; rw ← gets observed_rw;
  mret (if (e : bool) then if isObjectSynced rw obj && rolled_out k obj then NoRequeue else Exit
        else if is_nil obj then NoRequeue else Exit).

Definition WaitBeforeStandaloneStatefulSetReady (standaloneStatefulSet : option Obj) : M ctrl_result :=
  wait_enabled KStatefulSet (gets (fun m => standalone_enabled m && negb (openkruise_enabled m)))
    standaloneStatefulSet.
Definition WaitBeforeStandaloneAdvancedStatefulSetReady
    (standaloneAdvancedStatefulSet : option Obj) : M ctrl_result :=
  wait_enabled KAdvancedStatefulSet (gets (fun m => standalone_enabled m && openkruise_enabled m))
    standaloneAdvancedStatefulSet.
End actions.

(** ** The replicas of a component *)

Section status.
Context {B : Type}.
Abbreviation Obj := (Object B).

Lemma expect_group_dom groups s :
  dom (foldl expect_group s groups).1 = dom s.1 ∪ list_to_set (ng_Name <$> groups).
Proof.
  revert s. induction groups as [|g gs IH]; intros s; [cbn; set_solver|].
  cbn [foldl]. rewrite IH. cbn. rewrite dom_insert_L. set_solver.
Qed.

Lemma expect_group_target groups s t :
  s.2 = int32 t -> (foldl expect_group s groups).2 = int32 (t + Zsum (ng_Replicas <$> groups)).
Proof.
  revert s t. induction groups as [|g gs IH]; intros s t Hs.
  - cbn. rewrite Hs. f_equal. lia.
  - cbn [foldl]. rewrite (IH _ (t + ng_Replicas g)%Z).
    + f_equal. unfold Zsum. cbn. lia.
    + cbn. by rewrite Hs, int32_add_l.
Qed.

Lemma status_target `{RangeOrder, SliceSort} groups (ws : list Obj) :
  cs_Target (buildNodeGroupStatus groups ws) = int32 (Zsum (ng_Replicas <$> groups)).
Proof.
  unfold buildNodeGroupStatus. destruct (foldl _ _ _) as [m t] eqn:Hf. cbn.
  pose proof (expect_group_target groups (∅, 0%Z) 0 eq_refl) as Ht. by rewrite Hf in Ht.
Qed.

Lemma status_running `{RangeOrder, SliceSort} groups (ws : list Obj) :
  cs_Running (buildNodeGroupStatus groups ws) = int32 (Zsum (ready_replicas <$> ws)).
Proof. unfold buildNodeGroupStatus. destruct (foldl _ _ _). cbn. apply sum_int32_spec. Qed.

(** The groups of the status, in some order. *)
Lemma status_groups `{RangeOrder, SliceSortOk} groups (ws : list Obj) :
  cs_Groups (buildNodeGroupStatus groups ws) ≡ₚ
  group_statuses (foldl expect_group (∅, 0%Z) groups).1 ws.
Proof. unfold buildNodeGroupStatus. destruct (foldl _ _ _). apply sort_by_name_perm. Qed.

Lemma any_missing_iff `{RangeOrderOk, SliceSortOk} groups (ws : list Obj) :
  any_missing (buildNodeGroupStatus groups ws) = true <->
  exists g, g ∈ groups /\ ng_Name g ∉ group_of <$> ws.
Proof.
  unfold any_missing. rewrite existsb_exists. setoid_rewrite <-list_elem_of_In.
  setoid_rewrite status_groups.
  assert (forall g, g ∈ dom (foldl expect_group (∅, 0%Z) groups).1 <->
    exists x, x ∈ groups /\ g = ng_Name x) as Hdom.
  { intros g. rewrite expect_group_dom. cbn [fst]. rewrite dom_empty_L, union_empty_l_L.
    rewrite elem_of_list_to_set, list_elem_of_fmap. naive_solver. }
  unfold group_statuses. split.
  - intros (s & [Hs|Hs]%elem_of_app & Hm).
    + apply list_elem_of_fmap in Hs as (o & -> & _). unfold workload_group_status in Hm.
      by destruct (_ !! _).
    + apply list_elem_of_fmap in Hs as (g & -> & [Hg Hin]%list_elem_of_filter).
      apply elem_of_range_keys, Hdom in Hin as (x & Hx & ->). eauto.
  - intros (x & Hx & Hn). eexists. split; [|shelve]. apply elem_of_app. right.
    apply list_elem_of_fmap. exists (ng_Name x). split; [done|]. apply list_elem_of_filter.
    split; [done|]. apply elem_of_range_keys, Hdom. eauto.
    Unshelve. done.
Qed.

(** C24: The reported replicas of a component are the declared ones and the ready ones,
    exact as long as they fit in an [int32]; and a group is reported missing exactly when a
    declared node group has no workload. *)
Theorem buildNodeGroupStatus_spec `{RangeOrderOk, SliceSortOk} groups (ws : list Obj) :
  let s := buildNodeGroupStatus groups ws in
  (in_int32 (cs_Target s) /\ in_int32 (cs_Running s)) /\
  (in_int32 (Zsum (ng_Replicas <$> groups)) -> cs_Target s = Zsum (ng_Replicas <$> groups)) /\
  (in_int32 (Zsum (ready_replicas <$> ws)) -> cs_Running s = Zsum (ready_replicas <$> ws)) /\
  (any_missing s = true <-> exists g, g ∈ groups /\ ng_Name g ∉ group_of <$> ws).
Proof.
  cbn zeta. rewrite status_target, status_running, any_missing_iff.
  split; [auto with go|]. split; [apply int32_id|]. split; [apply int32_id|done].
Qed.

Lemma group_statuses_perm `{O1 : RangeOrder} `{O2 : RangeOrder} :
  RangeOrderOk O1 -> RangeOrderOk O2 -> forall m (ws : list Obj),
  group_statuses (O := O1) m ws ≡ₚ group_statuses (O := O2) m ws.
Proof.
  intros H1 H2 m ws. unfold group_statuses. f_equiv. apply fmap_Permutation, filter_Permutation.
  by rewrite !range_keys_perm.
Qed.

(** The status does not depend on the order in which Go ranges over the groups, nor on
    what the unstable sort does, as long as no two groups are shown under one name. *)
Theorem buildNodeGroupStatus_deterministic (O1 O2 : RangeOrder) (S1 S2 : SliceSort) :
  RangeOrderOk O1 -> RangeOrderOk O2 -> SliceSortOk S1 -> SliceSortOk S2 ->
  forall groups (ws : list Obj),
  NoDup (gs_Name <$> cs_Groups (buildNodeGroupStatus (O := O1) (S := S1) groups ws)) ->
  buildNodeGroupStatus (O := O1) (S := S1) groups ws =
  buildNodeGroupStatus (O := O2) (S := S2) groups ws.
Proof.
  intros HO1 HO2 HS1 HS2 groups ws Hnd.
  assert (cs_Groups (buildNodeGroupStatus (O := O1) (S := S1) groups ws) ≡ₚ
    cs_Groups (buildNodeGroupStatus (O := O2) (S := S2) groups ws)) as Hp.
  { rewrite !status_groups. by apply group_statuses_perm. }
  unfold buildNodeGroupStatus in *. destruct (foldl _ _ _) as [m t]. cbn in *. f_equal.
  eapply (StronglySorted_unique_strong name_le); [|apply sort_by_name_sorted..|done].
  intros x y Hx Hy Hxy Hyx. rewrite <-Hp in Hy.
  eapply NoDup_fmap_elem; [exact Hnd|done..|]. by apply (anti_symm String.le).
Qed.
End status.

(** ** Collecting the status *)

Section collect.
Context {B : Type} `{E : ClusterEnv B} `{O : RangeOrderOk} `{S : SliceSortOk}.
Abbreviation Obj := (Object B).
Abbreviation Mgr := (risingWaveControllerManagerImpl B).

Definition conditions_of (m : Mgr) : list RisingWaveCondition := conditions (mi_risingwaveManager m).

Definition status_of (m : Mgr) : RisingWaveStatus :=
  rw_Status (rwm_mutable (mi_risingwaveManager m)).

(** [m'] is [m] after a collection that found something [broken], or not, and wrote [status]
    apart from the conditions. *)
Record collected (broken : bool) (status : RisingWaveStatus) (m m' : Mgr) : Prop := {
  co_trace : mi_trace m' = mi_trace m;
  co_observed : observed_rw m' = observed_rw m;
  co_status : status_of m' = set_st_Conditions (conditions_of m') status;
  co_running : broken = true -> exists c,
    lookup_condition (conditions_of m') RisingWaveConditionRunning = Some c /\
    cond_Status c = ConditionFalse;
  co_kept : broken = false -> conditions_of m' = conditions_of m;
  co_others t : t <> RisingWaveConditionRunning ->
    lookup_condition (conditions_of m') t = lookup_condition (conditions_of m) t;
  co_message : IsMessageSet (ev_Name RisingWaveEventTypeUnhealthy) (mi_eventMessageStore m') =
    IsMessageSet (ev_Name RisingWaveEventTypeUnhealthy) (mi_eventMessageStore m) ||
    (broken && DoesConditionExistAndEqual (observed_rw m) RisingWaveConditionRunning true);
}.

Lemma set_same_conditions s : set_st_Conditions (st_Conditions s) s = s.
Proof. by destruct s. Qed.

Lemma nothing_missing_nil (table : list (bool * string)) :
  snd <$> filter (fun t => t.1 = true) table = [] <-> existsb fst table = false.
Proof.
  induction table as [|[[] x] l IH]; [done| |].
  - by rewrite filter_cons_True.
  - by rewrite filter_cons_False by done.
Qed.

Lemma report_missing_spec table m :
  NoDup (cond_types (conditions_of m)) ->
  wp (report_missing table) (fun res m' =>
    res = Continue /\ collected (existsb fst table) (status_of m) m m') m.
Proof.
  intros Hnd. unfold report_missing. case_bool_decide as Hb; rewrite nothing_missing_nil in Hb.
  { apply wp_ret. rewrite Hb. split; [done|].
    split; try done; [symmetry; apply set_same_conditions|by rewrite orb_false_r]. }
  apply not_false_iff_true in Hb. rewrite Hb.
  apply wp_bind, wp_modify, wp_bind, wp_gets, wp_bind. cbn [observed_rw].
  set (c := plain_condition RisingWaveConditionRunning ConditionFalse).
  set (m1 := tick _).
  assert (forall m', mi_risingwaveManager m' = mi_risingwaveManager m1 -> mi_trace m' = mi_trace m ->
    IsMessageSet (ev_Name RisingWaveEventTypeUnhealthy) (mi_eventMessageStore m') =
      IsMessageSet (ev_Name RisingWaveEventTypeUnhealthy) (mi_eventMessageStore m) ||
      DoesConditionExistAndEqual (observed_rw m) RisingWaveConditionRunning true ->
    collected true (status_of m) m m') as Hc.
  { intros m' Hm Ht Hmsg.
    destruct (UpdateCondition_stores (clock (mi_ticks m)) c (mi_risingwaveManager m) Hnd)
      as [Hc' Hothers].
    split; unfold conditions_of, observed_rw, status_of; rewrite ?Hm; try done;
      eauto using stamp_status. }
  change (observed_rw m1) with (observed_rw m).
  destruct (DoesConditionExistAndEqual (observed_rw m) RisingWaveConditionRunning true) eqn:Hr.
  - apply wp_modify, wp_ret. split; [done|]. apply Hc; [done..|].
    unfold set_message. cbn [mi_eventMessageStore]. by rewrite IsMessageSet_set, orb_true_r.
  - apply wp_ret, wp_ret. split; [done|]. apply Hc; [done..|]. by rewrite orb_false_r.
Qed.

(** A collection: the status is reported, then what is missing. *)
Lemma collect_spec (g : RisingWaveStatus -> RisingWaveStatus) table m :
  (forall s, st_Conditions (g s) = st_Conditions s) ->
  NoDup (cond_types (conditions_of m)) ->
  wp (modify (on_manager (UpdateStatus g));; report_missing table) (fun res m' =>
    res = Continue /\ collected (existsb fst table) (g (status_of m)) m m') m.
Proof.
  intros Hg Hnd. apply wp_bind, wp_modify. set (m1 := on_manager _ m).
  assert (conditions_of m1 = conditions_of m) as Hm1 by apply Hg.
  eapply wp_mono; [apply report_missing_spec; by rewrite Hm1|].
  intros res m' (-> & [Ht Ho Hs Hr Hk Hot Hmsg]). split; [done|].
  split; rewrite <-?Hm1; done.
Qed.

(** What a cluster that is not standalone lacks: one of [services], or the workload of a node
    group. *)
Definition group_lacking (rw : RisingWave) (w : string * list Obj) : Prop :=
  exists gs g, node_groups rw w.1 = Some gs /\ g ∈ gs /\ ng_Name g ∉ group_of <$> w.2.

Definition lacking (rw : RisingWave) (services : list (option Obj))
    (workloads : list (string * list Obj)) : Prop :=
  None ∈ services \/ Exists (group_lacking rw) workloads.

Lemma any_missing_lacking rw component gs ws :
  node_groups rw component = Some gs ->
  any_missing (buildNodeGroupStatus gs ws) = true <-> group_lacking rw (component, ws).
Proof. intros H. rewrite any_missing_iff. unfold group_lacking. cbn. naive_solver. Qed.

Lemma lacking_table rw (fs ms cs ks cfg : option Obj) (meta frontend compute compactor : list Obj)
    (n1 n2 n3 n4 n5 n6 n7 n8 n9 : string) :
  let r := components_replicas rw meta frontend compute compactor in
  existsb fst [(is_nil fs, n1); (is_nil ms, n2); (is_nil cs, n3); (is_nil ks, n4); (is_nil cfg, n5);
    (any_missing (rs_Meta r), n6); (any_missing (rs_Frontend r), n7);
    (any_missing (rs_Compute r), n8); (any_missing (rs_Compactor r), n9)] = true <->
  lacking rw [fs; ms; cs; ks; cfg] [(ComponentMeta, meta); (ComponentFrontend, frontend);
    (ComponentCompute, compute); (ComponentCompactor, compactor)].
Proof.
  intros r. cbn [existsb fst]. rewrite !orb_true_iff. unfold is_nil, r, components_replicas.
  cbn [rs_Meta rs_Frontend rs_Compute rs_Compactor]. rewrite !bool_decide_eq_true.
  rewrite (any_missing_lacking rw ComponentMeta), (any_missing_lacking rw ComponentFrontend),
    (any_missing_lacking rw ComponentCompute), (any_missing_lacking rw ComponentCompactor) by done.
  unfold lacking. rewrite !Exists_cons, Exists_nil, !elem_of_cons.
  pose proof (not_elem_of_nil (A := option Obj) None).
  assert (forall o : option Obj, o = None <-> None = o) as Hsym by done. rewrite !Hsym.
  assert (false = true <-> False) as -> by done. tauto.
Qed.

(** C23: Collecting the running state of a cluster (not standalone) never fails and sends
    nothing. It reports the stores, the version and the replicas; it turns the condition
    Running to false exactly when a service, the configuration or the workload of a node
    group is missing, and then has an Unhealthy event sent if the cluster was running; every
    other condition stays. The cluster with OpenKruise is collected the same way. *)
Theorem Collect_spec collect fs ms cs ks meta frontend compute compactor cfg m :
  collect ∈ [CollectRunningStatisticsAndSyncStatus; CollectOpenKruiseRunningStatisticsAndSyncStatus] ->
  NoDup (cond_types (conditions_of m)) ->
  exists broken m',
    collect fs ms cs ks meta frontend compute compactor cfg m = Done (Continue, m') /\
    (broken = true <-> lacking (observed_rw m) [fs; ms; cs; ks; cfg]
       [(ComponentMeta, meta); (ComponentFrontend, frontend); (ComponentCompute, compute);
        (ComponentCompactor, compactor)]) /\
    collected broken (report_status (observed_rw m)
      (components_replicas (observed_rw m) meta frontend compute compactor) (status_of m)) m m'.
Proof.
  intros Hc Hnd. set (status := report_status _ _ _).
  assert (exists table : list (bool * string), (existsb fst table = true <-> lacking (observed_rw m) [fs; ms; cs; ks; cfg]
       [(ComponentMeta, meta); (ComponentFrontend, frontend); (ComponentCompute, compute);
        (ComponentCompactor, compactor)]) /\
    wp (collect fs ms cs ks meta frontend compute compactor cfg) (fun res m' =>
      res = Continue /\ collected (existsb fst table) status m m') m) as (table & Ht & Hwp).
  { apply elem_of_cons in Hc as [->| ->%list_elem_of_singleton]; eexists;
      (split; [apply lacking_table|]); apply wp_bind, wp_gets; by apply collect_spec. }
  unfold wp in Hwp. destruct (collect _ _ _ _ _ _ _ _ _ m) as [[res m']|]; [|done].
  destruct Hwp as [-> Hcol]. eauto.
Qed.
End collect.

(** ** Switching between the kinds of workload *)

Section switching.
Context {B : Type} `{E : ClusterEnv B} `{F : ObjectFactory B} `{O : RangeOrderOk} `{N : ConditionNames}.
Abbreviation Obj := (Object B).
Abbreviation Mgr := (risingWaveControllerManagerImpl B).

(** Of the two kinds of workload a component may have (of Kubernetes, of OpenKruise) at
    most one is expected, and none when the cluster is standalone; and then the standalone
    node has exactly one of its two kinds. *)
Lemma one_kind_expected (m : Mgr) :
  exists plain kruise plain_standalone kruise_standalone,
    plain_workloads m = Done (plain, m) /\ kruise_workloads m = Done (kruise, m) /\
    plain_standalone = standalone_enabled m && negb (openkruise_enabled m) /\
    kruise_standalone = standalone_enabled m && openkruise_enabled m /\
    length (filter Is_true [plain; kruise; plain_standalone; kruise_standalone]) = 1.
Proof.
  do 4 eexists. do 4 (split; [reflexivity|]).
  by destruct (standalone_enabled m), (openkruise_enabled m).
Qed.

(** C36: A Deployment that is up to date but of the kind that is not expected any more
    blocks the workflow: the pass leaves it, and waiting never gets past it. (Whether OpenKruise
    is available is a switch of the operator, which does not change the generation of the
    RisingWave the labels are compared with.) *)
Theorem other_kind_blocks (o : Obj) l (m : Mgr) :
  openkruise_enabled m = true ->
  NoDup (group_of <$> o :: l) ->
  (forall x, x ∈ o :: l -> isObjectSynced (observed_rw m) (Some x) = true) ->
  SyncFrontendDeployments (o :: l) m = Done (Continue, m) /\
  WaitBeforeFrontendDeploymentsReady (o :: l) m = Done (Exit, m).
Proof.
  intros Hk Hnd Hs. split.
  - unfold SyncFrontendDeployments, mbind, GoM_bind, plain_workloads, gets. rewrite Hk. cbn [negb andb].
    apply (sync_idle _ _ _ _ _ ∅); [done|]. by split; [|set_solver..].
  - unfold WaitBeforeFrontendDeploymentsReady, wait_workloads, mbind, GoM_bind, plain_workloads, gets.
    rewrite Hk. unfold waitComponentGroupWorkloadsReady. cbn.
    by rewrite bool_decide_false by apply not_elem_of_empty.
Qed.
End switching.

(** ** Witnesses *)

Lemma stable_sort_ok : SliceSortOk stable_sort.
Proof.
  assert (Transitive name_le) by (intros a b c; unfold name_le; apply transitivity).
  assert (Total name_le) by (intros a b; unfold name_le; apply (total String.le)).
  split; intros l; [apply merge_sort_Permutation|by apply StronglySorted_merge_sort].
Qed.

(** Two groups of three and one replicas, of which one has no workload. *)
Lemma buildNodeGroupStatus_spec_witness :
  any_missing (buildNodeGroupStatus (O := elements_order) (S := stable_sort)
    [simple_group "a" 3; simple_group "b" 1] [ex_workload "a" 2]) = true.
Proof.
  destruct (@buildNodeGroupStatus_spec unit elements_order elements_order_ok stable_sort
    stable_sort_ok [simple_group "a" 3; simple_group "b" 1] [ex_workload "a" 2]) as (_ & _ & _ & H).
  apply H. exists (simple_group "b" 1). split; [right; left|].
  apply (bool_decide_unpack _). by vm_compute.
Defined.

Lemma buildNodeGroupStatus_deterministic_witness :
  buildNodeGroupStatus (O := elements_order) (S := stable_sort)
    [simple_group "b" 3; simple_group "a" 1] [ex_workload "c" 2] =
  buildNodeGroupStatus (O := fun _ ks => reverse (elements ks)) (S := stable_sort)
    [simple_group "b" 3; simple_group "a" 1] [ex_workload "c" 2].
Proof.
  apply buildNodeGroupStatus_deterministic; try apply stable_sort_ok.
  - apply elements_order_ok.
  - intros site ks. apply reverse_Permutation.
  - apply (bool_decide_unpack _). by vm_compute.
Defined.

(** A running cluster whose frontend service has vanished. *)
Lemma Collect_spec_witness :
  exists m', CollectRunningStatisticsAndSyncStatus (E := replying_env (fun _ _ => None))
    (O := elements_order) (S := stable_sort) None None None None [ex_workload "a" 2] [] [] [] None
    (new_manager ex_running false false) = Done (Continue, m') /\
    IsMessageSet "Unhealthy" (mi_eventMessageStore m') = true.
Proof.
  pose proof elements_order_ok as HO. pose proof stable_sort_ok as HS.
  destruct (@Collect_spec unit (replying_env (fun _ _ => None)) elements_order HO stable_sort HS
    (CollectRunningStatisticsAndSyncStatus (E := replying_env (fun _ _ => None))
      (O := elements_order) (S := stable_sort)) None None None None [ex_workload "a" 2] [] [] [] None
    (new_manager ex_running false false)) as (broken & m' & Hm & Hb & Hc).
  - left.
  - apply NoDup_singleton.
  - exists m'. split; [exact Hm|].
    assert (broken = true) as ->. { apply Hb. left. left. }
    change "Unhealthy" with (ev_Name RisingWaveEventTypeUnhealthy). rewrite (co_message _ _ _ _ Hc).
    by vm_compute.
Defined.

Definition ex_kruise_rw : RisingWave :=
  set_rw_Spec (set_rws_EnableOpenKruise (Some true) (rw_Spec ex_rw)) ex_rw.

Definition ex_object_factory : ObjectFactory unit :=
  let one (_ : RisingWave) := Done (Some (ex_workload "" 2)) in
  let many (_ : RisingWave) := ex_factory in
  {| NewMetaService := one; NewFrontendService := one; NewComputeService := one;
     NewCompactorService := one; NewStandaloneService := one;
     NewConfigConfigMap := fun rw _ => one rw; NewServiceMonitor := one;
     NewMetaStatefulSet := many; NewMetaAdvancedStatefulSet := many;
     NewFrontendDeployment := many; NewFrontendCloneSet := many;
     NewComputeStatefulSet := many; NewComputeAdvancedStatefulSet := many;
     NewCompactorDeployment := many; NewCompactorCloneSet := many;
     NewStandaloneStatefulSet := one; NewStandaloneAdvancedStatefulSet := one |}.

Lemma other_kind_blocks_witness :
  WaitBeforeFrontendDeploymentsReady (O := elements_order) (N := sample_names) [ex_workload "a" 2]
    (new_manager ex_kruise_rw true false) = Done (Exit, new_manager ex_kruise_rw true false).
Proof.
  pose proof elements_order_ok as HO.
  apply (@other_kind_blocks unit (replying_env (fun _ _ => None)) ex_object_factory elements_order HO
    sample_names (ex_workload "a" 2) [] (new_manager ex_kruise_rw true false)).
  - reflexivity.
  - apply NoDup_singleton.
  - intros x ->%list_elem_of_singleton. by vm_compute.
Defined.
