(* ===== verification/EventRecorder.v ===== *)
(** * pkg/controller/risingwave_event_recorder.go: the events of a reconcile

    The hook that runs after every action. It records events after the action that writes
    the status: one for each condition that has come to hold in this reconcile, and one for
    each warning in the message store. *)

From S2P Require Import Prelude GoStrings ApiTypes ApiErrors RisingWaveManager Workloads ManagerState.

(** ** Definitions *)

Definition RisingWaveAction_UpdateRisingWaveStatusViaClient : string :=
  "UpdateRisingWaveStatusViaClient".

(** Whether the result of an action comes with an error; leaving a workflow is one. *)
Definition has_error (r : ctrl_result) : bool :=
  match r with
  | Exit | RequeueIfError (Some _) | RequeueIfErrorAndWrap _ (Some _) => true
  | _ => false
  end.

Section hook.
Context {B : Type}.
Abbreviation Mgr := (risingWaveControllerManagerImpl B).
Abbreviation M := (GoM Mgr).

Definition isAfterConditionTrueAndChanged (before after : RisingWave) (eval : RisingWave -> bool)
  : bool := eval after && negb (eval before).

Definition recordEvent (event : RisingWaveEventType) : M unit :=
  modify (fun m => log_request
    (RecordEvent (ev_Type event) (ev_Name event) (MessageFor (ev_Name event) (mi_eventMessageStore m))) m).

Definition record_if (cond : bool) (event : RisingWaveEventType) : M unit :=
  if cond then recordEvent event else mret tt.

Definition is_initializing (r : RisingWave) : bool :=
  DoesConditionExistAndEqual r RisingWaveConditionInitializing true.
Definition is_running (r : RisingWave) : bool :=
  DoesConditionExistAndEqual r RisingWaveConditionRunning true.
Definition is_recovering (r : RisingWave) : bool :=
  bool_decide (GetCondition r RisingWaveConditionInitializing = None) &&
  DoesConditionExistAndEqual r RisingWaveConditionRunning false.
Definition is_upgrading (r : RisingWave) : bool :=
  DoesConditionExistAndEqual r RisingWaveConditionUpgrading true.

Definition recordConditionChangingEvents : M unit :=
  before ← gets observed_rw;
  after ← gets (fun m => RisingWaveAfterImage (mi_risingwaveManager m));
  record_if (isAfterConditionTrueAndChanged before after is_initializing)
    RisingWaveEventTypeInitializing;;
  record_if (isAfterConditionTrueAndChanged before after is_running) RisingWaveEventTypeRunning;;
  record_if (isAfterConditionTrueAndChanged before after is_recovering)
    RisingWaveEventTypeRecovering;;
  record_if (isAfterConditionTrueAndChanged before after is_upgrading) RisingWaveEventTypeUpgrading.

Definition recordStatesWarningEvents : M unit :=
  store ← gets mi_eventMessageStore;
  record_if (IsMessageSet (ev_Name RisingWaveEventTypeUnhealthy) store) RisingWaveEventTypeUnhealthy.

Definition PostRun (action : string) (result : ctrl_result) : M unit :=
  if negb (bool_decide (action = RisingWaveAction_UpdateRisingWaveStatusViaClient)) then mret tt
  else if has_error result then mret tt
  else recordConditionChangingEvents;; recordStatesWarningEvents.

(** An action under the hook. *)
Definition hooked (action : string) (f : M ctrl_result) : M ctrl_result :=
  result ← f; PostRun action result;; mret result.

(** ** The events of a status *)

(** The events the hook records for a change of the RisingWave and a message store. *)
Definition events_of (before after : RisingWave) (store : MessageStore) : list RisingWaveEventType :=
  (if isAfterConditionTrueAndChanged before after is_initializing
   then [RisingWaveEventTypeInitializing] else []) ++
  (if isAfterConditionTrueAndChanged before after is_running then [RisingWaveEventTypeRunning] else []) ++
  (if isAfterConditionTrueAndChanged before after is_recovering
   then [RisingWaveEventTypeRecovering] else []) ++
  (if isAfterConditionTrueAndChanged before after is_upgrading
   then [RisingWaveEventTypeUpgrading] else []) ++
  (if IsMessageSet "Unhealthy" store then [RisingWaveEventTypeUnhealthy] else []).

Definition event_request (store : MessageStore) (e : RisingWaveEventType) : request B :=
  RecordEvent (ev_Type e) (ev_Name e) (MessageFor (ev_Name e) store).

(** [m'] is [m] with the events [es] recorded. *)
Definition recorded (es : list RisingWaveEventType) (m m' : Mgr) : Prop :=
  m' = foldl (fun m r => log_request r m) m (event_request (mi_eventMessageStore m) <$> es).

Lemma record_if_spec c e es (m0 m : Mgr) :
  recorded es m0 m ->
  wp (record_if c e) (fun _ => recorded (es ++ if c then [e] else []) m0) m.
Proof.
  intros ->. destruct c; [apply wp_modify|apply wp_ret]; unfold recorded; [|by rewrite app_nil_r].
  rewrite fmap_app, foldl_app. cbn. unfold event_request at 3.
  set (l := event_request (mi_eventMessageStore m0) <$> es).
  enough (mi_eventMessageStore (foldl (fun m r => log_request r m) m0 l) = mi_eventMessageStore m0)
    as -> by done.
  generalize m0. induction l as [|r l IH]; intros m; [done|]. cbn. by rewrite IH.
Qed.

Lemma recorded_manager es m m' :
  recorded es m m' -> mi_risingwaveManager m' = mi_risingwaveManager m /\
    mi_eventMessageStore m' = mi_eventMessageStore m.
Proof.
  unfold recorded. intros ->. generalize (event_request (mi_eventMessageStore m) <$> es).
  intros l. revert m. induction l as [|r l IH]; intros m; [done|]. cbn.
  destruct (IH (log_request r m)) as [-> ->]. done.
Qed.

(** What the hook records after the status was written. *)
Lemma PostRun_records result (m : Mgr) :
  has_error result = false ->
  wp (PostRun RisingWaveAction_UpdateRisingWaveStatusViaClient result)
    (fun _ => recorded (events_of (observed_rw m) (RisingWaveAfterImage (mi_risingwaveManager m))
       (mi_eventMessageStore m)) m) m.
Proof.
  intros He. unfold PostRun. rewrite bool_decide_true by done. rewrite He. cbn [negb].
  set (Q := recorded (events_of _ _ _) m). apply wp_bind. unfold recordConditionChangingEvents.
  apply wp_bind, wp_gets, wp_bind, wp_gets.
  apply wp_bind. eapply wp_mono; [by apply (record_if_spec _ _ [] m)|]. intros [] m1 H1.
  apply wp_bind. eapply wp_mono; [by eapply record_if_spec|]. intros [] m2 H2.
  apply wp_bind. eapply wp_mono; [by eapply record_if_spec|]. intros [] m3 H3.
  eapply wp_mono; [by eapply record_if_spec|]. intros [] m4 H4.
  unfold recordStatesWarningEvents. apply wp_bind, wp_gets.
  rewrite (proj2 (recorded_manager _ _ _ H4)).
  eapply wp_mono; [by eapply record_if_spec|]. intros [] m5 H5.
  unfold Q, events_of. by rewrite <-!app_assoc in H5.
Qed.

Lemma PostRun_other action result (m : Mgr) :
  action <> RisingWaveAction_UpdateRisingWaveStatusViaClient ->
  PostRun action result m = Done (tt, m).
Proof. intros H. unfold PostRun. by rewrite bool_decide_false. Qed.

Lemma hooked_other action f (m : Mgr) :
  action <> RisingWaveAction_UpdateRisingWaveStatusViaClient -> hooked action f m = f m.
Proof.
  intros H. unfold hooked, mbind, GoM_bind. destruct (f m) as [[r m']|]; [|done].
  by rewrite PostRun_other.
Qed.

(** Without a change of the conditions or a warning there are no events. *)
Lemma events_of_unchanged before after :
  st_Conditions (rw_Status after) = st_Conditions (rw_Status before) ->
  events_of before after NewMessageStore = [].
Proof.
  intros H. unfold events_of, isAfterConditionTrueAndChanged, is_initializing, is_running,
    is_recovering, is_upgrading, DoesConditionExistAndEqual, GetCondition.
  rewrite H, !andb_negb_r. done.
Qed.
End hook.
