(* ===== verification/ManagerActions.v ===== *)
(** * pkg/manager/risingwave_controller_manager_generated.go: the actions of the controller

    Each action reads the objects it needs and hands them to the method of the same name
    ([ManagerImpl]), under the hook that records events. A read that fails ends the action
    with its error. *)

From S2P Require Import Prelude GoStrings ApiTypes ApiErrors RisingWaveManager Workloads ManagerState.
From S2P Require Import WorkloadSync ManagerImpl EventRecorder.

(** ** Definitions *)

(** An action: its name and what it does. *)
Record action (S : Type) := { a_name : string; a_body : GoM S ctrl_result }.
Arguments a_name {S}.
Arguments a_body {S}.

Section actions.
Context {B : Type} `{E : ClusterEnv B} `{F : ObjectFactory B} `{O : RangeOrder} `{S : SliceSort}.
Context `{N : ConditionNames}.
Abbreviation Mgr := (risingWaveControllerManagerImpl B).
Abbreviation M := (GoM Mgr).

(** [if err != nil { return ctrlkit.RequeueIfError(err) }] after a read. *)
Definition with_state {X} (get : M (result api_error X)) (f : X -> M ctrl_result) : M ctrl_result :=
  r ← get; match r with Err err => mret (RequeueIfError (Some err)) | Ok x => f x end.

Definition NewAction (description : string) (f : M ctrl_result) : action Mgr :=
  {| a_name := description; a_body := hooked description f |}.

(** An action of one state. *)
Definition state_action {X} (name : string) (get : M (result api_error X)) (f : X -> M ctrl_result)
  : action Mgr :=
  {| a_name := name; a_body := with_state get (fun x => hooked name (f x)) |}.

Definition SyncMetaService : action Mgr :=
  state_action "SyncMetaService" GetMetaService ManagerImpl.SyncMetaService.
Definition SyncMetaStatefulSets : action Mgr :=
  state_action "SyncMetaStatefulSets" GetMetaStatefulSets ManagerImpl.SyncMetaStatefulSets.
Definition SyncMetaAdvancedStatefulSets : action Mgr :=
  state_action "SyncMetaAdvancedStatefulSets" GetMetaAdvancedStatefulSets ManagerImpl.SyncMetaAdvancedStatefulSets.
Definition WaitBeforeMetaServiceIsAvailable : action Mgr :=
  state_action "WaitBeforeMetaServiceIsAvailable" GetMetaService ManagerImpl.WaitBeforeMetaServiceIsAvailable.
Definition WaitBeforeMetaStatefulSetsReady : action Mgr :=
  state_action "WaitBeforeMetaStatefulSetsReady" GetMetaStatefulSets ManagerImpl.WaitBeforeMetaStatefulSetsReady.
Definition WaitBeforeMetaAdvancedStatefulSetsReady : action Mgr :=
  state_action "WaitBeforeMetaAdvancedStatefulSetsReady" GetMetaAdvancedStatefulSets ManagerImpl.WaitBeforeMetaAdvancedStatefulSetsReady.
Definition SyncFrontendService : action Mgr :=
  state_action "SyncFrontendService" GetFrontendService ManagerImpl.SyncFrontendService.
Definition SyncFrontendDeployments : action Mgr :=
  state_action "SyncFrontendDeployments" GetFrontendDeployments ManagerImpl.SyncFrontendDeployments.
Definition SyncFrontendCloneSets : action Mgr :=
  state_action "SyncFrontendCloneSets" GetFrontendCloneSets ManagerImpl.SyncFrontendCloneSets.
Definition WaitBeforeFrontendDeploymentsReady : action Mgr :=
  state_action "WaitBeforeFrontendDeploymentsReady" GetFrontendDeployments ManagerImpl.WaitBeforeFrontendDeploymentsReady.
Definition WaitBeforeFrontendCloneSetsReady : action Mgr :=
  state_action "WaitBeforeFrontendCloneSetsReady" GetFrontendCloneSets ManagerImpl.WaitBeforeFrontendCloneSetsReady.
Definition SyncComputeService : action Mgr :=
  state_action "SyncComputeService" GetComputeService ManagerImpl.SyncComputeService.
Definition SyncComputeStatefulSets : action Mgr :=
  state_action "SyncComputeStatefulSets" GetComputeStatefulSets ManagerImpl.SyncComputeStatefulSets.
Definition SyncComputeAdvancedStatefulSets : action Mgr :=
  state_action "SyncComputeAdvancedStatefulSets" GetComputeAdvancedStatefulSets ManagerImpl.SyncComputeAdvancedStatefulSets.
Definition WaitBeforeComputeStatefulSetsReady : action Mgr :=
  state_action "WaitBeforeComputeStatefulSetsReady" GetComputeStatefulSets ManagerImpl.WaitBeforeComputeStatefulSetsReady.
Definition WaitBeforeComputeAdvancedStatefulSetsReady : action Mgr :=
  state_action "WaitBeforeComputeAdvancedStatefulSetsReady" GetComputeAdvancedStatefulSets ManagerImpl.WaitBeforeComputeAdvancedStatefulSetsReady.
Definition SyncCompactorService : action Mgr :=
  state_action "SyncCompactorService" GetCompactorService ManagerImpl.SyncCompactorService.
Definition SyncCompactorDeployments : action Mgr :=
  state_action "SyncCompactorDeployments" GetCompactorDeployments ManagerImpl.SyncCompactorDeployments.
Definition SyncCompactorCloneSets : action Mgr :=
  state_action "SyncCompactorCloneSets" GetCompactorCloneSets ManagerImpl.SyncCompactorCloneSets.
Definition WaitBeforeCompactorDeploymentsReady : action Mgr :=
  state_action "WaitBeforeCompactorDeploymentsReady" GetCompactorDeployments ManagerImpl.WaitBeforeCompactorDeploymentsReady.
Definition WaitBeforeCompactorCloneSetsReady : action Mgr :=
  state_action "WaitBeforeCompactorCloneSetsReady" GetCompactorCloneSets ManagerImpl.WaitBeforeCompactorCloneSetsReady.
Definition SyncConfigConfigMap : action Mgr :=
  state_action "SyncConfigConfigMap" GetConfigConfigMap ManagerImpl.SyncConfigConfigMap.
Definition SyncStandaloneService : action Mgr :=
  state_action "SyncStandaloneService" GetStandaloneService ManagerImpl.SyncStandaloneService.
Definition SyncStandaloneStatefulSet : action Mgr :=
  state_action "SyncStandaloneStatefulSet" GetStandaloneStatefulSet ManagerImpl.SyncStandaloneStatefulSet.
Definition SyncStandaloneAdvancedStatefulSet : action Mgr :=
  state_action "SyncStandaloneAdvancedStatefulSet" GetStandaloneAdvancedStatefulSet ManagerImpl.SyncStandaloneAdvancedStatefulSet.
Definition WaitBeforeStandaloneStatefulSetReady : action Mgr :=
  state_action "WaitBeforeStandaloneStatefulSetReady" GetStandaloneStatefulSet ManagerImpl.WaitBeforeStandaloneStatefulSetReady.
Definition WaitBeforeStandaloneAdvancedStatefulSetReady : action Mgr :=
  state_action "WaitBeforeStandaloneAdvancedStatefulSetReady" GetStandaloneAdvancedStatefulSet ManagerImpl.WaitBeforeStandaloneAdvancedStatefulSetReady.
Definition SyncServiceMonitor : action Mgr :=
  state_action "SyncServiceMonitor" GetServiceMonitor ManagerImpl.SyncServiceMonitor.

Definition CollectRunningStatisticsAndSyncStatus : action Mgr :=
  {| a_name := "CollectRunningStatisticsAndSyncStatus"; a_body :=
     with_state GetFrontendService (fun frontendService =>
     with_state GetMetaService (fun metaService =>
     with_state GetComputeService (fun computeService =>
     with_state GetCompactorService (fun compactorService =>
     with_state GetMetaStatefulSets (fun metaStatefulSets =>
     with_state GetFrontendDeployments (fun frontendDeployments =>
     with_state GetComputeStatefulSets (fun computeStatefulSets =>
     with_state GetCompactorDeployments (fun compactorDeployments =>
     with_state GetConfigConfigMap (fun configConfigMap =>
     hooked "CollectRunningStatisticsAndSyncStatus"
       (ManagerImpl.CollectRunningStatisticsAndSyncStatus frontendService metaService computeService compactorService
          metaStatefulSets frontendDeployments computeStatefulSets compactorDeployments
          configConfigMap)))))))))) |}.

Definition CollectOpenKruiseRunningStatisticsAndSyncStatus : action Mgr :=
  {| a_name := "CollectOpenKruiseRunningStatisticsAndSyncStatus"; a_body :=
     with_state GetFrontendService (fun frontendService =>
     with_state GetMetaService (fun metaService =>
     with_state GetComputeService (fun computeService =>
     with_state GetCompactorService (fun compactorService =>
     with_state GetMetaAdvancedStatefulSets (fun metaAdvancedStatefulSets =>
     with_state GetFrontendCloneSets (fun frontendCloneSets =>
     with_state GetComputeAdvancedStatefulSets (fun computeAdvancedStatefulSets =>
     with_state GetCompactorCloneSets (fun compactorCloneSets =>
     with_state GetConfigConfigMap (fun configConfigMap =>
     hooked "CollectOpenKruiseRunningStatisticsAndSyncStatus"
       (ManagerImpl.CollectOpenKruiseRunningStatisticsAndSyncStatus frontendService metaService computeService compactorService
          metaAdvancedStatefulSets frontendCloneSets computeAdvancedStatefulSets compactorCloneSets
          configConfigMap)))))))))) |}.

Definition CollectRunningStatisticsAndSyncStatusForStandalone : action Mgr :=
  {| a_name := "CollectRunningStatisticsAndSyncStatusForStandalone"; a_body :=
     with_state GetStandaloneService (fun standaloneService =>
     with_state GetStandaloneStatefulSet (fun standaloneStatefulSet =>
     with_state GetConfigConfigMap (fun configConfigMap =>
     hooked "CollectRunningStatisticsAndSyncStatusForStandalone"
       (ManagerImpl.CollectRunningStatisticsAndSyncStatusForStandalone standaloneService standaloneStatefulSet configConfigMap)))) |}.

Definition CollectOpenKruiseRunningStatisticsAndSyncStatusForStandalone : action Mgr :=
  {| a_name := "CollectOpenKruiseRunningStatisticsAndSyncStatusForStandalone"; a_body :=
     with_state GetStandaloneService (fun standaloneService =>
     with_state GetStandaloneAdvancedStatefulSet (fun standaloneAdvancedStatefulSet =>
     with_state GetConfigConfigMap (fun configConfigMap =>
     hooked "CollectOpenKruiseRunningStatisticsAndSyncStatusForStandalone"
       (ManagerImpl.CollectOpenKruiseRunningStatisticsAndSyncStatusForStandalone standaloneService standaloneAdvancedStatefulSet configConfigMap)))) |}.
End actions.
