(* ===== verification/CtrlKit.v ===== *)
(** * Workflows

    [ctrlkit] is a library: its combinators build a workflow of actions, which it then runs,
    partly in parallel. The workflows are kept as syntax ([workflow]). A run is the list of
    the actions that were executed, in an order in which each can be taken as one step, with
    the state before and after. What the operator relies on is the class [Runs]: an action is
    only started once all that comes before it in the enclosing sequences has completed and
    let the workflow continue, and in a run that has ended every action that could be started
    was. The parts of an [OrderedJoin] are all run, one after the other; an action that is
    retried may be in a run more than once. A shared part of a workflow is run once; its parts count for every place it is in. *)

From S2P Require Import Prelude GoStrings ApiTypes ApiErrors ManagerActions.
From S2P Require Export GoMonad.

(** ** Definitions: workflows *)

#[local] Unset Elimination Schemes.
Inductive workflow (S : Type) :=
| Nop
| Action (a : action S)
| Sequential (l : list (workflow S))
| Join (l : list (workflow S))
| ParallelJoin (l : list (workflow S))
| OrderedJoin (l : list (workflow S))
| RetryInterval (limit : nat) (milliseconds : Z) (w : workflow S)
| Shared (w : workflow S)
| Timeout (milliseconds : Z) (w : workflow S).
Arguments Nop {S}.
Arguments Action {S}.
Arguments Sequential {S}.
Arguments Join {S}.
Arguments ParallelJoin {S}.
Arguments OrderedJoin {S}.
Arguments RetryInterval {S}.
Arguments Shared {S}.
Arguments Timeout {S}.

#[local] Set Elimination Schemes.

Definition If {S} (cond : bool) (w : workflow S) : workflow S := if cond then w else Nop.
Definition IfElse {S} (cond : bool) (w1 w2 : workflow S) : workflow S := if cond then w1 else w2.

Definition ExitIf (cond : bool) : ctrl_result := if cond then Exit else Continue.

(** The results that let a sequence go on: neither an error nor a request to run again. *)
Definition continues (r : ctrl_result) : bool :=
  match r with
  | Continue | NoRequeue | RequeueIfError None | RequeueIfErrorAndWrap _ None => true
  | _ => false
  end.

Fixpoint actions {S} (w : workflow S) : list (action S) :=
  match w with
  | Nop => []
  | Action a => [a]
  | Sequential l | Join l | ParallelJoin l | OrderedJoin l => flat_map actions l
  | RetryInterval _ _ w | Shared w | Timeout _ w => actions w
  end.

Definition names {S} (w : workflow S) : list string := a_name <$> actions w.

(** The places of a workflow: the name of the action there, and the names of the actions that
    come before it in the enclosing sequences. *)
Fixpoint places {S} (w : workflow S) : list (list string * string) :=
  match w with
  | Nop => []
  | Action a => [([], a_name a)]
  | Sequential l =>
      (fix go (before : list string) (l : list (workflow S)) :=
         match l with
         | [] => []
         | w :: l' => ((fun p => (before ++ p.1, p.2)) <$> places w) ++ go (before ++ names w) l'
         end) [] l
  | Join l | ParallelJoin l | OrderedJoin l => flat_map places l
  | RetryInterval _ _ w | Shared w | Timeout _ w => places w
  end.

(** The pairs of actions of which the first is in an earlier part of an [OrderedJoin]: it is
    not run after the second. *)
Fixpoint deferred {S} (w : workflow S) : list (string * string) :=
  match w with
  | Nop | Action _ => []
  | Sequential l | Join l | ParallelJoin l => flat_map deferred l
  | OrderedJoin l =>
      (fix go (l : list (workflow S)) :=
         match l with
         | [] => []
         | w :: l' => list_prod (names w) (a_name <$> flat_map actions l') ++ deferred w ++ go l'
         end) l
  | RetryInterval _ _ w | Shared w | Timeout _ w => deferred w
  end.

(** ** Definitions: runs *)

Record step (S : Type) := {
  s_action : action S;
  s_before : S;
  s_result : ctrl_result;
  s_after : S;
}.
Arguments s_action {S}.
Arguments s_before {S}.
Arguments s_result {S}.
Arguments s_after {S}.

(** The steps follow each other from [s] to [s']. *)
Fixpoint chained {S} (s : S) (run : list (step S)) (s' : S) : Prop :=
  match run with
  | [] => s = s'
  | x :: run' =>
      s_before x = s /\ a_body (s_action x) s = Done (s_result x, s_after x) /\
      chained (s_after x) run' s'
  end.

(** The action called [name] has been executed in [run] and let the workflow continue. *)
Definition passed {S} (run : list (step S)) (name : string) : Prop :=
  exists x, x ∈ run /\ a_name (s_action x) = name /\ continues (s_result x) = true.

Definition executed {S} (run : list (step S)) (name : string) : Prop :=
  exists x, x ∈ run /\ a_name (s_action x) = name.

(** [runs w s run s']: [ctrlkit] may run [w] from [s] to its end as [run]. *)
Class Runs {S} (runs : workflow S -> S -> list (step S) -> S -> Prop) : Prop := {
  runs_chained w s run s' : runs w s run s' -> chained s run s';
  runs_actions w s run s' x : runs w s run s' -> x ∈ run -> s_action x ∈ actions w;
  runs_ordered w s run s' pre x post : runs w s run s' -> run = pre ++ x :: post ->
    exists before, (before, a_name (s_action x)) ∈ places w /\ Forall (passed pre) before;
  runs_complete w s run s' before name : runs w s run s' -> (before, name) ∈ places w ->
    Forall (passed run) before -> executed run name;
  runs_deferred w s run s' pre x post y : runs w s run s' -> NoDup (names w) ->
    run = pre ++ x :: post -> y ∈ post ->
    (a_name (s_action y), a_name (s_action x)) ∉ deferred w;
}.

(** ** Lemmas *)

Section runs.
Context {S : Type}.
Implicit Types (s : S) (run : list (step S)).

Lemma chained_app s run1 run2 s' :
  chained s (run1 ++ run2) s' <-> exists s1, chained s run1 s1 /\ chained s1 run2 s'.
Proof.
  revert s. induction run1 as [|x run1 IH]; intros s; cbn; [naive_solver|].
  rewrite IH. naive_solver.
Qed.

(** What every action of a run preserves holds throughout. *)
Lemma chained_invariant (P : S -> Prop) s run s' :
  chained s run s' ->
  (forall x, x ∈ run -> P (s_before x) ->
     a_body (s_action x) (s_before x) = Done (s_result x, s_after x) -> P (s_after x)) ->
  P s -> P s' /\ forall x, x ∈ run -> P (s_before x).
Proof.
  revert s. induction run as [|x run IH]; intros s Hc Hpres Hs; cbn in Hc.
  - subst. split; [done|]. by intros x ?%not_elem_of_nil.
  - destruct Hc as (Hb & Hx & Hc). rewrite <-Hb in Hx, Hs.
    destruct (IH (s_after x) Hc) as [Hs' Hall].
    + intros y Hy. apply Hpres. by right.
    + eapply Hpres; [left|done..].
    + split; [done|]. intros y [->|Hy]%elem_of_cons; auto.
Qed.

(** A function of the state that the steps after the first ones do not change. *)
Lemma chained_value {A} (f : S -> A) s run s' :
  chained s run s' ->
  (forall x, x ∈ run -> a_body (s_action x) (s_before x) = Done (s_result x, s_after x) ->
     f (s_after x) = f (s_before x)) ->
  f s' = f s /\ forall x, x ∈ run -> f (s_before x) = f s.
Proof.
  intros Hc Hf. apply (chained_invariant (fun s1 => f s1 = f s) s run s' Hc); [|done].
  intros x Hx <- Hb. by apply Hf.
Qed.

(** A value that differs in the end was given its last value by some step. *)
Lemma chained_last_change {A} `{EqDecision A} (f : S -> A) s run s' :
  chained s run s' -> f s' = f s \/
  exists pre x post, run = pre ++ x :: post /\ f (s_after x) <> f (s_before x) /\ f s' = f (s_after x).
Proof.
  revert s. induction run as [|x run IH]; intros s Hc; cbn in Hc; [left; by subst|].
  destruct Hc as (<- & Hx & Hc). destruct (IH _ Hc) as [Heq|(pre & y & post & -> & Hy)].
  - destruct (decide (f (s_after x) = f (s_before x))) as [He|He]; [left; congruence|].
    right. by exists [], x, run.
  - right. by exists (x :: pre), y, post.
Qed.

(** A step of a run is a run of its action. *)
Lemma chained_step s run s' x :
  chained s run s' -> x ∈ run -> a_body (s_action x) (s_before x) = Done (s_result x, s_after x).
Proof.
  revert s. induction run as [|y run IH]; intros s Hc Hx; [by apply not_elem_of_nil in Hx|].
  destruct Hc as (<- & Hy & Hc). apply elem_of_cons in Hx as [->|Hx]; eauto.
Qed.

Lemma passed_app run1 run2 name : passed run1 name -> passed (run1 ++ run2) name.
Proof. intros (x & Hx & ? & ?). exists x. split; [apply elem_of_app; by left|done]. Qed.

Lemma passed_executed run name : passed run name -> executed run name.
Proof. intros (x & ? & ? & ?). by exists x. Qed.

(** The last step of a name that has been executed. *)
Lemma executed_last run name : executed run name ->
  exists pre x post, run = pre ++ x :: post /\ a_name (s_action x) = name /\
    forall y, y ∈ post -> a_name (s_action y) <> name.
Proof.
  intros (x0 & Hx0 & Hn0). induction run as [|x run IH] using rev_ind; [by apply not_elem_of_nil in Hx0|].
  destruct (decide (a_name (s_action x) = name)) as [Hn|Hn].
  - exists run, x, []. split; [done|]. split; [done|]. by intros y ?%not_elem_of_nil.
  - apply elem_of_app in Hx0 as [Hx0|Hx0]; [|by apply list_elem_of_singleton in Hx0 as ->].
    destruct (IH Hx0) as (pre & y & post & -> & Hy & Hp). exists pre, y, (post ++ [x]).
    split; [by rewrite <-app_assoc|]. split; [done|].
    intros z [Hz|Hz]%elem_of_app; [by apply Hp|]. by apply list_elem_of_singleton in Hz as ->.
Qed.
End runs.

(** ** The actions of a workflow *)

Section forall_actions.
Context {S : Type} (P : action S -> Prop).

Lemma forall_Action a : P a -> Forall P (actions (Action a)).
Proof. intros. by apply Forall_singleton. Qed.

Lemma forall_flat_map (l : list (workflow S)) :
  Forall (fun w => Forall P (actions w)) l -> Forall P (flat_map actions l).
Proof. induction 1; cbn; [constructor|]. by apply Forall_app. Qed.

Lemma forall_If (b : bool) w : Forall P (actions w) -> Forall P (actions (If b w)).
Proof. by destruct b; [|constructor]. Qed.

Lemma forall_IfElse (b : bool) w1 w2 :
  Forall P (actions w1) -> Forall P (actions w2) -> Forall P (actions (IfElse b w1 w2)).
Proof. by destruct b. Qed.
End forall_actions.

(** Goes through a workflow to its actions. *)
Ltac forall_actions :=
  repeat lazymatch goal with
  | |- Forall _ (actions (Action _)) => apply forall_Action
  | |- Forall _ (actions (If _ _)) => apply forall_If
  | |- Forall _ (actions (IfElse _ _ _)) => apply forall_IfElse
  | |- Forall ?P (actions (Shared ?w)) => change (Forall P (actions w))
  | |- Forall ?P (actions (Timeout _ ?w)) => change (Forall P (actions w))
  | |- Forall ?P (actions (Sequential ?l)) => apply (forall_flat_map P l)
  | |- Forall ?P (actions (Join ?l)) => apply (forall_flat_map P l)
  | |- Forall ?P (actions (ParallelJoin ?l)) => apply (forall_flat_map P l)
  | |- Forall ?P (actions (OrderedJoin ?l)) => apply (forall_flat_map P l)
  | |- Forall ?P (actions (RetryInterval _ _ ?w)) => change (Forall P (actions w))
  | |- Forall _ (_ :: _) => apply Forall_cons_2
  | |- Forall _ [] => apply Forall_nil_2
  end.

(** ** Running to the end *)

Section complete.
Context {S : Type}.

Lemma workflow_ind (P : workflow S -> Prop) :
  P Nop -> (forall a, P (Action a)) -> (forall l, Forall P l -> P (Sequential l)) ->
  (forall l, Forall P l -> P (Join l)) -> (forall l, Forall P l -> P (ParallelJoin l)) ->
  (forall l, Forall P l -> P (OrderedJoin l)) -> (forall k ms w, P w -> P (RetryInterval k ms w)) ->
  (forall w, P w -> P (Shared w)) -> (forall ms w, P w -> P (Timeout ms w)) ->
  forall w, P w.
Proof.
  intros HN HA HS HJ HP HO HR HSh HT. fix IH 1.
  assert (forall l, Forall P l) as Hl.
  { fix IHl 1. intros [|w l]; constructor; [apply IH|apply IHl]. }
  intros [|a|l|l|l|l|k ms w|w|ms w];
    [exact HN|apply HA|apply HS, Hl|apply HJ, Hl|apply HP, Hl|apply HO, Hl|apply HR, IH|apply HSh, IH
    |apply HT, IH].
Qed.

Lemma names_Sequential (w : workflow S) l : names (Sequential (w :: l)) = names w ++ names (Sequential l).
Proof. unfold names. cbn. by rewrite fmap_app. Qed.

(** The places of a sequence whose first parts have the names [before]. *)
Definition places_after (before : list string) (l : list (workflow S)) : list (list string * string) :=
  (fix go (before : list string) (l : list (workflow S)) :=
     match l with
     | [] => []
     | w :: l' => ((fun p => (before ++ p.1, p.2)) <$> places w) ++ go (before ++ names w) l'
     end) before l.

Context (run : list (step S)) (all : list (list string * string)).
Context (Hcomplete : forall before name, (before, name) ∈ all ->
  Forall (passed run) before -> executed run name).

(** [w] is a part of the workflow, after [gs]. *)
Definition part (gs : list string) (w : workflow S) : Prop :=
  forall b n, (b, n) ∈ places w -> (gs ++ b, n) ∈ all.

Definition lets_continue (ns : list string) : Prop :=
  forall x, x ∈ run -> a_name (s_action x) ∈ ns -> continues (s_result x) = true.

Lemma executed_passed ns name : lets_continue ns -> name ∈ ns -> executed run name -> passed run name.
Proof. intros Hc Hn (x & Hx & <-). exists x. split; [done|]. split; [done|]. by apply Hc. Qed.

Lemma lets_continue_sub ns ns' : lets_continue ns -> (forall n, n ∈ ns' -> n ∈ ns) -> lets_continue ns'.
Proof. intros Hc Hs x Hx Hn. apply Hc; [done|]. by apply Hs. Qed.

Definition passes (w : workflow S) : Prop :=
  forall gs, part gs w -> Forall (passed run) gs -> lets_continue (names w) ->
  Forall (passed run) (names w).

(** Parts that are run side by side. *)
Lemma joined_passed l gs :
  Forall passes l -> (forall b n, (b, n) ∈ flat_map places l -> (gs ++ b, n) ∈ all) ->
  Forall (passed run) gs -> lets_continue (a_name <$> flat_map actions l) ->
  Forall (passed run) (a_name <$> flat_map actions l).
Proof.
  intros Hl Hp Hgs Hc. induction Hl as [|w l Hw _ IH]; [constructor|]. cbn in Hc |- *.
  rewrite fmap_app in Hc |- *. apply Forall_app. split.
  - apply (Hw gs); [|done|].
    + intros b n Hin. apply Hp. apply elem_of_app. by left.
    + eapply lets_continue_sub; [exact Hc|]. intros n Hn. apply elem_of_app. by left.
  - apply IH.
    + intros b n Hin. apply Hp. apply elem_of_app. by right.
    + eapply lets_continue_sub; [exact Hc|]. intros n Hn. apply elem_of_app. by right.
Qed.

(** If all that is executed of a part lets the workflow continue, all of it is executed. *)
Lemma all_passed w : passes w.
Proof.
  induction w as [|a|l IH|l IH|l IH|l IH|k ms w IH|w IH|ms w IH] using workflow_ind;
    intros gs Hp Hgs Hc.
  - constructor.
  - apply Forall_singleton. eapply executed_passed; [done|left|].
    eapply Hcomplete; [|exact Hgs]. rewrite <-(app_nil_r gs). apply Hp. left.
  - enough (forall before, (forall b n, (b, n) ∈ places_after before l -> (gs ++ b, n) ∈ all) ->
      Forall (passed run) before -> Forall (passed run) (names (Sequential l))) as H
      by (apply (H []); [exact Hp|constructor]).
    clear Hp. induction IH as [|w l Hw _ IHl]; intros before Hp Hb; [constructor|].
    rewrite names_Sequential in Hc |- *.
    assert (Forall (passed run) (names w)) as Hnw.
    { apply (Hw (gs ++ before)).
      - intros b n Hin. rewrite <-app_assoc. apply Hp. apply elem_of_app. left.
        apply list_elem_of_fmap. by exists (b, n).
      - by apply Forall_app.
      - eapply lets_continue_sub; [exact Hc|]. intros n Hn. apply elem_of_app. by left. }
    apply Forall_app. split; [done|]. apply IHl with (before := before ++ names w).
    + eapply lets_continue_sub; [exact Hc|]. intros n Hn. apply elem_of_app. by right.
    + intros b n Hin. apply Hp. apply elem_of_app. by right.
    + by apply Forall_app.
  - by apply (joined_passed l gs).
  - by apply (joined_passed l gs).
  - by apply (joined_passed l gs).
  - by apply (IH gs).
  - by apply (IH gs).
  - by apply (IH gs).
Qed.
End complete.

(** ** A concrete relation

    Every run that the laws allow: what the hypotheses on [ctrlkit] mean for a given list of
    steps can be computed. *)

Section liberal.
Context {S : Type}.

(** The names of a run, each with whether its action let the workflow continue. *)
Definition outcomes (run : list (step S)) : list (string * bool) :=
  (fun x => (a_name (s_action x), continues (s_result x))) <$> run.

Definition all_in (done : list (string * bool)) (ns : list string) : bool :=
  forallb (fun n => existsb (fun p => bool_decide (p.1 = n) && p.2) done) ns.

Fixpoint ordered_from (all : list (list string * string)) (done todo : list (string * bool)) : bool :=
  match todo with
  | [] => true
  | p :: todo' =>
      existsb (fun q => bool_decide (q.2 = p.1) && all_in done q.1) all &&
      ordered_from all (done ++ [p]) todo'
  end.

Definition complete_run (all : list (list string * string)) (done : list (string * bool)) : bool :=
  forallb (fun q => negb (all_in done q.1) || existsb (fun p => bool_decide (p.1 = q.2)) done) all.

(** No name of the list is to be before one that precedes it. *)
Fixpoint in_order (pairs : list (string * string)) (ns : list string) : bool :=
  match ns with
  | [] => true
  | n :: ns' => forallb (fun m => negb (bool_decide ((m, n) ∈ pairs))) ns' && in_order pairs ns'
  end.

Definition liberal (w : workflow S) (s : S) (run : list (step S)) (s' : S) : Prop :=
  chained s run s' /\ Forall (fun x => s_action x ∈ actions w) run /\
  ordered_from (places w) [] (outcomes run) = true /\ complete_run (places w) (outcomes run) = true /\
  in_order (deferred w) (outcomes run).*1 = true.

Lemma all_in_passed (run : list (step S)) ns :
  all_in (outcomes run) ns = true <-> Forall (passed run) ns.
Proof.
  assert (forall n, existsb (fun p => bool_decide (p.1 = n) && p.2) (outcomes run) = true <->
    passed run n) as Hone.
  { intros n. unfold outcomes, passed. rewrite existsb_exists. setoid_rewrite <-list_elem_of_In.
    split.
    - intros (p & Hp & Hn). apply list_elem_of_fmap in Hp as (x & -> & Hx). cbn in Hn.
      split_bools. case_bool. eauto.
    - intros (x & Hx & <- & Hc). eexists. split; [apply list_elem_of_fmap; eauto|]. cbn.
      by rewrite Hc, bool_decide_true. }
  unfold all_in. rewrite forallb_forall, Forall_forall. setoid_rewrite <-list_elem_of_In.
  by setoid_rewrite Hone.
Qed.

Lemma ordered_from_spec all (run done : list (step S)) pre x post :
  ordered_from all (outcomes done) (outcomes run) = true -> run = pre ++ x :: post ->
  exists before, (before, a_name (s_action x)) ∈ all /\ Forall (passed (done ++ pre)) before.
Proof.
  revert done pre. induction run as [|y run IH]; intros done pre Ho Hrun; [by destruct pre|].
  cbn in Ho. split_bools. destruct pre as [|y' pre]; injection Hrun as -> ->.
  - rewrite existsb_exists in H. destruct H as ([b n] & Hin & Hb). cbn in Hb. split_bools.
    case_bool. subst. exists b. rewrite app_nil_r. split; [by apply list_elem_of_In|].
    by apply all_in_passed.
  - destruct (IH (done ++ [y']) pre) as (before & Hb & Hp); [|done|].
    + unfold outcomes in *. by rewrite fmap_app.
    + exists before. split; [done|]. by rewrite <-app_assoc in Hp.
Qed.

Lemma in_order_spec pairs (run : list (step S)) pre x post y :
  in_order pairs (outcomes run).*1 = true -> run = pre ++ x :: post -> y ∈ post ->
  (a_name (s_action y), a_name (s_action x)) ∉ pairs.
Proof.
  intros Ho -> Hy. induction pre as [|z pre IH]; cbn in Ho; split_bools; [|by apply IH].
  rewrite forallb_forall in H. specialize (H (a_name (s_action y))).
  apply (bool_decide_eq_false _), negb_true_iff, H, list_elem_of_In.
  unfold outcomes. rewrite <-list_fmap_compose. by apply (list_elem_of_fmap_2 (fun x => a_name (s_action x))).
Qed.

Global Instance liberal_runs : Runs liberal.
Proof.
  split; unfold liberal.
  - tauto.
  - intros w s run s' x (_ & H & _) Hx. rewrite Forall_forall in H. by apply H.
  - intros w s run s' pre x post (_ & _ & H & _ & _) Hrun.
    by apply (ordered_from_spec (places w) run [] pre x post).
  - intros w s run s' before name (_ & _ & _ & H & _) Hin Hp. unfold complete_run in H.
    rewrite forallb_forall in H. apply list_elem_of_In, H in Hin. cbn [fst snd] in Hin.
    apply all_in_passed in Hp. rewrite Hp in Hin. cbn [negb orb] in Hin.
    rewrite existsb_exists in Hin. destruct Hin as ([n b] & Hx & Hn). cbn in Hn. case_bool. subst.
    apply list_elem_of_In, list_elem_of_fmap in Hx as (x & Hx & Hxr). injection Hx as ? ?.
    exists x. by split.
  - intros w s run s' pre x post y (_ & _ & _ & _ & H) _. by apply in_order_spec.
Qed.

(** The run of the actions of [w] called [ns], in that order. *)
Fixpoint exec (w : workflow S) (ns : list string) (s : S) : option (list (step S) * S) :=
  match ns with
  | [] => Some ([], s)
  | n :: ns' =>
      '(_, a) ← find_index (fun a => bool_decide (a_name a = n)) (actions w);
      match a_body a s with
      | Panic _ => None
      | Done (r, s1) =>
          '(run, s2) ← exec w ns' s1;
          Some ({| s_action := a; s_before := s; s_result := r; s_after := s1 |} :: run, s2)
      end
  end.

Lemma exec_run w ns s run s' :
  exec w ns s = Some (run, s') -> chained s run s' /\ Forall (fun x => s_action x ∈ actions w) run.
Proof.
  revert s run. induction ns as [|n ns IH]; intros s run H; cbn in H.
  - injection H as <- <-. split; [done|constructor].
  - destruct (find_index _ _) as [[i a]|] eqn:Ha; [|done]. cbn in H.
    destruct (a_body a s) as [[r s1]|] eqn:Hb; [|done].
    destruct (exec w ns s1) as [[run1 s2]|] eqn:He; [|done]. cbn in H. injection H as <- <-.
    destruct (IH _ _ He) as [Hc Hf]. split; [done|]. constructor; [|done].
    apply find_index_Some in Ha as (Hi & _). cbn. by eapply list_elem_of_lookup_2.
Qed.
End liberal.
