(* ===== verification/ScaleViewController.v ===== *)
(** * pkg/controller/risingwave_scale_view_controller.go

    The reconcile loop of the scale view controller and its generated manager
    (pkg/manager/risingwave_scale_view_controller_manager_generated.go): the actions of
    [ScaleViewManager], each on the target as it reads it, composed into a workflow that
    retries the grabbing of the lock and defers the update of the status. *)

From S2P Require Import Prelude GoStrings ApiTypes ApiErrors SplitReplicas ScaleLock ScaleHelper ScaleViewManager ManagerActions CtrlKit.

(** ** Definitions: the API server and the state *)

(** What the controller asks the server for. *)
Inductive sv_call :=
| GetScaleViewCall (namespace name : string)
| GetTargetCall (namespace name : string)
| SendCall (r : sv_request).

(** The replies, each to a call after the calls before it. *)
Class ScaleViewEnv := {
  sv_get_view : list sv_call -> string -> string -> result api_error RisingWaveScaleView;
  sv_get_target : list sv_call -> string -> string -> result api_error RisingWave;
  sv_reply : list sv_call -> sv_request -> option api_error;
}.

Record RisingWaveScaleViewControllerManagerState := { svms_target : RisingWaveScaleView }.

Definition NewRisingWaveScaleViewControllerManagerState (target : RisingWaveScaleView)
  : RisingWaveScaleViewControllerManagerState := {| svms_target := target |}.

Record RisingWaveScaleViewControllerManager := {
  svc_state : RisingWaveScaleViewControllerManagerState;
  svc_impl : risingWaveScaleViewControllerManagerImpl;
  svc_trace : list sv_call;
}.

Definition NewRisingWaveScaleViewControllerManager (state : RisingWaveScaleViewControllerManagerState)
    (impl : risingWaveScaleViewControllerManagerImpl) (t : list sv_call)
  : RisingWaveScaleViewControllerManager :=
  {| svc_state := state; svc_impl := impl; svc_trace := t |}.

Abbreviation SvMgr := RisingWaveScaleViewControllerManager.

Definition RisingWaveScaleViewAction_GrabOrUpdateScaleViewLock := "GrabOrUpdateScaleViewLock".
Definition RisingWaveScaleViewAction_SyncGroupReplicasToRisingWave := "SyncGroupReplicasToRisingWave".
Definition RisingWaveScaleViewAction_SyncGroupReplicasStatusFromRisingWave :=
  "SyncGroupReplicasStatusFromRisingWave".
Definition RisingWaveScaleViewAction_UpdateScaleViewStatus := "UpdateScaleViewStatus".

Definition RisingWaveScaleViewSyncLockRetryLimit : nat := 2.
(** In milliseconds. *)
Definition RisingWaveScaleViewSyncLockRetryInterval : Z := 5.

Section controller.
Context `{E : ScaleViewEnv}.

(** ** Definitions: the actions of the manager *)

Definition add_call (c : sv_call) (m : SvMgr) : SvMgr :=
  {| svc_state := svc_state m; svc_impl := svc_impl m; svc_trace := svc_trace m ++ [c] |}.

Definition GetTargetObj : GoM SvMgr (result api_error (option RisingWave)) :=
  sv ← gets (fun m => svms_target (svc_state m));
  let ns := om_Namespace (sv_Meta sv) in
  let name := tr_Name (sv_TargetRef sv) in
  r ← gets (fun m => sv_get_target (svc_trace m) ns name);
  modify (add_call (GetTargetCall ns name));;
  mret match r with
       | Ok rw => Ok (Some rw)
       | Err e => if IsNotFound e then Ok None
                  else Err (WrappedError "unable to get state 'targetObj'" e)
       end.

(** Runs a method of the implementation, which may send a request: the server replies to it. *)
Definition perform
    (f : risingWaveScaleViewControllerManagerImpl -> option api_error -> outcome sv_action_result)
  : GoM SvMgr ctrl_result := fun m =>
  match f (svc_impl m) None with
  | Panic msg => Panic msg
  | Done r0 =>
      let reply := match sar_requests r0 with
                   | [] => None
                   | q :: _ => sv_reply (svc_trace m) q
                   end in
      match f (svc_impl m) reply with
      | Panic msg => Panic msg
      | Done r => Done (sar_result r,
          {| svc_state := svc_state m; svc_impl := sar_manager r;
             svc_trace := svc_trace m ++ (SendCall <$> sar_requests r) |})
      end
  end.

(** An action on the target. *)
Definition target_action (name : string)
    (f : option RisingWave -> risingWaveScaleViewControllerManagerImpl -> option api_error ->
         outcome sv_action_result) : action SvMgr :=
  {| a_name := name;
     a_body := targetObj ← GetTargetObj;
               match targetObj with
               | Err e => mret (RequeueIfError (Some e))
               | Ok rw => perform (f rw)
               end |}.

Definition GrabOrUpdateScaleViewLock_action : action SvMgr :=
  target_action RisingWaveScaleViewAction_GrabOrUpdateScaleViewLock
    (fun rw impl reply => GrabOrUpdateScaleViewLock impl rw reply).

Definition SyncGroupReplicasToRisingWave_action : action SvMgr :=
  target_action RisingWaveScaleViewAction_SyncGroupReplicasToRisingWave
    (fun rw impl reply => SyncGroupReplicasToRisingWave impl rw reply).

Definition SyncGroupReplicasStatusFromRisingWave_action : action SvMgr :=
  target_action RisingWaveScaleViewAction_SyncGroupReplicasStatusFromRisingWave
    (fun rw impl _ => SyncGroupReplicasStatusFromRisingWave impl rw).

Definition UpdateScaleViewStatus_action : action SvMgr :=
  {| a_name := RisingWaveScaleViewAction_UpdateScaleViewStatus;
     a_body := perform (fun impl reply => Done (UpdateScaleViewStatus impl reply None)) |}.

(** ** Definitions: the reconcile *)

Definition scale_view_workflow (isScaleViewDeleted : bool) : workflow SvMgr :=
  If (negb isScaleViewDeleted)
    (OrderedJoin
       [Join
          [Sequential
             [RetryInterval RisingWaveScaleViewSyncLockRetryLimit
                RisingWaveScaleViewSyncLockRetryInterval (Action GrabOrUpdateScaleViewLock_action);
              Action SyncGroupReplicasToRisingWave_action];
           Action SyncGroupReplicasStatusFromRisingWave_action];
        Action UpdateScaleViewStatus_action]).

(** What [Reconcile] does before the workflow; [t] are the calls before. *)
Definition begin_scale_view (t : list sv_call) (ns name : string) : ctrl_result + SvMgr :=
  match sv_get_view t ns name with
  | Err e => inl (if IsNotFound e then NoRequeue
                  else RequeueIfErrorAndWrap "unable to get risingwavescaleview" (Some e))
  | Ok scaleView =>
      inr (NewRisingWaveScaleViewControllerManager
             (NewRisingWaveScaleViewControllerManagerState scaleView)
             (NewRisingWaveScaleViewControllerManagerImpl scaleView)
             (t ++ [GetScaleViewCall ns name]))
  end.

(** A reconcile of the scale view [sv] that runs its workflow as [run]. *)
Inductive scales (runs : workflow SvMgr -> SvMgr -> list (step SvMgr) -> SvMgr -> Prop)
    (t : list sv_call) (ns name : string) (m0 : SvMgr) (run : list (step SvMgr)) (m1 : SvMgr)
  : Prop :=
| scales_run :
    begin_scale_view t ns name = inr m0 ->
    runs (scale_view_workflow (om_Deleted (sv_Meta (svms_target (svc_state m0))))) m0 run m1 ->
    scales runs t ns name m0 run m1.
End controller.

(** The requests for the scale views that hold locks in a RisingWave: the watch on it. *)
Definition scale_views_of (obj : RisingWave) : list (string * string) :=
  (fun l => (om_Namespace (rw_Meta obj), lk_Name l)) <$> st_ScaleViews (rw_Status obj).

(** ** Lemmas: a step *)

(** The views that differ in the status only. *)
Definition same_view (a b : RisingWaveScaleView) : Prop :=
  sv_Meta a = sv_Meta b /\ sv_Spec a = sv_Spec b.

Global Instance same_view_equivalence : Equivalence same_view.
Proof.
  split; unfold same_view; [done|by intros a b [-> ->]|]. by intros a b c [-> ->] [-> ->].
Qed.

Lemma same_view_status st sv : same_view (set_sv_Status st sv) sv.
Proof. done. Qed.

(** The lock manager does not read the status of a view. *)
Lemma GetScaleViewLock_same a b rw : same_view a b -> GetScaleViewLock rw a = GetScaleViewLock rw b.
Proof. destruct a, b. unfold same_view. cbn. by intros [-> ->]. Qed.

Lemma grab_error_same a b ls : same_view a b -> grab_error a ls = grab_error b ls.
Proof.
  destruct a as [m s st], b as [m' s' st']. unfold same_view. cbn. intros [-> ->].
  induction ls as [|l ls IH]; [done|]. cbn [grab_error]. by rewrite IH.
Qed.

Lemma GrabOrUpdate_same a b rw :
  same_view a b -> GrabOrUpdateScaleViewLockFor rw a = GrabOrUpdateScaleViewLockFor rw b.
Proof.
  intros H. unfold GrabOrUpdateScaleViewLockFor, GrabScaleViewLockFor.
  rewrite (grab_error_same a b _ H). destruct a as [m s st], b as [m' s' st'].
  destruct H as [H1 H2]. cbn in H1, H2. by subst.
Qed.

(** The target of a view, as it is read after the calls [t]. *)
Definition target_read `{E : ScaleViewEnv} (t : list sv_call) (sv : RisingWaveScaleView)
  : result api_error (option RisingWave) :=
  match sv_get_target t (om_Namespace (sv_Meta sv)) (tr_Name (sv_TargetRef sv)) with
  | Ok rw => Ok (Some rw)
  | Err e => if IsNotFound e then Ok None
             else Err (WrappedError "unable to get state 'targetObj'" e)
  end.

(** The action performs [f] on the manager after the calls [t], for the result [res]. *)
Definition performs `{E : ScaleViewEnv} (f : risingWaveScaleViewControllerManagerImpl ->
    option api_error -> outcome sv_action_result) (t : list sv_call) (m : SvMgr)
    (r : ctrl_result) (m' : SvMgr) : Prop :=
  exists r0 res, f (svc_impl m) None = Done r0 /\
    f (svc_impl m) (match sar_requests r0 with [] => None | q :: _ => sv_reply t q end) = Done res /\
    r = sar_result res /\ svc_state m' = svc_state m /\ svc_impl m' = sar_manager res /\
    svc_trace m' = t ++ (SendCall <$> sar_requests res).

Section steps.
Context `{E : ScaleViewEnv}.

Lemma perform_Done f m r m' :
  perform f m = Done (r, m') -> performs f (svc_trace m) m r m'.
Proof.
  unfold perform. intros H. destruct (f (svc_impl m) None) as [r0|] eqn:H0; [|done].
  case_match eqn:H1; [|done]. injection H as <- <-. eexists r0, _. by rewrite H1.
Qed.

Lemma target_action_Done name f m r m' :
  a_body (target_action name f) m = Done (r, m') ->
  let sv := svms_target (svc_state m) in
  let t := svc_trace m ++ [GetTargetCall (om_Namespace (sv_Meta sv)) (tr_Name (sv_TargetRef sv))] in
  match target_read (svc_trace m) sv with
  | Err e => r = RequeueIfError (Some e) /\ svc_state m' = svc_state m /\ svc_impl m' = svc_impl m /\
             svc_trace m' = t
  | Ok rw => performs (f rw) t m r m'
  end.
Proof.
  unfold target_action, GetTargetObj, target_read, mbind, GoM_bind, gets, modify, mret, GoM_ret.
  cbn. destruct (sv_get_target _ _ _) as [rw|e].
  - apply perform_Done.
  - destruct (IsNotFound e); [apply perform_Done|]. by intros [= <- <-].
Qed.

(** What an implementation may do to the manager: only the status of its view changes. *)
Lemma perform_frame f t m r m' :
  (forall impl reply res, f impl reply = Done res ->
     same_view (svm_scaleView (sar_manager res)) (svm_scaleView impl) /\
     svm_scaleViewStatusCopy (sar_manager res) = svm_scaleViewStatusCopy impl) ->
  performs f t m r m' ->
  svc_state m' = svc_state m /\ same_view (svm_scaleView (svc_impl m')) (svm_scaleView (svc_impl m)) /\
  svm_scaleViewStatusCopy (svc_impl m') = svm_scaleViewStatusCopy (svc_impl m).
Proof.
  intros Hf (r0 & res & _ & H & _ & Hs & Hi & _). rewrite Hi. apply Hf in H. naive_solver.
Qed.
End steps.

(** The three implementations, inverted. *)
Lemma grab_inv impl rw reply res :
  GrabOrUpdateScaleViewLock impl rw reply = Done res ->
  (sar_manager res = impl \/ exists st, sar_manager res = set_svm_status st impl /\
     svst_Replicas st = svst_Replicas (sv_Status (svm_scaleView impl))) /\
  (sar_requests res = [] \/ exists rw0 rw', rw = Some rw0 /\
     isTargetObjMatched impl rw = true /\
     GrabOrUpdateScaleViewLockFor rw0 (svm_scaleView impl) = Done ((true, None), rw') /\
     sar_requests res = [UpdateRisingWaveStatusRequest rw']) /\
  (continues (sar_result res) = true -> sar_requests res = [] /\
     forall rw0, rw = Some rw0 -> isTargetObjMatched impl rw = true ->
     exists rw', GrabOrUpdateScaleViewLockFor rw0 (svm_scaleView impl) = Done ((false, None), rw')).
Proof.
  unfold GrabOrUpdateScaleViewLock. destruct rw as [rw|]; [|intros [= <-]; cbn; naive_solver].
  destruct (isTargetObjMatched impl (Some rw)) eqn:Hm; [|intros [= <-]; cbn; naive_solver].
  run_monad. destruct (GrabOrUpdateScaleViewLockFor rw (svm_scaleView impl)) as [[[b [e|]] rw1]|] eqn:Hg;
    [by destruct b; intros [= <-]; cbn; naive_solver| |done].
  destruct b; [|intros [= <-]; cbn; naive_solver].
  destruct reply as [e|]; intros [= <-]; cbn; (split; [|split; [|done]]); try (by left);
    right; [by exists rw, rw1|by eexists|by exists rw, rw1].
Qed.

Lemma write_group_locks_same c gls b rw b' rw' :
  write_group_locks c gls b rw = Done (b', rw') ->
  (b' = false -> b = false /\ rw' = rw) /\ rw_Status rw' = rw_Status rw /\ rw_Meta rw' = rw_Meta rw.
Proof.
  revert b rw. induction gls as [|gl gls IH]; intros b rw; cbn [write_group_locks].
  { by intros [= -> ->]. }
  destruct (WriteReplicas rw c (gl_Name gl) (gl_Replicas gl)) as [[u rw1]|] eqn:Hw; [|done].
  run_monad. intros H. apply WriteReplicas_same in Hw as (H1 & H2 & H3).
  apply IH in H as (H4 & H5 & H6). split; [|by split; congruence].
  intros Hb'. apply H4 in Hb' as [[-> ->]%orb_false_iff ->]. split; [done|]. by apply H1.
Qed.

Lemma write_group_locks_replicas c gls b rw b' rw' :
  write_group_locks c gls b rw = Done (b', rw') -> NoDup (gl_Name <$> gls) ->
  (forall gl, gl ∈ gls ->
     replicas_of rw' c (gl_Name gl) = (fun _ => gl_Replicas gl) <$> replicas_of rw c (gl_Name gl)) /\
  (forall c' g, c' <> c \/ g ∉ gl_Name <$> gls -> replicas_of rw' c' g = replicas_of rw c' g).
Proof.
  intros H Hnd. destruct gls as [|gl gls].
  { injection H as <- <-. split; [|done]. by intros gl ?%not_elem_of_nil. }
  destruct (decide (known_component c)) as [Hc|Hc].
  - destruct (write_group_locks_spec c (gl :: gls) b rw Hc Hnd) as (b1 & rw1 & H' & _ & _ & _ & Hr).
    rewrite H in H'. by injection H' as <- <-.
  - rewrite (node_groups_known rw), <-eq_None_not_Some in Hc. exfalso. revert H. cbn.
    unfold WriteReplicas, getReplicasPtr, findReplicaPtrGroup. rewrite Hc. run_monad.
    by destruct (bool_decide (c = ComponentStandalone)).
Qed.

(** The view holds the lock [l] at its generation in the target. *)
Definition holds_lock (sv : RisingWaveScaleView) (rw : RisingWave) (l : RisingWaveScaleViewLock) : Prop :=
  om_UID (rw_Meta rw) = tr_UID (sv_TargetRef sv) /\
  GetScaleViewLock rw sv = Some l /\ lk_Generation l = sv_Generation sv.

Lemma holds_lock_same a b rw l : same_view a b -> holds_lock a rw l -> holds_lock b rw l.
Proof.
  intros H (H1 & H2 & H3). unfold holds_lock. rewrite <-(GetScaleViewLock_same a b) by done.
  destruct H as [Hm Hs]. unfold sv_TargetRef, sv_Generation in *. by rewrite <-Hm, <-Hs.
Qed.

Lemma sync_inv impl rw reply res :
  SyncGroupReplicasToRisingWave impl rw reply = Done res ->
  let sv := svm_scaleView impl in
  sar_manager res = impl /\
  (forall rw0, rw = Some rw0 -> isTargetObjMatched impl rw = true -> continues (sar_result res) = true ->
     exists l, holds_lock sv rw0 l) /\
  (sar_requests res = [] \/ exists rw0 rw' l, rw = Some rw0 /\ holds_lock sv rw0 l /\
     write_group_locks (tr_Component (sv_TargetRef sv)) (lk_GroupLocks l) false rw0 = Done (true, rw') /\
     sar_requests res = [PatchRisingWaveRequest rw' rw0]).
Proof.
  intros H sv. unfold SyncGroupReplicasToRisingWave in H. destruct rw as [rw|];
    [|injection H as <-; cbn; naive_solver].
  destruct (isTargetObjMatched impl (Some rw)) eqn:Hm; [|injection H as <-; cbn; naive_solver].
  apply bool_decide_eq_true in Hm as Hu. fold sv in H.
  destruct (GetScaleViewLock rw sv) as [l|] eqn:Hl; [|injection H as <-; cbn; naive_solver].
  destruct (decide (lk_Generation l = sv_Generation sv)) as [Hg|];
    [|injection H as <-; cbn; naive_solver].
  assert (holds_lock sv rw l) as Hh by done. revert H. run_monad.
  destruct (write_group_locks _ _ _ _) as [[b rw']|] eqn:Hw; [|done].
  destruct b; [destruct reply|]; intros [= <-]; cbn; (split; [done|]);
    (split; [intros ? [= <-]; eauto|]); [right|right|by left]; by exists rw, rw', l.
Qed.

(** The running replicas of the groups of [sv] in its target. *)
Definition reported_replicas (sv : RisingWaveScaleView) (target : option RisingWave) : Z :=
  match target with
  | Some rw =>
      if decide (om_UID (rw_Meta rw) = tr_UID (sv_TargetRef sv)) then
        int32 (Zsum ((fun p => running_of rw (tr_Component (sv_TargetRef sv)) (sp_Group p))
                       <$> sv_ScalePolicy sv))
      else 0
  | None => 0
  end%Z.

Lemma reported_same a b target : same_view a b -> reported_replicas a target = reported_replicas b target.
Proof. intros [_ H]. unfold reported_replicas, sv_TargetRef, sv_ScalePolicy. by rewrite H. Qed.

Lemma sum_running_Done rw c ps a z :
  sum_running rw c ps a = Done z -> in_int32 a ->
  z = int32 (a + Zsum ((fun p => running_of rw c (sp_Group p)) <$> ps)).
Proof.
  revert a. induction ps as [|p ps IH]; intros a; cbn [sum_running].
  { intros [= <-] Ha. cbn. by rewrite Z.add_0_r, int32_id. }
  rewrite fmap_cons. change (Zsum (?x :: ?l)) with (x + Zsum l)%Z. unfold running_of at 1.
  destruct (readRunningReplicas rw c (sp_Group p)) as [r|]; [|done]. run_monad. intros H Ha.
  rewrite (IH _ H) by apply int32_range. by rewrite int32_add_l, <-Z.add_assoc.
Qed.

Lemma report_inv impl rw res :
  SyncGroupReplicasStatusFromRisingWave impl rw = Done res ->
  exists st, sar_manager res = set_svm_status st impl /\ sar_requests res = [] /\
    svst_Replicas st = Some (reported_replicas (svm_scaleView impl) rw).
Proof.
  unfold SyncGroupReplicasStatusFromRisingWave, reported_replicas.
  destruct rw as [rw|]; [|intros [= <-]; by eexists].
  destruct (isTargetObjMatched _ _) eqn:Hm; unfold isTargetObjMatched in Hm; case_bool.
  - rewrite decide_True by done. run_monad. destruct (sum_running _ _ _ _) as [z|] eqn:Hz; [|done].
    apply sum_running_Done in Hz; [|vm_compute; split; congruence]. intros [= <-]. eexists.
    split; [done|]. split; [done|]. cbn. by rewrite Hz.
  - rewrite decide_False by done. intros [= <-]. by eexists.
Qed.

Lemma update_inv impl reply :
  sar_manager (UpdateScaleViewStatus impl reply None) = impl /\
  sar_requests (UpdateScaleViewStatus impl reply None) =
    if decide (sv_Status (svm_scaleView impl) = svm_scaleViewStatusCopy impl) then []
    else [UpdateScaleViewStatusRequest (svm_scaleView impl)].
Proof.
  unfold UpdateScaleViewStatus, isStatusChanged. case_decide as H.
  - by rewrite bool_decide_true.
  - by rewrite bool_decide_false.
Qed.

(** ** Lemmas: the steps of a run *)

(** What a step leaves alone. *)
Definition framed (m m' : SvMgr) : Prop :=
  svc_state m' = svc_state m /\ same_view (svm_scaleView (svc_impl m')) (svm_scaleView (svc_impl m)) /\
  svm_scaleViewStatusCopy (svc_impl m') = svm_scaleViewStatusCopy (svc_impl m).

Section facts.
Context `{E : ScaleViewEnv}.

(** A request of the action called [name], sent by the manager [m] on behalf of the view [sv]. *)
Definition justified (sv : RisingWaveScaleView) (name : string) (m : SvMgr) (q : sv_request) : Prop :=
  match q with
  | UpdateScaleViewStatusRequest sv' =>
      name = RisingWaveScaleViewAction_UpdateScaleViewStatus /\
      sv' = svm_scaleView (svc_impl m) /\ sv_Status sv' <> svm_scaleViewStatusCopy (svc_impl m)
  | UpdateRisingWaveStatusRequest rw' =>
      name = RisingWaveScaleViewAction_GrabOrUpdateScaleViewLock /\
      exists rw, target_read (svc_trace m) sv = Ok (Some rw) /\
        om_UID (rw_Meta rw) = tr_UID (sv_TargetRef sv) /\
        GrabOrUpdateScaleViewLockFor rw sv = Done ((true, None), rw')
  | PatchRisingWaveRequest rw' rw =>
      name = RisingWaveScaleViewAction_SyncGroupReplicasToRisingWave /\
      target_read (svc_trace m) sv = Ok (Some rw) /\
      exists l, holds_lock sv rw l /\
        write_group_locks (tr_Component (sv_TargetRef sv)) (lk_GroupLocks l) false rw = Done (true, rw') /\
        rw_Status rw' = rw_Status rw /\ rw_Meta rw' = rw_Meta rw /\
        (NoDup (lock_groups l) -> locked_replicas sv l rw rw')
  end.

Lemma target_action_facts name f m r m' :
  (forall rw impl reply res, f rw impl reply = Done res ->
     same_view (svm_scaleView (sar_manager res)) (svm_scaleView impl) /\
     svm_scaleViewStatusCopy (sar_manager res) = svm_scaleViewStatusCopy impl) ->
  a_body (target_action name f) m = Done (r, m') ->
  framed m m' /\ exists new, svc_trace m' = svc_trace m ++ new /\
    forall q, SendCall q ∈ new -> exists rw reply res,
      target_read (svc_trace m) (svms_target (svc_state m)) = Ok rw /\
      f rw (svc_impl m) reply = Done res /\ q ∈ sar_requests res.
Proof.
  intros Hf H%target_action_Done. cbv zeta in H.
  destruct (target_read (svc_trace m) _) as [rw|e].
  - split; [by apply (perform_frame (f rw) _ _ _ _ (Hf rw) H)|]. destruct H as (r0 & res & _ & Hres & _ & _ & _ & ->).
    rewrite <-app_assoc. eexists. split; [done|]. intros q Hq.
    apply elem_of_cons in Hq as [?|Hq]; [done|]. apply list_elem_of_fmap in Hq as (? & [= ->] & Hq).
    eauto 10.
  - destruct H as (_ & Hs & Hi & ->). split; [by unfold framed; rewrite Hs, Hi|].
    eexists. split; [done|]. by intros q [?|?%not_elem_of_nil]%elem_of_cons.
Qed.

(** Every step of the workflow. *)
Lemma scale_step_facts deleted sv a m r m' :
  a ∈ actions (scale_view_workflow deleted) -> a_body a m = Done (r, m') ->
  svms_target (svc_state m) = sv -> same_view (svm_scaleView (svc_impl m)) sv ->
  framed m m' /\ exists new, svc_trace m' = svc_trace m ++ new /\
    forall q, SendCall q ∈ new -> justified sv (a_name a) m q.
Proof.
  intros Ha H Hsv Hv. destruct deleted; [by apply not_elem_of_nil in Ha|].
  unfold scale_view_workflow, If in Ha. cbn in Ha.
  repeat (apply elem_of_cons in Ha as [->|Ha]); [| | | |by apply not_elem_of_nil in Ha].
  - apply target_action_facts in H as (Hf & new & Hn & Hq).
    + rewrite Hsv in Hq. split; [done|]. exists new. split; [done|].
      intros q (rw & reply & res & Ht & Hg & Hin)%Hq.
      apply grab_inv in Hg as (_ & [Hr|(rw0 & rw' & -> & Hm & Hg & Hr)] & _); rewrite Hr in Hin;
        [by apply not_elem_of_nil in Hin|apply list_elem_of_singleton in Hin as ->].
      split; [done|]. exists rw0. apply bool_decide_eq_true in Hm. destruct Hv as [Hme Hsp].
      rewrite (GrabOrUpdate_same _ sv) in Hg by done. unfold sv_TargetRef in Hm. by rewrite Hsp in Hm.
    + intros rw impl reply res Hg. apply grab_inv in Hg as ([->|(st & -> & _)] & _); done.
  - apply target_action_facts in H as (Hf & new & Hn & Hq).
    + rewrite Hsv in Hq. split; [done|]. exists new. split; [done|].
      intros q (rw & reply & res & Ht & Hg & Hin)%Hq.
      apply sync_inv in Hg as (_ & _ & [Hr|(rw0 & rw' & l & -> & Hl & Hw & Hr)]); rewrite Hr in Hin;
        [by apply not_elem_of_nil in Hin|apply list_elem_of_singleton in Hin as ->].
      split; [done|]. split; [done|]. exists l.
      apply (holds_lock_same _ sv) in Hl; [|done]. destruct Hv as [Hme Hsp].
      pose proof (write_group_locks_same _ _ _ _ _ _ Hw) as (_ & Hst & Hmeta).
      split; [done|]. unfold sv_TargetRef in Hw. rewrite Hsp in Hw. split; [exact Hw|].
      split; [done|]. split; [done|]. intros Hnd. by apply (write_group_locks_replicas _ _ _ _ _ _ Hw).
    + intros rw impl reply res Hg. apply sync_inv in Hg as (-> & _). done.
  - apply target_action_facts in H as (Hf & new & Hn & Hq).
    + split; [done|]. exists new. split; [done|]. intros q (rw & reply & res & _ & Hs & Hin)%Hq.
      apply report_inv in Hs as (_ & _ & Hr & _). rewrite Hr in Hin. by apply not_elem_of_nil in Hin.
    + intros rw impl reply res Hg. by apply report_inv in Hg as (st & -> & _).
  - cbn in H. injection H as <- <-. unfold framed. cbn.
    match goal with |- context [UpdateScaleViewStatus _ ?reply None] =>
      destruct (update_inv (svc_impl m) reply) as [-> Hr] end.
    split; [done|]. eexists. split; [reflexivity|]. intros q (q' & [= <-] & Hq)%list_elem_of_fmap.
    rewrite Hr in Hq. case_decide; [by apply not_elem_of_nil in Hq|].
    by apply list_elem_of_singleton in Hq as ->.
Qed.
End facts.

(** ** Lemmas: a run *)

Section run.
Context `{E : ScaleViewEnv} (runs : workflow SvMgr -> SvMgr -> list (step SvMgr) -> SvMgr -> Prop)
  `{R : !Runs runs}.

(** The manager works on the view [sv]. *)
Definition works_on (sv : RisingWaveScaleView) (m : SvMgr) : Prop :=
  svms_target (svc_state m) = sv /\ same_view (svm_scaleView (svc_impl m)) sv /\
  svm_scaleViewStatusCopy (svc_impl m) = sv_Status sv.

Lemma works_on_framed sv m m' : works_on sv m -> framed m m' -> works_on sv m'.
Proof.
  intros (H1 & H2 & H3) (H4 & H5 & H6). unfold works_on. rewrite H4, H6. split; [done|].
  split; [|done]. by transitivity (svm_scaleView (svc_impl m)).
Qed.

Context (t : list sv_call) (ns name : string) (m0 : SvMgr) (run : list (step SvMgr)) (m1 : SvMgr).
Context (H : scales runs t ns name m0 run m1).
Let sv := svms_target (svc_state m0).
Let w : workflow SvMgr := scale_view_workflow (om_Deleted (sv_Meta sv)).

Lemma scales_begin :
  sv_get_view t ns name = Ok sv /\ works_on sv m0 /\ svc_trace m0 = t ++ [GetScaleViewCall ns name].
Proof.
  destruct H as [Hb _]. unfold begin_scale_view in Hb. destruct (sv_get_view t ns name) as [sv'|]; [|done].
  injection Hb as Hm. subst sv. subst m0. done.
Qed.

Lemma scales_runs : runs w m0 run m1.
Proof. by destruct H. Qed.

Lemma scales_step x : x ∈ run ->
  s_action x ∈ actions w /\ a_body (s_action x) (s_before x) = Done (s_result x, s_after x).
Proof.
  intros Hx. pose proof scales_runs as Hr. split; [by eapply runs_actions|].
  eapply chained_step; [by eapply runs_chained|done].
Qed.

Lemma scales_works_on : works_on sv m1 /\ forall x, x ∈ run -> works_on sv (s_before x).
Proof.
  apply (chained_invariant (works_on sv) m0 run m1).
  - eapply runs_chained, scales_runs.
  - intros x Hx Hw Hb. destruct (scales_step x Hx) as [Ha _].
    destruct (scale_step_facts _ sv _ _ _ _ Ha Hb) as [Hf _]; [apply Hw..|].
    by eapply works_on_framed.
  - apply scales_begin.
Qed.

Lemma scales_step_calls x : x ∈ run ->
  framed (s_before x) (s_after x) /\ exists new, svc_trace (s_after x) = svc_trace (s_before x) ++ new /\
    forall q, SendCall q ∈ new -> justified sv (a_name (s_action x)) (s_before x) q.
Proof.
  intros Hx. destruct (scales_step x Hx) as [Ha Hb].
  destruct scales_works_on as [_ Hw]. specialize (Hw x Hx).
  by apply (scale_step_facts _ sv _ _ _ _ Ha Hb); apply Hw.
Qed.

(** The names of the workflow and their order. *)
Lemma scales_places before n : (before, n) ∈ places w ->
  om_Deleted (sv_Meta sv) = false /\
  (n = RisingWaveScaleViewAction_SyncGroupReplicasToRisingWave ->
   before = [RisingWaveScaleViewAction_GrabOrUpdateScaleViewLock]).
Proof.
  subst w. destruct (om_Deleted (sv_Meta sv)); intros Hp; [by apply not_elem_of_nil in Hp|].
  split; [done|]. intros ->. cbn in Hp.
  repeat (apply elem_of_cons in Hp as [Hp|Hp]; [first [discriminate Hp|by injection Hp]|]).
  by apply not_elem_of_nil in Hp.
Qed.

Lemma scales_deferred pre x post y :
  run = pre ++ x :: post -> y ∈ post ->
  a_name (s_action x) = RisingWaveScaleViewAction_UpdateScaleViewStatus ->
  a_name (s_action y) = RisingWaveScaleViewAction_UpdateScaleViewStatus.
Proof.
  intros Hrun Hy Hn. assert (x ∈ run) as Hx by (rewrite Hrun; apply elem_of_app; right; left).
  assert (y ∈ run) as Hyr by (rewrite Hrun; apply elem_of_app; right; by right).
  apply scales_step in Hx as [Hx _]. apply scales_step in Hyr as [Hyr _].
  assert (NoDup (names w)) as Hnd.
  { subst w. destruct (om_Deleted (sv_Meta sv)); apply (bool_decide_unpack _); vm_compute; exact I. }
  pose proof (runs_deferred _ _ _ _ pre x post y scales_runs Hnd Hrun Hy) as Hd. rewrite Hn in Hd.
  revert Hyr Hd. subst w. destruct (om_Deleted (sv_Meta sv)); [by intros ?%not_elem_of_nil|].
  cbn. intros Ha Hd.
  repeat (apply elem_of_cons in Ha as [Ha|Ha]; [rewrite Ha in Hd |- *; try done;
    exfalso; apply Hd; repeat first [apply elem_of_cons; by left|right]|]).
  by apply not_elem_of_nil in Ha.
Qed.

(** The update of the status leaves the manager as it is. *)
Lemma scales_update_manager x : x ∈ run ->
  a_name (s_action x) = RisingWaveScaleViewAction_UpdateScaleViewStatus ->
  svc_impl (s_after x) = svc_impl (s_before x).
Proof.
  intros Hx Hn. apply scales_step in Hx as [Ha Hb]. revert Ha. subst w.
  destruct (om_Deleted (sv_Meta sv)); [by intros ?%not_elem_of_nil|]. cbn. intros Ha.
  repeat (apply elem_of_cons in Ha as [Ha|Ha]; [rewrite Ha in Hn; try discriminate Hn|]);
    [|by apply not_elem_of_nil in Ha].
  rewrite Ha in Hb. cbn in Hb. injection Hb as _ <-. cbn. apply update_inv.
Qed.

(** Once the status is updated, the manager does not change any more. *)
Lemma final_manager pre x post : run = pre ++ x :: post ->
  a_name (s_action x) = RisingWaveScaleViewAction_UpdateScaleViewStatus ->
  svm_scaleView (svc_impl (s_before x)) = svm_scaleView (svc_impl m1).
Proof.
  intros Hrun Hn. pose proof (runs_chained _ _ _ _ scales_runs) as Hc. rewrite Hrun in Hc.
  apply chained_app in Hc as (m & _ & Hc). f_equal.
  assert (svc_impl m1 = svc_impl m /\ forall y, y ∈ x :: post -> svc_impl (s_before y) = svc_impl m)
    as [-> Hb]; [|apply Hb; left].
  apply (chained_value svc_impl m (x :: post) m1 Hc). intros y Hy _.
  assert (y ∈ run) as Hyr by (rewrite Hrun; apply elem_of_app; by right).
  apply scales_update_manager; [done|]. apply elem_of_cons in Hy as [->|Hy]; [done|].
  by eapply scales_deferred.
Qed.

(** The calls of a step. *)
Definition calls (x : step SvMgr) : list sv_call :=
  drop (length (svc_trace (s_before x))) (svc_trace (s_after x)).

Lemma scales_calls :
  svc_trace m1 = t ++ GetScaleViewCall ns name :: flat_map calls run.
Proof.
  destruct scales_begin as (_ & _ & Ht0).
  assert (svc_trace m1 = svc_trace m0 ++ flat_map calls run) as ->;
    [|by rewrite Ht0, <-app_assoc].
  assert (forall x, x ∈ run -> svc_trace (s_after x) = svc_trace (s_before x) ++ calls x) as Hx.
  { intros x (_ & new & Hn & _)%scales_step_calls. unfold calls. by rewrite Hn, drop_app_length. }
  pose proof (runs_chained _ _ _ _ scales_runs) as Hc. revert Hc Hx. clear.
  generalize m0. induction run as [|x l IH]; intros m Hc Hx; [cbn in Hc; subst; by rewrite app_nil_r|].
  destruct Hc as (<- & _ & Hc). rewrite (IH _ Hc) by (intros; apply Hx; by right).
  rewrite (Hx x) by left. cbn. by rewrite <-app_assoc.
Qed.

Lemma calls_justified x q : x ∈ run -> SendCall q ∈ calls x ->
  justified sv (a_name (s_action x)) (s_before x) q.
Proof.
  intros (_ & new & Hn & Hq)%scales_step_calls. unfold calls. rewrite Hn, drop_app_length. apply Hq.
Qed.
End run.

Section reports.
Context `{E : ScaleViewEnv} (runs : workflow SvMgr -> SvMgr -> list (step SvMgr) -> SvMgr -> Prop)
  `{R : !Runs runs}.
Context (t : list sv_call) (ns name : string) (m0 : SvMgr) (run : list (step SvMgr)) (m1 : SvMgr).
Context (H : scales runs t ns name m0 run m1).
Let sv := svms_target (svc_state m0).
Context (Hd : om_Deleted (sv_Meta sv) = false).

(** The actions that no others come before are run. *)
Lemma scales_executed n :
  ([], n) ∈ places (scale_view_workflow false) -> executed run n.
Proof.
  intros Hn. pose proof (scales_runs _ _ _ _ _ _ _ H) as Hr. fold sv in Hr. rewrite Hd in Hr.
  by apply (runs_complete _ _ _ _ _ _ Hr Hn).
Qed.

Lemma scales_updated :
  SendCall (UpdateScaleViewStatusRequest (svm_scaleView (svc_impl m1))) ∈ flat_map calls run <->
  sv_Status (svm_scaleView (svc_impl m1)) <> sv_Status sv.
Proof.
  destruct (scales_works_on _ _ _ _ _ _ _ H) as [_ Hw]. split.
  - intros Hq. apply list_elem_of_In, in_flat_map in Hq as (x & Hx & Hq). apply list_elem_of_In in Hx, Hq.
    pose proof (calls_justified _ _ _ _ _ _ _ H x _ Hx Hq) as (_ & -> & Hst).
    destruct (Hw x Hx) as (_ & _ & Hc). by rewrite Hc in Hst.
  - intros Hst. destruct (scales_executed RisingWaveScaleViewAction_UpdateScaleViewStatus) as (x & Hx & Hn).
    { cbn. do 3 right. left. }
    destruct (Hw x Hx) as (_ & _ & Hc). apply list_elem_of_In, in_flat_map. exists x.
    split; [by apply list_elem_of_In|]. apply list_elem_of_In.
    destruct (list_elem_of_split _ _ Hx) as (pre & post & Hrun).
    rewrite <-(final_manager _ _ _ _ _ _ _ H pre x post Hrun Hn) in Hst |- *.
    destruct (scales_step _ _ _ _ _ _ _ H x Hx) as [Ha Hb]. fold sv in Ha. rewrite Hd in Ha. cbn in Ha.
    repeat (apply elem_of_cons in Ha as [Ha|Ha]; [rewrite Ha in Hn; try discriminate Hn|]);
      [|by apply not_elem_of_nil in Ha].
    rewrite Ha in Hb. cbn in Hb. injection Hb as _ Hb. unfold calls. rewrite <-Hb. cbn.
    rewrite drop_app_length. apply list_elem_of_fmap_2. 
    match goal with |- context [UpdateScaleViewStatus _ ?reply None] =>
      destruct (update_inv (svc_impl (s_before x)) reply) as [_ ->] end.
    rewrite Hc, decide_False by done. left.
Qed.

(** The replicas in the status of the manager's view. *)
Definition status_replicas (m : SvMgr) : option Z := svst_Replicas (sv_Status (svm_scaleView (svc_impl m))).

Lemma scales_replicas_kept x : x ∈ run ->
  a_name (s_action x) <> RisingWaveScaleViewAction_SyncGroupReplicasStatusFromRisingWave ->
  status_replicas (s_after x) = status_replicas (s_before x).
Proof.
  intros Hx Hn. unfold status_replicas. destruct (scales_step _ _ _ _ _ _ _ H x Hx) as [Ha Hb].
  fold sv in Ha. rewrite Hd in Ha. cbn in Ha.
  repeat (apply elem_of_cons in Ha as [Ha|Ha]; [rewrite Ha in Hn, Hb; try done|]);
    [| | |by apply not_elem_of_nil in Ha].
  - apply target_action_Done in Hb. cbv zeta in Hb. destruct (target_read _ _) as [rw|e];
      [|destruct Hb as (_ & _ & -> & _); done].
    destruct Hb as (r0 & res & _ & Hg & _ & _ & -> & _).
    by apply grab_inv in Hg as ([->|(st & -> & Hst)] & _).
  - apply target_action_Done in Hb. cbv zeta in Hb. destruct (target_read _ _) as [rw|e];
      [|destruct Hb as (_ & _ & -> & _); done].
    destruct Hb as (r0 & res & _ & Hg & _ & _ & -> & _). by apply sync_inv in Hg as (-> & _).
  - f_equal. f_equal. f_equal. apply (scales_update_manager _ _ _ _ _ _ _ H x Hx). by rewrite Ha.
Qed.

Lemma scales_reported :
  exists pre x post, run = pre ++ x :: post /\
    a_name (s_action x) = RisingWaveScaleViewAction_SyncGroupReplicasStatusFromRisingWave /\
    status_replicas m1 =
      match target_read (svc_trace (s_before x)) sv with
      | Ok target => Some (reported_replicas sv target)
      | Err _ => status_replicas (s_before x)
      end.
Proof.
  destruct (executed_last run RisingWaveScaleViewAction_SyncGroupReplicasStatusFromRisingWave)
    as (pre & x & post & Hrun & Hn & Hlast).
  { apply scales_executed. cbn. do 2 right. left. }
  exists pre, x, post. split; [done|]. split; [done|].
  assert (x ∈ run) as Hx by (rewrite Hrun; apply elem_of_app; right; left).
  destruct (scales_works_on _ _ _ _ _ _ _ H) as [_ Hw]. destruct (Hw x Hx) as (Hsv & Hv & _).
  pose proof (runs_chained _ _ _ _ (scales_runs _ _ _ _ _ _ _ H)) as Hc. rewrite Hrun in Hc.
  apply chained_app in Hc as (m & _ & <- & Hb & Hc).
  assert (status_replicas m1 = status_replicas (s_after x)) as ->.
  { apply (chained_value status_replicas _ post _ Hc). intros y Hy _. apply scales_replicas_kept.
    - rewrite Hrun. apply elem_of_app. right. by right.
    - by apply Hlast. }
  destruct (scales_step _ _ _ _ _ _ _ H x Hx) as [Ha _]. fold sv in Ha. rewrite Hd in Ha. cbn in Ha.
  repeat (apply elem_of_cons in Ha as [Ha|Ha]; [rewrite Ha in Hn, Hb; try discriminate Hn|]);
    [|by apply not_elem_of_nil in Ha].
  apply target_action_Done in Hb. cbv zeta in Hb. rewrite Hsv in Hb. unfold status_replicas.
  destruct (target_read _ _) as [rw|e]; [|by destruct Hb as (_ & _ & -> & _)].
  destruct Hb as (r0 & res & _ & Hs & _ & _ & -> & _). apply report_inv in Hs as (st & -> & _ & Hst).
  cbn. rewrite Hst. by rewrite (reported_same _ sv).
Qed.
End reports.

(** ** Properties *)

(** C7: Whatever the order in which the actions of a reconcile run, the requests it sends are
    those it may send: the status of the target is only written to record the lock of the view in
    the locks as they were read; the replicas of the target are only patched after the lock action
    let the workflow go on, while the target as read holds the lock at the generation of the view,
    and then the locked groups get the replicas of the lock and nothing else changes; the status
    of the view is only updated when it changed, and with its final value. *)
Theorem scale_view_requests `{E : ScaleViewEnv} runs `{R : !Runs runs} t ns name m0 run m1 :
  scales runs t ns name m0 run m1 ->
  let sv := svms_target (svc_state m0) in
  sv_get_view t ns name = Ok sv /\
  svc_trace m1 = t ++ GetScaleViewCall ns name :: flat_map calls run /\
  forall q, SendCall q ∈ flat_map calls run ->
    om_Deleted (sv_Meta sv) = false /\
    exists pre x post, run = pre ++ x :: post /\
      justified sv (a_name (s_action x)) (s_before x) q /\
      match q with
      | PatchRisingWaveRequest _ _ => passed pre RisingWaveScaleViewAction_GrabOrUpdateScaleViewLock
      | UpdateScaleViewStatusRequest sv' => sv' = svm_scaleView (svc_impl m1)
      | UpdateRisingWaveStatusRequest _ => True
      end.
Proof.
  intros H sv. split; [by eapply scales_begin|]. split; [by eapply scales_calls|].
  intros q Hq. apply list_elem_of_In, in_flat_map in Hq as (x & Hx & Hq).
  apply list_elem_of_In in Hx, Hq. pose proof (calls_justified _ _ _ _ _ _ _ H x q Hx Hq) as Hj.
  apply list_elem_of_split in Hx as (pre & post & Hrun).
  destruct (runs_ordered _ _ _ _ pre x post (scales_runs _ _ _ _ _ _ _ H) Hrun) as (before & Hp & Hb).
  destruct (scales_places m0 _ _ Hp) as [Hd Hpl]. split; [done|].
  exists pre, x, post. split; [done|]. split; [done|].
  destruct q as [sv'|rw'|rw' rw]; [|done|].
  - destruct Hj as (Hn & -> & _). by apply (final_manager _ _ _ _ _ _ _ H pre x post).
  - destruct Hj as [Hn _]. rewrite (Hpl Hn) in Hb. exact (Forall_inv Hb).
Qed.

(** C16: The status a reconcile ends with tells the running replicas: it counts, modulo the width of
    its field, the running replicas of the groups of the view in the target as it was last read to
    report them, or none if the target is gone or is another object; nothing but the status of the
    view changes, and it is sent to the server exactly when it differs from the one that was read. *)
Theorem scale_view_reports `{E : ScaleViewEnv} runs `{R : !Runs runs} t ns name m0 run m1 :
  scales runs t ns name m0 run m1 ->
  let sv := svms_target (svc_state m0) in
  let sv' := svm_scaleView (svc_impl m1) in
  om_Deleted (sv_Meta sv) = false ->
  same_view sv' sv /\
  (exists pre x post, run = pre ++ x :: post /\
     a_name (s_action x) = RisingWaveScaleViewAction_SyncGroupReplicasStatusFromRisingWave /\
     svst_Replicas (sv_Status sv') =
       match target_read (svc_trace (s_before x)) sv with
       | Ok target => Some (reported_replicas sv target)
       | Err _ => svst_Replicas (sv_Status (svm_scaleView (svc_impl (s_before x))))
       end) /\
  (SendCall (UpdateScaleViewStatusRequest sv') ∈ flat_map calls run <-> sv_Status sv' <> sv_Status sv).
Proof.
  intros H sv sv' Hd. destruct (scales_works_on _ _ _ _ _ _ _ H) as [(_ & Hv & _) _].
  split; [done|]. split.
  - by eapply scales_reported.
  - by eapply scales_updated.
Qed.

(** ** Examples *)

Definition ex_scale_view : RisingWaveScaleView := svm_scaleView ex_mgr.

(** A server whose target already holds the lock. *)
Definition ex_locked_env : ScaleViewEnv :=
  {| sv_get_view := fun _ _ _ => Ok ex_scale_view;
     sv_get_target := fun _ _ _ => Ok ex_locked_rw;
     sv_reply := fun _ _ => None |}.

Definition ex_scale_start : SvMgr :=
  NewRisingWaveScaleViewControllerManager (NewRisingWaveScaleViewControllerManagerState ex_scale_view)
    (NewRisingWaveScaleViewControllerManagerImpl ex_scale_view) [GetScaleViewCall "ns" "sv"].

(** The actions of the workflow, in one of their orders. *)
Definition ex_scale_order : list string :=
  [RisingWaveScaleViewAction_SyncGroupReplicasStatusFromRisingWave;
   RisingWaveScaleViewAction_GrabOrUpdateScaleViewLock;
   RisingWaveScaleViewAction_SyncGroupReplicasToRisingWave;
   RisingWaveScaleViewAction_UpdateScaleViewStatus].

Definition ex_scale_run : option (list (step SvMgr) * SvMgr) :=
  exec (scale_view_workflow (E := ex_locked_env) false) ex_scale_order ex_scale_start.

Lemma ex_scale_facts :
  match ex_scale_run with
  | Some (run, m1) =>
      let w := scale_view_workflow (E := ex_locked_env) false in
      ordered_from (places w) [] (outcomes run) = true /\
      complete_run (places w) (outcomes run) = true /\
      in_order (deferred w) (outcomes run).*1 = true /\
      length (flat_map calls run) = 5 /\
      bool_decide (svst_Replicas (sv_Status (svm_scaleView (svc_impl m1))) = Some 0%Z) = true
  | None => False
  end.
Proof. vm_compute. repeat split. Qed.

(** The order is a run, in which the lock, the replicas and the status are dealt with. *)
Lemma ex_scales : exists run m1,
  scales (E := ex_locked_env) liberal [] "ns" "sv" ex_scale_start run m1 /\
  length (flat_map calls run) = 5 /\
  svst_Replicas (sv_Status (svm_scaleView (svc_impl m1))) = Some 0%Z.
Proof.
  pose proof ex_scale_facts as H. destruct ex_scale_run as [[run m1]|] eqn:Hrun; [|destruct H].
  apply exec_run in Hrun as [Hc Ha]. destruct H as (Ho & Hcomp & Hd & Hl & Hs). case_bool.
  exists run, m1. split; [|done]. split; [reflexivity|]. by repeat split.
Qed.

Lemma scale_view_requests_witness : exists run,
  length (flat_map calls run) = 5 /\ forall q, SendCall q ∈ flat_map calls run ->
    om_Deleted (sv_Meta ex_scale_view) = false.
Proof.
  destruct ex_scales as (run & m1 & Hrun & Hl & _). exists run. split; [exact Hl|]. intros q Hq.
  exact (proj1 (proj2 (proj2 (scale_view_requests (E := ex_locked_env) liberal [] "ns" "sv"
    ex_scale_start run m1 Hrun)) q Hq)).
Defined.

Lemma scale_view_reports_witness : exists m1,
  same_view (svm_scaleView (svc_impl m1)) ex_scale_view.
Proof.
  destruct ex_scales as (run & m1 & Hrun & _). exists m1.
  exact (proj1 (scale_view_reports (E := ex_locked_env) liberal [] "ns" "sv"
    ex_scale_start run m1 Hrun eq_refl)).
Defined.
