(* ===== verification/ScaleViewConvergence.v ===== *)
(** * A scale view reaches its target

    The scale view controller against a server that keeps what it is sent and refuses nothing:
    after two reconciles of a scale view whose groups can be locked, the target has the replicas the
    view asks for, whatever the order of the actions and without relying on the retry. *)

From S2P Require Import Prelude GoStrings ApiTypes ApiErrors SplitReplicas ScaleLock ScaleHelper ScaleViewManager ManagerActions CtrlKit ScaleViewController.

(** ** Definitions: the server *)

(** A status update leaves the rest of an object as it is, a patch of the spec its status. *)
Definition target_after (c : sv_call) (rw : RisingWave) : RisingWave :=
  match c with
  | SendCall (UpdateRisingWaveStatusRequest rw') => set_rw_Status (rw_Status rw') rw
  | SendCall (PatchRisingWaveRequest rw' _) => set_rw_Spec (rw_Spec rw') rw
  | _ => rw
  end.

Definition view_after (c : sv_call) (sv : RisingWaveScaleView) : RisingWaveScaleView :=
  match c with
  | SendCall (UpdateScaleViewStatusRequest sv') => set_sv_Status (sv_Status sv') sv
  | _ => sv
  end.

Definition served_target (rw : RisingWave) (t : list sv_call) : RisingWave :=
  foldl (fun rw c => target_after c rw) rw t.

Definition served_view (sv : RisingWaveScaleView) (t : list sv_call) : RisingWaveScaleView :=
  foldl (fun sv c => view_after c sv) sv t.

(** [meta] is the name of the object [o] in its namespace. *)
Definition serve {A} (meta : ObjectMeta) (o : A) (ns name : string) : result api_error A :=
  if decide (om_Namespace meta = ns /\ om_Name meta = name) then Ok o else Err (NotFoundError name).

Definition serving (sv : RisingWaveScaleView) (rw : RisingWave) : ScaleViewEnv :=
  {| sv_get_view := fun t => serve (sv_Meta sv) (served_view sv t);
     sv_get_target := fun t => serve (rw_Meta rw) (served_target rw t);
     sv_reply := fun _ _ => None |}.

(** The view has a target it can scale: the object it refers to, which has all of its groups and
    whose locks leave them free; a lock it already has is for its groups, and if it is for the
    current generation, has the replicas of it. *)
Record scalable (sv : RisingWaveScaleView) (rw : RisingWave) : Prop := {
  sc_uid : om_UID (rw_Meta rw) = tr_UID (sv_TargetRef sv);
  sc_groups g : g ∈ sv_Groups sv -> is_Some (replicas_of rw (tr_Component (sv_TargetRef sv)) g);
  sc_locks : locks_ok (locks rw);
  sc_free : GetScaleViewLock rw sv = None -> grab_error sv (locks rw) = None;
  sc_lock l : GetScaleViewLock rw sv = Some l -> lock_groups l ≡ₚ sv_Groups sv;
  sc_current l : GetScaleViewLock rw sv = Some l -> lk_Generation l = sv_Generation sv ->
    exists m, SplitReplicas sv = Done m /\ lk_GroupLocks l = group_locks sv m;
}.

(** The target holds a lock for the current generation of the view. *)
Definition locked_now (sv : RisingWaveScaleView) (rw : RisingWave) : Prop :=
  exists l, holds_lock sv rw l.

Definition scaled (sv : RisingWaveScaleView) (rw : RisingWave) : Prop :=
  Zsum ((fun g => default 0%Z (replicas_of rw (tr_Component (sv_TargetRef sv)) g)) <$> sv_Groups sv) =
    default 0%Z (svs_Replicas (sv_Spec sv)).

(** ** Lemmas *)

Lemma replicas_of_status rw st c g : replicas_of (set_rw_Status st rw) c g = replicas_of rw c g.
Proof. done. Qed.

Lemma GetScaleViewLock_locks rw rw' sv :
  rw_Status rw' = rw_Status rw -> GetScaleViewLock rw' sv = GetScaleViewLock rw sv.
Proof. intros H. unfold GetScaleViewLock, getScaleViewLockIndex, locks. by rewrite H. Qed.

Section grab.
Context (sv : RisingWaveScaleView) (Hsv : scaleview_ok sv).

(** Grabbing from a target that can be scaled. *)
Lemma grab_scalable rw r rw' :
  scalable sv rw -> GrabOrUpdateScaleViewLockFor rw sv = Done (r, rw') ->
  r = (true, None) \/ r = (false, None) /\ rw' = rw /\ locked_now sv rw.
Proof.
  intros [Hu _ _ Hf _ _] H. destruct (GetScaleViewLock rw sv) as [l|] eqn:Hl.
  - revert H. unfold GetScaleViewLock in Hl. unfold GrabOrUpdateScaleViewLockFor.
    destruct (getScaleViewLockIndex rw sv) as [[i l']|] eqn:Hi; [|done]. injection Hl as ->.
    case_decide as Hg; [intros [= <- <-]; right|run_monad; destruct (splitReplicasIntoGroups sv);
      [intros [= <- _]; by left|done]].
    split; [done|]. split; [done|]. exists l. split; [done|]. split; [|done].
    unfold GetScaleViewLock. by rewrite Hi.
  - revert H. unfold GetScaleViewLock in Hl. unfold GrabOrUpdateScaleViewLockFor.
    destruct (getScaleViewLockIndex rw sv) as [|]; [done|]. run_monad.
    destruct (GrabScaleViewLockFor rw sv) as [[e rw1]|] eqn:Hg; [|done].
    apply GrabScaleViewLockFor_inv in Hg as (m & _ & -> & _). rewrite (Hf eq_refl).
    intros [= <- _]. by left.
Qed.

Lemma grab_locked rw : locked_now sv rw -> GrabOrUpdateScaleViewLockFor rw sv = Done ((false, None), rw).
Proof.
  intros (l & _ & Hl & Hg). unfold GetScaleViewLock in Hl. unfold GrabOrUpdateScaleViewLockFor.
  destruct (getScaleViewLockIndex rw sv) as [[i l']|]; [|done]. injection Hl as ->. by rewrite decide_True.
Qed.

Lemma grabbed_scalable rw rw' :
  scalable sv rw -> GrabOrUpdateScaleViewLockFor rw sv = Done ((true, None), rw') ->
  scalable sv rw' /\ locked_now sv rw'.
Proof.
  intros [Hu Hg Hok Hf Hl Hc] H. destruct (GrabOrUpdate_frame _ _ _ _ H) as [Hm Hsp].
  pose proof (update_locks_ok _ _ _ _ Hl Hok H) as Hok'.
  destruct (GrabOrUpdate_lock _ _ _ H) as (m & l & Hsplit & Hin & Hn & Huid & Hgen & Hgl).
  assert (GetScaleViewLock rw' sv = Some l) as Hl' by (by apply GetScaleViewLock_Some).
  split; [|by exists l; split; [congruence|]]. constructor; [congruence| |done|by rewrite Hl'|..].
  - intros g. unfold replicas_of, node_groups. rewrite Hsp. apply Hg.
  - rewrite Hl'. intros ? [= <-]. unfold lock_groups. by rewrite Hgl, lock_groups_of_view.
  - rewrite Hl'. intros ? [= <-] _. by exists m.
Qed.

Lemma patched_scalable rw rw' l b :
  scalable sv rw -> holds_lock sv rw l -> 
  write_group_locks (tr_Component (sv_TargetRef sv)) (lk_GroupLocks l) false rw = Done (b, rw') ->
  scalable sv rw' /\ scaled sv rw'.
Proof.
  intros [Hu Hg Hok Hf Hl Hc] (_ & Hlock & Hgen) Hw.
  destruct (Hc l Hlock Hgen) as (m & Hsplit & Hgl).
  pose proof (write_group_locks_same _ _ _ _ _ _ Hw) as (_ & Hst & Hm).
  assert (NoDup (gl_Name <$> lk_GroupLocks l)) as Hnd by (rewrite Hgl, lock_groups_of_view; apply Hsv).
  pose proof (write_group_locks_replicas _ _ _ _ _ _ Hw Hnd) as Hr. split.
  - constructor; rewrite ?(GetScaleViewLock_locks rw), ?Hm; unfold locks in *; rewrite ?Hst; try done.
    intros g Hgr. destruct Hr as [Hr _]. rewrite Hgl in Hr.
    pose proof Hgr as (p & -> & Hp)%list_elem_of_fmap.
    specialize (Hr {| gl_Name := sp_Group p; gl_Replicas := default 0%Z (m !! sp_Group p) |}).
    cbn in Hr. rewrite Hr; [|apply list_elem_of_fmap; by exists p]. apply fmap_is_Some. by apply Hg.
  - exact (locked_total sv l m rw rw' Hsv Hsplit Hgl Hg Hr).
Qed.
End grab.

Lemma served_target_app rw t c : served_target rw (t ++ [c]) = target_after c (served_target rw t).
Proof. unfold served_target. by rewrite foldl_app. Qed.

Lemma served_target_meta rw t : rw_Meta (served_target rw t) = rw_Meta rw.
Proof.
  induction t as [|c t IH] using rev_ind; [done|]. rewrite served_target_app, <-IH.
  by destruct c as [| |[]].
Qed.

Lemma set_status_same rw rw' :
  rw_Meta rw' = rw_Meta rw -> rw_Spec rw' = rw_Spec rw -> set_rw_Status (rw_Status rw') rw = rw'.
Proof. destruct rw, rw'. cbn. by intros -> ->. Qed.

Lemma set_spec_same rw rw' :
  rw_Meta rw' = rw_Meta rw -> rw_Status rw' = rw_Status rw -> set_rw_Spec (rw_Spec rw') rw = rw'.
Proof. destruct rw, rw'. cbn. by intros -> ->. Qed.

Lemma served_view_same sv t : same_view (served_view sv t) sv.
Proof.
  induction t as [|c t IH] using rev_ind; [done|]. unfold served_view. rewrite foldl_app. cbn.
  destruct c as [| |[]]; cbn; [done..| |done|done]. by etransitivity; [apply same_view_status|].
Qed.

(** ** A step against the server *)

Section world.
Context (sv : RisingWaveScaleView) (rw : RisingWave) (Hsv : scaleview_ok sv).
Context (Hns : om_Namespace (rw_Meta rw) = om_Namespace (sv_Meta sv)).
Context (Hname : om_Name (rw_Meta rw) = tr_Name (sv_TargetRef sv)).
#[local] Instance world : ScaleViewEnv := serving sv rw.

Definition target_now (m : SvMgr) : RisingWave := served_target rw (svc_trace m).

Lemma target_read_world t a : same_view a sv -> target_read t a = Ok (Some (served_target rw t)).
Proof.
  intros [Hm Hs]. unfold target_read, sv_TargetRef. rewrite Hm, Hs. cbn. unfold serve.
  by rewrite decide_True.
Qed.

(** What the step does: [o] is the target before it, [o'] after it. *)
Definition progresses (n : string) (r : ctrl_result) (o o' : RisingWave) : Prop :=
  scalable sv o' /\ (locked_now sv o -> locked_now sv o') /\ (scaled sv o -> scaled sv o') /\
  (n = RisingWaveScaleViewAction_GrabOrUpdateScaleViewLock ->
     locked_now sv o' /\ (locked_now sv o -> continues r = true)) /\
  (n = RisingWaveScaleViewAction_SyncGroupReplicasToRisingWave -> locked_now sv o -> scaled sv o').

Lemma performs_world f t m r m' :
  performs f t m r m' -> exists res, f (svc_impl m) None = Done res /\ r = sar_result res /\
    svc_trace m' = t ++ (SendCall <$> sar_requests res).
Proof.
  intros (r0 & res & H0 & Hres & -> & _ & _ & Ht). exists res. split; [|done].
  by destruct (sar_requests r0).
Qed.

(** An action on the target. *)
Lemma world_action n f m r m' :
  works_on (svms_target (svc_state m)) m -> same_view (svms_target (svc_state m)) sv ->
  a_body (target_action n f) m = Done (r, m') ->
  exists res, f (Some (target_now m)) (svc_impl m) None = Done res /\ r = sar_result res /\
    target_now m' = foldl (fun rw c => target_after c rw) (target_now m) (SendCall <$> sar_requests res).
Proof.
  intros _ Ha Hb. apply target_action_Done in Hb. cbv zeta in Hb.
  rewrite target_read_world in Hb by done. apply performs_world in Hb as (res & Hres & Hr & Ht).
  exists res. split; [done|]. split; [done|].
  unfold target_now, served_target. rewrite Ht, !foldl_app. done.
Qed.

Lemma matched_world impl o : same_view (svm_scaleView impl) sv ->
  scalable sv o -> isTargetObjMatched impl (Some o) = true.
Proof.
  intros [_ Hs] [Hu _ _ _ _ _]. apply bool_decide_eq_true. unfold sv_TargetRef in *. by rewrite Hs.
Qed.

Lemma scaled_spec o o' : rw_Spec o' = rw_Spec o -> scaled sv o -> scaled sv o'.
Proof. intros H. unfold scaled, replicas_of, node_groups. by rewrite H. Qed.

Lemma locked_status o o' : rw_Status o' = rw_Status o -> rw_Meta o' = rw_Meta o ->
  locked_now sv o -> locked_now sv o'.
Proof.
  intros Hst Hm (l & Hu & Hl & Hg). exists l. split; [by rewrite Hm|].
  by rewrite (GetScaleViewLock_locks o o').
Qed.

Lemma progresses_same n r o :
  scalable sv o ->
  (n = RisingWaveScaleViewAction_GrabOrUpdateScaleViewLock -> locked_now sv o /\ continues r = true) ->
  (n = RisingWaveScaleViewAction_SyncGroupReplicasToRisingWave -> locked_now sv o -> scaled sv o) ->
  progresses n r o o.
Proof. intros Hs Hn Hn'. unfold progresses. naive_solver. Qed.

Lemma world_grab m r m' :
  works_on (svms_target (svc_state m)) m -> same_view (svms_target (svc_state m)) sv ->
  scalable sv (target_now m) -> a_body GrabOrUpdateScaleViewLock_action m = Done (r, m') ->
  progresses RisingWaveScaleViewAction_GrabOrUpdateScaleViewLock r (target_now m) (target_now m').
Proof.
  intros Hw Ha Hs Hb. assert (same_view (svm_scaleView (svc_impl m)) sv) as Hi
    by (transitivity (svms_target (svc_state m)); [apply Hw|done]).
  destruct (world_action _ _ _ _ _ Hw Ha Hb) as (res & Hg & -> & ->).
  unfold GrabOrUpdateScaleViewLock in Hg. rewrite matched_world in Hg by done.
  rewrite (GrabOrUpdate_same _ sv) in Hg by done. revert Hg. run_monad.
  destruct (GrabOrUpdateScaleViewLockFor (target_now m) sv) as [[p o']|] eqn:Hg; [|done].
  destruct (grab_scalable sv _ _ _ Hs Hg) as [->|(-> & -> & Hl)]; intros [= <-]; cbn.
  - destruct (grabbed_scalable sv _ _ Hs Hg) as [Hs' Hl'].
    destruct (GrabOrUpdate_frame _ _ _ _ Hg) as [Hm Hsp]. rewrite set_status_same by done.
    split; [done|]. split; [done|]. split; [by apply scaled_spec|]. split; [|done].
    intros _. split; [done|]. intros Hl. apply (grab_locked sv) in Hl. rewrite Hl in Hg. done.
  - by apply progresses_same.
Qed.

Lemma world_sync m r m' :
  works_on (svms_target (svc_state m)) m -> same_view (svms_target (svc_state m)) sv ->
  scalable sv (target_now m) -> a_body SyncGroupReplicasToRisingWave_action m = Done (r, m') ->
  progresses RisingWaveScaleViewAction_SyncGroupReplicasToRisingWave r (target_now m) (target_now m').
Proof.
  intros Hw Ha Hs Hb. assert (same_view (svm_scaleView (svc_impl m)) sv) as Hi
    by (transitivity (svms_target (svc_state m)); [apply Hw|done]).
  destruct (world_action _ _ _ _ _ Hw Ha Hb) as (res & Hg & -> & ->).
  unfold SyncGroupReplicasToRisingWave in Hg. rewrite matched_world in Hg by done.
  rewrite (GetScaleViewLock_same _ sv) in Hg by done.
  assert (sv_Generation (svm_scaleView (svc_impl m)) = sv_Generation sv /\
    sv_TargetRef (svm_scaleView (svc_impl m)) = sv_TargetRef sv) as [Hge Htr].
  { destruct Hi as [Hm Hsp]. unfold sv_Generation, sv_TargetRef. by rewrite Hm, Hsp. }
  rewrite Hge, Htr in Hg. set (o := target_now m) in *.
  destruct (GetScaleViewLock o sv) as [l|] eqn:Hl.
  2: { injection Hg as <-. cbn. apply progresses_same; [done..|]. intros _ (l & _ & Hl' & _). congruence. }
  case_decide as Hgen.
  2: { injection Hg as <-. cbn. apply progresses_same; [done..|]. intros _ (l' & _ & Hl' & Hg'). congruence. }
  assert (holds_lock sv o l) as Hh by (split; [apply Hs|done]).
  revert Hg. run_monad. destruct (write_group_locks _ _ _ _) as [[b o']|] eqn:Hwr; [|done].
  destruct (patched_scalable sv Hsv _ _ _ _ Hs Hh Hwr) as [Hs' Hsc].
  pose proof (write_group_locks_same _ _ _ _ _ _ Hwr) as (Hb0 & Hst & Hm).
  assert (progresses RisingWaveScaleViewAction_SyncGroupReplicasToRisingWave Continue o o') as Hp.
  { split; [done|]. split; [by apply locked_status|]. done. }
  destruct b; intros [= <-]; cbn.
  - by rewrite set_spec_same.
  - by destruct (Hb0 eq_refl) as [_ ->].
Qed.

Lemma world_step a m r m' :
  a ∈ actions (scale_view_workflow false) -> a_body a m = Done (r, m') ->
  works_on (svms_target (svc_state m)) m -> same_view (svms_target (svc_state m)) sv ->
  scalable sv (target_now m) -> progresses (a_name a) r (target_now m) (target_now m').
Proof.
  intros Ha Hb Hw Hv Hs. unfold scale_view_workflow, If in Ha. cbn in Ha.
  repeat (apply elem_of_cons in Ha as [->|Ha]); [| | | |by apply not_elem_of_nil in Ha].
  - by apply world_grab.
  - by apply world_sync.
  - destruct (world_action _ _ _ _ _ Hw Hv Hb) as (res & Hr & -> & ->).
    apply report_inv in Hr as (st & _ & Hr & _). rewrite Hr. by apply progresses_same.
  - cbn in Hb. injection Hb as <- <-. unfold target_now at 2, served_target. cbn. rewrite foldl_app.
    match goal with |- context [UpdateScaleViewStatus _ ?reply None] =>
      destruct (update_inv (svc_impl m) reply) as [_ ->] end.
    case_decide; by apply progresses_same.
Qed.

(** ** Runs against the server *)

Section runs.
Context (runs : workflow SvMgr -> SvMgr -> list (step SvMgr) -> SvMgr -> Prop) `{R : !Runs runs}.
Context (t : list sv_call) (m0 : SvMgr) (run : list (step SvMgr)) (m1 : SvMgr).
Context (H : scales runs t (om_Namespace (sv_Meta sv)) (sv_Name sv) m0 run m1).
Context (Hdel : om_Deleted (sv_Meta sv) = false) (Hs : scalable sv (served_target rw t)).

Lemma world_view : same_view (svms_target (svc_state m0)) sv.
Proof.
  destruct (scales_begin _ _ _ _ _ _ _ H) as (Hg & _ & _). revert Hg. cbn. unfold serve, sv_Name.
  rewrite decide_True by done. intros [= <-]. apply served_view_same.
Qed.

Lemma world_start : target_now m0 = served_target rw t.
Proof.
  destruct (scales_begin _ _ _ _ _ _ _ H) as (_ & _ & Ht). unfold target_now. by rewrite Ht, served_target_app.
Qed.

Lemma world_chained : chained m0 run m1.
Proof. eapply runs_chained, scales_runs, H. Qed.

Lemma world_deleted : om_Deleted (sv_Meta (svms_target (svc_state m0))) = false.
Proof. destruct world_view as [-> _]. done. Qed.

Lemma world_progress :
  scalable sv (target_now m1) /\ forall x, x ∈ run ->
    progresses (a_name (s_action x)) (s_result x) (target_now (s_before x)) (target_now (s_after x)).
Proof.
  assert (forall x, x ∈ run -> scalable sv (target_now (s_before x)) ->
    progresses (a_name (s_action x)) (s_result x) (target_now (s_before x)) (target_now (s_after x))) as Hp.
  { intros x Hx Hsx. destruct (scales_step _ _ _ _ _ _ _ H x Hx) as [Ha Hb]. rewrite world_deleted in Ha.
    destruct (scales_works_on _ _ _ _ _ _ _ H) as [_ Hw]. specialize (Hw x Hx).
    destruct Hw as (Hv & Hw). pose proof world_view as Hsame. rewrite <-Hv in Hsame.
    apply (world_step (s_action x) _ _ _ Ha Hb); [split; [done|by rewrite Hv]|done..]. }
  destruct (chained_invariant (fun m => scalable sv (target_now m)) _ _ _ world_chained) as [Hend Hall].
  - intros x Hx Hsx _. by apply Hp.
  - by rewrite world_start.
  - split; [done|]. intros x Hx. by apply Hp, Hall.
Qed.

(** What every step keeps holds in the end. *)
Lemma world_keeps (Q : RisingWave -> Prop) x :
  (forall n r o o', progresses n r o o' -> Q o -> Q o') ->
  x ∈ run -> Q (target_now (s_after x)) -> Q (target_now m1).
Proof.
  intros HQ Hx Hq. apply list_elem_of_split in Hx as (pre & post & Hrun).
  pose proof world_chained as Hc. rewrite Hrun in Hc. apply chained_app in Hc as (m & _ & <- & _ & Hc).
  apply (chained_invariant (fun m => Q (target_now m)) _ _ _ Hc); [|done].
  intros y Hy Hqy _. eapply HQ, Hqy. apply world_progress. rewrite Hrun. apply elem_of_app. right. by right.
Qed.

Lemma world_locked : locked_now sv (target_now m1).
Proof.
  destruct (scales_executed _ _ _ _ _ _ _ H world_deleted
    RisingWaveScaleViewAction_GrabOrUpdateScaleViewLock) as (x & Hx & Hn); [left|].
  apply (world_keeps (locked_now sv) x); [|done|].
  - intros n r o o' (_ & Hl & _) Ho. by apply Hl.
  - destruct (proj2 world_progress x Hx) as (_ & _ & _ & Hl & _). by apply Hl.
Qed.

Lemma world_scaled : locked_now sv (served_target rw t) -> scaled sv (target_now m1).
Proof.
  intros Hl0. assert (forall x, x ∈ run -> locked_now sv (target_now (s_before x))) as Hl.
  { apply (chained_invariant (fun m => locked_now sv (target_now m)) _ _ _ world_chained);
      [|by rewrite world_start].
    intros x Hx Hlx _. destruct (proj2 world_progress x Hx) as (_ & Hl & _). by apply Hl. }
  assert (executed run RisingWaveScaleViewAction_SyncGroupReplicasToRisingWave) as (x & Hx & Hn).
  { pose proof (scales_runs _ _ _ _ _ _ _ H) as Hr. rewrite world_deleted in Hr.
    apply (runs_complete _ _ _ _ [RisingWaveScaleViewAction_GrabOrUpdateScaleViewLock] _ Hr).
    { right. left. }
    apply Forall_singleton. destruct (scales_executed _ _ _ _ _ _ _ H world_deleted
      RisingWaveScaleViewAction_GrabOrUpdateScaleViewLock) as (x & Hx & Hn); [left|].
    exists x. split; [done|]. split; [done|].
    destruct (proj2 world_progress x Hx) as (_ & _ & _ & Hg & _). by apply Hg, Hl. }
  apply (world_keeps (scaled sv) x); [|done|].
  - intros n r o o' (_ & _ & Hsc & _) Ho. by apply Hsc.
  - destruct (proj2 world_progress x Hx) as (_ & _ & _ & _ & Hsc). by apply Hsc, Hl.
Qed.
End runs.
End world.

(** ** Properties *)

(** C6: Two reconciles are enough, where nothing stands in the way: after the controller has
    reconciled a scale view twice, in any order of the actions and even if the retry of the lock
    action is never tried, the target holds the lock of the view and the groups of the view together
    have the replicas the view asks for. Nothing stands in the way means: the server refuses
    nothing and nobody else writes; the view is well formed (distinct groups, no negative limit)
    and not being deleted; its target is in its namespace, is the object the view refers to (by
    name and UID) and has all groups of the view; the locks of the target are well formed, and
    if the view has none yet, those of others leave its groups free; and if it has one, that is
    for its groups and, when it is of the current generation of the view, has the split the
    lock manager computes for it (what it writes itself). *)
Theorem two_reconciles_scale runs `{R : !Runs runs} sv rw t m0 run m1 m0' run' m1' :
  scaleview_ok sv -> om_Deleted (sv_Meta sv) = false ->
  om_Namespace (rw_Meta rw) = om_Namespace (sv_Meta sv) ->
  om_Name (rw_Meta rw) = tr_Name (sv_TargetRef sv) ->
  scalable sv (served_target rw t) ->
  scales (E := serving sv rw) runs t (om_Namespace (sv_Meta sv)) (sv_Name sv) m0 run m1 ->
  scales (E := serving sv rw) runs (svc_trace m1) (om_Namespace (sv_Meta sv)) (sv_Name sv) m0' run' m1' ->
  locked_now sv (served_target rw (svc_trace m1')) /\ scaled sv (served_target rw (svc_trace m1')).
Proof.
  intros Hsv Hdel Hns Hname Hs H1 H2.
  assert (locked_now sv (target_now rw m1)) as Hl by (eapply world_locked; eassumption).
  assert (scalable sv (target_now rw m1)) as Hs1 by (eapply world_progress; eassumption).
  split; [by eapply world_locked|by eapply world_scaled].
Qed.

(** ** Examples *)

Definition ex_target : RisingWave :=
  {| rw_Meta := {| om_Name := "rw"; om_Namespace := "ns"; om_UID := ""; om_Generation := 1;
                   om_Labels := ∅; om_Annotations := ∅; om_Finalizers := []; om_Deleted := false |};
     rw_Spec := rw_Spec ex_rw; rw_Status := rw_Status ex_rw |}.

Definition ex_start_at (t : list sv_call) : SvMgr :=
  let sv := served_view ex_scale_view t in
  NewRisingWaveScaleViewControllerManager (NewRisingWaveScaleViewControllerManagerState sv)
    (NewRisingWaveScaleViewControllerManagerImpl sv) (t ++ [GetScaleViewCall "ns" "sv"]).

(** A reconcile without the retry, in one order. *)
Definition ex_reconcile (m0 : SvMgr) : option (list (step SvMgr) * SvMgr) :=
  exec (scale_view_workflow (E := serving ex_scale_view ex_target) false)
    [RisingWaveScaleViewAction_GrabOrUpdateScaleViewLock;
     RisingWaveScaleViewAction_SyncGroupReplicasStatusFromRisingWave;
     RisingWaveScaleViewAction_UpdateScaleViewStatus] m0.

Definition ex_reconcile_again (m0 : SvMgr) : option (list (step SvMgr) * SvMgr) :=
  exec (scale_view_workflow (E := serving ex_scale_view ex_target) false)
    [RisingWaveScaleViewAction_GrabOrUpdateScaleViewLock;
     RisingWaveScaleViewAction_SyncGroupReplicasToRisingWave;
     RisingWaveScaleViewAction_SyncGroupReplicasStatusFromRisingWave;
     RisingWaveScaleViewAction_UpdateScaleViewStatus] m0.

(** What [liberal] asks of a list of steps, as a check. *)
Definition ex_allowed (run : list (step SvMgr)) : bool :=
  let w := scale_view_workflow (E := serving ex_scale_view ex_target) false in
  ordered_from (places w) [] (outcomes run) && complete_run (places w) (outcomes run) &&
  in_order (deferred w) (outcomes run).*1.

Lemma ex_reconciles_facts :
  match ex_reconcile (ex_start_at []) with
  | Some (run, m1) =>
      ex_allowed run = true /\
      match ex_reconcile_again (ex_start_at (svc_trace m1)) with
      | Some (run', m1') => ex_allowed run' = true
      | None => False
      end
  | None => False
  end.
Proof. vm_compute. repeat split. Qed.

Lemma ex_reconcile_scales t run m1 ns' :
  exec (scale_view_workflow (E := serving ex_scale_view ex_target) false) ns' (ex_start_at t) = Some (run, m1) ->
  ex_allowed run = true ->
  scales (E := serving ex_scale_view ex_target) liberal t "ns" "sv" (ex_start_at t) run m1.
Proof.
  intros [Hc Ha]%exec_run Hok. unfold ex_allowed in Hok. split_bools. split; [reflexivity|].
  assert (om_Deleted (sv_Meta (svms_target (svc_state (ex_start_at t)))) = false) as ->;
    [|by repeat split].
  change (om_Deleted (sv_Meta (served_view ex_scale_view t)) = false).
  by destruct (served_view_same ex_scale_view t) as [-> _].
Qed.

Lemma ex_view_ok : scaleview_ok ex_scale_view.
Proof.
  constructor.
  - apply (bool_decide_unpack _). vm_compute. exact I.
  - repeat constructor; vm_compute; congruence.
  - vm_compute. congruence.
  - split; vm_compute; congruence.
Qed.

Lemma ex_scalable : scalable ex_scale_view ex_target.
Proof.
  constructor; [reflexivity| |by intros i j a b Hi; destruct i|reflexivity| |]; [|by vm_compute..].
  apply (Forall_forall (fun g => is_Some (replicas_of ex_target ComponentMeta g))).
  repeat constructor; eexists; vm_compute; reflexivity.
Qed.

Lemma two_reconciles_scale_witness :
  exists t, scaled ex_scale_view (served_target ex_target t).
Proof.
  pose proof ex_reconciles_facts as H. destruct (ex_reconcile (ex_start_at [])) as [[run m1]|] eqn:H1; [|destruct H].
  destruct H as [Hr1 H]. destruct (ex_reconcile_again _) as [[run' m1']|] eqn:H2; [|destruct H].
  exists (svc_trace m1').
  exact (proj2 (two_reconciles_scale liberal ex_scale_view ex_target [] _ run m1 _ run' m1'
    ex_view_ok eq_refl eq_refl eq_refl ex_scalable
    (ex_reconcile_scales _ _ _ _ H1 Hr1) (ex_reconcile_scales _ _ _ _ H2 H))).
Defined.
