(* ===== verification/RisingWaveController.v ===== *)
(** * pkg/controller/risingwave_controller.go: reconciling a RisingWave

    The workflow of a reconcile ([reactiveWorkflow], with the names of the source), the
    actions it adds to those of the manager, and [Reconcile] around it. The conditions of the
    RisingWave are the state of the machine: the barriers read them from the RisingWave as it
    was read, the marks write them to the copy, and the end of the reconcile writes the copy. *)

From S2P Require Import Prelude GoStrings ApiTypes ApiErrors ScaleHelper RisingWaveManager Workloads.
From S2P Require Import ManagerState WorkloadSync ManagerImpl EventRecorder ManagerActions CtrlKit.
From S2P Require Import ScaleLock.

Section controller.
Context {B : Type} `{E : ClusterEnv B} `{F : ObjectFactory B} `{O : RangeOrder} `{S : SliceSort}.
Context `{N : ConditionNames}.
Abbreviation Mgr := (risingWaveControllerManagerImpl B).
Abbreviation M := (GoM Mgr).

(** ** Definitions: the actions of the controller *)

Definition firstTimeObservedBarrier : action Mgr :=
  NewAction "BarrierFirstTimeObserved"
    (rw ← gets observed_rw; mret (ExitIf (negb (bool_decide (st_Conditions (rw_Status rw) = []))))).

(** A condition is set, or removed. *)
Definition mark (name type status : string) : action Mgr :=
  NewAction name (update_condition type status;; mret Continue).

Definition markConditionInitializingAsTrue : action Mgr :=
  mark "MarkConditionInitializingAsTrue" RisingWaveConditionInitializing ConditionTrue.
Definition markConditionRunningAsFalse : action Mgr :=
  mark "MarkConditionRunningAsFalse" RisingWaveConditionRunning ConditionFalse.
Definition markConditionRunningAsTrue : action Mgr :=
  mark "MarkConditionRunningAsTrue" RisingWaveConditionRunning ConditionTrue.
Definition markConditionUpgradingAsTrue : action Mgr :=
  mark "MarkConditionUpgradingAsTrue" RisingWaveConditionUpgrading ConditionTrue.
Definition markConditionUpgradingAsFalse : action Mgr :=
  mark "MarkConditionUpgradingAsFalse" RisingWaveConditionUpgrading ConditionFalse.

Definition removeConditionInitializing : action Mgr :=
  NewAction "RemoveConditionInitializing"
    (modify (on_manager (RemoveCondition RisingWaveConditionInitializing));; mret Continue).

(** Leaves the branch unless the observed condition has the status. *)
Definition condition_barrier (name type status : string) : action Mgr :=
  NewAction name
    (rw ← gets observed_rw;
     mret (ExitIf match GetCondition rw type with
                  | None => true
                  | Some c => negb (bool_decide (cond_Status c = status))
                  end)).

Definition conditionInitializingIsTrueBarrier : action Mgr :=
  condition_barrier "BarrierConditionInitializingIsTrue" RisingWaveConditionInitializing ConditionTrue.
Definition conditionRunningIsTrueBarrier : action Mgr :=
  condition_barrier "BarrierConditionRunningIsTrue" RisingWaveConditionRunning ConditionTrue.
Definition conditionRunningIsFalseBarrier : action Mgr :=
  condition_barrier "BarrierConditionRunningIsFalse" RisingWaveConditionRunning ConditionFalse.
Definition conditionUpgradingIsTrueBarrier : action Mgr :=
  condition_barrier "BarrierConditionUpgradingIsTrue" RisingWaveConditionUpgrading ConditionTrue.

Definition observedGenerationOutdatedBarrier : action Mgr :=
  NewAction "BarrierObservedGenerationOutdated"
    (rw ← gets observed_rw; mret (ExitIf (negb (IsObservedGenerationOutdated rw)))).

Definition syncObservedGeneration : action Mgr :=
  NewAction "SyncObservedGeneration" (modify (on_manager SyncObservedGeneration);; mret Continue).

Definition prometheusCRDsInstalledBarrier : action Mgr :=
  NewAction "BarrierPrometheusCRDsInstalled"
    (let name := crd_name "servicemonitor" "monitoring.coreos.com" in
     r ← read (fun t => api_get_crd t name) (GetCRDRequest name);
     mret match r with
          | Err e => if IsNotFound e then Exit
                     else RequeueIfErrorAndWrap "unable to find CRD for ServiceMonitor" (Some e)
          | Ok crd => ExitIf (negb (IsVersionServingInCustomResourceDefinition (Some crd) "v1"))
          end).

(** The locks whose scale view is still there, and is the one that took the lock. *)
Fixpoint alive_locks (ns : string) (scaleViews : list RisingWaveScaleViewLock)
  : M (result api_error (list RisingWaveScaleViewLock)) :=
  match scaleViews with
  | [] => mret (Ok [])
  | s :: scaleViews' =>
      r ← read (fun t => api_get_scale_view t ns (lk_Name s)) (GetScaleViewRequest ns (lk_Name s));
      match r with
      | Err e => if IsNotFound e then alive_locks ns scaleViews' else mret (Err e)
      | Ok scaleView =>
          if bool_decide (lk_Name s = sv_Name scaleView) && negb (bool_decide (lk_UID s = sv_UID scaleView))
          then alive_locks ns scaleViews'
          else
            alive ← alive_locks ns scaleViews';
            mret (l ← alive; Ok (s :: l))
      end
  end.

Definition releaseScaleViewLock : action Mgr :=
  NewAction "ReleaseScaleViewLock"
    (risingWave ← gets observed_rw;
     r ← alive_locks (om_Namespace (rw_Meta risingWave)) (st_ScaleViews (rw_Status risingWave));
     match r with
     | Err e => mret (RequeueIfErrorAndWrap "unable to get risingwavescaleview" (Some e))
     | Ok aliveScaleView => modify (on_manager (KeepLock aliveScaleView));; mret Continue
     end).

Definition set_root_path (path : string) (s : RisingWaveStatus) : RisingWaveStatus :=
  if bool_decide (st_StateStoreRootPath s = "") then
    {| st_ObservedGeneration := st_ObservedGeneration s; st_Version := st_Version s;
       st_ComponentReplicas := st_ComponentReplicas s; st_Conditions := st_Conditions s;
       st_ScaleViews := st_ScaleViews s; st_StateStoreRootPath := path;
       st_MetaStore := st_MetaStore s; st_StateStore := st_StateStore s |}
  else s.

Definition syncInternalStatus : action Mgr :=
  NewAction "SyncInternalStatus"
    (rw ← gets observed_rw;
     modify (on_manager (UpdateStatus (set_root_path (StateStoreRootPath rw))));; mret Continue).

(** ** Definitions: the workflow *)

(** [c.openKruiseAvailable] is also the switch of the manager. *)
Section workflow.
Context (risingwaveManger : RisingWaveManager).

Let openKruiseAvailable : bool := rwm_openkruiseAvailable risingwaveManger.
Let rw : RisingWave := rwm_risingwave risingwaveManger.

Definition syncConfigs : workflow Mgr := Action SyncConfigConfigMap.

Definition syncMetaComponent : workflow Mgr :=
  ParallelJoin [Action SyncMetaService; Action SyncMetaStatefulSets;
                If openKruiseAvailable (Action SyncMetaAdvancedStatefulSets)].

Definition metaComponentReadyBarrier : workflow Mgr :=
  Sequential [Action WaitBeforeMetaStatefulSetsReady;
              If openKruiseAvailable (Action WaitBeforeMetaAdvancedStatefulSetsReady);
              Timeout 1000 (Action WaitBeforeMetaServiceIsAvailable)].

Definition syncServiceMonitorIfPossible : workflow Mgr :=
  If (default false (rws_EnableDefaultServiceMonitor (rw_Spec rw)))
    (Sequential [Action prometheusCRDsInstalledBarrier; Action SyncServiceMonitor]).

Definition syncOtherComponents : workflow Mgr :=
  ParallelJoin
    [Sequential [Action SyncComputeService; Action SyncComputeStatefulSets;
                 If openKruiseAvailable (Action SyncComputeAdvancedStatefulSets)];
     ParallelJoin [Action SyncCompactorService; Action SyncCompactorDeployments;
                   If openKruiseAvailable (Action SyncCompactorCloneSets)];
     ParallelJoin [Action SyncFrontendService; Action SyncFrontendDeployments;
                   If openKruiseAvailable (Action SyncFrontendCloneSets)]].

Definition otherOpenKruiseComponentsReadyBarrier : workflow Mgr :=
  ParallelJoin [Action WaitBeforeFrontendCloneSetsReady;
                Action WaitBeforeComputeAdvancedStatefulSetsReady;
                Action WaitBeforeCompactorCloneSetsReady].

Definition otherComponentsReadyBarrier : workflow Mgr :=
  Join [Action WaitBeforeFrontendDeploymentsReady; Action WaitBeforeComputeStatefulSetsReady;
        Action WaitBeforeCompactorDeploymentsReady;
        If openKruiseAvailable otherOpenKruiseComponentsReadyBarrier].

Definition syncStandaloneComponent : workflow Mgr :=
  Join [Action SyncStandaloneService; Action SyncStandaloneStatefulSet;
        If openKruiseAvailable (Action SyncStandaloneAdvancedStatefulSet)].

Definition standaloneReadyBarrier : workflow Mgr :=
  Join [Action WaitBeforeStandaloneStatefulSetReady;
        If openKruiseAvailable (Action WaitBeforeStandaloneAdvancedStatefulSetReady)].

Definition syncAllComponents : workflow Mgr :=
  ParallelJoin [syncConfigs; syncMetaComponent; syncOtherComponents; syncStandaloneComponent].

Definition allComponentsReadyBarrier : workflow Mgr :=
  Join [metaComponentReadyBarrier; otherComponentsReadyBarrier; standaloneReadyBarrier].

Definition syncRunningStatus : workflow Mgr :=
  IfElse (IsStandaloneModeEnabled rw)
    (IfElse (IsOpenKruiseEnabled risingwaveManger)
       (Action CollectOpenKruiseRunningStatisticsAndSyncStatusForStandalone)
       (Action CollectRunningStatisticsAndSyncStatusForStandalone))
    (IfElse (IsOpenKruiseEnabled risingwaveManger)
       (Action CollectOpenKruiseRunningStatisticsAndSyncStatus)
       (Action CollectRunningStatisticsAndSyncStatus)).

Definition syncAllAndWait : workflow Mgr :=
  Sequential [Action syncObservedGeneration; syncConfigs; syncAllComponents; allComponentsReadyBarrier].

Definition sharedSyncAllAndWait : workflow Mgr := Shared syncAllAndWait.

Definition reactiveWorkflow : workflow Mgr :=
  ParallelJoin
    [Action syncInternalStatus;
     Sequential [Action firstTimeObservedBarrier; Action markConditionInitializingAsTrue;
                 Action markConditionRunningAsFalse];
     Sequential [Action conditionInitializingIsTrueBarrier; sharedSyncAllAndWait;
                 Action removeConditionInitializing];
     Sequential [Action conditionRunningIsFalseBarrier; sharedSyncAllAndWait;
                 Action markConditionRunningAsTrue];
     Sequential [Action conditionRunningIsTrueBarrier; Action observedGenerationOutdatedBarrier;
                 Action markConditionUpgradingAsTrue];
     Sequential [Action conditionUpgradingIsTrueBarrier; sharedSyncAllAndWait;
                 Action markConditionUpgradingAsFalse];
     syncRunningStatus;
     syncServiceMonitorIfPossible;
     Action releaseScaleViewLock].
End workflow.

(** ** Definitions: the reconcile *)

(** The status is written if it changed. *)
Definition updateRisingWaveStatus : action Mgr :=
  NewAction RisingWaveAction_UpdateRisingWaveStatusViaClient
    (mgr ← gets mi_risingwaveManager;
     t ← gets mi_trace;
     let '(err, reqs) :=
       UpdateRemoteRisingWaveStatus mgr (api_reply t (UpdateStatusRequest (rwm_mutable mgr))) in
     modify (fun m => foldl (fun m rw => log_request (UpdateStatusRequest rw) m) m reqs);;
     mret match err with
          | Some e => if IsNotFound e then NoRequeue
                      else if IsConflict e then RequeueAfter 10
                      else RequeueIfErrorAndWrap "unable to update status" (Some e)
          | None => RequeueIfErrorAndWrap "unable to update status" None
          end).

(** What [Reconcile] does before the workflow: it ends at once, or has the RisingWave to
    reconcile. [t] are the requests before. *)
Definition begin_reconcile (openKruiseAvailable forceUpdateEnabled : bool) (ns name : string)
    (t : list (request B)) : ctrl_result + Mgr :=
  match api_get_risingwave t ns name with
  | Err e => inl (if IsNotFound e then NoRequeue
                  else RequeueIfErrorAndWrap "unable to get risingwave" (Some e))
  | Ok risingwave =>
      if bool_decide (is_Some (om_Annotations (rw_Meta risingwave) !! AnnotationPauseReconcile))
      then inl NoRequeue
      else if om_Deleted (rw_Meta risingwave) then inl NoRequeue
      else inr (newRisingWaveControllerManagerImpl (NewRisingWaveManager risingwave openKruiseAvailable)
                  NewMessageStore forceUpdateEnabled (t ++ [GetRisingWaveRequest ns name]) 0)
  end.

(** A reconcile that runs its workflow: [run], then the update of the status. *)
Inductive reconciles (runs : workflow Mgr -> Mgr -> list (step Mgr) -> Mgr -> Prop)
    (openKruiseAvailable forceUpdateEnabled : bool) (ns name : string) (t : list (request B))
  : list (step Mgr) -> Mgr -> Prop :=
| reconcile_run m0 run m1 res m2 :
    begin_reconcile openKruiseAvailable forceUpdateEnabled ns name t = inr m0 ->
    runs (reactiveWorkflow (mi_risingwaveManager m0)) m0 run m1 ->
    a_body updateRisingWaveStatus m1 = Done (res, m2) ->
    reconciles runs openKruiseAvailable forceUpdateEnabled ns name t run m2.
End controller.

(** ** Releasing the locks of the scale views *)

Section release.
Context {B : Type} `{E : ClusterEnv B}.
Abbreviation Mgr := (risingWaveControllerManagerImpl B).

(** The locks [l'] are left of [l]: a lock goes when its scale view is not found, or another
    one has its name; at the time of one of the requests. *)
Inductive released (ns : string)
  : list RisingWaveScaleViewLock -> list RisingWaveScaleViewLock -> Prop :=
| released_nil : released ns [] []
| released_kept t s sv l l' :
    api_get_scale_view t ns (lk_Name s) = Ok sv ->
    (lk_Name s = sv_Name sv -> lk_UID s = sv_UID sv) ->
    released ns l l' -> released ns (s :: l) (s :: l')
| released_gone t s e l l' :
    api_get_scale_view t ns (lk_Name s) = Err e -> IsNotFound e = true ->
    released ns l l' -> released ns (s :: l) l'
| released_replaced t s sv l l' :
    api_get_scale_view t ns (lk_Name s) = Ok sv -> lk_Name s = sv_Name sv -> lk_UID s <> sv_UID sv ->
    released ns l l' -> released ns (s :: l) l'.

Lemma alive_locks_spec ns l m :
  wp (alive_locks ns l) (fun r m' => mi_risingwaveManager m' = mi_risingwaveManager m /\
    match r with Ok l' => released ns l l' | Err e => IsNotFound e = false end) m.
Proof.
  revert m. induction l as [|s l IH]; intros m; cbn.
  { apply wp_ret. split; [done|constructor]. }
  apply wp_bind. unfold read, wp at 1. cbn.
  destruct (api_get_scale_view (mi_trace m) ns (lk_Name s)) as [sv|e] eqn:Hget.
  - case_bool_decide as Hn; [case_bool_decide as Hu|]; cbn [andb negb].
    2: { eapply wp_mono; [apply IH|]. intros r m' (Hm & Hr). split; [done|]. destruct r; [|done].
         by eapply released_replaced. }
    all: apply wp_bind; (eapply wp_mono; [apply IH|]); intros r m' (Hm & Hr); apply wp_ret;
      (split; [done|]); destruct r; [cbn; by eapply released_kept|done].
  - destruct (IsNotFound e) eqn:He; [|by apply wp_ret].
    eapply wp_mono; [apply IH|]. intros r m' (Hm & Hr). split; [done|]. destruct r; [|done].
    by eapply released_gone.
Qed.

Lemma released_sublist ns l l' : released ns l l' -> l' `sublist_of` l.
Proof. induction 1; by constructor. Qed.

(** A reconcile removes a lock from a RisingWave only if its scale view is not there any
    more, or is another one under the same name; all the other locks stay, in their order, so
    that no group is locked twice if none was. If the API server can not tell, nothing is removed
    and the reconcile is repeated. *)
Theorem release_spec (m : Mgr) r m' :
  a_body releaseScaleViewLock m = Done (r, m') ->
  let locks (m : Mgr) := st_ScaleViews (rw_Status (rwm_mutable (mi_risingwaveManager m))) in
  let rw := observed_rw m in
  (r = Continue /\ released (om_Namespace (rw_Meta rw)) (st_ScaleViews (rw_Status rw)) (locks m') /\
     (locks_ok (st_ScaleViews (rw_Status rw)) -> locks_ok (locks m'))) \/
  (exists e, r = RequeueIfErrorAndWrap "unable to get risingwavescaleview" (Some e) /\
     IsNotFound e = false /\ mi_risingwaveManager m' = mi_risingwaveManager m).
Proof.
  intros Hr locks rw. cbn [a_body releaseScaleViewLock NewAction] in Hr.
  rewrite hooked_other in Hr by done. revert r m' Hr.
  enough (wp (rw0 ← gets observed_rw;
    r0 ← alive_locks (om_Namespace (rw_Meta rw0)) (st_ScaleViews (rw_Status rw0));
    match r0 with
    | Err e => mret (RequeueIfErrorAndWrap "unable to get risingwavescaleview" (Some e))
    | Ok alive => modify (on_manager (KeepLock alive));; mret Continue
    end) (fun r m' => (r = Continue /\ released (om_Namespace (rw_Meta rw))
        (st_ScaleViews (rw_Status rw)) (locks m')) \/
      (exists e, r = RequeueIfErrorAndWrap "unable to get risingwavescaleview" (Some e) /\
         IsNotFound e = false /\ mi_risingwaveManager m' = mi_risingwaveManager m)) m) as H.
  { intros r m' Hr. destruct (wp_run _ _ _ _ _ H Hr) as [[-> Hrel]|?]; [left|by right].
    split; [done|]. split; [done|]. by eapply locks_ok_sublist, released_sublist. }
  apply wp_bind, wp_gets, wp_bind. fold rw.
  eapply wp_mono; [apply alive_locks_spec|]. intros [alive|e] m1 (Hm & Hrel).
  - apply wp_bind, wp_modify, wp_ret. by left.
  - apply wp_ret. right. eauto.
Qed.

(** ** Writing the status *)

(** Whether the status that was computed differs from the one that was read. *)
Definition status_changed (m : Mgr) : Prop :=
  rw_Status (rwm_mutable (mi_risingwaveManager m)) <> rw_Status (observed_rw m).

Definition update_reply (m : Mgr) : option api_error :=
  api_reply (mi_trace m) (UpdateStatusRequest (rwm_mutable (mi_risingwaveManager m))).

(** At the end of a reconcile the status is written exactly if it changed, and the events
    of the conditions that have come to hold and of the warnings are recorded. They are also
    recorded when the API server refuses the status as outdated, and then again by the next
    reconcile. *)
Theorem updateRisingWaveStatus_spec (m : Mgr) :
  exists r m', a_body updateRisingWaveStatus m = Done (r, m') /\
    (~ status_changed m -> has_error r = false) /\
    (status_changed m -> forall e, update_reply m = Some e ->
       has_error r = negb (IsNotFound e) && negb (IsConflict e)) /\
    mi_trace m' = mi_trace m ++
      (if decide (rw_Status (rwm_mutable (mi_risingwaveManager m)) = rw_Status (observed_rw m))
       then [] else [UpdateStatusRequest (rwm_mutable (mi_risingwaveManager m))]) ++
      (if has_error r then []
       else event_request (mi_eventMessageStore m) <$>
              events_of (observed_rw m) (rwm_mutable (mi_risingwaveManager m)) (mi_eventMessageStore m)).
Proof.
  set (mgr := mi_risingwaveManager m). set (before := observed_rw m).
  set (after := rwm_mutable mgr).
  set (sent := if decide (rw_Status after = rw_Status before) then []
               else [UpdateStatusRequest after] : list (request B)).
  set (err := if decide (rw_Status after = rw_Status before) then None else update_reply m).
  set (r := match err with
            | Some e => if IsNotFound e then NoRequeue
                        else if IsConflict e then RequeueAfter 10
                        else RequeueIfErrorAndWrap "unable to update status" (Some e)
            | None => RequeueIfErrorAndWrap "unable to update status" None
            end).
  set (m1 := foldl (fun m r => log_request r m) m sent).
  assert (mi_trace m1 = mi_trace m ++ sent /\ mi_risingwaveManager m1 = mgr /\
    mi_eventMessageStore m1 = mi_eventMessageStore m) as (Htrace & Hmgr & Hstore).
  { unfold m1, sent. by case_decide; cbn; rewrite ?app_nil_r. }
  assert (a_body updateRisingWaveStatus m =
    (PostRun RisingWaveAction_UpdateRisingWaveStatusViaClient r;; mret r) m1) as Hbody.
  { unfold m1, sent, r, err. cbn [a_body updateRisingWaveStatus NewAction].
    unfold hooked, UpdateRemoteRisingWaveStatus, gets, modify, mbind, GoM_bind, mret, GoM_ret.
    fold mgr. change (rwm_risingwave mgr) with before. fold after. by case_decide. }
  assert ((~ status_changed m -> has_error r = false) /\
    (status_changed m -> forall e, update_reply m = Some e ->
       has_error r = negb (IsNotFound e) && negb (IsConflict e))) as [Hsame Hdiff].
  { unfold status_changed, r, err. fold mgr after before. case_decide as Hd; [tauto|].
    split; [tauto|]. intros _ e ->. by destruct (IsNotFound e), (IsConflict e). }
  rewrite Hbody. destruct (has_error r) eqn:He.
  - exists r, m1. rewrite He. split; [|by rewrite Htrace, app_nil_r].
    unfold PostRun, mbind, GoM_bind. by rewrite He.
  - pose proof (PostRun_records r m1 He) as Hp. unfold wp in Hp.
    unfold mbind, GoM_bind. destruct (PostRun _ r m1) as [[u m2]|]; [|done].
    exists r, m2. rewrite He. split; [done|]. split; [done|]. split; [done|].
    rewrite Hp, Hmgr, Hstore, log_trace, Htrace, <-app_assoc. unfold observed_rw. by rewrite Hmgr.
Qed.
End release.

(** ** Witnesses *)

Definition ex_lock (name uid : string) : RisingWaveScaleViewLock :=
  {| lk_Name := name; lk_UID := uid; lk_Component := "frontend"; lk_Generation := 1;
     lk_GroupLocks := [] |}.

Definition ex_scale_view (name uid : string) : RisingWaveScaleView :=
  {| sv_Meta := {| om_Name := name; om_Namespace := "default"; om_UID := uid; om_Generation := 1;
                   om_Labels := ∅; om_Annotations := ∅; om_Finalizers := []; om_Deleted := false |};
     sv_Spec := {| svs_TargetRef := {| tr_Name := "rw"; tr_Component := "frontend"; tr_UID := "" |};
                   svs_Replicas := None; svs_LabelSelector := ""; svs_ScalePolicy := [] |};
     sv_Status := {| svst_Replicas := None; svst_Locked := true |} |}.

(** Three locks: of a scale view that is there, of one that was replaced, of one that is gone. *)
Definition ex_locked : RisingWave :=
  set_rw_Status (set_st_ScaleViews [ex_lock "a" "1"; ex_lock "b" "2"; ex_lock "c" "3"] zero_status)
    zero_risingwave.

Definition ex_views_env : ClusterEnv unit :=
  {| api_reply := fun _ _ => None; api_get := fun _ _ _ _ => Err (NotFoundError "");
     api_list := fun _ _ _ _ => Ok [];
     api_get_scale_view := fun _ _ name =>
       if bool_decide (name = "c") then Err (NotFoundError name) else Ok (ex_scale_view name "1");
     api_get_risingwave := fun _ _ _ => Ok ex_locked; api_get_crd := fun _ _ => Err (NotFoundError "");
     ValidateOwnership := fun _ _ => true; GVKForObject := fun _ => None; clock := Z.of_nat |}.

Lemma release_spec_witness :
  exists m', a_body (releaseScaleViewLock (E := ex_views_env)) (new_manager ex_locked false false) =
      Done (Continue, m') /\
    st_ScaleViews (rw_Status (rwm_mutable (mi_risingwaveManager m'))) = [ex_lock "a" "1"] /\
    released (E := ex_views_env) "" [ex_lock "a" "1"; ex_lock "b" "2"; ex_lock "c" "3"]
      (st_ScaleViews (rw_Status (rwm_mutable (mi_risingwaveManager m')))).
Proof.
  eexists. split; [reflexivity|]. split; [reflexivity|].
  destruct (@release_spec unit ex_views_env (new_manager ex_locked false false) Continue _ eq_refl)
    as [(_ & H & _)|(e & H & _)]; [exact H|discriminate H].
Defined.
