(* ===== verification/ActionEffects.v ===== *)
(** * What the actions of a reconcile change in memory

    The actions that bring objects up to date or wait for them leave the manager of the
    RisingWave as it is; the others change the copy of the status, each in its way. Nothing
    changes the RisingWave as it was read. *)

From S2P Require Import Prelude GoStrings ApiTypes ApiErrors ScaleHelper RisingWaveManager Workloads.
From S2P Require Import ManagerState WorkloadSync ManagerImpl EventRecorder ManagerActions CtrlKit.
From S2P Require Import RisingWaveController.

Section effects.
Context {B : Type} `{E : ClusterEnv B} `{F : ObjectFactory B} `{O : RangeOrder} `{S : SliceSort}.
Context `{N : ConditionNames}.
Abbreviation Mgr := (risingWaveControllerManagerImpl B).
Abbreviation M := (GoM Mgr).

(** ** Operations that leave the manager alone *)

Section respects.
Context (R : relation RisingWaveManager) `{!PreOrder R}.

Lemma respects_syncObject k obj factory : respects R (syncObject k obj factory).
Proof. unfold syncObject, replace_object. respects_tac. Qed.

Lemma respects_delete_objects l : respects R (delete_objects l).
Proof. induction l; cbn; respects_tac. Qed.

Lemma respects_sync_objects k factory toSync groups :
  respects R (sync_objects k factory toSync groups).
Proof.
  induction groups; cbn; respects_tac. apply respects_syncObject.
Qed.

Lemma respects_syncComponent k component objects factory enabled :
  respects R (syncComponentGroupWorkloads k component objects factory enabled).
Proof.
  unfold syncComponentGroupWorkloads. respects_tac.
  - apply respects_delete_objects.
  - apply respects_sync_objects.
Qed.

Lemma respects_hooked name (f : M ctrl_result) : respects R f -> respects R (hooked name f).
Proof.
  intros Hf. unfold hooked, PostRun, recordConditionChangingEvents, recordStatesWarningEvents,
    record_if, recordEvent. respects_tac; try done; by apply respects_modify.
Qed.

Lemma respects_with_state {X} (get : M (result api_error X)) f :
  respects R get -> (forall x, respects R (f x)) -> respects R (with_state get f).
Proof. intros Hg Hf. unfold with_state. apply respects_bind; [done..|]. intros [x|e]; [done|].
  apply respects_ret; apply _. Qed.

Lemma respects_state_action {X} name (get : M (result api_error X)) f :
  respects R get -> (forall x, respects R (f x)) -> respects R (a_body (state_action name get f)).
Proof. intros Hg Hf. apply respects_with_state; [done|]. intros x. by apply respects_hooked. Qed.

(** The actions that bring objects up to date, or wait for them. *)
Definition quiet_actions : list (action Mgr) :=
  [SyncMetaService; SyncMetaStatefulSets; SyncMetaAdvancedStatefulSets;
   WaitBeforeMetaServiceIsAvailable; WaitBeforeMetaStatefulSetsReady;
   WaitBeforeMetaAdvancedStatefulSetsReady; SyncFrontendService; SyncFrontendDeployments;
   SyncFrontendCloneSets; WaitBeforeFrontendDeploymentsReady; WaitBeforeFrontendCloneSetsReady;
   SyncComputeService; SyncComputeStatefulSets; SyncComputeAdvancedStatefulSets;
   WaitBeforeComputeStatefulSetsReady; WaitBeforeComputeAdvancedStatefulSetsReady;
   SyncCompactorService; SyncCompactorDeployments; SyncCompactorCloneSets;
   WaitBeforeCompactorDeploymentsReady; WaitBeforeCompactorCloneSetsReady; SyncConfigConfigMap;
   SyncStandaloneService; SyncStandaloneStatefulSet; SyncStandaloneAdvancedStatefulSet;
   WaitBeforeStandaloneStatefulSetReady; WaitBeforeStandaloneAdvancedStatefulSetReady;
   SyncServiceMonitor; firstTimeObservedBarrier; conditionInitializingIsTrueBarrier;
   conditionRunningIsTrueBarrier; conditionRunningIsFalseBarrier; conditionUpgradingIsTrueBarrier;
   observedGenerationOutdatedBarrier; prometheusCRDsInstalledBarrier].

Lemma respects_sync_distributed msg k o f : respects R (sync_distributed msg k o f).
Proof. unfold sync_distributed, delete_owned. respects_tac. apply respects_syncObject. Qed.

Lemma respects_sync_always msg k o f : respects R (sync_always msg k o f).
Proof. unfold sync_always. respects_tac. apply respects_syncObject. Qed.

Lemma respects_sync_enabled msg k e o f : respects R e -> respects R (sync_enabled msg k e o f).
Proof.
  intros He. unfold sync_enabled, delete_owned. respects_tac. apply respects_sync_always.
Qed.

Lemma respects_wait_enabled k (e : M bool) o : respects R e -> respects R (wait_enabled k e o).
Proof. intros He. unfold wait_enabled. by respects_tac. Qed.

Lemma respects_wait_workloads k component (e : M bool) l :
  respects R e -> respects R (wait_workloads k component e l).
Proof. intros He. unfold wait_workloads. by respects_tac. Qed.

Lemma respects_kind (k : M bool) : k = plain_workloads \/ k = kruise_workloads -> respects R k.
Proof. intros [-> | ->]; by apply respects_gets. Qed.

Lemma quiet_respects a : a ∈ quiet_actions -> respects R (a_body a).
Proof.
  intros Ha. revert a Ha. apply Forall_forall.
  repeat apply Forall_cons_2; try apply Forall_nil_2;
  first [apply respects_state_action; [first [apply respects_get_state|apply respects_list_state]; apply _|];
    intros x; first [apply respects_sync_distributed|apply respects_sync_always
      |apply respects_sync_enabled; by apply respects_gets
      |apply respects_wait_enabled; by apply respects_gets
      |apply respects_wait_workloads, respects_kind; auto
      |unfold ManagerImpl.WaitBeforeMetaServiceIsAvailable; by respects_tac
      |apply respects_bind; [apply _|apply respects_kind; auto|]; intros e; apply respects_bind;
         [apply _|by apply respects_gets|]; intros rw; apply respects_syncComponent]
   |apply respects_hooked; cbv zeta; by respects_tac].
Qed.
End respects.

(** ** The others *)

Definition collect_names : list string :=
  ["CollectRunningStatisticsAndSyncStatus"; "CollectOpenKruiseRunningStatisticsAndSyncStatus";
   "CollectRunningStatisticsAndSyncStatusForStandalone";
   "CollectOpenKruiseRunningStatisticsAndSyncStatusForStandalone"].

(** One change of the manager by the action of that name. *)
Inductive effect : string -> relation RisingWaveManager :=
| effect_generation mgr : effect "SyncObservedGeneration" mgr (SyncObservedGeneration mgr)
| effect_initializing mgr now : effect "MarkConditionInitializingAsTrue" mgr
    (UpdateCondition now (plain_condition RisingWaveConditionInitializing ConditionTrue) mgr)
| effect_not_running mgr now : effect "MarkConditionRunningAsFalse" mgr
    (UpdateCondition now (plain_condition RisingWaveConditionRunning ConditionFalse) mgr)
| effect_running mgr now : effect "MarkConditionRunningAsTrue" mgr
    (UpdateCondition now (plain_condition RisingWaveConditionRunning ConditionTrue) mgr)
| effect_upgrading mgr now : effect "MarkConditionUpgradingAsTrue" mgr
    (UpdateCondition now (plain_condition RisingWaveConditionUpgrading ConditionTrue) mgr)
| effect_upgraded mgr now : effect "MarkConditionUpgradingAsFalse" mgr
    (UpdateCondition now (plain_condition RisingWaveConditionUpgrading ConditionFalse) mgr)
| effect_initialized mgr : effect "RemoveConditionInitializing" mgr
    (RemoveCondition RisingWaveConditionInitializing mgr)
| effect_locks mgr alive : effect "ReleaseScaleViewLock" mgr (KeepLock alive mgr)
| effect_internal mgr path : effect "SyncInternalStatus" mgr (UpdateStatus (set_root_path path) mgr)
| effect_report name mgr rw replicas : name ∈ collect_names ->
    effect name mgr (UpdateStatus (report_status rw replicas) mgr)
| effect_broken name mgr now : name ∈ collect_names -> effect name mgr
    (UpdateCondition now (plain_condition RisingWaveConditionRunning ConditionFalse) mgr).

Definition has_effect (a : action Mgr) : Prop := respects (rtc (effect (a_name a))) (a_body a).

Lemma respects_on_manager name f :
  (forall mgr, effect name mgr (f mgr)) ->
  respects (B := B) (rtc (effect name)) (modify (on_manager f)).
Proof. intros H. apply respects_modify. intros m. apply rtc_once, H. Qed.

Lemma respects_update_condition name type status :
  (forall mgr now, effect name mgr (UpdateCondition now (plain_condition type status) mgr)) ->
  respects (rtc (effect name)) (update_condition type status).
Proof. intros H. apply respects_modify. intros m. apply rtc_once, H. Qed.

Lemma quiet_has_effect a : a ∈ quiet_actions -> has_effect a.
Proof. intros Ha. apply quiet_respects; [apply _|done]. Qed.

Lemma mark_has_effect name type status :
  (forall mgr now, effect name mgr (UpdateCondition now (plain_condition type status) mgr)) ->
  has_effect (mark name type status).
Proof.
  intros H. apply respects_hooked; [apply _|]. apply respects_bind; [apply _| |intros _; respects_tac].
  by apply respects_update_condition.
Qed.

Lemma generation_has_effect : has_effect syncObservedGeneration.
Proof.
  apply respects_hooked; [apply _|]. apply respects_bind; [apply _| |intros _; respects_tac].
  apply respects_on_manager. constructor.
Qed.

Lemma initialized_has_effect : has_effect removeConditionInitializing.
Proof.
  apply respects_hooked; [apply _|]. apply respects_bind; [apply _| |intros _; respects_tac].
  apply respects_on_manager. constructor.
Qed.

Lemma internal_has_effect : has_effect syncInternalStatus.
Proof.
  apply respects_hooked; [apply _|]. apply respects_bind; [apply _|respects_tac|]. intros rw.
  apply respects_bind; [apply _| |intros _; respects_tac].
  apply respects_on_manager. constructor.
Qed.

Lemma respects_alive_locks R `{!PreOrder R} ns l : respects R (alive_locks ns l).
Proof.
  induction l as [|s l IH]; cbn; [respects_tac|].
  apply respects_bind; [apply _|respects_tac|]. intros [sv|e]; [|destruct (IsNotFound e); [done|respects_tac]].
  destruct (_ && _); [done|]. apply respects_bind; [apply _|done|]. intros a. respects_tac.
Qed.

Lemma release_has_effect : has_effect releaseScaleViewLock.
Proof.
  apply respects_hooked; [apply _|]. apply respects_bind; [apply _|respects_tac|]. intros rw.
  apply respects_bind; [apply _|apply respects_alive_locks; apply _|]. intros [l|e]; [|respects_tac].
  apply respects_bind; [apply _| |intros _; respects_tac]. apply respects_on_manager. constructor.
Qed.

Lemma respects_report_missing name table :
  name ∈ collect_names -> respects (rtc (effect name)) (report_missing table).
Proof.
  intros Hname. unfold report_missing. case_bool_decide; [respects_tac|].
  apply respects_bind; [apply _| |].
  { apply respects_update_condition. intros. by apply effect_broken. }
  intros _. apply respects_bind; [apply _|respects_tac|]. intros rw.
  apply respects_bind; [apply _| |intros _; respects_tac].
  destruct (DoesConditionExistAndEqual _ _ _); [by apply respects_modify|respects_tac].
Qed.

(** Reports, then what is missing. *)
Lemma respects_collect name replicas table (f : RisingWave -> M ctrl_result) :
  name ∈ collect_names ->
  (forall rw, f rw = (modify (on_manager (UpdateStatus (report_status rw (replicas rw))));;
                      report_missing (table rw))) ->
  respects (rtc (effect name)) (rw ← gets observed_rw; f rw).
Proof.
  intros Hname Hf. apply respects_bind; [apply _|respects_tac|]. intros rw. rewrite Hf.
  apply respects_bind; [apply _| |intros _; by apply respects_report_missing].
  apply respects_on_manager. intros mgr. by apply effect_report.
Qed.

Ltac collect_tac :=
  repeat (apply respects_with_state; [apply _|first [apply respects_get_state|apply respects_list_state];
    apply _|intros ?]);
  apply respects_hooked; [apply _|]; eapply respects_collect; [|reflexivity];
  unfold collect_names; rewrite !elem_of_cons; tauto.

Lemma collect_has_effect : Forall has_effect
  [CollectRunningStatisticsAndSyncStatus; CollectOpenKruiseRunningStatisticsAndSyncStatus;
   CollectRunningStatisticsAndSyncStatusForStandalone;
   CollectOpenKruiseRunningStatisticsAndSyncStatusForStandalone].
Proof. repeat (apply Forall_cons_2); try apply Forall_nil_2; collect_tac. Qed.

(** Finds an action in a list, by its name. *)
Ltac find_action :=
  lazymatch goal with
  | |- ?a ∈ ?a :: _ => apply list_elem_of_here
  | |- _ ∈ _ :: _ => apply list_elem_of_further; find_action
  end.

Ltac known_action :=
  lazymatch goal with
  | |- has_effect markConditionInitializingAsTrue => apply mark_has_effect; constructor
  | |- has_effect markConditionRunningAsFalse => apply mark_has_effect; constructor
  | |- has_effect markConditionRunningAsTrue => apply mark_has_effect; constructor
  | |- has_effect markConditionUpgradingAsTrue => apply mark_has_effect; constructor
  | |- has_effect markConditionUpgradingAsFalse => apply mark_has_effect; constructor
  | |- has_effect syncObservedGeneration => apply generation_has_effect
  | |- has_effect removeConditionInitializing => apply initialized_has_effect
  | |- has_effect syncInternalStatus => apply internal_has_effect
  | |- has_effect releaseScaleViewLock => apply release_has_effect
  | |- _ => first [solve [apply quiet_has_effect; unfold quiet_actions; find_action]
                  |eapply Forall_forall; [apply collect_has_effect|]; find_action]
  end.

Lemma syncAllAndWait_effects mgr : Forall has_effect (actions (syncAllAndWait mgr)).
Proof.
  unfold syncAllAndWait, syncAllComponents, allComponentsReadyBarrier, syncConfigs,
    syncMetaComponent, syncOtherComponents, syncStandaloneComponent, metaComponentReadyBarrier,
    otherComponentsReadyBarrier, otherOpenKruiseComponentsReadyBarrier, standaloneReadyBarrier.
  forall_actions; known_action.
Qed.

(** Every action of a reconcile changes the manager only as its name says. *)
Lemma workflow_effects mgr : Forall has_effect (actions (reactiveWorkflow mgr)).
Proof.
  unfold reactiveWorkflow, syncRunningStatus, syncServiceMonitorIfPossible, sharedSyncAllAndWait.
  forall_actions; lazymatch goal with
  | |- Forall _ (actions (syncAllAndWait _)) => apply syncAllAndWait_effects
  | |- _ => known_action
  end.
Qed.
End effects.
