(* ===== verification/RisingWaveReconcile.v ===== *)
(** * What a reconcile of a RisingWave does to its conditions

    Theorems about [RisingWaveController.reactiveWorkflow], for every way [ctrlkit] may run
    it: which conditions can change and when, that a cluster is only reported running after
    all its components were seen up to date and rolled out, and that it is then reported. *)

From S2P Require Import Prelude GoStrings ApiTypes ApiErrors ScaleHelper RisingWaveManager Workloads.
From S2P Require Import ManagerState WorkloadSync ManagerImpl EventRecorder ManagerActions CtrlKit.
From S2P Require Import RisingWaveController ActionEffects.

(** ** The effects on the conditions *)

Definition status_in (mgr : RisingWaveManager) (type : string) : option string :=
  cond_Status <$> lookup_condition (conditions mgr) type.

(** What the action of a name can write for a condition. *)
Inductive writes : string -> string -> option string -> Prop :=
| writes_initializing : writes "MarkConditionInitializingAsTrue" "Initializing" (Some "True")
| writes_initialized : writes "RemoveConditionInitializing" "Initializing" None
| writes_not_running : writes "MarkConditionRunningAsFalse" "Running" (Some "False")
| writes_running : writes "MarkConditionRunningAsTrue" "Running" (Some "True")
| writes_upgrading : writes "MarkConditionUpgradingAsTrue" "Upgrading" (Some "True")
| writes_upgraded : writes "MarkConditionUpgradingAsFalse" "Upgrading" (Some "False")
| writes_broken name : name ∈ collect_names -> writes name "Running" (Some "False").

Lemma effect_keeps name mgr mgr' :
  effect name mgr mgr' ->
  rwm_risingwave mgr' = rwm_risingwave mgr /\
  rwm_openkruiseAvailable mgr' = rwm_openkruiseAvailable mgr /\
  (NoDup (cond_types (conditions mgr)) -> NoDup (cond_types (conditions mgr'))).
Proof.
  intros H. unfold conditions.
  destruct H; cbn; (split; [done|]); (split; [done|]); intros Hnd; try done;
    try (by apply put_condition_NoDup); try (by apply remove_condition_NoDup).
  by unfold set_root_path; case_bool_decide.
Qed.

Lemma status_update now type status mgr t :
  NoDup (cond_types (conditions mgr)) ->
  status_in (UpdateCondition now (plain_condition type status) mgr) t =
  if decide (t = type) then Some status else status_in mgr t.
Proof.
  intros Hnd. unfold status_in.
  destruct (UpdateCondition_stores now (plain_condition type status) mgr Hnd) as [Hc Ho].
  case_decide as Ht; [subst|by rewrite Ho].
  change type with (cond_Type (plain_condition type status)) at 2. rewrite Hc. cbn.
  by rewrite stamp_status.
Qed.

Lemma effect_status name mgr mgr' type :
  NoDup (cond_types (conditions mgr)) -> effect name mgr mgr' ->
  status_in mgr' type = status_in mgr type \/ writes name type (status_in mgr' type).
Proof.
  intros Hnd H. destruct H; rewrite ?status_update by done;
    try (case_decide; [subst; right; by constructor|by left]); try (by left).
  - destruct (decide (type = RisingWaveConditionInitializing)) as [->|Ht].
    + right. assert (status_in (RemoveCondition RisingWaveConditionInitializing mgr)
        RisingWaveConditionInitializing = None) as ->; [|constructor].
      unfold status_in. by rewrite RemoveCondition_lookup, decide_True.
    + left. unfold status_in. by rewrite RemoveCondition_lookup, decide_False.
  - left. unfold status_in, conditions. cbn. unfold set_root_path. by case_bool_decide.
Qed.

Lemma effects_status name mgr mgr' type :
  rtc (effect name) mgr mgr' -> NoDup (cond_types (conditions mgr)) ->
  (status_in mgr' type = status_in mgr type \/ writes name type (status_in mgr' type)) /\
  NoDup (cond_types (conditions mgr')) /\ rwm_risingwave mgr' = rwm_risingwave mgr /\
  rwm_openkruiseAvailable mgr' = rwm_openkruiseAvailable mgr.
Proof.
  induction 1 as [mgr|mgr mgr1 mgr2 H _ IH]; intros Hnd; [by auto|].
  destruct (effect_keeps _ _ _ H) as (Hrw & Hok & Hnd1).
  destruct (IH (Hnd1 Hnd)) as (Hs & Hnd2 & Hrw2 & Hok2).
  split; [|split; [done|split; congruence]].
  destruct Hs as [Hs|Hs]; [rewrite Hs; by apply effect_status|by right].
Qed.

(** ** The places of the workflow *)

Section reconcile.
Context {B : Type} `{E : ClusterEnv B} `{F : ObjectFactory B} `{O : RangeOrderOk} `{S : SliceSortOk}.
Context `{N : ConditionNames}.
Abbreviation Mgr := (risingWaveControllerManagerImpl B).

(** What comes before an action that marks a condition. *)
Definition required (mgr : RisingWaveManager) (name : string) : option (list string) :=
  let all := names (syncAllAndWait mgr) in
  if bool_decide (name = "MarkConditionInitializingAsTrue") then Some ["BarrierFirstTimeObserved"]
  else if bool_decide (name = "MarkConditionRunningAsFalse")
  then Some ["BarrierFirstTimeObserved"; "MarkConditionInitializingAsTrue"]
  else if bool_decide (name = "RemoveConditionInitializing")
  then Some ("BarrierConditionInitializingIsTrue" :: all)
  else if bool_decide (name = "MarkConditionRunningAsTrue")
  then Some ("BarrierConditionRunningIsFalse" :: all)
  else if bool_decide (name = "MarkConditionUpgradingAsTrue")
  then Some ["BarrierConditionRunningIsTrue"; "BarrierObservedGenerationOutdated"]
  else if bool_decide (name = "MarkConditionUpgradingAsFalse")
  then Some ("BarrierConditionUpgradingIsTrue" :: all)
  else None.

(** The four conditions the shape of the workflow depends on. *)
Ltac by_shape mgr tac :=
  unfold reactiveWorkflow, syncRunningStatus, syncServiceMonitorIfPossible, sharedSyncAllAndWait,
    syncAllAndWait, syncAllComponents, allComponentsReadyBarrier, syncConfigs,
    syncMetaComponent, syncOtherComponents, syncStandaloneComponent, metaComponentReadyBarrier,
    otherComponentsReadyBarrier, otherOpenKruiseComponentsReadyBarrier, standaloneReadyBarrier,
    If, IfElse;
  destruct (rwm_openkruiseAvailable mgr), (IsOpenKruiseEnabled mgr),
    (IsStandaloneModeEnabled (rwm_risingwave mgr)),
    (default false (rws_EnableDefaultServiceMonitor (rw_Spec (rwm_risingwave mgr)))); tac.

Lemma places_required mgr before name gs :
  (before, name) ∈ places (reactiveWorkflow mgr) -> required mgr name = Some gs -> before = gs.
Proof.
  intros Hin. assert (forallb (fun p => match required mgr p.2 with
      | Some gs => bool_decide (p.1 = gs) | None => true end) (places (reactiveWorkflow mgr)) = true)
    as Hall by (unfold required; by_shape mgr ltac:(vm_compute; reflexivity)).
  rewrite forallb_forall in Hall. apply list_elem_of_In, Hall in Hin. cbn in Hin.
  intros Hgs. rewrite Hgs in Hin. by case_bool.
Qed.

(** The action of a name is the one the workflow was built with. *)
Ltac named_tac :=
  unfold reactiveWorkflow, syncRunningStatus, syncServiceMonitorIfPossible, sharedSyncAllAndWait,
    syncAllAndWait, syncAllComponents, allComponentsReadyBarrier, syncConfigs,
    syncMetaComponent, syncOtherComponents, syncStandaloneComponent, metaComponentReadyBarrier,
    otherComponentsReadyBarrier, otherOpenKruiseComponentsReadyBarrier, standaloneReadyBarrier;
  forall_actions; intros Hn; first [discriminate Hn|reflexivity].

Definition named (mgr : RisingWaveManager) (x : action Mgr) : Prop :=
  Forall (fun a => a_name a = a_name x -> a = x) (actions (reactiveWorkflow mgr)).

Lemma named_barriers mgr :
  named mgr firstTimeObservedBarrier /\ named mgr conditionInitializingIsTrueBarrier /\
  named mgr conditionRunningIsTrueBarrier /\ named mgr conditionRunningIsFalseBarrier /\
  named mgr conditionUpgradingIsTrueBarrier /\ named mgr observedGenerationOutdatedBarrier.
Proof. unfold named. repeat split; named_tac. Qed.

Lemma named_running_mark mgr : named mgr markConditionRunningAsTrue.
Proof. unfold named. named_tac. Qed.

Lemma named_release mgr : named mgr releaseScaleViewLock.
Proof. unfold named. named_tac. Qed.

Lemma named_waits mgr :
  named mgr WaitBeforeMetaStatefulSetsReady /\ named mgr WaitBeforeFrontendDeploymentsReady /\
  named mgr WaitBeforeComputeStatefulSetsReady /\ named mgr WaitBeforeCompactorDeploymentsReady /\
  named mgr WaitBeforeMetaAdvancedStatefulSetsReady /\ named mgr WaitBeforeFrontendCloneSetsReady /\
  named mgr WaitBeforeComputeAdvancedStatefulSetsReady /\ named mgr WaitBeforeCompactorCloneSetsReady.
Proof. unfold named. repeat split; named_tac. Qed.

Lemma named_standalone_waits mgr :
  named mgr WaitBeforeStandaloneStatefulSetReady /\ named mgr WaitBeforeStandaloneAdvancedStatefulSetReady.
Proof. unfold named. repeat split; named_tac. Qed.

(** The action that collects the state, by the mode of the cluster. *)
Definition collect_action (mgr : RisingWaveManager) : action Mgr :=
  if IsStandaloneModeEnabled (rwm_risingwave mgr) then
    if IsOpenKruiseEnabled mgr then CollectOpenKruiseRunningStatisticsAndSyncStatusForStandalone
    else CollectRunningStatisticsAndSyncStatusForStandalone
  else if IsOpenKruiseEnabled mgr then CollectOpenKruiseRunningStatisticsAndSyncStatus
  else CollectRunningStatisticsAndSyncStatus.

Lemma collected_by mgr :
  Forall (fun a => a_name a ∈ collect_names -> a = collect_action mgr) (actions (reactiveWorkflow mgr)).
Proof.
  unfold reactiveWorkflow, syncRunningStatus, syncServiceMonitorIfPossible, sharedSyncAllAndWait,
    syncAllAndWait, syncAllComponents, allComponentsReadyBarrier, syncConfigs,
    syncMetaComponent, syncOtherComponents, syncStandaloneComponent, metaComponentReadyBarrier,
    otherComponentsReadyBarrier, otherOpenKruiseComponentsReadyBarrier, standaloneReadyBarrier,
    collect_action.
  destruct (IsStandaloneModeEnabled (rwm_risingwave mgr)), (IsOpenKruiseEnabled mgr); cbn [IfElse];
    forall_actions; intros Hn; first [reflexivity|by apply elem_of_existsb in Hn].
Qed.

(** ** What a step has read *)

(** In the course of [x], [get] has answered [v]. *)
Definition seen {A} (x : step Mgr) (get : GoM Mgr (result api_error A)) (v : A) : Prop :=
  exists m m', sends (fun _ => True) (s_before x) m /\ get m = Done (Ok v, m') /\
    mi_trace m' `prefix_of` mi_trace (s_after x).

(** The same up to a state in the middle of a step from [m0]. *)
Definition sees {A} (m0 : Mgr) (get : GoM Mgr (result api_error A)) (v : A) (m : Mgr) : Prop :=
  exists m1 m2, sends (fun _ => True) m0 m1 /\ get m1 = Done (Ok v, m2) /\ sends (fun _ => True) m2 m.

Lemma sees_mono {A} m0 (get : GoM Mgr (result api_error A)) v m m' :
  sees m0 get v m -> sends (fun _ => True) m m' -> sees m0 get v m'.
Proof. intros (m1 & m2 & H1 & H2 & H3) Hm. exists m1, m2. eauto using sends_trans. Qed.

Lemma sees_seen {A} x (get : GoM Mgr (result api_error A)) v m :
  sees (s_before x) get v m -> mi_trace (s_after x) = mi_trace m -> seen x get v.
Proof.
  intros (m1 & m2 & H1 & H2 & (rs & H3 & _)%sends_trace) Ht. exists m1, m2.
  split_and!; [done..|]. rewrite Ht. by exists rs.
Qed.

(** Reads only send requests. *)
Definition reads {A} (get : GoM Mgr A) : Prop := forall m a m', get m = Done (a, m') -> sends (fun _ => True) m m'.

Lemma get_state_reads what k name : reads (get_state what k name).
Proof.
  intros m a m'. unfold get_state, mbind, GoM_bind, gets, read, mret, GoM_ret. intros [= _ <-].
  by apply sends_one.
Qed.
Lemma list_state_reads what k component : reads (list_state what k component).
Proof.
  intros m a m'. unfold list_state, mbind, GoM_bind, gets, read, mret, GoM_ret. intros [= _ <-].
  by apply sends_one.
Qed.

(** A state is read first, or the step ends there. *)
Lemma with_state_sees {A} (get : GoM Mgr (result api_error A)) f m0 m r m' :
  with_state get f m = Done (r, m') -> reads get -> sends (fun _ => True) m0 m ->
  sends (fun _ => True) m0 m' \/
  exists v m1, sees m0 get v m1 /\ sends (fun _ => True) m m1 /\ sends (fun _ => True) m0 m1 /\
    f v m1 = Done (r, m').
Proof.
  intros H Hr Hm. unfold with_state, mbind, GoM_bind in H.
  destruct (get m) as [[[v|e] m1]|] eqn:Hg; [| |done]; pose proof (Hr _ _ _ Hg) as Hs.
  - right. exists v, m1. split; [|split; [done|split; [by eapply sends_trans|done]]].
    exists m, m1. split_and!; [done..|]. apply sends_refl.
  - left. unfold mret, GoM_ret in H. injection H as _ <-. by eapply sends_trans.
Qed.

(** ** One run *)

Definition observed_status (rw : RisingWave) (type : string) : option string :=
  cond_Status <$> GetCondition rw type.

(** How a reconcile may change the status of a condition, given whether every action that brings
    the components up to date or waits for them let the workflow go on ([ready]), and whether
    something the cluster needs was seen to be missing ([missing]). *)
Inductive transition (rw : RisingWave) (ready missing : Prop)
  : string -> option string -> option string -> Prop :=
| transition_none type s : transition rw ready missing type s s
| transition_initializing :
    st_Conditions (rw_Status rw) = [] ->
    transition rw ready missing "Initializing" None (Some "True")
| transition_not_running :
    st_Conditions (rw_Status rw) = [] ->
    transition rw ready missing "Running" None (Some "False")
| transition_initialized :
    ready -> transition rw ready missing "Initializing" (Some "True") None
| transition_running :
    ready -> transition rw ready missing "Running" (Some "False") (Some "True")
| transition_broken s :
    missing -> transition rw ready missing "Running" s (Some "False")
| transition_upgrading s :
    observed_status rw "Running" = Some "True" -> IsObservedGenerationOutdated rw = true ->
    transition rw ready missing "Upgrading" s (Some "True")
| transition_upgraded :
    ready -> transition rw ready missing "Upgrading" (Some "True") (Some "False").

(** The workloads of the components: their kind, the name of the state, the component, and
    the action that waits for them. *)
Definition workload_waits (kruise : bool) : list (object_kind * string * string * string) :=
  if kruise then
    [(KAdvancedStatefulSet, "metaAdvancedStatefulSets", "meta", "WaitBeforeMetaAdvancedStatefulSetsReady");
     (KCloneSet, "frontendCloneSets", "frontend", "WaitBeforeFrontendCloneSetsReady");
     (KAdvancedStatefulSet, "computeAdvancedStatefulSets", "compute",
      "WaitBeforeComputeAdvancedStatefulSetsReady");
     (KCloneSet, "compactorCloneSets", "compactor", "WaitBeforeCompactorCloneSetsReady")]
  else
    [(KStatefulSet, "metaStatefulSets", "meta", "WaitBeforeMetaStatefulSetsReady");
     (KDeployment, "frontendDeployments", "frontend", "WaitBeforeFrontendDeploymentsReady");
     (KStatefulSet, "computeStatefulSets", "compute", "WaitBeforeComputeStatefulSetsReady");
     (KDeployment, "compactorDeployments", "compactor", "WaitBeforeCompactorDeploymentsReady")].

Lemma waits_included mgr kruise k what component name :
  (kruise = true -> rwm_openkruiseAvailable mgr = true) ->
  (k, what, component, name) ∈ workload_waits kruise -> name ∈ names (syncAllAndWait mgr).
Proof.
  intros Hk Hin. assert (forallb (fun w => bool_decide (w.2 ∈ names (syncAllAndWait mgr)))
    (workload_waits kruise) = true) as Hall.
  { destruct kruise.
    - specialize (Hk eq_refl). by_shape mgr ltac:(first [discriminate Hk|vm_compute; reflexivity]).
    - by_shape mgr ltac:(vm_compute; reflexivity). }
  rewrite forallb_forall in Hall. apply list_elem_of_In, Hall in Hin. by case_bool.
Qed.

Section run.
Context (runs : workflow Mgr -> Mgr -> list (step Mgr) -> Mgr -> Prop) `{HR : !Runs runs}.
Context (m0 : Mgr) (run : list (step Mgr)) (m1 : Mgr).
Context (Hrun : runs (reactiveWorkflow (mi_risingwaveManager m0)) m0 run m1).
Context (Hnd : NoDup (cond_types (conditions (mi_risingwaveManager m0)))).

Let mgr0 : RisingWaveManager := mi_risingwaveManager m0.

Lemma step_effect x :
  x ∈ run -> rtc (effect (a_name (s_action x))) (mi_risingwaveManager (s_before x))
    (mi_risingwaveManager (s_after x)).
Proof.
  intros Hx. pose proof (runs_actions _ _ _ _ _ Hrun Hx) as Ha.
  pose proof (chained_step _ _ _ _ (runs_chained _ _ _ _ Hrun) Hx) as Hb.
  pose proof (workflow_effects mgr0) as Hall. rewrite Forall_forall in Hall.
  apply (wlp_run _ _ _ _ _ (Hall _ Ha (s_before x)) Hb).
Qed.

(** What a run never changes, at its end and before each step. *)
Definition same_source (m : Mgr) : Prop :=
  NoDup (cond_types (conditions (mi_risingwaveManager m))) /\
  observed_rw m = observed_rw m0 /\
  rwm_openkruiseAvailable (mi_risingwaveManager m) = rwm_openkruiseAvailable mgr0.

Lemma run_source : same_source m1 /\ forall x, x ∈ run -> same_source (s_before x).
Proof.
  apply (chained_invariant same_source m0 run m1 (runs_chained _ _ _ _ Hrun)); [|done].
  intros x Hx (Hn & Hrw & Hok) _.
  destruct (effects_status _ _ _ "" (step_effect x Hx) Hn) as (_ & Hn' & Hrw' & Hok').
  split; [done|]. split; [unfold observed_rw in *; congruence|congruence].
Qed.

(** A step of a named action does what the action does. *)
Lemma passed_named pre post a :
  run = pre ++ post -> named mgr0 a -> passed pre (a_name a) ->
  exists x, x ∈ pre /\ same_source (s_before x) /\
    a_body a (s_before x) = Done (s_result x, s_after x) /\ continues (s_result x) = true.
Proof.
  intros Hpre Hn (x & Hx & Hname & Hc).
  assert (x ∈ run) as Hxr by (rewrite Hpre; apply elem_of_app; by left).
  pose proof (runs_actions _ _ _ _ _ Hrun Hxr) as Ha.
  unfold named in Hn. rewrite Forall_forall in Hn. apply Hn in Ha; [|done].
  exists x. split; [done|]. split; [by apply run_source|].
  rewrite <-Ha. split; [|done]. exact (chained_step _ _ _ _ (runs_chained _ _ _ _ Hrun) Hxr).
Qed.

Lemma barrier_passed pre post name type status :
  run = pre ++ post -> named mgr0 (condition_barrier name type status) ->
  name <> RisingWaveAction_UpdateRisingWaveStatusViaClient ->
  passed pre name -> observed_status (observed_rw m0) type = Some status.
Proof.
  intros Hpre Hn Hname Hp.
  destruct (passed_named pre post _ Hpre Hn Hp) as (x & _ & (_ & Hrw & _) & Hb & Hc).
  cbn [a_body condition_barrier NewAction] in Hb. rewrite hooked_other in Hb by done.
  unfold mbind, GoM_bind, gets, mret, GoM_ret in Hb. injection Hb as Hr _. rewrite <-Hr, Hrw in Hc.
  unfold observed_status. destruct (GetCondition (observed_rw m0) type) as [c|]; [|done]. cbn.
  destruct (bool_decide_reflect (cond_Status c = status)); [by f_equal|done].
Qed.

Lemma first_time_passed pre post :
  run = pre ++ post -> passed pre "BarrierFirstTimeObserved" ->
  st_Conditions (rw_Status (observed_rw m0)) = [].
Proof.
  intros Hpre Hp. destruct (named_barriers mgr0) as (Hn & _).
  destruct (passed_named pre post _ Hpre Hn Hp) as (x & _ & (_ & Hrw & _) & Hb & Hc).
  cbn [a_body firstTimeObservedBarrier NewAction] in Hb. rewrite hooked_other in Hb by done.
  unfold mbind, GoM_bind, gets, mret, GoM_ret in Hb. injection Hb as Hr _. rewrite <-Hr, Hrw in Hc.
  by destruct (bool_decide_reflect (st_Conditions (rw_Status (observed_rw m0)) = [])).
Qed.

Lemma outdated_passed pre post :
  run = pre ++ post -> passed pre "BarrierObservedGenerationOutdated" ->
  IsObservedGenerationOutdated (observed_rw m0) = true.
Proof.
  intros Hpre Hp. destruct (named_barriers mgr0) as (_ & _ & _ & _ & _ & Hn).
  destruct (passed_named pre post _ Hpre Hn Hp) as (x & _ & (_ & Hrw & _) & Hb & Hc).
  cbn [a_body observedGenerationOutdatedBarrier NewAction] in Hb. rewrite hooked_other in Hb by done.
  unfold mbind, GoM_bind, gets, mret, GoM_ret in Hb. injection Hb as Hr _. rewrite <-Hr, Hrw in Hc.
  by destruct (IsObservedGenerationOutdated (observed_rw m0)).
Qed.

(** What came before a mark. *)
Lemma mark_required pre x post gs :
  run = pre ++ x :: post -> required mgr0 (a_name (s_action x)) = Some gs -> Forall (passed pre) gs.
Proof.
  intros Hpre Hgs. destruct (runs_ordered _ _ _ _ _ _ _ Hrun Hpre) as (before & Hin & Hp).
  by rewrite <-(places_required _ _ _ _ Hin Hgs).
Qed.

Definition everything_ready : Prop := Forall (passed run) (names (syncAllAndWait mgr0)).

(** What a cluster needs, by its mode: services, the configuration, a standalone node; and the
    workloads of the node groups, which a standalone cluster has not. *)
Definition needed_objects : list (GoM Mgr (result api_error (option (Object B)))) :=
  if standalone_enabled m0 then
    [GetStandaloneService; GetConfigConfigMap;
     if openkruise_enabled m0 then GetStandaloneAdvancedStatefulSet else GetStandaloneStatefulSet]
  else [GetFrontendService; GetMetaService; GetComputeService; GetCompactorService; GetConfigConfigMap].
Definition needed_workloads : list (object_kind * string * string * string) :=
  if standalone_enabled m0 then [] else workload_waits (openkruise_enabled m0).

(** In the course of [x] a needed object was found to be missing, or of the workloads of a
    component that of a node group. *)
Definition saw_missing (x : step Mgr) : Prop :=
  (exists get, get ∈ needed_objects /\ seen x get None) \/
  (exists k what component name l, (k, what, component, name) ∈ needed_workloads /\
     seen x (list_state what k component) l /\ group_lacking (observed_rw m0) (component, l)).

Definition missing_seen : Prop := exists x, x ∈ run /\ saw_missing x.

(** The end of a collection: what it lacks makes it write the condition. *)
Lemma collect_writes (g : RisingWave -> RisingWaveStatus -> RisingWaveStatus) table (m : Mgr) r m' :
  (rw ← gets observed_rw; modify (on_manager (UpdateStatus (g rw)));; report_missing (table rw)) m = Done (r, m') ->
  (forall rw s, st_Conditions (g rw s) = st_Conditions s) -> NoDup (cond_types (conditions (mi_risingwaveManager m))) ->
  mi_trace m' = mi_trace m /\
  (status_in (mi_risingwaveManager m') "Running" <> status_in (mi_risingwaveManager m) "Running" ->
   existsb fst (table (observed_rw m)) = true).
Proof.
  intros Hr Hg Hn. pose proof (collect_spec (g (observed_rw m)) (table (observed_rw m)) m (Hg _) Hn) as Hwp.
  unfold wp in Hwp. unfold mbind at 1, GoM_bind at 1, gets in Hr. rewrite Hr in Hwp.
  destruct Hwp as [_ Hc]. split; [apply Hc|]. intros Hne.
  destruct (existsb fst _); [done|]. destruct Hne. unfold status_in.
  by rewrite (co_kept _ _ _ _ Hc eq_refl : conditions (mi_risingwaveManager m') = _).
Qed.

Lemma same_status (m m' : Mgr) type :
  sends (fun _ => True) m m' ->
  status_in (mi_risingwaveManager m') type = status_in (mi_risingwaveManager m) type.
Proof. intros H. by rewrite (sends_manager _ _ _ H). Qed.

(** Reads the next state in [H]; when that fails the status is as it was. *)
Ltac read_next x H Hne :=
  let Hstep := fresh "Hstep" in
  apply with_state_sees with (m0 := s_before x) in H;
    [|first [apply get_state_reads|apply list_state_reads]|first [apply sends_refl|eassumption]];
  destruct H as [H|(? & ? & ? & Hstep & ? & H)]; [exfalso; apply Hne; by apply same_status|];
  repeat match goal with
  | Hs : sees _ _ _ ?m, H' : sends _ ?m ?m' |- _ => apply (sees_mono _ _ _ m m') in Hs; [|exact H']
  end;
  match type of Hstep with sends _ ?m _ =>
    clear Hstep; try match goal with Hall : sends _ _ m |- _ => clear Hall end end.

(** What is left of [H] is the collection itself: its table says that something is missing. *)
Ltac collection x H Hne Hn Hrw :=
  rewrite hooked_other in H by done;
  match type of H with _ ?m = _ =>
    let Hm := fresh "Hm" in
    assert (sends (fun _ => True) (s_before x) m) as Hm by eassumption;
    cbv beta delta [ManagerImpl.CollectRunningStatisticsAndSyncStatus
      ManagerImpl.CollectOpenKruiseRunningStatisticsAndSyncStatus
      ManagerImpl.CollectRunningStatisticsAndSyncStatusForStandalone
      ManagerImpl.CollectOpenKruiseRunningStatisticsAndSyncStatusForStandalone] in H; cbv zeta in H;
    let Ht := fresh "Ht" in
    apply collect_writes in H as [Ht H]; [|done|by rewrite (sends_manager _ _ _ Hm)];
    rewrite (same_status _ _ _ Hm) in H; rewrite ?(sends_rw _ _ _ Hm), ?Hrw in H; specialize (H Hne)
  end.

Ltac missing_object := left; eexists; split; [|eapply sees_seen; eassumption];
  repeat first [apply list_elem_of_here|apply list_elem_of_further].
Ltac missing_group H := right; do 5 eexists; split_and!; [|eapply sees_seen; [|eassumption]|exact H]; [|eassumption];
  repeat first [apply list_elem_of_here|apply list_elem_of_further].

Ltac collected_standalone x H Hne Hn Hrw :=
  do 3 read_next x H Hne; collection x H Hne Hn Hrw;
  cbn [existsb fst] in H; rewrite !orb_true_iff in H; unfold is_nil in H; rewrite !bool_decide_eq_true in H;
  destruct H as [->|[->|[->|H]]]; [missing_object..|discriminate H].

Ltac collected_distributed x H Hne Hn Hrw :=
  do 9 read_next x H Hne; collection x H Hne Hn Hrw; apply lacking_table in H as [H|H];
  [rewrite !elem_of_cons in H; destruct H as [<-|[<-|[<-|[<-|[<-|H%not_elem_of_nil]]]]]; [missing_object..|done]
  |rewrite !Exists_cons, Exists_nil in H; destruct H as [H|[H|[H|[H|[]]]]]; missing_group H].

(** The step that collects the state writes the condition only when it has seen something
    missing. *)
Lemma collect_sees x :
  x ∈ run -> a_name (s_action x) ∈ collect_names ->
  status_in (mi_risingwaveManager (s_after x)) "Running" <>
    status_in (mi_risingwaveManager (s_before x)) "Running" -> saw_missing x.
Proof.
  intros Hx Hname Hne. pose proof (collected_by mgr0) as Hby. rewrite Forall_forall in Hby.
  pose proof (Hby _ (runs_actions _ _ _ _ _ Hrun Hx) Hname) as Ha.
  pose proof (chained_step _ _ _ _ (runs_chained _ _ _ _ Hrun) Hx) as Hb. rewrite Ha in Hb.
  destruct (proj2 run_source x Hx) as (Hn & Hrw & _).
  unfold saw_missing, needed_objects, needed_workloads, collect_action in *.
  change (standalone_enabled m0) with (IsStandaloneModeEnabled (rwm_risingwave mgr0)).
  change (openkruise_enabled m0) with (IsOpenKruiseEnabled mgr0).
  destruct (IsStandaloneModeEnabled (rwm_risingwave mgr0)), (IsOpenKruiseEnabled mgr0); cbn [a_body] in Hb.
  - collected_standalone x Hb Hne Hn Hrw.
  - collected_standalone x Hb Hne Hn Hrw.
  - collected_distributed x Hb Hne Hn Hrw.
  - collected_distributed x Hb Hne Hn Hrw.
Qed.

Lemma passed_prefix pre post gs : run = pre ++ post -> Forall (passed pre) gs -> Forall (passed run) gs.
Proof.
  intros Hpre H. eapply Forall_impl; [exact H|]. intros name. rewrite Hpre. apply passed_app.
Qed.

Lemma writes_transition pre x post type v :
  run = pre ++ x :: post -> writes (a_name (s_action x)) type v ->
  (type = "Running" -> a_name (s_action x) ∈ collect_names -> saw_missing x) ->
  transition (observed_rw m0) everything_ready missing_seen type
    (observed_status (observed_rw m0) type) v.
Proof.
  intros Hpre Hw Hsaw. pose proof (mark_required pre x post) as Hreq.
  destruct (named_barriers mgr0) as (_ & Hni & Hnt & Hnf & Hnu & _).
  assert (x ∈ run) as Hx by (rewrite Hpre; apply elem_of_app; right; left).
  remember (a_name (s_action x)) as name eqn:Hname.
  assert (forall type, st_Conditions (rw_Status (observed_rw m0)) = [] ->
    observed_status (observed_rw m0) type = None) as Hempty.
  { intros t Ht. unfold observed_status, GetCondition. by rewrite Ht. }
  destruct Hw.
  - specialize (Hreq _ Hpre eq_refl). apply Forall_cons in Hreq as [Hb _].
    pose proof (first_time_passed _ _ Hpre Hb) as Hc. rewrite Hempty by done. by constructor.
  - specialize (Hreq _ Hpre eq_refl). apply Forall_cons in Hreq as [Hb Hall].
    assert (observed_status (observed_rw m0) "Initializing" = Some "True") as ->
      by exact (barrier_passed _ _ _ _ _ Hpre Hni ltac:(done) Hb).
    constructor. by eapply passed_prefix.
  - specialize (Hreq _ Hpre eq_refl). apply Forall_cons in Hreq as [Hb _].
    pose proof (first_time_passed _ _ Hpre Hb) as Hc. rewrite Hempty by done. by constructor.
  - specialize (Hreq _ Hpre eq_refl). apply Forall_cons in Hreq as [Hb Hall].
    assert (observed_status (observed_rw m0) "Running" = Some "False") as ->
      by exact (barrier_passed _ _ _ _ _ Hpre Hnf ltac:(done) Hb).
    constructor. by eapply passed_prefix.
  - specialize (Hreq _ Hpre eq_refl). apply Forall_cons in Hreq as [Hb Ho].
    apply Forall_cons in Ho as [Ho _]. constructor.
    + exact (barrier_passed _ _ _ _ _ Hpre Hnt ltac:(done) Hb).
    + by eapply outdated_passed.
  - specialize (Hreq _ Hpre eq_refl). apply Forall_cons in Hreq as [Hb Hall].
    assert (observed_status (observed_rw m0) "Upgrading" = Some "True") as ->
      by exact (barrier_passed _ _ _ _ _ Hpre Hnu ltac:(done) Hb).
    constructor. by eapply passed_prefix.
  - apply transition_broken. exists x. split; [done|]. by apply Hsaw.
Qed.

(** The status of a condition at the end comes from the last step that wrote it. *)
Lemma conditions_change type :
  rwm_mutable mgr0 = rwm_risingwave mgr0 ->
  transition (observed_rw m0) everything_ready missing_seen type
    (observed_status (observed_rw m0) type) (status_in (mi_risingwaveManager m1) type).
Proof.
  intros Hfresh.
  assert (conditions mgr0 = st_Conditions (rw_Status (observed_rw m0))) as Hc0
    by (unfold conditions; by rewrite Hfresh).
  destruct (chained_last_change (fun m => status_in (mi_risingwaveManager m) type) m0 run m1
    (runs_chained _ _ _ _ Hrun)) as [Heq|(pre & x & post & Hpre & Hne & Heq)].
  - assert (status_in (mi_risingwaveManager m1) type = observed_status (observed_rw m0) type) as ->
      by (rewrite Heq; fold mgr0; unfold status_in; by rewrite Hc0).
    constructor.
  - cbn beta in Heq. rewrite Heq.
    assert (x ∈ run) as Hx by (rewrite Hpre; apply elem_of_app; right; left).
    destruct (proj2 run_source x Hx) as (Hn & _).
    destruct (effects_status _ _ _ type (step_effect x Hx) Hn) as ([Hs|Hw] & _); [done|].
    eapply writes_transition; [done..|]. intros -> Hcol. by apply collect_sees.
Qed.

(** ** What was seen *)

(** When workloads of Kubernetes, or of OpenKruise, are expected. *)
Definition kind_expected (kruise : bool) : bool :=
  (if kruise then openkruise_enabled m0 else negb (openkruise_enabled m0)) &&
  negb (standalone_enabled m0).

(** At some step the API server listed the workloads [l] of the component, and they were one
    or more for each node group, none for another group, each current and rolled out; none at
    all where the kind is not expected. *)
Definition seen_ready (kruise : bool) (k : object_kind) (what component : string) : Prop :=
  exists x l m' groups, x ∈ run /\ list_state what k component (s_before x) = Done (Ok l, m') /\
    buildExpectedGroupSet (observed_rw m0) component = Done groups /\
    (forall o, o ∈ l -> group_of o ∈ (if kind_expected kruise then groups else ∅) /\
       isObjectSynced (observed_rw m0) (Some o) = true /\ rolled_out k (Some o) = true) /\
    (forall g, g ∈ (if kind_expected kruise then groups else ∅) -> g ∈ group_of <$> l).

Lemma same_source_enabled m : same_source m ->
  openkruise_enabled m = openkruise_enabled m0 /\ standalone_enabled m = standalone_enabled m0.
Proof.
  intros (_ & Hrw & Hok). unfold openkruise_enabled, standalone_enabled, IsOpenKruiseEnabled,
    IsOpenKruiseAvailable. unfold observed_rw in *. fold mgr0 in Hrw |- *. rewrite Hok. split; congruence.
Qed.

(** A wait that lets the workflow continue has seen its component ready. *)
Lemma wait_workloads_continues (kruise : bool) k component l (m : Mgr) r m' :
  wait_workloads k component (if kruise then kruise_workloads else plain_workloads) l m =
    Done (r, m') -> continues r = true ->
  exists groups, buildExpectedGroupSet (observed_rw m) component = Done groups /\
    let expected := if (if kruise then openkruise_enabled m else negb (openkruise_enabled m)) &&
      negb (standalone_enabled m) then groups else ∅ in
    (forall o, o ∈ l -> group_of o ∈ expected /\
       isObjectSynced (observed_rw m) (Some o) = true /\ rolled_out k (Some o) = true) /\
    (forall g, g ∈ expected -> g ∈ group_of <$> l).
Proof.
  intros Hw Hc.
  assert (exists groups, buildExpectedGroupSet (observed_rw m) component = Done groups /\
    r = waitComponentGroupWorkloadsReady
      (if (if kruise then openkruise_enabled m else negb (openkruise_enabled m)) &&
          negb (standalone_enabled m) then groups else ∅) l
      (fun t => isObjectSynced (observed_rw m) (Some t) && rolled_out k (Some t))) as (groups & Hg & Hr).
  { unfold wait_workloads, mbind, GoM_bind, kruise_workloads, plain_workloads, gets, lift in Hw.
    destruct kruise; cbv beta iota in Hw;
      destruct (buildExpectedGroupSet (observed_rw m) component) as [groups|];
      try discriminate Hw; exists groups; (split; [done|]); by injection Hw as <- _. }
  exists groups. split; [done|]. intros expected. fold expected in Hr.
  assert (r = Continue) as Hcont.
  { rewrite Hr in Hc |- *. unfold waitComponentGroupWorkloadsReady in *.
    repeat match goal with |- (if ?b then _ else _) = _ => destruct b end; done. }
  rewrite Hr in Hcont. apply wait_Continue_iff in Hcont as [Hl He]. split; [|done].
  intros o Ho. destruct (Hl o Ho) as [Hin Hb]. split_bools. done.
Qed.

Lemma wait_sees (kruise : bool) k what component name :
  named mgr0 (state_action name (list_state what k component)
    (wait_workloads k component (if kruise then kruise_workloads else plain_workloads))) ->
  name <> RisingWaveAction_UpdateRisingWaveStatusViaClient ->
  passed run name -> seen_ready kruise k what component.
Proof.
  intros Hn Hname Hp.
  destruct (passed_named run [] _ (eq_sym (app_nil_r _)) Hn Hp) as (x & Hx & Hsrc & Hb & Hc).
  cbn [a_body state_action] in Hb. unfold with_state, mbind, GoM_bind in Hb.
  pose proof (respects_list_state eq what k component (s_before x)) as Hkeep. unfold wlp in Hkeep.
  destruct (list_state what k component (s_before x)) as [[[l|e] m']|] eqn:Hl; [| |done].
  2: { unfold mret, GoM_ret in Hb. injection Hb as Hr _. by rewrite <-Hr in Hc. }
  rewrite hooked_other in Hb by done.
  destruct (wait_workloads_continues _ _ _ _ _ _ _ Hb Hc) as (groups & Hg & Hready & Hall).
  destruct (same_source_enabled _ Hsrc) as [Hk Hs]. destruct Hsrc as (_ & Hrw & _).
  unfold openkruise_enabled, standalone_enabled, observed_rw in Hg, Hready, Hall, Hk, Hs, Hrw.
  rewrite <-Hkeep, ?Hrw in Hg, Hready, Hall. rewrite Hk in Hready, Hall.
  exists x, l, m', groups. split; [done|]. split; [done|]. split; [done|]. by split.
Qed.

Lemma all_seen (kruise : bool) k what component name :
  everything_ready -> (kruise = true -> rwm_openkruiseAvailable mgr0 = true) ->
  (k, what, component, name) ∈ workload_waits kruise -> seen_ready kruise k what component.
Proof.
  intros Hall Hk Hin. pose proof (waits_included mgr0 kruise _ _ _ _ Hk Hin) as Hname.
  unfold everything_ready in Hall. rewrite Forall_forall in Hall. apply Hall in Hname.
  destruct (named_waits mgr0) as (H1 & H2 & H3 & H4 & H5 & H6 & H7 & H8).
  destruct kruise; unfold workload_waits in Hin; rewrite !elem_of_cons in Hin;
    destruct Hin as [Hin|[Hin|[Hin|[Hin|Hin%not_elem_of_nil]]]]; try done; injection Hin as -> -> -> ->;
    (eapply wait_sees; [|..|exact Hname]; [|discriminate]); assumption.
Qed.

(** The standalone node was read and was current and rolled out, as the stateful set of the kind
    that is expected. *)
Definition standalone_seen_ready : Prop :=
  exists x o, x ∈ run /\
    (if openkruise_enabled m0
     then exists m', GetStandaloneAdvancedStatefulSet (s_before x) = Done (Ok (Some o), m')
     else exists m', GetStandaloneStatefulSet (s_before x) = Done (Ok (Some o), m')) /\
    isObjectSynced (observed_rw m0) (Some o) = true /\
    rolled_out (if openkruise_enabled m0 then KAdvancedStatefulSet else KStatefulSet) (Some o) = true.

Lemma standalone_waits_included :
  "WaitBeforeStandaloneStatefulSetReady" ∈ names (syncAllAndWait mgr0) /\
  (rwm_openkruiseAvailable mgr0 = true ->
   "WaitBeforeStandaloneAdvancedStatefulSetReady" ∈ names (syncAllAndWait mgr0)).
Proof.
  assert (bool_decide ("WaitBeforeStandaloneStatefulSetReady" ∈ names (syncAllAndWait mgr0)) &&
    (negb (rwm_openkruiseAvailable mgr0) ||
     bool_decide ("WaitBeforeStandaloneAdvancedStatefulSetReady" ∈ names (syncAllAndWait mgr0))) = true) as H
    by by_shape mgr0 ltac:(vm_compute; reflexivity).
  apply andb_true_iff in H as [H1 H2]. apply bool_decide_eq_true in H1. split; [done|]. intros Hk.
  rewrite Hk in H2. by apply bool_decide_eq_true in H2.
Qed.

(** A wait for the standalone node that lets the workflow continue has seen it ready. *)
Lemma wait_standalone_sees name k (e : Mgr -> bool) what n :
  named mgr0 (state_action name (get_state what k n) (wait_enabled k (gets e))) ->
  name <> RisingWaveAction_UpdateRisingWaveStatusViaClient ->
  (forall m, same_source m -> e m = true) -> passed run name ->
  exists x o m', x ∈ run /\ get_state what k n (s_before x) = Done (Ok (Some o), m') /\
    isObjectSynced (observed_rw m0) (Some o) = true /\ rolled_out k (Some o) = true.
Proof.
  intros Hn Hname He Hp.
  destruct (passed_named run [] _ (eq_sym (app_nil_r _)) Hn Hp) as (x & Hx & Hsrc & Hb & Hc).
  cbn [a_body state_action] in Hb. unfold with_state, mbind, GoM_bind in Hb.
  pose proof (get_state_reads what k n (s_before x)) as Hreads.
  destruct (get_state what k n (s_before x)) as [[[o|err] m']|] eqn:Hg; [| |done].
  2: { unfold mret, GoM_ret in Hb. injection Hb as Hr _. by rewrite <-Hr in Hc. }
  specialize (Hreads _ _ eq_refl). rewrite hooked_other in Hb by done.
  unfold wait_enabled, mbind, GoM_bind, gets, mret, GoM_ret in Hb. injection Hb as Hr _.
  assert (same_source m') as Hsrc'.
  { unfold same_source, observed_rw. by rewrite (sends_manager _ _ _ Hreads). }
  rewrite He in Hr by done. destruct Hsrc' as (_ & Hrw & _). rewrite Hrw in Hr.
  destruct (isObjectSynced (observed_rw m0) o && rolled_out k o) eqn:Hok; rewrite <-Hr in Hc; [|done].
  apply andb_true_iff in Hok as [H1 H2]. destruct o as [o|]; [|by destruct k].
  exists x, o, m'. by split_and!.
Qed.

Lemma standalone_seen :
  everything_ready -> standalone_enabled m0 = true -> standalone_seen_ready.
Proof.
  intros Hall Hs. unfold everything_ready in Hall. rewrite Forall_forall in Hall.
  destruct standalone_waits_included as [Hin1 Hin2]. destruct (named_standalone_waits mgr0) as [Hn1 Hn2].
  unfold standalone_seen_ready. destruct (openkruise_enabled m0) eqn:Hk.
  - assert (rwm_openkruiseAvailable mgr0 = true) as Hok.
    { unfold openkruise_enabled, IsOpenKruiseEnabled, IsOpenKruiseAvailable in Hk. fold mgr0 in Hk.
      by destruct (rwm_openkruiseAvailable mgr0). }
    destruct (wait_standalone_sees _ _ _ _ _ Hn2 ltac:(discriminate)) as (x & o & m' & Hx & Hg & Ho).
    + intros m Hsrc. destruct (same_source_enabled m Hsrc) as [-> ->]. by rewrite Hk, Hs.
    + by apply Hall, Hin2.
    + exists x, o. split; [done|]. split; [by exists m'|done].
  - destruct (wait_standalone_sees _ _ _ _ _ Hn1 ltac:(discriminate)) as (x & o & m' & Hx & Hg & Ho).
    + intros m Hsrc. destruct (same_source_enabled m Hsrc) as [-> ->]. by rewrite Hk, Hs.
    + by apply Hall.
    + exists x, o. split; [done|]. split; [by exists m'|done].
Qed.

(** ** Running to the end *)

Lemma running_branch :
  ([], "BarrierConditionRunningIsFalse") ∈ places (reactiveWorkflow mgr0) /\
  part (places (reactiveWorkflow mgr0)) ["BarrierConditionRunningIsFalse"] (syncAllAndWait mgr0) /\
  ("BarrierConditionRunningIsFalse" :: names (syncAllAndWait mgr0), "MarkConditionRunningAsTrue")
    ∈ places (reactiveWorkflow mgr0).
Proof.
  assert (bool_decide (([], "BarrierConditionRunningIsFalse") ∈ places (reactiveWorkflow mgr0)) &&
    bool_decide (("BarrierConditionRunningIsFalse" :: names (syncAllAndWait mgr0),
      "MarkConditionRunningAsTrue") ∈ places (reactiveWorkflow mgr0)) &&
    forallb (fun p => bool_decide (("BarrierConditionRunningIsFalse" :: p.1, p.2)
      ∈ places (reactiveWorkflow mgr0))) (places (syncAllAndWait mgr0)) = true) as H
    by (by_shape mgr0 ltac:(vm_compute; reflexivity)).
  apply andb_true_iff in H as [H Hall]. apply andb_true_iff in H as [H1 H2].
  split; [by apply bool_decide_eq_true in H1|]. split; [|by apply bool_decide_eq_true in H2].
  intros b n Hin. rewrite forallb_forall in Hall. apply list_elem_of_In, Hall in Hin.
  by apply bool_decide_eq_true in Hin.
Qed.

(** A cluster that is not running passes the barrier of that branch. *)
Lemma running_barrier_passes :
  observed_status (observed_rw m0) "Running" = Some "False" ->
  passed run "BarrierConditionRunningIsFalse".
Proof.
  intros Hobs. destruct running_branch as (Hin & _).
  destruct (runs_complete _ _ _ _ _ _ Hrun Hin (List.Forall_nil _)) as (x & Hx & Hname).
  exists x. split; [done|]. split; [done|].
  destruct (named_barriers mgr0) as (_ & _ & _ & Hn & _). unfold named in Hn. rewrite Forall_forall in Hn.
  pose proof (Hn _ (runs_actions _ _ _ _ _ Hrun Hx) Hname) as Ha.
  pose proof (chained_step _ _ _ _ (runs_chained _ _ _ _ Hrun) Hx) as Hb. rewrite Ha in Hb.
  destruct (proj2 run_source x Hx) as (_ & Hrw & _).
  cbn [a_body conditionRunningIsFalseBarrier condition_barrier NewAction] in Hb.
  rewrite hooked_other in Hb by done.
  unfold mbind, GoM_bind, gets, mret, GoM_ret in Hb. injection Hb as Hr _. rewrite <-Hr, Hrw.
  unfold observed_status in Hobs. change "Running" with RisingWaveConditionRunning in Hobs.
  destruct (GetCondition (observed_rw m0) RisingWaveConditionRunning) as [c|]; [|done].
  cbn in Hobs. injection Hobs as ->. by rewrite bool_decide_true.
Qed.

(** The mark makes it running. *)
Lemma mark_sets_running x :
  x ∈ run -> a_name (s_action x) = "MarkConditionRunningAsTrue" ->
  status_in (mi_risingwaveManager (s_after x)) "Running" = Some "True".
Proof.
  intros Hx Hname. pose proof (named_running_mark mgr0) as Hn. unfold named in Hn.
  rewrite Forall_forall in Hn.
  pose proof (Hn _ (runs_actions _ _ _ _ _ Hrun Hx) Hname) as Ha.
  pose proof (chained_step _ _ _ _ (runs_chained _ _ _ _ Hrun) Hx) as Hb. rewrite Ha in Hb.
  destruct (proj2 run_source x Hx) as (Hn' & _).
  cbn [a_body markConditionRunningAsTrue mark NewAction] in Hb. rewrite hooked_other in Hb by done.
  unfold update_condition, modify, mbind, GoM_bind, mret, GoM_ret in Hb. injection Hb as _ <-.
  cbn [mi_risingwaveManager tick on_manager]. rewrite status_update by done.
  by rewrite decide_True.
Qed.

(** In a cluster that was not running nothing else writes the condition, unless the state that
    was collected lacks something. *)
Lemma running_change y :
  y ∈ run -> observed_status (observed_rw m0) "Running" = Some "False" ->
  (forall x, x ∈ run -> a_name (s_action x) ∈ collect_names ->
     status_in (mi_risingwaveManager (s_after x)) "Running" =
     status_in (mi_risingwaveManager (s_before x)) "Running") ->
  status_in (mi_risingwaveManager (s_after y)) "Running" <>
    status_in (mi_risingwaveManager (s_before y)) "Running" ->
  status_in (mi_risingwaveManager (s_after y)) "Running" = Some "True".
Proof.
  intros Hy Hobs Hcollect Hne. destruct (proj2 run_source y Hy) as (Hn & _).
  destruct (effects_status _ _ _ "Running" (step_effect y Hy) Hn) as ([Hs|Hw] & _); [done|].
  pose proof Hy as (pre & post & Hpre)%list_elem_of_split.
  pose proof (mark_required pre y post) as Hreq.
  inversion Hw as [| |Hname Ht Hv|Hname Ht Hv| | |name Hname Ht Hv]; [|done|].
  - rewrite <-Hname in Hreq. specialize (Hreq _ Hpre eq_refl). apply Forall_cons in Hreq as [Hb _].
    pose proof (first_time_passed _ _ Hpre Hb) as Hc. unfold observed_status, GetCondition in Hobs.
    by rewrite Hc in Hobs.
  - by rewrite Hcollect in Hne.
Qed.

Lemma becomes_running_run :
  observed_status (observed_rw m0) "Running" = Some "False" ->
  lets_continue run (names (syncAllAndWait mgr0)) ->
  (forall x, x ∈ run -> a_name (s_action x) ∈ collect_names ->
     status_in (mi_risingwaveManager (s_after x)) "Running" =
     status_in (mi_risingwaveManager (s_before x)) "Running") ->
  status_in (mi_risingwaveManager m1) "Running" = Some "True".
Proof.
  intros Hobs Hcont Hcollect. pose proof (running_barrier_passes Hobs) as Hbar.
  destruct running_branch as (_ & Hpart & Hmark).
  pose proof (fun b n => runs_complete _ _ _ _ b n Hrun) as Hcomplete.
  assert (Forall (passed run) (names (syncAllAndWait mgr0))) as Hall.
  { apply (all_passed run _ Hcomplete _ ["BarrierConditionRunningIsFalse"]); [done| |done].
    by apply Forall_singleton. }
  destruct (Hcomplete _ _ Hmark) as (x & Hx & Hname); [by apply Forall_cons|].
  pose proof (mark_sets_running x Hx Hname) as Htrue.
  apply list_elem_of_split in Hx as (l1 & l2 & Hl).
  pose proof (runs_chained _ _ _ _ Hrun) as Hch. rewrite Hl in Hch.
  apply chained_app in Hch as (m & _ & (_ & _ & Hch)).
  destruct (chained_last_change (fun m => status_in (mi_risingwaveManager m) "Running") _ _ _ Hch)
    as [Heq|(pre & y & post & Hl2 & Hne & Heq)]; cbn beta in Heq; [congruence|].
  rewrite Heq. apply (running_change y); [|done..].
  rewrite Hl, Hl2. rewrite !elem_of_app, !elem_of_cons, elem_of_app, elem_of_cons. tauto.
Qed.
End run.

(** ** Properties *)

(** What is read is as the API server stores it: one condition of a type. *)
Definition one_of_a_type : Prop := forall t ns name rw,
  api_get_risingwave t ns name = Ok rw -> NoDup (cond_types (st_Conditions (rw_Status rw))).

Lemma begin_fresh ok force ns name t m0 :
  begin_reconcile ok force ns name t = inr m0 -> one_of_a_type ->
  rwm_mutable (mi_risingwaveManager m0) = observed_rw m0 /\
  NoDup (cond_types (conditions (mi_risingwaveManager m0))) /\
  rwm_openkruiseAvailable (mi_risingwaveManager m0) = ok /\
  api_get_risingwave t ns name = Ok (observed_rw m0).
Proof.
  unfold begin_reconcile. intros H Hone. destruct (api_get_risingwave t ns name) as [rw|e] eqn:Hrw; [|done].
  repeat case_match; try done. injection H as <-. split; [done|]. split; [by eapply Hone|]. done.
Qed.

Section properties.
Context (runs : workflow Mgr -> Mgr -> list (step Mgr) -> Mgr -> Prop) `{HR : !Runs runs}.


(** C1: A cluster that is running after a reconcile and was not before had been marked as not
    running, and was seen to be ready in this reconcile. The API server listed the workloads
    of each of the four components. Of the kinds that are expected (those of OpenKruise when the
    cluster uses it, those of Kubernetes otherwise, in a cluster that is not standalone) there
    were one or more for each node group and none for another group, all of them built
    from the generation the reconcile read or a newer one and rolled out; of the other kinds
    there were none (those of OpenKruise are looked for where it is available). In a standalone
    cluster, where none of these is expected, the stateful set of the standalone node was there,
    of the expected kind, current and rolled out. *)
Theorem running_when_ready ok force ns name t m0 run m1 :
  one_of_a_type -> begin_reconcile ok force ns name t = inr m0 ->
  runs (reactiveWorkflow (mi_risingwaveManager m0)) m0 run m1 ->
  status_in (mi_risingwaveManager m1) "Running" = Some "True" ->
  observed_status (observed_rw m0) "Running" <> Some "True" ->
  observed_status (observed_rw m0) "Running" = Some "False" /\
  (forall kruise k what component wait, (kruise = true -> ok = true) ->
    (k, what, component, wait) ∈ workload_waits kruise -> seen_ready m0 run kruise k what component) /\
  (standalone_enabled m0 = true -> standalone_seen_ready m0 run).
Proof.
  intros Hone Hb Hrun Hrunning Hbefore.
  destruct (begin_fresh _ _ _ _ _ _ Hb Hone) as (Hfresh & Hnd & Hok & _).
  pose proof (conditions_change runs m0 run m1 Hrun Hnd "Running" Hfresh) as Ht.
  rewrite Hrunning in Ht. inversion Ht as [| | | | Hready | | |]; [congruence|].
  split; [done|]. split; [|by eapply standalone_seen].
  intros kruise k what component wait Hk Hin.
  eapply (all_seen runs); [exact Hrun|exact Hnd|exact Hready| |exact Hin].
  intros Hkt. rewrite Hok. auto.
Qed.

(** A cluster that is not running is running after a reconcile in which every action that
    brings the components up to date, or waits for them, lets the workflow continue, and the
    state that was collected lacks nothing: nothing in the workflow can hold it back. *)
Theorem becomes_running ok force ns name t m0 run m1 :
  one_of_a_type -> begin_reconcile ok force ns name t = inr m0 ->
  runs (reactiveWorkflow (mi_risingwaveManager m0)) m0 run m1 ->
  observed_status (observed_rw m0) "Running" = Some "False" ->
  lets_continue run (names (syncAllAndWait (mi_risingwaveManager m0))) ->
  (forall x, x ∈ run -> a_name (s_action x) ∈ collect_names ->
     status_in (mi_risingwaveManager (s_after x)) "Running" =
     status_in (mi_risingwaveManager (s_before x)) "Running") ->
  status_in (mi_risingwaveManager m1) "Running" = Some "True".
Proof.
  intros Hone Hb Hrun. destruct (begin_fresh _ _ _ _ _ _ Hb Hone) as (_ & Hnd & _).
  by eapply becomes_running_run.
Qed.
End properties.
End reconcile.

(** ** Witnesses *)

(** A RisingWave without node groups that is not running; its services and configuration
    exist. *)
Definition ex_stopped : RisingWave :=
  set_rw_Status (set_st_Conditions [ex_condition "Running" "False" (Some 10%Z)] zero_status)
    zero_risingwave.

Definition ex_ready_env : ClusterEnv unit :=
  {| api_reply := fun _ _ => None;
     api_get := fun _ k _ name =>
       match k with
       | KService | KConfigMap => Ok (sample_object k name ∅ 0)
       | _ => Err (NotFoundError name)
       end;
     api_list := fun _ _ _ _ => Ok [];
     api_get_scale_view := fun _ _ _ => Err (NotFoundError "");
     api_get_risingwave := fun _ _ _ => Ok ex_stopped;
     api_get_crd := fun _ _ => Err (NotFoundError "");
     ValidateOwnership := fun _ _ => true; GVKForObject := fun _ => None; clock := Z.of_nat |}.

Section witnesses.
#[local] Existing Instances ex_ready_env ex_object_factory elements_order stable_sort sample_names.
#[local] Existing Instances elements_order_ok stable_sort_ok.

Definition ex_start : risingWaveControllerManagerImpl unit :=
  newRisingWaveControllerManagerImpl (NewRisingWaveManager ex_stopped false) NewMessageStore false
    [GetRisingWaveRequest "default" "rw"] 0.

Definition ex_workflow : workflow (risingWaveControllerManagerImpl unit) :=
  reactiveWorkflow (mi_risingwaveManager ex_start).

(** One order in which the workflow may run. *)
Definition ex_order : list string :=
  ["SyncInternalStatus"; "BarrierFirstTimeObserved"; "BarrierConditionInitializingIsTrue";
   "BarrierConditionRunningIsTrue"; "BarrierConditionUpgradingIsTrue";
   "BarrierConditionRunningIsFalse"] ++ names (syncAllAndWait (mi_risingwaveManager ex_start)) ++
  ["MarkConditionRunningAsTrue"; "CollectRunningStatisticsAndSyncStatus"; "ReleaseScaleViewLock"].

Definition ex_run : option (list (step (risingWaveControllerManagerImpl unit)) *
    risingWaveControllerManagerImpl unit) := exec ex_workflow ex_order ex_start.

Lemma ex_run_facts :
  match ex_run with
  | Some (run, m1) =>
      ordered_from (places ex_workflow) [] (outcomes run) = true /\
      complete_run (places ex_workflow) (outcomes run) = true /\
      in_order (deferred ex_workflow) (outcomes run).*1 = true /\
      bool_decide (status_in (mi_risingwaveManager m1) "Running" = Some "True") = true /\
      forallb (fun x => negb (bool_decide (a_name (s_action x) ∈
          names (syncAllAndWait (mi_risingwaveManager ex_start)))) || continues (s_result x)) run = true /\
      forallb (fun x => negb (bool_decide (a_name (s_action x) ∈ collect_names)) ||
        bool_decide (status_in (mi_risingwaveManager (s_after x)) "Running" =
                     status_in (mi_risingwaveManager (s_before x)) "Running")) run = true
  | None => False
  end.
Proof. vm_compute. repeat split. Qed.

Lemma ex_one_of_a_type : one_of_a_type (E := ex_ready_env).
Proof. intros t ns name rw [= <-]. apply NoDup_singleton. Qed.

Lemma ex_begin : begin_reconcile (E := ex_ready_env) false false "default" "rw" [] = inr ex_start.
Proof. reflexivity. Qed.

(** The order is a run that ends with the cluster running. *)
Lemma ex_run_ok :
  exists run m1, liberal ex_workflow ex_start run m1 /\
    status_in (mi_risingwaveManager m1) "Running" = Some "True" /\
    lets_continue run (names (syncAllAndWait (mi_risingwaveManager ex_start))) /\
    (forall x, x ∈ run -> a_name (s_action x) ∈ collect_names ->
       status_in (mi_risingwaveManager (s_after x)) "Running" =
       status_in (mi_risingwaveManager (s_before x)) "Running").
Proof.
  pose proof ex_run_facts as H. destruct ex_run as [[run m1]|] eqn:Hrun; [|destruct H].
  apply exec_run in Hrun as [Hc Ha]. destruct H as (Ho & Hcomp & Hd & Hs & Hl & Hcol).
  apply bool_decide_eq_true in Hs. rewrite forallb_forall in Hl, Hcol.
  exists run, m1. split; [by repeat split|]. split; [done|]. split.
  - intros x Hx Hn. apply list_elem_of_In, Hl in Hx. by rewrite bool_decide_true in Hx.
  - intros x Hx Hn. apply list_elem_of_In, Hcol in Hx. rewrite bool_decide_true in Hx by done.
    by case_bool.
Qed.


Lemma running_when_ready_witness :
  exists run, seen_ready ex_start run false KStatefulSet "metaStatefulSets" "meta".
Proof.
  destruct ex_run_ok as (run & m1 & Hrun & Hs & _). exists run.
  destruct (running_when_ready liberal false false "default" "rw" [] ex_start run m1
    ex_one_of_a_type ex_begin Hrun Hs) as (_ & H & _); [discriminate|].
  apply (H false _ _ _ "WaitBeforeMetaStatefulSetsReady"); [discriminate|]. left.
Defined.

Lemma becomes_running_witness :
  exists m1 : risingWaveControllerManagerImpl unit, status_in (mi_risingwaveManager m1) "Running" = Some "True".
Proof.
  destruct ex_run_ok as (run & m1 & Hrun & _ & Hl & Hc). exists m1.
  exact (becomes_running liberal false false "default" "rw" [] ex_start run m1
    ex_one_of_a_type ex_begin Hrun eq_refl Hl Hc).
Defined.
End witnesses.
