(* ===== verification/Settled.v ===== *)
(** * A settled cluster becomes running

    A cluster is settled when the API server shows, for every object the operator wants, one that
    is up to date and (for workloads) rolled out, and none of those it does not want. In such a
    cluster every action that brings something up to date, or waits for it, lets the workflow go
    on, and nothing is found missing: the next reconcile of a cluster that is not running ends with
    the condition Running, whatever the order of its actions. *)

From S2P Require Import Prelude GoStrings ApiTypes ApiErrors ScaleHelper RisingWaveManager Workloads.
From S2P Require Import ManagerState WorkloadSync WorkloadConvergence ManagerImpl EventRecorder ManagerActions CtrlKit.
From S2P Require Import RisingWaveController ActionEffects RisingWaveReconcile.

Section settled.
Context {B : Type} `{E : ClusterEnv B} `{F : ObjectFactory B} `{O : RangeOrderOk} `{S : SliceSortOk}.
Context `{N : ConditionNames}.
Abbreviation Obj := (Object B).
Abbreviation Mgr := (risingWaveControllerManagerImpl B).
Abbreviation M := (GoM Mgr).

(** ** Definitions: a settled cluster *)

Section cluster.
Context (rw : RisingWave) (ok : bool).

(** The modes of the cluster. *)
Definition standalone_mode : bool := IsStandaloneModeEnabled rw.
Definition kruise_mode : bool := IsOpenKruiseEnabled (NewRisingWaveManager rw ok).

(** An object of the cluster that needs no change. *)
Definition in_order_object (o : Obj) : Prop :=
  ValidateOwnership o rw = true /\ isObjectSynced rw (Some o) = true /\ GVKForObject o = None.

(** Whenever it is asked for, the object of that name is there and satisfies [P], if it is wanted,
    and is not there otherwise. *)
Definition shows (wanted : bool) (k : object_kind) (suffix : string) (P : Obj -> Prop) : Prop :=
  forall t, if wanted
    then exists o, api_get t k (om_Namespace (rw_Meta rw)) (om_Name (rw_Meta rw) +:+ suffix) = Ok o /\
           in_order_object o /\ P o
    else exists e, api_get t k (om_Namespace (rw_Meta rw)) (om_Name (rw_Meta rw) +:+ suffix) = Err e /\
           IsNotFound e = true.

Definition rolled (k : object_kind) (o : Obj) : Prop := rolled_out k (Some o) = true.

(** Whenever they are listed, the workloads of the component are one for each of its node groups,
    if they are wanted, all up to date and rolled out, and there are no others. *)
Definition lists_ready (wanted : bool) (k : object_kind) (component : string) : Prop :=
  exists groups, buildExpectedGroupSet rw component = Done groups /\ forall t,
    exists l, api_list t k (om_Namespace (rw_Meta rw))
        {[ LabelRisingWaveComponent := component; LabelRisingWaveName := om_Name (rw_Meta rw) ]} = Ok l /\
      let mine := filter (fun o => ValidateOwnership o rw) l in
      NoDup (group_of <$> mine) /\
      (forall o, o ∈ mine -> group_of o ∈ (if wanted then groups else ∅) /\
         isObjectSynced rw (Some o) = true /\ rolled k o) /\
      (forall g, g ∈ (if wanted then groups else ∅) -> g ∈ group_of <$> mine).

Record settled : Prop := {
  se_meta_service : shows (negb standalone_mode) KService "-meta" (fun _ => True);
  se_frontend_service : shows true KService "-frontend" (fun _ => True);
  se_compute_service : shows (negb standalone_mode) KService "-compute" (fun _ => True);
  se_compactor_service : shows (negb standalone_mode) KService "-compactor" (fun _ => True);
  se_config : shows true KConfigMap "-default-config" (fun _ => True);
  se_standalone_service : shows standalone_mode KService "-standalone" (fun _ => True);
  se_standalone : shows (standalone_mode && negb kruise_mode) KStatefulSet "-standalone" (rolled KStatefulSet);
  se_standalone_kruise : ok = true ->
    shows (standalone_mode && kruise_mode) KAdvancedStatefulSet "-standalone" (rolled KAdvancedStatefulSet);
  se_workloads kruise k what component wait :
    (k, what, component, wait) ∈ workload_waits kruise -> (kruise = true -> ok = true) ->
    lists_ready ((if kruise then kruise_mode else negb kruise_mode) && negb standalone_mode) k component;
}.

(** ** Lemmas: the reads *)

(** A manager that works on the cluster. *)
Definition works (m : Mgr) : Prop :=
  NoDup (cond_types (conditions (mi_risingwaveManager m))) /\ observed_rw m = rw /\
  rwm_openkruiseAvailable (mi_risingwaveManager m) = ok.

Lemma works_same m m' : mi_risingwaveManager m' = mi_risingwaveManager m -> works m -> works m'.
Proof. unfold works, observed_rw. by intros ->. Qed.

Lemma works_modes m : works m -> standalone_enabled m = standalone_mode /\ openkruise_enabled m = kruise_mode.
Proof.
  intros (_ & Hrw & Hok). unfold standalone_enabled, openkruise_enabled, IsOpenKruiseEnabled,
    standalone_mode, kruise_mode, IsOpenKruiseEnabled, IsOpenKruiseAvailable. rewrite Hrw, Hok.
  unfold observed_rw in Hrw. by rewrite Hrw.
Qed.

(** What a read hands to the action. *)
Definition reads {X} (get : M (result api_error X)) (P : X -> Prop) : Prop :=
  forall m, works m -> wp get (fun r m' =>
    mi_risingwaveManager m' = mi_risingwaveManager m /\ exists x, r = Ok x /\ P x) m.

Definition shown (wanted : bool) (P : Obj -> Prop) (x : option Obj) : Prop :=
  if wanted then exists o, x = Some o /\ in_order_object o /\ P o else x = None.

Lemma reads_state wanted what k suffix P :
  shows wanted k suffix P -> reads (get_state what k (fun n => n +:+ suffix)) (shown wanted P).
Proof.
  intros Hs m (Hnd & Hrw & Hok). unfold get_state, wp, mbind, GoM_bind, gets, read, mret, GoM_ret. cbn.
  rewrite Hrw. specialize (Hs (mi_trace m)). unfold shown. destruct wanted.
  - destruct Hs as (o & -> & Ho & HP). destruct Ho as (Hv & Hsy & Hg). rewrite Hv.
    split; [done|]. by exists (Some o); split; [|exists o].
  - destruct Hs as (e & -> & ->). split; [done|]. by exists None.
Qed.

Definition listed (wanted : bool) (k : object_kind) (component : string) (l : list Obj) : Prop :=
  exists groups, buildExpectedGroupSet rw component = Done groups /\
    NoDup (group_of <$> l) /\
    (forall o, o ∈ l -> group_of o ∈ (if wanted then groups else ∅) /\
       isObjectSynced rw (Some o) = true /\ rolled k o) /\
    (forall g, g ∈ (if wanted then groups else ∅) -> g ∈ group_of <$> l).

Lemma reads_list wanted what k component :
  lists_ready wanted k component -> reads (list_state what k component) (listed wanted k component).
Proof.
  intros (groups & Hg & Hl) m (Hnd & Hrw & Hok).
  unfold list_state, wp, mbind, GoM_bind, gets, read, mret, GoM_ret.
  cbn -[LabelRisingWaveComponent LabelRisingWaveName]. rewrite Hrw.
  destruct (Hl (mi_trace m)) as (l & -> & Hmine). split; [done|]. eexists. split; [done|].
  by exists groups.
Qed.

(** ** Lemmas: the actions *)

(** From a manager that works on the cluster, [f] lets the workflow go on. *)
Definition goes_on (f : M ctrl_result) : Prop := forall m, works m -> wlp f (fun r _ => continues r = true) m.

Lemma goes_with_state {X} (get : M (result api_error X)) P f :
  reads get P -> (forall x, P x -> goes_on (f x)) -> goes_on (with_state get f).
Proof.
  intros Hget Hf m Hm. unfold with_state. apply wlp_bind. specialize (Hget m Hm). unfold wp in Hget.
  unfold wlp at 1. destruct (get m) as [[r m']|]; [|done]. destruct Hget as (Hsame & x & -> & HP).
  apply Hf; [done|]. by eapply works_same.
Qed.

Lemma goes_hooked name f :
  name <> RisingWaveAction_UpdateRisingWaveStatusViaClient -> goes_on f -> goes_on (hooked name f).
Proof. intros Hn Hf m Hm. unfold wlp. rewrite hooked_other by done. by apply Hf. Qed.

Lemma goes_state_action {X} name (get : M (result api_error X)) P f :
  name <> RisingWaveAction_UpdateRisingWaveStatusViaClient -> reads get P ->
  (forall x, P x -> goes_on (f x)) -> goes_on (a_body (state_action name get f)).
Proof.
  intros Hn Hget Hf. eapply goes_with_state; [done|]. intros x Hx. by apply goes_hooked, Hf.
Qed.

Lemma goes_sync_always msg k o f P : shown true P o -> goes_on (sync_always msg k o f).
Proof.
  intros (x & -> & (_ & Hs & Hg) & _) m (_ & Hrw & _).
  unfold sync_always, syncObject, wlp, mbind, GoM_bind, gets, mret, GoM_ret. rewrite Hg, Hrw, Hs. done.
Qed.

Lemma goes_sync_distributed msg k o f P :
  shown (negb standalone_mode) P o -> goes_on (sync_distributed msg k o f).
Proof.
  intros Ho m Hm. destruct (works_modes m Hm) as [Hs _].
  unfold sync_distributed, wlp, mbind at 1, GoM_bind at 1, gets at 1. rewrite Hs.
  destruct standalone_mode; cbn [negb] in *.
  - by rewrite Ho.
  - exact (goes_sync_always msg k o f P Ho m Hm).
Qed.

Lemma goes_sync_enabled msg k (e : Mgr -> bool) (wanted : bool) o f P :
  (forall m, works m -> e m = wanted) -> shown wanted P o -> goes_on (sync_enabled msg k (gets e) o f).
Proof.
  intros He Ho m Hm. unfold sync_enabled, wlp, mbind at 1, GoM_bind at 1, gets at 1. rewrite He by done.
  destruct wanted; [exact (goes_sync_always msg k o f P Ho m Hm)|]. by rewrite Ho.
Qed.

Lemma goes_wait_enabled k (e : Mgr -> bool) (wanted : bool) o :
  (forall m, works m -> e m = wanted) -> shown wanted (rolled k) o -> goes_on (wait_enabled k (gets e) o).
Proof.
  intros He Ho m Hm. unfold wait_enabled, wlp, mbind, GoM_bind, gets, mret, GoM_ret. rewrite He by done.
  cbv beta iota. destruct Hm as (_ & -> & _). destruct wanted; [|by rewrite Ho].
  destruct Ho as (x & -> & (_ & Hs & _) & Hr). unfold rolled in Hr. by rewrite Hs, Hr.
Qed.

Lemma goes_wait_service o P : shown (negb standalone_mode) P o ->
  goes_on (ManagerImpl.WaitBeforeMetaServiceIsAvailable o).
Proof.
  intros Ho m Hm. destruct (works_modes m Hm) as [Hs _].
  unfold ManagerImpl.WaitBeforeMetaServiceIsAvailable, wlp, mbind, GoM_bind, gets, mret, GoM_ret. rewrite Hs.
  destruct Hm as (_ & Hrw & _). destruct standalone_mode; cbn; [by rewrite Ho|].
  destruct Ho as (x & -> & (_ & Hsync & _) & _). by rewrite Hrw, Hsync.
Qed.

Lemma goes_wait_workloads k component (e : Mgr -> bool) (wanted : bool) l :
  (forall m, works m -> e m = wanted) -> listed wanted k component l ->
  goes_on (wait_workloads k component (gets e) l).
Proof.
  intros He (groups & Hg & _ & Hl & Hall) m Hm.
  unfold wait_workloads, wlp, mbind, GoM_bind, gets, lift, mret, GoM_ret. rewrite He by done.
  destruct Hm as (_ & -> & _). rewrite Hg.
  match goal with |- continues ?r = true => assert (r = Continue) as -> end; [|done].
  apply wait_Continue_iff. split; [|done]. intros o Ho. destruct (Hl o Ho) as (Hin & Hs & Hr).
  split; [done|]. unfold rolled in Hr. by rewrite Hs, Hr.
Qed.

Lemma goes_workloads k component (e : Mgr -> bool) (wanted : bool) l factory :
  (forall m, works m -> e m = wanted) -> listed wanted k component l ->
  goes_on (enabled ← gets e; rw ← gets observed_rw; syncComponentGroupWorkloads k component l (factory rw) enabled).
Proof.
  intros He (groups & Hg & Hnd & Hl & Hall) m Hm.
  unfold wlp, mbind at 1 2, GoM_bind at 1 2, gets at 1 2. rewrite He by done.
  rewrite (sync_idle _ _ _ _ _ (if wanted then groups else ∅)); [done| |].
  - destruct Hm as (_ & -> & _). unfold expected_groups. by destruct wanted.
  - destruct Hm as (_ & -> & _). split; [done| |done]. intros o Ho. by apply Hl.
Qed.

Context (Hset : settled).

Lemma listed_of (kruise : bool) k what component wait :
  (k, what, component, wait) ∈ workload_waits kruise -> (kruise = true -> ok = true) ->
  reads (list_state what k component)
    (listed ((if kruise then kruise_mode else negb kruise_mode) && negb standalone_mode) k component).
Proof. intros Hin Hok. eapply reads_list, se_workloads; eauto. Qed.

Lemma plain_wanted m : works m ->
  negb (openkruise_enabled m) && negb (standalone_enabled m) = negb kruise_mode && negb standalone_mode.
Proof. intros [-> ->]%works_modes. done. Qed.
Lemma kruise_wanted m : works m ->
  openkruise_enabled m && negb (standalone_enabled m) = kruise_mode && negb standalone_mode.
Proof. intros [-> ->]%works_modes. done. Qed.
Lemma standalone_wanted m : works m -> standalone_enabled m = standalone_mode.
Proof. by intros [-> _]%works_modes. Qed.
Lemma plain_standalone_wanted m : works m ->
  standalone_enabled m && negb (openkruise_enabled m) = standalone_mode && negb kruise_mode.
Proof. intros [-> ->]%works_modes. done. Qed.
Lemma kruise_standalone_wanted m : works m ->
  standalone_enabled m && openkruise_enabled m = standalone_mode && kruise_mode.
Proof. intros [-> ->]%works_modes. done. Qed.


Ltac read_tac :=
  first
  [ eapply reads_state; first
      [ exact (se_meta_service Hset) | exact (se_frontend_service Hset) | exact (se_compute_service Hset)
      | exact (se_compactor_service Hset) | exact (se_config Hset) | exact (se_standalone_service Hset)
      | exact (se_standalone Hset) | by apply (se_standalone_kruise Hset) ]
  | eapply (listed_of false); [unfold workload_waits; rewrite !elem_of_cons; tauto|by intros]
  | eapply (listed_of true); [unfold workload_waits; rewrite !elem_of_cons; tauto|by intros] ].

Ltac goes_tac :=
  eapply goes_state_action; [discriminate|read_tac|];
  intros x Hx; first
  [ exact (goes_sync_always _ _ _ _ _ Hx)
  | exact (goes_sync_distributed _ _ _ _ _ Hx)
  | exact (goes_wait_service _ _ Hx)
  | first [eapply goes_sync_enabled|eapply goes_wait_enabled|eapply goes_wait_workloads|eapply goes_workloads];
    [|exact Hx]; first [exact plain_wanted|exact kruise_wanted|exact standalone_wanted
      |exact plain_standalone_wanted|exact kruise_standalone_wanted] ].

Context (mgr : RisingWaveManager).
Context (Hrw : rwm_risingwave mgr = rw) (Hok : rwm_openkruiseAvailable mgr = ok).

Lemma goes_sync_all : Forall (fun a => goes_on (a_body a)) (actions (syncAllAndWait mgr)).
Proof.
  unfold syncAllAndWait, syncAllComponents, allComponentsReadyBarrier, syncConfigs,
    syncMetaComponent, syncOtherComponents, syncStandaloneComponent, metaComponentReadyBarrier,
    otherComponentsReadyBarrier, otherOpenKruiseComponentsReadyBarrier, standaloneReadyBarrier, If.
  destruct (rwm_openkruiseAvailable mgr) eqn:Ha; symmetry in Hok; forall_actions;
    first [apply Forall_nil_2|apply goes_hooked; [discriminate|intros m _; exact eq_refl]|goes_tac].
Qed.

(** ** Lemmas: the collected state *)

(** From a manager that works on the cluster, [f] leaves the condition Running. *)
Definition leaves_running (f : M ctrl_result) : Prop := forall m, works m ->
  wlp f (fun _ m' => status_in (mi_risingwaveManager m') "Running" =
                     status_in (mi_risingwaveManager m) "Running") m.

Lemma leaves_with_state {X} (get : M (result api_error X)) P f :
  reads get P -> (forall x, P x -> leaves_running (f x)) -> leaves_running (with_state get f).
Proof.
  intros Hget Hf m Hm. unfold with_state. apply wlp_bind. specialize (Hget m Hm). unfold wp in Hget.
  unfold wlp at 1. destruct (get m) as [[r m']|]; [|done]. destruct Hget as (Hsame & x & -> & HP).
  rewrite <-Hsame. apply Hf; [done|]. by eapply works_same.
Qed.

Lemma leaves_hooked name f :
  name <> RisingWaveAction_UpdateRisingWaveStatusViaClient -> leaves_running f ->
  leaves_running (hooked name f).
Proof. intros Hn Hf m Hm. unfold wlp. rewrite hooked_other by done. by apply Hf. Qed.

Lemma leaves_collect (status : RisingWave -> RisingWaveStatus -> RisingWaveStatus) table :
  (forall s, st_Conditions (status rw s) = st_Conditions s) -> existsb fst (table rw) = false ->
  leaves_running (risingwave ← gets observed_rw;
    modify (on_manager (UpdateStatus (status risingwave)));; report_missing (table risingwave)).
Proof.
  intros Hs Ht m (Hnd & Hm & _). apply wlp_bind, wlp_gets. rewrite Hm.
  pose proof (collect_spec (status rw) (table rw) m Hs Hnd) as Hc. unfold wp in Hc. unfold wlp.
  match goal with |- match ?t with _ => _ end => destruct t as [[r m']|]; [|done] end. destruct Hc as (_ & Hc). rewrite Ht in Hc.
  unfold status_in. pose proof (co_kept _ _ _ _ Hc eq_refl) as Hk. unfold conditions_of in Hk. by rewrite Hk.
Qed.

Lemma listed_full k component l gs :
  node_groups rw component = Some gs -> listed true k component l -> ~ group_lacking rw (component, l).
Proof.
  intros Hgs (groups & Hg & _ & _ & Hall) (gs' & g & Hgs' & Hin & Hn). cbn in Hgs', Hn.
  rewrite Hgs in Hgs'. injection Hgs' as <-. apply Hn, Hall. cbn.
  unfold buildExpectedGroupSet, GetNodeGroups in Hg. rewrite Hgs in Hg. injection Hg as <-.
  unfold buildKeyMapFromList. apply elem_of_list_to_set, list_elem_of_fmap. eauto.
Qed.

Lemma shown_some P x : shown true P x -> exists o, x = Some o.
Proof. intros (o & -> & _). eauto. Qed.

Lemma services_shown P1 P2 P3 P4 P5 (fs ms cs ks cfg : option Obj) :
  shown true P1 fs -> shown true P2 ms -> shown true P3 cs -> shown true P4 ks -> shown true P5 cfg ->
  None ∉ [fs; ms; cs; ks; cfg].
Proof.
  intros [? ->]%shown_some [? ->]%shown_some [? ->]%shown_some [? ->]%shown_some [? ->]%shown_some.
  rewrite !elem_of_cons, elem_of_nil. intuition discriminate.
Qed.

Lemma nothing_lacking k1 k2 k3 k4 (services : list (option Obj)) (meta frontend compute compactor : list Obj) :
  None ∉ services -> listed true k1 ComponentMeta meta -> listed true k2 ComponentFrontend frontend ->
  listed true k3 ComponentCompute compute -> listed true k4 ComponentCompactor compactor ->
  ~ lacking rw services [(ComponentMeta, meta); (ComponentFrontend, frontend);
      (ComponentCompute, compute); (ComponentCompactor, compactor)].
Proof.
  intros Hs H1 H2 H3 H4 [H|H]; [done|].
  rewrite !Exists_cons, Exists_nil in H. destruct H as [H|[H|[H|[H|[]]]]]; revert H;
    eapply listed_full; first [done|eassumption].
Qed.

(** Collecting what the components show, of either kind of workload. *)
Lemma leaves_components k1 k2 k3 k4 collect P1 P2 P3 P4 P5 fs ms cs ks cfg
    (meta frontend compute compactor : list Obj) :
  collect ∈ [ManagerImpl.CollectRunningStatisticsAndSyncStatus;
    ManagerImpl.CollectOpenKruiseRunningStatisticsAndSyncStatus] ->
  shown true P1 fs -> shown true P2 ms -> shown true P3 cs -> shown true P4 ks -> shown true P5 cfg ->
  listed true k1 ComponentMeta meta -> listed true k2 ComponentFrontend frontend ->
  listed true k3 ComponentCompute compute -> listed true k4 ComponentCompactor compactor ->
  leaves_running (collect fs ms cs ks meta frontend compute compactor cfg).
Proof.
  intros Hin Hfs Hms Hcs Hks Hcfg H1 H2 H3 H4.
  assert (~ lacking rw [fs; ms; cs; ks; cfg] [(ComponentMeta, meta); (ComponentFrontend, frontend);
      (ComponentCompute, compute); (ComponentCompactor, compactor)]) as Hl.
  { eapply nothing_lacking; [|eassumption..]. by eapply services_shown. }
  apply elem_of_cons in Hin as [->|Hin%list_elem_of_singleton]; [|subst collect];
    (refine (leaves_collect (fun r => report_status r (components_replicas r meta frontend compute compactor))
       (fun r => _) _ _); [done|];
     apply not_true_iff_false; intros Ht; apply Hl; exact (proj1 (lacking_table rw _ _ _ _ _ _ _ _ _ _ _ _ _ _ _ _ _ _) Ht)).
Qed.

Ltac collect_reads :=
  repeat (eapply leaves_with_state; [read_tac|intros ? ?]); apply leaves_hooked; [discriminate|].

Lemma kruise_available : kruise_mode = true -> ok = true.
Proof. unfold kruise_mode, IsOpenKruiseEnabled, IsOpenKruiseAvailable. cbn. by destruct ok. Qed.

Lemma leaves_collected : Forall (fun a => leaves_running (a_body a)) (actions (syncRunningStatus mgr)).
Proof.
  unfold syncRunningStatus. rewrite Hrw.
  assert (IsOpenKruiseEnabled mgr = kruise_mode) as ->.
  { unfold kruise_mode, IsOpenKruiseEnabled, IsOpenKruiseAvailable. by rewrite Hrw, Hok. }
  change (IsStandaloneModeEnabled rw) with standalone_mode.
  destruct standalone_mode eqn:Hs, kruise_mode eqn:Hk; cbn [IfElse]; forall_actions;
    try (pose proof (kruise_available Hk)); collect_reads;
    repeat match goal with
    | H : shown ?b _ _ |- _ => assert_fails (constr_eq b true); rewrite ?Hs, ?Hk in H; cbn [negb andb] in H
    | H : listed ?b _ _ _ |- _ => assert_fails (constr_eq b true); rewrite ?Hs, ?Hk in H; cbn [negb andb] in H
    end.
  3-4: eapply leaves_components; try eassumption; rewrite !elem_of_cons; tauto.
  all: repeat match goal with H : shown true _ _ |- _ => apply shown_some in H as [? ->] end;
    by apply (leaves_collect (fun r => report_status r (standalone_replicas _)) (fun _ => _)).
Qed.

(** ** Lemmas: the whole workflow *)

Ltac other_name :=
  let H := fresh in intros H; exfalso; apply (bool_decide_eq_true_2 _) in H; vm_compute in H; discriminate H.

Lemma workflow_goes : Forall (fun a => a_name a ∈ names (syncAllAndWait mgr) -> goes_on (a_body a))
  (actions (reactiveWorkflow mgr)).
Proof.
  pose proof goes_sync_all as Hsync.
  assert (Forall (fun a => a_name a ∈ names (syncAllAndWait mgr) -> goes_on (a_body a))
    (actions (syncAllAndWait mgr))) as Hall by (eapply Forall_impl; [exact Hsync|done]).
  clear Hsync. unfold reactiveWorkflow, sharedSyncAllAndWait, syncRunningStatus, syncServiceMonitorIfPossible.
  forall_actions; try exact Hall;
    (unfold syncAllAndWait, syncAllComponents, allComponentsReadyBarrier, syncConfigs,
      syncMetaComponent, syncOtherComponents, syncStandaloneComponent, metaComponentReadyBarrier,
      otherComponentsReadyBarrier, otherOpenKruiseComponentsReadyBarrier, standaloneReadyBarrier, If;
    destruct (rwm_openkruiseAvailable mgr); other_name).
Qed.

Lemma workflow_leaves : Forall (fun a => a_name a ∈ collect_names -> leaves_running (a_body a))
  (actions (reactiveWorkflow mgr)).
Proof.
  pose proof leaves_collected as Hc.
  assert (Forall (fun a => a_name a ∈ collect_names -> leaves_running (a_body a))
    (actions (syncRunningStatus mgr))) as Hall by (eapply Forall_impl; [exact Hc|done]).
  clear Hc. unfold reactiveWorkflow, sharedSyncAllAndWait, syncServiceMonitorIfPossible, syncAllAndWait,
    syncAllComponents, allComponentsReadyBarrier, syncConfigs, syncMetaComponent, syncOtherComponents,
    syncStandaloneComponent, metaComponentReadyBarrier, otherComponentsReadyBarrier,
    otherOpenKruiseComponentsReadyBarrier, standaloneReadyBarrier.
  forall_actions; first [exact Hall|other_name].
Qed.
End cluster.

(** ** Property *)

Section properties.
Context (runs : workflow Mgr -> Mgr -> list (step Mgr) -> Mgr -> Prop) `{HR : !Runs runs}.

(** C19: A cluster that is not running is running after one reconcile, whatever the order in which
    [ctrlkit] runs its actions, if the API server shows it settled: every service, configuration
    and workload of the mode of the cluster is there, built from the observed generation or a
    newer one and rolled out, and none of the others is. *)
Theorem settled_becomes_running ok force ns name t m0 run m1 :
  one_of_a_type -> begin_reconcile ok force ns name t = inr m0 -> settled (observed_rw m0) ok ->
  runs (reactiveWorkflow (mi_risingwaveManager m0)) m0 run m1 ->
  observed_status (observed_rw m0) "Running" = Some "False" ->
  status_in (mi_risingwaveManager m1) "Running" = Some "True".
Proof.
  intros Hone Hb Hset Hrun Hobs. destruct (begin_fresh _ _ _ _ _ _ Hb Hone) as (_ & Hnd & Hok & _).
  pose proof (proj2 (run_source runs m0 run m1 Hrun Hnd)) as Hsrc.
  assert (forall x, x ∈ run -> s_action x ∈ actions (reactiveWorkflow (mi_risingwaveManager m0)) /\
    works (observed_rw m0) ok (s_before x) /\
    a_body (s_action x) (s_before x) = Done (s_result x, s_after x)) as Hx.
  { intros x Hx. split; [by eapply runs_actions|]. split.
    - destruct (Hsrc x Hx) as (Hn & Hrw & Hk). split; [done|]. split; [done|]. by rewrite Hk.
    - exact (chained_step _ _ _ _ (runs_chained _ _ _ _ Hrun) Hx). }
  pose proof (workflow_goes _ _ Hset (mi_risingwaveManager m0) Hok) as Hgo.
  pose proof (workflow_leaves _ _ Hset (mi_risingwaveManager m0) eq_refl Hok) as Hleave.
  rewrite Forall_forall in Hgo, Hleave.
  apply (becomes_running_run runs m0 run m1 Hrun Hnd Hobs); intros x Hin Hname;
    destruct (Hx x Hin) as (Ha & Hw & Hbody).
  - exact (wlp_run _ _ _ _ _ (Hgo _ Ha Hname _ Hw) Hbody).
  - exact (wlp_run _ _ _ _ _ (Hleave _ Ha Hname _ Hw) Hbody).
Qed.
End properties.
End settled.
(** ** Witness *)

(** A RisingWave with groups of nodes that is not running, and all its objects. *)
Definition ex_settled : RisingWave :=
  {| rw_Meta := ex_meta "rw" 2;
     rw_Spec := set_rws_Components
       {| cps_Standalone := None; cps_Meta := component_of [simple_group "m" 1];
          cps_Frontend := component_of [simple_group "a" 1; simple_group "b" 2];
          cps_Compute := component_of [simple_group "c" 3];
          cps_Compactor := component_of [] |} zero_spec;
     rw_Status := set_st_Conditions [ex_condition "Running" "False" (Some 10%Z)] zero_status |}.

Definition ex_managed (k : object_kind) (group : string) : Object unit :=
  sample_object k group
    {[ LabelRisingWaveGroup := group; LabelRisingWaveGeneration := FormatInt 2 ]} 1.

Definition ex_settled_env : ClusterEnv unit :=
  {| api_reply := fun _ _ => None;
     api_get := fun _ k _ name =>
       if bool_decide (k = KService /\ name ∈ ["rw-meta"; "rw-frontend"; "rw-compute"; "rw-compactor"] \/
                       k = KConfigMap /\ name = "rw-default-config")
       then Ok (ex_managed k name) else Err (NotFoundError name);
     api_list := fun _ k _ labels =>
       Ok (if bool_decide (k = KStatefulSet \/ k = KDeployment) then
         (fun g => ex_managed k (ng_Name g)) <$>
           default [] (node_groups ex_settled (default "" (labels !! LabelRisingWaveComponent)))
         else []);
     api_get_scale_view := fun _ _ _ => Err (NotFoundError "");
     api_get_risingwave := fun _ _ _ => Ok ex_settled;
     api_get_crd := fun _ _ => Err (NotFoundError "");
     ValidateOwnership := fun _ _ => true; GVKForObject := fun _ => None; clock := Z.of_nat |}.

Section witness.
#[local] Existing Instances ex_settled_env ex_object_factory elements_order stable_sort sample_names.
#[local] Existing Instances elements_order_ok stable_sort_ok.

Lemma ex_object_group k g : group_of (ex_managed k g) = g.
Proof. reflexivity. Qed.

Lemma ex_object_synced k g : isObjectSynced ex_settled (Some (ex_managed k g)) = true.
Proof. reflexivity. Qed.

Lemma ex_object_rolled k g : k = KStatefulSet \/ k = KDeployment -> rolled k (ex_managed k g).
Proof. by intros [-> | ->]. Qed.

Lemma ex_shows wanted k suffix (P : Object unit -> Prop) :
  wanted = bool_decide (k = KService /\ "rw" +:+ suffix ∈ ["rw-meta"; "rw-frontend"; "rw-compute"; "rw-compactor"] \/
     k = KConfigMap /\ "rw" +:+ suffix = "rw-default-config") ->
  (wanted = true -> forall o, P o) -> shows (E := ex_settled_env) ex_settled wanted k suffix P.
Proof.
  intros -> HP t. cbn [api_get ex_settled_env]. change (om_Name (rw_Meta ex_settled)) with "rw".
  case_bool_decide; [|by exists (NotFoundError ("rw" +:+ suffix))].
  exists (ex_managed k ("rw" +:+ suffix)). split; [done|]. split; [|by apply HP]. by split.
Qed.

Lemma ex_lists k component gs :
  k = KStatefulSet \/ k = KDeployment -> node_groups ex_settled component = Some gs ->
  NoDup (ng_Name <$> gs) -> lists_ready (E := ex_settled_env) ex_settled true k component.
Proof.
  intros Hk Hgs Hnd. exists (buildKeyMapFromList gs). split.
  { unfold buildExpectedGroupSet, GetNodeGroups. by rewrite Hgs. }
  intros t. exists ((fun g => ex_managed k (ng_Name g)) <$> gs). split.
  { cbn [api_list ex_settled_env]. rewrite bool_decide_true by done.
    rewrite lookup_insert_eq. change (default "" (Some component)) with component. by rewrite Hgs. }
  assert (forall l : list (Object unit), filter (fun o => ValidateOwnership (ClusterEnv := ex_settled_env) o ex_settled) l = l) as Hall.
  { intros l. induction l as [|o l IH]; [done|]. by rewrite filter_cons_True, IH. }
  cbn zeta. rewrite Hall, <-list_fmap_compose. change (group_of ∘ _) with ng_Name.
  split; [done|]. split.
  - intros o (g & -> & Hg)%list_elem_of_fmap. split; [|split; [done|by apply ex_object_rolled]].
    rewrite ex_object_group. apply elem_of_list_to_set. by apply list_elem_of_fmap_2.
  - intros g Hg%elem_of_list_to_set. done.
Qed.

Lemma ex_is_settled : settled (E := ex_settled_env) ex_settled false.
Proof.
  split; try (by apply ex_shows; [reflexivity|]).
  - discriminate.
  - intros [] k what component wait Hin Hk; [by specialize (Hk eq_refl)|clear Hk].
    unfold workload_waits in Hin. rewrite !elem_of_cons in Hin.
    destruct Hin as [Hin|[Hin|[Hin|[Hin|Hin%not_elem_of_nil]]]]; try done; injection Hin as -> -> -> ->;
      (eapply ex_lists; [tauto|reflexivity|by apply (bool_decide_eq_true_1 _); vm_compute]).
Qed.

Definition ex_settled_start : risingWaveControllerManagerImpl unit :=
  newRisingWaveControllerManagerImpl (NewRisingWaveManager ex_settled false) NewMessageStore false
    [GetRisingWaveRequest "default" "rw"] 0.

Lemma ex_settled_begin :
  begin_reconcile (E := ex_settled_env) false false "default" "rw" [] = inr ex_settled_start.
Proof. reflexivity. Qed.

Lemma ex_settled_one_of_a_type : one_of_a_type (E := ex_settled_env).
Proof. intros t ns name rw [= <-]. apply NoDup_singleton. Qed.

Definition ex_settled_workflow : workflow (risingWaveControllerManagerImpl unit) :=
  reactiveWorkflow (mi_risingwaveManager ex_settled_start).

Lemma ex_settled_run_facts :
  match exec ex_settled_workflow ex_order ex_settled_start with
  | Some (run, _) => ordered_from (places ex_settled_workflow) [] (outcomes run) = true /\
      complete_run (places ex_settled_workflow) (outcomes run) = true /\
      in_order (deferred ex_settled_workflow) (outcomes run).*1 = true
  | None => False
  end.
Proof. vm_compute. repeat split. Qed.

Lemma ex_settled_run : exists run m1, liberal ex_settled_workflow ex_settled_start run m1.
Proof.
  pose proof ex_settled_run_facts as H.
  destruct (exec ex_settled_workflow ex_order ex_settled_start) as [[run m1]|] eqn:Hrun; [|destruct H].
  apply exec_run in Hrun as [Hc Ha]. destruct H as (Ho & Hcomp & Hd). exists run, m1. by repeat split.
Qed.

Lemma settled_becomes_running_witness :
  exists run (m1 : risingWaveControllerManagerImpl unit),
    liberal ex_settled_workflow ex_settled_start run m1 /\
    status_in (mi_risingwaveManager m1) "Running" = Some "True".
Proof.
  destruct ex_settled_run as (run & m1 & Hrun). exists run, m1. split; [exact Hrun|].
  exact (settled_becomes_running liberal false false "default" "rw" [] ex_settled_start run m1
    ex_settled_one_of_a_type ex_settled_begin ex_is_settled Hrun eq_refl).
Defined.
End witness.
