(* ===== verification/Watches.v ===== *)
(** * What a reconcile touches is watched

    The controller is woken by changes of the objects whose kinds it registers
    ([SetupWithManager] of pkg/controller/risingwave_controller.go); a reconcile that waits asks
    for no other wake-up. Every object a reconcile reads, creates, updates or deletes is of one of
    these kinds - the kinds of OpenKruise only where OpenKruise is available - but for the
    monitor of Prometheus, whose definition may be missing. What it reads is of the namespace
    of the RisingWave, and what it deletes is owned by the RisingWave. *)

From S2P Require Import Prelude GoStrings ApiTypes ApiErrors ScaleHelper RisingWaveManager Workloads.
From S2P Require Import ManagerState WorkloadSync ManagerImpl EventRecorder ManagerActions CtrlKit.
From S2P Require Import RisingWaveController ActionEffects RisingWaveReconcile.

(** ** Definitions: the watches *)

(** The kinds of the owned objects whose changes make the controller reconcile their owner. *)
Definition owned_kinds (openKruiseAvailable : bool) : list object_kind :=
  [KDeployment; KStatefulSet; KService; KConfigMap] ++
  (if openKruiseAvailable then [KCloneSet; KAdvancedStatefulSet] else []).

(** The request for the target of a scale view that is deleted. *)
Definition target_of (obj : RisingWaveScaleView) : list (string * string) :=
  [(om_Namespace (sv_Meta obj), tr_Name (sv_TargetRef obj))].

(** ** Requests and what they are aimed at *)

Section touches.
Context {B : Type} `{E : ClusterEnv B}.
Abbreviation Mgr := (risingWaveControllerManagerImpl B).
Abbreviation M := (GoM (risingWaveControllerManagerImpl B)).

(** The API server answers a request for objects of a kind with objects of that kind. *)
Class TypedReplies : Prop := {
  typed_get t k ns name o : api_get t k ns name = Ok o -> o_Kind o = k;
  typed_list t k ns labels l : api_list t k ns labels = Ok l -> Forall (fun o => o_Kind o = k) l;
}.

Context (rw : RisingWave) (ks : list object_kind).

(** What a request of a reconcile of [rw] is aimed at: objects of the kinds [ks], read in its
    namespace, and deleted only when they are its own; the scale views that have locks on it;
    its status; and the definition of the monitors if these are among the kinds. *)
Definition touches (r : request B) : Prop :=
  match r with
  | GetRequest k ns _ => k ∈ ks /\ ns = om_Namespace (rw_Meta rw)
  | ListRequest k ns labels => k ∈ ks /\ ns = om_Namespace (rw_Meta rw) /\
      labels !! LabelRisingWaveName = Some (om_Name (rw_Meta rw))
  | CreateRequest o | UpdateRequest o => o_Kind o ∈ ks
  | DeleteRequest o _ _ => o_Kind o ∈ ks /\ ValidateOwnership o rw = true
  | UpdateStatusRequest rw' => rw_Meta rw' = rw_Meta rw /\ rw_Spec rw' = rw_Spec rw
  | GetScaleViewRequest ns name => ns = om_Namespace (rw_Meta rw) /\
      name ∈ lk_Name <$> st_ScaleViews (rw_Status rw)
  | GetRisingWaveRequest _ _ => False
  | GetCRDRequest name => KServiceMonitor ∈ ks /\ name = crd_name "servicemonitor" "monitoring.coreos.com"
  | RecordEvent _ _ _ => True
  end.

(** An object of the kind [k] that belongs to the RisingWave. *)
Definition mine (k : object_kind) (o : Object B) : Prop := o_Kind o = k /\ ValidateOwnership o rw = true.
Definition maybe_mine (k : object_kind) (o : option (Object B)) : Prop :=
  match o with Some o => mine k o | None => True end.

(** The reconcile of [rw], whose copy differs in the status alone. *)
Definition at_rw (m : Mgr) : Prop :=
  observed_rw m = rw /\ rw_Meta (rwm_mutable (mi_risingwaveManager m)) = rw_Meta rw /\
  rw_Spec (rwm_mutable (mi_risingwaveManager m)) = rw_Spec rw.

(** However [f] ends in that reconcile, the requests it sent touch only that. *)
Definition asks {A} (f : M A) : Prop :=
  forall m, at_rw m -> wlp f (fun _ m' => at_rw m' /\
    exists new, mi_trace m' = mi_trace m ++ new /\ Forall touches new) m.

Lemma asks_silent {A} (f : M A) :
  (forall m, at_rw m -> wlp f (fun _ m' => at_rw m' /\ mi_trace m' = mi_trace m) m) -> asks f.
Proof.
  intros H m Hm. eapply wlp_mono; [by apply H|]. intros a m' [Hm' ->]. split; [done|].
  exists []. by rewrite app_nil_r.
Qed.

Lemma asks_ret {A} (a : A) : asks (mret a).
Proof. apply asks_silent. intros m Hm. by apply wlp_ret. Qed.

Lemma asks_gets {A} (f : Mgr -> A) : asks (gets f).
Proof. apply asks_silent. intros m Hm. by apply wlp_gets. Qed.

Lemma asks_lift {A} (o : outcome A) : asks (lift o).
Proof. apply asks_silent. intros m Hm. by apply wlp_lift. Qed.

Lemma asks_bind {A C} (f : M A) (g : A -> M C) : asks f -> (forall a, asks (g a)) -> asks (f ≫= g).
Proof.
  intros Hf Hg m Hm. apply wlp_bind. eapply wlp_mono; [by apply Hf|]. intros a m1 (Hm1 & l1 & H1 & Hl1).
  eapply wlp_mono; [by apply Hg|]. intros b m2 (Hm2 & l2 & H2 & Hl2). split; [done|]. exists (l1 ++ l2).
  rewrite H2, H1, app_assoc. split; [done|]. by apply Forall_app.
Qed.

(** A computation without effects, with what is known of its value. *)
Lemma asks_bind_lift {A C} (o : outcome A) (g : A -> M C) :
  (forall a, o = Done a -> asks (g a)) -> asks (lift o ≫= g).
Proof. intros Hg m Hm. apply wlp_bind, wlp_lift. intros a Ha. by apply Hg. Qed.

Lemma asks_bind_gets {A C} (f : Mgr -> A) (g : A -> M C) :
  (forall m, at_rw m -> asks (g (f m))) -> asks (gets f ≫= g).
Proof. intros Hg m Hm. apply wlp_bind, wlp_gets. by apply (Hg m). Qed.

Lemma asks_bind_rw {C} (g : RisingWave -> M C) : asks (g rw) -> asks (gets observed_rw ≫= g).
Proof. intros Hg. apply asks_bind_gets. by intros m [-> _]. Qed.

Lemma asks_send r : touches r -> asks (send r).
Proof.
  intros Hr m Hm. unfold wlp, send. cbn. split; [exact Hm|]. exists [r]. split; [done|].
  by apply Forall_singleton.
Qed.

Lemma asks_read {A} (answer : list (request B) -> A) r : touches r -> asks (read answer r).
Proof.
  intros Hr m Hm. unfold wlp, read. cbn. split; [exact Hm|]. exists [r]. split; [done|].
  by apply Forall_singleton.
Qed.

(** A change of the state that leaves the RisingWave alone, but for its status. *)
Lemma asks_modify (f : Mgr -> Mgr) :
  (forall m, mi_trace (f m) = mi_trace m) -> (forall m, observed_rw (f m) = observed_rw m) ->
  (forall m, rw_Meta (rwm_mutable (mi_risingwaveManager (f m))) = rw_Meta (rwm_mutable (mi_risingwaveManager m))) ->
  (forall m, rw_Spec (rwm_mutable (mi_risingwaveManager (f m))) = rw_Spec (rwm_mutable (mi_risingwaveManager m))) ->
  asks (modify f).
Proof.
  intros Ht Ho Hmeta Hspec. apply asks_silent. intros m (H1 & H2 & H3). unfold wlp, modify.
  split; [|apply Ht]. unfold at_rw. by rewrite Ho, Hmeta, Hspec.
Qed.

Lemma asks_get_state what k name : k ∈ ks -> asks (get_state what k name).
Proof.
  intros Hk. apply asks_bind_rw. apply asks_bind; [by apply asks_read|]. intros r. apply asks_ret.
Qed.

Lemma asks_list_state what k component : k ∈ ks -> asks (list_state what k component).
Proof.
  intros Hk. apply asks_bind_rw. apply asks_bind; [|intros r; apply asks_ret].
  apply asks_read. split; [done|]. split; [done|]. apply lookup_insert_Some. right. split; [done|].
  apply lookup_singleton_eq.
Qed.

(** What is read is of the kind asked for, and belongs to the RisingWave. *)
Lemma asks_with_get `{!TypedReplies} what k name (f : option (Object B) -> M ctrl_result) :
  k ∈ ks -> (forall o, maybe_mine k o -> asks (f o)) -> asks (with_state (get_state what k name) f).
Proof.
  intros Hk Hf m Hm. pose proof (asks_get_state what k name Hk m Hm) as Hasks.
  unfold with_state. apply wlp_bind. unfold wlp in Hasks |- * at 1.
  destruct (get_state what k name m) as [[[o|e] m1]|] eqn:Hg; [| |done];
    destruct Hasks as (Hm1 & l1 & H1 & Hl1).
  - assert (maybe_mine k o) as Ho.
    { destruct o as [o|]; [|done]. split; [|destruct Hm as [<- _]; by eapply get_state_owned].
      unfold get_state, mbind, GoM_bind, gets, read, mret, GoM_ret in Hg. injection Hg as Hg _.
      destruct (api_get _ _ _ _) as [o'|e] eqn:Ha; [|by destruct (IsNotFound e)].
      destruct (ValidateOwnership o' _); [|done]. injection Hg as <-. by eapply typed_get. }
    eapply wlp_mono; [by apply (Hf o Ho m1)|]. intros r m2 (Hm2 & l2 & H2 & Hl2). split; [done|].
    exists (l1 ++ l2). rewrite H2, H1, app_assoc. split; [done|]. by apply Forall_app.
  - apply wlp_ret. eauto.
Qed.

Lemma asks_with_list `{!TypedReplies} what k component (f : list (Object B) -> M ctrl_result) :
  k ∈ ks -> (forall l, Forall (mine k) l -> asks (f l)) -> asks (with_state (list_state what k component) f).
Proof.
  intros Hk Hf m Hm. pose proof (asks_list_state what k component Hk m Hm) as Hasks.
  unfold with_state. apply wlp_bind. unfold wlp in Hasks |- * at 1.
  destruct (list_state what k component m) as [[[l|e] m1]|] eqn:Hg; [| |done];
    destruct Hasks as (Hm1 & l1 & H1 & Hl1).
  - assert (Forall (mine k) l) as Hl.
    { apply list_state_owned in Hg as Hown. destruct Hm as [Hrw _]. rewrite Hrw in Hown.
      unfold list_state, mbind, GoM_bind, gets, read, mret, GoM_ret in Hg. injection Hg as Hg _.
      destruct (api_list _ _ _ _) as [l'|e] eqn:Ha; [|done]. injection Hg as <-. apply typed_list in Ha.
      rewrite Forall_forall in Ha, Hown. apply Forall_forall. intros o Ho. split; [|by apply Hown].
      apply list_elem_of_filter in Ho as [_ Ho]. by apply Ha. }
    eapply wlp_mono; [by apply (Hf l Hl m1)|]. intros r m2 (Hm2 & l2 & H2 & Hl2). split; [done|].
    exists (l1 ++ l2). rewrite H2, H1, app_assoc. split; [done|]. by apply Forall_app.
  - apply wlp_ret. eauto.
Qed.
End touches.

Create HintDb asks discriminated.
#[export] Hint Resolve asks_ret asks_gets asks_lift : asks.

(** Goes through the structure of an operation. *)
Ltac asks_tac :=
  repeat match goal with
  | |- asks _ _ (lift _ ≫= _) => apply asks_bind_lift; intros ? ?
  | |- asks _ _ (gets observed_rw ≫= _) => apply asks_bind_rw
  | |- asks _ _ (_ ≫= _) => apply asks_bind; [|intros ?]
  | |- asks _ _ (match ?x with _ => _ end) => destruct x
  | |- asks _ _ (modify _) => apply asks_modify; intros; reflexivity
  | |- asks _ _ _ => solve [eauto 2 with asks]
  end.

(** ** The operations *)

Section operations.
Context {B : Type} `{E : ClusterEnv B} `{T : !TypedReplies} `{F : ObjectFactory B} `{O : RangeOrder}.
Context `{S : SliceSort} `{N : ConditionNames}.
Abbreviation Mgr := (risingWaveControllerManagerImpl B).
Abbreviation M := (GoM Mgr).
Context (rw : RisingWave) (ks : list object_kind).
Abbreviation asks := (asks rw ks).
Abbreviation mine := (mine rw).
Abbreviation maybe_mine := (maybe_mine rw).

Lemma same_kind k (obj newObj : option (Object B)) n :
  ensureTheSameObject k obj newObj = Done n -> o_Kind n = k.
Proof.
  unfold ensureTheSameObject. destruct newObj as [n'|]; [|done]. cbv zeta.
  destruct (negb _); [done|]. case_bool_decide; [|done]. by intros [= <-].
Qed.

Lemma asks_replace_object k obj n : k ∈ ks -> mine k obj -> o_Kind n = k -> asks (replace_object obj n).
Proof.
  intros Hk [Hobj Hown] Hn. unfold replace_object.
  asks_tac; apply asks_send; unfold touches; cbn; rewrite ?Hn, ?Hobj; done.
Qed.

Lemma asks_syncObject k obj factory : k ∈ ks -> maybe_mine k obj -> asks (syncObject k obj factory).
Proof.
  intros Hk Ho. unfold syncObject. asks_tac.
  all: match goal with H : ensureTheSameObject _ _ _ = Done _ |- _ => apply same_kind in H end.
  - by eapply asks_replace_object.
  - apply asks_send. by subst.
Qed.

Lemma asks_delete_objects k l : k ∈ ks -> Forall (mine k) l -> asks (delete_objects l).
Proof.
  intros Hk. induction 1 as [|o l [Ho Hown] _ IH]; cbn; asks_tac.
  apply asks_send. unfold touches. by rewrite Ho.
Qed.

Lemma asks_sync_objects k factory toSync groups :
  k ∈ ks -> (forall g o, toSync !! g = Some o -> maybe_mine k o) ->
  asks (sync_objects k factory toSync groups).
Proof.
  intros Hk Hall. induction groups as [|g groups IH]; cbn; asks_tac. apply asks_syncObject; [done|].
  destruct (toSync !! g) as [o|] eqn:Hg; [by apply (Hall g)|done].
Qed.

(** A plan deletes and replaces only objects of the list. *)
Lemma plan_mine k expected l p :
  Forall (mine k) l -> Forall (mine k) (toDelete p) ->
  (forall g o, toSyncGroupObjects p !! g = Some o -> maybe_mine k o) ->
  let p' := foldl (classify rw expected) p l in
  Forall (mine k) (toDelete p') /\ forall g o, toSyncGroupObjects p' !! g = Some o -> maybe_mine k o.
Proof.
  intros Hl. revert p. induction Hl as [|o l Ho _ IH]; intros p Hd Hs; [done|]. cbn [foldl]. apply IH.
  - unfold classify. repeat case_match; simplify_eq/=; try done; apply Forall_app; split; try done;
      by apply Forall_singleton.
  - intros g o'. unfold classify. repeat case_match; simplify_eq/=; try apply Hs.
    intros [[_ <-]|[_ H']]%lookup_insert_Some; [done|by eapply Hs].
Qed.

Lemma missing_mine k found groups (toSync : gmap string (option (Object B))) :
  (forall g o, toSync !! g = Some o -> maybe_mine k o) ->
  forall g o, foldl (add_missing found) toSync groups !! g = Some o -> maybe_mine k o.
Proof.
  revert toSync. induction groups as [|g' groups IH]; intros toSync Hs; [done|]. cbn [foldl]. apply IH.
  intros g o. unfold add_missing. case_bool_decide; [apply Hs|].
  intros [[_ <-]|[_ H']]%lookup_insert_Some; [done|by eapply Hs].
Qed.

Lemma asks_syncComponent k component objects factory enabled :
  k ∈ ks -> Forall (mine k) objects ->
  asks (syncComponentGroupWorkloads k component objects factory enabled).
Proof.
  intros Hk Hl. unfold syncComponentGroupWorkloads. asks_tac.
  all: destruct (plan_mine k a objects empty_plan Hl) as [Hd Hs];
    [constructor|by intros g o; cbn; rewrite lookup_empty|].
  - by apply (asks_delete_objects k).
  - apply asks_sync_objects; [done|]. by apply missing_mine.
Qed.

Lemma asks_hooked name (f : M ctrl_result) : asks f -> asks (hooked name f).
Proof.
  intros Hf. assert (forall event, asks (recordEvent event)) as Hr.
  { intros event m Hm. unfold wlp, recordEvent, modify. cbn. split; [exact Hm|]. eexists.
    split; [reflexivity|]. by apply Forall_singleton. }
  unfold hooked, PostRun, recordConditionChangingEvents, recordStatesWarningEvents, record_if.
  asks_tac; done.
Qed.

Lemma asks_sync_always msg k o f : k ∈ ks -> maybe_mine k o -> asks (sync_always msg k o f).
Proof. intros Hk Ho. unfold sync_always. asks_tac. by apply asks_syncObject. Qed.

Lemma asks_delete_owned k o : k ∈ ks -> mine k o -> asks (delete_owned o).
Proof. intros Hk [Ho Hown]. apply asks_send. unfold touches. by rewrite Ho. Qed.

Lemma asks_sync_distributed msg k o f : k ∈ ks -> maybe_mine k o -> asks (sync_distributed msg k o f).
Proof.
  intros Hk Ho. unfold sync_distributed. asks_tac; [by apply asks_syncObject|by apply (asks_delete_owned k)].
Qed.

Lemma asks_sync_enabled msg k e o f : k ∈ ks -> maybe_mine k o -> asks e -> asks (sync_enabled msg k e o f).
Proof.
  intros Hk Ho He. unfold sync_enabled. asks_tac; [by apply asks_sync_always|by apply (asks_delete_owned k)].
Qed.

Lemma asks_wait_enabled k (e : M bool) o : asks e -> asks (wait_enabled k e o).
Proof. intros He. unfold wait_enabled. asks_tac; done. Qed.

Lemma asks_wait_workloads k component (e : M bool) l : asks e -> asks (wait_workloads k component e l).
Proof. intros He. unfold wait_workloads. asks_tac; done. Qed.

Lemma asks_workloads k component l factory (e : M bool) :
  k ∈ ks -> Forall (mine k) l -> asks e ->
  asks (enabled ← e; rw ← gets observed_rw; syncComponentGroupWorkloads k component l (factory rw) enabled).
Proof. intros Hk Hl He. asks_tac. by apply asks_syncComponent. Qed.

Lemma asks_report_missing table : asks (report_missing table).
Proof. unfold report_missing, update_condition. asks_tac. Qed.

Lemma asks_alive_locks l :
  (forall s, s ∈ l -> s ∈ st_ScaleViews (rw_Status rw)) -> asks (alive_locks (om_Namespace (rw_Meta rw)) l).
Proof.
  intros Hl. induction l as [|s l IH]; cbn; asks_tac; try (apply IH; intros; apply Hl; by right).
  apply asks_read. split; [done|]. apply list_elem_of_fmap_2, Hl. left.
Qed.

(** What an action of the controller touches. *)
Definition asking (a : action Mgr) : Prop := asks (a_body a).
End operations.

(** An action on a state of a kind that is among the given ones. *)
Ltac kind_in :=
  match goal with H : forall k, k ∈ _ -> k ∈ _ |- _ => apply H end;
  cbn; repeat first [apply list_elem_of_here|apply list_elem_of_further].
Ltac head_of t := lazymatch t with ?f _ => head_of f | _ => t end.
Ltac asking_tac :=
  lazymatch goal with
  | |- asking _ _ _ => unfold asking
  | |- Forall _ (actions Nop) => exact (List.Forall_nil _)
  end;
  cbn [a_body state_action];
  repeat (first [apply asks_with_get|apply asks_with_list]; [typeclasses eauto|kind_in|intros ? ?]);
  apply asks_hooked;
  lazymatch goal with
  | |- asks _ _ (_ ≫= _) => idtac
  | |- asks _ _ ?f => let op := head_of f in unfold op; cbv zeta
  end;
  lazymatch goal with
  | |- asks _ _ (sync_distributed _ _ _ _) => apply asks_sync_distributed; [kind_in|assumption]
  | |- asks _ _ (sync_always _ _ _ _) => apply asks_sync_always; [kind_in|assumption]
  | |- asks _ _ (sync_enabled _ _ _ _ _) => apply asks_sync_enabled; [kind_in|assumption|apply asks_gets]
  | |- asks _ _ (wait_enabled _ _ _) => apply asks_wait_enabled, asks_gets
  | |- asks _ _ (wait_workloads _ _ _ _) => apply asks_wait_workloads, asks_gets
  | |- asks _ _ (_ ≫= fun enabled => _ ≫= fun rw => syncComponentGroupWorkloads _ _ _ _ _) =>
      apply asks_workloads; [kind_in|assumption|apply asks_gets]
  | |- _ => asks_tac; try apply asks_report_missing
  end.

Section workflow.
Context {B : Type} `{E : ClusterEnv B} `{T : !TypedReplies} `{F : ObjectFactory B} `{O : RangeOrder}.
Context `{S : SliceSort} `{N : ConditionNames}.

(** The kinds a reconcile may touch. *)
Definition touched_kinds (mgr : RisingWaveManager) : list object_kind :=
  owned_kinds (rwm_openkruiseAvailable mgr) ++
  (if default false (rws_EnableDefaultServiceMonitor (rw_Spec (rwm_risingwave mgr)))
   then [KServiceMonitor] else []).

Lemma asking_mark rw ks name type status : asking rw ks (mark name type status).
Proof. unfold asking, mark, update_condition. cbn. apply asks_hooked. asks_tac. Qed.

Lemma asking_release rw ks : asking rw ks releaseScaleViewLock.
Proof. unfold asking. cbn. apply asks_hooked. asks_tac. by apply asks_alive_locks. Qed.

Section kinds.
Context (rw : RisingWave) (ks : list object_kind) (mgr : RisingWaveManager).
Context (Hown : forall k, k ∈ owned_kinds (rwm_openkruiseAvailable mgr) -> k ∈ ks).

Lemma asking_sync : Forall (asking rw ks) (actions (syncAllAndWait mgr)).
Proof.
  unfold syncAllAndWait, syncAllComponents, allComponentsReadyBarrier, syncConfigs,
    syncMetaComponent, syncOtherComponents, syncStandaloneComponent, metaComponentReadyBarrier,
    otherComponentsReadyBarrier, otherOpenKruiseComponentsReadyBarrier, standaloneReadyBarrier.
  destruct (rwm_openkruiseAvailable mgr); unfold If; forall_actions; asking_tac.
Qed.

Lemma asking_collect : Forall (asking rw ks) (actions (syncRunningStatus mgr)).
Proof.
  unfold syncRunningStatus, IsOpenKruiseEnabled, IsOpenKruiseAvailable.
  destruct (rwm_openkruiseAvailable mgr), (default false (rws_EnableOpenKruise _)),
    (IsStandaloneModeEnabled _); cbn [andb IfElse]; forall_actions; asking_tac.
Qed.
End kinds.

Lemma asking_monitor rw mgr :
  Forall (asking rw (touched_kinds mgr)) (actions (syncServiceMonitorIfPossible mgr)).
Proof.
  unfold syncServiceMonitorIfPossible, touched_kinds.
  destruct (default false (rws_EnableDefaultServiceMonitor _)); [|constructor]. cbn [If].
  assert (forall k, k ∈ [KServiceMonitor] -> k ∈ owned_kinds (rwm_openkruiseAvailable mgr) ++ [KServiceMonitor])
    as Hk by (intros; apply elem_of_app; by right).
  forall_actions; [|asking_tac]. unfold asking. cbn. apply asks_hooked. asks_tac. apply asks_read.
  split; [|done]. apply Hk. left.
Qed.

Lemma asking_workflow rw mgr : Forall (asking rw (touched_kinds mgr)) (actions (reactiveWorkflow mgr)).
Proof.
  assert (forall k, k ∈ owned_kinds (rwm_openkruiseAvailable mgr) -> k ∈ touched_kinds mgr) as Hown
    by (intros; apply elem_of_app; by left).
  unfold reactiveWorkflow, sharedSyncAllAndWait. forall_actions; lazymatch goal with
  | |- Forall _ (actions (syncAllAndWait _)) => by apply asking_sync
  | |- Forall _ (actions (syncRunningStatus _)) => by apply asking_collect
  | |- Forall _ (actions (syncServiceMonitorIfPossible _)) => apply asking_monitor
  | |- asking _ _ releaseScaleViewLock => apply asking_release
  | |- asking _ _ removeConditionInitializing => unfold asking; cbn; apply asks_hooked; asks_tac
  | |- _ => first [apply asking_mark|unfold asking; cbn; apply asks_hooked; asks_tac]
  end.
Qed.
End workflow.

(** ** A reconcile *)

Section reconcile.
Context {B : Type} `{E : ClusterEnv B} `{T : !TypedReplies} `{F : ObjectFactory B} `{O : RangeOrder}.
Context `{S : SliceSort} `{N : ConditionNames}.
Abbreviation Mgr := (risingWaveControllerManagerImpl B).

Lemma foldl_status (t : list RisingWave) (m : Mgr) :
  mi_trace (foldl (fun m rw => log_request (UpdateStatusRequest rw) m) m t) =
  mi_trace m ++ (UpdateStatusRequest <$> t).
Proof.
  revert m. induction t as [|rw t IH]; intros m; cbn; [by rewrite app_nil_r|].
  rewrite IH. cbn. by rewrite <-app_assoc.
Qed.

Lemma asking_update rw ks : asking rw ks (updateRisingWaveStatus (E := E)).
Proof.
  unfold asking, updateRisingWaveStatus. cbn. apply asks_hooked. apply asks_bind_gets.
  intros m0 (_ & Hmeta & Hspec). apply asks_bind; [apply asks_gets|]. intros t.
  destruct (UpdateRemoteRisingWaveStatus _ _) as [err reqs] eqn:Hu. apply asks_bind; [|intros _; asks_tac].
  assert (Forall (fun rw' => rw_Meta rw' = rw_Meta rw /\ rw_Spec rw' = rw_Spec rw) reqs) as Hreqs.
  { unfold UpdateRemoteRisingWaveStatus in Hu. case_decide; injection Hu as <- <-; by repeat constructor. }
  intros m Hm. unfold wlp, modify. cbn. split.
  - unfold at_rw, observed_rw. assert (forall (m : Mgr), mi_risingwaveManager
      (foldl (fun m rw => log_request (UpdateStatusRequest rw) m) m reqs) = mi_risingwaveManager m) as ->; [|exact Hm].
    clear. induction reqs as [|rw reqs IH]; intros m; [done|]. cbn. by rewrite IH.
  - eexists. split; [apply foldl_status|]. by apply Forall_fmap.
Qed.

(** The steps of a run touch what its actions touch. *)
Lemma chained_asks rw ks (s : Mgr) run s' :
  chained s run s' -> (forall x, x ∈ run -> asking rw ks (s_action x)) -> at_rw rw s ->
  at_rw rw s' /\ exists new, mi_trace s' = mi_trace s ++ new /\ Forall (touches rw ks) new.
Proof.
  intros Hc Ha Hs.
  apply (chained_invariant (fun m => at_rw rw m /\
    exists new, mi_trace m = mi_trace s ++ new /\ Forall (touches rw ks) new) s run s' Hc).
  - intros x Hx (Hat & new & Hm & Hnew) Hb.
    destruct (wlp_run _ _ _ _ _ (Ha x Hx (s_before x) Hat) Hb) as (Hat' & new' & Hm' & Hnew').
    split; [done|]. exists (new ++ new'). rewrite Hm', Hm, app_assoc. split; [done|]. by apply Forall_app.
  - split; [done|]. exists []. by rewrite app_nil_r.
Qed.

Context (runs : workflow Mgr -> Mgr -> list (step Mgr) -> Mgr -> Prop) `{HR : !Runs runs}.

(** C8: However [ctrlkit] runs the workflow of a RisingWave, and if the API server answers with
    objects of the kinds asked for, every object a reconcile gets, lists, creates, updates or
    deletes is of a kind whose changes the controller watches, or is the monitor of Prometheus,
    which it touches, and whose definition it looks up, only if the spec asks for it. Where
    OpenKruise is not available its kinds are not watched, and a reconcile sends no request
    about them. What it gets and lists is of the namespace of the RisingWave (and listed by
    its name), what it deletes is owned by the RisingWave, the only scale views it looks up are
    those that have a lock, and of the RisingWave it writes only the status. *)
Theorem reconcile_touches_watched ok force ns name t run m2 :
  reconciles runs ok force ns name t run m2 ->
  exists rw reqs, api_get_risingwave t ns name = Ok rw /\
    mi_trace m2 = t ++ GetRisingWaveRequest ns name :: reqs /\
    Forall (touches rw (owned_kinds ok ++
      if default false (rws_EnableDefaultServiceMonitor (rw_Spec rw)) then [KServiceMonitor] else [])) reqs.
Proof.
  intros [m0 run' m1 res m2' Hb Hrun Hu].
  unfold begin_reconcile in Hb. destruct (api_get_risingwave t ns name) as [rw|e] eqn:Hrw; [|done].
  repeat case_match; try done. injection Hb as <-. set (m0 := newRisingWaveControllerManagerImpl _ _ _ _ _) in *.
  destruct (chained_asks rw (touched_kinds (mi_risingwaveManager m0)) m0 run' m1)
    as (Hat & new & Ht & Hnew); [by eapply runs_chained| |done|].
  { intros x Hx. pose proof (asking_workflow rw (mi_risingwaveManager m0)) as Hall.
    rewrite Forall_forall in Hall. by eapply Hall, runs_actions. }
  destruct (wlp_run _ _ _ _ _ (asking_update rw (touched_kinds (mi_risingwaveManager m0)) m1 Hat) Hu)
    as (_ & upd & Ht' & Hupd).
  exists rw, (new ++ upd). split; [done|].
  rewrite Ht', Ht. split; [|by apply Forall_app].
  change (((t ++ [GetRisingWaveRequest ns name]) ++ new) ++ upd =
    t ++ [GetRisingWaveRequest ns name] ++ new ++ upd). by rewrite <-!app_assoc.
Qed.
End reconcile.

(** ** The deletion of a scale view *)

Section deletion.
Context {B : Type} `{E : ClusterEnv B}.
Abbreviation Mgr := (risingWaveControllerManagerImpl B).

Lemma released_absent ns l l' name :
  released ns l l' ->
  (forall t, exists e, api_get_scale_view t ns name = Err e /\ IsNotFound e = true) ->
  name ∉ (lk_Name <$> l').
Proof.
  intros Hrel Hgone. induction Hrel as [|t s sv l l' Hsv _ _ IH| |]; [apply not_elem_of_nil| |done..].
  cbn. intros [->|H]%elem_of_cons; [|by apply IH].
  destruct (Hgone t) as (e & He & _). congruence.
Qed.

(** The reconcile that the deletion of a scale view asks for is that of the RisingWave the view
    scaled, and its action on the locks, unless the API server can not tell which views there
    are, leaves no lock under the name of the view. *)
Theorem deleted_view_released sv (m : Mgr) r m' :
  (om_Namespace (rw_Meta (observed_rw m)), om_Name (rw_Meta (observed_rw m))) ∈ target_of sv ->
  (forall t, exists e, api_get_scale_view t (om_Namespace (sv_Meta sv)) (sv_Name sv) = Err e /\
     IsNotFound e = true) ->
  a_body releaseScaleViewLock m = Done (r, m') -> continues r = true ->
  sv_Name sv ∉ (lk_Name <$> st_ScaleViews (rw_Status (rwm_mutable (mi_risingwaveManager m')))).
Proof.
  intros Hin Hgone Hr Hc. apply list_elem_of_singleton in Hin as [= Hns _].
  destruct (release_spec m r m' Hr) as [(_ & Hrel & _)|(e & -> & _)]; [|done].
  eapply released_absent; [exact Hrel|]. by rewrite Hns.
Qed.
End deletion.

(** ** Witness *)

Section witness.
#[local] Existing Instances ex_ready_env ex_object_factory elements_order stable_sort sample_names.

Lemma reconcile_touches_watched_witness :
  exists (m2 : risingWaveControllerManagerImpl unit) (reqs : list (request unit)),
    mi_trace m2 = GetRisingWaveRequest "default" "rw" :: reqs /\
    Forall (touches ex_stopped [KDeployment; KStatefulSet; KService; KConfigMap]) reqs.
Proof.
  assert (TypedReplies (E := ex_ready_env)) as HT.
  { split; [intros t k ns name o; by destruct k; intros [= <-]|by intros t k ns labels l [= <-]]. }
  destruct ex_run_ok as (run & m1 & Hrun & _).
  destruct (updateRisingWaveStatus_spec m1) as (res & m2 & Hu & _).
  destruct (reconcile_touches_watched liberal false false "default" "rw" [] run m2) as (rw & reqs & Hrw & Ht & Hall);
    [exact (reconcile_run liberal false false "default" "rw" [] ex_start run m1 res m2 ex_begin Hrun Hu)|].
  injection Hrw as <-. exists m2, reqs. split; [exact Ht|exact Hall].
Defined.
End witness.
