(* ===== verification/Interleaving.v ===== *)
(** * The writers of a RisingWave, interleaved

    A RisingWave has four writers: its users, the controller that reconciles it, and the
    controllers of the scale views that scale it, which write its status (the locks) and its
    replicas. Each reads the object from a cache, which may be behind. The API server keeps the
    latest version; it refuses an update of the status that was made from another version than the
    latest one, and it applies a merge patch to whatever version is the latest, after asking the
    webhook. The world is the object with its earlier versions, and all versions of the scale
    views; a step is one write. What the controllers write is read off their reconciles. *)

From S2P Require Import Prelude GoStrings ApiTypes ApiErrors SplitReplicas ScaleLock ScaleHelper.
From S2P Require Import ScaleViewWebhooks ScaleViewManager RisingWaveWebhook RisingWaveManager Workloads.
From S2P Require Import ManagerState WorkloadSync ManagerImpl EventRecorder ManagerActions CtrlKit.
From S2P Require Import ScaleViewController RisingWaveController ActionEffects RisingWaveReconcile.

(** ** Definitions: what the controllers write *)

(** The controller of the scale view [sv], having read [rw], sends [q]. *)
Definition view_writes (sv : RisingWaveScaleView) (rw : RisingWave) (q : sv_request) : Prop :=
  exists (E : ScaleViewEnv) runs (_ : Runs runs) t ns name m0 run m1 x,
    scales runs t ns name m0 run m1 /\ sv = svms_target (svc_state m0) /\
    x ∈ run /\ target_read (svc_trace (s_before x)) sv = Ok (Some rw) /\ SendCall q ∈ calls x.

(** The controller of the RisingWave, having read [rw], sends the status [st]. *)
Definition controller_writes (rw : RisingWave) (st : RisingWaveStatus) : Prop :=
  exists B (E : ClusterEnv B) (F : ObjectFactory B) (O : RangeOrder) (S : SliceSort) (N : ConditionNames)
    runs (_ : Runs runs) ok force ns name t m0 run m1,
    begin_reconcile ok force ns name t = inr m0 /\ rw = observed_rw m0 /\
    runs (reactiveWorkflow (mi_risingwaveManager m0)) m0 run m1 /\
    st = rw_Status (rwm_mutable (mi_risingwaveManager m1)).

(** ** The controller of the RisingWave only releases locks *)

Section releases.
Context {B : Type} `{E : ClusterEnv B} `{F : ObjectFactory B} `{O : RangeOrder} `{S : SliceSort}.
Context `{N : ConditionNames}.
Abbreviation Mgr := (risingWaveControllerManagerImpl B).

Definition mutable_locks (mgr : RisingWaveManager) : list RisingWaveScaleViewLock :=
  st_ScaleViews (rw_Status (rwm_mutable mgr)).

Lemma effects_source name mgr mgr' :
  rtc (effect name) mgr mgr' -> rwm_risingwave mgr' = rwm_risingwave mgr.
Proof.
  induction 1 as [|mgr mgr1 mgr2 H _ IH]; [done|]. rewrite IH. apply (effect_keeps _ _ _ H).
Qed.

Lemma effects_locks_kept name mgr mgr' :
  rtc (effect name) mgr mgr' -> name <> "ReleaseScaleViewLock" -> mutable_locks mgr' = mutable_locks mgr.
Proof.
  intros H Hn. induction H as [|mgr mgr1 mgr2 H _ IH]; [done|]. rewrite IH.
  destruct H; try done; unfold mutable_locks; cbn; by unfold set_root_path; case_bool_decide.
Qed.

Section run.
Context (runs : workflow Mgr -> Mgr -> list (step Mgr) -> Mgr -> Prop) `{HR : !Runs runs}.
Context (m0 : Mgr) (run : list (step Mgr)) (m1 : Mgr).
Context (Hrun : runs (reactiveWorkflow (mi_risingwaveManager m0)) m0 run m1).

(** The object that is reconciled stays, and its locks are locks that were read. *)
Definition keeps_locks (m : Mgr) : Prop :=
  observed_rw m = observed_rw m0 /\
  mutable_locks (mi_risingwaveManager m) `sublist_of` locks (observed_rw m0).

Lemma step_keeps_locks x : x ∈ run ->
  keeps_locks (s_before x) ->
  a_body (s_action x) (s_before x) = Done (s_result x, s_after x) -> keeps_locks (s_after x).
Proof.
  intros Hx [Hrw Hl] Hb. pose proof (step_effect runs m0 run m1 Hrun x Hx) as He.
  assert (observed_rw (s_after x) = observed_rw m0) as Hrw'
    by (rewrite <-Hrw; exact (effects_source _ _ _ He)).
  split; [done|]. destruct (decide (a_name (s_action x) = "ReleaseScaleViewLock")) as [Hn|Hn].
  - pose proof (runs_actions _ _ _ _ _ Hrun Hx) as Ha.
    pose proof (named_release (mi_risingwaveManager m0)) as Hnamed. unfold named in Hnamed.
    rewrite Forall_forall in Hnamed. specialize (Hnamed _ Ha Hn). rewrite Hnamed in Hb.
    destruct (release_spec _ _ _ Hb) as [(_ & Hrel & _)|(_ & _ & _ & Hm)].
    + rewrite <-Hrw. by eapply released_sublist.
    + by rewrite Hm.
  - by rewrite (effects_locks_kept _ _ _ He Hn).
Qed.

Lemma run_keeps_locks : mutable_locks (mi_risingwaveManager m0) = locks (observed_rw m0) -> keeps_locks m1.
Proof.
  intros Heq. apply (chained_invariant keeps_locks m0 run m1 (runs_chained _ _ _ _ Hrun) step_keeps_locks).
  split; [done|]. by rewrite Heq.
Qed.
End run.
End releases.

(** Whatever the status it writes says otherwise, its locks are among those it read. *)
Lemma controller_writes_locks rw st : controller_writes rw st -> st_ScaleViews st `sublist_of` locks rw.
Proof.
  intros (B & E & F & O & S & N & runs & HR & ok & force & ns & name & t & m0 & run & m1 & Hb & -> & Hrun & ->).
  apply (run_keeps_locks runs m0 run m1 Hrun). unfold begin_reconcile in Hb.
  destruct (api_get_risingwave t ns name) as [rw|e]; [|done]. repeat case_match; try done.
  by injection Hb as <-.
Qed.

(** ** What the controller of a scale view promises *)

Lemma view_writes_justified sv rw q : view_writes sv rw q ->
  match q with
  | UpdateRisingWaveStatusRequest rw' => GrabOrUpdateScaleViewLockFor rw sv = Done ((true, None), rw')
  | PatchRisingWaveRequest rw' base => base = rw /\ exists l, holds_lock sv rw l /\
      write_group_locks (tr_Component (sv_TargetRef sv)) (lk_GroupLocks l) false rw = Done (true, rw')
  | UpdateScaleViewStatusRequest _ => True
  end.
Proof.
  intros (E & runs & HR & t & ns & name & m0 & run & m1 & x & Hs & -> & Hx & Ht & Hq).
  pose proof (calls_justified runs t ns name m0 run m1 Hs x q Hx Hq) as Hj.
  destruct q as [|rw'|rw' base]; [done| |].
  - destruct Hj as (_ & rw0 & Ht' & _ & Hg). rewrite Ht in Ht'. by injection Ht' as <-.
  - destruct Hj as (_ & Ht' & l & Hl & Hw & _). rewrite Ht in Ht'. injection Ht' as <-. eauto.
Qed.

(** The locks after grabbing are those before, and one of the view. *)
Lemma GrabOrUpdate_new rw sv r rw' l : GrabOrUpdateScaleViewLockFor rw sv = Done (r, rw') -> l ∈ locks rw' ->
  l ∈ locks rw \/
  lk_Name l = sv_Name sv /\ lk_UID l = sv_UID sv /\ lock_groups l = sv_Groups sv /\
  (lk_Component l = tr_Component (sv_TargetRef sv) \/
   exists k, k ∈ locks rw /\ lk_UID k = sv_UID sv /\ lk_Component k = lk_Component l).
Proof.
  unfold GrabOrUpdateScaleViewLockFor, splitReplicasIntoGroups. run_monad. intros H Hl.
  destruct (getScaleViewLockIndex rw sv) as [[i k]|] eqn:Hi.
  - case_decide; [injection H as <- <-; by left|]. destruct (SplitReplicas sv) as [m|]; [|done].
    injection H as <- <-. rewrite locks_set_locks in Hl.
    apply getScaleViewLockIndex_Some in Hi as (Hk & Hn & Hu).
    apply list_elem_of_lookup in Hl as [j Hj]. apply list_lookup_insert_Some in Hj as [(-> & <- & _)|(_ & Hj)];
      [right|left; by eapply list_elem_of_lookup_2].
    unfold lock_groups. cbn. rewrite lock_groups_of_view. repeat split; try done. right. exists k.
    split; [by eapply list_elem_of_lookup_2|done].
  - destruct (GrabScaleViewLockFor rw sv) as [[er rw2]|] eqn:Hg; [|done].
    apply GrabScaleViewLockFor_inv in Hg as (m & _ & _ & ->).
    destruct er; injection H as <- <-; [by left|]. rewrite locks_set_locks in Hl.
    apply elem_of_app in Hl as [Hl|Hl%list_elem_of_singleton]; [by left|subst; right].
    unfold lock_groups. cbn. rewrite lock_groups_of_view. repeat split; try done. by left.
Qed.

(** ** Definitions: the world *)

Record world := {
  w_rw : RisingWave;
  w_old : list RisingWave;
  w_views : list RisingWaveScaleView;
}.

(** What a cache may show. *)
Definition versions (w : world) : list RisingWave := w_rw w :: w_old w.

Definition put (rw : RisingWave) (w : world) : world :=
  {| w_rw := rw; w_old := versions w; w_views := w_views w |}.
Definition add_view (sv : RisingWaveScaleView) (w : world) : world :=
  {| w_rw := w_rw w; w_old := w_old w; w_views := sv :: w_views w |}.

(** A merge patch replaces an array as a whole: the objects of the request differ in the node
    groups of the component only ([patch_of_component]). *)
Definition apply_patch (component : string) (modified rw : RisingWave) : RisingWave :=
  set_node_groups component (default [] (node_groups modified component)) rw.

(** The validating webhook lets the update through, for some version of what it takes from
    elsewhere (third-party predicates, the order of map ranges, the switch of OpenKruise); an
    object that asks for a bypass is not looked at. *)
Definition admitted (old new : RisingWave) : Prop :=
  exists (O : RangeOrder) regexp dns cmp available,
    RisingWave_ValidateUpdate regexp dns cmp available old new = Done None.

(** The same view: what neither the webhook nor the subresources let change. *)
Definition same_identity (a b : RisingWaveScaleView) : Prop :=
  sv_UID a = sv_UID b /\ sv_Name a = sv_Name b.

Inductive world_step (w : world) : world -> Prop :=
| step_create_view got sv :
    (forall sv0, sv0 ∈ w_views w -> sv_UID sv0 <> sv_UID sv) ->
    known_component (tr_Component (sv_TargetRef sv)) ->
    ScaleView_validateCreate got sv = Done None -> world_step w (add_view sv w)
| step_update_view old new :
    old ∈ w_views w -> same_identity new old -> ScaleView_ValidateUpdate old new = None ->
    world_step w (add_view new w)
| step_view_subresource old new :
    old ∈ w_views w -> same_identity new old -> sv_TargetRef new = sv_TargetRef old ->
    sv_ScalePolicy new = sv_ScalePolicy old -> world_step w (add_view new w)
| step_user new :
    rw_Status new = rw_Status (w_rw w) -> admitted (w_rw w) new ->
    world_step w (put new w)
| step_lock sv rw' :
    sv ∈ w_views w -> view_writes sv (w_rw w) (UpdateRisingWaveStatusRequest rw') ->
    world_step w (put (set_rw_Status (rw_Status rw') (w_rw w)) w)
| step_patch sv base rw' new :
    sv ∈ w_views w -> base ∈ versions w -> view_writes sv base (PatchRisingWaveRequest rw' base) ->
    rw_Spec new = rw_Spec (apply_patch (tr_Component (sv_TargetRef sv)) rw' (w_rw w)) ->
    rw_Status new = rw_Status (w_rw w) -> admitted (w_rw w) new ->
    world_step w (put new w)
| step_status st :
    controller_writes (w_rw w) st -> world_step w (put (set_rw_Status st (w_rw w)) w).

(** From a RisingWave without locks and views. *)
Definition world_reachable (w : world) : Prop :=
  exists rw, locks rw = [] /\ rtc world_step {| w_rw := rw; w_old := []; w_views := [] |} w.

(** ** The patch *)

Lemma set_node_groups_set c gs gs' rw :
  set_node_groups c gs (set_node_groups c gs' rw) = set_node_groups c gs rw.
Proof.
  destruct rw as [m s st], s, rws_Components, cps_Meta, cps_Frontend, cps_Compute, cps_Compactor.
  unfold set_node_groups. cbn. by repeat case_bool_decide.
Qed.

Lemma set_node_groups_same c rw : set_node_groups c (default [] (node_groups rw c)) rw = rw.
Proof.
  destruct rw as [m s st], s, rws_Components, cps_Meta, cps_Frontend, cps_Compute, cps_Compactor.
  unfold set_node_groups, node_groups. cbn. case_bool_decide; subst; [done|].
  case_bool_decide; subst; [done|]. case_bool_decide; subst; [done|]. by case_bool_decide; subst.
Qed.

(** What the loop over the locked groups changes is an array, the node groups of the component. *)
Lemma patch_of_component c gls b rw b' rw' : known_component c ->
  write_group_locks c gls b rw = Done (b', rw') -> apply_patch c rw' rw = rw'.
Proof.
  intros Hc. unfold apply_patch. revert b rw. induction gls as [|gl gls IH]; intros b rw; cbn [write_group_locks].
  { intros [= _ <-]. apply set_node_groups_same. }
  destruct (WriteReplicas rw c (gl_Name gl) (gl_Replicas gl)) as [[u rw1]|] eqn:Hw; [|done].
  run_monad. intros H%IH. rewrite <-H at 2. revert Hw. unfold WriteReplicas. run_monad.
  destruct (getReplicasPtr rw c (gl_Name gl)) as [[[i r]|]|]; [|by intros [= _ <-]|done].
  case_decide; [by intros [= _ <-]|]. intros [= _ <-]. by rewrite set_node_groups_set.
Qed.

(** Made from the latest version, a patch leads to the object the controller meant. *)
Lemma fresh_patch sv rw rw' base :
  known_component (tr_Component (sv_TargetRef sv)) ->
  view_writes sv rw (PatchRisingWaveRequest rw' base) ->
  apply_patch (tr_Component (sv_TargetRef sv)) rw' rw = rw'.
Proof.
  intros Hc (_ & l & _ & Hw)%view_writes_justified. by eapply patch_of_component.
Qed.

(** ** The invariant *)

(** The view [sv] holds the lock [l]. *)
Definition held_by (sv : RisingWaveScaleView) (l : RisingWaveScaleViewLock) : Prop :=
  lk_UID l = sv_UID sv /\ lk_Name l = sv_Name sv /\ lk_Component l = tr_Component (sv_TargetRef sv) /\
  lock_groups l ≡ₚ sv_Groups sv.

(** What all versions of a view have in common. *)
Definition same_target (a b : RisingWaveScaleView) : Prop :=
  sv_Name a = sv_Name b /\ tr_Component (sv_TargetRef a) = tr_Component (sv_TargetRef b) /\
  sv_Groups a ≡ₚ sv_Groups b.

Record world_ok (w : world) : Prop := {
  wo_views a b : a ∈ w_views w -> b ∈ w_views w -> sv_UID a = sv_UID b -> same_target a b;
  wo_component a : a ∈ w_views w -> known_component (tr_Component (sv_TargetRef a));
  wo_locks : locks_ok (locks (w_rw w));
  wo_held l : l ∈ locks (w_rw w) -> exists sv, sv ∈ w_views w /\ held_by sv l;
}.

Lemma same_target_sym a b : same_target a b -> same_target b a.
Proof. by intros (H1 & H2 & H3). Qed.

Lemma same_target_trans a b c : same_target a b -> same_target b c -> same_target a c.
Proof.
  intros (H1 & H2 & H3) (H4 & H5 & H6). split; [congruence|]. split; [congruence|]. by etrans.
Qed.

(** A new version of a view. *)
Lemma add_version w old new :
  world_ok w -> old ∈ w_views w -> sv_UID new = sv_UID old -> same_target new old ->
  world_ok (add_view new w).
Proof.
  intros [Hv Hc Hl Hh] Hold Hu Ht.
  assert (forall b, b ∈ w_views w -> sv_UID new = sv_UID b -> same_target new b) as Hnew.
  { intros b Hb Hub. eapply same_target_trans; [done|]. apply Hv; [done..|congruence]. }
  constructor; cbn; [| |done|].
  - intros a b [->|Ha]%elem_of_cons [->|Hb]%elem_of_cons Hab; [done|by apply Hnew| |by apply Hv].
    apply same_target_sym, Hnew; [done|congruence].
  - intros a [->|Ha]%elem_of_cons; [|by apply Hc]. destruct Ht as (_ & -> & _). by apply Hc.
  - intros l (sv & Hsv & Hheld)%Hh. exists sv. split; [by right|done].
Qed.

Lemma created w sv :
  world_ok w -> (forall sv0, sv0 ∈ w_views w -> sv_UID sv0 <> sv_UID sv) ->
  known_component (tr_Component (sv_TargetRef sv)) -> world_ok (add_view sv w).
Proof.
  intros [Hv Hc Hl Hh] Hfresh Hk. constructor; cbn; [| |done|].
  - intros a b [->|Ha]%elem_of_cons [->|Hb]%elem_of_cons Hab; [done| | |by apply Hv].
    + by destruct (Hfresh b Hb).
    + by destruct (Hfresh a Ha).
  - intros a [->|Ha]%elem_of_cons; [done|by apply Hc].
  - intros l (sv0 & Hsv & Hheld)%Hh. exists sv0. split; [by right|done].
Qed.

(** A write that leaves the locks as they are. *)
Lemma put_same_locks w new : rw_Status new = rw_Status (w_rw w) -> world_ok w -> world_ok (put new w).
Proof.
  intros Hst [Hv Hc Hl Hh]. assert (locks new = locks (w_rw w)) as Heq by (unfold locks; by rewrite Hst).
  constructor; cbn; [done|done| |]; by rewrite Heq.
Qed.

Lemma put_locked w sv rw' :
  world_ok w -> sv ∈ w_views w -> GrabOrUpdateScaleViewLockFor (w_rw w) sv = Done ((true, None), rw') ->
  world_ok (put (set_rw_Status (rw_Status rw') (w_rw w)) w).
Proof.
  intros [Hv Hc Hl Hh] Hsv Hg. constructor; cbn; [done|done| |].
  - change (locks_ok (locks rw')). eapply update_locks_ok; [|exact Hl|exact Hg]. intros l (Hin & Hn & Hu)%GetScaleViewLock_Some; [|done].
    destruct (Hh l Hin) as (sv0 & Hsv0 & Hu0 & _ & _ & ->). apply Hv; [done..|congruence].
  - intros l Hin. destruct (GrabOrUpdate_new _ _ _ _ l Hg Hin) as [?|(Hn & Hu & Hgr & Hcomp)]; [by apply Hh|].
    exists sv. split; [done|]. unfold held_by. rewrite Hn, Hu, Hgr. repeat split; try done.
    destruct Hcomp as [?|(k & Hk & Hku & <-)]; [done|].
    destruct (Hh k Hk) as (sv0 & Hsv0 & Hu0 & _ & -> & _). apply Hv; [done..|congruence].
Qed.

Lemma put_released w st :
  world_ok w -> st_ScaleViews st `sublist_of` locks (w_rw w) -> world_ok (put (set_rw_Status st (w_rw w)) w).
Proof.
  intros [Hv Hc Hl Hh] Hsub. constructor; cbn; [done|done| |].
  - by eapply locks_ok_sublist.
  - intros l Hin. apply Hh. by eapply elem_of_sublist.
Qed.

Lemma world_step_ok w w' : world_step w w' -> world_ok w -> world_ok w'.
Proof.
  intros H Hok. destruct H as [got sv Hf Hk _|old new Hold [Hu Hn] Hv|old new Hold [Hu Hn] Ht Hp
    |new Hst _|sv rw' Hsv Hw|sv base rw' new Hsv _ _ _ Hst _|st Hw].
  - by apply created.
  - eapply add_version; [done..|]. split; [done|]. unfold ScaleView_ValidateUpdate in Hv.
    destruct (validateObject new); [done|]. unfold ScaleView_validateUpdate in Hv.
    destruct (update_errors old new) eqn:He; [|done]. apply update_errors_nil in He as (Ht & _ & Hg).
    split; [by rewrite Ht|done].
  - eapply add_version; [done..|]. split; [done|]. unfold sv_Groups. by rewrite Ht, Hp.
  - by apply put_same_locks.
  - by eapply put_locked, (view_writes_justified _ _ _ Hw).
  - by apply put_same_locks.
  - by apply put_released, controller_writes_locks.
Qed.

Lemma world_reachable_ok w : world_reachable w -> world_ok w.
Proof.
  intros (rw & Hl & Hr). remember {| w_rw := rw; w_old := []; w_views := [] |} as w0 eqn:Hw0.
  assert (world_ok w0) as H0.
  { subst. constructor; cbn; [by intros ? ? ?%not_elem_of_nil|by intros ? ?%not_elem_of_nil| |];
      rewrite Hl; [by intros ? ? ? ? ?|by intros ? ?%not_elem_of_nil]. }
  clear Hw0. induction Hr as [|w w1 w2 Hs _ IH]; [done|]. by eapply IH, world_step_ok.
Qed.

Lemma held_known w : world_ok w ->
  Forall (fun l => known_component (lk_Component l)) (locks (w_rw w)).
Proof.
  intros Hok. apply Forall_forall. intros l (sv & Hsv & _ & _ & -> & _)%(wo_held w Hok).
  by apply (wo_component w Hok).
Qed.

(** What the webhook accepts without a bypass leaves the replicas of a locked group alone or takes
    them to the lock. *)
Lemma accepted_locked w new l gl :
  world_ok w -> rw_Status new = rw_Status (w_rw w) -> admitted (w_rw w) new ->
  bypassed new = false -> l ∈ locks (w_rw w) -> gl ∈ lk_GroupLocks l ->
  replicas_of new (lk_Component l) (gl_Name gl) = Some (gl_Replicas gl) \/
  replicas_of new (lk_Component l) (gl_Name gl) =
    Some (default 0%Z (replicas_of (w_rw w) (lk_Component l) (gl_Name gl))).
Proof.
  intros Hok Hst (O & regexp & dns & cmp & available & Hv) Hby Hl Hgl.
  apply ValidateUpdate_None in Hv as [Hb|[_ Hv]]; [congruence|].
  apply validateUpdate_None in Hv as (_ & _ & _ & H); [|rewrite Hst; by apply held_known].
  rewrite Forall_forall, Hst in H. specialize (H l Hl). apply lock_respected_all_or_nothing in H.
  unfold locked_groups in H. rewrite !Forall_fmap, !Forall_forall in H.
  destruct H as [H|H]; [left; by apply H|right; by apply H].
Qed.

(** ** Properties *)

(** C2: However the users, the controller of a RisingWave and the controllers of its scale views
    interleave, and however old the versions are they read: no group is locked twice; every lock
    belongs to a scale view that was created, and is for its component and groups; and a write
    changes the replicas of a locked group only to those of the lock (a group that was missing may
    come back with none), unless it leaves the object with the annotation that bypasses the
    webhook, with which an update changes what it likes but for the locks. *)
Theorem writers_interleave_safely w :
  world_reachable w ->
  (forall a b g, a ∈ locks (w_rw w) -> b ∈ locks (w_rw w) ->
     lk_Name a = lk_Name b \/
     (lk_Component a = lk_Component b /\ g ∈ lock_groups a /\ g ∈ lock_groups b) -> a = b) /\
  (forall l, l ∈ locks (w_rw w) -> exists sv, sv ∈ w_views w /\ held_by sv l) /\
  (forall w' l gl, world_step w w' -> bypassed (w_rw w') = false -> l ∈ locks (w_rw w) -> gl ∈ lk_GroupLocks l ->
     let r := replicas_of (w_rw w) (lk_Component l) (gl_Name gl) in
     let r' := replicas_of (w_rw w') (lk_Component l) (gl_Name gl) in
     r' = r \/ r' = Some (gl_Replicas gl) \/ r' = Some (default 0%Z r)).
Proof.
  intros Hok%world_reachable_ok. split; [|split; [by apply wo_held|]].
  { intros a b g. apply locks_ok_exclusive. by apply wo_locks. }
  intros w' l gl Hs Hby Hl Hgl r r'. subst r r'.
  destruct Hs as [got sv|old new|old new|new Hst Hv|sv rw'|sv base rw' new _ _ _ _ Hst Hv|st]; try (by left);
    right; by apply accepted_locked.
Qed.

(** ** Examples: a patch made from an old version *)

Section example.

(** A server that shows the view [sv] and the target [rw]. *)
Definition showing (sv : RisingWaveScaleView) (rw : RisingWave) : ScaleViewEnv :=
  {| sv_get_view := fun _ _ _ => Ok sv; sv_get_target := fun _ _ _ => Ok rw; sv_reply := fun _ _ => None |}.

(** The calls of one step of a reconcile in the given order. *)
Definition calls_of_step (sv : RisingWaveScaleView) (rw : RisingWave) (order : list string) (i : nat)
  : option (list sv_call) :=
  let w := scale_view_workflow (E := showing sv rw) false in
  match exec w order (NewRisingWaveScaleViewControllerManager (NewRisingWaveScaleViewControllerManagerState sv)
    (NewRisingWaveScaleViewControllerManagerImpl sv) [GetScaleViewCall "ns" "sv"]) with
  | Some (run, _) =>
      if ordered_from (places w) [] (outcomes run) && complete_run (places w) (outcomes run) &&
         in_order (deferred w) (outcomes run).*1
      then calls <$> run !! i else None
  | None => None
  end.

Lemma calls_written sv rw order i cs q :
  om_Deleted (sv_Meta sv) = false -> calls_of_step sv rw order i = Some cs -> SendCall q ∈ cs ->
  view_writes sv rw q.
Proof.
  intros Hd H Hq. unfold calls_of_step in H. destruct (exec _ _ _) as [[run m1]|] eqn:Hrun; [|done].
  apply exec_run in Hrun as [Hc Ha]. destruct (_ && _) eqn:Hok; [|done]. split_bools.
  destruct (run !! i) as [x|] eqn:Hx; [|done]. injection H as <-.
  exists (showing sv rw), liberal, _, [], "ns", "sv". do 4 eexists. split; [split|].
  - reflexivity.
  - cbn. rewrite Hd. by repeat split.
  - split; [done|]. split; [by eapply list_elem_of_lookup_2|]. by split.
Qed.

(** A cluster with two groups of compute nodes, and a view that scales the first one to 3. *)
Definition ex_cluster_meta : ObjectMeta :=
  {| om_Name := "rw"; om_Namespace := "ns"; om_UID := "rw-uid"; om_Generation := 1;
     om_Labels := ∅; om_Annotations := ∅; om_Finalizers := []; om_Deleted := false |}.
Definition ex_groups (small other : Z) (rw : RisingWave) : RisingWave :=
  set_node_groups ComponentCompute [simple_group "small" small; simple_group "other" other] rw.
Definition ex_cluster : RisingWave :=
  ex_groups 1 1 (ex_stores (memory_state "data") memory_meta
    {| rw_Meta := ex_cluster_meta; rw_Spec := rw_Spec zero_risingwave; rw_Status := zero_status |}).
Definition ex_scaler : RisingWaveScaleView :=
  {| sv_Meta := {| om_Name := "sv"; om_Namespace := "ns"; om_UID := "sv-uid"; om_Generation := 1;
                   om_Labels := ∅; om_Annotations := ∅; om_Finalizers := []; om_Deleted := false |};
     sv_Spec := {| svs_TargetRef := {| tr_Name := "rw"; tr_Component := ComponentCompute;
                                       tr_UID := "rw-uid" |};
                   svs_Replicas := Some 3%Z; svs_LabelSelector := "";
                   svs_ScalePolicy := [policy "small" 0 None] |};
     sv_Status := {| svst_Replicas := None; svst_Locked := false |} |}.
Definition ex_scaler_lock : RisingWaveScaleViewLock :=
  {| lk_Name := "sv"; lk_UID := "sv-uid"; lk_Component := ComponentCompute; lk_Generation := 1;
     lk_GroupLocks := [{| gl_Name := "small"; gl_Replicas := 3 |}] |}.
Definition ex_locked_cluster : RisingWave := set_locks [ex_scaler_lock] ex_cluster.

(** The world after the view was created and locked its group; the user then gives the other group
    five replicas, and the controller, which has not seen that, patches. *)
Definition ex_world0 : world := {| w_rw := ex_cluster; w_old := []; w_views := [] |}.
Definition ex_world : world := put ex_locked_cluster (add_view ex_scaler ex_world0).
Definition ex_world_user : world := put (ex_groups 1 5 ex_locked_cluster) ex_world.
Definition ex_world_patched : world := put (ex_groups 3 1 ex_locked_cluster) ex_world_user.

Lemma ex_lock_written :
  view_writes ex_scaler ex_cluster (UpdateRisingWaveStatusRequest ex_locked_cluster).
Proof.
  eapply (calls_written _ _ [RisingWaveScaleViewAction_GrabOrUpdateScaleViewLock;
    RisingWaveScaleViewAction_SyncGroupReplicasStatusFromRisingWave;
    RisingWaveScaleViewAction_UpdateScaleViewStatus] 0); [reflexivity|vm_compute; reflexivity|].
  right. left.
Qed.

Lemma ex_patch_written :
  view_writes ex_scaler ex_locked_cluster
    (PatchRisingWaveRequest (ex_groups 3 1 ex_locked_cluster) ex_locked_cluster).
Proof.
  eapply (calls_written _ _ [RisingWaveScaleViewAction_GrabOrUpdateScaleViewLock;
    RisingWaveScaleViewAction_SyncGroupReplicasToRisingWave;
    RisingWaveScaleViewAction_SyncGroupReplicasStatusFromRisingWave;
    RisingWaveScaleViewAction_UpdateScaleViewStatus] 1); [reflexivity|vm_compute; reflexivity|].
  right. left.
Qed.

Lemma ex_world_reachable : world_reachable ex_world.
Proof.
  exists ex_cluster. split; [done|]. eapply rtc_l; [|apply rtc_once].
  - apply (step_create_view _ (Ok ex_cluster) ex_scaler); [by intros ? ?%not_elem_of_nil| |].
    + do 3 right. left.
    + vm_compute. reflexivity.
  - exact (step_lock (add_view ex_scaler ex_world0) ex_scaler ex_locked_cluster
      ltac:(left) ex_lock_written).
Qed.

Lemma ex_admits old new : ex_update old new = Done None -> admitted old new.
Proof. intros H. do 5 eexists. exact H. Qed.

Lemma ex_user_step : world_step ex_world ex_world_user.
Proof. apply step_user; [reflexivity|]. apply ex_admits. vm_compute. reflexivity. Qed.

(** C40: A change of the user is lost: the controller of a scale view sends its patch without the
    version it was made from, and the patch replaces the node groups of the component as a whole.
    In a run that can happen, the replicas the user gave to a group that no view scales are taken
    back by a patch that is about another group. *)
Theorem stale_patch_loses_update :
  exists w w1 w2, world_reachable w /\ world_step w w1 /\ world_step w1 w2 /\
    (forall l, l ∈ locks (w_rw w1) -> "other" ∉ lock_groups l) /\
    replicas_of (w_rw w) ComponentCompute "other" = Some 1%Z /\
    replicas_of (w_rw w1) ComponentCompute "other" = Some 5%Z /\
    replicas_of (w_rw w2) ComponentCompute "other" = Some 1%Z.
Proof.
  exists ex_world, ex_world_user, ex_world_patched. split; [apply ex_world_reachable|].
  split; [apply ex_user_step|]. split; [|split; [|by repeat split]].
  - apply (step_patch _ ex_scaler ex_locked_cluster (ex_groups 3 1 ex_locked_cluster));
      [left|right; left|exact ex_patch_written|reflexivity|reflexivity|
       apply ex_admits; vm_compute; reflexivity].
  - intros l ->%list_elem_of_singleton. by apply not_elem_of_cons; split; [|apply not_elem_of_nil].
Qed.

Lemma writers_interleave_safely_witness :
  exists sv, sv ∈ w_views ex_world /\ held_by sv ex_scaler_lock.
Proof.
  destruct (writers_interleave_safely ex_world ex_world_reachable) as (_ & H & _). apply H. left.
Defined.
End example.
