(* ===== verification/BinaryHeap.v ===== *)
(** * pkg/utils/sort.go: the priority queue of environment variables

    The methods of the queue, and [container/heap] of Go's library over them: a binary heap in a
    slice. Pushing and popping keep the queue a heap, so that what is popped from a queue that
    only they changed is one of the least names. *)

From S2P Require Import Prelude.

(** ** Definitions: the methods of the queue *)

(** [envVarIdxPair]. The queue has pointers to pairs nobody else has, so that exchanging what two
    of them point to is exchanging the elements. *)
Definition envVarIdxPair : Type := string * nat.

Section queue.
Implicit Types (q : list envVarIdxPair) (i j n : nat).

(** Every index below is in range. *)
#[local] Instance pair_inhabited : Inhabited envVarIdxPair := populate (EmptyString, 0).

Definition pq_Len q : nat := length q.

(** [a < b] on strings. *)
Definition pq_Less q i j : bool := negb (bool_decide (String.le (q !!! j).1 (q !!! i).1)).

Definition pq_Swap q i j : list envVarIdxPair := <[i := q !!! j]> (<[j := q !!! i]> q).

Definition pq_Push q (x : envVarIdxPair) : list envVarIdxPair := q ++ [x].

Definition pq_Pop q : envVarIdxPair * list envVarIdxPair :=
  (q !!! (length q - 1), take (length q - 1) q).

(** ** Definitions: container/heap *)

Definition parent i : nat := (i - 1) / 2.

Fixpoint up (fuel : nat) q j : list envVarIdxPair :=
  match fuel with
  | 0 => q
  | S fuel =>
      let i := parent j in
      if bool_decide (i = j) || negb (pq_Less q j i) then q else up fuel (pq_Swap q i j) i
  end.

(** The child that is less. *)
Definition lesser_child q i n : nat :=
  let j1 := 2 * i + 1 in
  let j2 := j1 + 1 in
  if bool_decide (j2 < n) && pq_Less q j2 j1 then j2 else j1.

Fixpoint down (fuel : nat) q i n : list envVarIdxPair :=
  match fuel with
  | 0 => q
  | S fuel =>
      if bool_decide (n <= 2 * i + 1) then q
      else
        let j := lesser_child q i n in
        if pq_Less q j i then down fuel (pq_Swap q i j) j n else q
  end.

(** A queue with [n] elements has at most [n] levels. *)
Definition heap_Push q (x : envVarIdxPair) : list envVarIdxPair :=
  let q := pq_Push q x in up (pq_Len q) q (pq_Len q - 1).

Definition heap_Pop q : envVarIdxPair * list envVarIdxPair :=
  let n := pq_Len q - 1 in pq_Pop (down n (pq_Swap q 0 n) 0 n).

(** ** Lemmas *)

Lemma parent_spec k : 0 < k -> k = 2 * parent k + 1 \/ k = 2 * parent k + 2.
Proof.
  intros Hk. unfold parent.
  pose proof (Nat.div_mod_eq (k - 1) 2). pose proof (Nat.mod_upper_bound (k - 1) 2). lia.
Qed.

Lemma parent_0 : parent 0 = 0.
Proof. reflexivity. Qed.

Opaque parent.

Lemma swap_lookup q i j k :
  i < length q -> j < length q ->
  pq_Swap q i j !!! k = if decide (k = i) then q !!! j else if decide (k = j) then q !!! i else q !!! k.
Proof.
  intros Hi Hj. unfold pq_Swap. case_decide as Hki; [subst k|].
  { apply list_lookup_total_insert_eq. by rewrite length_insert. }
  rewrite list_lookup_total_insert_ne by done. case_decide as Hkj; [subst k|].
  - by apply list_lookup_total_insert_eq.
  - by apply list_lookup_total_insert_ne.
Qed.

Lemma swap_length q i j : length (pq_Swap q i j) = length q.
Proof. unfold pq_Swap. by rewrite !length_insert. Qed.

Lemma swap_perm q i j : i < length q -> j < length q -> pq_Swap q i j ≡ₚ q.
Proof.
  intros Hi Hj. unfold pq_Swap.
  apply Permutation_insert_swap; by apply list_lookup_lookup_total_lt.
Qed.

(** The name at one index is at most that at another. *)
Definition key_le q a b : Prop := String.le (q !!! a).1 (q !!! b).1.

Lemma less_true q a b : pq_Less q a b = true -> key_le q a b.
Proof.
  unfold pq_Less, key_le. rewrite negb_true_iff, bool_decide_eq_false. intros H.
  by destruct (total String.le (q !!! a).1 (q !!! b).1).
Qed.

Lemma less_false q a b : pq_Less q a b = false -> key_le q b a.
Proof. unfold pq_Less, key_le. by rewrite negb_false_iff, bool_decide_eq_true. Qed.

(** The first [n] elements are a heap. *)
Definition heap_ordered q n : Prop := forall k, 0 < k < n -> key_le q (parent k) k.

Lemma root_least q n k : heap_ordered q n -> k < n -> key_le q 0 k.
Proof.
  intros Hq. induction (lt_wf k) as [k _ IH]. intros Hk. destruct (decide (k = 0)) as [->|Hne].
  - unfold key_le. done.
  - pose proof (parent_spec k ltac:(lia)). unfold key_le in *. etrans; [apply (IH (parent k)); lia|].
    apply Hq. lia.
Qed.

(** A heap but for the element at [j], which may be less than its parent. *)
Definition up_ordered q n j : Prop :=
  (forall k, 0 < k < n -> k <> j -> key_le q (parent k) k) /\
  (forall k, 0 < k < n -> parent k = j -> 0 < j -> key_le q (parent j) k).

Ltac swapped := unfold key_le in *; rewrite !swap_lookup by lia; repeat case_decide; subst; try lia.

Lemma up_swap q n j :
  j < length q -> n = length q -> 0 < j -> up_ordered q n j -> key_le q j (parent j) ->
  up_ordered (pq_Swap q (parent j) j) n (parent j).
Proof.
  intros Hj -> H0 [H1 H2] Hle. pose proof (parent_spec j H0) as Hp. split.
  - intros k Hk Hne. pose proof (parent_spec k ltac:(lia)) as Hpk. swapped; try done.
    + etrans; [exact Hle|]. replace (parent j) with (parent k) by done. apply H1; [lia|done].
    + by apply H2.
    + by apply H1.
  - intros k Hk Hpk Hi. pose proof (parent_spec k ltac:(lia)) as Hpk'.
    pose proof (parent_spec (parent j) Hi) as Hpp.
    assert (key_le q (parent (parent j)) (parent j)) as Hpj by (apply H1; lia). swapped; try done.
    etrans; [exact Hpj|]. replace (parent j) with (parent k) by done. apply H1; [lia|done].
Qed.

Lemma up_perm fuel q j : j < length q -> up fuel q j ≡ₚ q.
Proof.
  revert q j. induction fuel as [|fuel IH]; intros q j Hj; cbn [up]; [done|].
  case_match; [done|]. assert (parent j < length q) as Hp.
  { destruct (decide (j = 0)) as [->|]; [by rewrite parent_0|]. pose proof (parent_spec j ltac:(lia)). lia. }
  rewrite IH; [by apply swap_perm|by rewrite swap_length].
Qed.

Lemma up_spec fuel q n j :
  j < fuel -> j < n -> n = length q -> up_ordered q n j -> heap_ordered (up fuel q j) n.
Proof.
  revert q j. induction fuel as [|fuel IH]; intros q j Hf Hj Hn [H1 H2]; [lia|]. cbn [up].
  destruct (bool_decide_reflect (parent j = j)) as [Hp|Hp]; cbn [orb].
  - destruct (decide (j = 0)) as [->|]; [|pose proof (parent_spec j ltac:(lia)); lia].
    intros k Hk. apply H1; lia.
  - assert (0 < j) as H0 by (destruct j; [by destruct Hp; apply parent_0|lia]).
    pose proof (parent_spec j H0) as Hpj. destruct (pq_Less q j (parent j)) eqn:Hl; cbn [negb].
    + apply IH; [lia|lia|by rewrite swap_length|]. apply up_swap; [lia|done..|]. by apply less_true.
    + intros k Hk. destruct (decide (k = j)) as [->|Hne]; [by apply less_false|by apply H1].
Qed.

(** A heap but for the element at [i], which may be more than its children. *)
Definition down_ordered q n i : Prop :=
  (forall k, 0 < k < n -> parent k <> i -> key_le q (parent k) k) /\
  (forall k, 0 < k < n -> parent k = i -> 0 < i -> key_le q (parent i) k).

Lemma parent_children i k : 0 < k -> parent k = i <-> k = 2 * i + 1 \/ k = 2 * i + 2.
Proof. intros Hk. pose proof (parent_spec k Hk). lia. Qed.

Lemma lesser_child_spec q i n :
  2 * i + 1 < n -> let j := lesser_child q i n in
  parent j = i /\ i < j < n /\ forall k, 0 < k < n -> parent k = i -> key_le q j k.
Proof.
  intros Hi. unfold lesser_child. cbn zeta.
  assert (forall a, key_le q a a) as Hrefl by (intros a; unfold key_le; done).
  destruct (bool_decide_reflect (2 * i + 1 + 1 < n)) as [Hj|Hj]; cbn [andb].
  - destruct (pq_Less q (2 * i + 1 + 1) (2 * i + 1)) eqn:Hl.
    + split; [apply parent_children; lia|]. split; [lia|].
      intros k Hk [-> | ->]%parent_children; [by apply less_true| |lia].
      by replace (2 * i + 2) with (2 * i + 1 + 1) by lia.
    + split; [apply parent_children; lia|]. split; [lia|].
      intros k Hk [-> | ->]%parent_children; [done| |lia].
      replace (2 * i + 2) with (2 * i + 1 + 1) by lia. by apply less_false.
  - split; [apply parent_children; lia|]. split; [lia|].
    intros k Hk [-> | ->]%parent_children; [done|lia|lia].
Qed.

Lemma down_swap q n i j :
  n <= length q -> parent j = i -> i < j < n -> down_ordered q n i ->
  (forall k, 0 < k < n -> parent k = i -> key_le q j k) -> key_le q j i ->
  down_ordered (pq_Swap q i j) n j.
Proof.
  intros Hn Hpj Hij [H1 H2] Hleast Hle. split.
  - intros k Hk Hne. pose proof (parent_spec k ltac:(lia)) as Hpk. swapped; try done.
    + by apply Hleast.
    + apply H2; [lia|done|lia].
    + by apply H1.
  - intros k Hk Hpk H0. pose proof (parent_spec k ltac:(lia)) as Hpk'. swapped; try done.
    apply H1; lia.
Qed.

Lemma lesser_child_lt q i n : 2 * i + 1 < n -> i < lesser_child q i n < n.
Proof. intros Hi. destruct (lesser_child_spec q i n Hi) as (_ & H & _). lia. Qed.

(** What lies behind the first [n] elements stays. *)
Lemma down_perm fuel q i n :
  n <= length q -> down fuel q i n ≡ₚ q /\ forall k, n <= k -> down fuel q i n !!! k = q !!! k.
Proof.
  revert q i. induction fuel as [|fuel IH]; intros q i Hn; cbn [down]; [done|].
  destruct (bool_decide_reflect (n <= 2 * i + 1)) as [Hj|Hj]; [done|].
  pose proof (lesser_child_lt q i n ltac:(lia)) as Hij. case_match; [|done].
  destruct (IH (pq_Swap q i (lesser_child q i n)) (lesser_child q i n)) as [IH1 IH2]; [by rewrite swap_length|].
  split; [rewrite IH1; apply swap_perm; lia|].
  intros k Hk. rewrite IH2, swap_lookup by lia. by rewrite !decide_False by lia.
Qed.

Lemma down_spec fuel q i n :
  n <= fuel + i -> n <= length q -> down_ordered q n i -> heap_ordered (down fuel q i n) n.
Proof.
  revert q i. induction fuel as [|fuel IH]; intros q i Hf Hn Hd; cbn [down].
  { intros k Hk. apply Hd; [done|]. pose proof (parent_spec k ltac:(lia)). lia. }
  destruct (bool_decide_reflect (n <= 2 * i + 1)) as [Hj|Hj].
  { intros k Hk. apply Hd; [done|]. pose proof (parent_spec k ltac:(lia)). lia. }
  destruct (lesser_child_spec q i n ltac:(lia)) as (Hp & Hij & Hleast).
  set (j := lesser_child q i n) in *. destruct (pq_Less q j i) eqn:Hl.
  - apply IH; [lia|by rewrite swap_length|]. apply down_swap; try done. by apply less_true.
  - intros k Hk. destruct (decide (parent k = i)) as [Hpk|Hpk]; [|by apply Hd].
    apply less_false in Hl. unfold key_le in *. rewrite Hpk. etrans; [exact Hl|]. by apply Hleast.
Qed.

(** What is pushed is in the queue, which stays a heap. *)
Lemma heap_Push_perm q x : heap_Push q x ≡ₚ x :: q.
Proof.
  unfold heap_Push, pq_Len, pq_Push. rewrite up_perm by (rewrite length_app; cbn; lia).
  by rewrite Permutation_app_comm.
Qed.

Lemma heap_Push_ordered q x :
  heap_ordered q (length q) -> heap_ordered (heap_Push q x) (length (heap_Push q x)).
Proof.
  intros Hq. rewrite (Permutation_length (heap_Push_perm q x)). cbn [length].
  unfold heap_Push, pq_Len. set (q1 := pq_Push q x).
  assert (length q1 = S (length q)) as Hlen by (unfold q1, pq_Push; rewrite length_app; cbn; lia).
  assert (forall k, k < length q -> q1 !!! k = q !!! k) as Hk1.
  { intros k Hk. unfold q1, pq_Push. by apply lookup_total_app_l. }
  apply up_spec; [lia..|]. split.
  - intros k Hk Hne. pose proof (parent_spec k ltac:(lia)). unfold key_le. rewrite !Hk1 by lia.
    apply Hq. lia.
  - intros k Hk Hpk. pose proof (parent_spec k ltac:(lia)). lia.
Qed.

(** What is popped was at the root; the others stay, as a heap. *)
Lemma heap_Pop_perm q x q' : q <> [] -> heap_Pop q = (x, q') -> x = q !!! 0 /\ q ≡ₚ x :: q'.
Proof.
  intros Hne. assert (0 < length q) as Hlen by (destruct q; [done|cbn; lia]).
  unfold heap_Pop, pq_Pop, pq_Len. set (n := length q - 1). set (q1 := pq_Swap q 0 n).
  assert (length q1 = length q) as Hl1 by apply swap_length.
  destruct (down_perm n q1 0 n) as [Hp Hk]; [lia|]. set (q2 := down n q1 0 n) in *.
  assert (length q2 = S n) as Hl2 by (rewrite (Permutation_length Hp), Hl1; lia).
  rewrite Hl2. replace (S n - 1) with n by lia. intros [= <- <-]. split.
  - rewrite Hk by lia. unfold q1. rewrite swap_lookup by lia.
    case_decide as H0; [by rewrite H0|]. by rewrite decide_True.
  - rewrite <-(swap_perm q 0 n) by lia. fold q1. rewrite <-Hp.
    rewrite <-(take_drop n q2) at 1. rewrite (drop_S q2 (q2 !!! n) n), drop_ge; [by rewrite Permutation_app_comm|lia|].
    apply list_lookup_lookup_total_lt. lia.
Qed.

Lemma heap_Pop_ordered q x q' :
  heap_ordered q (length q) -> q <> [] -> heap_Pop q = (x, q') -> heap_ordered q' (length q').
Proof.
  intros Hq Hne Hpop. destruct (heap_Pop_perm _ _ _ Hne Hpop) as [_ Hperm].
  apply Permutation_length in Hperm. cbn in Hperm. revert Hpop.
  unfold heap_Pop, pq_Pop, pq_Len. replace (length q - 1) with (length q') by lia.
  set (n := length q'). set (q1 := pq_Swap q 0 n). intros [= _ Hq']. 
  destruct (down_perm n q1 0 n) as [Hp _]; [unfold q1; rewrite swap_length; lia|].
  apply Permutation_length in Hp. unfold q1 in Hp at 2. rewrite swap_length in Hp.
  assert (heap_ordered (down n q1 0 n) n) as Ho.
  { apply down_spec; [lia|unfold q1; rewrite swap_length; lia|]. split; [|intros; lia].
    intros k Hk Hpk. pose proof (parent_spec k ltac:(lia)). unfold key_le, q1.
    rewrite !swap_lookup, !decide_False by lia. apply Hq. lia. }
  rewrite <-Hq'. intros k Hk. pose proof (parent_spec k ltac:(lia)). unfold key_le.
  rewrite !lookup_total_take, !decide_True by lia. by apply Ho.
Qed.

Lemma heap_Pop_least q x q' y :
  heap_ordered q (length q) -> q <> [] -> heap_Pop q = (x, q') -> y ∈ q -> String.le x.1 y.1.
Proof.
  intros Hq Hne Hpop (k & Hy)%list_elem_of_lookup. destruct (heap_Pop_perm _ _ _ Hne Hpop) as [-> _].
  rewrite <-(list_lookup_total_correct _ _ _ Hy). apply (root_least q (length q)); [done|].
  by eapply lookup_lt_Some.
Qed.
End queue.
