(* ===== verification/EnvSort.v ===== *)
(** * pkg/utils/sort.go: ordering environment variables

    Kubernetes expands [$(NAME)] in the value of a variable from the variables before
    it, so that the factory sorts the variables of a container topologically, and by
    name where the dependencies leave a choice. The model keeps the two graph maps as
    lists over the indices. Two things are left open, because Go leaves them open: the
    order in which the map of degrees is visited, and which of two entries of one name
    the heap returns first. Both are operations of the class [Heap], whose laws are what
    [container/heap] promises of a queue that only its functions changed; that the library
    keeps the promise on the queue of the source is the instance [binary_heap] ([BinaryHeap]). *)

From stdpp Require Import sorting.
From S2P Require Import Prelude GoStrings ApiTypes BinaryHeap.

(** ** Definitions: the dependency test *)

(** The loop that counts the dollar signs in front of an index. *)
Fixpoint dollars_before (s : string) (idx : nat) : nat :=
  match idx with
  | O => 0
  | S i => if bool_decide (String.get i s = Some "$"%char) then S (dollars_before s i) else 0
  end.

Definition DependsOn (a b : EnvVar) : bool :=
  match Index (env_Value a) ("$(" +:+ env_Name b +:+ ")") with
  | None => false
  | Some idx => negb (Nat.odd (dollars_before (env_Value a) idx))
  end.

(** ** Definitions: the priority queue *)

Class Heap := {
  heap_push : list envVarIdxPair -> envVarIdxPair -> list envVarIdxPair;
  heap_pop : list envVarIdxPair -> option (envVarIdxPair * list envVarIdxPair);
  visit_keys : nat -> list nat;
}.

(** A queue that was empty and only changed by the operations. *)
Inductive heap_built `{H : Heap} : list envVarIdxPair -> Prop :=
| built_nil : heap_built []
| built_push q x : heap_built q -> heap_built (heap_push q x)
| built_pop q x q' : heap_built q -> heap_pop q = Some (x, q') -> heap_built q'.

Class HeapOk (H : Heap) : Prop := {
  heap_push_perm q x : heap_push q x ≡ₚ x :: q;
  heap_pop_None q : heap_pop q = None <-> q = [];
  heap_pop_perm q x q' : heap_pop q = Some (x, q') -> q ≡ₚ x :: q';
  heap_pop_min q x q' y : heap_built q -> heap_pop q = Some (x, q') -> y ∈ q -> String.le x.1 y.1;
  visit_keys_perm n : visit_keys n ≡ₚ seq 0 n;
}.

(** ** Definitions: the sort *)

Record dependency_graph := {
  inDegree : list Z;
  graph : list (list nat);
}.

Definition add_edge (from to : nat) (g : dependency_graph) : dependency_graph :=
  {| inDegree := alter Z.succ to (inDegree g);
     graph := alter (fun l => l ++ [to]) from (graph g) |}.

(** The body of the two loops, for [i <= j]. *)
Definition link (e : list EnvVar) (g : dependency_graph) (ij : nat * nat) : dependency_graph :=
  match e !! ij.1, e !! ij.2 with
  | Some a, Some b =>
      if DependsOn a b then add_edge ij.2 ij.1 g
      else if DependsOn b a then add_edge ij.1 ij.2 g else g
  | _, _ => g
  end.

(** [for i := range n { for j := i; j < n; j++ { ... } }]. *)
Definition index_pairs (n : nat) : list (nat * nat) :=
  i ← seq 0 n; (fun j => (i, j)) <$> seq i (n - i).

Definition build_graph (e : list EnvVar) : dependency_graph :=
  foldl (link e)
    {| inDegree := replicate (length e) 0%Z; graph := replicate (length e) [] |}
    (index_pairs (length e)).

Definition name_at (e : list EnvVar) (i : nat) : string := default "" (env_Name <$> e !! i).

Section sort.
Context `{H : Heap}.

(** The loop over the children of a vertex. *)
Fixpoint relax (e : list EnvVar) (children : list nat) (inDegree : list Z)
    (sources : list envVarIdxPair) : list Z * list envVarIdxPair :=
  match children with
  | [] => (inDegree, sources)
  | child :: children' =>
      let inDegree := alter Z.pred child inDegree in
      relax e children' inDegree
        (if bool_decide (inDegree !! child = Some 0%Z)
         then heap_push sources (name_at e child, child) else sources)
  end.

(** The loop over the queue, with fuel for its iterations. *)
Fixpoint kahn (fuel : nat) (e : list EnvVar) (graph : list (list nat)) (inDegree : list Z)
    (sources : list envVarIdxPair) (sortedOrder : list nat) : option (list nat) :=
  match heap_pop sources with
  | None => Some sortedOrder
  | Some (vertex, sources) =>
      match fuel with
      | O => None
      | S fuel =>
          let '(inDegree, sources) :=
            relax e (default [] (graph !! vertex.2)) inDegree sources in
          kahn fuel e graph inDegree sources (sortedOrder ++ [vertex.2])
      end
  end.

Definition initial_sources (e : list EnvVar) (inDegree : list Z) : list envVarIdxPair :=
  foldl (fun sources key =>
           if bool_decide (inDegree !! key = Some 0%Z)
           then heap_push sources (name_at e key, key) else sources)
    [] (visit_keys (length e)).

(** The last loop: [e[idx] = oldEnv[correctIdx]]. *)
Definition write_back (oldEnv : list EnvVar) (sortedOrder : list nat) : list EnvVar :=
  foldl (fun e p =>
           if bool_decide (p.1 = p.2) then e
           else match oldEnv !! p.2 with Some v => <[p.1 := v]> e | None => e end)
    oldEnv (imap pair sortedOrder).

Definition TopologicalSort (e : list EnvVar) : option (list EnvVar) :=
  let g := build_graph e in
  sortedOrder ← kahn (length e) e (graph g) (inDegree g) (initial_sources e (inDegree g)) [];
  Some (write_back e sortedOrder).
End sort.

(** ** Definitions: the other orders: volumes, volume mounts and devices by name *)

Section by_name.
Context {T : Type} (name : T -> string) (s : list T).

Definition slice_Len : nat := length s.
Definition slice_Less (i j : nat) : outcome bool :=
  match s !! i, s !! j with
  | Some a, Some b => Done (String.ltb (name a) (name b))
  | _, _ => Panic "index out of range"
  end.
Definition slice_Swap (i j : nat) : outcome (list T) :=
  match s !! i, s !! j with
  | Some a, Some b => Done (<[j := a]> (<[i := b]> s))
  | _, _ => Panic "index out of range"
  end.
End by_name.

(** ** A heap: extraction of the first minimum of a list *)

Fixpoint extract_min (x : envVarIdxPair) (q : list envVarIdxPair)
  : envVarIdxPair * list envVarIdxPair :=
  match q with
  | [] => (x, [])
  | y :: q' =>
      if bool_decide (String.le x.1 y.1)
      then let '(m, r) := extract_min x q' in (m, y :: r)
      else let '(m, r) := extract_min y q' in (m, x :: r)
  end.

Definition list_heap : Heap := {|
  heap_push q x := x :: q;
  heap_pop q := match q with [] => None | x :: q' => Some (extract_min x q') end;
  visit_keys n := seq 0 n;
|}.

Lemma extract_min_spec x q m r :
  extract_min x q = (m, r) -> x :: q ≡ₚ m :: r /\ forall y, y ∈ x :: q -> String.le m.1 y.1.
Proof.
  revert x m r. induction q as [|y q IH]; intros x m r Hm; cbn in Hm.
  { simplify_eq. split; [done|]. intros y ->%list_elem_of_singleton. reflexivity. }
  destruct (bool_decide_reflect (String.le x.1 y.1)) as [Hle|Hle].
  - destruct (extract_min x q) as [m' r'] eqn:Hx. simplify_eq. apply IH in Hx as [Hp Hmin].
    split; [by rewrite (Permutation_swap y x), Hp, Permutation_swap|].
    intros z [->|[->|Hz]%elem_of_cons]%elem_of_cons.
    + apply Hmin. left.
    + etrans; [apply Hmin; left|done].
    + apply Hmin. by right.
  - destruct (extract_min y q) as [m' r'] eqn:Hx. simplify_eq. apply IH in Hx as [Hp Hmin].
    assert (String.le y.1 x.1) as Hyx by (by destruct (total String.le x.1 y.1)).
    split; [by rewrite Hp, Permutation_swap|].
    intros z [->|[->|Hz]%elem_of_cons]%elem_of_cons.
    + etrans; [apply Hmin; left|done].
    + apply Hmin. left.
    + apply Hmin. by right.
Qed.

Lemma list_heap_ok : HeapOk list_heap.
Proof.
  split; cbn.
  - done.
  - intros [|x q]; cbn; naive_solver.
  - intros [|x q] m r Hq; simplify_eq. by apply extract_min_spec.
  - intros [|x q] m r y _ Hq Hy; simplify_eq. by eapply extract_min_spec.
  - done.
Qed.

(** ** The heap of the library *)

Definition binary_heap (visit : nat -> list nat) : Heap := {|
  heap_push := heap_Push;
  heap_pop q := match q with [] => None | _ => Some (heap_Pop q) end;
  visit_keys := visit;
|}.

Lemma binary_heap_built visit q : heap_built (H := binary_heap visit) q -> heap_ordered q (length q).
Proof.
  induction 1 as [|q x _ IH|q x q' _ IH Hq].
  - intros k Hk. cbn in Hk. lia.
  - by apply heap_Push_ordered.
  - cbn -[heap_Pop] in Hq. destruct q as [|y q]; [done|]. apply (inj Some) in Hq.
    by apply (heap_Pop_ordered (y :: q) x q').
Qed.

Lemma binary_heap_ok visit : (forall n, visit n ≡ₚ seq 0 n) -> HeapOk (binary_heap visit).
Proof.
  intros Hv. split; cbn.
  - apply heap_Push_perm.
  - intros [|x q]; naive_solver.
  - intros [|y q] x q' Hq; [done|]. apply (inj Some) in Hq. by eapply heap_Pop_perm.
  - intros [|z q] x q' y Hb Hq Hy; [done|]. apply (inj Some) in Hq.
    eapply heap_Pop_least; [by eapply binary_heap_built|done..].
  - exact Hv.
Qed.

(** ** The edges of the graph *)

(** An edge leads from a variable to one that depends on it. *)
Definition link_edges (e : list EnvVar) (ij : nat * nat) : list (nat * nat) :=
  match e !! ij.1, e !! ij.2 with
  | Some a, Some b =>
      if DependsOn a b then [(ij.2, ij.1)] else if DependsOn b a then [(ij.1, ij.2)] else []
  | _, _ => []
  end.

Definition edges (e : list EnvVar) : list (nat * nat) := index_pairs (length e) ≫= link_edges e.

Definition in_edges (v : nat) (E : list (nat * nat)) : nat := count_by (fun uv => Nat.eqb uv.2 v) E.
Definition children (v : nat) (E : list (nat * nat)) : list nat :=
  (filter (fun uv => uv.1 = v) E).*2.

Lemma count_by_app {A} (p : A -> bool) l k : count_by p (l ++ k) = count_by p l + count_by p k.
Proof. induction l as [|x l IH]; cbn; [done|]. lia. Qed.

Lemma count_by_zero {A} (p : A -> bool) l :
  count_by p l = 0 <-> forall x, x ∈ l -> p x = false.
Proof.
  induction l as [|x l IH]; cbn.
  { split; [|done]. intros _ x Hx. by apply not_elem_of_nil in Hx. }
  setoid_rewrite elem_of_cons. destruct (p x) eqn:Hp; cbn; [|rewrite IH; naive_solver].
  split; [done|]. intros H. rewrite (H x) in Hp; [done|by left].
Qed.

Lemma children_app v E E' : children v (E ++ E') = children v E ++ children v E'.
Proof. unfold children. by rewrite filter_app, fmap_app. Qed.

Lemma elem_of_index_pairs n i j : (i, j) ∈ index_pairs n <-> i <= j < n.
Proof.
  unfold index_pairs. rewrite list_elem_of_bind. split.
  - intros (i' & Hj & Hi). apply list_elem_of_fmap in Hj as (j' & [= -> ->] & Hj).
    apply elem_of_seq in Hi, Hj. lia.
  - intros Hij. exists i. split; [|apply elem_of_seq; lia].
    apply list_elem_of_fmap. exists j. split; [done|]. apply elem_of_seq. lia.
Qed.

Lemma link_in_range e i j u v :
  i < length e -> j < length e -> (u, v) ∈ link_edges e (i, j) -> u < length e /\ v < length e.
Proof.
  intros Hi Hj. unfold link_edges. cbn. destruct (e !! i), (e !! j); cbn;
    [|intros H; by apply not_elem_of_nil in H..].
  destruct (DependsOn _ _); [|destruct (DependsOn _ _)];
    rewrite ?list_elem_of_singleton; [intros [= -> ->]; lia..|]. intros H. by apply not_elem_of_nil in H.
Qed.

Lemma edges_in_range e u v : (u, v) ∈ edges e -> u < length e /\ v < length e.
Proof.
  unfold edges. rewrite list_elem_of_bind. intros ([i j] & H & Hij).
  apply elem_of_index_pairs in Hij. eapply link_in_range; [| |exact H]; lia.
Qed.

(** The maps describe the edges. *)
Definition describes (n : nat) (E : list (nat * nat)) (g : dependency_graph) : Prop :=
  forall v, v < n -> graph g !! v = Some (children v E) /\
                     inDegree g !! v = Some (Z.of_nat (in_edges v E)).

Lemma describes_add_edge n E g u v :
  describes n E g -> describes n (E ++ [(u, v)]) (add_edge u v g).
Proof.
  intros Hd w Hw. destruct (Hd w Hw) as [Hg Hi]. cbn. split.
  - rewrite children_app. unfold children at 2. rewrite filter_cons. cbn.
    rewrite list_lookup_alter, Hg.
    destruct (Nat.eq_dec u w) as [->|]; [by rewrite !decide_True, Hg by done|].
    rewrite !decide_False by done. by rewrite app_nil_r.
  - unfold in_edges. rewrite count_by_app. cbn. rewrite list_lookup_alter, Hi.
    destruct (Nat.eqb_spec v w) as [->|].
    + rewrite decide_True, Hi by done. cbn. f_equal. unfold in_edges. lia.
    + rewrite decide_False by done. f_equal. unfold in_edges. lia.
Qed.

Lemma build_graph_describes e : describes (length e) (edges e) (build_graph e).
Proof.
  unfold build_graph, edges. generalize (index_pairs (length e)) as ps. intros ps.
  induction ps as [|ij ps IH] using rev_ind.
  - intros v Hv. cbn. by rewrite !lookup_replicate_2.
  - rewrite foldl_snoc, bind_app. cbn. rewrite app_nil_r. revert IH.
    generalize (foldl (link e)
      {| inDegree := replicate (length e) 0%Z; graph := replicate (length e) [] |} ps). intros g IH.
    unfold link, link_edges. destruct (e !! ij.1), (e !! ij.2); [|by rewrite app_nil_r..].
    destruct (DependsOn _ _); [|destruct (DependsOn _ _)];
      [by apply describes_add_edge..|by rewrite app_nil_r].
Qed.

(** ** The invariant of the loop *)

Lemma in_edges_app v E E' : in_edges v (E ++ E') = in_edges v E + in_edges v E'.
Proof. apply count_by_app. Qed.

Lemma in_edges_zero v E : in_edges v E = 0 <-> forall u, (u, v) ∉ E.
Proof.
  unfold in_edges. rewrite count_by_zero. split.
  - intros H u Hu. specialize (H _ Hu). cbn in H. by rewrite Nat.eqb_refl in H.
  - intros H [u w] Hu. cbn. apply Nat.eqb_neq. intros ->. by apply (H u).
Qed.

(** The edges that do not start in the vertices already sorted. *)
Definition open_edges (order : list nat) (E : list (nat * nat)) : list (nat * nat) :=
  filter (fun uv => uv.1 ∉ order) E.

(** Sorting one more vertex closes exactly its edges. *)
Lemma in_edges_close w v order E :
  v ∉ order ->
  in_edges w (open_edges order E) =
  in_edges w ((fun c => (v, c)) <$> children v E) + in_edges w (open_edges (order ++ [v]) E).
Proof.
  intros Hv. unfold open_edges, children. induction E as [|[u t] E IH]; [done|].
  rewrite !filter_cons. cbn [fst snd].
  destruct (decide (u ∉ order)) as [Hu|Hu].
  - destruct (decide (u = v)) as [->|Hne].
    + rewrite (decide_False (P := v ∉ order ++ [v])) by set_solver.
      cbn. unfold in_edges in *. cbn. rewrite IH. lia.
    + rewrite (decide_True (P := u ∉ order ++ [v])) by set_solver.
      unfold in_edges in *. cbn. rewrite IH. lia.
  - rewrite (decide_False (P := u ∉ order ++ [v])) by set_solver.
    rewrite (decide_False (P := u = v)) by (intros ->; by apply Hu). done.
Qed.

(** The vertices sorted or queued are those without open edges into them; the degrees
    count the open edges. *)
Record sort_inv (e : list EnvVar) (R : list (nat * nat)) (order : list nat)
    (degree : list Z) (q : list envVarIdxPair) : Prop := {
  inv_degree v : v < length e -> degree !! v = Some (Z.of_nat (in_edges v R));
  inv_ready v : v < length e -> v ∈ order ++ q.*2 <-> in_edges v R = 0;
  inv_NoDup : NoDup (order ++ q.*2);
  inv_range : Forall (fun v => v < length e) (order ++ q.*2);
  inv_names : Forall (fun p => p.1 = name_at e p.2) q;
}.

Section loop.
Context {H : Heap} {HH : HeapOk H}.

Lemma relax_inv e order cs R degree q degree' q' v :
  sort_inv e (((fun c => (v, c)) <$> cs) ++ R) order degree q ->
  Forall (fun c => c < length e) cs ->
  relax e cs degree q = (degree', q') ->
  sort_inv e R order degree' q'.
Proof.
  revert degree q. induction cs as [|c cs IH]; intros degree q Hinv Hcs Hr; cbn in Hr.
  { by simplify_eq. }
  apply Forall_cons in Hcs as [Hc Hcs]. refine (IH _ _ _ Hcs Hr). clear IH Hr.
  set (R' := ((fun c => (v, c)) <$> cs) ++ R) in *.
  assert (forall w, in_edges w (((fun c => (v, c)) <$> c :: cs) ++ R) =
                    (if Nat.eqb c w then 1 else 0) + in_edges w R') as Hstep by done.
  destruct Hinv as [Hd Hready Hnd Hrange Hnames].
  assert (alter Z.pred c degree !! c = Some (Z.of_nat (in_edges c R'))) as Hdc.
  { rewrite list_lookup_alter, decide_True by done. rewrite Hd, Hstep, Nat.eqb_refl by done.
    cbn. f_equal. lia. }
  assert (c ∉ order ++ q.*2) as Hnot.
  { rewrite Hready, Hstep, Nat.eqb_refl by done. lia. }
  assert (forall w, w < length e ->
            alter Z.pred c degree !! w = Some (Z.of_nat (in_edges w R'))) as Hd'.
  { intros w Hw. destruct (decide (c = w)) as [->|Hne]; [done|].
    rewrite list_lookup_alter, decide_False, Hd, Hstep by done.
    by rewrite (proj2 (Nat.eqb_neq c w)). }
  rewrite Hdc. destruct (bool_decide_reflect (Some (Z.of_nat (in_edges c R')) = Some 0%Z)) as [Hz|Hz].
  - assert (in_edges c R' = 0) as Hz' by (injection Hz; lia).
    assert (order ++ (heap_push q (name_at e c, c)).*2 ≡ₚ c :: order ++ q.*2) as Hp.
    { rewrite heap_push_perm. cbn. by rewrite Permutation_middle. }
    split; [done| | | |].
    + intros w Hw. rewrite Hp, elem_of_cons, Hready, Hstep by done.
      destruct (Nat.eqb_spec c w) as [->|]; [|naive_solver]. rewrite Hz'. naive_solver.
    + rewrite Hp. by apply NoDup_cons.
    + rewrite Hp. by apply Forall_cons.
    + rewrite heap_push_perm. by apply Forall_cons.
  - split; [done| |done..]. intros w Hw. rewrite Hready, Hstep by done.
    destruct (Nat.eqb_spec c w) as [->|]; [|done]. split; [lia|]. intros Hw0. by rewrite Hw0 in Hz.
Qed.

Lemma children_range e v : Forall (fun c => c < length e) (children v (edges e)).
Proof.
  apply Forall_forall. intros c Hc. unfold children in Hc.
  apply list_elem_of_fmap in Hc as ([u w] & -> & Hc). apply list_elem_of_filter in Hc as [_ Hc].
  by apply edges_in_range in Hc as [_ ?].
Qed.

(** The variables that a sorted variable depends on are before it. *)
Definition closed (E : list (nat * nat)) (order : list nat) : Prop :=
  forall k u v, order !! k = Some v -> (u, v) ∈ E -> u ∈ take k order.

Lemma closed_snoc E order v :
  closed E order -> (forall u, (u, v) ∈ E -> u ∈ order) -> closed E (order ++ [v]).
Proof.
  intros Hc Hv k u w Hk Hu. apply lookup_app_Some in Hk as [Hk|[Hlen Hk]].
  - rewrite take_app_le by (apply lookup_lt_Some in Hk; lia). by eapply Hc.
  - apply list_lookup_singleton_Some in Hk as [Hk ->].
    rewrite take_app_ge by done. apply elem_of_app. left. by apply Hv.
Qed.

Lemma kahn_inv e degree q order fuel :
  sort_inv e (open_edges order (edges e)) order degree q ->
  closed (edges e) order ->
  length e <= fuel + length order ->
  exists order' degree',
    kahn fuel e (graph (build_graph e)) degree q order = Some order' /\
    sort_inv e (open_edges order' (edges e)) order' degree' [] /\
    closed (edges e) order'.
Proof.
  revert degree q order. induction fuel as [|fuel IH]; intros degree q order Hinv Hc Hf; cbn.
  - destruct (heap_pop q) as [[x q']|] eqn:Hq.
    + exfalso. apply heap_pop_perm in Hq. destruct Hinv as [_ _ Hnd Hr _].
      rewrite Hq in Hnd, Hr. cbn in Hnd, Hr.
      assert (length (order ++ x.2 :: q'.*2) <= length (seq 0 (length e))) as Hl.
      { apply submseteq_length, NoDup_submseteq; [done|]. intros v Hv.
        rewrite Forall_forall in Hr. apply elem_of_seq. specialize (Hr v Hv). lia. }
      rewrite length_seq, length_app in Hl. cbn in Hl. lia.
    + apply heap_pop_None in Hq as ->. eauto.
  - destruct (heap_pop q) as [[x q']|] eqn:Hq; [|apply heap_pop_None in Hq as ->; eauto].
    apply heap_pop_perm in Hq. destruct x as [nm v]. cbn [snd].
    destruct Hinv as [Hd Hready Hnd Hr Hnames].
    assert (order ++ q.*2 ≡ₚ (order ++ [v]) ++ q'.*2) as Hp by (by rewrite Hq, <-app_assoc).
    assert (v ∈ order ++ q.*2) as Hin by (rewrite Hp; set_solver).
    assert (v ∉ order) as Hv.
    { rewrite Hp in Hnd. apply NoDup_app in Hnd as (Hnd & _ & _).
      apply NoDup_app in Hnd as (_ & Hnd & _). intros ?. by apply (Hnd v); [|left]. }
    assert (v < length e) as Hlt by (rewrite Forall_forall in Hr; by apply Hr).
    rewrite (proj1 (build_graph_describes e v Hlt)). cbn [default from_option]; unfold id.
    destruct (relax e (children v (edges e)) degree q') as [degree' q''] eqn:Hrelax.
    eapply (relax_inv e (order ++ [v]) _ (open_edges (order ++ [v]) (edges e))) in Hrelax;
      [| |apply children_range].
    + apply IH; [done| |rewrite length_app; cbn; lia]. apply closed_snoc; [done|].
      intros u Hu. apply Hready in Hin; [|done]. apply in_edges_zero with (u := u) in Hin.
      destruct (decide (u ∈ order)) as [|Hu']; [done|]. destruct Hin.
      by apply list_elem_of_filter.
    + assert (forall w, in_edges w (open_edges order (edges e)) =
        in_edges w (((fun c => (v, c)) <$> children v (edges e)) ++
                    open_edges (order ++ [v]) (edges e))) as Heq.
      { intros w. rewrite in_edges_app. by apply in_edges_close. }
      split.
      * intros w Hw. by rewrite <-Heq, Hd.
      * intros w Hw. by rewrite <-Heq, <-Hp, Hready.
      * by rewrite <-Hp.
      * by rewrite <-Hp.
      * rewrite Hq in Hnames. by apply Forall_cons in Hnames as [_ ?].
Qed.
End loop.

(** ** From the order of the indices to the variables *)

Lemma write_back_snoc e order v :
  write_back e (order ++ [v]) =
  if bool_decide (length order = v) then write_back e order
  else match e !! v with Some x => <[length order := x]> (write_back e order)
                       | None => write_back e order end.
Proof.
  unfold write_back. rewrite imap_app. cbn. rewrite Nat.add_0_r, foldl_snoc. done.
Qed.

Lemma length_write_back e order : length (write_back e order) = length e.
Proof.
  induction order as [|v order IH] using rev_ind; [done|]. rewrite write_back_snoc.
  case_bool; [done|]. destruct (e !! v); [by rewrite length_insert|done].
Qed.

Lemma lookup_write_back e order k :
  Forall (fun v => v < length e) order -> length order <= length e ->
  write_back e order !! k = match order !! k with Some v => e !! v | None => e !! k end.
Proof.
  induction order as [|v order IH] using rev_ind; [done|].
  intros [Hr [Hv _]%Forall_cons]%Forall_app Hlen. rewrite length_app in Hlen. cbn in Hlen.
  rewrite write_back_snoc. destruct (lookup_lt_is_Some_2 e v Hv) as [x Hx]. rewrite Hx.
  destruct (decide (k = length order)) as [->|Hne].
  - rewrite list_lookup_middle by done. case_bool_decide as Heq.
    + rewrite IH, lookup_ge_None_2 by (done || lia). by rewrite Heq.
    + rewrite Hx. apply list_lookup_insert_eq. rewrite length_write_back. lia.
  - assert ((order ++ [v]) !! k = order !! k) as ->.
    { destruct (decide (k < length order)); [by rewrite lookup_app_l|].
      rewrite !lookup_ge_None_2; [done|lia|rewrite length_app; cbn; lia]. }
    case_bool; [by rewrite IH by (done || lia)|].
    rewrite list_lookup_insert_ne by done. by rewrite IH by (done || lia).
Qed.

Lemma initial_sources_perm {H : Heap} {HH : HeapOk H} e degree :
  initial_sources e degree ≡ₚ
  (fun k => (name_at e k, k)) <$> filter (fun k => degree !! k = Some 0%Z) (seq 0 (length e)).
Proof.
  unfold initial_sources. rewrite <-(visit_keys_perm (length e)).
  generalize (visit_keys (length e)) as ks. intros ks.
  induction ks as [|k ks IH] using rev_ind; [done|].
  rewrite foldl_snoc, filter_app, fmap_app, filter_cons, filter_nil. case_bool.
  - rewrite decide_True, heap_push_perm, IH by done. cbn.
    by rewrite Permutation_app_comm.
  - rewrite decide_False, IH by done. by rewrite app_nil_r.
Qed.

Lemma initial_built {H : Heap} e degree : heap_built (initial_sources e degree).
Proof.
  unfold initial_sources. generalize (visit_keys (length e)) as ks. intros ks.
  induction ks as [|k ks IH] using rev_ind; [constructor|].
  rewrite foldl_snoc. case_bool; [by constructor|done].
Qed.

Lemma open_edges_nil E : open_edges [] E = E.
Proof.
  unfold open_edges. induction E as [|x E IH]; [done|].
  rewrite filter_cons, decide_True by apply not_elem_of_nil. by rewrite IH.
Qed.

Lemma initial_inv {H : Heap} {HH : HeapOk H} e :
  sort_inv e (open_edges [] (edges e)) [] (inDegree (build_graph e))
    (initial_sources e (inDegree (build_graph e))).
Proof.
  rewrite open_edges_nil. set (degree := inDegree (build_graph e)).
  assert (forall v, v < length e -> degree !! v = Some (Z.of_nat (in_edges v (edges e)))) as Hd.
  { intros v Hv. by apply build_graph_describes. }
  pose proof (initial_sources_perm e degree) as Hp.
  assert ((initial_sources e degree).*2 ≡ₚ
          filter (fun k => degree !! k = Some 0%Z) (seq 0 (length e))) as Hp2.
  { rewrite Hp, <-list_fmap_compose.
    change (snd ∘ (fun k => (name_at e k, k))) with (@id nat). by rewrite list_fmap_id. }
  split; [done| | | |]; cbn [app].
  - intros v Hv. rewrite Hp2, list_elem_of_filter, elem_of_seq, Hd by done.
    split; [intros [[= ?] _]; lia|intros ->; split; [done|lia]].
  - rewrite Hp2. apply NoDup_filter, NoDup_seq.
  - rewrite Hp2. apply Forall_forall. intros v Hv. apply list_elem_of_filter in Hv as [_ Hv].
    apply elem_of_seq in Hv. lia.
  - rewrite Hp. apply Forall_fmap, Forall_forall. done.
Qed.

(** The order of the indices a sort finds. *)
Record sorted_order (e : list EnvVar) (order : list nat) : Prop := {
  so_NoDup : NoDup order;
  so_range : Forall (fun v => v < length e) order;
  so_closed : closed (edges e) order;
  so_left v : v < length e -> v ∉ order -> exists u, (u, v) ∈ edges e /\ u ∉ order;
}.

Lemma TopologicalSort_order {H : Heap} {HH : HeapOk H} e :
  exists order, TopologicalSort e = Some (write_back e order) /\ sorted_order e order.
Proof.
  unfold TopologicalSort.
  destruct (kahn_inv e _ _ [] (length e) (initial_inv e)) as (order & d & -> & Hinv & Hc).
  - intros k u v Hk. by rewrite lookup_nil in Hk.
  - lia.
  - exists order. split; [done|]. destruct Hinv as [_ Hready Hnd Hr _].
    cbn in Hready, Hnd, Hr. rewrite app_nil_r in *. split; [done..|]. intros v Hv Hno.
    destruct (decide (Exists (fun uv => uv.2 = v) (open_edges order (edges e)))) as [He|He].
    + apply Exists_exists in He as ([u w] & Hu & Hw). cbn in Hw. subst w.
      apply list_elem_of_filter in Hu as [Hu He]. by exists u.
    + exfalso. apply Hno, Hready; [done|]. apply in_edges_zero. intros u Hu. apply He.
      apply Exists_exists. by exists (u, v).
Qed.

Lemma sorted_order_length e order : sorted_order e order -> length order <= length e.
Proof.
  intros [Hnd Hr _ _]. rewrite <-(length_seq (length e) 0).
  apply submseteq_length, NoDup_submseteq; [done|]. intros v Hv.
  rewrite Forall_forall in Hr. apply elem_of_seq. specialize (Hr v Hv). lia.
Qed.

(** With every variable sorted, the result has the same variables. *)
Lemma write_back_perm e order :
  sorted_order e order -> (forall v, v < length e -> v ∈ order) ->
  write_back e order ≡ₚ e /\ forall k, write_back e order !! k = order !! k ≫= (fun v => e !! v).
Proof.
  intros Hs Hall. pose proof (sorted_order_length _ _ Hs) as Hl. destruct Hs as [Hnd Hr _ _].
  assert (order ≡ₚ seq 0 (length e)) as Hp.
  { apply NoDup_Permutation; [done|apply NoDup_seq|]. intros v. rewrite elem_of_seq.
    rewrite Forall_forall in Hr. split; [intros Hv; specialize (Hr v Hv); lia|].
    intros [_ Hv]. by apply Hall. }
  assert (forall k, write_back e order !! k = order !! k ≫= (fun v => e !! v)) as Hlk.
  { intros k. rewrite lookup_write_back by done. destruct (order !! k) as [v|] eqn:Hk; [done|].
    apply lookup_ge_None_1 in Hk. cbn. apply lookup_ge_None_2.
    apply Permutation_length in Hp. rewrite length_seq in Hp. lia. }
  split; [|done].
  assert (write_back e order = omap (fun v => e !! v) order) as ->.
  { apply list_eq. intros k. rewrite Hlk. clear -Hr. revert k.
    induction order as [|v order IH]; intros k; [done|]. apply Forall_cons in Hr as [Hv Hr].
    destruct (lookup_lt_is_Some_2 e v Hv) as [x Hx]. cbn. rewrite Hx.
    destruct k as [|k]; cbn; [done|]. by apply IH. }
  rewrite Hp. clear. induction e as [|x e IH] using rev_ind; [done|].
  rewrite length_app, seq_app, omap_app. cbn.
  rewrite lookup_app_r, Nat.sub_diag by lia. cbn. f_equiv. etrans; [|exact IH].
  assert (forall l, Forall (fun v => v < length e) l ->
            omap (fun v => (e ++ [x]) !! v) l = omap (fun v => e !! v) l) as Heq.
  { induction 1 as [|v l Hv _ IHl]; [done|]. cbn. by rewrite lookup_app_l, IHl. }
  rewrite Heq; [done|]. apply Forall_forall. intros v Hv. apply elem_of_seq in Hv. lia.
Qed.

Lemma edge_of_dependency e i j a b (rank : EnvVar -> nat) :
  (forall a b, a ∈ e -> b ∈ e -> DependsOn a b = true -> rank b < rank a) ->
  e !! i = Some a -> e !! j = Some b -> DependsOn a b = true -> (j, i) ∈ edges e.
Proof.
  intros Hrank Ha Hb Hd.
  pose proof (lookup_lt_Some _ _ _ Ha). pose proof (lookup_lt_Some _ _ _ Hb).
  assert (a ∈ e) as Hae by (by eapply list_elem_of_lookup_2).
  assert (b ∈ e) as Hbe by (by eapply list_elem_of_lookup_2).
  assert (i <> j) as Hne.
  { intros ->. simplify_eq. pose proof (Hrank _ _ Hae Hae Hd). lia. }
  unfold edges. apply list_elem_of_bind. destruct (decide (i < j)) as [Hlt|Hlt].
  - exists (i, j). split; [|apply elem_of_index_pairs; lia]. unfold link_edges. cbn.
    rewrite Ha, Hb, Hd. left.
  - exists (j, i). split; [|apply elem_of_index_pairs; lia]. unfold link_edges. cbn.
    rewrite Ha, Hb. destruct (DependsOn b a) eqn:Hba.
    + pose proof (Hrank _ _ Hae Hbe Hd). pose proof (Hrank _ _ Hbe Hae Hba). lia.
    + rewrite Hd. left.
Qed.

Lemma dependency_of_edge e u v :
  (u, v) ∈ edges e -> exists a b, e !! u = Some b /\ e !! v = Some a /\ DependsOn a b = true.
Proof.
  unfold edges. rewrite list_elem_of_bind. intros ([i j] & H & _). unfold link_edges in H.
  cbn in H. destruct (e !! i) as [a|] eqn:Ha, (e !! j) as [b|] eqn:Hb;
    try (by apply not_elem_of_nil in H).
  destruct (DependsOn a b) eqn:Hab; [|destruct (DependsOn b a) eqn:Hba];
    [apply list_elem_of_singleton in H; simplify_eq; eauto..|by apply not_elem_of_nil in H].
Qed.

Lemma acyclic_all_sorted e order (rank : EnvVar -> nat) :
  (forall a b, a ∈ e -> b ∈ e -> DependsOn a b = true -> rank b < rank a) ->
  sorted_order e order -> forall v, v < length e -> v ∈ order.
Proof.
  intros Hrank Hs.
  enough (forall n v a, e !! v = Some a -> rank a < n -> v ∈ order) as H.
  { intros v Hv. destruct (lookup_lt_is_Some_2 e v Hv) as [a Ha]. apply (H (S (rank a)) v a); [done|lia]. }
  induction n as [|n IH]; intros v a Ha Hr; [lia|].
  destruct (decide (v ∈ order)) as [|Hv]; [done|]. exfalso.
  pose proof (lookup_lt_Some _ _ _ Ha) as Hv_lt.
  destruct (so_left _ _ Hs v Hv_lt Hv) as (u & Hu & Hno).
  apply dependency_of_edge in Hu as (a' & b & Hb & Ha' & Hd). simplify_eq. apply Hno.
  assert (a ∈ e /\ b ∈ e) as [Hae Hbe] by (split; eapply list_elem_of_lookup_2; eassumption).
  pose proof (Hrank _ _ Hae Hbe Hd). apply (IH _ b); [done|lia].
Qed.

(** What the sort does to variables without a cycle. *)
Lemma TopologicalSort_acyclic {H : Heap} {HH : HeapOk H} e (rank : EnvVar -> nat) :
  (forall a b, a ∈ e -> b ∈ e -> DependsOn a b = true -> rank b < rank a) ->
  exists out, TopologicalSort e = Some out /\ out ≡ₚ e /\
    forall i j a b, i <= j -> out !! i = Some a -> out !! j = Some b -> DependsOn a b = false.
Proof.
  intros Hrank. destruct (TopologicalSort_order e) as (order & -> & Hs).
  destruct (write_back_perm e order Hs) as [Hp Hlk]; [by eapply acyclic_all_sorted|].
  eexists. split; [reflexivity|]. split; [done|]. intros i j a b Hij Ha Hb.
  rewrite Hlk in Ha, Hb. apply bind_Some in Ha as (v & Hv & Ha), Hb as (u & Hu & Hb).
  destruct (DependsOn a b) eqn:Hd; [|done]. exfalso.
  pose proof (edge_of_dependency _ _ _ _ _ _ Hrank Ha Hb Hd) as He.
  pose proof (so_closed _ _ Hs _ _ _ Hv He) as Hin.
  apply elem_of_take in Hin as (k & Hk & Hlt).
  pose proof (NoDup_lookup _ _ _ _ (so_NoDup _ _ Hs) Hk Hu). lia.
Qed.

(** ** Two heaps agree when the names differ *)

Section agree.
Context (H1 H2 : Heap) (HH1 : HeapOk H1) (HH2 : HeapOk H2).
Context (e : list EnvVar) (Hnames : NoDup (env_Name <$> e)).

Definition entry_of (p : envVarIdxPair) : Prop := p.2 < length e /\ p.1 = name_at e p.2.

Lemma entry_unique p q : entry_of p -> entry_of q -> p.1 = q.1 -> p = q.
Proof.
  destruct p as [n i], q as [m j]. intros [Hi Hn] [Hj Hm] Hnm. cbn in *. subst.
  destruct (lookup_lt_is_Some_2 e i Hi) as [a Ha], (lookup_lt_is_Some_2 e j Hj) as [b Hb].
  unfold name_at in Hnm. rewrite Ha, Hb in Hnm. cbn in Hnm. f_equal.
  - unfold name_at. rewrite Ha, Hb. done.
  - apply (NoDup_lookup (env_Name <$> e) i j (env_Name a)); [done|by rewrite list_lookup_fmap, Ha|].
    by rewrite list_lookup_fmap, Hb, Hnm.
Qed.

(** Two queues with the same entries, each changed by its own heap only. *)
Definition agree (q1 q2 : list envVarIdxPair) : Prop :=
  heap_built (H := H1) q1 /\ heap_built (H := H2) q2 /\ Forall entry_of q1 /\ q1 ≡ₚ q2.

Lemma pop_agree q1 q2 :
  agree q1 q2 ->
  (heap_pop (Heap := H1) q1 = None /\ heap_pop (Heap := H2) q2 = None) \/
  exists x q1' q2', heap_pop (Heap := H1) q1 = Some (x, q1') /\
    heap_pop (Heap := H2) q2 = Some (x, q2') /\ agree q1' q2'.
Proof.
  intros (Hb1 & Hb2 & Hq & Hp). destruct (heap_pop (Heap := H1) q1) as [[x q1']|] eqn:He1.
  - destruct (heap_pop (Heap := H2) q2) as [[y q2']|] eqn:He2.
    + pose proof (heap_pop_perm (H := H1) _ _ _ He1) as Hp1.
      pose proof (heap_pop_perm (H := H2) _ _ _ He2) as Hp2.
      assert (x = y) as ->.
      { rewrite Forall_forall in Hq.
        assert (x ∈ q1) by (rewrite Hp1; left). assert (y ∈ q2) by (rewrite Hp2; left).
        apply entry_unique; [by apply Hq|apply Hq; by rewrite Hp|].
        apply (anti_symm String.le).
        - eapply (heap_pop_min (H := H1)); [exact Hb1|done|by rewrite Hp].
        - eapply (heap_pop_min (H := H2)); [exact Hb2|done|by rewrite <-Hp]. }
      right. exists y, q1', q2'. split; [done|]. split; [done|].
      split; [by eapply built_pop|]. split; [by eapply built_pop|]. split.
      * rewrite Hp1 in Hq. by apply Forall_cons in Hq as [_ ?].
      * apply (Permutation_cons_inv (a := y)). by rewrite <-Hp1, Hp.
    + apply (heap_pop_None (H := H2)) in He2. subst. symmetry in Hp.
      apply Permutation_nil in Hp as ->.
      assert (heap_pop (Heap := H1) [] = None) as Hn by (by apply heap_pop_None). congruence.
  - left. split; [done|]. apply (heap_pop_None (H := H1)) in He1. subst.
    apply Permutation_nil in Hp as ->. by apply heap_pop_None.
Qed.

Lemma relax_agree cs degree q1 q2 :
  Forall (fun c => c < length e) cs -> agree q1 q2 ->
  exists degree' q1' q2', relax (H := H1) e cs degree q1 = (degree', q1') /\
    relax (H := H2) e cs degree q2 = (degree', q2') /\ agree q1' q2'.
Proof.
  revert degree q1 q2. induction cs as [|c cs IH]; intros degree q1 q2 Hcs Hq; cbn; [eauto 10|].
  apply Forall_cons in Hcs as [Hc Hcs].
  case_bool; apply IH; auto. destruct Hq as (Hb1 & Hb2 & Hq & Hp).
  split; [by apply built_push|]. split; [by apply built_push|]. split.
  - rewrite heap_push_perm. by apply Forall_cons.
  - by rewrite !heap_push_perm, Hp.
Qed.

Lemma kahn_agree fuel degree q1 q2 order :
  agree q1 q2 ->
  kahn (H := H1) fuel e (graph (build_graph e)) degree q1 order =
  kahn (H := H2) fuel e (graph (build_graph e)) degree q2 order.
Proof.
  revert degree q1 q2 order. induction fuel as [|fuel IH]; intros degree q1 q2 order Hq; cbn;
    destruct (pop_agree q1 q2 Hq) as [[-> ->]|(x & q1' & q2' & H1x & -> & Hq')];
    [done|by rewrite H1x|done|].
  rewrite H1x.
  assert (Forall (fun c => c < length e) (default [] (graph (build_graph e) !! x.2))) as Hc.
  { assert (x.2 < length e) as Hx.
    { destruct Hq as (_ & _ & Hq & _). apply (heap_pop_perm (H := H1)) in H1x. rewrite H1x in Hq.
      by apply Forall_cons in Hq as [[? _] _]. }
    rewrite (proj1 (build_graph_describes e _ Hx)). apply children_range. }
  destruct (relax_agree _ degree _ _ Hc Hq') as (d & q1'' & q2'' & -> & -> & Hq'').
  by apply IH.
Qed.
End agree.

(** ** Properties *)

(** The sort ends on every input, cyclic ones included, with a list of the same
    length: the fuel of one step for every variable is enough. *)
Theorem TopologicalSort_total (H : Heap) (HH : HeapOk H) e :
  exists out, TopologicalSort e = Some out /\ length out = length e.
Proof.
  destruct (TopologicalSort_order e) as (order & -> & _). eexists. split; [reflexivity|].
  apply length_write_back.
Qed.

(** C28: When the dependencies have no cycle, the sort permutes the variables and puts
    every variable behind the ones it depends on. *)
Theorem TopologicalSort_sorted (H : Heap) (HH : HeapOk H) e (rank : EnvVar -> nat) :
  (forall a b, a ∈ e -> b ∈ e -> DependsOn a b = true -> rank b < rank a) ->
  exists out, TopologicalSort e = Some out /\ out ≡ₚ e /\
    forall i j a b, i <= j -> out !! i = Some a -> out !! j = Some b -> DependsOn a b = false.
Proof. apply TopologicalSort_acyclic. Qed.

(** When the names differ, the result does not depend on the order in which Go visits
    the map of degrees, nor on the heap. *)
Theorem TopologicalSort_deterministic (H1 H2 : Heap) e :
  HeapOk H1 -> HeapOk H2 -> NoDup (env_Name <$> e) ->
  TopologicalSort (H := H1) e = TopologicalSort (H := H2) e.
Proof.
  intros HH1 HH2 Hn. unfold TopologicalSort.
  rewrite (kahn_agree H1 H2 HH1 HH2 e Hn _ _ _
    (initial_sources (H := H2) e (inDegree (build_graph e)))); [done|].
  split; [apply initial_built|]. split; [apply initial_built|]. split.
  - destruct (initial_inv (H := H1) e) as [_ _ _ Hr Hnames]. cbn in Hr.
    apply Forall_fmap in Hr. rewrite !Forall_forall in *. intros p Hp.
    split; [by apply (Hr p)|by apply Hnames].
  - by rewrite !initial_sources_perm.
Qed.

(** ** Examples and witnesses *)

Abbreviation env := env_value.

(** The heap of the library, the map of degrees visited in its order. *)
Definition go_heap : Heap := binary_heap (seq 0).
Lemma go_heap_ok : HeapOk go_heap.
Proof. by apply binary_heap_ok. Qed.

Definition ex_env : list EnvVar :=
  [env "URL" "http://$(HOST):$(PORT)"; env "HOST" "$(NAME).svc"; env "PORT" "80"; env "NAME" "rw"].

Example ex_env_sorted :
  (fun v => env_Name v) <$> default [] (TopologicalSort (H := go_heap) ex_env)
  = ["NAME"; "HOST"; "PORT"; "URL"]%string.
Proof. vm_compute. reflexivity. Qed.

(** A variable that refers to itself is lost, and so are those that depend on it: the
    places left are filled with copies of other variables. *)
Lemma self_reference_loses_variable :
  TopologicalSort (H := go_heap) [env "PATH" "$(PATH):/opt/bin"; env "B" ""]
  = Some [env "B" ""; env "B" ""].
Proof. vm_compute. reflexivity. Qed.

(** Only the first occurrence of a reference is examined: behind an escaped one, a real
    one is not seen. *)
Lemma DependsOn_first_occurrence :
  DependsOn (env "A" "$$(B) is $(B)") (env "B" "") = false.
Proof. vm_compute. reflexivity. Qed.

Definition ex_rank (v : EnvVar) : nat :=
  if bool_decide (env_Name v = "URL") then 2 else if bool_decide (env_Name v = "HOST") then 1 else 0.

Lemma ex_env_acyclic :
  forall a b, a ∈ ex_env -> b ∈ ex_env -> DependsOn a b = true -> ex_rank b < ex_rank a.
Proof.
  assert (Forall (fun a => Forall (fun b => DependsOn a b = true -> ex_rank b < ex_rank a) ex_env)
            ex_env) as H.
  { apply (bool_decide_unpack _). vm_compute. exact I. }
  intros a b Ha Hb. rewrite Forall_forall in H. specialize (H a Ha).
  rewrite Forall_forall in H. exact (H b Hb).
Qed.

Lemma TopologicalSort_total_witness :
  exists out, TopologicalSort (H := go_heap) [env "A" "$(A)"; env "B" ""] = Some out /\
              length out = 2.
Proof. apply (TopologicalSort_total go_heap go_heap_ok). Defined.

Lemma TopologicalSort_sorted_witness :
  exists out, TopologicalSort (H := go_heap) ex_env = Some out /\ out ≡ₚ ex_env.
Proof.
  destruct (TopologicalSort_sorted go_heap go_heap_ok ex_env ex_rank ex_env_acyclic)
    as (out & H1 & H2 & _).
  exists out. split; [exact H1|exact H2].
Defined.

Lemma TopologicalSort_deterministic_witness :
  TopologicalSort (H := list_heap) ex_env =
  TopologicalSort (H := binary_heap (fun n => reverse (seq 0 n))) ex_env.
Proof.
  apply TopologicalSort_deterministic; [exact list_heap_ok| |].
  - apply binary_heap_ok. intros n. apply reverse_Permutation.
  - apply (bool_decide_unpack _). vm_compute. exact I.
Defined.
