(* ===== verification/FactoryBase.v ===== *)
(** * pkg/factory: what all the objects share

    The factory with its predicates, the names and labels of objects, the merging of maps
    and lists ([risingwave_object_factory_common.go]). Third-party code is an interface: the
    comparison of semantic versions, resource quantities and the controller reference
    ([FactoryLib]). *)

From S2P Require Import Prelude GoStrings GoPaths ApiTypes ApiErrors RisingWaveManager Workloads.

(** ** Definitions: the names of the environment variables (pkg/factory/envs) *)

Module envs.
Definition RustBacktrace : string := "RUST_BACKTRACE".
Definition RustLog : string := "RUST_LOG".
Definition RustMinStack : string := "RUST_MIN_STACK".
Definition RWListenAddr : string := "RW_LISTEN_ADDR".
Definition RWAdvertiseAddr : string := "RW_ADVERTISE_ADDR".
Definition RWDashboardHost : string := "RW_DASHBOARD_HOST".
Definition RWPrometheusHost : string := "RW_PROMETHEUS_HOST".
Definition RWEtcdEndpoints : string := "RW_ETCD_ENDPOINTS".
Definition RWSQLEndpoint : string := "RW_SQL_ENDPOINT".
Definition RWSQLDatabase : string := "RW_SQL_DATABASE".
Definition RWEtcdAuth : string := "RW_ETCD_AUTH".
Definition RWEtcdUsername : string := "RW_ETCD_USERNAME".
Definition RWEtcdPassword : string := "RW_ETCD_PASSWORD".
Definition RWSQLUsername : string := "RW_SQL_USERNAME".
Definition RWSQLPassword : string := "RW_SQL_PASSWORD".
Definition RWMySQLUsername : string := "RW_MYSQL_USERNAME".
Definition RWMySQLPassword : string := "RW_MYSQL_PASSWORD".
Definition RWPostgresUsername : string := "RW_POSTGRES_USERNAME".
Definition RWPostgresPassword : string := "RW_POSTGRES_PASSWORD".
Definition RWConfigPath : string := "RW_CONFIG_PATH".
Definition RWStateStore : string := "RW_STATE_STORE".
Definition RWDataDirectory : string := "RW_DATA_DIRECTORY".
Definition RWWorkerThreads : string := "RW_WORKER_THREADS".
Definition RWBackend : string := "RW_BACKEND".
Definition RWMetaAddr : string := "RW_META_ADDR".
Definition RWMetaAddrLegacy : string := "RW_META_ADDRESS".
Definition RWPrometheusListenerAddr : string := "RW_PROMETHEUS_LISTENER_ADDR".
Definition RWParallelism : string := "RW_PARALLELISM".
Definition RWTotalMemoryBytes : string := "RW_TOTAL_MEMORY_BYTES".
Definition RWSslCert : string := "RW_SSL_CERT".
Definition RWSslKey : string := "RW_SSL_KEY".
Definition RWLicenseKey : string := "RW_LICENSE_KEY".
Definition RWLicenseKeyPath : string := "RW_LICENSE_KEY_PATH".
Definition RWSecretStorePrivateKeyHex : string := "RW_SECRET_STORE_PRIVATE_KEY_HEX".
Definition RWResourceGroup : string := "RW_RESOURCE_GROUP".
Definition RWWebhookListenAddr : string := "RW_WEBHOOK_LISTEN_ADDR".
Definition MinIOEndpoint : string := "MINIO_ENDPOINT".
Definition MinIOBucket : string := "MINIO_BUCKET".
Definition MinIOUsername : string := "MINIO_USERNAME".
Definition MinIOPassword : string := "MINIO_PASSWORD".
Definition EtcdUsernameLegacy : string := "ETCD_USERNAME".
Definition EtcdPasswordLegacy : string := "ETCD_PASSWORD".
Definition AWSRegion : string := "AWS_REGION".
Definition AWSAccessKeyID : string := "AWS_ACCESS_KEY_ID".
Definition AWSSecretAccessKey : string := "AWS_SECRET_ACCESS_KEY".
Definition AWSS3Bucket : string := "AWS_S3_BUCKET".
Definition AWSEC2MetadataDisabled : string := "AWS_EC2_METADATA_DISABLED".
Definition AWSForcePathStyle : string := "RW_IS_FORCE_PATH_STYLE".
Definition S3CompatibleRegion : string := "AWS_REGION".
Definition S3CompatibleBucket : string := "AWS_S3_BUCKET".
Definition S3CompatibleAccessKeyID : string := "AWS_ACCESS_KEY_ID".
Definition S3CompatibleSecretAccessKey : string := "AWS_SECRET_ACCESS_KEY".
Definition S3CompatibleEndpoint : string := "RW_S3_ENDPOINT".
Definition S3CompatibleForcePathStyle : string := "RW_IS_FORCE_PATH_STYLE".
Definition AzureBlobEndpoint : string := "AZBLOB_ENDPOINT".
Definition AzureBlobAccountName : string := "AZBLOB_ACCOUNT_NAME".
Definition AzureBlobAccountKey : string := "AZBLOB_ACCOUNT_KEY".
Definition AliyunOSSRegion : string := "OSS_REGION".
Definition AliyunOSSEndpoint : string := "OSS_ENDPOINT".
Definition AliyunOSSAccessKeyID : string := "OSS_ACCESS_KEY_ID".
Definition AliyunOSSSecretAccessKey : string := "OSS_ACCESS_KEY_SECRET".
Definition HuaweiCloudOBSRegion : string := "OBS_REGION".
Definition HuaweiCloudOBSEndpoint : string := "OBS_ENDPOINT".
Definition HuaweiCloudOBSAccessKeyID : string := "OBS_ACCESS_KEY_ID".
Definition HuaweiCloudOBSSecretAccessKey : string := "OBS_SECRET_ACCESS_KEY".
Definition GoogleApplicationCredentials : string := "GOOGLE_APPLICATION_CREDENTIALS".
Definition PodIP : string := "POD_IP".
Definition PodName : string := "POD_NAME".
Definition PodNamespace : string := "POD_NAMESPACE".
End envs.

(** ** Definitions: the constants of the factory *)

Definition risingWaveConfigVolume : string := "risingwave-config".
Definition risingwaveTLSVolume : string := "risingwave-tls".
Definition risingWaveConfigMapKey : string := "risingwave.toml".
Definition risingwaveExecutablePath : string := "/risingwave/bin/risingwave".
Definition risingwaveConfigMountPath : string := "/risingwave/config".
Definition risingwaveConfigFileName : string := "risingwave.toml".
Definition risingwaveLicenseKeyPath : string := "/license/license.jwt".
Definition risingwaveTLSCertsMountPath : string := "/risingwave/tls".
(** [corev1.TLSPrivateKeyKey] and [corev1.TLSCertKey]. *)
Definition TLSPrivateKeyKey : string := "tls.key".
Definition TLSCertKey : string := "tls.crt".

(** ["$(NAME)"], the reference to a variable. *)
Definition ref (name : string) : string := "$(" +:+ name +:+ ")".

Definition aliyunOSSEndpoint : string :=
  "https://oss-" +:+ ref envs.AliyunOSSRegion +:+ ".aliyuncs.com".
Definition internalAliyunOSSEndpoint : string :=
  "https://oss-" +:+ ref envs.AliyunOSSRegion +:+ "-internal.aliyuncs.com".
Definition huaweiCloudOBSEndpoint : string :=
  "https://obs." +:+ ref envs.HuaweiCloudOBSRegion +:+ ".myhuaweicloud.com".

(** ** Definitions: third-party code

    [semver_Compare] is [semver.Compare], [InPlaceUpdateReady] a constant of OpenKruise; the
    others read a quantity: [cpu_Ceil] rounds it up, [cpu_Value] is [Value],
    [memory_AsInt64] the number [AsInt64] returns. *)
Class FactoryLib := {
  semver_Compare : string -> string -> Z;
  InPlaceUpdateReady : string;
  cpu_Ceil : string -> Z;
  cpu_Value : string -> Z;
  memory_AsInt64 : string -> Z;
}.

(** [ctrl.SetControllerReference]: the object with the reference to its owner, or an error. *)
Class ControllerReference (B : Type) := {
  SetControllerReference : RisingWave -> Object B -> result string (Object B);
}.

(** It fails only when the object has another controller, or when the owner is in another
    namespace; it sets the reference, which is not a field of the model. *)
Class ControllerReferenceOk {B} (C : ControllerReference B) : Prop := {
  reference_set rw o : om_Namespace (o_Meta o) = om_Namespace (rw_Meta rw) ->
    SetControllerReference rw o = Ok o;
}.

Definition mustSetControllerReference {B} `{ControllerReference B} (owner : RisingWave)
    (controlled : Object B) : outcome (Object B) :=
  match SetControllerReference owner controlled with Ok o => Done o | Err e => Panic e end.

(** ** Definitions: merging *)

Definition mergeMap (a b : gmap string string) : gmap string string := b ∪ a.

(** The value takes the place of the first one for which the predicate holds. *)
Fixpoint mergeListByKey {T} (l : list T) (val : T) (keyPred : T -> bool) : list T :=
  match l with
  | [] => [val]
  | v :: l' => if keyPred v then val :: l' else v :: mergeListByKey l' val keyPred
  end.
Definition mergeListWhenKeyEquals {T} (l : list T) (val : T) (equals : T -> T -> bool) : list T :=
  mergeListByKey l val (equals val).

(** [for _, val := range vals { l = mergeListWhenKeyEquals(l, val, equals) }]. *)
Definition mergeAll {T} (equals : T -> T -> bool) (l vals : list T) : list T :=
  foldl (fun l val => mergeListWhenKeyEquals l val equals) l vals.

Definition same_name (a b : EnvVar) : bool := bool_decide (env_Name a = env_Name b).
Definition same_volume (a b : Volume) : bool := bool_decide (vol_Name a = vol_Name b).
Definition same_path (a b : VolumeMount) : bool := bool_decide (vm_MountPath a = vm_MountPath b).

(** ** Definitions: the factory *)

Record RisingWaveObjectFactory := {
  f_risingwave : RisingWave;
  f_inheritedLabels : gmap string string;
  f_operatorVersion : string;
}.

(** The prefixes that count: none is empty, none is the one the system reserves. *)
Definition label_prefixes (inheritLabelPrefix : string) : list string :=
  filter (fun s => s <> "" /\ s <> "risingwave") (TrimSpace <$> Split inheritLabelPrefix ","%char).

Definition matchLabelKey (prefixes : list string) (s : string) : bool :=
  existsb (fun p => HasPrefix s (p +:+ "/")) prefixes.

Definition captureInheritedLabels (risingwave : RisingWave) : gmap string string :=
  match om_Annotations (rw_Meta risingwave) !! AnnotationInheritLabelPrefix with
  | None => ∅
  | Some inheritLabelPrefix =>
      filter (fun kv => matchLabelKey (label_prefixes inheritLabelPrefix) kv.1 = true)
        (om_Labels (rw_Meta risingwave))
  end.

Definition NewRisingWaveObjectFactory (risingwave : RisingWave) (operatorVersion : string)
  : RisingWaveObjectFactory :=
  {| f_risingwave := risingwave; f_inheritedLabels := captureInheritedLabels risingwave;
     f_operatorVersion := operatorVersion |}.

(** The minimum version that takes the user and the password of an SQL meta store apart. *)
Definition minVersionForSQLCredentialsViaEnv : string := "v1.10.1".

Definition isSQLCredentialsViaEnvSupported `{FactoryLib} (version : string) : bool :=
  bool_decide (0 <= semver_Compare version minVersionForSQLCredentialsViaEnv)%Z ||
  IsRisingWaveNightlyVersionAfter version (2023, 7, 14)%Z.

Section factory.
Context (f : RisingWaveObjectFactory).
Let rw : RisingWave := f_risingwave f.
Let spec : RisingWaveSpec := rw_Spec rw.
Let name : string := om_Name (rw_Meta rw).

Definition namespace : string := om_Namespace (rw_Meta rw).

Definition isStateStoreMemory : bool := default false (ss_Memory (rws_StateStore spec)).
Definition isMetaStoreMemory : bool := default false (ms_Memory (rws_MetaStore spec)).
Definition isFullKubernetesAddr : bool := default false (rws_EnableFullKubernetesAddr spec).
Definition isWebhookListenerEnabled : bool := default false (rws_EnableWebhookListener spec).
Definition isEmbeddedServingModeEnabled : bool := default false (rws_EnableEmbeddedServingMode spec).

(** ** Definitions: names and labels *)

Definition groupSuffix (group : string) : string :=
  if bool_decide (group = "") then "" else "-" +:+ group.

Definition componentName (component group : string) : outcome string :=
  if bool_decide (component = ComponentMeta) then Done (name +:+ "-meta" +:+ groupSuffix group)
  else if bool_decide (component = ComponentCompute) then
    Done (name +:+ "-compute" +:+ groupSuffix group)
  else if bool_decide (component = ComponentFrontend) then
    Done (name +:+ "-frontend" +:+ groupSuffix group)
  else if bool_decide (component = ComponentCompactor) then
    Done (name +:+ "-compactor" +:+ groupSuffix group)
  else if bool_decide (component = ComponentStandalone) then Done (name +:+ "-standalone")
  else if bool_decide (component = ComponentConfig) then Done (name +:+ "-default-config")
  else Panic "never reach here".

Definition componentAddr (component group : string) : outcome string :=
  componentName ← componentName component group;
  mret (if isFullKubernetesAddr then componentName +:+ ".$(POD_NAMESPACE).svc" else componentName).

(** The value of the generation label. *)
Definition generation_label (sync : bool) : string :=
  if sync then FormatInt (om_Generation (rw_Meta rw)) else NoSync.

Definition new_meta (name : string) (labels : gmap string string) : ObjectMeta :=
  {| om_Name := name; om_Namespace := namespace; om_UID := ""; om_Generation := 0;
     om_Labels := mergeMap labels (f_inheritedLabels f); om_Annotations := ∅;
     om_Finalizers := []; om_Deleted := false |}.

Definition getObjectMetaForGeneralResources (n : string) (sync : bool) : ObjectMeta :=
  new_meta n
    {[ LabelRisingWaveName := name; LabelRisingWaveGeneration := generation_label sync;
       LabelRisingWaveOperatorVersion := f_operatorVersion f ]}.

Definition getObjectMetaForComponentLevelResources (component : string) (sync : bool)
  : outcome ObjectMeta :=
  n ← componentName component "";
  mret (new_meta n
    {[ LabelRisingWaveName := name; LabelRisingWaveComponent := component;
       LabelRisingWaveGeneration := generation_label sync;
       LabelRisingWaveOperatorVersion := f_operatorVersion f ]}).

Definition getObjectMetaForComponentGroupLevelResources (component group : string) (sync : bool)
  : outcome ObjectMeta :=
  n ← componentName component group;
  mret (new_meta n
    {[ LabelRisingWaveName := name; LabelRisingWaveComponent := component;
       LabelRisingWaveGeneration := generation_label sync; LabelRisingWaveGroup := group;
       LabelRisingWaveOperatorVersion := f_operatorVersion f ]}).

Definition podLabelsOrSelectorsForComponent (component : string) : gmap string string :=
  {[ LabelRisingWaveName := name; LabelRisingWaveComponent := component ]}.
Definition podLabelsOrSelectorsForComponentGroup (component group : string) : gmap string string :=
  {[ LabelRisingWaveName := name; LabelRisingWaveComponent := component;
     LabelRisingWaveGroup := group ]}.
End factory.
