(* ===== verification/FactoryEnvs.v ===== *)
(** * pkg/factory: the environment variables and arguments of the containers *)

From S2P Require Import Prelude GoStrings GoPaths ApiTypes RisingWaveManager Workloads FactoryBase.

(** ["0.0.0.0:port"], ["host:port"]. *)
Definition any_addr (port : Z) : string := "0.0.0.0:" +:+ FormatInt port.
Definition local_addr (port : Z) : string := "127.0.0.1:" +:+ FormatInt port.
Definition config_path : string := path_Join risingwaveConfigMountPath risingwaveConfigFileName.

Definition formatConnectionOptions (opts : gmap string string) : string :=
  if bool_decide (opts = ∅) then "" else "?" +:+ Encode opts.

(** [RW_PARALLELISM] and [RW_TOTAL_MEMORY_BYTES], where there is a limit. *)
Definition envsForResourceLimits (cpuLimit memLimit : Z) : list EnvVar :=
  (if bool_decide (cpuLimit = 0)%Z then []
   else [env_value envs.RWParallelism (FormatInt cpuLimit)]) ++
  (if bool_decide (memLimit = 0)%Z then []
   else [env_value envs.RWTotalMemoryBytes (FormatInt memLimit)]).

Section envs.
Context (f : RisingWaveObjectFactory) `{L : FactoryLib}.
Let rw : RisingWave := f_risingwave f.
Let spec : RisingWaveSpec := rw_Spec rw.

(** ** Definitions: the meta store *)

Definition envsForEtcd (etcd : RisingWaveMetaStoreBackendEtcd) : list EnvVar :=
  match etcd_Credentials etcd with
  | None => []
  | Some c =>
      if bool_decide (etcdc_SecretName c = "") then []
      else [env_secret envs.EtcdUsernameLegacy (etcdc_SecretName c) (etcdc_UsernameKeyRef c);
            env_secret envs.EtcdPasswordLegacy (etcdc_SecretName c) (etcdc_PasswordKeyRef c);
            env_secret envs.RWEtcdUsername (etcdc_SecretName c) (etcdc_UsernameKeyRef c);
            env_secret envs.RWEtcdPassword (etcdc_SecretName c) (etcdc_PasswordKeyRef c)]
  end.
Definition envsForSQLite : list EnvVar := [].
Definition envsForMySQL (my : RisingWaveMetaStoreBackendMySQL) : list EnvVar :=
  let creds := my_Credentials my in
  [env_secret envs.RWMySQLUsername (dbc_SecretName creds) (dbc_UsernameKeyRef creds);
   env_secret envs.RWSQLUsername (dbc_SecretName creds) (dbc_UsernameKeyRef creds);
   env_secret envs.RWMySQLPassword (dbc_SecretName creds) (dbc_PasswordKeyRef creds);
   env_secret envs.RWSQLPassword (dbc_SecretName creds) (dbc_PasswordKeyRef creds)].
Definition envsForPostgreSQL (pg : RisingWaveMetaStoreBackendPostgreSQL) : list EnvVar :=
  let creds := pg_Credentials pg in
  [env_secret envs.RWPostgresUsername (dbc_SecretName creds) (dbc_UsernameKeyRef creds);
   env_secret envs.RWPostgresPassword (dbc_SecretName creds) (dbc_PasswordKeyRef creds);
   env_secret envs.RWSQLUsername (dbc_SecretName creds) (dbc_UsernameKeyRef creds);
   env_secret envs.RWSQLPassword (dbc_SecretName creds) (dbc_PasswordKeyRef creds)].

Definition envsForMetaStore : outcome (list EnvVar) :=
  let m := rws_MetaStore spec in
  if isMetaStoreMemory f then Done []
  else match ms_Etcd m, ms_SQLite m, ms_MySQL m, ms_PostgreSQL m with
       | Some etcd, _, _, _ => Done (envsForEtcd etcd)
       | None, Some _, _, _ => Done envsForSQLite
       | None, None, Some my, _ => Done (envsForMySQL my)
       | None, None, None, Some pg => Done (envsForPostgreSQL pg)
       | None, None, None, None => Panic "unsupported meta storage type"
       end.

(** The endpoint of an SQL meta store: with the credentials apart, and in the URL. *)
Definition sql_endpoint (host : string) (port : Z) (opts : gmap string string) : string :=
  host +:+ ":" +:+ FormatInt port +:+ formatConnectionOptions opts.
Definition sql_url (scheme username password host : string) (port : Z) (database : string)
    (opts : gmap string string) : string :=
  scheme +:+ "://" +:+ ref username +:+ ":" +:+ ref password +:+ "@" +:+ host +:+ ":" +:+
  FormatInt port +:+ "/" +:+ database +:+ formatConnectionOptions opts.

(** The switch of [coreEnvsForMeta]. *)
Definition backend_envs (version : string) : outcome (list EnvVar) :=
  let m := rws_MetaStore spec in
  let via_env := isSQLCredentialsViaEnvSupported version in
  if isMetaStoreMemory f then Done [env_value envs.RWBackend "mem"]
  else match ms_Etcd m, ms_SQLite m, ms_MySQL m, ms_PostgreSQL m with
       | Some etcd, _, _, _ =>
           Done ([env_value envs.RWBackend "etcd"; env_value envs.RWEtcdEndpoints (etcd_Endpoint etcd)] ++
             match etcd_Credentials etcd with
             | Some c => if bool_decide (etcdc_SecretName c = "") then []
                         else [env_value envs.RWEtcdAuth "true"]
             | None => []
             end)
       | None, Some sqlite, _, _ =>
           Done (if via_env
                 then [env_value envs.RWBackend "sqlite"; env_value envs.RWSQLEndpoint (sqlite_Path sqlite)]
                 else [env_value envs.RWBackend "sql";
                       env_value envs.RWSQLEndpoint ("sqlite://" +:+ sqlite_Path sqlite +:+ "?mode=rwc")])
       | None, None, Some my, _ =>
           Done (if via_env
                 then [env_value envs.RWBackend "mysql";
                       env_value envs.RWSQLEndpoint (sql_endpoint (my_Host my) (my_Port my) (my_Options my));
                       env_value envs.RWSQLDatabase (my_Database my)]
                 else [env_value envs.RWBackend "sql";
                       env_value envs.RWSQLEndpoint
                         (sql_url "mysql" envs.RWMySQLUsername envs.RWMySQLPassword (my_Host my)
                            (my_Port my) (my_Database my) (my_Options my))])
       | None, None, None, Some pg =>
           Done (if via_env
                 then [env_value envs.RWBackend "postgres";
                       env_value envs.RWSQLEndpoint (sql_endpoint (pg_Host pg) (pg_Port pg) (pg_Options pg));
                       env_value envs.RWSQLDatabase (pg_Database pg)]
                 else [env_value envs.RWBackend "sql";
                       env_value envs.RWSQLEndpoint
                         (sql_url "postgres" envs.RWPostgresUsername envs.RWPostgresPassword (pg_Host pg)
                            (pg_Port pg) (pg_Database pg) (pg_Options pg))])
       | None, None, None, None => Panic "unsupported meta storage type"
       end.

(** ** Definitions: the state store *)

Definition hummockConnectionStr : outcome string :=
  let stateStore := rws_StateStore spec in
  if isStateStoreMemory f then Done "hummock+memory"
  else match ss_S3 stateStore, ss_MinIO stateStore, ss_GCS stateStore, ss_AliyunOSS stateStore,
             ss_AzureBlob stateStore, ss_HDFS stateStore, ss_WebHDFS stateStore,
             ss_LocalDisk stateStore, ss_HuaweiCloudOBS stateStore with
       | Some s3, _, _, _, _, _, _, _, _ => Done ("hummock+s3://" +:+ s3_Bucket s3)
       | None, Some minio, _, _, _, _, _, _, _ =>
           Done ("hummock+minio://" +:+ ref envs.MinIOUsername +:+ ":" +:+ ref envs.MinIOPassword +:+
                 "@" +:+ minio_Endpoint minio +:+ "/" +:+ minio_Bucket minio)
       | None, None, Some gcs, _, _, _, _, _, _ => Done ("hummock+gcs://" +:+ gcs_Bucket gcs)
       | None, None, None, Some oss, _, _, _, _, _ => Done ("hummock+oss://" +:+ oss_Bucket oss)
       | None, None, None, None, Some az, _, _, _, _ => Done ("hummock+azblob://" +:+ az_Container az)
       | None, None, None, None, None, Some hdfs, _, _, _ =>
           Done ("hummock+hdfs://" +:+ hdfs_NameNode hdfs)
       | None, None, None, None, None, None, Some webhdfs, _, _ =>
           Done ("hummock+webhdfs://" +:+ hdfs_NameNode webhdfs)
       | None, None, None, None, None, None, None, Some localDisk, _ =>
           Done ("hummock+fs://" +:+ ld_Root localDisk)
       | None, None, None, None, None, None, None, None, Some obs =>
           Done ("hummock+obs://" +:+ obs_Bucket obs)
       | None, None, None, None, None, None, None, None, None => Panic "unrecognized storage type"
       end.

Definition getDataDirectory : string :=
  let rootPath := if bool_decide (st_StateStoreRootPath (rw_Status rw) = "")
                  then StateStoreRootPath rw else st_StateStoreRootPath (rw_Status rw) in
  path_Join rootPath (ss_DataDirectory (rws_StateStore spec)).

Definition envsForMinIO (minio : RisingWaveStateStoreBackendMinIO) : list EnvVar :=
  let credentials := minio_Credentials minio in
  [env_value envs.MinIOEndpoint (minio_Endpoint minio); env_value envs.MinIOBucket (minio_Bucket minio);
   env_secret envs.MinIOUsername (minioc_SecretName credentials) (minioc_UsernameKeyRef credentials);
   env_secret envs.MinIOPassword (minioc_SecretName credentials) (minioc_PasswordKeyRef credentials)].

Definition envsForAWSS3 (region bucket : string) (credentials : RisingWaveS3Credentials)
    (forcePathStyle : bool) : list EnvVar :=
  [env_value envs.AWSRegion region; env_value envs.AWSS3Bucket bucket] ++
  (if default false (s3c_UseServiceAccount credentials) then []
   else [env_secret envs.AWSAccessKeyID (s3c_SecretName credentials) (s3c_AccessKeyRef credentials);
         env_secret envs.AWSSecretAccessKey (s3c_SecretName credentials)
           (s3c_SecretAccessKeyRef credentials)]) ++
  (if forcePathStyle then [env_value envs.AWSForcePathStyle "true"] else []).

Definition envsForS3Compatible (region endpoint bucket : string)
    (credentials : RisingWaveS3Credentials) (forcePathStyle : bool) : list EnvVar :=
  let regionEnvVar :=
    if bool_decide (region = "")
    then env_secret envs.S3CompatibleRegion (s3c_SecretName credentials) SecretKeyAWSS3Region
    else env_value envs.S3CompatibleRegion region in
  [env_value envs.AWSEC2MetadataDisabled "true"; env_value envs.S3CompatibleBucket bucket;
   regionEnvVar;
   env_secret envs.S3CompatibleAccessKeyID (s3c_SecretName credentials) (s3c_AccessKeyRef credentials);
   env_secret envs.S3CompatibleSecretAccessKey (s3c_SecretName credentials)
     (s3c_SecretAccessKeyRef credentials);
   env_value envs.S3CompatibleEndpoint endpoint] ++
  (if forcePathStyle then [env_value envs.S3CompatibleForcePathStyle "true"] else []).

(** The endpoint of an S3-compatible store: the two placeholders become references, and the
    scheme is [https] where it has none. *)
Definition s3_endpoint (endpoint : string) : string :=
  let endpoint := TrimSpace endpoint in
  let endpoint := ReplaceAll endpoint "${REGION}" (ref envs.S3CompatibleRegion) in
  let endpoint := ReplaceAll endpoint "${BUCKET}" (ref envs.S3CompatibleBucket) in
  if negb (HasPrefix endpoint "https://") && negb (HasPrefix endpoint "http://")
  then "https://" +:+ endpoint else endpoint.

Definition envsForS3 (s3 : RisingWaveStateStoreBackendS3) : list EnvVar :=
  if bool_decide (s3_Endpoint s3 = "")
  then envsForAWSS3 (s3_Region s3) (s3_Bucket s3) (s3_Credentials s3) (s3_ForcePathStyle s3)
  else envsForS3Compatible (s3_Region s3) (s3_endpoint (s3_Endpoint s3)) (s3_Bucket s3)
         (s3_Credentials s3) (s3_ForcePathStyle s3).

Definition envsForGCS (gcs : RisingWaveStateStoreBackendGCS) : list EnvVar :=
  let credentials := gcs_Credentials gcs in
  if default false (gcsc_UseWorkloadIdentity credentials) then []
  else [env_secret envs.GoogleApplicationCredentials (gcsc_SecretName credentials)
          (gcsc_ServiceAccountCredentialsKeyRef credentials)].

Definition envsForAliyunOSS (oss : RisingWaveStateStoreBackendAliyunOSS) : list EnvVar :=
  let credentials := oss_Credentials oss in
  let endpoint := if oss_InternalEndpoint oss then internalAliyunOSSEndpoint else aliyunOSSEndpoint in
  [env_value envs.AliyunOSSRegion (oss_Region oss);
   env_secret envs.AliyunOSSAccessKeyID (ossc_SecretName credentials) (ossc_AccessKeyIDRef credentials);
   env_secret envs.AliyunOSSSecretAccessKey (ossc_SecretName credentials)
     (ossc_AccessKeySecretRef credentials);
   env_value envs.AliyunOSSEndpoint endpoint].

Definition envsForAzureBlob (az : RisingWaveStateStoreBackendAzureBlob) : list EnvVar :=
  let credentials := az_Credentials az in
  env_value envs.AzureBlobEndpoint (az_Endpoint az) ::
  (if default false (azc_UseServiceAccount credentials) then []
   else [env_secret envs.AzureBlobAccountName (azc_SecretName credentials) (azc_AccountNameRef credentials);
         env_secret envs.AzureBlobAccountKey (azc_SecretName credentials) (azc_AccountKeyRef credentials)]).

Definition envsForHDFS : list EnvVar := [].
Definition envsForWebHDFS : list EnvVar := [].
Definition envsForLocalDisk : list EnvVar := [].

Definition envsForHuaweiCloudOBS (obs : RisingWaveStateStoreBackendHuaweiCloudOBS) : list EnvVar :=
  let credentials := obs_Credentials obs in
  [env_value envs.HuaweiCloudOBSRegion (obs_Region obs);
   env_value envs.HuaweiCloudOBSEndpoint huaweiCloudOBSEndpoint;
   env_secret envs.HuaweiCloudOBSAccessKeyID (obsc_SecretName credentials)
     (obsc_AccessKeyIDRef credentials);
   env_secret envs.HuaweiCloudOBSSecretAccessKey (obsc_SecretName credentials)
     (obsc_AccessKeySecretRef credentials)].

Definition envsForStateStore : list EnvVar :=
  let s := rws_StateStore spec in
  match ss_MinIO s, ss_S3 s, ss_GCS s, ss_AliyunOSS s, ss_AzureBlob s, ss_HDFS s, ss_WebHDFS s,
        ss_LocalDisk s, ss_HuaweiCloudOBS s with
  | Some minio, _, _, _, _, _, _, _, _ => envsForMinIO minio
  | None, Some s3, _, _, _, _, _, _, _ => envsForS3 s3
  | None, None, Some gcs, _, _, _, _, _, _ => envsForGCS gcs
  | None, None, None, Some oss, _, _, _, _, _ => envsForAliyunOSS oss
  | None, None, None, None, Some az, _, _, _, _ => envsForAzureBlob az
  | None, None, None, None, None, Some _, _, _, _ => envsForHDFS
  | None, None, None, None, None, None, Some _, _, _ => envsForWebHDFS
  | None, None, None, None, None, None, None, Some _, _ => envsForLocalDisk
  | None, None, None, None, None, None, None, None, Some obs => envsForHuaweiCloudOBS obs
  | None, None, None, None, None, None, None, None, None => []
  end.

(** ** Definitions: the license key, the secret store, TLS *)

Definition useLicenseFile : bool :=
  let imageVersion := GetVersionFromImage (rws_Image spec) in
  default (negb (HasPrefix imageVersion "v0.") && negb (HasPrefix imageVersion "v1.") &&
           negb (HasPrefix imageVersion "v2.0."))
    (rws_LicenseKey spec ≫= lic_PassAsFile).

Definition license_secret_key (licenseKey : RisingWaveLicenseKey) : string :=
  if bool_decide (lic_SecretKey licenseKey = "") then RisingWaveLicenseKeySecretKey
  else lic_SecretKey licenseKey.

Definition envsForLicenseKey : list EnvVar :=
  match rws_LicenseKey spec with
  | None => []
  | Some licenseKey =>
      if bool_decide (lic_SecretName licenseKey = "") then []
      else if useLicenseFile then [env_value envs.RWLicenseKeyPath risingwaveLicenseKeyPath]
      else [env_secret envs.RWLicenseKey (lic_SecretName licenseKey) (license_secret_key licenseKey)]
  end.

Definition volumeAndVolumeMountForLicenseKey : list Volume * list VolumeMount :=
  match rws_LicenseKey spec with
  | None => ([], [])
  | Some licenseKey =>
      if bool_decide (lic_SecretName licenseKey = "") || negb useLicenseFile then ([], [])
      else
        ([{| vol_Name := "license";
             vol_Source := SecretVolume (lic_SecretName licenseKey)
               [(license_secret_key licenseKey, path_Base risingwaveLicenseKeyPath)] None |}],
         [{| vm_Name := "license"; vm_ReadOnly := true;
             vm_MountPath := path_Dir risingwaveLicenseKeyPath; vm_Options := "" |}])
  end.

Definition envsForSecretStore : list EnvVar :=
  let key := sec_PrivateKey (rws_SecretStore spec) in
  match pk_SecretRef key, pk_Value key with
  | Some r, _ => [env_secret envs.RWSecretStorePrivateKeyHex (pkref_Name r) (pkref_Key r)]
  | None, Some value => [env_value envs.RWSecretStorePrivateKeyHex value]
  | None, None => []
  end.

(** The secret of the certificates, where TLS is on. *)
Definition tls_secret : option string :=
  match rws_TLS spec with
  | Some tls => if bool_decide (tls_SecretName tls = "") then None else Some (tls_SecretName tls)
  | None => None
  end.

Definition volumeAndVolumeMountForTLS : option (Volume * VolumeMount) :=
  (fun secretName =>
     ({| vol_Name := risingwaveTLSVolume; vol_Source := SecretVolume secretName [] None |},
      {| vm_Name := risingwaveTLSVolume; vm_ReadOnly := true;
         vm_MountPath := risingwaveTLSCertsMountPath; vm_Options := "" |})) <$> tls_secret.

Definition envsForTLS : list EnvVar :=
  match tls_secret with
  | Some _ =>
      [env_value envs.RWSslKey (path_Join risingwaveTLSCertsMountPath TLSPrivateKeyKey);
       env_value envs.RWSslCert (path_Join risingwaveTLSCertsMountPath TLSCertKey)]
  | None => []
  end.

(** ** Definitions: the variables of each component *)

Definition coreEnvsForMeta (image : string) : outcome (list EnvVar) :=
  hummock ← hummockConnectionStr;
  backend ← backend_envs (GetVersionFromImage image);
  mret ([env_value envs.RWStateStore hummock; env_value envs.RWDataDirectory getDataDirectory;
         env_value envs.RWDashboardHost (any_addr MetaDashboardPort)] ++
        backend ++ envsForLicenseKey ++ envsForSecretStore).

(** The address a pod of a stateful component announces. *)
Definition advertise_addr (component : string) (port : Z) : outcome string :=
  addr ← componentAddr f component "";
  mret (if IsAdvertisingWithIP rw then ref envs.PodIP +:+ ":" +:+ FormatInt port
        else ref envs.PodName +:+ "." +:+ addr +:+ ":" +:+ FormatInt port).

Definition meta_url : outcome string :=
  addr ← componentAddr f ComponentMeta "";
  mret ("load-balance+http://" +:+ addr +:+ ":" +:+ FormatInt MetaServicePort).

Definition envsForMetaArgs (image : string) : outcome (list EnvVar) :=
  advertiseAddr ← advertise_addr ComponentMeta MetaServicePort;
  core ← coreEnvsForMeta image;
  mret ([env_value envs.RWMetaAddr ("http://" +:+ local_addr MetaServicePort);
         env_value envs.RWConfigPath config_path;
         env_value envs.RWListenAddr (any_addr MetaServicePort);
         env_value envs.RWAdvertiseAddr advertiseAddr;
         env_value envs.RWPrometheusHost (any_addr MetaMetricsPort)] ++ core).

Definition webhook_env : EnvVar := env_value envs.RWWebhookListenAddr (any_addr FrontendWebhookPort).

Definition envsForFrontendArgs : outcome (list EnvVar) :=
  meta ← meta_url;
  mret ([env_value envs.RWListenAddr (any_addr FrontendServicePort);
         env_value envs.RWConfigPath config_path;
         env_value envs.RWAdvertiseAddr (ref envs.PodIP +:+ ":" +:+ FormatInt FrontendServicePort);
         env_value envs.RWMetaAddr meta; env_value envs.RWMetaAddrLegacy meta;
         env_value envs.RWPrometheusListenerAddr (any_addr FrontendMetricsPort)] ++
        (if isWebhookListenerEnabled f then [webhook_env] else []) ++ envsForTLS).

Definition envsForComputeArgs (cpuLimit memLimit : Z) : outcome (list EnvVar) :=
  advertiseAddr ← advertise_addr ComponentCompute ComputeServicePort;
  meta ← meta_url;
  mret ([env_value envs.RWConfigPath config_path;
         env_value envs.RWListenAddr (any_addr ComputeServicePort);
         env_value envs.RWAdvertiseAddr advertiseAddr;
         env_value envs.RWMetaAddr meta; env_value envs.RWMetaAddrLegacy meta;
         env_value envs.RWPrometheusListenerAddr (any_addr ComputeMetricsPort)] ++
        envsForResourceLimits cpuLimit memLimit).

Definition envsForCompactorArgs : outcome (list EnvVar) :=
  meta ← meta_url;
  mret [env_value envs.RWConfigPath config_path;
        env_value envs.RWListenAddr (any_addr CompactorServicePort);
        env_value envs.RWAdvertiseAddr (ref envs.PodIP +:+ ":" +:+ FormatInt CompactorServicePort);
        env_value envs.RWPrometheusListenerAddr (any_addr CompactorMetricsPort);
        env_value envs.RWMetaAddr meta; env_value envs.RWMetaAddrLegacy meta].

(** ** Definitions: the arguments of the standalone node *)

Definition argsForStandaloneMetaStore : list string :=
  "--backend $(RW_BACKEND)" ::
  match ms_Etcd (rws_MetaStore spec) with
  | Some etcd =>
      "--etcd-endpoints $(RW_ETCD_ENDPOINTS)" ::
      match etcd_Credentials etcd with
      | Some c => if bool_decide (etcdc_SecretName c = "") then []
                  else ["--etcd-auth"; "--etcd-username $(RW_ETCD_USERNAME)";
                        "--etcd-password $(RW_ETCD_PASSWORD)"]
      | None => []
      end
  | None => []
  end.

Definition argsForStandalone : list string :=
  ["--config-path=$(RW_CONFIG_PATH)";
   "--prometheus-listener-addr=" +:+ any_addr MetaMetricsPort;
   "--meta-opts=" +:+ Join
     (["--listen-addr " +:+ local_addr MetaServicePort;
       "--advertise-addr " +:+ local_addr MetaServicePort;
       "--dashboard-host " +:+ any_addr MetaDashboardPort;
       "--prometheus-host " +:+ any_addr MetaMetricsPort;
       "--state-store $(RW_STATE_STORE)"; "--data-directory $(RW_DATA_DIRECTORY)"] ++
      argsForStandaloneMetaStore) " ";
   "--compute-opts=" +:+ Join
     ["--listen-addr " +:+ local_addr ComputeServicePort;
      "--advertise-addr " +:+ local_addr ComputeServicePort;
      "--meta-address http://" +:+ local_addr MetaServicePort] " ";
   "--frontend-opts=" +:+ Join
     ["--listen-addr " +:+ any_addr FrontendServicePort;
      "--advertise-addr " +:+ local_addr FrontendServicePort;
      "--meta-addr http://" +:+ local_addr MetaServicePort] " ";
   "--compactor-opts=" +:+ Join
     ["--listen-addr " +:+ local_addr CompactorServicePort;
      "--advertise-addr " +:+ local_addr CompactorServicePort;
      "--meta-address http://" +:+ local_addr MetaServicePort] " "].

Definition argsForStandaloneV2 : list string :=
  ["--config-path=$(RW_CONFIG_PATH)";
   "--prometheus-listener-addr=" +:+ any_addr MetaMetricsPort;
   "--listen-addr=" +:+ any_addr FrontendServicePort].
End envs.
