(* ===== verification/FactoryPods.v ===== *)
(** * pkg/factory: the containers and pods *)

From S2P Require Import Prelude GoStrings GoPaths ApiTypes RisingWaveManager Workloads EnvSort.
From S2P Require Import FactoryBase FactoryEnvs.

(** [sort.Sort] of volumes, mounts and devices, all by a name: it is not stable. *)
Class NameSort := { sort_by : forall {T}, (T -> string) -> list T -> list T }.

(** The order of the elements by a name. *)
Definition by_name {T} (name : T -> string) (a b : T) : Prop := String.le (name a) (name b).

Class NameSortOk (N : NameSort) : Prop := {
  sort_by_perm {T} (name : T -> string) l : sort_by name l ≡ₚ l;
  sort_by_sorted {T} (name : T -> string) l : StronglySorted (by_name name) (sort_by name l);
}.

(** ** Definitions: the order of the lists of a pod *)

Section consistent.
Context `{H : Heap} `{N : NameSort}.

(** The sort always ends ([EnvSort.TopologicalSort]). *)
Definition sort_env (env : list EnvVar) : list EnvVar := default env (TopologicalSort env).

Definition sortSlicesInContainer (c : Container) : Container :=
  {| c_Name := c_Name c; c_Image := c_Image c; c_ImagePullPolicy := c_ImagePullPolicy c;
     c_Command := c_Command c; c_Args := c_Args c; c_EnvFrom := c_EnvFrom c;
     c_Env := sort_env (c_Env c); c_Ports := c_Ports c; c_Resources := c_Resources c;
     c_VolumeMounts := sort_by vm_Name (c_VolumeMounts c);
     c_VolumeDevices := sort_by vd_Name (c_VolumeDevices c); c_StartupProbe := c_StartupProbe c;
     c_LivenessProbe := c_LivenessProbe c; c_ReadinessProbe := c_ReadinessProbe c;
     c_Lifecycle := c_Lifecycle c; c_SecurityContext := c_SecurityContext c;
     c_Stdin := c_Stdin c; c_StdinOnce := c_StdinOnce c; c_TTY := c_TTY c |}.

(** The loop ranges over copies of the containers, whose slices are those of the pod. No pod
    of the operator has init containers. *)
Definition keepPodSpecConsistent (p : PodSpec) : PodSpec :=
  set_ps_Volumes (sort_by vol_Name (ps_Volumes p))
    (set_ps_Containers (sortSlicesInContainer <$> ps_Containers p) p).
End consistent.

(** ** Definitions: a pod from the template of a node group *)

(** The container of RisingWave: the component names it and sets it up. *)
Definition template_container (template : RisingWaveNodePodTemplate) : Container :=
  {| c_Name := ""; c_Image := pt_Image template;
     c_ImagePullPolicy := pt_ImagePullPolicy template; c_Command := []; c_Args := [];
     c_EnvFrom := pt_EnvFrom template; c_Env := pt_Env template; c_Ports := [];
     c_Resources := pt_Resources template; c_VolumeMounts := pt_VolumeMounts template;
     c_VolumeDevices := pt_VolumeDevices template; c_StartupProbe := None;
     c_LivenessProbe := None; c_ReadinessProbe := None; c_Lifecycle := None;
     c_SecurityContext := pt_ContainerSecurityContext template; c_Stdin := false;
     c_StdinOnce := false; c_TTY := false |}.

Definition newPodSpecFromNodeGroupTemplate (template : RisingWaveNodePodTemplate)
  : PodTemplateSpec :=
  let s := pt_Spec template in
  {| pts_Labels := pom_Labels (pt_ObjectMeta template);
     pts_Annotations := pom_Annotations (pt_ObjectMeta template);
     pts_Spec :=
       {| ps_Containers :=
            template_container template :: pt_AdditionalContainers template;
          ps_EnableServiceLinks := Some false; ps_Volumes := pt_Volumes template;
          ps_ReadinessGates := [];
          ps_Fields :=
            {| pf_ActiveDeadlineSeconds := tps_ActiveDeadlineSeconds s;
               pf_TerminationGracePeriodSeconds := tps_TerminationGracePeriodSeconds s;
               pf_DNSPolicy := tps_DNSPolicy s; pf_NodeSelector := tps_NodeSelector s;
               pf_ServiceAccountName := tps_ServiceAccountName s;
               pf_AutomountServiceAccountToken := tps_AutomountServiceAccountToken s;
               pf_HostPID := tps_HostPID s; pf_HostIPC := tps_HostIPC s;
               pf_ShareProcessNamespace := tps_ShareProcessNamespace s;
               pf_SecurityContext := tps_SecurityContext s;
               pf_ImagePullSecrets := tps_ImagePullSecrets s; pf_Affinity := tps_Affinity s;
               pf_SchedulerName := tps_SchedulerName s; pf_Tolerations := tps_Tolerations s;
               pf_HostAliases := tps_HostAliases s; pf_PriorityClassName := tps_PriorityClassName s;
               pf_Priority := tps_Priority s; pf_DNSConfig := tps_DNSConfig s;
               pf_RuntimeClassName := tps_RuntimeClassName s;
               pf_PreemptionPolicy := tps_PreemptionPolicy s;
               pf_TopologySpreadConstraints := tps_TopologySpreadConstraints s;
               pf_SetHostnameAsFQDN := tps_SetHostnameAsFQDN s; pf_OS := tps_OS s;
               pf_HostUsers := tps_HostUsers s |} |} |}.

(** ** Definitions: what all the containers have *)

(** A probe of the service port. *)
Definition service_probe (delay period timeout failures : Z) : option Probe :=
  Some (TCPSocketProbe delay period timeout failures (StrVal PortService)).

(** The variables every container has; [component] gives the log level. *)
Definition basic_envs `{FactoryLib} (component : RisingWaveComponent) (limits : gmap string string)
  : list EnvVar :=
  [env_value envs.RustLog (comp_LogLevel component); env_field envs.PodIP "status.podIP";
   env_field envs.PodName "metadata.name"; env_field envs.PodNamespace "metadata.namespace";
   env_value envs.RustMinStack (FormatInt (Z.shiftl 4 20))] ++
  (if default false (comp_DisallowPrintStackTraces component) then []
   else [env_value envs.RustBacktrace "full"]) ++
  match limits !! "cpu" with
  | Some cpuLimit => [env_value envs.RWWorkerThreads (FormatInt (Z.max (cpu_Value cpuLimit) 4))]
  | None => []
  end.

Definition basicSetupRisingWaveContainer `{FactoryLib} (c : Container)
    (component : option RisingWaveComponent) : Container :=
  let component := default {| comp_LogLevel := "INFO"; comp_DisallowPrintStackTraces := None;
                              comp_NodeGroups := [] |} component in
  {| c_Name := c_Name c; c_Image := c_Image c; c_ImagePullPolicy := c_ImagePullPolicy c;
     c_Command := [risingwaveExecutablePath]; c_Args := c_Args c; c_EnvFrom := c_EnvFrom c;
     c_Env := mergeAll same_name (c_Env c) (basic_envs component (res_Limits (c_Resources c)));
     c_Ports := c_Ports c; c_Resources := c_Resources c; c_VolumeMounts := c_VolumeMounts c;
     c_VolumeDevices := c_VolumeDevices c; c_StartupProbe := service_probe 5 5 5 12;
     c_LivenessProbe := service_probe 2 10 0 0; c_ReadinessProbe := service_probe 2 10 0 0;
     c_Lifecycle := c_Lifecycle c; c_SecurityContext := c_SecurityContext c; c_Stdin := false;
     c_StdinOnce := false; c_TTY := false |}.

(** The fields the setup of a component writes. *)
Definition set_component (name : string) (command args : list string) (lifecycle : option Lifecycle)
    (ports : list ContainerPort) (env : list EnvVar) (mounts : list VolumeMount) (c : Container)
  : Container :=
  {| c_Name := name; c_Image := c_Image c; c_ImagePullPolicy := c_ImagePullPolicy c;
     c_Command := command; c_Args := args; c_EnvFrom := c_EnvFrom c; c_Env := env;
     c_Ports := ports; c_Resources := c_Resources c; c_VolumeMounts := mounts;
     c_VolumeDevices := c_VolumeDevices c; c_StartupProbe := c_StartupProbe c;
     c_LivenessProbe := c_LivenessProbe c; c_ReadinessProbe := c_ReadinessProbe c;
     c_Lifecycle := lifecycle; c_SecurityContext := c_SecurityContext c; c_Stdin := c_Stdin c;
     c_StdinOnce := c_StdinOnce c; c_TTY := c_TTY c |}.

Definition tcp_port (name : string) (port : Z) : ContainerPort :=
  {| cp_Name := name; cp_Protocol := "TCP"; cp_ContainerPort := port |}.

(** The limits of a container, zero where there is none. *)
Definition cpu_limit `{FactoryLib} (c : Container) : Z :=
  from_option cpu_Ceil 0%Z (res_Limits (c_Resources c) !! "cpu").
Definition memory_limit `{FactoryLib} (c : Container) : Z :=
  from_option memory_AsInt64 0%Z (res_Limits (c_Resources c) !! "memory").

Definition volumeMountForConfig : VolumeMount :=
  {| vm_Name := risingWaveConfigVolume; vm_ReadOnly := true;
     vm_MountPath := risingwaveConfigMountPath; vm_Options := "" |}.

Section pods.
Context (f : RisingWaveObjectFactory) `{L : FactoryLib}.
Let rw : RisingWave := f_risingwave f.
Let spec : RisingWaveSpec := rw_Spec rw.

(** ** Definitions: ports *)

(** The port of the webhook listener, where it is enabled. *)
Definition webhook_ports : list ContainerPort :=
  if isWebhookListenerEnabled f then [tcp_port PortHTTP FrontendWebhookPort] else [].

Definition portsForMetaContainer : list ContainerPort :=
  [tcp_port PortService MetaServicePort; tcp_port PortMetrics MetaMetricsPort;
   tcp_port PortDashboard MetaDashboardPort].
Definition portsForFrontendContainer : list ContainerPort :=
  [tcp_port PortService FrontendServicePort; tcp_port PortMetrics FrontendMetricsPort] ++
  webhook_ports.
Definition portsForComputeContainer : list ContainerPort :=
  [tcp_port PortService ComputeServicePort; tcp_port PortMetrics ComputeMetricsPort].
Definition portsForCompactorContainer : list ContainerPort :=
  [tcp_port PortService CompactorServicePort; tcp_port PortMetrics CompactorMetricsPort].
Definition portsForStandaloneContainer : list ContainerPort :=
  [tcp_port PortMetrics MetaMetricsPort; tcp_port PortService FrontendServicePort;
   tcp_port PortDashboard MetaDashboardPort] ++ webhook_ports.

(** ** Definitions: the container of each component

    The setup of a component: the volumes of the pod and its container, before and after. *)
Definition setup : Type := list Volume -> Container -> outcome (list Volume * Container).

(** The mount of the configuration takes the place of one at its path. *)
Definition with_config_mount (mounts : list VolumeMount) : list VolumeMount :=
  mergeListWhenKeyEquals mounts volumeMountForConfig same_path.

(** The volume and the mount of the certificates, where TLS is on. *)
Definition with_tls (volumes : list Volume) (mounts : list VolumeMount)
  : list Volume * list VolumeMount :=
  match volumeAndVolumeMountForTLS f with
  | Some (vol, volMount) => (mergeListWhenKeyEquals volumes vol same_volume,
                             mergeListWhenKeyEquals mounts volMount same_path)
  | None => (volumes, mounts)
  end.

Definition setupMetaContainer : setup := fun volumes c =>
  args ← envsForMetaArgs f (c_Image c);
  metaStore ← envsForMetaStore f;
  let mergedVars := mergeAll same_name args (c_Env c) in
  let env := mergeAll same_name (mergeAll same_name mergedVars (envsForStateStore f)) metaStore in
  let '(licenseVolumes, licenseMounts) := volumeAndVolumeMountForLicenseKey f in
  Done (volumes ++ licenseVolumes,
        set_component "meta" (c_Command c) ["meta-node"] (c_Lifecycle c) portsForMetaContainer env
          (with_config_mount (c_VolumeMounts c) ++ licenseMounts) c).

(** The frontend also serves batch queries in the embedded mode. *)
Definition embedded_args : list string :=
  ["standalone";
   "--compute-opts=--listen-addr " +:+ any_addr ComputeServicePort +:+ " --advertise-addr " +:+
     ref envs.PodIP +:+ ":" +:+ FormatInt ComputeServicePort +:+ " --role=serving";
   "--frontend-opts=--listen-addr " +:+ any_addr FrontendServicePort +:+ " --advertise-addr " +:+
     ref envs.PodIP +:+ ":" +:+ FormatInt FrontendServicePort].
Definition unregister_worker : Lifecycle :=
  PreStopExec ["bash"; "-c"; risingwaveExecutablePath +:+
    " ctl meta unregister-workers --yes --workers ${" +:+ envs.PodIP +:+ "}:" +:+
    FormatInt ComputeServicePort].

Definition setupFrontendContainer : setup := fun volumes c =>
  args ← envsForFrontendArgs f;
  let embedded := isEmbeddedServingModeEnabled f in
  let generated :=
    if embedded
    then args ++ envsForResourceLimits (cpu_limit c) (memory_limit c) ++ envsForStateStore f
    else args in
  let '(volumes, mounts) := with_tls volumes (c_VolumeMounts c) in
  Done (volumes,
        set_component "frontend" (c_Command c) (if embedded then embedded_args else ["frontend-node"])
          (if embedded then Some unregister_worker else c_Lifecycle c) portsForFrontendContainer
          (mergeAll same_name generated (c_Env c)) (with_config_mount mounts) c).

Definition setupComputeContainer : setup := fun volumes c =>
  args ← envsForComputeArgs f (cpu_limit c) (memory_limit c);
  Done (volumes,
        set_component "compute" (c_Command c)
          ("compute-node" :: (if isEmbeddedServingModeEnabled f then ["--role=streaming"] else []))
          (c_Lifecycle c) portsForComputeContainer
          (mergeAll same_name (mergeAll same_name args (c_Env c)) (envsForStateStore f))
          (with_config_mount (c_VolumeMounts c)) c).

Definition setupCompactorContainer : setup := fun volumes c =>
  args ← envsForCompactorArgs f;
  Done (volumes,
        set_component "compactor" (c_Command c) ["compactor-node"] (c_Lifecycle c)
          portsForCompactorContainer
          (mergeAll same_name (mergeAll same_name args (c_Env c)) (envsForStateStore f))
          (with_config_mount (c_VolumeMounts c)) c).

(** The subcommand: by the mode, or by the version of the image. *)
Definition use_v2_style : bool :=
  let imageVersion := GetVersionFromImage (rws_Image spec) in
  if bool_decide (rws_StandaloneMode spec = 0)%Z then
    forallb (fun p => negb (HasPrefix imageVersion p)) ["v1.3."; "v1.4."; "v1.5."; "v1.6."; "v1.7."]
  else bool_decide (rws_StandaloneMode spec = 2)%Z.

Definition setupStandaloneContainer : setup := fun volumes c =>
  core ← coreEnvsForMeta f (c_Image c);
  metaStore ← envsForMetaStore f;
  let env := mergeAll same_name (c_Env c ++ envsForTLS f)
               (env_value envs.RWConfigPath config_path :: core ++
                env_value envs.RWMetaAddr ("http://" +:+ local_addr MetaServicePort) ::
                envsForStateStore f ++ metaStore) in
  let '(volumes, mounts) := with_tls volumes (c_VolumeMounts c) in
  let '(licenseVolumes, licenseMounts) := volumeAndVolumeMountForLicenseKey f in
  Done (volumes ++ licenseVolumes,
        set_component "standalone"
          [risingwaveExecutablePath; if use_v2_style then "single-node" else "standalone"]
          (if use_v2_style then argsForStandaloneV2 else argsForStandalone f) (c_Lifecycle c)
          portsForStandaloneContainer
          (env ++ (if isWebhookListenerEnabled f then [webhook_env] else []))
          (with_config_mount mounts ++ licenseMounts) c).

(** ** Definitions: the pod of a node group *)

Definition risingWaveConfigVolume (nodeGroup : RisingWaveNodeGroup) : outcome Volume :=
  let configSrc := default (rws_Configuration spec) (ng_Configuration nodeGroup) in
  match nc_ConfigMap configSrc, nc_Secret configSrc with
  | Some cm, _ =>
      Done {| vol_Name := FactoryBase.risingWaveConfigVolume;
              vol_Source := ConfigMapVolume (cm_Name cm) [(cm_Key cm, risingwaveConfigFileName)]
                              (cm_Optional cm) |}
  | None, Some s =>
      Done {| vol_Name := FactoryBase.risingWaveConfigVolume;
              vol_Source := SecretVolume (csec_Name s) [(csec_Key s, risingwaveConfigFileName)]
                              (csec_Optional s) |}
  | None, None =>
      config ← componentName f ComponentConfig "";
      mret {| vol_Name := FactoryBase.risingWaveConfigVolume;
              vol_Source := ConfigMapVolume config
                              [(risingWaveConfigMapKey, risingwaveConfigFileName)] None |}
  end.

Section template.
Context `{H : Heap} `{N : NameSort}.

(** The resource group of a compute container is its node group, unless it names one. *)
Definition with_resource_group (component group : string) (c : Container) : Container :=
  if bool_decide (component = ComponentCompute /\ group <> "") &&
     negb (existsb (fun e => bool_decide (env_Name e = envs.RWResourceGroup)) (c_Env c))
  then set_c_Env (c_Env c ++ [env_value envs.RWResourceGroup group]) c
  else c.

Definition buildPodTemplateFromNodeGroup (component : string) (nodeGroup : RisingWaveNodeGroup)
    (setupRisingWaveContainer : setup) : outcome PodTemplateSpec :=
  let podTemplate := newPodSpecFromNodeGroupTemplate (ng_Template nodeGroup) in
  let labels := mergeMap (mergeMap (pts_Labels podTemplate)
                  (podLabelsOrSelectorsForComponentGroup f component (ng_Name nodeGroup)))
                  (f_inheritedLabels f) in
  let annotations :=
    match ng_RestartAt nodeGroup with
    | Some t => mergeMap (pts_Annotations podTemplate) {[ AnnotationRestartAt := format_UTC t ]}
    | None => pts_Annotations podTemplate
    end in
  configVolume ← risingWaveConfigVolume nodeGroup;
  let p := pts_Spec podTemplate in
  let volumes := mergeListWhenKeyEquals (ps_Volumes p) configVolume same_volume in
  match ps_Containers p with
  | [] => Panic "index out of range"
  | c :: additional =>
      r ← setupRisingWaveContainer volumes (with_resource_group component (ng_Name nodeGroup) c);
      mret {| pts_Labels := labels; pts_Annotations := annotations;
              pts_Spec := keepPodSpecConsistent
                            (set_ps_Volumes r.1 (set_ps_Containers (r.2 :: additional) p)) |}
  end.

Definition convertStandaloneSpecIntoComponent : RisingWaveComponent :=
  match cps_Standalone (rws_Components spec) with
  | Some s => {| comp_LogLevel := sa_LogLevel s;
                 comp_DisallowPrintStackTraces := sa_DisallowPrintStackTraces s;
                 comp_NodeGroups := [] |}
  | None => {| comp_LogLevel := "INFO"; comp_DisallowPrintStackTraces := None;
               comp_NodeGroups := [] |}
  end.

(** The setup of a component and the settings of its containers. *)
Definition component_setup (component : string) : outcome (setup * RisingWaveComponent) :=
  let cs := rws_Components spec in
  if bool_decide (component = ComponentMeta) then Done (setupMetaContainer, cps_Meta cs)
  else if bool_decide (component = ComponentFrontend) then
    Done (setupFrontendContainer, cps_Frontend cs)
  else if bool_decide (component = ComponentCompactor) then
    Done (setupCompactorContainer, cps_Compactor cs)
  else if bool_decide (component = ComponentCompute) then
    Done (setupComputeContainer, cps_Compute cs)
  else if bool_decide (component = ComponentStandalone) then
    Done (setupStandaloneContainer, convertStandaloneSpecIntoComponent)
  else Panic "invalid component".

Definition newPodTemplateSpecFromNodeGroupByComponent (component : string)
    (nodeGroup : RisingWaveNodeGroup) : outcome PodTemplateSpec :=
  modifier ← component_setup component;
  buildPodTemplateFromNodeGroup component nodeGroup
    (fun volumes c => modifier.1 volumes (basicSetupRisingWaveContainer c (Some modifier.2))).
End template.
End pods.
