(* ===== verification/FactoryObjects.v ===== *)
(** * pkg/factory: the objects

    Services, workloads, the configuration and the service monitor, each for a RisingWave as
    it was read; [Factory] makes them the [ObjectFactory] of the manager's actions. *)

From S2P Require Import Prelude GoStrings GoPaths ApiTypes RisingWaveManager Workloads ManagerImpl EnvSort.
From S2P Require Import FactoryBase FactoryEnvs FactoryPods.

(** ** The specifications of the objects *)

Record ServicePort := {
  svp_Name : string;
  svp_Protocol : string;
  svp_Port : Z;
  svp_TargetPort : IntOrString;
}.

Record ServiceSpec := {
  ssp_Type : string;
  ssp_Selector : gmap string string;
  ssp_Ports : list ServicePort;
  ssp_ClusterIP : string;
}.

(** The update strategies; the types of OpenKruise are its constants, none is the zero one. *)
Record RollingUpdateDeployment := { rud_MaxUnavailable : option IntOrString }.
Record DeploymentStrategy := { ds_Type : string; ds_RollingUpdate : option RollingUpdateDeployment }.

Inductive KruiseUpdateType := RecreateUpdate | InPlaceIfPossibleUpdate | InPlaceOnlyUpdate.

Record CloneSetUpdateStrategy := {
  cus_Type : option KruiseUpdateType;
  cus_Partition : option IntOrString;
  cus_MaxUnavailable : option IntOrString;
  cus_MaxSurge : option IntOrString;
  cus_InPlaceUpdateStrategy : option Z;
}.

Record RollingUpdateStatefulSet := { rus_MaxUnavailable : option IntOrString }.
Record StatefulSetUpdateStrategy := {
  sus_Type : string;
  sus_RollingUpdate : option RollingUpdateStatefulSet;
}.

Record RollingUpdateAdvanced := {
  rua_MaxUnavailable : option IntOrString;
  rua_Partition : option Z;
  rua_PodUpdatePolicy : option KruiseUpdateType;
  rua_InPlaceUpdateStrategy : option Z;
}.
Record AdvancedUpdateStrategy := {
  aus_Type : string;
  aus_RollingUpdate : option RollingUpdateAdvanced;
}.

Record DeploymentSpec := {
  dep_Selector : gmap string string;
  dep_Template : PodTemplateSpec;
  dep_Strategy : DeploymentStrategy;
  dep_MinReadySeconds : Z;
  dep_ProgressDeadlineSeconds : option Z;
}.

Record CloneSetSpec := {
  cls_Selector : gmap string string;
  cls_Template : PodTemplateSpec;
  cls_UpdateStrategy : CloneSetUpdateStrategy;
  cls_MinReadySeconds : Z;
}.

(** Of a stateful set of Kubernetes and of OpenKruise, by the type of the strategy. *)
Record StatefulSetSpec (U : Type) := {
  sts_ServiceName : string;
  sts_UpdateStrategy : U;
  sts_Selector : gmap string string;
  sts_Template : PodTemplateSpec;
  sts_PodManagementPolicy : string;
  sts_MinReadySeconds : Z;
  sts_VolumeClaimTemplates : list PersistentVolumeClaim;
  sts_RetentionPolicy : option RetentionPolicy;
}.

Record RelabelConfig := { rc_SourceLabels : list string; rc_Action : string; rc_Regex : string }.
Record Endpoint := {
  ep_Port : string;
  ep_Interval : string;
  ep_ScrapeTimeout : string;
  ep_MetricRelabelConfigs : list RelabelConfig;
}.
(** The selector has one requirement: the label [sm_Key] is one of [sm_Values]. *)
Record ServiceMonitorSpec := {
  sm_JobLabel : string;
  sm_TargetLabels : list string;
  sm_Endpoints : list Endpoint;
  sm_Key : string;
  sm_Values : list string;
}.

Inductive ObjectSpec :=
| ServiceObject (s : ServiceSpec)
| ConfigMapObject (data : gmap string string)
| ServiceMonitorObject (s : ServiceMonitorSpec)
| DeploymentObject (s : DeploymentSpec)
| CloneSetObject (s : CloneSetSpec)
| StatefulSetObject (s : StatefulSetSpec StatefulSetUpdateStrategy)
| AdvancedStatefulSetObject (s : StatefulSetSpec AdvancedUpdateStrategy).

(** ** Definitions: update strategies *)

Definition rollingUpdateOrDefault (rollingUpdate : option RisingWaveNodeGroupRollingUpdate)
  : RisingWaveNodeGroupRollingUpdate :=
  default {| ru_MaxUnavailable := None; ru_Partition := None; ru_MaxSurge := None |} rollingUpdate.

Definition buildUpgradeStrategyForDeployment (s : RisingWaveNodeGroupUpgradeStrategy)
  : DeploymentStrategy :=
  if bool_decide (us_Type s = RisingWaveUpgradeStrategyTypeRollingUpdate) then
    {| ds_Type := "RollingUpdate";
       ds_RollingUpdate := Some {| rud_MaxUnavailable :=
         ru_MaxUnavailable (rollingUpdateOrDefault (us_RollingUpdate s)) |} |}
  else if bool_decide (us_Type s = RisingWaveUpgradeStrategyTypeRecreate) then
    {| ds_Type := "Recreate"; ds_RollingUpdate := None |}
  else {| ds_Type := ""; ds_RollingUpdate := None |}.

(** The type of OpenKruise for a type of strategy, if it has one. *)
Definition kruise_type (type : string) : option KruiseUpdateType :=
  if bool_decide (type = RisingWaveUpgradeStrategyTypeRecreate) then Some RecreateUpdate
  else if bool_decide (type = RisingWaveUpgradeStrategyTypeInPlaceIfPossible) then
    Some InPlaceIfPossibleUpdate
  else if bool_decide (type = RisingWaveUpgradeStrategyTypeInPlaceOnly) then Some InPlaceOnlyUpdate
  else None.

Definition buildUpgradeStrategyForCloneSet (s : RisingWaveNodeGroupUpgradeStrategy)
  : CloneSetUpdateStrategy :=
  let r := rollingUpdateOrDefault (us_RollingUpdate s) in
  match kruise_type (us_Type s) with
  | Some t => {| cus_Type := Some t; cus_Partition := ru_Partition r;
                 cus_MaxUnavailable := ru_MaxUnavailable r; cus_MaxSurge := ru_MaxSurge r;
                 cus_InPlaceUpdateStrategy := us_InPlaceUpdateStrategy s |}
  | None => {| cus_Type := None; cus_Partition := None; cus_MaxUnavailable := None;
               cus_MaxSurge := None; cus_InPlaceUpdateStrategy := None |}
  end.

Definition buildUpgradeStrategyForStatefulSet (s : RisingWaveNodeGroupUpgradeStrategy)
  : StatefulSetUpdateStrategy :=
  if bool_decide (us_Type s = RisingWaveUpgradeStrategyTypeRollingUpdate) then
    {| sus_Type := "RollingUpdate";
       sus_RollingUpdate := Some {| rus_MaxUnavailable :=
         ru_MaxUnavailable (rollingUpdateOrDefault (us_RollingUpdate s)) |} |}
  else if bool_decide (us_Type s = RisingWaveUpgradeStrategyTypeRecreate) then
    {| sus_Type := "RollingUpdate";
       sus_RollingUpdate := Some {| rus_MaxUnavailable := Some (StrVal "100%") |} |}
  else {| sus_Type := ""; sus_RollingUpdate := None |}.

(** The partition of a stateful set of OpenKruise is a number; the sign of a percentage is
    dropped. *)
Definition partition_number (p : option IntOrString) : outcome (option Z) :=
  match p with
  | None => Done None
  | Some (IntVal n) => Done (Some n)
  | Some (StrVal s) =>
      match Atoi (ReplaceAll_char s "%"%char "") with
      | Some n => Done (Some (int32 n))
      | None => Panic "invalid syntax"
      end
  end.

Definition buildUpgradeStrategyForAdvancedStatefulSet (s : RisingWaveNodeGroupUpgradeStrategy)
  : outcome AdvancedUpdateStrategy :=
  let r := rollingUpdateOrDefault (us_RollingUpdate s) in
  partition ← partition_number (ru_Partition r);
  mret match kruise_type (us_Type s) with
       | Some t =>
           {| aus_Type := "RollingUpdate";
              aus_RollingUpdate := Some
                {| rua_MaxUnavailable := ru_MaxUnavailable r; rua_Partition := partition;
                   rua_PodUpdatePolicy := Some t;
                   rua_InPlaceUpdateStrategy := us_InPlaceUpdateStrategy s |} |}
       | None => {| aus_Type := ""; aus_RollingUpdate := None |}
       end.

(** ** Definitions: workloads *)

Definition buildPersistentVolumeClaims (claims : list ClaimTemplate) : list PersistentVolumeClaim :=
  (fun claim => {| pvc_Name := ct_Name claim; pvc_Labels := ct_Labels claim;
                   pvc_Annotations := ct_Annotations claim; pvc_Finalizers := ct_Finalizers claim;
                   pvc_Spec := ct_Spec claim |}) <$> claims.

Definition convertAppsV1StatefulSetPersistentVolumeClaimRetentionPolicyToKruise
    (retentionPolicy : option RetentionPolicy) : option RetentionPolicy :=
  (fun p => {| rp_WhenDeleted := rp_WhenDeleted p; rp_WhenScaled := rp_WhenScaled p |})
    <$> retentionPolicy.

(** The status of an object that does not exist yet. *)
Definition zero_workload_status : WorkloadStatus :=
  {| ws_ObservedGeneration := 0; ws_Replicas := 0; ws_ReadyReplicas := 0; ws_UpdatedReplicas := 0;
     ws_AvailableReplicas := 0; ws_Conditions := [] |}.

Definition new_object (k : object_kind) (m : ObjectMeta) (replicas : option Z) (s : ObjectSpec)
  : Object ObjectSpec :=
  {| o_Kind := k; o_Meta := m; o_ResourceVersion := ""; o_SpecReplicas := replicas;
     o_Status := zero_workload_status; o_Spec := s |}.

(** The readiness gate of the in-place updates. *)
Definition with_readiness_gate `{FactoryLib} (t : PodTemplateSpec) : PodTemplateSpec :=
  {| pts_Labels := pts_Labels t; pts_Annotations := pts_Annotations t;
     pts_Spec := set_ps_ReadinessGates (ps_ReadinessGates (pts_Spec t) ++ [InPlaceUpdateReady])
                   (pts_Spec t) |}.

Section objects.
Context (f : RisingWaveObjectFactory) `{L : FactoryLib} `{C : ControllerReference ObjectSpec}.
Context `{H : Heap} `{N : NameSort}.
Let rw : RisingWave := f_risingwave f.
Let spec : RisingWaveSpec := rw_Spec rw.
Let name : string := om_Name (rw_Meta rw).
Abbreviation Obj := (Object ObjectSpec).

Definition newDeployment (component : string) (nodeGroup : RisingWaveNodeGroup)
    (template : PodTemplateSpec) : outcome Obj :=
  m ← getObjectMetaForComponentGroupLevelResources f component (ng_Name nodeGroup) true;
  mret (new_object KDeployment m (Some (ng_Replicas nodeGroup))
    (DeploymentObject
      {| dep_Selector := podLabelsOrSelectorsForComponentGroup f component (ng_Name nodeGroup);
         dep_Template := template;
         dep_Strategy := buildUpgradeStrategyForDeployment (ng_UpgradeStrategy nodeGroup);
         dep_MinReadySeconds := ng_MinReadySeconds nodeGroup;
         dep_ProgressDeadlineSeconds := ng_ProgressDeadlineSeconds nodeGroup |})).

Definition newCloneSet (component : string) (nodeGroup : RisingWaveNodeGroup)
    (template : PodTemplateSpec) : outcome Obj :=
  m ← getObjectMetaForComponentGroupLevelResources f component (ng_Name nodeGroup) true;
  mret (new_object KCloneSet m (Some (ng_Replicas nodeGroup))
    (CloneSetObject
      {| cls_Selector := podLabelsOrSelectorsForComponentGroup f component (ng_Name nodeGroup);
         cls_Template := with_readiness_gate template;
         cls_UpdateStrategy := buildUpgradeStrategyForCloneSet (ng_UpgradeStrategy nodeGroup);
         cls_MinReadySeconds := ng_MinReadySeconds nodeGroup |})).

Definition newStatefulSet (component : string) (nodeGroup : RisingWaveNodeGroup)
    (template : PodTemplateSpec) : outcome Obj :=
  m ← getObjectMetaForComponentGroupLevelResources f component (ng_Name nodeGroup) true;
  serviceName ← componentName f component "";
  mret (new_object KStatefulSet m (Some (ng_Replicas nodeGroup))
    (StatefulSetObject
      {| sts_ServiceName := serviceName;
         sts_UpdateStrategy := buildUpgradeStrategyForStatefulSet (ng_UpgradeStrategy nodeGroup);
         sts_Selector := podLabelsOrSelectorsForComponentGroup f component (ng_Name nodeGroup);
         sts_Template := template; sts_PodManagementPolicy := "Parallel";
         sts_MinReadySeconds := ng_MinReadySeconds nodeGroup;
         sts_VolumeClaimTemplates :=
           buildPersistentVolumeClaims (ng_VolumeClaimTemplates nodeGroup);
         sts_RetentionPolicy := ng_PersistentVolumeClaimRetentionPolicy nodeGroup |})).

Definition newAdvancedStatefulSet (component : string) (nodeGroup : RisingWaveNodeGroup)
    (template : PodTemplateSpec) : outcome Obj :=
  m ← getObjectMetaForComponentGroupLevelResources f component (ng_Name nodeGroup) true;
  serviceName ← componentName f component "";
  strategy ← buildUpgradeStrategyForAdvancedStatefulSet (ng_UpgradeStrategy nodeGroup);
  mret (new_object KAdvancedStatefulSet m (Some (ng_Replicas nodeGroup))
    (AdvancedStatefulSetObject
      {| sts_ServiceName := serviceName; sts_UpdateStrategy := strategy;
         sts_Selector := podLabelsOrSelectorsForComponentGroup f component (ng_Name nodeGroup);
         sts_Template := with_readiness_gate template; sts_PodManagementPolicy := "Parallel";
         sts_MinReadySeconds := 0;
         sts_VolumeClaimTemplates :=
           buildPersistentVolumeClaims (ng_VolumeClaimTemplates nodeGroup);
         sts_RetentionPolicy :=
           convertAppsV1StatefulSetPersistentVolumeClaimRetentionPolicyToKruise
             (ng_PersistentVolumeClaimRetentionPolicy nodeGroup) |})).

(** The image of the cluster, unless the group has its own. *)
Definition overrideFieldsOfNodeGroup (g : RisingWaveNodeGroup) : RisingWaveNodeGroup :=
  let t := ng_Template g in
  {| ng_Name := ng_Name g; ng_Replicas := ng_Replicas g; ng_RestartAt := ng_RestartAt g;
     ng_Configuration := ng_Configuration g; ng_UpgradeStrategy := ng_UpgradeStrategy g;
     ng_MinReadySeconds := ng_MinReadySeconds g;
     ng_VolumeClaimTemplates := ng_VolumeClaimTemplates g;
     ng_PersistentVolumeClaimRetentionPolicy := ng_PersistentVolumeClaimRetentionPolicy g;
     ng_ProgressDeadlineSeconds := ng_ProgressDeadlineSeconds g;
     ng_Template :=
       {| pt_ObjectMeta := pt_ObjectMeta t;
          pt_Image := if bool_decide (pt_Image t = "") then rws_Image spec else pt_Image t;
          pt_EnvFrom := pt_EnvFrom t; pt_Env := pt_Env t; pt_Resources := pt_Resources t;
          pt_VolumeMounts := pt_VolumeMounts t; pt_VolumeDevices := pt_VolumeDevices t;
          pt_ImagePullPolicy := pt_ImagePullPolicy t;
          pt_ContainerSecurityContext := pt_ContainerSecurityContext t;
          pt_Volumes := pt_Volumes t; pt_AdditionalContainers := pt_AdditionalContainers t;
          pt_Spec := pt_Spec t |} |}.

(** A workload: the pod of the group, the builder of the kind, the reference to the owner. *)
Definition build_workload (component : string) (nodeGroup : RisingWaveNodeGroup)
    (builder : string -> RisingWaveNodeGroup -> PodTemplateSpec -> outcome Obj) : outcome Obj :=
  let nodeGroup := overrideFieldsOfNodeGroup nodeGroup in
  template ← newPodTemplateSpecFromNodeGroupByComponent f component nodeGroup;
  workloadObj ← builder component nodeGroup template;
  mustSetControllerReference rw workloadObj.

Definition newWorkloadObjectForComponentNodeGroup (component group : string)
    (builder : string -> RisingWaveNodeGroup -> PodTemplateSpec -> outcome Obj) : outcome Obj :=
  nodeGroup ← GetNodeGroup rw component group;
  match nodeGroup with
  | None => Panic "nil pointer dereference"
  | Some nodeGroup => build_workload component nodeGroup builder
  end.

(** The standalone node, as a node group without a name. *)
Definition convertStandaloneIntoNodeGroup : RisingWaveNodeGroup :=
  match cps_Standalone (rws_Components spec) with
  | None => simple_group "" 1
  | Some s =>
      {| ng_Name := ""; ng_Replicas := sa_Replicas s; ng_RestartAt := sa_RestartAt s;
         ng_Configuration := None; ng_UpgradeStrategy := sa_UpgradeStrategy s;
         ng_MinReadySeconds := sa_MinReadySeconds s;
         ng_VolumeClaimTemplates := sa_VolumeClaimTemplates s;
         ng_PersistentVolumeClaimRetentionPolicy := sa_PersistentVolumeClaimRetentionPolicy s;
         ng_ProgressDeadlineSeconds := sa_ProgressDeadlineSeconds s; ng_Template := sa_Template s |}
  end.

Definition NewMetaStatefulSet (group : string) : outcome Obj :=
  newWorkloadObjectForComponentNodeGroup ComponentMeta group newStatefulSet.
Definition NewMetaAdvancedStatefulSet (group : string) : outcome Obj :=
  newWorkloadObjectForComponentNodeGroup ComponentMeta group newAdvancedStatefulSet.
Definition NewFrontendDeployment (group : string) : outcome Obj :=
  newWorkloadObjectForComponentNodeGroup ComponentFrontend group newDeployment.
Definition NewFrontendCloneSet (group : string) : outcome Obj :=
  newWorkloadObjectForComponentNodeGroup ComponentFrontend group newCloneSet.
Definition NewCompactorDeployment (group : string) : outcome Obj :=
  newWorkloadObjectForComponentNodeGroup ComponentCompactor group newDeployment.
Definition NewCompactorCloneSet (group : string) : outcome Obj :=
  newWorkloadObjectForComponentNodeGroup ComponentCompactor group newCloneSet.
Definition NewComputeStatefulSet (group : string) : outcome Obj :=
  newWorkloadObjectForComponentNodeGroup ComponentCompute group newStatefulSet.
Definition NewComputeAdvancedStatefulSet (group : string) : outcome Obj :=
  newWorkloadObjectForComponentNodeGroup ComponentCompute group newAdvancedStatefulSet.
Definition NewStandaloneStatefulSet : outcome Obj :=
  build_workload ComponentStandalone convertStandaloneIntoNodeGroup newStatefulSet.
Definition NewStandaloneAdvancedStatefulSet : outcome Obj :=
  build_workload ComponentStandalone convertStandaloneIntoNodeGroup newAdvancedStatefulSet.

(** ** Definitions: services *)

(** A port of a service, which leads to the port of the pod of the same name. *)
Definition service_port (n : string) (port : Z) : ServicePort :=
  {| svp_Name := n; svp_Protocol := "TCP"; svp_Port := port; svp_TargetPort := StrVal n |}.

Definition newService (component serviceType clusterIP : string) (ports : list ServicePort)
  : outcome Obj :=
  m ← getObjectMetaForComponentLevelResources f component true;
  mret (new_object KService m None
    (ServiceObject {| ssp_Type := serviceType;
                      ssp_Selector := podLabelsOrSelectorsForComponent f component;
                      ssp_Ports := ports; ssp_ClusterIP := clusterIP |})).

(** The labels and annotations the user adds to a service. *)
Definition add_metadata (p : PartialObjectMeta) (o : Obj) : Obj :=
  let m := o_Meta o in
  {| o_Kind := o_Kind o;
     o_Meta := {| om_Name := om_Name m; om_Namespace := om_Namespace m; om_UID := om_UID m;
                  om_Generation := om_Generation m;
                  om_Labels := mergeMap (om_Labels m) (pom_Labels p);
                  om_Annotations := mergeMap (om_Annotations m) (pom_Annotations p);
                  om_Finalizers := om_Finalizers m; om_Deleted := om_Deleted m |};
     o_ResourceVersion := o_ResourceVersion o; o_SpecReplicas := o_SpecReplicas o;
     o_Status := o_Status o; o_Spec := o_Spec o |}.

(** [svc.Spec.Selector[key] = value]. *)
Definition set_selector (key value : string) (o : Obj) : Obj :=
  {| o_Kind := o_Kind o; o_Meta := o_Meta o; o_ResourceVersion := o_ResourceVersion o;
     o_SpecReplicas := o_SpecReplicas o; o_Status := o_Status o;
     o_Spec := match o_Spec o with
               | ServiceObject s =>
                   ServiceObject {| ssp_Type := ssp_Type s;
                                    ssp_Selector := <[key := value]> (ssp_Selector s);
                                    ssp_Ports := ssp_Ports s; ssp_ClusterIP := ssp_ClusterIP s |}
               | s => s
               end |}.

Definition webhook_service_ports : list ServicePort :=
  if isWebhookListenerEnabled f then [service_port PortHTTP FrontendWebhookPort] else [].

Definition NewStandaloneService : outcome Obj :=
  standaloneSvc ← newService ComponentStandalone "ClusterIP" ""
    ([service_port PortService FrontendServicePort; service_port PortMetrics MetaMetricsPort;
      service_port PortDashboard MetaDashboardPort] ++ webhook_service_ports);
  mustSetControllerReference rw standaloneSvc.

Definition NewMetaService : outcome Obj :=
  metaSvc ← newService ComponentMeta "ClusterIP" "None"
    [service_port PortService MetaServicePort; service_port PortMetrics MetaMetricsPort;
     service_port PortDashboard MetaDashboardPort];
  mustSetControllerReference rw (add_metadata (rws_AdditionalMetaServiceMetadata spec) metaSvc).

Definition NewFrontendService : outcome Obj :=
  frontendSvc ← newService ComponentFrontend (rws_FrontendServiceType spec) ""
    ([service_port PortService FrontendServicePort] ++
     (if default false (rws_EnableStandaloneMode spec) then []
      else [service_port PortMetrics FrontendMetricsPort]) ++ webhook_service_ports);
  let frontendSvc := if IsStandaloneModeEnabled rw
                     then set_selector LabelRisingWaveComponent ComponentStandalone frontendSvc
                     else frontendSvc in
  mustSetControllerReference rw
    (add_metadata (rws_AdditionalFrontendServiceMetadata spec) frontendSvc).

Definition NewComputeService : outcome Obj :=
  computeSvc ← newService ComponentCompute "ClusterIP" "None"
    [service_port PortService ComputeServicePort; service_port PortMetrics ComputeMetricsPort];
  mustSetControllerReference rw computeSvc.

Definition NewCompactorService : outcome Obj :=
  compactorSvc ← newService ComponentCompactor "ClusterIP" "None"
    [service_port PortService CompactorServicePort; service_port PortMetrics CompactorMetricsPort];
  mustSetControllerReference rw compactorSvc.

(** ** Definitions: the configuration and the service monitor *)

(** The configuration is never updated: its generation label says so. *)
Definition NewConfigConfigMap (val : string) : outcome Obj :=
  m ← getObjectMetaForComponentLevelResources f ComponentConfig false;
  mustSetControllerReference rw
    (new_object KConfigMap m None (ConfigMapObject {[ risingWaveConfigMapKey := val ]})).

Definition drop_metric (regex : string) : RelabelConfig :=
  {| rc_SourceLabels := ["__name__"]; rc_Action := "drop"; rc_Regex := regex |}.

Definition NewServiceMonitor : outcome Obj :=
  mustSetControllerReference rw
    (new_object KServiceMonitor
      (getObjectMetaForGeneralResources f ("risingwave-" +:+ name) true) None
      (ServiceMonitorObject
        {| sm_JobLabel := "risingwave/" +:+ name;
           sm_TargetLabels := [LabelRisingWaveName; LabelRisingWaveComponent; LabelRisingWaveGroup];
           sm_Endpoints :=
             [{| ep_Port := PortMetrics; ep_Interval := "15s"; ep_ScrapeTimeout := "15s";
                 ep_MetricRelabelConfigs :=
                   [drop_metric "batch_.+"; drop_metric "stream_exchange_.+"] |}];
           sm_Key := LabelRisingWaveName; sm_Values := [name] |})).
End objects.

(** ** Definitions: the factory of the manager *)

Section implementation.
Context `{L : FactoryLib} `{C : ControllerReference ObjectSpec} `{H : Heap} `{N : NameSort}.
Context (operatorVersion : string).

Let one (new : RisingWaveObjectFactory -> outcome (Object ObjectSpec)) (rw : RisingWave)
  : outcome (option (Object ObjectSpec)) :=
  o ← new (NewRisingWaveObjectFactory rw operatorVersion); Done (Some o).
Let many (new : RisingWaveObjectFactory -> string -> outcome (Object ObjectSpec)) (rw : RisingWave)
    (group : string) : outcome (option (Object ObjectSpec)) :=
  o ← new (NewRisingWaveObjectFactory rw operatorVersion) group; Done (Some o).

Definition Factory : ObjectFactory ObjectSpec :=
  {| ManagerImpl.NewMetaService := one (fun f => NewMetaService f);
     ManagerImpl.NewFrontendService := one (fun f => NewFrontendService f);
     ManagerImpl.NewComputeService := one (fun f => NewComputeService f);
     ManagerImpl.NewCompactorService := one (fun f => NewCompactorService f);
     ManagerImpl.NewStandaloneService := one (fun f => NewStandaloneService f);
     ManagerImpl.NewConfigConfigMap rw val := one (fun f => NewConfigConfigMap f val) rw;
     ManagerImpl.NewServiceMonitor := one (fun f => NewServiceMonitor f);
     ManagerImpl.NewMetaStatefulSet := many (fun f => NewMetaStatefulSet f);
     ManagerImpl.NewMetaAdvancedStatefulSet := many (fun f => NewMetaAdvancedStatefulSet f);
     ManagerImpl.NewFrontendDeployment := many (fun f => NewFrontendDeployment f);
     ManagerImpl.NewFrontendCloneSet := many (fun f => NewFrontendCloneSet f);
     ManagerImpl.NewComputeStatefulSet := many (fun f => NewComputeStatefulSet f);
     ManagerImpl.NewComputeAdvancedStatefulSet := many (fun f => NewComputeAdvancedStatefulSet f);
     ManagerImpl.NewCompactorDeployment := many (fun f => NewCompactorDeployment f);
     ManagerImpl.NewCompactorCloneSet := many (fun f => NewCompactorCloneSet f);
     ManagerImpl.NewStandaloneStatefulSet := one (fun f => NewStandaloneStatefulSet f);
     ManagerImpl.NewStandaloneAdvancedStatefulSet :=
       one (fun f => NewStandaloneAdvancedStatefulSet f) |}.
End implementation.
