(* ===== verification/FactorySpec.v ===== *)
(** * pkg/factory: what the objects are

    The metadata, selectors and pods of the objects the factory builds, for any RisingWave;
    and that it builds them for every RisingWave the webhook accepts. *)

From S2P Require Import Prelude GoStrings GoPaths ApiTypes ApiErrors RisingWaveManager Workloads WorkloadSync.
From S2P Require Import ManagerImpl EnvSort RisingWaveWebhook FactoryBase FactoryEnvs FactoryPods FactoryObjects.

(** ** Labels: the inherited ones are never those of the system *)

Lemma prefix_cons c d p s :
  String.prefix (String c p) (String d s) = true -> c = d /\ String.prefix p s = true.
Proof. cbn [String.prefix]. by destruct (ascii_dec c d). Qed.

Lemma prefix_contains c p s : String.prefix (p +:+ str1 c) s = true -> contains_char c s = true.
Proof.
  revert p. induction s as [|d s IH]; intros [|e p]; [done..| |]; intros [-> H]%prefix_cons.
  - cbn [contains_char]. by rewrite bool_decide_true.
  - cbn [contains_char]. rewrite (IH p H). apply orb_true_r.
Qed.

Lemma prefix_one_slash p a b :
  contains_char "/"%char a = false -> contains_char "/"%char b = false ->
  String.prefix (p +:+ str1 "/") (a +:+ String "/" b) = true -> p = a.
Proof.
  revert p. induction a as [|d a IH]; intros [|c p] Ha Hb; [done|..]; intros [Hc H]%prefix_cons;
    subst; cbn [contains_char] in Ha.
  - apply prefix_contains in H. by rewrite Hb in H.
  - by rewrite bool_decide_true in Ha.
  - apply orb_false_iff in Ha as [_ Ha]. f_equal. by apply IH.
Qed.

Definition system_labels : list string :=
  [LabelRisingWaveComponent; LabelRisingWaveName; LabelRisingWaveGeneration; LabelRisingWaveGroup;
   LabelRisingWaveMetaRole; LabelRisingWaveOperatorVersion].

Lemma inherited_not_system rw v k :
  k ∈ system_labels -> f_inheritedLabels (NewRisingWaveObjectFactory rw v) !! k = None.
Proof.
  intros Hk. cbn. unfold captureInheritedLabels. destruct (om_Annotations _ !! _) as [prefixes|]; [|apply lookup_empty].
  apply map_lookup_filter_None. right. intros x _ H. cbn in H. unfold matchLabelKey in H.
  apply existsb_exists in H as (p & Hp & H). apply list_elem_of_In in Hp. unfold label_prefixes in Hp.
  apply list_elem_of_filter in Hp as [[_ Hne] _]. apply Hne.
  assert (exists b, k = "risingwave" +:+ String "/" b /\ contains_char "/"%char b = false)
    as (b & -> & Hb).
  { unfold system_labels in Hk. rewrite !elem_of_cons, elem_of_nil in Hk.
    destruct Hk as [->|[->|[->|[->|[->|[->|[]]]]]]]; eexists; (split; [reflexivity|reflexivity]). }
  by eapply prefix_one_slash; [..|exact H].
Qed.

(** ** Metadata *)

(** The components, with and without node groups. *)
Definition group_components : list string :=
  [ComponentMeta; ComponentCompute; ComponentFrontend; ComponentCompactor].
Definition pod_components : list string := group_components ++ [ComponentStandalone].

Ltac by_component H :=
  unfold pod_components, group_components in H;
  rewrite ?elem_of_app, !elem_of_cons, ?elem_of_nil in H;
  repeat (destruct H as [H|H]); try done; subst.

(** The name of the workload of a group, and of the service of a component. *)
Definition workload_name (rw : RisingWave) (component group : string) : string :=
  om_Name (rw_Meta rw) +:+ "-" +:+ component +:+ groupSuffix group.

Global Instance workload_name_inj rw component : Inj (=) (=) (workload_name rw component).
Proof.
  intros g1 g2 H. unfold workload_name, groupSuffix in H.
  repeat apply (inj (String.app _)) in H. case_bool; subst; try done.
  by apply (inj (String.app _)) in H.
Qed.

(** Two components never share a name. *)
Lemma workload_name_component rw c1 c2 g1 g2 :
  c1 ∈ group_components -> c2 ∈ group_components ->
  workload_name rw c1 g1 = workload_name rw c2 g2 -> c1 = c2 /\ g1 = g2.
Proof.
  intros H1 H2 H. assert (c1 = c2) as <-; [|split; [done|by apply (inj _) in H]].
  unfold workload_name in H. repeat apply (inj (String.app _)) in H.
  by_component H1; by_component H2; done.
Qed.

Ltac system_label := unfold system_labels; set_solver.

Section metadata.
Context (rw : RisingWave) (v : string).
Let f : RisingWaveObjectFactory := NewRisingWaveObjectFactory rw v.

(** A component and one of its groups; the standalone node has only the one without a name. *)
Definition component_group (c g : string) : Prop :=
  c ∈ pod_components /\ (c = ComponentStandalone -> g = "").

Lemma component_group_intro c g : c ∈ group_components -> component_group c g.
Proof.
  intros Hc. split; [by apply elem_of_app; left|]. intros ->. by by_component Hc.
Qed.

Lemma componentName_group c g :
  component_group c g -> componentName f c g = Done (workload_name rw c g).
Proof. intros [Hc Hg]. unfold workload_name. by_component Hc; try done. by rewrite Hg. Qed.

Lemma mergeMap_inherited_lookup labels k :
  k ∈ system_labels -> mergeMap labels (f_inheritedLabels f) !! k = labels !! k.
Proof.
  intros Hk. unfold mergeMap. by rewrite lookup_union_r by by apply inherited_not_system.
Qed.

(** The metadata of an object of the cluster: its labels, of the given generation. *)
Record system_meta (name component : string) (group : option string) (sync : bool) (m : ObjectMeta)
  : Prop := {
  sm_name : om_Name m = name;
  sm_namespace : om_Namespace m = om_Namespace (rw_Meta rw);
  sm_label_name : om_Labels m !! LabelRisingWaveName = Some (om_Name (rw_Meta rw));
  sm_label_component : om_Labels m !! LabelRisingWaveComponent = Some component;
  sm_label_group : om_Labels m !! LabelRisingWaveGroup = group;
  sm_label_generation : om_Labels m !! LabelRisingWaveGeneration = Some (generation_label f sync);
  sm_label_version : om_Labels m !! LabelRisingWaveOperatorVersion = Some v;
}.

Lemma new_meta_system name component labels group sync :
  labels !! LabelRisingWaveName = Some (om_Name (rw_Meta rw)) ->
  labels !! LabelRisingWaveComponent = Some component ->
  labels !! LabelRisingWaveGroup = group ->
  labels !! LabelRisingWaveGeneration = Some (generation_label f sync) ->
  labels !! LabelRisingWaveOperatorVersion = Some v ->
  system_meta name component group sync (new_meta f name labels).
Proof.
  intros H1 H2 H3 H4 H5.
  split; [done|done|..]; cbn [om_Labels new_meta];
    rewrite mergeMap_inherited_lookup by system_label; done.
Qed.

Lemma group_meta c g :
  component_group c g ->
  exists m, getObjectMetaForComponentGroupLevelResources f c g true = Done m /\
    system_meta (workload_name rw c g) c (Some g) true m.
Proof.
  intros Hc. unfold getObjectMetaForComponentGroupLevelResources.
  rewrite componentName_group by done. run_monad. eexists. split; [reflexivity|].
  by apply new_meta_system; rewrite ?lookup_insert.
Qed.

Lemma component_meta c sync :
  c ∈ pod_components ->
  exists m, getObjectMetaForComponentLevelResources f c sync = Done m /\
    system_meta (workload_name rw c "") c None sync m.
Proof.
  intros Hc. unfold getObjectMetaForComponentLevelResources.
  rewrite componentName_group by done. run_monad. eexists. split; [reflexivity|].
  by apply new_meta_system; rewrite ?lookup_insert.
Qed.
End metadata.

(** ** Pods *)

(** The stores the factory needs: the webhook asks for one of each. *)
Record stores_set (rw : RisingWave) : Prop := {
  ss_state v : is_done (hummockConnectionStr (NewRisingWaveObjectFactory rw v)) = true;
  ss_backend v `(FactoryLib) version :
    is_done (backend_envs (NewRisingWaveObjectFactory rw v) version) = true;
  ss_meta v : is_done (envsForMetaStore (NewRisingWaveObjectFactory rw v)) = true;
}.

Lemma count_by_pos {A} (p : A -> bool) l : 0 < count_by p l -> exists x, x ∈ l /\ p x = true.
Proof.
  induction l as [|x l IH]; cbn; [lia|]. destruct (p x) eqn:Hx; [|].
  - exists x. split; [left|done].
  - intros (y & Hy & Hp)%IH. exists y. split; [by right|done].
Qed.

Lemma one_flag (l : list bool) : count_by id l = 1 -> true ∈ l.
Proof.
  intros H. destruct (count_by_pos id l (eq_ind_r (fun n => 0 < n) Nat.lt_0_1 H)) as (b & Hb & Ht).
  cbn in Ht. by subst b.
Qed.

Lemma stores_ok_set rw :
  stores_ok (rws_MetaStore (rw_Spec rw)) (rws_StateStore (rw_Spec rw)) -> stores_set rw.
Proof.
  intros [Hm%one_flag Hs%one_flag _ _ _ _].
  split; intros v; [|intros ? version|].
  - unfold hummockConnectionStr, isStateStoreMemory. cbn [f_risingwave NewRisingWaveObjectFactory].
    destruct (rws_StateStore (rw_Spec rw)) as [dir mem disk minio s3 gcs oss az hdfs whdfs obs].
    unfold state_store_flags in Hs. cbn in *.
    destruct mem as [[]|]; [done|..]; destruct s3; try done; destruct minio; try done;
      destruct gcs; try done; destruct oss; try done; destruct az; try done; destruct hdfs; try done;
      destruct whdfs; try done; destruct disk; try done; destruct obs; try done; set_solver.
  - unfold backend_envs, isMetaStoreMemory. cbn [f_risingwave NewRisingWaveObjectFactory].
    destruct (rws_MetaStore (rw_Spec rw)) as [mem etcd sqlite my pg].
    unfold meta_store_flags in Hm. cbn in *.
    destruct mem as [[]|]; [done|..]; destruct etcd; try done; destruct sqlite; try done;
      destruct my; try done; destruct pg; try done; set_solver.
  - unfold envsForMetaStore, isMetaStoreMemory. cbn [f_risingwave NewRisingWaveObjectFactory].
    destruct (rws_MetaStore (rw_Spec rw)) as [mem etcd sqlite my pg].
    unfold meta_store_flags in Hm. cbn in *.
    destruct mem as [[]|]; [done|..]; destruct etcd; try done; destruct sqlite; try done;
      destruct my; try done; destruct pg; try done; set_solver.
Qed.
