(* ===== verification/FactoryPodSpec.v ===== *)
(** * pkg/factory: what the pods are

    The variables of a container, layer by layer, and the pod of a node group: its labels,
    its ports and its configuration. *)

From S2P Require Import Prelude GoStrings GoPaths ApiTypes RisingWaveManager Workloads EnvSort.
From S2P Require Import FactoryBase FactoryEnvs FactoryPods FactorySpec.

(** ** Merging lists by key *)

Section merge.
Context {T : Type} (key : T -> string).

(** The first and the last element of a name. *)
Definition first_keyed (n : string) (l : list T) : option T :=
  snd <$> find_index (fun x => bool_decide (key x = n)) l.
Definition last_keyed (n : string) (l : list T) : option T := first_keyed n (reverse l).

Definition same_key_as (a b : T) : bool := bool_decide (key a = key b).

Lemma first_keyed_cons n x l :
  first_keyed n (x :: l) = if bool_decide (key x = n) then Some x else first_keyed n l.
Proof.
  unfold first_keyed, find_index. cbn. case_bool; [done|].
  assert (forall i, snd <$> find_index_from (fun x => bool_decide (key x = n)) i l =
                    snd <$> find_index_from (fun x => bool_decide (key x = n)) 0 l) as ->; [|done].
  clear. assert (forall i j, snd <$> find_index_from (fun x => bool_decide (key x = n)) i l =
                    snd <$> find_index_from (fun x => bool_decide (key x = n)) j l) as H; [|by intros i].
  induction l as [|y l IH]; intros i j; cbn; [done|]. by destruct (bool_decide _).
Qed.

Lemma first_keyed_app n l1 l2 :
  first_keyed n (l1 ++ l2) = match first_keyed n l1 with Some x => Some x | None => first_keyed n l2 end.
Proof.
  induction l1 as [|x l1 IH]; [done|]. rewrite <-app_comm_cons, !first_keyed_cons, IH.
  by destruct (bool_decide _).
Qed.

Lemma first_keyed_Some n l x : first_keyed n l = Some x -> x ∈ l /\ key x = n.
Proof.
  induction l as [|y l IH]; [done|]. rewrite first_keyed_cons. case_bool.
  - intros [= ->]. split; [left|done].
  - intros [H1 H2]%IH. split; [by right|done].
Qed.

Lemma first_keyed_None n l : first_keyed n l = None <-> n ∉ key <$> l.
Proof.
  induction l as [|y l IH]; [split; [by intros _ ?%not_elem_of_nil|done]|].
  rewrite first_keyed_cons, fmap_cons, elem_of_cons. case_bool; naive_solver.
Qed.

Lemma last_keyed_None n l : last_keyed n l = None <-> n ∉ key <$> l.
Proof. unfold last_keyed. by rewrite first_keyed_None, fmap_reverse, elem_of_reverse. Qed.

Lemma first_keyed_elem l x : NoDup (key <$> l) -> x ∈ l -> first_keyed (key x) l = Some x.
Proof.
  intros Hnd Hx. destruct (first_keyed (key x) l) as [y|] eqn:Hy.
  - apply first_keyed_Some in Hy as [Hy Hk]. f_equal. by eapply NoDup_fmap_elem.
  - apply first_keyed_None in Hy. destruct Hy. by apply list_elem_of_fmap_2.
Qed.

Lemma first_keyed_perm n l l' :
  NoDup (key <$> l) -> l' ≡ₚ l -> first_keyed n l' = first_keyed n l.
Proof.
  intros Hnd Hp. destruct (first_keyed n l) as [x|] eqn:Hx.
  - apply first_keyed_Some in Hx as [Hx <-]. apply first_keyed_elem; by rewrite Hp.
  - apply first_keyed_None. rewrite Hp. by apply first_keyed_None.
Qed.

Lemma merge_lookup l x n :
  first_keyed n (mergeListWhenKeyEquals l x same_key_as) =
  if bool_decide (key x = n) then Some x else first_keyed n l.
Proof.
  unfold mergeListWhenKeyEquals. induction l as [|y l IH]; cbn [mergeListByKey].
  - by rewrite first_keyed_cons.
  - unfold same_key_as at 1. destruct (bool_decide_reflect (key x = key y)) as [Hxy|Hxy].
    + rewrite !first_keyed_cons, <-Hxy. by destruct (bool_decide _).
    + rewrite !first_keyed_cons, IH.
      destruct (bool_decide_reflect (key y = n)), (bool_decide_reflect (key x = n)); congruence.
Qed.

Lemma merge_keys l x :
  key <$> mergeListWhenKeyEquals l x same_key_as =
  if bool_decide (key x ∈ key <$> l) then key <$> l else (key <$> l) ++ [key x].
Proof.
  unfold mergeListWhenKeyEquals. induction l as [|y l IH]; cbn; [done|].
  unfold same_key_as at 1. destruct (bool_decide_reflect (key x = key y)) as [Hxy|Hxy]; cbn.
  - rewrite bool_decide_true by (rewrite Hxy; left). by rewrite Hxy.
  - rewrite IH. destruct (bool_decide_reflect (key x ∈ key <$> l)) as [H|H].
    + by rewrite bool_decide_true by (by right).
    + rewrite bool_decide_false; [done|]. by intros [?|?]%elem_of_cons.
Qed.

Lemma merge_NoDup l x :
  NoDup (key <$> l) -> NoDup (key <$> mergeListWhenKeyEquals l x same_key_as).
Proof.
  intros H. rewrite merge_keys. case_bool; [done|]. apply NoDup_app.
  split; [done|]. split; [by intros y Hy ->%list_elem_of_singleton|apply NoDup_singleton].
Qed.

Lemma merge_elem l x : x ∈ mergeListWhenKeyEquals l x same_key_as.
Proof.
  unfold mergeListWhenKeyEquals. induction l as [|y l IH]; cbn; [left|].
  destruct (same_key_as x y); [left|by right].
Qed.

Lemma mergeAll_app l v1 v2 :
  mergeAll same_key_as l (v1 ++ v2) = mergeAll same_key_as (mergeAll same_key_as l v1) v2.
Proof. apply foldl_app. Qed.

(** A later value wins, and every value wins over the list it is merged into. *)
Lemma mergeAll_lookup l vals n :
  first_keyed n (mergeAll same_key_as l vals) =
  match last_keyed n vals with Some x => Some x | None => first_keyed n l end.
Proof.
  unfold mergeAll, last_keyed. revert l.
  induction vals as [|v vals IH] using rev_ind; intros l; [done|].
  rewrite foldl_app, reverse_snoc. cbn [foldl]. rewrite merge_lookup, IH.
  rewrite first_keyed_cons. by destruct (bool_decide _).
Qed.

Lemma mergeAll_NoDup l vals :
  NoDup (key <$> l) -> NoDup (key <$> mergeAll same_key_as l vals).
Proof.
  unfold mergeAll. revert l. induction vals as [|v vals IH]; intros l H; [done|].
  apply IH, merge_NoDup, H.
Qed.
End merge.

(** ** The container of a component *)

Section pods.
Context (rw : RisingWave) (v : string) `{L : FactoryLib}.
Abbreviation f := (NewRisingWaveObjectFactory rw v).

Definition ports_of (c : string) : list ContainerPort :=
  if bool_decide (c = ComponentMeta) then portsForMetaContainer
  else if bool_decide (c = ComponentFrontend) then portsForFrontendContainer f
  else if bool_decide (c = ComponentCompute) then portsForComputeContainer
  else if bool_decide (c = ComponentCompactor) then portsForCompactorContainer
  else portsForStandaloneContainer f.

(** The variables the operator generates for a component: those the user may override, and
    those that override the user's. *)
Definition layers (c : string) (con : Container) : outcome (list EnvVar * list EnvVar) :=
  if bool_decide (c = ComponentMeta) then
    args ← envsForMetaArgs f (c_Image con);
    metaStore ← envsForMetaStore f;
    Done (args, envsForStateStore f ++ metaStore)
  else if bool_decide (c = ComponentFrontend) then
    args ← envsForFrontendArgs f;
    Done (if isEmbeddedServingModeEnabled f
          then args ++ envsForResourceLimits (cpu_limit con) (memory_limit con) ++ envsForStateStore f
          else args, [])
  else if bool_decide (c = ComponentCompute) then
    args ← envsForComputeArgs f (cpu_limit con) (memory_limit con);
    Done (args, envsForStateStore f)
  else args ← envsForCompactorArgs f; Done (args, envsForStateStore f).

Record container_of (c : string) (volumes vols : list Volume) (con' : Container) : Prop := {
  co_name : c_Name con' = c;
  co_ports : c_Ports con' = ports_of c;
  co_config : volumeMountForConfig ∈ c_VolumeMounts con';
  co_volumes n : n ∈ vol_Name <$> volumes -> n ∈ vol_Name <$> vols;
  co_args : c = ComponentMeta -> c_Args con' = ["meta-node"];
}.

Lemma is_done_inv {A} (o : outcome A) : is_done o = true -> exists a, o = Done a.
Proof. destruct o; [eauto|done]. Qed.

Lemma componentAddr_done c g : component_group c g -> exists a, componentAddr f c g = Done a.
Proof.
  intros Hc. unfold componentAddr. rewrite componentName_group by done. run_monad. eauto.
Qed.

Lemma advertise_addr_done c port :
  c ∈ pod_components -> exists a, advertise_addr f c port = Done a.
Proof.
  intros Hc. unfold advertise_addr.
  destruct (componentAddr_done c "") as [a ->]; [by split|]. run_monad. eauto.
Qed.

Lemma meta_url_done : exists a, meta_url f = Done a.
Proof.
  unfold meta_url. destruct (componentAddr_done ComponentMeta "") as [a ->]; [|run_monad; eauto].
  by apply component_group_intro; left.
Qed.

Lemma coreEnvsForMeta_done image :
  stores_set rw -> exists e, coreEnvsForMeta f image = Done e.
Proof.
  intros Hs. unfold coreEnvsForMeta. destruct (is_done_inv _ (ss_state _ Hs v)) as [h ->].
  destruct (is_done_inv _ (ss_backend _ Hs v _ (GetVersionFromImage image))) as [b ->].
  run_monad. eauto.
Qed.

Lemma with_config_mount_elem l : volumeMountForConfig ∈ with_config_mount l.
Proof. apply (merge_elem vm_MountPath). Qed.

Lemma with_tls_volumes volumes mounts n :
  n ∈ vol_Name <$> volumes -> n ∈ vol_Name <$> (with_tls f volumes mounts).1.
Proof.
  unfold with_tls. destruct (volumeAndVolumeMountForTLS f) as [[vol m]|]; [|done]. intros Hn. cbn.
  change same_volume with (same_key_as vol_Name). rewrite merge_keys. case_bool; [done|].
  apply elem_of_app. by left.
Qed.

Ltac container_done :=
  split; [done|done|cbn [c_VolumeMounts set_component];
          rewrite ?elem_of_app; auto using with_config_mount_elem
         |intros n Hn; rewrite ?fmap_app, ?elem_of_app; auto
         |done].
Ltac layers_done :=
  do 4 eexists; do 2 (split; [reflexivity|]); split; [container_done|];
  cbn [c_Env set_component]; change same_name with (same_key_as env_Name);
  by rewrite ?mergeAll_app.

Lemma setup_group c volumes con component m :
  c ∈ group_components -> stores_set rw -> component_setup f c = Done (m, component) ->
  exists below above vols con', layers c con = Done (below, above) /\
    m volumes con = Done (vols, con') /\ container_of c volumes vols con' /\
    c_Env con' = mergeAll same_name (mergeAll same_name below (c_Env con)) above.
Proof.
  intros Hc Hs Hm. destruct meta_url_done as [url Hurl].
  destruct (is_done_inv _ (ss_meta _ Hs v)) as [store Hstore].
  destruct (coreEnvsForMeta_done (c_Image con) Hs) as [core Hcore].
  by_component Hc; cbn in Hm; injection Hm as <- <-; unfold layers; cbn;
    unfold setupMetaContainer, setupFrontendContainer, setupComputeContainer,
      setupCompactorContainer, envsForMetaArgs, envsForFrontendArgs, envsForComputeArgs,
      envsForCompactorArgs; rewrite ?Hurl.
  - destruct (advertise_addr_done ComponentMeta MetaServicePort) as [a ->]; [by left|].
    rewrite Hcore, Hstore. run_monad.
    destruct (volumeAndVolumeMountForLicenseKey f) as [lv lm]. layers_done.
  - destruct (advertise_addr_done ComponentCompute ComputeServicePort) as [a ->];
      [by apply (list_elem_of_lookup_2 _ 1)|]. run_monad. layers_done.
  - run_monad. pose proof (with_tls_volumes volumes (c_VolumeMounts con)) as Ht.
    destruct (with_tls f volumes (c_VolumeMounts con)) as [tv tm]. layers_done.
  - run_monad. layers_done.
Qed.

Lemma setup_standalone volumes con :
  stores_set rw ->
  exists vols con', setupStandaloneContainer f volumes con = Done (vols, con') /\
    container_of ComponentStandalone volumes vols con'.
Proof.
  intros Hs. unfold setupStandaloneContainer.
  destruct (coreEnvsForMeta_done (c_Image con) Hs) as [core ->].
  destruct (is_done_inv _ (ss_meta _ Hs v)) as [store ->]. run_monad.
  pose proof (with_tls_volumes volumes (c_VolumeMounts con)) as Ht.
  destruct (with_tls f volumes (c_VolumeMounts con)) as [tv tm].
  destruct (volumeAndVolumeMountForLicenseKey f) as [lv lm].
  do 2 eexists. split; [reflexivity|]. container_done.
Qed.

(** ** The pod of a node group *)

Context `{H : Heap} `{N : NameSort}.

(** The container of the group before the setup of its component. *)
Definition user_container (c : string) (nodeGroup : RisingWaveNodeGroup)
    (component : RisingWaveComponent) : Container :=
  basicSetupRisingWaveContainer
    (with_resource_group c (ng_Name nodeGroup) (template_container (ng_Template nodeGroup)))
    (Some component).

Record pod_of (c g : string) (restartAt : option Z) (t : PodTemplateSpec) : Prop := {
  po_label_name : pts_Labels t !! LabelRisingWaveName = Some (om_Name (rw_Meta rw));
  po_label_component : pts_Labels t !! LabelRisingWaveComponent = Some c;
  po_label_group : pts_Labels t !! LabelRisingWaveGroup = Some g;
  po_inherited : f_inheritedLabels f ⊆ pts_Labels t;
  po_restart r : restartAt = Some r -> pts_Annotations t !! AnnotationRestartAt = Some (format_UTC r);
  po_container : exists con rest, ps_Containers (pts_Spec t) = con :: rest /\
    c_Name con = c /\ c_Ports con = ports_of c /\
    (NameSortOk N -> volumeMountForConfig ∈ c_VolumeMounts con) /\
    (c = ComponentMeta -> c_Args con = ["meta-node"]);
  po_volumes : NameSortOk N -> FactoryBase.risingWaveConfigVolume ∈ vol_Name <$> ps_Volumes (pts_Spec t);
}.

Lemma config_volume_done nodeGroup :
  exists vol, FactoryPods.risingWaveConfigVolume f nodeGroup = Done vol /\
    vol_Name vol = FactoryBase.risingWaveConfigVolume.
Proof.
  unfold FactoryPods.risingWaveConfigVolume.
  destruct (nc_ConfigMap _) as [cm|]; [eauto|]. destruct (nc_Secret _) as [sec|]; [eauto|].
  unfold componentName. cbn. run_monad. eauto.
Qed.

Lemma sort_by_elem {T} (name : T -> string) l x : NameSortOk N -> x ∈ l -> x ∈ sort_by name l.
Proof. intros HN. by rewrite sort_by_perm. Qed.

Lemma build_pod c nodeGroup m component :
  component_setup f c = Done (m, component) ->
  (forall volumes con, exists vols con', m volumes con = Done (vols, con') /\
     container_of c volumes vols con') ->
  exists t volumes vols con', newPodTemplateSpecFromNodeGroupByComponent f c nodeGroup = Done t /\
    m volumes (user_container c nodeGroup component) = Done (vols, con') /\
    ps_Containers (pts_Spec t) =
      sortSlicesInContainer con' ::
      (sortSlicesInContainer <$> pt_AdditionalContainers (ng_Template nodeGroup)) /\
    pod_of c (ng_Name nodeGroup) (ng_RestartAt nodeGroup) t.
Proof.
  intros Hm Hsetup. unfold newPodTemplateSpecFromNodeGroupByComponent. rewrite Hm.
  run_monad. unfold buildPodTemplateFromNodeGroup.
  destruct (config_volume_done nodeGroup) as (vol & -> & Hvol). run_monad.
  cbn [pts_Spec newPodSpecFromNodeGroupTemplate ps_Containers fst snd].
  set (volumes := mergeListWhenKeyEquals _ vol same_volume).
  change (basicSetupRisingWaveContainer _ (Some component)) with (user_container c nodeGroup component).
  destruct (Hsetup volumes (user_container c nodeGroup component)) as (vols & con' & Hrun & Hcon).
  rewrite Hrun. do 4 eexists. split; [reflexivity|]. split; [exact Hrun|]. split; [reflexivity|].
  destruct Hcon as [Hname Hports Hconfig Hvols Hargs].
  split.
  - cbn [pts_Labels]. rewrite mergeMap_inherited_lookup by system_label.
    by apply lookup_union_Some_l.
  - cbn [pts_Labels]. rewrite mergeMap_inherited_lookup by system_label.
    by apply lookup_union_Some_l.
  - cbn [pts_Labels]. rewrite mergeMap_inherited_lookup by system_label.
    by apply lookup_union_Some_l.
  - apply map_union_subseteq_l.
  - intros r Hr. cbn [pts_Annotations]. rewrite Hr.
    apply lookup_union_Some_l, lookup_singleton_eq.
  - do 2 eexists. split; [reflexivity|]. split; [done|]. split; [done|]. split; [|done].
    intros HN. by apply sort_by_elem.
  - intros HN. cbn. rewrite sort_by_perm. apply Hvols. unfold volumes.
    change same_volume with (same_key_as vol_Name). rewrite <-Hvol.
    apply list_elem_of_fmap_2, (merge_elem vol_Name).
Qed.

(** ** The generated variables have different names *)

(** The variables of the stores, which the other variables are not among. *)
Definition store_env_names : list string :=
  [envs.MinIOEndpoint; envs.MinIOBucket; envs.MinIOUsername; envs.MinIOPassword; envs.AWSRegion;
   envs.AWSAccessKeyID; envs.AWSSecretAccessKey; envs.AWSS3Bucket; envs.AWSEC2MetadataDisabled;
   envs.AWSForcePathStyle; envs.S3CompatibleEndpoint; envs.AzureBlobEndpoint;
   envs.AzureBlobAccountName; envs.AzureBlobAccountKey; envs.AliyunOSSRegion;
   envs.AliyunOSSEndpoint; envs.AliyunOSSAccessKeyID; envs.AliyunOSSSecretAccessKey;
   envs.HuaweiCloudOBSRegion; envs.HuaweiCloudOBSEndpoint; envs.HuaweiCloudOBSAccessKeyID;
   envs.HuaweiCloudOBSSecretAccessKey; envs.GoogleApplicationCredentials].

Definition distinct (l : list string) : bool :=
  (fix go l := match l with
               | [] => true
               | x :: l => negb (existsb (String.eqb x) l) && go l
               end) l.
Definition included (l1 l2 : list string) : bool := forallb (fun x => existsb (String.eqb x) l2) l1.

Lemma distinct_NoDup l : distinct l = true -> NoDup l.
Proof.
  induction l as [|x l IH]; cbn; [constructor|].
  intros [Hx Hl]%andb_true_iff. constructor; [|auto]. rewrite <-elem_of_existsb.
  by destruct (existsb _ l).
Qed.

Lemma included_subseteq l1 l2 : included l1 l2 = true -> l1 ⊆ l2.
Proof.
  unfold included. rewrite forallb_forall. intros Hl x Hx.
  by apply elem_of_existsb, Hl, list_elem_of_In.
Qed.

Ltac by_names := first [apply distinct_NoDup|apply included_subseteq]; vm_compute; reflexivity.

Lemma envsForStateStore_names :
  NoDup (env_Name <$> envsForStateStore f) /\ env_Name <$> envsForStateStore f ⊆ store_env_names.
Proof.
  unfold envsForStateStore, envsForS3, envsForAWSS3, envsForS3Compatible, envsForGCS,
    envsForAzureBlob, envsForHDFS, envsForWebHDFS, envsForLocalDisk.
  repeat case_match; (split; by_names).
Qed.

Definition meta_store_env_names : list string :=
  [envs.EtcdUsernameLegacy; envs.EtcdPasswordLegacy; envs.RWEtcdUsername; envs.RWEtcdPassword;
   envs.RWMySQLUsername; envs.RWSQLUsername; envs.RWMySQLPassword; envs.RWSQLPassword;
   envs.RWPostgresUsername; envs.RWPostgresPassword].

Lemma envsForMetaStore_names e :
  envsForMetaStore f = Done e ->
  NoDup (env_Name <$> e) /\ env_Name <$> e ⊆ meta_store_env_names.
Proof.
  unfold envsForMetaStore, envsForEtcd, envsForSQLite, envsForMySQL, envsForPostgreSQL.
  repeat case_match; intros [= <-]; (split; by_names).
Qed.

Definition core_env_names : list string :=
  [envs.RWStateStore; envs.RWDataDirectory; envs.RWDashboardHost; envs.RWBackend;
   envs.RWEtcdEndpoints; envs.RWEtcdAuth; envs.RWSQLEndpoint; envs.RWSQLDatabase;
   envs.RWLicenseKeyPath; envs.RWLicenseKey; envs.RWSecretStorePrivateKeyHex].

Lemma core_names image e :
  coreEnvsForMeta f image = Done e ->
  NoDup (env_Name <$> e) /\ env_Name <$> e ⊆ core_env_names.
Proof.
  unfold coreEnvsForMeta. destruct (hummockConnectionStr f) as [h|]; [|done]. run_monad.
  set (dir := getDataDirectory f).
  destruct (backend_envs f (GetVersionFromImage image)) as [b|] eqn:Hb; [|done]. intros [= <-].
  assert (exists b', env_Name <$> b = b' /\ b' ∈ [[envs.RWBackend];
    [envs.RWBackend; envs.RWEtcdEndpoints]; [envs.RWBackend; envs.RWEtcdEndpoints; envs.RWEtcdAuth];
    [envs.RWBackend; envs.RWSQLEndpoint]; [envs.RWBackend; envs.RWSQLEndpoint; envs.RWSQLDatabase]])
    as (b' & Hb' & Hin).
  { exists (env_Name <$> b). split; [done|]. revert Hb. clear. unfold backend_envs.
    repeat case_match; intros [= <-]; cbn; set_solver. }
  assert (exists l, env_Name <$> envsForLicenseKey f = l /\
    l ∈ [[]; [envs.RWLicenseKeyPath]; [envs.RWLicenseKey]]) as (l & Hl & Hlin).
  { eexists. split; [done|]. clear. unfold envsForLicenseKey. repeat case_match; cbn; set_solver. }
  assert (exists k, env_Name <$> envsForSecretStore f = k /\
    k ∈ [[]; [envs.RWSecretStorePrivateKeyHex]]) as (k & Hk & Hkin).
  { eexists. split; [done|]. clear. unfold envsForSecretStore. repeat case_match; cbn; set_solver. }
  rewrite !fmap_cons, !fmap_app, Hb', Hl, Hk. cbn [env_Name env_value].
  rewrite !elem_of_cons, !elem_of_nil in *.
  destruct Hin as [->|[->|[->|[->|[->|[]]]]]], Hlin as [->|[->|[->|[]]]], Hkin as [->|[->|[]]];
    (split; by_names).
Qed.

Lemma NoDup_layer (l1 l2 : list EnvVar) (names : list string) :
  NoDup (env_Name <$> l1) -> NoDup (env_Name <$> l2) -> env_Name <$> l2 ⊆ names ->
  forallb (fun x => negb (existsb (String.eqb x) names)) (env_Name <$> l1) = true ->
  NoDup (env_Name <$> l1 ++ l2).
Proof.
  intros H1 H2 Hsub Hd. rewrite fmap_app. apply NoDup_app. split; [done|]. split; [|done].
  intros x Hx Hx2%Hsub%elem_of_existsb. rewrite forallb_forall in Hd.
  apply list_elem_of_In, Hd in Hx. by rewrite Hx2 in Hx.
Qed.

Lemma frontend_args_names args limits :
  envsForFrontendArgs f = Done args ->
  env_Name <$> limits ∈ [[]; [envs.RWParallelism]; [envs.RWTotalMemoryBytes];
                         [envs.RWParallelism; envs.RWTotalMemoryBytes]] ->
  NoDup (env_Name <$> args ++ limits) /\
  forallb (fun x => negb (existsb (String.eqb x) store_env_names)) (env_Name <$> args ++ limits) = true.
Proof.
  unfold envsForFrontendArgs, envsForTLS. destruct (meta_url f) as [url|]; [|done]. run_monad.
  intros [= <-] Hl. rewrite fmap_app, !fmap_cons, fmap_app.
  rewrite !elem_of_cons, elem_of_nil in Hl.
  destruct Hl as [->|[->|[->|[->|[]]]]], (isWebhookListenerEnabled f), (tls_secret f);
    (split; [by_names|vm_compute; reflexivity]).
Qed.

Lemma limits_names cpu memory :
  env_Name <$> envsForResourceLimits cpu memory ∈
    [[]; [envs.RWParallelism]; [envs.RWTotalMemoryBytes];
     [envs.RWParallelism; envs.RWTotalMemoryBytes]].
Proof. unfold envsForResourceLimits. repeat case_bool_decide; cbn; set_solver. Qed.

(** What a component generates before the user's variables has each variable once. *)
Lemma layers_NoDup c con below above :
  layers c con = Done (below, above) -> NoDup (env_Name <$> below).
Proof.
  unfold layers, envsForMetaArgs, envsForComputeArgs, envsForCompactorArgs. case_bool_decide.
  { destruct (advertise_addr _ _ _) as [a|]; [|done].
    destruct (coreEnvsForMeta f (c_Image con)) as [core|] eqn:Hcore; [|done].
    destruct (envsForMetaStore f) as [store|]; [|done]. run_monad. intros [= <- _].
    apply core_names in Hcore as [Hnd Hsub].
    eapply (NoDup_layer [_; _; _; _; _]); [by_names|done..|vm_compute; reflexivity]. }
  case_bool_decide.
  { destruct (envsForFrontendArgs f) as [args|] eqn:Hargs; [|done]. run_monad.
    destruct (isEmbeddedServingModeEnabled f); intros [= <- _].
    - destruct (frontend_args_names args _ Hargs (limits_names (cpu_limit con) (memory_limit con)))
        as [Hnd Hd]. destruct envsForStateStore_names as [Hnd' Hsub].
      rewrite app_assoc. by eapply NoDup_layer.
    - destruct (frontend_args_names args [] Hargs) as [Hnd _]; [left|].
      by rewrite app_nil_r in Hnd. }
  destruct (meta_url f) as [url|]; case_bool_decide; run_monad; try done;
    try (destruct (advertise_addr _ _ _) as [a|]; [|done]); intros [= <- _]; [|by_names].
  pose proof (limits_names (cpu_limit con) (memory_limit con)) as Hl.
  rewrite !fmap_cons. rewrite !elem_of_cons, elem_of_nil in Hl.
  destruct Hl as [->|[->|[->|[->|[]]]]]; by_names.
Qed.

(** The settings of a component. *)
Definition settings_of (c : string) : RisingWaveComponent :=
  let cs := rws_Components (rw_Spec rw) in
  if bool_decide (c = ComponentMeta) then cps_Meta cs
  else if bool_decide (c = ComponentFrontend) then cps_Frontend cs
  else if bool_decide (c = ComponentCompute) then cps_Compute cs
  else if bool_decide (c = ComponentCompactor) then cps_Compactor cs
  else convertStandaloneSpecIntoComponent f.

Lemma setup_known c :
  c ∈ pod_components -> exists m, component_setup f c = Done (m, settings_of c) /\
    (c = ComponentStandalone -> m = setupStandaloneContainer f).
Proof. intros Hc. by_component Hc; eexists; (split; [reflexivity|done]). Qed.

Lemma pod_built c nodeGroup :
  c ∈ pod_components -> stores_set rw ->
  exists t, newPodTemplateSpecFromNodeGroupByComponent f c nodeGroup = Done t /\
    pod_of c (ng_Name nodeGroup) (ng_RestartAt nodeGroup) t.
Proof.
  intros Hc Hs. destruct (setup_known c Hc) as (m & Hm & Hst).
  destruct (build_pod c nodeGroup m _ Hm) as (t & _ & _ & _ & Ht & _ & _ & Hpod); [|eauto].
  intros volumes con. destruct (decide (c = ComponentStandalone)) as [->|Hne].
  - rewrite Hst by done. by apply setup_standalone.
  - apply elem_of_app in Hc as [Hc|Hc%list_elem_of_singleton]; [|done].
    destruct (setup_group c volumes con _ m Hc Hs Hm) as (_ & _ & vols & con' & _ & ? & ? & _). eauto.
Qed.

(** The variables of the user, and the resource group of a compute node. *)
Definition user_env (c : string) (nodeGroup : RisingWaveNodeGroup) : list EnvVar :=
  c_Env (with_resource_group c (ng_Name nodeGroup) (template_container (ng_Template nodeGroup))).
Definition common_env (c : string) (nodeGroup : RisingWaveNodeGroup) : list EnvVar :=
  basic_envs (settings_of c) (res_Limits (pt_Resources (ng_Template nodeGroup))).

Lemma user_container_env c nodeGroup :
  c_Env (user_container c nodeGroup (settings_of c)) =
  mergeAll same_name (user_env c nodeGroup) (common_env c nodeGroup).
Proof.
  unfold user_container, user_env, common_env, with_resource_group. by destruct (_ && _).
Qed.

Lemma user_env_NoDup c nodeGroup :
  NoDup (env_Name <$> pt_Env (ng_Template nodeGroup)) -> NoDup (env_Name <$> user_env c nodeGroup).
Proof.
  intros Hnd. unfold user_env, with_resource_group. cbn [c_Env template_container].
  destruct (_ && _) eqn:Hb; [|done]. cbn [c_Env set_c_Env].
  apply andb_true_iff in Hb as [_ Hb]. rewrite fmap_app. apply NoDup_app.
  split; [done|]. split; [|apply NoDup_singleton].
  intros x (e & -> & He)%list_elem_of_fmap Hx%list_elem_of_singleton.
  apply negb_true_iff in Hb. apply not_true_iff_false in Hb. apply Hb, existsb_exists.
  exists e. split; [by apply list_elem_of_In|by rewrite bool_decide_true].
Qed.

Lemma last_keyed_NoDup {T} (key : T -> string) n l :
  NoDup (key <$> l) -> last_keyed key n l = first_keyed key n l.
Proof. intros Hnd. apply first_keyed_perm; [done|]. apply reverse_Permutation. Qed.

(** The variables of a container before they are sorted. *)
Definition pod_env (c : string) (nodeGroup : RisingWaveNodeGroup) : outcome (list EnvVar) :=
  l ← layers c (user_container c nodeGroup (settings_of c));
  Done (mergeAll same_name (mergeAll same_name l.1
          (mergeAll same_name (user_env c nodeGroup) (common_env c nodeGroup))) l.2).

Lemma pod_env_built c nodeGroup :
  c ∈ group_components -> stores_set rw ->
  exists t con rest e,
    newPodTemplateSpecFromNodeGroupByComponent f c nodeGroup = Done t /\
    ps_Containers (pts_Spec t) = con :: rest /\ pod_env c nodeGroup = Done e /\
    c_Env con = sort_env e /\ pod_of c (ng_Name nodeGroup) (ng_RestartAt nodeGroup) t.
Proof.
  intros Hc Hs. destruct (setup_known c) as (m & Hm & _); [by apply elem_of_app; left|].
  destruct (build_pod c nodeGroup m _ Hm) as (t & volumes & vols & con' & Ht & Hrun & Hcon & Hpod).
  { intros volumes con. destruct (setup_group c volumes con _ m Hc Hs Hm)
      as (_ & _ & vols & con' & _ & ? & ? & _). eauto. }
  destruct (setup_group c volumes (user_container c nodeGroup (settings_of c)) _ m Hc Hs Hm)
    as (below & above & vols' & con'' & Hl & Hrun' & _ & Henv).
  rewrite Hrun in Hrun'. injection Hrun' as <- <-. rewrite user_container_env in Henv.
  do 3 eexists. exists (c_Env con'). split; [exact Ht|]. split; [exact Hcon|].
  split; [|by split]. unfold pod_env. rewrite Hl. run_monad. by rewrite Henv.
Qed.

(** What the variables are, by name, and that each is there once. *)
Lemma pod_env_lookup c nodeGroup e :
  NoDup (env_Name <$> pt_Env (ng_Template nodeGroup)) -> pod_env c nodeGroup = Done e ->
  exists below above, layers c (user_container c nodeGroup (settings_of c)) = Done (below, above) /\
    NoDup (env_Name <$> e) /\
    (forall n, first_keyed env_Name n e =
       last_keyed env_Name n above ∪ last_keyed env_Name n (common_env c nodeGroup) ∪
       first_keyed env_Name n (user_env c nodeGroup) ∪ first_keyed env_Name n below).
Proof.
  intros Hnd. unfold pod_env.
  destruct (layers c _) as [[below above]|] eqn:Hl; [|done].
  intros He. assert (e = mergeAll same_name (mergeAll same_name below
    (mergeAll same_name (user_env c nodeGroup) (common_env c nodeGroup))) above) as -> by (by injection He).
  exists below, above. split; [done|]. change same_name with (same_key_as env_Name). split.
  - by eapply mergeAll_NoDup, mergeAll_NoDup, layers_NoDup.
  - intros n. assert (NoDup (env_Name <$> mergeAll (same_key_as env_Name) (user_env c nodeGroup)
      (common_env c nodeGroup))) as Huc by (apply mergeAll_NoDup; by apply user_env_NoDup).
    rewrite !mergeAll_lookup, (last_keyed_NoDup env_Name n _ Huc), mergeAll_lookup.
    by destruct (last_keyed _ n above), (last_keyed _ n (common_env _ _)), (first_keyed _ n (user_env _ _)),
      (first_keyed _ n below).
Qed.

(** C13: In the container of a node group (of the four components; not of a standalone cluster), for
    a RisingWave with its stores set and a user who sets no variable twice, a variable has the
    value of the operator's last word: first the stores (but for the frontend), then what all
    containers have; then the value of the user; then the defaults of the component. The list
    the container gets is that of these variables, each once, put in order: unless some of them
    depend on each other in a cycle (or on themselves), it has every one of them once,
    behind those its value refers to. (With a cycle the ordering may lose variables:
    [self_reference_loses_variable].) *)
Theorem env_precedence c nodeGroup :
  c ∈ group_components -> stores_set rw -> HeapOk H ->
  NoDup (env_Name <$> pt_Env (ng_Template nodeGroup)) ->
  exists t con rest below above e,
    newPodTemplateSpecFromNodeGroupByComponent f c nodeGroup = Done t /\
    ps_Containers (pts_Spec t) = con :: rest /\
    layers c (user_container c nodeGroup (settings_of c)) = Done (below, above) /\
    c_Env con = sort_env e /\ NoDup (env_Name <$> e) /\
    (forall n, first_keyed env_Name n e =
       last_keyed env_Name n above ∪ last_keyed env_Name n (common_env c nodeGroup) ∪
       first_keyed env_Name n (user_env c nodeGroup) ∪ first_keyed env_Name n below) /\
    (forall rank, (forall a b, a ∈ e -> b ∈ e -> DependsOn a b = true -> rank b < rank a) ->
       c_Env con ≡ₚ e /\ forall i j a b, i <= j -> c_Env con !! i = Some a ->
         c_Env con !! j = Some b -> DependsOn a b = false).
Proof.
  intros Hc Hs HH Hnd. destruct (pod_env_built c nodeGroup Hc Hs) as (t & con & rest & e & Ht & Hcon & He & Hsort & _).
  destruct (pod_env_lookup c nodeGroup e Hnd He) as (below & above & Hl & Hnd' & Hn).
  exists t, con, rest, below, above, e. repeat (split; [done|]).
  intros rank Hrank. rewrite Hsort. unfold sort_env.
  by destruct (TopologicalSort_acyclic _ _ Hrank) as (out & -> & Hp & Ho).
Qed.
End pods.

(** ** Witness *)

(** A RisingWave with memory stores, and a group whose user sets two variables, the first of
    which the operator sets too. *)
Definition ex_memory_rw : RisingWave :=
  {| rw_Meta := {| om_Name := "rw"; om_Namespace := "default"; om_UID := "u"; om_Generation := 1;
       om_Labels := ∅; om_Annotations := ∅; om_Finalizers := []; om_Deleted := false |};
     rw_Spec := set_rws_Backends
       {| ms_Memory := Some true; ms_Etcd := None; ms_SQLite := None; ms_MySQL := None;
          ms_PostgreSQL := None |}
       {| ss_DataDirectory := "data"; ss_Memory := Some true; ss_LocalDisk := None; ss_MinIO := None;
          ss_S3 := None; ss_GCS := None; ss_AliyunOSS := None; ss_AzureBlob := None;
          ss_HDFS := None; ss_WebHDFS := None; ss_HuaweiCloudOBS := None |} zero_spec;
     rw_Status := zero_status |}.

Lemma ex_memory_stores : stores_set ex_memory_rw.
Proof. by split. Qed.

Definition ex_env_template : RisingWaveNodePodTemplate :=
  let t := zero_template in
  {| pt_ObjectMeta := pt_ObjectMeta t; pt_Image := "risingwave:v2"; pt_EnvFrom := pt_EnvFrom t;
     pt_Env := [env_value envs.RustMinStack "1"; env_value envs.RWConfigPath "/etc/rw.toml"];
     pt_Resources := pt_Resources t; pt_VolumeMounts := pt_VolumeMounts t;
     pt_VolumeDevices := pt_VolumeDevices t; pt_ImagePullPolicy := pt_ImagePullPolicy t;
     pt_ContainerSecurityContext := pt_ContainerSecurityContext t; pt_Volumes := pt_Volumes t;
     pt_AdditionalContainers := pt_AdditionalContainers t; pt_Spec := pt_Spec t |}.
Definition ex_env_group : RisingWaveNodeGroup :=
  let g := simple_group "big" 1 in
  {| ng_Name := ng_Name g; ng_Replicas := ng_Replicas g; ng_RestartAt := ng_RestartAt g;
     ng_Configuration := ng_Configuration g; ng_UpgradeStrategy := ng_UpgradeStrategy g;
     ng_MinReadySeconds := ng_MinReadySeconds g;
     ng_VolumeClaimTemplates := ng_VolumeClaimTemplates g;
     ng_PersistentVolumeClaimRetentionPolicy := ng_PersistentVolumeClaimRetentionPolicy g;
     ng_ProgressDeadlineSeconds := ng_ProgressDeadlineSeconds g; ng_Template := ex_env_template |}.

Definition ex_pod_lib : FactoryLib :=
  {| semver_Compare := fun _ _ => 1%Z; InPlaceUpdateReady := ""; cpu_Ceil := fun _ => 1%Z;
     cpu_Value := fun _ => 1%Z; memory_AsInt64 := fun _ => 0%Z |}.

(** The operator's stack size wins over the user's, the user's configuration path over the
    operator's. *)
Lemma env_precedence_witness :
  exists t con rest e,
    newPodTemplateSpecFromNodeGroupByComponent (L := ex_pod_lib) (H := list_heap)
      (N := {| sort_by := fun T name l => l |}) (NewRisingWaveObjectFactory ex_memory_rw "v1")
      ComponentCompute ex_env_group = Done t /\
    ps_Containers (pts_Spec t) = con :: rest /\ c_Env con = sort_env (H := list_heap) e /\
    first_keyed env_Name envs.RustMinStack e = Some (env_value envs.RustMinStack "4194304") /\
    first_keyed env_Name envs.RWConfigPath e = Some (env_value envs.RWConfigPath "/etc/rw.toml") /\
    first_keyed env_Name envs.RWResourceGroup e = Some (env_value envs.RWResourceGroup "big").
Proof.
  destruct (@env_precedence ex_memory_rw "v1" ex_pod_lib list_heap {| sort_by := fun T name l => l |}
    ComponentCompute ex_env_group) as (t & con & rest & below & above & e & Ht & Hcon & Hl & He & _ & Hn & _).
  - by apply (list_elem_of_lookup_2 _ 1).
  - exact ex_memory_stores.
  - exact list_heap_ok.
  - apply distinct_NoDup. by vm_compute.
  - exists t, con, rest, e. split; [exact Ht|]. split; [exact Hcon|]. split; [exact He|].
    vm_compute in Hl. injection Hl as <- <-. rewrite !Hn. by vm_compute.
Defined.
