(* ===== verification/FactoryWorkloads.v ===== *)
(** * pkg/factory: what the workloads and services are, and that they serve the manager

    The workload of a node group and the service of a component, of every RisingWave the
    webhook accepts; the factory keeps the promise [WorkloadFactory] the manager relies on. *)

From S2P Require Import Prelude GoStrings GoPaths ApiTypes ApiErrors RisingWaveManager Workloads ManagerState WorkloadSync WorkloadConvergence ScaleHelper.
From S2P Require Import ManagerImpl EnvSort RisingWaveWebhook FactoryBase FactoryEnvs FactoryPods FactoryObjects FactorySpec FactoryPodSpec.

(** ** What a workload is *)

Definition template_of (s : ObjectSpec) : option PodTemplateSpec :=
  match s with
  | DeploymentObject d => Some (dep_Template d)
  | CloneSetObject c => Some (cls_Template c)
  | StatefulSetObject s => Some (sts_Template _ s)
  | AdvancedStatefulSetObject s => Some (sts_Template _ s)
  | _ => None
  end.

Definition selector_of (s : ObjectSpec) : gmap string string :=
  match s with
  | DeploymentObject d => dep_Selector d
  | CloneSetObject c => cls_Selector c
  | StatefulSetObject s => sts_Selector _ s
  | AdvancedStatefulSetObject s => sts_Selector _ s
  | ServiceObject s => ssp_Selector s
  | _ => ∅
  end.

(** The service a stateful set names. *)
Definition service_of (s : ObjectSpec) : option string :=
  match s with
  | StatefulSetObject s => Some (sts_ServiceName _ s)
  | AdvancedStatefulSetObject s => Some (sts_ServiceName _ s)
  | _ => None
  end.

(** The components whose pods have a state. *)
Definition stateful (c : string) : bool :=
  bool_decide (c ∈ [ComponentMeta; ComponentCompute; ComponentStandalone]).

Definition workload_kind (kruise : bool) (c : string) : object_kind :=
  if stateful c then if kruise then KAdvancedStatefulSet else KStatefulSet
  else if kruise then KCloneSet else KDeployment.

Definition partition_ok (ng : RisingWaveNodeGroup) : Prop :=
  is_done (partition_number (ru_Partition (rollingUpdateOrDefault
    (us_RollingUpdate (ng_UpgradeStrategy ng))))) = true.

Lemma node_group_partition regexp dns cmp kruise ng :
  node_group_ok regexp dns cmp kruise ng -> partition_ok ng.
Proof.
  intros H. pose proof (ngo_partition _ _ _ _ _ H) as Hp. unfold partition_ok.
  unfold nodeGroupPartitionExistAndIsString, partition_string in Hp.
  destruct (us_RollingUpdate _) as [[mu [[n|s]|] ms]|]; cbn; try done.
  destruct Hp as [n Hn]; [done|]. cbn in Hn. by rewrite Hn.
Qed.

(** What the factory needs of a RisingWave. *)
Record buildable (rw : RisingWave) : Prop := {
  bu_stores : stores_set rw;
  bu_partition : Forall partition_ok (all_node_groups (rws_Components (rw_Spec rw)));
  bu_frontend l : l ∈ dom (pom_Labels (rws_AdditionalFrontendServiceMetadata (rw_Spec rw))) ->
    HasPrefix l "risingwave/" = false;
  bu_meta l : l ∈ dom (pom_Labels (rws_AdditionalMetaServiceMetadata (rw_Spec rw))) ->
    HasPrefix l "risingwave/" = false;
}.

Lemma accepted_buildable (O : RangeOrder) (HO : RangeOrderOk O) regexp dns cmp available rw :
  RisingWave_validateCreate regexp dns cmp available rw = Done None -> buildable rw.
Proof.
  rewrite validateCreate_None by done. intros (_ & Hf & Hm & _ & Hs & _ & Hg & _).
  split; [by apply stores_ok_set| |done|done].
  eapply Forall_impl; [exact Hg|]. intros ng. apply node_group_partition.
Qed.

Section workloads.
Context (v : string) `{L : FactoryLib} `{C : ControllerReference ObjectSpec} {CO : ControllerReferenceOk C}.
Context `{H : Heap} `{N : NameSort}.
Abbreviation Obj := (Object ObjectSpec).

(** The builder of a kind. *)
Definition builder (f : RisingWaveObjectFactory) (kruise : bool) (c : string)
  : string -> RisingWaveNodeGroup -> PodTemplateSpec -> outcome Obj :=
  if stateful c then if kruise then newAdvancedStatefulSet f else newStatefulSet f
  else if kruise then newCloneSet f else newDeployment f.

Record workload_of (rw : RisingWave) (kruise : bool) (c : string) (ng : RisingWaveNodeGroup)
    (o : Obj) : Prop := {
  wo_kind : o_Kind o = workload_kind kruise c;
  wo_meta : system_meta rw v (workload_name rw c (ng_Name ng)) c (Some (ng_Name ng)) true (o_Meta o);
  wo_replicas : o_SpecReplicas o = Some (ng_Replicas ng);
  wo_selector : selector_of (o_Spec o) =
    {[ LabelRisingWaveName := om_Name (rw_Meta rw); LabelRisingWaveComponent := c;
       LabelRisingWaveGroup := ng_Name ng ]};
  wo_service : service_of (o_Spec o) = if stateful c then Some (workload_name rw c "") else None;
  wo_template : exists t, template_of (o_Spec o) = Some t /\
    pod_of rw v c (ng_Name ng) (ng_RestartAt ng) t;
}.

Lemma pod_of_gate rw c g r t :
  pod_of rw v c g r t -> pod_of rw v c g r (with_readiness_gate t).
Proof. by intros [H1 H2 H3 H4 H5 H6 H7]; split. Qed.

Ltac built :=
  eexists; split; [reflexivity|]; split; cbn;
    match goal with Hst : stateful _ = _ |- _ => unfold workload_kind; rewrite ?Hst end; try done.

Lemma built_workload rw c kruise ng :
  stores_set rw -> component_group c (ng_Name ng) -> (kruise = true -> partition_ok ng) ->
  exists o, build_workload (NewRisingWaveObjectFactory rw v) c ng
      (builder (NewRisingWaveObjectFactory rw v) kruise c) = Done o /\
    workload_of rw kruise c ng o.
Proof.
  intros Hs Hc Hp. unfold build_workload.
  destruct (pod_built rw v c (overrideFieldsOfNodeGroup (NewRisingWaveObjectFactory rw v) ng))
    as (t & Ht & Hpod); [by destruct Hc|done|]. rewrite Ht. run_monad.
  destruct (group_meta rw v c (ng_Name ng) Hc) as (m & Hm & Hsys).
  assert (exists o, builder (NewRisingWaveObjectFactory rw v) kruise c c
      (overrideFieldsOfNodeGroup (NewRisingWaveObjectFactory rw v) ng) t = Done o /\
    workload_of rw kruise c ng o) as (o & Hb & Ho).
  { assert (componentName (NewRisingWaveObjectFactory rw v) c "" = Done (workload_name rw c ""))
      as Hn by (apply componentName_group; by destruct Hc).
    unfold builder. destruct (stateful c) eqn:Hst, kruise;
      unfold newAdvancedStatefulSet, newStatefulSet, newCloneSet, newDeployment;
      cbn [ng_Name overrideFieldsOfNodeGroup] in *; rewrite Hm; run_monad; rewrite ?Hn.
    - destruct (is_done_inv _ (Hp eq_refl)) as [n Hpn].
      unfold buildUpgradeStrategyForAdvancedStatefulSet. cbn [ng_UpgradeStrategy overrideFieldsOfNodeGroup].
      rewrite Hpn. run_monad. built. eexists; split; [reflexivity|]. by apply pod_of_gate.
    - built. eauto.
    - built. eexists; split; [reflexivity|]. by apply pod_of_gate.
    - built. eauto. }
  rewrite Hb. exists o. split; [|done]. unfold mustSetControllerReference.
  by rewrite reference_set by apply (sm_namespace _ _ _ _ _ _ _ (wo_meta _ _ _ _ _ Ho)).
Qed.

(** ** The factory, by component and kind *)

Definition new_workload (kruise : bool) (c : string) (rw : RisingWave) (group : string)
  : outcome (option Obj) :=
  let F := Factory v in
  if bool_decide (c = ComponentMeta) then
    if kruise then @ManagerImpl.NewMetaAdvancedStatefulSet _ F rw group
    else @ManagerImpl.NewMetaStatefulSet _ F rw group
  else if bool_decide (c = ComponentFrontend) then
    if kruise then @ManagerImpl.NewFrontendCloneSet _ F rw group
    else @ManagerImpl.NewFrontendDeployment _ F rw group
  else if bool_decide (c = ComponentCompute) then
    if kruise then @ManagerImpl.NewComputeAdvancedStatefulSet _ F rw group
    else @ManagerImpl.NewComputeStatefulSet _ F rw group
  else if kruise then @ManagerImpl.NewCompactorCloneSet _ F rw group
  else @ManagerImpl.NewCompactorDeployment _ F rw group.

Lemma new_workload_unfold kruise c rw group :
  c ∈ group_components ->
  new_workload kruise c rw group =
    o ← newWorkloadObjectForComponentNodeGroup (NewRisingWaveObjectFactory rw v) c group
          (builder (NewRisingWaveObjectFactory rw v) kruise c); Done (Some o).
Proof. intros Hc. by_component Hc; by destruct kruise. Qed.

(** The group of a name. *)
Definition group_named (rw : RisingWave) (c group : string) : option RisingWaveNodeGroup :=
  gs ← node_groups rw c; snd <$> find_index (fun g => bool_decide (ng_Name g = group)) gs.

Lemma group_named_spec rw c group ng :
  c ∈ group_components -> group_named rw c group = Some ng ->
  GetNodeGroup rw c group = Done (Some ng) /\ ng_Name ng = group /\
  ng ∈ all_node_groups (rws_Components (rw_Spec rw)).
Proof.
  intros Hc Hg. unfold GetNodeGroup, GetNodeGroups. unfold group_named in Hg.
  destruct (node_groups rw c) as [gs|] eqn:Hgs; [|done]. cbn in Hg. run_monad.
  rewrite Hg. split; [done|].
  apply fmap_Some in Hg as ([i ng'] & Hfind & ->).
  apply find_index_Some in Hfind as (Hi & Hname & _). cbn. case_bool. split; [done|].
  apply list_elem_of_lookup_2 in Hi. unfold all_node_groups.
  by_component Hc; cbn in Hgs; injection Hgs as <-; rewrite !elem_of_app; auto.
Qed.

Lemma workload_built rw kruise c group ng :
  buildable rw -> c ∈ group_components -> group_named rw c group = Some ng ->
  exists o, new_workload kruise c rw group = Done (Some o) /\ workload_of rw kruise c ng o.
Proof.
  intros Hb Hc Hg. rewrite new_workload_unfold by done.
  destruct (group_named_spec _ _ _ _ Hc Hg) as (Hget & <- & Hin).
  unfold newWorkloadObjectForComponentNodeGroup. cbn [f_risingwave NewRisingWaveObjectFactory].
  rewrite Hget. run_monad.
  destruct (built_workload rw c kruise ng (bu_stores _ Hb)) as (o & -> & Ho).
  - by apply component_group_intro.
  - intros _. pose proof (bu_partition _ Hb) as Hp. rewrite Forall_forall in Hp. by apply Hp.
  - eauto.
Qed.

Lemma expected_group_named rw c expected g :
  c ∈ group_components -> buildExpectedGroupSet rw c = Done expected ->
  g ∈ expected <-> is_Some (group_named rw c g).
Proof.
  intros Hc. unfold buildExpectedGroupSet, GetNodeGroups, group_named.
  destruct (node_groups rw c) as [gs|] eqn:Hgs; run_monad.
  - intros [= <-]. unfold buildKeyMapFromList. rewrite elem_of_list_to_set. cbn.
    change (snd <$> find_index (fun g0 => bool_decide (ng_Name g0 = g)) gs)
      with (first_keyed ng_Name g gs).
    destruct (first_keyed ng_Name g gs) as [ng|] eqn:Hf.
    + apply first_keyed_Some in Hf as [Hin <-]. split; [eauto|].
      intros _. by apply list_elem_of_fmap_2.
    + apply first_keyed_None in Hf. split; [done|by intros [? ?]].
  - exfalso. by by_component Hc.
Qed.

Lemma meta_synced rw name c g m o :
  in_int64 (om_Generation (rw_Meta rw)) -> o_Meta (B := ObjectSpec) o = m ->
  system_meta rw v name c g true m -> isObjectSynced rw (Some o) = true.
Proof.
  intros Hgen Ho Hm. unfold isObjectSynced, label.
  rewrite Ho, (sm_label_generation _ _ _ _ _ _ _ Hm). cbn [default from_option id generation_label].
  case_bool_decide; [done|]. rewrite ParseInt64_FormatInt by done. by apply bool_decide_true.
Qed.

(** The factory keeps its promise to the manager. *)
Lemma factory_promise rw kruise c expected :
  buildable rw -> in_int64 (om_Generation (rw_Meta rw)) -> c ∈ group_components ->
  (forall g, g ∈ expected -> is_Some (group_named rw c g)) ->
  WorkloadFactory (workload_kind kruise c) rw expected (new_workload kruise c rw)
    (workload_name rw c) (om_Namespace (rw_Meta rw)).
Proof.
  intros Hb Hgen Hc Hexp. split; [apply _|]. intros g Hg.
  destruct (Hexp g Hg) as [ng Hng].
  destruct (workload_built rw kruise c g ng Hb Hc Hng) as (o & -> & Ho).
  apply group_named_spec in Hng as (_ & <- & _); [|done].
  pose proof (wo_meta _ _ _ _ _ Ho) as Hm.
  exists o. split; [done|]. split; [apply Ho|]. split.
  { unfold group_of, label. by rewrite (sm_label_group _ _ _ _ _ _ _ Hm). }
  split; [apply Hm|]. split; [apply Hm|]. by eapply meta_synced.
Qed.
End workloads.
