(* ===== verification/FactoryServices.v ===== *)
(** * pkg/factory: the services, and what the factory promises as a whole

    The service of a component reaches the pods of that component and their ports; and the
    theorems about the objects of every RisingWave the webhook accepts. *)

From S2P Require Import Prelude GoStrings GoPaths ApiTypes ApiErrors RisingWaveManager Workloads ManagerState WorkloadSync WorkloadConvergence ScaleHelper.
From S2P Require Import ManagerImpl EnvSort RisingWaveWebhook FactoryBase FactoryEnvs FactoryPods FactoryObjects FactorySpec FactoryPodSpec FactoryWorkloads.

Section services.
Context (v : string) `{L : FactoryLib} `{C : ControllerReference ObjectSpec} {CO : ControllerReferenceOk C}.
Context `{H : Heap} `{N : NameSort}.
Abbreviation Obj := (Object ObjectSpec).

Definition new_service (c : string) (rw : RisingWave) : outcome (option Obj) :=
  let F := Factory v in
  if bool_decide (c = ComponentMeta) then @ManagerImpl.NewMetaService _ F rw
  else if bool_decide (c = ComponentFrontend) then @ManagerImpl.NewFrontendService _ F rw
  else if bool_decide (c = ComponentCompute) then @ManagerImpl.NewComputeService _ F rw
  else if bool_decide (c = ComponentCompactor) then @ManagerImpl.NewCompactorService _ F rw
  else @ManagerImpl.NewStandaloneService _ F rw.

(** The component whose pods the service of a component reaches: the frontend's service
    reaches the standalone node where there is one. *)
Definition service_target (rw : RisingWave) (c : string) : string :=
  if bool_decide (c = ComponentFrontend) && IsStandaloneModeEnabled rw
  then ComponentStandalone else c.

(** A port of a service leads to a port of the pods with the same number. *)
Definition leads_to (ports : list ContainerPort) (p : ServicePort) : Prop :=
  exists cp, cp ∈ ports /\ svp_TargetPort p = StrVal (cp_Name cp) /\ svp_Port p = cp_ContainerPort cp.

Record service_ok (rw : RisingWave) (c : string) (o : Obj) (s : ServiceSpec) : Prop := {
  se_kind : o_Kind o = KService;
  se_spec : o_Spec o = ServiceObject s;
  se_meta : system_meta rw v (workload_name rw c "") c None true (o_Meta o);
  se_selector : ssp_Selector s =
    {[ LabelRisingWaveName := om_Name (rw_Meta rw);
       LabelRisingWaveComponent := service_target rw c ]};
  se_ports : Forall (leads_to (ports_of rw v (service_target rw c))) (ssp_Ports s);
  se_metrics : service_target rw c = c -> PortMetrics ∈ svp_Name <$> ssp_Ports s;
}.

Ltac known :=
  repeat match goal with
  | Hw : isWebhookListenerEnabled _ = _ |- _ => rewrite Hw
  | Ht : service_target _ _ = _ |- _ => rewrite Ht
  end.
Ltac leads :=
  known; repeat apply Forall_cons_2; try apply Forall_nil_2;
  (eexists (tcp_port _ _); split; [|split; reflexivity]);
  unfold ports_of, portsForMetaContainer, portsForFrontendContainer, portsForComputeContainer,
    portsForCompactorContainer, portsForStandaloneContainer, webhook_ports; known; cbn; set_solver.

(** The labels of a user do not replace those of the system. *)
Lemma add_metadata_system rw c g sync p o :
  (forall l, l ∈ dom (pom_Labels p) -> HasPrefix l "risingwave/" = false) ->
  system_meta rw v (workload_name rw c "") c g sync (o_Meta o) -> g = None ->
  system_meta rw v (workload_name rw c "") c g sync (o_Meta (add_metadata p o)).
Proof.
  intros Hp Hm Hg.
  assert (forall k, k ∈ system_labels ->
    om_Labels (o_Meta (add_metadata p o)) !! k = om_Labels (o_Meta o) !! k) as Hk.
  { intros k Hk. cbn. unfold mergeMap. apply lookup_union_r.
    destruct (pom_Labels p !! k) as [x|] eqn:Hx; [|done]. exfalso.
    apply elem_of_dom_2, Hp in Hx. revert Hx. unfold system_labels in Hk.
    rewrite !elem_of_cons, elem_of_nil in Hk.
    destruct Hk as [->|[->|[->|[->|[->|[->|[]]]]]]]; by vm_compute. }
  destruct Hm as [H1 H2 H3 H4 H5 H6 H7].
  split; [done|done|rewrite Hk by system_label; assumption..].
Qed.

Lemma must_set rw (o : Obj) :
  om_Namespace (o_Meta o) = om_Namespace (rw_Meta rw) -> mustSetControllerReference rw o = Done o.
Proof. intros Hn. unfold mustSetControllerReference. by rewrite reference_set. Qed.

Lemma set_reference rw c name g (o : Obj) :
  system_meta rw v name c g true (o_Meta o) -> mustSetControllerReference rw o = Done o.
Proof. intros Hm. apply must_set, Hm. Qed.

Ltac service_done :=
  do 2 eexists; split; [reflexivity|]; split;
    [reflexivity|reflexivity|assumption|known; reflexivity|cbn [ssp_Ports app]; leads
    |cbn [ssp_Ports app]; known; first [discriminate|set_solver]].

Lemma frontend_built rw :
  buildable rw ->
  exists o s, new_service ComponentFrontend rw = Done (Some o) /\ service_ok rw ComponentFrontend o s.
Proof.
  intros Hb. destruct (component_meta rw v ComponentFrontend true) as (m & Hm & Hsys);
    [by apply (list_elem_of_lookup_2 _ 2)|].
  unfold new_service; cbn. unfold NewFrontendService, newService. rewrite Hm. run_monad.
  assert (system_meta rw v (workload_name rw ComponentFrontend "") ComponentFrontend None true
    (o_Meta (add_metadata (rws_AdditionalFrontendServiceMetadata (rw_Spec rw))
       (new_object KService m None (ConfigMapObject ∅))))) as Hsys'.
  { apply add_metadata_system; [apply Hb|done..]. }
  assert (service_target rw ComponentFrontend =
    if default false (rws_EnableStandaloneMode (rw_Spec rw))
    then ComponentStandalone else ComponentFrontend) as Ht by done.
  unfold webhook_service_ports, IsStandaloneModeEnabled.
  cbn [f_risingwave NewRisingWaveObjectFactory].
  destruct (default false (rws_EnableStandaloneMode (rw_Spec rw))) eqn:Hst;
    destruct (isWebhookListenerEnabled (NewRisingWaveObjectFactory rw v)) eqn:Hw;
    (rewrite (set_reference rw ComponentFrontend (workload_name rw ComponentFrontend "") None)
       by done).
  all: service_done.
Qed.

Lemma service_built rw c :
  buildable rw -> c ∈ pod_components ->
  exists o s, new_service c rw = Done (Some o) /\ service_ok rw c o s.
Proof.
  intros Hb Hc. destruct (decide (c = ComponentFrontend)) as [->|Hne]; [by apply frontend_built|].
  assert (service_target rw c = c) as Ht by (unfold service_target; by rewrite bool_decide_false).
  destruct (component_meta rw v c true Hc) as (m & Hm & Hsys).
  by_component Hc; unfold new_service; cbn;
    unfold NewMetaService, NewComputeService, NewCompactorService, NewStandaloneService, newService;
    rewrite Hm; run_monad.
  - assert (system_meta rw v (workload_name rw ComponentMeta "") ComponentMeta None true
      (o_Meta (add_metadata (rws_AdditionalMetaServiceMetadata (rw_Spec rw))
         (new_object KService m None (ConfigMapObject ∅))))) as Hsys'.
    { apply add_metadata_system; [apply Hb|done..]. }
    rewrite (set_reference rw ComponentMeta (workload_name rw ComponentMeta "") None) by done.
    service_done.
  - rewrite (set_reference rw ComponentCompute (workload_name rw ComponentCompute "") None) by done.
    service_done.
  - rewrite (set_reference rw ComponentCompactor (workload_name rw ComponentCompactor "") None)
      by done.
    service_done.
  - unfold webhook_service_ports.
    destruct (isWebhookListenerEnabled (NewRisingWaveObjectFactory rw v)) eqn:Hw;
      (rewrite (set_reference rw ComponentStandalone (workload_name rw ComponentStandalone "") None)
         by done).
    all: service_done.
Qed.

(** The pods of a group without a configuration of its own, in a RisingWave without one,
    read the configuration from the object the manager creates for it. *)
Theorem default_config_reaches_pods rw ng val :
  nc_ConfigMap (rws_Configuration (rw_Spec rw)) = None ->
  nc_Secret (rws_Configuration (rw_Spec rw)) = None -> ng_Configuration ng = None ->
  exists o vol, @ManagerImpl.NewConfigConfigMap _ (Factory v) rw val = Done (Some o) /\
    FactoryPods.risingWaveConfigVolume (NewRisingWaveObjectFactory rw v) ng = Done vol /\
    vol_Source vol = ConfigMapVolume (GetName o) [(risingWaveConfigMapKey, risingwaveConfigFileName)] None /\
    o_Spec o = ConfigMapObject {[ risingWaveConfigMapKey := val ]} /\
    forall rw', isObjectSynced rw' (Some o) = true.
Proof.
  intros Hcm Hsec Hng.
  set (meta := new_meta (NewRisingWaveObjectFactory rw v) (om_Name (rw_Meta rw) +:+ "-default-config")
    {[ LabelRisingWaveName := om_Name (rw_Meta rw); LabelRisingWaveComponent := ComponentConfig;
       LabelRisingWaveGeneration := NoSync; LabelRisingWaveOperatorVersion := v ]}).
  exists (new_object KConfigMap meta None (ConfigMapObject {[ risingWaveConfigMapKey := val ]})).
  exists {| vol_Name := FactoryBase.risingWaveConfigVolume;
            vol_Source := ConfigMapVolume (om_Name meta)
              [(risingWaveConfigMapKey, risingwaveConfigFileName)] None |}.
  split.
  { cbn. unfold NewConfigConfigMap, getObjectMetaForComponentLevelResources. run_monad.
    change (componentName _ ComponentConfig "")
      with (Done (om_Name (rw_Meta rw) +:+ "-default-config")).
    cbv beta iota. by rewrite must_set. }
  split; [|split; [reflexivity|split; [done|]]].
  - unfold FactoryPods.risingWaveConfigVolume. rewrite Hng. cbn. by rewrite Hcm, Hsec.
  - intros rw'. unfold isObjectSynced, label.
    assert (om_Labels meta !! LabelRisingWaveGeneration = Some NoSync) as Hl.
    { unfold meta. cbn [om_Labels new_meta]. by rewrite mergeMap_inherited_lookup by system_label. }
    cbn [o_Meta new_object]. by rewrite Hl.
Qed.
End services.

(** ** Properties *)

Section properties.
Context (v : string) `{L : FactoryLib} `{C : ControllerReference ObjectSpec} {CO : ControllerReferenceOk C}.
Context `{H : Heap} `{N : NameSort} {O : RangeOrder} {HO : RangeOrderOk O}.
Context (regexp : string -> bool) (dns : string -> list string).
Context (cmp : option string -> option string -> comparison) (available : bool).
Abbreviation Obj := (Object ObjectSpec).

Definition accepted (rw : RisingWave) : Prop :=
  RisingWave_validateCreate regexp dns cmp available rw = Done None.


(** The factory keeps the promise the manager's passes rely on: for an accepted RisingWave
    and a component with node groups it builds, for each expected group, a current object of
    the right kind under the group's own name. *)
Theorem factory_serves_sync rw kruise c expected :
  accepted rw -> in_int64 (om_Generation (rw_Meta rw)) -> c ∈ group_components ->
  buildExpectedGroupSet rw c = Done expected ->
  WorkloadFactory (workload_kind kruise c) rw expected (new_workload v kruise c rw)
    (workload_name rw c) (om_Namespace (rw_Meta rw)).
Proof.
  intros Ha Hgen Hc He. apply factory_promise; [exact CO|by eapply accepted_buildable|done|done|].
  intros g Hg. by rewrite <-expected_group_named.
Qed.

(** The action that brings the workloads of a component and kind up to date. *)
Definition sync_action `{E : ClusterEnv ObjectSpec} (kruise : bool) (c : string) (l : list Obj)
  : GoM (risingWaveControllerManagerImpl ObjectSpec) ctrl_result :=
  let F := Factory v in
  if bool_decide (c = ComponentMeta) then
    if kruise then SyncMetaAdvancedStatefulSets (F := F) l else SyncMetaStatefulSets (F := F) l
  else if bool_decide (c = ComponentFrontend) then
    if kruise then SyncFrontendCloneSets (F := F) l else SyncFrontendDeployments (F := F) l
  else if bool_decide (c = ComponentCompute) then
    if kruise then SyncComputeAdvancedStatefulSets (F := F) l else SyncComputeStatefulSets (F := F) l
  else if kruise then SyncCompactorCloneSets (F := F) l else SyncCompactorDeployments (F := F) l.

Section passes.
Context {E : ClusterEnv ObjectSpec}.

(** Whether the workloads of a kind are the expected ones. *)
Definition kind_enabled (kruise : bool) (m : risingWaveControllerManagerImpl ObjectSpec) : bool :=
  (if kruise then openkruise_enabled m else negb (openkruise_enabled m)) &&
  negb (standalone_enabled m).

Lemma sync_action_spec kruise c l m :
  c ∈ group_components ->
  sync_action kruise c l m =
    syncComponentGroupWorkloads (workload_kind kruise c) c l (new_workload v kruise c (observed_rw m))
      (kind_enabled kruise m) m.
Proof. intros Hc. by by_component Hc; destruct kruise. Qed.

End passes.

(** C5: The service of a component selects the pods of that component of that RisingWave and no
    others (the frontend's those of the standalone node, where there is one), and each of its
    ports is a port of those pods' container, under the same name and number. *)
Theorem service_reaches_pods rw c :
  accepted rw -> c ∈ pod_components ->
  exists o s, new_service v c rw = Done (Some o) /\ o_Spec o = ServiceObject s /\
    forall v' rw' kruise c' ng o' t, workload_of v' rw' kruise c' ng o' ->
      template_of (o_Spec o') = Some t ->
      (ssp_Selector s ⊆ pts_Labels t <->
         om_Name (rw_Meta rw') = om_Name (rw_Meta rw) /\ c' = service_target rw c) /\
      (rw' = rw -> c' = service_target rw c -> exists con rest,
         ps_Containers (pts_Spec t) = con :: rest /\ Forall (leads_to (c_Ports con)) (ssp_Ports s)).
Proof.
  intros Ha Hc.
  destruct (service_built v rw c (accepted_buildable O HO _ _ _ _ _ Ha) Hc) as (o & s & Ho & Hs).
  exists o, s. split; [done|]. split; [apply Hs|].
  intros v' rw' kruise c' ng o' t Hw Ht.
  destruct (wo_template _ _ _ _ _ _ Hw) as (t' & Ht' & Hpod). rewrite Ht in Ht'.
  injection Ht' as <-. split.
  - rewrite (se_selector _ _ _ _ _ Hs), map_subseteq_spec. split.
    + intros Hsub. pose proof (Hsub LabelRisingWaveName _ eq_refl) as Hn.
      pose proof (Hsub LabelRisingWaveComponent _ eq_refl) as Hcomp.
      rewrite (po_label_name _ _ _ _ _ _ Hpod) in Hn.
      rewrite (po_label_component _ _ _ _ _ _ Hpod) in Hcomp. by simplify_eq.
    + intros [Hn ->] k x Hk. apply lookup_insert_Some in Hk as [[<- <-]|[_ Hk]].
      * rewrite <-Hn. apply Hpod.
      * apply lookup_singleton_Some in Hk as [<- <-]. apply Hpod.
  - intros -> ->. destruct (po_container _ _ _ _ _ _ Hpod) as (con & rest & Hcon & _ & Hports & _).
    exists con, rest. split; [done|]. rewrite Hports. exact (se_ports _ _ _ _ _ Hs).
Qed.

(** C9: Whatever else changes between two accepted versions of a RisingWave (of one name and
    namespace) that use the same kind of workload, of Kubernetes or of OpenKruise, the workload of
    a group they both have keeps its name, namespace, selector and service: the manager can
    replace the old object by the new one, and the new one selects the pods of the old one.
    (Where the switch of OpenKruise changes, the objects of one kind are replaced by objects of
    the other: see C36.) *)
Theorem rebuild_keeps_identity rw rw' kruise c g o :
  accepted rw -> accepted rw' -> c ∈ group_components ->
  om_Name (rw_Meta rw') = om_Name (rw_Meta rw) ->
  om_Namespace (rw_Meta rw') = om_Namespace (rw_Meta rw) ->
  new_workload v kruise c rw g = Done (Some o) -> is_Some (group_named rw c g) ->
  is_Some (group_named rw' c g) ->
  exists o', new_workload v kruise c rw' g = Done (Some o') /\
    ensureTheSameObject (workload_kind kruise c) (Some o) (Some o') = Done o' /\
    selector_of (o_Spec o') = selector_of (o_Spec o) /\
    service_of (o_Spec o') = service_of (o_Spec o) /\
    (forall t, template_of (o_Spec o) = Some t -> selector_of (o_Spec o') ⊆ pts_Labels t).
Proof.
  intros Ha Ha' Hc Hn Hns Ho [ng Hg] [ng' Hg'].
  destruct (workload_built v rw kruise c g ng (accepted_buildable O HO _ _ _ _ _ Ha) Hc Hg)
    as (o1 & Ho1 & Hw). rewrite Ho in Ho1. injection Ho1 as <-.
  destruct (workload_built v rw' kruise c g ng' (accepted_buildable O HO _ _ _ _ _ Ha') Hc Hg')
    as (o' & Ho' & Hw').
  apply group_named_spec in Hg as (_ & Hname & _), Hg' as (_ & Hname' & _); [|done..].
  destruct Hw as [Hk Hm _ Hsel Hsvc (t & Ht & Hpod)], Hw' as [Hk' Hm' _ Hsel' Hsvc' _].
  assert (selector_of (o_Spec o') = selector_of (o_Spec o)) as Heq
    by (rewrite Hsel, Hsel', Hn, Hname, Hname'; done).
  exists o'. split; [done|]. split; [|split; [done|split]].
  - unfold ensureTheSameObject, GetName, GetNamespace.
    rewrite (sm_name _ _ _ _ _ _ _ Hm), (sm_name _ _ _ _ _ _ _ Hm'),
      (sm_namespace _ _ _ _ _ _ _ Hm), (sm_namespace _ _ _ _ _ _ _ Hm'), Hk'.
    unfold workload_name. by rewrite Hn, Hns, Hname, Hname', !bool_decide_true.
  - rewrite Hsvc, Hsvc'. unfold workload_name. by rewrite Hn.
  - intros t' Ht'. rewrite Ht in Ht'. injection Ht' as <-. rewrite Heq, Hsel.
    apply map_subseteq_spec. intros k x Hx.
    apply lookup_insert_Some in Hx as [[<- <-]|[_ Hx]]; [apply Hpod|].
    apply lookup_insert_Some in Hx as [[<- <-]|[_ Hx]]; [apply Hpod|].
    apply lookup_singleton_Some in Hx as [<- <-]. apply Hpod.
Qed.

Definition set_standalone (sa : option RisingWaveStandaloneComponent) (rw : RisingWave) : RisingWave :=
  let cs := rws_Components (rw_Spec rw) in
  set_rw_Spec (set_rws_Components
    {| cps_Standalone := sa; cps_Meta := cps_Meta cs; cps_Frontend := cps_Frontend cs;
       cps_Compute := cps_Compute cs; cps_Compactor := cps_Compactor cs |} (rw_Spec rw)) rw.

(** The webhook does not look at the standalone component: it accepts a partition that is
    not a number there, and then the factory panics on the stateful set of OpenKruise. *)
Theorem standalone_not_validated rw sa ru p :
  accepted rw -> us_RollingUpdate (sa_UpgradeStrategy sa) = Some ru ->
  ru_Partition ru = Some (StrVal p) -> Atoi (ReplaceAll_char p "%"%char "") = None ->
  accepted (set_standalone (Some sa) rw) /\
  is_done (@ManagerImpl.NewStandaloneAdvancedStatefulSet _ (Factory v)
             (set_standalone (Some sa) rw)) = false.
Proof.
  intros Ha Hru Hp Hn. assert (accepted (set_standalone (Some sa) rw)) as Ha' by exact Ha.
  split; [exact Ha'|]. pose proof (accepted_buildable O HO _ _ _ _ _ Ha') as Hb.
  set (rw' := set_standalone (Some sa) rw) in *. cbn -[newAdvancedStatefulSet].
  unfold NewStandaloneAdvancedStatefulSet, build_workload.
  destruct (pod_built rw' v ComponentStandalone (overrideFieldsOfNodeGroup
    (NewRisingWaveObjectFactory rw' v)
    (convertStandaloneIntoNodeGroup (NewRisingWaveObjectFactory rw' v)))) as (t & -> & _);
    [by apply elem_of_app; right; left|by apply bu_stores|]. run_monad.
  unfold newAdvancedStatefulSet.
  destruct (getObjectMetaForComponentGroupLevelResources _ _ _ _) as [m|]; [|done].
  destruct (componentName _ _ _) as [n|]; [|done]. run_monad.
  unfold buildUpgradeStrategyForAdvancedStatefulSet. cbn. rewrite Hru. cbn. rewrite Hp. cbn.
  by rewrite Hn.
Qed.
End properties.

(** ** Witnesses *)

Definition ex_lib : FactoryLib :=
  {| semver_Compare := fun _ _ => 1%Z; InPlaceUpdateReady := "InPlaceUpdateReady";
     cpu_Ceil := fun _ => 1%Z; cpu_Value := fun _ => 1%Z; memory_AsInt64 := fun _ => 0%Z |}.

Definition ex_reference : ControllerReference ObjectSpec :=
  {| SetControllerReference := fun _ o => Ok o |}.
Lemma ex_reference_ok : ControllerReferenceOk ex_reference.
Proof. by split. Qed.

Definition ex_name_sort : NameSort := {| sort_by := fun T name l => l |}.

(** Generation 1 of a RisingWave with two compute groups and memory stores. *)
Definition ex_cluster_rw : RisingWave :=
  {| rw_Meta := ex_meta "rw" 1; rw_Spec := rw_Spec (ex_locked 1 2 (ex_lock 1 2));
     rw_Status := zero_status |}.

Definition ex_regexp (s : string) : bool := negb (bool_decide (s = "")%string).

Lemma ex_accepted :
  accepted (O := elements_order) ex_regexp (fun _ => []) (fun _ _ => Eq) true ex_cluster_rw.
Proof. by vm_compute. Qed.


Lemma factory_serves_sync_witness :
  WorkloadFactory KAdvancedStatefulSet ex_cluster_rw {[""; "big"]}
    (new_workload (L := ex_lib) (C := ex_reference) (H := list_heap) (N := ex_name_sort) "v1"
       true ComponentCompute ex_cluster_rw) (workload_name ex_cluster_rw ComponentCompute) "default".
Proof.
  apply (@factory_serves_sync "v1" ex_lib ex_reference ex_reference_ok list_heap ex_name_sort
    elements_order elements_order_ok ex_regexp (fun _ => []) (fun _ _ => Eq) true
    ex_cluster_rw true ComponentCompute).
  - exact ex_accepted.
  - by vm_compute.
  - by apply (list_elem_of_lookup_2 _ 1).
  - by vm_compute.
Defined.

Definition ex_api : ClusterEnv ObjectSpec :=
  replying_env (fun t r => server_reply (cluster [] t) r).


Lemma service_reaches_pods_witness :
  exists o s, new_service (L := ex_lib) (C := ex_reference) (H := list_heap) (N := ex_name_sort) "v1"
    ComponentFrontend ex_cluster_rw = Done (Some o) /\ o_Spec o = ServiceObject s.
Proof.
  destruct (@service_reaches_pods "v1" ex_lib ex_reference ex_reference_ok list_heap ex_name_sort
    elements_order elements_order_ok ex_regexp (fun _ => []) (fun _ _ => Eq) true ex_cluster_rw
    ComponentFrontend ex_accepted) as (o & s & Ho & Hs & _).
  - by apply (list_elem_of_lookup_2 _ 2).
  - exists o, s. split; [exact Ho|exact Hs].
Defined.

(** Generation 2, with more replicas. *)
Definition ex_scaled_rw : RisingWave :=
  {| rw_Meta := ex_meta "rw" 2; rw_Spec := rw_Spec (ex_locked 1 5 (ex_lock 1 2));
     rw_Status := zero_status |}.

Lemma rebuild_keeps_identity_witness :
  exists o o', new_workload (L := ex_lib) (C := ex_reference) (H := list_heap) (N := ex_name_sort)
      "v1" false ComponentCompute ex_cluster_rw "big" = Done (Some o) /\
    new_workload (L := ex_lib) (C := ex_reference) (H := list_heap) (N := ex_name_sort)
      "v1" false ComponentCompute ex_scaled_rw "big" = Done (Some o') /\
    selector_of (o_Spec o') = selector_of (o_Spec o).
Proof.
  eexists. edestruct (@rebuild_keeps_identity "v1" ex_lib ex_reference ex_reference_ok list_heap
    ex_name_sort elements_order elements_order_ok ex_regexp (fun _ => []) (fun _ _ => Eq) true
    ex_cluster_rw ex_scaled_rw false ComponentCompute "big") as (o' & Ho & _ & Hsel & _).
  - exact ex_accepted.
  - by vm_compute.
  - by apply (list_elem_of_lookup_2 _ 1).
  - reflexivity.
  - reflexivity.
  - reflexivity.
  - by eexists.
  - by eexists.
  - exists o'. split; [reflexivity|]. split; [exact Ho|exact Hsel].
Defined.

Lemma default_config_reaches_pods_witness :
  exists o, @ManagerImpl.NewConfigConfigMap _ (Factory (L := ex_lib) (C := ex_reference)
    (H := list_heap) (N := ex_name_sort) "v1") ex_cluster_rw "" = Done (Some o) /\
    isObjectSynced ex_scaled_rw (Some o) = true.
Proof.
  destruct (@default_config_reaches_pods "v1" ex_lib ex_reference ex_reference_ok list_heap
    ex_name_sort ex_cluster_rw (simple_group "" 1) "" eq_refl eq_refl eq_refl)
    as (o & vol & Ho & _ & _ & _ & Hs).
  exists o. split; [exact Ho|apply Hs].
Defined.

Definition ex_standalone (partition : string) : RisingWaveStandaloneComponent :=
  {| sa_LogLevel := "INFO"; sa_DisallowPrintStackTraces := None; sa_Replicas := 1;
     sa_RestartAt := None;
     sa_UpgradeStrategy :=
       {| us_Type := RisingWaveUpgradeStrategyTypeRollingUpdate;
          us_RollingUpdate := Some {| ru_MaxUnavailable := None;
                                      ru_Partition := Some (StrVal partition); ru_MaxSurge := None |};
          us_InPlaceUpdateStrategy := None |};
     sa_MinReadySeconds := 0; sa_VolumeClaimTemplates := [];
     sa_PersistentVolumeClaimRetentionPolicy := None; sa_ProgressDeadlineSeconds := None;
     sa_Template := zero_template |}.

Lemma standalone_not_validated_witness :
  is_done (@ManagerImpl.NewStandaloneAdvancedStatefulSet _ (Factory (L := ex_lib) (C := ex_reference)
    (H := list_heap) (N := ex_name_sort) "v1")
    (set_standalone (Some (ex_standalone "half")) ex_cluster_rw)) = false.
Proof.
  eapply (@standalone_not_validated "v1" ex_lib ex_reference list_heap ex_name_sort elements_order
    elements_order_ok ex_regexp (fun _ => []) (fun _ _ => Eq) true ex_cluster_rw
    (ex_standalone "half") _ "half" ex_accepted); reflexivity.
Defined.

(** A partition in percent is taken as a number of pods, and a stateful set and a deployment
    ignore it. *)
Lemma percentage_is_a_number :
  partition_number (Some (StrVal "30%")) = Done (Some 30%Z).
Proof. by vm_compute. Qed.

(** Two RisingWaves of one namespace may claim the same object. *)
Lemma workload_names_collide :
  workload_name (set_rw_Spec zero_spec {| rw_Meta := ex_meta "a" 1; rw_Spec := zero_spec;
    rw_Status := zero_status |}) ComponentMeta "b-meta" =
  workload_name (set_rw_Spec zero_spec {| rw_Meta := ex_meta "a-meta-b" 1; rw_Spec := zero_spec;
    rw_Status := zero_status |}) ComponentMeta "".
Proof. by vm_compute. Qed.
