(* ===== verification/Pods.v ===== *)
(** * Running pods, and the functions of pkg/utils/common.go on them

    A pod as the operator reads it from the API server; fields it never reads are left out. *)

From S2P Require Import Prelude GoStrings KubeTypes ApiTypes.

(** ** Definitions *)

(** [pod_Controller]: the UID of the owner that is the controller, if the pod has one. *)
Record Pod := {
  pod_Name : string;
  pod_Namespace : string;
  pod_UID : string;
  pod_Labels : gmap string string;
  pod_Deleted : bool;
  pod_Controller : option string;
  pod_Spec : PodSpec;
  pod_Phase : string;
  pod_IP : string;
}.

Definition set_pod_Labels (labels : gmap string string) (pod : Pod) : Pod :=
  {| pod_Name := pod_Name pod; pod_Namespace := pod_Namespace pod; pod_UID := pod_UID pod;
     pod_Labels := labels; pod_Deleted := pod_Deleted pod; pod_Controller := pod_Controller pod;
     pod_Spec := pod_Spec pod; pod_Phase := pod_Phase pod; pod_IP := pod_IP pod |}.

(** [pod.Labels[key]]: the zero value when there is none. *)
Definition label_of (pod : Pod) (key : string) : string := default "" (pod_Labels pod !! key).

Definition IsPodRunning (pod : Pod) : bool := bool_decide (pod_Phase pod = "Running").

Definition GetContainerFromPod (pod : Pod) (name : string) : option Container :=
  snd <$> find_index (fun c => bool_decide (c_Name c = name)) (ps_Containers (pod_Spec pod)).

(** The number, and whether there is a port of that name. *)
Definition GetPortFromContainer (container : option Container) (name : string) : Z * bool :=
  match container with
  | None => (0%Z, false)
  | Some c =>
      match find_index (fun p => bool_decide (cp_Name p = name)) (c_Ports c) with
      | Some (_, p) => (cp_ContainerPort p, true)
      | None => (0%Z, false)
      end
  end.

Definition MapObjectsToNames (pods : list Pod) : list string := pod_Name <$> pods.
