(* ===== verification/ComputeUpdate.v ===== *)
(** * pkg/controller/risingwave_compute_sts_update_strategy.go: restarting compute pods at once

    When the stateful set of the compute nodes changes, the operator deletes the pods of the
    old revision itself, all at once, rather than let them be replaced one by one. *)

From S2P Require Import Prelude GoStrings GoMonad KubeTypes ApiTypes ApiErrors FactoryPods Pods.

(** ** Definitions: events (pkg/utils/predicates.go) *)

Inductive event_kind := CreateEvent | DeleteEvent | UpdateEvent | GenericEvent.
Definition CreateEventFilter (e : event_kind) : bool :=
  match e with CreateEvent => true | _ => false end.
Definition DeleteEventFilter (e : event_kind) : bool :=
  match e with DeleteEvent => true | _ => false end.
Definition UpdateEventFilter (e : event_kind) : bool :=
  match e with UpdateEvent => true | _ => false end.
Definition GenericEventFilter (e : event_kind) : bool :=
  match e with GenericEvent => true | _ => false end.

(** The reference to the controller of an object. *)
Record OwnerReference := { or_APIVersion : string; or_Kind : string }.

(** What a changed stateful set makes the operator reconcile: itself, when it belongs to the
    compute nodes of a RisingWave. [apiVersion] and [kind] are those of a RisingWave. *)
Definition requests_for (apiVersion kind : string) (owner : option OwnerReference) (meta : ObjectMeta)
  : list (string * string) :=
  match owner with
  | None => []
  | Some r =>
      if bool_decide (or_APIVersion r <> apiVersion) || bool_decide (or_Kind r <> kind) then []
      else if bool_decide (default "" (om_Labels meta !! LabelRisingWaveName) = "") ||
              negb (bool_decide (default "" (om_Labels meta !! LabelRisingWaveComponent) = ComponentCompute))
      then []
      else [(om_Namespace meta, om_Name meta)]
  end.

(** ** Definitions: the reconcile *)

(** The fields of [appsv1.StatefulSet] it reads; the selector is as it is in the API. *)
Record StatefulSet := {
  ss_UID : string;
  ss_Generation : Z;
  ss_Selector : json;
  ss_ObservedGeneration : Z;
  ss_UpdatedReplicas : Z;
  ss_Replicas : Z;
  ss_UpdateRevision : string;
}.

Inductive sts_event :=
| GetStatefulSet (ns name : string)
| ListPodsOf (ns : string) (selector : string)
| DeletePod (ns name uid : string).

(** The replies; [LabelSelectorAsSelector] is a function of the library. *)
Class StatefulSetEnv := {
  su_get : list sts_event -> string -> string -> result api_error StatefulSet;
  su_list : list sts_event -> string -> string -> result api_error (list Pod);
  su_delete : list sts_event -> string -> string -> string -> option api_error;
  LabelSelectorAsSelector : json -> result api_error string;
}.

Definition StatefulSetRevisionLabel : string := "controller-revision-hash".

Definition isPodUpToDate (sts : StatefulSet) (pod : Pod) : bool :=
  bool_decide (label_of pod StatefulSetRevisionLabel = ss_UpdateRevision sts).

(** The condition of the filter. [GetControllerOfNoCopy] is nil for a pod without controller. *)
Definition is_outdated (sts : StatefulSet) (pod : Pod) : outcome bool :=
  if pod_Deleted pod then Done false
  else match pod_Controller pod with
       | None => Panic "nil pointer dereference"
       | Some uid => Done (bool_decide (uid = ss_UID sts) && negb (isPodUpToDate sts pod))
       end.

Fixpoint toDeletePods (sts : StatefulSet) (pods : list Pod) : outcome (list Pod) :=
  match pods with
  | [] => Done []
  | pod :: pods' =>
      b ← is_outdated sts pod;
      l ← toDeletePods sts pods';
      mret (if b : bool then pod :: l else l)
  end.

Section strategy.
Context `{E : StatefulSetEnv}.
Abbreviation M := (GoM (list sts_event)).

Definition send {A} (answer : list sts_event -> A) (e : sts_event) : M A := fun t =>
  Done (answer t, t ++ [e]).

Fixpoint delete_pods (pods : list Pod) : M ctrl_result :=
  match pods with
  | [] => mret NoRequeue
  | pod :: pods' =>
      err ← send (fun t => su_delete t (pod_Namespace pod) (pod_Name pod) (pod_UID pod))
              (DeletePod (pod_Namespace pod) (pod_Name pod) (pod_UID pod));
      match IgnoreNotFound err with
      | Some _ => mret (RequeueIfErrorAndWrap "unable to delete pod" err)
      | None => delete_pods pods'
      end
  end.

Definition Reconcile (ns name : string) : M ctrl_result :=
  r ← send (fun t => su_get t ns name) (GetStatefulSet ns name);
  match r with
  | Err err => mret (if IsNotFound err then NoRequeue
                     else RequeueIfErrorAndWrap "unable to get statefulset" (Some err))
  | Ok sts =>
      if negb (bool_decide (ss_Generation sts = ss_ObservedGeneration sts)) then mret (RequeueAfter 1000)
      else if bool_decide (ss_UpdatedReplicas sts = ss_Replicas sts) then mret NoRequeue
      else match LabelSelectorAsSelector (ss_Selector sts) with
           | Err err => mret (RequeueIfErrorAndWrap "unable to get label selector" (Some err))
           | Ok labelSelector =>
               r ← send (fun t => su_list t ns labelSelector) (ListPodsOf ns labelSelector);
               match r with
               | Err err => mret (RequeueIfErrorAndWrap "unable to list pods" (Some err))
               | Ok podList => pods ← lift (toDeletePods sts podList); delete_pods pods
               end
           end
  end.
End strategy.

(** ** Lemmas *)

(** The pods of the stateful set that are to be replaced. *)
Definition outdated (sts : StatefulSet) (pod : Pod) : Prop :=
  pod_Deleted pod = false /\ pod_Controller pod = Some (ss_UID sts) /\
  label_of pod StatefulSetRevisionLabel <> ss_UpdateRevision sts.
Global Instance outdated_dec sts pod : Decision (outdated sts pod).
Proof. unfold outdated. apply _. Defined.

(** Every pod that is not being deleted has a controller. *)
Definition controlled (pod : Pod) : Prop := pod_Deleted pod = true \/ is_Some (pod_Controller pod).

Lemma toDeletePods_spec sts pods :
  (Forall controlled pods -> toDeletePods sts pods = Done (filter (outdated sts) pods)) /\
  (is_done (toDeletePods sts pods) = true -> Forall controlled pods).
Proof.
  induction pods as [|pod pods [IH1 IH2]]; [done|]. cbn [toDeletePods]. unfold is_outdated, isPodUpToDate.
  rewrite filter_cons. destruct (pod_Deleted pod) eqn:Hdel.
  - run_monad. split.
    + intros [_ Hp]%Forall_cons. rewrite IH1 by done. run_monad. by rewrite decide_False by (intros [Hd _]; congruence).
    + intros Hd. constructor; [by left|]. apply IH2. by destruct (toDeletePods sts pods).
  - destruct (pod_Controller pod) as [uid|] eqn:Hc.
    + run_monad. split.
      * intros [_ Hp]%Forall_cons. rewrite IH1 by done. run_monad. f_equal.
        case_decide as Ho; unfold outdated in Ho; rewrite Hdel, Hc in Ho.
        -- destruct Ho as (_ & [= ->] & Hl). by rewrite bool_decide_true, bool_decide_false.
        -- case_bool_decide; [|done]. case_bool_decide; [done|]. subst. by destruct Ho.
      * intros Hd. constructor; [right; by rewrite Hc|]. apply IH2. by destruct (toDeletePods sts pods).
    + split; [|done]. intros [[?|[? ?]] _]%Forall_cons; congruence.
Qed.

Section properties.
Context `{E : StatefulSetEnv}.

Definition delete_of (pod : Pod) : sts_event := DeletePod (pod_Namespace pod) (pod_Name pod) (pod_UID pod).

Lemma delete_pods_spec pods t :
  exists r k, delete_pods pods t = Done (r, t ++ (delete_of <$> take k pods)) /\
    (r = NoRequeue /\ k = length pods \/
     exists pod err, pods !! pred k = Some pod /\ 0 < k /\
       su_delete (t ++ (delete_of <$> take (pred k) pods)) (pod_Namespace pod) (pod_Name pod) (pod_UID pod)
         = Some err /\
       IsNotFound err = false /\ r = RequeueIfErrorAndWrap "unable to delete pod" (Some err)).
Proof.
  revert t. induction pods as [|pod pods IH]; intros t; cbn [delete_pods].
  { exists NoRequeue, 0. cbn. rewrite app_nil_r. by split; [|left]. }
  unfold mbind, GoM_bind, send. fold (delete_of pod).
  set (answer := su_delete t (pod_Namespace pod) (pod_Name pod) (pod_UID pod)).
  destruct (IgnoreNotFound answer) as [err'|] eqn:Hi.
  - destruct answer as [err|] eqn:Ha; [|done]. cbn in Hi. destruct (IsNotFound err) eqn:Hn; [done|].
    exists (RequeueIfErrorAndWrap "unable to delete pod" (Some err)), 1. split; [done|]. right.
    exists pod, err. cbn. rewrite app_nil_r. split_and!; [done|lia|done..].
  - destruct (IH (t ++ [delete_of pod])) as (r & k & -> & Hr). exists r, (S k).
    cbn [take]. rewrite fmap_cons, <-app_assoc. split; [done|].
    destruct Hr as [[-> ->]|(pod' & err & Hk & Hpos & Hd & Hn & ->)]; [by left|right].
    exists pod', err. destruct k as [|k]; [lia|]. cbn in Hk, Hd |- *. split; [done|]. split; [lia|].
    by rewrite <-app_assoc in Hd.
Qed.

(** C17: Outdated pods are deleted, all of them and no other. When the stateful set can be read,
    its controller has observed its generation, some replicas are not updated and its pods can
    be listed, a reconcile deletes, in the order of the list, the pods of the stateful set that
    are not being deleted and not of the update revision, each under its own UID: all of them,
    with nothing left to do, or up to the first deletion that fails for another reason than
    not found, and that error is returned for a retry. It panics, before any deletion, exactly
    when a listed pod that is not being deleted has no controller. In every other case it
    deletes nothing: it is done when the stateful set is gone or has all replicas updated, comes
    back after a second while the generation has not been observed, and returns every other
    error for a retry. *)
Theorem sts_update_deletes ns name t :
  let t1 := t ++ [GetStatefulSet ns name] in
  (exists sts selector pods,
     su_get t ns name = Ok sts /\ ss_Generation sts = ss_ObservedGeneration sts /\
     ss_UpdatedReplicas sts <> ss_Replicas sts /\
     LabelSelectorAsSelector (ss_Selector sts) = Ok selector /\ su_list t1 ns selector = Ok pods /\
     let t2 := t1 ++ [ListPodsOf ns selector] in
     let old := filter (outdated sts) pods in
     match Reconcile ns name t with
     | Done (r, t') => Forall controlled pods /\ exists k, t' = t2 ++ (delete_of <$> take k old) /\
         (r = NoRequeue /\ k = length old \/
          exists pod err, old !! pred k = Some pod /\ 0 < k /\
            su_delete (t2 ++ (delete_of <$> take (pred k) old)) (pod_Namespace pod) (pod_Name pod)
              (pod_UID pod) = Some err /\
            IsNotFound err = false /\ r = RequeueIfErrorAndWrap "unable to delete pod" (Some err))
     | Panic _ => ~ Forall controlled pods
     end) \/
  exists r t', Reconcile ns name t = Done (r, t') /\
    match su_get t ns name with
    | Err err => t' = t1 /\ (IsNotFound err = true /\ r = NoRequeue \/
        IsNotFound err = false /\ r = RequeueIfErrorAndWrap "unable to get statefulset" (Some err))
    | Ok sts =>
        ss_Generation sts <> ss_ObservedGeneration sts /\ t' = t1 /\ r = RequeueAfter 1000 \/
        ss_Generation sts = ss_ObservedGeneration sts /\
          (ss_UpdatedReplicas sts = ss_Replicas sts /\ t' = t1 /\ r = NoRequeue \/
           ss_UpdatedReplicas sts <> ss_Replicas sts /\ exists err,
             LabelSelectorAsSelector (ss_Selector sts) = Err err /\ t' = t1 /\
               r = RequeueIfErrorAndWrap "unable to get label selector" (Some err) \/
             exists selector, LabelSelectorAsSelector (ss_Selector sts) = Ok selector /\
               su_list t1 ns selector = Err err /\ t' = t1 ++ [ListPodsOf ns selector] /\
               r = RequeueIfErrorAndWrap "unable to list pods" (Some err))
    end.
Proof.
  intros t1. unfold Reconcile, mbind, GoM_bind, send. fold t1.
  destruct (su_get t ns name) as [sts|err] eqn:Hg.
  2:{ right. eexists _, _. split; [done|]. split; [done|]. destruct (IsNotFound err); [by left|by right]. }
  case_bool_decide as Hgen; cbn [negb]; [|right; eexists _, _; split; [done|by left]].
  case_bool_decide as Hu; [right; eexists _, _; split; [done|right; split; [done|by left]]|].
  destruct (LabelSelectorAsSelector (ss_Selector sts)) as [selector|err] eqn:Hs.
  2:{ right. eexists _, _. split; [done|]. right. split; [done|]. right. split; [done|]. exists err. by left. }
  destruct (su_list t1 ns selector) as [pods|err] eqn:Hl.
  2:{ right. eexists _, _. split; [done|]. right. split; [done|]. right. split; [done|]. exists err. right.
      by exists selector. }
  left. exists sts, selector, pods. do 5 (split; [done|]).
  set (t2 := t1 ++ [ListPodsOf ns selector]). set (old := filter (outdated sts) pods).
  destruct (toDeletePods_spec sts pods) as [Hdone Hctl]. unfold lift.
  destruct (toDeletePods sts pods) as [l|msg].
  - specialize (Hctl eq_refl). specialize (Hdone Hctl). injection Hdone as ->.
    change (filter (outdated sts) pods) with old. destruct (delete_pods_spec old t2) as (r & k & -> & Hr).
    split; [done|]. by exists k.
  - intros Hf. by apply Hdone in Hf.
Qed.
End properties.

(** A rollout from revision a to b with one pod of each. *)
Definition ex_sts : StatefulSet :=
  {| ss_UID := "s"; ss_Generation := 2; ss_Selector := ""; ss_ObservedGeneration := 2;
     ss_UpdatedReplicas := 1; ss_Replicas := 2; ss_UpdateRevision := "b" |}.
Definition ex_sts_pod (name revision : string) : Pod :=
  {| pod_Name := name; pod_Namespace := "ns"; pod_UID := name;
     pod_Labels := {[StatefulSetRevisionLabel := revision]}; pod_Deleted := false;
     pod_Controller := Some "s"%string; pod_Spec := pts_Spec (newPodSpecFromNodeGroupTemplate zero_template); pod_Phase := "Running"; pod_IP := "" |}.
Definition ex_sts_env : StatefulSetEnv :=
  {| su_get := fun _ _ _ => Ok ex_sts;
     su_list := fun _ _ _ => Ok [ex_sts_pod "p-0" "a"; ex_sts_pod "p-1" "b"];
     su_delete := fun _ _ _ _ => None;
     LabelSelectorAsSelector := fun _ => Ok "selector"%string |}.

Lemma sts_update_deletes_witness :
  exists k, (Reconcile (E := ex_sts_env) "ns" "compute" [] =
    Done (NoRequeue, [GetStatefulSet "ns" "compute"; ListPodsOf "ns" "selector"; DeletePod "ns" "p-0" "p-0"]))
    /\ k = length (filter (outdated ex_sts) [ex_sts_pod "p-0" "a"; ex_sts_pod "p-1" "b"]).
Proof.
  pose proof (sts_update_deletes (E := ex_sts_env) "ns" "compute" []) as H. cbv zeta in H.
  assert (Reconcile (E := ex_sts_env) "ns" "compute" [] = Done (NoRequeue,
    [GetStatefulSet "ns" "compute"; ListPodsOf "ns" "selector"; DeletePod "ns" "p-0" "p-0"])) as HR
    by (vm_compute; reflexivity).
  destruct H as [(sts & selector & pods & Hg & _ & _ & _ & Hl & H)|(r & t' & H & Hc)].
  - rewrite HR in H. destruct H as (_ & k & _ & [[_ Hk]|(? & ? & _ & _ & _ & _ & [=])]).
    injection Hg as <-. injection Hl as <-. exists k. split; [exact HR|exact Hk].
  - exfalso. rewrite HR in H. injection H as <- <-. destruct Hc as [(Hc & _)|(_ & [(Hc & _)|(_ & ? & Hc)])].
    + by destruct Hc.
    + discriminate.
    + destruct Hc as [(? & _)|(? & _ & [=] & _)]. discriminate.
Defined.

(** A pod without controller that matches the selector makes it panic. *)
Lemma orphan_pod_panics sts pod :
  pod_Deleted pod = false -> pod_Controller pod = None ->
  is_done (toDeletePods sts [pod]) = false.
Proof. intros Hd Hc. cbn. unfold is_outdated. by rewrite Hd, Hc. Qed.
