(* ===== verification/MetaRole.v ===== *)
(** * pkg/controller/meta_pod_role_labeler.go: the labels of the meta pods

    Every meta pod is asked, every two seconds, which member of the meta service leads; its
    answer becomes a label of the pod. A pod is the member whose address is the one its
    container announces. *)

From S2P Require Import Prelude GoStrings GoMonad KubeTypes ApiTypes ApiErrors Pods FactoryBase.

(** ** Definitions: requests and replies *)

(** A member of the meta service, as [MembersResponse] has it; no address is the empty one. *)
Record Member := {
  mb_Host : string;
  mb_Port : Z;
  mb_IsLeader : bool;
}.

Inductive role_event :=
| GetPod (ns name : string)
| ListPods (ns : string) (labels : gmap string string)
| PatchPod (pod originalPod : Pod)
| MembersRequest (addr : string).

(** The error of [grpc.NewClient], and the replies, which may depend on all that was sent
    before. A patch is answered with the pod as it is then. *)
Class MetaRoleEnv := {
  mr_connect : string -> option string;
  mr_members : list role_event -> string -> result string (list Member);
  mr_get : list role_event -> string -> string -> result api_error Pod;
  mr_list : list role_event -> string -> gmap string string -> result api_error (list Pod);
  mr_patch : list role_event -> Pod -> Pod -> result api_error Pod;
}.

(** ** Definitions: the roles *)

Definition MetaRoleLeader : string := "leader".
Definition MetaRoleFollower : string := "follower".
Definition MetaRoleUnknown : string := "unknown".

(** The role of the member at an address: the loop over the members. *)
Definition member_role (members : list Member) (endpoint : string) (port : Z) : string :=
  match find_index (fun m => bool_decide (mb_Host m = endpoint /\ mb_Port m = int32 port)) members with
  | Some (_, m) => if mb_IsLeader m then MetaRoleLeader else MetaRoleFollower
  | None => MetaRoleUnknown
  end.

(** ** Definitions: the endpoint of a pod *)

(** [strings.Split(addr, ":")[0]]. *)
Definition host_of (addr : string) : string := default "" (head (Split addr ":"%char)).

(** The endpoint an argument gives, with the argument after it. *)
Definition arg_endpoint (arg next : string) : string :=
  if bool_decide (arg = "--host") then next
  else if bool_decide (arg = "--advertise-addr") then host_of next
  else if HasPrefix arg "--host=" then drop_str (String.length "--host=") arg
  else if HasPrefix arg "--advertise-addr=" then
    host_of (drop_str (String.length "--advertise-addr=") arg)
  else "".

(** The loop stops at the last argument, and at the first endpoint. *)
Fixpoint args_endpoint (args : list string) : string :=
  match args with
  | arg :: ((next :: _) as args') =>
      let endpoint := arg_endpoint arg next in
      if bool_decide (endpoint = "") then args_endpoint args' else endpoint
  | _ => ""
  end.

(** The references to the fields of the pod, replaced. *)
Definition expand_endpoint (pod : Pod) (endpoint : string) : string :=
  if bool_decide (endpoint = "") then ""
  else ReplaceAll (ReplaceAll (ReplaceAll endpoint "$(POD_IP)" (pod_IP pod))
                     "$(POD_NAME)" (pod_Name pod))
         "$(POD_NAMESPACE)" (pod_Namespace pod).

Definition getEndpointFromArgs (pod : Pod) (args : list string) : string :=
  expand_endpoint pod (args_endpoint args).

Definition getEndpointFromEnvVars (pod : Pod) (envVars : list EnvVar) : string :=
  expand_endpoint pod
    match find_index (fun e => bool_decide (env_Name e = envs.RWAdvertiseAddr)) envVars with
    | Some (_, e) => host_of (env_Value e)
    | None => ""
    end.

Definition isRisingWaveMetaPod (pod : Pod) : bool :=
  bool_decide (is_Some (pod_Labels pod !! LabelRisingWaveName)) &&
  bool_decide (label_of pod LabelRisingWaveComponent = ComponentMeta) &&
  bool_decide (is_Some (GetContainerFromPod pod "meta")).

(** What is read off a pod before its role is asked for: the port and the endpoint. *)
Definition service_endpoint (pod : Pod) : result string (Z * string) :=
  if negb (isRisingWaveMetaPod pod) then Err "not a meta pod"
  else if bool_decide (pod_IP pod = "") then Err "not running"
  else match GetContainerFromPod pod "meta" with
       | None => Err "meta container not found"
       | Some metaContainer =>
           match GetPortFromContainer (Some metaContainer) PortService with
           | (_, false) => Err "service port not found"
           | (svcPort, true) =>
               let endpoint := getEndpointFromArgs pod (c_Args metaContainer) in
               let endpoint := if bool_decide (endpoint = "")
                               then getEndpointFromEnvVars pod (c_Env metaContainer) else endpoint in
               if bool_decide (endpoint = "") then Err "endpoint not found"
               else Ok (svcPort, endpoint)
           end
       end.

(** [uint(svcPort)]. *)
Definition uint (z : Z) : Z := z mod 18446744073709551616.

Section labeler.
Context `{E : MetaRoleEnv}.
Abbreviation M := (GoM (list role_event)).

(** ** Definitions: the reconcile *)

Definition ask {A} (answer : list role_event -> A) (e : role_event) : M A := fun t =>
  Done (answer t, t ++ [e]).

Definition getMetaRole (host : string) (port : Z) (endpoint : string) : M (result string string) :=
  let addr := host +:+ ":" +:+ FormatInt port in
  match mr_connect addr with
  | Some err => mret (Err ("unable to connect: " +:+ err))
  | None =>
      resp ← ask (fun t => mr_members t addr) (MembersRequest addr);
      mret match resp with
           | Err err => Err ("request failed: " +:+ err)
           | Ok members => Ok (member_role members endpoint port)
           end
  end.

(** The role and the error, and the pod as it is left in memory. *)
Definition syncRoleLabelForSinglePod (pod : Pod) : M (string * option api_error * Pod) :=
  match service_endpoint pod with
  | Err err => mret ("", Some (PlainError err), pod)
  | Ok (svcPort, endpoint) =>
      r ← getMetaRole (pod_IP pod) (uint svcPort) endpoint;
      let role := match r with Ok role => role | Err _ => MetaRoleUnknown end in
      if bool_decide (label_of pod LabelRisingWaveMetaRole = role) then mret (role, None, pod)
      else
        let originalPod := pod in
        let pod := set_pod_Labels (<[LabelRisingWaveMetaRole := role]> (pod_Labels pod)) pod in
        reply ← ask (fun t => mr_patch t pod originalPod) (PatchPod pod originalPod);
        mret match reply with
             | Err err => (role, Some err, pod)
             | Ok pod => (role, None, pod)
             end
  end.

(** [for _, pod := range leaderPods { ... }]: errors are only logged. *)
Fixpoint sync_all (pods : list Pod) : M unit :=
  match pods with
  | [] => mret tt
  | pod :: pods' => _ ← syncRoleLabelForSinglePod pod; sync_all pods'
  end.

Definition syncRoleLabels (pod : Pod) : M unit :=
  let beforeRole := label_of pod LabelRisingWaveMetaRole in
  r ← syncRoleLabelForSinglePod pod;
  match r with
  | (_, Some _, _) => mret tt
  | (role, None, pod) =>
      if negb (bool_decide (beforeRole = MetaRoleLeader)) && bool_decide (role = MetaRoleLeader) then
        let labels := {[ LabelRisingWaveName := label_of pod LabelRisingWaveName;
                         LabelRisingWaveComponent := ComponentMeta;
                         LabelRisingWaveMetaRole := MetaRoleLeader ]} in
        leaderPodList ← ask (fun t => mr_list t (pod_Namespace pod) labels)
                          (ListPods (pod_Namespace pod) labels);
        let items := match leaderPodList with Ok l => l | Err _ => [] end in
        sync_all (filter (fun item => pod_Name item <> pod_Name pod) items)
      else mret tt
  end.

Definition Reconcile (ns name : string) : M ctrl_result :=
  r ← ask (fun t => mr_get t ns name) (GetPod ns name);
  match r with
  | Err err => mret (RequeueIfError (IgnoreNotFound (Some err)))
  | Ok pod => _ ← syncRoleLabels pod; mret (RequeueAfter 2000)
  end.

(** The events of a pod that start a reconcile. *)
Definition podFilterFunc (pod : Pod) : bool :=
  negb (bool_decide (pod_IP pod = "") || negb (isRisingWaveMetaPod pod) || pod_Deleted pod ||
        negb (IsPodRunning pod)).
End labeler.
