(* ===== verification/MetaRoleSpec.v ===== *)
(** * pkg/controller/meta_pod_role_labeler.go: what the labels of the meta pods say

    What the labeler sends; that it knows the pods the factory describes by the address they
    announce; and that a pod that becomes the leader is the only one labelled so. *)

From S2P Require Import Prelude GoStrings GoMonad KubeTypes ApiTypes ApiErrors EnvSort Pods FactoryBase FactoryPods MetaRole.

(** ** What is sent *)

Section sends.
Context {e : Type}.

(** An operation that does not panic and sends only events of [P]. *)
Definition sends (P : e -> Prop) {A} (m : GoM (list e) A) : Prop :=
  forall t, exists a t', m t = Done (a, t ++ t') /\ Forall P t'.

Lemma sends_ret P {A} (a : A) : sends P (mret a).
Proof. intros t. exists a, []. rewrite app_nil_r. by split. Qed.

Lemma sends_bind P {A B} (m : GoM (list e) A) (f : A -> GoM (list e) B) :
  sends P m -> (forall a, sends P (f a)) -> sends P (m ≫= f).
Proof.
  intros Hm Hf t. destruct (Hm t) as (a & t1 & Hmt & H1). destruct (Hf a (t ++ t1)) as (b & t2 & Hft & H2).
  exists b, (t1 ++ t2). unfold mbind, GoM_bind. rewrite Hmt, Hft, app_assoc.
  split; [done|]. by apply Forall_app.
Qed.

Lemma sends_bind_from P {A B} (m : GoM (list e) A) (f : A -> GoM (list e) B) (Q : A -> Prop) :
  (forall t, exists a t', m t = Done (a, t ++ t') /\ Forall P t' /\ Q a) ->
  (forall a, Q a -> sends P (f a)) -> sends P (m ≫= f).
Proof.
  intros Hm Hf t. destruct (Hm t) as (a & t1 & Hmt & H1 & Ha).
  destruct (Hf a Ha (t ++ t1)) as (b & t2 & Hft & H2).
  exists b, (t1 ++ t2). unfold mbind, GoM_bind. rewrite Hmt, Hft, app_assoc.
  split; [done|]. by apply Forall_app.
Qed.
End sends.

Section labeler.
Context `{E : MetaRoleEnv}.

Lemma sends_ask P {A} (answer : list role_event -> A) ev : P ev -> sends P (ask answer ev).
Proof. intros H t. exists (answer t), [ev]. split; [done|]. by apply Forall_singleton. Qed.

(** The role the meta service gives a pod: what a reply lists it as, or unknown. *)
Definition told (pod : Pod) (role : string) : Prop :=
  role = MetaRoleUnknown \/
  exists svcPort endpoint t members, service_endpoint pod = Ok (svcPort, endpoint) /\
    mr_members t (pod_IP pod +:+ ":" +:+ FormatInt (uint svcPort)) = Ok members /\
    role = member_role members endpoint (uint svcPort).

Definition good_event (ev : role_event) : Prop :=
  match ev with
  | PatchPod pod originalPod => exists role,
      pod = set_pod_Labels (<[LabelRisingWaveMetaRole := role]> (pod_Labels originalPod)) originalPod /\
      label_of originalPod LabelRisingWaveMetaRole <> role /\ told originalPod role /\
      isRisingWaveMetaPod originalPod = true
  | _ => True
  end.

Lemma service_endpoint_meta pod p : service_endpoint pod = Ok p -> isRisingWaveMetaPod pod = true.
Proof. unfold service_endpoint. by destruct (isRisingWaveMetaPod pod). Qed.

(** The answer on a role, for which nothing but the request for the members is sent. *)
Lemma getMetaRole_answer host port endpoint t :
  let addr := host +:+ ":" +:+ FormatInt port in
  exists r t', getMetaRole host port endpoint t = Done (r, t ++ t') /\
    Forall (fun ev => ev = MembersRequest addr) t' /\
    match r with
    | Ok role => exists members, mr_members t addr = Ok members /\
        role = member_role members endpoint port /\ t' = [MembersRequest addr]
    | Err _ => forall members, mr_connect addr = None -> mr_members t addr <> Ok members
    end /\
    match mr_connect addr with None => t' = [MembersRequest addr] | Some _ => True
    end.
Proof.
  intros addr. unfold getMetaRole. fold addr. destruct (mr_connect addr) as [err|].
  - exists (Err ("unable to connect: " +:+ err)), []. by rewrite app_nil_r.
  - unfold mbind, GoM_bind, ask.
    destruct (mr_members t addr) as [members|err]; eexists _, [_];
      (split; [reflexivity|]); (split; [by apply Forall_singleton|]); split; eauto.
Qed.

Lemma sync_single_sends pod : sends good_event (syncRoleLabelForSinglePod pod).
Proof.
  unfold syncRoleLabelForSinglePod.
  destruct (service_endpoint pod) as [[svcPort endpoint]|] eqn:He; [|apply sends_ret].
  eapply (sends_bind_from _ _ _ (fun r => told pod match r with Ok role => role | Err _ => MetaRoleUnknown end)).
  - intros t. destruct (getMetaRole_answer (pod_IP pod) (uint svcPort) endpoint t)
      as (r & t' & Hr & Ht' & Hrole & _). exists r, t'. split; [done|].
    split; [by apply (Forall_impl _ _ _ Ht'); intros ev ->|].
    destruct r as [role|]; [|by left]. destruct Hrole as (members & Hm & -> & _). right.
    by exists svcPort, endpoint, t, members.
  - intros r Hr. case_bool; [apply sends_ret|]. apply sends_bind.
    + apply sends_ask. eexists. split; [done|]. split; [done|]. split; [done|].
      by eapply service_endpoint_meta, He.
    + intros [pod'|err]; apply sends_ret.
Qed.

(** A pod that can be asked is asked at its address and port alone, only its label is changed,
    and its role is what the reply says of the endpoint. *)
Lemma sync_single_asks pod port endpoint t :
  service_endpoint pod = Ok (port, endpoint) ->
  let addr := pod_IP pod +:+ ":" +:+ FormatInt (uint port) in
  exists role err pod' t', syncRoleLabelForSinglePod pod t = Done (role, err, pod', t ++ t') /\
    Forall (fun ev => match ev with
                      | MembersRequest a => a = addr
                      | PatchPod _ original => original = pod
                      | _ => False
                      end) t' /\
    (mr_connect addr = None -> head t' = Some (MembersRequest addr) /\
       forall members, mr_members t addr = Ok members -> role = member_role members endpoint (uint port)).
Proof.
  intros He addr. unfold syncRoleLabelForSinglePod. rewrite He.
  destruct (getMetaRole_answer (pod_IP pod) (uint port) endpoint t) as (r & t1 & Hr & Ht1 & Hrole & Hc).
  set (role := match r with Ok role => role | Err _ => MetaRoleUnknown end).
  assert (forall t2, mr_connect addr = None -> head (t1 ++ t2) = Some (MembersRequest addr) /\
    forall members, mr_members t addr = Ok members -> role = member_role members endpoint (uint port)) as Hend.
  { intros t2 Hconn. fold addr in Hc. rewrite Hconn in Hc. subst t1. split; [done|]. intros members Hm.
    unfold role. destruct r as [role'|]; [|by destruct (Hrole members Hconn)].
    destruct Hrole as (members' & Hm' & -> & _). fold addr in Hm'. congruence. }
  assert (Forall (fun ev => match ev with MembersRequest a => a = addr
    | PatchPod _ original => original = pod | _ => False end) t1) as Hall
    by (apply (Forall_impl _ _ _ Ht1); by intros ev ->).
  unfold mbind, GoM_bind. rewrite Hr. fold role. case_bool_decide.
  - exists role, None, pod, t1. split; [done|]. split; [done|]. specialize (Hend []). by rewrite app_nil_r in Hend.
  - unfold ask. rewrite <-app_assoc.
    destruct (mr_patch _ _ _) as [pod'|err]; eexists role, _, _, _; (split; [reflexivity|]);
      (split; [apply Forall_app; split; [done|by apply Forall_singleton]|by apply Hend]).
Qed.

Lemma sync_all_sends pods : sends good_event (sync_all pods).
Proof.
  induction pods as [|pod pods IH]; [apply sends_ret|]. apply sends_bind; [apply sync_single_sends|].
  intros _. exact IH.
Qed.

(** Whatever the meta service and the API server answer, a reconcile only ever changes the
    role label of meta pods, to another role, which a member of the meta service gave the pod
    under the address it announces, or to unknown. *)
Theorem role_labels_told ns name t :
  exists r t', Reconcile ns name t = Done (r, t ++ t') /\ Forall good_event t'.
Proof.
  enough (sends good_event (Reconcile ns name)) as H by apply H.
  unfold Reconcile. apply sends_bind; [by apply sends_ask|]. intros [pod|err]; [|apply sends_ret].
  apply sends_bind; [|intros _; apply sends_ret]. unfold syncRoleLabels.
  apply sends_bind; [apply sync_single_sends|]. intros [[role [err|]] pod']; [apply sends_ret|].
  destruct (_ && _); [|apply sends_ret]. apply sends_bind; [by apply sends_ask|].
  intros reply. apply sync_all_sends.
Qed.
End labeler.

(** An endpoint in the last argument is not found. *)
Lemma last_argument_ignored host :
  args_endpoint ["meta-node"; "--host=" +:+ host] = "" /\
  args_endpoint ["meta-node"; "--host=" +:+ "10.0.0.1"; "--verbose"] = "10.0.0.1".
Proof. done. Qed.

(** ** A new leader *)

(** Two pods of the API server are one when they have the same namespace and name. *)
Definition pod_key (p : Pod) : string * string := (pod_Namespace p, pod_Name p).
Definition with_role (role : string) (pod : Pod) : Pod :=
  set_pod_Labels (<[LabelRisingWaveMetaRole := role]> (pod_Labels pod)) pod.
Definition patch_pod (p q : Pod) : Pod :=
  if bool_decide (pod_key p = pod_key q) then with_role (label_of p LabelRisingWaveMetaRole) q else q.

(** The meta pods of a RisingWave labelled as leaders. *)
Definition leader_labels (cluster : string) : gmap string string :=
  {[ LabelRisingWaveName := cluster; LabelRisingWaveComponent := ComponentMeta;
     LabelRisingWaveMetaRole := MetaRoleLeader ]}.
Definition labelled_leader (ns cluster : string) (p : Pod) : Prop :=
  pod_Namespace p = ns /\ leader_labels cluster ⊆ pod_Labels p.

Section pods_of_server.
Context `{E : MetaRoleEnv}.

(** The pods as an API server keeps them: a patch it accepts changes the role of one pod. *)
Definition pods_step (sent : list role_event) (c : list Pod) (ev : role_event) : list Pod :=
  match ev with
  | PatchPod p original => match mr_patch sent p original with Ok _ => patch_pod p <$> c | Err _ => c end
  | _ => c
  end.
Fixpoint pods_run (sent : list role_event) (c : list Pod) (t : list role_event) : list Pod :=
  match t with
  | [] => c
  | ev :: t' => pods_run (sent ++ [ev]) (pods_step sent c ev) t'
  end.
Definition pods_after (c0 : list Pod) (t : list role_event) : list Pod := pods_run [] c0 t.

(** The API server is that one: any request may fail, but what it answers is what it has. *)
Class RoleServer (c0 : list Pod) : Prop := {
  rs_get t ns name p : mr_get t ns name = Ok p -> p ∈ pods_after c0 t /\ pod_key p = (ns, name);
  rs_list t ns labels l : mr_list t ns labels = Ok l ->
    l = filter (fun p => pod_Namespace p = ns /\ labels ⊆ pod_Labels p) (pods_after c0 t);
  rs_patch t p original p' : mr_patch t p original = Ok p' -> p' = p;
}.

(** Why the label of a pod may stay as it is: it cannot be asked, the meta service says
    that it leads, or the API server refuses to change it. *)
Definition not_askable (p : Pod) : Prop := exists err, service_endpoint p = Err err.
Definition told_leader (t : list role_event) (p : Pod) : Prop :=
  exists port endpoint t1 members, service_endpoint p = Ok (port, endpoint) /\
    let addr := pod_IP p +:+ ":" +:+ FormatInt (uint port) in
    t1 ++ [MembersRequest addr] `prefix_of` t /\ mr_members t1 addr = Ok members /\
    member_role members endpoint (uint port) = MetaRoleLeader.
Definition patch_refused (t : list role_event) (p : Pod) : Prop :=
  exists t1 p' err, t1 ++ [PatchPod p' p] `prefix_of` t /\ mr_patch t1 p' p = Err err.
Definition may_keep (t : list role_event) (p : Pod) : Prop :=
  not_askable p \/ told_leader t p \/ patch_refused t p.
Definition list_refused (t : list role_event) : Prop :=
  exists t1 ns labels err, t1 ++ [ListPods ns labels] `prefix_of` t /\ mr_list t1 ns labels = Err err.

Lemma told_leader_mono t t' p : told_leader t p -> told_leader (t ++ t') p.
Proof.
  intros (port & endpoint & t1 & members & He & Hp & H). exists port, endpoint, t1, members.
  split; [done|]. split; [by apply prefix_app_r|done].
Qed.
Lemma may_keep_mono t t' p : may_keep t p -> may_keep (t ++ t') p.
Proof.
  intros [H|[H|(t1 & p' & err & Hp & H)]]; [by left|right; left; by apply told_leader_mono|right; right].
  exists t1, p', err. split; [by apply prefix_app_r|done].
Qed.

Lemma pods_run_app sent c t t' : pods_run sent c (t ++ t') = pods_run (sent ++ t) (pods_run sent c t) t'.
Proof.
  revert sent c. induction t as [|ev t IH]; intros sent c; cbn; [by rewrite app_nil_r|].
  by rewrite IH, <-app_assoc.
Qed.
Lemma pods_after_app c0 t t' : pods_after c0 (t ++ t') = pods_run t (pods_after c0 t) t'.
Proof. apply pods_run_app. Qed.
Lemma pods_after_snoc c0 t ev : pods_after c0 (t ++ [ev]) = pods_step t (pods_after c0 t) ev.
Proof. by rewrite pods_after_app. Qed.

Lemma pods_run_members sent c addr t :
  Forall (fun ev => ev = MembersRequest addr) t -> pods_run sent c t = c.
Proof. intros H. revert sent c. induction H as [|ev t -> _ IH]; intros sent c; [done|apply IH]. Qed.

(** The pods keep their names. *)
Lemma pods_after_keys c0 t : pod_key <$> pods_after c0 t = pod_key <$> c0.
Proof.
  unfold pods_after. generalize (@nil role_event) as sent. revert c0.
  induction t as [|ev t IH]; intros c sent; cbn; [done|]. rewrite IH.
  destruct ev as [| |p original|]; try done. cbn. destruct (mr_patch sent p original); [|done].
  rewrite <-list_fmap_compose. apply list_fmap_ext. intros i q _. cbn. unfold patch_pod. by case_bool_decide.
Qed.

Lemma same_key_same c0 t p q :
  NoDup (pod_key <$> c0) -> p ∈ pods_after c0 t -> q ∈ pods_after c0 t -> pod_key p = pod_key q -> p = q.
Proof. intros Hn. rewrite <-(pods_after_keys c0 t) in Hn. by apply NoDup_fmap_elem. Qed.

Lemma label_of_with_role role p : label_of (with_role role p) LabelRisingWaveMetaRole = role.
Proof. unfold label_of, with_role. cbn. by rewrite lookup_insert_eq. Qed.

Lemma labelled_leader_role ns cluster p :
  labelled_leader ns cluster p -> label_of p LabelRisingWaveMetaRole = MetaRoleLeader.
Proof.
  intros [_ Hl]. unfold label_of. rewrite map_subseteq_spec in Hl.
  by rewrite (Hl LabelRisingWaveMetaRole MetaRoleLeader).
Qed.

(** A pod after a patch is another one as it was, or has the new role. *)
Lemma patched_elem role p (c : list Pod) q :
  q ∈ patch_pod (with_role role p) <$> c ->
  (q ∈ c /\ pod_key p <> pod_key q) \/ (label_of q LabelRisingWaveMetaRole = role /\ pod_key p = pod_key q).
Proof.
  intros (q0 & -> & Hq)%list_elem_of_fmap. unfold patch_pod.
  change (pod_key (with_role role p)) with (pod_key p). rewrite label_of_with_role.
  case_bool_decide as Hs; [right|by left]. split; [apply label_of_with_role|exact Hs].
Qed.
End pods_of_server.

Section server.
Context `{E : MetaRoleEnv} (c0 : list Pod) `{!RoleServer c0}.

(** A pod that can be asked: it gets the role it was told, on the server too, unless the
    patch is refused; and it is told that it leads only by the meta service. *)
Lemma sync_single_spec pod port endpoint t :
  service_endpoint pod = Ok (port, endpoint) ->
  exists role err pod' t', syncRoleLabelForSinglePod pod t = Done (role, err, pod', t ++ t') /\
    (role = MetaRoleLeader -> told_leader (t ++ t') pod) /\
    (label_of pod LabelRisingWaveMetaRole = role /\ err = None /\ pod' = pod /\
       pods_after c0 (t ++ t') = pods_after c0 t \/
     label_of pod LabelRisingWaveMetaRole <> role /\
       (err = None /\ pod' = with_role role pod /\
          pods_after c0 (t ++ t') = patch_pod (with_role role pod) <$> pods_after c0 t \/
        is_Some err /\ patch_refused (t ++ t') pod /\ pods_after c0 (t ++ t') = pods_after c0 t)).
Proof.
  intros He. unfold syncRoleLabelForSinglePod. rewrite He.
  destruct (getMetaRole_answer (pod_IP pod) (uint port) endpoint t) as (r & t1 & Hr & Ht1 & Hrole & _).
  set (role := match r with Ok role => role | Err _ => MetaRoleUnknown end).
  assert (role = MetaRoleLeader -> told_leader (t ++ t1) pod) as Hlead.
  { unfold role. destruct r as [role'|err]; [|done]. destruct Hrole as (members & Hm & -> & ->).
    intros Hl. exists port, endpoint, t, members. by split_and!. }
  assert (pods_after c0 (t ++ t1) = pods_after c0 t) as Hsame
    by by rewrite pods_after_app, (pods_run_members _ _ _ _ Ht1).
  unfold mbind, GoM_bind. rewrite Hr. fold role. case_bool_decide as Hb.
  { exists role, None, pod, t1. split; [done|]. split; [done|]. by left. }
  unfold ask. rewrite <-app_assoc. fold (with_role role pod).
  destruct (mr_patch (t ++ t1) (with_role role pod) pod) as [pod'|err] eqn:Hp.
  - apply rs_patch in Hp as Heq. subst pod'. eexists role, None, _, _. split; [reflexivity|].
    rewrite app_assoc. split; [intros H; by apply told_leader_mono, Hlead|]. right. split; [done|]. left.
    split; [done|]. split; [done|]. rewrite pods_after_snoc, Hsame. cbn. by rewrite Hp.
  - eexists role, (Some err), _, _. split; [reflexivity|]. rewrite app_assoc.
    split; [intros H; by apply told_leader_mono, Hlead|]. right. split; [done|]. right.
    split; [done|]. split; [|rewrite pods_after_snoc, Hsame; cbn; by rewrite Hp].
    by exists (t ++ t1), (with_role role pod), err.
Qed.

(** A leader that was listed: afterwards it is none, or it may keep the label. *)
Lemma sync_leader ns cluster p t :
  NoDup (pod_key <$> c0) -> labelled_leader ns cluster p ->
  exists a t', syncRoleLabelForSinglePod p t = Done (a, t ++ t') /\
    forall q, q ∈ pods_after c0 (t ++ t') -> labelled_leader ns cluster q ->
      q ∈ pods_after c0 t /\ (pod_key q = pod_key p -> may_keep (t ++ t') p).
Proof.
  intros Hn Hp. pose proof (labelled_leader_role _ _ _ Hp) as Hlabel.
  destruct (service_endpoint p) as [[port endpoint]|err] eqn:He.
  2:{ eexists _, []. unfold syncRoleLabelForSinglePod. rewrite He, app_nil_r. split; [reflexivity|].
      intros q Hq _. split; [done|]. intros _. left. by exists err. }
  destruct (sync_single_spec p port endpoint t He) as (role & err & p' & t' & Hs & Hlead & Hcase).
  eexists _, t'. split; [exact Hs|]. intros q Hq Hl.
  destruct Hcase as [(Hb & _ & _ & Heq)|(Hb & [(_ & _ & Heq)|(_ & Href & Heq)])]; rewrite Heq in Hq.
  - split; [done|]. intros _. right; left. apply Hlead. congruence.
  - destruct (patched_elem _ _ _ _ Hq) as [[Hq0 Hk]|[Hq0 _]]; [split; [done|]; intros H; by symmetry in H|].
    rewrite (labelled_leader_role _ _ _ Hl) in Hq0. congruence.
  - split; [done|]. intros _. by right; right.
Qed.

Lemma sync_all_spec ns cluster items t :
  NoDup (pod_key <$> c0) -> Forall (labelled_leader ns cluster) items ->
  exists t', sync_all items t = Done (tt, t ++ t') /\
    forall q, q ∈ pods_after c0 (t ++ t') -> labelled_leader ns cluster q ->
      q ∈ pods_after c0 t /\ forall p, p ∈ items -> pod_key q = pod_key p -> may_keep (t ++ t') p.
Proof.
  intros Hn Hi. revert t. induction Hi as [|p items Hp _ IH]; intros t.
  { exists []. rewrite app_nil_r. split; [done|]. intros q Hq _. split; [done|]. intros p Hp.
    by apply not_elem_of_nil in Hp. }
  destruct (sync_leader ns cluster p t Hn Hp) as (a & t1 & Hs & Ht1).
  destruct (IH (t ++ t1)) as (t2 & Hs2 & Ht2). exists (t1 ++ t2). cbn [sync_all].
  unfold mbind, GoM_bind. rewrite Hs, Hs2, app_assoc. split; [done|]. intros q Hq Hl.
  destruct (Ht2 q Hq Hl) as [Hq1 Hkeep]. destruct (Ht1 q Hq1 Hl) as [Hq0 Hp0]. split; [done|].
  intros p' [->|Hp']%elem_of_cons Hk; [|by apply Hkeep]. by apply may_keep_mono, Hp0.
Qed.

(** Of the leaders that are listed, those left may keep the label. *)
Lemma other_leaders_spec cluster pod t :
  NoDup (pod_key <$> c0) ->
  let ns := pod_Namespace pod in
  let listed := mr_list t ns (leader_labels cluster) in
  let t0 := t ++ [ListPods ns (leader_labels cluster)] in
  exists t', sync_all (filter (fun item => pod_Name item <> pod_Name pod)
                         match listed with Ok l => l | Err _ => [] end) t0 = Done (tt, t0 ++ t') /\
    (list_refused (t0 ++ t') \/
     forall q, q ∈ pods_after c0 (t0 ++ t') -> labelled_leader ns cluster q ->
       pod_key q = pod_key pod \/ may_keep (t0 ++ t') q).
Proof.
  intros Hn ns listed t0. unfold listed. destruct (mr_list t ns (leader_labels cluster)) as [l|err] eqn:Hl.
  2:{ exists []. rewrite app_nil_r. split; [done|]. left. by exists t, ns, (leader_labels cluster), err. }
  apply rs_list in Hl. set (items := filter _ l).
  assert (forall q, q ∈ items <-> q ∈ pods_after c0 t /\ labelled_leader ns cluster q /\
    pod_Name q <> pod_Name pod) as Hitems.
  { intros q. unfold items. rewrite Hl, !list_elem_of_filter. unfold labelled_leader. tauto. }
  destruct (sync_all_spec ns cluster items t0 Hn) as (t' & Hs & Hall).
  { apply Forall_forall. by intros q (_ & Hq & _)%Hitems. }
  exists t'. split; [exact Hs|]. right. intros q Hq Hlead. destruct (Hall q Hq Hlead) as [Hq0 Hkeep].
  assert (q ∈ pods_after c0 t) as Hq1 by by unfold t0 in Hq0; rewrite pods_after_snoc in Hq0.
  destruct (decide (pod_Name q = pod_Name pod)) as [He|He].
  - left. unfold pod_key. destruct Hlead as [-> _]. by rewrite He.
  - right. apply Hkeep; [by apply Hitems|done].
Qed.

(** C12: A pod that becomes the leader takes the label from the others. The API server may refuse
    any request, but what it answers is what it has, and the meta service may answer anything.
    When a reconcile of a meta pod that was not labelled as the leader leaves it labelled so, then,
    whatever the labels of the others said before, every other pod of its RisingWave that still
    has the label is one that cannot be asked (it has no address, port or endpoint), one the
    meta service itself named as the leader when it was asked in this reconcile, or one whose
    patch was refused; unless the list of the leaders was. *)
Theorem new_leader_alone cluster pod :
  NoDup (pod_key <$> c0) -> pod ∈ c0 -> label_of pod LabelRisingWaveName = cluster ->
  label_of pod LabelRisingWaveMetaRole <> MetaRoleLeader ->
  exists r t, Reconcile (pod_Namespace pod) (pod_Name pod) [] = Done (r, t) /\
    ((exists q, q ∈ pods_after c0 t /\ pod_key q = pod_key pod /\
        label_of q LabelRisingWaveMetaRole = MetaRoleLeader) ->
     list_refused t \/
     forall q, q ∈ pods_after c0 t -> labelled_leader (pod_Namespace pod) cluster q ->
       pod_key q = pod_key pod \/ may_keep t q).
Proof.
  intros Hn Hpod Hcl Hold. set (get := GetPod (pod_Namespace pod) (pod_Name pod)).
  assert (pods_after c0 [get] = c0) as Hc0 by done.
  assert (forall q, q ∈ c0 -> pod_key q = pod_key pod -> q = pod) as Huniq
    by (intros q Hq Hk; by apply (same_key_same c0 [])).
  unfold Reconcile, syncRoleLabels, mbind, GoM_bind, ask at 1. cbn [app]. fold get.
  destruct (mr_get [] (pod_Namespace pod) (pod_Name pod)) as [pod0|err] eqn:Hget.
  2:{ eexists _, _. split; [reflexivity|]. intros (q & Hq & Hk & Hl). rewrite Hc0 in Hq.
      by rewrite (Huniq q Hq Hk) in Hl. }
  apply rs_get in Hget as [Hget Hkey]. assert (pod0 = pod) as -> by by apply Huniq.
  destruct (service_endpoint pod) as [[port endpoint]|err] eqn:He.
  2:{ unfold syncRoleLabelForSinglePod. rewrite He. cbn. eexists _, _. split; [reflexivity|].
      intros (q & Hq & Hk & Hl). rewrite Hc0 in Hq. by rewrite (Huniq q Hq Hk) in Hl. }
  destruct (sync_single_spec pod port endpoint [get] He) as (role & err & pod' & t1 & -> & _ & Hcase).
  rewrite Hc0 in Hcase.
  destruct Hcase as [(Hb & -> & -> & Heq)|(Hb & [(-> & -> & Heq)|([e ->] & _ & Heq)])].
  - rewrite (bool_decide_false (role = _)) by congruence. rewrite andb_false_r. eexists _, _.
    split; [reflexivity|]. intros (q & Hq & Hk & Hl). rewrite Heq in Hq. by rewrite (Huniq q Hq Hk) in Hl.
  - rewrite (bool_decide_false (label_of pod _ = _)) by done. cbn [negb andb].
    case_bool_decide as Hr; cbn [andb negb].
    + subst role. change (label_of (with_role _ pod) LabelRisingWaveName) with
        (default "" (<[LabelRisingWaveMetaRole := MetaRoleLeader]> (pod_Labels pod) !! LabelRisingWaveName)).
      rewrite lookup_insert_ne by done. change (default "" _) with (label_of pod LabelRisingWaveName).
      unfold ask. rewrite Hcl. fold (leader_labels cluster). cbn [pod_Namespace pod_Name with_role set_pod_Labels].
      destruct (other_leaders_spec cluster pod ([get] ++ t1) Hn) as (t2 & Hs & Hall).
      rewrite Hs. eexists _, _. split; [reflexivity|]. intros _. exact Hall.
    + eexists _, _. split; [reflexivity|]. intros (q & Hq & Hk & Hl). rewrite Heq in Hq.
      destruct (patched_elem _ _ _ _ Hq) as [[_ Hs']|[Hrl _]]; congruence.
  - eexists _, _. split; [reflexivity|]. intros (q & Hq & Hk & Hl). rewrite Heq in Hq.
    by rewrite (Huniq q Hq Hk) in Hl.
Qed.
End server.

(** Where the replies name one leader, a pod that is told to lead announces that address. *)
Lemma told_leader_address `{MetaRoleEnv} leader t p port endpoint :
  (forall t addr members m, mr_members t addr = Ok members -> m ∈ members ->
     mb_IsLeader m = true -> mb_Host m = leader) ->
  service_endpoint p = Ok (port, endpoint) -> told_leader t p -> endpoint = leader.
Proof.
  intros Hone He (port' & endpoint' & t1 & members & He' & _ & Hm & Hrole). rewrite He in He'.
  injection He' as <- <-. unfold member_role in Hrole.
  destruct (find_index _ members) as [[i m]|] eqn:Hi; [|done].
  apply find_index_Some in Hi as (Hi & Hb & _). destruct (mb_IsLeader m) eqn:Hl; [|done].
  case_bool. destruct Hb as [<- _]. eapply Hone; [exact Hm|by eapply list_elem_of_lookup_2|done].
Qed.

(** ** Examples *)

Definition ex_meta_pod (name ip role : string) : Pod :=
  {| pod_Name := name; pod_Namespace := "ns"; pod_UID := name;
     pod_Labels := {[ LabelRisingWaveName := "rw"; LabelRisingWaveComponent := ComponentMeta;
                      LabelRisingWaveMetaRole := role ]};
     pod_Deleted := false; pod_Controller := None;
     pod_Spec := set_ps_Containers
       [set_component "meta" [] ["meta-node"] None portsForMetaContainer
          [env_value envs.RWAdvertiseAddr "$(POD_NAME).rw-meta:5690"] []
          (template_container zero_template)]
       (pts_Spec (newPodSpecFromNodeGroupTemplate zero_template));
     pod_Phase := "Running"; pod_IP := ip |}.

(** The first pod still has the label, the second one leads by now. *)
Definition ex_follower : Pod := ex_meta_pod "rw-meta-1" "10.0.0.2" MetaRoleFollower.
Definition ex_meta_pods : list Pod := [ex_meta_pod "rw-meta-0" "10.0.0.1" MetaRoleLeader; ex_follower].
Definition ex_members : list Member :=
  [{| mb_Host := "rw-meta-0.rw-meta"; mb_Port := MetaServicePort; mb_IsLeader := false |};
   {| mb_Host := "rw-meta-1.rw-meta"; mb_Port := MetaServicePort; mb_IsLeader := true |}].

(** An API server that accepts every patch, where every pod answers with the same members. *)
Definition accepting (members : list Member) : MetaRoleEnv :=
  {| mr_connect := fun _ => None; mr_members := fun _ _ => Ok members;
     mr_get := fun _ _ name => Err (NotFoundError name); mr_list := fun _ _ _ => Ok [];
     mr_patch := fun _ p _ => Ok p |}.
Definition role_server (c0 : list Pod) (members : list Member) : MetaRoleEnv :=
  let pods := pods_after (E := accepting members) c0 in
  {| mr_connect := fun _ => None; mr_members := fun _ _ => Ok members;
     mr_get := fun t ns name =>
       match find_index (fun p => bool_decide (pod_key p = (ns, name))) (pods t) with
       | Some (_, p) => Ok p
       | None => Err (NotFoundError name)
       end;
     mr_list := fun t ns labels =>
       Ok (filter (fun p => pod_Namespace p = ns /\ labels ⊆ pod_Labels p) (pods t));
     mr_patch := fun _ p _ => Ok p |}.

Lemma role_server_ok c0 members : @RoleServer (role_server c0 members) c0.
Proof.
  assert (forall sent t c, pods_run (E := accepting members) sent c t =
    pods_run (E := role_server c0 members) sent c t) as Hrun.
  { intros sent t. revert sent. induction t as [|ev t IH]; intros sent c; [done|]. cbn. rewrite IH. by destruct ev. }
  split; unfold role_server, pods_after; cbn.
  - intros t ns name p. rewrite Hrun. destruct (find_index _ _) as [[i q]|] eqn:Hf; [|done].
    apply find_index_Some in Hf as (Hi & Hb & _). case_bool. intros [= <-].
    split; [by eapply list_elem_of_lookup_2|done].
  - intros t ns labels l [= <-]. by rewrite Hrun.
  - by intros t p original p' [= <-].
Qed.

Lemma ex_follower_elem : ex_follower ∈ ex_meta_pods.
Proof. right. left. Qed.

(** After the reconcile the new leader has the label and the old one has not. *)
Lemma new_leader_alone_witness :
  exists r t, @Reconcile (role_server ex_meta_pods ex_members) "ns" "rw-meta-1" [] = Done (r, t) /\
    r = RequeueAfter 2000 /\
    (fun p => label_of p LabelRisingWaveMetaRole) <$> @pods_after (role_server ex_meta_pods ex_members) ex_meta_pods t =
      [MetaRoleFollower; MetaRoleLeader] /\
    ((exists q, q ∈ @pods_after (role_server ex_meta_pods ex_members) ex_meta_pods t /\
        pod_key q = pod_key ex_follower /\ label_of q LabelRisingWaveMetaRole = MetaRoleLeader) ->
     @list_refused (role_server ex_meta_pods ex_members) t \/
     forall q, q ∈ @pods_after (role_server ex_meta_pods ex_members) ex_meta_pods t ->
       labelled_leader "ns" "rw" q ->
       pod_key q = pod_key ex_follower \/ @may_keep (role_server ex_meta_pods ex_members) t q).
Proof.
  assert (label_of ex_follower LabelRisingWaveMetaRole <> MetaRoleLeader) as H by (vm_compute; discriminate).
  assert (label_of ex_follower LabelRisingWaveName = "rw") as H' by (vm_compute; reflexivity).
  assert (NoDup (pod_key <$> ex_meta_pods)) as Hn.
  { apply NoDup_cons. split; [|apply NoDup_cons; split; [apply not_elem_of_nil|apply NoDup_nil_2]].
    cbn. rewrite elem_of_cons, elem_of_nil. intros [[=]|[]]. }
  destruct (@new_leader_alone (role_server ex_meta_pods ex_members) ex_meta_pods
    (role_server_ok _ _) "rw" ex_follower Hn ex_follower_elem H' H) as (r & t & Ht & Hall).
  exists r, t. split; [exact Ht|]. split; [|split; [|exact Hall]];
    vm_compute in Ht; injection Ht as <- <-; vm_compute; reflexivity.
Defined.
