(* ===== verification/MetaRoleFactory.v ===== *)
(** * The meta pods of the factory and the labeler of their roles

    The labeler finds the address a pod announces in its container; the factory writes it
    there. The two agree: the pod the factory describes for a meta node group is recognised,
    and is looked up under the address at which the meta service knows it. *)

From S2P Require Import Prelude GoStrings GoMonad GoPaths KubeTypes ApiTypes ApiErrors RisingWaveManager Workloads EnvSort.
From S2P Require Import FactoryBase FactoryEnvs FactoryPods FactorySpec FactoryPodSpec Pods MetaRole MetaRoleSpec.

(** ** Replacing references *)

Lemma ReplaceAll_go_skip a t old new :
  ReplaceAll_go (String.length a) (a +:+ t) old new = ReplaceAll t old new.
Proof. induction a as [|c a IH]; [done|exact IH]. Qed.

Lemma ReplaceAll_match c old t new :
  ReplaceAll (String c old +:+ t) (String c old) new = new +:+ ReplaceAll t (String c old) new.
Proof.
  unfold ReplaceAll. change (String c old +:+ t) with (String c (old +:+ t)).
  cbn [ReplaceAll_go]. pose proof (prefix_app (String c old) t) as Hp.
  change (String c old +:+ t) with (String c (old +:+ t)) in Hp. rewrite Hp.
  f_equal. cbn [String.length]. rewrite Nat.sub_succ, Nat.sub_0_r. apply ReplaceAll_go_skip.
Qed.

(** [p] and [s] differ before either ends. *)
Fixpoint mismatch (p s : string) : bool :=
  match p, s with
  | String c p', String d s' => if ascii_dec c d then mismatch p' s' else true
  | _, _ => false
  end.

(** No occurrence of [old] starts in [s], whatever follows. *)
Fixpoint unmatched (old s : string) : bool :=
  match s with
  | EmptyString => true
  | String _ s' => mismatch old s && unmatched old s'
  end.

Lemma mismatch_prefix p s t : mismatch p s = true -> String.prefix p (s +:+ t) = false.
Proof.
  revert s. induction p as [|c p IH]; intros [|d s]; cbn; [done..|].
  destruct (ascii_dec c d); [apply IH|done].
Qed.

Lemma ReplaceAll_unmatched old s t new :
  unmatched old s = true -> ReplaceAll (s +:+ t) old new = s +:+ ReplaceAll t old new.
Proof.
  induction s as [|c s IH]; [done|]. cbn [unmatched]. intros [Hm Hs]%andb_true_iff.
  change (String c s +:+ t) with (String c (s +:+ t)). unfold ReplaceAll at 1. cbn [ReplaceAll_go].
  apply (mismatch_prefix _ _ t) in Hm. change (String c s +:+ t) with (String c (s +:+ t)) in Hm.
  rewrite Hm. change (ReplaceAll_go 0 (s +:+ t) old new) with (ReplaceAll (s +:+ t) old new).
  by rewrite IH.
Qed.

Lemma unmatched_plain d old s : contains_char d s = false -> unmatched (String d old) s = true.
Proof.
  induction s as [|c s IH]; [done|]. cbn [contains_char unmatched mismatch].
  intros [Hc Hs]%orb_false_iff. rewrite IH by done. destruct (ascii_dec d c); [|done].
  by rewrite bool_decide_true in Hc.
Qed.

Lemma host_of_app host port :
  contains_char ":"%char host = false -> host_of (host +:+ ":" +:+ port) = host.
Proof.
  intros H. unfold host_of. change (host +:+ ":" +:+ port) with (host +:+ String ":" port).
  by rewrite (Split_app_sep host port ":"%char).
Qed.

(** ** The address of a pod *)

(** A name in Kubernetes, and an IP address, holds no reference. *)
Definition no_reference (s : string) : Prop := contains_char "$"%char s = false.

(** The address under which the meta service knows a pod. *)
Definition announced_host (rw : RisingWave) (pod : Pod) : string :=
  if IsAdvertisingWithIP rw then pod_IP pod
  else pod_Name pod +:+ "." +:+ workload_name rw ComponentMeta "" +:+
       (if default false (rws_EnableFullKubernetesAddr (rw_Spec rw))
        then "." +:+ pod_Namespace pod +:+ ".svc" else "").

(** The variables can be put in an order in which each is after those it refers to. *)
Definition acyclic (e : list EnvVar) : Prop :=
  exists rank : EnvVar -> nat, forall a b, a ∈ e -> b ∈ e -> DependsOn a b = true -> rank b < rank a.

Section meta_pods.
Context (rw : RisingWave) (v : string) `{L : FactoryLib} `{H : Heap} {HH : HeapOk H} `{N : NameSort}.
Abbreviation f := (NewRisingWaveObjectFactory rw v).

Lemma expand_announced pod :
  no_reference (om_Name (rw_Meta rw)) -> no_reference (pod_Name pod) ->
  no_reference (pod_Namespace pod) -> no_reference (pod_IP pod) ->
  expand_endpoint pod
    (if IsAdvertisingWithIP rw then "$(POD_IP)"
     else "$(POD_NAME)" +:+ "." +:+ workload_name rw ComponentMeta "" +:+
       (if default false (rws_EnableFullKubernetesAddr (rw_Spec rw))
        then "." +:+ "$(POD_NAMESPACE)" +:+ ".svc" else ""))
  = announced_host rw pod.
Proof.
  intros Hname Hpod Hns Hip. unfold expand_endpoint, announced_host.
  set (W := workload_name rw ComponentMeta "").
  assert (no_reference W) as HW.
  { unfold W, no_reference, workload_name. rewrite contains_char_app, Hname. done. }
  pose proof (fun old s Hs => unmatched_plain "$" old s Hs) as Hplain. unfold no_reference in *.
  destruct (IsAdvertisingWithIP rw).
  - rewrite bool_decide_false by done.
    change "$(POD_IP)" with (String "$" "(POD_IP)" +:+ "") at 1. rewrite ReplaceAll_match.
    rewrite !ReplaceAll_unmatched by by apply Hplain. apply app_nil_r_str.
  - rewrite bool_decide_false by done.
    destruct (default false _); by repeat first
      [rewrite ReplaceAll_match
      |rewrite ReplaceAll_unmatched by (reflexivity || by apply Hplain)].
Qed.

(** The address the factory writes. *)
Definition announced_addr : string :=
  (if IsAdvertisingWithIP rw then "$(POD_IP)"
   else "$(POD_NAME)" +:+ "." +:+ workload_name rw ComponentMeta "" +:+
     (if default false (rws_EnableFullKubernetesAddr (rw_Spec rw))
      then "." +:+ "$(POD_NAMESPACE)" +:+ ".svc" else "")) +:+ ":5690".

Lemma advertise_addr_meta : advertise_addr f ComponentMeta MetaServicePort = Done announced_addr.
Proof.
  unfold advertise_addr, componentAddr, announced_addr.
  rewrite componentName_group by by apply component_group_intro; left. run_monad.
  unfold isFullKubernetesAddr. cbn [f_risingwave NewRisingWaveObjectFactory]. f_equal.
  destruct (IsAdvertisingWithIP rw); [done|].
  change (ref envs.PodName) with "$(POD_NAME)".
  destruct (default false _); rewrite <-!app_assoc_str; reflexivity.
Qed.

(** The variable of the address is the one the factory wrote, unless the user sets it. *)
Lemma meta_env_addr nodeGroup e :
  NoDup (env_Name <$> pt_Env (ng_Template nodeGroup)) ->
  envs.RWAdvertiseAddr ∉ env_Name <$> pt_Env (ng_Template nodeGroup) ->
  pod_env rw v ComponentMeta nodeGroup = Done e ->
  NoDup (env_Name <$> e) /\
  first_keyed env_Name envs.RWAdvertiseAddr e = Some (env_value envs.RWAdvertiseAddr announced_addr).
Proof.
  intros Hnd Hu He. destruct (pod_env_lookup rw v _ _ _ Hnd He) as (below & above & Hl & Hnd' & Hn).
  split; [done|]. rewrite Hn. clear Hn He. unfold layers in Hl. rewrite bool_decide_true in Hl by done.
  unfold envsForMetaArgs in Hl. rewrite advertise_addr_meta in Hl.
  destruct (coreEnvsForMeta f _) as [core|]; [|done].
  destruct (envsForMetaStore f) as [store|] eqn:Hstore; [|done].
  destruct (envsForMetaStore_names rw v store Hstore) as [_ Hstore_names].
  destruct (envsForStateStore_names rw v) as [_ Hstate_names].
  cbv [mbind outcome_bind mret outcome_ret] in Hl. injection Hl as <- <-.
  assert (last_keyed env_Name envs.RWAdvertiseAddr (envsForStateStore f ++ store) = None) as ->.
  { apply last_keyed_None. rewrite fmap_app. intros [Hin%Hstate_names|Hin%Hstore_names]%elem_of_app;
      by apply elem_of_existsb in Hin. }
  assert (last_keyed env_Name envs.RWAdvertiseAddr (common_env rw v ComponentMeta nodeGroup) = None) as ->.
  { apply last_keyed_None. unfold common_env, basic_envs. rewrite !fmap_app.
    intros Hin%elem_of_existsb. revert Hin. by destruct (default false _), (res_Limits _ !! _). }
  assert (first_keyed env_Name envs.RWAdvertiseAddr (user_env ComponentMeta nodeGroup) = None) as ->
    by by apply first_keyed_None.
  reflexivity.
Qed.

(** What a pod of a template is: its labels, and maybe more, and its specification. *)
Definition runs_template (pod : Pod) (t : PodTemplateSpec) : Prop :=
  pts_Labels t ⊆ pod_Labels pod /\ pod_Spec pod = pts_Spec t.

Lemma announced_host_nonempty pod : pod_IP pod <> "" -> announced_host rw pod <> "".
Proof.
  intros Hip. unfold announced_host. destruct (IsAdvertisingWithIP rw); [done|].
  by destruct (pod_Name pod).
Qed.

Lemma host_of_announced :
  contains_char ":"%char (om_Name (rw_Meta rw)) = false ->
  host_of announced_addr =
    if IsAdvertisingWithIP rw then "$(POD_IP)"
    else "$(POD_NAME)" +:+ "." +:+ workload_name rw ComponentMeta "" +:+
      (if default false (rws_EnableFullKubernetesAddr (rw_Spec rw))
       then "." +:+ "$(POD_NAMESPACE)" +:+ ".svc" else "").
Proof.
  intros Hc. unfold announced_addr. apply (host_of_app _ "5690").
  destruct (IsAdvertisingWithIP rw); [done|]. unfold workload_name.
  destruct (default false _); by rewrite !contains_char_app, Hc.
Qed.

(** C10: The labeler knows the meta pods: a running pod (with an IP) of the template the factory
    builds for a meta node group is recognised; it is asked, by requests for the members at
    nothing but its own IP and the port of the meta service; and its role is what the reply says
    of the host under which it announces itself, with its own name, namespace and address in
    place of the references. This is for a RisingWave with its stores set whose name has no
    colon, a group whose variables have distinct names, none of them RW_ADVERTISE_ADDR (a user
    who sets that one decides the address), and refer to each other without a cycle, and names
    and addresses without a dollar sign. *)
Theorem meta_pod_addressed nodeGroup t e pod :
  stores_set rw ->
  NoDup (env_Name <$> pt_Env (ng_Template nodeGroup)) ->
  envs.RWAdvertiseAddr ∉ env_Name <$> pt_Env (ng_Template nodeGroup) ->
  pod_env rw v ComponentMeta nodeGroup = Done e -> acyclic e ->
  newPodTemplateSpecFromNodeGroupByComponent f ComponentMeta nodeGroup = Done t ->
  runs_template pod t -> pod_IP pod <> "" ->
  contains_char ":"%char (om_Name (rw_Meta rw)) = false ->
  no_reference (om_Name (rw_Meta rw)) -> no_reference (pod_Name pod) ->
  no_reference (pod_Namespace pod) -> no_reference (pod_IP pod) ->
  isRisingWaveMetaPod pod = true /\
  service_endpoint pod = Ok (MetaServicePort, announced_host rw pod) /\
  forall (E : MetaRoleEnv) sent, exists role err pod' requests,
    let addr := pod_IP pod +:+ ":" +:+ "5690" in
    syncRoleLabelForSinglePod pod sent = Done (role, err, pod', sent ++ requests) /\
    Forall (fun ev => match ev with
                      | MembersRequest a => a = addr
                      | PatchPod _ original => original = pod
                      | _ => False
                      end) requests /\
    (mr_connect addr = None -> head requests = Some (MembersRequest addr) /\
       forall members, mr_members sent addr = Ok members ->
         role = member_role members (announced_host rw pod) MetaServicePort).
Proof.
  intros Hs Hnd Hu He [rank Hrank] Ht [Hlabels Hspec] Hip Hcolon Hn1 Hn2 Hn3 Hn4.
  destruct (pod_env_built rw v ComponentMeta nodeGroup) as (t' & con & rest & e' & Ht' & Hcon & He' & Henv & Hpod);
    [by left|done|]. rewrite Ht in Ht'. injection Ht' as <-. rewrite He in He'. injection He' as <-.
  destruct (meta_env_addr nodeGroup e Hnd Hu He) as [Hnde Haddr].
  destruct (po_container _ _ _ _ _ _ Hpod) as (con' & rest' & Hcon' & Hname & Hports & _ & Hargs).
  rewrite Hcon in Hcon'. injection Hcon' as <- <-. specialize (Hargs eq_refl).
  destruct (TopologicalSort_acyclic e rank Hrank) as (out & Hout & Hperm & _).
  assert (GetContainerFromPod pod "meta" = Some con) as Hget.
  { unfold GetContainerFromPod. rewrite Hspec, Hcon. unfold find_index. cbn.
    by rewrite bool_decide_true by exact Hname. }
  assert (isRisingWaveMetaPod pod = true) as Hmeta.
  { unfold isRisingWaveMetaPod, label_of. rewrite map_subseteq_spec in Hlabels.
    rewrite (Hlabels _ _ (po_label_name _ _ _ _ _ _ Hpod)),
      (Hlabels _ _ (po_label_component _ _ _ _ _ _ Hpod)), Hget. done. }
  split; [done|]. enough (service_endpoint pod = Ok (MetaServicePort, announced_host rw pod)) as He'.
  { split; [done|]. intros E sent. apply (sync_single_asks pod _ _ sent He'). }
  unfold service_endpoint. rewrite Hmeta, Hget. cbn [negb].
  rewrite (bool_decide_false (pod_IP pod = "")) by done.
  assert (GetPortFromContainer (Some con) PortService = (MetaServicePort, true)) as ->.
  { unfold GetPortFromContainer. by rewrite Hports. }
  unfold getEndpointFromArgs. rewrite Hargs. cbn [args_endpoint].
  change (expand_endpoint pod "") with "". rewrite (bool_decide_true ("" = "")) by done.
  assert (getEndpointFromEnvVars pod (c_Env con) = announced_host rw pod) as ->.
  { unfold getEndpointFromEnvVars. rewrite Henv. unfold sort_env. rewrite Hout. change (default e (Some out)) with out.
    rewrite <-(first_keyed_perm env_Name _ e out Hnde Hperm) in Haddr. unfold first_keyed in Haddr.
    destruct (find_index _ out) as [[i x]|]; [|done]. cbn in Haddr. injection Haddr as ->.
    cbn [env_Value env_value]. rewrite host_of_announced by done. by apply expand_announced. }
  by rewrite bool_decide_false by by apply announced_host_nonempty.
Qed.
End meta_pods.

(** ** Example *)

Definition acyclic_check (rank : EnvVar -> nat) (e : list EnvVar) : bool :=
  forallb (fun a => forallb (fun b => negb (DependsOn a b) || Nat.ltb (rank b) (rank a)) e) e.

Lemma acyclic_check_ok rank e : acyclic_check rank e = true -> acyclic e.
Proof.
  unfold acyclic_check. rewrite forallb_forall. intros Hc. exists rank. intros a b Ha Hb Hd.
  apply list_elem_of_In, Hc in Ha. rewrite forallb_forall in Ha.
  apply list_elem_of_In, Ha in Hb. rewrite Hd in Hb. by apply Nat.ltb_lt.
Qed.

Definition ex_meta_env : list EnvVar :=
  match pod_env (L := ex_pod_lib) ex_memory_rw "v1" ComponentMeta ex_env_group with
  | Done e => e
  | Panic _ => []
  end.
Definition ex_meta_template : PodTemplateSpec :=
  match newPodTemplateSpecFromNodeGroupByComponent (L := ex_pod_lib) (H := list_heap)
          (N := {| sort_by := fun T name l => l |}) (NewRisingWaveObjectFactory ex_memory_rw "v1")
          ComponentMeta ex_env_group with
  | Done t => t
  | Panic _ => newPodSpecFromNodeGroupTemplate zero_template
  end.
Definition ex_running_pod : Pod :=
  {| pod_Name := "rw-meta-big-0"; pod_Namespace := "default"; pod_UID := "";
     pod_Labels := pts_Labels ex_meta_template; pod_Deleted := false; pod_Controller := None;
     pod_Spec := pts_Spec ex_meta_template; pod_Phase := "Running"; pod_IP := "10.0.0.1" |}.

Lemma meta_pod_addressed_witness :
  isRisingWaveMetaPod ex_running_pod = true /\
  service_endpoint ex_running_pod = Ok (MetaServicePort, "rw-meta-big-0.rw-meta") /\
  forall (E : MetaRoleEnv) sent, exists role err pod' requests,
    let addr := "10.0.0.1:5690"%string in
    syncRoleLabelForSinglePod ex_running_pod sent = Done (role, err, pod', sent ++ requests) /\
    Forall (fun ev => match ev with
                      | MembersRequest a => a = addr
                      | PatchPod _ original => original = ex_running_pod
                      | _ => False
                      end) requests /\
    (mr_connect addr = None -> head requests = Some (MembersRequest addr) /\
       forall members, mr_members sent addr = Ok members ->
         role = member_role members "rw-meta-big-0.rw-meta" MetaServicePort).
Proof.
  apply (@meta_pod_addressed ex_memory_rw "v1" ex_pod_lib list_heap list_heap_ok
    {| sort_by := fun T name l => l |} ex_env_group ex_meta_template ex_meta_env ex_running_pod).
  - exact ex_memory_stores.
  - apply distinct_NoDup. vm_compute. reflexivity.
  - rewrite <-elem_of_existsb. vm_compute. discriminate.
  - vm_compute. reflexivity.
  - apply (acyclic_check_ok (fun x => if String.eqb (env_Name x) envs.RWAdvertiseAddr then 1 else 0)).
    vm_compute. reflexivity.
  - vm_compute. reflexivity.
  - split; [|reflexivity]. intros k. by destruct (_ !! k).
  - vm_compute. discriminate.
  - vm_compute. reflexivity.
  - vm_compute. reflexivity.
  - vm_compute. reflexivity.
  - vm_compute. reflexivity.
  - vm_compute. reflexivity.
Defined.
