(* ===== verification/ApiUser.v ===== *)
(** * The API types of [apis/risingwave/v1alpha1/risingwave_user_types.go]

    RisingWaveUser: a database user with its credentials, permissions and grants. The
    eight nested privilege structs (table, view, ...) have the same three fields and
    differ in the Go type of the privilege; they are one record indexed by the kind of
    object. A [metav1.Time] is a number of seconds, [metav1.Condition]s keep the fields
    the operator reads. *)

From S2P Require Import Prelude GoStrings ApiTypes.

(** ** Grants *)

Inductive object_kind :=
| KTable | KView | KMaterializedView | KSource | KSink | KConnection | KSecret | KFunction.

Record NestedPrivilege (k : object_kind) := {
  np_Name : string;
  np_Privileges : list string;
  np_WithGrantOption : bool;
}.
Arguments np_Name {k} _.
Arguments np_Privileges {k} _.
Arguments np_WithGrantOption {k} _.

Definition NestedTablePrivilege : Type := NestedPrivilege KTable.
Definition NestedViewPrivilege : Type := NestedPrivilege KView.
Definition NestedMaterializedViewPrivilege : Type := NestedPrivilege KMaterializedView.
Definition NestedSourcePrivilege : Type := NestedPrivilege KSource.
Definition NestedSinkPrivilege : Type := NestedPrivilege KSink.
Definition NestedConnectionPrivilege : Type := NestedPrivilege KConnection.
Definition NestedSecretPrivilege : Type := NestedPrivilege KSecret.
Definition NestedFunctionPrivilege : Type := NestedPrivilege KFunction.

Record NestedSchemaPrivilege := {
  nsp_Name : string;
  nsp_Privileges : list string;
  nsp_WithGrantOption : bool;
  nsp_Tables : list NestedTablePrivilege;
  nsp_Views : list NestedViewPrivilege;
  nsp_MaterializedViews : list NestedMaterializedViewPrivilege;
  nsp_Sources : list NestedSourcePrivilege;
  nsp_Sinks : list NestedSinkPrivilege;
  nsp_Connections : list NestedConnectionPrivilege;
  nsp_Secrets : list NestedSecretPrivilege;
  nsp_Functions : list NestedFunctionPrivilege;
}.

Record DatabasePrivilege := {
  dp_Name : string;
  dp_Privileges : list string;
  dp_WithGrantOption : bool;
  dp_Schemas : list NestedSchemaPrivilege;
}.

Record GrantSpec := { gr_Databases : list DatabasePrivilege }.

(** ** Privilege names *)

Definition DatabasePrivilegeConnect : string := "CONNECT".
Definition DatabasePrivilegeCreate : string := "CREATE".
Definition DatabasePrivilegeAll : string := "ALL".
Definition SchemaPrivilegeUsage : string := "USAGE".
Definition SchemaPrivilegeCreate : string := "CREATE".
Definition SchemaPrivilegeAll : string := "ALL".
Definition TablePrivilegeSelect : string := "SELECT".
Definition TablePrivilegeInsert : string := "INSERT".
Definition TablePrivilegeUpdate : string := "UPDATE".
Definition TablePrivilegeDelete : string := "DELETE".
Definition TablePrivilegeTruncate : string := "TRUNCATE".
Definition TablePrivilegeReferences : string := "REFERENCES".
Definition TablePrivilegeTrigger : string := "TRIGGER".
Definition TablePrivilegeAll : string := "ALL".

(** ** References and authentication *)

Record SecretReference := {
  sref_Name : string;
  sref_Namespace : string;
  sref_Key : string;
}.

Record AdminCredentials := {
  ac_Username : string;
  ac_Password : string;
  ac_PasswordSecretRef : option SecretReference;
}.

Record RisingWaveReference := {
  rwr_Name : string;
  rwr_Namespace : string;
  rwr_Credentials : option AdminCredentials;
}.

Record ConnectionRef := {
  cr_Host : string;
  cr_Port : Z;
  cr_Credentials : option AdminCredentials;
}.

Record PasswordConfig := {
  pwc_SecretRef : option SecretReference;
  pwc_GenerateRandomLength : option Z;
}.

Definition AuthTypePassword : string := "password".
Definition AuthTypeOAuth : string := "oauth".
Definition AuthTypeLDAP : string := "ldap".

Record OAuthConfig := {
  oa_JWKSUrl : string;
  oa_Issuer : string;
  oa_Audience : list string;
}.

Record LDAPConfig := {
  ldap_Host : string;
  ldap_Port : Z;
  ldap_BaseDN : string;
  ldap_UseSSL : option bool;
  ldap_InsecureSkipVerify : option bool;
}.

Record AuthConfig := {
  au_Type : option string;
  au_OAuth : option OAuthConfig;
  au_LDAP : option LDAPConfig;
}.

(** ** The RisingWaveUser object *)

Record RisingWaveUserSpec := {
  us_RisingWaveRef : option RisingWaveReference;
  us_ConnectionRef : option ConnectionRef;
  us_Name : string;
  us_Password : option PasswordConfig;
  us_Auth : option AuthConfig;
  us_Permissions : list string;
  us_Grants : option GrantSpec;
}.

Record ConnectionStatus := {
  cst_Connected : bool;
  cst_LastConnectedTime : option Z;
  cst_ErrorMessage : string;
}.

Record UserCondition := {
  uc_Type : string;
  uc_Status : string;
  uc_ObservedGeneration : Z;
  uc_LastTransitionTime : Z;
  uc_Reason : string;
  uc_Message : string;
}.

Record RisingWaveUserStatus := {
  ust_Conditions : list UserCondition;
  ust_ObservedGeneration : Z;
  ust_UserCreated : bool;
  ust_SecretCreated : bool;
  ust_SecretName : string;
  ust_PrivilegesSynced : bool;
  ust_ConnectionStatus : option ConnectionStatus;
  ust_Phase : string;
}.

Record RisingWaveUser := {
  u_Meta : ObjectMeta;
  u_Spec : RisingWaveUserSpec;
  u_Status : RisingWaveUserStatus;
}.

Global Instance SecretReference_eq_dec : EqDecision SecretReference.
Proof. solve_decision. Defined.
Global Instance PasswordConfig_eq_dec : EqDecision PasswordConfig.
Proof. solve_decision. Defined.

Definition u_Name (u : RisingWaveUser) : string := om_Name (u_Meta u).

(** The user name: [spec.name], or the object's name when it is empty. The same code
    is in [pkg/rwclient], the webhook and the controller. *)
Definition getUserName (u : RisingWaveUser) : string :=
  if bool_decide (us_Name (u_Spec u) = "") then u_Name u else us_Name (u_Spec u).

(** ** Zero values *)

Definition zero_user_spec : RisingWaveUserSpec :=
  {| us_RisingWaveRef := None; us_ConnectionRef := None; us_Name := ""; us_Password := None;
     us_Auth := None; us_Permissions := []; us_Grants := None |}.
Definition zero_user_status : RisingWaveUserStatus :=
  {| ust_Conditions := []; ust_ObservedGeneration := 0; ust_UserCreated := false;
     ust_SecretCreated := false; ust_SecretName := ""; ust_PrivilegesSynced := false;
     ust_ConnectionStatus := None; ust_Phase := "" |}.
Definition zero_user : RisingWaveUser :=
  {| u_Meta := empty_meta; u_Spec := zero_user_spec; u_Status := zero_user_status |}.
