(* ===== verification/Acl.v ===== *)
(** * pkg/rwclient/acl_parser.go: reading access control lists

    RisingWave reports privileges as text: [{user=rw*/grantor,...}], one byte for each
    privilege and a star for the grant option. The file models the parser and proves
    that it reads back what is printed. *)

From S2P Require Import Prelude GoStrings ApiUser.

(** ** Definitions *)

Record PrivilegeGrant := {
  pg_Privilege : string;
  pg_WithGrantOption : bool;
}.

Record UserPrivileges := {
  up_User : string;
  up_Privileges : list PrivilegeGrant;
}.

(** [string(b)] of a byte: the UTF-8 text of the code point. *)
Definition byte_string (c : ascii) : string :=
  let n := nat_of_ascii c in
  if Nat.ltb n 128 then str1 c
  else String (ascii_of_nat (192 + Nat.div n 64)) (str1 (ascii_of_nat (128 + Nat.modulo n 64))).

(** The loop over the privilege bytes. *)
Fixpoint parse_privs (s : string) : list PrivilegeGrant :=
  match s with
  | EmptyString => []
  | String c s' =>
      match s' with
      | String "*" s'' =>
          {| pg_Privilege := byte_string c; pg_WithGrantOption := true |} :: parse_privs s''
      | _ => {| pg_Privilege := byte_string c; pg_WithGrantOption := false |} :: parse_privs s'
      end
  end.

(** One entry; a malformed one is skipped. *)
Definition parse_entry (entry : string) : option UserPrivileges :=
  match Split entry "=" with
  | [grantee; remaining] =>
      match Split remaining "/" with
      | [privsStr; _] => Some {| up_User := grantee; up_Privileges := parse_privs privsStr |}
      | _ => None
      end
  | _ => None
  end.

Definition ParseACL (aclStr : string) : list UserPrivileges :=
  let aclStr := Trim aclStr "{}" in
  if bool_decide (aclStr = "") then [] else omap parse_entry (Split aclStr ",").

Definition MapCharToTablePrivilege (char : string) : string :=
  if bool_decide (char = "r") then TablePrivilegeSelect
  else if bool_decide (char = "a") then TablePrivilegeInsert
  else if bool_decide (char = "w") then TablePrivilegeUpdate
  else if bool_decide (char = "d") then TablePrivilegeDelete
  else if bool_decide (char = "D") then TablePrivilegeTruncate
  else if bool_decide (char = "x") then TablePrivilegeReferences
  else if bool_decide (char = "t") then TablePrivilegeTrigger
  else "".

Definition MapCharToDatabasePrivilege (char : string) : string :=
  if bool_decide (char = "c") then DatabasePrivilegeConnect
  else if bool_decide (char = "C") then DatabasePrivilegeCreate
  else "".

Definition MapCharToSchemaPrivilege (char : string) : string :=
  if bool_decide (char = "U") then SchemaPrivilegeUsage
  else if bool_decide (char = "C") then SchemaPrivilegeCreate
  else "".

(** ** The printed form: the specification of the parser *)

Record acl_entry := {
  ae_User : string;
  ae_Privs : list (ascii * bool);
  ae_Grantor : string;
}.

Definition print_priv (p : ascii * bool) : string :=
  if p.2 then String p.1 "*" else str1 p.1.
Fixpoint print_privs (ps : list (ascii * bool)) : string :=
  match ps with [] => "" | p :: ps' => print_priv p +:+ print_privs ps' end.
Definition print_entry (e : acl_entry) : string :=
  ae_User e +:+ "=" +:+ print_privs (ae_Privs e) +:+ "/" +:+ ae_Grantor e.
Definition print_acl (es : list acl_entry) : string :=
  "{" +:+ Join (print_entry <$> es) "," +:+ "}".

#[global] Arguments print_acl : simpl never.

Definition entry_privileges (e : acl_entry) : UserPrivileges :=
  {| up_User := ae_User e;
     up_Privileges := (fun p => {| pg_Privilege := byte_string p.1;
                                   pg_WithGrantOption := p.2 |}) <$> ae_Privs e |}.

(** A name without the bytes the format uses. *)
Definition plain_char (c : ascii) : bool :=
  negb (contains_char c ",=/{}").
Definition plain (s : string) : bool := forall_chars plain_char s.
Definition priv_char (c : ascii) : bool := negb (contains_char c ",=/{}*").

Definition entry_ok (e : acl_entry) : Prop :=
  plain (ae_User e) = true /\ plain (ae_Grantor e) = true /\
  Forall (fun p => priv_char p.1 = true) (ae_Privs e).

(** ** Lemmas *)

Lemma print_privs_head ps s :
  Forall (fun p => priv_char p.1 = true) ps -> print_privs ps <> String "*" s.
Proof.
  destruct ps as [|[c []] ps]; intros Hf H; [done| |];
    apply Forall_cons in Hf as [Hc _]; cbn in H; injection H as -> _; done.
Qed.

Lemma parse_print_privs ps :
  Forall (fun p => priv_char p.1 = true) ps ->
  parse_privs (print_privs ps) =
  (fun p => {| pg_Privilege := byte_string p.1; pg_WithGrantOption := p.2 |}) <$> ps.
Proof.
  induction ps as [|[c b] ps IH]; intros Hf; [done|].
  apply Forall_cons in Hf as [Hc Hf]. specialize (IH Hf). rewrite fmap_cons, <-IH.
  destruct b; [done|]. cbn.
  destruct (print_privs ps) as [|d s] eqn:Hs; [done|].
  assert (d <> "*"%char) as Hd by (intros ->; by eapply print_privs_head).
  destruct d as [[] [] [] [] [] [] [] []]; try reflexivity. done.
Qed.

(** Characters of the printed privileges. *)
Lemma print_privs_chars (q : ascii -> bool) ps :
  q "*"%char = true -> Forall (fun p => priv_char p.1 = true) ps ->
  (forall c, priv_char c = true -> q c = true) -> forall_chars q (print_privs ps) = true.
Proof.
  intros Hstar Hf Hq. induction Hf as [|[c b] ps Hc Hf IH]; cbn; [done|].
  rewrite forall_chars_app, IH, andb_true_r. cbn in Hc. apply Hq in Hc.
  destruct b; cbn; by rewrite Hc, ?Hstar.
Qed.

Lemma forall_chars_contains c s :
  forall_chars (fun d => negb (bool_decide (c = d))) s = true <-> contains_char c s = false.
Proof.
  induction s as [|d s IH]; cbn; [done|].
  rewrite andb_true_iff, IH, orb_false_iff, negb_true_iff. done.
Qed.

(** A printed entry has none of the bytes [avoid] when the format does not add them. *)
Lemma plain_avoids c d : plain_char c = true -> contains_char d ",=/{}" = true -> d <> c.
Proof. intros Hc Hd ->. unfold plain_char in Hc. by rewrite Hd in Hc. Qed.

Lemma priv_plain c : priv_char c = true -> plain_char c = true.
Proof.
  unfold priv_char, plain_char. change ",=/{}*"%string with (",=/{}" +:+ "*"%string).
  rewrite contains_char_app, negb_orb. by intros [? _]%andb_true_iff.
Qed.

Lemma plain_no_char s d :
  plain s = true -> contains_char d ",=/{}" = true -> contains_char d s = false.
Proof.
  intros Hs Hd. apply forall_chars_contains. eapply forall_chars_impl; [|exact Hs].
  intros c Hc. cbn. by rewrite bool_decide_false by (by eapply plain_avoids).
Qed.

Lemma privs_plain ps :
  Forall (fun p => priv_char p.1 = true) ps -> plain (print_privs ps) = true.
Proof. intros H. apply print_privs_chars; [done|done|apply priv_plain]. Qed.

Lemma parse_print_entry e : entry_ok e -> parse_entry (print_entry e) = Some (entry_privileges e).
Proof.
  intros (Hu & Hg & Hp). unfold parse_entry, print_entry.
  change ("=" +:+ ?s) with (String "=" s).
  rewrite Split_app_sep by (by apply plain_no_char).
  assert (contains_char "=" (print_privs (ae_Privs e) +:+ "/" +:+ ae_Grantor e) = false) as Heq.
  { rewrite !contains_char_app. rewrite (plain_no_char (ae_Grantor e)) by done.
    by rewrite (plain_no_char _ _ (privs_plain _ Hp)). }
  rewrite (Split_no_sep _ _ Heq). change ("/" +:+ ?s) with (String "/" s).
  rewrite Split_app_sep by (by apply plain_no_char; [apply privs_plain|]).
  rewrite Split_no_sep by (by apply plain_no_char). by rewrite parse_print_privs.
Qed.

Definition brace (c : ascii) : bool := contains_char c "{}".

Lemma plain_not_brace c : plain_char c = true -> brace c = false.
Proof.
  unfold plain_char, brace. change ",=/{}"%string with (",=/" +:+ "{}"%string).
  rewrite contains_char_app, negb_orb. intros [_ H]%andb_true_iff. by apply negb_true_iff.
Qed.

Lemma print_entry_not_brace e :
  entry_ok e -> forall_chars (fun c => negb (brace c)) (print_entry e) = true.
Proof.
  intros (Hu & Hg & Hp). unfold print_entry.
  assert (forall s, plain s = true -> forall_chars (fun c => negb (brace c)) s = true) as Hpl.
  { intros s. apply forall_chars_impl. intros c Hc. by rewrite plain_not_brace. }
  rewrite !forall_chars_app, (Hpl _ Hu), (Hpl _ Hg), (Hpl _ (privs_plain _ Hp)). done.
Qed.

Lemma join_not_brace es :
  Forall entry_ok es -> forall_chars (fun c => negb (brace c)) (Join (print_entry <$> es) ",") = true.
Proof.
  intros H. induction H as [|e es He Hes IH]; [done|]. rewrite fmap_cons.
  destruct es as [|e' es]; [by apply print_entry_not_brace|]. rewrite fmap_cons in *.
  change (Join (?x :: ?y :: ?l) ",") with (x +:+ "," +:+ Join (y :: l) ",").
  rewrite !forall_chars_app, IH. by rewrite print_entry_not_brace.
Qed.

Lemma TrimRightFunc_suffix p s t :
  forall_chars (fun c => negb (p c)) s = true -> forall_chars p t = true ->
  TrimRightFunc p (s +:+ t) = s.
Proof.
  intros Hs Ht. induction s as [|c s IH].
  - cbn. induction t as [|c t IH]; [done|]. cbn in *. split_bools. rewrite IH by done.
    match goal with H : p c = true |- _ => by rewrite H end.
  - cbn in *. split_bools. rewrite IH by done. destruct s; [|done].
    match goal with H : p c = false |- _ => by rewrite H end.
Qed.

Lemma Trim_braces s :
  forall_chars (fun c => negb (brace c)) s = true -> Trim ("{" +:+ s +:+ "}") "{}" = s.
Proof.
  intros Hs. unfold Trim, TrimFunc. fold brace.
  assert (TrimLeftFunc brace ("{" +:+ s +:+ "}") =
          if bool_decide (s = ""%string) then ""%string else s +:+ "}") as ->.
  { destruct s as [|c s]; [done|]. cbn in Hs. apply andb_true_iff in Hs as [Hc _].
    apply negb_true_iff in Hc. cbn. by rewrite Hc. }
  case_bool; [by subst|]. by apply TrimRightFunc_suffix.
Qed.

Lemma print_entry_no_comma e : entry_ok e -> contains_char "," (print_entry e) = false.
Proof.
  intros (Hu & Hg & Hp). unfold print_entry. rewrite !contains_char_app.
  rewrite (plain_no_char _ "," Hu), (plain_no_char _ "," Hg) by done.
  by rewrite (plain_no_char _ "," (privs_plain _ Hp)).
Qed.

Lemma print_entry_nonempty e : print_entry e <> ""%string.
Proof. unfold print_entry. by destruct (ae_User e). Qed.

Lemma Join_nonempty es : es <> [] -> Join (print_entry <$> es) "," <> ""%string.
Proof.
  destruct es as [|e [|e' es]]; [done| |]; intros _; unfold Join; cbn.
  - apply print_entry_nonempty.
  - destruct (print_entry e) eqn:H; [by apply print_entry_nonempty in H|done].
Qed.

(** No privilege of the catalog is reported as "ALL". *)
Lemma MapChar_not_ALL c :
  MapCharToTablePrivilege c <> "ALL"%string /\ MapCharToDatabasePrivilege c <> "ALL"%string /\
  MapCharToSchemaPrivilege c <> "ALL"%string.
Proof.
  unfold MapCharToTablePrivilege, MapCharToDatabasePrivilege, MapCharToSchemaPrivilege.
  repeat split; repeat (destruct (bool_decide _)); discriminate.
Qed.

Lemma ParseACL_print_entries es :
  Forall entry_ok es -> ParseACL (print_acl es) = entry_privileges <$> es.
Proof.
  intros Hok. unfold ParseACL, print_acl. rewrite Trim_braces by (by apply join_not_brace).
  destruct es as [|e es]; [done|].
  rewrite bool_decide_false by (by apply Join_nonempty).
  change ","%string with (str1 ","). rewrite Split_Join.
  - induction Hok as [|e' es' He Hes IH]; [done|]. rewrite !fmap_cons. cbn.
    rewrite parse_print_entry by done. cbn. f_equal. exact IH.
  - done.
  - apply Forall_fmap. eapply Forall_impl; [exact Hok|]. apply print_entry_no_comma.
Qed.

(** ** Properties *)

(** C34: Reading back a printed access control list gives every user's privileges with
    their grant options, in order, for any names that do not use the format's own
    bytes. *)
Theorem ParseACL_print es :
  Forall entry_ok es -> ParseACL (print_acl es) = entry_privileges <$> es.
Proof. apply ParseACL_print_entries. Qed.

(** ** Examples *)

Definition ex_acl : list acl_entry :=
  [{| ae_User := "alice"; ae_Privs := [("r"%char, true); ("w"%char, false)]; ae_Grantor := "root" |};
   {| ae_User := ""; ae_Privs := [("U"%char, false)]; ae_Grantor := "root" |}].

Example ex_acl_text : print_acl ex_acl = "{alice=r*w/root,=U/root}"%string.
Proof. reflexivity. Qed.

(** An entry that is not [user=privileges/grantor] is skipped. *)
Example malformed_entry_skipped :
  up_User <$> ParseACL "{a=r/root,broken,b=w/root,c=d=r/root}" = ["a"; "b"]%string.
Proof. reflexivity. Qed.

Lemma ParseACL_print_witness :
  ParseACL "{alice=r*w/root,=U/root}" = entry_privileges <$> ex_acl.
Proof. apply (ParseACL_print ex_acl). repeat constructor. Defined.
