(* ===== verification/SqlBuilder.v ===== *)
(** * pkg/rwclient/sql_builder.go: building SQL statements

    The statements are text built from user-controlled names. The file models every
    builder and proves that the quoting is right: a reader of SQL identifiers and
    string literals gets back the name that was quoted, whatever it contains. *)

From S2P Require Import Prelude GoStrings ApiTypes ApiUser.

(** ** Definitions: quoting *)

(** A string of one double quote, and of two. *)
Definition dq : string := str1 dquote.
Definition dqdq : string := String dquote dq.
Definition sq : string := str1 squote.
Definition sqsq : string := String squote sq.

Definition QuoteIdentifier (name : string) : string :=
  if bool_decide (name = "*") then name else dq +:+ ReplaceAll_char name dquote dqdq +:+ dq.

Definition QuoteUser (name : string) : string :=
  dq +:+ ReplaceAll_char name dquote dqdq +:+ dq.

Definition escapeStringLiteral (s : string) : string := ReplaceAll_char s squote sqsq.

(** ** Definitions: users *)

Definition words (l : list string) : string :=
  foldr (fun w acc => " " +:+ w +:+ acc) ""%string l.

Definition BuildCreateUserSQL (user : RisingWaveUser) (password : string) : string :=
  "CREATE USER " +:+ QuoteUser (getUserName user) +:+
  (if bool_decide (password = "") then ""
   else " WITH PASSWORD '" +:+ escapeStringLiteral password +:+ "'") +:+
  words (us_Permissions (u_Spec user)).

Definition BuildAlterUserPasswordSQL (userName password : string) : string :=
  "ALTER USER " +:+ QuoteUser userName +:+ " WITH PASSWORD '" +:+
  escapeStringLiteral password +:+ "'".

Definition BuildDropUserSQL (userName : string) : string :=
  "DROP USER IF EXISTS " +:+ QuoteUser userName.

Definition BuildCreateUserWithOAuthSQL (userName : string) (oauth : option OAuthConfig) : string :=
  "CREATE USER " +:+ QuoteUser userName +:+ " WITH CREATE_USER_ONLY".

Definition BuildAlterUserOAuthSQL (userName : string) (oauth : option OAuthConfig)
  : list string := [].

Definition BuildCreateUserWithLDAPSQL (userName : string) (ldap : option LDAPConfig) : string :=
  "CREATE USER " +:+ QuoteUser userName +:+ " WITH CREATE_USER_ONLY".

Definition BuildAlterUserPermissionsSQL (userName : string) (permissions : list string) : string :=
  match permissions with
  | [] => ""
  | _ => "ALTER USER " +:+ QuoteUser userName +:+ words permissions
  end.

(** ** Definitions: grants *)

Definition normalize_privilege (p : string) : string :=
  if bool_decide (p = "ALL PRIVILEGES") then "ALL" else p.

Definition normalizePrivileges (privs : list string) : string :=
  match privs with
  | [] => "USAGE"
  | _ => Join (normalize_privilege <$> privs) ", "
  end.

Definition buildGrantOption (withGrant : bool) : string :=
  if withGrant then " WITH GRANT OPTION" else "".

Definition buildGrantDatabasePrivilege (userName : string) (priv : DatabasePrivilege) : string :=
  "GRANT " +:+ normalizePrivileges (dp_Privileges priv) +:+ " ON DATABASE " +:+
  QuoteIdentifier (dp_Name priv) +:+ " TO " +:+ QuoteUser userName +:+
  buildGrantOption (dp_WithGrantOption priv).

Definition buildRevokeDatabasePrivilege (userName : string) (priv : DatabasePrivilege) : string :=
  "REVOKE " +:+ normalizePrivileges (dp_Privileges priv) +:+ " ON DATABASE " +:+
  QuoteIdentifier (dp_Name priv) +:+ " FROM " +:+ QuoteUser userName.

Definition buildGrantNestedSchemaPrivilege (userName : string) (priv : NestedSchemaPrivilege)
  : string :=
  "GRANT " +:+ normalizePrivileges (nsp_Privileges priv) +:+ " ON SCHEMA " +:+
  QuoteIdentifier (nsp_Name priv) +:+ " TO " +:+ QuoteUser userName +:+
  buildGrantOption (nsp_WithGrantOption priv).

Definition buildRevokeNestedSchemaPrivilege (userName : string) (priv : NestedSchemaPrivilege)
  : string :=
  "REVOKE " +:+ normalizePrivileges (nsp_Privileges priv) +:+ " ON SCHEMA " +:+
  QuoteIdentifier (nsp_Name priv) +:+ " FROM " +:+ QuoteUser userName.

(** The words for one object, and for all objects of a schema. *)
Definition kind_word (k : object_kind) : string :=
  match k with
  | KTable => "TABLE" | KView => "VIEW" | KMaterializedView => "MATERIALIZED VIEW"
  | KSource => "SOURCE" | KSink => "SINK" | KConnection => "CONNECTION"
  | KSecret => "SECRET" | KFunction => "FUNCTION"
  end.
Definition kind_plural (k : object_kind) : string :=
  match k with
  | KTable => "TABLES" | KView => "VIEWS" | KMaterializedView => "MATERIALIZED VIEWS"
  | KSource => "SOURCES" | KSink => "SINKS" | KConnection => "CONNECTIONS"
  | KSecret => "SECRETS" | KFunction => "FUNCTIONS"
  end.

(** The eight object builders differ in these words alone. *)
Definition buildGrantNested {k : object_kind} (userName database schema : string)
    (priv : NestedPrivilege k) : string :=
  if bool_decide (np_Name priv = "*") then
    "GRANT " +:+ normalizePrivileges (np_Privileges priv) +:+ " ON ALL " +:+ kind_plural k +:+
    " IN SCHEMA " +:+ QuoteIdentifier schema +:+ " TO " +:+ QuoteUser userName +:+
    buildGrantOption (np_WithGrantOption priv)
  else
    "GRANT " +:+ normalizePrivileges (np_Privileges priv) +:+ " ON " +:+ kind_word k +:+ " " +:+
    QuoteIdentifier database +:+ "." +:+ QuoteIdentifier schema +:+ "." +:+
    QuoteIdentifier (np_Name priv) +:+ " TO " +:+ QuoteUser userName +:+
    buildGrantOption (np_WithGrantOption priv).

Definition buildGrantNestedTablePrivilege (u d s : string) (p : NestedTablePrivilege) : string :=
  buildGrantNested u d s p.
Definition buildGrantNestedViewPrivilege (u d s : string) (p : NestedViewPrivilege) : string :=
  buildGrantNested u d s p.
Definition buildGrantNestedMaterializedViewPrivilege (u d s : string)
    (p : NestedMaterializedViewPrivilege) : string := buildGrantNested u d s p.
Definition buildGrantNestedSourcePrivilege (u d s : string) (p : NestedSourcePrivilege) : string :=
  buildGrantNested u d s p.
Definition buildGrantNestedSinkPrivilege (u d s : string) (p : NestedSinkPrivilege) : string :=
  buildGrantNested u d s p.
Definition buildGrantNestedConnectionPrivilege (u d s : string)
    (p : NestedConnectionPrivilege) : string := buildGrantNested u d s p.
Definition buildGrantNestedSecretPrivilege (u d s : string) (p : NestedSecretPrivilege) : string :=
  buildGrantNested u d s p.
Definition buildGrantNestedFunctionPrivilege (u d s : string) (p : NestedFunctionPrivilege)
  : string := buildGrantNested u d s p.

(** [if len(privs) > 0 { stmts = append(stmts, stmt) }]. *)
Definition if_any {A B} (privs : list A) (x : B) : list B :=
  match privs with [] => [] | _ => [x] end.

Definition buildSchemaPrivilegesHierarchical (userName database : string)
    (sp : NestedSchemaPrivilege) : list string :=
  if_any (nsp_Privileges sp) (buildGrantNestedSchemaPrivilege userName sp) ++
  (buildGrantNestedTablePrivilege userName database (nsp_Name sp) <$> nsp_Tables sp) ++
  (buildGrantNestedViewPrivilege userName database (nsp_Name sp) <$> nsp_Views sp) ++
  (buildGrantNestedMaterializedViewPrivilege userName database (nsp_Name sp)
     <$> nsp_MaterializedViews sp) ++
  (buildGrantNestedSourcePrivilege userName database (nsp_Name sp) <$> nsp_Sources sp) ++
  (buildGrantNestedSinkPrivilege userName database (nsp_Name sp) <$> nsp_Sinks sp) ++
  (buildGrantNestedConnectionPrivilege userName database (nsp_Name sp) <$> nsp_Connections sp) ++
  (buildGrantNestedSecretPrivilege userName database (nsp_Name sp) <$> nsp_Secrets sp) ++
  (buildGrantNestedFunctionPrivilege userName database (nsp_Name sp) <$> nsp_Functions sp).

Definition buildDatabasePrivilegesHierarchical (userName : string) (dp : DatabasePrivilege)
  : list string :=
  if_any (dp_Privileges dp) (buildGrantDatabasePrivilege userName dp) ++
  (sp ← dp_Schemas dp; buildSchemaPrivilegesHierarchical userName (dp_Name dp) sp).

Definition BuildGrantStatements (userName : string) (spec : RisingWaveUserSpec) : list string :=
  match us_Grants spec with
  | None => []
  | Some g => dp ← gr_Databases g; buildDatabasePrivilegesHierarchical userName dp
  end.

Record DatabaseGroupedStatements := {
  dgs_Database : string;
  dgs_Statements : list string;
}.

Definition in_database (database stmt : string) : DatabaseGroupedStatements :=
  {| dgs_Database := database; dgs_Statements := [stmt] |}.

Definition buildSchemaPrivilegesHierarchicalGrouped (userName database : string)
    (sp : NestedSchemaPrivilege) : list DatabaseGroupedStatements :=
  if_any (nsp_Privileges sp)
    (in_database database (buildGrantNestedSchemaPrivilege userName sp)) ++
  ((fun p => in_database database
      (buildGrantNestedTablePrivilege userName database (nsp_Name sp) p)) <$> nsp_Tables sp) ++
  ((fun p => in_database database
      (buildGrantNestedViewPrivilege userName database (nsp_Name sp) p)) <$> nsp_Views sp) ++
  ((fun p => in_database database
      (buildGrantNestedMaterializedViewPrivilege userName database (nsp_Name sp) p))
     <$> nsp_MaterializedViews sp) ++
  ((fun p => in_database database
      (buildGrantNestedSourcePrivilege userName database (nsp_Name sp) p)) <$> nsp_Sources sp) ++
  ((fun p => in_database database
      (buildGrantNestedSinkPrivilege userName database (nsp_Name sp) p)) <$> nsp_Sinks sp) ++
  ((fun p => in_database database
      (buildGrantNestedConnectionPrivilege userName database (nsp_Name sp) p))
     <$> nsp_Connections sp) ++
  ((fun p => in_database database
      (buildGrantNestedSecretPrivilege userName database (nsp_Name sp) p)) <$> nsp_Secrets sp) ++
  ((fun p => in_database database
      (buildGrantNestedFunctionPrivilege userName database (nsp_Name sp) p)) <$> nsp_Functions sp).

Definition buildDatabasePrivilegesHierarchicalGrouped (userName : string) (dp : DatabasePrivilege)
  : list DatabaseGroupedStatements :=
  if_any (dp_Privileges dp) (in_database "" (buildGrantDatabasePrivilege userName dp)) ++
  (sp ← dp_Schemas dp; buildSchemaPrivilegesHierarchicalGrouped userName (dp_Name dp) sp).

Definition BuildGrantStatementsByDatabase (userName : string) (spec : RisingWaveUserSpec)
  : list DatabaseGroupedStatements :=
  match us_Grants spec with
  | None => []
  | Some g => dp ← gr_Databases g; buildDatabasePrivilegesHierarchicalGrouped userName dp
  end.

Definition revoke_database (userName : string) (dp : DatabasePrivilege) : list string :=
  buildRevokeDatabasePrivilege userName dp ::
  (sp ← dp_Schemas dp;
   if_any (nsp_Privileges sp) (buildRevokeNestedSchemaPrivilege userName sp)).

Definition BuildRevokeStatements (userName : string) (spec : RisingWaveUserSpec) : list string :=
  match us_Grants spec with
  | None => []
  | Some g => dp ← gr_Databases g; revoke_database userName dp
  end.

(** ** Reading quoted text: the specification of the quoting

    A SQL lexer reads a quoted token from [q] to the next single [q]; two in a row stand
    for one. The result is the token's text and the rest of the input. *)

Fixpoint lex_body (q : ascii) (s : string) : option (string * string) :=
  match s with
  | EmptyString => None
  | String c s' =>
      if bool_decide (c = q) then
        match s' with
        | String d s'' =>
            if bool_decide (d = q)
            then '(t, rest) ← lex_body q s''; mret (String q t, rest)
            else Some (EmptyString, s')
        | EmptyString => Some (EmptyString, EmptyString)
        end
      else '(t, rest) ← lex_body q s'; mret (String c t, rest)
  end.

Definition lex_quoted (q : ascii) (s : string) : option (string * string) :=
  match s with
  | String c s' => if bool_decide (c = q) then lex_body q s' else None
  | EmptyString => None
  end.

(** Drops an expected keyword. *)
Definition expect (kw s : string) : option string :=
  if String.prefix kw s then Some (drop_str (String.length kw) s) else None.

(** Reads back [ALTER USER <user> WITH PASSWORD <literal>] and [DROP USER ...]. *)
Definition read_alter_password (s : string) : option (string * string) :=
  s ← expect "ALTER USER " s;
  '(u, s) ← lex_quoted dquote s;
  s ← expect " WITH PASSWORD " s;
  '(p, s) ← lex_quoted squote s;
  if bool_decide (s = "") then Some (u, p) else None.

Definition read_drop_user (s : string) : option string :=
  s ← expect "DROP USER IF EXISTS " s;
  '(u, s) ← lex_quoted dquote s;
  if bool_decide (s = "") then Some u else None.

Definition starts_with (q : ascii) (s : string) : bool :=
  match s with String c _ => bool_decide (c = q) | EmptyString => false end.

(** ** Lemmas *)

Lemma lex_body_quoted q s rest :
  starts_with q rest = false ->
  lex_body q (ReplaceAll_char s q (String q (str1 q)) +:+ String q rest) = Some (s, rest).
Proof.
  intros Hr. induction s as [|c s IH]; cbn.
  - rewrite bool_decide_true by done. destruct rest as [|d rest]; [done|]. cbn in Hr.
    by rewrite Hr.
  - case_bool.
    + subst. cbn. rewrite !bool_decide_true by done. by rewrite IH.
    + cbn. rewrite bool_decide_false by congruence. by rewrite IH.
Qed.

Lemma lex_quoted_quoted q s rest :
  starts_with q rest = false ->
  lex_quoted q (str1 q +:+ ReplaceAll_char s q (String q (str1 q)) +:+ str1 q +:+ rest)
    = Some (s, rest).
Proof.
  intros Hr. cbn. rewrite bool_decide_true by done. by apply lex_body_quoted.
Qed.

Lemma expect_app kw s : expect kw (kw +:+ s) = Some s.
Proof. unfold expect. by rewrite prefix_app, drop_str_app. Qed.

Lemma QuoteUser_app name rest :
  QuoteUser name +:+ rest =
  str1 dquote +:+ ReplaceAll_char name dquote (String dquote (str1 dquote)) +:+ str1 dquote +:+ rest.
Proof. unfold QuoteUser. by rewrite <-!app_assoc_str. Qed.

Lemma flat_in_database {A} (f : A -> string) db l :
  ((fun x => in_database db (f x)) <$> l) ≫= dgs_Statements = f <$> l.
Proof. induction l as [|x l IH]; [done|]. cbn. by f_equal. Qed.

Lemma if_any_bind {A B C} (l : list A) (x : B) (f : B -> list C) :
  if_any l x ≫= f = match l with [] => [] | _ => f x end.
Proof. destruct l; [done|]. cbn. apply app_nil_r. Qed.

Lemma bind_bind_ext {A B C} (f : A -> list B) (g : B -> list C) (h : A -> list C) l :
  (forall x, f x ≫= g = h x) -> (l ≫= f) ≫= g = l ≫= h.
Proof.
  intros H. induction l as [|x l IH]; [done|]. cbn. by rewrite bind_app, H, IH.
Qed.

Lemma schema_grouped u db sp :
  buildSchemaPrivilegesHierarchicalGrouped u db sp ≫= dgs_Statements =
  buildSchemaPrivilegesHierarchical u db sp.
Proof.
  unfold buildSchemaPrivilegesHierarchicalGrouped, buildSchemaPrivilegesHierarchical.
  rewrite !bind_app, if_any_bind, !flat_in_database. by destruct (nsp_Privileges sp).
Qed.

Lemma database_grouped u dp :
  buildDatabasePrivilegesHierarchicalGrouped u dp ≫= dgs_Statements =
  buildDatabasePrivilegesHierarchical u dp.
Proof.
  unfold buildDatabasePrivilegesHierarchicalGrouped, buildDatabasePrivilegesHierarchical.
  rewrite bind_app, if_any_bind, (bind_bind_ext _ _ _ _ (schema_grouped u (dp_Name dp))).
  by destruct (dp_Privileges dp).
Qed.

Lemma filter_bind {A B} (P : B -> Prop) `{!forall x, Decision (P x)} (f : A -> list B) l :
  filter P (l ≫= f) = l ≫= (fun x => filter P (f x)).
Proof. induction l as [|x l IH]; [done|]. cbn. by rewrite filter_app, IH. Qed.

(** A bind to which one element alone contributes. *)
Lemma bind_unique {A B C} (key : A -> C) (f : A -> list B) x l :
  NoDup (key <$> l) -> x ∈ l -> (forall y, y ∈ l -> key y <> key x -> f y = []) ->
  l ≫= f = f x.
Proof.
  induction l as [|y l IH]; intros Hnd Hin Hf; [by apply not_elem_of_nil in Hin|].
  rewrite fmap_cons in Hnd. apply NoDup_cons in Hnd as [Hy Hnd]. cbn.
  apply elem_of_cons in Hin as [->|Hin].
  - assert (l ≫= f = []) as ->; [|apply app_nil_r].
    assert (forall z, z ∈ l -> f z = []) as Hnil.
    { intros z Hz. apply Hf; [by right|]. intros Heq. apply Hy. rewrite <-Heq.
      by apply list_elem_of_fmap_2. }
    clear -Hnil. induction l as [|z l IH]; [done|]. cbn. rewrite Hnil by left.
    apply IH. intros; apply Hnil. by right.
  - rewrite Hf; [|by left|].
    + apply IH; [done|done|]. intros; apply Hf; [by right|done].
    + intros Heq. apply Hy. rewrite Heq. by apply list_elem_of_fmap_2.
Qed.

Lemma schema_grouped_database userName db sp :
  Forall (fun s => dgs_Database s = db) (buildSchemaPrivilegesHierarchicalGrouped userName db sp).
Proof.
  unfold buildSchemaPrivilegesHierarchicalGrouped. rewrite !Forall_app, !Forall_fmap.
  repeat split; try (by apply Forall_true). by destruct (nsp_Privileges sp); repeat constructor.
Qed.

Lemma schemas_grouped_database userName db sps :
  Forall (fun s => dgs_Database s = db)
    (sps ≫= buildSchemaPrivilegesHierarchicalGrouped userName db).
Proof.
  induction sps as [|sp sps IH]; [constructor|]. cbn. apply Forall_app.
  split; [apply schema_grouped_database|done].
Qed.

Lemma filter_all {A} (P : A -> Prop) `{!forall x, Decision (P x)} l :
  Forall P l -> filter P l = l.
Proof. induction 1; [done|]. rewrite filter_cons_True by done. by f_equal. Qed.

Lemma filter_none {A} (P : A -> Prop) `{!forall x, Decision (P x)} l :
  Forall (fun x => ~ P x) l -> filter P l = [].
Proof. induction 1; [done|]. by rewrite filter_cons_False. Qed.

Lemma filter_own_database userName dp :
  dp_Name dp <> "" ->
  filter (fun s => dgs_Database s = dp_Name dp)
    (buildDatabasePrivilegesHierarchicalGrouped userName dp) =
  dp_Schemas dp ≫= buildSchemaPrivilegesHierarchicalGrouped userName (dp_Name dp).
Proof.
  intros Hne. unfold buildDatabasePrivilegesHierarchicalGrouped. rewrite filter_app.
  rewrite filter_none, filter_all; [done|apply schemas_grouped_database|].
  destruct (dp_Privileges dp); repeat constructor. cbn. congruence.
Qed.

Lemma filter_other_database userName db dp :
  db <> "" -> dp_Name dp <> db ->
  filter (fun s => dgs_Database s = db)
    (buildDatabasePrivilegesHierarchicalGrouped userName dp) = [].
Proof.
  intros Hdb Hne. unfold buildDatabasePrivilegesHierarchicalGrouped. rewrite filter_app.
  rewrite !filter_none; [done| |].
  - eapply Forall_impl; [apply schemas_grouped_database|]. cbn. congruence.
  - destruct (dp_Privileges dp); repeat constructor. cbn. congruence.
Qed.

(** ** Properties *)

(** C35: Quoting is injective and safe: from the statement that changes a password a SQL
    reader gets back exactly the user name and the password, and nothing is left over,
    whatever quotes they contain. *)
Theorem BuildAlterUserPasswordSQL_reads_back user password :
  read_alter_password (BuildAlterUserPasswordSQL user password) = Some (user, password).
Proof.
  unfold BuildAlterUserPasswordSQL, read_alter_password. rewrite expect_app. cbn [mbind option_bind].
  rewrite QuoteUser_app, lex_quoted_quoted by done. cbn [mbind option_bind].
  change (" WITH PASSWORD '" +:+ ?s) with (" WITH PASSWORD " +:+ (str1 squote +:+ s)).
  rewrite expect_app. cbn [mbind option_bind].
  change "'"%string with (str1 squote +:+ "").
  unfold escapeStringLiteral. rewrite (lex_quoted_quoted squote) by done. done.
Qed.

(** A quoted identifier or user name, followed by anything that does not start with
    a quote, is read back as the name with the rest untouched; the one name that is not
    quoted is the wildcard. *)
Theorem QuoteIdentifier_reads_back name rest :
  starts_with dquote rest = false ->
  lex_quoted dquote (QuoteUser name +:+ rest) = Some (name, rest) /\
  (name <> "*"%string -> QuoteIdentifier name = QuoteUser name) /\
  (name = "*"%string -> QuoteIdentifier name = "*"%string) /\
  read_drop_user (BuildDropUserSQL name) = Some name.
Proof.
  intros Hr. split; [by rewrite QuoteUser_app, lex_quoted_quoted|].
  split; [intros Hn; unfold QuoteIdentifier; by rewrite bool_decide_false|].
  split; [by intros ->|].
  unfold BuildDropUserSQL, read_drop_user. rewrite expect_app. cbn [mbind option_bind].
  rewrite <-(app_nil_r_str (QuoteUser name)), QuoteUser_app, lex_quoted_quoted by done. done.
Qed.

(** Grouping the grants by database changes neither the statements nor their order. *)
Theorem BuildGrantStatementsByDatabase_flat userName spec :
  BuildGrantStatementsByDatabase userName spec ≫= dgs_Statements =
  BuildGrantStatements userName spec.
Proof.
  unfold BuildGrantStatementsByDatabase, BuildGrantStatements.
  destruct (us_Grants spec) as [g|]; [|done].
  apply bind_bind_ext, database_grouped.
Qed.

(** Every statement on schemas and their objects is sent to the database it is
    declared under, and only the grants on a database itself to the default one. *)
Theorem BuildGrantStatementsByDatabase_target userName spec g dp :
  us_Grants spec = Some g -> NoDup (dp_Name <$> gr_Databases g) -> dp ∈ gr_Databases g ->
  Forall (fun d => dp_Name d <> "") (gr_Databases g) ->
  filter (fun s => dgs_Database s = dp_Name dp) (BuildGrantStatementsByDatabase userName spec)
    ≫= dgs_Statements =
  dp_Schemas dp ≫= buildSchemaPrivilegesHierarchical userName (dp_Name dp).
Proof.
  intros Hg Hnd Hin Hne. unfold BuildGrantStatementsByDatabase. rewrite Hg, filter_bind.
  rewrite Forall_forall in Hne.
  rewrite (bind_unique dp_Name _ dp) by (done || (intros; by apply filter_other_database; auto)).
  rewrite filter_own_database by auto.
  apply bind_bind_ext, schema_grouped.
Qed.

(** ** Examples *)

Definition ex_table : NestedTablePrivilege :=
  {| np_Name := "t"; np_Privileges := ["SELECT"; "ALL PRIVILEGES"]%string;
     np_WithGrantOption := true |}.
Definition ex_schema : NestedSchemaPrivilege :=
  {| nsp_Name := "public"; nsp_Privileges := ["USAGE"%string]; nsp_WithGrantOption := false;
     nsp_Tables := [ex_table]; nsp_Views := []; nsp_MaterializedViews := []; nsp_Sources := [];
     nsp_Sinks := []; nsp_Connections := []; nsp_Secrets := []; nsp_Functions := [] |}.
Definition ex_database : DatabasePrivilege :=
  {| dp_Name := "dev"; dp_Privileges := ["CONNECT"%string]; dp_WithGrantOption := false;
     dp_Schemas := [ex_schema] |}.
Definition ex_user_spec : RisingWaveUserSpec :=
  {| us_RisingWaveRef := None; us_ConnectionRef := None; us_Name := "u"; us_Password := None;
     us_Auth := None; us_Permissions := []; us_Grants := Some {| gr_Databases := [ex_database] |} |}.

(** The statements, with single quotes in place of the double quotes. *)
Example ex_statements :
  (fun s => ReplaceAll_char s dquote "'") <$> BuildGrantStatements "u" ex_user_spec =
  ["GRANT CONNECT ON DATABASE 'dev' TO 'u'"; "GRANT USAGE ON SCHEMA 'public' TO 'u'";
   "GRANT SELECT, ALL ON TABLE 'dev'.'public'.'t' TO 'u' WITH GRANT OPTION"]%string.
Proof. vm_compute. reflexivity. Qed.

Lemma QuoteIdentifier_reads_back_witness :
  lex_quoted dquote (QuoteUser (String dquote "; DROP") +:+ " CASCADE") =
  Some (String dquote "; DROP", " CASCADE"%string).
Proof. apply (QuoteIdentifier_reads_back (String dquote "; DROP") " CASCADE"). reflexivity. Defined.

Lemma BuildGrantStatementsByDatabase_target_witness :
  filter (fun s => dgs_Database s = "dev"%string) (BuildGrantStatementsByDatabase "u" ex_user_spec)
    ≫= dgs_Statements = buildSchemaPrivilegesHierarchical "u" "dev" ex_schema.
Proof.
  apply (BuildGrantStatementsByDatabase_target "u" ex_user_spec {| gr_Databases := [ex_database] |}
    ex_database).
  - reflexivity.
  - apply NoDup_singleton.
  - left.
  - repeat constructor. discriminate.
Defined.
