(* ===== verification/PrivilegeDiff.v ===== *)
(** * pkg/rwclient/privilege_snapshot.go and privilege_diff.go

    The privileges a user has are read from the catalog, compared with the declared
    ones, and the difference is turned into GRANT and REVOKE statements. The rows a
    query returns are an argument; an [error] of the query or of the scan of a row is a
    string. The privileges missing on either side are found by ranging over a Go map:
    their order is the parameter [RangeOrder]. *)

From S2P Require Import Prelude GoStrings ApiTypes ApiUser Acl SqlBuilder.

(** ** Definitions: the snapshot *)

Record ObjectPrivilege := {
  op_Name : string;
  op_Privileges : list string;
  op_WithGrantOption : bool;
}.

Record SchemaPrivilegeSnapshot := {
  sps_Name : string;
  sps_Privileges : list string;
  sps_WithGrantOption : bool;
  sps_Tables : list ObjectPrivilege;
  sps_Views : list ObjectPrivilege;
  sps_MaterializedViews : list ObjectPrivilege;
  sps_Sources : list ObjectPrivilege;
}.

Record DatabasePrivilegeSnapshot := {
  dps_Name : string;
  dps_Privileges : list string;
  dps_WithGrantOption : bool;
  dps_Schemas : list SchemaPrivilegeSnapshot;
}.

Record UserPrivilegeSnapshot := {
  ups_UserName : string;
  ups_Databases : list DatabasePrivilegeSnapshot;
}.

(** A row [(name, acl)] of the catalog, as [rows.Scan] delivers it; a null list is
    [None]. *)
Definition catalog_row : Type := result string (string * option string).

(** The answer to a query: the rows that [rows.Next] delivers. [rows.Err] is not read
    by the code. *)
Definition query_answer : Type := result string (list catalog_row).

(** The loop over the privileges of one entry: the names that are known, and whether
    one of them has the grant option. *)
Definition known_privileges (mapChar : string -> string) (ps : list PrivilegeGrant)
  : list string * bool :=
  foldl (fun acc p =>
           let privType := mapChar (pg_Privilege p) in
           if bool_decide (privType = "") then acc
           else (acc.1 ++ [privType], acc.2 || pg_WithGrantOption p)) ([], false) ps.

(** The entries of a user in an access control list. *)
Definition user_entries (userName acl : string) : list UserPrivileges :=
  filter (fun up => up_User up = userName) (ParseACL acl).

(** The loop over the rows of a query, with the function of one row. *)
Fixpoint fetch_rows {S} (step : string -> string -> S -> S) (rows : list catalog_row) (s : S)
  : result string S :=
  match rows with
  | [] => Ok s
  | Err e :: _ => Err e
  | Ok (_, None) :: rows' => fetch_rows step rows' s
  | Ok (name, Some acl) :: rows' => fetch_rows step rows' (step name acl s)
  end.

Definition schema_step (userName name acl : string) (results : list SchemaPrivilegeSnapshot)
  : list SchemaPrivilegeSnapshot :=
  foldl (fun results up =>
           match known_privileges MapCharToSchemaPrivilege (up_Privileges up) with
           | ([], _) => results
           | (privs, grantOption) =>
               results ++ [{| sps_Name := name; sps_Privileges := privs;
                              sps_WithGrantOption := grantOption; sps_Tables := [];
                              sps_Views := []; sps_MaterializedViews := []; sps_Sources := [] |}]
           end) results (user_entries userName acl).

Definition fetchSchemaPrivs (answer : query_answer) (userName : string)
  : result string (list SchemaPrivilegeSnapshot) :=
  rows ← answer; fetch_rows (schema_step userName) rows [].

Definition object_step (userName name acl : string) (results : list ObjectPrivilege)
  : list ObjectPrivilege :=
  foldl (fun results up =>
           match known_privileges MapCharToTablePrivilege (up_Privileges up) with
           | ([], _) => results
           | (privs, grantOption) =>
               results ++ [{| op_Name := name; op_Privileges := privs;
                              op_WithGrantOption := grantOption |}]
           end) results (user_entries userName acl).

(** [db catalogTable schemaName] is the answer to the query for a catalog table. *)
Definition fetchObjectPrivs (db : string -> string -> query_answer)
    (catalogTable schemaName userName : string) : result string (list ObjectPrivilege) :=
  rows ← db catalogTable schemaName; fetch_rows (object_step userName) rows [].

Definition database_step (userName name acl : string) (results : gmap string (list string * bool))
  : gmap string (list string * bool) :=
  foldl (fun results up =>
           <[name := known_privileges MapCharToDatabasePrivilege (up_Privileges up)]> results)
    results (user_entries userName acl).

Definition fetchDatabasePrivileges (answer : query_answer) (userName : string)
  : result string (gmap string (list string * bool)) :=
  rows ← answer; fetch_rows (database_step userName) rows ∅.

Definition fetch_objects_of (db : string -> string -> query_answer) (userName : string)
    (s : SchemaPrivilegeSnapshot) : result string SchemaPrivilegeSnapshot :=
  tables ← fetchObjectPrivs db "rw_tables" (sps_Name s) userName;
  views ← fetchObjectPrivs db "rw_views" (sps_Name s) userName;
  mvs ← fetchObjectPrivs db "rw_materialized_views" (sps_Name s) userName;
  sources ← fetchObjectPrivs db "rw_sources" (sps_Name s) userName;
  mret {| sps_Name := sps_Name s; sps_Privileges := sps_Privileges s;
          sps_WithGrantOption := sps_WithGrantOption s; sps_Tables := tables;
          sps_Views := views; sps_MaterializedViews := mvs; sps_Sources := sources |}.

Fixpoint fetch_all_objects (db : string -> string -> query_answer) (userName : string)
    (ss : list SchemaPrivilegeSnapshot) : result string (list SchemaPrivilegeSnapshot) :=
  match ss with
  | [] => Ok []
  | s :: ss' =>
      s ← fetch_objects_of db userName s;
      rest ← fetch_all_objects db userName ss';
      mret (s :: rest)
  end.

Definition FetchSchemaPrivileges (schemas : query_answer) (db : string -> string -> query_answer)
    (userName : string) : result string (list SchemaPrivilegeSnapshot) :=
  ss ← fetchSchemaPrivs schemas userName;
  fetch_all_objects db userName ss.

(** ** Definitions: the difference *)

Record PrivilegeDiff := {
  pd_ToGrant : list string;
  pd_ToRevoke : list string;
}.

Section diff.
Context `{O : RangeOrder}.

(** [for p := range xs { if !ys[p] { out = append(out, p) } }]. *)
Definition missing (site : string) (xs ys : gset string) : list string :=
  filter (fun p => p ∉ ys) (range_keys site xs).

Definition CalculateDatabaseDiff (userName : string) (actual : DatabasePrivilegeSnapshot)
    (desired : DatabasePrivilege) : PrivilegeDiff :=
  let desiredPrivs := key_set (dp_Privileges desired) in
  let actualPrivs := key_set (dps_Privileges actual) in
  let grantPrivs := missing "grant" desiredPrivs actualPrivs in
  let revokePrivs := missing "revoke" actualPrivs desiredPrivs in
  {| pd_ToGrant := if_any grantPrivs
       ("GRANT " +:+ Join grantPrivs ", " +:+ " ON DATABASE " +:+ QuoteIdentifier (dp_Name desired)
          +:+ " TO " +:+ QuoteUser userName);
     pd_ToRevoke := if_any revokePrivs
       ("REVOKE " +:+ Join revokePrivs ", " +:+ " ON DATABASE " +:+ QuoteIdentifier (dp_Name desired)
          +:+ " FROM " +:+ QuoteUser userName) |}.

Definition CalculateSchemaDiff (userName : string) (actual : SchemaPrivilegeSnapshot)
    (desired : NestedSchemaPrivilege) : PrivilegeDiff :=
  let desiredPrivs := key_set (nsp_Privileges desired) in
  let actualPrivs := key_set (sps_Privileges actual) in
  let grantPrivs := missing "grant" desiredPrivs actualPrivs in
  let revokePrivs := missing "revoke" actualPrivs desiredPrivs in
  {| pd_ToGrant := if_any grantPrivs
       ("GRANT " +:+ Join grantPrivs ", " +:+ " ON SCHEMA " +:+ QuoteIdentifier (nsp_Name desired)
          +:+ " TO " +:+ QuoteUser userName);
     pd_ToRevoke := if_any revokePrivs
       ("REVOKE " +:+ Join revokePrivs ", " +:+ " ON SCHEMA " +:+ QuoteIdentifier (nsp_Name desired)
          +:+ " FROM " +:+ QuoteUser userName) |}.

Definition buildOnClause (schemaName objectType targetName : string) : string :=
  if bool_decide (targetName = "*") then
    let pluralType := if bool_decide (objectType = "MATERIALIZED VIEW")
                      then "MATERIALIZED VIEWS"%string else objectType +:+ "S" in
    "ON ALL " +:+ pluralType +:+ " IN SCHEMA " +:+ QuoteIdentifier schemaName
  else "ON " +:+ objectType +:+ " " +:+ QuoteIdentifier targetName.

Definition CalculateObjectDiff (userName schemaName objectType : string)
    (actual : ObjectPrivilege) (desiredName : string) (desiredPrivs : list string)
  : PrivilegeDiff :=
  let dPrivs := key_set desiredPrivs in
  let aPrivs := key_set (op_Privileges actual) in
  let grantPrivs := sort_Strings (missing "grant" dPrivs aPrivs) in
  let revokePrivs := sort_Strings (missing "revoke" aPrivs dPrivs) in
  let on := buildOnClause schemaName objectType desiredName in
  {| pd_ToGrant := if_any grantPrivs
       ("GRANT " +:+ Join grantPrivs ", " +:+ " " +:+ on +:+ " TO " +:+ QuoteUser userName);
     pd_ToRevoke := if_any revokePrivs
       ("REVOKE " +:+ Join revokePrivs ", " +:+ " " +:+ on +:+ " FROM " +:+ QuoteUser userName) |}.

(** [snapshot.Databases], built by ranging over a map. *)
Definition FetchUserPrivilegeSnapshot (answer : query_answer) (userName : string)
  : result string UserPrivilegeSnapshot :=
  match fetchDatabasePrivileges answer userName with
  | Err e => Err ("failed to fetch database privileges: " +:+ e)
  | Ok dbPrivs =>
      Ok {| ups_UserName := userName;
            ups_Databases :=
              (fun dbName =>
                 let privs := default ([], false) (dbPrivs !! dbName) in
                 {| dps_Name := dbName; dps_Privileges := privs.1;
                    dps_WithGrantOption := privs.2; dps_Schemas := [] |})
              <$> range_keys "snapshot" (dom dbPrivs) |}
  end.
End diff.

(** ** Lemmas *)

Section lemmas.
Context (O : RangeOrder) (HO : RangeOrderOk O).

Lemma elem_of_missing site xs ys p : p ∈ missing site xs ys <-> p ∈ xs /\ p ∉ ys.
Proof. unfold missing. rewrite list_elem_of_filter, elem_of_range_keys. tauto. Qed.

Lemma missing_nil site xs ys : missing site xs ys = [] <-> xs ⊆ ys.
Proof.
  split.
  - intros H p Hp. destruct (decide (p ∈ ys)); [done|].
    assert (p ∈ missing site xs ys) as Hm by (by apply elem_of_missing).
    rewrite H in Hm. by apply not_elem_of_nil in Hm.
  - intros H. destruct (missing site xs ys) as [|p l] eqn:Hm; [done|].
    assert (p ∈ missing site xs ys) as Hp by (rewrite Hm; left).
    apply elem_of_missing in Hp as [H1 H2]. by apply H in H1.
Qed.

Lemma missing_set site xs ys : key_set (missing site xs ys) = xs ∖ ys.
Proof.
  apply set_eq. intros p. rewrite elem_of_key_set, elem_of_missing, elem_of_difference. done.
Qed.

Lemma if_any_nil {A B} (l : list A) (x : B) : if_any l x = [] <-> l = [].
Proof. by destruct l. Qed.

Lemma sort_nil l : sort_Strings l = [] <-> l = [].
Proof.
  split; [|by intros ->]. intros H. apply Permutation_nil_r.
  by rewrite <-H, sort_Strings_perm.
Qed.

Lemma key_set_sort l : key_set (sort_Strings l) = key_set l.
Proof. apply set_eq. intros x. by rewrite !elem_of_key_set, sort_Strings_perm. Qed.

Lemma sort_missing_NoDup site xs ys : NoDup (sort_Strings (missing site xs ys)).
Proof. rewrite sort_Strings_perm. apply NoDup_filter. auto with go. Qed.

(** Granting the missing and revoking the surplus privileges gives the desired set. *)
Lemma apply_diff (actual desired : gset string) s1 s2 :
  (actual ∪ key_set (missing s1 desired actual)) ∖ key_set (missing s2 actual desired) = desired.
Proof.
  rewrite !missing_set. apply set_eq. intros p.
  rewrite !elem_of_difference, elem_of_union, !elem_of_difference.
  destruct (decide (p ∈ actual)), (decide (p ∈ desired)); tauto.
Qed.
End lemmas.

(** ** Lemmas: the snapshot *)

Definition known (mapChar : string -> string) (ps : list PrivilegeGrant) : list string :=
  filter (fun t => t <> "") (mapChar <$> (pg_Privilege <$> ps)).

Lemma known_privileges_spec mapChar ps :
  (known_privileges mapChar ps).1 = known mapChar ps /\
  ((known_privileges mapChar ps).2 = true <->
   exists p, p ∈ ps /\ mapChar (pg_Privilege p) <> "" /\ pg_WithGrantOption p = true).
Proof.
  unfold known_privileges, known. induction ps as [|p ps IH] using rev_ind.
  { cbn. split; [done|]. split; [done|]. intros (p & Hp & _). by apply not_elem_of_nil in Hp. }
  rewrite foldl_snoc, !fmap_app, filter_app. destruct IH as [IH1 IH2].
  set (acc := foldl _ _ ps) in *.
  change (mapChar <$> (pg_Privilege <$> [p])) with [mapChar (pg_Privilege p)]. cbv zeta.
  destruct (bool_decide_reflect (mapChar (pg_Privilege p) = "")) as [He|He].
  - rewrite filter_cons_False by (by rewrite He; intros []). rewrite filter_nil, app_nil_r.
    split; [done|]. rewrite IH2. setoid_rewrite elem_of_app. setoid_rewrite list_elem_of_singleton.
    split; [naive_solver|]. intros (q & [Hq| ->] & ? & ?); naive_solver.
  - rewrite filter_cons_True, filter_nil by done. split; [cbn; by rewrite IH1|]. cbn [snd].
    rewrite orb_true_iff, IH2. setoid_rewrite elem_of_app. setoid_rewrite list_elem_of_singleton.
    split; [naive_solver|]. intros (q & [Hq| ->] & ? & ?); naive_solver.
Qed.

Lemma known_not_ALL mapChar ps :
  (forall c, mapChar c <> "ALL"%string) -> "ALL"%string ∉ known mapChar ps.
Proof.
  intros H Hin. unfold known in Hin. apply list_elem_of_filter in Hin as [_ Hin].
  apply list_elem_of_fmap in Hin as (c & Hc & _). by apply (H c).
Qed.

(** What one row contributes, for a catalog table. *)
Definition row_objects (userName name acl : string) : list ObjectPrivilege :=
  omap (fun up =>
    match known_privileges MapCharToTablePrivilege (up_Privileges up) with
    | ([], _) => None
    | (privs, g) => Some {| op_Name := name; op_Privileges := privs; op_WithGrantOption := g |}
    end) (user_entries userName acl).

Lemma object_step_app userName name acl results :
  object_step userName name acl results = results ++ row_objects userName name acl.
Proof.
  unfold object_step, row_objects. generalize (user_entries userName acl). intros l.
  revert results. induction l as [|up l IH]; intros results; cbn; [by rewrite app_nil_r|].
  destruct (known_privileges _ _) as [[|p ps] g]; rewrite IH; [done|].
  by rewrite <-app_assoc.
Qed.

Lemma fetch_rows_objects userName rows results :
  fetch_rows (object_step userName) (Ok <$> rows) results =
  Ok (results ++ (rows ≫= (fun r => match r.2 with
                                   | None => [] | Some acl => row_objects userName r.1 acl end))).
Proof.
  revert results. induction rows as [|[name [acl|]] rows IH]; intros results; cbn.
  - by rewrite app_nil_r.
  - rewrite IH, object_step_app. by rewrite <-app_assoc.
  - by rewrite IH.
Qed.

(** The rows of a catalog table, as they print. *)
Definition printed_rows (rows : list (string * option (list acl_entry)))
  : list (string * option string) := map (fun r => (r.1, option_map print_acl r.2)) rows.

(** Every object of a snapshot comes from the catalog's letters. *)
Lemma row_objects_known userName name acl o :
  o ∈ row_objects userName name acl ->
  op_Name o = name /\ ("ALL"%string ∉ op_Privileges o) /\ op_Privileges o <> [].
Proof.
  unfold row_objects. rewrite list_elem_of_omap. intros (up & _ & Hup).
  pose proof (known_privileges_spec MapCharToTablePrivilege (up_Privileges up)) as [Hk _].
  destruct (known_privileges _ _) as [[|p ps] g]; [done|]. simplify_eq/=.
  split; [done|]. split; [|done]. rewrite Hk. apply known_not_ALL. apply MapChar_not_ALL.
Qed.

Lemma fetchObjectPrivs_known db table schema userName os o :
  fetchObjectPrivs db table schema userName = Ok os -> o ∈ os ->
  ("ALL"%string ∉ op_Privileges o) /\ op_Privileges o <> [].
Proof.
  unfold fetchObjectPrivs. run_monad. destruct (db table schema) as [rows|e]; [|done].
  assert (forall results,
    (forall o, o ∈ results -> ("ALL"%string ∉ op_Privileges o) /\ op_Privileges o <> []) ->
    fetch_rows (object_step userName) rows results = Ok os -> o ∈ os ->
    ("ALL"%string ∉ op_Privileges o) /\ op_Privileges o <> []) as H.
  { induction rows as [|[[name [acl|]]|e] rows IH]; intros results Hr H Ho; cbn in H.
    - simplify_eq. by apply Hr.
    - eapply (IH (object_step userName name acl results)); [|done|done].
      intros o' Ho'. rewrite object_step_app in Ho'. apply elem_of_app in Ho' as [Ho'|Ho'].
      + by apply Hr.
      + by destruct (row_objects_known _ _ _ _ Ho') as (_ & ? & ?).
    - by eapply IH.
    - done. }
  apply H. intros o' Ho'. by apply not_elem_of_nil in Ho'.
Qed.

(** ** Properties *)

(** C30: The statements for an object grant exactly the missing privileges, the desired that
    the user does not have, and revoke exactly the surplus, those it has and should not, each
    named once and in alphabetical order, on the object to the user. Where a statement adds to
    and takes from the privileges of that object the privileges it names, each as itself, the
    two lead from the actual to the desired set. (ALL is not such a privilege, and the object
    named without its schema is the one of the session's search path:
    [ALL_never_converges], [CalculateObjectDiff_ignores_schema].) A statement is produced only
    when it has a privilege to name, so that none is produced exactly when the sets are
    equal. *)
Theorem CalculateObjectDiff_converges (O : RangeOrder) (HO : RangeOrderOk O)
    userName schema objectType actual name desired :
  let diff := CalculateObjectDiff userName schema objectType actual name desired in
  let on := buildOnClause schema objectType name in
  exists grants revokes,
    pd_ToGrant diff = if_any grants
      ("GRANT " +:+ Join grants ", " +:+ " " +:+ on +:+ " TO " +:+ QuoteUser userName) /\
    pd_ToRevoke diff = if_any revokes
      ("REVOKE " +:+ Join revokes ", " +:+ " " +:+ on +:+ " FROM " +:+ QuoteUser userName) /\
    key_set grants = key_set desired ∖ key_set (op_Privileges actual) /\
    key_set revokes = key_set (op_Privileges actual) ∖ key_set desired /\
    (NoDup grants /\ NoDup revokes /\ Sorted String.le grants /\ Sorted String.le revokes) /\
    (key_set (op_Privileges actual) ∪ key_set grants) ∖ key_set revokes = key_set desired /\
    (pd_ToGrant diff = [] /\ pd_ToRevoke diff = [] <->
     key_set (op_Privileges actual) = key_set desired).
Proof.
  intros diff on. eexists _, _. split; [reflexivity|]. split; [reflexivity|].
  rewrite !key_set_sort, !missing_set by done. split; [done|]. split; [done|]. split; [|split].
  - split_and!; first [by apply sort_missing_NoDup | by apply Sorted_merge_sort; apply _].
  - pose proof (apply_diff O HO (key_set (op_Privileges actual)) (key_set desired) "grant" "revoke") as H.
    by rewrite !missing_set in H by done.
  - unfold diff. cbn. rewrite !if_any_nil, !sort_nil, !missing_nil by done.
    split; [intros [? ?]; by apply set_eq_subseteq|by intros ->].
Qed.

(** The statements for an object do not depend on the order in which Go visits the
    maps. *)
Theorem CalculateObjectDiff_deterministic (O1 O2 : RangeOrder)
    userName schema objectType actual name desired :
  RangeOrderOk O1 -> RangeOrderOk O2 ->
  CalculateObjectDiff (O := O1) userName schema objectType actual name desired =
  CalculateObjectDiff (O := O2) userName schema objectType actual name desired.
Proof.
  intros H1 H2. unfold CalculateObjectDiff.
  assert (forall site xs ys, sort_Strings (missing (O := O1) site xs ys) =
                             sort_Strings (missing (O := O2) site xs ys)) as Heq.
  { intros site xs ys. apply sort_Strings_ext. unfold missing.
    apply filter_Permutation. by rewrite !range_keys_perm. }
  by rewrite !Heq.
Qed.

(** The same for databases and schemas, for any order of the maps: the statements
    lead to the desired set, and none is produced exactly when it is reached. *)
Theorem CalculateDatabaseDiff_converges (O : RangeOrder) (HO : RangeOrderOk O)
    userName (actual : DatabasePrivilegeSnapshot) (desired : DatabasePrivilege)
    (sactual : SchemaPrivilegeSnapshot) (sdesired : NestedSchemaPrivilege) :
  (exists grants revokes,
    pd_ToGrant (CalculateDatabaseDiff userName actual desired) = if_any grants
      ("GRANT " +:+ Join grants ", " +:+ " ON DATABASE " +:+ QuoteIdentifier (dp_Name desired)
         +:+ " TO " +:+ QuoteUser userName) /\
    pd_ToRevoke (CalculateDatabaseDiff userName actual desired) = if_any revokes
      ("REVOKE " +:+ Join revokes ", " +:+ " ON DATABASE " +:+ QuoteIdentifier (dp_Name desired)
         +:+ " FROM " +:+ QuoteUser userName) /\
    (key_set (dps_Privileges actual) ∪ key_set grants) ∖ key_set revokes
      = key_set (dp_Privileges desired)) /\
  (exists grants revokes,
    pd_ToGrant (CalculateSchemaDiff userName sactual sdesired) = if_any grants
      ("GRANT " +:+ Join grants ", " +:+ " ON SCHEMA " +:+ QuoteIdentifier (nsp_Name sdesired)
         +:+ " TO " +:+ QuoteUser userName) /\
    pd_ToRevoke (CalculateSchemaDiff userName sactual sdesired) = if_any revokes
      ("REVOKE " +:+ Join revokes ", " +:+ " ON SCHEMA " +:+ QuoteIdentifier (nsp_Name sdesired)
         +:+ " FROM " +:+ QuoteUser userName) /\
    (key_set (sps_Privileges sactual) ∪ key_set grants) ∖ key_set revokes
      = key_set (nsp_Privileges sdesired)) /\
  (pd_ToGrant (CalculateDatabaseDiff userName actual desired) = [] /\
   pd_ToRevoke (CalculateDatabaseDiff userName actual desired) = [] <->
   key_set (dps_Privileges actual) = key_set (dp_Privileges desired)).
Proof.
  split; [|split].
  - eexists _, _. split; [reflexivity|]. split; [reflexivity|]. by apply apply_diff.
  - eexists _, _. split; [reflexivity|]. split; [reflexivity|]. by apply apply_diff.
  - cbn. rewrite !if_any_nil, !missing_nil by done.
    split; [intros [? ?]; by apply set_eq_subseteq|by intros ->].
Qed.

(** The privileges read for the objects of a catalog table: for every row with a
    list, for every entry of the user, the known privileges in the order of the list,
    when there is at least one. *)
Theorem fetchObjectPrivs_reads (db : string -> string -> query_answer) table schema userName
    (rows : list (string * option (list acl_entry))) :
  db table schema = Ok (Ok <$> printed_rows rows) ->
  Forall (fun r => forall es, r.2 = Some es -> Forall entry_ok es) rows ->
  exists os, fetchObjectPrivs db table schema userName = Ok os /\
    forall name privs,
      (exists g, {| op_Name := name; op_Privileges := privs; op_WithGrantOption := g |} ∈ os) <->
      exists es e, (name, Some es) ∈ rows /\ e ∈ es /\ ae_User e = userName /\ privs <> [] /\
        privs = known MapCharToTablePrivilege (up_Privileges (entry_privileges e)).
Proof.
  intros Hdb Hok. unfold fetchObjectPrivs. rewrite Hdb. run_monad.
  rewrite fetch_rows_objects. eexists. split; [reflexivity|]. intros name privs.
  cbn [app]. rewrite Forall_forall in Hok. split.
  - intros (g & H). apply list_elem_of_bind in H as ([n [acl|]] & H & Hr); cbn in H;
      [|by apply not_elem_of_nil in H].
    apply list_elem_of_fmap in Hr as ([n' es] & Heq & Hr). cbn in Heq.
    destruct es as [es|]; [|discriminate Heq]. cbn in Heq. injection Heq as -> ->.
    unfold row_objects, user_entries in H.
    rewrite ParseACL_print_entries in H by (by eapply Hok).
    apply list_elem_of_omap in H as (up & Hup & Hk). apply list_elem_of_filter in Hup as [Hu Hup].
    apply list_elem_of_fmap in Hup as (e & -> & He).
    pose proof (known_privileges_spec MapCharToTablePrivilege
      (up_Privileges (entry_privileges e))) as [Hsp _].
    destruct (known_privileges _ _) as [[|p ps] g'] eqn:Hkp; simplify_eq. cbn in Hsp.
    exists es, e. repeat split; try done.
  - intros (es & e & Hr & He & Hu & Hne & ->).
    pose proof (known_privileges_spec MapCharToTablePrivilege
      (up_Privileges (entry_privileges e))) as [Hsp _].
    destruct (known_privileges MapCharToTablePrivilege (up_Privileges (entry_privileges e)))
      as [l g] eqn:Hkp. cbn [fst] in Hsp. exists g. apply list_elem_of_bind.
    exists (name, Some (print_acl es)). split.
    + cbn. unfold row_objects, user_entries.
      rewrite ParseACL_print_entries by (by eapply (Hok _ Hr)).
      apply list_elem_of_omap. exists (entry_privileges e). split.
      * apply list_elem_of_filter. split; [done|]. by apply list_elem_of_fmap_2.
      * rewrite Hkp. rewrite <-Hsp in Hne.
        transitivity (Some {| op_Name := name; op_Privileges := l; op_WithGrantOption := g |}).
        { by destruct l. }
        by rewrite Hsp.
    + apply list_elem_of_fmap. by exists (name, Some es).
Qed.

(** A declared privilege "ALL" never converges: the catalog's letters are never read
    as "ALL", so that every reconcile finds it missing and grants it again; and with "ALL"
    alone declared, whatever the grant expanded to is revoked. *)
Theorem ALL_never_converges (O : RangeOrder) (HO : RangeOrderOk O)
    db table catalog_schema userName os o schema objectType desired :
  fetchObjectPrivs db table catalog_schema userName = Ok os -> o ∈ os ->
  "ALL"%string ∈ desired ->
  pd_ToGrant (CalculateObjectDiff userName schema objectType o (op_Name o) desired) <> [] /\
  pd_ToRevoke (CalculateObjectDiff userName schema objectType o (op_Name o) ["ALL"%string]) <> [].
Proof.
  intros Hf Ho Hall. destruct (fetchObjectPrivs_known _ _ _ _ _ _ Hf Ho) as [Hn Hne].
  unfold CalculateObjectDiff. cbn [pd_ToGrant pd_ToRevoke].
  rewrite !if_any_nil, !sort_nil, !missing_nil by done. split.
  - intros H. apply Hn. apply elem_of_key_set, H. by apply elem_of_key_set.
  - intros H. destruct (op_Privileges o) as [|p ps] eqn:Hp; [done|]. apply Hn.
    assert (p ∈ key_set (p :: ps)) as Hin by (apply elem_of_key_set; left).
    apply H, elem_of_key_set, list_elem_of_singleton in Hin. subst. left.
Qed.

(** The statements for a named object do not say in which schema it is: two tables
    of the same name in different schemas get the same statements. *)
Theorem CalculateObjectDiff_ignores_schema `{O : RangeOrder} userName s1 s2 objectType actual name
    desired :
  name <> "*"%string ->
  CalculateObjectDiff userName s1 objectType actual name desired =
  CalculateObjectDiff userName s2 objectType actual name desired.
Proof. intros H. unfold CalculateObjectDiff, buildOnClause. by rewrite !bool_decide_false. Qed.

(** When a user has privileges on a database from two grantors, the last entry
    replaces the first: here CONNECT is lost and granted again by every reconcile. *)
Theorem fetchDatabasePrivileges_last_grantor_wins :
  fetchDatabasePrivileges (Ok [Ok ("dev", Some "{u=c/root,u=C/admin}")])%string "u" =
  Ok {["dev"%string := (["CREATE"%string], false)]}.
Proof. vm_compute. reflexivity. Qed.

(** ** Examples and witnesses *)

Definition ex_object : ObjectPrivilege :=
  {| op_Name := "t"; op_Privileges := ["SELECT"; "INSERT"]%string; op_WithGrantOption := false |}.

Example CalculateObjectDiff_example :
  CalculateObjectDiff (O := elements_order) "alice" "public" "TABLE" ex_object "t"
    ["SELECT"; "UPDATE"]%string =
  {| pd_ToGrant := ["GRANT UPDATE ON TABLE " +:+ QuoteIdentifier "t" +:+ " TO " +:+ QuoteUser "alice"];
     pd_ToRevoke := ["REVOKE INSERT ON TABLE " +:+ QuoteIdentifier "t" +:+ " FROM " +:+ QuoteUser "alice"] |}%string.
Proof. vm_compute. reflexivity. Qed.

Definition ex_db (table schema : string) : query_answer :=
  Ok (Ok <$> printed_rows [("t"%string, Some ex_acl); ("u"%string, None)]).

Lemma CalculateObjectDiff_converges_witness :
  exists grants revokes,
    pd_ToGrant (CalculateObjectDiff (O := elements_order) "alice" "public" "TABLE" ex_object "t"
                  ["SELECT"; "UPDATE"]%string) = if_any grants
      ("GRANT " +:+ Join grants ", " +:+ " " +:+ buildOnClause "public" "TABLE" "t" +:+ " TO "
         +:+ QuoteUser "alice") /\
    (key_set grants = {["UPDATE"%string]} /\ key_set revokes = {["INSERT"%string]}) /\
    (key_set (op_Privileges ex_object) ∪ key_set grants) ∖ key_set revokes
      = key_set ["SELECT"; "UPDATE"]%string.
Proof.
  destruct (CalculateObjectDiff_converges elements_order elements_order_ok "alice" "public" "TABLE"
    ex_object "t" ["SELECT"; "UPDATE"]%string) as (gs & rs & H1 & _ & H2 & H3 & _ & H4 & _).
  exists gs, rs. split; [exact H1|]. split; [|exact H4].
  rewrite H2, H3. split; vm_compute; reflexivity.
Defined.

Lemma CalculateObjectDiff_deterministic_witness :
  CalculateObjectDiff (O := elements_order) "alice" "public" "TABLE" ex_object "t" ["UPDATE"%string] =
  CalculateObjectDiff (O := fun _ ks => reverse (elements ks)) "alice" "public" "TABLE" ex_object "t"
    ["UPDATE"%string].
Proof.
  apply CalculateObjectDiff_deterministic; [apply elements_order_ok|].
  intros site ks. unfold range_keys. apply reverse_Permutation.
Defined.

Lemma fetchObjectPrivs_reads_witness :
  exists os, fetchObjectPrivs ex_db "rw_tables" "public" "alice" = Ok os /\
    exists g, {| op_Name := "t"; op_Privileges := ["SELECT"; "UPDATE"]%string;
                 op_WithGrantOption := g |} ∈ os.
Proof.
  destruct (fetchObjectPrivs_reads ex_db "rw_tables" "public" "alice"
    [("t"%string, Some ex_acl); ("u"%string, None)]) as (os & H1 & H2); [reflexivity| |].
  - apply Forall_cons. split; [|apply Forall_cons; split; [discriminate|apply Forall_nil_2]].
    intros es [= <-]. repeat constructor.
  - exists os. split; [done|]. apply H2. eexists _, _. split; [left|]. split; [left|].
    vm_compute. done.
Defined.

Definition ex_read : ObjectPrivilege :=
  {| op_Name := "t"; op_Privileges := ["SELECT"; "UPDATE"]%string; op_WithGrantOption := true |}.

Lemma ALL_never_converges_witness :
  pd_ToGrant (CalculateObjectDiff (O := elements_order) "alice" "public" "TABLE" ex_read
                "t" ["ALL"%string]) <> [].
Proof.
  assert (fetchObjectPrivs ex_db "rw_tables" "public" "alice" = Ok [ex_read]) as Hf
    by (vm_compute; reflexivity).
  assert (ex_read ∈ [ex_read]) as Ho by left. assert ("ALL"%string ∈ ["ALL"%string]) as Ha by left.
  exact (proj1 (ALL_never_converges elements_order elements_order_ok ex_db "rw_tables" "public"
    "alice" [ex_read] ex_read "public" "TABLE" ["ALL"%string] Hf Ho Ha)).
Defined.

Lemma CalculateObjectDiff_ignores_schema_witness :
  CalculateObjectDiff (O := elements_order) "alice" "public" "TABLE" ex_object "t" [] =
  CalculateObjectDiff (O := elements_order) "alice" "sales" "TABLE" ex_object "t" [].
Proof. apply CalculateObjectDiff_ignores_schema. discriminate. Defined.

Lemma CalculateDatabaseDiff_converges_witness :
  pd_ToGrant (CalculateDatabaseDiff (O := elements_order) "alice"
    {| dps_Name := "dev"; dps_Privileges := ["CONNECT"%string]; dps_WithGrantOption := false;
       dps_Schemas := [] |}
    {| dp_Name := "dev"; dp_Privileges := ["CONNECT"; "CONNECT"]%string; dp_WithGrantOption := false;
       dp_Schemas := [] |}) = [].
Proof.
  refine (proj1 (proj2 (proj2 (proj2 (CalculateDatabaseDiff_converges elements_order
    elements_order_ok "alice" _ _
    {| sps_Name := "s"; sps_Privileges := []; sps_WithGrantOption := false; sps_Tables := [];
       sps_Views := []; sps_MaterializedViews := []; sps_Sources := [] |}
    {| nsp_Name := "s"; nsp_Privileges := []; nsp_WithGrantOption := false;
       nsp_Tables := []; nsp_Views := []; nsp_MaterializedViews := []; nsp_Sources := [];
       nsp_Sinks := []; nsp_Connections := []; nsp_Secrets := []; nsp_Functions := [] |}))) _)).
  apply set_eq. intros p. rewrite !elem_of_key_set. cbn. set_solver.
Defined.
