(* ===== verification/UserWebhook.v ===== *)
(** * pkg/webhook/risingwave_user_validating_webhook.go

    The validation of RisingWaveUser objects. The Kubernetes client is an argument:
    [get namespace name] is what its [Get] returns for a RisingWave, and [Error] is the
    text of its errors. *)

From stdpp Require Import relations.
From S2P Require Import Prelude GoStrings ApiTypes ApiErrors ApiUser.

(** ** Definitions: the parts of an object *)

Definition passwordRotateAnnotation : string := "risingwave.risingwavelabs.com/rotate-password".

Definition validateAdminCredentials (creds : option AdminCredentials) (path : string)
  : list field_error :=
  match creds with
  | None => []
  | Some c =>
      match ac_PasswordSecretRef c with
      | Some ref => err_if (bool_decide (sref_Name ref = ""))
                      (Required (path +:+ ".passwordSecretRef.name") "passwordSecretRef.name is required")
      | None => []
      end
  end.

Definition validateRisingWaveRef (get : string -> string -> result api_error RisingWave)
    (Error : api_error -> string) (obj : RisingWaveUser) (ref : RisingWaveReference) (specPath : string) : list field_error :=
  let rwRefPath := specPath +:+ ".risingWaveRef" in
  if bool_decide (rwr_Name ref = "") then
    [Required (rwRefPath +:+ ".name") "risingWaveRef.name is required"]
  else
    let namespace := if bool_decide (rwr_Namespace ref = "") then om_Namespace (u_Meta obj)
                     else rwr_Namespace ref in
    let creds := validateAdminCredentials (rwr_Credentials ref) (rwRefPath +:+ ".credentials") in
    match get namespace (rwr_Name ref) with
    | Ok _ => creds
    | Err e =>
        if IsNotFound e then
          NotFound (rwRefPath +:+ ".name")
            ("RisingWave " +:+ namespace +:+ "/" +:+ rwr_Name ref +:+ " not found") :: creds
        else [InternalError rwRefPath (Error e)]
    end.

Definition validateConnectionRef (ref : ConnectionRef) (specPath : string) : list field_error :=
  let connRefPath := specPath +:+ ".connectionRef" in
  err_if (bool_decide (cr_Host ref = ""))
    (Required (connRefPath +:+ ".host") "connectionRef.host is required") ++
  err_if (negb (bool_decide (cr_Port ref = 0%Z)) &&
          (bool_decide (cr_Port ref < 1)%Z || bool_decide (65535 < cr_Port ref)%Z))
    (Invalid (connRefPath +:+ ".port") "port must be between 1 and 65535") ++
  validateAdminCredentials (cr_Credentials ref) (connRefPath +:+ ".credentials").

Definition validatePasswordConfig (obj : RisingWaveUser) (specPath : string) : list field_error :=
  match us_Password (u_Spec obj) with
  | None => []
  | Some pw =>
      let passwordPath := specPath +:+ ".password" in
      let lengthPath := passwordPath +:+ ".generateRandomLength" in
      (match pwc_SecretRef pw, pwc_GenerateRandomLength pw with
       | Some _, Some _ => [Invalid lengthPath "cannot specify both secretRef and generateRandomLength"]
       | _, _ => []
       end) ++
      (match pwc_SecretRef pw with
       | Some ref => err_if (bool_decide (sref_Name ref = ""))
                       (Required (passwordPath +:+ ".secretRef.name") "secretRef.name is required")
       | None => []
       end) ++
      (match pwc_GenerateRandomLength pw with
       | Some length =>
           err_if (bool_decide (length < 8)%Z)
             (Invalid lengthPath "must be greater than or equal to 8") ++
           err_if (bool_decide (128 < length)%Z)
             (Invalid lengthPath "must be less than or equal to 128")
       | None => []
       end)
  end.

Definition getAuthType (obj : RisingWaveUser) : string :=
  match us_Auth (u_Spec obj) with
  | Some {| au_Type := Some t |} => t
  | _ => AuthTypePassword
  end.

Definition validate_oauth (authPath : string) (oauth : option OAuthConfig) : list field_error :=
  match oauth with
  | None => [Required (authPath +:+ ".oauth") "oauth configuration is required when auth.type is oauth"]
  | Some o =>
      let oauthPath := authPath +:+ ".oauth" in
      err_if (bool_decide (oa_JWKSUrl o = ""))
        (Required (oauthPath +:+ ".jwksUrl") "jwksUrl is required for OAuth authentication") ++
      err_if (negb (HasPrefix (oa_JWKSUrl o) "http://") && negb (HasPrefix (oa_JWKSUrl o) "https://"))
        (Invalid (oauthPath +:+ ".jwksUrl") "must be a valid HTTP(S) URL") ++
      err_if (bool_decide (oa_Issuer o = ""))
        (Required (oauthPath +:+ ".issuer") "issuer is required for OAuth authentication")
  end.

Definition validate_ldap (authPath : string) (ldap : option LDAPConfig) : list field_error :=
  match ldap with
  | None => [Required (authPath +:+ ".ldap") "ldap configuration is required when auth.type is ldap"]
  | Some l =>
      let ldapPath := authPath +:+ ".ldap" in
      err_if (bool_decide (ldap_Host l = ""))
        (Required (ldapPath +:+ ".host") "host is required for LDAP authentication") ++
      err_if (bool_decide (ldap_BaseDN l = ""))
        (Required (ldapPath +:+ ".baseDN") "baseDN is required for LDAP authentication") ++
      err_if (negb (bool_decide (ldap_Port l = 0%Z)) &&
              (bool_decide (ldap_Port l < 1)%Z || bool_decide (65535 < ldap_Port l)%Z))
        (Invalid (ldapPath +:+ ".port") "port must be between 1 and 65535")
  end.

Definition validateAuthConfig (obj : RisingWaveUser) (specPath : string) : list field_error :=
  match us_Auth (u_Spec obj) with
  | None => []
  | Some auth =>
      let authPath := specPath +:+ ".auth" in
      if bool_decide (getAuthType obj = AuthTypeOAuth) then validate_oauth authPath (au_OAuth auth)
      else if bool_decide (getAuthType obj = AuthTypeLDAP) then validate_ldap authPath (au_LDAP auth)
      else []
  end.

(** ** Definitions: the privileges *)

(** [if len(privs) == 0 { ... }]. *)
Definition privileges_required (path : string) (privs : list string) : list field_error :=
  err_if (bool_decide (privs = []))
    (Required (path +:+ ".privileges") "at least one privilege is required").

(** The loops over the eight kinds of objects differ in the path and the word. *)
Definition validate_nested {k : object_kind} (word : string) (path : string)
    (p : NestedPrivilege k) : list field_error :=
  err_if (bool_decide (np_Name p = "")) (Required (path +:+ ".name") (word +:+ " name is required")) ++
  privileges_required path (np_Privileges p).

Definition validate_schema (schemaPath : string) (sp : NestedSchemaPrivilege) : list field_error :=
  err_if (bool_decide (nsp_Name sp = "")) (Required (schemaPath +:+ ".name") "schema name is required") ++
  privileges_required schemaPath (nsp_Privileges sp) ++
  indexed_errors (validate_nested "table") (schemaPath +:+ ".tables") (nsp_Tables sp) ++
  indexed_errors (validate_nested "view") (schemaPath +:+ ".views") (nsp_Views sp) ++
  indexed_errors (validate_nested "materialized view") (schemaPath +:+ ".materializedViews")
    (nsp_MaterializedViews sp) ++
  indexed_errors (validate_nested "source") (schemaPath +:+ ".sources") (nsp_Sources sp) ++
  indexed_errors (validate_nested "sink") (schemaPath +:+ ".sinks") (nsp_Sinks sp) ++
  indexed_errors (validate_nested "connection") (schemaPath +:+ ".connections") (nsp_Connections sp) ++
  indexed_errors (validate_nested "secret") (schemaPath +:+ ".secrets") (nsp_Secrets sp) ++
  indexed_errors (validate_nested "function") (schemaPath +:+ ".functions") (nsp_Functions sp).

Definition validate_database (p : string) (dp : DatabasePrivilege) : list field_error :=
  err_if (bool_decide (dp_Name dp = "")) (Required (p +:+ ".name") "database name is required") ++
  err_if (bool_decide (dp_Name dp = "*"))
    (Invalid (p +:+ ".name")
       "wildcard '*' is not supported for database names, use specific database names") ++
  indexed_errors validate_schema (p +:+ ".schemas") (dp_Schemas dp) ++
  privileges_required p (dp_Privileges dp).

Definition validatePrivileges (obj : RisingWaveUser) (specPath : string) : list field_error :=
  match us_Grants (u_Spec obj) with
  | None => []
  | Some g => indexed_errors validate_database (specPath +:+ ".privileges.databases") (gr_Databases g)
  end.

(** ** Definitions: the object *)

Definition name_errors (name : string) : list field_error :=
  err_if (negb (bool_decide (name = "")) && Nat.ltb 63 (String.length name))
    (TooLong "spec.name" 63).

Definition name_warnings (name : string) : list string :=
  if negb (bool_decide (name = "")) && (HasPrefix name "pg_" || HasPrefix name "rw_")
  then ["User name " +:+ Quote name +:+
        " starts with reserved prefix (pg_ or rw_), this may cause conflicts"]%string
  else [].

Definition ref_errors (get : string -> string -> result api_error RisingWave)
    (Error : api_error -> string) (obj : RisingWaveUser) : list field_error :=
  match us_RisingWaveRef (u_Spec obj), us_ConnectionRef (u_Spec obj) with
  | Some _, Some _ =>
      [Invalid "spec.connectionRef"
         "cannot specify both risingWaveRef and connectionRef; exactly one is required"]
  | None, None => [Required "spec" "one of risingWaveRef or connectionRef is required"]
  | Some ref, None => validateRisingWaveRef get Error obj ref "spec"
  | None, Some ref => validateConnectionRef ref "spec"
  end.

Definition User_validateObject (get : string -> string -> result api_error RisingWave)
    (Error : api_error -> string) (obj : RisingWaveUser) : list string * option api_error :=
  let errs := ref_errors get Error obj ++ name_errors (us_Name (u_Spec obj)) ++
              validatePasswordConfig obj "spec" ++ validateAuthConfig obj "spec" ++
              validatePrivileges obj "spec" in
  (name_warnings (us_Name (u_Spec obj)),
   match errs with [] => None | _ => Some (InvalidError (u_Name obj) errs) end).

Definition User_ValidateCreate := User_validateObject.

Definition passwordConfigEqual (a b : option PasswordConfig) : bool :=
  match a, b with
  | None, None => true
  | None, Some _ | Some _, None => false
  | Some a, Some b =>
      match pwc_SecretRef a, pwc_SecretRef b with
      | Some aSecret, Some bSecret =>
          bool_decide (sref_Name aSecret = sref_Name bSecret) &&
          bool_decide (sref_Namespace aSecret = sref_Namespace bSecret) &&
          bool_decide (sref_Key aSecret = sref_Key bSecret)
      | _, _ =>
          match pwc_GenerateRandomLength a, pwc_GenerateRandomLength b with
          | Some aLen, Some bLen => bool_decide (aLen = bLen)
          | _, _ => true
          end
      end
  end.

(** [a != "" && b != "" && a != b]. *)
Definition renamed (a b : string) : bool :=
  negb (bool_decide (a = "")) && negb (bool_decide (b = "")) && negb (bool_decide (a = b)).

Definition update_field_errors (oldObj newObj : RisingWaveUser) : list field_error :=
  let o := u_Spec oldObj in
  let n := u_Spec newObj in
  err_if (negb (Bool.eqb (bool_decide (is_Some (us_RisingWaveRef o)))
                         (bool_decide (is_Some (us_RisingWaveRef n)))))
    (Forbidden "spec"
       "cannot change connection type between risingWaveRef and connectionRef after creation") ++
  (match us_RisingWaveRef o, us_RisingWaveRef n with
   | Some a, Some b => err_if (negb (bool_decide (rwr_Name a = rwr_Name b)))
                         (Forbidden "spec.risingWaveRef" "risingWaveRef.name cannot be changed")
   | _, _ => []
   end) ++
  (match us_ConnectionRef o, us_ConnectionRef n with
   | Some a, Some b => err_if (negb (bool_decide (cr_Host a = cr_Host b)))
                         (Forbidden "spec.connectionRef.host" "connectionRef.host cannot be changed")
   | _, _ => []
   end) ++
  err_if (renamed (getUserName oldObj) (getUserName newObj))
    (Forbidden "spec.name"
       ("user name cannot be changed from " +:+ Quote (getUserName oldObj) +:+ " to " +:+
        Quote (getUserName newObj))) ++
  err_if (negb (bool_decide (is_Some (om_Annotations (u_Meta newObj) !! passwordRotateAnnotation))) &&
          negb (passwordConfigEqual (us_Password o) (us_Password n)))
    (Forbidden "spec.password"
       "password configuration cannot be changed without rotate-password annotation") ++
  err_if (renamed (getAuthType oldObj) (getAuthType newObj))
    (Forbidden "spec.auth.type"
       ("auth type cannot be changed from " +:+ getAuthType oldObj +:+ " to " +:+ getAuthType newObj)).

Definition User_ValidateUpdate (get : string -> string -> result api_error RisingWave)
    (Error : api_error -> string) (oldObj newObj : RisingWaveUser) : list string * option api_error :=
  match User_validateObject get Error newObj with
  | (warnings, Some e) => (warnings, Some e)
  | (warnings, None) =>
      (warnings, match update_field_errors oldObj newObj with
                 | [] => None
                 | errs => Some (InvalidError (u_Name newObj) errs)
                 end)
  end.

(** ** Specification: the objects that are accepted *)

Definition credentials_ok (c : option AdminCredentials) : Prop :=
  forall a r, c = Some a -> ac_PasswordSecretRef a = Some r -> sref_Name r <> "".

Definition port_ok (port : Z) : Prop := (0 <= port <= 65535)%Z.

Definition ref_namespace (obj : RisingWaveUser) (ref : RisingWaveReference) : string :=
  if bool_decide (rwr_Namespace ref = "") then om_Namespace (u_Meta obj) else rwr_Namespace ref.

(** Exactly one of the references is given, and it is complete. *)
Definition refs_ok (get : string -> string -> result api_error RisingWave)
    (obj : RisingWaveUser) : Prop :=
  match us_RisingWaveRef (u_Spec obj), us_ConnectionRef (u_Spec obj) with
  | Some ref, None =>
      rwr_Name ref <> "" /\ (exists rw, get (ref_namespace obj ref) (rwr_Name ref) = Ok rw) /\
      credentials_ok (rwr_Credentials ref)
  | None, Some ref => cr_Host ref <> "" /\ port_ok (cr_Port ref) /\ credentials_ok (cr_Credentials ref)
  | _, _ => False
  end.

Definition password_ok (pw : option PasswordConfig) : Prop :=
  forall p, pw = Some p ->
    (pwc_SecretRef p = None \/ pwc_GenerateRandomLength p = None) /\
    (forall r, pwc_SecretRef p = Some r -> sref_Name r <> "") /\
    (forall n, pwc_GenerateRandomLength p = Some n -> (8 <= n <= 128)%Z).

Definition auth_ok (obj : RisingWaveUser) : Prop :=
  forall auth, us_Auth (u_Spec obj) = Some auth ->
    (getAuthType obj = AuthTypeOAuth -> exists o, au_OAuth auth = Some o /\
       (HasPrefix (oa_JWKSUrl o) "http://" = true \/ HasPrefix (oa_JWKSUrl o) "https://" = true) /\
       oa_Issuer o <> "") /\
    (getAuthType obj = AuthTypeLDAP -> exists l, au_LDAP auth = Some l /\
       ldap_Host l <> "" /\ ldap_BaseDN l <> "" /\ port_ok (ldap_Port l)).

Definition nested_ok {k} (p : NestedPrivilege k) : Prop := np_Name p <> "" /\ np_Privileges p <> [].

Definition schema_ok (sp : NestedSchemaPrivilege) : Prop :=
  nsp_Name sp <> "" /\ nsp_Privileges sp <> [] /\
  Forall nested_ok (nsp_Tables sp) /\ Forall nested_ok (nsp_Views sp) /\
  Forall nested_ok (nsp_MaterializedViews sp) /\ Forall nested_ok (nsp_Sources sp) /\
  Forall nested_ok (nsp_Sinks sp) /\ Forall nested_ok (nsp_Connections sp) /\
  Forall nested_ok (nsp_Secrets sp) /\ Forall nested_ok (nsp_Functions sp).

Definition database_ok (dp : DatabasePrivilege) : Prop :=
  dp_Name dp <> "" /\ dp_Name dp <> "*" /\ Forall schema_ok (dp_Schemas dp) /\ dp_Privileges dp <> [].

Definition grants_ok (g : option GrantSpec) : Prop :=
  forall gs, g = Some gs -> Forall database_ok (gr_Databases gs).

Definition user_ok (get : string -> string -> result api_error RisingWave)
    (obj : RisingWaveUser) : Prop :=
  refs_ok get obj /\ (String.length (us_Name (u_Spec obj)) <= 63)%nat /\
  password_ok (us_Password (u_Spec obj)) /\ auth_ok obj /\ grants_ok (us_Grants (u_Spec obj)).

(** ** Lemmas *)

Lemma validateAdminCredentials_nil c path :
  validateAdminCredentials c path = [] <-> credentials_ok c.
Proof.
  unfold credentials_ok. destruct c as [[u p [r|]]|]; cbn; [|naive_solver..].
  rewrite err_if_nil, bool_decide_eq_false. naive_solver.
Qed.

Lemma port_guard_nil port e :
  err_if (negb (bool_decide (port = 0%Z)) &&
          (bool_decide (port < 1)%Z || bool_decide (65535 < port)%Z)) e = [] <-> port_ok port.
Proof.
  rewrite err_if_nil. unfold port_ok. repeat case_bool_decide; cbn; split; lia || done.
Qed.

Lemma ref_errors_nil get Error obj : ref_errors get Error obj = [] <-> refs_ok get obj.
Proof.
  unfold ref_errors, refs_ok.
  destruct (us_RisingWaveRef (u_Spec obj)) as [ref|], (us_ConnectionRef (u_Spec obj)) as [c|];
    [by split| | |by split].
  - unfold validateRisingWaveRef. fold (ref_namespace obj ref).
    destruct (bool_decide_reflect (rwr_Name ref = "")) as [He|He]; [naive_solver|].
    destruct (get _ _) as [rw|e]; [rewrite validateAdminCredentials_nil; naive_solver|].
    destruct (IsNotFound e); naive_solver.
  - unfold validateConnectionRef.
    by rewrite !app_nil_iff, port_guard_nil, err_if_nil, bool_decide_eq_false,
      validateAdminCredentials_nil.
Qed.

Lemma name_errors_nil name : name_errors name = [] <-> (String.length name <= 63)%nat.
Proof.
  unfold name_errors. rewrite err_if_nil.
  destruct (bool_decide_reflect (name = "")) as [->|]; cbn [negb andb]; [cbn; lia|].
  rewrite Nat.ltb_ge. done.
Qed.

Lemma validatePasswordConfig_nil obj path :
  validatePasswordConfig obj path = [] <-> password_ok (us_Password (u_Spec obj)).
Proof.
  unfold validatePasswordConfig, password_ok.
  destruct (us_Password (u_Spec obj)) as [[sr gl]|]; [|naive_solver]. cbn.
  transitivity ((sr = None \/ gl = None) /\ (forall r, sr = Some r -> sref_Name r <> "") /\
                (forall n, gl = Some n -> (8 <= n <= 128)%Z));
    [|split; [by intros H p [= <-]|intros H; exact (H _ eq_refl)]].
  destruct sr as [r|], gl as [n|]; cbn;
    rewrite ?app_nil_r, ?app_nil_iff, ?err_if_nil, ?bool_decide_eq_false.
  - split; [discriminate|]. intros ([H|H] & _); discriminate.
  - split; [|intros (_ & H & _); by apply H]. intros H. split; [auto|]. split; [|done].
    by intros ? [= <-].
  - split; [intros [? ?]|intros (_ & _ & H); specialize (H _ eq_refl); lia].
    split; [auto|]. split; [done|]. intros ? [= <-]. lia.
  - split; [|done]. intros _. split; [by left|]. by split.
Qed.

Lemma oauth_nil path o :
  validate_oauth path o = [] <-> exists c, o = Some c /\
    (HasPrefix (oa_JWKSUrl c) "http://" = true \/ HasPrefix (oa_JWKSUrl c) "https://" = true) /\
    oa_Issuer c <> "".
Proof.
  destruct o as [o|]; cbn; [|naive_solver].
  rewrite !app_nil_iff, !err_if_nil, !bool_decide_eq_false, andb_false_iff, !negb_false_iff.
  split; [naive_solver|]. intros (c & [= <-] & H & Hi). split; [|done].
  intros He. rewrite He in H. destruct H; discriminate.
Qed.

Lemma ldap_nil path o :
  validate_ldap path o = [] <-> exists l, o = Some l /\
    ldap_Host l <> "" /\ ldap_BaseDN l <> "" /\ port_ok (ldap_Port l).
Proof.
  destruct o as [l|]; cbn [validate_ldap]; [|naive_solver].
  rewrite !app_nil_iff, port_guard_nil, !err_if_nil, !bool_decide_eq_false. naive_solver.
Qed.

Lemma validateAuthConfig_nil obj path : validateAuthConfig obj path = [] <-> auth_ok obj.
Proof.
  unfold validateAuthConfig, auth_ok. destruct (us_Auth (u_Spec obj)) as [auth|]; [|naive_solver].
  destruct (bool_decide_reflect (getAuthType obj = AuthTypeOAuth)) as [He|He].
  - rewrite oauth_nil. split.
    + intros H ? [= <-]. split; [done|]. rewrite He. discriminate.
    + intros H. by apply (H _ eq_refl).
  - destruct (bool_decide_reflect (getAuthType obj = AuthTypeLDAP)) as [Hl|Hl].
    + rewrite ldap_nil. split.
      * intros H ? [= <-]. by split.
      * intros H. by apply (H _ eq_refl).
    + split; [|done]. intros _ ? _. by split.
Qed.

Lemma privileges_required_nil path privs : privileges_required path privs = [] <-> privs <> [].
Proof. unfold privileges_required. by rewrite err_if_nil, bool_decide_eq_false. Qed.

Lemma validate_nested_nil {k} word path (p : NestedPrivilege k) :
  validate_nested word path p = [] <-> nested_ok p.
Proof.
  unfold validate_nested, nested_ok.
  by rewrite app_nil_iff, err_if_nil, bool_decide_eq_false, privileges_required_nil.
Qed.

Lemma nested_list_nil {k} word path (l : list (NestedPrivilege k)) :
  indexed_errors (validate_nested word) path l = [] <-> Forall nested_ok l.
Proof. apply indexed_errors_nil. intros. apply validate_nested_nil. Qed.

Lemma validate_schema_nil path sp : validate_schema path sp = [] <-> schema_ok sp.
Proof.
  unfold validate_schema, schema_ok, NestedTablePrivilege.
  by rewrite !app_nil_iff, err_if_nil, bool_decide_eq_false, privileges_required_nil,
    !nested_list_nil.
Qed.

Lemma validate_database_nil path dp : validate_database path dp = [] <-> database_ok dp.
Proof.
  unfold validate_database, database_ok.
  by rewrite !app_nil_iff, !err_if_nil, !bool_decide_eq_false, privileges_required_nil,
    (indexed_errors_nil _ _ _ _ validate_schema_nil).
Qed.

Lemma validatePrivileges_nil obj path :
  validatePrivileges obj path = [] <-> grants_ok (us_Grants (u_Spec obj)).
Proof.
  unfold validatePrivileges, grants_ok. destruct (us_Grants (u_Spec obj)) as [g|]; [|naive_solver].
  rewrite (indexed_errors_nil _ _ _ _ validate_database_nil). naive_solver.
Qed.

Lemma User_validateObject_None get Error obj :
  snd (User_validateObject get Error obj) = None <-> user_ok get obj.
Proof.
  unfold User_validateObject, user_ok. cbn [snd].
  rewrite <-(ref_errors_nil get Error), <-name_errors_nil, <-(validatePasswordConfig_nil obj "spec"),
    <-(validateAuthConfig_nil obj "spec"), <-(validatePrivileges_nil obj "spec"), <-!app_nil_iff.
  by destruct (_ ++ _).
Qed.

(** The passwords that count as the same: a secret is compared with a secret, a length
    with a length, and everything else is taken for unchanged. *)
Definition same_password (a b : PasswordConfig) : Prop :=
  match pwc_SecretRef a, pwc_SecretRef b with
  | Some r1, Some r2 => r1 = r2
  | _, _ => forall n1 n2, pwc_GenerateRandomLength a = Some n1 ->
                          pwc_GenerateRandomLength b = Some n2 -> n1 = n2
  end.

Lemma passwordConfigEqual_true a b :
  passwordConfigEqual a b = true <->
  (a = None /\ b = None) \/ (exists p q, a = Some p /\ b = Some q /\ same_password p q).
Proof.
  destruct a as [a|], b as [b|]; [|naive_solver..].
  transitivity (same_password a b); [|naive_solver].
  unfold passwordConfigEqual, same_password.
  destruct a as [[[n1 ns1 k1]|] g1], b as [[[n2 ns2 k2]|] g2]; cbn.
  - rewrite !andb_true_iff, !bool_decide_eq_true. naive_solver.
  - destruct g1, g2; rewrite ?bool_decide_eq_true; naive_solver.
  - destruct g1, g2; rewrite ?bool_decide_eq_true; naive_solver.
  - destruct g1, g2; rewrite ?bool_decide_eq_true; naive_solver.
Qed.

Lemma renamed_false a b : renamed a b = false <-> (a <> "" -> b <> "" -> a = b).
Proof.
  unfold renamed. rewrite !andb_false_iff, !negb_false_iff, !bool_decide_eq_true.
  destruct (decide (a = "")), (decide (b = "")), (decide (a = b)); naive_solver.
Qed.

Lemma same_presence {A} (a b : option A) :
  negb (Bool.eqb (bool_decide (is_Some a)) (bool_decide (is_Some b))) = false <->
  (is_Some a <-> is_Some b).
Proof. repeat case_bool_decide; cbn; naive_solver. Qed.

Lemma rotate_guard {A} (annotation : option A) b :
  negb (bool_decide (is_Some annotation)) && negb b = false <-> (annotation = None -> b = true).
Proof.
  destruct annotation, b; cbn; repeat case_bool_decide; cbn; naive_solver.
Qed.

(** What an accepted update keeps. *)
Definition same_target (o n : RisingWaveUserSpec) : Prop :=
  (is_Some (us_RisingWaveRef o) <-> is_Some (us_RisingWaveRef n)) /\
  (forall a b, us_RisingWaveRef o = Some a -> us_RisingWaveRef n = Some b -> rwr_Name a = rwr_Name b) /\
  (forall a b, us_ConnectionRef o = Some a -> us_ConnectionRef n = Some b -> cr_Host a = cr_Host b).

Lemma update_field_errors_nil old new :
  update_field_errors old new = [] <->
  same_target (u_Spec old) (u_Spec new) /\
  (getUserName old <> "" -> getUserName new <> "" -> getUserName old = getUserName new) /\
  (om_Annotations (u_Meta new) !! passwordRotateAnnotation = None ->
   passwordConfigEqual (us_Password (u_Spec old)) (us_Password (u_Spec new)) = true) /\
  (getAuthType old <> "" -> getAuthType new <> "" -> getAuthType old = getAuthType new).
Proof.
  unfold update_field_errors, same_target.
  rewrite !app_nil_iff, !err_if_nil, !renamed_false, same_presence, rotate_guard.
  destruct (us_RisingWaveRef (u_Spec old)) as [r1|], (us_RisingWaveRef (u_Spec new)) as [r2|],
    (us_ConnectionRef (u_Spec old)) as [c1|], (us_ConnectionRef (u_Spec new)) as [c2|];
    rewrite ?err_if_nil, ?negb_false_iff, ?bool_decide_eq_true; naive_solver.
Qed.

Section properties.
Context (get : string -> string -> result api_error RisingWave) (Error : api_error -> string).

(** An update the webhook accepts. The API server keeps the name of the object, which is
    not empty, and the schema allows three non-empty types of authentication. *)
Record accepted_update (old new : RisingWaveUser) : Prop := {
  acc_accepted : snd (User_ValidateUpdate get Error old new) = None;
  acc_name : u_Name new = u_Name old;
  acc_named : u_Name old <> "";
  acc_auth : getAuthType old <> "" /\ getAuthType new <> "";
}.

(** Creation accepts exactly the complete objects: one reference that is complete and
    whose RisingWave exists, a name of at most 63 bytes, one source of the password within
    its bounds, the fields its authentication needs, and grants whose every level is named
    (databases without wildcard) and has privileges. *)
Theorem User_ValidateCreate_accepts obj :
  snd (User_ValidateCreate get Error obj) = None <-> user_ok get obj.
Proof. apply User_validateObject_None. Qed.

(** An update is accepted exactly when the new object is complete, its target, its
    name and its type of authentication are kept, and its password configuration counts
    as the same or the rotation is asked for. *)
Theorem User_ValidateUpdate_accepts old new :
  snd (User_ValidateUpdate get Error old new) = None <->
  user_ok get new /\ same_target (u_Spec old) (u_Spec new) /\
  (getUserName old <> "" -> getUserName new <> "" -> getUserName old = getUserName new) /\
  (om_Annotations (u_Meta new) !! passwordRotateAnnotation = None ->
   (us_Password (u_Spec old) = None /\ us_Password (u_Spec new) = None) \/
   (exists p q, us_Password (u_Spec old) = Some p /\ us_Password (u_Spec new) = Some q /\
                same_password p q)) /\
  (getAuthType old <> "" -> getAuthType new <> "" -> getAuthType old = getAuthType new).
Proof.
  unfold User_ValidateUpdate. pose proof (User_validateObject_None get Error new) as Hv.
  destruct (User_validateObject get Error new) as [w [e|]]; cbn in Hv |- *.
  - split; [discriminate|]. intros (H & _). by apply Hv in H.
  - rewrite <-passwordConfigEqual_true, <-update_field_errors_nil, <-Hv.
    destruct (update_field_errors old new); naive_solver.
Qed.

Lemma getUserName_named u : u_Name u <> "" -> getUserName u <> "".
Proof. unfold getUserName. case_bool_decide; done. Qed.

(** Through any number of accepted updates a user stays the same user of the same
    cluster: its name in the database, its type of authentication, and the RisingWave or
    the host it is created in are those of its creation. *)
Theorem user_identity_immutable u u' :
  user_ok get u -> rtc accepted_update u u' ->
  user_ok get u' /\ getUserName u' = getUserName u /\ getAuthType u' = getAuthType u /\
  (rwr_Name <$> us_RisingWaveRef (u_Spec u')) = (rwr_Name <$> us_RisingWaveRef (u_Spec u)) /\
  (cr_Host <$> us_ConnectionRef (u_Spec u')) = (cr_Host <$> us_ConnectionRef (u_Spec u)).
Proof.
  intros Hok Hs. induction Hs as [u|u u1 u' [Ha Hn Hnn [Ho1 Ho2]] _ IH]; [done|].
  apply User_ValidateUpdate_accepts in Ha as (Hok1 & (Hk & Hr & Hc) & Hname & _ & Hauth).
  destruct (IH Hok1) as (? & -> & -> & -> & ->). split; [done|]. split.
  { symmetry. apply Hname; apply getUserName_named; [done|by rewrite Hn]. }
  split; [by symmetry; apply Hauth|].
  destruct Hok as [Hok _], Hok1 as [Hok1 _]. unfold refs_ok in Hok, Hok1.
  destruct (us_RisingWaveRef (u_Spec u)) as [r1|], (us_RisingWaveRef (u_Spec u1)) as [r2|],
    (us_ConnectionRef (u_Spec u)) as [c1|], (us_ConnectionRef (u_Spec u1)) as [c2|]; try done.
  - split; [|done]. cbn. f_equal. symmetry. by apply Hr.
  - destruct Hk as [Hk _]. destruct Hk; [by eexists|done].
  - destruct Hk as [_ Hk]. destruct Hk; [by eexists|done].
  - split; [done|]. cbn. f_equal. symmetry. by apply Hc.
Qed.
End properties.

(** The source of a password can be switched from a secret to a random password without
    the annotation: a secret is only compared with a secret, a length with a length. *)
Lemma password_source_can_change ref n :
  passwordConfigEqual (Some {| pwc_SecretRef := Some ref; pwc_GenerateRandomLength := None |})
    (Some {| pwc_SecretRef := None; pwc_GenerateRandomLength := Some n |}) = true.
Proof. reflexivity. Qed.

(** ** Examples and witnesses *)

Definition ex_user (annotations : gmap string string) (pw : PasswordConfig) : RisingWaveUser :=
  {| u_Meta := {| om_Name := "alice"; om_Namespace := "default"; om_UID := "1";
                  om_Generation := 1; om_Labels := ∅; om_Annotations := annotations;
                  om_Finalizers := []; om_Deleted := false |};
     u_Spec := {| us_RisingWaveRef := Some {| rwr_Name := "rw"; rwr_Namespace := "";
                                              rwr_Credentials := None |};
                  us_ConnectionRef := None; us_Name := ""; us_Password := Some pw;
                  us_Auth := None; us_Permissions := []; us_Grants := None |};
     u_Status := zero_user_status |}.

Definition ex_get (namespace name : string) : result api_error RisingWave :=
  if bool_decide (namespace = "default") then Ok zero_risingwave else Err (NotFoundError name).

Definition random_password (n : Z) : PasswordConfig :=
  {| pwc_SecretRef := None; pwc_GenerateRandomLength := Some n |}.

Example rotation_needs_annotation :
  snd (User_ValidateUpdate ex_get (fun _ => "") (ex_user ∅ (random_password 16))
         (ex_user ∅ (random_password 32))) =
    Some (InvalidError "alice" [Forbidden "spec.password"
      "password configuration cannot be changed without rotate-password annotation"]) /\
  snd (User_ValidateUpdate ex_get (fun _ => "") (ex_user ∅ (random_password 16))
         (ex_user {[passwordRotateAnnotation := "true"%string]} (random_password 32))) = None.
Proof. split; vm_compute; reflexivity. Qed.

Lemma user_identity_immutable_witness :
  getUserName (ex_user {[passwordRotateAnnotation := "true"%string]} (random_password 32)) = "alice"%string.
Proof.
  refine (proj1 (proj2 (user_identity_immutable ex_get (fun _ => ""%string)
    (ex_user ∅ (random_password 16)) _ _ _))).
  - apply (User_validateObject_None ex_get (fun _ => ""%string)). vm_compute. reflexivity.
  - apply rtc_once. split; [vm_compute; reflexivity|reflexivity|discriminate|split; discriminate].
Defined.
