(* ===== verification/UserState.v ===== *)
(** * pkg/controller/risingwave_user_controller.go: the state of a reconciliation

    A reconciliation of a RisingWaveUser reads and writes the API server and a database.
    The model is a state monad over the reconciler's fields, a clock and the trace of the
    requests that change something outside. What the outside answers is the class
    [Environment]: a reply may depend on everything requested before. An operation may
    panic (a nil dereference); an [error] it returns is an ordinary value, as in Go. *)

From stdpp Require Import pretty.
From S2P Require Import Prelude GoStrings ApiTypes ApiUser PrivilegeDiff.
From S2P Require Export GoMonad.

(** ** Errors and events *)

(** What the code asks of an [error]: its text, whether it is a NotFound, and the code of
    a [*pq.Error]. *)
Record go_error := {
  ge_text : string;
  ge_not_found : bool;
  ge_pq_code : option string;
}.

Definition plain_error (msg : string) : go_error :=
  {| ge_text := msg; ge_not_found := false; ge_pq_code := None |}.

(** [fmt.Errorf("msg: %w", err)]. *)
Definition wrap (msg : string) (e : go_error) : go_error :=
  {| ge_text := msg +:+ ": " +:+ ge_text e; ge_not_found := ge_not_found e; ge_pq_code := None |}.

Global Instance result_fmap E : FMap (result E) := fun A B f r =>
  match r with Ok a => Ok (f a) | Err e => Err e end.

(** The requests that change the API server or the database. *)
Inductive event :=
| EvUpdate (user : RisingWaveUser)
| EvUpdateStatus (user : RisingWaveUser)
| EvCreateSecret (namespace name : string) (data : gmap string string)
| EvUpdateSecret (namespace name : string) (data : gmap string string)
| EvExec (sql : string).

Record ConnectionKey := {
  ck_Namespace : string;
  ck_Name : string;
  ck_UID : string;
}.

Record ConnectionInfo := {
  ci_Host : string;
  ci_Port : Z;
  ci_Username : string;
  ci_Password : string;
  ci_Database : string;
  ci_SSLMode : string;
}.

(** The replies. An update of the user returns the object as the API server stored it;
    [None] as the reply to another request is success. *)
Class Environment := {
  now_at : nat -> Z;
  GenerateRandomPassword : nat -> Z -> string;
  get_RisingWave : list event -> string -> string -> result go_error RisingWave;
  get_Secret : list event -> string -> string -> result go_error (gmap string string);
  get_Service : list event -> string -> string -> result go_error unit;
  pool_Get : list event -> ConnectionKey -> ConnectionInfo -> result go_error unit;
  reply_update : list event -> RisingWaveUser -> result go_error RisingWaveUser;
  reply_status : list event -> RisingWaveUser -> result go_error RisingWaveUser;
  reply : list event -> event -> option go_error;
  set_owner : list event -> option go_error;
  current_database : list event -> result go_error string;
  query_names : list event -> result go_error (list (result go_error string));
  query_databases : list event -> query_answer;
  query_schemas : list event -> query_answer;
  query_objects : list event -> string -> string -> query_answer;
}.

(** ** The reconciler *)

Record RisingWaveUserReconciler := {
  r_user : RisingWaveUser;
  r_risingWave : option RisingWave;
  r_connected : bool;
  r_connectionKey : ConnectionKey;
  r_trace : list event;
  r_ticks : nat;
}.

Abbreviation M := (GoM RisingWaveUserReconciler).

Definition set_user (u : RisingWaveUser) (r : RisingWaveUserReconciler) : RisingWaveUserReconciler :=
  {| r_user := u; r_risingWave := r_risingWave r; r_connected := r_connected r;
     r_connectionKey := r_connectionKey r; r_trace := r_trace r; r_ticks := r_ticks r |}.
Definition set_risingWave (rw : option RisingWave) (r : RisingWaveUserReconciler) :=
  {| r_user := r_user r; r_risingWave := rw; r_connected := r_connected r;
     r_connectionKey := r_connectionKey r; r_trace := r_trace r; r_ticks := r_ticks r |}.
Definition set_connected (c : bool) (r : RisingWaveUserReconciler) :=
  {| r_user := r_user r; r_risingWave := r_risingWave r; r_connected := c;
     r_connectionKey := r_connectionKey r; r_trace := r_trace r; r_ticks := r_ticks r |}.
Definition set_connectionKey (k : ConnectionKey) (r : RisingWaveUserReconciler) :=
  {| r_user := r_user r; r_risingWave := r_risingWave r; r_connected := r_connected r;
     r_connectionKey := k; r_trace := r_trace r; r_ticks := r_ticks r |}.
Definition log_event (e : event) (r : RisingWaveUserReconciler) :=
  {| r_user := r_user r; r_risingWave := r_risingWave r; r_connected := r_connected r;
     r_connectionKey := r_connectionKey r; r_trace := r_trace r ++ [e]; r_ticks := r_ticks r |}.
Definition tick (r : RisingWaveUserReconciler) :=
  {| r_user := r_user r; r_risingWave := r_risingWave r; r_connected := r_connected r;
     r_connectionKey := r_connectionKey r; r_trace := r_trace r; r_ticks := S (r_ticks r) |}.

(** ** The fields of a user *)

Definition set_u_Meta (m : ObjectMeta) (u : RisingWaveUser) : RisingWaveUser :=
  {| u_Meta := m; u_Spec := u_Spec u; u_Status := u_Status u |}.
Definition set_u_Status (s : RisingWaveUserStatus) (u : RisingWaveUser) : RisingWaveUser :=
  {| u_Meta := u_Meta u; u_Spec := u_Spec u; u_Status := s |}.
Definition set_om_Finalizers (fs : list string) (m : ObjectMeta) : ObjectMeta :=
  {| om_Name := om_Name m; om_Namespace := om_Namespace m; om_UID := om_UID m;
     om_Generation := om_Generation m; om_Labels := om_Labels m;
     om_Annotations := om_Annotations m; om_Finalizers := fs; om_Deleted := om_Deleted m |}.
Definition set_om_Annotations (a : gmap string string) (m : ObjectMeta) : ObjectMeta :=
  {| om_Name := om_Name m; om_Namespace := om_Namespace m; om_UID := om_UID m;
     om_Generation := om_Generation m; om_Labels := om_Labels m; om_Annotations := a;
     om_Finalizers := om_Finalizers m; om_Deleted := om_Deleted m |}.

Definition set_ust_Conditions (cs : list UserCondition) (s : RisingWaveUserStatus) :=
  {| ust_Conditions := cs; ust_ObservedGeneration := ust_ObservedGeneration s;
     ust_UserCreated := ust_UserCreated s; ust_SecretCreated := ust_SecretCreated s;
     ust_SecretName := ust_SecretName s; ust_PrivilegesSynced := ust_PrivilegesSynced s;
     ust_ConnectionStatus := ust_ConnectionStatus s; ust_Phase := ust_Phase s |}.
Definition set_ust_Phase (phase : string) (s : RisingWaveUserStatus) :=
  {| ust_Conditions := ust_Conditions s; ust_ObservedGeneration := ust_ObservedGeneration s;
     ust_UserCreated := ust_UserCreated s; ust_SecretCreated := ust_SecretCreated s;
     ust_SecretName := ust_SecretName s; ust_PrivilegesSynced := ust_PrivilegesSynced s;
     ust_ConnectionStatus := ust_ConnectionStatus s; ust_Phase := phase |}.
Definition set_ust_ConnectionStatus (c : option ConnectionStatus) (s : RisingWaveUserStatus) :=
  {| ust_Conditions := ust_Conditions s; ust_ObservedGeneration := ust_ObservedGeneration s;
     ust_UserCreated := ust_UserCreated s; ust_SecretCreated := ust_SecretCreated s;
     ust_SecretName := ust_SecretName s; ust_PrivilegesSynced := ust_PrivilegesSynced s;
     ust_ConnectionStatus := c; ust_Phase := ust_Phase s |}.
Definition set_ust_Secret (name : string) (s : RisingWaveUserStatus) :=
  {| ust_Conditions := ust_Conditions s; ust_ObservedGeneration := ust_ObservedGeneration s;
     ust_UserCreated := ust_UserCreated s; ust_SecretCreated := true;
     ust_SecretName := name; ust_PrivilegesSynced := ust_PrivilegesSynced s;
     ust_ConnectionStatus := ust_ConnectionStatus s; ust_Phase := ust_Phase s |}.
Definition set_ust_UserCreated (b : bool) (s : RisingWaveUserStatus) :=
  {| ust_Conditions := ust_Conditions s; ust_ObservedGeneration := ust_ObservedGeneration s;
     ust_UserCreated := b; ust_SecretCreated := ust_SecretCreated s;
     ust_SecretName := ust_SecretName s; ust_PrivilegesSynced := ust_PrivilegesSynced s;
     ust_ConnectionStatus := ust_ConnectionStatus s; ust_Phase := ust_Phase s |}.
Definition set_ust_PrivilegesSynced (b : bool) (s : RisingWaveUserStatus) :=
  {| ust_Conditions := ust_Conditions s; ust_ObservedGeneration := ust_ObservedGeneration s;
     ust_UserCreated := ust_UserCreated s; ust_SecretCreated := ust_SecretCreated s;
     ust_SecretName := ust_SecretName s; ust_PrivilegesSynced := b;
     ust_ConnectionStatus := ust_ConnectionStatus s; ust_Phase := ust_Phase s |}.
Definition set_ust_ObservedGeneration (g : Z) (s : RisingWaveUserStatus) :=
  {| ust_Conditions := ust_Conditions s; ust_ObservedGeneration := g;
     ust_UserCreated := ust_UserCreated s; ust_SecretCreated := ust_SecretCreated s;
     ust_SecretName := ust_SecretName s; ust_PrivilegesSynced := ust_PrivilegesSynced s;
     ust_ConnectionStatus := ust_ConnectionStatus s; ust_Phase := ust_Phase s |}.

(** [r.rwUser.Status... = ...]. *)
Definition on_status (f : RisingWaveUserStatus -> RisingWaveUserStatus) : M unit :=
  modify (fun r => set_user (set_u_Status (f (u_Status (r_user r))) (r_user r)) r).

(** ** Phases and conditions *)

Definition PhasePending : string := "Pending".
Definition PhaseCreating : string := "Creating".
Definition PhaseReady : string := "Ready".
Definition PhaseUpdating : string := "Updating".
Definition PhaseDeleting : string := "Deleting".
Definition PhaseFailed : string := "Failed".
Definition ConditionReady : string := "Ready".
Definition ConditionUserCreated : string := "UserCreated".
Definition ConditionSecretCreated : string := "SecretCreated".
Definition ConditionPrivilegesSynced : string := "PrivilegesSynced".
Definition ConditionConnectionError : string := "ConnectionError".

Definition setPhase (phase : string) : M unit := on_status (set_ust_Phase phase).

Definition int_text (z : Z) : string := pretty.pretty z.

Section effects.
Context `{E : Environment}.

(** [metav1.Now()]. *)
Definition Now : M Z := fun r => Done (now_at (r_ticks r), tick r).

(** A condition as the code writes it; the time is filled in by [setCondition]. *)
Definition user_condition (type status reason message : string) : UserCondition :=
  {| uc_Type := type; uc_Status := status; uc_ObservedGeneration := 0; uc_LastTransitionTime := 0;
     uc_Reason := reason; uc_Message := message |}.

Definition with_time (t : Z) (c : UserCondition) : UserCondition :=
  {| uc_Type := uc_Type c; uc_Status := uc_Status c;
     uc_ObservedGeneration := uc_ObservedGeneration c; uc_LastTransitionTime := t;
     uc_Reason := uc_Reason c; uc_Message := uc_Message c |}.

Definition of_type (t : string) (c : UserCondition) : bool := bool_decide (uc_Type c = t).

(** [c.Status != cond.Status || c.Reason != cond.Reason || c.Message != cond.Message]. *)
Definition differs (c cond : UserCondition) : bool :=
  negb (bool_decide (uc_Status c = uc_Status cond)) ||
  negb (bool_decide (uc_Reason c = uc_Reason cond)) ||
  negb (bool_decide (uc_Message c = uc_Message cond)).

Definition setCondition (cond : UserCondition) : M unit :=
  conds ← gets (fun r => ust_Conditions (u_Status (r_user r)));
  match find_index (of_type (uc_Type cond)) conds with
  | Some (i, c) =>
      if differs c cond then
        t ← Now; on_status (set_ust_Conditions (<[i := with_time t cond]> conds))
      else
        on_status (set_ust_Conditions (<[i := with_time (uc_LastTransitionTime c) cond]> conds))
  | None =>
      t ← Now; on_status (set_ust_Conditions (conds ++ [with_time t cond]))
  end.

Definition setErrorCondition (reason message : string) : M unit :=
  setCondition (user_condition ConditionConnectionError "True" reason message).

Definition updateConnectionStatus (connected : bool) (errMsg : string) : M unit :=
  if connected then
    t ← Now;
    on_status (set_ust_ConnectionStatus (Some {| cst_Connected := true;
      cst_LastConnectedTime := Some t; cst_ErrorMessage := errMsg |}))
  else
    on_status (set_ust_ConnectionStatus (Some {| cst_Connected := false;
      cst_LastConnectedTime := None; cst_ErrorMessage := errMsg |})).

(** ** Requests *)

(** [r.Update(ctx, r.rwUser)] and [r.Status().Update(ctx, r.rwUser)]: the object in memory
    becomes the one the API server returns. *)
Definition update_user : M (result go_error unit) := fun r =>
  let e := reply_update (r_trace r) (r_user r) in
  let r := log_event (EvUpdate (r_user r)) r in
  match e with
  | Ok u => Done (Ok tt, set_user u r)
  | Err err => Done (Err err, r)
  end.

Definition updateStatus : M (result go_error unit) := fun r =>
  let e := reply_status (r_trace r) (r_user r) in
  let r := log_event (EvUpdateStatus (r_user r)) r in
  match e with
  | Ok u => Done (Ok tt, set_user u r)
  | Err err => Done (Err err, r)
  end.

(** A request that is answered by success or an error. *)
Definition request (ev : event) : M (result go_error unit) := fun r =>
  Done (match reply (r_trace r) ev with Some err => Err err | None => Ok tt end, log_event ev r).

(** A call on [r.conn]: a nil connection panics. *)
Definition on_connection {A} (m : M A) : M A :=
  connected ← gets r_connected;
  if connected : bool then m else panic "nil pointer dereference".

Definition exec (sql : string) : M (result go_error unit) := on_connection (request (EvExec sql)).

Definition randomPassword (length : Z) : M string := fun r =>
  Done (GenerateRandomPassword (r_ticks r) length, tick r).

(** ** The RisingWave and the connection *)

Definition or_namespace (namespace default : string) : string :=
  if bool_decide (namespace = "") then default else namespace.

Definition user_namespace (r : RisingWaveUserReconciler) : string := om_Namespace (u_Meta (r_user r)).

Definition usesConnectionRef (r : RisingWaveUserReconciler) : bool :=
  match us_ConnectionRef (u_Spec (r_user r)) with Some _ => true | None => false end.

(** [r.risingWave] is the empty object when [Get] fails. *)
Definition fetchRisingWave : M (result go_error unit) :=
  r ← gets id;
  match us_RisingWaveRef (u_Spec (r_user r)) with
  | None => panic "nil pointer dereference"
  | Some ref =>
      let namespace := or_namespace (rwr_Namespace ref) (user_namespace r) in
      match get_RisingWave (r_trace r) namespace (rwr_Name ref) with
      | Ok rw => modify (set_risingWave (Some rw));; mret (Ok tt)
      | Err e => modify (set_risingWave (Some zero_risingwave));; mret (Err e)
      end
  end.

Definition is_running (c : RisingWaveCondition) : bool :=
  bool_decide (cond_Type c = RisingWaveConditionRunning) &&
  bool_decide (cond_Status c = ConditionTrue).

Definition isRisingWaveReady (r : RisingWaveUserReconciler) : bool :=
  match r_risingWave r with
  | None => false
  | Some rw => existsb is_running (st_Conditions (rw_Status rw))
  end.

Definition defaultFrontendPort : Z := 4567.
Definition defaultUsername : string := "root".
Definition defaultPassword : string := "".

(** [key], or ["password"] when it is empty. *)
Definition or_password_key (key : string) : string :=
  if bool_decide (key = "") then "password" else key.

Definition readSecretValue (ref : SecretReference) : M (result go_error string) :=
  r ← gets id;
  let namespace := or_namespace (sref_Namespace ref) (user_namespace r) in
  match get_Secret (r_trace r) namespace (sref_Name ref) with
  | Err e => mret (Err (wrap ("failed to get admin credentials secret " +:+ namespace +:+ "/" +:+
                              sref_Name ref) e))
  | Ok data =>
      match data !! or_password_key (sref_Key ref) with
      | Some v => mret (Ok v)
      | None => mret (Err (plain_error ("key " +:+ Quote (or_password_key (sref_Key ref)) +:+
                      " not found in secret " +:+ namespace +:+ "/" +:+ sref_Name ref)))
      end
  end.

Definition resolveAdminCredentials (creds : option AdminCredentials)
  : M (result go_error (string * string)) :=
  match creds with
  | None => mret (Ok (defaultUsername, defaultPassword))
  | Some c =>
      let username := if bool_decide (ac_Username c = "") then defaultUsername
                      else ac_Username c in
      match ac_PasswordSecretRef c with
      | Some ref => p ← readSecretValue ref; mret (pair username <$> p)
      | None => mret (Ok (username, ac_Password c))
      end
  end.

Definition ConnectionKeyFrom (namespace name uid : string) : ConnectionKey :=
  {| ck_Namespace := namespace; ck_Name := name; ck_UID := uid |}.

Definition DefaultConnectionInfo (host : string) (port : Z) (username password : string)
  : ConnectionInfo :=
  {| ci_Host := host; ci_Port := port; ci_Username := username; ci_Password := password;
     ci_Database := "dev"; ci_SSLMode := "disable" |}.
(** [DataSourceName]: the text [sql.Open] gets. *)
Definition DataSourceName (c : ConnectionInfo) : string :=
  "host=" +:+ ci_Host c +:+ " port=" +:+ int_text (ci_Port c) +:+ " user=" +:+ ci_Username c +:+
  " password=" +:+ ci_Password c +:+ " dbname=" +:+ ci_Database c +:+ " sslmode=" +:+ ci_SSLMode c.

(** [r.ConnectionPool.Get] and what follows it in both strategies. *)
Definition connect (info : ConnectionInfo) : M (result go_error unit) :=
  r ← gets id;
  match pool_Get (r_trace r) (r_connectionKey r) info with
  | Err e => mret (Err (wrap "failed to get database connection" e))
  | Ok _ => modify (set_connected true);; updateConnectionStatus true "";; mret (Ok tt)
  end.

Definition establishConnectionFromRisingWaveRef : M (result go_error unit) :=
  r ← gets id;
  match r_risingWave r with
  | None => panic "nil pointer dereference"
  | Some rw =>
      let meta := rw_Meta rw in
      modify (set_connectionKey (ConnectionKeyFrom (om_Namespace meta) (om_Name meta) (om_UID meta)));;
      match get_Service (r_trace r) (om_Namespace meta) (om_Name meta +:+ "-frontend") with
      | Err e => mret (Err (wrap "failed to get frontend service" e))
      | Ok _ =>
          let host := om_Name meta +:+ "-frontend" +:+ "." +:+ om_Namespace meta +:+
                      ".svc.cluster.local" in
          match us_RisingWaveRef (u_Spec (r_user r)) with
          | None => panic "nil pointer dereference"
          | Some ref =>
              creds ← resolveAdminCredentials (rwr_Credentials ref);
              match creds with
              | Err e => mret (Err (wrap "failed to resolve admin credentials" e))
              | Ok (username, password) =>
                  connect (DefaultConnectionInfo host defaultFrontendPort username password)
              end
          end
      end
  end.

Definition establishConnectionFromConnectionRef : M (result go_error unit) :=
  r ← gets id;
  match us_ConnectionRef (u_Spec (r_user r)) with
  | None => panic "nil pointer dereference"
  | Some ref =>
      let port := if bool_decide (cr_Port ref = 0%Z) then defaultFrontendPort else cr_Port ref in
      modify (set_connectionKey {| ck_Namespace := user_namespace r;
        ck_Name := cr_Host ref +:+ ":" +:+ int_text port; ck_UID := "" |});;
      creds ← resolveAdminCredentials (cr_Credentials ref);
      match creds with
      | Err e => mret (Err (wrap "failed to resolve admin credentials" e))
      | Ok (username, password) =>
          connect (DefaultConnectionInfo (cr_Host ref) port username password)
      end
  end.

Definition establishConnection : M (result go_error unit) :=
  direct ← gets usesConnectionRef;
  if direct : bool then establishConnectionFromConnectionRef
  else establishConnectionFromRisingWaveRef.

Definition closeConnection : M unit := modify (set_connected false).

(** ** The password and its secret *)

Definition getSecretName : M string :=
  r ← gets id;
  let name := om_Name (u_Meta (r_user r)) in
  if usesConnectionRef r then mret ("risingwave-direct-" +:+ name)
  else match r_risingWave r with
       | None => panic "nil pointer dereference"
       | Some rw => mret ("risingwave-" +:+ om_Name (rw_Meta rw) +:+ "-" +:+ name)
       end.

Definition getPasswordFromSecret (ref : SecretReference) : M (result go_error string) :=
  r ← gets id;
  let namespace := or_namespace (sref_Namespace ref) (user_namespace r) in
  match get_Secret (r_trace r) namespace (sref_Name ref) with
  | Err e => mret (Err (wrap "failed to get password secret" e))
  | Ok data =>
      match data !! or_password_key (sref_Key ref) with
      | Some v => mret (Ok v)
      | None => mret (Err (plain_error ("key " +:+ or_password_key (sref_Key ref) +:+
                      " not found in secret " +:+ sref_Name ref)))
      end
  end.

(** The secret the password is declared in, if any. *)
Definition declared_secret (u : RisingWaveUser) : option SecretReference :=
  us_Password (u_Spec u) ≫= pwc_SecretRef.

Definition getPassword : M (result go_error string) :=
  r ← gets id;
  match declared_secret (r_user r) with
  | Some ref => getPasswordFromSecret ref
  | None =>
      secretName ← getSecretName;
      let existing := match get_Secret (r_trace r) (user_namespace r) secretName with
                      | Ok data => data !! "password"%string
                      | Err _ => None
                      end in
      match existing with
      | Some password => mret (Ok password)
      | None =>
          let length := default 16%Z (us_Password (u_Spec (r_user r)) ≫= pwc_GenerateRandomLength) in
          password ← randomPassword length;
          mret (Ok password)
      end
  end.

Definition createOrUpdateSecret (password : string) : M (result go_error unit) :=
  secretName ← getSecretName;
  r ← gets id;
  let namespace := user_namespace r in
  let data := <["username"%string := getUserName (r_user r)]>
                {["password"%string := password]} in
  done ← (match set_owner (r_trace r), get_Secret (r_trace r) namespace secretName with
          | Some e, _ => mret (Err (wrap "failed to set controller reference" e))
          | None, Err e =>
              if ge_not_found e then
                e ← request (EvCreateSecret namespace secretName data);
                mret (match e with Ok _ => Ok tt
                                 | Err e => Err (wrap "failed to create secret" e) end)
              else mret (Err (wrap "failed to get secret" e))
          | None, Ok _ =>
              e ← request (EvUpdateSecret namespace secretName data);
              mret (match e with Ok _ => Ok tt
                               | Err e => Err (wrap "failed to update secret" e) end)
          end);
  match done with
  | Err e => mret (Err e)
  | Ok _ =>
      on_status (set_ust_Secret secretName);;
      setCondition (user_condition ConditionSecretCreated "True" "SecretCreated"
                      "Secret created successfully");;
      mret (Ok tt)
  end.
End effects.

(** ** What the work of a reconciliation leaves alone

    Between the start and the final status update, the operations keep the user's
    metadata and spec, the cluster, the connection, and every condition but those that
    report progress; what they request is work on secrets and on the database. *)

Definition user_conditions (r : RisingWaveUserReconciler) : list UserCondition :=
  ust_Conditions (u_Status (r_user r)).

Definition get_condition (r : RisingWaveUserReconciler) (t : string) : option UserCondition :=
  snd <$> find_index (of_type t) (user_conditions r).

Definition progress_type (t : string) : Prop :=
  t = ConditionUserCreated \/ t = ConditionSecretCreated \/ t = ConditionPrivilegesSynced.

Definition is_work (ev : event) : Prop :=
  match ev with EvUpdate _ | EvUpdateStatus _ => False | _ => True end.

Record frame (r r' : RisingWaveUserReconciler) : Prop := {
  fr_meta : u_Meta (r_user r') = u_Meta (r_user r);
  fr_spec : u_Spec (r_user r') = u_Spec (r_user r);
  fr_risingWave : r_risingWave r' = r_risingWave r;
  fr_connected : r_connected r' = r_connected r;
  fr_conditions t : ~ progress_type t -> get_condition r' t = get_condition r t;
  fr_created : ust_UserCreated (u_Status (r_user r)) = true ->
               ust_UserCreated (u_Status (r_user r')) = true;
  fr_synced : ust_PrivilegesSynced (u_Status (r_user r)) = true ->
              ust_PrivilegesSynced (u_Status (r_user r')) = true;
  fr_trace : exists tr, r_trace r' = r_trace r ++ tr /\ Forall is_work tr;
}.

Global Instance frame_preorder : PreOrder frame.
Proof.
  split.
  - intros r. split; try done. exists []. by rewrite app_nil_r.
  - intros r1 r2 r3 [H1 H2 H3 H4 H5 C1 S1 (t1 & H6 & W1)] [K1 K2 K3 K4 K5 C2 S2 (t2 & K6 & W2)].
    split; [congruence..| |auto|auto|].
    + intros t Ht. by rewrite K5, H5.
    + exists (t1 ++ t2). rewrite K6, H6, app_assoc. split; [done|]. by apply Forall_app.
Qed.

(** The connection is open, and the cluster is known unless it is named directly. *)
Record working (r : RisingWaveUserReconciler) : Prop := {
  wk_connected : r_connected r = true;
  wk_cluster : usesConnectionRef r = true \/ is_Some (r_risingWave r);
}.

Lemma frame_working r r' : frame r r' -> working r -> working r'.
Proof.
  intros [_ Hs Hw Hc _ _ _ _] [Hk Hr]. split; [congruence|]. unfold usesConnectionRef.
  by rewrite Hs, Hw.
Qed.

(** Operations that only do work. *)
Definition works {A} (m : M A) : Prop := forall r, working r -> wp m (fun _ r' => frame r r') r.

Lemma works_ret {A} (a : A) : works (mret a).
Proof. intros r _. apply wp_ret. reflexivity. Qed.

Lemma works_gets {A} (f : RisingWaveUserReconciler -> A) : works (gets f).
Proof. intros r _. apply wp_gets. reflexivity. Qed.

Lemma works_bind {A B} (m : M A) (f : A -> M B) :
  works m -> (forall a, works (f a)) -> works (m ≫= f).
Proof.
  intros Hm Hf r Hr. apply wp_bind. eapply wp_mono; [by apply Hm|]. intros a r' Hr'. cbn in Hr'.
  eapply wp_mono; [apply Hf; by eapply frame_working|]. intros b r'' Hr''. by etrans.
Qed.

Lemma works_status f :
  (forall s, ust_Conditions (f s) = ust_Conditions s /\
             (ust_UserCreated s = true -> ust_UserCreated (f s) = true) /\
             (ust_PrivilegesSynced s = true -> ust_PrivilegesSynced (f s) = true)) ->
  works (on_status f).
Proof.
  intros Hf r _. apply wp_modify. specialize (Hf (u_Status (r_user r))) as (Hc & Hu & Hp).
  split; cbn; try done; [|exists []; by rewrite app_nil_r].
  intros t _. unfold get_condition, user_conditions. cbn. by rewrite Hc.
Qed.

Section works.
Context `{E : Environment}.

Lemma works_now : works Now.
Proof. intros r _. unfold wp, Now. cbn. split; cbn; try done. exists []. by rewrite app_nil_r. Qed.

Lemma works_random n : works (randomPassword n).
Proof. intros r _. unfold wp. cbn. split; cbn; try done. exists []. by rewrite app_nil_r. Qed.

Lemma works_request ev : is_work ev -> works (request ev).
Proof.
  intros He r _. unfold wp, request. split; cbn; try done. exists [ev]. split; [done|].
  by constructor.
Qed.

Lemma works_exec sql : works (exec sql).
Proof.
  intros r Hr. unfold exec, on_connection. apply wp_bind, wp_gets. rewrite (wk_connected _ Hr).
  by apply works_request.
Qed.
End works.

(** ** Conditions *)

Lemma find_index_from_insert {A} (p : A -> bool) (x : A) i k y l :
  find_index_from p k l = Some (i + k, y) -> p x = true ->
  find_index_from p k (<[i := x]> l) = Some (i + k, x).
Proof.
  revert i k. induction l as [|z l IH]; intros i k H Hx; [done|]. cbn in H.
  destruct (p z) eqn:Hz.
  - assert (i = 0) as -> by (injection H; lia). cbn. by rewrite Hx.
  - destruct i as [|i].
    + apply find_index_from_Some in H as (H & _). lia.
    + rewrite Nat.add_succ_comm in *. cbn. rewrite Hz. by apply IH.
Qed.

Lemma find_index_insert {A} (p : A -> bool) (x : A) i y l :
  find_index p l = Some (i, y) -> p x = true -> find_index p (<[i := x]> l) = Some (i, x).
Proof.
  intros H Hx. pose proof (find_index_from_insert p x i 0 y l) as Hi.
  rewrite Nat.add_0_r in Hi. by apply Hi.
Qed.

Lemma find_index_insert_found {A} (p : A -> bool) (x : A) i y l :
  find_index p l = Some (i, y) -> p x = true -> snd <$> find_index p (<[i := x]> l) = Some x.
Proof. intros H Hx. by rewrite (find_index_insert _ _ _ _ _ H Hx). Qed.

Lemma find_index_insert_other {A} (p q : A -> bool) (x : A) i y l :
  find_index p l = Some (i, y) -> (forall z, p z = true -> q z = false) -> p x = true ->
  snd <$> find_index q (<[i := x]> l) = snd <$> find_index q l.
Proof.
  intros H Hpq Hx. apply find_index_Some in H as (Hi & Hy & _).
  unfold find_index. generalize 0 as k. intros k. revert i k Hi.
  induction l as [|z l IH]; intros i k Hi; [done|]. destruct i as [|i]; cbn in Hi |- *.
  - simplify_eq. by rewrite !Hpq.
  - destruct (q z); [done|]. by apply IH.
Qed.

Lemma find_index_snoc_found {A} (p : A -> bool) (x : A) l :
  find_index p l = None -> p x = true -> snd <$> find_index p (l ++ [x]) = Some x.
Proof. intros H Hx. by rewrite find_index_snoc. Qed.

Lemma find_index_snoc_other {A} (p : A -> bool) (x : A) l :
  p x = false -> snd <$> find_index p (l ++ [x]) = snd <$> find_index p l.
Proof.
  intros Hx. unfold find_index. generalize 0 as k. induction l as [|y l IH]; intros k; cbn.
  - by rewrite Hx.
  - destruct (p y); [done|apply IH].
Qed.

Lemma of_type_with_time t tm c : of_type t (with_time tm c) = of_type t c.
Proof. done. Qed.

Lemma of_type_true t c : of_type t c = true <-> uc_Type c = t.
Proof. unfold of_type. apply bool_decide_eq_true. Qed.

Section conditions.
Context `{E : Environment}.

(** What [setCondition] does to the conditions: the one it sets has the given status,
    reason and message, the others are as before, and nothing else changes. *)
Lemma setCondition_spec cond r :
  wp (setCondition cond) (fun _ r' =>
    (exists t, get_condition r' (uc_Type cond) = Some (with_time t cond)) /\
    (forall t, t <> uc_Type cond -> get_condition r' t = get_condition r t) /\
    (exists cs k, r' = {| r_user := set_u_Status (set_ust_Conditions cs (u_Status (r_user r)))
                                      (r_user r);
                          r_risingWave := r_risingWave r; r_connected := r_connected r;
                          r_connectionKey := r_connectionKey r; r_trace := r_trace r;
                          r_ticks := k |})) r.
Proof.
  assert (forall t c, t <> uc_Type cond -> of_type (uc_Type cond) c = true -> of_type t c = false)
    as Hother.
  { intros t c Hne Hc. apply of_type_true in Hc. apply bool_decide_eq_false. congruence. }
  assert (forall tm, of_type (uc_Type cond) (with_time tm cond) = true) as Hself
    by (intros tm; by apply of_type_true).
  unfold setCondition. apply wp_bind, wp_gets. fold (user_conditions r).
  destruct (find_index (of_type (uc_Type cond)) (user_conditions r)) as [[i c]|] eqn:Hf.
  - destruct (differs c cond); unfold wp; cbn -[find_index insert];
      unfold get_condition, user_conditions; cbn -[find_index insert];
      (split; [eexists; eapply find_index_insert_found; [exact Hf|apply Hself]|]);
      (split; [|by eexists _, _]);
      intros t Ht; eapply find_index_insert_other; eauto.
  - unfold wp; cbn -[find_index]; unfold get_condition, user_conditions; cbn -[find_index].
    split; [|split].
    + eexists. by eapply find_index_snoc_found.
    + intros t Ht. apply find_index_snoc_other, bool_decide_eq_false. by apply not_eq_sym.
    + by eexists _, _.
Qed.

Lemma works_setCondition cond : progress_type (uc_Type cond) -> works (setCondition cond).
Proof.
  intros Hp r _. eapply wp_mono; [apply setCondition_spec|].
  intros [] r' (_ & Ho & cs & k & ->). split; try done.
  - intros t Ht. apply Ho. by intros ->.
  - exists []. by rewrite app_nil_r.
Qed.
End conditions.

(** ** The operations on passwords, secrets and connections *)

Create HintDb works discriminated.
#[export] Hint Resolve works_ret works_gets works_now works_random works_exec : works.

(** Decomposes an operation into its steps. *)
Ltac works_step :=
  match goal with
  | |- works (mbind _ _) => apply works_bind; [|intros ?]
  | |- works (match ?x with _ => _ end) => destruct x
  | |- works (let _ := _ in _) => cbv zeta
  | |- works (setCondition _) => apply works_setCondition; unfold progress_type; cbn; tauto
  | |- works (on_status _) => apply works_status; intros ?; cbn; tauto
  | |- works (request _) => apply works_request; exact I
  | |- _ => solve [eauto with works]
  end.
Ltac works_tac := repeat works_step.

Section operations.
Context `{E : Environment}.

Lemma works_getSecretName : works getSecretName.
Proof.
  intros r Hr. unfold getSecretName. apply wp_bind, wp_gets. cbn.
  destruct (usesConnectionRef r) eqn:Hu; [by apply works_ret|].
  destruct (wk_cluster _ Hr) as [Hd|[rw Hrw]]; [by rewrite Hd in Hu|].
  rewrite Hrw. by apply works_ret.
Qed.
Hint Resolve works_getSecretName : works.

Lemma works_getPassword : works getPassword.
Proof. unfold getPassword, getPasswordFromSecret. works_tac. Qed.

Lemma works_createOrUpdateSecret password : works (createOrUpdateSecret password).
Proof. unfold createOrUpdateSecret. works_tac. Qed.

(** What connecting keeps; a connection it reports is open. *)
Record connecting (r r' : RisingWaveUserReconciler) : Prop := {
  co_meta : u_Meta (r_user r') = u_Meta (r_user r);
  co_spec : u_Spec (r_user r') = u_Spec (r_user r);
  co_created : ust_UserCreated (u_Status (r_user r')) = ust_UserCreated (u_Status (r_user r));
  co_phase : ust_Phase (u_Status (r_user r')) = ust_Phase (u_Status (r_user r));
  co_conditions : user_conditions r' = user_conditions r;
  co_risingWave : r_risingWave r' = r_risingWave r;
  co_trace : r_trace r' = r_trace r;
}.

Global Instance connecting_preorder : PreOrder connecting.
Proof. split; [by intros r|]. intros r1 r2 r3 [] []. split; congruence. Qed.

Lemma connect_spec info r :
  wp (connect info) (fun res r' => connecting r r' /\ (is_ok res = true -> r_connected r' = true)) r.
Proof.
  unfold connect. apply wp_bind, wp_gets. cbn [id].
  destruct (pool_Get (r_trace r) (r_connectionKey r) info); [|by apply wp_ret]. done.
Qed.

Lemma resolveAdminCredentials_spec creds r :
  wp (resolveAdminCredentials creds) (fun _ r' => r' = r) r.
Proof.
  unfold resolveAdminCredentials. destruct creds as [c|]; [|done].
  destruct (ac_PasswordSecretRef c) as [ref|]; [|done].
  apply wp_bind. unfold readSecretValue. apply wp_bind, wp_gets. unfold id. cbv zeta.
  destruct (get_Secret (r_trace r) _ _) as [data|]; [|done]. by destruct (data !! _).
Qed.

(** The cluster a user without a direct connection needs. *)
Definition cluster_known (r : RisingWaveUserReconciler) : Prop :=
  usesConnectionRef r = true \/
  (is_Some (r_risingWave r) /\ is_Some (us_RisingWaveRef (u_Spec (r_user r)))).

Lemma establishConnection_spec r :
  cluster_known r ->
  wp establishConnection
    (fun res r' => connecting r r' /\ (is_ok res = true -> working r')) r.
Proof.
  intros Hc. unfold establishConnection. apply wp_bind, wp_gets.
  assert (forall info k, wp (connect info)
    (fun res r' => connecting r r' /\ (is_ok res = true -> working r')) (set_connectionKey k r))
    as Hconnect.
  { intros info k. eapply wp_mono; [apply connect_spec|]. intros res r' [Hco Hk].
    split; [by destruct Hco|]. intros Hok. split; [by apply Hk|].
    destruct Hco as [_ Hs _ _ _ Hw _]. unfold usesConnectionRef. rewrite Hs, Hw.
    destruct Hc as [Hc|[Hc _]]; [by left|by right]. }
  destruct (usesConnectionRef r) eqn:Hu.
  - unfold establishConnectionFromConnectionRef. apply wp_bind, wp_gets. cbn.
    unfold usesConnectionRef in Hu. destruct (us_ConnectionRef (u_Spec (r_user r))) as [ref|]; [|done].
    apply wp_bind, wp_modify, wp_bind. eapply wp_mono; [apply resolveAdminCredentials_spec|].
    intros [[user password]|e] r' ->; [apply Hconnect|]. apply wp_ret. by split.
  - destruct Hc as [Hc|[[rw Hrw] [ref Href]]]; [by rewrite Hc in Hu|].
    unfold establishConnectionFromRisingWaveRef. apply wp_bind, wp_gets. cbn. rewrite Hrw.
    apply wp_bind, wp_modify. unfold id. destruct (get_Service (r_trace r) _ _); [|by apply wp_ret].
    rewrite Href. apply wp_bind. eapply wp_mono; [apply resolveAdminCredentials_spec|].
    intros [[user password]|e] r' ->; [apply Hconnect|]. apply wp_ret. by split.
Qed.

(** Fetching the cluster changes nothing but the cluster. *)
Lemma fetchRisingWave_spec r ref :
  us_RisingWaveRef (u_Spec (r_user r)) = Some ref ->
  wp fetchRisingWave (fun res r' => exists rw, r' = set_risingWave (Some rw) r /\
    let answer := get_RisingWave (r_trace r)
            (or_namespace (rwr_Namespace ref) (user_namespace r)) (rwr_Name ref) in
    res = (fun _ => tt) <$> answer /\ forall cluster, answer = Ok cluster -> cluster = rw) r.
Proof.
  intros Href. unfold fetchRisingWave. apply wp_bind, wp_gets. cbn. rewrite Href.
  destruct (get_RisingWave (r_trace r) _ _); apply wp_bind, wp_modify, wp_ret; eexists;
    (split; [reflexivity|]); (split; [reflexivity|]); congruence.
Qed.
End operations.

#[export] Hint Resolve works_getSecretName works_getPassword works_createOrUpdateSecret : works.
