(* ===== verification/UserPrivileges.v ===== *)
(** * pkg/controller/risingwave_user_controller.go: applying the privileges

    [applyPrivileges] compares the catalog of every database with the declared grants,
    collects the statements of every database in a map, and executes them, switching the
    session's database as needed. A Go map that is ranged over is visited in the order of
    [RangeOrder]. *)

From S2P Require Import Prelude GoStrings ApiTypes ApiUser SqlBuilder PrivilegeDiff UserState.

(** ** Definitions: the objects of a schema *)

(** The conversions of the other kinds to table privileges. *)
Definition to_table_privilege {k} (p : NestedPrivilege k) : NestedTablePrivilege :=
  {| np_Name := np_Name p; np_Privileges := np_Privileges p;
     np_WithGrantOption := np_WithGrantOption p |}.
Definition toViewPrivs (l : list NestedViewPrivilege) : list NestedTablePrivilege :=
  to_table_privilege <$> l.
Definition toMVPrivs (l : list NestedMaterializedViewPrivilege) : list NestedTablePrivilege :=
  to_table_privilege <$> l.
Definition toSourcePrivs (l : list NestedSourcePrivilege) : list NestedTablePrivilege :=
  to_table_privilege <$> l.

(** [var x T; for _, y := range l { if y.Name == name { x = y; break } }]. *)
Definition first_named {A} (name : A -> string) (n : string) (l : list A) : option A :=
  snd <$> find_index (fun x => bool_decide (name x = n)) l.

(** [toGrant] and [toRevoke]. *)
Record dbStatements := {
  toGrant : list string;
  toRevoke : list string;
}.

Definition no_statements : dbStatements := {| toGrant := []; toRevoke := [] |}.
Definition append_statements (a b : dbStatements) : dbStatements :=
  {| toGrant := toGrant a ++ toGrant b; toRevoke := toRevoke a ++ toRevoke b |}.
Definition of_diff (d : PrivilegeDiff) : dbStatements :=
  {| toGrant := pd_ToGrant d; toRevoke := pd_ToRevoke d |}.

Definition empty_object : ObjectPrivilege :=
  {| op_Name := ""; op_Privileges := []; op_WithGrantOption := false |}.
Definition empty_schema : SchemaPrivilegeSnapshot :=
  {| sps_Name := ""; sps_Privileges := []; sps_WithGrantOption := false; sps_Tables := [];
     sps_Views := []; sps_MaterializedViews := []; sps_Sources := [] |}.
Definition empty_database : DatabasePrivilegeSnapshot :=
  {| dps_Name := ""; dps_Privileges := []; dps_WithGrantOption := false; dps_Schemas := [] |}.

Definition revoke_all (target name userName : string) : string :=
  "REVOKE ALL ON " +:+ target +:+ " " +:+ QuoteIdentifier name +:+ " FROM " +:+ QuoteUser userName.

Section privileges.
Context `{O : RangeOrder}.

Definition object_statements (userName schemaName objectType : string)
    (actual : list ObjectPrivilege) (desired : list NestedTablePrivilege) (oName : string)
  : dbStatements :=
  match first_named np_Name oName desired with
  | None => {| toGrant := []; toRevoke := [revoke_all objectType oName userName] |}
  | Some d =>
      of_diff (CalculateObjectDiff userName schemaName objectType
        (default empty_object (first_named op_Name oName actual)) oName (np_Privileges d))
  end.

(** [site] tells the loops over different schemas apart. *)
Definition reconcileObjectPrivileges (site userName schemaName objectType : string)
    (actual : list ObjectPrivilege) (desired : list NestedTablePrivilege) (acc : dbStatements)
  : dbStatements :=
  foldl (fun acc oName =>
           append_statements acc (object_statements userName schemaName objectType actual desired oName))
    acc
    (range_keys (site +:+ objectType)
       (list_to_set (op_Name <$> actual) ∪ list_to_set (np_Name <$> desired))).

(** ** Definitions: a schema and a database *)

Definition reconcile_schema (site userName : string) (actualSchemas : list SchemaPrivilegeSnapshot)
    (desiredSchemas : list NestedSchemaPrivilege) (acc : dbStatements) (sName : string)
  : dbStatements :=
  let actualS := default empty_schema (first_named sps_Name sName actualSchemas) in
  let site := site +:+ "/" +:+ sName +:+ "/" in
  let objects tables views mvs sources acc :=
    reconcileObjectPrivileges site userName sName "SOURCE" (sps_Sources actualS) sources
      (reconcileObjectPrivileges site userName sName "MATERIALIZED VIEW"
         (sps_MaterializedViews actualS) mvs
         (reconcileObjectPrivileges site userName sName "VIEW" (sps_Views actualS) views
            (reconcileObjectPrivileges site userName sName "TABLE" (sps_Tables actualS) tables acc))) in
  match first_named nsp_Name sName desiredSchemas with
  | None =>
      objects [] [] [] []
        (match sps_Privileges actualS with
         | [] => acc
         | _ => append_statements acc
                  {| toGrant := []; toRevoke := [revoke_all "SCHEMA" sName userName] |}
         end)
  | Some desiredS =>
      objects (nsp_Tables desiredS) (toViewPrivs (nsp_Views desiredS))
        (toMVPrivs (nsp_MaterializedViews desiredS)) (toSourcePrivs (nsp_Sources desiredS))
        (append_statements acc (of_diff (CalculateSchemaDiff userName actualS desiredS)))
  end.

Definition declared_databases (u : RisingWaveUser) : list DatabasePrivilege :=
  match us_Grants (u_Spec u) with Some g => gr_Databases g | None => [] end.

(** [*getDBStats(db) = ...]: the entry is created when it is missing. *)
Definition add_statements (db : string) (s : dbStatements) (m : gmap string dbStatements)
  : gmap string dbStatements :=
  <[db := append_statements (default no_statements (m !! db)) s]> m.

(** Step 3: the privileges on a database, executed in the original database. *)
Definition reconcile_database (userName originalDB : string) (actual : UserPrivilegeSnapshot)
    (desired : list DatabasePrivilege) (m : gmap string dbStatements) (dbName : string)
  : gmap string dbStatements :=
  let actualDB := default empty_database (first_named dps_Name dbName (ups_Databases actual)) in
  match first_named dp_Name dbName desired with
  | None =>
      match dps_Privileges actualDB with
      | [] => m
      | _ => add_statements originalDB
               {| toGrant := []; toRevoke := [revoke_all "DATABASE" dbName userName] |} m
      end
  | Some desiredDB =>
      add_statements originalDB (of_diff (CalculateDatabaseDiff userName actualDB desiredDB)) m
  end.

(** ** Definitions: the session *)

Context `{E : Environment}.

Definition switch_sql (dbName : string) : string := "SET DATABASE TO " +:+ QuoteIdentifier dbName.

Definition switchDatabase (dbName : string) : M (result go_error unit) := exec (switch_sql dbName).

(** The value is ["dev"] with an error. *)
Definition getCurrentDatabase : M string :=
  on_connection (gets (fun r =>
    match current_database (r_trace r) with Ok db => db | Err _ => "dev"%string end)).

Fixpoint scan_names (rows : list (result go_error string)) : result go_error (list string) :=
  match rows with
  | [] => Ok []
  | Err e :: _ => Err e
  | Ok name :: rows' => rest ← scan_names rows'; mret (name :: rest)
  end.

Definition getAllDatabases : M (result go_error (list string)) :=
  on_connection (gets (fun r => query_names (r_trace r) ≫= scan_names)).

(** Step 4: the schemas of every database, each read in its database. The result is the
    session's database and the statements. *)
Fixpoint reconcile_schemas (userName : string) (desired : list DatabasePrivilege)
    (dbs : list string) (currentDB : string) (m : gmap string dbStatements)
  : M (result go_error (string * gmap string dbStatements)) :=
  match dbs with
  | [] => mret (Ok (currentDB, m))
  | dbName :: dbs' =>
      switched ← (if bool_decide (currentDB = dbName) then mret (Ok tt) else switchDatabase dbName);
      match switched with
      | Err _ => reconcile_schemas userName desired dbs' currentDB m
      | Ok _ =>
          r ← gets id;
          match FetchSchemaPrivileges (query_schemas (r_trace r)) (query_objects (r_trace r)) userName with
          | Err e => mret (Err (plain_error ("failed to fetch schema privileges for database " +:+
                                             Quote dbName +:+ ": " +:+ e)))
          | Ok actualSchemas =>
              let desiredSchemas :=
                match first_named dp_Name dbName desired with Some d => dp_Schemas d | None => [] end in
              let names := range_keys ("schemas/" +:+ dbName)
                (list_to_set (sps_Name <$> actualSchemas) ∪ list_to_set (nsp_Name <$> desiredSchemas)) in
              let m := foldl (fun m sName =>
                  add_statements dbName
                    (reconcile_schema dbName userName actualSchemas desiredSchemas no_statements sName) m)
                m names in
              reconcile_schemas userName desired dbs' dbName m
          end
      end
  end.

(** [strings.Contains(err.Error(), ...)] of step 5. *)
Definition ignored_revoke_error (e : go_error) : bool :=
  Contains (ge_text e) "not found" || Contains (ge_text e) "does not exist".

(** The statements of one database, in order; the errors are collected. *)
Fixpoint execute_revokes (dbName : string) (stmts errs : list string) : M (list string) :=
  match stmts with
  | [] => mret errs
  | stmt :: stmts' =>
      e ← exec stmt;
      execute_revokes dbName stmts'
        (match e with
         | Ok _ => errs
         | Err e => if ignored_revoke_error e then errs
                    else errs ++ ["[" +:+ dbName +:+ "] failed to execute REVOKE: " +:+ stmt +:+
                                  ": " +:+ ge_text e]
         end)
  end.

Fixpoint execute_grants (dbName : string) (stmts errs : list string) : M (list string) :=
  match stmts with
  | [] => mret errs
  | stmt :: stmts' =>
      e ← exec stmt;
      execute_grants dbName stmts'
        (match e with
         | Ok _ => errs
         | Err e => errs ++ ["[" +:+ dbName +:+ "] failed to execute GRANT: " +:+ stmt +:+
                             ": " +:+ ge_text e]
         end)
  end.

Definition is_empty (s : dbStatements) : bool :=
  match toGrant s, toRevoke s with [], [] => true | _, _ => false end.

(** Step 5: the result is the session's database and the errors. *)
Fixpoint execute_all (m : gmap string dbStatements) (dbs : list string) (currentDB : string)
    (errs : list string) : M (string * list string) :=
  match dbs with
  | [] => mret (currentDB, errs)
  | dbName :: dbs' =>
      let stats := default no_statements (m !! dbName) in
      if is_empty stats then execute_all m dbs' currentDB errs
      else
        switched ← (if bool_decide (currentDB = dbName) then mret (Ok tt) else switchDatabase dbName);
        match switched with
        | Err e =>
            execute_all m dbs' currentDB
              (errs ++ ["failed to switch to database " +:+ Quote dbName +:+ " for execution: " +:+
                        ge_text e])
        | Ok _ =>
            errs ← execute_revokes dbName (toRevoke stats) errs;
            errs ← execute_grants dbName (toGrant stats) errs;
            execute_all m dbs' dbName errs
        end
  end.

Definition applyPrivileges : M (result go_error unit) :=
  r ← gets id;
  let userName := getUserName (r_user r) in
  let desired := declared_databases (r_user r) in
  snapshot ← on_connection
    (mret (FetchUserPrivilegeSnapshot (query_databases (r_trace r)) userName));
  match snapshot with
  | Err e => mret (Err (plain_error ("failed to fetch actual privilege snapshot: " +:+ e)))
  | Ok actual =>
      all ← getAllDatabases;
      match all with
      | Err e => mret (Err (wrap "failed to fetch all databases" e))
      | Ok allSystemDBs =>
          let relevant : gset string :=
            list_to_set allSystemDBs ∪ list_to_set (dp_Name <$> desired) in
          originalDB ← getCurrentDatabase;
          let m := foldl (reconcile_database userName originalDB actual desired) ∅
                     (range_keys "databases" relevant) in
          schemas ← reconcile_schemas userName desired (range_keys "schemas" relevant) originalDB m;
          match schemas with
          | Err e => mret (Err e)
          | Ok (currentDB, m) =>
              '(currentDB, errs) ← execute_all m (range_keys "execute" (dom m)) currentDB [];
              (if bool_decide (originalDB = currentDB) then mret tt
               else _ ← switchDatabase originalDB; mret tt);;
              mret (match errs with
                    | [] => Ok tt
                    | _ => Err (plain_error ("reconciliation encountered errors: " +:+ Join errs "; "))
                    end)
          end
      end
  end.
End privileges.

(** ** Lemmas: the privileges are work on the database *)

Section works.
Context `{O : RangeOrder} `{E : Environment}.

Lemma works_on_connection {A} (m : M A) : works m -> works (on_connection m).
Proof.
  intros Hm r Hr. unfold on_connection. apply wp_bind, wp_gets. rewrite (wk_connected _ Hr).
  by apply Hm.
Qed.

Lemma works_reconcile_schemas userName desired dbs currentDB m :
  works (reconcile_schemas userName desired dbs currentDB m).
Proof.
  revert currentDB m. induction dbs as [|db dbs IH]; intros currentDB m; cbn [reconcile_schemas].
  - works_tac.
  - unfold switchDatabase. works_tac; apply IH.
Qed.

Lemma works_execute_revokes db stmts errs : works (execute_revokes db stmts errs).
Proof.
  revert errs. induction stmts as [|stmt stmts IH]; intros errs; cbn [execute_revokes];
    [works_tac|]. apply works_bind; [works_tac|]. intros ?. apply IH.
Qed.

Lemma works_execute_grants db stmts errs : works (execute_grants db stmts errs).
Proof.
  revert errs. induction stmts as [|stmt stmts IH]; intros errs; cbn [execute_grants];
    [works_tac|]. apply works_bind; [works_tac|]. intros ?. apply IH.
Qed.
Hint Resolve works_execute_revokes works_execute_grants : works.

Lemma works_execute_all m dbs currentDB errs : works (execute_all m dbs currentDB errs).
Proof.
  revert currentDB errs. induction dbs as [|db dbs IH]; intros currentDB errs;
    cbn [execute_all]; [works_tac|]. cbv zeta. destruct (is_empty _); [apply IH|].
  unfold switchDatabase. works_tac; apply IH.
Qed.
Hint Resolve works_reconcile_schemas works_execute_all : works.

Lemma works_applyPrivileges : works applyPrivileges.
Proof.
  unfold applyPrivileges, getAllDatabases, getCurrentDatabase, switchDatabase.
  repeat first [works_step|apply works_on_connection].
Qed.
End works.

#[export] Hint Resolve works_applyPrivileges : works.

(** ** The session's database

    [runs m tr db evs db' executed]: after the requests [tr], in database [db], the
    requests [evs] are switches of the session and whole blocks of the statements
    collected for the database the session is in, its REVOKEs before its GRANTs; they end
    in [db'], and [executed] are the databases whose block was executed. *)

Section session.
Context `{O : RangeOrder} `{E : Environment}.

Definition block (s : dbStatements) : list event := EvExec <$> toRevoke s ++ toGrant s.

Inductive runs (m : gmap string dbStatements)
  : list event -> string -> list event -> string -> list string -> Prop :=
| runs_nil tr db : runs m tr db [] db []
| runs_switch tr db d evs db' executed :
    reply tr (EvExec (switch_sql d)) = None ->
    runs m (tr ++ [EvExec (switch_sql d)]) d evs db' executed ->
    runs m tr db (EvExec (switch_sql d) :: evs) db' executed
| runs_failed_switch tr db d evs db' executed :
    reply tr (EvExec (switch_sql d)) <> None ->
    runs m (tr ++ [EvExec (switch_sql d)]) db evs db' executed ->
    runs m tr db (EvExec (switch_sql d) :: evs) db' executed
| runs_block tr db s evs db' executed :
    m !! db = Some s ->
    runs m (tr ++ block s) db evs db' executed ->
    runs m tr db (block s ++ evs) db' (db :: executed).

Lemma runs_app m tr db evs1 db1 ex1 evs2 db2 ex2 :
  runs m tr db evs1 db1 ex1 -> runs m (tr ++ evs1) db1 evs2 db2 ex2 ->
  runs m tr db (evs1 ++ evs2) db2 (ex1 ++ ex2).
Proof.
  induction 1 as [tr db|tr db d evs db' ex Hr _ IH|tr db d evs db' ex Hr _ IH|tr db s evs db' ex Hm _ IH];
    intros H; cbn [app].
  - by rewrite app_nil_r in H.
  - apply runs_switch; [done|]. apply IH. by rewrite <-app_assoc.
  - apply runs_failed_switch; [done|]. apply IH. by rewrite <-app_assoc.
  - rewrite <-app_assoc. apply runs_block; [done|]. apply IH. by rewrite <-app_assoc.
Qed.

Lemma exec_spec sql r :
  r_connected r = true ->
  wp (exec sql) (fun res r' => r_connected r' = true /\ r_trace r' = r_trace r ++ [EvExec sql] /\
    (is_ok res = true <-> reply (r_trace r) (EvExec sql) = None)) r.
Proof.
  intros Hc. unfold exec, on_connection. apply wp_bind, wp_gets. rewrite Hc.
  unfold request, wp. cbn. split; [done|]. split; [done|]. by destruct (reply _ _).
Qed.

(** Switching unless the session is there: the database it is in afterwards. *)
Lemma switch_spec cur d r :
  r_connected r = true ->
  wp (if bool_decide (cur = d) then mret (Ok tt) else switchDatabase d) (fun res r' =>
    r_connected r' = true /\ exists evs, r_trace r' = r_trace r ++ evs /\
      forall m, runs m (r_trace r) cur evs (if is_ok res then d else cur) []) r.
Proof.
  intros Hc. case_bool_decide as Heq.
  - apply wp_ret. split; [done|]. exists []. rewrite app_nil_r. subst. split; [done|].
    intros m. apply runs_nil.
  - unfold switchDatabase. eapply wp_mono; [by apply exec_spec|]. intros res r' (Hc' & Htr & Hok).
    split; [done|]. exists [EvExec (switch_sql d)]. split; [done|]. intros m.
    destruct (is_ok res) eqn:He.
    + apply runs_switch; [by apply Hok|apply runs_nil].
    + apply runs_failed_switch; [|apply runs_nil]. intros Hr. apply Hok in Hr. congruence.
Qed.

Lemma reconcile_schemas_session userName desired dbs cur stmts r :
  r_connected r = true ->
  wp (reconcile_schemas userName desired dbs cur stmts) (fun res r' =>
    r_connected r' = true /\ exists evs db, r_trace r' = r_trace r ++ evs /\
      (forall m, runs m (r_trace r) cur evs db []) /\
      (forall cur' m', res = Ok (cur', m') -> db = cur')) r.
Proof.
  revert cur stmts r. induction dbs as [|d dbs IH]; intros cur stmts r Hc; cbn [reconcile_schemas].
  { apply wp_ret. split; [done|]. exists [], cur. rewrite app_nil_r. split; [done|].
    split; [intros; apply runs_nil|]. by intros ? ? [= -> _]. }
  apply wp_bind.
  eapply wp_mono; [by apply switch_spec|]. intros res r1 (Hc1 & evs1 & Htr1 & Hr1).
  assert (forall cur' stmts', cur' = (if is_ok res then d else cur) ->
    wp (reconcile_schemas userName desired dbs cur' stmts') (fun res r' =>
      r_connected r' = true /\ exists evs db, r_trace r' = r_trace r ++ evs /\
        (forall m, runs m (r_trace r) cur evs db []) /\
        (forall cur' m', res = Ok (cur', m') -> db = cur')) r1) as Hnext.
  { intros cur' stmts' ->. eapply wp_mono; [by apply IH|].
    intros res' r2 (Hc2 & evs2 & db & Htr2 & Hr2 & Hok). split; [done|].
    exists (evs1 ++ evs2), db. rewrite Htr2, Htr1, app_assoc. split; [done|]. split; [|done].
    intros m. eapply (runs_app m _ _ _ _ []); [apply Hr1|]. by rewrite <-Htr1. }
  destruct res as [[]|e]; [|by apply Hnext].
  apply wp_bind, wp_gets. unfold id. destruct (FetchSchemaPrivileges _ _ _); [by apply Hnext|].
  apply wp_ret. split; [done|]. exists evs1, d. split; [done|]. split; [done|]. done.
Qed.

Lemma execute_revokes_trace db stmts errs r :
  r_connected r = true ->
  wp (execute_revokes db stmts errs) (fun errs' r' => r_connected r' = true /\
    r_trace r' = r_trace r ++ (EvExec <$> stmts) /\ exists more, errs' = errs ++ more) r.
Proof.
  revert errs r. induction stmts as [|stmt stmts IH]; intros errs r Hc; cbn [execute_revokes].
  { apply wp_ret. rewrite app_nil_r. split; [done|]. split; [done|]. exists []. by rewrite app_nil_r. }
  apply wp_bind. eapply wp_mono; [by apply exec_spec|]. intros res r1 (Hc1 & Htr1 & _).
  eapply wp_mono; [by apply IH|]. intros errs' r2 (Hc2 & Htr2 & more & ->).
  split; [done|]. split; [by rewrite Htr2, Htr1, <-app_assoc|].
  destruct res as [?|e]; [eauto|]. destruct (ignored_revoke_error e); [eauto|].
  rewrite <-app_assoc. eauto.
Qed.

Lemma execute_grants_trace db stmts errs r :
  r_connected r = true ->
  wp (execute_grants db stmts errs) (fun errs' r' => r_connected r' = true /\
    r_trace r' = r_trace r ++ (EvExec <$> stmts) /\ exists more, errs' = errs ++ more) r.
Proof.
  revert errs r. induction stmts as [|stmt stmts IH]; intros errs r Hc; cbn [execute_grants].
  { apply wp_ret. rewrite app_nil_r. split; [done|]. split; [done|]. exists []. by rewrite app_nil_r. }
  apply wp_bind. eapply wp_mono; [by apply exec_spec|]. intros res r1 (Hc1 & Htr1 & _).
  eapply wp_mono; [by apply IH|]. intros errs' r2 (Hc2 & Htr2 & more & ->).
  split; [done|]. split; [by rewrite Htr2, Htr1, <-app_assoc|].
  destruct res as [?|e]; [eauto|]. rewrite <-app_assoc. eauto.
Qed.

Lemma execute_all_session m dbs cur errs r :
  r_connected r = true ->
  wp (execute_all m dbs cur errs) (fun res r' => r_connected r' = true /\
    exists evs executed more, r_trace r' = r_trace r ++ evs /\
      runs m (r_trace r) cur evs res.1 executed /\ sublist executed dbs /\ res.2 = errs ++ more /\
      (more = [] -> forall d s, d ∈ dbs -> m !! d = Some s -> is_empty s = false -> d ∈ executed)) r.
Proof.
  revert cur errs r. induction dbs as [|d dbs IH]; intros cur errs r Hc; cbn [execute_all].
  { apply wp_ret. split; [done|]. exists [], [], []. rewrite !app_nil_r. split; [done|].
    split; [apply runs_nil|]. split; [done|]. split; [done|].
    intros _ d s Hd. by apply not_elem_of_nil in Hd. }
  cbv zeta. destruct (is_empty (default no_statements (m !! d))) eqn:Hempty.
  { eapply wp_mono; [by apply IH|].
    intros res r' (Hc' & evs & ex & more & Htr & Hr & Hsub & Herr & Hall). split; [done|].
    exists evs, ex, more. repeat (split; [done|]). split; [by apply sublist_cons|]. split; [done|].
    intros Hm d' s [->|Hd']%elem_of_cons Hs He; [|by eapply Hall]. rewrite Hs in Hempty. cbn in Hempty.
    congruence. }
  destruct (m !! d) as [s|] eqn:Hs; [|discriminate Hempty]. cbn [default from_option] in *.
  apply wp_bind. eapply wp_mono; [by apply switch_spec|].
  intros sw r1 (Hc1 & evs1 & Htr1 & Hr1). specialize (Hr1 m). destruct sw as [[]|e]; cbn [is_ok] in Hr1.
  - apply wp_bind. eapply wp_mono; [by apply execute_revokes_trace|].
    intros errs2 r2 (Hc2 & Htr2 & more2 & ->). apply wp_bind.
    eapply wp_mono; [by apply execute_grants_trace|]. intros errs3 r3 (Hc3 & Htr3 & more3 & ->).
    eapply wp_mono; [by apply IH|].
    intros res r' (Hc' & evs & ex & more & Htr & Hr & Hsub & Herr & Hall). split; [done|].
    assert (r_trace r3 = r_trace r1 ++ block s) as Hb.
    { unfold block. by rewrite Htr3, Htr2, fmap_app, app_assoc. }
    exists (evs1 ++ block s ++ evs), (d :: ex), (more2 ++ more3 ++ more).
    split; [by rewrite Htr, Hb, Htr1, <-!app_assoc|]. split; [|split; [by apply sublist_skip|split]].
    + eapply (runs_app m _ _ _ _ []); [exact Hr1|]. rewrite <-Htr1.
      apply runs_block; [done|]. by rewrite <-Hb.
    + by rewrite Herr, <-!app_assoc.
    + intros Hnil d' s' [->|Hd']%elem_of_cons Hs' He; [left|right].
      apply app_eq_nil in Hnil as [_ Hnil]. apply app_eq_nil in Hnil as [_ Hnil]. by eapply Hall.
  - eapply wp_mono; [by apply IH|].
    intros res r' (Hc' & evs & ex & more & Htr & Hr & Hsub & Herr & Hall). split; [done|].
    eexists (evs1 ++ evs), ex, (_ :: more). split; [by rewrite Htr, Htr1, app_assoc|].
    split; [|split; [by apply sublist_cons|split]].
    + eapply (runs_app m _ _ _ _ []); [exact Hr1|]. by rewrite <-Htr1.
    + by rewrite Herr, <-app_assoc.
    + done.
Qed.

(** The statements that steps 1 to 4 collect for every database. *)
Definition collected (r : RisingWaveUserReconciler) (originalDB : string)
    (m : gmap string dbStatements) : Prop :=
  let userName := getUserName (r_user r) in
  let desired := declared_databases (r_user r) in
  exists actual all cur r1,
    FetchUserPrivilegeSnapshot (query_databases (r_trace r)) userName = Ok actual /\
    query_names (r_trace r) ≫= scan_names = Ok all /\
    let relevant : gset string := list_to_set all ∪ list_to_set (dp_Name <$> desired) in
    reconcile_schemas userName desired (range_keys "schemas" relevant) originalDB
      (foldl (reconcile_database userName originalDB actual desired) ∅
         (range_keys "databases" relevant)) r = Done (Ok (cur, m), r1).

(** What [applyPrivileges] leaves behind: the property below, for a result. *)
Definition session_result (r : RisingWaveUserReconciler) (originalDB : string)
    (res : result go_error unit) (r' : RisingWaveUserReconciler) : Prop :=
  exists m evs db' executed,
    r_trace r' = r_trace r ++ evs /\ runs m (r_trace r) originalDB evs db' executed /\
    NoDup executed /\
    (res = Ok tt -> collected r originalDB m /\
       forall d s, m !! d = Some s -> is_empty s = false -> d ∈ executed).

Lemma session_error r originalDB e r1 evs db :
  r_trace r1 = r_trace r ++ evs -> (forall m, runs m (r_trace r) originalDB evs db []) ->
  session_result r originalDB (Err e) r1.
Proof.
  intros Htr Hr. exists ∅, evs, db, []. split; [done|]. split; [done|].
  split; [constructor|discriminate].
Qed.

Lemma session_unchanged r originalDB e : session_result r originalDB (Err e) r.
Proof. eapply (session_error r _ e r []); [by rewrite app_nil_r|intros m; apply runs_nil]. Qed.

(** The last switch back to the original database. *)
Lemma switch_back_spec originalDB cur r :
  r_connected r = true ->
  wp (if bool_decide (originalDB = cur) then mret tt
      else _ ← switchDatabase originalDB; mret tt) (fun _ r' =>
    exists evs db, r_trace r' = r_trace r ++ evs /\ forall m, runs m (r_trace r) cur evs db []) r.
Proof.
  intros Hc. case_bool_decide as Heq.
  - apply wp_ret. exists [], cur. rewrite app_nil_r. split; [done|]. intros; apply runs_nil.
  - apply wp_bind. pose proof (switch_spec cur originalDB r Hc) as Hsw.
    rewrite bool_decide_false in Hsw by congruence. eapply wp_mono; [exact Hsw|].
    intros res r3 (_ & evs & Htr & Hr). apply wp_ret. eauto.
Qed.

(** The database the session starts in, as the code takes it: the one the server names, or
    dev where that cannot be read. *)
Definition start_database (tr : list event) : string :=
  match current_database tr with Ok db => db | Err _ => "dev"%string end.

(** C26: No GRANT or REVOKE is sent for a database other than the one the session is in, as far as
    the code tracks it: from the database the server names at the start (or dev, which the code
    assumes when it cannot read it) through every switch that was answered with success. The
    requests of [applyPrivileges] are switches of the session and, each while the session is
    in its own database and at most once, the blocks of statements collected for it, REVOKEs
    first. When it reports no error, the block of every database with statements was sent.
    (The tracking is right for one session that nothing else switches, which a [sql.DB] of
    several connections does not promise, and only if dev is the database when it is assumed.) *)
Theorem applyPrivileges_session (HO : RangeOrderOk O) r :
  let originalDB := start_database (r_trace r) in
  r_connected r = true ->
  wp applyPrivileges (fun res r' => exists m evs db' executed,
    r_trace r' = r_trace r ++ evs /\ runs m (r_trace r) originalDB evs db' executed /\
    NoDup executed /\
    (res = Ok tt -> collected r originalDB m /\
       forall d s, m !! d = Some s -> is_empty s = false -> d ∈ executed)) r.
Proof.
  intros originalDB Hc. unfold applyPrivileges. apply wp_bind, wp_gets. unfold id at 1.
  unfold on_connection at 1. apply wp_bind, wp_bind, wp_gets. rewrite Hc. apply wp_ret.
  destruct (FetchUserPrivilegeSnapshot _ _) as [actual|e] eqn:Hsnap; [|apply wp_ret, session_unchanged].
  unfold getAllDatabases, on_connection at 1. apply wp_bind, wp_bind, wp_gets. rewrite Hc.
  apply wp_gets. destruct (query_names (r_trace r) ≫= scan_names) as [all|e] eqn:Hall;
    [|apply wp_ret, session_unchanged].
  cbv zeta. unfold getCurrentDatabase, on_connection. apply wp_bind, wp_bind, wp_gets. rewrite Hc.
  apply wp_gets, wp_bind. fold (start_database (r_trace r)). fold originalDB.
  set (relevant := list_to_set all ∪ list_to_set _). set (m0 := foldl _ _ _).
  pose proof (reconcile_schemas_session (getUserName (r_user r)) (declared_databases (r_user r))
    (range_keys "schemas" relevant) originalDB m0 r Hc) as Hs.
  unfold wp at 1. unfold wp in Hs.
  destruct (reconcile_schemas _ _ _ originalDB m0 r) as [[res r1]|] eqn:Hrs; [|done].
  destruct Hs as (Hc1 & evs1 & db1 & Htr1 & Hr1 & Hok). destruct res as [[cur m]|e];
    [|apply wp_ret; by eapply session_error].
  specialize (Hok _ _ eq_refl) as ->.
  apply wp_bind. eapply wp_mono; [by apply execute_all_session|].
  intros [cur2 errs] r2 (Hc2 & evs2 & ex & more & Htr2 & Hr2 & Hsub & Herrs & Hdone).
  cbn [fst snd app] in *. subst errs. apply wp_bind.
  eapply wp_mono; [by apply switch_back_spec|]. intros _ r3 (evs3 & db3 & Htr3 & Hr3). apply wp_ret.
  exists m, (evs1 ++ evs2 ++ evs3), db3, ex. split; [by rewrite Htr3, Htr2, Htr1, <-!app_assoc|].
  split; [|split].
  - eapply (runs_app m _ _ _ _ []); [apply Hr1|]. rewrite <-(app_nil_r ex).
    eapply runs_app; [by rewrite <-Htr1|]. rewrite <-Htr1, <-Htr2. apply Hr3.
  - eapply sublist_NoDup; [|exact Hsub]. by apply NoDup_range_keys.
  - destruct more; [|discriminate]. intros _. split.
    + exists actual, all, cur, r1. by repeat split.
    + intros d s Hd He. apply (Hdone eq_refl d s); [|done|done].
      apply elem_of_range_keys. by apply elem_of_dom_2 in Hd.
Qed.
End session.
