(* ===== verification/UserReconcile.v ===== *)
(** * pkg/controller/risingwave_user_controller.go: reconciling a user

    The whole reconciliation of a RisingWaveUser, normal and on deletion. *)

From S2P Require Import Prelude GoStrings ApiTypes ApiUser SqlBuilder PrivilegeDiff UserWebhook.
From S2P Require Import UserState UserPrivileges.

(** ** Definitions: the database user *)

(** A Postgres error with the code of a duplicate object, or the text of RisingWave. *)
Definition isUserAlreadyExistsError (e : go_error) : bool :=
  bool_decide (ge_pq_code e = Some "42710"%string) ||
  (Contains (ToLower (ge_text e)) "user with name" && Contains (ToLower (ge_text e)) "exists").

Section reconcile.
Context `{O : RangeOrder} `{E : Environment}.

Definition create_sql (u : RisingWaveUser) (password : string) : string :=
  if bool_decide (getAuthType u = AuthTypeOAuth) then
    BuildCreateUserWithOAuthSQL (getUserName u) (us_Auth (u_Spec u) ≫= au_OAuth)
  else if bool_decide (getAuthType u = AuthTypeLDAP) then
    BuildCreateUserWithLDAPSQL (getUserName u) (us_Auth (u_Spec u) ≫= au_LDAP)
  else BuildCreateUserSQL u password.

Definition ensureUserExists (password : string) : M (result go_error unit) :=
  u ← gets r_user;
  setPhase PhaseCreating;;
  created ← exec (create_sql u password);
  match created with
  | Err e =>
      if isUserAlreadyExistsError e then
        setCondition (user_condition ConditionUserCreated "True" "UserAlreadyExists"
                        "User already exists in RisingWave");;
        on_status (set_ust_UserCreated true);; mret (Ok tt)
      else mret (Err e)
  | Ok _ =>
      setCondition (user_condition ConditionUserCreated "True" "UserCreated"
                      "User created successfully");;
      on_status (set_ust_UserCreated true);; mret (Ok tt)
  end.

Definition reconcilePermissions : M (result go_error unit) :=
  u ← gets r_user;
  let alterPermsSQL := BuildAlterUserPermissionsSQL (getUserName u) (us_Permissions (u_Spec u)) in
  if bool_decide (alterPermsSQL = "") then mret (Ok tt) else exec alterPermsSQL.

Definition rotatePassword : M (result go_error unit) :=
  newPassword ← randomPassword 16;
  u ← gets r_user;
  altered ← exec (BuildAlterUserPasswordSQL (getUserName u) newPassword);
  match altered with
  | Err e => mret (Err (wrap "failed to rotate password" e))
  | Ok _ => createOrUpdateSecret newPassword
  end.

(** ** Definitions: the reconciliation *)

Definition risingWaveUserFinalizer : string :=
  "risingwaveuser.risingwave.risingwavelabs.com/finalizer".

(** [(ctrl.Result, error)]. *)
Inductive reconcile_result :=
| Finished
| Requeue
| RequeueAfterSeconds (seconds : Z)
| ReconcileError (e : go_error).

(** [if updateErr := r.updateStatus(ctx); updateErr != nil { return ctrl.Result{}, updateErr };
    return res]. *)
Definition updateStatus_then (res : reconcile_result) : M reconcile_result :=
  updated ← updateStatus;
  match updated with Err e => mret (ReconcileError e) | Ok _ => mret res end.

(** What every failed step does. *)
Definition fail (reason : string) (e : go_error) (res : reconcile_result) : M reconcile_result :=
  setPhase PhaseFailed;;
  setErrorCondition reason (ge_text e);;
  updateStatus_then res.

(** [if err := step; err != nil { ...; return ctrl.Result{}, err }]. *)
Definition or_fail {A} (reason : string) (step : M (result go_error A))
    (next : A -> M reconcile_result) : M reconcile_result :=
  e ← step;
  match e with Err e => fail reason e (ReconcileError e) | Ok a => next a end.

Definition uses_password (u : RisingWaveUser) : bool :=
  bool_decide (getAuthType u = AuthTypePassword) ||
  match us_Auth (u_Spec u) with None => true | Some _ => false end.

Definition mark_ready : M reconcile_result :=
  setPhase PhaseReady;;
  setCondition (user_condition ConditionReady "True" "Ready" "RisingWaveUser is ready");;
  r ← gets id;
  on_status (set_ust_ObservedGeneration (om_Generation (u_Meta (r_user r))));;
  updateConnectionStatus true "";;
  updateStatus_then Finished.

(** From the password on, with a connection. *)
Definition reconcile_user : M reconcile_result :=
  or_fail "PasswordError" getPassword (fun password =>
  or_fail "UserCreationFailed" (ensureUserExists password) (fun _ =>
  or_fail "UserPermissionSyncFailed" reconcilePermissions (fun _ =>
  setPhase PhaseUpdating;;
  or_fail "PrivilegeSyncFailed" applyPrivileges (fun _ =>
  on_status (set_ust_PrivilegesSynced true);;
  setCondition (user_condition ConditionPrivilegesSynced "True" "PrivilegesSynced"
                  "Privileges synced successfully");;
  u ← gets r_user;
  if uses_password u then
    or_fail "SecretCreationFailed" (createOrUpdateSecret password) (fun _ => mark_ready)
  else mark_ready)))).

Definition wants_rotation (u : RisingWaveUser) : bool :=
  bool_decide (om_Annotations (u_Meta u) !! passwordRotateAnnotation = Some "true"%string).

(** [delete(r.rwUser.Annotations, ...)] and the update of the object. *)
Definition finish_rotation : M reconcile_result :=
  modify (fun r => set_user (set_u_Meta (set_om_Annotations
    (delete passwordRotateAnnotation (om_Annotations (u_Meta (r_user r)))) (u_Meta (r_user r)))
    (r_user r)) r);;
  updated ← update_user;
  match updated with Err e => mret (ReconcileError e) | Ok _ => mret Requeue end.

(** From the connection on. *)
Definition reconcile_connected : M reconcile_result :=
  u ← gets r_user;
  if wants_rotation u then
    or_fail "PasswordRotationFailed" rotatePassword (fun _ => finish_rotation)
  else reconcile_user.

(** [defer r.closeConnection()]. *)
Definition with_close {A} (m : M A) : M A := a ← m; closeConnection;; mret a.

Definition connect_and_reconcile : M reconcile_result :=
  connected ← establishConnection;
  match connected with
  | Err e => fail "ConnectionFailed" e (RequeueAfterSeconds 5)
  | Ok _ => with_close reconcile_connected
  end.

Definition add_finalizer : M reconcile_result :=
  modify (fun r => set_user (set_u_Meta (set_om_Finalizers
    (om_Finalizers (u_Meta (r_user r)) ++ [risingWaveUserFinalizer]) (u_Meta (r_user r)))
    (r_user r)) r);;
  updated ← update_user;
  match updated with Err e => mret (ReconcileError e) | Ok _ => mret Requeue end.

Definition reconcileNormal : M reconcile_result :=
  r ← gets id;
  if negb (bool_decide (risingWaveUserFinalizer ∈ om_Finalizers (u_Meta (r_user r)))) then
    add_finalizer
  else if usesConnectionRef r then connect_and_reconcile
  else
    or_fail "FailedToFetchRisingWave" fetchRisingWave (fun _ =>
    ready ← gets isRisingWaveReady;
    if ready : bool then connect_and_reconcile
    else
      setPhase PhasePending;;
      setCondition (user_condition ConditionReady "False" "RisingWaveNotReady"
                      "RisingWave cluster is not ready yet");;
      updateStatus_then (RequeueAfterSeconds 10)).

Definition remove_finalizer : M reconcile_result :=
  modify (fun r => set_user (set_u_Meta (set_om_Finalizers
    (filter (fun f => f <> risingWaveUserFinalizer) (om_Finalizers (u_Meta (r_user r))))
    (u_Meta (r_user r))) (r_user r)) r);;
  updated ← update_user;
  match updated with Err e => mret (ReconcileError e) | Ok _ => mret Finished end.

(** Drops the user when a connection can be made; a failed connection is ignored. *)
Definition drop_user : M (result go_error unit) :=
  connected ← establishConnection;
  match connected with
  | Err _ => mret (Ok tt)
  | Ok _ => u ← gets r_user; exec (BuildDropUserSQL (getUserName u))
  end.

Definition drop_then_remove : M reconcile_result :=
  with_close (
    dropped ← drop_user;
    match dropped with Err e => mret (ReconcileError e) | Ok _ => remove_finalizer end).

Definition reconcileDelete : M reconcile_result :=
  setPhase PhaseDeleting;;
  r ← gets id;
  if negb (ust_UserCreated (u_Status (r_user r))) then remove_finalizer
  else if usesConnectionRef r then drop_then_remove
  else
    fetched ← fetchRisingWave;
    match fetched with
    | Err e => mret (ReconcileError e)
    | Ok _ =>
        ready ← gets isRisingWaveReady;
        if ready : bool then drop_then_remove else remove_finalizer
    end.

Definition new_reconciler (u : RisingWaveUser) : RisingWaveUserReconciler :=
  {| r_user := u; r_risingWave := None; r_connected := false;
     r_connectionKey := {| ck_Namespace := ""; ck_Name := ""; ck_UID := "" |};
     r_trace := []; r_ticks := 0 |}.

(** [fetched] is the reply of [Get] to the request for the object. *)
Definition Reconcile (fetched : result go_error RisingWaveUser)
  : outcome (reconcile_result * list event) :=
  match fetched with
  | Err e => Done (if ge_not_found e then Finished else ReconcileError e, [])
  | Ok u =>
      if bool_decide (is_Some (om_Annotations (u_Meta u) !! AnnotationPauseReconcile)) then
        Done (Finished, [])
      else
        match (if om_Deleted (u_Meta u) then reconcileDelete else reconcileNormal)
                (new_reconciler u) with
        | Done (res, r) => Done (res, r_trace r)
        | Panic msg => Panic msg
        end
  end.
End reconcile.

(** [SetupWithManager]: the users a change of a RisingWave enqueues. *)
Definition enqueue_users (users : list RisingWaveUser) : list (string * string) :=
  omap (fun u =>
    match us_RisingWaveRef (u_Spec u) with
    | Some ref => if bool_decide (rwr_Name ref = "") then None
                  else Some (om_Namespace (u_Meta u), om_Name (u_Meta u))
    | None => None
    end) users.

(** ** Lemmas: the steps *)

Definition condition_of (u : RisingWaveUser) (t : string) : option UserCondition :=
  snd <$> find_index (of_type t) (ust_Conditions (u_Status u)).

(** The condition is there and true. *)
Definition holds (u : RisingWaveUser) (t : string) : Prop :=
  exists c, condition_of u t = Some c /\ uc_Status c = "True"%string.

(** The request that stores a password for a user. *)
Definition stores_password (u : RisingWaveUser) (password : string) (ev : event) : Prop :=
  exists name,
    let data := <["username"%string := getUserName u]> {["password"%string := password]} in
    ev = EvCreateSecret (om_Namespace (u_Meta u)) name data \/
    ev = EvUpdateSecret (om_Namespace (u_Meta u)) name data.

Lemma frame_user r r' :
  frame r r' ->
  getUserName (r_user r') = getUserName (r_user r) /\
  (forall password, create_sql (r_user r') password = create_sql (r_user r) password) /\
  uses_password (r_user r') = uses_password (r_user r).
Proof.
  intros [Hm Hs _ _ _ _ _ _].
  assert (getUserName (r_user r') = getUserName (r_user r)) as Hn
    by (unfold getUserName, u_Name; by rewrite Hm, Hs).
  assert (getAuthType (r_user r') = getAuthType (r_user r)) as Ha
    by (unfold getAuthType; by rewrite Hs).
  split; [done|]. split.
  - intros p. unfold create_sql, BuildCreateUserSQL. by rewrite Ha, Hn, Hs.
  - unfold uses_password. by rewrite Ha, Hs.
Qed.

Lemma frame_stores r r' password ev :
  frame r r' -> stores_password (r_user r') password ev -> stores_password (r_user r) password ev.
Proof.
  intros Hf (name & H). exists name. destruct (frame_user _ _ Hf) as [Hn _].
  destruct Hf as [Hm _ _ _ _ _ _ _]. by rewrite Hm, Hn in H.
Qed.

(** The request [ev] is in the trace, and the answer it got there satisfies [P]. *)
Definition answered `{Environment} (tr : list event) (ev : event) (P : option go_error -> Prop) : Prop :=
  exists tr0, tr0 ++ [ev] `prefix_of` tr /\ P (reply tr0 ev).

(** The user was created in the database with the password, or was found to be there. *)
Definition user_created `{Environment} (tr : list event) (u : RisingWaveUser) (password : string) : Prop :=
  answered tr (EvExec (create_sql u password)) (fun answer => match answer with
    | None => True
    | Some e => isUserAlreadyExistsError e = true
    end).

(** The password was stored in the secret of the user. *)
Definition password_stored `{Environment} (tr : list event) (u : RisingWaveUser) (password : string) : Prop :=
  exists ev, stores_password u password ev /\ answered tr ev (fun answer => answer = None).

Lemma answered_app `{Environment} tr tr' ev P : answered tr ev P -> answered (tr ++ tr') ev P.
Proof. intros (tr0 & Hp & H'). exists tr0. split; [by apply prefix_app_r|done]. Qed.

Lemma password_stored_app `{Environment} tr tr' u password :
  password_stored tr u password -> password_stored (tr ++ tr') u password.
Proof. intros (ev & Hs & Ha). exists ev. split; [done|]. by apply answered_app. Qed.

Lemma frame_answered `{Environment} r r' ev P :
  frame r r' -> answered (r_trace r) ev P -> answered (r_trace r') ev P.
Proof. intros [_ _ _ _ _ _ _ (tr & -> & _)]. apply answered_app. Qed.

Section lemmas.
Context `{O : RangeOrder} `{E : Environment}.

(** An operation keeps what it also guarantees. *)
Lemma wp_and {A} (m : M A) (P Q : A -> RisingWaveUserReconciler -> Prop) r :
  wp m P r -> wp m Q r -> wp m (fun a r' => P a r' /\ Q a r') r.
Proof. unfold wp. by destruct (m r) as [[a r']|]. Qed.

Lemma works_ensureUserExists password : works (ensureUserExists password).
Proof. unfold ensureUserExists, setPhase. works_tac. Qed.

Lemma ensureUserExists_spec password r :
  working r ->
  wp (ensureUserExists password) (fun res r' =>
    is_ok res = true -> user_created (r_trace r') (r_user r) password /\
      ust_UserCreated (u_Status (r_user r')) = true) r.
Proof.
  intros Hw. unfold ensureUserExists, setPhase, on_status, exec, on_connection, request.
  apply wp_bind, wp_gets, wp_bind, wp_modify, wp_bind, wp_bind, wp_gets. cbn [r_connected set_user].
  rewrite (wk_connected _ Hw). unfold wp at 1. cbn [r_trace set_user].
  set (r1 := log_event _ _).
  assert (forall P, P (reply (r_trace r) (EvExec (create_sql (r_user r) password))) ->
    answered (r_trace r1) (EvExec (create_sql (r_user r) password)) P) as Hin.
  { intros P HP. exists (r_trace r). by split. }
  assert (forall c, user_created (r_trace r1) (r_user r) password ->
           wp (setCondition c;; modify (fun r => set_user (set_u_Status
             (set_ust_UserCreated true (u_Status (r_user r))) (r_user r)) r);; mret (Ok tt))
           (fun res r' => is_ok (res : result go_error unit) = true ->
              user_created (r_trace r') (r_user r) password /\
              ust_UserCreated (u_Status (r_user r')) = true) r1) as Hset.
  { intros c Hc. apply wp_bind. eapply wp_mono; [apply setCondition_spec|].
    intros [] r2 (_ & _ & cs & k & ->). apply wp_bind, wp_modify, wp_ret. by split. }
  destruct (reply _ _) as [e|]; [|by apply Hset, Hin].
  destruct (isUserAlreadyExistsError e) eqn:He; [by apply Hset, Hin|]. by apply wp_ret.
Qed.

Lemma works_reconcilePermissions : works reconcilePermissions.
Proof. unfold reconcilePermissions. works_tac. Qed.

Lemma works_rotatePassword : works rotatePassword.
Proof. unfold rotatePassword. works_tac. Qed.

Lemma createOrUpdateSecret_spec password r :
  working r ->
  wp (createOrUpdateSecret password) (fun res r' =>
    is_ok res = true -> password_stored (r_trace r') (r_user r) password) r.
Proof.
  intros Hw. unfold createOrUpdateSecret. apply wp_bind.
  assert (wp getSecretName (fun _ r' => r' = r) r) as Hname.
  { unfold getSecretName. apply wp_bind, wp_gets. cbn.
    destruct (usesConnectionRef r) eqn:Hu; [done|].
    destruct (wk_cluster _ Hw) as [Hd|[rw Hrw]]; [by rewrite Hd in Hu|]. by rewrite Hrw. }
  eapply wp_mono; [exact Hname|]. intros name r' ->. apply wp_bind, wp_gets. unfold id.
  assert (forall ev msg, stores_password (r_user r) password ev ->
    wp (e ← request ev;
        mret (match e with Ok _ => Ok tt | Err e => Err (wrap msg e) end))
      (fun (res : result go_error unit) r' =>
         wp (match res with
             | Err e => mret (Err e)
             | Ok _ =>
                 on_status (set_ust_Secret name);;
                 setCondition (user_condition ConditionSecretCreated "True" "SecretCreated"
                                 "Secret created successfully");; mret (Ok tt)
             end)
           (fun res r' => is_ok (res : result go_error unit) = true ->
              password_stored (r_trace r') (r_user r) password) r') r) as Hreq.
  { intros ev msg Hev. apply wp_bind. unfold request, wp at 1.
    destruct (reply (r_trace r) ev) eqn:Hr; apply wp_ret; [by apply wp_ret|].
    apply wp_bind, wp_modify, wp_bind. eapply wp_mono; [apply setCondition_spec|].
    intros [] r' (_ & _ & cs & k & ->). apply wp_ret. intros _. exists ev. split; [done|].
    by exists (r_trace r). }
  apply wp_bind. cbv zeta. destruct (set_owner (r_trace r)) as [e|]; [by apply wp_ret|].
  destruct (get_Secret (r_trace r) (user_namespace r) name) as [data|e].
  - apply Hreq. exists name. by right.
  - destruct (ge_not_found e); [|by apply wp_ret]. apply Hreq. exists name. by left.
Qed.
End lemmas.

#[export] Hint Resolve works_ensureUserExists works_reconcilePermissions works_rotatePassword : works.

(** ** How a reconciliation ends *)

(** The last status of a run that fails, that waits for the cluster, that succeeds. *)
Record status_failed (r : RisingWaveUserReconciler) (u : RisingWaveUser) : Prop := {
  sf_phase : ust_Phase (u_Status u) = PhaseFailed;
  sf_error : holds u ConditionConnectionError;
  sf_others t : ~ progress_type t -> t <> ConditionConnectionError ->
                condition_of u t = get_condition r t;
}.

Record status_pending (r : RisingWaveUserReconciler) (u : RisingWaveUser) : Prop := {
  sp_phase : ust_Phase (u_Status u) = PhasePending;
  sp_others t : ~ progress_type t -> t <> ConditionReady -> condition_of u t = get_condition r t;
}.

Record status_ready (r : RisingWaveUserReconciler) (u : RisingWaveUser) : Prop := {
  sr_phase : ust_Phase (u_Status u) = PhaseReady;
  sr_ready : holds u ConditionReady;
  sr_generation : ust_ObservedGeneration (u_Status u) = om_Generation (u_Meta (r_user r));
  sr_created : ust_UserCreated (u_Status u) = true;
  sr_synced : ust_PrivilegesSynced (u_Status u) = true;
  sr_others t : ~ progress_type t -> t <> ConditionReady -> condition_of u t = get_condition r t;
}.

(** The run from [r] added [tr] to the trace and returned [res]. *)
Inductive normal_end `{Environment} (r : RisingWaveUserReconciler)
  : reconcile_result -> list event -> Prop :=
| end_failed res tr u :
    Forall is_work tr -> status_failed r u -> res <> Finished ->
    normal_end r res (tr ++ [EvUpdateStatus u])
| end_pending res tr u :
    Forall is_work tr -> status_pending r u -> res <> Finished ->
    normal_end r res (tr ++ [EvUpdateStatus u])
| end_ready res tr u password :
    Forall is_work tr -> status_ready r u ->
    user_created (r_trace r ++ tr) (r_user r) password ->
    (uses_password (r_user r) = true -> password_stored (r_trace r ++ tr) (r_user r) password) ->
    normal_end r res (tr ++ [EvUpdateStatus u])
| end_updated res tr u :
    Forall is_work tr -> res <> Finished -> normal_end r res (tr ++ [EvUpdate u]).

(** A run continues a run that only worked. *)
Lemma normal_end_frame `{Environment} r r' res tr0 tr :
  frame r r' -> r_trace r' = r_trace r ++ tr0 -> normal_end r' res tr ->
  normal_end r res (tr0 ++ tr).
Proof.
  intros Hf Htr He. pose proof (frame_user _ _ Hf) as (Hn & Hc & Hu).
  assert (Forall is_work tr0) as Hw.
  { destruct (fr_trace _ _ Hf) as (tr' & Htr' & Hw). rewrite Htr in Htr'.
    by apply app_inv_head in Htr' as ->. }
  destruct He as [res tr u Ht [] Hr|res tr u Ht [] Hr|res tr u p Ht [] Hin Hs|res tr u Ht Hr];
    rewrite app_assoc.
  - apply end_failed; [by apply Forall_app| |done]. split; [done..|]. intros t H1 H2.
    by rewrite <-(fr_conditions _ _ Hf t H1); auto.
  - apply end_pending; [by apply Forall_app| |done]. split; [done..|]. intros t H1 H2.
    by rewrite <-(fr_conditions _ _ Hf t H1); auto.
  - apply (end_ready _ _ _ _ p); [by apply Forall_app| | |].
    + split; try done; [by rewrite <-(fr_meta _ _ Hf)|]. intros t H1 H2.
      by rewrite <-(fr_conditions _ _ Hf t H1); auto.
    + unfold user_created. by rewrite app_assoc, <-Htr, <-Hc.
    + rewrite <-Hu. intros Hp. destruct (Hs Hp) as (ev & Hst & Hev). exists ev.
      rewrite app_assoc, <-Htr. split; [by eapply frame_stores|done].
  - apply end_updated; [by apply Forall_app|done].
Qed.

(** A run that has not changed the user has no influence on the end. *)
Lemma normal_end_same `{Environment} r r' res tr :
  u_Meta (r_user r') = u_Meta (r_user r) -> u_Spec (r_user r') = u_Spec (r_user r) ->
  user_conditions r' = user_conditions r -> r_trace r' = r_trace r ->
  normal_end r' res tr -> normal_end r res tr.
Proof.
  intros Hm Hs Hcs Ht He.
  assert (forall t, get_condition r' t = get_condition r t) as Hg
    by (intros t; unfold get_condition; by rewrite Hcs).
  assert (getUserName (r_user r') = getUserName (r_user r)) as Hn
    by (unfold getUserName, u_Name; by rewrite Hm, Hs).
  assert (getAuthType (r_user r') = getAuthType (r_user r)) as Ha
    by (unfold getAuthType; by rewrite Hs).
  destruct He as [res' tr u Htr [] Hr|res' tr u Htr [] Hr|res' tr u pw Htr [] Hin Hst|res' tr u Htr Hr].
  - apply end_failed; [done| |done]. split; [done..|]. intros t ? ?. rewrite <-Hg. auto.
  - apply end_pending; [done| |done]. split; [done..|]. intros t ? ?. rewrite <-Hg. auto.
  - apply (end_ready _ _ _ _ pw); [done| | |].
    + split; try done; [by rewrite <-Hm|]. intros t ? ?. rewrite <-Hg. auto.
    + rewrite <-Ht. unfold user_created, create_sql, BuildCreateUserSQL in *. by rewrite <-Ha, <-Hn, <-Hs.
    + intros Hpw. unfold uses_password in *. rewrite <-Ha, <-Hs in Hpw.
      destruct (Hst Hpw) as (ev & (name & Hsev) & Hev). exists ev. rewrite <-Ht. split; [|done].
      exists name. by rewrite <-Hn, <-Hm.
  - by apply end_updated.
Qed.

Section ends.
Context `{O : RangeOrder} `{E : Environment}.

(** [m] run from [r] ends a reconciliation. *)
Definition finishes (m : M reconcile_result) (r : RisingWaveUserReconciler) : Prop :=
  wp m (fun res r' => exists tr, r_trace r' = r_trace r ++ tr /\ normal_end r res tr) r.

Lemma updateStatus_then_spec res r :
  wp (updateStatus_then res) (fun res' r' =>
    r_trace r' = r_trace r ++ [EvUpdateStatus (r_user r)] /\
    (res' = res \/ exists e, res' = ReconcileError e)) r.
Proof.
  unfold updateStatus_then. apply wp_bind. unfold updateStatus, wp at 1.
  destruct (reply_status (r_trace r) (r_user r)); apply wp_ret; eauto.
Qed.

Lemma with_status_holds cond t : uc_Status cond = "True"%string -> uc_Status (with_time t cond) = "True"%string.
Proof. done. Qed.

Lemma fail_finishes reason e res r : res <> Finished -> finishes (fail reason e res) r.
Proof.
  intros Hres. unfold finishes, fail, setPhase, setErrorCondition.
  apply wp_bind, wp_modify, wp_bind. eapply wp_mono; [apply setCondition_spec|].
  intros [] r1 ((t & Ht) & Ho & cs & k & ->).
  eapply wp_mono; [apply updateStatus_then_spec|]. intros res' r' [Htr Hr]. cbn in Htr.
  eexists. split; [exact Htr|]. apply (end_failed _ _ []); [constructor| |].
  - split; [done| |].
    + eexists. split; [exact Ht|done].
    + intros t' _ Hne. by apply Ho.
  - destruct Hr as [->|[e' ->]]; done.
Qed.

Lemma mark_ready_spec r :
  ust_UserCreated (u_Status (r_user r)) = true ->
  ust_PrivilegesSynced (u_Status (r_user r)) = true ->
  wp mark_ready (fun res r' => exists u,
    r_trace r' = r_trace r ++ [EvUpdateStatus u] /\ status_ready r u) r.
Proof.
  intros Hc Hp. unfold mark_ready, setPhase, updateConnectionStatus.
  apply wp_bind, wp_modify, wp_bind. eapply wp_mono; [apply setCondition_spec|].
  intros [] r1 ((t & Ht) & Ho & cs & k & ->).
  apply wp_bind, wp_gets, wp_bind, wp_modify, wp_bind, wp_bind. unfold Now, wp at 1.
  apply wp_modify. eapply wp_mono; [apply updateStatus_then_spec|].
  intros res' r' [Htr _]. cbn in Htr. eexists. split; [exact Htr|]. split; try done.
  - eexists. split; [exact Ht|done].
  - intros t' _ Hne. by apply Ho.
Qed.

Lemma works_finishes {A} (m : M A) (f : A -> M reconcile_result) (Q : A -> RisingWaveUserReconciler -> Prop) r :
  working r -> works m -> wp m Q r ->
  (forall a r', frame r r' -> working r' -> Q a r' -> finishes (f a) r') ->
  finishes (m ≫= f) r.
Proof.
  intros Hw Hm HQ Hf. apply wp_bind.
  eapply wp_mono; [apply wp_and; [by apply Hm|exact HQ]|]. intros a r1 [Hr1 Hq]. cbn in Hr1.
  eapply wp_mono; [apply (Hf a r1); eauto using frame_working|]. intros res r2 (tr & Htr & He).
  destruct (fr_trace _ _ Hr1) as (tr0 & Htr0 & _). exists (tr0 ++ tr).
  rewrite Htr, Htr0, app_assoc. split; [done|]. by eapply normal_end_frame.
Qed.

Lemma or_fail_finishes {A} reason (m : M (result go_error A)) f Q r :
  working r -> works m -> wp m Q r ->
  (forall a r', frame r r' -> working r' -> Q (Ok a) r' -> finishes (f a) r') ->
  finishes (or_fail reason m f) r.
Proof.
  intros Hw Hm HQ Hf. eapply works_finishes; [done..|]. intros [a|e] r' Hr' Hw' Hq.
  - by apply Hf.
  - by apply fail_finishes.
Qed.

Lemma wp_true {A} (m : M A) r : works m -> working r -> wp m (fun _ _ => True) r.
Proof. intros Hm Hr. eapply wp_mono; [by apply Hm|done]. Qed.

Lemma mark_ready_finishes password r :
  ust_UserCreated (u_Status (r_user r)) = true ->
  ust_PrivilegesSynced (u_Status (r_user r)) = true ->
  user_created (r_trace r) (r_user r) password ->
  (uses_password (r_user r) = true -> password_stored (r_trace r) (r_user r) password) ->
  finishes mark_ready r.
Proof.
  intros Hc Hp Hx Hs. eapply wp_mono; [by apply mark_ready_spec|].
  intros res r' (u & Htr & Hu). eexists. split; [exact Htr|].
  apply (end_ready _ _ [] _ password); [constructor|done| |].
  - by apply answered_app.
  - intros Hpw. by apply password_stored_app, Hs.
Qed.

(** The state after the user exists in the database. *)
Lemma created_frame password r r' :
  frame r r' -> user_created (r_trace r) (r_user r) password ->
  ust_UserCreated (u_Status (r_user r)) = true ->
  user_created (r_trace r') (r_user r') password /\
  ust_UserCreated (u_Status (r_user r')) = true.
Proof.
  intros Hf Hx Hc. unfold user_created. destruct (frame_user _ _ Hf) as (_ & -> & _).
  split; [by eapply frame_answered|by apply (fr_created _ _ Hf)].
Qed.

Lemma finish_privileges password r :
  working r -> user_created (r_trace r) (r_user r) password ->
  ust_UserCreated (u_Status (r_user r)) = true ->
  finishes (on_status (set_ust_PrivilegesSynced true);;
            setCondition (user_condition ConditionPrivilegesSynced "True" "PrivilegesSynced"
                            "Privileges synced successfully");;
            u ← gets r_user;
            if uses_password u then
              or_fail "SecretCreationFailed" (createOrUpdateSecret password) (fun _ => mark_ready)
            else mark_ready) r.
Proof.
  intros Hw Hx Hc.
  eapply (works_finishes _ _ (fun _ r' => ust_PrivilegesSynced (u_Status (r_user r')) = true));
    [done|works_tac|by apply wp_modify|].
  intros [] r1 Hf1 Hw1 Hs1. destruct (created_frame _ _ _ Hf1 Hx Hc) as [Hx1 Hc1].
  eapply works_finishes; [done|works_tac|apply wp_true; [works_tac|done]|].
  intros [] r2 Hf2 Hw2 _. destruct (created_frame _ _ _ Hf2 Hx1 Hc1) as [Hx2 Hc2].
  pose proof (fr_synced _ _ Hf2 Hs1) as Hs2.
  unfold finishes. apply wp_bind, wp_gets.
  destruct (uses_password (r_user r2)) eqn:Hu; [|apply (mark_ready_finishes password); try done; congruence].
  eapply or_fail_finishes; [done|works_tac|by apply createOrUpdateSecret_spec|].
  intros [] r3 Hf3 Hw3 Hq. destruct (Hq eq_refl) as (ev & Hst & Hev).
  destruct (created_frame _ _ _ Hf3 Hx2 Hc2) as [Hx3 Hc3].
  apply (mark_ready_finishes password); [done|by apply (fr_synced _ _ Hf3)|done|].
  intros _. exists ev. split; [|done]. destruct (frame_user _ _ Hf3) as [Hn _].
  destruct Hst as [name Hst]. exists name. by rewrite Hn, (fr_meta _ _ Hf3).
Qed.

Lemma reconcile_user_finishes r : working r -> finishes reconcile_user r.
Proof.
  intros Hw. unfold reconcile_user.
  eapply or_fail_finishes; [done|works_tac|apply wp_true; [works_tac|done]|].
  intros password r1 Hf1 Hw1 _.
  eapply or_fail_finishes; [done|works_tac|by apply ensureUserExists_spec|].
  intros [] r2 Hf2 Hw2 Hcreated. destruct (Hcreated eq_refl) as [Hx2 Hc2].
  destruct (frame_user _ _ Hf2) as (_ & Hsql & _). unfold user_created in Hx2. rewrite <-Hsql in Hx2.
  fold (user_created (r_trace r2) (r_user r2) password) in Hx2.
  eapply or_fail_finishes; [done|works_tac|apply wp_true; [works_tac|done]|].
  intros [] r3 Hf3 Hw3 _. destruct (created_frame _ _ _ Hf3 Hx2 Hc2) as [Hx3 Hc3].
  unfold setPhase.
  eapply works_finishes; [done|works_tac|apply wp_true; [works_tac|done]|].
  intros [] r4 Hf4 Hw4 _. destruct (created_frame _ _ _ Hf4 Hx3 Hc3) as [Hx4 Hc4].
  eapply or_fail_finishes; [done|works_tac|apply wp_true; [works_tac|done]|].
  intros [] r5 Hf5 Hw5 _. destruct (created_frame _ _ _ Hf5 Hx4 Hc4) as [Hx5 Hc5].
  by apply finish_privileges.
Qed.

Lemma update_then_finishes f (res : reconcile_result) r :
  res <> Finished -> (forall r, r_trace (f r) = r_trace r) ->
  finishes (modify f;; updated ← update_user;
            match updated with Err e => mret (ReconcileError e) | Ok _ => mret res end) r.
Proof.
  intros Hres Hf. unfold finishes. apply wp_bind, wp_modify, wp_bind.
  unfold update_user, wp at 1. rewrite Hf. 
  destruct (reply_update (r_trace r) _); apply wp_ret; cbn; rewrite Hf;
    (eexists; split; [reflexivity|]); by apply (end_updated _ _ []).
Qed.

Lemma reconcile_connected_finishes r : working r -> finishes reconcile_connected r.
Proof.
  intros Hw. unfold reconcile_connected, finishes. apply wp_bind, wp_gets.
  destruct (wants_rotation (r_user r)); [|by apply reconcile_user_finishes].
  eapply or_fail_finishes; [done|works_tac|apply wp_true; [works_tac|done]|].
  intros [] r1 _ _ _. by apply update_then_finishes.
Qed.

Lemma connect_and_reconcile_finishes r :
  cluster_known r -> finishes connect_and_reconcile r.
Proof.
  intros Hc. unfold connect_and_reconcile, finishes. apply wp_bind.
  eapply wp_mono; [by apply establishConnection_spec|]. intros res r1 [[Hm Hs Hu Hp Hcs Hrw Ht] Hw].
  assert (forall res tr, normal_end r1 res tr -> normal_end r res tr) as Hend
    by (intros res' tr; by apply normal_end_same).
  rewrite <-Ht. destruct res as [[]|e].
  - unfold with_close. apply wp_bind.
    eapply wp_mono; [apply reconcile_connected_finishes; by apply Hw|].
    intros res r2 (tr & Htr & He). apply wp_bind, wp_modify, wp_ret. exists tr. eauto.
  - eapply wp_mono; [by apply fail_finishes|]. intros res r2 (tr & Htr & He). exists tr. eauto.
Qed.

(** One of the references is given. *)
Definition has_reference (u : RisingWaveUser) : Prop :=
  is_Some (us_RisingWaveRef (u_Spec u)) \/ is_Some (us_ConnectionRef (u_Spec u)).

Lemma uses_connection_iff r :
  usesConnectionRef r = true <-> is_Some (us_ConnectionRef (u_Spec (r_user r))).
Proof.
  unfold usesConnectionRef. destruct (us_ConnectionRef _); split; done.
Qed.

Lemma reconcileNormal_finishes r : has_reference (r_user r) -> finishes reconcileNormal r.
Proof.
  intros Href. unfold reconcileNormal, finishes. apply wp_bind, wp_gets. unfold id.
  destruct (bool_decide_reflect (risingWaveUserFinalizer ∈ om_Finalizers (u_Meta (r_user r))));
    cbn [negb]; [|by apply update_then_finishes].
  destruct (usesConnectionRef r) eqn:Hu.
  { apply connect_and_reconcile_finishes. by left. }
  destruct Href as [[ref Href]|Hc]; [|apply uses_connection_iff in Hc; congruence].
  unfold or_fail. apply wp_bind. eapply wp_mono; [by apply fetchRisingWave_spec|].
  intros res r1 (rw & -> & Hres & _).
  assert (forall m, finishes m (set_risingWave (Some rw) r) ->
    wp m (fun res r' => exists tr, r_trace r' = r_trace r ++ tr /\ normal_end r res tr)
      (set_risingWave (Some rw) r)) as Hlift.
  { intros m Hm. eapply wp_mono; [exact Hm|]. intros res' r' (tr & Htr & He). exists tr.
    split; [done|]. by eapply normal_end_same; [..|exact He]. }
  destruct res as [[]|err]; apply Hlift; [|by apply fail_finishes].
  unfold finishes. apply wp_bind, wp_gets. destruct (isRisingWaveReady _).
  - apply connect_and_reconcile_finishes. right. cbn. eauto.
  - unfold setPhase. apply wp_bind, wp_modify, wp_bind. eapply wp_mono; [apply setCondition_spec|].
    intros [] r2 (_ & Ho & cs & k & ->). eapply wp_mono; [apply updateStatus_then_spec|].
    intros res' r3 [Htr Hr]. cbn in Htr. eexists. split; [exact Htr|].
    apply (end_pending _ _ []); [constructor| |by destruct Hr as [->|[? ->]]].
    split; [done|]. intros t _ Hne. by apply Ho.
Qed.

(** ** Lemmas: deletion *)

(** What a deletion did: the phase is set in memory, and the trace tells the rest. *)
Definition deleted_object (u : RisingWaveUser) (u' : RisingWaveUser) : Prop :=
  u_Spec u' = u_Spec u /\
  om_Finalizers (u_Meta u') =
    filter (fun f => f <> risingWaveUserFinalizer) (om_Finalizers (u_Meta u)).

Definition drop_event (u : RisingWaveUser) : event := EvExec (BuildDropUserSQL (getUserName u)).

(** The database cannot be reached: the cluster is not running, or connecting fails. *)
Definition unreachable (r : RisingWaveUserReconciler) : Prop :=
  (exists rw, r_risingWave r = Some rw /\ isRisingWaveReady r = false) \/
  (exists e r', establishConnection r = Done (Err e, r')).

(** The state of the deletion of [u] once its cluster is known: there is none to know when the
    user has the address of a database of its own, and else it is the one the API server has. *)
Definition after_fetch (u : RisingWaveUser) (r : RisingWaveUserReconciler) : Prop :=
  exists rw, r = set_risingWave rw (set_user (set_u_Status (set_ust_Phase PhaseDeleting (u_Status u)) u)
                                     (new_reconciler u)) /\
    match us_ConnectionRef (u_Spec u) with
    | Some _ => rw = None
    | None => exists ref cluster, us_RisingWaveRef (u_Spec u) = Some ref /\ rw = Some cluster /\
        get_RisingWave [] (or_namespace (rwr_Namespace ref) (om_Namespace (u_Meta u))) (rwr_Name ref)
          = Ok cluster
    end.

Inductive deletion (u : RisingWaveUser) : reconcile_result -> list event -> Prop :=
| del_never_created res u' :
    ust_UserCreated (u_Status u) = false -> deleted_object u u' -> deletion u res [EvUpdate u']
| del_unknown_cluster e ref :
    us_RisingWaveRef (u_Spec u) = Some ref ->
    get_RisingWave [] (or_namespace (rwr_Namespace ref) (om_Namespace (u_Meta u))) (rwr_Name ref)
      = Err e ->
    deletion u (ReconcileError e) []
| del_unreachable res r u' :
    after_fetch u r -> unreachable r -> deleted_object u u' -> deletion u res [EvUpdate u']
| del_drop_failed e :
    reply [] (drop_event u) = Some e -> deletion u (ReconcileError e) [drop_event u]
| del_dropped res u' :
    reply [] (drop_event u) = None -> deleted_object u u' ->
    deletion u res [drop_event u; EvUpdate u'].

Lemma remove_finalizer_spec r :
  wp remove_finalizer (fun res r' => exists u',
    r_trace r' = r_trace r ++ [EvUpdate u'] /\ u_Spec u' = u_Spec (r_user r) /\
    om_Finalizers (u_Meta u') =
      filter (fun f => f <> risingWaveUserFinalizer) (om_Finalizers (u_Meta (r_user r)))) r.
Proof.
  unfold remove_finalizer. apply wp_bind, wp_modify, wp_bind. unfold update_user, wp at 1.
  destruct (reply_update _ _); apply wp_ret; cbn; eauto.
Qed.

Lemma drop_then_remove_spec u r :
  after_fetch u r -> cluster_known r ->
  wp drop_then_remove (fun res r' => deletion u res (r_trace r')) r.
Proof.
  intros Hr Hc. unfold drop_then_remove, with_close, drop_user. apply wp_bind, wp_bind, wp_bind.
  pose proof (establishConnection_spec r Hc) as Hcon. pose proof Hr as (rw & Hrw & _).
  unfold wp at 1. unfold wp in Hcon.
  destruct (establishConnection r) as [[[[]|e] r1]|] eqn:He; [| |done].
  - destruct Hcon as [[Hm Hs _ _ _ _ Ht] Hw]. specialize (Hw eq_refl).
    apply wp_bind, wp_gets. unfold exec, on_connection. apply wp_bind, wp_gets.
    rewrite (wk_connected _ Hw). unfold request, wp at 1.
    assert (getUserName (r_user r1) = getUserName u) as Hn.
    { unfold getUserName, u_Name. by rewrite Hm, Hs, Hrw. }
    assert (r_trace r1 = []) as Ht1 by (by rewrite Ht, Hrw).
    rewrite Hn, Ht1. fold (drop_event u). destruct (reply [] (drop_event u)) as [e|] eqn:Hd.
    + apply wp_ret, wp_bind, wp_modify, wp_ret. cbn. rewrite Ht1. by apply del_drop_failed.
    + eapply wp_mono; [apply remove_finalizer_spec|]. intros res r2 (u' & Htr & Hs' & Hf').
      apply wp_bind, wp_modify, wp_ret. cbn in Htr, Hs', Hf' |- *. rewrite Htr, Ht1. cbn.
      apply del_dropped; [done|]. split; [by rewrite Hs', Hs, Hrw|by rewrite Hf', Hm, Hrw].
  - destruct Hcon as [[Hm Hs _ _ _ _ Ht] _]. apply wp_ret.
    eapply wp_mono; [apply remove_finalizer_spec|]. intros res r2 (u' & Htr & Hs' & Hf').
    apply wp_bind, wp_modify, wp_ret. cbn. rewrite Htr, Ht, Hrw. cbn.
    apply (del_unreachable _ _ r); [done|right; eauto|].
    split; [by rewrite Hs', Hs, Hrw|by rewrite Hf', Hm, Hrw].
Qed.

Lemma reconcileDelete_spec u :
  has_reference u ->
  wp reconcileDelete (fun res r' => deletion u res (r_trace r')) (new_reconciler u).
Proof.
  intros Href. unfold reconcileDelete, setPhase. apply wp_bind, wp_modify, wp_bind, wp_gets.
  unfold id. set (r := set_user _ _).
  change (ust_UserCreated (u_Status (r_user r))) with (ust_UserCreated (u_Status u)).
  destruct (ust_UserCreated (u_Status u)) eqn:Hc; cbn [negb].
  - destruct (usesConnectionRef r) eqn:Hu.
    { apply drop_then_remove_spec; [|by left]. exists None. split; [done|].
      unfold usesConnectionRef in Hu. change (u_Spec (r_user r)) with (u_Spec u) in Hu.
      by destruct (us_ConnectionRef (u_Spec u)). }
    assert (us_ConnectionRef (u_Spec u) = None) as Hnone.
    { unfold usesConnectionRef in Hu. change (u_Spec (r_user r)) with (u_Spec u) in Hu.
      by destruct (us_ConnectionRef (u_Spec u)). }
    destruct Href as [[ref Href]|Hd]; [|apply (uses_connection_iff r) in Hd; congruence].
    apply wp_bind. eapply wp_mono; [by apply fetchRisingWave_spec|].
    intros res r1 (rw & -> & Hres & Hrw). set (r1 := set_risingWave (Some rw) r) in *.
    change (r_trace r) with (@nil event) in Hres.
    change (user_namespace r) with (om_Namespace (u_Meta u)) in Hres.
    destruct res as [[]|e].
    + assert (after_fetch u r1) as Hr1.
      { exists (Some rw). split; [done|]. rewrite Hnone. exists ref, rw. split; [done|]. split; [done|].
        destruct (get_RisingWave [] _ _) as [cluster|] eqn:Hg; [|done]. specialize (Hrw cluster Hg).
        congruence. }
      apply wp_bind, wp_gets. destruct (isRisingWaveReady r1) eqn:Hready.
      * apply drop_then_remove_spec; [done|]. right. cbn. eauto.
      * eapply wp_mono; [apply remove_finalizer_spec|]. intros res r2 (u' & Htr & Hs' & Hf').
        rewrite Htr. apply (del_unreachable _ _ r1); [done| |done]. left. eauto.
    + apply wp_ret. apply (del_unknown_cluster _ _ ref); [done|].
      cbn in Hres. unfold user_namespace in Hres. cbn in Hres.
      destruct (get_RisingWave [] _ _) as [?|?]; cbn in Hres; congruence.
  - eapply wp_mono; [apply remove_finalizer_spec|]. intros res r2 (u' & Htr & Hs' & Hf').
    rewrite Htr. by apply del_never_created.
Qed.
End ends.

(** ** Properties *)

Section properties.
Context `{O : RangeOrder} `{E : Environment}.

Definition paused (u : RisingWaveUser) : Prop :=
  is_Some (om_Annotations (u_Meta u) !! AnnotationPauseReconcile).

Lemma Reconcile_normal u res tr :
  has_reference u -> ~ paused u -> om_Deleted (u_Meta u) = false ->
  Reconcile (Ok u) = Done (res, tr) -> normal_end (new_reconciler u) res tr.
Proof.
  intros Href Hp Hd. unfold Reconcile. rewrite bool_decide_false by done. rewrite Hd.
  pose proof (reconcileNormal_finishes (new_reconciler u) Href) as H. unfold finishes, wp in H.
  destruct (reconcileNormal _) as [[res' r']|]; [|done]. intros [= <- <-].
  destruct H as (tr' & -> & He). exact He.
Qed.

Lemma Reconcile_deletion u res tr :
  has_reference u -> ~ paused u -> om_Deleted (u_Meta u) = true ->
  Reconcile (Ok u) = Done (res, tr) -> deletion u res tr.
Proof.
  intros Href Hp Hd. unfold Reconcile. rewrite bool_decide_false by done. rewrite Hd.
  pose proof (reconcileDelete_spec u Href) as H. unfold wp in H.
  destruct (reconcileDelete _) as [[res' r']|]; [|done]. by intros [= <- <-].
Qed.

(** C27: A user that names a cluster or a host is reconciled without a panic, whatever the
    API server and the database answer. *)
Theorem Reconcile_never_panics fetched :
  (forall u, fetched = Ok u -> has_reference u) ->
  exists res tr, Reconcile fetched = Done (res, tr).
Proof.
  intros Href. unfold Reconcile. destruct fetched as [u|e]; [|eauto]. specialize (Href u eq_refl).
  case_bool_decide; [eauto|]. destruct (om_Deleted (u_Meta u)).
  - pose proof (reconcileDelete_spec u Href) as Hs. unfold wp in Hs.
    destruct (reconcileDelete _) as [[res r]|]; [eauto|done].
  - pose proof (reconcileNormal_finishes (new_reconciler u) Href) as Hs. unfold finishes, wp in Hs.
    destruct (reconcileNormal _) as [[res r]|]; [eauto|done].
Qed.

(** C22: A reconciliation of a user that is neither paused nor being deleted, when it finishes
    rather than fails or asks to be run again, has created the user: for one password,
    CREATE USER with it was answered with success, or with the error that the user exists (which
    leaves the password the user had: [password_lost_after_failed_secret]); if the user signs
    in with a password, the API server accepted a request that stores that same password in its
    secret; and the status sent last is Ready, for this generation, with the user created and
    its privileges synced. *)
Theorem Reconcile_Finished_ready u tr :
  has_reference u -> ~ paused u -> om_Deleted (u_Meta u) = false ->
  Reconcile (Ok u) = Done (Finished, tr) ->
  exists tr0 u1 password,
    tr = tr0 ++ [EvUpdateStatus u1] /\
    user_created tr0 u password /\
    (uses_password u = true -> password_stored tr0 u password) /\
    ust_Phase (u_Status u1) = PhaseReady /\ holds u1 ConditionReady /\
    ust_ObservedGeneration (u_Status u1) = om_Generation (u_Meta u) /\
    ust_UserCreated (u_Status u1) = true /\ ust_PrivilegesSynced (u_Status u1) = true.
Proof.
  intros Href Hp Hd HR. pose proof (Reconcile_normal u _ _ Href Hp Hd HR) as He.
  inversion He as [| |res tr0 u1 password Hw [] Hx Hs|]; subst; try done.
  exists tr0, u1, password. by repeat split.
Qed.

(** C25: The finalizer of a deleted user is given up only when the user was never created,
    when it was dropped, or when the database could not be reached; a failed DROP USER keeps it.
    Not to be reached means, for a user with the address of a database of its own, that no
    connection to it could be made; and for a user of a cluster, that this cluster, as the API
    server has it, is not running, or that no connection to it could be made. (For a user that
    is not paused; when its cluster cannot be read the finalizer stays:
    [delete_stuck_without_cluster].) *)
Theorem finalizer_removed_safely u res tr u' :
  has_reference u -> ~ paused u -> om_Deleted (u_Meta u) = true ->
  Reconcile (Ok u) = Done (res, tr) -> EvUpdate u' ∈ tr ->
  deleted_object u u' /\
  (ust_UserCreated (u_Status u) = false \/
   (reply [] (drop_event u) = None /\ tr = [drop_event u; EvUpdate u']) \/
   (exists r, after_fetch u r /\ unreachable r)).
Proof.
  intros Href Hp Hd HR Hin. pose proof (Reconcile_deletion u _ _ Href Hp Hd HR) as He.
  destruct He as [res u1 Hc Ho|e ref ? ?|res r u1 Hr Hu Ho|e Hr|res u1 Hr Ho];
    repeat (apply elem_of_cons in Hin as [Hin|Hin]); try (by apply not_elem_of_nil in Hin);
    simplify_eq; eauto 10.
Qed.

(** A user that was created cannot be deleted any more once its cluster is gone: no
    request is made, and the finalizer stays, at every attempt. *)
Theorem delete_stuck_without_cluster u ref e :
  us_ConnectionRef (u_Spec u) = None -> us_RisingWaveRef (u_Spec u) = Some ref ->
  ust_UserCreated (u_Status u) = true -> om_Deleted (u_Meta u) = true -> ~ paused u ->
  get_RisingWave [] (or_namespace (rwr_Namespace ref) (om_Namespace (u_Meta u))) (rwr_Name ref)
    = Err e ->
  Reconcile (Ok u) = Done (ReconcileError e, []).
Proof.
  intros Hc Hr Hu Hd Hp Hg. unfold Reconcile. rewrite bool_decide_false by done. rewrite Hd.
  unfold reconcileDelete, setPhase, on_status, modify, gets, id, mbind, GoM_bind, mret, GoM_ret,
    usesConnectionRef. cbn. rewrite Hu, Hc. cbn.
  unfold fetchRisingWave, gets, modify, id, mbind, GoM_bind, mret, GoM_ret, user_namespace. cbn.
  rewrite Hr, Hg. done.
Qed.

(** Once set, the condition ConnectionError is never taken back, not even by the status
    that reports Ready; and a failure leaves Ready standing, so that a user whose phase is
    Failed is still Ready. *)
Theorem conditions_sticky u res tr u1 :
  has_reference u -> ~ paused u -> om_Deleted (u_Meta u) = false ->
  Reconcile (Ok u) = Done (res, tr) -> EvUpdateStatus u1 ∈ tr ->
  (holds u ConditionConnectionError -> holds u1 ConditionConnectionError) /\
  (holds u ConditionReady -> ust_Phase (u_Status u1) = PhaseFailed -> holds u1 ConditionReady).
Proof.
  intros Href Hp Hd HR Hin. pose proof (Reconcile_normal u _ _ Href Hp Hd HR) as He.
  assert (forall t, t = ConditionReady \/ t = ConditionConnectionError -> ~ progress_type t) as Hn.
  { intros t Ht. unfold progress_type. intros Hpt.
    destruct Ht as [->| ->]; destruct Hpt as [?|[?|?]]; discriminate. }
  assert (forall tr', Forall is_work tr' -> EvUpdateStatus u1 ∈ tr' -> False) as Hwork.
  { intros tr' Hw Hin'. rewrite Forall_forall in Hw. by apply (Hw _ Hin'). }
  unfold holds in *.
  destruct He as [res tr u2 Hw [Hph Herr Ho]|res tr u2 Hw [Hph Ho]|res tr u2 pw Hw [Hph Hrd _ _ _ Ho] _ _|res tr u2 Hw];
    apply elem_of_app in Hin as [Hin|Hin%list_elem_of_singleton]; try (by edestruct Hwork);
    simplify_eq.
  - split; [done|]. intros Hh _. rewrite Ho; [done|auto|discriminate].
  - split; [|by rewrite Hph]. intros Hh. rewrite Ho; [done|auto|discriminate].
  - split; [|by rewrite Hph]. intros Hh. rewrite Ho; [done|auto|discriminate].
Qed.
End properties.

(** ** Examples: passwords that are lost *)

Definition ok_object (rw : RisingWaveCondition) : RisingWave :=
  set_rw_Status (set_st_Conditions [rw] zero_status) zero_risingwave.

Definition running_condition : RisingWaveCondition :=
  {| cond_Type := RisingWaveConditionRunning; cond_Status := ConditionTrue;
     cond_LastTransitionTime := None; cond_Reason := ""; cond_Message := "" |}.

(** A running cluster without databases whose secrets and replies are given. *)
Definition ex_environment (random : string) (secret : string -> option string)
    (replies : event -> option go_error) : Environment := {|
  now_at := Z.of_nat;
  GenerateRandomPassword _ _ := random;
  get_RisingWave _ _ _ := Ok (ok_object running_condition);
  get_Secret _ _ name :=
    match secret name with
    | Some p => Ok {["password"%string := p]}
    | None => Err {| ge_text := "secret not found"; ge_not_found := true; ge_pq_code := None |}
    end;
  get_Service _ _ _ := Ok tt;
  pool_Get _ _ _ := Ok tt;
  reply_update _ u := Ok u;
  reply_status _ u := Ok u;
  reply _ ev := replies ev;
  set_owner _ := None;
  current_database _ := Ok "dev"%string;
  query_names _ := Ok [];
  query_databases _ := Ok [];
  query_schemas _ := Ok [];
  query_objects _ _ _ := Ok [];
|}.

Definition ex_rec_user (annotations : gmap string string) (pw : option PasswordConfig) : RisingWaveUser :=
  {| u_Meta := {| om_Name := "alice"; om_Namespace := "default"; om_UID := "1";
                  om_Generation := 3; om_Labels := ∅; om_Annotations := annotations;
                  om_Finalizers := [risingWaveUserFinalizer]; om_Deleted := false |};
     u_Spec := {| us_RisingWaveRef := Some {| rwr_Name := "rw"; rwr_Namespace := "";
                                              rwr_Credentials := None |};
                  us_ConnectionRef := None; us_Name := ""; us_Password := pw;
                  us_Auth := None; us_Permissions := []; us_Grants := None |};
     u_Status := zero_user_status |}.

(** The requests of a run that store a password or set one in the database. *)
Definition password_requests (o : outcome (reconcile_result * list event)) : list event :=
  match o with
  | Done (_, tr) =>
      omap (fun ev => match ev with EvUpdate _ | EvUpdateStatus _ => None | _ => Some ev end) tr
  | Panic _ => []
  end.

Definition run_user (E : Environment) (u : RisingWaveUser) : outcome (reconcile_result * list event) :=
  @Reconcile elements_order E (Ok u).

Definition secret_data (password : string) : gmap string string :=
  <["username"%string := "alice"%string]> {["password"%string := password]}.

(** When storing the password fails after the user was created, the next run generates
    another one: the secret holds a password the database does not know. *)
Lemma password_lost_after_failed_secret :
  let exists_error := {| ge_text := "user with name alice exists"; ge_not_found := false;
                         ge_pq_code := None |} in
  let first := ex_environment "pw-one" (fun _ => None)
    (fun ev => match ev with EvCreateSecret _ _ _ => Some (plain_error "timeout") | _ => None end) in
  let second := ex_environment "pw-two" (fun _ => None)
    (fun ev => match ev with EvExec _ => Some exists_error | _ => None end) in
  password_requests (run_user first (ex_rec_user ∅ None)) =
    [EvExec (create_sql (ex_rec_user ∅ None) "pw-one");
     EvCreateSecret "default" "risingwave--alice" (secret_data "pw-one")] /\
  password_requests (run_user second (ex_rec_user ∅ None)) =
    [EvExec (create_sql (ex_rec_user ∅ None) "pw-two");
     EvCreateSecret "default" "risingwave--alice" (secret_data "pw-two")].
Proof. split; vm_compute; reflexivity. Qed.

(** A rotation of a password that is declared in a secret sets a random password, and the
    run after it writes the declared one back to the generated secret. *)
Lemma rotation_lost_with_declared_secret :
  let pw := Some {| pwc_SecretRef := Some {| sref_Name := "declared"; sref_Namespace := "";
                                             sref_Key := "" |};
                    pwc_GenerateRandomLength := None |} in
  let secrets name := if bool_decide (name = "declared"%string) then Some "old"%string
                      else Some "stored"%string in
  let environment := ex_environment "rotated" secrets (fun _ => None) in
  password_requests (run_user environment
    (ex_rec_user {[passwordRotateAnnotation := "true"%string]} pw)) =
    [EvExec (BuildAlterUserPasswordSQL "alice" "rotated");
     EvUpdateSecret "default" "risingwave--alice" (secret_data "rotated")] /\
  password_requests (run_user environment (ex_rec_user ∅ pw)) =
    [EvExec (create_sql (ex_rec_user ∅ pw) "old");
     EvUpdateSecret "default" "risingwave--alice" (secret_data "old")].
Proof. split; vm_compute; reflexivity. Qed.

(** ** Witnesses *)

Definition ex_quiet : Environment := ex_environment "pw" (fun _ => None) (fun _ => None).

Lemma ex_has_reference annotations pw : has_reference (ex_rec_user annotations pw).
Proof. left. by eexists. Qed.

Lemma ex_not_paused pw : ~ paused (ex_rec_user ∅ pw).
Proof. intros [? H]. discriminate H. Qed.

Lemma Reconcile_never_panics_witness :
  exists res tr, run_user ex_quiet (ex_rec_user ∅ None) = Done (res, tr).
Proof.
  apply (@Reconcile_never_panics elements_order ex_quiet). intros u [= <-]. apply ex_has_reference.
Defined.

Lemma Reconcile_Finished_ready_witness :
  exists tr tr0 u1 password, run_user ex_quiet (ex_rec_user ∅ None) = Done (Finished, tr) /\
    tr = tr0 ++ [EvUpdateStatus u1] /\ ust_Phase (u_Status u1) = PhaseReady /\
    user_created (H := ex_quiet) tr0 (ex_rec_user ∅ None) password /\
    password_stored (H := ex_quiet) tr0 (ex_rec_user ∅ None) password.
Proof.
  destruct (run_user ex_quiet (ex_rec_user ∅ None)) as [[[] tr]|] eqn:HR;
    try (vm_compute in HR; discriminate HR).
  destruct (@Reconcile_Finished_ready elements_order ex_quiet (ex_rec_user ∅ None) tr
    (ex_has_reference ∅ None) (ex_not_paused None) eq_refl HR)
    as (tr0 & u1 & p & Htr & Hcr & Hst & Hph & _).
  exists tr, tr0, u1, p. split; [reflexivity|]. split; [exact Htr|]. split; [exact Hph|].
  split; [exact Hcr|]. apply Hst. vm_compute. reflexivity.
Defined.

Definition ex_deleted_user : RisingWaveUser :=
  {| u_Meta := {| om_Name := "alice"; om_Namespace := "default"; om_UID := "1";
                  om_Generation := 3; om_Labels := ∅; om_Annotations := ∅;
                  om_Finalizers := [risingWaveUserFinalizer]; om_Deleted := true |};
     u_Spec := u_Spec (ex_rec_user ∅ None);
     u_Status := set_ust_UserCreated true zero_user_status |}.

Lemma finalizer_removed_safely_witness :
  exists u', deleted_object ex_deleted_user u'.
Proof.
  destruct (run_user ex_quiet ex_deleted_user) as [[res [|ev [|[u'| | | |] tr]]]|] eqn:HR;
    try (vm_compute in HR; discriminate HR).
  exists u'. refine (proj1 (@finalizer_removed_safely elements_order ex_quiet ex_deleted_user res
    (ev :: EvUpdate u' :: tr) u' _ _ eq_refl HR _)).
  - left. by eexists.
  - intros [? H]. discriminate H.
  - right. left.
Defined.

Definition ex_gone : Environment := {|
  now_at := Z.of_nat;
  GenerateRandomPassword _ _ := "";
  get_RisingWave _ _ _ := Err {| ge_text := "gone"; ge_not_found := true; ge_pq_code := None |};
  get_Secret _ _ _ := Ok ∅;
  get_Service _ _ _ := Ok tt;
  pool_Get _ _ _ := Ok tt;
  reply_update _ u := Ok u;
  reply_status _ u := Ok u;
  reply _ _ := None;
  set_owner _ := None;
  current_database _ := Ok "dev"%string;
  query_names _ := Ok [];
  query_databases _ := Ok [];
  query_schemas _ := Ok [];
  query_objects _ _ _ := Ok [];
|}.

Lemma delete_stuck_without_cluster_witness :
  exists e, run_user ex_gone ex_deleted_user = Done (ReconcileError e, []).
Proof.
  eexists. eapply (@delete_stuck_without_cluster elements_order ex_gone ex_deleted_user);
    try reflexivity. intros [? H]. discriminate H.
Defined.

Definition ex_broken : Environment :=
  ex_environment "pw" (fun _ => None) (fun _ => Some (plain_error "refused")).

Lemma conditions_sticky_witness :
  exists u1, ust_Phase (u_Status u1) = PhaseFailed /\
    (holds (ex_rec_user ∅ None) ConditionReady -> holds u1 ConditionReady).
Proof.
  destruct (run_user ex_broken (ex_rec_user ∅ None)) as [[res [|ev [|[|u1| | |] tr]]]|] eqn:HR;
    try (vm_compute in HR; discriminate HR).
  exists u1. assert (ust_Phase (u_Status u1) = PhaseFailed) as Hph.
  { vm_compute in HR. by simplify_eq. }
  split; [exact Hph|]. intros Hh.
  refine (proj2 (@conditions_sticky elements_order ex_broken (ex_rec_user ∅ None) res
    (ev :: EvUpdateStatus u1 :: tr) u1 (ex_has_reference ∅ None) (ex_not_paused None) eq_refl HR _)
    Hh Hph).
  right. left.
Defined.

Definition ex_connected : RisingWaveUserReconciler :=
  {| r_user := ex_rec_user ∅ None; r_risingWave := Some zero_risingwave; r_connected := true;
     r_connectionKey := {| ck_Namespace := ""; ck_Name := ""; ck_UID := "" |};
     r_trace := []; r_ticks := 0 |}.

Lemma applyPrivileges_session_witness :
  wp (@applyPrivileges elements_order ex_quiet) (fun _ r' => exists m evs db' executed,
    r_trace r' = evs /\ @runs ex_quiet m [] "dev" evs db' executed) ex_connected.
Proof.
  eapply wp_mono; [apply (@applyPrivileges_session elements_order ex_quiet elements_order_ok
    ex_connected); reflexivity|].
  intros res r' (m & evs & db' & ex & Htr & Hr & _). exists m, evs, db', ex.
  split; [exact Htr|exact Hr].
Defined.
