(* ===== verification/Pool.v ===== *)
(** * pkg/rwclient/pool.go: the connection pool

    The pool maps connection keys to database handles. Its operations run in goroutines of
    their own, so each is a program of atomic steps with a program counter: an operation of
    the [sync.Map], a call on a handle, or a change of [lastUsed] is one step, and steps of
    other calls may come between any two. A pooled connection and its handle are one number;
    the set of the handles that were opened and not closed is part of the state, so that a
    leak can be stated. What the network, the clock and the scheduler of [Range] answer is the
    argument of a step ([answer]); a handle that was closed answers no ping. [Range] may visit
    for a key any connection the key had at some time since it was called, each key
    at most once, as the documentation of [sync.Map] says. *)

From S2P Require Import Prelude GoStrings UserState.

(** ** Definitions: the state *)

Global Instance ConnectionKey_eq_dec : EqDecision ConnectionKey.
Proof. solve_decision. Defined.
Global Instance ConnectionKey_countable : Countable ConnectionKey.
Proof.
  apply (inj_countable' (fun k => (ck_Namespace k, ck_Name k, ck_UID k))
    (fun t => {| ck_Namespace := t.1.1; ck_Name := t.1.2; ck_UID := t.2 |})).
  by intros [].
Defined.

(** [String]. *)
Definition ConnectionKey_String (k : ConnectionKey) : string :=
  ck_Namespace k +:+ "/" +:+ ck_Name k +:+ "/" +:+ ck_UID k.

Record PooledConnection := {
  pc_db : nat;
  pc_connectionInfo : ConnectionInfo;
  pc_lastUsed : Z;
}.

(** Durations are in seconds. *)
Record PoolConfig := {
  cfg_MaxOpenConns : Z;
  cfg_MaxIdleConns : Z;
  cfg_ConnMaxLifetime : Z;
  cfg_ConnMaxIdleTime : Z;
  cfg_IdleConnectionTTL : Z;
  cfg_HealthCheckInterval : Z;
}.

Definition DefaultPoolConfig : PoolConfig :=
  {| cfg_MaxOpenConns := 5; cfg_MaxIdleConns := 2; cfg_ConnMaxLifetime := 600;
     cfg_ConnMaxIdleTime := 300; cfg_IdleConnectionTTL := 600; cfg_HealthCheckInterval := 30 |}.

(** The map and what it points to: the connections by the number of their handle. [p_stores]
    is the history of the map: every [Store], in order. [p_closed] is whether [once] ran. *)
Record Pool := {
  p_connections : gmap ConnectionKey nat;
  p_entries : gmap nat PooledConnection;
  p_config : PoolConfig;
  p_closed : bool;
  p_open : gset nat;
  p_next : nat;
  p_stores : list (ConnectionKey * nat);
}.

Definition NewPool (config : option PoolConfig) : Pool :=
  {| p_connections := ∅; p_entries := ∅; p_config := default DefaultPoolConfig config;
     p_closed := false; p_open := ∅; p_next := 0; p_stores := [] |}.

Definition Pool_Size (p : Pool) : nat := size (p_connections p).

(** ** Definitions: the atomic steps *)

Definition set_connections (cs : gmap ConnectionKey nat) (p : Pool) : Pool :=
  {| p_connections := cs; p_entries := p_entries p; p_config := p_config p; p_closed := p_closed p;
     p_open := p_open p; p_next := p_next p; p_stores := p_stores p |}.
Definition set_entries (es : gmap nat PooledConnection) (p : Pool) : Pool :=
  {| p_connections := p_connections p; p_entries := es; p_config := p_config p;
     p_closed := p_closed p; p_open := p_open p; p_next := p_next p; p_stores := p_stores p |}.
Definition set_closed (p : Pool) : Pool :=
  {| p_connections := p_connections p; p_entries := p_entries p; p_config := p_config p;
     p_closed := true; p_open := p_open p; p_next := p_next p; p_stores := p_stores p |}.

(** [connections.Delete]. *)
Definition delete_key (key : ConnectionKey) (p : Pool) : Pool :=
  set_connections (delete key (p_connections p)) p.

(** [db.Close()]. *)
Definition close_handle (h : nat) (p : Pool) : Pool :=
  {| p_connections := p_connections p; p_entries := p_entries p; p_config := p_config p;
     p_closed := p_closed p; p_open := p_open p ∖ {[h]}; p_next := p_next p;
     p_stores := p_stores p |}.

(** [sql.Open]: a new handle. *)
Definition open_handle (p : Pool) : Pool :=
  {| p_connections := p_connections p; p_entries := p_entries p; p_config := p_config p;
     p_closed := p_closed p; p_open := {[p_next p]} ∪ p_open p; p_next := S (p_next p);
     p_stores := p_stores p |}.

(** [connections.Store] of a new [PooledConnection]. *)
Definition store_connection (key : ConnectionKey) (c : PooledConnection) (p : Pool) : Pool :=
  {| p_connections := <[key := pc_db c]> (p_connections p);
     p_entries := <[pc_db c := c]> (p_entries p); p_config := p_config p;
     p_closed := p_closed p; p_open := p_open p; p_next := p_next p;
     p_stores := p_stores p ++ [(key, pc_db c)] |}.

Definition touch (now : Z) (c : PooledConnection) : PooledConnection :=
  {| pc_db := pc_db c; pc_connectionInfo := pc_connectionInfo c; pc_lastUsed := now |}.
Definition UpdateLastUsed (now : Z) (h : nat) (p : Pool) : Pool :=
  set_entries (alter (touch now) h (p_entries p)) p.

Definition IsStale (now idleTimeout : Z) (c : PooledConnection) : bool :=
  bool_decide (idleTimeout < now - pc_lastUsed c)%Z.

(** What comes from outside in a step: the time, the errors of a ping and of [sql.Open], what
    [Range] visits next, if anything, and whether the ticker or the stop channel is chosen. *)
Record answer := {
  an_now : Z;
  an_ping : option go_error;
  an_open : option go_error;
  an_visit : option (ConnectionKey * nat);
  an_tick : bool;
}.

Definition ping (a : answer) (p : Pool) (h : nat) : option go_error :=
  if bool_decide (h ∈ p_open p) then an_ping a else Some (plain_error "sql: database is closed").

(** ** Definitions: [Get] *)

Inductive get_pc :=
| GetLoad
| GetTouch (h : nat)
| GetPing (h : nat)
| GetDelete
| GetOpen
| GetPingNew (h : nat)
| GetCloseNew (h : nat) (e : go_error)
| GetStore (h : nat)
| GetReturned (r : result go_error nat).

Definition Get_step (a : answer) (key : ConnectionKey) (connInfo : ConnectionInfo) (p : Pool)
    (pc : get_pc) : option (Pool * get_pc) :=
  match pc with
  | GetLoad => Some (p, match p_connections p !! key with Some h => GetTouch h | None => GetOpen end)
  | GetTouch h => Some (UpdateLastUsed (an_now a) h p, GetPing h)
  | GetPing h => Some (p, match ping a p h with None => GetReturned (Ok h) | Some _ => GetDelete end)
  | GetDelete => Some (delete_key key p, GetOpen)
  | GetOpen =>
      match an_open a with
      | Some e => Some (p, GetReturned (Err (wrap "failed to open database connection" e)))
      | None => Some (open_handle p, GetPingNew (p_next p))
      end
  | GetPingNew h => Some (p, match ping a p h with None => GetStore h | Some e => GetCloseNew h e end)
  | GetCloseNew h e => Some (close_handle h p, GetReturned (Err (wrap "failed to ping database" e)))
  | GetStore h =>
      Some (store_connection key {| pc_db := h; pc_connectionInfo := connInfo; pc_lastUsed := an_now a |} p,
            GetReturned (Ok h))
  | GetReturned _ => None
  end.

(** ** Definitions: [Remove] *)

Inductive remove_pc :=
| RemoveLoad
| RemoveClose (h : nat)
| RemoveDelete (h : nat)
| RemoveReturned.

Definition Remove_step (key : ConnectionKey) (p : Pool) (pc : remove_pc) : option (Pool * remove_pc) :=
  match pc with
  | RemoveLoad => Some (p, match p_connections p !! key with Some h => RemoveClose h | None => RemoveReturned end)
  | RemoveClose h => Some (close_handle h p, RemoveDelete h)
  | RemoveDelete _ => Some (delete_key key p, RemoveReturned)
  | RemoveReturned => None
  end.

(** ** Definitions: [Range] *)

(** A call of [Range]: the map and the length of its history when it was called, and the keys
    that were visited. *)
Record range := {
  rg_start : gmap ConnectionKey nat;
  rg_stores : nat;
  rg_visited : gset ConnectionKey;
}.

Definition Range (p : Pool) : range :=
  {| rg_start := p_connections p; rg_stores := length (p_stores p); rg_visited := ∅ |}.

(** The key has had this connection since the call. *)
Definition since_call (r : range) (p : Pool) (k : ConnectionKey) (h : nat) : bool :=
  bool_decide (rg_start r !! k = Some h) || bool_decide ((k, h) ∈ drop (rg_stores r) (p_stores p)).

(** It may end when it has visited all that was there all the time. *)
Definition may_end (r : range) (p : Pool) : bool :=
  forallb (fun kh => bool_decide (kh.1 ∈ rg_visited r) || negb (bool_decide (p_connections p !! kh.1 = Some kh.2)))
    (map_to_list (rg_start r)).

Definition mark_visited (k : ConnectionKey) (r : range) : range :=
  {| rg_start := rg_start r; rg_stores := rg_stores r; rg_visited := {[k]} ∪ rg_visited r |}.

(** What is visited next, or nothing when it ends; none of them when the answer is not one that
    [Range] may give. *)
Definition next_visit (a : answer) (r : range) (p : Pool) : option (option (ConnectionKey * nat) * range) :=
  match an_visit a with
  | Some (k, h) =>
      if negb (bool_decide (k ∈ rg_visited r)) && since_call r p k h
      then Some (Some (k, h), mark_visited k r) else None
  | None => if may_end r p then Some (None, r) else None
  end.

(** ** Definitions: [Close] *)

Inductive close_pc :=
| CloseOnce
| CloseRange (r : range)
| CloseClose (r : range) (k : ConnectionKey) (h : nat)
| CloseDelete (r : range) (k : ConnectionKey) (h : nat)
| CloseReturned.

(** A call that is not the first returns (once the first has, which only makes it later). *)
Definition Close_step (a : answer) (p : Pool) (pc : close_pc) : option (Pool * close_pc) :=
  match pc with
  | CloseOnce => Some (if p_closed p then (p, CloseReturned) else (set_closed p, CloseRange (Range p)))
  | CloseRange r =>
      '(visit, r) ← next_visit a r p;
      Some (p, match visit with Some (k, h) => CloseClose r k h | None => CloseReturned end)
  | CloseClose r k h => Some (close_handle h p, CloseDelete r k h)
  | CloseDelete r k _ => Some (delete_key k p, CloseRange r)
  | CloseReturned => None
  end.

(** ** Definitions: the health checker *)

Inductive check_pc :=
| CheckRange (r : range)
| CheckPing (r : range) (k : ConnectionKey) (h : nat)
| CheckDelete (r : range) (k : ConnectionKey) (h : nat)
| CheckClose (r : range) (k : ConnectionKey) (h : nat).

(** [healthCheck]; it ends with no program counter. *)
Definition healthCheck_step (a : answer) (p : Pool) (pc : check_pc) : option (Pool * option check_pc) :=
  match pc with
  | CheckRange r =>
      '(visit, r) ← next_visit a r p;
      Some (p, match visit with Some (k, h) => Some (CheckPing r k h) | None => None end)
  | CheckPing r k h => Some (p, Some match ping a p h with Some _ => CheckDelete r k h | None => CheckRange r end)
  | CheckDelete r k h => Some (delete_key k p, Some (CheckClose r k h))
  | CheckClose r _ h => Some (close_handle h p, Some (CheckRange r))
  end.

Definition stale (now : Z) (p : Pool) (h : nat) : bool :=
  match p_entries p !! h with
  | Some c => IsStale now (cfg_IdleConnectionTTL (p_config p)) c
  | None => false
  end.

(** [cleanupStaleConnections]. *)
Definition cleanup_step (a : answer) (p : Pool) (pc : check_pc) : option (Pool * option check_pc) :=
  match pc with
  | CheckRange r =>
      '(visit, r) ← next_visit a r p;
      Some (p, match visit with Some (k, h) => Some (CheckPing r k h) | None => None end)
  | CheckPing r k h => Some (p, Some (if stale (an_now a) p h then CheckDelete r k h else CheckRange r))
  | CheckDelete r k h => Some (delete_key k p, Some (CheckClose r k h))
  | CheckClose r _ h => Some (close_handle h p, Some (CheckRange r))
  end.

Inductive checker_pc :=
| CheckerSelect
| CheckerHealth (pc : check_pc)
| CheckerCleanup (pc : check_pc)
| CheckerReturned.

(** The goroutine of [startHealthChecker]: the select may take a tick even when the pool is
    closed, and the stop only then. *)
Definition checker_step (a : answer) (p : Pool) (pc : checker_pc) : option (Pool * checker_pc) :=
  match pc with
  | CheckerSelect =>
      if an_tick a then Some (p, CheckerHealth (CheckRange (Range p)))
      else if p_closed p then Some (p, CheckerReturned) else None
  | CheckerHealth pc =>
      '(p, pc) ← healthCheck_step a p pc;
      Some (p, match pc with Some pc => CheckerHealth pc | None => CheckerCleanup (CheckRange (Range p)) end)
  | CheckerCleanup pc =>
      '(p, pc) ← cleanup_step a p pc;
      Some (p, match pc with Some pc => CheckerCleanup pc | None => CheckerSelect end)
  | CheckerReturned => None
  end.

(** ** Definitions: goroutines *)

Inductive thread :=
| TGet (key : ConnectionKey) (connInfo : ConnectionInfo) (pc : get_pc)
| TRemove (key : ConnectionKey) (pc : remove_pc)
| TClose (pc : close_pc)
| TChecker (pc : checker_pc).

Definition thread_step (a : answer) (p : Pool) (t : thread) : option (Pool * thread) :=
  match t with
  | TGet key info pc => '(p, pc) ← Get_step a key info p pc; Some (p, TGet key info pc)
  | TRemove key pc => '(p, pc) ← Remove_step key p pc; Some (p, TRemove key pc)
  | TClose pc => '(p, pc) ← Close_step a p pc; Some (p, TClose pc)
  | TChecker pc => '(p, pc) ← checker_step a p pc; Some (p, TChecker pc)
  end.

(** The calls of the methods. *)
Inductive called : thread -> Prop :=
| called_Get key info : called (TGet key info GetLoad)
| called_Remove key : called (TRemove key RemoveLoad)
| called_Close : called (TClose CloseOnce).

(** A goroutine runs its next step, or a method is called. *)
Inductive pool_step : Pool * list thread -> Pool * list thread -> Prop :=
| step_run p ts i t a p' t' :
    ts !! i = Some t -> thread_step a p t = Some (p', t') -> pool_step (p, ts) (p', <[i := t']> ts)
| step_call p ts t : called t -> pool_step (p, ts) (p, ts ++ [t]).

(** A new pool has its health checker. *)
Definition new_pool (config : option PoolConfig) : Pool * list thread :=
  (NewPool config, [TChecker CheckerSelect]).

(** A given schedule, for the examples. *)
Fixpoint schedule (l : list (nat * answer)) (w : Pool * list thread) : option (Pool * list thread) :=
  match l with
  | [] => Some w
  | (i, a) :: l' =>
      t ← w.2 !! i; '(p, t) ← thread_step a w.1 t; schedule l' (p, <[i := t]> w.2)
  end.

(** ** The invariant *)

(** The handle a [Get] has opened and not stored yet. *)
Definition owned (t : thread) : option nat :=
  match t with
  | TGet _ _ (GetPingNew h) | TGet _ _ (GetCloseNew h _) | TGet _ _ (GetStore h) => Some h
  | _ => None
  end.

(** The goroutine has closed the handle of the key and is about to delete the key. *)
Definition deleting (t : thread) (k : ConnectionKey) (h : nat) : Prop :=
  match t with
  | TRemove key (RemoveDelete h') => k = key /\ h = h'
  | TClose (CloseDelete _ k' h') => k = k' /\ h = h'
  | _ => False
  end.

(** The handles that were stored. *)
Definition stored (p : Pool) (h : nat) : Prop := h ∈ (p_stores p).*2.

Definition range_ok (p : Pool) (r : range) : Prop :=
  forall k h, rg_start r !! k = Some h -> (k, h) ∈ p_stores p.

(** What a goroutine knows of the handle it works on. *)
Definition check_ok (p : Pool) (pc : check_pc) : Prop :=
  match pc with
  | CheckRange r => range_ok p r
  | CheckPing r k h | CheckDelete r k h => range_ok p r /\ (k, h) ∈ p_stores p
  | CheckClose r k h => range_ok p r /\ (k, h) ∈ p_stores p /\ p_connections p !! k <> Some h
  end.
Definition thread_ok (p : Pool) (t : thread) : Prop :=
  match t with
  | TGet key _ (GetTouch h) | TGet key _ (GetPing h) => (key, h) ∈ p_stores p
  | TGet _ _ (GetPingNew h) | TGet _ _ (GetStore h) => h ∈ p_open p /\ h < p_next p /\ ~ stored p h
  | TGet _ _ (GetCloseNew h _) => h < p_next p /\ ~ stored p h
  | TRemove key (RemoveClose h) | TRemove key (RemoveDelete h) => (key, h) ∈ p_stores p
  | TClose (CloseRange r) => range_ok p r
  | TClose (CloseClose r k h) | TClose (CloseDelete r k h) => range_ok p r /\ (k, h) ∈ p_stores p
  | TChecker (CheckerHealth pc) | TChecker (CheckerCleanup pc) => check_ok p pc
  | _ => True
  end.

Record pool_ok (p : Pool) (ts : list thread) : Prop := {
  po_fresh h : h ∈ p_open p \/ stored p h -> h < p_next p;
  po_once : NoDup (p_stores p).*2;
  po_stored k h : p_connections p !! k = Some h -> (k, h) ∈ p_stores p;
  po_open k h : p_connections p !! k = Some h -> h ∈ p_open p \/ exists t, t ∈ ts /\ deleting t k h;
  po_threads t : t ∈ ts -> thread_ok p t;
  po_owned i j t t' h : ts !! i = Some t -> ts !! j = Some t' ->
    owned t = Some h -> owned t' = Some h -> i = j;
}.

Lemma stored_intro p k h : (k, h) ∈ p_stores p -> stored p h.
Proof. intros H. unfold stored. apply list_elem_of_fmap. by exists (k, h). Qed.

Lemma stored_key p k k' h :
  NoDup (p_stores p).*2 -> (k, h) ∈ p_stores p -> (k', h) ∈ p_stores p -> k = k'.
Proof.
  intros Hn H H'. enough ((k, h) = (k', h)) by congruence. by eapply NoDup_fmap_elem.
Qed.

(** ** What a step may do

    [p'] is [p] after a step of the goroutine [t], which continues as [t']: it stores at most its
    own handle, closes at most its own or a stored one, and no pooled one unless it is about to
    delete the key. *)
Record step_ok (p p' : Pool) (t t' : thread) (new : list (ConnectionKey * nat)) : Prop := {
  so_stores : p_stores p' = p_stores p ++ new;
  so_new : new = [] \/ exists k h, new = [(k, h)] /\ owned t = Some h;
  so_next : p_next p <= p_next p';
  so_fresh h : h ∈ p_open p' -> h ∈ p_open p \/ h < p_next p';
  so_open h : h ∈ p_open p -> h ∈ p_open p' \/ owned t = Some h \/ stored p h;
  so_conn k h : p_connections p' !! k = Some h ->
    p_connections p !! k = Some h \/ (k, h) ∈ new /\ h ∈ p_open p';
  so_pooled k h : p_connections p' !! k = Some h -> p_connections p !! k = Some h ->
    (h ∈ p_open p -> h ∈ p_open p' \/ deleting t' k h) /\ (deleting t k h -> deleting t' k h);
  so_thread : thread_ok p' t';
  so_owned h : owned t' = Some h -> owned t = Some h \/ p_next p <= h;
}.

Lemma thread_ok_owned p t h : thread_ok p t -> owned t = Some h -> h < p_next p /\ ~ stored p h.
Proof. destruct t as [k i []|k []|[]|[]]; cbn; try done; intros H [= <-]; tauto. Qed.

Lemma range_ok_mono p p' new r : p_stores p' = p_stores p ++ new -> range_ok p r -> range_ok p' r.
Proof. intros Hs H k h Hk. rewrite Hs. apply elem_of_app. left. by apply H. Qed.

(** What a goroutine knows stays true when another one makes a step. *)
Lemma thread_ok_step p p' t t' new t0 :
  step_ok p p' t t' new -> thread_ok p t -> thread_ok p t0 ->
  (forall h, owned t = Some h -> owned t0 <> Some h) -> thread_ok p' t0.
Proof.
  intros [Hs Hnew Hnext _ Hopen Hconn _ _ _] Hok H0 Hdis.
  assert (forall k h, (k, h) ∈ p_stores p -> (k, h) ∈ p_stores p') as Hmono
    by (intros k h Hin; rewrite Hs; apply elem_of_app; by left).
  assert (forall r, range_ok p r -> range_ok p' r) as Hr by (intros r; by eapply range_ok_mono).
  assert (forall h, owned t0 = Some h -> ~ stored p h -> ~ stored p' h) as Hns.
  { intros h Ho Hn. unfold stored. rewrite Hs, fmap_app, elem_of_app. intros [?|Hin]; [done|].
    destruct Hnew as [->|(k & h' & -> & Ht)]; [by apply not_elem_of_nil in Hin|].
    cbn in Hin. apply list_elem_of_singleton in Hin as ->. by apply (Hdis h'). }
  assert (forall h, owned t0 = Some h -> ~ stored p h -> h ∈ p_open p -> h ∈ p_open p') as Hop.
  { intros h Ho Hn Hin. destruct (Hopen h Hin) as [?|[Ht|?]]; [done| |done]. by destruct (Hdis h Ht). }
  assert (forall k h, (k, h) ∈ p_stores p -> p_connections p !! k <> Some h -> p_connections p' !! k <> Some h) as Hc.
  { intros k h Hin Hne Hk. destruct (Hconn k h Hk) as [?|[Hn _]]; [done|].
    destruct Hnew as [->|(k' & h' & -> & Ht)]; [by apply not_elem_of_nil in Hn|].
    apply list_elem_of_singleton in Hn as [= <- <-].
    destruct (thread_ok_owned _ _ _ Hok Ht) as [_ Hn]. by destruct Hn; eapply stored_intro. }
  destruct t0 as [k i []|k []|[]|[|[]|[]|]]; cbn in H0, Hns, Hop |- *; try done;
    destruct_and?; split_and?; eauto; lia.
Qed.

(** A step of a goroutine keeps the invariant. *)
Lemma pool_ok_step p p' ts i t t' new :
  pool_ok p ts -> ts !! i = Some t -> step_ok p p' t t' new -> pool_ok p' (<[i := t']> ts).
Proof.
  intros Hp Ht Hs. pose proof (po_threads _ _ Hp t (list_elem_of_lookup_2 _ _ _ Ht)) as Hok.
  pose proof Hs as [Hst Hnew Hnext Hfresh Hopen Hconn Hpooled Hthread Howned].
  assert (forall k h, (k, h) ∈ new -> owned t = Some h) as Hown.
  { intros k h Hin. destruct Hnew as [->|(k' & h' & -> & Ho)]; [by apply not_elem_of_nil in Hin|].
    by apply list_elem_of_singleton in Hin as [= -> ->]. }
  assert (forall j t0, <[i := t']> ts !! j = Some t0 -> i = j /\ t0 = t' \/ i <> j /\ ts !! j = Some t0) as Hlook.
  { intros j t0 [(-> & <- & _)|[? ?]]%list_lookup_insert_Some; [by left|by right]. }
  split.
  - intros h [Hh|Hh].
    + destruct (Hfresh h Hh) as [Hin|?]; [|done]. pose proof (po_fresh _ _ Hp h (or_introl Hin)). lia.
    + unfold stored in Hh. rewrite Hst, fmap_app, elem_of_app in Hh. destruct Hh as [Hh|Hh].
      * pose proof (po_fresh _ _ Hp h (or_intror Hh)). lia.
      * apply list_elem_of_fmap in Hh as ([k h'] & -> & Hin).
        destruct (thread_ok_owned _ _ _ Hok (Hown _ _ Hin)). cbn. lia.
  - rewrite Hst, fmap_app. destruct Hnew as [->|(k & h & -> & Ho)].
    + cbn. rewrite app_nil_r. apply Hp.
    + apply NoDup_app. split; [apply Hp|]. split; [|apply NoDup_singleton].
      intros x Hx ->%list_elem_of_singleton. by destruct (thread_ok_owned _ _ _ Hok Ho).
  - intros k h Hk. rewrite Hst. apply elem_of_app.
    destruct (Hconn k h Hk) as [Hk'|[Hin _]]; [left; by apply Hp|by right].
  - intros k h Hk. destruct (Hconn k h Hk) as [Hk'|[_ Hin]]; [|by left].
    destruct (Hpooled k h Hk Hk') as [Hcl Hdel].
    assert (t' ∈ <[i := t']> ts) as Hin'.
    { apply (list_elem_of_lookup_2 _ i). rewrite list_lookup_insert_eq; [done|]. by eapply lookup_lt_Some. }
    destruct (po_open _ _ Hp k h Hk') as [Hin|(t0 & Ht0 & Hd)].
    + destruct (Hcl Hin) as [?|?]; [by left|]. right. by exists t'.
    + right. apply list_elem_of_lookup in Ht0 as (j & Hj). destruct (decide (i = j)) as [<-|Hne].
      * simplify_eq. exists t'. split; [done|]. by apply Hdel.
      * exists t0. split; [|done]. apply (list_elem_of_lookup_2 _ j). by rewrite list_lookup_insert_ne.
  - intros t0 (j & Hj)%list_elem_of_lookup. destruct (Hlook j t0 Hj) as [[_ ->]|[Hne Hj']]; [done|].
    eapply thread_ok_step; [exact Hs|done|by eapply po_threads, list_elem_of_lookup_2|].
    intros h Ho Ho'. apply Hne. by eapply (po_owned _ _ Hp i j).
  - intros j1 j2 t1 t2 h H1 H2 Ho1 Ho2.
    assert (forall j t0, i <> j -> ts !! j = Some t0 -> owned t' = Some h -> owned t0 <> Some h) as Hdis.
    { intros j t0 Hne Hj Ho Ho0. destruct (Howned h Ho) as [Ho'|Hle].
      - apply Hne. by eapply (po_owned _ _ Hp i j).
      - destruct (thread_ok_owned p t0 h); [by eapply po_threads, list_elem_of_lookup_2|done|]. lia. }
    destruct (Hlook _ _ H1) as [[<- ->]|[Hn1 H1']], (Hlook _ _ H2) as [[<- ->]|[Hn2 H2']]; [done| | |].
    + by destruct (Hdis j2 t2).
    + by destruct (Hdis j1 t1).
    + by eapply (po_owned _ _ Hp).
Qed.

(** ** Every step is one of those *)

(** A step that neither stores, opens, closes nor deletes. *)
Lemma step_ok_same p p' t t' :
  p_stores p' = p_stores p -> p_next p' = p_next p -> p_open p' = p_open p ->
  p_connections p' = p_connections p -> thread_ok p' t' ->
  (forall h, owned t' = Some h -> owned t = Some h) -> (forall k h, ~ deleting t k h) ->
  step_ok p p' t t' [].
Proof.
  intros Hs Hn Ho Hc Hok Hown Hdel. split; rewrite ?Hs, ?Hn, ?Ho, ?Hc, ?app_nil_r; auto.
  intros k h _ _. split; [auto|]. intros H. by destruct (Hdel k h).
Qed.

Lemma step_ok_delete p t t' key :
  thread_ok (delete_key key p) t' -> (forall h, owned t' = Some h -> owned t = Some h) ->
  (forall k h, deleting t k h -> k = key) -> step_ok p (delete_key key p) t t' [].
Proof.
  intros Hok Hown Hdel. split; cbn; rewrite ?app_nil_r; auto.
  - intros k h [_ Hk]%lookup_delete_Some. by left.
  - intros k h [Hne _]%lookup_delete_Some _. split; [auto|]. intros Hd. by apply Hdel in Hd.
Qed.

Lemma step_ok_close p t t' h0 :
  thread_ok (close_handle h0 p) t' -> (forall h, owned t' = Some h -> owned t = Some h) ->
  (forall k h, ~ deleting t k h) -> owned t = Some h0 \/ stored p h0 ->
  (forall k, p_connections p !! k = Some h0 -> deleting t' k h0) -> step_ok p (close_handle h0 p) t t' [].
Proof.
  intros Hok Hown Hdel Hh Hpool. split; cbn; rewrite ?app_nil_r; auto.
  - intros h Hin. left. set_solver.
  - intros h Hin. destruct (decide (h = h0)) as [->|Hne]; [by right|left]. set_solver.
  - intros k h Hk _. split; [|intros Hd; by destruct (Hdel k h)]. intros Hin.
    destruct (decide (h = h0)) as [->|Hne]; [right; by apply Hpool|left; set_solver].
Qed.

Lemma range_ok_Range p ts : pool_ok p ts -> range_ok p (Range p).
Proof. intros Hp k h Hk. by apply Hp. Qed.

Lemma next_visit_ok a r p v r' :
  next_visit a r p = Some (v, r') -> range_ok p r ->
  range_ok p r' /\ match v with Some (k, h) => (k, h) ∈ p_stores p | None => True end.
Proof.
  unfold next_visit. intros H Hr. destruct (an_visit a) as [[k h]|].
  - destruct (_ && _) eqn:Hb; [|done]. injection H as <- <-. split; [exact Hr|].
    apply andb_true_iff in Hb as [_ Hb]. unfold since_call in Hb.
    apply orb_true_iff in Hb as [Hb|Hb]; apply bool_decide_eq_true in Hb; [by apply Hr|].
    rewrite <-(take_drop (rg_stores r) (p_stores p)). apply elem_of_app. by right.
  - destruct (may_end r p); [|done]. by injection H as <- <-.
Qed.

Lemma ping_open a p h : ping a p h = None -> h ∈ p_open p.
Proof. unfold ping. by case_bool_decide. Qed.

(** What is seen at once, and the cases in which nothing happens. *)
Ltac plain := cbn; try done; try tauto; try (intros; by simplify_eq).
Ltac idle := apply step_ok_same; plain.

Lemma Get_step_ok a key info p ts pc p' pc' :
  pool_ok p ts -> thread_ok p (TGet key info pc) -> Get_step a key info p pc = Some (p', pc') ->
  exists new, step_ok p p' (TGet key info pc) (TGet key info pc') new.
Proof.
  intros Hp Hok H. destruct pc as [|h|h| | |h|h e|h|r]; cbn in Hok, H; simplify_eq;
    [exists []..|exists [(key, h)]].
  - destruct (p_connections p' !! key) as [h|] eqn:Hk; idle. by apply Hp.
  - idle.
  - destruct (ping a p' h); idle.
  - apply step_ok_delete; plain.
  - destruct (an_open a) as [e|]; simplify_eq; [idle|].
    assert (p_next p ∉ p_open p) as Hno by (intros Hin; pose proof (po_fresh _ _ Hp _ (or_introl Hin)); lia).
    assert (~ stored p (p_next p)) as Hns by (intros Hin; pose proof (po_fresh _ _ Hp _ (or_intror Hin)); lia).
    split; cbn; rewrite ?app_nil_r; auto.
    + intros h [->%elem_of_singleton| ?]%elem_of_union; [right; lia|by left].
    + intros h Hin. left. set_solver.
    + intros k h _ _. split; [|done]. intros Hin. left. set_solver.
    + split; [set_solver|]. split; [lia|done].
    + intros h [= <-]. by right.
  - destruct (ping a p' h); idle.
  - apply step_ok_close; plain. intros k Hk. destruct Hok as [_ []].
    eapply stored_intro. by apply Hp.
  - destruct Hok as (Ho & Hn & Hns). split; cbn; auto.
    + right. eauto.
    + intros k h' [[<- <-]|[_ Hk]]%lookup_insert_Some; [right|by left]. split; [left|done].
    + done.
Qed.

Lemma Remove_step_ok key p ts pc p' pc' :
  pool_ok p ts -> thread_ok p (TRemove key pc) -> Remove_step key p pc = Some (p', pc') ->
  step_ok p p' (TRemove key pc) (TRemove key pc') [].
Proof.
  intros Hp Hok H. destruct pc as [|h|h|]; cbn in Hok, H; simplify_eq.
  - destruct (p_connections p' !! key) as [h|] eqn:Hk; idle. by apply Hp.
  - apply step_ok_close; plain; [right; by eapply stored_intro|]. intros k Hk. cbn. split; [|done].
    eapply stored_key; [apply Hp| |done]. by apply Hp.
  - apply step_ok_delete; plain.
Qed.

Lemma Close_step_ok a p ts pc p' pc' :
  pool_ok p ts -> thread_ok p (TClose pc) -> Close_step a p pc = Some (p', pc') ->
  step_ok p p' (TClose pc) (TClose pc') [].
Proof.
  intros Hp Hok H. destruct pc as [|r|r k h|r k h|]; cbn in Hok, H; simplify_eq.
  - destruct (p_closed p); simplify_eq; [idle|].
    idle. intros k h Hk. by apply Hp.
  - destruct (next_visit a r p) as [[v r']|] eqn:Hv; [|done]. cbn in H. simplify_eq.
    destruct (next_visit_ok _ _ _ _ _ Hv Hok) as [Hr Hin].
    destruct v as [[k h]|]; idle.
  - destruct Hok as [Hr Hin]. apply step_ok_close; plain; [right; by eapply stored_intro|].
    intros k' Hk. cbn. split; [|done]. eapply stored_key; [apply Hp| |done]. by apply Hp.
  - destruct Hok as [Hr Hin]. apply step_ok_delete; plain.
Qed.


(** The two passes of the health checker differ only in when they drop a connection. *)
Definition check_effect (pc : check_pc) (p : Pool) : Pool :=
  match pc with
  | CheckRange _ | CheckPing _ _ _ => p
  | CheckDelete _ k _ => delete_key k p
  | CheckClose _ _ h => close_handle h p
  end.

Lemma check_next_ok a p pc p' o :
  healthCheck_step a p pc = Some (p', o) \/ cleanup_step a p pc = Some (p', o) -> check_ok p pc ->
  p' = check_effect pc p /\ match o with Some pc' => check_ok p' pc' | None => True end.
Proof.
  intros Hs Hok. destruct pc as [r|r k h|r k h|r k h]; cbn in Hs, Hok |- *.
  - destruct (next_visit a r p) as [[v r']|] eqn:Hv; [|by destruct Hs].
    destruct (next_visit_ok _ _ _ _ _ Hv Hok) as [Hr Hin].
    destruct Hs; simplify_eq/=; by destruct v as [[k h]|].
  - destruct Hs; simplify_eq/=; [destruct (ping _ _ _)|destruct (stale _ _ _)]; cbn; tauto.
  - destruct Hs; simplify_eq/=; rewrite lookup_delete_eq; by destruct_and?.
  - destruct Hs; simplify_eq/=; tauto.
Qed.

Lemma check_effect_ok p ts t t' pc :
  pool_ok p ts -> check_ok p pc -> (forall k h, ~ deleting t k h) -> owned t' = None ->
  thread_ok (check_effect pc p) t' -> step_ok p (check_effect pc p) t t' [].
Proof.
  intros Hp Hok Hdel Hown Hok'. destruct pc as [r|r k h|r k h|r k h]; cbn in Hok, Hok' |- *.
  - idle.
  - idle.
  - apply step_ok_delete; plain. intros k' h' Hd. by destruct (Hdel k' h').
  - destruct Hok as (Hr & Hin & Hne). apply step_ok_close; plain.
    + right. by eapply stored_intro.
    + intros k' Hk. destruct Hne. rewrite (stored_key p k k' h); [done|apply Hp|done|by apply Hp].
Qed.

Lemma checker_step_ok a p ts pc p' pc' :
  pool_ok p ts -> thread_ok p (TChecker pc) -> checker_step a p pc = Some (p', pc') ->
  step_ok p p' (TChecker pc) (TChecker pc') [].
Proof.
  intros Hp Hok H. destruct pc as [|pc|pc|]; cbn in H, Hok; [| | |done].
  - destruct (an_tick a), (p_closed p); simplify_eq; idle; intros k h Hk; by apply Hp.
  - destruct (healthCheck_step a p pc) as [[q o]|] eqn:Hs; cbn in H; simplify_eq.
    destruct (check_next_ok a p pc p' o) as [-> Ho]; [by left|done|].
    apply (check_effect_ok p ts); plain; destruct o; plain.
    intros k h Hk. destruct pc; cbn in Hs; simplify_eq/=. by apply Hp.
  - destruct (cleanup_step a p pc) as [[q o]|] eqn:Hs; cbn in H; simplify_eq.
    destruct (check_next_ok a p pc p' o) as [-> Ho]; [by right|done|].
    apply (check_effect_ok p ts); plain; destruct o; plain.
Qed.

Lemma thread_step_ok a p ts t p' t' :
  pool_ok p ts -> t ∈ ts -> thread_step a p t = Some (p', t') -> exists new, step_ok p p' t t' new.
Proof.
  intros Hp Ht H. pose proof (po_threads _ _ Hp t Ht) as Hok. destruct t as [key info pc|key pc|pc|pc]; cbn in H.
  - destruct (Get_step a key info p pc) as [[q pc']|] eqn:Hs; cbn in H; simplify_eq. by eapply Get_step_ok.
  - destruct (Remove_step key p pc) as [[q pc']|] eqn:Hs; cbn in H; simplify_eq.
    exists []. by eapply Remove_step_ok.
  - destruct (Close_step a p pc) as [[q pc']|] eqn:Hs; cbn in H; simplify_eq.
    exists []. by eapply Close_step_ok.
  - destruct (checker_step a p pc) as [[q pc']|] eqn:Hs; cbn in H; simplify_eq.
    exists []. by eapply checker_step_ok.
Qed.

Lemma pool_ok_call p ts t : called t -> pool_ok p ts -> pool_ok p (ts ++ [t]).
Proof.
  intros Hc [Hf Hn Hs Ho Ht Hw]. split; try done.
  - intros k h Hk. destruct (Ho k h Hk) as [?|(t0 & Hin & Hd)]; [by left|right].
    exists t0. split; [|done]. apply elem_of_app. by left.
  - intros t0 [?|Heq%list_elem_of_singleton]%elem_of_app; [by apply Ht|]. subst. by destruct Hc.
  - intros i j t1 t2 h [H1|[_ H1]]%lookup_app_Some [H2|[_ H2]]%lookup_app_Some Ho1 Ho2; [by eapply Hw|..];
      repeat match goal with H : [t] !! _ = Some _ |- _ => apply list_lookup_singleton_Some in H as [_ <-] end;
      by destruct Hc.
Qed.

Lemma pool_step_ok w w' : pool_step w w' -> pool_ok w.1 w.2 -> pool_ok w'.1 w'.2.
Proof.
  intros [p ts i t a p' t' Ht Hs|p ts t Hc] Hp; cbn in *; [|by apply pool_ok_call].
  destruct (thread_step_ok a p ts t p' t') as [new Hok]; [done|by eapply list_elem_of_lookup_2|done|].
  by eapply pool_ok_step.
Qed.

Lemma new_pool_ok config : pool_ok (new_pool config).1 (new_pool config).2.
Proof.
  split; cbn.
  - unfold stored. cbn. intros h [H|H]; [set_solver|by apply not_elem_of_nil in H].
  - constructor.
  - done.
  - done.
  - intros t Heq%list_elem_of_singleton. by subst.
  - intros i j t t' h [_ <-]%list_lookup_singleton_Some. done.
Qed.

Lemma pool_reachable config w : rtc pool_step (new_pool config) w -> pool_ok w.1 w.2.
Proof.
  intros Hr. generalize (new_pool_ok config). induction Hr; eauto using pool_step_ok.
Qed.

(** ** Leaks *)

(** The call of [Range] may still visit the handle. *)
Definition in_range (p : Pool) (h : nat) (r : range) : Prop := exists k, since_call r p k h = true.

(** The goroutine may still close the handle: it holds it, or may come to it. *)
Definition check_may_close (p : Pool) (h : nat) (pc : check_pc) : Prop :=
  match pc with
  | CheckRange r => in_range p h r
  | CheckPing r _ h' | CheckDelete r _ h' | CheckClose r _ h' => h = h' \/ in_range p h r
  end.
Definition may_close (p : Pool) (h : nat) (t : thread) : Prop :=
  match t with
  | TRemove _ (RemoveClose h') => h = h'
  | TClose (CloseRange r) | TClose (CloseDelete r _ _) => in_range p h r
  | TClose (CloseClose r _ h') => h = h' \/ in_range p h r
  | TChecker (CheckerHealth pc) | TChecker (CheckerCleanup pc) => check_may_close p h pc
  | _ => False
  end.

(** An open handle that was pooled once, that no key leads to and no goroutine will close. *)
Record leaked (h : nat) (p : Pool) (ts : list thread) : Prop := {
  lk_open : h ∈ p_open p;
  lk_stored : stored p h;
  lk_gone k : p_connections p !! k <> Some h;
  lk_lost t : t ∈ ts -> ~ may_close p h t;
}.

Lemma in_range_app p p' h new r :
  p_stores p' = p_stores p ++ new -> h ∉ new.*2 -> in_range p' h r -> in_range p h r.
Proof.
  intros Hs Hnew [k Hk]. exists k. unfold since_call in *. rewrite Hs in Hk.
  apply orb_true_iff in Hk as [Hk|Hk]; apply orb_true_iff; [by left|right].
  apply bool_decide_eq_true in Hk. apply bool_decide_eq_true.
  rewrite drop_app in Hk. apply elem_of_app in Hk as [?|Hk]; [done|]. destruct Hnew.
  apply list_elem_of_fmap. exists (k, h). split; [done|].
  by rewrite <-(take_drop (rg_stores r - length (p_stores p)) new), elem_of_app; right.
Qed.

Lemma in_range_Range p h : (forall k, p_connections p !! k <> Some h) -> ~ in_range p h (Range p).
Proof.
  intros Hg [k Hk]. unfold since_call in Hk. apply orb_true_iff in Hk as [Hk|Hk];
    apply bool_decide_eq_true in Hk; cbn in Hk; [by destruct (Hg k)|].
  rewrite drop_all in Hk. by apply not_elem_of_nil in Hk.
Qed.

Lemma next_visit_may_close a r p r' v h :
  next_visit a r p = Some (v, r') -> ~ in_range p h r ->
  ~ in_range p h r' /\ match v with Some (_, h') => h <> h' | None => True end.
Proof.
  unfold next_visit. intros H Hr. destruct (an_visit a) as [[k h']|].
  - destruct (_ && _) eqn:Hb; [|done]. injection H as <- <-. split; [exact Hr|].
    apply andb_true_iff in Hb as [_ Hb]. intros <-. apply Hr. by exists k.
  - destruct (may_end r p); [|done]. by injection H as <- <-.
Qed.

(** A goroutine that cannot close the handle does not, and does not come to be able to. *)
Lemma check_keeps a p h pc p' o :
  healthCheck_step a p pc = Some (p', o) \/ cleanup_step a p pc = Some (p', o) ->
  ~ check_may_close p h pc -> h ∈ p_open p ->
  h ∈ p_open p' /\ match o with Some pc' => ~ check_may_close p h pc' | None => True end.
Proof.
  intros Hs Hno Hin. destruct pc as [r|r k h'|r k h'|r k h']; cbn in Hs, Hno.
  - destruct (next_visit a r p) as [[v r']|] eqn:Hv; [|by destruct Hs].
    destruct (next_visit_may_close _ _ _ _ _ _ Hv Hno).
    destruct Hs; simplify_eq/=; (split; [done|]); destruct v as [[k h']|]; cbn; tauto.
  - destruct Hs; simplify_eq/=; (split; [done|]); [destruct (ping _ _ _)|destruct (stale _ _ _)]; cbn; tauto.
  - destruct Hs; simplify_eq/=; tauto.
  - destruct Hs; simplify_eq/=; (split; [set_solver|tauto]).
Qed.

Lemma thread_keeps a p ts t p' t' h :
  pool_ok p ts -> t ∈ ts -> thread_step a p t = Some (p', t') -> leaked h p ts ->
  h ∈ p_open p' /\ ~ may_close p h t'.
Proof.
  intros Hp Ht H [Hin Hst Hg Hl]. pose proof (Hl t Ht) as Hno. pose proof (po_threads _ _ Hp t Ht) as Hok.
  assert (~ in_range p h (Range p)) as Hnew by by apply in_range_Range.
  destruct t as [key info pc|key pc|pc|pc]; cbn in H, Hno, Hok.
  - destruct pc as [|h'|h'| | |h'|h' e|h'|r]; cbn in H; simplify_eq; cbn; try tauto.
    + destruct (an_open a); simplify_eq/=; (split; [set_solver|tauto]).
    + split; [|tauto]. apply elem_of_difference. split; [done|]. intros ->%elem_of_singleton. tauto.
  - destruct pc as [|h'|h'|]; cbn in H, Hno; simplify_eq; cbn; try tauto.
    + split; [done|]. destruct (p_connections p' !! key) as [h'|] eqn:Hk; cbn; [|tauto].
      intros <-. by destruct (Hg key).
    + split; [set_solver|tauto].
  - destruct pc as [|r|r k h'|r k h'|]; cbn in H, Hno; simplify_eq/=.
    + destruct (p_closed p); simplify_eq/=; tauto.
    + destruct (next_visit a r p) as [[v r']|] eqn:Hv; [|done].
      destruct (next_visit_may_close _ _ _ _ _ _ Hv Hno). simplify_eq/=.
      destruct v as [[k h']|]; cbn; tauto.
    + split; [set_solver|tauto].
    + tauto.
  - destruct pc as [|pc|pc|]; cbn in H, Hno; [| | |done].
    + destruct (an_tick a), (p_closed p); simplify_eq/=; tauto.
    + destruct (healthCheck_step a p pc) as [[q o]|] eqn:Hs; simplify_eq/=.
      destruct (check_keeps a p h pc p' o) as [? Hc]; [by left|done|done|].
      split; [done|]. destruct o; cbn; [done|]. destruct pc; cbn in Hs; simplify_eq/=; try done.
      by destruct (next_visit a r p) as [[[[]|]]|]; simplify_eq/=.
    + destruct (cleanup_step a p pc) as [[q o]|] eqn:Hs; simplify_eq/=.
      destruct (check_keeps a p h pc p' o) as [? Hc]; [by right|done|done|].
      split; [done|]. destruct o; cbn; tauto.
Qed.

Lemma may_close_app p p' h new t :
  p_stores p' = p_stores p ++ new -> h ∉ new.*2 -> may_close p' h t -> may_close p h t.
Proof.
  intros Hs Hnew. pose proof (fun r => in_range_app p p' h new r Hs Hnew).
  destruct t as [key info pc|key []|[]|[|[]|[]|]]; cbn; naive_solver.
Qed.

Lemma leaked_step h w w' :
  pool_step w w' -> pool_ok w.1 w.2 -> leaked h w.1 w.2 -> leaked h w'.1 w'.2.
Proof.
  intros [p ts i t a p' t' Ht Hs|p ts t Hc] Hp Hl; cbn in *; destruct Hl as [Hin Hst Hg Hn].
  - assert (t ∈ ts) as Hint by by eapply list_elem_of_lookup_2.
    destruct (thread_step_ok a p ts t p' t' Hp Hint Hs) as [new Hok].
    destruct (thread_keeps a p ts t p' t' h Hp Hint Hs) as [Hin' Hno']; [by split|].
    assert (h ∉ new.*2) as Hnew.
    { intros Hh. apply list_elem_of_fmap in Hh as ([k h'] & -> & Hh).
      destruct (so_new _ _ _ _ _ Hok) as [->|(k' & h'' & -> & Ho)]; [by apply not_elem_of_nil in Hh|].
      apply list_elem_of_singleton in Hh as [= <- <-].
      destruct (thread_ok_owned p t h'); [by apply (po_threads _ _ Hp)|done|done]. }
    pose proof (so_stores _ _ _ _ _ Hok) as Hstores. split; [done| | |].
    + unfold stored. rewrite Hstores, fmap_app, elem_of_app. by left.
    + intros k Hk. destruct (so_conn _ _ _ _ _ Hok k h Hk) as [Hk'|[Hk' _]]; [by destruct (Hg k)|].
      destruct Hnew. apply list_elem_of_fmap. by exists (k, h).
    + intros t0 (j & Hj)%list_elem_of_lookup Hmay. apply (may_close_app p p' h new) in Hmay; [|done..].
      apply list_lookup_insert_Some in Hj as [(_ & <- & _)|[_ Hj]]; [done|].
      eapply Hn; [by eapply list_elem_of_lookup_2|done].
  - split; try done. intros t0 [?|Heq%list_elem_of_singleton]%elem_of_app; [by apply Hn|].
    subst. destruct Hc; cbn; tauto.
Qed.

Lemma leaked_for_good h w w' :
  rtc pool_step w w' -> pool_ok w.1 w.2 -> leaked h w.1 w.2 -> leaked h w'.1 w'.2.
Proof. induction 1; eauto using pool_step_ok, leaked_step. Qed.

Lemma schedule_steps l w w' : schedule l w = Some w' -> rtc pool_step w w'.
Proof.
  revert w. induction l as [|[i a] l IH]; intros w H; cbn in H; [by simplify_eq|].
  destruct (w.2 !! i) as [t|] eqn:Ht; [|done]. cbn in H.
  destruct (thread_step a w.1 t) as [[p t']|] eqn:Hs; [|done]. cbn in H.
  eapply rtc_l; [|by apply IH]. destruct w. by eapply step_run.
Qed.

(** ** Theorems *)

(** C29: In every state that any interleaving of [Get], [Remove], [Close] and the health
    checker can reach, each of their map operations and calls on a handle a step of its own: no
    two keys lead to one handle; a handle that a key leads to is open, unless a [Remove] or
    [Close] has closed it and is just about to delete that key; when [Get] returns a handle, the
    handle is open at that moment, and it is one that was stored under its key before and has just
    answered a ping, or a new one that has just been stored under the key; and when [Get] fails it
    leaves no handle open of those it opened. (The handle that [Get] returned may be closed by the
    health checker, [Remove] or [Close] at any time after, since they do not know who uses it.) *)
Theorem Pool_Get_open config p ts :
  rtc pool_step (new_pool config) (p, ts) ->
  (forall k1 k2 h, p_connections p !! k1 = Some h -> p_connections p !! k2 = Some h -> k1 = k2) /\
  (forall k h, p_connections p !! k = Some h ->
     h ∈ p_open p \/ exists t, t ∈ ts /\ deleting t k h) /\
  (forall a key info pc p' r, TGet key info pc ∈ ts ->
     Get_step a key info p pc = Some (p', GetReturned r) ->
     match r with
     | Ok h => h ∈ p_open p' /\
         (pc = GetPing h /\ an_ping a = None /\ (key, h) ∈ p_stores p' \/
          pc = GetStore h /\ p_connections p' !! key = Some h)
     | Err _ => pc = GetOpen /\ p' = p \/ exists h e, pc = GetCloseNew h e /\ h ∉ p_open p'
     end).
Proof.
  intros Hr. pose proof (pool_reachable config (p, ts) Hr) as Hp. cbn in Hp. split; [|split].
  - intros k1 k2 h H1 H2. eapply stored_key; [apply Hp|by apply Hp..].
  - apply Hp.
  - intros a key info pc p' r Ht H. pose proof (po_threads _ _ Hp _ Ht) as Hok.
    destruct pc as [|h|h| | |h|h e|h|r']; cbn in H, Hok; simplify_eq.
    + by destruct (p_connections p' !! key).
    + destruct (ping a p' h) eqn:Hping; [done|]. simplify_eq.
      pose proof (ping_open _ _ _ Hping). split; [done|]. left. split; [done|]. split; [|done].
      revert Hping. unfold ping. by case_bool_decide.
    + destruct (an_open a); simplify_eq. by left.
    + by destruct (ping a p' h).
    + right. exists h, e. split; [done|]. cbn. set_solver.
    + split; [apply Hok|]. right. split; [done|]. cbn. by rewrite lookup_insert_eq.
Qed.

(** When the pooled handle of a key does not answer, [Get] deletes the key and does not close the
    handle: when no other goroutine is about to close it, it stays open whatever the pool does
    afterwards, [Remove], the health checker and [Close] included, and no key leads to it. *)
Theorem Pool_Get_leaks config p ts i key info h w' :
  rtc pool_step (new_pool config) (p, ts) ->
  ts !! i = Some (TGet key info GetDelete) -> p_connections p !! key = Some h -> h ∈ p_open p ->
  (forall t, t ∈ ts -> ~ may_close p h t) ->
  rtc pool_step (delete_key key p, <[i := TGet key info GetOpen]> ts) w' ->
  leaked h w'.1 w'.2.
Proof.
  intros Hr Ht Hk Hin Hno Hr'. pose proof (pool_reachable config (p, ts) Hr) as Hp. cbn in Hp.
  assert (pool_step (p, ts) (delete_key key p, <[i := TGet key info GetOpen]> ts)) as Hs
    by (by apply (step_run p ts i (TGet key info GetDelete) {| an_now := 0; an_ping := None; an_open := None; an_visit := None; an_tick := false |})).
  apply (leaked_for_good h _ _ Hr'); [by apply (pool_step_ok _ _ Hs)|]. cbn. split; [done| | |].
  - by eapply stored_intro, Hp.
  - intros k Hk'. cbn in Hk'. apply lookup_delete_Some in Hk' as [Hne Hk']. apply Hne. eapply stored_key; [apply Hp|by apply Hp..].
  - intros t (j & Hj)%list_elem_of_lookup Hmay.
    apply (may_close_app p _ h []) in Hmay; [|cbn; by rewrite app_nil_r|apply not_elem_of_nil].
    apply list_lookup_insert_Some in Hj as [(_ & <- & _)|[_ Hj]]; [done|].
    eapply Hno; [by eapply list_elem_of_lookup_2|done].
Qed.

(** The connection data, the credentials included, do not matter until a handle is stored. *)
Lemma Pool_Get_ignores_credentials a key info info' p pc :
  (forall h, pc <> GetStore h) -> Get_step a key info p pc = Get_step a key info' p pc.
Proof. destruct pc; try done. intros H. by destruct (H h). Qed.

(** ** Examples and witnesses *)

Definition sample_key : ConnectionKey :=
  {| ck_Namespace := "default"; ck_Name := "rw"; ck_UID := "u" |}.
Definition sample_info : ConnectionInfo := DefaultConnectionInfo "host" 4567 "root" "".
Definition sample_get : thread := TGet sample_key sample_info GetLoad.
Definition sample_remove : thread := TRemove sample_key RemoveLoad.
Definition up : answer :=
  {| an_now := 0; an_ping := None; an_open := None; an_visit := None; an_tick := false |}.
Definition down : answer :=
  {| an_now := 0; an_ping := Some (plain_error "refused"); an_open := None; an_visit := None;
     an_tick := false |}.

(** Steps of one goroutine with an answer. *)
Definition steps (n i : nat) (a : answer) : list (nat * answer) := repeat (i, a) n.

(** The pool after calls and a schedule. *)
Definition run_pool (calls : list thread) (l : list (nat * answer)) : Pool * list thread :=
  default (new_pool None) (schedule l (NewPool None, (new_pool None).2 ++ calls)).

Lemma calls_steps p ts calls : Forall called calls -> rtc pool_step (p, ts) (p, ts ++ calls).
Proof.
  intros H. revert ts. induction H as [|t calls Ht _ IH]; intros ts; [by rewrite app_nil_r|].
  eapply rtc_l; [by apply (step_call p ts t)|]. change (t :: calls) with ([t] ++ calls).
  rewrite app_assoc. apply IH.
Qed.

Lemma run_pool_reachable calls l :
  Forall called calls -> rtc pool_step (new_pool None) (run_pool calls l).
Proof.
  intros H. unfold run_pool.
  destruct (schedule l (NewPool None, (new_pool None).2 ++ calls)) as [w|] eqn:Hs; cbn [default]; [|apply rtc_refl].
  etrans; [by apply (calls_steps (NewPool None) (new_pool None).2 calls)|]. by eapply schedule_steps.
Qed.

(** Nothing that may close a handle. *)
Definition harmless (t : thread) : bool :=
  match t with
  | TGet _ _ _ => true
  | TRemove _ pc => match pc with RemoveClose _ => false | _ => true end
  | TClose pc => match pc with CloseOnce | CloseReturned => true | _ => false end
  | TChecker pc => match pc with CheckerSelect | CheckerReturned => true | _ => false end
  end.
Definition leaks (h : nat) (w : Pool * list thread) : bool :=
  bool_decide (h ∈ p_open w.1) && bool_decide (h ∈ (p_stores w.1).*2) &&
  bool_decide (map_Forall (fun _ h' => h' <> h) (p_connections w.1)) && forallb harmless w.2.

Lemma harmless_sound p h t : harmless t = true -> ~ may_close p h t.
Proof. by destruct t as [key info pc|key []|[]|[]]; cbn; intros H; try discriminate H; intros []. Qed.

Lemma leaks_sound h w : leaks h w = true -> leaked h w.1 w.2.
Proof.
  unfold leaks. rewrite !andb_true_iff, !bool_decide_eq_true. intros [[[Ho Hs] Hc] Ht]. split; [done..| |].
  - intros k Hk. by apply (Hc k h Hk).
  - intros t Hin. apply harmless_sound. rewrite forallb_forall in Ht. apply Ht. by apply list_elem_of_In.
Qed.

(** Two calls of [Get] for one key that both find nothing: the handle of the first is lost. *)
Lemma concurrent_create_leaks :
  let w := run_pool [sample_get; sample_get] (steps 3 1 up ++ steps 3 2 up ++ steps 1 1 up ++ steps 1 2 up) in
  p_connections w.1 !! sample_key = Some 1 /\ leaked 0 w.1 w.2.
Proof. split; [vm_compute; reflexivity|]. apply leaks_sound. vm_compute. reflexivity. Qed.

(** A [Remove] that has loaded a connection deletes the newer one that a [Get] has stored and
    returned in between: that handle is lost as well. *)
Lemma late_remove_leaks :
  let w := run_pool [sample_get; sample_remove; sample_get]
    (steps 4 1 up ++ steps 1 2 up ++ steps 3 3 down ++ steps 4 3 up ++ steps 2 2 up) in
  p_connections w.1 !! sample_key = None /\ leaked 1 w.1 w.2 /\
  w.2 !! 3 = Some (TGet sample_key sample_info (GetReturned (Ok 1))).
Proof.
  split; [vm_compute; reflexivity|]. split; [|vm_compute; reflexivity].
  apply leaks_sound. vm_compute. reflexivity.
Qed.

(** The health checker closes the handle that a [Get] has just pinged and then returns. *)
Definition visit : answer :=
  {| an_now := 601; an_ping := None; an_open := None; an_visit := Some (sample_key, 0); an_tick := true |}.
Definition pinged_then_closed : Pool * list thread :=
  run_pool [sample_get; sample_get]
    (steps 4 1 up ++ steps 1 2 up ++ [(0, visit); (0, visit); (0, visit); (0, up); (0, visit); (0, visit)] ++
     steps 2 2 up ++ steps 2 0 up).
Lemma Get_then_closed :
  pinged_then_closed.2 !! 2 = Some (TGet sample_key sample_info (GetReturned (Ok 0))) /\
  bool_decide (0 ∈ p_open pinged_then_closed.1) = false.
Proof. split; vm_compute; reflexivity. Qed.

(** A [Get] about to store its handle while another has stored one, a third about to ping that
    and a [Remove] about to close it. *)
Definition sample_world : Pool * list thread :=
  run_pool [sample_get; sample_get; sample_get; sample_remove]
    (steps 3 1 up ++ steps 4 2 up ++ steps 2 3 up ++ steps 1 4 up).

Lemma sample_reachable : rtc pool_step (new_pool None) (sample_world.1, sample_world.2).
Proof.
  rewrite <-surjective_pairing. apply run_pool_reachable. repeat constructor.
Qed.

Lemma Pool_Get_open_witness :
  p_connections sample_world.1 !! sample_key = Some 1 /\
  Get_step up sample_key sample_info sample_world.1 (GetPing 1) =
    Some (sample_world.1, GetReturned (Ok 1)) /\
  1 ∈ p_open sample_world.1.
Proof.
  assert (Get_step up sample_key sample_info sample_world.1 (GetPing 1) =
    Some (sample_world.1, GetReturned (Ok 1))) as Hs by (vm_compute; reflexivity).
  assert (TGet sample_key sample_info (GetPing 1) ∈ sample_world.2) as Hin
    by (apply (list_elem_of_lookup_2 _ 3); vm_compute; reflexivity).
  split; [vm_compute; reflexivity|]. split; [exact Hs|].
  exact (proj1 (proj2 (proj2 (Pool_Get_open None sample_world.1 sample_world.2 sample_reachable))
    up sample_key sample_info (GetPing 1) sample_world.1 (Ok 1) Hin Hs)).
Defined.

(** A [Get] that has found its handle dead. *)
Definition dead_world : Pool * list thread :=
  run_pool [sample_get; sample_get; TClose CloseOnce] (steps 4 1 up ++ steps 3 2 down).

Lemma Pool_Get_leaks_witness :
  leaked 0 (delete_key sample_key dead_world.1)
    (<[2 := TGet sample_key sample_info GetOpen]> dead_world.2).
Proof.
  apply (Pool_Get_leaks None dead_world.1 dead_world.2 2 sample_key sample_info 0
    (delete_key sample_key dead_world.1, <[2 := TGet sample_key sample_info GetOpen]> dead_world.2)).
  - rewrite <-surjective_pairing. apply run_pool_reachable. repeat constructor.
  - vm_compute. reflexivity.
  - vm_compute. reflexivity.
  - refine (proj1 (bool_decide_eq_true (0 ∈ p_open dead_world.1)) _). vm_compute. reflexivity.
  - intros t Hin. apply harmless_sound.
    assert (forallb harmless dead_world.2 = true) as Ht by (vm_compute; reflexivity).
    rewrite forallb_forall in Ht. apply Ht. by apply list_elem_of_In.
  - apply rtc_refl.
Defined.
